(* ===== verification/_CoqProject ===== *)
-Q . S2P
Prelude.v
Float32.v
FloatValid.v
Common.v
Gcode.v
Udd.v
UdiCdc.v
Udc.v
Requests.v
MainLoop.v
Nvm.v
Flash.v
HostCommands.v
Eeprom.v
Stepper.v
Bed.v
Motors.v
Movement.v
SavedState.v
Heater.v
Homing.v
Twi.v
Accelerometer.v
Commands.v
Firmware.v
HostGcode.v
Rom.v
Manager.v
Connection.v
Settings.v
Window.v
CommandLine.v
Bin2h.v
Clock.v
Timer.v
Converter.v
