(* ===== verification/Prelude.v ===== *)
(** * Verification of iMe, the firmware of the Micro 3D printer, and of M33 Manager

    iMe is the firmware of a small 3D printer: a microcontroller that receives
    G-code over USB, moves four stepper motors, heats and cools, and keeps its
    settings in an EEPROM. M33 Manager is the desktop program of the same repository
    that installs it. This library models the firmware's own code (the C++ files at
    the top of src/), the parts of the vendor's framework that it runs on
    (src/src/ASF): the USB device stack, the memory controller's driver, the two-wire
    master, clocks, timers and the analogue converter, and M33 Manager: its G-code and
    printer classes, its tasks, its command line for Linux and the tool that embeds
    files in it. The build that is modelled is the default one of the Makefile: debug
    and useless commands off, constants in memory, the extruder's current not
    regulated, all compensations on. The host commands, which the default build leaves
    out, are modelled in a file of their own as the option ENABLE_HOST_COMMANDS
    compiles them.

    ** How the parts interact

    A packet from the host raises an interrupt of the USB driver (Udd), which ends a
    job of the serial interface (UdiCdc) and calls the receive callback (Requests).
    The callback appends the packet to the text of a request, and every complete
    line is parsed (Gcode) into a slot of a ring of fifteen requests, or raises an
    emergency stop. The main program (MainLoop) takes the requests in order, checks
    line numbers, runs the command (Commands), builds the response in place and sends
    it through the serial interface, whose two transmit buffers are emptied by
    start-of-frame events. A movement (Motors) is computed in floating point
    (Float32), kept within the printable region and adjusted to the bed (Bed), and
    carried out by the interrupt of the step timer (Stepper). Homing and the search
    for the bed (Homing) move until the accelerometer (Accelerometer, on the bus
    driver Twi) feels a jerk. A timer reads the temperature and switches the heater
    (Heater). Settings and the last position are in the EEPROM (Eeprom, on the driver
    Nvm). Host commands read the other memories of the chip (HostCommands, on the
    driver Flash). Clock, Timer and Converter are the drivers below the timers of the
    fan, the heater and the motors and below the heater's measurements. On the other
    side of the cable M33 Manager finds and opens the port (Connection), writes the
    commands (HostGcode), prepares the images that it installs (Rom), and sends them
    and the settings (Settings) to the boot loader (Manager). Its window hands this
    work to a second thread (Window); its command line (CommandLine) does it directly.
    The images inside the program come from the tool Bin2h.

    ** Files

    - Prelude: machine integers, memory as lists, strings, the state and option
      monad [M] for code with undefined behaviour ([None]), tactics for it, and the
      properties of a computation by its structure: [Keeps] a part of the state,
      [Maintains] an invariant, [Total] where an invariant holds.
    - Float32, FloatValid: binary32 on the Standard Library's executable
      specification; comparisons are a total order, and every operation returns a
      value of the format.
    - Common (common.cpp, common.h): conversions between numbers and text over byte
      buffers, clamping, the interruptible delay.
    - Gcode (gcode.cpp, gcode.h): the parser, [parseCommand], with its checksum.
    - Udd (usb_device.c): the endpoint table, jobs and their cache, the control
      endpoint and both interrupt handlers; the registers are fields of a record.
    - UdiCdc (udi_cdc.c and [sendDataToUsb]): the serial port with its buffers; a
      polling loop takes what the interrupts do between two polls as a parameter.
    - Udc (udc.c, udi_cdc_desc.c): standard and interface requests over the
      descriptors of this device.
    - Requests (main.cpp, [cdcRxNotifyCallback]): the ring of requests.
    - MainLoop (main.cpp, [main]): the loop cut at the points where interrupts
      matter, the line-number protocol, responses, the wait timer. What a command
      does is behind the class [Machine], with its laws [MachineLaws].
    - Nvm (nvm.c): the EEPROM operations on a memory controller that is an interface
      (class [Controller] with the documented [ControllerLaws]).
    - Flash (nvm.c, crc.c): program memory through its page buffer, signature rows,
      fuses, and the check module, on the interface [FlashController].
    - HostCommands (main.cpp): the commands behind an at sign.
    - Eeprom (eeprom.h): the layout of the settings and accesses to them.
    - Stepper, Bed, Motors (motors.cpp, vector.cpp): the step timer; vectors,
      planes, tiers and boundaries; the state of the motors and all movements.
    - Movement, SavedState: the properties of movements and of the saved state.
    - Heater (heater.cpp, fan.cpp, led.cpp): the heater with the callback of its
      timer and the wait for a temperature; fan and LED.
    - Homing (motors.cpp): homing of X and Y, the search for the bed and its
      calibration, over an interface of the accelerometer.
    - Twi (twim.c, twi_master.h): the interrupt-driven master of the two-wire bus.
    - Accelerometer (accelerometer.cpp): its set-up and averaged readings.
    - Commands (main.cpp): the M, G and T commands, the set-up at power on and the
      reset; the printer's state and its surroundings as one record.
    - Firmware: the main loop with these commands in place of its interface.
    - HostGcode (M33 Manager/gcode.cpp): commands as text and in the binary form.
    - Rom (M33 Manager/printer.cpp): tables, check, preparation and pages of an image.
    - Manager (M33 Manager/printer.cpp): requests and responses over a serial port
      that is an interface, the EEPROM commands of the boot loader, the checks of the
      settings, the installation of a firmware.
    - Connection (M33 Manager/printer.cpp): the list of ports, the search, connecting
      and connecting again, over the operating system as an interface ([System]); it
      implements the port that Manager uses.
    - Settings (M33 Manager/printer.cpp, gui.cpp, common.cpp): settings by name, how
      they are shown and saved, feed rates.
    - Window (M33 Manager/gui.cpp): the queues between the window and its thread as a
      transition system ([Queue]), and the tasks on the printer ([Tasks]).
    - CommandLine (M33 Manager/main.cpp): the options, drivers, installation, modes and
      the manual mode, over the interface [Desktop].
    - Bin2h (M33 Manager/bin2h.cpp): a file as the text of a C array.
    - Clock (sysclk.c, sysclk.h, osc.h): the start of the system clock, frequencies,
      and the clock gates of the peripherals.
    - Timer (tc.c, tc.h): the driver of the timer counters, and the timers of fan.cpp,
      heater.cpp and motors.cpp as they are set up.
    - Converter (adc.c, adc.h, adc_bcd.c): the driver of the analogue converter, and the
      measuring code of heater.cpp over it.

    ** State and interrupts

    A class or file with global variables is a record with one field per variable;
    a function that changes it is a computation in [M] or a function on the record.
    The main loop and its interrupts are steps of a relation (MainLoop), so that
    its theorems hold for every interleaving. In a movement, interrupts other than
    the step timer matter only through the emergency stop; the field [polls] of
    [Motors] tells after how many more timer periods it comes, if it comes. What the
    surroundings do (measured temperatures, accelerations, responses on the bus and
    on the serial port) is a parameter or an interface of the definition that uses
    it. In M33 Manager the record also keeps every byte that was sent. Registers of the
    clock, timer and converter drivers are words at symbolic addresses; the writes of
    the clock's start are also kept in their order.

    ** What the theorems show

    - Firmware: from power on with any EEPROM, no command and no interleaving gets
      stuck, and settings, temperature and timer values keep their ranges; a reset
      turns everything off; settings are read back as written; extrusion needs heat.
    - Main loop: an invariant of all reachable states and that no step is stuck;
      every request is answered once, in order, with the specified text; an
      emergency stop discards exactly the requests before it; numbered commands are
      acknowledged once each; the idle printer turns itself off.
    - Requests: the callback implements a bounded queue; one command per line, and
      the exception that an empty line causes.
    - Parser: a line of words is parsed into exactly these words; the checksum flag
      is exact; parsing ends but for one input shape, for which it does not.
    - USB: transfers in jobs are complete, in order and in bounds; the transmit
      buffers implement a queue; reception continues; control reads are answered
      from the descriptors.
    - Text: numbers are printed within their buffers and read back.
    - EEPROM: what is written is read back and nothing else changes; settings do not
      overlap; floats survive bit for bit; the driver implements this.
    - Movements: exact numbers of steps and timer periods; every wait ends; the
      position afterwards; refused movements have no effect; backlash compensation
      and segments; boundaries hold for the height that the bed gives; the saved
      state is restored, and the save timer saves all of it.
    - Heater: the timer's callback leaves the heater on only when it may be; a wait
      ends at its temperature. Homing ends for every accelerometer and leaves the
      extruder in the center. The interrupt-driven transfers of the bus do what a
      direct sequence of bus operations does; readings are averages.
    - M33 Manager: commands written as text are understood by the firmware's parser;
      text and binary forms are read back; the checksums detect changed bytes and
      the table-driven check is the standard one; the pages that are sent are the
      image that is checked; a reported installation was verified by the chip;
      settings are within their ranges after their check. The search tries
      every port once until a printer answers; tasks run one at a time, in order, each between its own callbacks,
      and all of them end; the command line reports an installation only when there was
      one; the array that Bin2h writes is the file. Errors in this program, as
      theorems: long lines, large files and long names, a fan's update that succeeds, a
      late response, many arguments.
    - Memories: pages of program memory are written and read back and nothing else
      changes; host commands send texts from which the contents of the memories, and the
      checks that the hardware computes over them, can be read.
    - Clocks, timers, converter: the processor's clock keeps running while its source
      changes, and runs at the frequency that the firmware computes with; the gates are
      a set of running peripherals; the timers count the periods that their users need;
      a configuration is read back as built; the heater's measurements are those that
      the model of the heater takes. Where the driver does otherwise is a theorem too.

    ** Bounds and fuel

    Loops whose end is not structural take fuel, and the fuel is shown to be enough
    where the loop ends: the digits of a number (20), the parser (the length of the
    line), the tiers (3), the segments (their number), the wait for the motors and
    the loops of homing (the longest movement), pages and bytes of the EEPROM (the
    length), a transfer on the bus (its bytes), loops with an eight-bit or
    sixteen-bit index in M33 Manager (257, the length of the file). Polling loops of
    the USB stack may not end, and their theorems are for those that do; a response
    to M33 Manager is followed for 1024 characters, more than any has. The wait for an
    oscillator and for a conversion end when the hardware sets the flag after a given
    number of polls, for every fuel above this number. That a loop does not end on some
    input is a theorem for every fuel.

    ** Not modelled

    - The interrupts of the save timer and of the temperature timer between the
      steps of one command; they are steps between commands.
    - Pins, the interrupt controller and the sleep manager: single accesses to
      registers. External oscillators and the multiplier of the clock service, and the
      waveform and high-resolution extensions of the timers, which nothing here uses.
    - The two-wire slave, which the build does not call, and the debug and useless
      commands, which it leaves out.
    - M33 Manager: its widgets and dialogs, its branches for Windows and macOS, its locks
      and its log; the operating system is an interface. *)

From Stdlib Require Export ZArith Lia Bool.
From stdpp Require Export base list numbers.
From stdpp Require Import strings.

#[global] Open Scope Z_scope.

Declare Scope fw_scope.
Delimit Scope fw_scope with fw.

(** ** Machine integers *)

(** Unsigned and signed wrap-around of the integer widths the firmware uses. *)
Definition u8 (x : Z) : Z := x mod 256.
Definition u16 (x : Z) : Z := x mod 65536.
Definition u32 (x : Z) : Z := x mod 4294967296.
Definition u64 (x : Z) : Z := x mod 18446744073709551616.
Definition s16 (x : Z) : Z := (x + 32768) mod 65536 - 32768.
Definition s32 (x : Z) : Z := (x + 2147483648) mod 4294967296 - 2147483648.
Definition s64 (x : Z) : Z := (x + 9223372036854775808) mod 18446744073709551616 - 9223372036854775808.

(** Signed 64-bit multiplication: an overflow is undefined. *)
Definition mul_s64 (a b : Z) : option Z :=
  if (-9223372036854775808 <=? a * b) && (a * b <? 9223372036854775808) then Some (a * b) else None.

(** [flag word mask] is the C condition [word & mask]. *)
Definition flag (word mask : Z) : bool := negb (Z.land word mask =? 0).

(** ** Memory

    A C array of bytes is a list of values; an access outside it is [None]. *)
Abbreviation len l := (Z.of_nat (length l)).

Definition load (m : list Z) (i : Z) : option Z :=
  if 0 <=? i then m !! Z.to_nat i else None.

Definition store (m : list Z) (i v : Z) : option (list Z) :=
  if (0 <=? i) && (i <? len m) then Some (<[Z.to_nat i := v]> m) else None.

(** [memmove(&m[dst], &m[src], n)] within one array. *)
Definition memmove (m : list Z) (dst src n : Z) : option (list Z) :=
  if (0 <=? dst) && (0 <=? src) && (0 <=? n) && (dst + n <=? len m) && (src + n <=? len m)
  then Some (take (Z.to_nat dst) m ++ take (Z.to_nat n) (drop (Z.to_nat src) m)
             ++ drop (Z.to_nat (dst + n)) m)
  else None.

(** [memcpy(&m[dst], data, n)] with [n] the length of [data]. *)
Definition blit (m : list Z) (dst : Z) (data : list Z) : option (list Z) :=
  if (0 <=? dst) && (dst + len data <=? len m)
  then Some (take (Z.to_nat dst) m ++ data ++ drop (Z.to_nat dst + length data) m)
  else None.

(** The C string that starts a buffer: everything before the first NUL. *)
Fixpoint cstr (m : list Z) : list Z :=
  match m with
  | [] => []
  | c :: t => if c =? 0 then [] else c :: cstr t
  end.

(** The number of leading characters that satisfy a predicate: a pointer
    loop [for(; p( *s); ++s);] advances by this much. *)
Fixpoint count_while (p : Z -> bool) (s : list Z) : nat :=
  match s with
  | [] => 0%nat
  | c :: t => if p c then S (count_while p t) else 0%nat
  end.

(** [*p] for a pointer given as the characters from it on; the list ends at
    the terminator of the string. *)
Definition deref (s : list Z) : Z := hd 0 s.
Definition deref1 (s : list Z) : Z := nth 1 s 0.
Definition deref2 (s : list Z) : Z := nth 2 s 0.

(** A string literal as the list of its character codes. *)
Fixpoint str (s : String.string) : list Z :=
  match s with
  | String.EmptyString => []
  | String.String c t => Z.of_N (Ascii.N_of_ascii c) :: str t
  end.

(** ** Stateful code

    A computation on a state of type [S] that may fail: [None] is undefined
    behaviour, an access outside an array. *)
Definition M (S R : Type) : Type := S -> option (S * R).

#[export] Instance M_ret S : MRet (M S) := fun R (r : R) s => Some (s, r).
#[export] Instance M_bind S : MBind (M S) :=
  fun R R' (k : R -> M S R') (m : M S R) s =>
    match m s with Some (s', r) => k r s' | None => None end.

Definition gets {S R} (f : S -> R) : M S R := fun s => Some (s, f s).
Definition modify {S} (f : S -> S) : M S unit := fun s => Some (f s, tt).
Definition of_option {S R} (o : option R) : M S R :=
  fun s => match o with Some r => Some (s, r) | None => None end.
Definition when {S} (b : bool) (m : M S unit) : M S unit := if b then m else mret tt.

(** Running a computation on one part of a pair. *)
Definition on_fst {A B R} (m : M A R) : M (A * B) R :=
  fun s => match m (fst s) with Some (a, r) => Some ((a, snd s), r) | None => None end.
Definition on_snd {A B R} (m : M B R) : M (A * B) R :=
  fun s => match m (snd s) with Some (b, r) => Some ((fst s, b), r) | None => None end.

(** ** Tactics *)

(** Reduce a stateful computation. *)
Ltac run :=
  cbv beta iota delta [mbind M_bind mret M_ret gets modify of_option when on_fst on_snd]; cbn [fst snd].

Ltac lia_mod := Z.div_mod_to_equations; lia.

(** Reduce the option monad at a defined computation. *)
Ltac bind_some := cbn [mbind option_bind mret option_ret].

(** Case analysis on the boolean conditions of a definition. *)
Ltac case_bool :=
  match goal with
  | |- context [if ?b then _ else _] => destruct b eqn:?
  | H : context [if ?b then _ else _] |- _ => destruct b eqn:?
  end.

Ltac bool_hyps :=
  repeat match goal with
  | H : _ && _ = true |- _ => apply andb_true_iff in H; destruct H
  | H : _ && _ = false |- _ => apply andb_false_iff in H; destruct H
  | H : _ || _ = true |- _ => apply orb_true_iff in H; destruct H
  | H : _ || _ = false |- _ => apply orb_false_iff in H; destruct H
  | H : negb _ = true |- _ => apply negb_true_iff in H
  | H : negb _ = false |- _ => apply negb_false_iff in H
  | H : (_ =? _) = true |- _ => apply Z.eqb_eq in H
  | H : (_ =? _) = false |- _ => apply Z.eqb_neq in H
  | H : (_ <? _) = true |- _ => apply Z.ltb_lt in H
  | H : (_ <? _) = false |- _ => apply Z.ltb_ge in H
  | H : (_ <=? _) = true |- _ => apply Z.leb_le in H
  | H : (_ <=? _) = false |- _ => apply Z.leb_gt in H
  | H : (_ >=? _) = _ |- _ => rewrite Z.geb_leb in H
  | H : (_ >? _) = _ |- _ => rewrite Z.gtb_ltb in H
  end.

(** ** Generic lemmas *)

(** One step of a stateful computation, and the tactic that takes it. *)
Lemma bind_step {S R R'} (m : M S R) (k : R -> M S R') s s' r :
  m s = Some (s', r) -> (x ← m; k x) s = k r s'.
Proof. intros E. unfold mbind, M_bind. rewrite E. reflexivity. Qed.

(** Continuations that agree where they are used. *)
Lemma bind_ext {S R R'} (m : M S R) (k k' : R -> M S R') s :
  (forall s' r, m s = Some (s', r) -> k r s' = k' r s') -> (x ← m; k x) s = (x ← m; k' x) s.
Proof. intros E. unfold mbind, M_bind. destruct (m s) as [[s' r]|]; auto. Qed.

Ltac step E := eapply eq_trans; [eapply bind_step; exact E|].
Ltac step_option E := eapply eq_trans; [eapply bind_step; unfold of_option; rewrite E; reflexivity|].
Tactic Notation "step_by" uconstr(L) := eapply eq_trans; [eapply bind_step; apply L|].
Ltac step_pure := eapply eq_trans; [eapply bind_step; reflexivity|].

(** A computation that keeps a part [f] of the state, whenever it is defined. *)
Definition Keeps {S R A} (f : S -> A) (c : M S R) : Prop := forall s s' r, c s = Some (s', r) -> f s' = f s.

Lemma keeps_ret {S R A} (f : S -> A) (r : R) : Keeps f (mret r : M S R).
Proof. intros s s' x [= <- <-]. reflexivity. Qed.
Lemma keeps_gets {S R A} (f : S -> A) (g : S -> R) : Keeps f (gets g).
Proof. intros s s' x [= <- <-]. reflexivity. Qed.
Lemma keeps_of_option {S R A} (f : S -> A) (o : option R) : Keeps f (of_option o : M S R).
Proof. intros s s' x. unfold of_option. destruct o; [|discriminate]. intros [= <- <-]. reflexivity. Qed.
Lemma keeps_bind {S R R' A} (f : S -> A) (c : M S R) (k : R -> M S R') :
  Keeps f c -> (forall r, Keeps f (k r)) -> Keeps f (x ← c; k x).
Proof.
  intros Hc Hk s s' x. unfold mbind, M_bind. destruct (c s) as [[s1 r]|] eqn:E; [|discriminate].
  intros E2. rewrite (Hk r _ _ _ E2). exact (Hc _ _ _ E).
Qed.
Lemma keeps_when {S A} (f : S -> A) (b : bool) (c : M S unit) : Keeps f c -> Keeps f (when b c).
Proof. destruct b; [auto|intros _; apply keeps_ret]. Qed.
Lemma keeps_modify {S A} (f : S -> A) (g : S -> S) : (forall s, f (g s) = f s) -> Keeps f (modify g).
Proof. intros H s s' x [= <- <-]. apply H. Qed.

Create HintDb keeps discriminated.
#[export] Hint Constants Opaque : keeps.

(** Proves [Keeps] along the structure of a computation; a [modify] is checked on
    the fields of the state. *)
Ltac keep :=
  repeat lazymatch goal with
  | |- Keeps _ (mbind _ _) => apply keeps_bind; [|intros ?]
  | |- Keeps _ (mret _) => apply keeps_ret
  | |- Keeps _ (gets _) => apply keeps_gets
  | |- Keeps _ (of_option _) => apply keeps_of_option
  | |- Keeps _ (modify _) => apply keeps_modify; intros []; reflexivity
  | |- Keeps _ (when _ _) => apply keeps_when
  | |- Keeps _ (match ?x with _ => _ end) => destruct x
  | |- Keeps _ _ => solve [eauto with keeps]
  end.

(** The computations that maintain an invariant; unlike [Keeps], what was read from
    the state and what was computed from it is known to come from a state in which
    the invariant held. *)
Definition Maintains {S R} (I : S -> Prop) (c : M S R) : Prop := forall s s' r, I s -> c s = Some (s', r) -> I s'.

Lemma maintains_ret {S R} (I : S -> Prop) (r : R) : Maintains I (mret r : M S R).
Proof. intros s s' x Hs [= <- _]. exact Hs. Qed.
Lemma maintains_gets {S R} (I : S -> Prop) (g : S -> R) : Maintains I (gets g).
Proof. intros s s' x Hs [= <- _]. exact Hs. Qed.
Lemma maintains_of_option {S R} (I : S -> Prop) (o : option R) : Maintains I (of_option o : M S R).
Proof. intros s s' x Hs. unfold of_option. destruct o; [|discriminate]. intros [= <- _]. exact Hs. Qed.
Lemma maintains_modify {S} (I : S -> Prop) (g : S -> S) : (forall s, I s -> I (g s)) -> Maintains I (modify g).
Proof. intros Hg s s' x Hs [= <- _]. apply Hg, Hs. Qed.
Lemma maintains_bind {S R R'} (I : S -> Prop) (c : M S R) (k : R -> M S R') :
  Maintains I c -> (forall r, Maintains I (k r)) -> Maintains I (x ← c; k x).
Proof.
  intros Hc Hk s s' x Hs. unfold mbind, M_bind. destruct (c s) as [[s1 r]|] eqn:E; [|discriminate].
  apply (Hk r), (Hc _ _ _ Hs E).
Qed.
Lemma maintains_bind_gets {S R R'} (I : S -> Prop) (g : S -> R) (k : R -> M S R') :
  (forall s, I s -> Maintains I (k (g s))) -> Maintains I (x ← gets g; k x).
Proof. intros Hk s s' x Hs E. exact (Hk s Hs _ _ _ Hs E). Qed.
Lemma maintains_bind_option {S R R'} (I : S -> Prop) (o : option R) (k : R -> M S R') :
  (forall r, o = Some r -> Maintains I (k r)) -> Maintains I (x ← of_option o; k x).
Proof.
  intros Hk s s' x Hs. unfold mbind, M_bind, of_option. destruct o as [r|]; [|discriminate]. apply (Hk r eq_refl), Hs.
Qed.
Lemma maintains_when {S} (I : S -> Prop) (b : bool) (c : M S unit) : Maintains I c -> Maintains I (when b c).
Proof. destruct b; [auto|intros _; apply maintains_ret]. Qed.
Lemma maintains_keeps {S R A} (f : S -> A) (J : A -> Prop) (c : M S R) : Keeps f c -> Maintains (fun s => J (f s)) c.
Proof. intros K s s' r Hs E. rewrite (K _ _ _ E). exact Hs. Qed.

Create HintDb maintains discriminated.
#[export] Hint Constants Opaque : maintains.

(** Proves [Maintains] along the structure of a computation; what is left is to be
    shown about the changes of the state. *)
Ltac maintain :=
  repeat lazymatch goal with
  | |- Maintains _ (mbind _ (gets _)) => apply maintains_bind_gets; intros ? ?
  | |- Maintains _ (mbind _ (of_option _)) => apply maintains_bind_option; intros ? ?
  | |- Maintains _ (mbind _ _) => apply maintains_bind; [|intros ?]
  | |- Maintains _ (mret _) => apply maintains_ret
  | |- Maintains _ (gets _) => apply maintains_gets
  | |- Maintains _ (of_option _) => apply maintains_of_option
  | |- Maintains _ (modify _) => apply maintains_modify; intros ? ?
  | |- Maintains _ (when _ _) => apply maintains_when
  | |- Maintains _ (match ?x with _ => _ end) => destruct x
  | |- Maintains _ _ => solve [eauto with maintains]
  end.

(** The computations that are defined wherever an invariant holds, and maintain it. *)
Definition Total {S R} (I : S -> Prop) (c : M S R) : Prop := forall s, I s -> exists s' r, c s = Some (s', r) /\ I s'.

Lemma total_ret {S R} (I : S -> Prop) (r : R) : Total I (mret r : M S R).
Proof. intros s Hs. exists s, r. auto. Qed.
Lemma total_gets {S R} (I : S -> Prop) (g : S -> R) : Total I (gets g).
Proof. intros s Hs. exists s, (g s). auto. Qed.
Lemma total_modify {S} (I : S -> Prop) (g : S -> S) : (forall s, I s -> I (g s)) -> Total I (modify g).
Proof. intros Hg s Hs. exists (g s), tt. auto. Qed.
Lemma total_bind {S R R'} (I : S -> Prop) (c : M S R) (k : R -> M S R') :
  Total I c -> (forall r, Total I (k r)) -> Total I (x ← c; k x).
Proof. intros Hc Hk s Hs. destruct (Hc s Hs) as (s1 & r & E & H1). unfold mbind, M_bind. rewrite E. exact (Hk r s1 H1). Qed.
Lemma total_bind_gets {S R R'} (I : S -> Prop) (g : S -> R) (k : R -> M S R') :
  (forall s, I s -> Total I (k (g s))) -> Total I (x ← gets g; k x).
Proof. intros Hk s Hs. exact (Hk s Hs s Hs). Qed.
Lemma total_bind_option {S R R'} (I : S -> Prop) (o : option R) (k : R -> M S R') :
  is_Some o -> (forall r, o = Some r -> Total I (k r)) -> Total I (x ← of_option o; k x).
Proof. intros [r ->] Hk s Hs. exact (Hk r eq_refl s Hs). Qed.
Lemma total_when {S} (I : S -> Prop) (b : bool) (c : M S unit) : Total I c -> Total I (when b c).
Proof. destruct b; [auto|intros _; apply total_ret]. Qed.
Lemma total_spec {S R} (I : S -> Prop) (c : M S R) (f : S -> S * R) :
  (forall s, c s = Some (f s)) -> Maintains I c -> Total I c.
Proof. intros Hf K s Hs. exists (fst (f s)), (snd (f s)). rewrite <- surjective_pairing. split; [apply Hf|]. eapply K; [exact Hs|]. rewrite <- surjective_pairing. apply Hf. Qed.

Create HintDb total discriminated.
#[export] Hint Constants Opaque : total.

Ltac total :=
  repeat lazymatch goal with
  | |- Total _ (mbind _ (gets _)) => apply total_bind_gets; intros ? ?
  | |- Total _ (mbind _ (of_option _)) => apply total_bind_option; [|intros ? ?]
  | |- Total _ (mbind _ _) => apply total_bind; [|intros ?]
  | |- Total _ (mret _) => apply total_ret
  | |- Total _ (gets _) => apply total_gets
  | |- Total _ (modify _) => apply total_modify; intros ? ?
  | |- Total _ (when _ _) => apply total_when
  | |- Total _ (match ?x with _ => _ end) => destruct x
  | |- Total _ _ => solve [eauto with total]
  end.

(** Taking a defined computation apart. *)
Lemma bind_inv {S R R'} (c : M S R) (k : R -> M S R') s s' x :
  (r ← c; k r) s = Some (s', x) -> exists s1 r, c s = Some (s1, r) /\ k r s1 = Some (s', x).
Proof. unfold mbind, M_bind. destruct (c s) as [[s1 r]|]; [eauto|discriminate]. Qed.
Lemma of_option_inv {S R} (o : option R) (s s' : S) r : of_option o s = Some (s', r) -> o = Some r /\ s' = s.
Proof. unfold of_option. destruct o; [|discriminate]. intros [= <- <-]. auto. Qed.
Lemma gets_inv {S R} (f : S -> R) (s s' : S) r : gets f s = Some (s', r) -> r = f s /\ s' = s.
Proof. intros [= <- <-]. auto. Qed.
Lemma modify_inv {S} (f : S -> S) (s s' : S) r : modify f s = Some (s', r) -> s' = f s.
Proof. intros [= <- _]. reflexivity. Qed.

Tactic Notation "unbind" hyp(H) "as" ident(s) ident(r) ident(E) := apply bind_inv in H as (s & r & E & H).
Ltac unbinds H :=
  repeat (let s := fresh in let r := fresh in let E := fresh in apply bind_inv in H as (s & r & E & H)).

Create HintDb fw.
Create HintDb fw_len.
Create HintDb f32.

Lemma u8_range x : 0 <= u8 x < 256.
Proof. unfold u8. apply Z.mod_pos_bound. lia. Qed.
Lemma u16_range x : 0 <= u16 x < 65536.
Proof. unfold u16. apply Z.mod_pos_bound. lia. Qed.
Lemma u32_range x : 0 <= u32 x < 4294967296.
Proof. unfold u32. apply Z.mod_pos_bound. lia. Qed.
Lemma u64_range x : 0 <= u64 x < 18446744073709551616.
Proof. unfold u64. apply Z.mod_pos_bound. lia. Qed.

Lemma u8_id x : 0 <= x < 256 -> u8 x = x.
Proof. apply Z.mod_small. Qed.
Lemma u16_id x : 0 <= x < 65536 -> u16 x = x.
Proof. apply Z.mod_small. Qed.
Lemma u32_id x : 0 <= x < 4294967296 -> u32 x = x.
Proof. apply Z.mod_small. Qed.
Lemma u64_id x : 0 <= x < 18446744073709551616 -> u64 x = x.
Proof. apply Z.mod_small. Qed.
Lemma s32_id x : -2147483648 <= x < 2147483648 -> s32 x = x.
Proof. intros H. unfold s32. rewrite Z.mod_small; lia. Qed.
Lemma s64_id x : -9223372036854775808 <= x < 9223372036854775808 -> s64 x = x.
Proof. intros H. unfold s64. rewrite Z.mod_small; lia. Qed.
Lemma s32_range x : -2147483648 <= s32 x < 2147483648.
Proof. unfold s32. pose proof (Z.mod_pos_bound (x + 2147483648) 4294967296). lia. Qed.
Lemma s64_u64 x : s64 (u64 x) = s64 x.
Proof. unfold s64, u64. f_equal. rewrite Zplus_mod_idemp_l. reflexivity. Qed.
Lemma u64_mul_idemp a b : u64 (u64 a * b) = u64 (a * b).
Proof. unfold u64. apply Zmult_mod_idemp_l. Qed.
Lemma u64_add_idemp a b : u64 (u64 a + b) = u64 (a + b).
Proof. unfold u64. apply Zplus_mod_idemp_l. Qed.

Lemma mul_s64_in a b : -9223372036854775808 <= a * b < 9223372036854775808 -> mul_s64 a b = Some (a * b).
Proof.
  intros H. unfold mul_s64.
  rewrite (proj2 (Z.leb_le _ _)), (proj2 (Z.ltb_lt _ _)) by lia. reflexivity.
Qed.

#[export] Hint Resolve u8_range u16_range u32_range u64_range s32_range : fw.

Lemma load_lt m i : 0 <= i < len m -> exists v, load m i = Some v.
Proof.
  intros H. unfold load. destruct (Z.leb_spec 0 i); [|lia].
  destruct (lookup_lt_is_Some_2 m (Z.to_nat i)) as [v Hv]; [lia|eauto].
Qed.

Lemma store_in m i v : 0 <= i < len m -> store m i v = Some (<[Z.to_nat i := v]> m).
Proof.
  intros H. unfold store.
  destruct (Z.leb_spec 0 i), (Z.ltb_spec i (len m)); simpl; try lia. reflexivity.
Qed.

Lemma store_length m i v m' : store m i v = Some m' -> length m' = length m.
Proof. unfold store. case_bool; intros [=]; subst. apply length_insert. Qed.

Lemma memmove_in m dst src n :
  0 <= dst -> 0 <= src -> 0 <= n -> dst + n <= len m -> src + n <= len m ->
  memmove m dst src n =
    Some (take (Z.to_nat dst) m ++ take (Z.to_nat n) (drop (Z.to_nat src) m)
          ++ drop (Z.to_nat (dst + n)) m).
Proof.
  intros. unfold memmove.
  rewrite !(proj2 (Z.leb_le _ _)) by lia. reflexivity.
Qed.

Lemma cstr_app_nul s t : Forall (fun c => c <> 0) s -> cstr (s ++ 0 :: t) = s.
Proof.
  induction 1; simpl; [reflexivity|].
  destruct (Z.eqb_spec x 0); [contradiction|]. f_equal. assumption.
Qed.

Lemma count_while_length p s : (count_while p s <= length s)%nat.
Proof. induction s; simpl; [lia|]. destruct (p a); lia. Qed.

Lemma count_while_app p s t :
  Forall (fun c => p c = true) s -> p (deref t) = false \/ t = [] ->
  count_while p (s ++ t) = length s.
Proof.
  intros Hs Ht. induction Hs; simpl.
  - destruct Ht as [Ht| ->]; [|reflexivity].
    destruct t; [reflexivity|]. simpl in *. rewrite Ht. reflexivity.
  - rewrite H. f_equal. apply IHHs.
Qed.

(** A list with a part replaced. *)
Definition patched (m : list Z) (a : nat) (d : list Z) : list Z := take a m ++ d ++ drop (a + length d) m.

Lemma patched_nil m a : patched m a [] = m.
Proof. unfold patched. cbn. rewrite Nat.add_0_r. apply take_drop. Qed.

Lemma patched_one m a v : (a < length m)%nat -> patched m a [v] = <[a := v]> m.
Proof. intros Ha. unfold patched. rewrite insert_take_drop by exact Ha. cbn. rewrite Nat.add_1_r. reflexivity. Qed.

Lemma patched_length m a d : (a + length d <= length m)%nat -> length (patched m a d) = length m.
Proof. intros Ha. unfold patched. rewrite !length_app, length_take, length_drop. lia. Qed.

Lemma patched_app m a d1 d2 : (a + length d1 <= length m)%nat ->
  patched (patched m a d1) (a + length d1) d2 = patched m a (d1 ++ d2).
Proof.
  intros Ha. unfold patched. assert (length (take a m) = a) as L by (rewrite length_take; lia).
  rewrite <- app_assoc. rewrite (app_assoc (take a m) d1). rewrite take_app_le by (rewrite length_app; lia).
  rewrite take_ge by (rewrite length_app; lia). rewrite <- !app_assoc. do 3 f_equal.
  rewrite app_assoc, drop_app_ge by (rewrite length_app; lia). rewrite drop_drop, !length_app. f_equal. lia.
Qed.

Lemma patched_lookup m a d i : (a + length d <= length m)%nat ->
  patched m a d !! i = if (a <=? i)%nat && (i <? a + length d)%nat then d !! (i - a)%nat else m !! i.
Proof.
  intros Ha. unfold patched. assert (length (take a m) = a) as L by (rewrite length_take; lia).
  destruct (Nat.leb_spec a i); cbn [andb].
  - rewrite lookup_app_r by lia. rewrite L. destruct (Nat.ltb_spec i (a + length d)).
    + rewrite lookup_app_l by lia. reflexivity.
    + rewrite lookup_app_r by lia. rewrite lookup_drop. f_equal. lia.
  - rewrite lookup_app_l by lia. apply lookup_take_lt. lia.
Qed.

(** ** Fields of a register *)

Lemma u8_bit x k : 0 <= k < 8 -> Z.testbit (u8 x) k = Z.testbit x k.
Proof. intros Hk. unfold u8. change 256 with (2 ^ 8). apply Z.mod_pow2_bits_low. lia. Qed.

Lemma u8_bit_high x k : 8 <= k -> Z.testbit (u8 x) k = false.
Proof. intros Hk. unfold u8. change 256 with (2 ^ 8). apply Z.mod_pow2_bits_high. lia. Qed.

(** A mask of a byte sees only the byte. *)
Lemma u8_land x m : 0 <= m < 256 -> Z.land (u8 x) m = Z.land x m.
Proof.
  intros Hm. apply Z.bits_inj'. intros k Hk. rewrite !Z.land_spec. destruct (Z.lt_ge_cases k 8).
  - rewrite u8_bit by lia. reflexivity.
  - rewrite <- (Z.mod_small m 256) by exact Hm. fold (u8 m). rewrite (u8_bit_high m) by lia. rewrite !andb_false_r. reflexivity.
Qed.

(** Writing a field leaves its value there, and every field that does not overlap as it was. *)
Lemma land_field x gm v : Z.land v gm = v -> Z.land (Z.lor (Z.ldiff x gm) v) gm = v.
Proof.
  intros E. rewrite Z.land_lor_distr_l, E, Z.land_ldiff. apply Z.lor_0_l.
Qed.
Lemma land_other x gm v m : Z.land gm m = 0 -> Z.land v gm = v -> Z.land (Z.lor (Z.ldiff x gm) v) m = Z.land x m.
Proof.
  intros D E. apply Z.bits_inj'. intros k Hk. rewrite !Z.land_spec, Z.lor_spec, Z.ldiff_spec.
  assert (Z.testbit gm k && Z.testbit m k = false) as D' by (rewrite <- Z.land_spec, D; apply Z.bits_0).
  assert (Z.testbit v k = Z.testbit v k && Z.testbit gm k) as E' by (rewrite <- Z.land_spec, E; reflexivity).
  rewrite E'. destruct (Z.testbit x k), (Z.testbit v k), (Z.testbit gm k), (Z.testbit m k); cbn in *; congruence.
Qed.

(** Two fields side by side. *)
Lemma lor_shifted a c k : 0 <= k -> 0 <= a < 2 ^ k -> Z.lor a (Z.shiftl c k) = a + c * 2 ^ k.
Proof.
  intros Hk Ha. assert (Z.land a (Z.shiftl c k) = 0) as D.
  { apply Z.bits_inj'. intros i Hi. rewrite Z.land_spec, Z.bits_0, Z.shiftl_spec by exact Hi.
    destruct (Z.lt_ge_cases i k); [rewrite (Z.testbit_neg_r c) by lia; apply andb_false_r|].
    rewrite <- (Z.mod_small a (2 ^ k)) by exact Ha. rewrite Z.mod_pow2_bits_high by lia. reflexivity. }
  rewrite <- Z.lxor_lor, <- Z.add_nocarry_lxor by exact D. rewrite Z.shiftl_mul_pow2 by exact Hk. reflexivity.
Qed.
