(* ===== verification/Float32.v ===== *)
(** * Single-precision floating point

    The firmware's [float] (and, with avr-gcc, its [double]) is IEEE-754
    binary32.  It is modelled by the Standard Library's executable
    specification of floating-point arithmetic at precision 24 and maximal
    exponent 128, together with the conversions the firmware relies on: from
    and to integers, [ceil], and the four-byte image stored in the EEPROM. *)

From Stdlib Require Export SpecFloat.
From S2P Require Import Prelude.

Abbreviation f32 := spec_float.

Definition fadd : f32 -> f32 -> f32 := SFadd 24 128.
Definition fsub : f32 -> f32 -> f32 := SFsub 24 128.
Definition fmul : f32 -> f32 -> f32 := SFmul 24 128.
Definition fdiv : f32 -> f32 -> f32 := SFdiv 24 128.
Definition fsqrt : f32 -> f32 := SFsqrt 24 128.
Definition fneg : f32 -> f32 := SFopp.
Definition fabs : f32 -> f32 := SFabs.
Definition flt : f32 -> f32 -> bool := SFltb.
Definition fle : f32 -> f32 -> bool := SFleb.
Definition feq : f32 -> f32 -> bool := SFeqb.

Infix "⊕" := fadd (at level 50, left associativity) : fw_scope.
Infix "⊖" := fsub (at level 50, left associativity) : fw_scope.
Infix "⊗" := fmul (at level 40, left associativity) : fw_scope.
Infix "⊘" := fdiv (at level 40, left associativity) : fw_scope.

(** Conversion of an integer to float: round to nearest, ties to even. *)
Definition f_of_Z (z : Z) : f32 := binary_normalize 24 128 z 0 false.

(** The decimal literal [p / q], correctly rounded when both are exact. *)
Definition f_of_dec (p q : Z) : f32 := fdiv (f_of_Z p) (f_of_Z q).

Definition f_zero : f32 := S754_zero false.
Definition f_one : f32 := f_of_Z 1.

(** Truncation toward zero; an infinity or a NaN has no integer value. *)
Definition f_trunc (x : f32) : option Z :=
  match x with
  | S754_zero _ => Some 0
  | S754_finite s m e =>
      Some (cond_Zopp s (if 0 <=? e then Z.pos m * 2 ^ e else Z.pos m / 2 ^ (- e)))
  | _ => None
  end.

(** Conversion to an unsigned integer type with maximum [hi]: undefined
    ([None]) when the truncated value does not fit. *)
Definition f_to_unsigned (hi : Z) (x : f32) : option Z :=
  match f_trunc x with
  | Some z => if (0 <=? z) && (z <=? hi) then Some z else None
  | None => None
  end.

Definition f_to_u32 : f32 -> option Z := f_to_unsigned 4294967295.
Definition f_to_u16 : f32 -> option Z := f_to_unsigned 65535.

(** [ceil]. *)
Definition f_ceil (x : f32) : f32 :=
  match x with
  | S754_finite s m e =>
      if 0 <=? e then x
      else let q := Z.pos m / 2 ^ (- e) in
           let r := Z.pos m mod 2 ^ (- e) in
           if s then (if q =? 0 then S754_zero true else f_of_Z (- q))
           else f_of_Z (if r =? 0 then q else q + 1)
  | _ => x
  end.

(** The four-byte image of a float. *)
Definition f_of_bits (b : Z) : f32 :=
  let s := Z.testbit b 31 in
  let ex := Z.land (Z.shiftr b 23) 255 in
  let ma := Z.land b 8388607 in
  if ex =? 0 then match ma with Z.pos m => S754_finite s m (-149) | _ => S754_zero s end
  else if ex =? 255 then (if ma =? 0 then S754_infinity s else S754_nan)
  else S754_finite s (Z.to_pos (ma + 8388608)) (ex - 150).

Definition f_to_bits (x : f32) : Z :=
  let sign (s : bool) := if s then 2147483648 else 0 in
  match x with
  | S754_zero s => sign s
  | S754_infinity s => sign s + 2139095040
  | S754_nan => 2143289344
  | S754_finite s m e =>
      if Z.pos m <? 8388608 then sign s + Z.pos m
      else sign s + (e + 150) * 8388608 + (Z.pos m - 8388608)
  end.

(** Numbers: everything but NaN; [f32_ok] holds of the values that a
    four-byte float can take. *)
Definition is_num (x : f32) : bool := match x with S754_nan => false | _ => true end.
Definition f32_ok (x : f32) : bool := valid_binary 24 128 x.

(** ** Order *)

(** Comparison of numbers is the lexicographic order of a triple. *)
Definition fkey (x : f32) : Z * Z * Z :=
  match x with
  | S754_infinity true => (0, 0, 0)
  | S754_finite true m e => (1, - e, - Z.pos m)
  | S754_zero _ => (2, 0, 0)
  | S754_finite false m e => (3, e, Z.pos m)
  | S754_infinity false => (4, 0, 0)
  | S754_nan => (5, 0, 0)
  end.

Definition klt (a b : Z * Z * Z) : Prop :=
  let '(a1, a2, a3) := a in let '(b1, b2, b3) := b in
  a1 < b1 \/ (a1 = b1 /\ (a2 < b2 \/ (a2 = b2 /\ a3 < b3))).

Definition klex (a b : Z * Z * Z) : comparison :=
  let '(a1, a2, a3) := a in let '(b1, b2, b3) := b in
  match a1 ?= b1 with
  | Eq => match a2 ?= b2 with Eq => a3 ?= b3 | c => c end
  | c => c
  end.

Lemma klex_spec a b : CompareSpec (a = b) (klt a b) (klt b a) (klex a b).
Proof.
  destruct a as [[a1 a2] a3], b as [[b1 b2] b3]; simpl.
  destruct (Z.compare_spec a1 b1); [|constructor; lia|constructor; lia].
  destruct (Z.compare_spec a2 b2); [|constructor; lia|constructor; lia].
  destruct (Z.compare_spec a3 b3); constructor; [congruence|lia|lia].
Qed.

Lemma fcompare_klex x y :
  is_num x = true -> is_num y = true -> SFcompare x y = Some (klex (fkey x) (fkey y)).
Proof.
  destruct x as [[]|[]| |[] m e], y as [[]|[]| |[] m' e']; simpl; try discriminate; intros _ _; try reflexivity.
  - rewrite Z.compare_opp, (Z.compare_antisym e' e).
    destruct (Z.compare_spec e' e); simpl; reflexivity.
Qed.

Lemma flt_spec x y :
  flt x y = true <-> is_num x = true /\ is_num y = true /\ klt (fkey x) (fkey y).
Proof.
  unfold flt, SFltb. destruct (is_num x) eqn:Hx.
  2: { destruct x; try discriminate. simpl. split; [|intros [? _]]; discriminate. }
  destruct (is_num y) eqn:Hy.
  2: { destruct y; try discriminate. split; [|intros (_ & ? & _); discriminate].
       destruct x; simpl; discriminate. }
  rewrite fcompare_klex by assumption.
  destruct (klex_spec (fkey x) (fkey y)) as [E|H|H].
  - split; [discriminate|]. intros (_ & _ & K). rewrite E in K.
    destruct (fkey y) as [[? ?] ?]; simpl in K; lia.
  - tauto.
  - split; [discriminate|]. intros (_ & _ & K).
    destruct (fkey x) as [[? ?] ?], (fkey y) as [[? ?] ?]; simpl in *; lia.
Qed.

Lemma fle_not_flt x y :
  is_num x = true -> is_num y = true -> fle x y = negb (flt y x).
Proof.
  intros Hx Hy. unfold fle, SFleb, flt, SFltb.
  rewrite !fcompare_klex by assumption.
  destruct (klex_spec (fkey x) (fkey y)) as [E|H|H],
           (klex_spec (fkey y) (fkey x)) as [E'|H'|H']; try reflexivity;
  destruct (fkey x) as [[? ?] ?], (fkey y) as [[? ?] ?]; simpl in *; try injection E; try injection E'; lia.
Qed.

Lemma flt_irrefl x : flt x x = false.
Proof.
  destruct (flt x x) eqn:E; [|reflexivity]. apply flt_spec in E.
  destruct E as (_ & _ & K). destruct (fkey x) as [[? ?] ?]; simpl in K; lia.
Qed.

Lemma flt_asym x y : flt x y = true -> flt y x = false.
Proof.
  intros H. destruct (flt y x) eqn:E; [|reflexivity].
  apply flt_spec in H, E. destruct H as (_ & _ & H), E as (_ & _ & E).
  destruct (fkey x) as [[? ?] ?], (fkey y) as [[? ?] ?]; simpl in *; lia.
Qed.

Lemma flt_trans x y z : flt x y = true -> flt y z = true -> flt x z = true.
Proof.
  rewrite !flt_spec. intros (? & ? & H) (? & ? & K).
  repeat split; auto.
  destruct (fkey x) as [[? ?] ?], (fkey y) as [[? ?] ?], (fkey z) as [[? ?] ?]; simpl in *; lia.
Qed.

Lemma fle_refl x : is_num x = true -> fle x x = true.
Proof. intros. rewrite fle_not_flt, flt_irrefl by assumption. reflexivity. Qed.

Lemma fle_trans x y z : fle x y = true -> fle y z = true -> fle x z = true.
Proof.
  intros H K.
  assert (is_num x = true /\ is_num y = true /\ is_num z = true) as (Hx & Hy & Hz).
  { unfold fle, SFleb in *. destruct x, y, z; simpl in *; try discriminate; auto. }
  rewrite fle_not_flt by assumption. rewrite fle_not_flt in H by assumption. rewrite fle_not_flt in K by assumption. apply negb_true_iff in H, K. apply negb_true_iff.
  destruct (flt z x) eqn:E; [|reflexivity]. exfalso.
  assert (~ klt (fkey y) (fkey x)) as N1 by (intros F; enough (flt y x = true) by congruence; apply flt_spec; auto).
  assert (~ klt (fkey z) (fkey y)) as N2 by (intros F; enough (flt z y = true) by congruence; apply flt_spec; auto).
  apply flt_spec in E. destruct E as (_ & _ & E).
  destruct (fkey x) as [[? ?] ?], (fkey y) as [[? ?] ?], (fkey z) as [[? ?] ?]; simpl in *; lia.
Qed.

Lemma flt_fle x y : flt x y = true -> fle x y = true.
Proof.
  intros H. pose proof (proj1 (flt_spec _ _) H) as (Hx & Hy & _).
  rewrite fle_not_flt by assumption. rewrite (flt_asym _ _ H). reflexivity.
Qed.

#[export] Hint Resolve fle_refl fle_trans flt_fle : fw.
