(* ===== verification/FloatValid.v ===== *)
(** * Floating-point results are binary32 numbers

    The arithmetic of [Float32] is the Standard Library's executable specification,
    which works on any mantissa and exponent. Here its results are shown to be
    values that a four-byte float can hold ([f32_ok]), so that the state of the
    firmware only ever holds such values. *)

From S2P Require Import Prelude Float32.

#[local] Open Scope fw_scope.

(** ** Digits and shifts *)

Lemma digits_log2 m : 0 < m -> Zdigits2 m = Z.log2 m + 1.
Proof.
  destruct m as [|p|p]; try lia. intros _. cbn [Zdigits2].
  assert (Z.pos (digits2_pos p) = Z.log2 (Z.pos p) + 1) as E; [|exact E].
  induction p as [p IH|p IH|]; [| |reflexivity]; cbn [digits2_pos]; rewrite Pos2Z.inj_succ, IH.
  - rewrite Pos2Z.inj_xI, Z.log2_succ_double by lia. lia.
  - rewrite Pos2Z.inj_xO, Z.log2_double by lia. lia.
Qed.

Lemma digits_bounds m : 0 < m -> 1 <= Zdigits2 m /\ 2 ^ (Zdigits2 m - 1) <= m < 2 ^ Zdigits2 m.
Proof.
  intros Hm. rewrite digits_log2 by exact Hm. pose proof (Z.log2_spec m Hm) as Hs. pose proof (Z.log2_nonneg m).
  replace (Z.log2 m + 1 - 1) with (Z.log2 m) by lia. replace (Z.log2 m + 1) with (Z.succ (Z.log2 m)) by lia. lia.
Qed.

Lemma digits_nonneg m : 0 <= m -> 0 <= Zdigits2 m.
Proof. intros Hm. destruct (Z.eq_dec m 0) as [->|]; [reflexivity|]. destruct (digits_bounds m); lia. Qed.

(** Enough magnitude gives enough digits, and the other way round. *)
Lemma digits_ge m k : 2 ^ (k - 1) <= m -> 0 <= m -> k <= Zdigits2 m.
Proof.
  intros Hk Hm. destruct (Z.le_gt_cases k 0); [pose proof (digits_nonneg m Hm); lia|].
  assert (0 < m) by (pose proof (Z.pow_pos_nonneg 2 (k - 1)); lia). rewrite digits_log2 by assumption.
  apply Z.log2_le_pow2 in Hk; lia.
Qed.

Lemma digits_le m k : 0 <= m < 2 ^ k -> 0 <= k -> Zdigits2 m <= k.
Proof.
  intros Hm Hk. destruct (Z.eq_dec m 0) as [->|]; [exact Hk|]. rewrite digits_log2 by lia.
  assert (Z.log2 m < k) by (apply Z.log2_lt_pow2; lia). lia.
Qed.

Lemma digits_mul_pow2 m k : 0 < m -> 0 <= k -> Zdigits2 (m * 2 ^ k) = Zdigits2 m + k.
Proof.
  intros Hm Hk. pose proof (Z.pow_pos_nonneg 2 k ltac:(lia) Hk). rewrite !digits_log2 by nia.
  rewrite Z.log2_mul_pow2 by lia. lia.
Qed.

Lemma shr_1_m r : 0 <= shr_m r -> shr_m (shr_1 r) = shr_m r / 2.
Proof.
  destruct r as [m a b]. cbn [shr_m]. intros Hm. destruct m as [|[p|p|]|p]; cbn [shr_1 shr_m]; try lia; try reflexivity.
  - rewrite Pos2Z.inj_xI. lia_mod.
  - rewrite Pos2Z.inj_xO. lia_mod.
Qed.

Lemma shr_iter_m p : forall r, 0 <= shr_m r -> shr_m (iter_pos shr_1 p r) = shr_m r / 2 ^ Z.pos p.
Proof.
  assert (forall a q, 0 <= a -> a / 2 ^ Z.pos q / 2 ^ Z.pos q = a / 2 ^ (Z.pos q + Z.pos q)) as Hd.
  { intros a q Ha. rewrite Z.pow_add_r by lia. apply Z.div_div; lia. }
  induction p as [p IH|p IH|]; intros r Hr; cbn [iter_pos].
  - pose proof (shr_1_m r Hr) as E1. assert (0 <= shr_m (shr_1 r)) as H1 by (rewrite E1; apply Z.div_pos; lia).
    pose proof (IH _ H1) as E2. assert (0 <= shr_m (iter_pos shr_1 p (shr_1 r))) as H2 by (rewrite E2; apply Z.div_pos; lia).
    rewrite (IH _ H2), E2, E1, Hd by (apply Z.div_pos; lia). rewrite Z.div_div by lia. f_equal.
    replace (Z.pos p~1) with (1 + (Z.pos p + Z.pos p)) by lia. rewrite (Z.pow_add_r 2 1) by lia. reflexivity.
  - pose proof (IH _ Hr) as E2. assert (0 <= shr_m (iter_pos shr_1 p r)) as H2 by (rewrite E2; apply Z.div_pos; lia).
    rewrite (IH _ H2), E2, Hd by lia. do 2 f_equal. lia.
  - apply shr_1_m, Hr.
Qed.

(** ** Rounding *)

Abbreviation exponent e := (fexp 24 128 e).

Lemma exponent_eq e : exponent e = Z.max (e - 24) (-149).
Proof. reflexivity. Qed.

Lemma shr_fexp_spec m e l : 0 <= m -> e <= exponent (Zdigits2 m + e) ->
  snd (shr_fexp 24 128 m e l) = exponent (Zdigits2 m + e) /\
  shr_m (fst (shr_fexp 24 128 m e l)) = m / 2 ^ (exponent (Zdigits2 m + e) - e).
Proof.
  intros Hm He. unfold shr_fexp, shr. set (e' := exponent (Zdigits2 m + e)) in *.
  assert (shr_m (shr_record_of_loc m l) = m) as Em by (destruct l as [|[]]; reflexivity).
  destruct (e' - e) as [|p|p] eqn:En; [| |lia]; cbn [fst snd].
  - rewrite Em, Z.pow_0_r, Z.div_1_r. split; [lia|reflexivity].
  - rewrite shr_iter_m by lia. rewrite Em. split; [lia|reflexivity].
Qed.

(** A mantissa and an exponent within the format, up to the carry of a rounding. *)
Definition fits (m e : Z) : Prop := 0 <= m <= 2 ^ 24 /\ -149 <= e /\ (2 ^ 23 <= m \/ e = -149).

Lemma shifted_fits m e : 0 <= m -> e <= exponent (Zdigits2 m + e) ->
  let e' := exponent (Zdigits2 m + e) in fits (m / 2 ^ (e' - e)) e' /\ m / 2 ^ (e' - e) < 2 ^ 24.
Proof.
  intros Hm He e'. assert (m / 2 ^ (e' - e) < 2 ^ 24) as Hlt.
  { apply Z.div_lt_upper_bound; [apply Z.pow_pos_nonneg; lia|]. rewrite <- Z.pow_add_r by lia.
    apply Z.lt_le_trans with (2 ^ Zdigits2 m).
    - destruct (Z.eq_dec m 0) as [->|]; [reflexivity|]. apply digits_bounds. lia.
    - apply Z.pow_le_mono_r; [lia|]. unfold e'. rewrite exponent_eq. lia. }
  split; [|exact Hlt]. split; [split; [apply Z.div_pos; [exact Hm|apply Z.pow_pos_nonneg; lia]|lia]|].
  unfold e' in *. rewrite exponent_eq in *. split; [lia|].
  destruct (Z.le_gt_cases (Zdigits2 m + e - 24) (-149)); [right; lia|left].
  rewrite Z.max_l in * by lia. replace (Zdigits2 m + e - 24 - e) with (Zdigits2 m - 24) in * by lia.
  assert (0 < m) as Hpos by (destruct (Z.eq_dec m 0) as [->|]; [cbn in *; lia|lia]).
  apply Z.div_le_lower_bound; [apply Z.pow_pos_nonneg; lia|]. rewrite <- Z.pow_add_r by lia.
  replace (Zdigits2 m - 24 + 23) with (Zdigits2 m - 1) by lia. apply digits_bounds, Hpos.
Qed.

Lemma fits_valid s m e : fits (Z.pos m) e -> Z.pos m < 2 ^ 24 -> e <= 104 -> f32_ok (S754_finite s m e) = true.
Proof.
  intros (Hm & He & Hn) Hlt Hmax. unfold f32_ok. cbn [valid_binary]. unfold bounded, canonical_mantissa.
  apply andb_true_iff. split; [|apply Z.leb_le; lia]. apply Z.eqb_eq. change (Z.pos (digits2_pos m)) with (Zdigits2 (Z.pos m)).
  rewrite exponent_eq. pose proof (digits_le (Z.pos m) 24 ltac:(lia) ltac:(lia)).
  destruct Hn as [Hn|Hn]; [|lia]. pose proof (digits_ge (Z.pos m) 24 Hn ltac:(lia)). lia.
Qed.

(** The second shift, after the rounding. *)
Lemma carried m e : fits m e -> exists m' e', shr_m (fst (shr_fexp 24 128 m e loc_Exact)) = m' /\
  snd (shr_fexp 24 128 m e loc_Exact) = e' /\ (m' = 0 \/ fits m' e' /\ 0 < m' < 2 ^ 24).
Proof.
  intros (Hm & He & Hn). destruct (Z.eq_dec m 0) as [->|Hne].
  { exists 0, e. unfold shr_fexp, shr. cbn [Zdigits2 shr_record_of_loc]. rewrite exponent_eq.
    destruct (Z.max (0 + e - 24) (-149) - e) eqn:E; [|lia|]; cbn; auto. }
  pose proof (digits_le m 25 ltac:(lia) ltac:(lia)) as Hd.
  assert (e <= exponent (Zdigits2 m + e)) as Hle.
  { rewrite exponent_eq. destruct Hn as [Hn|Hn]; [pose proof (digits_ge m 24 Hn ltac:(lia)); lia|lia]. }
  destruct (shr_fexp_spec m e loc_Exact ltac:(lia) Hle) as [Es Em]. eexists _, _. split; [exact Em|]. split; [exact Es|].
  destruct (shifted_fits m e ltac:(lia) Hle) as [Hf Hlt]. set (q := m / _) in *. destruct (Z.eq_dec q 0); [auto|right].
  split; [exact Hf|]. destruct Hf as ((? & ?) & _). lia.
Qed.

Lemma round_cases m l : round_nearest_even m l = m \/ round_nearest_even m l = m + 1.
Proof. destruct l as [|[]]; cbn; auto. destruct (Z.even m); auto. Qed.

Lemma round_aux_valid s m e l : 0 <= m -> e <= exponent (Zdigits2 m + e) ->
  f32_ok (binary_round_aux 24 128 s m e l) = true.
Proof.
  intros Hm He. unfold binary_round_aux. destruct (shr_fexp_spec m e l Hm He) as [Es Em].
  destruct (shifted_fits m e Hm He) as [(Hf1 & Hf2 & Hf3) Hlt]. destruct (shr_fexp 24 128 m e l) as [r1 e1]. cbn [fst snd] in *. subst e1.
  rewrite <- Em in *. set (q := shr_m r1) in *. set (e1 := exponent (Zdigits2 m + e)) in *.
  assert (fits (round_nearest_even q (loc_of_shr_record r1)) e1) as Hf.
  { destruct (round_cases q (loc_of_shr_record r1)) as [-> | ->]; (split; [lia|split; [lia|]]); destruct Hf3; auto; left; lia. }
  destruct (carried _ _ Hf) as (m' & e' & Em' & Ee' & Hc). destruct (shr_fexp 24 128 _ e1 loc_Exact) as [r2 e2]. cbn [fst snd] in *. subst e2.
  rewrite Em'. destruct m' as [|p|p]; [reflexivity| |reflexivity]. destruct (Z.leb_spec e' (128 - 24)); [|reflexivity].
  destruct Hc as [|[Hc1 Hc2]]; [discriminate|]. apply fits_valid; [exact Hc1|lia|lia].
Qed.

Lemma round_valid s m e : f32_ok (binary_round 24 128 s m e) = true.
Proof.
  unfold binary_round, shl_align. set (e' := exponent (Z.pos (digits2_pos m) + e)).
  destruct (e' - e) as [|p|p] eqn:Ed.
  - apply round_aux_valid; [lia|]. change (Zdigits2 (Z.pos m)) with (Z.pos (digits2_pos m)). fold e'. lia.
  - apply round_aux_valid; [lia|]. change (Zdigits2 (Z.pos m)) with (Z.pos (digits2_pos m)). fold e'. lia.
  - assert (Z.pos (Pos.iter xO m p) = Z.pos m * 2 ^ Z.pos p) as E.
    { clear. induction p as [|p IH] using Pos.peano_ind; [cbn; lia|].
      rewrite Pos.iter_succ, Pos2Z.inj_succ, Z.pow_succ_r, Pos2Z.inj_xO, IH by lia. lia. }
    apply round_aux_valid; [lia|]. rewrite E, digits_mul_pow2 by lia.
    change (Zdigits2 (Z.pos m)) with (Z.pos (digits2_pos m)). replace (Z.pos (digits2_pos m) + Z.pos p + e') with (Z.pos (digits2_pos m) + e) by lia.
    fold e'. lia.
Qed.

Lemma normalize_valid m e z : f32_ok (binary_normalize 24 128 m e z) = true.
Proof. destruct m; [reflexivity|apply round_valid|apply round_valid]. Qed.

(** ** The operations *)

Lemma f_of_Z_valid z : f32_ok (f_of_Z z) = true.
Proof. apply normalize_valid. Qed.

Lemma fneg_valid x : f32_ok x = true -> f32_ok (fneg x) = true.
Proof. destruct x; auto. Qed.
Lemma fabs_valid x : f32_ok x = true -> f32_ok (fabs x) = true.
Proof. destruct x; auto. Qed.

Lemma fadd_valid x y : f32_ok x = true -> f32_ok y = true -> f32_ok (x ⊕ y) = true.
Proof. intros Hx Hy. destruct x as [[]|[]| |], y as [[]|[]| |]; try reflexivity; try assumption; apply normalize_valid. Qed.
Lemma fsub_valid x y : f32_ok x = true -> f32_ok y = true -> f32_ok (x ⊖ y) = true.
Proof. intros Hx Hy. destruct x as [[]|[]| |], y as [[]|[]| |]; try reflexivity; try assumption; apply normalize_valid. Qed.

(** A finite value within the format. *)
Lemma valid_fits s m e : f32_ok (S754_finite s m e) = true ->
  e = exponent (Zdigits2 (Z.pos m) + e).
Proof. unfold f32_ok. cbn [valid_binary]. unfold bounded, canonical_mantissa. intros H. bool_hyps. symmetry. assumption. Qed.

Lemma fmul_valid x y : f32_ok x = true -> f32_ok y = true -> f32_ok (x ⊗ y) = true.
Proof.
  intros Hx Hy. destruct x as [[]|[]| |s m e], y as [[]|[]| |s' m' e']; try reflexivity.
  apply valid_fits in Hx, Hy. apply round_aux_valid; [lia|]. rewrite Pos2Z.inj_mul.
  pose proof (digits_bounds (Z.pos m) ltac:(lia)) as (D1 & D2 & _). pose proof (digits_bounds (Z.pos m') ltac:(lia)) as (D3 & D4 & _).
  assert (Zdigits2 (Z.pos m) + Zdigits2 (Z.pos m') - 1 <= Zdigits2 (Z.pos m * Z.pos m')) as Hd.
  { apply digits_ge; [|lia]. replace (_ - 1 - 1) with (Zdigits2 (Z.pos m) - 1 + (Zdigits2 (Z.pos m') - 1)) by lia.
    rewrite Z.pow_add_r by lia. apply Z.mul_le_mono_nonneg; try lia; apply Z.pow_nonneg; lia. }
  rewrite exponent_eq in *. lia.
Qed.

Lemma fdiv_valid x y : f32_ok (x ⊘ y) = true.
Proof.
  destruct x as [[]|[]| |s m e], y as [[]|[]| |s' m' e']; try reflexivity. unfold fdiv, SFdiv, SFdiv_core_binary.
  set (d1 := Zdigits2 (Z.pos m)). set (d2 := Zdigits2 (Z.pos m')). set (e1 := Z.min _ _).
  assert (exists a, match e - e' - e1 with Z0 => Z.pos m | Zpos _ => Z.shiftl (Z.pos m) (e - e' - e1) | Zneg _ => 0 end = a /\
    a = Z.pos m * 2 ^ (e - e' - e1) /\ 0 <= e - e' - e1) as (a & -> & Ea & Hs).
  { eexists. split; [reflexivity|]. destruct (e - e' - e1) eqn:Ed; [|rewrite Z.shiftl_mul_pow2 by lia|lia]; split; lia. }
  pose proof (Z_div_mod a (Z.pos m') ltac:(lia)) as Hq. destruct (Z.div_eucl a (Z.pos m')) as [q r]. destruct Hq as [Hq Hr].
  pose proof (digits_bounds (Z.pos m) ltac:(lia)) as (D1 & D2 & _). pose proof (digits_bounds (Z.pos m') ltac:(lia)) as (D3 & _ & D4).
  fold d1 in D1, D2. fold d2 in D3, D4. set (k := e - e' - e1) in *.
  assert (0 <= a) by (rewrite Ea; pose proof (Z.pow_nonneg 2 k); nia). assert (0 <= q) by nia.
  assert (d1 + k - d2 <= Zdigits2 q) as Hd.
  { destruct (Z.le_gt_cases (d1 + k - d2) 0); [pose proof (digits_nonneg q); lia|]. apply digits_ge; [|assumption].
    enough (2 ^ (d1 + k - d2 - 1) < q + 1) by lia. apply Z.mul_lt_mono_pos_r with (2 ^ d2); [apply Z.pow_pos_nonneg; lia|].
    rewrite <- Z.pow_add_r by lia. replace (d1 + k - d2 - 1 + d2) with (d1 - 1 + k) by lia. rewrite Z.pow_add_r by lia.
    pose proof (Z.pow_pos_nonneg 2 k ltac:(lia) Hs). nia. }
  assert (e1 = Z.min (Z.max (d1 + e - (d2 + e') - 24) (-149)) (e - e')) as E1 by reflexivity.
  apply round_aux_valid; [assumption|]. rewrite exponent_eq. unfold k in Hd. clearbody e1. lia.
Qed.

Lemma fsqrt_valid x : f32_ok x = true -> f32_ok (fsqrt x) = true.
Proof.
  intros Hx. destruct x as [|[]| |[] m e]; try assumption; try reflexivity. unfold fsqrt, SFsqrt, SFsqrt_core_binary.
  set (d := Zdigits2 (Z.pos m)). set (e1 := Z.min _ _).
  assert (e1 <= Z.div2 e) as He1 by (unfold e1; lia). rewrite Z.div2_div in He1.
  assert (exists a, match e - 2 * e1 with Z0 => Z.pos m | Zpos _ => Z.shiftl (Z.pos m) (e - 2 * e1) | Zneg _ => 0 end = a /\
    a = Z.pos m * 2 ^ (e - 2 * e1) /\ 0 <= e - 2 * e1) as (a & -> & Ea & Hs).
  { eexists. split; [reflexivity|]. assert (0 <= e - 2 * e1) by lia_mod.
    destruct (e - 2 * e1) eqn:Ed; [|rewrite Z.shiftl_mul_pow2 by lia|lia]; split; lia. }
  pose proof (digits_bounds (Z.pos m) ltac:(lia)) as (D1 & D2 & _). fold d in D1, D2.
  set (k := e - 2 * e1) in *. pose proof (Z.pow_pos_nonneg 2 k ltac:(lia) Hs) as Hpk.
  pose proof (Z.sqrtrem_spec a ltac:(nia)) as Hq. destruct (Z.sqrtrem a) as [q r]. destruct Hq as [Hq Hr].
  assert (0 <= q) as Hq0 by lia.
  assert ((d + k + 1) / 2 <= Zdigits2 q) as Hd.
  { apply digits_ge; [|assumption]. enough (2 ^ ((d + k + 1) / 2 - 1) < q + 1) by lia.
    set (j := (d + k + 1) / 2 - 1). assert (0 <= j /\ 2 * j <= d - 1 + k) as [Hj Hj2] by (unfold j; lia_mod).
    apply Z.square_lt_simpl_nonneg; [lia|]. rewrite <- Z.pow_add_r by lia.
    apply Z.le_lt_trans with (2 ^ (d - 1 + k)); [apply Z.pow_le_mono_r; lia|]. rewrite Z.pow_add_r by lia. nia. }
  assert (e1 = Z.min (Z.max (Z.div2 (d + e + 1) - 24) (-149)) (Z.div2 e)) as E1 by reflexivity.
  apply round_aux_valid; [assumption|]. rewrite exponent_eq. rewrite Z.div2_div in E1. unfold k in Hd. clearbody e1. lia_mod.
Qed.

#[export] Hint Resolve f_of_Z_valid fneg_valid fabs_valid fadd_valid fsub_valid fmul_valid fdiv_valid fsqrt_valid : f32.

(** The four-byte image of any bits is a value of the format. *)
Lemma f_of_bits_valid b : f32_ok (f_of_bits b) = true.
Proof.
  unfold f_of_bits. change 255 with (Z.ones 8). change 8388607 with (Z.ones 23).
  rewrite !Z.land_ones by lia. change (2 ^ 8) with 256. change (2 ^ 23) with 8388608.
  pose proof (Z.mod_pos_bound (Z.shiftr b 23) 256 ltac:(lia)). pose proof (Z.mod_pos_bound b 8388608 ltac:(lia)).
  destruct (Z.eqb_spec (Z.shiftr b 23 mod 256) 0).
  - destruct (b mod 8388608) eqn:E; try reflexivity. apply fits_valid; [split; [lia|split; [lia|right; reflexivity]]|lia|lia].
  - change (Z.ones 8) with 255. destruct (Z.eqb_spec (Z.shiftr b 23 mod 256) 255); [case_bool; reflexivity|].
    apply fits_valid; [split; [|split; [|left]]| |]; rewrite ?Z2Pos.id by lia; lia.
Qed.

(** A value of at least one has a positive integer part. *)
Lemma trunc_pos x n : f32_ok x = true -> fle f_one x = true -> f_trunc x = Some n -> 1 <= n.
Proof.
  intros Hv Hle Ht. destruct x as [|[]| |s m e]; try discriminate. destruct s; [discriminate|].
  cbn [f_trunc cond_Zopp] in Ht. injection Ht as <-. destruct (Z.leb_spec 0 e); [pose proof (Z.pow_pos_nonneg 2 e); nia|].
  pose proof (valid_fits _ _ _ Hv) as He. rewrite exponent_eq in He.
  rewrite fle_not_flt in Hle by reflexivity. apply negb_true_iff in Hle.
  assert (~ klt (fkey (S754_finite false m e)) (fkey f_one)) as Hk.
  { intros K. enough (flt (S754_finite false m e) f_one = true) by congruence. apply flt_spec. auto. }
  change (fkey f_one) with (3, -23, 8388608) in Hk. cbn [fkey klt] in Hk.
  apply Z.div_le_lower_bound; [apply Z.pow_pos_nonneg; lia|]. rewrite Z.mul_1_r.
  destruct (Z.eq_dec e (-23)) as [->|]; [change (2 ^ (- (-23))) with 8388608; lia|].
  apply Z.le_trans with (2 ^ (Zdigits2 (Z.pos m) - 1)); [apply Z.pow_le_mono_r; lia|apply digits_bounds; lia].
Qed.

Lemma f_to_u32_pos x n : f32_ok x = true -> fle f_one x = true -> f_to_u32 x = Some n -> 1 <= n.
Proof.
  intros Hv Hle. unfold f_to_u32, f_to_unsigned. destruct (f_trunc x) as [z|] eqn:E; [|discriminate]. case_bool; [|discriminate].
  intros [= <-]. exact (trunc_pos x z Hv Hle E).
Qed.
