(* ===== verification/Common.v ===== *)
(** * Conversions and helpers shared by the firmware (common.cpp, common.h)

    Number-to-string and string-to-number conversions over explicit byte
    buffers, range clamping, the interruptible delay and case folding. A
    function that writes through a pointer takes and returns the whole array;
    [None] is an access outside it or a conversion with no defined result. *)

From S2P Require Import Prelude Float32.
#[local] Open Scope fw_scope.

(** ** Definitions *)

(** [sizeof("18446744073709551615") + sizeof('-')] and
    [sizeof("4294967296") + sizeof('-') + sizeof('.') + NUMBER_OF_DECIMAL_PLACES]. *)
Definition NUMBER_OF_DECIMAL_PLACES : Z := 4.
Definition INT_BUFFER_SIZE : Z := 21 + 1.
Definition FLOAT_BUFFER_SIZE : Z := 11 + 1 + 1 + NUMBER_OF_DECIMAL_PLACES.
Definition FLT_DIG : Z := 6.

(** [isdigit] of <ctype.h>. *)
Definition isdigit (c : Z) : bool := (48 <=? c) && (c <=? 57).

(** The [do ... while(value)] loop of [ulltoa]. *)
Fixpoint ulltoa_loop (fuel : nat) (value i : Z) (buffer : list Z) : option (list Z * Z) :=
  match fuel with
  | O => None
  | S fuel =>
      let i := u8 (i - 1) in
      buffer ← store buffer i (value mod 10 + 48);
      let value := value / 10 in
      if value =? 0 then Some (buffer, i) else ulltoa_loop fuel value i buffer
  end.

Definition ulltoa (value : Z) (buffer : list Z) : option (list Z) :=
  let i := u8 (INT_BUFFER_SIZE - 1 - 1) in
  buffer ← store buffer i 0;
  '(buffer, i) ← ulltoa_loop 20 value i buffer;
  memmove buffer 0 i (INT_BUFFER_SIZE - i - 1).

Definition lltoa (value : Z) (buffer : list Z) : option (list Z) :=
  if value <? 0 then
    buffer ← store buffer 0 45;
    product ← mul_s64 value (-1);
    rest ← ulltoa (u64 product) (drop 1 buffer);
    Some (take 1 buffer ++ rest)
  else ulltoa (u64 value) buffer.

(** The integer digits and the decimals of [ftoa]. *)
Fixpoint ftoa_digits (fuel : nat) (temp i : Z) (buffer : list Z) : option (list Z * Z) :=
  match fuel with
  | O => None
  | S fuel =>
      let i := u8 (i - 1) in
      buffer ← store buffer i (temp mod 10 + 48);
      let temp := temp / 10 in
      if temp =? 0 then Some (buffer, i) else ftoa_digits fuel temp i buffer
  end.

Fixpoint ftoa_decimals (k : nat) (temp j : Z) (buffer : list Z) : option (list Z) :=
  match k with
  | O => Some buffer
  | S k' =>
      buffer ← store buffer (j + Z.of_nat k) (temp mod 10 + 48);
      ftoa_decimals k' (temp / 10) j buffer
  end.

Definition ftoa (value : f32) (buffer : list Z) : option (list Z) :=
  let i := FLOAT_BUFFER_SIZE - 1 in
  let negative := flt value f_zero in
  buffer ← store buffer i 0;
  let i := i - (1 + NUMBER_OF_DECIMAL_PLACES) in
  buffer ← store buffer i 46;
  let j := i in
  let value := fabs value in
  temp ← f_to_u32 value;
  let value := value ⊖ f_of_Z temp in
  '(buffer, i) ← ftoa_digits 10 temp i buffer;
  temp ← f_to_u32 (value ⊗ f_of_Z 10000);
  buffer ← ftoa_decimals 4 temp j buffer;
  '(buffer, i) ← (if negative
                  then let i := u8 (i - 1) in buffer ← store buffer i 45; Some (buffer, i)
                  else Some (buffer, i));
  memmove buffer 0 i (FLOAT_BUFFER_SIZE - i).

(** The digit loop of [strtoull]: the value and the number of digits read. *)
Fixpoint strtoull_loop (nptr : list Z) (value : Z) (n : nat) : Z * nat :=
  match nptr with
  | c :: t =>
      if isdigit c then strtoull_loop t (u64 (u64 (value * 10) + (c - 48))) (S n) else (value, n)
  | [] => (value, n)
  end.

(** [strtoull(nptr, &end)]: the value and [end - nptr]. *)
Definition strtoull (nptr : list Z) : Z * nat :=
  let skip := if (deref nptr =? 43) && isdigit (deref1 nptr) then 1%nat else 0%nat in
  strtoull_loop (drop skip nptr) 0 skip.

(** [strtoll(nptr, &end)]: the value and [end - nptr]. *)
Definition strtoll (nptr : list Z) : Z * nat :=
  if (deref nptr =? 45) && isdigit (deref1 nptr) then
    let '(v, n) := strtoull (drop 1 nptr) in (s64 (u64 (v * -1)), S n)
  else
    let '(v, n) := strtoull nptr in (s64 v, n).

(** One pass of the digit loop of [strtof]: the accumulated value, the number
    of digits used and the number of characters read. *)
Fixpoint strtof_digits (firstPass : bool) (nptr : list Z) (current : f32) (numberOfDigits : Z)
    (n : nat) : f32 * Z * nat :=
  match nptr with
  | c :: t =>
      if isdigit c then
        if firstPass || negb (numberOfDigits =? FLT_DIG) then
          strtof_digits firstPass t ((current ⊗ f_of_Z 10) ⊕ f_of_Z (c - 48))
            (u8 (numberOfDigits + 1)) (S n)
        else strtof_digits firstPass t current numberOfDigits (S n)
      else (current, numberOfDigits, n)
  | [] => (current, numberOfDigits, n)
  end.

(** [for(i = n; i > 0; --i) decimalValue /= 10]. *)
Fixpoint div10 (n : nat) (x : f32) : f32 :=
  match n with O => x | S n => div10 n (x ⊘ f_of_Z 10) end.

(** The integer and fractional part read by [strtof] after the sign: the
    value and the number of characters used. *)
Definition strtof_body (nptr : list Z) : f32 * nat :=
  let '(value, _, n1) := strtof_digits true nptr f_zero 0 0 in
  let nptr := drop n1 nptr in
  let dot := if (deref nptr =? 46) && isdigit (deref1 nptr) then 1%nat else 0%nat in
  let nptr := drop dot nptr in
  let '(decimalValue, numberOfDigits, n2) := strtof_digits false nptr f_zero 0 0 in
  (value ⊕ div10 (Z.to_nat numberOfDigits) decimalValue, (n1 + dot + n2)%nat).

(** [strtof(nptr, &end)]: the value and [end - nptr]. *)
Definition strtof (nptr : list Z) : f32 * nat :=
  let signed := ((deref nptr =? 45) || (deref nptr =? 43))
                && (isdigit (deref1 nptr) || ((deref1 nptr =? 46) && isdigit (deref2 nptr))) in
  let negative := signed && (deref nptr =? 45) in
  let skip := if signed then 1%nat else 0%nat in
  let '(value, n) := strtof_body (drop skip nptr) in
  (if negative then value ⊗ f_of_Z (-1) else value, (skip + n)%nat).

(** The [min] and [max] macros of compiler.h at type float. *)
Definition fmin (a b : f32) : f32 := if flt a b then a else b.
Definition fmax (a b : f32) : f32 := if flt b a then a else b.

Definition getValueInRange (value minValue maxValue : f32) : f32 :=
  fmin maxValue (fmax minValue value).

(** [UINT32_MAX] becomes a float here: 4294967296. *)
Definition minimumOneCeil (value : f32) : option Z :=
  f_to_u32 (getValueInRange (f_ceil value) (f_of_Z 1) (f_of_Z 4294967295)).

(** The delay loop. [stop] and [cond] give, for the k-th test of the loop
    condition, whether an emergency stop is requested and the value of the
    watched condition; the result is the number of 100 microsecond delays. *)
Fixpoint delayHundredsOfMicroseconds (stop cond : nat -> bool) (k h : nat) : nat :=
  match h with
  | O => 0%nat
  | S h' => if negb (stop k) && cond k
            then S (delayHundredsOfMicroseconds stop cond (S k) h') else 0%nat
  end.

Definition lowerCase (value : Z) : Z := Z.lor value (Z.lxor 65 97).

(** ** Decimal notation *)

(** The reference digits of a number, most significant first. *)
Fixpoint digits_loop (n : nat) (v : Z) (acc : list Z) : list Z :=
  match n with
  | O => acc
  | S n => if v / 10 =? 0 then (v mod 10 + 48) :: acc
           else digits_loop n (v / 10) ((v mod 10 + 48) :: acc)
  end.

Definition digits (v : Z) : list Z := digits_loop 20 v [].

(** The value of a string of digits. *)
Definition dec_value (s : list Z) : Z := fold_left (fun v c => v * 10 + (c - 48)) s 0.

(** ** Digits *)

Lemma isdigit_spec c : isdigit c = true <-> 48 <= c <= 57.
Proof. unfold isdigit. rewrite andb_true_iff, !Z.leb_le. tauto. Qed.

Lemma digits_loop_acc n v acc : digits_loop n v acc = digits_loop n v [] ++ acc.
Proof.
  revert v acc; induction n as [|n IH]; intros v acc; simpl; [reflexivity|].
  case_bool; [reflexivity|].
  rewrite IH, (IH _ [_]), <- app_assoc. reflexivity.
Qed.

Lemma digits_loop_length n v : (length (digits_loop n v []) <= n)%nat.
Proof.
  revert v; induction n as [|n IH]; intros v; simpl; [lia|].
  case_bool; simpl; [lia|].
  rewrite digits_loop_acc, length_app. simpl. specialize (IH (v / 10)). lia.
Qed.

Lemma digits_loop_nonempty n v : (0 < n)%nat -> (0 < length (digits_loop n v []))%nat.
Proof.
  destruct n; [lia|]. intros _. simpl. case_bool; simpl; [lia|].
  rewrite digits_loop_acc, length_app. simpl. lia.
Qed.

Lemma digits_loop_digit n v :
  0 <= v -> Forall (fun c => isdigit c = true) (digits_loop n v []).
Proof.
  revert v; induction n as [|n IH]; intros v Hv; simpl; [constructor|].
  assert (isdigit (v mod 10 + 48) = true).
  { apply isdigit_spec. pose proof (Z.mod_pos_bound v 10). lia. }
  case_bool; [repeat constructor; assumption|].
  rewrite digits_loop_acc. apply Forall_app. split; [|repeat constructor; assumption].
  apply IH. apply Z.div_pos; lia.
Qed.

Lemma dec_value_app s t : dec_value (s ++ t) = fold_left (fun v c => v * 10 + (c - 48)) t (dec_value s).
Proof. unfold dec_value. apply fold_left_app. Qed.

Lemma digits_loop_value n v : 0 <= v < 10 ^ Z.of_nat n -> dec_value (digits_loop n v []) = v.
Proof.
  revert v; induction n as [|n IH]; intros v Hv.
  { change (10 ^ Z.of_nat 0) with 1 in Hv. simpl. unfold dec_value. simpl. lia. }
  rewrite Nat2Z.inj_succ, Z.pow_succ_r in Hv by lia.
  simpl. case_bool.
  - bool_hyps. unfold dec_value. simpl.
    pose proof (Z.div_mod v 10). lia.
  - rewrite digits_loop_acc, dec_value_app, IH.
    + simpl. pose proof (Z.div_mod v 10). lia.
    + split; [apply Z.div_pos; lia|]. apply Z.div_lt_upper_bound; lia.
Qed.

(** No leading zero, except for zero itself. *)
Lemma digits_loop_canonical n v :
  0 <= v < 10 ^ Z.of_nat n -> deref (digits_loop n v []) = 48 -> v = 0.
Proof.
  revert v; induction n as [|n IH]; intros v Hv.
  { simpl. change (10 ^ Z.of_nat 0) with 1 in Hv. lia. }
  rewrite Nat2Z.inj_succ, Z.pow_succ_r in Hv by lia.
  simpl. case_bool; intros Hd.
  - simpl in Hd. bool_hyps. pose proof (Z.div_mod v 10). lia.
  - rewrite digits_loop_acc in Hd.
    destruct n as [|n]. { change (10 ^ Z.of_nat 0) with 1 in Hv. bool_hyps. lia_mod. }
    pose proof (digits_loop_nonempty (S n) (v / 10) ltac:(lia)) as Hl.
    assert (v / 10 = 0) as E.
    { apply IH; [split; [apply Z.div_pos; lia|apply Z.div_lt_upper_bound; lia]|].
      destruct (digits_loop (S n) (v / 10) []); simpl in *; [lia|assumption]. }
    bool_hyps. contradiction.
Qed.

Definition two64 : Z := 18446744073709551616.

Lemma digits_value v : 0 <= v < two64 -> dec_value (digits v) = v.
Proof. intros H. apply digits_loop_value. unfold two64 in H. change (10 ^ Z.of_nat 20) with 100000000000000000000. lia. Qed.

Lemma digits_digit v : 0 <= v -> Forall (fun c => isdigit c = true) (digits v).
Proof. apply digits_loop_digit. Qed.

Lemma digits_length v : (1 <= length (digits v) <= 20)%nat.
Proof. unfold digits. pose proof (digits_loop_length 20 v). pose proof (digits_loop_nonempty 20 v). lia. Qed.

Lemma isdigit_nonzero s : Forall (fun c => isdigit c = true) s -> Forall (fun c => c <> 0) s.
Proof. apply Forall_impl. intros c H. apply isdigit_spec in H. lia. Qed.

#[export] Hint Resolve digits_digit isdigit_nonzero : fw.

(** ** ulltoa and lltoa *)

(** The digit loop writes the digits of the value just below index [i]. *)
Lemma ulltoa_loop_spec n v i buffer :
  0 <= v < 10 ^ Z.of_nat n -> (0 < n)%nat -> Z.of_nat n <= i <= len buffer -> i < 256 ->
  ulltoa_loop n v i buffer =
    Some (take (Z.to_nat i - length (digits_loop n v [])) buffer ++ digits_loop n v []
          ++ drop (Z.to_nat i) buffer, i - len (digits_loop n v [])).
Proof.
  revert v i buffer; induction n as [|n IH]; intros v i buffer Hv Hn Hi Hb; [lia|].
  rewrite Nat2Z.inj_succ, Z.pow_succ_r in Hv by lia. simpl.
  rewrite u8_id by lia. rewrite store_in by lia. simpl.
  assert (Z.to_nat (i - 1) < length buffer)%nat as Hlt by lia.
  case_bool.
  - simpl. f_equal. f_equal.
    rewrite insert_take_drop by lia.
    replace (Z.to_nat (i - 1)) with (Z.to_nat i - 1)%nat by lia.
    f_equal. f_equal. f_equal. lia.
  - bool_hyps. destruct n as [|n].
    { change (10 ^ Z.of_nat 0) with 1 in Hv. lia_mod. }
    rewrite IH; [|split; [apply Z.div_pos; lia|apply Z.div_lt_upper_bound; lia]|lia| |lia].
    2: { rewrite length_insert. lia. }
    rewrite (digits_loop_acc (S n) _ [_]), length_app.
    set (d := digits_loop (S n) (v / 10) []).
    assert (length d <= S n)%nat by apply digits_loop_length.
    f_equal. f_equal; [|simpl; lia].
    rewrite (take_insert_ge _ _ (Z.to_nat (i - 1))) by lia.
    rewrite drop_insert_ge, Nat.sub_diag by lia.
    change (length [(v mod 10 + 48)%Z]) with 1%nat.
    replace (Z.to_nat i - (length d + 1))%nat with (Z.to_nat (i - 1) - length d)%nat by lia.
    rewrite <- app_assoc. f_equal. f_equal.
    destruct (drop (Z.to_nat (i - 1)) buffer) as [|x t] eqn:E.
    { apply (f_equal length) in E. rewrite length_drop in E. simpl in E. lia. }
    simpl. f_equal. replace (Z.to_nat i) with (Z.to_nat (i - 1) + 1)%nat by lia.
    rewrite <- drop_drop, E. reflexivity.
Qed.

Lemma ulltoa_buffer v buffer :
  0 <= v < two64 -> INT_BUFFER_SIZE - 1 <= len buffer ->
  exists junk, ulltoa v buffer = Some (digits v ++ 0 :: junk) /\ length (digits v ++ 0 :: junk) = length buffer.
Proof.
  intros Hv Hb. unfold ulltoa. change INT_BUFFER_SIZE with 22 in *.
  change (u8 (22 - 1 - 1)) with 20. rewrite store_in by lia. bind_some.
  set (b1 := <[_ := 0]> buffer).
  assert (length b1 = length buffer) as L1 by apply length_insert.
  rewrite (ulltoa_loop_spec 20 v 20 b1); try lia.
  2: { unfold two64 in Hv. change (10 ^ Z.of_nat 20) with 100000000000000000000. lia. }
  bind_some. fold (digits v). pose proof (digits_length v) as Hd.
  set (d := digits v) in *. set (m := take _ b1 ++ d ++ drop _ b1).
  assert (length m = length buffer) as Lm.
  { unfold m. rewrite !length_app, length_take, length_drop. lia. }
  rewrite memmove_in by lia. rewrite take_0. cbn [app].
  replace (Z.to_nat (22 - (20 - len d) - 1)) with (S (length d)) by lia.
  replace (Z.to_nat (20 - len d)) with (20 - length d)%nat by lia.
  assert (drop (20 - length d) m = d ++ drop 20 b1) as Ed.
  { unfold m. change (Pos.to_nat 20) with 20%nat.
    rewrite drop_app_length'; [reflexivity|]. rewrite length_take. lia. }
  rewrite Ed.
  assert (drop 20 b1 = 0 :: drop 21 b1) as E0.
  { apply drop_S. unfold b1. rewrite list_lookup_insert_eq; [reflexivity|]. lia. }
  rewrite E0.
  replace (d ++ 0 :: drop 21 b1) with ((d ++ [0]) ++ drop 21 b1) by (rewrite <- app_assoc; reflexivity).
  rewrite take_app_length' by (rewrite length_app; simpl; lia).
  rewrite <- app_assoc. simpl. eexists. split; [reflexivity|].
  rewrite length_app. simpl. rewrite length_drop. rewrite Lm. lia.
Qed.

(** ** strtoull and strtoll *)

Lemma strtoull_loop_digits ds rest v n :
  Forall (fun c => isdigit c = true) ds -> isdigit (deref rest) = false ->
  strtoull_loop (ds ++ rest) (u64 v) n =
    (u64 (fold_left (fun v c => v * 10 + (c - 48)) ds v), (n + length ds)%nat).
Proof.
  intros Hds Hr. revert v n; induction Hds as [|c t Hc Ht IH]; intros v n; simpl.
  - rewrite Nat.add_0_r. destruct rest as [|c t]; [reflexivity|]. simpl in *. rewrite Hr. reflexivity.
  - rewrite Hc. rewrite u64_add_idemp.
    replace (u64 (u64 v * 10 + (c - 48))) with (u64 (v * 10 + (c - 48))).
    + rewrite IH. f_equal. lia.
    + rewrite <- (u64_add_idemp (u64 v * 10)), u64_mul_idemp, u64_add_idemp. reflexivity.
Qed.

Lemma strtoull_digits ds rest :
  Forall (fun c => isdigit c = true) ds -> (0 < length ds)%nat -> isdigit (deref rest) = false ->
  strtoull (ds ++ rest) = (u64 (dec_value ds), length ds).
Proof.
  intros Hds Hl Hr. unfold strtoull.
  destruct ds as [|c t]; [simpl in Hl; lia|].
  assert ((deref ((c :: t) ++ rest) =? 43) = false) as E.
  { simpl. apply Forall_inv in Hds. apply isdigit_spec in Hds. apply Z.eqb_neq. lia. }
  rewrite E. cbn [andb drop].
  change 0 with (u64 0) at 1. apply strtoull_loop_digits; assumption.
Qed.

Lemma strtoull_range s : 0 <= fst (strtoull s) < two64.
Proof.
  unfold strtoull.
  assert (forall s v n, 0 <= v < two64 -> 0 <= fst (strtoull_loop s v n) < two64) as H.
  { induction s0 as [|c t IH]; intros v n Hv; simpl; [assumption|].
    case_bool; [|assumption]. apply IH. apply u64_range. }
  apply H. unfold two64. lia.
Qed.

Lemma strtoull_loop_count s v n : (n <= snd (strtoull_loop s v n))%nat.
Proof.
  revert v n; induction s as [|c t IH]; intros v n; simpl; [lia|].
  destruct (isdigit c); simpl; [|lia]. etransitivity; [|apply IH]. lia.
Qed.

Lemma strtoull_reads s : isdigit (deref s) = true -> snd (strtoull s) <> 0%nat.
Proof.
  intros H. unfold strtoull. destruct s as [|c t]; [discriminate|]. cbn [deref hd] in *.
  destruct (Z.eqb_spec c 43) as [->|_]; [discriminate|]. cbn [andb drop skipn strtoull_loop]. rewrite H.
  match goal with |- context [strtoull_loop t ?v 1] => pose proof (strtoull_loop_count t v 1) end. lia.
Qed.

Lemma strtoll_digits_pos ds rest :
  Forall (fun c => isdigit c = true) ds -> (0 < length ds)%nat -> isdigit (deref rest) = false ->
  strtoll (ds ++ rest) = (s64 (u64 (dec_value ds)), length ds).
Proof.
  intros Hds Hl Hr. unfold strtoll.
  destruct ds as [|c t] eqn:E; [simpl in Hl; lia|].
  assert ((deref ((c :: t) ++ rest) =? 45) = false) as E'.
  { simpl. apply Forall_inv in Hds. apply isdigit_spec in Hds. apply Z.eqb_neq. lia. }
  rewrite E'. cbn [andb]. rewrite strtoull_digits by assumption. reflexivity.
Qed.

Lemma strtoll_digits_neg ds rest :
  Forall (fun c => isdigit c = true) ds -> (0 < length ds)%nat -> isdigit (deref rest) = false ->
  strtoll (45 :: ds ++ rest) = (s64 (u64 (dec_value ds) * -1), S (length ds)).
Proof.
  intros Hds Hl Hr. unfold strtoll. cbn [deref hd].
  assert (isdigit (deref1 (45 :: ds ++ rest)) = true) as E.
  { destruct ds as [|c t]; [simpl in Hl; lia|]. apply Forall_inv in Hds. exact Hds. }
  rewrite E. change (drop 1 (45 :: ds ++ rest)) with (ds ++ rest).
  rewrite strtoull_digits by assumption. cbn [andb Z.eqb Pos.eqb].
  rewrite s64_u64. reflexivity.
Qed.

(** ** Clamping *)

Lemma getValueInRange_num v lo hi :
  is_num v = true -> is_num lo = true -> is_num hi = true ->
  is_num (getValueInRange v lo hi) = true.
Proof. intros. unfold getValueInRange, fmin, fmax. repeat case_bool; assumption. Qed.

(** The bounds of the clamped value. *)
Lemma getValueInRange_bounds v lo hi :
  is_num v = true -> fle lo hi = true ->
  fle lo (getValueInRange v lo hi) = true /\ fle (getValueInRange v lo hi) hi = true /\
  (flt v lo = false -> flt hi v = false -> getValueInRange v lo hi = v) /\
  (flt v lo = true -> getValueInRange v lo hi = lo) /\
  (flt hi v = true -> getValueInRange v lo hi = hi).
Proof.
  intros Hv Hlh.
  assert (is_num lo = true /\ is_num hi = true) as [Hlo Hhi].
  { unfold fle, SFleb in Hlh. destruct lo, hi; simpl in *; try discriminate; auto. }
  assert (flt hi lo = false) as Hn.
  { rewrite fle_not_flt in Hlh by assumption. apply negb_true_iff. exact Hlh. }
  unfold getValueInRange, fmin, fmax.
  destruct (flt v lo) eqn:E1, (flt hi v) eqn:E2; rewrite ?Hn.
  - rewrite (flt_trans _ _ _ E2 E1) in Hn. discriminate.
  - repeat split; auto with fw; discriminate.
  - repeat split; auto with fw; discriminate.
  - repeat split; try discriminate; auto; rewrite fle_not_flt by assumption.
    + rewrite E1. reflexivity.
    + rewrite E2. reflexivity.
Qed.

Lemma delay_le stop cond k h : (delayHundredsOfMicroseconds stop cond k h <= h)%nat.
Proof. revert k; induction h; intros k; simpl; [lia|]. case_bool; [|lia]. specialize (IHh (S k)). lia. Qed.

(** ** ftoa *)

Definition decimals4 (d : Z) : list Z :=
  [d / 10 / 10 / 10 mod 10 + 48; d / 10 / 10 mod 10 + 48; d / 10 mod 10 + 48; d mod 10 + 48].

Lemma ftoa_digits_ulltoa n temp i buffer : ftoa_digits n temp i buffer = ulltoa_loop n temp i buffer.
Proof.
  revert temp i buffer; induction n as [|n IH]; intros temp i buffer; simpl; [reflexivity|].
  destruct (store _ _ _) as [b|]; simpl; [|reflexivity]. rewrite IH. reflexivity.
Qed.

(** Storing after a prefix of known length. *)
Lemma store_app (P t : list Z) i v :
  len P <= i -> i < len P + len t ->
  store (P ++ t) i v = Some (P ++ <[Z.to_nat (i - len P) := v]> t).
Proof.
  intros H1 H2. rewrite store_in by (rewrite length_app; lia).
  rewrite insert_app_r_alt by lia. do 3 f_equal. lia.
Qed.

Lemma ftoa_decimals_spec P j temp x1 x2 x3 x4 post :
  j = len P ->
  ftoa_decimals 4 temp j (P ++ 46 :: x1 :: x2 :: x3 :: x4 :: 0 :: post) =
    Some (P ++ 46 :: decimals4 temp ++ 0 :: post).
Proof.
  intros ->. cbn [ftoa_decimals]. do 4 (rewrite store_app by (rewrite ?length_insert; cbn [length]; lia); bind_some).
  rewrite !Z.add_simpl_l. reflexivity.
Qed.

Lemma memmove_to_front (P s post : list Z) n :
  n = len s -> memmove (P ++ s ++ post) 0 (len P) n = Some (s ++ drop (length s) (P ++ s ++ post)).
Proof.
  intros ->. rewrite memmove_in by (rewrite ?length_app; lia).
  rewrite take_0, Z.add_0_l, !Nat2Z.id, drop_app_length, take_app_length. reflexivity.
Qed.

Lemma f_to_unsigned_range hi x n : f_to_unsigned hi x = Some n -> 0 <= n <= hi.
Proof. unfold f_to_unsigned. destruct (f_trunc x); [|discriminate]. case_bool; [|discriminate]. intros [=]. bool_hyps. lia. Qed.
Lemma f_to_u32_range x n : f_to_u32 x = Some n -> 0 <= n <= 4294967295.
Proof. apply f_to_unsigned_range. Qed.

(** The text of a float: optional sign, integer digits, point, four decimals. *)
Definition float_text (negative : bool) (n d : Z) : list Z :=
  (if negative then [45] else []) ++ digits_loop 10 n [] ++ 46 :: decimals4 d.

(** The last part of [ftoa]: the optional sign and the move to the front. *)
Lemma ftoa_finish (negative : bool) P t n :
  (1 <= length P)%nat -> n = len P -> len P < 256 ->
  forall s post, t = s ++ post -> len s = FLOAT_BUFFER_SIZE - len P ->
  exists tail,
  ('(buffer, i) ← (if negative
                  then let i := u8 (n - 1) in buffer ← store (P ++ t) i 45; Some (buffer, i)
                  else Some (P ++ t, n));
   memmove buffer 0 i (FLOAT_BUFFER_SIZE - i)) =
    Some ((if negative then [45] else []) ++ s ++ tail) /\
  length ((if negative then [45] else []) ++ s ++ tail) = length (P ++ t).
Proof.
  intros HP -> H256 s post -> Hs. destruct negative; bind_some.
  - rewrite u8_id by lia.
    destruct (exists_last (l := P)) as (P0 & x & ->); [destruct P; simpl in *; [lia|discriminate]|].
    rewrite length_app in *. cbn [length] in *.
    rewrite <- app_assoc. rewrite store_app by (cbn [length app]; lia). bind_some.
    replace (Z.to_nat _) with 0%nat by lia. cbn [app insert list_insert].
    change (45 :: s ++ post) with ((45 :: s) ++ post).
    replace (Z.of_nat (length P0 + 1) - 1) with (len P0) by lia.
    rewrite memmove_to_front by (cbn [length]; lia).
    eexists. split; [reflexivity|].
    cbn [app length]. rewrite !length_app, length_drop, !length_app. cbn [length]. rewrite length_app. lia.
  - rewrite memmove_to_front by lia. eexists. split; [reflexivity|].
    cbn [app]. rewrite !length_app, length_drop, !length_app. lia.
Qed.

(** ** The texts of numbers *)

Definition is_digits (s : list Z) : bool := negb (length s =? 0)%nat && forallb isdigit s.

Definition is_decimal (s : list Z) : bool :=
  let n := count_while isdigit s in
  match drop n s with
  | [] => negb (n =? 0)%nat
  | c :: f => (c =? 46) && is_digits f
  end.

Lemma is_digits_Forall s :
  is_digits s = true -> Forall (fun c => isdigit c = true) s /\ (0 < length s)%nat.
Proof.
  unfold is_digits. intros H. bool_hyps. apply Nat.eqb_neq in H. split; [|lia].
  apply Forall_forall. intros x Hx. rewrite forallb_forall in H0. apply H0, Hx.
Qed.

Lemma strtof_digits_app fp ds rest cur nd n :
  Forall (fun c => isdigit c = true) ds -> isdigit (deref rest) = false ->
  strtof_digits fp (ds ++ rest) cur nd n = strtof_digits fp ds cur nd n /\
  snd (strtof_digits fp ds cur nd n) = (n + length ds)%nat.
Proof.
  intros Hds Hr. revert cur nd n; induction Hds as [|c t Hc Ht IH]; intros cur nd n; simpl.
  - split; [|lia]. destruct rest as [|c t]; [reflexivity|]. simpl in *. rewrite Hr. reflexivity.
  - rewrite Hc. rewrite <- Nat.add_succ_comm. case_bool; apply IH.
Qed.

Lemma count_while_take p s : Forall (fun c => p c = true) (take (count_while p s) s).
Proof. induction s as [|c t IH]; simpl; [constructor|]. destruct (p c) eqn:E; constructor; assumption. Qed.

Lemma deref_app_nonempty (s t : list Z) : (0 < length s)%nat -> deref (s ++ t) = deref s.
Proof. destruct s; simpl; [lia|reflexivity]. Qed.

Lemma is_decimal_split u :
  is_decimal u = true ->
  exists ds r, u = ds ++ r /\ Forall (fun c => isdigit c = true) ds /\ (0 < length u)%nat /\
    (r = [] \/ exists f, r = 46 :: f /\ is_digits f = true).
Proof.
  unfold is_decimal. intros H. pose proof (count_while_take isdigit u) as Hds.
  pose proof (count_while_length isdigit u) as Hl.
  exists (take (count_while isdigit u) u), (drop (count_while isdigit u) u).
  rewrite take_drop. split; [reflexivity|]. split; [assumption|].
  destruct (drop _ u) as [|c f] eqn:E; bool_hyps.
  - apply Nat.eqb_neq in H. split; [lia|auto].
  - split; [destruct u; [rewrite drop_nil in E; discriminate|simpl; lia]|].
    right. exists f. subst c. auto.
Qed.

Lemma strtof_body_app u rest :
  is_decimal u = true -> isdigit (deref rest) = false -> deref rest <> 46 ->
  strtof_body (u ++ rest) = strtof_body u /\ snd (strtof_body u) = length u.
Proof.
  intros Hu Hr H46. apply Z.eqb_neq in H46.
  destruct (is_decimal_split u Hu) as (ds & r & -> & Hds & _ & [-> | (f & -> & Hf)]).
  - rewrite !app_nil_r. unfold strtof_body.
    destruct (strtof_digits_app true ds rest f_zero 0 0 Hds Hr) as [E L]. rewrite E.
    destruct (strtof_digits true ds f_zero 0 0) as [[v d] n1]. simpl in L. subst n1.
    rewrite drop_app_length, H46, drop_all. cbn [andb drop skipn deref hd Z.eqb].
    destruct (strtof_digits_app false [] rest f_zero 0 0 ltac:(constructor) Hr) as [E' L'].
    cbn [app] in E'. rewrite drop_0, E'. split; [reflexivity|]. simpl. lia.
  - apply is_digits_Forall in Hf. destruct Hf as [Hf Lf].
    unfold strtof_body. rewrite <- app_assoc. cbn [app].
    destruct (strtof_digits_app true ds (46 :: f ++ rest) f_zero 0 0 Hds eq_refl) as [E L].
    destruct (strtof_digits_app true ds (46 :: f) f_zero 0 0 Hds eq_refl) as [E2 _].
    rewrite E, E2. destruct (strtof_digits true ds f_zero 0 0) as [[v d] n1]. simpl in L. subst n1.
    rewrite !drop_app_length.
    assert (isdigit (deref1 (46 :: f ++ rest)) = true /\ isdigit (deref1 (46 :: f)) = true) as [E1 E3].
    { destruct f; [simpl in Lf; lia|]. apply Forall_inv in Hf. split; exact Hf. }
    rewrite E1, E3. cbn [andb deref hd Z.eqb Pos.eqb]. rewrite !skipn_cons, !drop_0.
    destruct (strtof_digits_app false f rest f_zero 0 0 Hf Hr) as [E' L']. rewrite E'.
    destruct (strtof_digits false f f_zero 0 0) as [[v' d'] n2]. simpl in L'. subst n2.
    split; [reflexivity|]. cbn [snd]. rewrite length_app. cbn [length]. lia.
Qed.

(** A decimal number after a sign. *)
Definition is_signed_decimal (s : list Z) : bool :=
  match s with
  | [] => false
  | c :: t => if (c =? 45) || (c =? 43) then is_decimal t else is_decimal s
  end.

Lemma is_decimal_start u :
  is_decimal u = true ->
  isdigit (deref u) || ((deref u =? 46) && isdigit (deref1 u)) = true /\
  deref u <> 45 /\ deref u <> 43.
Proof.
  intros Hu. destruct (is_decimal_split u Hu) as (ds & r & -> & Hds & Hl & [-> | (f & -> & Hf)]).
  - rewrite app_nil_r in *. destruct ds as [|c t]; [simpl in Hl; lia|].
    apply Forall_inv in Hds. pose proof (proj1 (isdigit_spec c) Hds). simpl. rewrite Hds. lia.
  - destruct ds as [|c t].
    + apply is_digits_Forall in Hf. destruct Hf as [Hf Lf].
      destruct f as [|c t]; [simpl in Lf; lia|]. apply Forall_inv in Hf. simpl. unfold deref1. simpl.
      rewrite Hf. split; [reflexivity|lia].
    + apply Forall_inv in Hds. pose proof (proj1 (isdigit_spec c) Hds). simpl. rewrite Hds. lia.
Qed.

Lemma strtof_text s rest :
  is_signed_decimal s = true -> isdigit (deref rest) = false -> deref rest <> 46 ->
  strtof (s ++ rest) = strtof s /\ snd (strtof s) = length s.
Proof.
  intros Hs Hr H46. destruct s as [|c t]; [discriminate|]. unfold is_signed_decimal in Hs.
  destruct ((c =? 45) || (c =? 43)) eqn:Ec.
  - destruct (is_decimal_start t Hs) as [Hd _].
    destruct (strtof_body_app t rest Hs Hr H46) as [E L].
    destruct (is_decimal_split t Hs) as (_ & _ & _ & _ & Ht & _).
    unfold strtof. cbn [app deref hd]. rewrite Ec.
    assert (deref1 (c :: t ++ rest) = deref t /\ deref1 (c :: t) = deref t) as [E1 E2].
    { destruct t; [simpl in Ht; lia|split; reflexivity]. }
    assert ((deref t =? 46) && isdigit (deref2 (c :: t ++ rest)) = (deref t =? 46) && isdigit (deref1 t)) as E3.
    { destruct t as [|c1 [|c2 t2]]; [simpl in Ht; lia| |reflexivity].
      unfold is_decimal in Hs. simpl in *. destruct (isdigit c1) eqn:D; simpl in Hs.
      - apply isdigit_spec in D. destruct (Z.eqb_spec c1 46); [lia|reflexivity].
      - destruct (c1 =? 46); discriminate. }
    assert (deref2 (c :: t) = deref1 t) as E4 by reflexivity.
    rewrite E1, E2, E3, E4, Hd. cbn [andb]. rewrite !skipn_cons, !drop_0.
    rewrite E. destruct (strtof_body t) as [v n]. simpl in L. subst n. split; reflexivity.
  - destruct (strtof_body_app (c :: t) rest Hs Hr H46) as [E L].
    unfold strtof. cbn [app deref hd]. rewrite Ec. cbn [andb]. rewrite !drop_0.
    cbn [app] in E. rewrite E. destruct (strtof_body (c :: t)) as [v n]. simpl in L. subst n.
    split; reflexivity.
Qed.

(** ** Properties *)

(** Printing an unsigned 64-bit value and reading it back is the identity:
    [ulltoa] stays inside its [INT_BUFFER_SIZE - 1] byte area, writes the
    decimal digits with no leading zero, and [strtoull] on the result (whatever
    non-digit follows it) returns the value and stops after the digits. *)
Theorem strtoull_ulltoa v buffer rest :
  0 <= v < two64 -> INT_BUFFER_SIZE - 1 <= len buffer -> isdigit (deref rest) = false ->
  exists buffer', ulltoa v buffer = Some buffer' /\ length buffer' = length buffer /\
    (deref (cstr buffer') = 48 -> v = 0) /\
    strtoull (cstr buffer' ++ rest) = (v, length (cstr buffer')).
Proof.
  intros Hv Hb Hr. destruct (ulltoa_buffer v buffer Hv Hb) as (junk & E & L).
  eexists. split; [exact E|]. split; [exact L|].
  rewrite cstr_app_nul by (apply isdigit_nonzero, digits_digit; lia).
  split.
  - apply digits_loop_canonical. change (10 ^ Z.of_nat 20) with 100000000000000000000. unfold two64 in Hv. lia.
  - pose proof (digits_length v).
    rewrite strtoull_digits, digits_value, u64_id by (auto with fw; unfold two64 in *; lia || (apply digits_digit; lia)).
    reflexivity.
Qed.

(** Printing a signed 64-bit value and reading it back is the identity,
    within a buffer of [INT_BUFFER_SIZE] bytes, for every value whose negation
    is a signed 64-bit value. *)
Theorem strtoll_lltoa v buffer rest :
  -9223372036854775808 < v < 9223372036854775808 -> INT_BUFFER_SIZE <= len buffer ->
  isdigit (deref rest) = false ->
  exists buffer', lltoa v buffer = Some buffer' /\ length buffer' = length buffer /\
    strtoll (cstr buffer' ++ rest) = (v, length (cstr buffer')).
Proof.
  intros Hv Hb Hr. unfold lltoa. change INT_BUFFER_SIZE with 22 in *.
  destruct (Z.ltb_spec v 0).
  - rewrite store_in by lia. bind_some.
    destruct buffer as [|b0 bt]; [simpl in Hb; lia|].
    change (drop 1 (<[Z.to_nat 0:=45]> (b0 :: bt))) with bt.
    change (take 1 (<[Z.to_nat 0:=45]> (b0 :: bt))) with [45].
    rewrite mul_s64_in by lia. bind_some.
    assert (u64 (v * -1) = - v) as E by (rewrite u64_id; lia).
    rewrite E. change (length (b0 :: bt)) with (S (length bt)) in Hb.
    destruct (ulltoa_buffer (- v) bt) as (junk & E' & L); [unfold two64; lia|change INT_BUFFER_SIZE with 22; lia|].
    rewrite E'. bind_some. eexists. split; [reflexivity|]. split; [cbn [app length]; lia|].
    change ([45] ++ digits (- v) ++ 0 :: junk) with ((45 :: digits (- v)) ++ 0 :: junk).
    rewrite cstr_app_nul by (constructor; [lia|apply isdigit_nonzero, digits_digit; lia]).
    pose proof (digits_length (- v)). cbn [app].
    rewrite strtoll_digits_neg, digits_value by (auto with fw; unfold two64; try lia; apply digits_digit; lia).
    rewrite u64_id by lia. rewrite s64_id by lia. cbn [length]. f_equal. lia.
  - rewrite u64_id by lia.
    destruct (ulltoa_buffer v buffer) as (junk & E' & L); [unfold two64; lia|change INT_BUFFER_SIZE with 22; lia|].
    rewrite E'. eexists. split; [reflexivity|]. split; [exact L|].
    rewrite cstr_app_nul by (apply isdigit_nonzero, digits_digit; lia).
    pose proof (digits_length v).
    rewrite strtoll_digits_pos, digits_value by (auto with fw; unfold two64; try lia; apply digits_digit; lia).
    rewrite u64_id by lia. rewrite s64_id by lia. reflexivity.
Qed.

(** Printing a float: whenever the integer part of the magnitude and the
    scaled fraction fit the unsigned 32-bit integers they are converted to,
    [ftoa] stays inside its [FLOAT_BUFFER_SIZE] byte area and leaves a minus sign
    for a negative value, the integer part without leading zeros, a point, the
    last four digits of the scaled fraction, and the terminator. *)
Theorem ftoa_text value buffer n d :
  f_to_u32 (fabs value) = Some n ->
  f_to_u32 ((fabs value ⊖ f_of_Z n) ⊗ f_of_Z 10000) = Some d ->
  FLOAT_BUFFER_SIZE <= len buffer ->
  exists tail, ftoa value buffer = Some (float_text (flt value f_zero) n d ++ 0 :: tail) /\
    length (float_text (flt value f_zero) n d ++ 0 :: tail) = length buffer.
Proof.
  intros Hn Hd Hb. pose proof (f_to_u32_range _ _ Hn) as Hr.
  unfold ftoa. change FLOAT_BUFFER_SIZE with 17 in *.
  change (17 - 1) with 16. change (16 - (1 + NUMBER_OF_DECIMAL_PLACES)) with 11.
  rewrite store_in by lia. bind_some. rewrite store_in by (rewrite length_insert; lia). bind_some.
  rewrite Hn. bind_some. rewrite ftoa_digits_ulltoa, ulltoa_loop_spec; try lia.
  2: { rewrite !length_insert. lia. }
  bind_some. rewrite Hd. bind_some. unfold float_text.
  pose proof (digits_loop_length 10 n) as L1. pose proof (digits_loop_nonempty 10 n ltac:(lia)) as L2.
  set (ds := digits_loop 10 n []) in *.
  do 17 (destruct buffer as [|? buffer]; [cbn [length] in Hb; lia|]).
  change (Z.to_nat 11) with 11%nat. change (Z.to_nat 16) with 16%nat.
  cbn [insert list_insert drop skipn].
  set (P1 := take (11 - length ds) _).
  assert (length P1 = 11 - length ds)%nat as LP.
  { unfold P1. rewrite length_take. cbn [length]. lia. }
  rewrite app_assoc.
  rewrite ftoa_decimals_spec by (rewrite length_app; lia). bind_some.
  rewrite <- app_assoc.
  replace (ds ++ 46 :: decimals4 d ++ 0 :: buffer) with ((ds ++ 46 :: decimals4 d ++ [0]) ++ buffer)
    by (rewrite <- !app_assoc; cbn [app]; rewrite <- app_assoc; reflexivity).
  destruct (ftoa_finish (flt value f_zero) P1 ((ds ++ 46 :: decimals4 d ++ [0]) ++ buffer)
              (11 - len ds) ltac:(lia) ltac:(lia) ltac:(lia) _ _ eq_refl) as (tail & E & L).
  { rewrite length_app. cbn [length decimals4 app]. change FLOAT_BUFFER_SIZE with 17. lia. }
  change FLOAT_BUFFER_SIZE with 17 in E. cbv zeta in E.
  exists tail. rewrite E. split.
  - f_equal. rewrite <- !app_assoc. cbn [app]. rewrite <- !app_assoc. reflexivity.
  - transitivity (length (P1 ++ (ds ++ 46 :: decimals4 d ++ [0]) ++ buffer)).
    + rewrite <- L. f_equal. rewrite <- !app_assoc. cbn [app]. rewrite <- !app_assoc. reflexivity.
    + rewrite !length_app. cbn [length app decimals4]. lia.
Qed.

(** Clamping: for an ordered pair of bounds and a value that is not NaN,
    [getValueInRange] returns a number between the bounds, returns the value
    itself when it already lies between them, and otherwise the bound on the
    side the value lies. *)
Theorem getValueInRange_spec v lo hi :
  is_num v = true -> fle lo hi = true ->
  fle lo (getValueInRange v lo hi) = true /\ fle (getValueInRange v lo hi) hi = true /\
  (flt v lo = false -> flt hi v = false -> getValueInRange v lo hi = v) /\
  (flt v lo = true -> getValueInRange v lo hi = lo) /\
  (flt hi v = true -> getValueInRange v lo hi = hi).
Proof. apply getValueInRange_bounds. Qed.

(** The delay loop waits for as many steps as requested, unless the k-th
    test sees an emergency stop or a false condition, in which case it has
    waited exactly k steps. *)
Theorem delay_spec stop cond h :
  let d := delayHundredsOfMicroseconds stop cond 0 h in
  (d <= h)%nat /\ (forall j, (j < d)%nat -> stop j = false /\ cond j = true) /\
  ((d < h)%nat -> stop d = true \/ cond d = false).
Proof.
  cut (forall k, let d := delayHundredsOfMicroseconds stop cond k h in
    (d <= h)%nat /\ (forall j, (j < d)%nat -> stop (k + j)%nat = false /\ cond (k + j)%nat = true) /\
    ((d < h)%nat -> stop (k + d)%nat = true \/ cond (k + d)%nat = false)).
  { intros H. exact (H 0%nat). }
  induction h as [|h IH]; intros k; simpl.
  { repeat split; intros; lia. }
  destruct (negb (stop k) && cond k) eqn:E.
  - specialize (IH (S k)). simpl in IH. destruct IH as (I1 & I2 & I3).
    bool_hyps. split; [lia|]. split.
    + intros [|j] Hj; [rewrite Nat.add_0_r; auto|].
      rewrite Nat.add_succ_r. apply I2. lia.
    + intros Hlt. rewrite Nat.add_succ_r. apply I3. lia.
  - split; [lia|]. split; [intros; lia|]. intros _. rewrite Nat.add_0_r.
    destruct (stop k), (cond k); simpl in *; auto; discriminate.
Qed.

(** ** Witnesses *)

Lemma strtoull_ulltoa_witness :
  exists buffer', ulltoa 18446744073709551615 (repeat 0 22) = Some buffer' /\
    length buffer' = 22%nat /\
    (deref (cstr buffer') = 48 -> 18446744073709551615 = 0) /\
    strtoull (cstr buffer' ++ [32]) = (18446744073709551615, length (cstr buffer')).
Proof. apply (strtoull_ulltoa 18446744073709551615 (repeat 0 22) [32]); vm_compute; intuition congruence. Defined.

Lemma strtoll_lltoa_witness :
  exists buffer', lltoa (-9223372036854775807) (repeat 0 22) = Some buffer' /\
    length buffer' = 22%nat /\
    strtoll (cstr buffer' ++ []) = (-9223372036854775807, length (cstr buffer')).
Proof. apply (strtoll_lltoa (-9223372036854775807) (repeat 0 22) []); vm_compute; intuition congruence. Defined.

Lemma ftoa_text_witness :
  exists tail, ftoa (f_of_dec (-25) 2) (repeat 1 20) = Some (float_text true 12 5000 ++ 0 :: tail) /\
    length (float_text true 12 5000 ++ 0 :: tail) = 20%nat.
Proof. apply (ftoa_text (f_of_dec (-25) 2) (repeat 1 20) 12 5000); vm_compute; congruence. Defined.

Lemma getValueInRange_spec_witness :
  getValueInRange (f_of_Z 300) f_zero (f_of_Z 255) = f_of_Z 255 /\
  fle f_zero (getValueInRange (f_of_Z 300) f_zero (f_of_Z 255)) = true.
Proof.
  destruct (getValueInRange_spec (f_of_Z 300) f_zero (f_of_Z 255)) as (H1 & _ & _ & _ & H5);
    [reflexivity|reflexivity|].
  split; [apply H5; reflexivity|exact H1].
Defined.
