(* ===== verification/Gcode.v ===== *)
(** * The G-code parser (gcode.cpp, gcode.h)

    [parseCommand] reads one command line into a [Gcode] record. The command
    is the list of characters up to the terminating NUL. The only loop that
    may not end is the checksum loop, whose eight-bit index never reaches an
    asterisk past offset 255; [None] is that case. *)

From Stdlib Require Import String.
From S2P Require Import Prelude Float32 Common.

(** ** Definitions *)

(** The build option of the Makefile that compiles the host commands in. *)
Class Build := { ENABLE_HOST_COMMANDS : bool }.

(** The Makefile's own setting. *)
Definition default_build : Build := {| ENABLE_HOST_COMMANDS := false |}.

Definition PARAMETER_G_OFFSET : Z := 1.
Definition PARAMETER_M_OFFSET : Z := Z.shiftl 1 1.
Definition PARAMETER_T_OFFSET : Z := Z.shiftl 1 2.
Definition PARAMETER_S_OFFSET : Z := Z.shiftl 1 3.
Definition PARAMETER_P_OFFSET : Z := Z.shiftl 1 4.
Definition PARAMETER_X_OFFSET : Z := Z.shiftl 1 5.
Definition PARAMETER_Y_OFFSET : Z := Z.shiftl 1 6.
Definition PARAMETER_Z_OFFSET : Z := Z.shiftl 1 7.
Definition PARAMETER_F_OFFSET : Z := Z.shiftl 1 8.
Definition PARAMETER_E_OFFSET : Z := Z.shiftl 1 9.
Definition PARAMETER_N_OFFSET : Z := Z.shiftl 1 10.
Definition PARAMETER_HOST_COMMAND_OFFSET : Z := Z.shiftl 1 11.
Definition VALID_CHECKSUM_OFFSET : Z := Z.shiftl 1 12.

(** The characters of "gmtspxyzfen". *)
Definition PARAMETER_ORDER : list Z := [103; 109; 116; 115; 112; 120; 121; 122; 102; 101; 110].

Record Gcode := mkGcode {
  isParsed : bool;
  commandParameters : Z;
  valueG : Z; valueM : Z; valueT : Z; valueS : Z; valueP : Z;
  valueX : f32; valueY : f32; valueZ : f32; valueF : f32; valueE : f32;
  valueN : Z;
  hostCommand : list Z
}.

Definition set_isParsed (b : bool) (g : Gcode) : Gcode :=
  mkGcode b (commandParameters g) (valueG g) (valueM g) (valueT g) (valueS g) (valueP g)
    (valueX g) (valueY g) (valueZ g) (valueF g) (valueE g) (valueN g) (hostCommand g).
Definition set_commandParameters (p : Z) (g : Gcode) : Gcode :=
  mkGcode (isParsed g) p (valueG g) (valueM g) (valueT g) (valueS g) (valueP g)
    (valueX g) (valueY g) (valueZ g) (valueF g) (valueE g) (valueN g) (hostCommand g).
Definition set_hostCommand (h : list Z) (g : Gcode) : Gcode :=
  mkGcode (isParsed g) (commandParameters g) (valueG g) (valueM g) (valueT g) (valueS g) (valueP g)
    (valueX g) (valueY g) (valueZ g) (valueF g) (valueE g) (valueN g) h.

Definition isWhitespace (value : Z) : bool :=
  (value =? 32) || ((9 <=? value) && (value <=? 13)).

(** The character at an index; the terminator at and past the end. *)
Definition char_at (command : list Z) (i : Z) : Z := nth (Z.to_nat i) command 0.

(** [strchr(s, c)] as an offset, for [c] other than NUL. *)
Fixpoint strchr (s : list Z) (c : Z) : option nat :=
  match s with
  | [] => None
  | x :: t => if x =? c then Some 0%nat else S <$> strchr t c
  end.

(** The [switch(parameterBit)]: store the converted value; the second
    component is the number of characters the conversion used. *)
Definition save_value (parameterBit : Z) (nptr : list Z) (g : Gcode) : Gcode * nat :=
  let '(mkGcode b p vG vM vT vS vP vX vY vZ vF vE vN h) := g in
  if parameterBit =? PARAMETER_G_OFFSET then
    let '(v, n) := strtoull nptr in (mkGcode b p (u8 v) vM vT vS vP vX vY vZ vF vE vN h, n)
  else if parameterBit =? PARAMETER_M_OFFSET then
    let '(v, n) := strtoull nptr in (mkGcode b p vG (u16 v) vT vS vP vX vY vZ vF vE vN h, n)
  else if parameterBit =? PARAMETER_T_OFFSET then
    let '(v, n) := strtoull nptr in (mkGcode b p vG vM (u8 v) vS vP vX vY vZ vF vE vN h, n)
  else if parameterBit =? PARAMETER_S_OFFSET then
    let '(v, n) := strtoll nptr in (mkGcode b p vG vM vT (s32 v) vP vX vY vZ vF vE vN h, n)
  else if parameterBit =? PARAMETER_P_OFFSET then
    let '(v, n) := strtoll nptr in (mkGcode b p vG vM vT vS (s32 v) vX vY vZ vF vE vN h, n)
  else if parameterBit =? PARAMETER_X_OFFSET then
    let '(v, n) := strtof nptr in (mkGcode b p vG vM vT vS vP v vY vZ vF vE vN h, n)
  else if parameterBit =? PARAMETER_Y_OFFSET then
    let '(v, n) := strtof nptr in (mkGcode b p vG vM vT vS vP vX v vZ vF vE vN h, n)
  else if parameterBit =? PARAMETER_Z_OFFSET then
    let '(v, n) := strtof nptr in (mkGcode b p vG vM vT vS vP vX vY v vF vE vN h, n)
  else if parameterBit =? PARAMETER_F_OFFSET then
    let '(v, n) := strtof nptr in (mkGcode b p vG vM vT vS vP vX vY vZ v vE vN h, n)
  else if parameterBit =? PARAMETER_E_OFFSET then
    let '(v, n) := strtof nptr in (mkGcode b p vG vM vT vS vP vX vY vZ vF v vN h, n)
  else
    let '(v, n) := strtoull nptr in (mkGcode b p vG vM vT vS vP vX vY vZ vF vE v h, n).

(** One iteration of the parameter loop: the next index and record. *)
Definition parse_step (command : list Z) (i : Z) (g : Gcode) : Z * Gcode :=
  match strchr PARAMETER_ORDER (lowerCase (char_at command i)) with
  | Some parameterIndex =>
      let parameterBit := u16 (Z.shiftl 1 (Z.of_nat parameterIndex)) in
      if flag (commandParameters g) parameterBit then (u8 (i + 1), g)
      else
        let i := u8 (i + 1) in
        let '(g, n) := save_value parameterBit (drop (Z.to_nat i) command) g in
        let '(g, i) :=
          if (n =? 0)%nat then (g, i)
          else (set_commandParameters (Z.lor (commandParameters g) parameterBit) g,
                u8 (i + Z.of_nat n)) in
        let i := u8 (i - 1) in
        (u8 (i + 1), g)
  | None => (u8 (i + 1), g)
  end.

(** The parameter loop [for(i = startParsingOffset; i < stopParsingOffset; ++i)]. *)
Fixpoint parse_loop (fuel : nat) (command : list Z) (stop i : Z) (g : Gcode) : option Gcode :=
  match fuel with
  | O => None
  | S fuel =>
      if i <? stop then
        let '(i, g) := parse_step command i g in parse_loop fuel command stop i g
      else Some g
  end.

(** The checksum loop [for(uint8_t i = 0; command[i] != '*'; ++i)]. *)
Fixpoint checksum_loop (fuel : nat) (command : list Z) (i calculated : Z) : option Z :=
  match fuel with
  | O => None
  | S fuel =>
      if char_at command i =? 42 then Some calculated
      else checksum_loop fuel command (u8 (i + 1)) (Z.lxor calculated (char_at command i))
  end.

(** The check of the checksum at or after [last]. *)
Definition parse_checksum (command : list Z) (last : nat) (g : Gcode) : option Gcode :=
  match strchr (drop last command) 42 with
  | None => Some g
  | Some k =>
      let '(v, n) := strtoull (drop (last + k + 1) command) in
      let providedChecksum := u8 v in
      if (n =? 0)%nat then Some g
      else calculated ← checksum_loop 257 command 0 0;
           Some (if calculated =? providedChecksum
                 then set_commandParameters (Z.lor (commandParameters g) VALID_CHECKSUM_OFFSET) g
                 else g)
  end.

(** The characters that end a command. *)
Definition ends_command (c : Z) : bool := (c =? 0) || (c =? 59) || (c =? 42) || (c =? 10).

(** Offsets of the first valid character and of the end of the command. *)
Definition first_valid (command : list Z) : nat := count_while isWhitespace command.
Definition last_valid (command : list Z) : nat :=
  let first := first_valid command in
  let n := count_while (fun c => negb (ends_command c)) (drop first command) in
  let trailing := count_while isWhitespace (rev (take n (drop first command))) in
  (first + n - trailing)%nat.

(** The iterations of the parameter loop that always suffice: each of the
    eleven parameters may restart the scan of at most 256 characters once. *)
Definition PARSE_FUEL : nat := 3073.

Definition HOST_COMMAND_SIZE : Z := 255 + 1.

Definition parseCommand `{Build} (command : list Z) (g : Gcode) : option Gcode :=
  let g := set_commandParameters 0 (set_isParsed true g) in
  let first := first_valid command in
  let last := last_valid command in
  if (last =? first)%nat then Some g
  else
    let startParsingOffset := u8 (Z.of_nat first) in
    let stopParsingOffset := u8 (Z.of_nat last) in
    if char_at command (Z.of_nat first) =? 64 then
      Some (if ENABLE_HOST_COMMANDS then
              let commandLength := Z.min (u8 (stopParsingOffset - startParsingOffset - 1))
                                         (HOST_COMMAND_SIZE - 1) in
              if commandLength =? 0 then g
              else set_commandParameters (Z.lor (commandParameters g) PARAMETER_HOST_COMMAND_OFFSET)
                     (set_hostCommand (take (Z.to_nat commandLength) (drop (S first) command)) g)
            else g)
    else
      g ← parse_loop PARSE_FUEL command stopParsingOffset startParsingOffset g;
      parse_checksum command last g.

Definition clearCommand `{Build} (g : Gcode) : Gcode :=
  mkGcode false 0 0 0 0 0 0 f_zero f_zero f_zero f_zero f_zero 0
    (if ENABLE_HOST_COMMANDS then [] else hostCommand g).

Definition isEmpty (g : Gcode) : bool := negb (isParsed g).
Definition hasParameterG (g : Gcode) : bool := flag (commandParameters g) PARAMETER_G_OFFSET.
Definition hasParameterM (g : Gcode) : bool := flag (commandParameters g) PARAMETER_M_OFFSET.
Definition hasParameterT (g : Gcode) : bool := flag (commandParameters g) PARAMETER_T_OFFSET.
Definition hasParameterS (g : Gcode) : bool := flag (commandParameters g) PARAMETER_S_OFFSET.
Definition hasParameterP (g : Gcode) : bool := flag (commandParameters g) PARAMETER_P_OFFSET.
Definition hasParameterX (g : Gcode) : bool := flag (commandParameters g) PARAMETER_X_OFFSET.
Definition hasParameterY (g : Gcode) : bool := flag (commandParameters g) PARAMETER_Y_OFFSET.
Definition hasParameterZ (g : Gcode) : bool := flag (commandParameters g) PARAMETER_Z_OFFSET.
Definition hasParameterF (g : Gcode) : bool := flag (commandParameters g) PARAMETER_F_OFFSET.
Definition hasParameterE (g : Gcode) : bool := flag (commandParameters g) PARAMETER_E_OFFSET.
Definition hasParameterN (g : Gcode) : bool := flag (commandParameters g) PARAMETER_N_OFFSET.
Definition hasHostCommand (g : Gcode) : bool := flag (commandParameters g) PARAMETER_HOST_COMMAND_OFFSET.
Definition hasValidChecksum (g : Gcode) : bool := flag (commandParameters g) VALID_CHECKSUM_OFFSET.

(** ** Flags *)

(** The index of a parameter's letter gives its bit. *)
Lemma strchr_lt s c k : strchr s c = Some k -> (k < length s)%nat /\ nth k s 0 = c.
Proof.
  revert k; induction s as [|x t IH]; intros k; simpl; [discriminate|].
  destruct (Z.eqb_spec x c) as [->|N]; [intros [= <-]; simpl; split; [lia|reflexivity]|].
  destruct (strchr t c) as [k'|]; simpl; [|discriminate]. intros [= <-].
  destruct (IH k' eq_refl). simpl. split; [lia|assumption].
Qed.

Lemma strchr_None s c : strchr s c = None <-> ~ In c s.
Proof.
  induction s as [|x t IH]; simpl; [tauto|].
  destruct (Z.eqb_spec x c) as [->|N]; [split; [discriminate|tauto]|].
  destruct (strchr t c); simpl; [split; [discriminate|]|]; intuition congruence.
Qed.

Lemma strchr_app s c t : ~ In c s -> strchr (s ++ c :: t) c = Some (length s).
Proof.
  induction s as [|x s' IH]; simpl; intros H; [rewrite Z.eqb_refl; reflexivity|].
  destruct (Z.eqb_spec x c); [tauto|]. rewrite IH by tauto. reflexivity.
Qed.

Lemma flag_bit p k : 0 <= k -> flag p (Z.shiftl 1 k) = Z.testbit p k.
Proof.
  intros Hk. unfold flag. rewrite Z.shiftl_1_l.
  destruct (Z.testbit p k) eqn:E.
  - apply negb_true_iff, Z.eqb_neq. intros H0.
    assert (Z.testbit (Z.land p (2 ^ k)) k = true) as T
      by (rewrite Z.land_spec, E, Z.pow2_bits_true by lia; reflexivity).
    rewrite H0, Z.bits_0 in T. discriminate.
  - apply negb_false_iff, Z.eqb_eq. apply Z.bits_inj'. intros j Hj.
    rewrite Z.land_spec, Z.bits_0. destruct (Z.eq_dec j k) as [->|N]; [rewrite E; reflexivity|].
    rewrite Z.pow2_bits_false by lia. apply andb_false_r.
Qed.

Lemma testbit_lor_bit p k j : 0 <= k -> Z.testbit (Z.lor p (Z.shiftl 1 k)) j = Z.testbit p j || (j =? k).
Proof.
  intros Hk. rewrite Z.lor_spec, Z.shiftl_1_l. f_equal.
  destruct (Z.eqb_spec j k) as [->|N]; [apply Z.pow2_bits_true; lia|apply Z.pow2_bits_false; lia].
Qed.

(** Parameter bits fit sixteen bits. *)
Lemma parameter_bit (k : nat) : (k < 11)%nat -> u16 (Z.shiftl 1 (Z.of_nat k)) = Z.shiftl 1 (Z.of_nat k).
Proof. intros. do 11 (destruct k as [|k]; [reflexivity|]). lia. Qed.

(** ** Conversions stored by the switch *)

(** The parameters of the record as a function of the parameter index: used
    to say which field an index names. *)
Inductive field_value := VInt (z : Z) | VFloat (x : f32).

Definition field (g : Gcode) (k : nat) : field_value :=
  match k with
  | 0 => VInt (valueG g) | 1 => VInt (valueM g) | 2 => VInt (valueT g)
  | 3 => VInt (valueS g) | 4 => VInt (valueP g)
  | 5 => VFloat (valueX g) | 6 => VFloat (valueY g) | 7 => VFloat (valueZ g)
  | 8 => VFloat (valueF g) | 9 => VFloat (valueE g) | _ => VInt (valueN g)
  end%nat.

(** What the parameter with index [k] reads at a pointer. *)
Definition convert (k : nat) (nptr : list Z) : field_value * nat :=
  match k with
  | 0 | 2 => let '(v, n) := strtoull nptr in (VInt (u8 v), n)
  | 1 => let '(v, n) := strtoull nptr in (VInt (u16 v), n)
  | 3 | 4 => let '(v, n) := strtoll nptr in (VInt (s32 v), n)
  | 5 | 6 | 7 | 8 | 9 => let '(v, n) := strtof nptr in (VFloat v, n)
  | _ => let '(v, n) := strtoull nptr in (VInt v, n)
  end%nat.

Lemma save_value_spec k nptr g : (k < 11)%nat ->
  let '(g', n) := save_value (u16 (Z.shiftl 1 (Z.of_nat k))) nptr g in
  isParsed g' = isParsed g /\ commandParameters g' = commandParameters g /\
  hostCommand g' = hostCommand g /\
  (forall j, (j < 11)%nat -> field g' j = if (j =? k)%nat then fst (convert k nptr) else field g j) /\
  n = snd (convert k nptr).
Proof.
  intros Hk. rewrite parameter_bit by assumption.
  unfold save_value, convert. destruct g.
  destruct (strtoull nptr) as [v1 n1], (strtoll nptr) as [v2 n2], (strtof nptr) as [v3 n3].
  do 11 (destruct k as [|k];
    [cbv -[u8 u16 s32 field]; repeat apply conj; try reflexivity;
     intros j Hj; do 11 (destruct j as [|j]; [reflexivity|]); lia|]).
  lia.
Qed.

(** ** Termination of the parameter loop *)

(** The number of parameters not read yet. *)
Definition unread (p : Z) : Z :=
  fold_right (fun k n => (if Z.testbit p (Z.of_nat k) then 0 else 1) + n) 0 (seq 0 11).

Lemma unread_range p : 0 <= unread p <= 11.
Proof. unfold unread. cbn [seq fold_right]. repeat case_bool; lia. Qed.

Lemma unread_set p k : (k < 11)%nat -> Z.testbit p (Z.of_nat k) = false ->
  unread (Z.lor p (Z.shiftl 1 (Z.of_nat k))) = unread p - 1.
Proof.
  intros Hk Hf. unfold unread. cbn [seq fold_right].
  rewrite !testbit_lor_bit by lia.
  do 11 (destruct k as [|k];
    [cbn -[Z.testbit Z.add Z.sub] in Hf |- *; rewrite Hf, ?orb_false_r, ?orb_true_r;
     cbn -[Z.testbit Z.add Z.sub]; lia|]).
  lia.
Qed.

(** A step either moves one character on with the same parameters, or reads
    one more parameter. *)
Lemma parse_step_progress command i g :
  0 <= i < 255 ->
  let '(i', g') := parse_step command i g in
  0 <= i' < 256 /\
  ((i' = i + 1 /\ unread (commandParameters g') = unread (commandParameters g)) \/
   unread (commandParameters g') = unread (commandParameters g) - 1).
Proof.
  intros Hi. unfold parse_step.
  destruct (strchr _ _) as [k|] eqn:Hk; [|rewrite u8_id by lia; lia].
  apply strchr_lt in Hk. destruct Hk as [Hk _]. change (length PARAMETER_ORDER) with 11%nat in Hk.
  pose proof (save_value_spec k (drop (Z.to_nat (u8 (i + 1))) command) g Hk) as Hs.
  rewrite parameter_bit in * by assumption. rewrite flag_bit by lia.
  destruct (Z.testbit _ _) eqn:Hb; [rewrite u8_id by lia; lia|].
  destruct (save_value _ _ _) as [g' n]. destruct Hs as (_ & Hp & _ & _ & _).
  destruct (n =? 0)%nat; cbn [commandParameters set_commandParameters].
  - rewrite !Hp, (u8_id (i + 1)), u8_id, u8_id by (rewrite ?u8_id; lia). lia.
  - rewrite Hp, unread_set by assumption. split; [apply u8_range|lia].
Qed.

Lemma parse_loop_total fuel command stop i g :
  0 <= i < 256 -> stop < 256 ->
  unread (commandParameters g) * 256 + (256 - i) <= Z.of_nat fuel ->
  exists g', parse_loop fuel command stop i g = Some g'.
Proof.
  revert i g; induction fuel as [|fuel IH]; intros i g Hi Hs Hf.
  { pose proof (unread_range (commandParameters g)). lia. }
  simpl. destruct (Z.ltb_spec i stop); [|eauto].
  pose proof (parse_step_progress command i g ltac:(lia)) as Hp.
  destruct (parse_step command i g) as [i' g']. destruct Hp as [Hr Hp].
  apply IH; lia.
Qed.

Lemma parse_loop_fuel command stop i g :
  0 <= i < 256 -> stop < 256 -> exists g', parse_loop PARSE_FUEL command stop i g = Some g'.
Proof.
  intros. apply parse_loop_total; try assumption.
  pose proof (unread_range (commandParameters g)). unfold PARSE_FUEL. lia.
Qed.

(** ** The checksum loop *)

Definition xor_bytes (s : list Z) : Z := fold_left Z.lxor s 0.

Lemma char_at_app_l pre s : (0 < length s)%nat -> char_at (pre ++ s) (len pre) = deref s.
Proof.
  intros. unfold char_at. rewrite Nat2Z.id, app_nth2, Nat.sub_diag by lia.
  destruct s; [simpl in *; lia|reflexivity].
Qed.

Lemma checksum_loop_spec fuel pre body rest acc :
  ~ In 42 body -> len pre + len body < 256 -> (length body < fuel)%nat ->
  checksum_loop fuel (pre ++ body ++ 42 :: rest) (len pre) acc = Some (fold_left Z.lxor body acc).
Proof.
  revert pre body acc; induction fuel as [|fuel IH]; intros pre body acc Hin Hlen Hf; [lia|].
  cbn [checksum_loop]. rewrite char_at_app_l by (rewrite length_app; simpl; lia).
  destruct body as [|c t]; [reflexivity|]. cbn [app deref hd].
  destruct (Z.eqb_spec c 42) as [->|N]; [simpl in Hin; tauto|].
  cbn [length] in *. rewrite u8_id by lia.
  replace (pre ++ c :: t ++ 42 :: rest) with ((pre ++ [c]) ++ t ++ 42 :: rest)
    by (rewrite <- app_assoc; reflexivity).
  replace (len pre + 1) with (len (pre ++ [c])) by (rewrite length_app; simpl; lia).
  rewrite IH; [reflexivity|simpl in Hin; tauto|rewrite length_app; simpl; lia|lia].
Qed.

Lemma checksum_loop_diverges fuel command i acc :
  (forall j, 0 <= j < 256 -> char_at command j <> 42) -> 0 <= i < 256 ->
  checksum_loop fuel command i acc = None.
Proof.
  intros H. revert i acc; induction fuel as [|fuel IH]; intros i acc Hi; [reflexivity|].
  simpl. destruct (Z.eqb_spec (char_at command i) 42); [exfalso; eapply H; eauto|].
  apply IH, u8_range.
Qed.

(** Splitting a command at its first asterisk. *)
Lemma strchr_split s c k :
  strchr s c = Some k -> exists a b, s = a ++ c :: b /\ length a = k /\ ~ In c a.
Proof.
  revert k; induction s as [|x t IH]; intros k; simpl; [discriminate|].
  destruct (Z.eqb_spec x c) as [->|N].
  - intros [= <-]. exists [], t. auto.
  - destruct (strchr t c) as [k'|]; simpl; [|discriminate]. intros [= <-].
    destruct (IH k' eq_refl) as (a & b & -> & <- & Ha). exists (x :: a), b.
    repeat split; simpl; tauto.
Qed.

Lemma in_drop (s : list Z) c n : In c (drop n s) -> In c s.
Proof. intros H. rewrite <- (take_drop n s). apply in_or_app. auto. Qed.

Lemma strchr_some_of_drop s c n k : strchr (drop n s) c = Some k -> exists k', strchr s c = Some k'.
Proof.
  intros H. destruct (strchr s c) eqn:E; [eauto|]. exfalso.
  apply strchr_None in E. apply strchr_split in H. destruct H as (a & b & H & _ & _).
  apply E, (in_drop _ _ n). rewrite H. apply in_elt.
Qed.

Lemma checksum_loop_total command :
  (forall k, strchr command 42 = Some k -> (k < 256)%nat) -> (exists k, strchr command 42 = Some k) ->
  exists c, checksum_loop 257 command 0 0 = Some c.
Proof.
  intros H [k Hk]. specialize (H k Hk). apply strchr_split in Hk.
  destruct Hk as (a & b & -> & <- & Ha). eexists.
  apply (checksum_loop_spec 257 [] a b 0); simpl; [assumption|lia|lia].
Qed.

(** ** The extent of the command *)

Lemma count_while_prefix p a c b :
  p c = false -> (count_while p (a ++ c :: b) <= length a)%nat.
Proof. intros Hc. induction a; simpl; [rewrite Hc; lia|]. destruct (p a); lia. Qed.

Lemma last_valid_before_asterisk command k :
  strchr command 42 = Some k -> (last_valid command <= k)%nat.
Proof.
  intros H. apply strchr_split in H. destruct H as (a & b & -> & <- & Ha).
  unfold last_valid. pose proof (count_while_prefix isWhitespace a 42 b eq_refl) as Hf.
  fold (first_valid (a ++ 42 :: b)) in Hf. set (f := first_valid _) in *.
  rewrite drop_app_le by lia.
  pose proof (count_while_prefix (fun c => negb (ends_command c)) (drop f a) 42 b eq_refl) as Hl.
  rewrite length_drop in Hl. lia.
Qed.

Lemma strchr_after_last command k :
  strchr command 42 = Some k ->
  strchr (drop (last_valid command) command) 42 = Some (k - last_valid command)%nat.
Proof.
  intros H. pose proof (last_valid_before_asterisk _ _ H) as Hl.
  apply strchr_split in H. destruct H as (a & b & -> & <- & Ha).
  rewrite drop_app_le by lia. rewrite strchr_app, length_drop; [reflexivity|].
  intros Hin. apply Ha. eapply in_drop. exact Hin.
Qed.

(** ** Rendered command lines *)

(** The texts a parameter reads to their end: digits, with a minus sign for S
    and P; a signed decimal number for X, Y, Z, F and E. *)
Definition value_text (k : nat) (t : list Z) : bool :=
  match k with
  | 3 | 4 => is_digits t || ((deref t =? 45)%Z && is_digits (tl t))
  | 5 | 6 | 7 | 8 | 9 => is_signed_decimal t
  | _ => is_digits t
  end%nat.

(** A word of a command: a letter, in either case, and the text of its value. *)
Definition word_ok (w : Z * list Z) : bool :=
  match strchr PARAMETER_ORDER (lowerCase (fst w)) with
  | Some k => negb (isWhitespace (fst w)) && negb (ends_command (fst w)) && value_text k (snd w)
  | None => false
  end.

Definition word_index (w : Z * list Z) : nat :=
  default 0%nat (strchr PARAMETER_ORDER (lowerCase (fst w))).

(** Words separated by single spaces. *)
Fixpoint render (ws : list (Z * list Z)) : list Z :=
  match ws with
  | [] => []
  | [w] => fst w :: snd w
  | w :: ws => fst w :: snd w ++ 32 :: render ws
  end.

(** What storing a word does to the record. *)
Definition put_word (g : Gcode) (w : Z * list Z) : Gcode :=
  let bit := u16 (Z.shiftl 1 (Z.of_nat (word_index w))) in
  let g := fst (save_value bit (snd w) g) in
  set_commandParameters (Z.lor (commandParameters g) bit) g.

Definition stops_number (rest : list Z) : Prop :=
  isdigit (deref rest) = false /\ deref rest <> 46.

Lemma convert_text k t rest :
  (k < 11)%nat -> value_text k t = true -> stops_number rest ->
  convert k (t ++ rest) = convert k t /\ snd (convert k t) = length t.
Proof.
  intros Hk Ht [Hr H46].
  assert (is_digits t = true -> strtoull (t ++ rest) = strtoull t /\ snd (strtoull t) = length t) as Hu.
  { intros D. apply is_digits_Forall in D. destruct D as [D L].
    rewrite strtoull_digits by assumption.
    pose proof (strtoull_digits t [] D L eq_refl) as E. rewrite app_nil_r in E. rewrite E. split; reflexivity. }
  assert (is_digits t = true -> strtoll (t ++ rest) = strtoll t /\ snd (strtoll t) = length t) as Hl.
  { intros D. apply is_digits_Forall in D. destruct D as [D L].
    rewrite strtoll_digits_pos by assumption.
    pose proof (strtoll_digits_pos t [] D L eq_refl) as E. rewrite app_nil_r in E. rewrite E. split; reflexivity. }
  assert ((deref t =? 45) && is_digits (tl t) = true ->
          strtoll (t ++ rest) = strtoll t /\ snd (strtoll t) = length t) as Hn.
  { intros D. bool_hyps. destruct t as [|c t]; [discriminate|]. simpl in H, H0. subst c.
    apply is_digits_Forall in H0. destruct H0 as [D L].
    cbn [app]. rewrite strtoll_digits_neg by assumption.
    pose proof (strtoll_digits_neg t [] D L eq_refl) as E. rewrite app_nil_r in E. rewrite E. split; reflexivity. }
  do 11 (destruct k as [|k]; [cbn [value_text] in Ht; unfold convert;
    first [ destruct (Hu Ht) as [-> L]; destruct (strtoull t); auto
          | apply orb_true_iff in Ht; destruct Ht as [Ht|Ht];
            [destruct (Hl Ht) as [-> L] | destruct (Hn Ht) as [-> L]]; destruct (strtoll t); auto
          | destruct (strtof_text t rest Ht Hr H46) as [-> L]; destruct (strtof t); auto ]|]).
  lia.
Qed.

(** [save_value] depends on the text only through [convert]. *)
Lemma save_value_text k t rest g :
  (k < 11)%nat -> value_text k t = true -> stops_number rest ->
  save_value (u16 (Z.shiftl 1 (Z.of_nat k))) (t ++ rest) g
  = (fst (save_value (u16 (Z.shiftl 1 (Z.of_nat k))) t g), length t).
Proof.
  intros Hk Ht Hr. destruct (convert_text k t rest Hk Ht Hr) as [E L].
  rewrite parameter_bit by assumption.
  clear Ht Hr. revert E L. unfold convert, save_value. destruct g.
  destruct (strtoull (t ++ rest)) as [v1 n1], (strtoll (t ++ rest)) as [v2 n2],
    (strtof (t ++ rest)) as [v3 n3].
  destruct (strtoull t) as [w1 m1], (strtoll t) as [w2 m2], (strtof t) as [w3 m3].
  do 11 (destruct k as [|k]; [cbv -[u8 u16 s32 length]; intros E L; injection E; intros; subst; congruence|]).
  lia.
Qed.

(** One step of the loop at the letter of a well-formed word. *)
Lemma parse_step_word pre w rest g :
  word_ok w = true -> stops_number rest -> len pre + len (snd w) + 1 < 256 ->
  Z.testbit (commandParameters g) (Z.of_nat (word_index w)) = false ->
  parse_step (pre ++ fst w :: snd w ++ rest) (len pre) g =
    (len pre + 1 + len (snd w), put_word g w).
Proof.
  intros Hw Hr Hl Hb. unfold parse_step, put_word, word_ok, word_index in *.
  rewrite char_at_app_l by (simpl; lia). cbn [deref hd].
  destruct (strchr PARAMETER_ORDER (lowerCase (fst w))) as [k|] eqn:Hk; [|discriminate].
  cbn [default from_option id] in *. bool_hyps.
  apply strchr_lt in Hk. destruct Hk as [Hk _]. change (length PARAMETER_ORDER) with 11%nat in Hk.
  pose proof (parameter_bit k Hk) as Eb. rewrite Eb, flag_bit, Hb by lia. rewrite <- Eb.
  rewrite (u8_id (len pre + 1)) by lia.
  replace (drop (Z.to_nat (len pre + 1)) (pre ++ fst w :: snd w ++ rest)) with (snd w ++ rest).
  2: { replace (Z.to_nat (len pre + 1)) with (length pre + 1)%nat by lia.
       rewrite drop_app_add. reflexivity. }
  rewrite save_value_text by assumption.
  assert (0 < length (snd w))%nat as L0.
  { destruct (snd w) eqn:E; [|simpl; lia].
    do 11 (destruct k as [|k]; [discriminate|]). lia. }
  destruct (length (snd w) =? 0)%nat eqn:El; [apply Nat.eqb_eq in El; lia|].
  rewrite (u8_id (len pre + 1 + _)), u8_id, u8_id by (rewrite ?u8_id; lia).
  f_equal. lia.
Qed.

(** One step at a space. *)
Lemma parse_step_space pre rest g :
  len pre < 255 -> parse_step (pre ++ 32 :: rest) (len pre) g = (len pre + 1, g).
Proof.
  intros. unfold parse_step. rewrite char_at_app_l by (simpl; lia).
  cbn [deref hd]. change (strchr PARAMETER_ORDER (lowerCase 32)) with (@None nat).
  rewrite u8_id by lia. reflexivity.
Qed.

Lemma put_word_params g w :
  word_ok w = true ->
  commandParameters (put_word g w) = Z.lor (commandParameters g) (Z.shiftl 1 (Z.of_nat (word_index w))).
Proof.
  unfold word_ok, put_word, word_index. intros Hw.
  destruct (strchr _ _) as [k|] eqn:Hk; [|discriminate].
  apply strchr_lt in Hk. destruct Hk as [Hk _]. change (length PARAMETER_ORDER) with 11%nat in Hk.
  cbn [default from_option id].
  pose proof (save_value_spec k (snd w) g Hk) as Hs.
  destruct (save_value _ _ _) as [g' n]. destruct Hs as (_ & Hp & _).
  cbn [fst set_commandParameters commandParameters]. rewrite Hp, parameter_bit by assumption. reflexivity.
Qed.

(** Two iterations consume a word and the space after it. *)
Lemma parse_loop_word fuel pre w rest stop g :
  word_ok w = true -> len pre + len (snd w) + 1 < 255 ->
  Z.testbit (commandParameters g) (Z.of_nat (word_index w)) = false ->
  len pre + 1 + len (snd w) < stop ->
  parse_loop (S (S fuel)) (pre ++ fst w :: snd w ++ 32 :: rest) stop (len pre) g
  = parse_loop fuel ((pre ++ fst w :: snd w ++ [32]) ++ rest) stop
      (len (pre ++ fst w :: snd w ++ [32])) (put_word g w).
Proof.
  intros Hw Hl Hb Hs. cbn [parse_loop].
  destruct (Z.ltb_spec (len pre) stop); [|lia].
  rewrite parse_step_word; [|assumption|split; [reflexivity|simpl; lia]|lia|assumption].
  destruct (Z.ltb_spec (len pre + 1 + len (snd w)) stop); [|lia].
  replace (pre ++ fst w :: snd w ++ 32 :: rest) with ((pre ++ fst w :: snd w) ++ 32 :: rest)
    by (rewrite <- app_assoc; reflexivity).
  replace (len pre + 1 + len (snd w)) with (len (pre ++ fst w :: snd w))
    by (rewrite length_app; cbn [length]; lia).
  rewrite parse_step_space by (rewrite length_app; cbn [length]; lia).
  f_equal.
  - rewrite <- !app_assoc. cbn [app]. rewrite <- app_assoc. reflexivity.
  - rewrite !length_app; cbn [length]; rewrite !length_app; cbn [length]; lia.
Qed.

(** The loop on rendered words stores each of them. *)
Lemma parse_loop_render ws pre rest g fuel :
  Forall (fun w => word_ok w = true) ws -> List.NoDup (map word_index ws) ->
  Forall (fun w => Z.testbit (commandParameters g) (Z.of_nat (word_index w)) = false) ws ->
  len pre + len (render ws) < 256 -> stops_number rest -> (2 * length ws < fuel)%nat ->
  parse_loop fuel (pre ++ render ws ++ rest) (len pre + len (render ws)) (len pre) g
  = Some (fold_left put_word ws g).
Proof.
  revert pre g fuel; induction ws as [|w ws IH]; intros pre g fuel Hok Hnd Hb Hl Hr Hf.
  { destruct fuel; [lia|]. cbn [parse_loop render length]. rewrite Z.add_0_r, Z.ltb_irrefl. reflexivity. }
  inversion Hok as [|? ? Hw Hok']; subst. inversion Hb as [|? ? Hbw Hb']; subst.
  cbn [map] in Hnd. apply List.NoDup_cons_iff in Hnd. destruct Hnd as [Hn Hnd].
  cbn [length] in Hf. destruct fuel as [|[|fuel]]; [lia|lia|].
  destruct ws as [|w2 ws].
  - cbn [render fold_left] in *. cbn [length] in Hl |- *.
    cbn [parse_loop]. destruct (Z.ltb_spec (len pre) (len pre + Z.of_nat (S (length (snd w))))); [|lia].
    cbn [app]. rewrite parse_step_word by (assumption || lia).
    destruct (Z.ltb_spec (len pre + 1 + len (snd w)) (len pre + Z.of_nat (S (length (snd w))))); [lia|].
    reflexivity.
  - assert (render (w :: w2 :: ws) = fst w :: snd w ++ 32 :: render (w2 :: ws)) as Er by reflexivity.
    rewrite Er in *. cbn [length] in Hl. rewrite length_app in Hl. cbn [length] in Hl.
    set (R := render (w2 :: ws)) in *.
    replace (pre ++ (fst w :: snd w ++ 32 :: R) ++ rest) with (pre ++ fst w :: snd w ++ 32 :: R ++ rest)
      by (cbn [app]; rewrite <- app_assoc; reflexivity).
    replace (len pre + len (fst w :: snd w ++ 32 :: R)) with (len (pre ++ fst w :: snd w ++ [32]) + len R)
      by (rewrite !length_app; cbn [length]; rewrite !length_app; cbn [length]; lia).
    rewrite parse_loop_word;
      [|assumption|lia|assumption|rewrite !length_app; cbn [length]; rewrite !length_app; cbn [length]; lia].
    change (fold_left put_word (w :: w2 :: ws) g) with (fold_left put_word (w2 :: ws) (put_word g w)).
    apply IH; [assumption|assumption| | |assumption|cbn [length] in *; lia].
    + apply Forall_forall. intros w' Hw'. rewrite put_word_params by assumption.
      rewrite testbit_lor_bit by lia. apply orb_false_iff. split.
      * rewrite Forall_forall in Hb'. apply Hb'. assumption.
      * apply Z.eqb_neq. intros E. apply Hn. apply in_map_iff.
        exists w'. split; [lia|assumption].
    + rewrite !length_app; cbn [length]; rewrite !length_app; cbn [length]. lia.
Qed.

(** ** The record after storing words *)

Lemma word_index_lt w : word_ok w = true -> (word_index w < 11)%nat.
Proof.
  unfold word_ok, word_index. destruct (strchr _ _) as [k|] eqn:Hk; [|discriminate].
  intros _. apply strchr_lt in Hk. exact (proj1 Hk).
Qed.

Lemma put_word_field g w j : word_ok w = true -> (j < 11)%nat ->
  field (put_word g w) j = if (j =? word_index w)%nat then fst (convert (word_index w) (snd w)) else field g j.
Proof.
  intros Hw Hj. pose proof (word_index_lt w Hw) as Hk. unfold put_word.
  pose proof (save_value_spec (word_index w) (snd w) g Hk) as Hs.
  destruct (save_value _ _ _) as [g' n]. destruct Hs as (_ & _ & _ & Hs & _).
  rewrite <- Hs by assumption. do 11 (destruct j as [|j]; [reflexivity|]). lia.
Qed.

Lemma put_word_rest g w : word_ok w = true ->
  isParsed (put_word g w) = isParsed g /\ hostCommand (put_word g w) = hostCommand g.
Proof.
  intros Hw. pose proof (word_index_lt w Hw) as Hk. unfold put_word.
  pose proof (save_value_spec (word_index w) (snd w) g Hk) as Hs.
  destruct (save_value _ _ _) as [g' n]. destruct Hs as (? & _ & ? & _). split; assumption.
Qed.

Lemma put_words_spec ws g :
  Forall (fun w => word_ok w = true) ws -> List.NoDup (map word_index ws) ->
  let g' := fold_left put_word ws g in
  isParsed g' = isParsed g /\ hostCommand g' = hostCommand g /\
  (forall w, In w ws -> field g' (word_index w) = fst (convert (word_index w) (snd w))) /\
  (forall j, (j < 11)%nat -> ~ In j (map word_index ws) -> field g' j = field g j) /\
  (forall j, Z.testbit (commandParameters g') (Z.of_nat j) =
     Z.testbit (commandParameters g) (Z.of_nat j) || existsb (Nat.eqb j) (map word_index ws)).
Proof.
  revert g; induction ws as [|w ws IH]; intros g Hok Hnd; simpl.
  { repeat split; auto; try contradiction. intros. rewrite orb_false_r. reflexivity. }
  inversion Hok as [|? ? Hw Hok']; subst. apply List.NoDup_cons_iff in Hnd. destruct Hnd as [Hn Hnd].
  destruct (IH (put_word g w) Hok' Hnd) as (I1 & I2 & I3 & I4 & I5).
  destruct (put_word_rest g w Hw) as [R1 R2].
  rewrite I1, I2, R1, R2. pose proof (word_index_lt w Hw).
  repeat split.
  - intros w' [<-|Hin]; [|auto].
    rewrite I4, put_word_field, Nat.eqb_refl by assumption. reflexivity.
  - intros j Hj Hni. rewrite I4, put_word_field by tauto.
    destruct (Nat.eqb_spec j (word_index w)) as [->|]; [tauto|reflexivity].
  - intros j. rewrite I5, put_word_params, testbit_lor_bit by (assumption || lia).
    rewrite <- orb_assoc. f_equal. f_equal.
    destruct (Nat.eqb_spec j (word_index w)) as [->|N]; [apply Z.eqb_refl|apply Z.eqb_neq; lia].
Qed.

(** ** The extent of a rendered command *)

Definition number_char (c : Z) : bool := isdigit c || (c =? 43) || (c =? 45) || (c =? 46).

Lemma number_char_plain c : number_char c = true -> isWhitespace c = false /\ ends_command c = false.
Proof.
  unfold number_char, isdigit, isWhitespace, ends_command. intros H. split; bool_hyps; subst;
    repeat (apply orb_false_iff; split); try apply andb_false_iff;
    rewrite ?Z.eqb_neq, ?Z.leb_gt; lia.
Qed.

Lemma digits_number_char s : is_digits s = true -> Forall (fun c => number_char c = true) s.
Proof.
  intros H. apply is_digits_Forall in H. destruct H as [H _]. eapply Forall_impl; [|exact H].
  intros c Hc. unfold number_char. rewrite Hc. reflexivity.
Qed.

Lemma decimal_number_char s : is_decimal s = true -> Forall (fun c => number_char c = true) s.
Proof.
  intros H. destruct (is_decimal_split s H) as (ds & r & -> & Hd & _ & Hr).
  apply Forall_app. split.
  - eapply Forall_impl; [|exact Hd]. intros c Hc. unfold number_char. rewrite Hc. reflexivity.
  - destruct Hr as [-> | (f & -> & Hf)]; [constructor|].
    constructor; [reflexivity|apply digits_number_char; assumption].
Qed.

Lemma value_text_chars k t :
  value_text k t = true -> Forall (fun c => number_char c = true) t /\ (0 < length t)%nat.
Proof.
  assert (is_digits t = true -> Forall (fun c => number_char c = true) t /\ (0 < length t)%nat) as D.
  { intros H. split; [apply digits_number_char; assumption|]. apply is_digits_Forall in H. tauto. }
  assert (is_digits t || (deref t =? 45) && is_digits (tl t) = true ->
          Forall (fun c => number_char c = true) t /\ (0 < length t)%nat) as L.
  { intros H. apply orb_true_iff in H. destruct H as [H|H]; [auto|]. bool_hyps.
    destruct t as [|c t]; [discriminate|]. simpl in *. subst c. split; [|lia].
    constructor; [reflexivity|apply digits_number_char; assumption]. }
  assert (is_signed_decimal t = true -> Forall (fun c => number_char c = true) t /\ (0 < length t)%nat) as F.
  { destruct t as [|c t]; [discriminate|]. cbn [is_signed_decimal]. intros H. split; [|simpl; lia].
    destruct ((c =? 45) || (c =? 43)) eqn:E; [|apply decimal_number_char; assumption].
    constructor; [|apply decimal_number_char; assumption].
    unfold number_char. bool_hyps; subst; reflexivity. }
  intros H. do 10 (destruct k as [|k]; [auto|]). auto.
Qed.

Definition plain (c : Z) : Prop := isWhitespace c = false /\ ends_command c = false.

Lemma word_plain w : word_ok w = true -> Forall plain (fst w :: snd w) /\ (0 < length (snd w))%nat.
Proof.
  unfold word_ok. intros H. destruct (strchr _ _) as [k|]; [|discriminate]. bool_hyps.
  destruct (value_text_chars k (snd w)) as [Hc Hl]; [assumption|]. split; [|assumption].
  constructor; [split; assumption|]. eapply Forall_impl; [|exact Hc]. intros c. apply number_char_plain.
Qed.

Lemma render_cons w w2 ws : render (w :: w2 :: ws) = fst w :: snd w ++ 32 :: render (w2 :: ws).
Proof. reflexivity. Qed.

(** A rendered command does not contain an end character, and neither starts
    nor ends with a space. *)
Lemma render_extent ws :
  ws <> [] -> Forall (fun w => word_ok w = true) ws ->
  Forall (fun c => ends_command c = false) (render ws) /\
  exists c mid d, (render ws = [c] \/ render ws = c :: mid ++ [d]) /\ plain c /\ plain d.
Proof.
  intros Hne Hok. induction Hok as [|w ws Hw Hok IH]; [contradiction|]. clear Hne.
  destruct (word_plain w Hw) as [Hp Hl]. inversion Hp as [|? ? Hpf Hps]; subst.
  destruct ws as [|w2 ws].
  - cbn [render]. split; [eapply Forall_impl; [|exact Hp]; intros c Hc; exact (proj2 Hc)|].
    destruct (exists_last (l := snd w)) as (mid & d & E); [destruct (snd w); [simpl in Hl; lia|discriminate]|].
    rewrite E in *. exists (fst w), mid, d. apply Forall_app in Hps. destruct Hps as [_ Hd].
    apply Forall_inv in Hd. auto.
  - destruct IH as (IHe & c & mid & d & IHr & Hc & Hd); [discriminate|].
    rewrite render_cons. split.
    + constructor; [exact (proj2 Hpf)|]. apply Forall_app. split.
      * eapply Forall_impl; [|exact Hps]. intros x Hx. exact (proj2 Hx).
      * constructor; [reflexivity|assumption].
    + exists (fst w). destruct IHr as [-> | ->].
      * exists (snd w ++ [32]), c. split; [right; rewrite <- app_assoc; reflexivity|auto].
      * exists (snd w ++ 32 :: c :: mid), d. split; [right; rewrite <- app_assoc; reflexivity|auto].
Qed.

(** A line: white space, a body that neither starts nor ends with white space,
    white space other than a new line, and an end character or the end. *)
Lemma extent_spec lead body trail tail c mid d :
  Forall (fun c => isWhitespace c = true) lead ->
  Forall (fun c => ends_command c = false) body -> body = [c] \/ body = c :: mid ++ [d] ->
  plain c -> plain d ->
  Forall (fun c => isWhitespace c = true /\ ends_command c = false) trail ->
  ends_command (deref tail) = true ->
  first_valid (lead ++ body ++ trail ++ tail) = length lead /\
  last_valid (lead ++ body ++ trail ++ tail) = (length lead + length body)%nat.
Proof.
  intros Hl Hb Hbody Hc Hd Ht Htail.
  assert (first_valid (lead ++ body ++ trail ++ tail) = length lead) as Ef.
  { apply count_while_app; [assumption|]. left.
    destruct Hbody as [-> | ->]; exact (proj1 Hc). }
  split; [exact Ef|]. unfold last_valid. rewrite Ef, drop_app_length.
  rewrite (app_assoc body trail tail).
  rewrite (count_while_app _ (body ++ trail) tail).
  2: { apply Forall_app. split; [eapply Forall_impl; [|exact Hb]|eapply Forall_impl; [|exact Ht]]; intros x Hx;
       cbv beta in *; [rewrite Hx|rewrite (proj2 Hx)]; reflexivity. }
  2: { left. rewrite Htail. reflexivity. }
  rewrite take_app_length, rev_app_distr.
  rewrite (count_while_app isWhitespace (rev trail) (rev body)).
  - rewrite length_rev, length_app. lia.
  - apply Forall_rev. eapply Forall_impl; [|exact Ht]. intros x Hx. exact (proj1 Hx).
  - left. destruct Hbody as [-> | ->]; [exact (proj1 Hc)|].
    change (c :: mid ++ [d]) with ((c :: mid) ++ [d]). rewrite rev_app_distr. exact (proj1 Hd).
Qed.

Lemma stops_number_tail trail tail :
  Forall (fun c => isWhitespace c = true /\ ends_command c = false) trail ->
  ends_command (deref tail) = true -> stops_number (trail ++ tail).
Proof.
  intros Ht He. unfold stops_number.
  assert (isWhitespace (deref (trail ++ tail)) = true \/ ends_command (deref (trail ++ tail)) = true) as H.
  { destruct Ht as [|c t [Hc _]]; [right; exact He|left; exact Hc]. }
  destruct (number_char (deref (trail ++ tail))) eqn:N.
  - apply number_char_plain in N. destruct N as [N1 N2]. rewrite N1, N2 in H. destruct H; discriminate.
  - unfold number_char in N. apply orb_false_iff in N. destruct N as [N N46].
    apply orb_false_iff in N. destruct N as [N _]. apply orb_false_iff in N. destruct N as [N _].
    split; [exact N|apply Z.eqb_neq; exact N46].
Qed.

Lemma render_head ws c t :
  Forall (fun w => word_ok w = true) ws -> render ws = c :: t -> c <> 64.
Proof.
  intros Hok E. destruct Hok as [|w ws Hw _]; [discriminate|].
  assert (fst w = c) as <- by (destruct ws; injection E; auto).
  intros E64. unfold word_ok in Hw. rewrite E64 in Hw. discriminate.
Qed.

Lemma render_length ws : Forall (fun w => word_ok w = true) ws -> (length ws <= length (render ws))%nat.
Proof.
  induction 1 as [|w ws Hw Hok IH]; [reflexivity|].
  destruct ws as [|w2 ws]; [simpl; lia|]. rewrite render_cons. cbn [length] in *.
  rewrite length_app. cbn [length]. lia.
Qed.

(** Everything before the checksum, on a rendered command. *)
Lemma parseCommand_render `{Build} ws lead trail tail g :
  ws <> [] -> Forall (fun w => word_ok w = true) ws -> List.NoDup (map word_index ws) ->
  Forall (fun c => isWhitespace c = true) lead ->
  Forall (fun c => isWhitespace c = true /\ ends_command c = false) trail ->
  ends_command (deref tail) = true -> len lead + len (render ws) < 256 ->
  parseCommand (lead ++ render ws ++ trail ++ tail) g
  = parse_checksum (lead ++ render ws ++ trail ++ tail) (length lead + length (render ws))
      (fold_left put_word ws (set_commandParameters 0 (set_isParsed true g))).
Proof.
  intros Hne Hok Hnd Hl Ht He Hlen.
  destruct (render_extent ws Hne Hok) as (Hends & c & mid & d & Hr & Hc & Hd).
  destruct (extent_spec lead (render ws) trail tail c mid d) as [Ef El]; try assumption.
  assert (exists t, render ws = c :: t) as [t Et] by (destruct Hr as [-> | ->]; eauto).
  unfold parseCommand. rewrite Ef, El.
  destruct (Nat.eqb_spec (length lead + length (render ws)) (length lead)) as [E|_];
    [rewrite Et in E; simpl in E; lia|].
  rewrite char_at_app_l by (rewrite Et, !length_app; simpl; lia).
  rewrite Et at 1. cbn [app deref hd].
  destruct (Z.eqb_spec c 64) as [E|_]; [exfalso; eapply render_head; eauto|].
  rewrite !u8_id, Nat2Z.inj_add by lia.
  rewrite parse_loop_render; [reflexivity|assumption|assumption| |lia|apply stops_number_tail; assumption|].
  - apply Forall_forall. intros w _. apply Z.testbit_0_l.
  - pose proof (render_length ws Hok). unfold PARSE_FUEL. lia.
Qed.

(** Adding the checksum flag changes nothing but bit 12. *)
Lemma parse_checksum_spec command last g g' :
  parse_checksum command last g = Some g' ->
  g' = set_commandParameters (commandParameters g') g /\
  (forall j, j <> 12 -> Z.testbit (commandParameters g') j = Z.testbit (commandParameters g) j).
Proof.
  unfold parse_checksum. destruct (strchr _ _) as [k|]; [|intros [= <-]; destruct g; auto].
  destruct (strtoull _) as [v n]. destruct (n =? 0)%nat; [intros [= <-]; destruct g; auto|].
  destruct (checksum_loop _ _ _ _) as [c|]; bind_some; [|discriminate].
  destruct (c =? u8 v); intros [= <-]; destruct g; auto. split; [reflexivity|].
  intros j Hj. cbn [commandParameters set_commandParameters]. unfold VALID_CHECKSUM_OFFSET.
  rewrite testbit_lor_bit by lia. destruct (Z.eqb_spec j 12); [contradiction|apply orb_false_r].
Qed.

Lemma field_params p g j : field (set_commandParameters p g) j = field g j.
Proof. do 11 (destruct j as [|j]; [reflexivity|]). reflexivity. Qed.

Lemma parse_checksum_total command last g :
  (forall k, strchr command 42 = Some k -> (k < 256)%nat) -> exists g', parse_checksum command last g = Some g'.
Proof.
  intros H. unfold parse_checksum. destruct (strchr (drop _ _) _) as [k|] eqn:E; [|eauto].
  destruct (strtoull _) as [v n]. destruct (n =? 0)%nat; [eauto|].
  destruct (checksum_loop_total command H) as [c ->]; [eapply strchr_some_of_drop; exact E|]. eauto.
Qed.

(** The parameter loop sets no bit above those of the eleven parameters. *)
Lemma parse_step_high command i g j :
  11 <= j -> Z.testbit (commandParameters (snd (parse_step command i g))) j = Z.testbit (commandParameters g) j.
Proof.
  intros Hj. unfold parse_step. destruct (strchr _ _) as [k|] eqn:Hk; [|reflexivity].
  apply strchr_lt in Hk. destruct Hk as [Hk _]. change (length PARAMETER_ORDER) with 11%nat in Hk.
  pose proof (save_value_spec k (drop (Z.to_nat (u8 (i + 1))) command) g Hk) as Hs.
  rewrite parameter_bit in * by assumption. destruct (flag _ _); [reflexivity|].
  destruct (save_value _ _ _) as [g' n]. destruct Hs as (_ & Hp & _).
  destruct (n =? 0)%nat; cbn [snd commandParameters set_commandParameters]; rewrite Hp; [reflexivity|].
  rewrite testbit_lor_bit by lia. destruct (Z.eqb_spec j (Z.of_nat k)); [lia|apply orb_false_r].
Qed.

Lemma parse_loop_invariant (P : Gcode -> Prop) fuel command stop i g g' :
  (forall i g, P g -> P (snd (parse_step command i g))) ->
  P g -> parse_loop fuel command stop i g = Some g' -> P g'.
Proof.
  intros HP. revert i g; induction fuel as [|fuel IH]; intros i g Hg; simpl; [discriminate|].
  destruct (i <? stop); [|intros [= <-]; exact Hg].
  pose proof (HP i g Hg) as H1. destruct (parse_step command i g) as [i' g1].
  apply IH. exact H1.
Qed.

Lemma parse_loop_high fuel command stop i g g' j :
  11 <= j -> parse_loop fuel command stop i g = Some g' ->
  Z.testbit (commandParameters g') j = Z.testbit (commandParameters g) j.
Proof.
  intros Hj. apply (parse_loop_invariant (fun g1 => Z.testbit (commandParameters g1) j = Z.testbit (commandParameters g) j)
    fuel command stop i g g');
    [|reflexivity].
  intros i1 g1 H1. rewrite parse_step_high by assumption. exact H1.
Qed.

(** A command that is neither empty nor a host command. *)
Definition is_gcode_line (command : list Z) : bool :=
  negb (last_valid command =? first_valid command)%nat &&
  negb (char_at command (Z.of_nat (first_valid command)) =? 64).

Lemma parseCommand_gcode `{Build} command g :
  is_gcode_line command = true ->
  exists g1, Z.testbit (commandParameters g1) 12 = false /\
    parseCommand command g = parse_checksum command (last_valid command) g1.
Proof.
  unfold is_gcode_line, parseCommand. intros H0. apply andb_true_iff in H0. destruct H0 as [H1 H2].
  apply negb_true_iff in H1, H2. rewrite H1, H2.
  set (g0 := set_commandParameters 0 (set_isParsed true g)).
  destruct (parse_loop_fuel command (u8 (Z.of_nat (last_valid command)))
              (u8 (Z.of_nat (first_valid command))) g0 (u8_range _) (proj2 (u8_range _))) as [g1 E].
  exists g1. rewrite E. split; [|reflexivity].
  rewrite (parse_loop_high _ _ _ _ _ _ 12 ltac:(lia) E). apply Z.testbit_0_l.
Qed.

Lemma drop_after_asterisk command k :
  strchr command 42 = Some k ->
  drop (last_valid command + (k - last_valid command) + 1) command = drop (k + 1) command.
Proof.
  intros H. apply last_valid_before_asterisk in H.
  replace (last_valid command + (k - last_valid command) + 1)%nat with (k + 1)%nat by lia. reflexivity.
Qed.

(** The width of every field of a command. *)
Definition Gcode_wf (g : Gcode) : Prop :=
  0 <= commandParameters g < 65536 /\ 0 <= valueG g < 256 /\ 0 <= valueM g < 65536 /\
  0 <= valueT g < 256 /\ -2147483648 <= valueS g < 2147483648 /\
  -2147483648 <= valueP g < 2147483648 /\ 0 <= valueN g < two64 /\
  len (hostCommand g) < HOST_COMMAND_SIZE.

Lemma lor_u16 a b : 0 <= a < 65536 -> 0 <= b < 65536 -> 0 <= Z.lor a b < 65536.
Proof.
  intros Ha Hb. split; [apply Z.lor_nonneg; lia|].
  destruct (Z.eq_dec (Z.lor a b) 0) as [E|N]; [lia|].
  assert (0 <= Z.lor a b) by (apply Z.lor_nonneg; lia).
  apply (Z.log2_lt_pow2 _ 16); [lia|]. rewrite Z.log2_lor by lia.
  apply Z.max_lub_lt; [destruct (Z.eq_dec a 0) as [->|]|destruct (Z.eq_dec b 0) as [->|]];
    try (simpl; lia); apply Z.log2_lt_pow2; simpl; lia.
Qed.

Lemma set_commandParameters_wf p g : 0 <= p < 65536 -> Gcode_wf g -> Gcode_wf (set_commandParameters p g).
Proof. intros Hp (_ & W). destruct g. exact (conj Hp W). Qed.

Lemma save_value_wf bit nptr g : Gcode_wf g -> Gcode_wf (fst (save_value bit nptr g)).
Proof.
  intros W. unfold save_value. destruct g. pose proof (strtoull_range nptr) as Hr.
  destruct (strtoull nptr) as [v1 n1], (strtoll nptr) as [v2 n2], (strtof nptr) as [v3 n3].
  repeat case_bool; unfold Gcode_wf in *; cbn -[u8 u16 s32 two64 HOST_COMMAND_SIZE] in *;
    intuition (auto with fw; try apply u8_range; try apply u16_range; try apply s32_range).
Qed.

Lemma parse_step_wf command i g :
  isParsed g = true /\ Gcode_wf g ->
  isParsed (snd (parse_step command i g)) = true /\ Gcode_wf (snd (parse_step command i g)).
Proof.
  intros [P W]. unfold parse_step. destruct (strchr _ _) as [k|] eqn:Hk; [|split; assumption].
  apply strchr_lt in Hk. destruct Hk as [Hk _]. change (length PARAMETER_ORDER) with 11%nat in Hk.
  destruct (flag _ _); [split; assumption|].
  pose proof (save_value_wf (u16 (Z.shiftl 1 (Z.of_nat k))) (drop (Z.to_nat (u8 (i + 1))) command) g W) as W'.
  pose proof (save_value_spec k (drop (Z.to_nat (u8 (i + 1))) command) g Hk) as Hs.
  destruct (save_value _ _ _) as [g' n]. destruct Hs as (P' & _). cbn [fst] in W'. rewrite P in P'.
  destruct (n =? 0)%nat; [split; assumption|]. split; [exact P'|].
  apply set_commandParameters_wf; [|exact W']. apply lor_u16; [exact (proj1 W')|apply u16_range].
Qed.

Lemma host_command_wf p n first command g :
  Gcode_wf g ->
  Gcode_wf (set_commandParameters (Z.lor (commandParameters g) PARAMETER_HOST_COMMAND_OFFSET)
    (set_hostCommand (take (Z.to_nat (Z.min (u8 (n - p - 1)) (HOST_COMMAND_SIZE - 1))) (drop first command)) g)).
Proof.
  intros (Wp & W). apply set_commandParameters_wf; [apply lor_u16; [exact Wp|vm_compute; split; congruence]|].
  destruct g. unfold Gcode_wf in *. cbn -[take drop HOST_COMMAND_SIZE two64] in *.
  repeat split; try tauto. rewrite length_take. unfold HOST_COMMAND_SIZE.
  pose proof (u8_range (n - p - 1)). lia.
Qed.

Lemma parse_checksum_wf command last g g' :
  Gcode_wf g -> parse_checksum command last g = Some g' -> Gcode_wf g'.
Proof.
  intros W. unfold parse_checksum. destruct (strchr _ _) as [k|]; [|intros [= <-]; exact W].
  destruct (strtoull _) as [v n]. destruct (n =? 0)%nat; [intros [= <-]; exact W|].
  destruct (checksum_loop _ _ _ _) as [c|]; bind_some; [|discriminate].
  destruct (c =? u8 v); intros [= <-]; [|exact W].
  apply set_commandParameters_wf; [|exact W]. apply lor_u16; [exact (proj1 W)|vm_compute; split; congruence].
Qed.

(** The parser returns on every line whose first asterisk, if any, is within
    the first 256 characters, marks the command as parsed, and keeps every
    field within its type: eight bits for G and T, sixteen for M and the flags,
    signed thirty-two for S and P, sixty-four for N, and a host command that
    fits its array. *)
Lemma parseCommand_returns `{Build} command g :
  Gcode_wf g -> (forall k, strchr command 42 = Some k -> (k < 256)%nat) ->
  exists g', parseCommand command g = Some g' /\ isParsed g' = true /\ Gcode_wf g'.
Proof.
  intros W Hk. set (g0 := set_commandParameters 0 (set_isParsed true g)).
  assert (isParsed g0 = true /\ Gcode_wf g0) as W0.
  { split; [reflexivity|]. apply set_commandParameters_wf; [lia|]. destruct g. exact W. }
  unfold parseCommand. fold g0. destruct (_ =? _)%nat; [eauto|].
  destruct (_ =? 64); [destruct ENABLE_HOST_COMMANDS; [|eauto]|].
  - case_bool; [eauto|]. eexists. split; [reflexivity|]. split; [reflexivity|].
    apply host_command_wf. exact (proj2 W0).
  - destruct (parse_loop_fuel command (u8 (Z.of_nat (last_valid command)))
                (u8 (Z.of_nat (first_valid command))) g0 (u8_range _) (proj2 (u8_range _))) as [g1 E].
    rewrite E. bind_some.
    pose proof (parse_loop_invariant _ _ command _ _ _ _ (parse_step_wf command) W0 E) as [P1 W1].
    destruct (parse_checksum_total command (last_valid command) g1 Hk) as [g' E']. exists g'.
    split; [exact E'|]. split; [|exact (parse_checksum_wf _ _ _ _ W1 E')].
    apply parse_checksum_spec in E'. destruct E' as [-> _]. destruct g1. exact P1.
Qed.

(** ** Properties *)


(** The checksum of a command is accepted exactly when it is right: for a
    line whose first asterisk is at offset k < 256, the command has a valid
    checksum if and only if digits follow the asterisk and their value, as a
    byte, is the exclusive or of the k characters before it. *)
Theorem parseCommand_checksum `{Build} command g k :
  is_gcode_line command = true -> strchr command 42 = Some k -> (k < 256)%nat ->
  exists g', parseCommand command g = Some g' /\
    hasValidChecksum g' = (let '(v, n) := strtoull (drop (k + 1) command) in
                           negb (n =? 0)%nat && (xor_bytes (take k command) =? u8 v)).
Proof.
  intros Hg Hk Hlt. destruct (parseCommand_gcode command g Hg) as (g1 & Hb & ->).
  unfold parse_checksum. rewrite (strchr_after_last _ _ Hk), drop_after_asterisk by exact Hk.
  unfold hasValidChecksum, VALID_CHECKSUM_OFFSET.
  destruct (strtoull _) as [v n].
  destruct (n =? 0)%nat; [exists g1; split; [reflexivity|]; rewrite flag_bit by lia; exact Hb|].
  apply strchr_split in Hk. destruct Hk as (a & b & -> & <- & Ha).
  pose proof (checksum_loop_spec 257 [] a b 0 Ha ltac:(simpl; lia) ltac:(lia)) as Es.
  change (checksum_loop 257 (a ++ 42 :: b) 0 0 = Some (xor_bytes a)) in Es. rewrite Es. bind_some.
  rewrite take_app_length. eexists. split; [reflexivity|].
  destruct (xor_bytes a =? u8 v); rewrite flag_bit by lia; [|exact Hb].
  cbn [commandParameters set_commandParameters]. rewrite testbit_lor_bit by lia. apply orb_true_r.
Qed.

(** The eight-bit index of the checksum loop never reaches an asterisk past
    offset 255: on every such line with a checksum the loop runs for ever,
    whatever the number of iterations it is given, and the parser does not
    return. *)
Theorem parseCommand_hangs `{Build} command g k :
  is_gcode_line command = true -> strchr command 42 = Some k -> (256 <= k)%nat ->
  isdigit (deref (drop (k + 1) command)) = true ->
  parseCommand command g = None /\ forall fuel, checksum_loop fuel command 0 0 = None.
Proof.
  intros Hg Hk Hle Hd.
  assert (forall fuel, checksum_loop fuel command 0 0 = None) as Hdiv.
  { intros fuel. apply checksum_loop_diverges; [|lia]. intros j Hj E.
    apply strchr_split in Hk. destruct Hk as (a & b & -> & <- & Ha). apply Ha.
    unfold char_at in E. rewrite app_nth1 in E by lia. rewrite <- E. apply nth_In. lia. }
  split; [|exact Hdiv]. destruct (parseCommand_gcode command g Hg) as (g1 & _ & ->).
  unfold parse_checksum. rewrite (strchr_after_last _ _ Hk), drop_after_asterisk by exact Hk.
  destruct (strtoull _) as [v n] eqn:E. rewrite Hdiv.
  destruct (Nat.eqb_spec n 0) as [->|_]; [|reflexivity].
  exfalso. apply (strtoull_reads _ Hd). rewrite E. reflexivity.
Qed.

(** ** Witnesses *)

Definition empty_command : Gcode := mkGcode false 0 0 0 0 0 0 f_zero f_zero f_zero f_zero f_zero 0 [].

(** The words of [N3 g1 X-2.5]. *)
Definition example_words : list (Z * list Z) := [(78, str "3"); (103, str "1"); (88, str "-2.5")].

Ltac forall_chars := repeat (apply List.Forall_cons; [vm_compute; repeat split|]); apply List.Forall_nil.


Lemma parseCommand_checksum_witness :
  exists g', parseCommand (H := default_build) (str "N1 M105*38") empty_command = Some g' /\ hasValidChecksum g' = true.
Proof.
  destruct (parseCommand_checksum (H := default_build) (str "N1 M105*38") empty_command 7) as (g' & E & Hc).
  - vm_compute. reflexivity.
  - vm_compute. reflexivity.
  - lia.
  - exists g'. split; [exact E|]. rewrite Hc. vm_compute. reflexivity.
Defined.

Lemma parseCommand_hangs_witness :
  parseCommand (H := default_build) (str "M117 " ++ repeat 97 300 ++ str "*1") empty_command = None.
Proof.
  apply (parseCommand_hangs (H := default_build) _ _ 305); vm_compute; try reflexivity. lia.
Defined.
