(* ===== verification/Udd.v ===== *)
(** * The USB device driver (usb_device.c, usb_device.h, udd.h)

    The driver owns the endpoint table that the USB hardware shares with the
    software, a job per bulk or interrupt endpoint, and the state machine of the
    control endpoint. Functions that call back into the rest of the stack take
    the callbacks as parameters and run on a pair of the driver's state and the
    state of the layers above. An index outside the endpoint table or the job
    array is [None]: the assertions that would catch it are compiled out. *)

From S2P Require Import Prelude.

(** ** Data *)

(** The static buffers that payload and job pointers refer to. *)
Inductive Buf :=
| B_ctrl                    (* udd_ctrl_buffer *)
| B_out_cache (n : Z)       (* udd_ep_out_cache_buffer[n] *)
| B_cdc_rx (sel : bool)     (* udi_cdc_rx_buf[0][sel] *)
| B_cdc_tx (sel : bool)     (* udi_cdc_tx_buf[0][sel] *)
| B_cdc_state_msg           (* uid_cdc_state_msg[0] *)
| B_cdc_line_coding         (* udi_cdc_line_coding[0] *)
| B_device_desc             (* udc_device_desc *)
| B_conf_desc               (* udc_desc_fs *)
| B_string_languageid       (* udc_string_desc_languageid *)
| B_string_desc             (* udc_string_desc *)
| B_device_status           (* udc_device_status *)
| B_ep_status               (* udc_ep_status *)
| B_num_configuration       (* udc_num_configuration *)
| B_iface_setting.          (* udc_iface_setting *)

#[export] Instance Buf_eq_dec : EqDecision Buf.
Proof. solve_decision. Defined.

(** The functions that are registered as callbacks. *)
Inductive Callback :=
| cb_cdc_data_received | cb_cdc_data_sent | cb_cdc_serial_state_msg_sent
| cb_cdc_line_coding_received | cb_udc_valid_address.

#[export] Instance Callback_eq_dec : EqDecision Callback.
Proof. solve_decision. Defined.

(** An endpoint callback being called: at the end of a transfer with its status,
    size and endpoint, or when a halt is cleared. *)
Inductive Event :=
| EvTrans (cb : Callback) (ok : bool) (n : Z) (ep : Z)
| EvNohalt (cb : Callback).

Inductive EpType := TYPE_DISABLE | TYPE_CONTROL | TYPE_BULK | TYPE_ISOCHRONOUS.
Inductive EpBufsize :=
| BUFSIZE_8 | BUFSIZE_16 | BUFSIZE_32 | BUFSIZE_64 | BUFSIZE_128 | BUFSIZE_256 | BUFSIZE_512 | BUFSIZE_1023.

#[export] Instance EpType_eq_dec : EqDecision EpType.
Proof. solve_decision. Defined.

(** The bits of the status register of an endpoint. *)
Inductive StatusBit := BUSNACK0 | BUSNACK1 | TRNCOMPL0 | SETUP_bit | TOGGLE | UNF | OVF | STALLF.

#[export] Instance StatusBit_eq_dec : EqDecision StatusBit.
Proof. solve_decision. Defined.

(** An entry of the endpoint table, [USB_EP_t]: the control register as its
    fields, the status register as its bits, and the three data registers. *)
Record EpCtrl := mkEpCtrl {
  CTRL_TYPE : EpType; CTRL_BUFSIZE : EpBufsize; CTRL_STALL : bool; CTRL_MULTIPKT : bool;
  STATUS : StatusBit -> bool;
  CNT : Z; DATAPTR : Buf * Z; AUXDATA : Z
}.

(** [LASR16] and [LACR16] on the status register. *)
Definition status_set (b : StatusBit) (v : bool) (e : EpCtrl) : EpCtrl :=
  mkEpCtrl (CTRL_TYPE e) (CTRL_BUFSIZE e) (CTRL_STALL e) (CTRL_MULTIPKT e)
    (fun b' => if decide (b = b') then v else STATUS e b') (CNT e) (DATAPTR e) (AUXDATA e).
Definition set_STALL (v : bool) (e : EpCtrl) : EpCtrl :=
  mkEpCtrl (CTRL_TYPE e) (CTRL_BUFSIZE e) v (CTRL_MULTIPKT e) (STATUS e) (CNT e) (DATAPTR e) (AUXDATA e).
Definition set_MULTIPKT (v : bool) (e : EpCtrl) : EpCtrl :=
  mkEpCtrl (CTRL_TYPE e) (CTRL_BUFSIZE e) (CTRL_STALL e) v (STATUS e) (CNT e) (DATAPTR e) (AUXDATA e).
Definition set_CNT (v : Z) (e : EpCtrl) : EpCtrl :=
  mkEpCtrl (CTRL_TYPE e) (CTRL_BUFSIZE e) (CTRL_STALL e) (CTRL_MULTIPKT e) (STATUS e) v (DATAPTR e) (AUXDATA e).
Definition set_DATAPTR (v : Buf * Z) (e : EpCtrl) : EpCtrl :=
  mkEpCtrl (CTRL_TYPE e) (CTRL_BUFSIZE e) (CTRL_STALL e) (CTRL_MULTIPKT e) (STATUS e) (CNT e) v (AUXDATA e).
Definition set_AUXDATA (v : Z) (e : EpCtrl) : EpCtrl :=
  mkEpCtrl (CTRL_TYPE e) (CTRL_BUFSIZE e) (CTRL_STALL e) (CTRL_MULTIPKT e) (STATUS e) (CNT e) (DATAPTR e) v.

(** [udd_ep_job_t]; [call] is the union of the two callback pointers. *)
Record Job := mkJob {
  busy : bool; b_shortpacket : bool; b_use_out_cache_buffer : bool;
  buf : Buf; buf_size : Z; nb_trans : Z; call : option Callback
}.

Definition set_busy (v : bool) (j : Job) : Job :=
  mkJob v (b_shortpacket j) (b_use_out_cache_buffer j) (buf j) (buf_size j) (nb_trans j) (call j).
Definition set_shortpacket (v : bool) (j : Job) : Job :=
  mkJob (busy j) v (b_use_out_cache_buffer j) (buf j) (buf_size j) (nb_trans j) (call j).
Definition set_use_cache (v : bool) (j : Job) : Job :=
  mkJob (busy j) (b_shortpacket j) v (buf j) (buf_size j) (nb_trans j) (call j).
Definition set_nb_trans (v : Z) (j : Job) : Job :=
  mkJob (busy j) (b_shortpacket j) (b_use_out_cache_buffer j) (buf j) (buf_size j) v (call j).
Definition set_call (v : option Callback) (j : Job) : Job :=
  mkJob (busy j) (b_shortpacket j) (b_use_out_cache_buffer j) (buf j) (buf_size j) (nb_trans j) v.

(** [usb_setup_req_t] and [udd_ctrl_request_t]. *)
Record SetupReq := mkReq { bmRequestType : Z; bRequest : Z; wValue : Z; wIndex : Z; wLength : Z }.

Record CtrlReq := mkCtrlReq {
  req : SetupReq; payload : Buf; payload_size : Z;
  callback : option Callback; over_under_run : bool
}.

Inductive CtrlState :=
| UDD_EPCTRL_SETUP | UDD_EPCTRL_DATA_OUT | UDD_EPCTRL_DATA_IN
| UDD_EPCTRL_HANDSHAKE_WAIT_IN_ZLP | UDD_EPCTRL_HANDSHAKE_WAIT_OUT_ZLP | UDD_EPCTRL_STALL_REQ.

#[export] Instance CtrlState_eq_dec : EqDecision CtrlState.
Proof. solve_decision. Defined.

(** The interrupt flags of the USB module. *)
Inductive IntFlag := SOFIF | RSTIF | SUSPENDIF | RESUMEIF | UNFIF | OVFIF | STALLIF | SETUPIF | TRNIF.

#[export] Instance IntFlag_eq_dec : EqDecision IntFlag.
Proof. solve_decision. Defined.

(** The driver's state: hardware registers and table, jobs, and the control
    endpoint's variables. [udd_in_shortpacket] is the static variable of
    [udd_ctrl_in_sent]. [tc_fifo] holds the offsets, from the endpoint table, of
    the table entries that the hardware queued; [busevt_irq] and [buserr_irq]
    are interrupt enable bits. *)
Record Udd := mkUdd {
  ep_ctrl : list EpCtrl; udd_ep_job : list Job; frame_number : Z;
  usb_addr : Z; attached : bool; main_irq : bool; buserr_irq : bool;
  intflags : IntFlag -> bool; tc_fifo : list Z;
  mem : Buf -> list Z;
  udd_g_ctrlreq : CtrlReq; udd_ep_control_state : CtrlState;
  udd_ctrl_prev_payload_nb_trans : Z; udd_ctrl_payload_nb_trans : Z;
  udd_in_shortpacket : bool
}.

Definition set_ep_ctrl (v : list EpCtrl) (u : Udd) : Udd :=
  let '(mkUdd _ b c d e f g h i j k l m n o) := u in mkUdd v b c d e f g h i j k l m n o.
Definition set_ep_job (v : list Job) (u : Udd) : Udd :=
  let '(mkUdd a _ c d e f g h i j k l m n o) := u in mkUdd a v c d e f g h i j k l m n o.
Definition set_addr (v : Z) (u : Udd) : Udd :=
  let '(mkUdd a b c _ e f g h i j k l m n o) := u in mkUdd a b c v e f g h i j k l m n o.
Definition set_attached (v : bool) (u : Udd) : Udd :=
  let '(mkUdd a b c d _ f g h i j k l m n o) := u in mkUdd a b c d v f g h i j k l m n o.
Definition set_main_irq (v : bool) (u : Udd) : Udd :=
  let '(mkUdd a b c d e _ g h i j k l m n o) := u in mkUdd a b c d e v g h i j k l m n o.
Definition set_buserr_irq (v : bool) (u : Udd) : Udd :=
  let '(mkUdd a b c d e f _ h i j k l m n o) := u in mkUdd a b c d e f v h i j k l m n o.
Definition set_intflag (fl : IntFlag) (v : bool) (u : Udd) : Udd :=
  let '(mkUdd a b c d e f g h i j k l m n o) := u in
  mkUdd a b c d e f g (fun fl' => if decide (fl = fl') then v else h fl') i j k l m n o.
Definition set_tc_fifo (v : list Z) (u : Udd) : Udd :=
  let '(mkUdd a b c d e f g h _ j k l m n o) := u in mkUdd a b c d e f g h v j k l m n o.
Definition set_mem (bf : Buf) (v : list Z) (u : Udd) : Udd :=
  let '(mkUdd a b c d e f g h i j k l m n o) := u in
  mkUdd a b c d e f g h i (fun b' => if decide (bf = b') then v else j b') k l m n o.
Definition set_ctrlreq (v : CtrlReq) (u : Udd) : Udd :=
  let '(mkUdd a b c d e f g h i j _ l m n o) := u in mkUdd a b c d e f g h i j v l m n o.
Definition set_control_state (v : CtrlState) (u : Udd) : Udd :=
  let '(mkUdd a b c d e f g h i j k _ m n o) := u in mkUdd a b c d e f g h i j k v m n o.
Definition set_prev_nb (v : Z) (u : Udd) : Udd :=
  let '(mkUdd a b c d e f g h i j k l _ n o) := u in mkUdd a b c d e f g h i j k l v n o.
Definition set_nb (v : Z) (u : Udd) : Udd :=
  let '(mkUdd a b c d e f g h i j k l m _ o) := u in mkUdd a b c d e f g h i j k l m v o.
Definition set_in_shortpacket (v : bool) (u : Udd) : Udd :=
  let '(mkUdd a b c d e f g h i j k l m n _) := u in mkUdd a b c d e f g h i j k l m n v.

Definition set_payload (b : Buf) (size : Z) (c : CtrlReq) : CtrlReq :=
  mkCtrlReq (req c) b size (callback c) (over_under_run c).
Definition set_payload_size (size : Z) (c : CtrlReq) : CtrlReq :=
  mkCtrlReq (req c) (payload c) size (callback c) (over_under_run c).
Definition set_callback (cb : option Callback) (c : CtrlReq) : CtrlReq :=
  mkCtrlReq (req c) (payload c) (payload_size c) cb (over_under_run c).
Definition set_over_under_run (b : bool) (c : CtrlReq) : CtrlReq :=
  mkCtrlReq (req c) (payload c) (payload_size c) (callback c) b.
Definition set_req (r : SetupReq) (c : CtrlReq) : CtrlReq :=
  mkCtrlReq r (payload c) (payload_size c) (callback c) (over_under_run c).

(** ** Constants *)

Definition USB_DEVICE_MAX_EP : Z := 2.
Definition USB_DEVICE_EP_CTRL_SIZE : Z := 64.
Definition USB_EP_ADDR_MASK : Z := 15.
Definition USB_EP_DIR_IN : Z := 128.
Definition UDD_ENDPOINT_MAX_TRANS : Z := 1023.
Definition USB_REQ_DIR_IN : Z := 128.
Definition USB_REQ_DIR_OUT : Z := 0.
Definition USB_REQ_DIR_MASK : Z := 128.

Definition Udd_setup_is_in (c : CtrlReq) : bool :=
  USB_REQ_DIR_IN =? Z.land (bmRequestType (req c)) USB_REQ_DIR_MASK.
Definition Udd_setup_is_out (c : CtrlReq) : bool :=
  USB_REQ_DIR_OUT =? Z.land (bmRequestType (req c)) USB_REQ_DIR_MASK.

(** ** Endpoint table and jobs *)

Definition ep_is_in (ep : Z) : bool := Z.land ep USB_EP_DIR_IN =? USB_EP_DIR_IN.

(** The table index of an endpoint, used for both arrays. *)
Definition ep_index (ep : Z) : Z :=
  2 * Z.land ep USB_EP_ADDR_MASK + (if ep_is_in ep then 1 else 0).

Definition lookupZ {X} (l : list X) (i : Z) : option X :=
  if 0 <=? i then l !! Z.to_nat i else None.

Definition udd_ep_get_ctrl (ep : Z) : M Udd EpCtrl :=
  fun u => match lookupZ (ep_ctrl u) (ep_index ep) with Some e => Some (u, e) | None => None end.
Definition ep_ctrl_update (ep : Z) (f : EpCtrl -> EpCtrl) : M Udd unit :=
  fun u => match lookupZ (ep_ctrl u) (ep_index ep) with
           | Some e => Some (set_ep_ctrl (<[Z.to_nat (ep_index ep) := f e]> (ep_ctrl u)) u, tt)
           | None => None
           end.

Definition udd_ep_get_job (ep : Z) : M Udd Job :=
  fun u => match lookupZ (udd_ep_job u) (ep_index ep - 2) with Some j => Some (u, j) | None => None end.
Definition ep_job_update (ep : Z) (f : Job -> Job) : M Udd unit :=
  fun u => match lookupZ (udd_ep_job u) (ep_index ep - 2) with
           | Some j => Some (set_ep_job (<[Z.to_nat (ep_index ep - 2) := f j]> (udd_ep_job u)) u, tt)
           | None => None
           end.

Definition udd_ep_is_valid (ep : Z) : bool :=
  let ep := Z.land ep USB_EP_ADDR_MASK in
  if ep =? 0 then false else USB_DEVICE_MAX_EP >=? ep.

Definition udd_ep_get_size (e : EpCtrl) : Z :=
  match CTRL_BUFSIZE e with
  | BUFSIZE_8 => 8 | BUFSIZE_16 => 16 | BUFSIZE_32 => 32 | BUFSIZE_64 => 64
  | BUFSIZE_128 => 128 | BUFSIZE_256 => 256 | BUFSIZE_512 => 512 | BUFSIZE_1023 => 1023
  end.

Definition udd_endpoint_is_enable (e : EpCtrl) : bool := negb (bool_decide (CTRL_TYPE e = TYPE_DISABLE)).

(** The size switch falls through to eight bytes for a size it does not know. *)
Definition bufsize_of (MaxEndpointSize : Z) : EpBufsize :=
  if MaxEndpointSize =? 16 then BUFSIZE_16
  else if MaxEndpointSize =? 32 then BUFSIZE_32
  else if MaxEndpointSize =? 64 then BUFSIZE_64
  else if MaxEndpointSize =? 128 then BUFSIZE_128
  else if MaxEndpointSize =? 256 then BUFSIZE_256
  else if MaxEndpointSize =? 512 then BUFSIZE_512
  else if MaxEndpointSize =? 1023 then BUFSIZE_1023
  else BUFSIZE_8.

Definition eptype_of (bmAttributes : Z) : EpType :=
  let t := Z.land bmAttributes 3 in
  if t =? 0 then TYPE_CONTROL else if t =? 1 then TYPE_ISOCHRONOUS else TYPE_BULK.

Definition udd_ep_init (ep bmAttributes MaxEndpointSize : Z) : M Udd unit :=
  ep_ctrl_update ep (fun e =>
    mkEpCtrl (eptype_of bmAttributes) (bufsize_of MaxEndpointSize) false false
      (fun b => match b with BUSNACK0 | BUSNACK1 => true | _ => false end)
      (CNT e) (DATAPTR e) (AUXDATA e)).

(** ** Endpoint functions *)

Definition udd_ep_alloc (ep bmAttributes MaxEndpointSize : Z) : M Udd bool :=
  e ← udd_ep_get_ctrl ep;
  if udd_endpoint_is_enable e then mret false
  else
    _ ← udd_ep_init ep bmAttributes MaxEndpointSize;
    e ← udd_ep_get_ctrl ep;
    if bool_decide (CTRL_TYPE e = TYPE_ISOCHRONOUS) && (udd_ep_get_size e =? 1023) then mret true
    else _ ← ep_ctrl_update ep (set_MULTIPKT true); mret true.

Definition udd_ep_is_halted (ep : Z) : M Udd bool := e ← udd_ep_get_ctrl ep; mret (CTRL_STALL e).

(** [memcpy(&dst[off], src, n)] between two static buffers. *)
Definition mem_copy (dst : Buf) (off : Z) (src : Buf) (n : Z) : M Udd unit :=
  fun u =>
    if (0 <=? n) && (n <=? len (mem u src)) then
      match blit (mem u dst) off (take (Z.to_nat n) (mem u src)) with
      | Some m => Some (set_mem dst m u, tt)
      | None => None
      end
    else None.

Section Callbacks.
Context {A : Type} (run_event : Event -> M (Udd * A) unit).

(** The end of [udd_ep_trans_complet]: the job is done. *)
Definition job_complete (ep : Z) : M (Udd * A) unit :=
  j ← on_fst (udd_ep_get_job ep);
  when (busy j)
    (_ ← on_fst (ep_job_update ep (set_busy false));
     match call j with
     | Some cb => run_event (EvTrans cb true (nb_trans j) ep)
     | None => mret tt
     end).

(** The IN half of [udd_ep_trans_complet]: [true] when a transfer was started. *)
Definition trans_complet_in (ep : Z) : M Udd bool :=
  e ← udd_ep_get_ctrl ep;
  let ep_size := udd_ep_get_size e in
  _ ← ep_job_update ep (fun j => set_nb_trans (u16 (nb_trans j + AUXDATA e)) j);
  j ← udd_ep_get_job ep;
  if negb (nb_trans j =? buf_size j) then
    let next_trans := u16 (buf_size j - nb_trans j) in
    let next_trans := if UDD_ENDPOINT_MAX_TRANS <? next_trans
                      then UDD_ENDPOINT_MAX_TRANS - UDD_ENDPOINT_MAX_TRANS mod ep_size
                      else next_trans in
    _ ← ep_job_update ep (set_shortpacket (b_shortpacket j && (next_trans mod ep_size =? 0)));
    _ ← ep_ctrl_update ep (fun e => set_DATAPTR (buf j, nb_trans j) (set_CNT next_trans (set_AUXDATA 0 e)));
    _ ← ep_ctrl_update ep (status_set BUSNACK0 false);
    mret true
  else if b_shortpacket j then
    _ ← ep_job_update ep (set_shortpacket false);
    _ ← ep_ctrl_update ep (fun e => set_CNT 0 (set_AUXDATA 0 e));
    _ ← ep_ctrl_update ep (status_set BUSNACK0 false);
    mret true
  else mret false.

(** The OUT half of [udd_ep_trans_complet]. *)
Definition trans_complet_out (ep : Z) : M Udd bool :=
  e ← udd_ep_get_ctrl ep;
  let ep_size := udd_ep_get_size e in
  let nb := CNT e in
  j ← udd_ep_get_job ep;
  _ ← when (b_use_out_cache_buffer j)
        (mem_copy (buf j) (nb_trans j) (B_out_cache (ep - 1)) (buf_size j mod ep_size));
  _ ← ep_job_update ep (fun j =>
        let n := u16 (nb_trans j + nb) in
        set_nb_trans (if buf_size j <? n then buf_size j else n) j);
  j ← udd_ep_get_job ep;
  if (nb =? AUXDATA e) && negb (nb_trans j =? buf_size j) then
    let next_trans := u16 (buf_size j - nb_trans j) in
    let next_trans := if UDD_ENDPOINT_MAX_TRANS <? next_trans
                      then UDD_ENDPOINT_MAX_TRANS - UDD_ENDPOINT_MAX_TRANS mod ep_size
                      else next_trans - next_trans mod ep_size in
    _ ← ep_ctrl_update ep (set_CNT 0);
    _ ← (if next_trans <? ep_size then
           _ ← ep_job_update ep (set_use_cache true);
           ep_ctrl_update ep (fun e => set_AUXDATA ep_size (set_DATAPTR (B_out_cache (ep - 1), 0) e))
         else
           ep_ctrl_update ep (fun e => set_AUXDATA next_trans (set_DATAPTR (buf j, nb_trans j) e)));
    _ ← ep_ctrl_update ep (status_set BUSNACK0 false);
    mret true
  else mret false.

Definition udd_ep_trans_complet (ep : Z) : M (Udd * A) unit :=
  started ← on_fst (if ep_is_in ep then trans_complet_in ep else trans_complet_out ep);
  if (started : bool) then mret tt else job_complete ep.

Definition udd_ep_run (ep : Z) (shortpacket : bool) (b : Buf) (size : Z) (cb : option Callback)
    : M (Udd * A) bool :=
  j ← on_fst (udd_ep_get_job ep);
  e ← on_fst (udd_ep_get_ctrl ep);
  if negb (udd_endpoint_is_enable e) then mret false
  else if negb (bool_decide (CTRL_TYPE e = TYPE_ISOCHRONOUS)) && CTRL_STALL e then mret false
  else if busy j then mret false
  else
    _ ← on_fst (ep_job_update ep (fun _ => mkJob true (shortpacket || (size =? 0)) false b size 0 cb));
    if ep_is_in ep then
      _ ← on_fst (ep_ctrl_update ep (set_AUXDATA 0));
      _ ← udd_ep_trans_complet ep; mret true
    else if bool_decide (CTRL_TYPE e = TYPE_ISOCHRONOUS) && negb (size mod udd_ep_get_size e =? 0) then
      _ ← on_fst (ep_job_update ep (set_busy false)); mret false
    else
      _ ← on_fst (ep_ctrl_update ep (fun e => set_AUXDATA 0 (set_CNT 0 e)));
      _ ← udd_ep_trans_complet ep; mret true.

Definition udd_ep_abort (ep : Z) : M (Udd * A) unit :=
  _ ← on_fst (udd_ep_get_ctrl ep);
  j ← on_fst (udd_ep_get_job ep);
  _ ← on_fst (ep_ctrl_update ep (status_set BUSNACK0 true));
  if negb (busy j) then mret tt
  else
    _ ← on_fst (ep_job_update ep (set_busy false));
    e ← on_fst (udd_ep_get_ctrl ep);
    match call j with
    | Some cb => run_event (EvTrans cb false (if ep_is_in ep then AUXDATA e else CNT e) ep)
    | None => mret tt
    end.

Definition udd_ep_free (ep : Z) : M (Udd * A) unit :=
  _ ← udd_ep_abort ep;
  on_fst (ep_ctrl_update ep (fun e =>
    mkEpCtrl TYPE_DISABLE BUFSIZE_8 false false (STATUS e) (CNT e) (DATAPTR e) (AUXDATA e))).

Definition udd_ep_set_halt (ep : Z) : M (Udd * A) bool :=
  _ ← on_fst (ep_ctrl_update ep (set_STALL true));
  _ ← udd_ep_abort ep; mret true.

Definition udd_ep_clear_halt (ep : Z) : M (Udd * A) bool :=
  _ ← on_fst (ep_ctrl_update ep (status_set TOGGLE false));
  e ← on_fst (udd_ep_get_ctrl ep);
  if negb (CTRL_STALL e) then mret true
  else
    _ ← on_fst (ep_ctrl_update ep (set_STALL false));
    j ← on_fst (udd_ep_get_job ep);
    _ ← when (busy j)
          (_ ← on_fst (ep_job_update ep (set_busy false));
           match call j with
           | Some cb => run_event (EvNohalt cb)
           | None => (fun _ => None)
           end);
    mret true.

Definition udd_ep_wait_stall_clear (ep : Z) (cb : Callback) : M (Udd * A) bool :=
  e ← on_fst (udd_ep_get_ctrl ep);
  j ← on_fst (udd_ep_get_job ep);
  if CTRL_STALL e then
    if busy j then mret false
    else _ ← on_fst (ep_job_update ep (fun j => set_call (Some cb) (set_busy true j))); mret true
  else _ ← run_event (EvNohalt cb); mret true.
End Callbacks.

(** ** The control endpoint *)

Definition EP0_OUT : Z := 0.
Definition EP0_IN : Z := USB_EP_DIR_IN.

Definition udd_ctrl_init : M Udd unit :=
  _ ← modify (set_buserr_irq false);
  _ ← ep_ctrl_update EP0_IN (fun e =>
        status_set UNF false (status_set TRNCOMPL0 false (set_CNT 0 (status_set BUSNACK0 true e))));
  _ ← ep_ctrl_update EP0_OUT (status_set OVF false);
  modify (fun u => set_control_state UDD_EPCTRL_SETUP
    (set_ctrlreq (set_payload_size 0 (set_over_under_run false (set_callback None (udd_g_ctrlreq u)))) u)).

Definition udd_ctrl_stall_data : M Udd unit :=
  _ ← modify (set_control_state UDD_EPCTRL_STALL_REQ);
  _ ← ep_ctrl_update EP0_IN (set_STALL true);
  ep_ctrl_update EP0_OUT (set_STALL true).

Definition udd_ctrl_send_zlp_in : M Udd unit :=
  _ ← modify (set_control_state UDD_EPCTRL_HANDSHAKE_WAIT_IN_ZLP);
  ep_ctrl_update EP0_IN (fun e => status_set BUSNACK0 false (set_CNT 0 e)).

Definition udd_ctrl_send_zlp_out : M Udd unit :=
  _ ← modify (set_control_state UDD_EPCTRL_HANDSHAKE_WAIT_OUT_ZLP);
  ep_ctrl_update EP0_OUT (status_set BUSNACK0 false).

(** The first eight bytes of the control buffer as a setup request. *)
Definition decode_setup (b : list Z) : SetupReq :=
  let byte i := nth i b 0 in
  mkReq (byte 0%nat) (byte 1%nat) (byte 2%nat + 256 * byte 3%nat)
        (byte 4%nat + 256 * byte 5%nat) (byte 6%nat + 256 * byte 7%nat).

Section Control.
Context {A : Type}.
(** The layers above: the decoding of setup requests ([udc_process_setup]), the
    callback at the end of a request, and the request for a further payload
    buffer. *)
Context (udc_process_setup : M (Udd * A) bool)
        (run_callback : Callback -> M (Udd * A) unit)
        (run_over_under : M (Udd * A) bool).

Definition udd_ctrl_endofrequest : M (Udd * A) unit :=
  c ← gets (fun s => callback (udd_g_ctrlreq (fst s)));
  match c with Some cb => run_callback cb | None => mret tt end.

(** Ending a request: the callback, then a fresh control endpoint. *)
Definition ctrl_finish : M (Udd * A) unit :=
  _ ← udd_ctrl_endofrequest; on_fst udd_ctrl_init.

(** Program the next IN packet of the data phase. *)
Definition ctrl_in_packet (nb_remain : Z) : M Udd unit :=
  let short := negb (nb_remain >=? USB_DEVICE_EP_CTRL_SIZE) in
  let nb := if short then nb_remain else USB_DEVICE_EP_CTRL_SIZE in
  _ ← modify (set_in_shortpacket short);
  u ← gets (fun u => u);
  _ ← ep_ctrl_update EP0_IN (fun e =>
        set_DATAPTR (payload (udd_g_ctrlreq u), udd_ctrl_payload_nb_trans u) (set_CNT nb e));
  _ ← modify (fun u => set_nb (u16 (udd_ctrl_payload_nb_trans u + nb)) u);
  ep_ctrl_update EP0_IN (status_set BUSNACK0 false).

Definition udd_ctrl_in_sent : M (Udd * A) unit :=
  u ← gets fst;
  if bool_decide (udd_ep_control_state u = UDD_EPCTRL_HANDSHAKE_WAIT_IN_ZLP) then ctrl_finish
  else
    let nb_remain := u16 (payload_size (udd_g_ctrlreq u) - udd_ctrl_payload_nb_trans u) in
    if nb_remain =? 0 then
      let prev := u16 (udd_ctrl_prev_payload_nb_trans u + udd_ctrl_payload_nb_trans u) in
      _ ← on_fst (modify (set_prev_nb prev));
      if (wLength (req (udd_g_ctrlreq u)) =? prev) || udd_in_shortpacket u
      then on_fst udd_ctrl_send_zlp_out
      else
        more ← (if over_under_run (udd_g_ctrlreq u) then run_over_under else mret false);
        if (more : bool) then
          _ ← on_fst (modify (set_nb 0));
          n ← gets (fun s => payload_size (udd_g_ctrlreq (fst s)));
          on_fst (ctrl_in_packet n)
        else on_fst (ctrl_in_packet 0)
    else on_fst (ctrl_in_packet nb_remain).

Definition udd_ctrl_setup_received : M (Udd * A) unit :=
  st ← gets (fun s => udd_ep_control_state (fst s));
  _ ← (if bool_decide (st = UDD_EPCTRL_SETUP) then mret tt
       else
         _ ← when (bool_decide (st = UDD_EPCTRL_HANDSHAKE_WAIT_IN_ZLP)
                   || bool_decide (st = UDD_EPCTRL_HANDSHAKE_WAIT_OUT_ZLP)) udd_ctrl_endofrequest;
         on_fst udd_ctrl_init);
  out ← on_fst (udd_ep_get_ctrl EP0_OUT);
  if negb (CNT out =? 8) then mret tt
  else
    _ ← on_fst (modify (fun u =>
          set_ctrlreq (set_req (decode_setup (mem u B_ctrl)) (udd_g_ctrlreq u)) u));
    _ ← on_fst (modify (set_buserr_irq true));
    ok ← udc_process_setup;
    if negb ok then on_fst udd_ctrl_stall_data
    else
      c ← gets (fun s => udd_g_ctrlreq (fst s));
      if Udd_setup_is_in c then
        _ ← on_fst (modify (fun u => set_control_state UDD_EPCTRL_DATA_IN (set_nb 0 (set_prev_nb 0 u))));
        udd_ctrl_in_sent
      else if wLength (req c) =? 0 then on_fst udd_ctrl_send_zlp_in
      else
        _ ← on_fst (modify (fun u => set_control_state UDD_EPCTRL_DATA_OUT (set_nb 0 (set_prev_nb 0 u))));
        on_fst (ep_ctrl_update EP0_OUT (fun e => status_set TRNCOMPL0 false (status_set BUSNACK0 false e))).

Definition udd_ctrl_out_received : M (Udd * A) unit :=
  u ← gets fst;
  if bool_decide (udd_ep_control_state u = UDD_EPCTRL_HANDSHAKE_WAIT_OUT_ZLP) then ctrl_finish
  else
    out ← on_fst (udd_ep_get_ctrl EP0_OUT);
    let c := udd_g_ctrlreq u in
    let nb_trans := udd_ctrl_payload_nb_trans u in
    let nb_data := if payload_size c <? u16 (nb_trans + CNT out)
                   then u16 (payload_size c - nb_trans) else CNT out in
    _ ← on_fst (mem_copy (payload c) nb_trans B_ctrl nb_data);
    let nb_trans := u16 (nb_trans + nb_data) in
    _ ← on_fst (modify (set_nb nb_trans));
    if negb (USB_DEVICE_EP_CTRL_SIZE =? nb_data)
       || (wLength (req c) <=? u16 (udd_ctrl_prev_payload_nb_trans u + nb_trans)) then
      _ ← on_fst (modify (fun u => set_ctrlreq (set_payload_size nb_trans (udd_g_ctrlreq u)) u));
      go ← (if over_under_run c then run_over_under else mret true);
      if (go : bool) then on_fst udd_ctrl_send_zlp_in else on_fst udd_ctrl_stall_data
    else if payload_size c =? nb_trans then
      go ← (if over_under_run c then run_over_under else mret false);
      if (go : bool) then
        _ ← on_fst (modify (fun u =>
              set_nb 0 (set_prev_nb (u16 (udd_ctrl_prev_payload_nb_trans u + udd_ctrl_payload_nb_trans u)) u)));
        on_fst (ep_ctrl_update EP0_OUT (fun e => status_set TRNCOMPL0 false (status_set BUSNACK0 false e)))
      else on_fst udd_ctrl_stall_data
    else on_fst (ep_ctrl_update EP0_OUT (fun e => status_set TRNCOMPL0 false (status_set BUSNACK0 false e))).

Definition udd_ctrl_interrupt_tc_setup : M (Udd * A) bool :=
  ev ← gets (fun s => intflags (fst s) SETUPIF);
  if negb ev then mret false
  else
    _ ← on_fst (modify (set_intflag SETUPIF false));
    _ ← on_fst (ep_ctrl_update EP0_OUT (status_set STALLF false));
    _ ← on_fst (ep_ctrl_update EP0_IN (status_set STALLF false));
    _ ← on_fst (modify (set_intflag STALLIF false));
    _ ← on_fst (ep_ctrl_update EP0_OUT (status_set SETUP_bit false));
    _ ← udd_ctrl_setup_received;
    mret true.

(** A pending transfer is handled first, then a setup packet. *)
Definition ctrl_pending : M (Udd * A) bool :=
  tc ← gets (fun s => intflags (fst s) TRNIF);
  if (tc : bool) then mret true else udd_ctrl_interrupt_tc_setup.

Definition stall_both : M Udd unit :=
  _ ← ep_ctrl_update EP0_IN (set_STALL true); ep_ctrl_update EP0_OUT (set_STALL true).

Definition udd_ctrl_underflow : M (Udd * A) unit :=
  pending ← ctrl_pending;
  if (pending : bool) then mret tt
  else
    st ← gets (fun s => udd_ep_control_state (fst s));
    if bool_decide (st = UDD_EPCTRL_DATA_OUT) then on_fst udd_ctrl_send_zlp_in
    else if bool_decide (st = UDD_EPCTRL_HANDSHAKE_WAIT_OUT_ZLP) then on_fst stall_both
    else mret tt.

Definition udd_ctrl_overflow : M (Udd * A) unit :=
  pending ← ctrl_pending;
  if (pending : bool) then mret tt
  else
    st ← gets (fun s => udd_ep_control_state (fst s));
    if bool_decide (st = UDD_EPCTRL_DATA_IN) then on_fst udd_ctrl_send_zlp_out
    else if bool_decide (st = UDD_EPCTRL_HANDSHAKE_WAIT_IN_ZLP) then on_fst stall_both
    else mret tt.

Definition udd_ctrl_interrupt_error : M (Udd * A) bool :=
  u ← gets fst;
  if intflags u UNFIF then
    _ ← on_fst (modify (set_intflag UNFIF false));
    e ← on_fst (udd_ep_get_ctrl EP0_IN);
    _ ← when (STATUS e UNF) udd_ctrl_underflow; mret true
  else if intflags u OVFIF then
    _ ← on_fst (modify (set_intflag OVFIF false));
    e ← on_fst (udd_ep_get_ctrl EP0_OUT);
    _ ← when (STATUS e OVF) udd_ctrl_overflow; mret true
  else mret false.
End Control.

(** ** Global functions *)

Definition udd_attach : M Udd unit :=
  modify (fun u => set_main_irq true (set_attached true
    (set_intflag RESUMEIF false (set_intflag SUSPENDIF false u)))).

Definition udd_detach : M Udd unit := modify (set_attached false).

Definition reset_ep (e : EpCtrl) : EpCtrl :=
  mkEpCtrl TYPE_DISABLE BUFSIZE_8 false false (STATUS e) (CNT e) (DATAPTR e) (AUXDATA e).

(** Clocks, pads and the module's own enable bits are hardware set-up. *)
Definition udd_enable : M Udd unit :=
  _ ← modify (fun u => set_ep_job (set_busy false <$> udd_ep_job u) (set_ep_ctrl (reset_ep <$> ep_ctrl u) u));
  _ ← modify (set_tc_fifo []);
  udd_attach.

Definition udd_disable : M Udd unit := modify (set_attached false).

Definition udd_is_high_speed : bool := false.
Definition udd_get_frame_number (u : Udd) : Z := frame_number u.
Definition udd_get_micro_frame_number : Z := 0.
Definition udd_set_address (a : Z) : M Udd unit := modify (set_addr (u8 a)).
Definition udd_getaddress (u : Udd) : Z := usb_addr u.

Definition udd_set_setup_payload (b : Buf) (size : Z) : M Udd unit :=
  modify (fun u => set_ctrlreq (set_payload b size (udd_g_ctrlreq u)) u).

Section Interrupts.
Context {A : Type} (run_event : Event -> M (Udd * A) unit)
        (udc_process_setup : M (Udd * A) bool) (run_callback : Callback -> M (Udd * A) unit)
        (run_over_under : M (Udd * A) bool)
        (udc_sof_notify udc_reset : M (Udd * A) unit).

(** [for (i = 1; i <= USB_DEVICE_MAX_EP; i++)] over the endpoint jobs. *)
Fixpoint abort_all (n : nat) (i : Z) : M (Udd * A) unit :=
  match n with
  | O => mret tt
  | S n =>
      _ ← udd_ep_abort run_event i;
      _ ← udd_ep_abort run_event (Z.lor i USB_EP_DIR_IN);
      abort_all n (i + 1)
  end.

Definition usb_reset_event : M (Udd * A) unit :=
  _ ← on_fst (modify (set_intflag RSTIF false));
  _ ← abort_all (Z.to_nat USB_DEVICE_MAX_EP) 1;
  _ ← udc_reset;
  _ ← on_fst (modify (set_addr 0));
  _ ← on_fst (udd_ep_init EP0_OUT 0 USB_DEVICE_EP_CTRL_SIZE);
  _ ← on_fst (udd_ep_init EP0_IN 0 USB_DEVICE_EP_CTRL_SIZE);
  _ ← on_fst (ep_ctrl_update EP0_OUT (set_DATAPTR (B_ctrl, 0)));
  on_fst udd_ctrl_init.

(** [ISR(USB_BUSEVENT_vect)] *)
Definition USB_BUSEVENT_vect : M (Udd * A) unit :=
  u ← gets fst;
  if intflags u SOFIF then
    _ ← on_fst (modify (set_intflag SOFIF false)); udc_sof_notify
  else
    err ← udd_ctrl_interrupt_error udc_process_setup run_callback run_over_under;
    if (err : bool) then mret tt
    else
      u ← gets fst;
      if intflags u RSTIF then usb_reset_event
      else if intflags u SUSPENDIF then on_fst (modify (set_intflag SUSPENDIF false))
      else if intflags u RESUMEIF then on_fst (modify (set_intflag RESUMEIF false))
      else mret tt.

(** The endpoint number of an entry of the endpoint table at a byte offset. *)
Definition ep_of_offset (offset : Z) : Z :=
  let ep_index := u8 (Z.shiftr offset 3) in
  u8 (ep_index / 2 + (if flag ep_index 1 then USB_EP_DIR_IN else 0)).

(** [ISR(USB_TRNCOMPL_vect)] *)
Definition USB_TRNCOMPL_vect : M (Udd * A) unit :=
  tc ← gets (fun s => intflags (fst s) TRNIF);
  handled ← (if negb tc then
               udd_ctrl_interrupt_tc_setup udc_process_setup run_callback run_over_under
             else mret false);
  if (handled : bool) then mret tt
  else
    _ ← on_fst (modify (set_intflag TRNIF false));
    fifo ← gets (fun s => tc_fifo (fst s));
    offset ← of_option (head fifo);
    _ ← on_fst (modify (set_tc_fifo (tail fifo)));
    let ep := ep_of_offset offset in
    e ← on_fst (udd_ep_get_ctrl ep);
    if negb (STATUS e TRNCOMPL0) then mret tt
    else
      _ ← on_fst (ep_ctrl_update ep (status_set TRNCOMPL0 false));
      if ep =? EP0_OUT then udd_ctrl_out_received run_callback run_over_under
      else if ep =? EP0_IN then udd_ctrl_in_sent run_callback run_over_under
      else udd_ep_trans_complet run_event ep.
End Interrupts.

(** ** One endpoint of the driver *)

(** The endpoint's entry and job exist. *)
Definition has_ep (ep : Z) (u : Udd) : Prop :=
  2 <= ep_index ep /\ ep_index ep < len (ep_ctrl u) /\ ep_index ep - 2 < len (udd_ep_job u).

(** The state with the entry and the job of one endpoint replaced. *)
Definition with_ep (ep : Z) (e : EpCtrl) (j : Job) (u : Udd) : Udd :=
  set_ep_ctrl (<[Z.to_nat (ep_index ep) := e]> (ep_ctrl u))
    (set_ep_job (<[Z.to_nat (ep_index ep - 2) := j]> (udd_ep_job u)) u).

Lemma with_ep_fields ep e j u :
  ep_ctrl (with_ep ep e j u) = <[Z.to_nat (ep_index ep) := e]> (ep_ctrl u) /\
  udd_ep_job (with_ep ep e j u) = <[Z.to_nat (ep_index ep - 2) := j]> (udd_ep_job u).
Proof. destruct u; split; reflexivity. Qed.

Lemma with_ep_twice ep e j e' j' u : with_ep ep e' j' (with_ep ep e j u) = with_ep ep e' j' u.
Proof. unfold with_ep. destruct u; cbn. rewrite !list_insert_insert_eq. reflexivity. Qed.

Lemma lookupZ_insert {X} (l : list X) i x : 0 <= i < len l -> lookupZ (<[Z.to_nat i := x]> l) i = Some x.
Proof.
  intros H. unfold lookupZ. rewrite (proj2 (Z.leb_le 0 i)) by lia. apply list_lookup_insert_eq. lia.
Qed.

Section OneEndpoint.
Context (ep : Z) (u : Udd) (Hep : has_ep ep u).

Lemma get_ctrl_with e j : udd_ep_get_ctrl ep (with_ep ep e j u) = Some (with_ep ep e j u, e).
Proof.
  unfold udd_ep_get_ctrl. rewrite (proj1 (with_ep_fields ep e j u)).
  destruct Hep as (? & ? & ?). rewrite lookupZ_insert by lia. reflexivity.
Qed.

Lemma get_job_with e j : udd_ep_get_job ep (with_ep ep e j u) = Some (with_ep ep e j u, j).
Proof.
  unfold udd_ep_get_job. rewrite (proj2 (with_ep_fields ep e j u)).
  destruct Hep as (? & ? & ?). rewrite lookupZ_insert by lia. reflexivity.
Qed.

Lemma ctrl_update_with f e j : ep_ctrl_update ep f (with_ep ep e j u) = Some (with_ep ep (f e) j u, tt).
Proof.
  unfold ep_ctrl_update. rewrite (proj1 (with_ep_fields ep e j u)).
  destruct Hep as (? & ? & ?). rewrite lookupZ_insert by lia.
  unfold with_ep. destruct u; cbn. rewrite list_insert_insert_eq. reflexivity.
Qed.

Lemma job_update_with f e j : ep_job_update ep f (with_ep ep e j u) = Some (with_ep ep e (f j) u, tt).
Proof.
  unfold ep_job_update. rewrite (proj2 (with_ep_fields ep e j u)).
  destruct Hep as (? & ? & ?). rewrite lookupZ_insert by lia.
  unfold with_ep. destruct u; cbn. rewrite list_insert_insert_eq. reflexivity.
Qed.

(** Every state has this form. *)
Lemma with_ep_self : exists e j, u = with_ep ep e j u.
Proof.
  destruct Hep as (? & ? & ?).
  destruct (lookup_lt_is_Some_2 (ep_ctrl u) (Z.to_nat (ep_index ep))) as [e He]; [lia|].
  destruct (lookup_lt_is_Some_2 (udd_ep_job u) (Z.to_nat (ep_index ep - 2))) as [j Hj]; [lia|].
  exists e, j. unfold with_ep. destruct u; cbn in *.
  rewrite !list_insert_id by assumption. reflexivity.
Qed.
End OneEndpoint.

(** Reduce an endpoint computation on a state of the form [with_ep]. *)
Ltac ep_steps :=
  repeat (run; first [ rewrite get_ctrl_with by eassumption | rewrite get_job_with by eassumption
                     | rewrite ctrl_update_with by eassumption | rewrite job_update_with by eassumption ]);
  run.

(** ** IN jobs *)

(** A log of the callbacks in place of the layers above. *)
Definition log_event (ev : Event) : M (Udd * list Event) unit :=
  fun s => Some ((fst s, snd s ++ [ev]), tt).

(** The size of the next transfer of an IN job with [left] bytes to send. *)
Definition in_chunk (ep_size left : Z) : Z :=
  if UDD_ENDPOINT_MAX_TRANS <? left
  then UDD_ENDPOINT_MAX_TRANS - UDD_ENDPOINT_MAX_TRANS mod ep_size else left.

(** The hardware sends what an IN endpoint is programmed with: it reports the
    number of bytes sent in [AUXDATA], and the driver is told. *)
Definition hw_in_sent (ep : Z) : M (Udd * list Event) unit :=
  _ ← on_fst (ep_ctrl_update ep (fun e => set_AUXDATA (CNT e) e));
  udd_ep_trans_complet log_event ep.

(** The transfers of an IN job until its callback: the place and the size each
    is programmed with. *)
Fixpoint in_transfers (fuel : nat) (ep : Z) : M (Udd * list Event) (list (Buf * Z * Z)) :=
  match fuel with
  | O => fun _ => None
  | S fuel =>
      e ← on_fst (udd_ep_get_ctrl ep);
      _ ← hw_in_sent ep;
      j ← on_fst (udd_ep_get_job ep);
      rest ← (if busy j then in_transfers fuel ep else mret []);
      mret ((DATAPTR e, CNT e) :: rest)
  end.

(** Consecutive transfers that cover the bytes from [off] on of a buffer. *)
Fixpoint covers (b : Buf) (off size : Z) (ts : list (Buf * Z * Z)) : Prop :=
  match ts with
  | [] => size = 0
  | (b', off', n) :: ts => b' = b /\ off' = off /\ 0 < n <= UDD_ENDPOINT_MAX_TRANS /\ covers b (off + n) (size - n) ts
  end.

Lemma udd_ep_get_size_range e : 8 <= udd_ep_get_size e <= 1023.
Proof. unfold udd_ep_get_size. destruct (CTRL_BUFSIZE e); lia. Qed.

(** An entry is programmed by [program n p] for a transfer of [n] bytes at [p]. *)
Definition program (n : Z) (p : Buf * Z) (e : EpCtrl) : EpCtrl :=
  status_set BUSNACK0 false (set_DATAPTR p (set_CNT n (set_AUXDATA 0 e))).

Lemma size_program n p e : udd_ep_get_size (program n p e) = udd_ep_get_size e.
Proof. reflexivity. Qed.

Lemma in_chunk_spec s left : 8 <= s <= 1023 -> 0 < left ->
  0 < in_chunk s left <= Z.min left UDD_ENDPOINT_MAX_TRANS /\
  (in_chunk s left < left -> in_chunk s left mod s = 0).
Proof.
  intros Hs Hl. unfold in_chunk, UDD_ENDPOINT_MAX_TRANS.
  pose proof (Z.mod_pos_bound 1023 s ltac:(lia)). pose proof (Z.div_mod 1023 s ltac:(lia)).
  destruct (Z.ltb_spec 1023 left).
  - split; [|intros _; rewrite (Z.mod_eq 1023 s) by lia].
    + assert (0 < 1023 / s) by (apply Z.div_str_pos; lia). nia.
    + replace (1023 - (1023 - s * (1023 / s))) with ((1023 / s) * s) by lia. apply Z.mod_mul. lia.
  - split; [lia|lia].
Qed.

Section InJob.
Context (ep : Z) (u : Udd) (Hep : has_ep ep u) (Hin : ep_is_in ep = true).
Context (b : Buf) (size : Z) (Hsize : 0 <= size < 65536) (cb : Callback).

(** The driver's reaction to the end of an IN transfer, branch by branch. *)
Lemma in_sent_more e t sp c l :
  AUXDATA e = c -> 0 <= t -> 0 <= c -> t + c < size ->
  let n := in_chunk (udd_ep_get_size e) (size - (t + c)) in
  udd_ep_trans_complet log_event ep (with_ep ep e (mkJob true sp false b size t (Some cb)) u, l) =
  Some ((with_ep ep (program n (b, t + c) e)
           (mkJob true (sp && (n mod udd_ep_get_size e =? 0)) false b size (t + c) (Some cb)) u, l), tt).
Proof.
  intros Ha Ht Hc Hlt n. unfold udd_ep_trans_complet, trans_complet_in. rewrite Hin. ep_steps.
  unfold set_nb_trans. cbn [nb_trans buf_size busy b_shortpacket b_use_out_cache_buffer buf call].
  rewrite Ha, u16_id by lia. destruct (Z.eqb_spec (t + c) size); [lia|]. cbn [negb].
  rewrite u16_id by lia. fold (in_chunk (udd_ep_get_size e) (size - (t + c))). ep_steps. reflexivity.
Qed.

Lemma in_sent_zlp e t c l :
  AUXDATA e = c -> 0 <= t -> 0 <= c -> t + c = size ->
  udd_ep_trans_complet log_event ep (with_ep ep e (mkJob true true false b size t (Some cb)) u, l) =
  Some ((with_ep ep (program 0 (DATAPTR e) e) (mkJob true false false b size size (Some cb)) u, l), tt).
Proof.
  intros Ha Ht Hc Heq. unfold udd_ep_trans_complet, trans_complet_in. rewrite Hin. ep_steps.
  unfold set_nb_trans. cbn [nb_trans buf_size busy b_shortpacket b_use_out_cache_buffer buf call].
  rewrite Ha, Heq, u16_id, Z.eqb_refl by lia. cbn [negb]. ep_steps. destruct e; reflexivity.
Qed.

Lemma in_sent_done e t c l :
  AUXDATA e = c -> 0 <= t -> 0 <= c -> t + c = size ->
  udd_ep_trans_complet log_event ep (with_ep ep e (mkJob true false false b size t (Some cb)) u, l) =
  Some ((with_ep ep e (mkJob false false false b size size (Some cb)) u, l ++ [EvTrans cb true size ep]), tt).
Proof.
  intros Ha Ht Hc Heq. unfold udd_ep_trans_complet, trans_complet_in, job_complete. rewrite Hin. ep_steps.
  unfold set_nb_trans. cbn [nb_trans buf_size busy b_shortpacket b_use_out_cache_buffer buf call].
  rewrite Ha, Heq, u16_id, Z.eqb_refl by lia. cbn [negb]. ep_steps.
  cbn [busy when nb_trans call]. ep_steps. reflexivity.
Qed.

(** The last transfer, with nothing to send after it. *)
Lemma in_transfers_last fuel e t sp l :
  0 <= t <= size -> CNT e = size - t -> sp = false ->
  exists e' j', in_transfers (S fuel) ep (with_ep ep e (mkJob true sp false b size t (Some cb)) u, l) =
    Some ((with_ep ep e' j' u, l ++ [EvTrans cb true size ep]), [(DATAPTR e, CNT e)]) /\ busy j' = false.
Proof.
  intros Ht Hc ->. cbn [in_transfers]. unfold hw_in_sent. ep_steps.
  rewrite (in_sent_done _ _ (CNT e)) by (cbn [AUXDATA set_AUXDATA]; lia). ep_steps.
  eexists _, _. split; reflexivity.
Qed.

(** The transfers of a job whose next transfer is programmed: they cover the
    rest of the buffer, and a final empty packet follows a last packet of full
    size when a short packet was asked for. *)
Lemma in_transfers_spec k fuel e t sp0 l :
  (Z.to_nat (size - t) <= k)%nat -> (k + 1 < fuel)%nat ->
  0 <= t < size ->
  let s := udd_ep_get_size e in let n := in_chunk s (size - t) in
  CNT e = n -> DATAPTR e = (b, t) ->
  exists e' j' ts zlp,
    in_transfers fuel ep (with_ep ep e (mkJob true (sp0 && (n mod s =? 0)) false b size t (Some cb)) u, l) =
      Some ((with_ep ep e' j' u, l ++ [EvTrans cb true size ep]), ts ++ zlp) /\
    covers b t (size - t) ts /\ busy j' = false /\
    (map snd zlp = if sp0 && ((size - t) mod s =? 0) then [0] else []).
Proof.
  revert fuel e t; induction k as [|k IH]; intros fuel e t Hk Hf Ht s n Hn Hp; [lia|].
  destruct fuel as [|f]; [lia|].
  pose proof (udd_ep_get_size_range e) as Hs. fold s in Hs.
  destruct (in_chunk_spec s (size - t) Hs ltac:(lia)) as [Hr Hm]. fold n in Hr, Hm.
  set (sp := sp0 && (n mod s =? 0)).
  destruct (Z.eq_dec n (size - t)) as [E|N].
  - destruct sp eqn:Esp.
    + cbn [in_transfers]. unfold hw_in_sent. ep_steps.
      rewrite (in_sent_zlp _ _ n) by (cbn [AUXDATA set_AUXDATA]; lia). ep_steps.
      cbn [busy]. destruct f as [|f]; [lia|].
      destruct (in_transfers_last f (program 0 (DATAPTR (set_AUXDATA (CNT e) e)) (set_AUXDATA (CNT e) e))
                  size false l) as (e' & j' & E1 & Hb); [lia|cbn; lia|reflexivity|].
      rewrite E1.
      exists e', j', [(b, t, n)], [(DATAPTR (program 0 (DATAPTR (set_AUXDATA (CNT e) e)) (set_AUXDATA (CNT e) e)), 0)].
      split; [rewrite Hn, Hp; reflexivity|]. split; [cbn [covers]; repeat split; lia|]. split; [exact Hb|].
      fold sp in Esp. rewrite <- E. fold sp. rewrite Esp. reflexivity.
    + destruct (in_transfers_last f e t false l) as (e' & j' & E1 & Hb); [lia|lia|reflexivity|].
      rewrite E1. exists e', j', [(b, t, n)], []. rewrite Hn, Hp.
      split; [reflexivity|]. split; [cbn [covers]; repeat split; lia|]. split; [exact Hb|].
      rewrite <- E. fold sp. rewrite Esp. reflexivity.
  - specialize (Hm ltac:(lia)).
    assert (sp = sp0) as -> by (unfold sp; rewrite Hm; apply andb_true_r).
    cbn [in_transfers]. unfold hw_in_sent. ep_steps.
    rewrite (in_sent_more _ _ _ n) by (cbn [AUXDATA set_AUXDATA]; lia). ep_steps. cbn [busy].
    change (udd_ep_get_size (set_AUXDATA (CNT e) e)) with s.
    destruct (IH f (program (in_chunk s (size - (t + n))) (b, t + n) (set_AUXDATA (CNT e) e)) (t + n))
      as (e' & j' & ts & zlp & E1 & Hc & Hb & Hz); [lia|lia|lia|reflexivity|reflexivity|].
    rewrite size_program in E1, Hz. change (udd_ep_get_size (set_AUXDATA (CNT e) e)) with s in E1, Hz.
    rewrite E1. exists e', j', ((b, t, n) :: ts), zlp. rewrite Hn, Hp. split; [reflexivity|].
    split; [|split; [exact Hb|]].
    + cbn [covers]. replace (size - t - n) with (size - (t + n)) by lia. repeat split; try lia. exact Hc.
    + rewrite Hz. replace (size - (t + n)) with (size - t - n) by lia.
      rewrite Zminus_mod, Hm, Z.sub_0_r, Zmod_mod. reflexivity.
Qed.
End InJob.

(** ** OUT jobs *)

(** A running OUT job: what was received so far is a whole number of packets;
    the transfer in progress either fills the job's buffer from there, within
    its size, or fills the cache with one packet, of which the job keeps as many
    bytes as the buffer has left. *)
Definition out_inv (ep : Z) (e : EpCtrl) (j : Job) : Prop :=
  let s := udd_ep_get_size e in
  busy j = true /\ 0 <= nb_trans j < buf_size j /\ buf_size j + UDD_ENDPOINT_MAX_TRANS < 65536 /\ nb_trans j mod s = 0 /\
  if b_use_out_cache_buffer j
  then DATAPTR e = (B_out_cache (ep - 1), 0) /\ AUXDATA e = s /\ buf_size j - nb_trans j = buf_size j mod s
  else DATAPTR e = (buf j, nb_trans j) /\ 0 < AUXDATA e /\ nb_trans j + AUXDATA e <= buf_size j /\
       AUXDATA e mod s = 0.

(** The size of the next direct transfer with [left] bytes free. *)
Definition out_chunk (s left : Z) : Z :=
  if UDD_ENDPOINT_MAX_TRANS <? left
  then UDD_ENDPOINT_MAX_TRANS - UDD_ENDPOINT_MAX_TRANS mod s else left - left mod s.

Lemma out_chunk_spec s left : 8 <= s <= 1023 -> 0 < left ->
  0 <= out_chunk s left <= left /\ out_chunk s left mod s = 0 /\
  (out_chunk s left < s -> left < s).
Proof.
  intros Hs Hl. unfold out_chunk, UDD_ENDPOINT_MAX_TRANS.
  assert (forall x, 0 < x -> (x - x mod s) mod s = 0) as Hm.
  { intros x Hx. rewrite (Z.mod_eq x s) by lia.
    replace (x - (x - s * (x / s))) with ((x / s) * s) by lia. apply Z.mod_mul. lia. }
  pose proof (Z.mod_pos_bound 1023 s ltac:(lia)). pose proof (Z.mod_pos_bound left s ltac:(lia)).
  pose proof (Z.div_mod 1023 s ltac:(lia)). pose proof (Z.div_mod left s ltac:(lia)).
  pose proof (Z.mod_le left s ltac:(lia) ltac:(lia)).
  pose proof (Z.mod_le 1023 s ltac:(lia) ltac:(lia)).
  destruct (Z.ltb_spec 1023 left); (split; [lia|]); (split; [apply Hm; lia|]); intros Hlt.
  - assert (s * 1 <= s * (1023 / s)) by (apply Z.mul_le_mono_nonneg_l; [lia|];
      apply Z.div_le_lower_bound; lia). lia.
  - destruct (Z.lt_ge_cases left s) as [|Hge]; [assumption|].
    assert (s * 1 <= s * (left / s)) by (apply Z.mul_le_mono_nonneg_l; [lia|];
      apply Z.div_le_lower_bound; lia). lia.
Qed.

Lemma blit_in (m : list Z) dst data :
  0 <= dst -> dst + len data <= len m -> exists m', blit m dst data = Some m' /\ length m' = length m.
Proof.
  intros Hd Hl. unfold blit.
  rewrite (proj2 (Z.leb_le 0 dst)), (proj2 (Z.leb_le _ (len m))) by lia.
  eexists. split; [reflexivity|]. rewrite !length_app, length_take, length_drop. lia.
Qed.

Section OutJob.
Context (ep : Z) (u : Udd) (Hep : has_ep ep u) (Hout : ep_is_in ep = false).

(** Starting the next transfer of an OUT job. *)
Definition next_out (e : EpCtrl) (j : Job) : EpCtrl * Job :=
  let s := udd_ep_get_size e in
  let n := out_chunk s (buf_size j - nb_trans j) in
  if n <? s
  then (status_set BUSNACK0 false (set_AUXDATA s (set_DATAPTR (B_out_cache (ep - 1), 0) (set_CNT 0 e))), set_use_cache true j)
  else (status_set BUSNACK0 false (set_AUXDATA n (set_DATAPTR (buf j, nb_trans j) (set_CNT 0 e))), j).

Lemma next_out_inv e j :
  busy j = true -> b_use_out_cache_buffer j = false -> 0 <= nb_trans j < buf_size j ->
  buf_size j + UDD_ENDPOINT_MAX_TRANS < 65536 -> nb_trans j mod udd_ep_get_size e = 0 ->
  out_inv ep (fst (next_out e j)) (snd (next_out e j)).
Proof.
  intros Hb Hc Hn Hs Hm. pose proof (udd_ep_get_size_range e) as Hr. unfold next_out.
  set (s := udd_ep_get_size e) in *.
  destruct (out_chunk_spec s (buf_size j - nb_trans j)) as (H1 & H2 & H3); [lia|lia|].
  destruct (Z.ltb_spec (out_chunk s (buf_size j - nb_trans j)) s) as [Hlt|Hge]; cbn [fst snd];
    unfold out_inv; cbn -[Z.modulo];
    match goal with |- context [udd_ep_get_size ?x] => change (udd_ep_get_size x) with s end.
  - repeat split; try assumption; try lia.
    specialize (H3 Hlt). replace (buf_size j) with (nb_trans j + (buf_size j - nb_trans j)) at 2 by lia.
    rewrite Zplus_mod, Hm, Z.add_0_l, Zmod_mod, Z.mod_small; lia.
  - rewrite Hc. repeat split; try assumption; lia.
Qed.

(** The number of bytes a job holds when a transfer ends. *)
Definition out_total (e : EpCtrl) (j : Job) : Z := Z.min (buf_size j) (nb_trans j + CNT e).

Lemma out_received_more e j l :
  b_use_out_cache_buffer j = false -> 0 <= nb_trans j -> buf_size j < 65536 ->
  0 <= CNT e -> CNT e = AUXDATA e -> nb_trans j + CNT e < buf_size j ->
  let j1 := set_nb_trans (nb_trans j + CNT e) j in
  udd_ep_trans_complet log_event ep (with_ep ep e j u, l) =
  Some ((with_ep ep (fst (next_out e j1)) (snd (next_out e j1)) u, l), tt).
Proof.
  intros Hc Hn Hs H0 Ha Hlt j1. unfold udd_ep_trans_complet, trans_complet_out. rewrite Hout.
  ep_steps. rewrite Hc. ep_steps. cbn [nb_trans buf_size set_nb_trans busy buf].
  rewrite u16_id by lia. destruct (Z.ltb_spec (buf_size j) (nb_trans j + CNT e)); [lia|].
  rewrite Ha, Z.eqb_refl. rewrite <- Ha.
  destruct (Z.eqb_spec (nb_trans j + CNT e) (buf_size j)); [lia|]. cbn [andb negb].
  rewrite u16_id by lia. unfold next_out, j1. cbn [nb_trans buf_size set_nb_trans buf].
  fold (out_chunk (udd_ep_get_size e) (buf_size j - (nb_trans j + CNT e))).
  ep_steps. destruct (out_chunk _ _ <? _); ep_steps; reflexivity.
Qed.

Lemma out_received_done e j l cb :
  busy j = true -> call j = Some cb ->
  b_use_out_cache_buffer j = false -> 0 <= nb_trans j -> buf_size j < 65536 ->
  0 <= CNT e -> nb_trans j + CNT e <= buf_size j ->
  CNT e <> AUXDATA e \/ nb_trans j + CNT e = buf_size j ->
  udd_ep_trans_complet log_event ep (with_ep ep e j u, l) =
  Some ((with_ep ep e (set_busy false (set_nb_trans (nb_trans j + CNT e) j)) u,
         l ++ [EvTrans cb true (nb_trans j + CNT e) ep]), tt).
Proof.
  intros Hb Hcb Hc Hn Hs H0 Hle Hor. unfold udd_ep_trans_complet, trans_complet_out, job_complete. rewrite Hout.
  ep_steps. rewrite Hc. ep_steps. cbn [nb_trans buf_size set_nb_trans busy buf].
  rewrite u16_id by lia. destruct (Z.ltb_spec (buf_size j) (nb_trans j + CNT e)); [lia|].
  replace ((CNT e =? AUXDATA e) && negb (nb_trans j + CNT e =? buf_size j)) with false.
  2: { symmetry. apply andb_false_iff. destruct Hor; [left; apply Z.eqb_neq; lia|right; apply negb_false_iff, Z.eqb_eq; lia]. }
  ep_steps. cbn [busy set_nb_trans call nb_trans]. rewrite Hb, Hcb. ep_steps. reflexivity.
Qed.
End OutJob.

Lemma set_mem_with_ep b m ep e j u : set_mem b m (with_ep ep e j u) = with_ep ep e j (set_mem b m u).
Proof. destruct u; reflexivity. Qed.

Lemma mem_with_ep ep e j u : mem (with_ep ep e j u) = mem u.
Proof. destruct u; reflexivity. Qed.

Lemma has_ep_set_mem b m ep u : has_ep ep u -> has_ep ep (set_mem b m u).
Proof. destruct u; exact (fun H => H). Qed.

(** The cache holds the last packet: its bytes that fit go to the buffer. *)
Lemma out_received_cache ep u e j l cb :
  has_ep ep u -> ep_is_in ep = false -> out_inv ep e j -> b_use_out_cache_buffer j = true ->
  call j = Some cb -> 0 <= CNT e <= AUXDATA e ->
  buf_size j <= len (mem u (buf j)) -> udd_ep_get_size e <= len (mem u (B_out_cache (ep - 1))) ->
  exists m, length m = length (mem u (buf j)) /\
  udd_ep_trans_complet log_event ep (with_ep ep e j u, l) =
  Some ((with_ep ep e (set_busy false (set_nb_trans (out_total e j) j)) (set_mem (buf j) m u),
         l ++ [EvTrans cb true (out_total e j) ep]), tt).
Proof.
  intros Hep Hout (Hb & Hn & Hs & Hm & Hc) Hcache Hcb H0 Hl1 Hl2. rewrite Hcache in Hc.
  destruct Hc as (Hp & Ha & Hrest). unfold UDD_ENDPOINT_MAX_TRANS in Hs. pose proof (udd_ep_get_size_range e) as Hr.
  set (s := udd_ep_get_size e) in *. unfold out_total.
  unfold udd_ep_trans_complet, trans_complet_out, job_complete. rewrite Hout.
  ep_steps. fold s. rewrite Hcache. unfold mem_copy. rewrite !mem_with_ep.
  pose proof (Z.mod_pos_bound (buf_size j) s ltac:(lia)).
  rewrite (proj2 (Z.leb_le 0 _)), (proj2 (Z.leb_le (buf_size j mod s) _)) by lia. cbn [andb].
  destruct (blit_in (mem u (buf j)) (nb_trans j) (take (Z.to_nat (buf_size j mod s)) (mem u (B_out_cache (ep - 1)))))
    as (m & Em & Lm); [lia|rewrite length_take; lia|].
  exists m. split; [exact Lm|]. rewrite Em, set_mem_with_ep.
  pose proof (has_ep_set_mem (buf j) m ep u Hep) as Hep'. clear Hep.
  ep_steps. cbn [nb_trans buf_size set_nb_trans busy buf]. rewrite u16_id by lia.
  rewrite Z.min_comm. unfold Z.min.
  assert (CNT e = AUXDATA e -> buf_size j <= nb_trans j + CNT e) as Hfull by lia.
  destruct (Z.ltb_spec (buf_size j) (nb_trans j + CNT e)).
  - rewrite (proj2 (Z.compare_gt_iff _ _)) by lia. rewrite Z.eqb_refl, andb_false_r. ep_steps.
    cbn [busy set_nb_trans call nb_trans]. rewrite Hb, Hcb. ep_steps. reflexivity.
  - replace ((CNT e =? AUXDATA e) && negb (nb_trans j + CNT e =? buf_size j)) with false.
    2: { symmetry. apply andb_false_iff. destruct (Z.eqb_spec (CNT e) (AUXDATA e)); [right|left; reflexivity].
         apply negb_false_iff, Z.eqb_eq. lia. }
    ep_steps. cbn [busy set_nb_trans call nb_trans]. rewrite Hb, Hcb. ep_steps.
    destruct (Z.compare_spec (nb_trans j + CNT e) (buf_size j)); [reflexivity|reflexivity|lia].
Qed.

(** ** The data phase of a control IN request *)

(** The IN entry of the control endpoint. *)
Definition ep0_in (u : Udd) : option EpCtrl := lookupZ (ep_ctrl u) (ep_index EP0_IN).

(** A data phase with a payload of [size] bytes in [b], for a host that asks for
    [want] bytes, of which [t] were given to the hardware; [prev] is the count of
    earlier payloads and [short] says whether the last packet was short. *)
Record in_phase (b : Buf) (size want prev t : Z) (short : bool) (u : Udd) : Prop := {
  phase_state : udd_ep_control_state u = UDD_EPCTRL_DATA_IN;
  phase_payload : payload (udd_g_ctrlreq u) = b;
  phase_size : payload_size (udd_g_ctrlreq u) = size;
  phase_want : wLength (req (udd_g_ctrlreq u)) = want;
  phase_over : over_under_run (udd_g_ctrlreq u) = false;
  phase_nb : udd_ctrl_payload_nb_trans u = t;
  phase_prev : udd_ctrl_prev_payload_nb_trans u = prev;
  phase_short : udd_in_shortpacket u = short;
  phase_eps : (2 <= length (ep_ctrl u))%nat
}.

(** The packet that the IN entry is programmed with. *)
Definition in_packet (u : Udd) : option (Buf * Z * Z) :=
  e ← ep0_in u; if STATUS e BUSNACK0 then None else Some (DATAPTR e, CNT e).

Lemma ctrl_in_packet_spec n u b size want prev t short :
  in_phase b size want prev t short u -> 0 <= n -> 0 <= t -> t + n < 65536 ->
  let nb := Z.min n 64 in
  exists u', ctrl_in_packet n u = Some (u', tt) /\
    in_phase b size want prev (t + nb) (n <? 64) u' /\ in_packet u' = Some (b, t, nb).
Proof.
  intros [] Hn H0 Ht nb. unfold ctrl_in_packet, USB_DEVICE_EP_CTRL_SIZE.
  rewrite Z.geb_leb, <- Z.ltb_antisym.
  assert ((if n <? 64 then n else 64) = nb) as -> by (unfold nb; destruct (Z.ltb_spec n 64); lia).
  destruct u as [eps jobs fn ad att mi be fl ff me cr cs pv nbt sp]. cbn in *. subst.
  destruct eps as [|e0 [|e1 eps]]; [cbn in *; lia|cbn in *; lia|].
  eexists. split; [reflexivity|]. split; [|reflexivity].
  constructor; cbn; try reflexivity; try assumption; try lia. apply u16_id. unfold nb. lia.
Qed.

Section InPhase.
Context {A : Type} (run_callback : Callback -> M (Udd * A) unit) (run_over_under : M (Udd * A) bool).
Let in_sent := udd_ctrl_in_sent run_callback run_over_under.

(** The packets of a data phase: each is sent by the hardware and reported to
    the driver, until the driver waits for the status packet. *)
Fixpoint in_packets (fuel : nat) : M (Udd * A) (list (Buf * Z * Z)) :=
  match fuel with
  | O => fun _ => None
  | S fuel =>
      st ← gets (fun s => udd_ep_control_state (fst s));
      if bool_decide (st = UDD_EPCTRL_HANDSHAKE_WAIT_OUT_ZLP) then mret []
      else
        u ← gets fst;
        p ← of_option (in_packet u);
        _ ← in_sent;
        rest ← in_packets fuel;
        mret (p :: rest)
  end.

(** The driver's reaction to a sent packet. *)
Lemma in_sent_next b size want prev t short u a :
  in_phase b size want prev t short u -> 0 <= t < size -> size < 65536 ->
  exists u', in_sent (u, a) = Some ((u', a), tt) /\
    in_phase b size want prev (t + Z.min (size - t) 64) (size - t <? 64) u' /\
    in_packet u' = Some (b, t, Z.min (size - t) 64).
Proof.
  intros H Ht Hs. destruct (ctrl_in_packet_spec (size - t) u b size want prev t short H ltac:(lia) ltac:(lia) ltac:(lia))
    as (u' & E & Hp & Hk). exists u'. split; [|split; assumption].
  unfold in_sent, udd_ctrl_in_sent. run. destruct H. rewrite phase_state0, phase_size0, phase_nb0.
  rewrite bool_decide_eq_false_2 by discriminate.
  rewrite u16_id by lia. destruct (Z.eqb_spec (size - t) 0); [lia|]. run. rewrite E. reflexivity.
Qed.

Lemma in_sent_end b size want prev short u a :
  in_phase b size want prev size short u -> 0 <= size < 65536 -> (size = want /\ prev = 0) \/ short = true ->
  exists u', in_sent (u, a) = Some ((u', a), tt) /\
    udd_ep_control_state u' = UDD_EPCTRL_HANDSHAKE_WAIT_OUT_ZLP.
Proof.
  intros [] Hs Hor. unfold in_sent, udd_ctrl_in_sent. run. rewrite phase_state0, phase_size0, phase_nb0.
  rewrite bool_decide_eq_false_2 by discriminate. rewrite Z.sub_diag.
  change (u16 0 =? 0) with true. cbn iota. rewrite phase_want0, phase_prev0, phase_short0.
  replace ((want =? u16 (prev + size)) || short) with true.
  2: { symmetry. apply orb_true_iff. destruct Hor as [[-> ->]|]; [left|right; assumption].
       rewrite Z.add_0_l, u16_id by lia. apply Z.eqb_refl. }
  unfold udd_ctrl_send_zlp_out, ep_ctrl_update. run.
  destruct u as [eps jobs fn ad att mi be fl ff me cr cs pv nbt sp]. cbn in *.
  destruct eps as [|e0 eps]; [cbn in *; lia|]. eexists. split; reflexivity.
Qed.

(** The payload ends at a packet boundary before the host has what it asked for. *)
Lemma in_sent_empty b size want u a :
  in_phase b size want 0 size false u -> 0 <= size < 65536 -> size <> want ->
  exists u', in_sent (u, a) = Some ((u', a), tt) /\
    in_phase b size want size size true u' /\ in_packet u' = Some (b, size, 0).
Proof.
  intros [] Hs Hne.
  assert (in_phase b size want size size false (set_prev_nb size u)) as Hp.
  { destruct u. constructor; assumption || reflexivity. }
  destruct (ctrl_in_packet_spec 0 _ _ _ _ _ _ _ Hp ltac:(lia) ltac:(lia) ltac:(lia)) as (u' & E & Hp' & Hk).
  rewrite Z.add_0_r in Hp'. exists u'. split; [|split; assumption].
  unfold in_sent, udd_ctrl_in_sent. run. rewrite phase_state0, phase_size0, phase_nb0.
  rewrite bool_decide_eq_false_2 by discriminate. rewrite Z.sub_diag.
  change (u16 0 =? 0) with true. cbn iota.
  rewrite phase_want0, phase_prev0, phase_short0, phase_over0, Z.add_0_l, u16_id by lia.
  replace (want =? size) with false by (symmetry; apply Z.eqb_neq; lia). cbn [orb]. run. rewrite E. reflexivity.
Qed.

Lemma in_packets_stop f u a :
  udd_ep_control_state u = UDD_EPCTRL_HANDSHAKE_WAIT_OUT_ZLP -> in_packets (S f) (u, a) = Some ((u, a), []).
Proof. intros E. cbn [in_packets]. run. rewrite E, bool_decide_eq_true_2; reflexivity. Qed.

Lemma in_packets_step f b size want prev t short u a p u1 :
  in_phase b size want prev t short u -> in_packet u = Some p -> in_sent (u, a) = Some ((u1, a), tt) ->
  in_packets (S f) (u, a) =
    match in_packets f (u1, a) with Some (s, rest) => Some (s, p :: rest) | None => None end.
Proof.
  intros Hp Hk E. cbn [in_packets]. fold in_sent. run.
  rewrite (phase_state _ _ _ _ _ _ _ Hp), bool_decide_eq_false_2 by discriminate. run. rewrite Hk, E. reflexivity.
Qed.

(** The last packet of the payload, and the empty packet after it. *)
Lemma in_packets_final fuel b size want t0 u a :
  let n := size - t0 in
  (2 < fuel)%nat -> 0 <= t0 -> 0 < n <= 64 -> size < 65536 -> size <= want ->
  in_phase b size want 0 size (n <? 64) u -> in_packet u = Some (b, t0, n) ->
  exists u' zlp, in_packets fuel (u, a) = Some ((u', a), [(b, t0, n)] ++ zlp) /\
    udd_ep_control_state u' = UDD_EPCTRL_HANDSHAKE_WAIT_OUT_ZLP /\
    map snd zlp = if (size <? want) && (n mod 64 =? 0) then [0] else [].
Proof.
  intros n Hf H0 Hn Hs Hw Hp Hk. destruct fuel as [|[|[|fuel]]]; [lia|lia|lia|].
  destruct ((size <? want) && (n mod 64 =? 0)) eqn:Ez.
  - apply andb_true_iff in Ez. destruct Ez as [Ez1 Ez2]. apply Z.ltb_lt in Ez1. apply Z.eqb_eq in Ez2.
    assert (n = 64) as E64.
    { destruct (Z.eq_dec n 64); [assumption|]. rewrite Z.mod_small in Ez2 by lia. lia. }
    rewrite E64 in Hp. change (64 <? 64) with false in Hp.
    destruct (in_sent_empty b size want u a Hp ltac:(lia) ltac:(lia)) as (u1 & E1 & Hp1 & Hk1).
    destruct (in_sent_end b size want size true u1 a Hp1 ltac:(lia) (or_intror eq_refl)) as (u2 & E2 & Hst).
    exists u2, [(b, size, 0)]. split; [|split; [exact Hst|reflexivity]].
    rewrite (in_packets_step _ _ _ _ _ _ _ _ _ _ _ Hp Hk E1), (in_packets_step _ _ _ _ _ _ _ _ _ _ _ Hp1 Hk1 E2).
    rewrite in_packets_stop by exact Hst. reflexivity.
  - destruct (in_sent_end b size want 0 (n <? 64) u a Hp ltac:(lia)) as (u2 & E2 & Hst).
    { apply andb_false_iff in Ez. destruct Ez as [Ez|Ez]; [left; apply Z.ltb_ge in Ez; lia|right].
      apply Z.ltb_lt. destruct (Z.eq_dec n 64) as [E64|]; [rewrite E64 in Ez; discriminate|lia]. }
    exists u2, []. split; [|split; [exact Hst|reflexivity]].
    rewrite (in_packets_step _ _ _ _ _ _ _ _ _ _ _ Hp Hk E2).
    rewrite in_packets_stop by exact Hst. reflexivity.
Qed.

(** The packets from a programmed one on. *)
Lemma in_packets_spec k fuel b size want t0 u a :
  let n := Z.min (size - t0) 64 in
  (Z.to_nat (size - t0) <= k)%nat -> (k + 2 < fuel)%nat -> 0 <= t0 < size -> size < 65536 -> size <= want ->
  in_phase b size want 0 (t0 + n) (size - t0 <? 64) u -> in_packet u = Some (b, t0, n) ->
  exists u' ts zlp, in_packets fuel (u, a) = Some ((u', a), ts ++ zlp) /\
    udd_ep_control_state u' = UDD_EPCTRL_HANDSHAKE_WAIT_OUT_ZLP /\
    covers b t0 (size - t0) ts /\ Forall (fun p => snd p <= 64) ts /\
    map snd zlp = if (size <? want) && ((size - t0) mod 64 =? 0) then [0] else [].
Proof.
  revert fuel t0 u; induction k as [|k IH]; intros fuel t0 u n Hk Hf Ht Hs Hw Hp Hpk; [lia|].
  destruct (Z.eq_dec (t0 + n) size) as [E|N].
  - assert (n = size - t0) as En by lia. rewrite E in Hp. rewrite En in Hpk.
    destruct (in_packets_final fuel b size want t0 u a) as (u2 & zlp & E2 & Hst & Hz); try assumption; try lia.
    exists u2, [(b, t0, size - t0)], zlp. split; [exact E2|]. split; [exact Hst|].
    split; [cbn [covers]; unfold UDD_ENDPOINT_MAX_TRANS; repeat split; lia|].
    split; [repeat constructor; cbn; lia|exact Hz].
  - assert (n = 64) as En by lia. destruct fuel as [|fuel]; [lia|].
    destruct (in_sent_next b size want 0 (t0 + n) (size - t0 <? 64) u a Hp ltac:(lia) Hs) as (u1 & E1 & Hp1 & Hk1).
    destruct (IH fuel (t0 + n) u1 ltac:(lia) ltac:(lia) ltac:(lia) Hs Hw Hp1 Hk1)
      as (u2 & ts & zlp & E2 & Hst & Hc & Hf64 & Hz).
    rewrite (in_packets_step _ _ _ _ _ _ _ _ _ _ _ Hp Hpk E1), E2.
    exists u2, ((b, t0, n) :: ts), zlp. split; [reflexivity|]. split; [exact Hst|]. split; [|split].
    + cbn [covers]. replace (size - t0 - n) with (size - (t0 + n)) by lia.
      unfold UDD_ENDPOINT_MAX_TRANS. repeat split; try lia. exact Hc.
    + constructor; [cbn; lia|exact Hf64].
    + rewrite Hz, En. replace (size - (t0 + 64)) with (size - t0 + (-1) * 64) by lia.
      rewrite Z_mod_plus_full. reflexivity.
Qed.
End InPhase.

(** The data phase of a control request to read sends exactly the payload:
    once the request is decoded with a payload no longer than the host asked
    for, the packets cover the payload in order, at most 64 bytes each, an empty
    packet follows exactly when the payload is shorter than requested and ends on
    a packet boundary, and the driver then waits for the status packet. *)
Lemma control_in_sends_payload {A} (run_callback : Callback -> M (Udd * A) unit) run_over_under b size want short u (a : A) :
  in_phase b size want 0 0 short u -> 0 < size < 65536 -> size <= want ->
  exists u1 u2 ts zlp,
    udd_ctrl_in_sent run_callback run_over_under (u, a) = Some ((u1, a), tt) /\
    in_packets run_callback run_over_under (Z.to_nat size + 3) (u1, a) = Some ((u2, a), ts ++ zlp) /\
    covers b 0 size ts /\ Forall (fun p => snd p <= 64) ts /\
    (map snd zlp = if (size <? want) && (size mod 64 =? 0) then [0] else []) /\
    udd_ep_control_state u2 = UDD_EPCTRL_HANDSHAKE_WAIT_OUT_ZLP.
Proof.
  intros Hp Hs Hw.
  destruct (in_sent_next run_callback run_over_under b size want 0 0 short u a Hp ltac:(lia) ltac:(lia))
    as (u1 & E1 & Hp1 & Hk1). rewrite Z.sub_0_r in *.
  destruct (in_packets_spec run_callback run_over_under (Z.to_nat size) (Z.to_nat size + 3) b size want 0 u1 a)
    as (u2 & ts & zlp & E2 & Hst & Hc & Hf & Hz); rewrite ?Z.sub_0_r; try assumption; try lia.
  rewrite Z.sub_0_r in Hc, Hz. exists u1, u2, ts, zlp. repeat split; assumption.
Qed.

(** ** Properties *)

(** An IN job on an enabled endpoint sends its whole buffer: the transfers
    it programs cover the buffer's bytes in order, none longer than the hardware
    allows, followed by one empty packet exactly when a short packet was asked
    for (or the buffer is empty) and the size is a multiple of the packet size;
    then the callback is called once, with the size. *)
Theorem in_job_sends_all ep u e j b size short cb :
  has_ep ep u -> ep_is_in ep = true -> 0 <= size < 65536 ->
  u = with_ep ep e j u -> udd_endpoint_is_enable e = true -> CTRL_STALL e = false -> busy j = false ->
  exists u1 u2 ts zlp,
    udd_ep_run log_event ep short b size (Some cb) (u, []) = Some ((u1, []), true) /\
    in_transfers (Z.to_nat size + 3) ep (u1, []) = Some ((u2, [EvTrans cb true size ep]), ts ++ zlp) /\
    covers b 0 size ts /\
    map snd zlp = if (short || (size =? 0)) && (size mod udd_ep_get_size e =? 0) then [0] else [].
Proof.
  intros Hep Hin Hsize Hu Hen Hst Hb. rewrite Hu. unfold udd_ep_run. ep_steps.
  rewrite Hen, Hst, Hb, andb_false_r, Hin. cbn [negb]. ep_steps.
  destruct (Z.eq_dec size 0) as [->|N].
  - rewrite orb_true_r.
    rewrite (in_sent_zlp ep u Hep Hin b 0 ltac:(lia) cb _ 0 0) by (cbn; lia). ep_steps.
    destruct (in_transfers_last ep u Hep Hin b 0 ltac:(lia) cb 2 (program 0 (DATAPTR (set_AUXDATA 0 e)) (set_AUXDATA 0 e))
                0 false []) as (e' & j' & E1 & Hb'); [lia|reflexivity|reflexivity|].
    eexists _, _, [], [_]. split; [reflexivity|]. split; [exact E1|]. split; [reflexivity|].
    rewrite Zmod_0_l. reflexivity.
  - replace (size =? 0) with false by (symmetry; apply Z.eqb_neq; lia). rewrite orb_false_r.
    rewrite (in_sent_more ep u Hep Hin b size Hsize cb _ 0 short 0) by (cbn; lia). ep_steps.
    destruct (in_transfers_spec ep u Hep Hin b size Hsize cb (Z.to_nat size) (Z.to_nat size + 3)
                (program (in_chunk (udd_ep_get_size e) size) (b, 0) (set_AUXDATA 0 e)) 0 short [])
      as (e' & j' & ts & zlp & E1 & Hc & _ & Hz); [lia|lia|lia|cbn -[in_chunk]; rewrite Z.sub_0_r; reflexivity|reflexivity|].
    rewrite size_program, Z.sub_0_r in E1, Hz. rewrite Z.sub_0_r in Hc. cbn [Z.add].
    rewrite Z.sub_0_r.
    eexists _, _, ts, zlp. split; [reflexivity|]. split; [exact E1|]. split; [exact Hc|exact Hz].
Qed.

(** An OUT job never writes outside its buffer: when a transfer ends with no
    more bytes than were asked for, the driver copies what the cache holds within
    the buffer, and either programs a further transfer that again stays within
    the buffer or the cache, or calls the callback with the number of bytes the
    buffer holds, at most its size. *)
Theorem out_job_in_bounds ep u e j l cb :
  has_ep ep u -> ep_is_in ep = false -> out_inv ep e j -> call j = Some cb ->
  0 <= CNT e <= AUXDATA e ->
  buf_size j <= len (mem u (buf j)) -> udd_ep_get_size e <= len (mem u (B_out_cache (ep - 1))) ->
  exists e' j' u', length (mem u' (buf j)) = length (mem u (buf j)) /\
    ((udd_ep_trans_complet log_event ep (with_ep ep e j u, l) = Some ((with_ep ep e' j' u', l), tt) /\
      CNT e = AUXDATA e /\ nb_trans j + CNT e < buf_size j /\ out_inv ep e' j') \/
     (udd_ep_trans_complet log_event ep (with_ep ep e j u, l)
      = Some ((with_ep ep e' j' u', l ++ [EvTrans cb true (out_total e j) ep]), tt) /\
      busy j' = false /\ out_total e j <= buf_size j)).
Proof.
  intros Hep Hout Hinv Hcb H0 Hl1 Hl2.
  destruct (b_use_out_cache_buffer j) eqn:Hcache.
  - destruct (out_received_cache ep u e j l cb Hep Hout Hinv Hcache Hcb H0 Hl1 Hl2) as (m & Lm & E).
    eexists e, _, (set_mem (buf j) m u). split.
    + destruct u; cbn. rewrite decide_True by reflexivity. exact Lm.
    + right. split; [exact E|]. split; [reflexivity|unfold out_total; lia].
  - pose proof Hinv as (Hb & Hn & Hs & Hm & Hc). rewrite Hcache in Hc. destruct Hc as (Hp & Ha & Hle & Ham).
    unfold UDD_ENDPOINT_MAX_TRANS in Hs.
    destruct (Z.eq_dec (CNT e) (AUXDATA e)) as [E|N];
      [destruct (Z.eq_dec (nb_trans j + CNT e) (buf_size j)) as [E2|N2]|].
    2: { eexists _, _, u. split; [reflexivity|]. left.
         split; [apply out_received_more; assumption || lia|].
         split; [exact E|]. split; [lia|].
         apply next_out_inv; cbn -[Z.modulo]; try assumption; try lia.
         rewrite E, Zplus_mod, Hm, Ham. reflexivity. }
    all: eexists _, _, u; (split; [reflexivity|]); right;
      (split; [unfold out_total; rewrite Z.min_r by lia; apply out_received_done; auto; lia|]);
      split; [reflexivity|unfold out_total; lia].
Qed.

(** ** Witnesses *)

(** The driver after power-up with the control endpoint and the CDC endpoints
    allocated. *)
Definition idle_ep (t : EpType) : EpCtrl :=
  mkEpCtrl t BUFSIZE_64 false true
    (fun b => match b with BUSNACK0 | BUSNACK1 => true | _ => false end) 0 (B_ctrl, 0) 0.
Definition idle_job : Job := mkJob false false false B_ctrl 0 0 None.
Definition example_udd : Udd :=
  mkUdd [idle_ep TYPE_CONTROL; idle_ep TYPE_CONTROL; idle_ep TYPE_DISABLE; idle_ep TYPE_BULK;
         idle_ep TYPE_BULK; idle_ep TYPE_BULK]
    [idle_job; idle_job; idle_job; idle_job] 0 1 true true false (fun _ => false) []
    (fun _ => repeat 0 64)
    (mkCtrlReq (mkReq 128 6 256 0 255) B_device_desc 18 None false) UDD_EPCTRL_DATA_IN 0 0 false.

Lemma in_job_sends_all_witness :
  exists u1 u2 ts zlp,
    udd_ep_run log_event 129 true (B_cdc_tx false) 64 (Some cb_cdc_data_sent) (example_udd, []) = Some ((u1, []), true) /\
    in_transfers 67 129 (u1, []) = Some ((u2, [EvTrans cb_cdc_data_sent true 64 129]), ts ++ zlp) /\
    covers (B_cdc_tx false) 0 64 ts /\ map snd zlp = [0].
Proof.
  apply (in_job_sends_all 129 example_udd (idle_ep TYPE_BULK) idle_job (B_cdc_tx false) 64 true cb_cdc_data_sent);
    try reflexivity.
  - vm_compute. intuition congruence.
  - lia.
Defined.

Definition receiving_ep : EpCtrl :=
  mkEpCtrl TYPE_BULK BUFSIZE_64 false true (fun _ => false) 10 (B_cdc_rx false, 0) 64.
Definition receiving_job : Job := mkJob true true false (B_cdc_rx false) 64 0 (Some cb_cdc_data_received).

Lemma out_job_in_bounds_witness :
  exists e' j' u', length (mem u' (B_cdc_rx false)) = 64%nat /\
    ((udd_ep_trans_complet log_event 2 (with_ep 2 receiving_ep receiving_job example_udd, []) = Some ((with_ep 2 e' j' u', []), tt) /\
      CNT receiving_ep = AUXDATA receiving_ep /\ 0 + CNT receiving_ep < 64 /\ out_inv 2 e' j') \/
     (udd_ep_trans_complet log_event 2 (with_ep 2 receiving_ep receiving_job example_udd, [])
      = Some ((with_ep 2 e' j' u', [EvTrans cb_cdc_data_received true (out_total receiving_ep receiving_job) 2]), tt) /\
      busy j' = false /\ out_total receiving_ep receiving_job <= 64)).
Proof.
  apply (out_job_in_bounds 2 example_udd receiving_ep receiving_job []); try reflexivity;
    vm_compute; intuition congruence.
Defined.
