(* ===== verification/UdiCdc.v ===== *)
(** * The CDC serial interface (udi_cdc.c)

    One communication port with a pair of 64-byte buffers per direction. The
    application's receive callback ([UDI_CDC_RX_NOTIFY]) is a parameter, as are
    the interrupts that run while a function polls. The state is the driver's,
    the interface's and the application's. *)

From S2P Require Import Prelude Udd.

(** ** Data *)

Definition UDI_CDC_TX_BUFFERS : Z := 64.
Definition UDI_CDC_RX_BUFFERS : Z := 64.
Definition UDI_CDC_DATA_EP_IN_0 : Z := Z.lor 1 USB_EP_DIR_IN.
Definition UDI_CDC_DATA_EP_OUT_0 : Z := 2.
Definition UDI_CDC_COMM_EP_0 : Z := Z.lor 2 USB_EP_DIR_IN.
Definition UDI_CDC_COMM_IFACE_NUMBER_0 : Z := 0.
Definition UDI_CDC_DEFAULT_RATE : Z := 115200.
Definition UDI_CDC_DEFAULT_STOPBITS : Z := 0.
Definition UDI_CDC_DEFAULT_PARITY : Z := 0.
Definition UDI_CDC_DEFAULT_DATABITS : Z := 8.
Definition USB_REQ_TYPE_MASK : Z := 96.
Definition USB_REQ_TYPE_CLASS : Z := 32.
Definition USB_REQ_CDC_SET_LINE_CODING : Z := 32.
Definition USB_REQ_CDC_GET_LINE_CODING : Z := 33.
Definition USB_REQ_CDC_SET_CONTROL_LINE_STATE : Z := 34.
Definition USB_REQ_CDC_NOTIFY_SERIAL_STATE : Z := 32.
Definition CDC_SERIAL_STATE_DCD : Z := 1.
Definition CDC_SERIAL_STATE_DSR : Z := 2.
Definition CDC_SERIAL_STATE_BREAK : Z := 4.
Definition CDC_SERIAL_STATE_RING : Z := 8.
Definition CDC_SERIAL_STATE_FRAMING : Z := 16.
Definition CDC_SERIAL_STATE_PARITY : Z := 32.
Definition CDC_SERIAL_STATE_OVERRUN : Z := 64.

(** The variables of the port; a two-element array is a function of the buffer
    selector, and the selector is [false] for 0. *)
Record Cdc := mkCdc {
  serial_state_msg_ongoing : bool; cdc_state : Z;
  nb_comm_enabled : Z; nb_data_enabled : Z; data_running : bool;
  rx_buf_nb : bool -> Z; rx_buf_sel : bool; rx_pos : Z; rx_trans_ongoing : bool;
  tx_buf_nb : bool -> Z; tx_buf_sel : bool; tx_sof_num : Z;
  tx_trans_ongoing : bool; tx_both_buf_to_send : bool; sof_zlp_counter : Z
}.

Definition upd_nb (f : bool -> Z) (sel : bool) (v : Z) : bool -> Z :=
  fun s => if Bool.eqb s sel then v else f s.

Definition set_msg_ongoing (v : bool) (c : Cdc) : Cdc :=
  let '(mkCdc _ b c d e f g h i j k l m n o) := c in mkCdc v b c d e f g h i j k l m n o.
Definition set_cdc_state (v : Z) (c : Cdc) : Cdc :=
  let '(mkCdc a _ c d e f g h i j k l m n o) := c in mkCdc a v c d e f g h i j k l m n o.
Definition set_nb_comm (v : Z) (c : Cdc) : Cdc :=
  let '(mkCdc a b _ d e f g h i j k l m n o) := c in mkCdc a b v d e f g h i j k l m n o.
Definition set_nb_data (v : Z) (c : Cdc) : Cdc :=
  let '(mkCdc a b c _ e f g h i j k l m n o) := c in mkCdc a b c v e f g h i j k l m n o.
Definition set_running (v : bool) (c : Cdc) : Cdc :=
  let '(mkCdc a b c d _ f g h i j k l m n o) := c in mkCdc a b c d v f g h i j k l m n o.
Definition set_rx (nb : bool -> Z) (sel : bool) (pos : Z) (ongoing : bool) (c : Cdc) : Cdc :=
  let '(mkCdc a b c d e _ _ _ _ j k l m n o) := c in mkCdc a b c d e nb sel pos ongoing j k l m n o.
Definition set_tx (nb : bool -> Z) (sel : bool) (sof : Z) (ongoing both : bool) (c : Cdc) : Cdc :=
  let '(mkCdc a b c d e f g h i _ _ _ _ _ o) := c in mkCdc a b c d e f g h i nb sel sof ongoing both o.
Definition set_zlp_counter (v : Z) (c : Cdc) : Cdc :=
  let '(mkCdc a b c d e f g h i j k l m n _) := c in mkCdc a b c d e f g h i j k l m n v.

(** [bDataBits] of the line coding, and the value of the serial state message. *)
Definition bDataBits (u : Udd) : Z := nth 6 (mem u B_cdc_line_coding) 0.
Definition state_msg_value (u : Udd) : Z :=
  nth 8 (mem u B_cdc_state_msg) 0 + 256 * nth 9 (mem u B_cdc_state_msg) 0.
Definition set_state_msg_value (v : Z) (u : Udd) : Udd :=
  set_mem B_cdc_state_msg (take 8 (mem u B_cdc_state_msg) ++ [v mod 256; v / 256]) u.

Definition le32 (v : Z) : list Z :=
  [v mod 256; v / 256 mod 256; v / 65536 mod 256; v / 16777216 mod 256].

(** ** Operations *)

Section Cdc.
Context {App : Type}.
Abbreviation St := (Udd * (Cdc * App))%type.

Definition get_udd : M St Udd := gets fst.
Definition get_cdc : M St Cdc := gets (fun s => fst (snd s)).
Definition put_cdc (f : Cdc -> Cdc) : M St unit := modify (fun s => (fst s, (f (fst (snd s)), snd (snd s)))).
Definition put_udd (f : Udd -> Udd) : M St unit := modify (fun s => (f (fst s), snd s)).

(** [udd_ep_run] never completes a transfer of the interface at once: its OUT
    transfers are not empty and an IN transfer always starts. *)
Definition ep_run (ep : Z) (short : bool) (b : Buf) (size : Z) (cb : Callback) : M St bool :=
  udd_ep_run (fun _ _ => None) ep short b size (Some cb).

Definition udi_cdc_ctrl_state_notify : M St unit :=
  c ← get_cdc; u ← get_udd;
  if negb (serial_state_msg_ongoing c) && negb (cdc_state c =? state_msg_value u) then
    _ ← put_udd (set_state_msg_value (cdc_state c));
    ok ← ep_run UDI_CDC_COMM_EP_0 false B_cdc_state_msg 10 cb_cdc_serial_state_msg_sent;
    put_cdc (set_msg_ongoing ok)
  else mret tt.

Definition udi_cdc_ctrl_state_change (b_set : bool) (bit_mask : Z) : M St unit :=
  _ ← put_cdc (fun c => set_cdc_state
        (if b_set then Z.lor (cdc_state c) bit_mask else Z.land (cdc_state c) (u16 (Z.lnot bit_mask))) c);
  udi_cdc_ctrl_state_notify.

Definition irregular_signals : Z :=
  Z.lor CDC_SERIAL_STATE_BREAK (Z.lor CDC_SERIAL_STATE_RING (Z.lor CDC_SERIAL_STATE_FRAMING
    (Z.lor CDC_SERIAL_STATE_PARITY CDC_SERIAL_STATE_OVERRUN))).

Definition udi_cdc_serial_state_msg_sent : M St unit :=
  _ ← put_cdc (set_msg_ongoing false);
  let m := u16 (Z.lnot irregular_signals) in
  _ ← put_cdc (fun c => set_cdc_state (Z.land (cdc_state c) m) c);
  _ ← put_udd (fun u => set_state_msg_value (Z.land (state_msg_value u) m) u);
  udi_cdc_ctrl_state_notify.

Definition udi_cdc_ctrl_signal_dcd (b_set : bool) : M St unit := udi_cdc_ctrl_state_change b_set CDC_SERIAL_STATE_DCD.
Definition udi_cdc_ctrl_signal_dsr (b_set : bool) : M St unit := udi_cdc_ctrl_state_change b_set CDC_SERIAL_STATE_DSR.
Definition udi_cdc_signal_framing_error : M St unit := udi_cdc_ctrl_state_change true CDC_SERIAL_STATE_FRAMING.
Definition udi_cdc_signal_parity_error : M St unit := udi_cdc_ctrl_state_change true CDC_SERIAL_STATE_PARITY.
Definition udi_cdc_signal_overrun : M St unit := udi_cdc_ctrl_state_change true CDC_SERIAL_STATE_OVERRUN.

Definition udi_cdc_multi_get_nb_received_data (c : Cdc) : Z := u16 (rx_buf_nb c (rx_buf_sel c) - rx_pos c).
Definition udi_cdc_multi_is_rx_ready (c : Cdc) : bool := udi_cdc_multi_get_nb_received_data c >? 0.

(** *** Transmission *)

Definition udi_cdc_tx_send : M St unit :=
  c ← get_cdc; u ← get_udd;
  let now := if udd_is_high_speed then udd_get_micro_frame_number else udd_get_frame_number u in
  if tx_trans_ongoing c then mret tt
  else if tx_sof_num c =? now then mret tt
  else
    let sel := tx_buf_sel c in
    let counter := if tx_buf_nb c sel =? 0 then u16 (sof_zlp_counter c + 1) else 0 in
    if (tx_buf_nb c sel =? 0)
       && ((negb udd_is_high_speed && (counter <? 100)) || (udd_is_high_speed && (counter <? 800)))
    then put_cdc (set_zlp_counter counter)
    else
      let trans := if tx_both_buf_to_send c then negb sel else sel in
      let nb := tx_buf_nb c trans in
      let b_short_packet := negb (nb =? UDI_CDC_TX_BUFFERS) in
      _ ← put_cdc (fun c => set_zlp_counter 0
            (set_tx (tx_buf_nb c) (if tx_both_buf_to_send c then sel else negb sel)
               (if b_short_packet then now else 0) true (tx_both_buf_to_send c) c));
      _ ← ep_run UDI_CDC_DATA_EP_IN_0 b_short_packet (B_cdc_tx trans) nb cb_cdc_data_sent;
      mret tt.

Definition udi_cdc_data_sent (ok : bool) : M St unit :=
  if negb ok then mret tt
  else
    _ ← put_cdc (fun c => set_tx (upd_nb (tx_buf_nb c) (negb (tx_buf_sel c)) 0) (tx_buf_sel c)
          (tx_sof_num c) false false c);
    udi_cdc_tx_send.

Definition udi_cdc_data_sof_notify : M St unit := udi_cdc_tx_send.

Definition udi_cdc_multi_get_free_tx_buffer : M St Z :=
  c ← get_cdc;
  let sel := tx_buf_sel c in
  let nb := tx_buf_nb c sel in
  if (nb =? UDI_CDC_TX_BUFFERS) && negb (tx_trans_ongoing c) && negb (tx_both_buf_to_send c) then
    _ ← put_cdc (fun c => set_tx (tx_buf_nb c) (negb sel) (tx_sof_num c) (tx_trans_ongoing c) true c);
    mret UDI_CDC_TX_BUFFERS
  else mret (u16 (UDI_CDC_TX_BUFFERS - nb)).

Definition udi_cdc_multi_is_tx_ready : M St bool :=
  free ← udi_cdc_multi_get_free_tx_buffer; mret (negb (free =? 0)).

(** Copy the first [n] of the bytes at a pointer to the end of the current buffer. *)
Definition tx_append (data : list Z) (n : Z) : M St unit :=
  c ← get_cdc; u ← get_udd;
  let sel := tx_buf_sel c in
  m ← of_option (if n <=? len data
                 then blit (mem u (B_cdc_tx sel)) (tx_buf_nb c sel) (take (Z.to_nat n) data) else None);
  _ ← put_udd (set_mem (B_cdc_tx sel) m);
  put_cdc (fun c => set_tx (upd_nb (tx_buf_nb c) sel (u16 (tx_buf_nb c sel + n))) sel (tx_sof_num c)
            (tx_trans_ongoing c) (tx_both_buf_to_send c) c).

Section Waiting.
(** What the interrupt handlers do while a function polls. *)
Context (interrupts : M St unit).

(** The writing loop; the result is the number of bytes not written. *)
Fixpoint write_loop (fuel : nat) (data : list Z) (size : Z) : M St Z :=
  match fuel with
  | O => fun _ => None
  | S fuel =>
      ready ← udi_cdc_multi_is_tx_ready;
      if negb ready then
        c ← get_cdc;
        if negb (data_running c) then mret size
        else _ ← interrupts; write_loop fuel data size
      else
        c ← get_cdc;
        let copy_nb := u16 (UDI_CDC_TX_BUFFERS - tx_buf_nb c (tx_buf_sel c)) in
        let copy_nb := if copy_nb >? size then size else copy_nb in
        _ ← tx_append data copy_nb;
        let size := u16 (size - copy_nb) in
        if size =? 0 then mret 0 else write_loop fuel (drop (Z.to_nat copy_nb) data) size
  end.

Definition udi_cdc_multi_write_buf (fuel : nat) (data : list Z) (size : Z) : M St Z :=
  u ← get_udd;
  write_loop fuel data (if bDataBits u =? 9 then u16 (size * 2) else size).

(** [sendDataToUsb] of common.cpp, for a string given with its terminator's
    place: the string is followed by one NUL. *)
Definition sendDataToUsb (fuel : nat) (data : list Z) (checkBufferSize : bool) : M St unit :=
  let length := u8 (len (cstr data)) in
  free ← (if checkBufferSize then udi_cdc_multi_get_free_tx_buffer else mret 0);
  if negb checkBufferSize || (free >=? length) then
    _ ← udi_cdc_multi_write_buf fuel data length; mret tt
  else mret tt.

(** Writing one byte, or the two bytes of a nine-bit value. *)
Fixpoint putc_loop (fuel : nat) (value : Z) (again : bool) : M St bool :=
  match fuel with
  | O => fun _ => None
  | S fuel =>
      ready ← udi_cdc_multi_is_tx_ready;
      if negb ready then
        c ← get_cdc;
        if negb (data_running c) then mret false
        else _ ← interrupts; putc_loop fuel value again
      else
        _ ← tx_append [u8 value] 1;
        if again then putc_loop fuel (Z.shiftr value 8) false else mret true
  end.

Definition udi_cdc_multi_putc (fuel : nat) (value : Z) : M St bool :=
  u ← get_udd; putc_loop fuel value (bDataBits u =? 9).
End Waiting.

(** *** Reception *)

Section Notify.
(** The application's [UDI_CDC_RX_NOTIFY]. *)
Context (rx_notify : M St unit).

Definition udi_cdc_rx_start : M St bool :=
  c ← get_cdc;
  let trans := rx_buf_sel c in
  if rx_trans_ongoing c || (rx_pos c <? rx_buf_nb c trans) then mret false
  else
    _ ← put_cdc (fun c => set_rx (rx_buf_nb c) (negb trans) 0 true c);
    c ← get_cdc;
    _ ← when (udi_cdc_multi_is_rx_ready c) rx_notify;
    ep_run UDI_CDC_DATA_EP_OUT_0 true (B_cdc_rx trans) UDI_CDC_RX_BUFFERS cb_cdc_data_received.

Definition udi_cdc_data_received (ok : bool) (n : Z) : M St unit :=
  if negb ok then mret tt
  else
    c ← get_cdc;
    let trans := negb (rx_buf_sel c) in
    if n =? 0 then
      _ ← ep_run UDI_CDC_DATA_EP_OUT_0 true (B_cdc_rx trans) UDI_CDC_RX_BUFFERS cb_cdc_data_received; mret tt
    else
      _ ← put_cdc (fun c => set_rx (upd_nb (rx_buf_nb c) trans n) (rx_buf_sel c) (rx_pos c) false c);
      _ ← udi_cdc_rx_start; mret tt.

(** The bytes at the read position of the current buffer. *)
Definition rx_bytes (pos n : Z) (sel : bool) (u : Udd) : option (list Z) :=
  let m := mem u (B_cdc_rx sel) in
  if (0 <=? pos) && (0 <=? n) && (pos + n <=? len m)
  then Some (take (Z.to_nat n) (drop (Z.to_nat pos) m)) else None.

Definition advance (n : Z) : M St unit :=
  put_cdc (fun c => set_rx (rx_buf_nb c) (rx_buf_sel c) (u16 (rx_pos c + n)) (rx_trans_ongoing c) c).

Section Polling.
Context (interrupts : M St unit).

(** Waiting for received data: [false] when the interface stopped. *)
Fixpoint wait_rx (fuel : nat) : M St bool :=
  match fuel with
  | O => fun _ => None
  | S fuel =>
      c ← get_cdc;
      if rx_pos c >=? rx_buf_nb c (rx_buf_sel c) then
        if negb (data_running c) then mret false
        else _ ← interrupts; wait_rx fuel
      else mret true
  end.

Fixpoint getc_loop (fuel : nat) (rx_data : Z) (again : bool) : M St Z :=
  match fuel with
  | O => fun _ => None
  | S fuel' =>
      ready ← wait_rx fuel;
      if negb ready then mret 0
      else
        c ← get_cdc; u ← get_udd;
        b ← of_option (rx_bytes (rx_pos c) 1 (rx_buf_sel c) u);
        let rx_data := Z.lor rx_data (nth 0 b 0) in
        _ ← advance 1;
        _ ← udi_cdc_rx_start;
        if again then getc_loop fuel' (s16 (Z.shiftl rx_data 8)) false else mret rx_data
  end.

Definition udi_cdc_multi_getc (fuel : nat) : M St Z :=
  u ← get_udd; getc_loop fuel 0 (bDataBits u =? 9).

(** Reading [size] bytes: the bytes read and the number not read. *)
Fixpoint read_loop (fuel : nat) (got : list Z) (size : Z) : M St (list Z * Z) :=
  match fuel with
  | O => fun _ => None
  | S fuel' =>
      ready ← wait_rx fuel;
      if negb ready then mret (got, size)
      else
        c ← get_cdc; u ← get_udd;
        let copy_nb := u16 (rx_buf_nb c (rx_buf_sel c) - rx_pos c) in
        let copy_nb := if copy_nb >? size then size else copy_nb in
        b ← of_option (rx_bytes (rx_pos c) copy_nb (rx_buf_sel c) u);
        _ ← advance copy_nb;
        _ ← udi_cdc_rx_start;
        let size := u16 (size - copy_nb) in
        if size =? 0 then mret (got ++ b, 0) else read_loop fuel' (got ++ b) size
  end.

Definition udi_cdc_multi_read_buf (fuel : nat) (size : Z) : M St (list Z * Z) := read_loop fuel [] size.

(** The same, but the rest of a buffer is dropped once [size] bytes are read. *)
Fixpoint read_ignore_loop (fuel : nat) (got : list Z) (size : Z) : M St (list Z * Z) :=
  match fuel with
  | O => fun _ => None
  | S fuel' =>
      ready ← wait_rx fuel;
      if negb ready then mret (got, size)
      else
        c ← get_cdc; u ← get_udd;
        let copy_nb := u16 (rx_buf_nb c (rx_buf_sel c) - rx_pos c) in
        let total := if copy_nb >=? size then size else copy_nb in
        b ← of_option (rx_bytes (rx_pos c) total (rx_buf_sel c) u);
        _ ← advance copy_nb;
        _ ← udi_cdc_rx_start;
        let size := u16 (size - total) in
        if size =? 0 then mret (got ++ b, 0) else read_ignore_loop fuel' (got ++ b) size
  end.

Definition udi_cdc_multi_read_buf_and_ignore (fuel : nat) (size : Z) : M St (list Z * Z) :=
  read_ignore_loop fuel [] size.
End Polling.

(** Reading without waiting: the bytes read, and the number available before. *)
Definition udi_cdc_multi_read_no_polling (size : Z) : M St (list Z * Z) :=
  c ← get_cdc; u ← get_udd;
  if negb (data_running c) then mret ([], 0)
  else
    let nb_avail := u16 (rx_buf_nb c (rx_buf_sel c) - rx_pos c) in
    let size := if nb_avail <? size then nb_avail else size in
    if size >? 0 then
      b ← of_option (rx_bytes (rx_pos c) size (rx_buf_sel c) u);
      _ ← advance size;
      _ ← udi_cdc_rx_start; mret (b, nb_avail)
    else mret ([], nb_avail).

(** *** Enabling and requests *)

Definition udi_cdc_comm_enable : M St bool :=
  _ ← put_cdc (fun c => set_cdc_state 0 (set_nb_comm 0 c));
  _ ← put_udd (set_mem B_cdc_state_msg
        [161; USB_REQ_CDC_NOTIFY_SERIAL_STATE; 0; 0; UDI_CDC_COMM_IFACE_NUMBER_0; 0; 2; 0; 0; 0]);
  _ ← put_udd (set_mem B_cdc_line_coding
        (le32 UDI_CDC_DEFAULT_RATE ++ [UDI_CDC_DEFAULT_STOPBITS; UDI_CDC_DEFAULT_PARITY; UDI_CDC_DEFAULT_DATABITS]));
  _ ← put_cdc (fun c => set_nb_comm (u8 (nb_comm_enabled c + 1)) c);
  mret true.

Definition udi_cdc_data_enable : M St bool :=
  _ ← put_cdc (fun c => set_tx (fun _ => 0) false 0 false false (set_nb_data 0 c));
  _ ← udi_cdc_tx_send;
  _ ← put_cdc (set_rx (fun _ => 0) false 0 false);
  ok ← udi_cdc_rx_start;
  if negb ok then mret false
  else
    _ ← put_cdc (fun c => set_nb_data (u8 (nb_data_enabled c + 1)) c);
    c ← get_cdc;
    _ ← when (nb_data_enabled c =? 1) (put_cdc (set_running true));
    mret true.

Definition udi_cdc_comm_disable : M St unit :=
  put_cdc (fun c => set_nb_comm (u8 (nb_comm_enabled c - 1)) c).

(** [UDI_CDC_DISABLE_EXT] is the application's disconnect callback. *)
Definition udi_cdc_data_disable (disconnect : M St unit) : M St unit :=
  _ ← put_cdc (fun c => set_nb_data (u8 (nb_data_enabled c - 1)) c);
  _ ← disconnect;
  put_cdc (set_running false).

Definition sizeof_line_coding : Z := 7.

Definition udi_cdc_comm_setup : M St bool :=
  u ← get_udd;
  let c := udd_g_ctrlreq u in
  let is_class := Z.land (bmRequestType (req c)) USB_REQ_TYPE_MASK =? USB_REQ_TYPE_CLASS in
  let r := bRequest (req c) in
  if Udd_setup_is_in c && is_class && (r =? USB_REQ_CDC_GET_LINE_CODING) then
    if negb (sizeof_line_coding =? wLength (req c)) then mret false
    else _ ← on_fst (udd_set_setup_payload B_cdc_line_coding sizeof_line_coding); mret true
  else if Udd_setup_is_out c && is_class && (r =? USB_REQ_CDC_SET_LINE_CODING) then
    if negb (sizeof_line_coding =? wLength (req c)) then mret false
    else
      _ ← put_udd (fun u => set_ctrlreq (set_callback (Some cb_cdc_line_coding_received) (udd_g_ctrlreq u)) u);
      _ ← on_fst (udd_set_setup_payload B_cdc_line_coding sizeof_line_coding); mret true
  else if Udd_setup_is_out c && is_class && (r =? USB_REQ_CDC_SET_CONTROL_LINE_STATE) then mret true
  else mret false.

Definition udi_cdc_data_setup : M St bool := mret false.
Definition udi_cdc_getsetting : Z := 0.

(** The endpoint callbacks of the interface. *)
Definition cdc_event (ev : Event) : M St unit :=
  match ev with
  | EvTrans cb_cdc_data_received ok n _ => udi_cdc_data_received ok n
  | EvTrans cb_cdc_data_sent ok _ _ => udi_cdc_data_sent ok
  | EvTrans cb_cdc_serial_state_msg_sent _ _ _ => udi_cdc_serial_state_msg_sent
  | _ => fun _ => None
  end.
End Notify.
End Cdc.

(** ** Starting transfers *)

(** Two driver states that differ only in the endpoint table and the jobs. *)
Definition same_but_eps (u u' : Udd) : Prop :=
  mem u' = mem u /\ frame_number u' = frame_number u /\ udd_g_ctrlreq u' = udd_g_ctrlreq u /\
  length (ep_ctrl u') = length (ep_ctrl u) /\ length (udd_ep_job u') = length (udd_ep_job u).

Lemma with_ep_same ep e j u : same_but_eps u (with_ep ep e j u).
Proof. destruct u. unfold same_but_eps, with_ep; cbn. rewrite !length_insert. repeat split. Qed.

Lemma same_but_eps_refl u : same_but_eps u u.
Proof. repeat split. Qed.

(** The endpoints of the interface exist. *)
Definition cdc_eps (u : Udd) : Prop := (6 <= length (ep_ctrl u))%nat /\ (4 <= length (udd_ep_job u))%nat.

Lemma cdc_eps_has ep u : cdc_eps u -> 2 <= ep_index ep < 6 -> has_ep ep u.
Proof. intros [? ?] ?. unfold has_ep. lia. Qed.

Lemma same_cdc_eps u u' : same_but_eps u u' -> cdc_eps u -> cdc_eps u'.
Proof. intros (_ & _ & _ & E1 & E2) [? ?]. unfold cdc_eps. rewrite E1, E2. auto. Qed.

(** What starting a transfer keeps of an entry, and the job it leaves. *)
Definition started (b : Buf) (size : Z) (cb : Callback) (e e' : EpCtrl) (j' : Job) : Prop :=
  (CTRL_TYPE e', CTRL_BUFSIZE e', CTRL_MULTIPKT e', CTRL_STALL e')
  = (CTRL_TYPE e, CTRL_BUFSIZE e, CTRL_MULTIPKT e, CTRL_STALL e) /\
  busy j' = true /\ buf j' = b /\ buf_size j' = size /\ call j' = Some cb.

(** An IN transfer always starts when the job is taken. *)
Lemma in_starts {A} (run_event : Event -> M (Udd * A) unit) ep u e b size short cb (a : A) :
  has_ep ep u -> ep_is_in ep = true -> 0 <= size < 65536 -> AUXDATA e = 0 ->
  exists e' j', udd_ep_trans_complet run_event ep
    (with_ep ep e (mkJob true (short || (size =? 0)) false b size 0 (Some cb)) u, a)
  = Some ((with_ep ep e' j' u, a), tt) /\ started b size cb e e' j'.
Proof.
  intros Hep Hin Hs Ha. unfold udd_ep_trans_complet, trans_complet_in. rewrite Hin. ep_steps.
  cbn [nb_trans buf_size set_nb_trans b_shortpacket buf]. rewrite Ha. change (u16 (0 + 0)) with 0.
  destruct (Z.eqb_spec 0 size) as [<-|]; cbn [negb].
  - rewrite Z.eqb_refl, orb_true_r. ep_steps. eexists _, _. split; [reflexivity|]. repeat split.
  - ep_steps. eexists _, _. split; [reflexivity|]. repeat split.
Qed.

Lemma out_starts {A} (run_event : Event -> M (Udd * A) unit) ep u e b size short cb (a : A) :
  has_ep ep u -> ep_is_in ep = false -> 0 < size < 65536 -> AUXDATA e = 0 -> CNT e = 0 ->
  exists e' j', udd_ep_trans_complet run_event ep
    (with_ep ep e (mkJob true short false b size 0 (Some cb)) u, a)
  = Some ((with_ep ep e' j' u, a), tt) /\ started b size cb e e' j'.
Proof.
  intros Hep Hin Hs Ha Hc. unfold udd_ep_trans_complet, trans_complet_out. rewrite Hin. ep_steps.
  cbn [b_use_out_cache_buffer]. ep_steps.
  cbn [nb_trans buf_size set_nb_trans b_shortpacket buf]. rewrite Ha, Hc. change (u16 (0 + 0)) with 0.
  destruct (Z.ltb_spec size 0); [lia|]. destruct (Z.eqb_spec 0 size); [lia|].
  rewrite Z.eqb_refl. cbn [andb negb]. ep_steps. case_bool; ep_steps; eexists _, _; (split; [reflexivity|]); repeat split.
Qed.

(** Starting a transfer changes the entry and the job of its endpoint only, and
    an enabled, idle endpoint takes it. *)
Lemma ep_run_with {App} ep short b size cb u e j (a : Cdc * App) :
  has_ep ep u -> u = with_ep ep e j u -> 0 < size < 65536 \/ (ep_is_in ep = true /\ size = 0) ->
  exists e' j' r, ep_run ep short b size cb (u, a) = Some ((with_ep ep e' j' u, a), r) /\
    (CTRL_TYPE e', CTRL_BUFSIZE e', CTRL_MULTIPKT e', CTRL_STALL e')
    = (CTRL_TYPE e, CTRL_BUFSIZE e, CTRL_MULTIPKT e, CTRL_STALL e) /\
    (CTRL_TYPE e = TYPE_BULK -> CTRL_STALL e = false -> busy j = false ->
     r = true /\ busy j' = true /\ buf j' = b /\ buf_size j' = size /\ call j' = Some cb).
Proof.
  intros Hep Hu Hs.
  enough (exists e' j' r, ep_run ep short b size cb (with_ep ep e j u, a) = Some ((with_ep ep e' j' u, a), r) /\
    (CTRL_TYPE e', CTRL_BUFSIZE e', CTRL_MULTIPKT e', CTRL_STALL e')
    = (CTRL_TYPE e, CTRL_BUFSIZE e, CTRL_MULTIPKT e, CTRL_STALL e) /\
    (CTRL_TYPE e = TYPE_BULK -> CTRL_STALL e = false -> busy j = false ->
     r = true /\ busy j' = true /\ buf j' = b /\ buf_size j' = size /\ call j' = Some cb)) as H
    by (rewrite <- Hu in H; exact H).
  clear Hu. unfold ep_run, udd_ep_run. ep_steps. unfold udd_endpoint_is_enable.
  destruct (bool_decide (CTRL_TYPE e = TYPE_DISABLE)) eqn:D; cbn [negb].
  { run. eexists _, _, _. split; [reflexivity|]. split; [reflexivity|].
    intros T. rewrite T in D. discriminate. }
  destruct (negb _ && CTRL_STALL e) eqn:St.
  { run. eexists _, _, _. split; [reflexivity|]. split; [reflexivity|].
    intros _ T. rewrite T, andb_false_r in St. discriminate. }
  destruct (busy j).
  { run. eexists _, _, _. split; [reflexivity|]. split; [reflexivity|]. discriminate. }
  ep_steps. destruct (ep_is_in ep) eqn:Hin.
  - ep_steps. destruct (in_starts (fun _ _ => None) ep u (set_AUXDATA 0 e) b size short cb a) as (e' & j' & E & K & J);
      [assumption|assumption|lia|reflexivity|].
    rewrite E. eexists _, _, _. split; [reflexivity|]. auto.
  - destruct Hs as [Hs|[? _]]; [|discriminate].
    destruct (bool_decide (CTRL_TYPE e = TYPE_ISOCHRONOUS) && _) eqn:Iso; ep_steps.
    + eexists _, _, _. split; [reflexivity|]. split; [reflexivity|].
      intros T. rewrite T in Iso. discriminate.
    + replace (short || (size =? 0)) with short
        by (destruct (Z.eqb_spec size 0); [lia|rewrite orb_false_r; reflexivity]).
      destruct (out_starts (fun _ _ => None) ep u (set_AUXDATA 0 (set_CNT 0 e)) b size short cb a)
        as (e' & j' & E & K & J); try assumption; try reflexivity.
      rewrite E. eexists _, _, _. split; [reflexivity|]. auto.
Qed.

Lemma ep_run_frame {App} ep short b size cb u (a : Cdc * App) :
  has_ep ep u -> 0 < size < 65536 \/ (ep_is_in ep = true /\ size = 0) ->
  exists u' r, ep_run ep short b size cb (u, a) = Some ((u', a), r) /\ same_but_eps u u'.
Proof.
  intros Hep Hs. destruct (with_ep_self ep u Hep) as (e & j & Hu).
  destruct (ep_run_with ep short b size cb u e j a Hep Hu Hs) as (e' & j' & r & E & _).
  eexists _, _. split; [exact E|]. apply with_ep_same.
Qed.

(** ** The transmit queue *)

(** The invariant of the transmit buffers: fill counts fit the buffers; when
    neither a transfer runs nor both buffers wait, the other buffer is empty;
    when both buffers wait, the other one is full. *)
Record tx_inv (u : Udd) (c : Cdc) : Prop := {
  inv_eps : cdc_eps u;
  inv_len : forall sel, length (mem u (B_cdc_tx sel)) = 64%nat;
  inv_nb : forall sel, 0 <= tx_buf_nb c sel <= 64;
  inv_idle : tx_trans_ongoing c = false -> tx_both_buf_to_send c = false -> tx_buf_nb c (negb (tx_buf_sel c)) = 0;
  inv_both : tx_both_buf_to_send c = true -> tx_buf_nb c (negb (tx_buf_sel c)) = 64
}.

(** The bytes of a buffer. *)
Definition tx_content (u : Udd) (c : Cdc) (sel : bool) : list Z :=
  take (Z.to_nat (tx_buf_nb c sel)) (mem u (B_cdc_tx sel)).

(** The abstract queue: what waits to be sent, oldest first, and what the
    hardware is sending. *)
Definition tx_pending (u : Udd) (c : Cdc) : list Z :=
  (if tx_both_buf_to_send c && negb (tx_trans_ongoing c) then tx_content u c (negb (tx_buf_sel c)) else [])
  ++ tx_content u c (tx_buf_sel c).
Definition tx_inflight (u : Udd) (c : Cdc) : option (list Z) :=
  if tx_trans_ongoing c then Some (tx_content u c (negb (tx_buf_sel c))) else None.

(** A step of the transmit side: nothing moves, or the oldest waiting bytes are
    handed to the idle hardware. *)
Definition tx_handed (u : Udd) (c : Cdc) (u' : Udd) (c' : Cdc) : Prop :=
  (tx_pending u' c' = tx_pending u c /\ tx_inflight u' c' = tx_inflight u c) \/
  (tx_inflight u c = None /\ exists d, tx_inflight u' c' = Some d /\ tx_pending u c = d ++ tx_pending u' c').

Lemma tx_content_same u u' c sel : same_but_eps u u' -> tx_content u' c sel = tx_content u c sel.
Proof. intros (E & _). unfold tx_content. rewrite E. reflexivity. Qed.

Lemma tx_inv_same u u' c : same_but_eps u u' -> tx_inv u c -> tx_inv u' c.
Proof.
  intros Hs []. constructor; try assumption; [eapply same_cdc_eps; eauto|].
  intros sel. destruct Hs as (-> & _). apply inv_len0.
Qed.

Lemma tx_pending_same u u' c : same_but_eps u u' -> tx_pending u' c = tx_pending u c.
Proof. intros H. unfold tx_pending. rewrite !(tx_content_same _ _ _ _ H). reflexivity. Qed.

Lemma tx_inflight_same u u' c : same_but_eps u u' -> tx_inflight u' c = tx_inflight u c.
Proof. intros H. unfold tx_inflight. rewrite (tx_content_same _ _ _ _ H). reflexivity. Qed.

Lemma upd_nb_eq f sel v : upd_nb f sel v sel = v.
Proof. unfold upd_nb. rewrite eqb_reflx. reflexivity. Qed.
Lemma upd_nb_ne f sel v : upd_nb f sel v (negb sel) = f (negb sel).
Proof. unfold upd_nb. destruct sel; reflexivity. Qed.
Lemma upd_nb_other f sel v : upd_nb f (negb sel) v sel = f sel.
Proof. unfold upd_nb. destruct sel; reflexivity. Qed.

Section TxQueue.
Context {App : Type}.
Abbreviation St := (Udd * (Cdc * App))%type.

(** Handing a buffer over, on the variables alone. *)
Lemma tx_start_handed u c sof :
  tx_inv u c -> tx_trans_ongoing c = false ->
  let c' := set_zlp_counter 0
    (set_tx (tx_buf_nb c) (if tx_both_buf_to_send c then tx_buf_sel c else negb (tx_buf_sel c))
       sof true (tx_both_buf_to_send c) c) in
  tx_inv u c' /\ tx_handed u c u c' /\ data_running c' = data_running c /\ sof_zlp_counter c' = 0.
Proof.
  intros [] Ho. unfold tx_handed, tx_pending, tx_inflight, tx_content. rewrite Ho.
  destruct c as [ms cs nc nd dr rnb rs rp ro tnb ts tsof tong both zc]. cbn in *.
  destruct both; cbn in *.
  - split; [constructor; cbn; auto; discriminate|]. split; [|auto]. right. split; [reflexivity|].
    eexists. split; reflexivity.
  - split; [constructor; cbn; rewrite ?negb_involutive; auto; discriminate|]. split; [|auto]. right. split; [reflexivity|].
    eexists. split; [reflexivity|]. rewrite negb_involutive.
    rewrite (inv_idle0 Ho eq_refl). cbn. rewrite app_nil_r. reflexivity.
Qed.

Lemma tx_keep u c c' : c' = c \/ (exists n, c' = set_zlp_counter n c) ->
  tx_inv u c -> tx_inv u c' /\ tx_handed u c u c' /\ same_but_eps u u /\ data_running c' = data_running c.
Proof.
  intros [-> | [n ->]] []; destruct c; cbn in *;
    (split; [constructor; assumption|]); (split; [left; auto|]); split; [apply same_but_eps_refl|reflexivity|apply same_but_eps_refl|reflexivity].
Qed.

Lemma tx_send_keeps u c a :
  tx_inv u c ->
  exists u' c', udi_cdc_tx_send (App := App) (u, (c, a)) = Some ((u', (c', a)), tt) /\
    tx_inv u' c' /\ tx_handed u c u' c' /\ same_but_eps u u' /\ data_running c' = data_running c.
Proof.
  intros Hi. unfold udi_cdc_tx_send, get_cdc, get_udd, put_cdc. run.
  destruct (tx_trans_ongoing c) eqn:Ho; [run; eexists _, _; split; [reflexivity|]; apply tx_keep; auto|].
  destruct (tx_sof_num c =? _); [run; eexists _, _; split; [reflexivity|]; apply tx_keep; auto|].
  destruct ((tx_buf_nb c (tx_buf_sel c) =? 0) && _);
    [run; eexists _, _; split; [reflexivity|]; apply tx_keep; eauto|].
  set (trans := if tx_both_buf_to_send c then negb (tx_buf_sel c) else tx_buf_sel c). run.
  match goal with |- context [ep_run ?ep ?sh ?b ?n ?cb (u, (set_zlp_counter 0 (set_tx _ _ ?sof _ _ _), a))] =>
    destruct (tx_start_handed u c sof Hi Ho) as (I1 & I2 & I3 & _);
    match goal with |- context [ep_run _ _ _ _ _ (u, (?c1, a))] =>
    destruct (ep_run_frame ep sh b n cb u (c1, a)) as (u' & r & E & Hs);
      [apply cdc_eps_has; [apply Hi|vm_compute; split; congruence]
      |pose proof (inv_nb _ _ Hi trans) as Hnb; destruct (Z.eq_dec n 0); [right; split; [reflexivity|assumption]|left; lia]|] end
  end.
  rewrite E. eexists u', _. split; [reflexivity|].
  split; [eapply tx_inv_same; eauto|]. split; [|split; [exact Hs|exact I3]].
  unfold tx_handed. rewrite (tx_pending_same _ _ _ Hs), (tx_inflight_same _ _ _ Hs). exact I2.
Qed.

(** The end of a transfer frees the sent buffer and hands over the next one. *)
Lemma data_sent_idle u c :
  tx_inv u c -> tx_trans_ongoing c = true ->
  let c' := set_tx (upd_nb (tx_buf_nb c) (negb (tx_buf_sel c)) 0) (tx_buf_sel c) (tx_sof_num c) false false c in
  tx_inv u c' /\ tx_pending u c' = tx_pending u c /\ tx_inflight u c' = None /\ data_running c' = data_running c.
Proof.
  intros [] Ho. unfold tx_pending, tx_inflight, tx_content. rewrite Ho.
  destruct c as [ms cs nc nd dr rnb rs rp ro tnb ts tsof tong both zc]. cbn in *.
  rewrite andb_false_r, upd_nb_other. split; [|auto].
  constructor; cbn; try assumption; try discriminate.
  - intros sel. specialize (inv_nb0 sel). unfold upd_nb. destruct (Bool.eqb _ _); lia.
  - intros _ _. apply upd_nb_eq.
Qed.

(** Asking for space moves to the other buffer when the current one is full. *)
Lemma get_free_keeps u c a :
  tx_inv u c ->
  exists c', udi_cdc_multi_get_free_tx_buffer (App := App) (u, (c, a)) =
      Some ((u, (c', a)), 64 - tx_buf_nb c' (tx_buf_sel c')) /\
    tx_inv u c' /\ tx_pending u c' = tx_pending u c /\ tx_inflight u c' = tx_inflight u c /\
    data_running c' = data_running c /\ (tx_buf_nb c (tx_buf_sel c) < 64 -> c' = c).
Proof.
  intros Hi. pose proof (inv_nb _ _ Hi (tx_buf_sel c)) as Hn.
  unfold udi_cdc_multi_get_free_tx_buffer, get_cdc, put_cdc. run.
  destruct ((tx_buf_nb c (tx_buf_sel c) =? UDI_CDC_TX_BUFFERS) && negb (tx_trans_ongoing c) && negb (tx_both_buf_to_send c)) eqn:Eb; run.
  - apply andb_true_iff in Eb. destruct Eb as [Eb Eboth]. apply andb_true_iff in Eb. destruct Eb as [E64 Eong].
    apply Z.eqb_eq in E64. apply negb_true_iff in Eong, Eboth. unfold UDI_CDC_TX_BUFFERS in *.
    destruct Hi. pose proof (inv_idle0 Eong Eboth) as H0.
    unfold tx_pending, tx_inflight, tx_content. rewrite Eong, Eboth.
    destruct c as [ms cs nc nd dr rnb rs rp ro tnb ts tsof tong both zc]. cbn in *. subst.
    exists (mkCdc ms cs nc nd dr rnb rs rp ro tnb (negb ts) tsof false true zc).
    split; [cbn; rewrite H0; reflexivity|]. cbn. split.
    + constructor; cbn; rewrite ?negb_involutive; auto. discriminate.
    + rewrite negb_involutive, H0. cbn. rewrite app_nil_r. repeat split. lia.
  - eexists. split; [rewrite u16_id by (unfold UDI_CDC_TX_BUFFERS; lia); reflexivity|]. auto 6.
Qed.

Lemma mem_set_mem b m u b' : mem (set_mem b m u) b' = if decide (b = b') then m else mem u b'.
Proof. destruct u; reflexivity. Qed.

Lemma cdc_eps_set_mem b m u : cdc_eps u -> cdc_eps (set_mem b m u).
Proof. destruct u; exact (fun H => H). Qed.

(** Storing bytes in the current buffer appends them to the queue. *)
Lemma tx_append_keeps u c a data n :
  tx_inv u c -> 0 <= n <= 64 - tx_buf_nb c (tx_buf_sel c) -> n <= len data ->
  exists u' c', tx_append (App := App) data n (u, (c, a)) = Some ((u', (c', a)), tt) /\
    tx_inv u' c' /\ tx_pending u' c' = tx_pending u c ++ take (Z.to_nat n) data /\
    tx_inflight u' c' = tx_inflight u c /\ data_running c' = data_running c /\
    tx_buf_nb c' (tx_buf_sel c') = tx_buf_nb c (tx_buf_sel c) + n /\ bDataBits u' = bDataBits u.
Proof.
  intros [] Hn Hl. unfold tx_append, get_cdc, get_udd, put_udd, put_cdc. run.
  rewrite (proj2 (Z.leb_le n _)) by lia. unfold blit.
  pose proof (inv_len0 (tx_buf_sel c)) as L. pose proof (inv_nb0 (tx_buf_sel c)) as Hnb.
  set (sel := tx_buf_sel c) in *. set (m := mem u (B_cdc_tx sel)) in *.
  assert (length (take (Z.to_nat n) data) = Z.to_nat n) as Lt by (rewrite length_take; lia).
  rewrite Lt, (proj2 (Z.leb_le 0 _)), (proj2 (Z.leb_le _ (len m))) by lia. cbn [andb]. run.
  rewrite u16_id by lia. eexists _, _. split; [reflexivity|].
  set (m' := take _ m ++ _). assert (length m' = 64%nat) as L'.
  { unfold m'. rewrite !length_app, length_take, length_drop. lia. }
  assert (take (Z.to_nat (tx_buf_nb c sel + n)) m' = take (Z.to_nat (tx_buf_nb c sel)) m ++ take (Z.to_nat n) data) as Et.
  { unfold m'. rewrite app_assoc. apply take_app_length'. rewrite length_app, length_take. lia. }
  unfold tx_pending, tx_inflight, tx_content. subst sel.
  destruct c as [ms cs nc nd dr rnb rs rp ro tnb ts tsof tong both zc]. cbn in *.
  rewrite !mem_set_mem, upd_nb_eq, upd_nb_ne. rewrite (decide_False (P := B_cdc_tx ts = B_cdc_tx (negb ts))) by (destruct ts; discriminate).
  rewrite decide_True by reflexivity. rewrite Et, app_assoc.
  split; [constructor; cbn|repeat split; cbn; unfold bDataBits; rewrite mem_set_mem, decide_False by discriminate; reflexivity].
  - apply cdc_eps_set_mem. assumption.
  - intros sel. rewrite mem_set_mem. destruct (decide _); [exact L'|apply inv_len0].
  - intros sel. specialize (inv_nb0 sel). unfold upd_nb. destruct (Bool.eqb _ _); lia.
  - rewrite upd_nb_ne. assumption.
  - rewrite upd_nb_ne. assumption.
Qed.

(** The interrupts that may run while a writer waits: they keep the buffers
    well formed and take bytes only from the front of the queue. *)
Definition tx_env (interrupts : M St unit) : Prop :=
  forall u c a s', tx_inv u c -> interrupts (u, (c, a)) = Some (s', tt) ->
    exists u' c' a', s' = (u', (c', a')) /\ tx_inv u' c' /\ exists d, tx_pending u c = d ++ tx_pending u' c'.

(** The end of the running transfer, if one runs. *)
Definition tx_complete : M St unit :=
  c ← get_cdc; if tx_trans_ongoing c then udi_cdc_data_sent true else mret tt.

Lemma tx_complete_env : tx_env tx_complete.
Proof.
  intros u c a s' Hi. unfold tx_complete, get_cdc. run. destruct (tx_trans_ongoing c) eqn:Ho.
  2: { intros [= <-]. exists u, c, a. split; [reflexivity|]. split; [assumption|]. exists []. reflexivity. }
  unfold udi_cdc_data_sent, put_cdc. cbn [negb]. run.
  destruct (data_sent_idle u c Hi Ho) as (I1 & I2 & I3 & _).
  destruct (tx_send_keeps u _ a I1) as (u' & c' & E & I4 & I5 & _). rewrite E. intros [= <-].
  exists u', c', a. split; [reflexivity|]. split; [assumption|]. rewrite <- I2.
  destruct I5 as [[E1 _]|[_ (d & _ & E1)]]; [exists []; rewrite E1; reflexivity|exists d; exact E1].
Qed.

Lemma write_loop_fifo interrupts fuel data size u c a s' left :
  tx_env interrupts -> tx_inv u c -> 0 <= size <= len data -> len data < 65536 ->
  write_loop (App := App) interrupts fuel data size (u, (c, a)) = Some (s', left) ->
  exists u' c' a' taken, s' = (u', (c', a')) /\ tx_inv u' c' /\ 0 <= left <= size /\
    tx_pending u c ++ take (Z.to_nat (size - left)) data = taken ++ tx_pending u' c'.
Proof.
  intros Henv. revert data size u c a. induction fuel as [|fuel IH]; intros data size u c a Hi Hs Hd; cbn [write_loop]; [discriminate|].
  unfold udi_cdc_multi_is_tx_ready. unfold get_cdc. run.
  destruct (get_free_keeps u c a Hi) as (c1 & E & I1 & I2 & I3 & I4 & _). rewrite E. rewrite <- I2.
  pose proof (inv_nb _ _ I1 (tx_buf_sel c1)) as Hnb. rewrite negb_involutive.
  destruct (Z.eqb_spec (64 - tx_buf_nb c1 (tx_buf_sel c1)) 0) as [E0|N0]; run.
  - destruct (data_running c1); cbn [negb].
    + run. destruct (interrupts _) as [[s1 []]|] eqn:Ei; [|discriminate].
      destruct (Henv _ _ _ _ I1 Ei) as (u2 & c2 & a2 & -> & J1 & d & J2). intros H.
      destruct (IH data size u2 c2 a2 J1 Hs Hd H) as (u' & c' & a' & taken & -> & K1 & K2 & K3).
      exists u', c', a', (d ++ taken). split; [reflexivity|]. split; [assumption|]. split; [assumption|].
      rewrite J2, <- !app_assoc, K3. reflexivity.
    + intros [= <- <-]. exists u, c1, a, []. rewrite Z.sub_diag. cbn. rewrite app_nil_r.
      split; [reflexivity|]. split; [assumption|]. split; [lia|reflexivity].
  - unfold UDI_CDC_TX_BUFFERS. rewrite u16_id by lia.
    set (nb := 64 - tx_buf_nb c1 (tx_buf_sel c1)) in *. rewrite Z.gtb_ltb.
    assert ((if size <? nb then size else nb) = Z.min size nb) as -> by (destruct (Z.ltb_spec size nb); lia).
    destruct (tx_append_keeps u c1 a data (Z.min size nb) I1 ltac:(lia) ltac:(lia)) as (u2 & c2 & E2 & J1 & J2 & _).
    rewrite E2. rewrite u16_id by lia. destruct (Z.eqb_spec (size - Z.min size nb) 0) as [Ez|Nz]; run.
    + intros [= <- <-]. exists u2, c2, a, []. split; [reflexivity|]. split; [assumption|]. split; [lia|].
      rewrite J2. replace (Z.min size nb) with (size - 0) by lia. reflexivity.
    + intros H. destruct (IH (drop (Z.to_nat (Z.min size nb)) data) (size - Z.min size nb) u2 c2 a J1)
        as (u' & c' & a' & taken & -> & K1 & K2 & K3); [rewrite length_drop; lia|rewrite length_drop; lia|exact H|].
      exists u', c', a', taken. split; [reflexivity|]. split; [assumption|]. split; [lia|].
      rewrite <- K3, J2, <- app_assoc. f_equal.
      replace (Z.to_nat (size - left)) with (Z.to_nat (Z.min size nb) + Z.to_nat (size - Z.min size nb - left))%nat by lia.
      symmetry. apply take_take_drop.
Qed.
End TxQueue.

(** ** The receive buffers *)

Record rx_inv (u : Udd) (c : Cdc) : Prop := {
  rx_eps : cdc_eps u;
  rx_len : forall sel, length (mem u (B_cdc_rx sel)) = 64%nat;
  rx_nb : forall sel, 0 <= rx_buf_nb c sel <= 64;
  rx_pos_ok : 0 <= rx_pos c <= rx_buf_nb c (rx_buf_sel c)
}.

(** The bytes received and not read yet. *)
Definition rx_unread (u : Udd) (c : Cdc) : list Z :=
  take (Z.to_nat (rx_buf_nb c (rx_buf_sel c) - rx_pos c))
    (drop (Z.to_nat (rx_pos c)) (mem u (B_cdc_rx (rx_buf_sel c)))).

(** Everything received was read. *)
Definition rx_drained (c : Cdc) : Cdc :=
  set_rx (rx_buf_nb c) (rx_buf_sel c) (rx_buf_nb c (rx_buf_sel c)) (rx_trans_ongoing c) c.

(** The port waits for data: a transfer is running and nothing is unread. *)
Definition rx_waiting (c : Cdc) : Prop :=
  rx_trans_ongoing c = true /\ rx_pos c = rx_buf_nb c (rx_buf_sel c).

(** What the port asks of the application's receive callback: called while a
    transfer runs and bytes are unread that the application accepts, it reads all
    of them and leaves the driver and the rest of the port alone. *)
Class RxClient {App} (accepts : list Z -> App -> Prop) (notify : M (Udd * (Cdc * App)) unit) : Prop :=
  rx_consumes : forall u c a, rx_inv u c -> rx_trans_ongoing c = true -> rx_pos c < rx_buf_nb c (rx_buf_sel c) ->
    accepts (rx_unread u c) a ->
    exists a', notify (u, (c, a)) = Some ((u, (rx_drained c, a')), tt).

Lemma rx_unread_length u c : rx_inv u c -> len (rx_unread u c) = rx_buf_nb c (rx_buf_sel c) - rx_pos c.
Proof.
  intros []. unfold rx_unread. rewrite length_take, length_drop, rx_len0.
  specialize (rx_nb0 (rx_buf_sel c)). lia.
Qed.

Lemma rx_bytes_unread u c n : rx_inv u c -> 0 <= n <= rx_buf_nb c (rx_buf_sel c) - rx_pos c ->
  rx_bytes (rx_pos c) n (rx_buf_sel c) u = Some (take (Z.to_nat n) (rx_unread u c)).
Proof.
  intros [] Hn. unfold rx_bytes, rx_unread. specialize (rx_nb0 (rx_buf_sel c)). specialize (rx_len0 (rx_buf_sel c)).
  rewrite (proj2 (Z.leb_le 0 (rx_pos c))), (proj2 (Z.leb_le 0 n)), (proj2 (Z.leb_le _ (len _))) by lia.
  rewrite take_take. do 2 f_equal. lia.
Qed.

(** While a transfer runs, reading cannot restart one. *)
Lemma rx_start_running {App} (notify : M (Udd * (Cdc * App)) unit) u c a :
  rx_trans_ongoing c = true -> udi_cdc_rx_start notify (u, (c, a)) = Some ((u, (c, a)), false).
Proof. intros H. unfold udi_cdc_rx_start, get_cdc. run. rewrite H. reflexivity. Qed.

Lemma advance_all u c n : rx_inv u c -> n = rx_buf_nb c (rx_buf_sel c) - rx_pos c ->
  set_rx (rx_buf_nb c) (rx_buf_sel c) (u16 (rx_pos c + n)) (rx_trans_ongoing c) c = rx_drained c.
Proof.
  intros [] ->. unfold rx_drained. specialize (rx_nb0 (rx_buf_sel c)). f_equal. rewrite u16_id; lia.
Qed.

(** Reading part of a packet and dropping the rest, inside the callback. *)
Lemma read_and_ignore_all {App} (notify interrupts : M (Udd * (Cdc * App)) unit) fuel size u c a :
  rx_inv u c -> rx_trans_ongoing c = true -> rx_pos c < rx_buf_nb c (rx_buf_sel c) ->
  0 <= size <= len (rx_unread u c) ->
  udi_cdc_multi_read_buf_and_ignore notify interrupts (S fuel) size (u, (c, a))
  = Some ((u, (rx_drained c, a)), (take (Z.to_nat size) (rx_unread u c), 0)).
Proof.
  intros Hi Ho Hp Hs. rewrite (rx_unread_length u c Hi) in Hs. pose proof (rx_nb _ _ Hi (rx_buf_sel c)) as Hnb.
  pose proof (rx_pos_ok _ _ Hi) as Hpos.
  unfold udi_cdc_multi_read_buf_and_ignore. cbn [read_ignore_loop wait_rx]. unfold get_cdc, get_udd. run.
  rewrite Z.geb_leb. destruct (Z.leb_spec (rx_buf_nb c (rx_buf_sel c)) (rx_pos c)); [lia|]. run. cbn [negb fst snd].
  rewrite u16_id by lia. rewrite Z.geb_leb.
  destruct (Z.leb_spec size (rx_buf_nb c (rx_buf_sel c) - rx_pos c)); [|lia].
  rewrite rx_bytes_unread by (assumption || lia). unfold advance, put_cdc. run.
  rewrite (advance_all u c) by (assumption || reflexivity).
  rewrite rx_start_running by (destruct c; exact Ho). rewrite Z.sub_diag. reflexivity.
Qed.

Lemma rx_inv_switch u c u' sel n :
  rx_inv u c -> same_but_eps u u' -> 0 <= n <= 64 ->
  rx_inv u' (set_rx (upd_nb (rx_buf_nb c) sel n) sel n true c).
Proof.
  intros [] Hs Hn. pose proof (same_cdc_eps _ _ Hs rx_eps0) as He. destruct Hs as (Em & _).
  destruct c; cbn in *. constructor; cbn.
  - exact He.
  - intros s. rewrite Em. apply rx_len0.
  - intros s. unfold upd_nb. destruct (Bool.eqb _ _); [lia|apply rx_nb0].
  - rewrite upd_nb_eq. lia.
Qed.

(** A received packet of [n] bytes, once the port switches to its buffer. *)
Lemma rx_switched u c n :
  rx_inv u c -> 0 < n <= 64 ->
  let sel := negb (rx_buf_sel c) in
  let c1 := set_rx (upd_nb (rx_buf_nb c) sel n) sel 0 true c in
  rx_inv u c1 /\ rx_buf_nb c1 (rx_buf_sel c1) = n /\ rx_pos c1 = 0 /\ rx_trans_ongoing c1 = true /\
  rx_drained c1 = set_rx (upd_nb (rx_buf_nb c) sel n) sel n true c /\
  rx_unread u c1 = take (Z.to_nat n) (mem u (B_cdc_rx sel)).
Proof.
  intros Hi Hn sel c1.
  assert (rx_buf_nb c1 (rx_buf_sel c1) = n /\ rx_pos c1 = 0 /\ rx_trans_ongoing c1 = true /\ rx_buf_sel c1 = sel)
    as (Enb & Epos & Eong & Es) by (subst c1; destruct c; cbn [set_rx rx_trans_ongoing rx_pos rx_buf_nb rx_buf_sel];
      rewrite upd_nb_eq; auto).
  split.
  - pose proof (rx_inv_switch u c u sel n Hi (same_but_eps_refl u) ltac:(lia)) as Hfull.
    destruct Hfull. subst c1. destruct c; cbn in *. constructor; cbn; try assumption. rewrite upd_nb_eq. lia.
  - repeat split; try assumption.
    + unfold rx_drained. rewrite Enb. subst c1. destruct c; reflexivity.
    + unfold rx_unread. rewrite Enb, Epos, Es, Z.sub_0_r. reflexivity.
Qed.

Lemma rx_start_offers {App} accepts (notify : M (Udd * (Cdc * App)) unit) `{!RxClient accepts notify} u c a n :
  rx_inv u c -> rx_pos c = rx_buf_nb c (rx_buf_sel c) -> 0 < n <= 64 ->
  accepts (take (Z.to_nat n) (mem u (B_cdc_rx (negb (rx_buf_sel c))))) a ->
  let sel := negb (rx_buf_sel c) in
  let c2 := set_rx (upd_nb (rx_buf_nb c) sel n) sel n true c in
  exists u' a' r,
    udi_cdc_rx_start notify
      (u, (set_rx (upd_nb (rx_buf_nb c) sel n) (rx_buf_sel c) (rx_pos c) false c, a)) = Some ((u', (c2, a')), r) /\
    same_but_eps u u' /\
    exists c1, notify (u, (c1, a)) = Some ((u, (c2, a')), tt) /\
      rx_unread u c1 = take (Z.to_nat n) (mem u (B_cdc_rx sel)) /\
      rx_inv u c1 /\ rx_trans_ongoing c1 = true /\ rx_pos c1 < rx_buf_nb c1 (rx_buf_sel c1).
Proof.
  intros Hi Hp Hn Hacc sel c2. destruct (rx_switched u c n Hi Hn) as (Hi1 & Enb & Epos & Eong & Ed & Eu).
  fold sel in Hi1, Enb, Epos, Eong, Ed, Eu. fold c2 in Ed.
  set (c1 := set_rx (upd_nb (rx_buf_nb c) sel n) sel 0 true c) in *.
  destruct (RxClient0 u c1 a Hi1 Eong ltac:(lia)) as (a' & En); [rewrite Eu; exact Hacc|]. rewrite Ed in En.
  unfold udi_cdc_rx_start, get_cdc, put_cdc. run.
  match goal with |- context [if ?b || ?d then _ else _] => replace (b || d) with false end.
  2: { symmetry. apply orb_false_iff. unfold sel. destruct c; cbn in *. rewrite upd_nb_other. split; [reflexivity|].
       apply Z.ltb_ge. lia. }
  assert (forall y, set_rx (rx_buf_nb (set_rx (upd_nb (rx_buf_nb c) sel n) (rx_buf_sel c) y false c))
            (negb (rx_buf_sel (set_rx (upd_nb (rx_buf_nb c) sel n) (rx_buf_sel c) y false c))) 0 true
            (set_rx (upd_nb (rx_buf_nb c) sel n) (rx_buf_sel c) y false c) = c1) as Ec1
    by (intros; subst c1 sel; destruct c; reflexivity).
  run. rewrite Ec1. unfold udi_cdc_multi_is_rx_ready, udi_cdc_multi_get_nb_received_data.
  rewrite Enb, Epos, Z.sub_0_r, u16_id by lia. rewrite (proj2 (Z.gtb_lt n 0)) by lia. rewrite En.
  match goal with |- context [ep_run ?ep ?sh ?b ?sz ?cb ?s] =>
    destruct (ep_run_frame ep sh b sz cb u (c2, a')) as (u' & r & E & Hs);
      [apply cdc_eps_has; [apply Hi|vm_compute; split; congruence]|left; unfold UDI_CDC_RX_BUFFERS; lia|] end.
  rewrite E. exists u', a', r. split; [reflexivity|]. split; [exact Hs|]. exists c1.
  repeat (split; [assumption|]). lia.
Qed.

(** ** Properties *)


(** Writing to the port queues the bytes in order: however long the writer
    waits, and whatever the interrupts that take bytes from the front of the queue
    do meanwhile, the bytes written are appended exactly once behind what was
    waiting, and when the interface stops the count of unwritten bytes is exact. *)
Theorem write_buf_fifo {App} (interrupts : M (Udd * (Cdc * App)) unit) fuel data u c a s' left :
  tx_env interrupts -> tx_inv u c -> bDataBits u <> 9 -> len data < 65536 ->
  udi_cdc_multi_write_buf interrupts fuel data (len data) (u, (c, a)) = Some (s', left) ->
  exists u' c' a' taken, s' = (u', (c', a')) /\ tx_inv u' c' /\ 0 <= left <= len data /\
    tx_pending u c ++ take (Z.to_nat (len data - left)) data = taken ++ tx_pending u' c'.
Proof.
  intros Henv Hi H9 Hd. unfold udi_cdc_multi_write_buf, get_udd. run.
  destruct (Z.eqb_spec (bDataBits u) 9); [contradiction|].
  apply write_loop_fifo; assumption || lia.
Qed.

(** A message sent with the buffer check never waits: with eight data bits it
    is queued whole behind what is waiting when it fits the free space, and is
    dropped whole when it does not; in neither case do the interrupts that would
    make room have to run. *)
Theorem sendDataToUsb_checked {App} (interrupts : M (Udd * (Cdc * App)) unit) fuel msg u c a :
  tx_inv u c -> bDataBits u <> 9 -> Forall (fun x => x <> 0) msg -> 0 < len msg < 256 ->
  exists u' c', sendDataToUsb interrupts (S fuel) (msg ++ [0]) true (u, (c, a)) = Some ((u', (c', a)), tt) /\
    tx_inv u' c' /\ tx_inflight u' c' = tx_inflight u c /\
    (tx_pending u' c' = tx_pending u c ++ msg \/ tx_pending u' c' = tx_pending u c).
Proof.
  intros Hi H9 Hm Hl. unfold sendDataToUsb. rewrite cstr_app_nul, u8_id by (assumption || lia).
  destruct (get_free_keeps u c a Hi) as (c1 & E & I1 & I2 & I3 & I4 & _). run. rewrite E. cbn [negb orb].
  rewrite Z.geb_leb. destruct (Z.leb_spec (len msg) (64 - tx_buf_nb c1 (tx_buf_sel c1))) as [Hfit|Hno]; run.
  2: { exists u, c1. rewrite I2, I3. auto. }
  unfold udi_cdc_multi_write_buf, get_udd. run. destruct (Z.eqb_spec (bDataBits u) 9); [contradiction|].
  cbn [write_loop]. unfold udi_cdc_multi_is_tx_ready, get_cdc. run.
  pose proof (inv_nb _ _ I1 (tx_buf_sel c1)) as Hnb.
  destruct (get_free_keeps u c1 a I1) as (c2 & E2 & _ & _ & _ & _ & Heq). rewrite E2.
  rewrite (Heq ltac:(lia)). destruct (Z.eqb_spec (64 - tx_buf_nb c1 (tx_buf_sel c1)) 0); [lia|]. cbn [negb]. run.
  unfold UDI_CDC_TX_BUFFERS. rewrite u16_id by lia. rewrite Z.gtb_ltb.
  replace (if len msg <? _ then _ else _) with (len msg)
    by (destruct (Z.ltb_spec (len msg) (64 - tx_buf_nb c1 (tx_buf_sel c1))); lia).
  destruct (tx_append_keeps u c1 a (msg ++ [0]) (len msg) I1 ltac:(lia)) as (u2 & c2' & E3 & J1 & J2 & J3 & _);
    [rewrite length_app; cbn; lia|].
  rewrite E3, Z.sub_diag. cbn. exists u2, c2'. split; [reflexivity|]. split; [assumption|].
  split; [rewrite J3; exact I3|]. left. rewrite J2, I2, Nat2Z.id, take_app_length. reflexivity.
Qed.

(** Reception never stalls and loses no packet: with an application callback
    that reads what it accepts, a port that waits for data reacts to a
    received, accepted packet of n > 0 bytes by offering exactly these n bytes to the
    callback, once, with a new transfer requested into the other buffer, and
    waits for data again; an empty packet only restarts the transfer. *)
Theorem reception_never_stalls {App} accepts (notify : M (Udd * (Cdc * App)) unit) `{!RxClient accepts notify} u c a n :
  rx_inv u c -> rx_waiting c -> 0 <= n <= 64 ->
  accepts (take (Z.to_nat n) (mem u (B_cdc_rx (negb (rx_buf_sel c))))) a ->
  exists u' c' a', udi_cdc_data_received notify true n (u, (c, a)) = Some ((u', (c', a')), tt) /\
    rx_inv u' c' /\ rx_waiting c' /\ same_but_eps u u' /\
    (if n =? 0 then c' = c /\ a' = a
     else rx_buf_sel c' = negb (rx_buf_sel c) /\
          exists c1, notify (u, (c1, a)) = Some ((u, (c', a')), tt) /\
            rx_unread u c1 = take (Z.to_nat n) (mem u (B_cdc_rx (negb (rx_buf_sel c))))).
Proof.
  intros Hi [Ho Hp] Hn Hacc. unfold udi_cdc_data_received, get_cdc, put_cdc. cbn [negb]. run.
  destruct (Z.eqb_spec n 0) as [->|N].
  - destruct (ep_run_frame UDI_CDC_DATA_EP_OUT_0 true (B_cdc_rx (negb (rx_buf_sel c))) UDI_CDC_RX_BUFFERS
                cb_cdc_data_received u (c, a)) as (u' & r & E & Hs);
      [apply cdc_eps_has; [apply Hi|vm_compute; split; congruence]|left; unfold UDI_CDC_RX_BUFFERS; lia|].
    run. rewrite E. exists u', c, a. split; [reflexivity|].
    split; [|repeat split; try assumption; apply Hs].
    destruct Hi. constructor; try assumption; [eapply same_cdc_eps; eauto|]. intros s. destruct Hs as (-> & _). apply rx_len0.
  - pose proof (rx_start_offers accepts notify u c a n Hi Hp ltac:(lia) Hacc) as (u' & a' & r & E & Hs & c1 & En & Eu & _).
    unfold udi_cdc_data_received, get_cdc, put_cdc in E |- *. cbn [negb] in *. run. rewrite E.
    eexists u', _, a'. split; [reflexivity|]. split; [apply (rx_inv_switch u); assumption || lia|].
    split; [destruct c; unfold rx_waiting; cbn [set_rx rx_trans_ongoing rx_pos rx_buf_nb rx_buf_sel];
      rewrite upd_nb_eq; auto|].
    split; [exact Hs|]. split; [destruct c; reflexivity|]. exists c1. auto.
Qed.

(** ** Witnesses *)

Definition example_cdc : Cdc :=
  mkCdc false 0 1 1 true (fun _ => 0) true 0 true (fun sel => if sel then 0 else 5) false 0 false false 0.

Ltac example_inv :=
  constructor;
  [split; cbn; lia|reflexivity|intros []; vm_compute; split; congruence|vm_compute; intuition congruence..].

Lemma example_tx_inv : tx_inv example_udd example_cdc.
Proof. example_inv. Defined.

Lemma example_rx_inv : rx_inv example_udd example_cdc.
Proof. example_inv. Defined.

Definition sending_cdc : Cdc := set_tx (fun sel => if sel then 5 else 3) false 0 true false example_cdc.


Definition example_written : Udd * (Cdc * unit) :=
  match udi_cdc_multi_write_buf tx_complete 3 [1; 2; 3] 3 (example_udd, (example_cdc, tt)) with
  | Some (s, _) => s | None => (example_udd, (example_cdc, tt)) end.

Lemma write_buf_fifo_witness :
  exists u' c' a' taken,
    udi_cdc_multi_write_buf tx_complete 3 [1; 2; 3] 3 (example_udd, (example_cdc, tt)) = Some (example_written, 0) /\
    example_written = (u', (c', a')) /\ tx_pending example_udd example_cdc ++ [1; 2; 3] = taken ++ tx_pending u' c'.
Proof.
  assert (udi_cdc_multi_write_buf tx_complete 3 [1; 2; 3] 3 (example_udd, (example_cdc, tt)) = Some (example_written, 0))
    as E by (vm_compute; reflexivity).
  destruct (write_buf_fifo (App := unit) tx_complete 3 [1; 2; 3] example_udd example_cdc tt example_written 0)
    as (u' & c' & a' & taken & E1 & _ & _ & E2).
  - exact tx_complete_env.
  - exact example_tx_inv.
  - vm_compute. congruence.
  - vm_compute. reflexivity.
  - exact E.
  - exists u', c', a', taken. split; [exact E|]. split; [exact E1|exact E2].
Defined.

Lemma sendDataToUsb_checked_witness :
  exists u' c', sendDataToUsb tx_complete 1 ([119; 97; 105; 116; 10] ++ [0]) true (example_udd, (example_cdc, tt))
      = Some ((u', (c', tt)), tt) /\
    tx_inv u' c' /\ tx_inflight u' c' = tx_inflight example_udd example_cdc /\
    (tx_pending u' c' = tx_pending example_udd example_cdc ++ [119; 97; 105; 116; 10] \/
     tx_pending u' c' = tx_pending example_udd example_cdc).
Proof.
  apply (sendDataToUsb_checked tx_complete 0 [119; 97; 105; 116; 10] example_udd example_cdc tt).
  - exact example_tx_inv.
  - vm_compute. congruence.
  - repeat constructor; discriminate.
  - cbn. lia.
Defined.

(** A callback that drops what it is offered. *)
Definition drain : M (Udd * (Cdc * unit)) unit := put_cdc rx_drained.

#[export] Instance drain_client : RxClient (fun _ _ => True) drain.
Proof. intros u c a _ _ _ _. exists a. reflexivity. Defined.

Lemma reception_never_stalls_witness :
  exists u' c' a', udi_cdc_data_received drain true 7 (example_udd, (example_cdc, tt)) = Some ((u', (c', a')), tt) /\
    rx_waiting c'.
Proof.
  destruct (reception_never_stalls (fun _ _ => True) drain example_udd example_cdc tt 7) as (u' & c' & a' & E & _ & W & _).
  - exact example_rx_inv.
  - vm_compute. auto.
  - lia.
  - exact I.
  - exists u', c', a'. auto.
Defined.
