(* ===== verification/Udc.v ===== *)
(** * The USB device core (udc.c) and the descriptors (udi_cdc_desc.c)

    The decoding of setup requests, the walk over the configuration descriptor,
    and the enabling of the two CDC interfaces. The core's variables that are sent
    to the host are kept, as the code has them, in the static buffers that the
    payload pointers refer to. *)

From Stdlib Require Import String.
From S2P Require Import Prelude Udd UdiCdc.

(** ** Descriptors *)

Definition le16 (v : Z) : list Z := [v mod 256; v / 256].

Definition USB_DT_DEVICE : Z := 1.
Definition USB_DT_CONFIGURATION : Z := 2.
Definition USB_DT_STRING : Z := 3.
Definition USB_DT_INTERFACE : Z := 4.
Definition USB_DT_ENDPOINT : Z := 5.
Definition USB_DT_BOS : Z := 15.
Definition CDC_CS_INTERFACE : Z := 36.
Definition USB_DEVICE_NB_INTERFACE : Z := 2.

(** [udc_device_desc] *)
Definition udc_device_desc : list Z :=
  [18; USB_DT_DEVICE] ++ le16 512 ++ [2; 0; 0; USB_DEVICE_EP_CTRL_SIZE] ++ le16 1003 ++ le16 9220
  ++ le16 256 ++ [1; 2; 3; 1].

Definition usb_ep_desc (address attributes size interval : Z) : list Z :=
  [7; USB_DT_ENDPOINT; address; attributes] ++ le16 size ++ [interval].
Definition usb_iface_desc (number alternate endpoints class subclass protocol : Z) : list Z :=
  [9; USB_DT_INTERFACE; number; alternate; endpoints; class; subclass; protocol; 0].

(** [UDI_CDC_COMM_DESC_0] and [UDI_CDC_DATA_DESC_0_FS] *)
Definition UDI_CDC_COMM_DESC_0 : list Z :=
  usb_iface_desc 0 0 1 2 2 1
  ++ [5; CDC_CS_INTERFACE; 0] ++ le16 272
  ++ [4; CDC_CS_INTERFACE; 2; 2]
  ++ [5; CDC_CS_INTERFACE; 6; 0; 1]
  ++ [5; CDC_CS_INTERFACE; 1; 3; 1]
  ++ usb_ep_desc UDI_CDC_COMM_EP_0 3 64 16.
Definition UDI_CDC_DATA_DESC_0_FS : list Z :=
  usb_iface_desc 1 0 2 10 0 0
  ++ usb_ep_desc UDI_CDC_DATA_EP_IN_0 2 64 0 ++ usb_ep_desc UDI_CDC_DATA_EP_OUT_0 2 64 0.

(** [udc_desc_fs]: self powered, 100 mA. *)
Definition udc_desc_fs : list Z :=
  [9; USB_DT_CONFIGURATION] ++ le16 (9 + len UDI_CDC_COMM_DESC_0 + len UDI_CDC_DATA_DESC_0_FS)
  ++ [USB_DEVICE_NB_INTERFACE; 1; 0; Z.lor 128 64; (100 + 1) / 2]
  ++ UDI_CDC_COMM_DESC_0 ++ UDI_CDC_DATA_DESC_0_FS.

Definition udc_string_desc_languageid : list Z := [4; USB_DT_STRING] ++ le16 1033.
Definition udc_string_manufacturer_name : list Z := str "M3D".
Definition udc_string_product_name : list Z := str "Micro 3D".
Definition USB_DEVICE_SERIAL_NAME_SIZE : Z := 16.

(** ** The core's variables *)

(** [udc_ptr_conf] is set once a configuration is chosen; [udc_ptr_iface] is an
    offset into the configuration descriptor. *)
Record Udc := mkUdc { udc_ptr_conf : bool; udc_ptr_iface : Z }.

Definition udc_num_configuration (u : Udd) : Z := nth 0 (mem u B_num_configuration) 0.
Definition set_num_configuration (v : Z) (u : Udd) : Udd := set_mem B_num_configuration [v] u.

Definition USB_REQ_TYPE_STANDARD : Z := 0.
Definition USB_REQ_RECIP_MASK : Z := 31.
Definition USB_REQ_RECIP_DEVICE : Z := 0.
Definition USB_REQ_RECIP_INTERFACE : Z := 1.
Definition USB_REQ_RECIP_ENDPOINT : Z := 2.
Definition USB_REQ_GET_STATUS : Z := 0.
Definition USB_REQ_CLEAR_FEATURE : Z := 1.
Definition USB_REQ_SET_FEATURE : Z := 3.
Definition USB_REQ_SET_ADDRESS : Z := 5.
Definition USB_REQ_GET_DESCRIPTOR : Z := 6.
Definition USB_REQ_GET_CONFIGURATION : Z := 8.
Definition USB_REQ_SET_CONFIGURATION : Z := 9.
Definition USB_REQ_GET_INTERFACE : Z := 10.
Definition USB_REQ_SET_INTERFACE : Z := 11.
Definition USB_DEV_FEATURE_REMOTE_WAKEUP : Z := 1.
Definition USB_DEV_STATUS_SELF_POWERED : Z := 1.
Definition USB_DEV_STATUS_REMOTEWAKEUP : Z := 2.
Definition USB_EP_FEATURE_HALT : Z := 0.
Definition USB_EP_STATUS_HALTED : Z := 1.

Definition Udd_setup_type (c : CtrlReq) : Z := Z.land (bmRequestType (req c)) USB_REQ_TYPE_MASK.
Definition Udd_setup_recipient (c : CtrlReq) : Z := Z.land (bmRequestType (req c)) USB_REQ_RECIP_MASK.

(** ** Walking the descriptor *)

(** The end of the configuration descriptor, as an offset. *)
Definition udc_get_eof_conf (d : list Z) : Z := nth 2 d 0 + 256 * nth 3 d 0.
Definition bNumInterfaces (d : list Z) : Z := nth 4 d 0.

(** The loop of [udc_next_desc_in_iface]; a descriptor of length zero would make
    it run for ever. *)
Fixpoint next_desc_loop (fuel : nat) (d : list Z) (desc desc_id : Z) : option (option Z) :=
  match fuel with
  | O => None
  | S fuel =>
      if udc_get_eof_conf d >? desc then
        bDescriptorType ← load d (desc + 1);
        if USB_DT_INTERFACE =? bDescriptorType then Some None
        else if desc_id =? bDescriptorType then Some (Some desc)
        else bLength ← load d desc; next_desc_loop fuel d (desc + bLength) desc_id
      else Some None
  end.

Definition udc_next_desc_in_iface (d : list Z) (desc desc_id : Z) : option (option Z) :=
  bLength ← load d desc; next_desc_loop (S (Z.to_nat (udc_get_eof_conf d))) d (desc + bLength) desc_id.

(** The loop of [udc_update_iface_desc]: the offset reached, and whether it is
    the interface looked for. *)
Fixpoint update_iface_loop (fuel : nat) (d : list Z) (iface iface_num setting_num : Z) : option (Z * bool) :=
  match fuel with
  | O => None
  | S fuel =>
      if udc_get_eof_conf d >? iface then
        bDescriptorType ← load d (iface + 1);
        found ← (if USB_DT_INTERFACE =? bDescriptorType then
                   n ← load d (iface + 2); s ← load d (iface + 3);
                   Some ((iface_num =? n) && (setting_num =? s))
                 else Some false);
        if (found : bool) then Some (iface, true)
        else bLength ← load d iface; update_iface_loop fuel d (iface + bLength) iface_num setting_num
      else Some (iface, false)
  end.

(** The endpoint descriptors of the interface at an offset: address, attributes
    and packet size. *)
Fixpoint iface_endpoints (fuel : nat) (d : list Z) (desc : Z) : option (list (Z * Z * Z)) :=
  match fuel with
  | O => None
  | S fuel =>
      next ← udc_next_desc_in_iface d desc USB_DT_ENDPOINT;
      match next with
      | None => Some []
      | Some ep =>
          a ← load d (ep + 2); t ← load d (ep + 3); lo ← load d (ep + 4); hi ← load d (ep + 5);
          rest ← iface_endpoints fuel d ep;
          Some ((a, t, lo + 256 * hi) :: rest)
      end
  end.

(** ** Operations *)

(** By default no data and no callbacks. *)
Definition fresh_request (u : Udd) : Udd :=
  set_ctrlreq (set_over_under_run false (set_callback None (set_payload_size 0 (udd_g_ctrlreq u)))) u.

Section Udc.
Context {App : Type}.
Abbreviation St := (Udd * (Cdc * (Udc * App)))%type.
(** The application's receive and disconnect callbacks and its serial number. *)
Context (rx_notify disconnect : M St unit) (serialNumber : App -> list Z).

Definition get_udc : M St Udc := gets (fun s => fst (snd (snd s))).
Definition put_udc (f : Udc -> Udc) : M St unit :=
  modify (fun s => (fst s, (fst (snd s), (f (fst (snd (snd s))), snd (snd (snd s)))))).
Definition get_req : M St CtrlReq := gets (fun s => udd_g_ctrlreq (fst s)).
Definition get_desc : M St (list Z) := gets (fun s => mem (fst s) B_conf_desc).
Definition set_payload_to (b : Buf) (size : Z) : M St unit := on_fst (udd_set_setup_payload b size).
Definition wIndex_low (c : CtrlReq) : Z := Z.land (wIndex (req c)) 255.
Definition wValue_low (c : CtrlReq) : Z := Z.land (wValue (req c)) 255.

(** The interface functions of [udi_apis]: communication, then data. *)
Definition udi_enable (iface_num : Z) : M St bool :=
  if iface_num =? 0 then udi_cdc_comm_enable else udi_cdc_data_enable rx_notify.
Definition udi_disable (iface_num : Z) : M St unit :=
  if iface_num =? 0 then udi_cdc_comm_disable else udi_cdc_data_disable disconnect.
Definition udi_setup (iface_num : Z) : M St bool :=
  if iface_num =? 0 then udi_cdc_comm_setup else udi_cdc_data_setup.
Definition udi_sof_notify (iface_num : Z) : M St unit :=
  if iface_num =? 0 then mret tt else udi_cdc_data_sof_notify.

Definition udc_update_iface_desc (iface_num setting_num : Z) : M St bool :=
  u ← get_udd; d ← get_desc;
  if udc_num_configuration u =? 0 then mret false
  else if iface_num >=? bNumInterfaces d then mret false
  else
    r ← of_option (update_iface_loop (S (Z.to_nat (udc_get_eof_conf d))) d 0 iface_num setting_num);
    _ ← put_udc (fun c => mkUdc (udc_ptr_conf c) (fst r));
    mret (snd r).

Fixpoint free_endpoints (eps : list (Z * Z * Z)) : M St unit :=
  match eps with
  | [] => mret tt
  | (a, _, _) :: eps => _ ← udd_ep_free (cdc_event rx_notify) a; free_endpoints eps
  end.

Fixpoint alloc_endpoints (eps : list (Z * Z * Z)) : M St bool :=
  match eps with
  | [] => mret true
  | (a, t, n) :: eps =>
      ok ← on_fst (udd_ep_alloc a t n);
      if negb ok then mret false else alloc_endpoints eps
  end.

Definition current_endpoints : M St (list (Z * Z * Z)) :=
  d ← get_desc; c ← get_udc;
  of_option (iface_endpoints (S (Z.to_nat (udc_get_eof_conf d))) d (udc_ptr_iface c)).

Definition udc_iface_disable (iface_num : Z) : M St bool :=
  ok ← udc_update_iface_desc iface_num 0;
  if negb ok then mret false
  else
    ok ← udc_update_iface_desc iface_num udi_cdc_getsetting;
    if negb ok then mret false
    else
      eps ← current_endpoints;
      _ ← free_endpoints eps;
      _ ← udi_disable iface_num; mret true.

Definition udc_iface_enable (iface_num setting_num : Z) : M St bool :=
  ok ← udc_update_iface_desc iface_num setting_num;
  if negb ok then mret false
  else
    eps ← current_endpoints;
    ok ← alloc_endpoints eps;
    if negb ok then mret false else udi_enable iface_num.

Definition udc_start : M St unit := on_fst udd_enable.

Fixpoint disable_ifaces (n : nat) (i : Z) : M St unit :=
  match n with O => mret tt | S n => _ ← udc_iface_disable i; disable_ifaces n (i + 1) end.

Definition udc_reset : M St unit :=
  u ← get_udd; d ← get_desc;
  _ ← when (negb (udc_num_configuration u =? 0)) (disable_ifaces (Z.to_nat (bNumInterfaces d)) 0);
  _ ← put_udd (set_num_configuration 0);
  put_udd (set_mem B_device_status (le16 USB_DEV_STATUS_SELF_POWERED)).

Definition udc_stop : M St unit := _ ← on_fst udd_disable; udc_reset.

Fixpoint sof_ifaces (n : nat) (i : Z) : M St unit :=
  match n with O => mret tt | S n => _ ← udi_sof_notify i; sof_ifaces n (i + 1) end.

Definition udc_sof_notify : M St unit :=
  u ← get_udd; d ← get_desc;
  when (negb (udc_num_configuration u =? 0)) (sof_ifaces (Z.to_nat (bNumInterfaces d)) 0).

Definition udc_req_std_dev_get_status : M St bool :=
  c ← get_req;
  if negb (wLength (req c) =? 2) then mret false
  else _ ← set_payload_to B_device_status 2; mret true.

Definition udc_req_std_ep_get_status : M St bool :=
  c ← get_req;
  if negb (wLength (req c) =? 2) then mret false
  else
    halted ← on_fst (udd_ep_is_halted (wIndex_low c));
    _ ← put_udd (set_mem B_ep_status (le16 (if halted : bool then USB_EP_STATUS_HALTED else 0)));
    _ ← set_payload_to B_ep_status 2; mret true.

Definition udc_req_std_dev_clear_feature : M St bool :=
  c ← get_req;
  if negb (wLength (req c) =? 0) then mret false
  else if wValue (req c) =? USB_DEV_FEATURE_REMOTE_WAKEUP then
    _ ← put_udd (fun u => let s := nth 0 (mem u B_device_status) 0 + 256 * nth 1 (mem u B_device_status) 0 in
          set_mem B_device_status (le16 (Z.land s (u16 (Z.lnot USB_DEV_STATUS_REMOTEWAKEUP)))) u);
    mret true
  else mret false.

Definition udc_req_std_ep_clear_feature : M St bool :=
  c ← get_req;
  if negb (wLength (req c) =? 0) then mret false
  else if wValue (req c) =? USB_EP_FEATURE_HALT then udd_ep_clear_halt (cdc_event rx_notify) (wIndex_low c)
  else mret false.

(** The device does not support remote wake-up. *)
Definition udc_req_std_dev_set_feature : M St bool :=
  c ← get_req;
  if negb (wLength (req c) =? 0) then mret false
  else if wValue (req c) =? USB_DEV_FEATURE_REMOTE_WAKEUP then mret false
  else mret false.

Definition udc_req_std_ep_set_feature : M St bool :=
  c ← get_req;
  if negb (wLength (req c) =? 0) then mret false
  else if wValue (req c) =? USB_EP_FEATURE_HALT then
    _ ← udd_ep_abort (cdc_event rx_notify) (wIndex_low c);
    udd_ep_set_halt (cdc_event rx_notify) (wIndex_low c)
  else mret false.

Definition udc_valid_address : M St unit :=
  c ← get_req; on_fst (udd_set_address (Z.land (wValue (req c)) 127)).

Definition udc_req_std_dev_set_address : M St bool :=
  c ← get_req;
  if negb (wLength (req c) =? 0) then mret false
  else _ ← put_udd (fun u => set_ctrlreq (set_callback (Some cb_udc_valid_address) (udd_g_ctrlreq u)) u); mret true.

(** The characters of a string as little-endian words. *)
Definition utf16 (s : list Z) : list Z := flat_map (fun c => [c; 0]) s.

(** The string, then its length, are written to [udc_string_desc]; its type
    byte is initialised with the variable. *)
Definition send_string (s : list Z) : M St unit :=
  u ← get_udd;
  m ← of_option (blit (mem u B_string_desc) 2 (utf16 s));
  m ← of_option (store m 0 (u8 (2 + len s * 2)));
  _ ← put_udd (set_mem B_string_desc m);
  set_payload_to B_string_desc (u8 (2 + len s * 2)).

Definition udc_req_std_dev_get_str_desc : M St bool :=
  c ← get_req;
  a ← gets (fun s => snd (snd (snd s)));
  let id := wValue_low c in
  if id =? 0 then
    _ ← set_payload_to B_string_languageid 4; mret true
  else if id =? 1 then _ ← send_string udc_string_manufacturer_name; mret true
  else if id =? 2 then _ ← send_string udc_string_product_name; mret true
  else if id =? 3 then
    if USB_DEVICE_SERIAL_NAME_SIZE <=? len (serialNumber a) then
      _ ← send_string (take (Z.to_nat USB_DEVICE_SERIAL_NAME_SIZE) (serialNumber a)); mret true
    else (fun _ => None)
  else mret false.

(** The last lines of [udc_req_std_dev_get_descriptor]. *)
Definition limit_payload : M St bool :=
  _ ← put_udd (fun u => let c := udd_g_ctrlreq u in
        if wLength (req c) <? payload_size c then set_ctrlreq (set_payload_size (wLength (req c)) c) u else u);
  mret true.

Definition udc_req_std_dev_get_descriptor : M St bool :=
  c ← get_req; u ← get_udd;
  let conf_num := wValue_low c in
  let dt := u8 (Z.shiftr (wValue (req c)) 8) in
  if dt =? USB_DT_DEVICE then
    _ ← set_payload_to B_device_desc (nth 0 (mem u B_device_desc) 0); limit_payload
  else if dt =? USB_DT_CONFIGURATION then
    if conf_num >=? nth 17 (mem u B_device_desc) 0 then mret false
    else
      _ ← set_payload_to B_conf_desc (udc_get_eof_conf (mem u B_conf_desc));
      m ← of_option (store (mem u B_conf_desc) 1 USB_DT_CONFIGURATION);
      _ ← put_udd (set_mem B_conf_desc m);
      limit_payload
  else if dt =? USB_DT_BOS then mret false
  else if dt =? USB_DT_STRING then
    ok ← udc_req_std_dev_get_str_desc;
    if negb ok then mret false else limit_payload
  else mret false.

Definition udc_req_std_dev_get_configuration : M St bool :=
  c ← get_req;
  if negb (wLength (req c) =? 1) then mret false
  else _ ← set_payload_to B_num_configuration 1; mret true.

Fixpoint enable_ifaces (n : nat) (i : Z) : M St bool :=
  match n with
  | O => mret true
  | S n => ok ← udc_iface_enable i 0; if negb ok then mret false else enable_ifaces n (i + 1)
  end.

Definition udc_req_std_dev_set_configuration : M St bool :=
  c ← get_req; u ← get_udd;
  if negb (wLength (req c) =? 0) then mret false
  else if udd_getaddress u =? 0 then mret false
  else if wValue_low c >? nth 17 (mem u B_device_desc) 0 then mret false
  else
    _ ← udc_reset;
    _ ← put_udd (set_num_configuration (wValue_low c));
    if wValue_low c =? 0 then mret true
    else
      _ ← put_udc (fun x => mkUdc true (udc_ptr_iface x));
      d ← get_desc;
      enable_ifaces (Z.to_nat (bNumInterfaces d)) 0.

Definition udc_req_std_iface_get_setting : M St bool :=
  c ← get_req; u ← get_udd; d ← get_desc;
  if negb (wLength (req c) =? 1) then mret false
  else if udc_num_configuration u =? 0 then mret false
  else if wIndex_low c >=? bNumInterfaces d then mret false
  else
    ok ← udc_update_iface_desc (wIndex_low c) 0;
    if negb ok then mret false
    else
      _ ← put_udd (set_mem B_iface_setting [udi_cdc_getsetting]);
      _ ← set_payload_to B_iface_setting 1; mret true.

Definition udc_req_std_iface_set_setting : M St bool :=
  c ← get_req; u ← get_udd;
  if negb (wLength (req c) =? 0) then mret false
  else if udc_num_configuration u =? 0 then mret false
  else
    ok ← udc_iface_disable (wIndex_low c);
    if negb ok then mret false else udc_iface_enable (wIndex_low c) (wValue_low c).

Definition udc_reqstd_in (c : CtrlReq) : M St bool :=
  let r := bRequest (req c) in
  let recip := Udd_setup_recipient c in
  if wLength (req c) =? 0 then mret false
  else if (recip =? USB_REQ_RECIP_DEVICE) && (r =? USB_REQ_GET_STATUS) then udc_req_std_dev_get_status
  else if (recip =? USB_REQ_RECIP_DEVICE) && (r =? USB_REQ_GET_DESCRIPTOR) then udc_req_std_dev_get_descriptor
  else if (recip =? USB_REQ_RECIP_DEVICE) && (r =? USB_REQ_GET_CONFIGURATION) then udc_req_std_dev_get_configuration
  else if (recip =? USB_REQ_RECIP_INTERFACE) && (r =? USB_REQ_GET_INTERFACE) then udc_req_std_iface_get_setting
  else if (recip =? USB_REQ_RECIP_ENDPOINT) && (r =? USB_REQ_GET_STATUS) then udc_req_std_ep_get_status
  else mret false.

Definition udc_reqstd_out (c : CtrlReq) : M St bool :=
  let r := bRequest (req c) in
  let recip := Udd_setup_recipient c in
  if (recip =? USB_REQ_RECIP_DEVICE) && (r =? USB_REQ_SET_ADDRESS) then udc_req_std_dev_set_address
  else if (recip =? USB_REQ_RECIP_DEVICE) && (r =? USB_REQ_CLEAR_FEATURE) then udc_req_std_dev_clear_feature
  else if (recip =? USB_REQ_RECIP_DEVICE) && (r =? USB_REQ_SET_FEATURE) then udc_req_std_dev_set_feature
  else if (recip =? USB_REQ_RECIP_DEVICE) && (r =? USB_REQ_SET_CONFIGURATION) then udc_req_std_dev_set_configuration
  else if (recip =? USB_REQ_RECIP_INTERFACE) && (r =? USB_REQ_SET_INTERFACE) then udc_req_std_iface_set_setting
  else if (recip =? USB_REQ_RECIP_ENDPOINT) && (r =? USB_REQ_CLEAR_FEATURE) then udc_req_std_ep_clear_feature
  else if (recip =? USB_REQ_RECIP_ENDPOINT) && (r =? USB_REQ_SET_FEATURE) then udc_req_std_ep_set_feature
  else mret false.

Definition udc_reqstd : M St bool :=
  c ← get_req; if Udd_setup_is_in c then udc_reqstd_in c else udc_reqstd_out c.

Definition udc_req_iface : M St bool :=
  c ← get_req; u ← get_udd; d ← get_desc;
  if udc_num_configuration u =? 0 then mret false
  else if wIndex_low c >=? bNumInterfaces d then mret false
  else
    ok ← udc_update_iface_desc (wIndex_low c) 0;
    if negb ok then mret false
    else
      ok ← udc_update_iface_desc (wIndex_low c) udi_cdc_getsetting;
      if negb ok then mret false else udi_setup (wIndex_low c).

Fixpoint setup_ifaces (n : nat) (i : Z) : M St bool :=
  match n with
  | O => mret false
  | S n =>
      ok ← udc_update_iface_desc i udi_cdc_getsetting;
      if negb ok then mret false
      else ok ← udi_setup i; if (ok : bool) then mret true else setup_ifaces n (i + 1)
  end.

Definition udc_req_ep : M St bool :=
  u ← get_udd; d ← get_desc;
  if udc_num_configuration u =? 0 then mret false
  else setup_ifaces (Z.to_nat (bNumInterfaces d)) 0.

(** The decoding by type and recipient in [udc_process_setup]. *)
Definition process_decoded (c : CtrlReq) : M St bool :=
  if Udd_setup_is_in c && (wLength (req c) =? 0) then mret false
  else
    ok ← (if Udd_setup_type c =? USB_REQ_TYPE_STANDARD then udc_reqstd else mret false);
    if (ok : bool) then mret true
    else
      ok ← (if Udd_setup_recipient c =? USB_REQ_RECIP_INTERFACE then udc_req_iface else mret false);
      if (ok : bool) then mret true
      else if Udd_setup_recipient c =? USB_REQ_RECIP_ENDPOINT then udc_req_ep else mret false.

Definition process_request : M St bool := c ← get_req; process_decoded c.
Definition udc_process_setup : M St bool := _ ← put_udd fresh_request; process_request.

(** The callbacks at the end of a control request. *)
Definition udc_callback (cb : Callback) : M St unit :=
  match cb with
  | cb_udc_valid_address => udc_valid_address
  | cb_cdc_line_coding_received => mret tt
  | _ => fun _ => None
  end.
End Udc.

(** ** The static buffers *)

(** The buffers that the payload pointers refer to have the sizes of the
    variables they stand for; the descriptors hold what they are initialised with. *)
Record usb_memory (u : Udd) : Prop := {
  mem_device : mem u B_device_desc = udc_device_desc;
  mem_conf : mem u B_conf_desc = udc_desc_fs;
  mem_lang : length (mem u B_string_languageid) = 4%nat;
  mem_string : length (mem u B_string_desc) = 34%nat;
  mem_status : length (mem u B_device_status) = 2%nat;
  mem_num : length (mem u B_num_configuration) = 1%nat;
  mem_coding : length (mem u B_cdc_line_coding) = 7%nat
}.

Lemma mem_set_ctrlreq c u : mem (set_ctrlreq c u) = mem u.
Proof. destruct u. reflexivity. Qed.

Lemma ctrlreq_set_ctrlreq c u : udd_g_ctrlreq (set_ctrlreq c u) = c.
Proof. destruct u. reflexivity. Qed.

Lemma ctrlreq_set_mem b v u : udd_g_ctrlreq (set_mem b v u) = udd_g_ctrlreq u.
Proof. destruct u. reflexivity. Qed.

Lemma set_ctrlreq_twice c c' u : set_ctrlreq c (set_ctrlreq c' u) = set_ctrlreq c u.
Proof. destruct u. reflexivity. Qed.

Create Rewrite HintDb usb.
#[export] Hint Rewrite mem_set_mem mem_set_ctrlreq ctrlreq_set_ctrlreq ctrlreq_set_mem set_ctrlreq_twice : usb.

(** The same buffers up to their contents. *)
Lemma usb_memory_set_mem b v u :
  usb_memory u -> length v = length (mem u b) -> b <> B_device_desc -> b <> B_conf_desc ->
  usb_memory (set_mem b v u).
Proof.
  intros [] Hl Hd Hc. constructor; rewrite mem_set_mem; destruct (decide _) as [->|]; congruence.
Qed.

Lemma usb_memory_ctrlreq c u : usb_memory u -> usb_memory (set_ctrlreq c u).
Proof. intros []. constructor; rewrite mem_set_ctrlreq; assumption. Qed.

(** ** Reading requests *)

(** What a handled reading request leaves: a payload that is within its buffer
    and no longer than the host asked for. *)
Definition readable (u u' : Udd) : Prop :=
  let c := udd_g_ctrlreq u in let c' := udd_g_ctrlreq u' in
  req c' = req c /\ over_under_run c' = over_under_run c /\
  0 < payload_size c' <= wLength (req c) /\ payload_size c' <= len (mem u' (payload c')) /\
  usb_memory u' /\ ep_ctrl u' = ep_ctrl u.

(** The request answered with the first [n] bytes of a buffer. *)
Definition answer (b : Buf) (n : Z) (u : Udd) : Udd := set_ctrlreq (set_payload b n (udd_g_ctrlreq u)) u.

Lemma readable_answer b n u u1 :
  usb_memory u1 -> udd_g_ctrlreq u1 = udd_g_ctrlreq u -> ep_ctrl u1 = ep_ctrl u ->
  0 < n <= wLength (req (udd_g_ctrlreq u)) -> n <= len (mem u1 b) -> readable u (answer b n u1).
Proof.
  intros Hm Hr He Hn Hl. unfold readable, answer. autorewrite with usb. rewrite Hr. cbn.
  split; [reflexivity|]. split; [reflexivity|]. split; [lia|]. split; [exact Hl|].
  split; [apply usb_memory_ctrlreq, Hm|]. destruct u1; exact He.
Qed.

Section Reading.
Context {App : Type} (serialNumber : App -> list Z).
Context (u : Udd) (c : Cdc) (a : App).
Context (Hm : usb_memory u) (Hw : 0 < wLength (req (udd_g_ctrlreq u))).

(** The run of a handler on the state: refused, with no effect but on the
    interface pointer, or answered. *)
Definition reads (h : M (Udd * (Cdc * (Udc * App))) bool) : Prop :=
  forall k, (exists k', h (u, (c, (k, a))) = Some ((u, (c, (k', a))), false)) \/
  exists u' k', h (u, (c, (k, a))) = Some ((u', (c, (k', a))), true) /\ readable u u'.

Lemma reads_refused : reads (mret false).
Proof. left. eexists. reflexivity. Qed.

Lemma reads_answer b n :
  n = wLength (req (udd_g_ctrlreq u)) -> n <= len (mem u b) ->
  reads (_ ← set_payload_to b n; mret true).
Proof.
  intros Hn Hl k. right. exists (answer b n u), k. split; [reflexivity|].
  apply readable_answer; auto; lia.
Qed.

(** Answering with a descriptor, cut to the length the host asked for. *)
Lemma limit_answer b n u1 k :
  usb_memory u1 -> udd_g_ctrlreq u1 = udd_g_ctrlreq u -> ep_ctrl u1 = ep_ctrl u ->
  0 < n -> n <= len (mem u1 b) ->
  exists u', limit_payload (answer b n u1, (c, (k, a))) = Some ((u', (c, (k, a))), true) /\ readable u u'.
Proof.
  intros Hm1 Hr He Hn Hl. exists (answer b (Z.min n (wLength (req (udd_g_ctrlreq u)))) u1).
  split; [|apply readable_answer; auto; lia].
  unfold limit_payload, put_udd, answer. run. autorewrite with usb. rewrite Hr. cbn [set_payload req payload_size].
  destruct (Z.ltb_spec (wLength (req (udd_g_ctrlreq u))) n); autorewrite with usb.
  - rewrite Z.min_r by lia. reflexivity.
  - rewrite Z.min_l by lia. reflexivity.
Qed.

Lemma utf16_length s : len (utf16 s) = 2 * len s.
Proof. induction s; cbn [utf16 flat_map app length] in *; [reflexivity|]. unfold utf16 in IHs. lia. Qed.

Lemma send_string_answer s k : 0 < len s <= 16 ->
  exists m, send_string s (u, (c, (k, a))) =
    Some ((answer B_string_desc (2 + 2 * len s) (set_mem B_string_desc m u), (c, (k, a))), tt) /\
    length m = 34%nat.
Proof.
  intros Hs. destruct Hm. unfold send_string, set_payload_to, udd_set_setup_payload, put_udd, get_udd. run.
  destruct (blit_in (mem u B_string_desc) 2 (utf16 s)) as (m & Em & Lm); [lia|rewrite utf16_length; lia|].
  rewrite Em. rewrite store_in by (rewrite Lm; lia). run.
  rewrite (Z.mul_comm (len s)), u8_id by lia.
  eexists. split; [reflexivity|]. rewrite length_insert. congruence.
Qed.

Lemma reads_string : 16 <= len (serialNumber a) ->
  reads (ok ← udc_req_std_dev_get_str_desc serialNumber; if negb ok then mret false else limit_payload).
Proof.
  intros Hs k. unfold udc_req_std_dev_get_str_desc, get_req. run.
  destruct (_ =? 0).
  { right. destruct (limit_answer B_string_languageid 4 u k) as (u' & E & R); try reflexivity; try assumption.
    - destruct Hm. lia.
    - exists u', k. split; [exact E|exact R]. }
  assert (forall t, 0 < len t <= 16 -> exists u' k',
    (ok ← (_ ← send_string t; mret true); if negb ok then mret false else limit_payload) (u, (c, (k, a))) = Some ((u', (c, (k', a))), true) /\ readable u u')
    as Send.
  { intros t Ht. destruct (send_string_answer t k Ht) as (m & E & Lm).
    destruct (limit_answer B_string_desc (2 + 2 * len t) (set_mem B_string_desc m u) k) as (u' & E' & R).
    - apply usb_memory_set_mem; try discriminate; [assumption|]. destruct Hm. congruence.
    - apply ctrlreq_set_mem.
    - destruct u; reflexivity.
    - lia.
    - rewrite mem_set_mem, decide_True by reflexivity. lia.
    - exists u', k. split; [|exact R]. run. rewrite E. exact E'. }
  cbv beta iota delta [mbind M_bind mret M_ret] in Send.
  destruct (_ =? 1); [right; apply Send; cbn; lia|].
  destruct (_ =? 2); [right; apply Send; cbn; lia|].
  destruct (_ =? 3); [|left; eexists; reflexivity].
  change USB_DEVICE_SERIAL_NAME_SIZE with 16.
  rewrite (proj2 (Z.leb_le _ _)) by assumption. right. apply Send. rewrite length_take. lia.
Qed.

Lemma reads_descriptor : 16 <= len (serialNumber a) -> reads (udc_req_std_dev_get_descriptor serialNumber).
Proof.
  intros Hs k. unfold udc_req_std_dev_get_descriptor, get_req, get_udd.
  pose proof (reads_string Hs k) as R3. unfold set_payload_to. run. destruct Hm.
  destruct (_ =? USB_DT_DEVICE).
  { right. destruct (limit_answer B_device_desc 18 u k) as (u' & E & R); try reflexivity; try assumption.
    - rewrite mem_device0. cbn. lia.
    - exists u', k. split; [|exact R]. rewrite mem_device0. exact E. }
  destruct (_ =? USB_DT_CONFIGURATION).
  { destruct (_ >=? _); [left; eexists; reflexivity|]. right.
    destruct (limit_answer B_conf_desc (udc_get_eof_conf udc_desc_fs) (set_mem B_conf_desc udc_desc_fs u) k) as (u' & E & R).
    - constructor; rewrite mem_set_mem; case_decide; congruence.
    - apply ctrlreq_set_mem.
    - destruct u; reflexivity.
    - vm_compute. reflexivity.
    - rewrite mem_set_mem, decide_True by reflexivity. vm_compute. discriminate.
    - exists u', k. split; [|exact R]. rewrite mem_conf0.
      replace (store udc_desc_fs 1 USB_DT_CONFIGURATION) with (Some udc_desc_fs) by reflexivity.
      rewrite <- E. unfold put_udd, answer, udd_set_setup_payload. run. destruct u; reflexivity. }
  destruct (_ =? USB_DT_BOS); [left; eexists; reflexivity|].
  destruct (_ =? USB_DT_STRING); [exact R3|left; eexists; reflexivity].
Qed.

Lemma wIndex_low_range x : 0 <= wIndex_low x < 256.
Proof. unfold wIndex_low. change 255 with (Z.ones 8). rewrite Z.land_ones by lia. apply Z.mod_pos_bound. lia. Qed.

(** Both interfaces are found in the descriptor, whatever the pointer was. *)
Lemma update_iface_found {A} (u0 : Udd) c0 k (a0 : A) i :
  mem u0 B_conf_desc = udc_desc_fs -> udc_num_configuration u0 <> 0 -> 0 <= i < 2 ->
  exists p, udc_update_iface_desc i 0 (u0, (c0, (k, a0))) = Some ((u0, (c0, (mkUdc (udc_ptr_conf k) p, a0))), true).
Proof.
  intros Hd Hn Hi. unfold udc_update_iface_desc, get_udd, get_desc. run. rewrite Hd.
  rewrite (proj2 (Z.eqb_neq _ _) Hn).
  assert (i = 0 \/ i = 1) as [->| ->] by lia; eexists; reflexivity.
Qed.

Lemma reads_get_setting : reads udc_req_std_iface_get_setting.
Proof.
  intros k. unfold udc_req_std_iface_get_setting, get_req, get_udd, get_desc. run.
  destruct (wLength _ =? 1) eqn:Hl; cbn [negb]; [|left; eexists; reflexivity].
  destruct (_ =? 0) eqn:Hn; [left; eexists; reflexivity|].
  destruct Hm. rewrite mem_conf0. change (bNumInterfaces udc_desc_fs) with 2.
  destruct (_ >=? 2) eqn:Hi; [left; eexists; reflexivity|]. bool_hyps.
  pose proof (wIndex_low_range (udd_g_ctrlreq u)).
  destruct (update_iface_found u c k a (wIndex_low (udd_g_ctrlreq u))) as (p & E); [assumption|assumption|lia|].
  rewrite E. right. unfold put_udd, set_payload_to, udd_set_setup_payload. run.
  eexists _, _. split; [reflexivity|].
  apply (readable_answer B_iface_setting 1 u (set_mem B_iface_setting [udi_cdc_getsetting] u)).
  - constructor; rewrite mem_set_mem; assumption.
  - apply ctrlreq_set_mem.
  - destruct u; reflexivity.
  - lia.
  - rewrite mem_set_mem, decide_True by reflexivity. cbn. lia.
Qed.

Lemma reads_ep_status e :
  lookupZ (ep_ctrl u) (ep_index (wIndex_low (udd_g_ctrlreq u))) = Some e -> reads udc_req_std_ep_get_status.
Proof.
  intros He k. unfold udc_req_std_ep_get_status, get_req, udd_ep_is_halted, udd_ep_get_ctrl. run.
  destruct (wLength _ =? 2) eqn:Hl; cbn [negb]; [|left; eexists; reflexivity]. bool_hyps.
  cbn [fst snd]. rewrite He. run. right. eexists _, _. split; [reflexivity|]. destruct Hm.
  apply (readable_answer B_ep_status 2 u (set_mem B_ep_status _ u)).
  - constructor; rewrite mem_set_mem; assumption.
  - apply ctrlreq_set_mem.
  - destruct u; reflexivity.
  - lia.
  - rewrite mem_set_mem, decide_True by reflexivity. cbn. lia.
Qed.

(** Reading requests of the standard type. *)
Lemma reads_reqstd_in :
  16 <= len (serialNumber a) ->
  (Udd_setup_recipient (udd_g_ctrlreq u) = USB_REQ_RECIP_ENDPOINT ->
   exists e, lookupZ (ep_ctrl u) (ep_index (wIndex_low (udd_g_ctrlreq u))) = Some e) ->
  reads (udc_reqstd_in serialNumber (udd_g_ctrlreq u)).
Proof.
  intros Hs He. unfold udc_reqstd_in. destruct Hm.
  destruct (_ =? 0); [apply reads_refused|].
  repeat match goal with |- reads (if ?b then _ else _) => destruct b eqn:Hb; [|clear Hb] end.
  - unfold reads, udc_req_std_dev_get_status, get_req. run. intros k.
    destruct (wLength _ =? 2) eqn:Hl; cbn [negb]; [|left; eexists; reflexivity]. bool_hyps.
    apply reads_answer; [congruence|lia].
  - apply reads_descriptor, Hs.
  - unfold reads, udc_req_std_dev_get_configuration, get_req. run. intros k.
    destruct (wLength _ =? 1) eqn:Hl; cbn [negb]; [|left; eexists; reflexivity]. bool_hyps.
    apply reads_answer; [congruence|lia].
  - apply reads_get_setting.
  - bool_hyps. destruct He as (e & He); [assumption|]. exact (reads_ep_status e He).
  - apply reads_refused.
Qed.

(** The communication interface answers a request for the line coding. *)
Lemma reads_setup i : Udd_setup_is_in (udd_g_ctrlreq u) = true -> reads (udi_setup i).
Proof.
  intros Hin. unfold udi_setup. destruct (i =? 0); [|apply reads_refused].
  intros k. unfold udi_cdc_comm_setup, get_udd. run.
  assert (Udd_setup_is_out (udd_g_ctrlreq u) = false) as Hout.
  { unfold Udd_setup_is_in, Udd_setup_is_out, USB_REQ_DIR_IN, USB_REQ_DIR_OUT in *. bool_hyps.
    apply Z.eqb_neq. lia. }
  rewrite Hin, Hout. cbn [andb].
  destruct (_ && _); [|left; eexists; reflexivity].
  destruct (sizeof_line_coding =? _) eqn:Hl; cbn [negb]; [|left; eexists; reflexivity].
  bool_hyps. unfold sizeof_line_coding in *. destruct Hm. apply reads_answer; lia.
Qed.

Lemma reads_req_iface : Udd_setup_is_in (udd_g_ctrlreq u) = true -> reads udc_req_iface.
Proof.
  intros Hin k. pose proof (reads_setup (wIndex_low (udd_g_ctrlreq u)) Hin) as R.
  unfold udc_req_iface, get_req, get_udd, get_desc. run.
  destruct (_ =? 0) eqn:Hn; [left; eexists; reflexivity|]. destruct Hm.
  rewrite mem_conf0. change (bNumInterfaces udc_desc_fs) with 2.
  destruct (_ >=? 2) eqn:Hi; [left; eexists; reflexivity|]. bool_hyps.
  pose proof (wIndex_low_range (udd_g_ctrlreq u)).
  destruct (update_iface_found u c k a (wIndex_low (udd_g_ctrlreq u))) as (p & E); [assumption|assumption|lia|].
  rewrite E. cbn [negb].
  destruct (update_iface_found u c (mkUdc (udc_ptr_conf k) p) a (wIndex_low (udd_g_ctrlreq u))) as (q & E2);
    [assumption|assumption|lia|].
  change udi_cdc_getsetting with 0. rewrite E2. apply R.
Qed.

Lemma reads_setup_ifaces n i : Udd_setup_is_in (udd_g_ctrlreq u) = true -> udc_num_configuration u <> 0 ->
  0 <= i -> i + Z.of_nat n <= 2 -> reads (setup_ifaces n i).
Proof.
  intros Hin Hn. revert i. induction n as [|n IH]; intros i Hi Hi2; [apply reads_refused|].
  intros k. cbn [setup_ifaces]. run. change udi_cdc_getsetting with 0.
  destruct (update_iface_found u c k a i) as (p & E); [apply Hm|assumption|lia|].
  rewrite E. cbn [negb]. run.
  destruct (reads_setup i Hin (mkUdc (udc_ptr_conf k) p)) as [(k' & E2)|(u' & k' & E2 & R)]; rewrite E2.
  - apply IH; lia.
  - right. exists u', k'. auto.
Qed.

Lemma reads_if (b : bool) h h' : reads h -> reads h' -> reads (if b then h else h').
Proof. destruct b; auto. Qed.

(** A handler that is tried when another one refused. *)
Lemma reads_else h h' : reads h -> reads h' -> reads (ok ← h; if (ok : bool) then mret true else h').
Proof.
  intros H1 H2 k. run. destruct (H1 k) as [(k' & E)|(u' & k' & E & R)]; rewrite E; [apply H2|].
  right. eexists _, _. split; [reflexivity|exact R].
Qed.
End Reading.

Lemma process_setup_reads {App} (rx_notify disconnect : M (Udd * (Cdc * (Udc * App))) unit) serialNumber u c k a :
  usb_memory u -> 0 < wLength (req (udd_g_ctrlreq u)) -> Udd_setup_is_in (udd_g_ctrlreq u) = true ->
  16 <= len (serialNumber a) ->
  (Udd_setup_recipient (udd_g_ctrlreq u) = USB_REQ_RECIP_ENDPOINT ->
   exists e, lookupZ (ep_ctrl u) (ep_index (wIndex_low (udd_g_ctrlreq u))) = Some e) ->
  (exists k', udc_process_setup rx_notify disconnect serialNumber (u, (c, (k, a)))
    = Some ((fresh_request u, (c, (k', a))), false)) \/
  exists u' k', udc_process_setup rx_notify disconnect serialNumber (u, (c, (k, a)))
    = Some ((u', (c, (k', a))), true) /\ readable (fresh_request u) u'.
Proof.
  intros Hm Hw Hin Hs He.
  change (udc_process_setup rx_notify disconnect serialNumber (u, (c, (k, a))))
    with (process_request rx_notify disconnect serialNumber (fresh_request u, (c, (k, a)))).
  replace (req (udd_g_ctrlreq u)) with (req (udd_g_ctrlreq (fresh_request u))) in Hw by (destruct u; reflexivity).
  assert (usb_memory (fresh_request u)) as Hm0 by apply usb_memory_ctrlreq, Hm.
  assert (Udd_setup_is_in (udd_g_ctrlreq (fresh_request u)) = true) as Hin0 by (destruct u; exact Hin).
  assert (Udd_setup_recipient (udd_g_ctrlreq (fresh_request u)) = USB_REQ_RECIP_ENDPOINT ->
    exists e, lookupZ (ep_ctrl (fresh_request u)) (ep_index (wIndex_low (udd_g_ctrlreq (fresh_request u)))) = Some e)
    as He0 by (destruct u; exact He).
  revert k. change (reads (fresh_request u) c a (process_request rx_notify disconnect serialNumber)).
  clear He Hm Hin. set (u0 := fresh_request u) in *. clearbody u0. clear u.
  intros k. change (process_request rx_notify disconnect serialNumber (u0, (c, (k, a))))
    with (process_decoded rx_notify disconnect serialNumber (udd_g_ctrlreq u0) (u0, (c, (k, a)))).
  revert k. change (reads u0 c a (process_decoded rx_notify disconnect serialNumber (udd_g_ctrlreq u0))).
  unfold process_decoded. rewrite Hin0, (proj2 (Z.eqb_neq (wLength _) 0)) by lia. cbn [andb].
  apply reads_else; [|apply reads_else].
  - apply reads_if; [|apply reads_refused]. intros k. unfold udc_reqstd, get_req. run. rewrite Hin0.
    apply reads_reqstd_in; assumption.
  - apply reads_if; [apply reads_req_iface; assumption|apply reads_refused].
  - apply reads_if; [|apply reads_refused]. intros k. unfold udc_req_ep, get_udd, get_desc. run.
    destruct (_ =? 0) eqn:Hn; [left; eexists; reflexivity|]. bool_hyps.
    rewrite (mem_conf _ Hm0). apply reads_setup_ifaces; auto; [lia|vm_compute; discriminate].
Qed.

(** ** Configuring the device *)

(** The entry and the job of an endpoint. *)
Definition ep_at (ep : Z) (e : EpCtrl) (j : Job) (u : Udd) : Prop :=
  2 <= ep_index ep /\ ep_ctrl u !! Z.to_nat (ep_index ep) = Some e /\
  udd_ep_job u !! Z.to_nat (ep_index ep - 2) = Some j.

Lemma ep_at_has ep e j u : ep_at ep e j u -> has_ep ep u.
Proof. intros (? & He%lookup_lt_Some & Hj%lookup_lt_Some). unfold has_ep. lia. Qed.

Lemma ep_at_with ep e j u : ep_at ep e j u -> u = with_ep ep e j u.
Proof. intros (? & He & Hj). unfold with_ep. destruct u; cbn in *. rewrite !list_insert_id by assumption. reflexivity. Qed.

Lemma ep_at_same ep e j u : has_ep ep u -> ep_at ep e j (with_ep ep e j u).
Proof.
  intros (? & ? & ?). split; [assumption|]. destruct u; cbn in *.
  rewrite !list_lookup_insert_eq by lia. auto.
Qed.

Lemma ep_at_other ep e j u ep' e' j' :
  ep_at ep e j u -> ep_index ep <> ep_index ep' -> 2 <= ep_index ep' -> ep_at ep e j (with_ep ep' e' j' u).
Proof.
  intros (? & He & Hj) Hne ?. split; [assumption|]. destruct u; cbn in *.
  rewrite !list_lookup_insert_ne by lia. auto.
Qed.

Lemma with_ep_comm ep e j ep' e' j' u :
  ep_index ep <> ep_index ep' -> 2 <= ep_index ep -> 2 <= ep_index ep' ->
  with_ep ep e j (with_ep ep' e' j' u) = with_ep ep' e' j' (with_ep ep e j u).
Proof.
  intros. unfold with_ep. destruct u; cbn.
  rewrite (list_insert_insert_ne ep_ctrl), (list_insert_insert_ne udd_ep_job) by lia. reflexivity.
Qed.

(** A freshly allocated bulk or interrupt endpoint of 64 bytes. *)
Definition allocated (e : EpCtrl) : EpCtrl :=
  mkEpCtrl TYPE_BULK BUFSIZE_64 false true
    (fun b => match b with BUSNACK0 | BUSNACK1 => true | _ => false end) (CNT e) (DATAPTR e) (AUXDATA e).

Lemma alloc_run ep t e j u : ep_at ep e j u -> t = 2 \/ t = 3 -> CTRL_TYPE e = TYPE_DISABLE ->
  udd_ep_alloc ep t 64 u = Some (with_ep ep (allocated e) j u, true).
Proof.
  intros Hat Ht Hd. rewrite (ep_at_with ep e j u Hat) at 1. pose proof (ep_at_has _ _ _ _ Hat).
  unfold udd_ep_alloc, udd_ep_init, udd_endpoint_is_enable. ep_steps. 
  rewrite bool_decide_eq_true_2 by assumption. cbn [negb]. ep_steps.
  rewrite bool_decide_eq_false_2 by (destruct Ht as [-> | ->]; discriminate). cbn [andb]. ep_steps.
  destruct Ht as [-> | ->]; reflexivity.
Qed.

(** The endpoints of the two interfaces, as their descriptors list them. *)
Definition iface_eps (i : Z) : list (Z * Z * Z) :=
  if i =? 0 then [(UDI_CDC_COMM_EP_0, 3, 64)] else [(UDI_CDC_DATA_EP_IN_0, 2, 64); (UDI_CDC_DATA_EP_OUT_0, 2, 64)].

Lemma iface_enable_run {App} (rx_notify : M (Udd * (Cdc * (Udc * App))) unit) u c k a i :
  mem u B_conf_desc = udc_desc_fs -> udc_num_configuration u <> 0 -> i = 0 \/ i = 1 ->
  exists p, udc_iface_enable rx_notify i 0 (u, (c, (k, a))) =
    (ok ← alloc_endpoints (iface_eps i); if negb ok then mret false else udi_enable rx_notify i)
    (u, (c, (mkUdc (udc_ptr_conf k) p, a))).
Proof.
  intros Hd Hn Hi. unfold udc_iface_enable, current_endpoints, udc_update_iface_desc, get_udd, get_desc, put_udc, get_udc.
  run. rewrite Hd, (proj2 (Z.eqb_neq _ 0) Hn). destruct Hi as [-> | ->].
  - exists 9. change (0 >=? _) with false.
    replace (update_iface_loop _ _ _ _ _) with (Some (9, true)) by reflexivity. cbn [negb fst snd udc_ptr_iface].
    rewrite Hd. reflexivity.
  - exists 44. change (1 >=? _) with false.
    replace (update_iface_loop _ _ _ _ _) with (Some (44, true)) by reflexivity. cbn [negb fst snd udc_ptr_iface].
    rewrite Hd. reflexivity.
Qed.

(** The transmit side after it was reset: nothing waits, and at most an empty
    transfer was started on the data IN endpoint. *)
Lemma tx_reset_send {A} u c e j (a : A) :
  ep_at UDI_CDC_DATA_EP_IN_0 e j u -> cdc_eps u -> (forall sel, length (mem u (B_cdc_tx sel)) = 64%nat) ->
  exists e' j' c', udi_cdc_tx_send (u, (set_tx (fun _ => 0) false 0 false false c, a))
      = Some ((with_ep UDI_CDC_DATA_EP_IN_0 e' j' u, (c', a)), tt) /\
    (CTRL_TYPE e', CTRL_BUFSIZE e', CTRL_MULTIPKT e', CTRL_STALL e')
    = (CTRL_TYPE e, CTRL_BUFSIZE e, CTRL_MULTIPKT e, CTRL_STALL e) /\
    (forall u', same_but_eps u u' -> tx_inv u' c' /\ tx_pending u' c' = []) /\
    nb_data_enabled c' = nb_data_enabled c.
Proof.
  intros Hat Heps Hl. unfold udi_cdc_tx_send, get_cdc, get_udd, put_cdc. run.
  destruct c as [c1 c2 c3 c4 c5 c6 c7 c8 c9 c10 c11 c12 c13 c14 c15]. cbn [set_tx tx_trans_ongoing tx_sof_num tx_buf_sel tx_buf_nb].
  change udd_is_high_speed with false. rewrite Z.eqb_refl. cbn [andb negb orb].
  destruct (0 =? udd_get_frame_number u) eqn:F; [|destruct (u16 _ <? 100) eqn:Cn; cbn [andb orb]].
  1,2: exists e, j; eexists; rewrite <- (ep_at_with _ _ _ _ Hat); (split; [reflexivity|]); (split; [reflexivity|]);
    (split; [|reflexivity]); intros u' Hs; (split; [|reflexivity]);
    constructor; [exact (same_cdc_eps _ _ Hs Heps)|intros sel; destruct Hs as (-> & _); apply Hl
                 |intros; cbn; lia|reflexivity|discriminate].
  - change (0 =? UDI_CDC_TX_BUFFERS) with false.
    cbn [negb tx_both_buf_to_send set_zlp_counter set_tx tx_buf_nb tx_buf_sel].
    destruct (ep_run_with UDI_CDC_DATA_EP_IN_0 true (B_cdc_tx false) 0 cb_cdc_data_sent u e j
      (mkCdc c1 c2 c3 c4 c5 c6 c7 c8 c9 (fun _ => 0) true (udd_get_frame_number u) true false 0, a))
      as (e' & j' & r & E & K & _); [exact (ep_at_has _ _ _ _ Hat)|exact (ep_at_with _ _ _ _ Hat)|right; auto|].
    exists e', j'. eexists. cbn [fst snd set_zlp_counter set_tx tx_buf_nb tx_both_buf_to_send negb]. rewrite E.
    split; [reflexivity|]. split; [exact K|]. split; [|reflexivity].
    intros u' Hs. split; [|reflexivity].
    constructor; [exact (same_cdc_eps _ _ Hs Heps)|intros sel; destruct Hs as (-> & _); apply Hl
                 |intros; cbn; lia|discriminate|discriminate].
Qed.

(** Enabling the data interface: the buffers are reset and a reception starts. *)
Lemma data_enable_run {A} (rx_notify : M (Udd * (Cdc * A)) unit) u c e j e2 j2 (a : A) :
  ep_at UDI_CDC_DATA_EP_IN_0 e j u -> ep_at UDI_CDC_DATA_EP_OUT_0 e2 j2 u ->
  CTRL_TYPE e2 = TYPE_BULK -> CTRL_STALL e2 = false -> busy j2 = false -> cdc_eps u ->
  (forall sel, length (mem u (B_cdc_tx sel)) = 64%nat) -> (forall sel, length (mem u (B_cdc_rx sel)) = 64%nat) ->
  exists e' j' e2' j2' c',
    let u' := with_ep UDI_CDC_DATA_EP_OUT_0 e2' j2' (with_ep UDI_CDC_DATA_EP_IN_0 e' j' u) in
    udi_cdc_data_enable rx_notify (u, (c, a)) = Some ((u', (c', a)), true) /\
    (CTRL_TYPE e', CTRL_BUFSIZE e', CTRL_MULTIPKT e', CTRL_STALL e')
    = (CTRL_TYPE e, CTRL_BUFSIZE e, CTRL_MULTIPKT e, CTRL_STALL e) /\
    (CTRL_TYPE e2', CTRL_BUFSIZE e2', CTRL_MULTIPKT e2', CTRL_STALL e2')
    = (CTRL_TYPE e2, CTRL_BUFSIZE e2, CTRL_MULTIPKT e2, CTRL_STALL e2) /\
    busy j2' = true /\ buf j2' = B_cdc_rx false /\ buf_size j2' = 64 /\
    tx_inv u' c' /\ tx_pending u' c' = [] /\ rx_inv u' c' /\ rx_waiting c' /\ data_running c' = true.
Proof.
  intros H1 H2 T2 S2 B2 Heps Htx Hrx.
  destruct (tx_reset_send u (set_nb_data 0 c) e j a H1 Heps Htx) as (e' & j' & c1 & E1 & K1 & Htx1 & Hn).
  set (u1 := with_ep UDI_CDC_DATA_EP_IN_0 e' j' u) in *.
  assert (ep_at UDI_CDC_DATA_EP_OUT_0 e2 j2 u1) as H2' by (apply ep_at_other; [exact H2|discriminate|vm_compute; discriminate]).
  destruct c1 as [d1 d2 d3 d4 d5 d6 d7 d8 d9 d10 d11 d12 d13 d14 d15]. 
  assert (d4 = 0) as -> by (destruct c; exact Hn).
  destruct (ep_run_with UDI_CDC_DATA_EP_OUT_0 true (B_cdc_rx false) 64 cb_cdc_data_received u1 e2 j2
      (mkCdc d1 d2 d3 0 d5 (fun _ => 0) true 0 true d10 d11 d12 d13 d14 d15, a))
    as (e2' & j2' & r & E & K2 & J2); [exact (ep_at_has _ _ _ _ H2')|exact (ep_at_with _ _ _ _ H2')|left; lia|].
  destruct (J2 T2 S2 B2) as (-> & ? & ? & ? & _).
  exists e', j', e2', j2', (mkCdc d1 d2 d3 1 true (fun _ => 0) true 0 true d10 d11 d12 d13 d14 d15). cbv zeta. fold u1.
  assert (same_but_eps u (with_ep UDI_CDC_DATA_EP_OUT_0 e2' j2' u1)) as Hs.
  { subst u1. destruct u. unfold same_but_eps, with_ep; cbn. rewrite !length_insert. repeat split. }
  split.
  - unfold udi_cdc_data_enable. step_pure. step E1. step_pure.
    eapply eq_trans; [eapply bind_step|].
    + unfold udi_cdc_rx_start. step_pure. cbn [rx_buf_sel rx_trans_ongoing rx_pos rx_buf_nb snd fst orb]. step_pure. step_pure.
      step_pure. exact E.
    + reflexivity.
  - destruct (Htx1 _ Hs) as [[] Hp]. repeat (split; [assumption|]). split; [constructor; assumption|].
    split; [exact Hp|]. split; [|split; [split; reflexivity|reflexivity]].
    constructor; [assumption|intros sel; destruct Hs as (-> & _); apply Hrx|intros; cbn; lia|cbn; lia].
Qed.

(** ** Properties *)

(** The setup packet in the control buffer. *)
Definition setup_packet (u : Udd) : SetupReq := decode_setup (mem u B_ctrl).

(** A request for an endpoint names one that exists. *)
Definition names_endpoint (u : Udd) (r : SetupReq) : Prop :=
  Z.land (bmRequestType r) USB_REQ_RECIP_MASK = USB_REQ_RECIP_ENDPOINT ->
  exists e, lookupZ (ep_ctrl u) (ep_index (Z.land (wIndex r) 255)) = Some e.

(** The state in which the hardware reports a setup packet. *)
Record setup_arrived (u : Udd) : Prop := {
  arr_state : udd_ep_control_state u = UDD_EPCTRL_SETUP;
  arr_eps : (2 <= length (ep_ctrl u))%nat;
  arr_cnt : exists out, lookupZ (ep_ctrl u) 0 = Some out /\ CNT out = 8;
  arr_length : 0 <= wLength (setup_packet u) < 65536
}.

(** The driver with the setup packet taken. *)
Definition with_setup (u : Udd) : Udd :=
  set_buserr_irq true (set_ctrlreq (set_req (setup_packet u) (udd_g_ctrlreq u)) u).

Lemma setup_received_step {A} process run_callback over u (a : A) :
  setup_arrived u ->
  udd_ctrl_setup_received process run_callback over (u, a) =
  (ok ← process;
   if negb ok then on_fst udd_ctrl_stall_data
   else
     c ← gets (fun s => udd_g_ctrlreq (fst s));
     if Udd_setup_is_in c then
       _ ← on_fst (modify (fun u => set_control_state UDD_EPCTRL_DATA_IN (set_nb 0 (set_prev_nb 0 u))));
       udd_ctrl_in_sent run_callback over
     else if wLength (req c) =? 0 then on_fst udd_ctrl_send_zlp_in
     else
       _ ← on_fst (modify (fun u => set_control_state UDD_EPCTRL_DATA_OUT (set_nb 0 (set_prev_nb 0 u))));
       on_fst (ep_ctrl_update EP0_OUT (fun e => status_set TRNCOMPL0 false (status_set BUSNACK0 false e))))
  (with_setup u, a).
Proof.
  intros [Hst _ (out & Ho & Hc) _]. unfold udd_ctrl_setup_received, udd_ep_get_ctrl. run.
  rewrite Hst, bool_decide_eq_true_2 by reflexivity. run. change (ep_index EP0_OUT) with 0. rewrite Ho. cbn [negb]. rewrite Hc. reflexivity.
Qed.

Lemma stall_data_run u : (2 <= length (ep_ctrl u))%nat ->
  exists u', udd_ctrl_stall_data u = Some (u', tt) /\ udd_ep_control_state u' = UDD_EPCTRL_STALL_REQ.
Proof.
  intros H. destruct u as [eps jobs fn ad att mi be fl ff me cr cs pv nbt sp]. cbn in *.
  destruct eps as [|e0 [|e1 eps]]; [cbn in *; lia..|]. eexists. split; reflexivity.
Qed.

(** Giving the first packet to the hardware changes no buffer. *)
Lemma in_sent_mem {A} (run_callback : Callback -> M (Udd * A) unit) over u (a : A) u' :
  udd_ctrl_in_sent run_callback over (u, a) = Some ((u', a), tt) ->
  udd_ep_control_state u = UDD_EPCTRL_DATA_IN ->
  0 < payload_size (udd_g_ctrlreq u) - udd_ctrl_payload_nb_trans u < 65536 -> mem u' = mem u.
Proof.
  intros E Hst Hn. unfold udd_ctrl_in_sent in E. revert E. run.
  rewrite Hst, bool_decide_eq_false_2, u16_id, (proj2 (Z.eqb_neq _ 0)) by (discriminate || lia).
  unfold ctrl_in_packet, ep_ctrl_update. run.
  destruct u as [eps jobs fn ad att mi be fl ff me cr cs pv nbt sp]. cbn -[lookupZ].
  repeat (case_match; try discriminate; cbn -[lookupZ]); intros; simplify_eq; reflexivity.
Qed.


(** An endpoint that is not allocated, and one that is, with 64-byte packets. *)
Definition free_ep (ep : Z) (u : Udd) : Prop :=
  exists e j, ep_at ep e j u /\ CTRL_TYPE e = TYPE_DISABLE /\ busy j = false.
Definition open_ep (ep : Z) (u : Udd) : Prop :=
  exists e j, ep_at ep e j u /\ CTRL_TYPE e = TYPE_BULK /\ CTRL_BUFSIZE e = BUFSIZE_64 /\
    CTRL_MULTIPKT e = true /\ CTRL_STALL e = false.

Definition cdc_buffers (u : Udd) : Prop :=
  forall sel, length (mem u (B_cdc_tx sel)) = 64%nat /\ length (mem u (B_cdc_rx sel)) = 64%nat.

Lemma ep_at_set_mem b v ep e j u : ep_at ep e j u -> ep_at ep e j (set_mem b v u).
Proof. intros H. destruct u. exact H. Qed.

Lemma cdc_buffers_set_mem b v u :
  (forall sel, b <> B_cdc_tx sel) -> (forall sel, b <> B_cdc_rx sel) -> cdc_buffers u -> cdc_buffers (set_mem b v u).
Proof.
  intros H1 H2 H sel. specialize (H sel). rewrite !mem_set_mem, !decide_False by auto. exact H.
Qed.

(** The driver with the communication interface enabled: its endpoint allocated,
    and the line coding and the state message initialised. *)
Definition comm_ready (e : EpCtrl) (j : Job) (u : Udd) : Udd :=
  set_mem B_cdc_line_coding
    (le32 UDI_CDC_DEFAULT_RATE ++ [UDI_CDC_DEFAULT_STOPBITS; UDI_CDC_DEFAULT_PARITY; UDI_CDC_DEFAULT_DATABITS])
    (set_mem B_cdc_state_msg
      [161; USB_REQ_CDC_NOTIFY_SERIAL_STATE; 0; 0; UDI_CDC_COMM_IFACE_NUMBER_0; 0; 2; 0; 0; 0]
      (with_ep UDI_CDC_COMM_EP_0 (allocated e) j u)).

Lemma ep_at_comm_ready ep e j u e5 j5 :
  ep_at ep e j u -> ep_index ep <> ep_index UDI_CDC_COMM_EP_0 -> ep_at ep e j (comm_ready e5 j5 u).
Proof. intros H Hne. do 2 apply ep_at_set_mem. apply ep_at_other; [exact H|exact Hne|vm_compute; discriminate]. Qed.

Lemma comm_iface_run {App} (rx_notify : M (Udd * (Cdc * (Udc * App))) unit) u c k a e j :
  mem u B_conf_desc = udc_desc_fs -> udc_num_configuration u <> 0 ->
  ep_at UDI_CDC_COMM_EP_0 e j u -> CTRL_TYPE e = TYPE_DISABLE ->
  exists c' k', udc_iface_enable rx_notify 0 0 (u, (c, (k, a))) = Some ((comm_ready e j u, (c', (k', a))), true).
Proof.
  intros Hd Hn Hat Ht. destruct (iface_enable_run rx_notify u c k a 0 Hd Hn) as (p & E); [auto|].
  pose proof (alloc_run _ 3 _ _ _ Hat ltac:(auto) Ht) as L.
  eexists _, _. rewrite E. eapply eq_trans; [eapply bind_step|].
  - eapply eq_trans; [eapply bind_step; unfold on_fst; cbn [fst snd]; rewrite L; reflexivity|]. reflexivity.
  - reflexivity.
Qed.

Definition kind (e : EpCtrl) : EpType * EpBufsize * bool * bool :=
  (CTRL_TYPE e, CTRL_BUFSIZE e, CTRL_MULTIPKT e, CTRL_STALL e).

Lemma open_ep_kind ep e j u : ep_at ep e j u -> kind e = (TYPE_BULK, BUFSIZE_64, true, false) -> open_ep ep u.
Proof. intros H [= ? ? ? ?]. exists e, j. auto. Qed.

Lemma data_iface_run {App} (rx_notify : M (Udd * (Cdc * (Udc * App))) unit) u c k a e3 j3 e4 j4 :
  mem u B_conf_desc = udc_desc_fs -> udc_num_configuration u <> 0 -> cdc_eps u -> cdc_buffers u ->
  ep_at UDI_CDC_DATA_EP_IN_0 e3 j3 u -> CTRL_TYPE e3 = TYPE_DISABLE ->
  ep_at UDI_CDC_DATA_EP_OUT_0 e4 j4 u -> CTRL_TYPE e4 = TYPE_DISABLE -> busy j4 = false ->
  exists e3' j3' e4' j4' c' k',
    let u' := with_ep UDI_CDC_DATA_EP_OUT_0 e4' j4' (with_ep UDI_CDC_DATA_EP_IN_0 e3' j3' u) in
    udc_iface_enable rx_notify 1 0 (u, (c, (k, a))) = Some ((u', (c', (k', a))), true) /\
    kind e3' = (TYPE_BULK, BUFSIZE_64, true, false) /\ kind e4' = (TYPE_BULK, BUFSIZE_64, true, false) /\
    busy j4' = true /\ buf j4' = B_cdc_rx false /\ buf_size j4' = 64 /\
    tx_inv u' c' /\ tx_pending u' c' = [] /\ rx_inv u' c' /\ rx_waiting c' /\ data_running c' = true.
Proof.
  intros Hd Hn Heps Hbuf A3 T3 A4 T4 B4.
  destruct (iface_enable_run rx_notify u c k a 1 Hd Hn) as (p & E); [auto|].
  set (u3 := with_ep UDI_CDC_DATA_EP_IN_0 (allocated e3) j3 u).
  set (u4 := with_ep UDI_CDC_DATA_EP_OUT_0 (allocated e4) j4 u3).
  pose proof (alloc_run _ 2 _ _ _ A3 ltac:(auto) T3) as L3. fold u3 in L3.
  assert (ep_at UDI_CDC_DATA_EP_OUT_0 e4 j4 u3) as A4'
    by (apply ep_at_other; [exact A4|discriminate|vm_compute; discriminate]).
  pose proof (alloc_run _ 2 _ _ _ A4' ltac:(auto) T4) as L4. fold u4 in L4.
  assert (ep_at UDI_CDC_DATA_EP_IN_0 (allocated e3) j3 u4) as A3'
    by (apply ep_at_other; [apply ep_at_same, (ep_at_has _ _ _ _ A3)|discriminate|vm_compute; discriminate]).
  destruct (data_enable_run rx_notify u4 c (allocated e3) j3 (allocated e4) j4 (mkUdc (udc_ptr_conf k) p, a))
    as (e' & j' & e2' & j2' & c' & R); try reflexivity; try assumption.
  1: apply ep_at_same, (ep_at_has _ _ _ _ A4').
  1: unfold u4, u3; do 2 (eapply same_cdc_eps; [apply with_ep_same|]); assumption.
  1,2: intros sel; destruct u; apply (Hbuf sel).
  cbv zeta in R. destruct R as (R & R').
  assert (with_ep UDI_CDC_DATA_EP_OUT_0 e2' j2' (with_ep UDI_CDC_DATA_EP_IN_0 e' j' u4)
    = with_ep UDI_CDC_DATA_EP_OUT_0 e2' j2' (with_ep UDI_CDC_DATA_EP_IN_0 e' j' u)) as Eu.
  { subst u4 u3. rewrite (with_ep_comm _ _ _ UDI_CDC_DATA_EP_OUT_0) by (discriminate || (vm_compute; discriminate)).
    rewrite !with_ep_twice. reflexivity. }
  rewrite Eu in R, R'. exists e', j', e2', j2', c', (mkUdc (udc_ptr_conf k) p). cbv zeta. split; [|exact R'].
  rewrite E. eapply eq_trans; [eapply bind_step|].
  - eapply eq_trans; [eapply bind_step; unfold on_fst; cbn [fst snd]; rewrite L3; reflexivity|].
    eapply eq_trans; [eapply bind_step; unfold on_fst; cbn [fst snd]; rewrite L4; reflexivity|]. reflexivity.
  - exact R.
Qed.

(** Enabling both interfaces on a configured device whose endpoints are free. *)
Lemma enable_ifaces_run {App} (rx_notify : M (Udd * (Cdc * (Udc * App))) unit) u c k a :
  mem u B_conf_desc = udc_desc_fs -> udc_num_configuration u <> 0 -> cdc_eps u -> cdc_buffers u ->
  free_ep UDI_CDC_COMM_EP_0 u -> free_ep UDI_CDC_DATA_EP_IN_0 u -> free_ep UDI_CDC_DATA_EP_OUT_0 u ->
  exists u' c' k' eo jo, enable_ifaces rx_notify 2 0 (u, (c, (k, a))) = Some ((u', (c', (k', a))), true) /\
    udc_num_configuration u' = udc_num_configuration u /\
    open_ep UDI_CDC_COMM_EP_0 u' /\ open_ep UDI_CDC_DATA_EP_IN_0 u' /\ open_ep UDI_CDC_DATA_EP_OUT_0 u' /\
    ep_at UDI_CDC_DATA_EP_OUT_0 eo jo u' /\ busy jo = true /\ buf jo = B_cdc_rx false /\ buf_size jo = 64 /\
    tx_inv u' c' /\ tx_pending u' c' = [] /\ rx_inv u' c' /\ rx_waiting c' /\ data_running c' = true /\
    bDataBits u' = UDI_CDC_DEFAULT_DATABITS.
Proof.
  intros Hd Hn Heps Hbuf (e5 & j5 & A5 & T5 & B5) (e3 & j3 & A3 & T3 & B3) (e4 & j4 & A4 & T4 & B4).
  destruct (comm_iface_run rx_notify u c k a e5 j5 Hd Hn A5 T5) as (c1 & k1 & E1).
  destruct (data_iface_run rx_notify (comm_ready e5 j5 u) c1 k1 a e3 j3 e4 j4)
    as (e3' & j3' & e4' & j4' & c' & k' & E2 & K3 & K4 & R); try assumption.
  1,2: destruct u; assumption.
  1: destruct u; destruct Heps; unfold cdc_eps; cbn in *; rewrite !length_insert; auto.
  1: do 2 (apply cdc_buffers_set_mem; [discriminate..|]); destruct u; exact Hbuf.
  1,2: apply ep_at_comm_ready; [assumption|discriminate].
  set (u1 := comm_ready e5 j5 u) in *. set (u2 := with_ep UDI_CDC_DATA_EP_IN_0 e3' j3' u1) in *.
  assert (ep_at UDI_CDC_DATA_EP_OUT_0 e4' j4' (with_ep UDI_CDC_DATA_EP_OUT_0 e4' j4' u2)) as A4'.
  { apply ep_at_same, (ep_at_has _ e4 j4). apply ep_at_other; [|discriminate|vm_compute; discriminate].
    apply ep_at_comm_ready; [assumption|discriminate]. }
  exists (with_ep UDI_CDC_DATA_EP_OUT_0 e4' j4' u2), c', k', e4', j4'. split; [|split; [|split; [|split; [|split]]]].
  - cbn [enable_ifaces]. step E1. step E2. reflexivity.
  - destruct u; reflexivity.
  - apply (open_ep_kind _ (allocated e5) j5); [|reflexivity].
    do 2 (apply ep_at_other; [|discriminate|vm_compute; discriminate]). do 2 apply ep_at_set_mem.
    apply ep_at_same, (ep_at_has _ _ _ _ A5).
  - apply (open_ep_kind _ e3' j3'); [|exact K3]. apply ep_at_other; [|discriminate|vm_compute; discriminate].
    apply ep_at_same, (ep_at_has _ e3 j3), ep_at_comm_ready; [assumption|discriminate].
  - exact (open_ep_kind _ _ _ _ A4' K4).
  - destruct R as (? & ? & ? & ? & ? & ? & ? & ?). split; [exact A4'|].
    repeat (split; [assumption|]). destruct u; reflexivity.
Qed.

(** Choosing the configuration brings the serial port up: on an addressed,
    unconfigured device, the request walks the configuration descriptor to its
    end, allocates exactly the three endpoints it lists with 64-byte packets,
    gives the line coding its default, and starts the port with the transmit
    queue empty, the receive and transmit invariants established and a reception
    into the first buffer running. *)
Theorem set_configuration_enables {App} (rx_notify disconnect : M (Udd * (Cdc * (Udc * App))) unit) u c k a :
  usb_memory u -> udc_num_configuration u = 0 -> udd_getaddress u <> 0 ->
  wLength (req (udd_g_ctrlreq u)) = 0 -> wValue_low (udd_g_ctrlreq u) = 1 ->
  cdc_eps u -> cdc_buffers u ->
  free_ep UDI_CDC_COMM_EP_0 u -> free_ep UDI_CDC_DATA_EP_IN_0 u -> free_ep UDI_CDC_DATA_EP_OUT_0 u ->
  exists u' c' k' eo jo,
    udc_req_std_dev_set_configuration rx_notify disconnect (u, (c, (k, a))) = Some ((u', (c', (k', a))), true) /\
    udc_num_configuration u' = 1 /\
    open_ep UDI_CDC_COMM_EP_0 u' /\ open_ep UDI_CDC_DATA_EP_IN_0 u' /\ open_ep UDI_CDC_DATA_EP_OUT_0 u' /\
    ep_at UDI_CDC_DATA_EP_OUT_0 eo jo u' /\ busy jo = true /\ buf jo = B_cdc_rx false /\ buf_size jo = 64 /\
    tx_inv u' c' /\ tx_pending u' c' = [] /\ rx_inv u' c' /\ rx_waiting c' /\ data_running c' = true /\
    bDataBits u' = UDI_CDC_DEFAULT_DATABITS.
Proof.
  intros Hm Hn Ha Hl Hv Heps Hbuf F5 F3 F4.
  set (u1 := set_num_configuration 1 (set_mem B_device_status (le16 USB_DEV_STATUS_SELF_POWERED) (set_num_configuration 0 u))).
  assert (forall ep, free_ep ep u -> free_ep ep u1) as Hf.
  { intros ep (e & j & A & T). exists e, j. split; [do 3 apply ep_at_set_mem; exact A|exact T]. }
  assert (udc_num_configuration u1 = 1) as Hn1 by (destruct u; reflexivity).
  destruct (enable_ifaces_run rx_notify u1 c (mkUdc true (udc_ptr_iface k)) a) as (u' & c' & k' & eo & jo & E & E' & R); auto.
  1: destruct u, Hm; assumption.
  1: lia.
  1: destruct u; exact Heps.
  1: do 3 (apply cdc_buffers_set_mem; [discriminate..|]); exact Hbuf.
  exists u', c', k', eo, jo. rewrite Hn1 in E'. split; [|split; [exact E'|exact R]].
  unfold udc_req_std_dev_set_configuration. step_pure. step_pure. cbn [fst snd]. rewrite Hl, Hv.
  rewrite (proj2 (Z.eqb_neq _ 0) Ha), (mem_device _ Hm). cbn -[udc_reset enable_ifaces].
  eapply eq_trans; [eapply bind_step|].
  - unfold udc_reset. step_pure. step_pure. cbn [fst]. rewrite Hn. cbn [Z.eqb negb when]. step_pure. step_pure. reflexivity.
  - step_pure. step_pure. step_pure. cbn [fst snd put_udd modify]. fold u1.
    replace (mem _ B_conf_desc) with udc_desc_fs by (destruct u, Hm; symmetry; assumption).
    exact E.
Qed.

(** Before a configuration is chosen, requests that are not standard ones
    (the serial port's class requests among them) are refused, whatever their
    recipient, without touching the port or the device core. *)
Theorem unconfigured_refuses {App} (rx_notify disconnect : M (Udd * (Cdc * (Udc * App))) unit) serialNumber u s :
  udc_num_configuration u = 0 -> Udd_setup_type (udd_g_ctrlreq u) <> USB_REQ_TYPE_STANDARD ->
  udc_process_setup rx_notify disconnect serialNumber (u, s) = Some ((fresh_request u, s), false).
Proof.
  intros Hn Ht. unfold udc_process_setup. step_pure. unfold process_request. step_pure.
  unfold put_udd, modify. cbn [fst snd]. unfold process_decoded.
  assert (udc_num_configuration (fresh_request u) = 0) as Hn1 by (destruct u; exact Hn).
  assert (Udd_setup_type (udd_g_ctrlreq (fresh_request u)) <> USB_REQ_TYPE_STANDARD) as Ht1 by (destruct u; exact Ht).
  rewrite (proj2 (Z.eqb_neq _ _) Ht1). case_bool; [reflexivity|]. step_pure. cbn iota.
  eapply eq_trans; [eapply bind_step|].
  - instantiate (2 := (fresh_request u, s)). instantiate (1 := false). case_bool; [|reflexivity].
    unfold udc_req_iface. do 3 step_pure. cbn [fst]. rewrite Hn1. reflexivity.
  - cbn iota. case_bool; [|reflexivity]. unfold udc_req_ep. do 2 step_pure. cbn [fst]. rewrite Hn1. reflexivity.
Qed.

(** A host can make the driver access memory outside the endpoint table: the
    endpoint number of a standard status request is not checked (the driver's
    assertion is compiled out), so a number above the last endpoint reads past
    the table of six entries. *)
Theorem endpoint_status_unchecked {App} (rx_notify disconnect : M (Udd * (Cdc * (Udc * App))) unit) serialNumber u s index :
  length (ep_ctrl u) = 6%nat -> req (udd_g_ctrlreq u) = mkReq 130 USB_REQ_GET_STATUS 0 index 2 ->
  USB_DEVICE_MAX_EP < Z.land (Z.land index 255) USB_EP_ADDR_MASK ->
  udc_process_setup rx_notify disconnect serialNumber (u, s) = None.
Proof.
  intros Hl Hr Hi. unfold udc_process_setup. eapply eq_trans; [eapply bind_step; reflexivity|].
  unfold process_request. step_pure. unfold put_udd, modify. cbn [fst snd].
  assert (req (udd_g_ctrlreq (fresh_request u)) = mkReq 130 USB_REQ_GET_STATUS 0 index 2) as Hr1 by (destruct u; exact Hr).
  assert (lookupZ (ep_ctrl (fresh_request u)) (ep_index (wIndex_low (udd_g_ctrlreq (fresh_request u)))) = None) as Hout.
  { unfold lookupZ, ep_index, wIndex_low, USB_DEVICE_MAX_EP in *. rewrite Hr1. cbn [wIndex].
    destruct (0 <=? _); [|reflexivity]. apply lookup_ge_None_2.
    replace (ep_ctrl (fresh_request u)) with (ep_ctrl u) by (destruct u; reflexivity).
    rewrite Hl. destruct (ep_is_in _); lia. }
  assert (udc_req_std_ep_get_status (fresh_request u, s) = None) as Hh.
  { unfold udc_req_std_ep_get_status, get_req, udd_ep_is_halted, udd_ep_get_ctrl. run. rewrite Hr1. cbn [wLength Z.eqb Pos.eqb negb].
    cbn [fst snd]. rewrite Hout. reflexivity. }
  set (u1 := fresh_request u) in *. clearbody u1.
  unfold process_decoded, Udd_setup_is_in, Udd_setup_type, Udd_setup_recipient. rewrite Hr1.
  unfold udc_reqstd, get_req, udc_reqstd_in, Udd_setup_is_in, Udd_setup_recipient. run.
  change (_ && (wLength _ =? 0)) with false. cbn iota. change (_ =? USB_REQ_TYPE_STANDARD) with true. cbn iota. run.
  rewrite Hr1. cbn [bmRequestType bRequest wLength]. change (Z.land 130 USB_REQ_DIR_MASK) with 128. change (Z.land 130 USB_REQ_RECIP_MASK) with 2.
  cbn -[udc_req_std_ep_get_status]. rewrite Hh. reflexivity.
Qed.

(** ** Witnesses *)

(** An attached device: buffers, control endpoint, and a setup packet that asks
    for the configuration descriptor. *)
Definition attached_mem (setup : list Z) (b : Buf) : list Z :=
  match b with
  | B_ctrl => setup ++ repeat 0 56
  | B_device_desc => udc_device_desc
  | B_conf_desc => udc_desc_fs
  | B_string_languageid => udc_string_desc_languageid
  | B_string_desc => [0; USB_DT_STRING] ++ repeat 0 32
  | B_device_status | B_ep_status => [1; 0]
  | B_num_configuration | B_iface_setting => [0]
  | B_cdc_line_coding => repeat 0 7
  | _ => repeat 0 64
  end.

Definition attached_udd (setup : list Z) (addr : Z) (r : SetupReq) : Udd :=
  mkUdd (set_CNT 8 (idle_ep TYPE_CONTROL) :: idle_ep TYPE_CONTROL :: repeat (idle_ep TYPE_DISABLE) 4)
    (repeat idle_job 4) 5 addr true true false (fun _ => false) []
    (attached_mem setup) (mkCtrlReq r B_ctrl 0 None false) UDD_EPCTRL_SETUP 0 0 false.

Definition serial_number : list Z := str "GR15040301001001".
Definition app_serial (_ : unit) : list Z := serial_number.

Lemma attached_memory setup addr r : usb_memory (attached_udd setup addr r).
Proof. constructor; reflexivity. Defined.

Definition read_conf : list Z := [128; USB_REQ_GET_DESCRIPTOR; 0; USB_DT_CONFIGURATION; 0; 0; 255; 0].


Definition configure_req : SetupReq := mkReq 0 USB_REQ_SET_CONFIGURATION 1 0 0.

Lemma set_configuration_enables_witness :
  exists u' c' k', udc_req_std_dev_set_configuration (App := unit) (fun _ => None) (mret tt)
      (attached_udd [] 5 configure_req, (example_cdc, (mkUdc false 0, tt))) = Some ((u', (c', (k', tt))), true) /\
    udc_num_configuration u' = 1 /\ rx_waiting c' /\ data_running c' = true.
Proof.
  destruct (set_configuration_enables (App := unit) (fun _ => None) (mret tt) (attached_udd [] 5 configure_req) example_cdc
    (mkUdc false 0) tt) as (u' & c' & k' & eo & jo & E & Hn & _ & _ & _ & _ & _ & _ & _ & _ & _ & _ & Hw & Hr & _).
  - apply attached_memory.
  - reflexivity.
  - vm_compute. discriminate.
  - reflexivity.
  - reflexivity.
  - split; cbn; lia.
  - split; reflexivity.
  - eexists _, _. vm_compute. repeat split; discriminate.
  - eexists _, _. vm_compute. repeat split; discriminate.
  - eexists _, _. vm_compute. repeat split; discriminate.
  - exists u', c', k'. auto.
Defined.

Lemma unconfigured_refuses_witness :
  let u := attached_udd [] 5 (mkReq 161 USB_REQ_CDC_GET_LINE_CODING 0 0 7) in
  udc_process_setup (App := unit) (fun _ => None) (mret tt) app_serial (u, (example_cdc, (mkUdc false 0, tt)))
  = Some ((fresh_request u, (example_cdc, (mkUdc false 0, tt))), false).
Proof. apply unconfigured_refuses; [reflexivity|vm_compute; discriminate]. Defined.

Lemma endpoint_status_unchecked_witness :
  udc_process_setup (App := unit) (fun _ => None) (mret tt) app_serial
    (attached_udd [] 5 (mkReq 130 USB_REQ_GET_STATUS 0 143 2), (example_cdc, (mkUdc false 0, tt))) = None.
Proof. apply (endpoint_status_unchecked _ _ _ _ _ 143); [reflexivity|reflexivity|vm_compute; reflexivity]. Defined.
