(* ===== verification/Requests.v ===== *)
(** * Receiving requests (main.cpp)

    The application's receive callback accumulates the packets of a request in
    a buffer, parses its commands into a ring of fifteen requests, and turns a
    stop command into an emergency stop that counts the requests before it.
    [App] holds the global variables of main.cpp and the static variables of its
    functions; the peripherals are a type [P] that this file does not look at. *)

From Stdlib Require Import String.
From S2P Require Import Prelude Float32 Common Gcode Udd UdiCdc.

(** ** Data *)

Definition REQUEST_QUEUE_SIZE : Z := 15.
Definition EMERGENCY_STOP_NOW : Z := 1.
Definition NO_EMERGENCY_STOP : Z := 0.
Definition REQUEST_BUFFER_SIZE : Z := 512 + 1.
Definition UDI_CDC_COMM_EP_SIZE : Z := 64.

Record App {P : Type} := mkApp {
  requests : list Gcode; emergencyStopRequest : Z; waitTimerCounter : Z; inactivityCounter : Z;
  currentReceivingRequest : Z; lastCharacterOffset : Z; accumulatedBuffer : list Z;
  currentProcessingRequest : Z; currentCommandNumber : Z; responseBuffer : list Z;
  usb_irq : bool;      (* the interrupt level of the USB module is not off *)
  wait_irq : bool;     (* the overflow interrupt of the wait timer is not off *)
  periph : P
}.
Arguments App : clear implicits.
Arguments mkApp {P}.

Definition set_requests {P} (v : list Gcode) (a : App P) : App P :=
  let '(mkApp _ b c d e f g h i j k l m) := a in mkApp v b c d e f g h i j k l m.
Definition set_emergency {P} (v : Z) (a : App P) : App P :=
  let '(mkApp a _ c d e f g h i j k l m) := a in mkApp a v c d e f g h i j k l m.
Definition set_wait_counters {P} (w i : Z) (a : App P) : App P :=
  let '(mkApp a b _ _ e f g h i' j k l m) := a in mkApp a b w i e f g h i' j k l m.
Definition set_receiving {P} (v : Z) (a : App P) : App P :=
  let '(mkApp a b c d _ f g h i j k l m) := a in mkApp a b c d v f g h i j k l m.
Definition set_accumulated {P} (o : Z) (m' : list Z) (a : App P) : App P :=
  let '(mkApp a b c d e _ _ h i j k l m) := a in mkApp a b c d e o m' h i j k l m.
Definition set_processing {P} (v : Z) (a : App P) : App P :=
  let '(mkApp a b c d e f g _ i j k l m) := a in mkApp a b c d e f g v i j k l m.
Definition set_number {P} (v : Z) (a : App P) : App P :=
  let '(mkApp a b c d e f g h _ j k l m) := a in mkApp a b c d e f g h v j k l m.
Definition set_response {P} (v : list Z) (a : App P) : App P :=
  let '(mkApp a b c d e f g h i _ k l m) := a in mkApp a b c d e f g h i v k l m.
Definition set_usb_irq {P} (v : bool) (a : App P) : App P :=
  let '(mkApp a b c d e f g h i j _ l m) := a in mkApp a b c d e f g h i j v l m.
Definition set_wait_irq {P} (v : bool) (a : App P) : App P :=
  let '(mkApp a b c d e f g h i j k _ m) := a in mkApp a b c d e f g h i j k v m.
Definition set_periph {P} (v : P) (a : App P) : App P :=
  let '(mkApp a b c d e f g h i j k l _) := a in mkApp a b c d e f g h i j k l v.

(** ** Operations *)

Definition disableUsbInterrupts {P} (a : App P) : App P := set_usb_irq false a.
Definition enableUsbInterrupts {P} (a : App P) : App P := set_usb_irq true a.

(** The next index of the ring. *)
Definition next_request (i : Z) : Z := if i =? REQUEST_QUEUE_SIZE - 1 then 0 else i + 1.

(** An unconditional, conditional or emergency stop with a valid checksum if it
    has a number. *)
Definition is_stop (g : Gcode) : bool :=
  flag (commandParameters g) PARAMETER_M_OFFSET
  && ((valueM g =? 0) || (valueM g =? 1) || (valueM g =? 112))
  && (negb (flag (commandParameters g) PARAMETER_N_OFFSET) || flag (commandParameters g) VALID_CHECKSUM_OFFSET).

(** The loop that counts the requests. *)
Fixpoint count_parsed (emergency : Z) (rs : list Gcode) : Z :=
  match rs with
  | [] => emergency
  | r :: rs => count_parsed (if isParsed r then u8 (emergency + 1) else emergency) rs
  end.

(** What the callback does with one parsed command. *)
Definition dispatch {P} (g : Gcode) (a : App P) : option (App P) :=
  if is_stop g then
    Some (set_emergency (count_parsed EMERGENCY_STOP_NOW (requests a)) (disableUsbInterrupts a))
  else
    r ← requests a !! Z.to_nat (currentReceivingRequest a);
    if negb (isParsed r) then
      Some (set_receiving (next_request (currentReceivingRequest a))
        (set_requests (<[Z.to_nat (currentReceivingRequest a) := g]> (requests a)) a))
    else Some a.

Section Receive.
Context `{Build} {P : Type}.
(** What the stack holds where the local command is declared. *)
Context (stack : list Z -> Gcode).

(** The loop over the commands of a request, from a character on. *)
Fixpoint commands_loop (fuel : nat) (text : list Z) (a : App P) : option (App P) :=
  match fuel with
  | O => None
  | S fuel =>
      match text with
      | [] => Some a
      | _ :: _ =>
          g ← parseCommand text (stack text);
          a ← dispatch g a;
          match strchr text 10 with
          | None => Some a
          | Some k => commands_loop fuel (drop (S k) text) a
          end
      end
  end.

(** The part of the callback after the bytes were read. *)
Definition accumulate (data : list Z) (size : Z) (complete : bool) (a : App P) : option (App P) :=
  m ← blit (accumulatedBuffer a) (lastCharacterOffset a) data;
  let offset := u16 (lastCharacterOffset a + size) in
  if complete then
    m ← store m offset 0;
    commands_loop (S (length m)) (cstr m) (set_accumulated 0 m a)
  else Some (set_accumulated offset m a).

Definition get_app {Q} : M (Udd * (Cdc * Q)) Q := gets (fun s => snd (snd s)).

(** [UDI_CDC_RX_NOTIFY]; the callback is not called again while it reads. *)
Definition cdcRxNotifyCallback : M (Udd * (Cdc * App P)) unit :=
  c ← get_cdc; a ← get_app;
  let size := u8 (udi_cdc_multi_get_nb_received_data c) in
  let complete := negb (size =? UDI_CDC_COMM_EP_SIZE) in
  let size := if size >=? u16 (REQUEST_BUFFER_SIZE - lastCharacterOffset a)
              then u8 (REQUEST_BUFFER_SIZE - lastCharacterOffset a - 1) else size in
  r ← udi_cdc_multi_read_buf_and_ignore (fun _ => None) (fun _ => None) 1 size;
  a ← get_app;
  a ← of_option (accumulate (fst r) size complete a);
  modify (fun s => (fst s, (fst (snd s), a))).
End Receive.

(** [UDI_CDC_DISABLE_EXT] *)
Definition cdcDisconnectCallback {A} : M (Udd * A) unit :=
  _ ← on_fst udd_detach; on_fst udd_attach.

(** ** The ring as a queue *)

(** The list from an index on, around its end. *)
Definition rot {X} (p : nat) (l : list X) : list X := drop p l ++ take p l.

Lemma rot_length {X} p (l : list X) : length (rot p l) = length l.
Proof. unfold rot. rewrite length_app, length_drop, length_take. lia. Qed.

Lemma rot_insert {X} p k (x : X) l :
  (p < length l)%nat -> (k < length l)%nat ->
  rot p (<[((p + k) mod length l)%nat := x]> l) = <[k := x]> (rot p l).
Proof.
  intros Hp Hk. unfold rot. destruct (decide (p + k < length l)%nat) as [H|H].
  - rewrite Nat.mod_small by exact H.
    rewrite insert_app_l by (rewrite length_drop; lia).
    rewrite take_insert_ge, drop_insert_ge by lia. do 2 f_equal. lia.
  - assert ((p + k) mod length l = p + k - length l)%nat as ->.
    { symmetry. apply (Nat.mod_unique _ _ 1); lia. }
    rewrite drop_insert_lt, take_insert_lt by lia.
    rewrite insert_app_r_alt by (rewrite length_drop; lia).
    do 2 f_equal. rewrite length_drop. lia.
Qed.

Lemma rot_lookup {X} p k (l : list X) :
  (p < length l)%nat -> (k < length l)%nat -> l !! ((p + k) mod length l)%nat = rot p l !! k.
Proof.
  intros Hp Hk. unfold rot. destruct (decide (p + k < length l)%nat) as [H|H].
  - rewrite Nat.mod_small by exact H. rewrite lookup_app_l by (rewrite length_drop; lia).
    rewrite lookup_drop. reflexivity.
  - assert ((p + k) mod length l = p + k - length l)%nat as ->.
    { symmetry. apply (Nat.mod_unique _ _ 1); lia. }
    rewrite lookup_app_r by (rewrite length_drop; lia). rewrite length_drop, lookup_take_lt by lia. f_equal. lia.
Qed.

Lemma rot_next {X} p h t (l : list X) :
  (p < length l)%nat -> rot p l = h :: t -> rot ((p + 1) mod length l) l = t ++ [h].
Proof.
  intros Hp E.
  assert (l !! p = Some h) as Hh.
  { rewrite <- (Nat.mod_small p (length l) Hp). replace p with (p + 0)%nat at 1 by lia.
    rewrite rot_lookup by lia. rewrite E. reflexivity. }
  unfold rot in E. rewrite (drop_S l h p Hh) in E. injection E as <-.
  pose proof (take_S_r l p h Hh) as Ht. unfold rot. destruct (decide (p + 1 < length l)%nat) as [H|H].
  - rewrite Nat.mod_small, Nat.add_1_r, Ht by exact H. apply app_assoc.
  - replace (p + 1)%nat with (length l) by lia. rewrite Nat.Div0.mod_same, drop_0, app_nil_r.
    rewrite drop_ge by lia. cbn. rewrite <- Ht. symmetry. apply take_ge. lia.
Qed.

(** The ring holds the queue [q]: from the processing index on, the slots of [q]
    are parsed and the others are free, and the receiving index is behind [q]. *)
Record ring {P} (a : App P) (q : list Gcode) : Prop := {
  ring_len : length (requests a) = 15%nat;
  ring_proc : 0 <= currentProcessingRequest a < 15;
  ring_recv : currentReceivingRequest a = (currentProcessingRequest a + len q) mod 15;
  ring_slots : exists free, rot (Z.to_nat (currentProcessingRequest a)) (requests a) = q ++ free /\
    Forall (fun g => isParsed g = true) q /\ Forall (fun g => isParsed g = false) free
}.

Lemma ring_bound {P} (a : App P) q : ring a q -> len q <= 15.
Proof.
  intros [L _ _ (free & E & _)]. apply (f_equal length) in E. rewrite rot_length, length_app in E. lia.
Qed.

Lemma next_request_mod i : 0 <= i < 15 -> next_request i = (i + 1) mod 15.
Proof.
  intros H. unfold next_request, REQUEST_QUEUE_SIZE. destruct (Z.eqb_spec i (15 - 1)) as [->|]; [reflexivity|].
  rewrite Z.mod_small; lia.
Qed.

Lemma recv_nat {P} (a : App P) q : ring a q -> len q < 15 ->
  Z.to_nat (currentReceivingRequest a) = ((Z.to_nat (currentProcessingRequest a) + length q) mod length (requests a))%nat.
Proof.
  intros [L Hp -> _] Hq. rewrite L. change 15%nat with (Z.to_nat 15).
  rewrite <- (Nat2Z.id ((_ + _) mod Z.to_nat 15)). f_equal. rewrite Nat2Z.inj_mod, Nat2Z.inj_add, !Z2Nat.id by lia. reflexivity.
Qed.

(** The slot at the receiving index is free exactly when the queue is not full. *)
Lemma ring_slot {P} (a : App P) q : ring a q ->
  exists r, requests a !! Z.to_nat (currentReceivingRequest a) = Some r /\ isParsed r = (len q =? 15).
Proof.
  intros Hr. pose proof (ring_bound a q Hr) as Hb. destruct (Z.eqb_spec (len q) 15) as [E|N].
  - destruct Hr as [L Hp -> (free & Es & Fq & Ff)].
    replace ((currentProcessingRequest a + len q) mod 15) with (currentProcessingRequest a)
      by (rewrite E, <- (Z.mod_small (currentProcessingRequest a) 15) at 1 by lia; rewrite <- Z.add_mod_idemp_r by lia;
          rewrite Z.mod_same, Z.add_0_r by lia; reflexivity).
    destruct q as [|r q]; [cbn in E; lia|]. exists r. split; [|inversion Fq; assumption].
    pose proof (rot_lookup (Z.to_nat (currentProcessingRequest a)) 0 (requests a)) as R.
    rewrite Es, Nat.add_0_r, Nat.mod_small in R by lia. rewrite R by lia. reflexivity.
  - rewrite (recv_nat a q Hr) by lia. destruct Hr as [L Hp _ (free & Es & Fq & Ff)].
    rewrite rot_lookup by lia. rewrite Es, lookup_app_r, Nat.sub_diag by lia.
    destruct free as [|r free].
    { apply (f_equal length) in Es. rewrite rot_length, length_app in Es. cbn in Es. lia. }
    exists r. split; [reflexivity|inversion Ff; assumption].
Qed.

(** ** The abstract queue *)

(** The specification: a bounded queue, the emergency stop as the number of
    requests to discard, counted from the stop (none when no stop is pending),
    and whether further packets are taken. *)
Record Spec := mkSpec { pending : list Gcode; discard : option nat; listening : bool }.

Definition spec_dispatch (g : Gcode) (s : Spec) : Spec :=
  if is_stop g then mkSpec (pending s) (Some (length (pending s))) false
  else mkSpec (if (length (pending s) <? 15)%nat then pending s ++ [g] else pending s) (discard s) (listening s).

Definition emergency_of (d : option nat) : Z :=
  match d with None => NO_EMERGENCY_STOP | Some n => EMERGENCY_STOP_NOW + Z.of_nat n end.

Record implements {P} (a : App P) (s : Spec) : Prop := {
  impl_ring : ring a (pending s);
  impl_emergency : emergencyStopRequest a = emergency_of (discard s);
  impl_irq : usb_irq a = listening s
}.

(** The state without the request queue and the interrupt mask. *)
Definition rest {P} (a : App P) : Z * Z * (Z * list Z) * (Z * Z * list Z) * (bool * P) :=
  (waitTimerCounter a, inactivityCounter a, (lastCharacterOffset a, accumulatedBuffer a),
   (currentProcessingRequest a, currentCommandNumber a, responseBuffer a), (wait_irq a, periph a)).

Lemma count_parsed_spec e rs : 0 <= e -> e + len rs < 256 ->
  count_parsed e rs = e + len (List.filter isParsed rs).
Proof.
  revert e. induction rs as [|r rs IH]; intros e He Hl; cbn [count_parsed List.filter length] in *; [lia|].
  destruct (isParsed r); cbn [length]; rewrite IH; rewrite ?u8_id; lia.
Qed.

Lemma filter_parsed q : Forall (fun g => isParsed g = true) q -> List.filter isParsed q = q.
Proof. induction 1 as [|g q Hg _ IH]; cbn; [reflexivity|]. rewrite Hg, IH. reflexivity. Qed.

Lemma filter_free q : Forall (fun g => isParsed g = false) q -> List.filter isParsed q = [].
Proof. induction 1 as [|g q Hg _ IH]; cbn; [reflexivity|]. rewrite Hg, IH. reflexivity. Qed.

Lemma ring_count {P} (a : App P) q : ring a q ->
  count_parsed EMERGENCY_STOP_NOW (requests a) = EMERGENCY_STOP_NOW + len q.
Proof.
  intros [L Hp _ (free & Es & Fq & Ff)]. unfold EMERGENCY_STOP_NOW. rewrite count_parsed_spec by lia.
  rewrite <- (take_drop (Z.to_nat (currentProcessingRequest a)) (requests a)), List.filter_app, length_app, Nat.add_comm,
    <- length_app, <- List.filter_app.
  unfold rot in Es. rewrite Es, List.filter_app, (filter_parsed q Fq), (filter_free free Ff), app_nil_r. reflexivity.
Qed.

Lemma ring_enqueue {P} (a : App P) q g : ring a q -> len q < 15 -> isParsed g = true ->
  ring (set_receiving (next_request (currentReceivingRequest a))
         (set_requests (<[Z.to_nat (currentReceivingRequest a) := g]> (requests a)) a)) (q ++ [g]).
Proof.
  intros Hr Hq Hg. rewrite (recv_nat a q Hr Hq). destruct Hr as [L Hp Hv (free & Es & Fq & Ff)].
  assert (next_request (currentReceivingRequest a) = (currentProcessingRequest a + len (q ++ [g])) mod 15) as Hn.
  { rewrite next_request_mod by (rewrite Hv; apply Z.mod_pos_bound; lia).
    rewrite Hv, Z.add_mod_idemp_l, length_app by lia. f_equal. cbn. lia. }
  destruct free as [|r free].
  { apply (f_equal length) in Es. rewrite rot_length, length_app in Es. cbn in Es. lia. }
  assert (rot (Z.to_nat (currentProcessingRequest a))
    (<[((Z.to_nat (currentProcessingRequest a) + length q) mod length (requests a))%nat := g]> (requests a))
    = (q ++ [g]) ++ free) as Ei.
  { rewrite rot_insert by lia. rewrite Es, insert_app_r_alt, Nat.sub_diag, <- app_assoc by lia. reflexivity. }
  destruct a; constructor; cbn in *; [rewrite length_insert; exact L|exact Hp|exact Hn|].
  exists free. split; [exact Ei|]. split; [apply Forall_app; auto|inversion Ff; assumption].
Qed.

(** Every command that the callback handles is handled as specified. *)
Lemma dispatch_implements {P} (a : App P) s g :
  implements a s -> isParsed g = true ->
  exists a', dispatch g a = Some a' /\ implements a' (spec_dispatch g s) /\ rest a' = rest a.
Proof.
  intros [Hr He Hi] Hg. unfold dispatch, spec_dispatch. destruct (is_stop g).
  { eexists. split; [reflexivity|]. rewrite (ring_count a _ Hr). split; [|destruct a; reflexivity].
    destruct a, Hr; constructor; [constructor; assumption|reflexivity|reflexivity]. }
  destruct (ring_slot a _ Hr) as (r & Er & Pr). rewrite Er. bind_some. rewrite Pr.
  pose proof (ring_bound a _ Hr) as Hb.
  destruct (Z.eqb_spec (len (pending s)) 15) as [E|N]; cbn [negb];
    (eexists; split; [reflexivity|]; split; [|destruct a; reflexivity]).
  - rewrite (proj2 (Nat.ltb_ge _ _)) by lia. constructor; assumption.
  - rewrite (proj2 (Nat.ltb_lt _ _)) by lia.
    pose proof (ring_enqueue a (pending s) g Hr ltac:(lia) Hg) as Hr'.
    constructor; [exact Hr'|destruct a; exact He|destruct a; exact Hi].
Qed.

(** ** Splitting a request into commands *)

(** Whatever the stack holds, its fields are within their types. *)
Class StackValues (stack : list Z -> Gcode) : Prop := stack_wf : forall t, Gcode_wf (stack t).

(** The texts that the callback gives to the parser: the request, and what
    follows each newline, up to the end of the request. *)
Fixpoint texts_loop (fuel : nat) (text : list Z) : list (list Z) :=
  match fuel, text with
  | S fuel, _ :: _ =>
      text :: match strchr text 10 with None => [] | Some k => texts_loop fuel (drop (S k) text) end
  | _, _ => []
  end.
Definition command_texts (text : list Z) : list (list Z) := texts_loop (S (length text)) text.

(** No asterisk beyond the reach of the parser's checksum loop. *)
Definition near_asterisks (text : list Z) : Prop := forall i, text !! i = Some 42 -> (i < 256)%nat.

Lemma strchr_lookup s c k : strchr s c = Some k -> s !! k = Some c.
Proof.
  intros H. apply strchr_split in H. destruct H as (l & r & -> & <- & _).
  rewrite lookup_app_r, Nat.sub_diag by lia. reflexivity.
Qed.

Lemma near_parse `{Build} text g : Gcode_wf g -> near_asterisks text ->
  exists g', parseCommand text g = Some g' /\ isParsed g' = true /\ Gcode_wf g'.
Proof. intros Hw Hn. apply parseCommand_returns; [exact Hw|]. intros k Hk. apply Hn, strchr_lookup, Hk. Qed.

Lemma near_drop j text : near_asterisks text -> near_asterisks (drop j text).
Proof. intros Hn i Hi. rewrite lookup_drop in Hi. specialize (Hn _ Hi). lia. Qed.

Lemma commands_loop_implements `{Build} {P} stack `{!StackValues stack} fuel text (a : App P) s :
  (length text < fuel)%nat -> near_asterisks text -> implements a s ->
  exists a' gs, commands_loop stack fuel text a = Some a' /\
    Forall2 (fun t g => parseCommand t (stack t) = Some g) (texts_loop fuel text) gs /\ Forall Gcode_wf gs /\
    implements a' (fold_left (fun s g => spec_dispatch g s) gs s) /\ rest a' = rest a.
Proof.
  revert text a s. induction fuel as [|fuel IH]; intros text a s Hf Hn Hi; [lia|].
  destruct text as [|c text]; cbn [commands_loop texts_loop].
  { exists a, []. split; [reflexivity|]. split; [constructor|]. split; [constructor|]. split; [exact Hi|reflexivity]. }
  set (t := c :: text) in *.
  destruct (near_parse t (stack t) (stack_wf t) Hn) as (g & Eg & Pg & Wg). rewrite Eg. bind_some.
  destruct (dispatch_implements a s g Hi Pg) as (a1 & E1 & Hi1 & R1). rewrite E1. bind_some.
  destruct (strchr t 10) as [k|] eqn:Ek.
  - destruct (IH (drop (S k) t) a1 (spec_dispatch g s)) as (a2 & gs & E2 & F & W & Hi2 & R2);
      [rewrite length_drop; change (length t) with (S (length text)) in *; lia|apply near_drop, Hn|exact Hi1|].
    exists a2, (g :: gs). split; [exact E2|]. split; [constructor; assumption|].
    split; [constructor; assumption|]. split; [exact Hi2|congruence].
  - exists a1, [g]. split; [reflexivity|]. split; [repeat constructor; exact Eg|].
    split; [repeat constructor; apply Wg|]. split; [exact Hi1|exact R1].
Qed.

(** More fuel than characters makes no difference. *)
Lemma texts_loop_fuel fuel fuel' text :
  (length text < fuel)%nat -> (length text < fuel')%nat -> texts_loop fuel text = texts_loop fuel' text.
Proof.
  revert fuel' text. induction fuel as [|fuel IH]; intros [|fuel'] text H1 H2; [lia..|].
  cbn. destruct text as [|c text]; [reflexivity|]. f_equal.
  destruct (strchr (c :: text) 10) as [k|]; [|reflexivity].
  apply IH; rewrite length_drop; cbn in *; lia.
Qed.

(** ** Accumulating packets *)

(** The buffer of the callback and its use. *)
Record buffer_ok {P} (a : App P) : Prop := {
  buf_len : length (accumulatedBuffer a) = 513%nat;
  buf_offset : 0 <= lastCharacterOffset a <= 512
}.

(** The part of a request received so far. *)
Definition accumulated {P} (a : App P) : list Z :=
  take (Z.to_nat (lastCharacterOffset a)) (accumulatedBuffer a).

(** A request with a further packet, cut to the size of the buffer. *)
Definition extended {P} (a : App P) (d : list Z) : list Z := take 512 (accumulated a ++ d).

Lemma accumulated_length {P} (a : App P) : buffer_ok a -> len (accumulated a) = lastCharacterOffset a.
Proof. intros []. unfold accumulated. rewrite length_take. lia. Qed.

Lemma cstr_nul l t : cstr (l ++ 0 :: t) = cstr l.
Proof. induction l as [|c l IH]; cbn; [reflexivity|]. destruct (c =? 0); [reflexivity|]. rewrite IH. reflexivity. Qed.

Lemma cstr_prefix l : exists t, l = cstr l ++ t.
Proof.
  induction l as [|c l [t IH]]; [exists []; reflexivity|]. cbn. destruct (c =? 0); [eexists; reflexivity|].
  exists t. cbn. rewrite <- IH. reflexivity.
Qed.

Lemma cstr_length l : (length (cstr l) <= length l)%nat.
Proof. destruct (cstr_prefix l) as [t E]. apply (f_equal length) in E. rewrite length_app in E. lia. Qed.

Lemma near_prefix l t : near_asterisks (l ++ t) -> near_asterisks l.
Proof. intros H i Hi. apply H, lookup_app_l_Some, Hi. Qed.

(** The buffer after the bytes of a packet were copied to it. *)
Lemma blit_accumulated {P} (a : App P) d : buffer_ok a -> lastCharacterOffset a + len d <= 512 ->
  exists m, blit (accumulatedBuffer a) (lastCharacterOffset a) d = Some m /\ length m = 513%nat /\
    take (Z.to_nat (lastCharacterOffset a + len d)) m = accumulated a ++ d.
Proof.
  intros Hb Hl. pose proof (accumulated_length a Hb) as La. destruct Hb as [L Ho]. unfold blit.
  rewrite (proj2 (Z.leb_le 0 _)), (proj2 (Z.leb_le _ (len (accumulatedBuffer a)))) by lia. cbn [andb].
  fold (accumulated a). eexists. split; [reflexivity|].
  rewrite !length_app, length_drop. split; [lia|].
  rewrite app_assoc, take_app_le by (rewrite length_app; lia). apply take_ge. rewrite length_app. lia.
Qed.

Lemma store_terminator m o : (0 <= o < len m) ->
  exists m', store m o 0 = Some m' /\ length m' = length m /\ cstr m' = cstr (take (Z.to_nat o) m).
Proof.
  intros Ho. rewrite store_in by lia. eexists. split; [reflexivity|]. split; [apply length_insert|].
  rewrite insert_take_drop by lia. apply cstr_nul.
Qed.

Lemma implements_accumulated {P} (a : App P) s o m : implements a s -> implements (set_accumulated o m a) s.
Proof. intros [[L Hp Hv Hs] He Hi]. destruct a. constructor; [constructor|..]; assumption. Qed.

(** What the callback does with [d], the bytes of one packet. *)
Definition received {P} `{Build} (stack : list Z -> Gcode) (d : list Z) (a : App P) (s : Spec) (a' : App P) : Prop :=
  buffer_ok a' /\ exists gs,
    (if len d =? 64 then accumulated a' = extended a d /\ gs = []
     else accumulated a' = [] /\
          Forall2 (fun t g => parseCommand t (stack t) = Some g) (command_texts (cstr (extended a d))) gs) /\
    Forall Gcode_wf gs /\ implements a' (fold_left (fun s g => spec_dispatch g s) gs s) /\
    periph a' = periph a /\ responseBuffer a' = responseBuffer a /\
    currentCommandNumber a' = currentCommandNumber a /\ wait_irq a' = wait_irq a.

(** The callback on the bytes of a packet, apart from the port. *)
Definition receive `{Build} {P} (stack : list Z -> Gcode) (d : list Z) (a : App P) : option (App P) :=
  let size := Z.min (len d) (512 - lastCharacterOffset a) in
  accumulate stack (take (Z.to_nat size) d) size (negb (len d =? 64)) a.

Lemma accumulate_received `{Build} {P} stack `{!StackValues stack} (a : App P) s d :
  buffer_ok a -> implements a s -> near_asterisks (accumulated a ++ d) -> len d <= 64 ->
  exists a', receive stack d a = Some a' /\ received stack d a s a'.
Proof.
  intros Hb Hi Hn Hd. unfold receive. set (size := Z.min _ _). pose proof (accumulated_length a Hb) as La. pose proof (buf_offset a Hb) as Ho.
  set (d' := take (Z.to_nat size) d). assert (len d' = size) as Ld by (unfold d'; rewrite length_take; lia).
  assert (extended a d = accumulated a ++ d') as Ex.
  { unfold extended. rewrite take_app, take_ge by lia. f_equal. unfold d'. 
    destruct (Z.le_gt_cases (len d) (512 - lastCharacterOffset a)).
    - rewrite !take_ge by lia. reflexivity.
    - f_equal. lia. }
  destruct (blit_accumulated a d' Hb ltac:(lia)) as (m & Em & Lm & Tm). rewrite Ld in Tm.
  unfold accumulate. rewrite Em. bind_some. rewrite u16_id by lia.
  destruct (Z.eqb_spec (len d) 64) as [E|N]; cbn [negb].
  - eexists. split; [reflexivity|].
    assert (accumulated (set_accumulated (lastCharacterOffset a + size) m a) = extended a d) as Ea
      by (rewrite Ex; destruct a; exact Tm).
    split; [destruct a; constructor; cbn in *; lia|]. exists []. rewrite E, Z.eqb_refl.
    split; [split; [exact Ea|reflexivity]|]. split; [constructor|]. split; [apply implements_accumulated, Hi|].
    destruct a; auto.
  - destruct (store_terminator m (lastCharacterOffset a + size) ltac:(lia)) as (m' & Es & Ls & Cs).
    rewrite Es. bind_some. rewrite Cs, Tm, <- Ex.
    assert (near_asterisks (cstr (extended a d))) as Hnear.
    { destruct (cstr_prefix (extended a d)) as [t Et]. apply (near_prefix _ t). rewrite <- Et.
      apply (near_prefix _ (drop 512 (accumulated a ++ d))). unfold extended. rewrite take_drop. exact Hn. }
    assert (length (cstr (extended a d)) <= 513)%nat as Lc.
    { pose proof (cstr_length (extended a d)). unfold extended in *. rewrite length_take in *. lia. }
    destruct (commands_loop_implements stack (S (length m')) (cstr (extended a d)) (set_accumulated 0 m' a) s)
      as (a' & gs & El & F & W & Hi' & R); [lia|exact Hnear|apply implements_accumulated, Hi|].
    exists a'. split; [exact El|]. destruct a, a'; unfold rest in R; cbn in R; simplify_eq.
    split; [constructor; cbn in *; lia|]. exists gs. rewrite (proj2 (Z.eqb_neq (len d) 64) N). split; [split; [reflexivity|]|split; [exact W|auto 6]].
    unfold command_texts. rewrite (texts_loop_fuel _ (S (length m'))) by lia. exact F.
Qed.

(** The callback meets what the port asks of it. *)
Lemma notify_received `{Build} {P} stack `{!StackValues stack} u c (a : App P) s :
  rx_inv u c -> rx_trans_ongoing c = true -> rx_pos c < rx_buf_nb c (rx_buf_sel c) ->
  buffer_ok a -> implements a s -> near_asterisks (accumulated a ++ rx_unread u c) ->
  exists a', cdcRxNotifyCallback stack (u, (c, a)) = Some ((u, (rx_drained c, a')), tt) /\
    received stack (rx_unread u c) a s a'.
Proof.
  intros Hr Ho Hp Hb Hi Hn. pose proof (rx_unread_length u c Hr) as Lu.
  pose proof (rx_nb _ _ Hr (rx_buf_sel c)) as Hnb. pose proof (rx_pos_ok _ _ Hr) as Hpos. pose proof (buf_offset a Hb) as Hof.
  destruct (accumulate_received stack a s (rx_unread u c) Hb Hi Hn ltac:(lia)) as (a' & Ea & R).
  exists a'. split; [|exact R]. unfold cdcRxNotifyCallback. step_pure. step_pure. cbn [fst snd].
  unfold udi_cdc_multi_get_nb_received_data. rewrite <- Lu, u16_id, u8_id by lia.
  set (size := if _ >=? _ then _ else _).
  assert (size = Z.min (len (rx_unread u c)) (512 - lastCharacterOffset a)) as Es.
  { unfold size, REQUEST_BUFFER_SIZE. rewrite u16_id by lia. rewrite Z.geb_leb.
    destruct (Z.leb_spec (512 + 1 - lastCharacterOffset a) (len (rx_unread u c))); [rewrite u8_id by lia|]; lia. }
  step (read_and_ignore_all (App := App P) (fun _ => None) (fun _ => None) 0 size u c a Hr Ho Hp ltac:(lia)).
  step_pure. cbn [fst snd]. rewrite Es. unfold UDI_CDC_COMM_EP_SIZE.
  eapply eq_trans; [eapply bind_step; unfold of_option; unfold receive in Ea; rewrite Ea; reflexivity|]. reflexivity.
Qed.

(** A packet is accepted when the queue is well formed and no asterisk of the
    request is out of the parser's reach. *)
Definition accepts {P} (d : list Z) (a : App P) : Prop :=
  buffer_ok a /\ (exists s, implements a s) /\ near_asterisks (accumulated a ++ d).

#[export] Instance notify_client `{Build} {P} stack `{!StackValues stack} : RxClient (App := App P) accepts (cdcRxNotifyCallback stack).
Proof.
  intros u c a Hr Ho Hp (Hb & (s & Hi) & Hn).
  destruct (notify_received stack u c a s Hr Ho Hp Hb Hi Hn) as (a' & E & _). exists a'. exact E.
Qed.

(** ** Lines *)

(** A request made of lines. *)
Definition lines_text (ls : list (list Z)) : list Z := concat (map (fun l => l ++ [10]) ls).

Lemma lines_text_length l ls : length (lines_text (l :: ls)) = (length l + 1 + length (lines_text ls))%nat.
Proof. unfold lines_text. cbn. rewrite !length_app. cbn. lia. Qed.

Lemma texts_of_lines fuel ls : (length (lines_text ls) < fuel)%nat ->
  Forall (fun l => l <> [] /\ ~ In 10 l) ls -> Forall2 (fun l t => exists r, t = l ++ 10 :: r) ls (texts_loop fuel (lines_text ls)).
Proof.
  revert fuel. induction ls as [|l ls IH]; intros fuel Hf Hl; [destruct fuel; constructor|].
  inversion Hl as [|? ? [Hne Hn] Hl']; subst. destruct fuel as [|fuel]; [lia|].
  assert (lines_text (l :: ls) = l ++ 10 :: lines_text ls) as E by (unfold lines_text; cbn; rewrite <- app_assoc; reflexivity).
  cbn [texts_loop]. rewrite lines_text_length in Hf.
  destruct (lines_text (l :: ls)) as [|c t] eqn:Et; [destruct l; discriminate|]. constructor; [exists (lines_text ls); exact E|].
  rewrite E, strchr_app by exact Hn. rewrite drop_app_ge by lia.
  replace (S (length l) - length l)%nat with 1%nat by lia. apply IH; [lia|exact Hl'].
Qed.

(** The words of a line without a checksum, as the parser reads them. *)
Lemma parse_plain_words `{Build} ws lead g :
  ws <> [] -> Forall (fun w => word_ok w = true) ws -> List.NoDup (map word_index ws) ->
  Forall (fun c => isWhitespace c = true) lead -> ~ In 42 lead -> len lead + len (render ws) < 256 ->
  exists g', parseCommand (lead ++ render ws ++ [10]) g = Some g' /\
    (forall w, In w ws -> field g' (word_index w) = fst (convert (word_index w) (snd w))) /\
    (forall j, Z.testbit (commandParameters g') (Z.of_nat j) = existsb (Nat.eqb j) (map word_index ws)).
Proof.
  intros Hne Hok Hnd Hl Ha Hlen.
  pose proof (parseCommand_render ws lead [] [10] g Hne Hok Hnd Hl (Forall_nil _) eq_refl Hlen) as E. cbn [app] in E.
  rewrite E. unfold parse_checksum.
  replace (strchr _ 42) with (@None nat).
  2: { symmetry. apply strchr_None. intros Hin. apply in_drop in Hin.
       apply in_app_or in Hin. destruct Hin as [Hin|Hin]; [exact (Ha Hin)|].
       apply in_app_or in Hin. destruct Hin as [Hin|[Hin|[]]]; [|discriminate].
       destruct (render_extent ws Hne Hok) as [He _]. rewrite List.Forall_forall in He.
       specialize (He 42 Hin). discriminate. }
  eexists. split; [reflexivity|].
  destruct (put_words_spec ws (set_commandParameters 0 (set_isParsed true g)) Hok Hnd) as (_ & _ & Hf & _ & Hp).
  split; [exact Hf|]. intros j. rewrite Hp. cbn [commandParameters set_commandParameters].
  rewrite Z.testbit_0_l. reflexivity.
Qed.

(** ** Properties *)

(** C7. A received packet is handled as the queue's specification says: the port
    takes it, its bytes are appended to the request, at most 512 in all; a packet
    of 64 bytes only waits for more, and any other packet ends the request, whose
    commands are parsed in order and each is put at the end of the queue of at
    most fifteen requests (or dropped when the queue is full), except that a stop
    command records how many requests precede it and stops further packets. The
    ring's indices and slots keep representing that queue, and the port waits for
    the next packet. *)
Theorem packet_handled `{Build} {P} stack `{!StackValues stack} u c (a : App P) s n :
  rx_inv u c -> rx_waiting c -> 0 < n <= 64 -> buffer_ok a -> implements a s ->
  let d := take (Z.to_nat n) (mem u (B_cdc_rx (negb (rx_buf_sel c)))) in
  near_asterisks (accumulated a ++ d) ->
  exists u' c' a', udi_cdc_data_received (cdcRxNotifyCallback stack) true n (u, (c, a)) = Some ((u', (c', a')), tt) /\
    rx_waiting c' /\ received stack d a s a'.
Proof.
  intros Hr [Ho Hp] Hn Hb Hi d Hnear.
  destruct (rx_start_offers accepts (cdcRxNotifyCallback stack) u c a n Hr Hp ltac:(lia))
    as (u' & a1 & r & E & Hs & c1 & En & Eu & Hr1 & Ho1 & Hp1).
  { split; [exact Hb|]. split; [exists s; exact Hi|exact Hnear]. }
  destruct (notify_received stack u c1 a s Hr1 Ho1 Hp1 Hb Hi) as (a' & En' & R); [rewrite Eu; exact Hnear|].
  rewrite En in En'. injection En' as _ <-. rewrite Eu in R.
  exists u', (set_rx (upd_nb (rx_buf_nb c) (negb (rx_buf_sel c)) n) (negb (rx_buf_sel c)) n true c), a1. split; [|split].
  - unfold udi_cdc_data_received. cbn [negb]. step_pure. rewrite (proj2 (Z.eqb_neq n 0)) by lia.
    step_pure. step E. reflexivity.
  - destruct c as [d1 d2 d3 d4 d5 d6 d7 d8 d9 d10 d11 d12 d13 d14 d15]; unfold rx_waiting; cbn [set_rx rx_trans_ongoing rx_pos rx_buf_nb rx_buf_sel].
    rewrite upd_nb_eq. auto.
  - exact R.
Qed.

(** The commands of a request of lines are taken one per line, in order: when
    no line is empty, the parser is called once for each line, on a text that
    starts with it. *)
Theorem one_command_per_line ls :
  Forall (fun l => l <> [] /\ ~ In 10 l) ls ->
  Forall2 (fun l t => exists r, t = l ++ 10 :: r) ls (command_texts (lines_text ls)).
Proof. intros Hl. apply texts_of_lines; [lia|exact Hl]. Qed.

(** An empty line before a command makes the callback take the command twice:
    the parser skips the newline and reads the command, and the loop then goes on
    at the end of the empty line and reads the same command again. *)
Theorem blank_line_repeats_command `{Build} ws stack :
  ws <> [] -> Forall (fun w => word_ok w = true) ws -> List.NoDup (map word_index ws) -> 1 + len (render ws) < 256 ->
  exists g1 g2,
    Forall2 (fun t g => parseCommand t (stack t) = Some g) (command_texts (10 :: render ws ++ [10])) [g1; g2] /\
    commandParameters g1 = commandParameters g2 /\
    forall w, In w ws -> field g1 (word_index w) = fst (convert (word_index w) (snd w)) /\
                         field g2 (word_index w) = fst (convert (word_index w) (snd w)).
Proof.
  intros Hne Hok Hnd Hlen. set (t1 := 10 :: render ws ++ [10]). set (t2 := render ws ++ [10]).
  destruct (render_extent ws Hne Hok) as [He _].
  assert (~ In 10 (render ws)) as Hnl.
  { intros Hin. rewrite List.Forall_forall in He. specialize (He 10 Hin). discriminate. }
  destruct (parse_plain_words ws [10] (stack t1)) as (g1 & E1 & F1 & P1); try assumption;
    [apply List.Forall_cons; [reflexivity|apply List.Forall_nil]|intros [|[]]; discriminate|].
  destruct (parse_plain_words ws [] (stack t2)) as (g2 & E2 & F2 & P2); try assumption;
    [apply List.Forall_nil|intros []|cbn [length]; lia|].
  exists g1, g2. split; [|split; [|intros w Hw; split; [exact (F1 w Hw)|exact (F2 w Hw)]]].
  - assert (command_texts t1 = [t1; t2]) as ->.
    { assert (forall fuel, texts_loop (S fuel) t2 = [t2]) as T2.
      { intros fuel. cbn [texts_loop]. destruct t2 as [|c t] eqn:Et; [destruct (render ws); discriminate|]. rewrite <- Et.
        unfold t2. rewrite strchr_app by exact Hnl. rewrite drop_ge by (rewrite length_app; cbn; lia).
        destruct fuel; reflexivity. }
      exact (f_equal (cons t1) (T2 _)). }
    constructor; [exact E1|]. constructor; [exact E2|constructor].
  - apply Z.bits_inj'. intros j Hj. rewrite <- (Z2Nat.id j) by exact Hj. rewrite P1, P2. reflexivity.
Qed.

(** ** Witnesses *)

Definition example_stack : list Z -> Gcode := fun _ => empty_command.

#[export] Instance example_stack_values : StackValues example_stack.
Proof. intros t. vm_compute. intuition congruence. Defined.

(** The variables at the start, without peripherals. *)
Definition example_app : App unit :=
  mkApp (replicate 15 empty_command) 0 0 0 0 0 (replicate 513 0) 0 0 [] true true tt.

Lemma example_implements : implements example_app (mkSpec [] None true).
Proof.
  constructor; [|reflexivity|reflexivity].
  constructor; [reflexivity|vm_compute; intuition congruence|reflexivity|].
  exists (replicate 15 empty_command). split; [reflexivity|]. split; [constructor|apply Forall_replicate; reflexivity].
Defined.

(** The first buffer holds [M17] and a newline. *)
Definition packet_udd : Udd := set_mem (B_cdc_rx false) (str "M17" ++ [10] ++ repeat 0 60) example_udd.

Lemma packet_handled_witness :
  exists u' c' a', udi_cdc_data_received (cdcRxNotifyCallback (H := default_build) example_stack) true 4
      (packet_udd, (example_cdc, example_app)) = Some ((u', (c', a')), tt) /\
    rx_waiting c' /\
    received (H := default_build) example_stack (str "M17" ++ [10]) example_app (mkSpec [] None true) a'.
Proof.
  apply (packet_handled (H := default_build) example_stack packet_udd example_cdc example_app (mkSpec [] None true) 4).
  - constructor; [split; cbn; lia|intros []; reflexivity|intros []; vm_compute; split; congruence|vm_compute; split; congruence].
  - vm_compute. auto.
  - lia.
  - constructor; [reflexivity|vm_compute; split; congruence].
  - exact example_implements.
  - intros i Hi. change (([77; 49; 55; 10] : list Z) !! i = Some 42) in Hi.
    apply lookup_lt_Some in Hi. cbn in Hi. lia.
Defined.

Lemma one_command_per_line_witness :
  Forall2 (fun l t => exists r, t = l ++ 10 :: r) [str "M17"; str "G28"] (command_texts (str "M17" ++ [10] ++ str "G28" ++ [10])).
Proof.
  apply (one_command_per_line [str "M17"; str "G28"]).
  repeat (apply List.Forall_cons; [split; [discriminate|intros Hin; vm_compute in Hin; intuition discriminate]|]).
  apply List.Forall_nil.
Defined.

Lemma blank_line_repeats_command_witness :
  exists g1 g2,
    Forall2 (fun t g => parseCommand (H := default_build) t empty_command = Some g)
      (command_texts (10 :: str "G1 X5" ++ [10])) [g1; g2] /\ field g1 0 = VInt 1 /\ field g2 0 = VInt 1.
Proof.
  destruct (blank_line_repeats_command (H := default_build) [(71, str "1"); (88, str "5")] example_stack) as (g1 & g2 & F & _ & Hf).
  - discriminate.
  - forall_chars.
  - repeat constructor; vm_compute; intuition discriminate.
  - vm_compute. reflexivity.
  - exists g1, g2. split; [exact F|]. apply (Hf (71, str "1")). left. reflexivity.
Defined.
