(* ===== verification/MainLoop.v ===== *)
(** * Processing requests (main.cpp)

    One turn of the main loop: the check of the peripherals, the line-number
    protocol, the response and its number, and the end of a request or of an
    emergency stop. The commands themselves are behind the interface [Machine].
    The loop is cut where interrupts matter: the steps of the main program
    interleave with received packets and with the wait timer. *)

From Stdlib Require Import String.
From stdpp Require Import relations.
From S2P Require Import Prelude Float32 Common Gcode Udd UdiCdc Requests.

(** ** The interface to the peripherals *)

(** What the loop asks of the rest of the firmware: the check of accelerometer
    and heater with its error message, the M, G and T commands with their
    response (empty for a command that is not known), told whether an emergency
    stop occurred, the reset, and whether something is turned on, which the heater
    answers after a test of its connection. *)
Class Machine (P : Type) := {
  probe : P -> P * list Z;
  execute : bool -> Gcode -> P -> P * list Z;
  resetPeripherals : P -> P;
  peripheralsOn : P -> P * bool
}.

(** [RESPONSE_BUFFER_SIZE]: the longest response, a space, a number, and the
    terminator. *)
Definition firmware_details : list Z :=
  str "ok" ++ [10] ++ str "PROTOCOL:RepRap FIRMWARE_NAME:iMe FIRMWARE_VERSION:00.00.01.25 MACHINE_TYPE:Micro_3D EXTRUDER_COUNT:1 SERIAL_NUMBER:".
Definition EEPROM_SERIAL_NUMBER_LENGTH : Z := 16.
Definition RESPONSE_BUFFER_SIZE : Z :=
  len firmware_details + EEPROM_SERIAL_NUMBER_LENGTH + 1 + INT_BUFFER_SIZE - 1 + 1.

(** Responses are C strings that leave room for a number and a newline; the
    response to a command is not the word for a skipped one. *)
Definition RESPONSE_MAX : Z := len firmware_details + EEPROM_SERIAL_NUMBER_LENGTH.
Definition response_ok (r : list Z) : Prop := Forall (fun c => c <> 0) r /\ len r <= RESPONSE_MAX.

Class MachineLaws (P : Type) `{Machine P} : Prop := {
  probe_ok : forall p, response_ok (snd (probe p));
  execute_ok : forall e g p, response_ok (snd (execute e g p)) /\ deref (snd (execute e g p)) <> 115
}.

(** ** Strings in the response buffer *)

Definition strcpy (buf s : list Z) : option (list Z) := blit buf 0 (s ++ [0]).
Definition strcat (buf s : list Z) : option (list Z) := blit buf (len (cstr buf)) (s ++ [0]).
Definition starts_with (s buf : list Z) : bool := bool_decide (take (length s) (cstr buf) = s).
Definition response_set (buf : list Z) : bool := negb (deref (cstr buf) =? 0).

(** ** The line-number protocol *)

Definition UINT64_MAX : Z := 18446744073709551615.

(** The new command number and the response, empty if the command is to be run. *)
Definition check_number (g : Gcode) (current : Z) : Z * list Z :=
  if flag (commandParameters g) PARAMETER_N_OFFSET then
    if negb (flag (commandParameters g) VALID_CHECKSUM_OFFSET) then (current, str "rs")
    else if flag (commandParameters g) PARAMETER_M_OFFSET && (valueM g =? 110) then (valueN g, [])
    else if current =? UINT64_MAX then (current, str "Error: Max command number exceeded")
    else if valueN g <? current then (current, str "skip")
    else if valueN g >? current then (current, str "rs")
    else (current, [])
  else (current, []).

(** Insert the number behind the first word of the response. *)
Definition append_number (number : Z) (buf : list Z) : option (list Z) :=
  let endOfResponse := if deref buf =? 115 then 4 else 2 in
  numberBuffer ← ulltoa number (repeat 0 (Z.to_nat INT_BUFFER_SIZE));
  let n := cstr numberBuffer in
  buf ← memmove buf (endOfResponse + 1 + len n) endOfResponse (len (cstr buf) - 1);
  buf ← store buf endOfResponse 32;
  blit buf (endOfResponse + 1) n.

Definition set_or_keep (buf r : list Z) : option (list Z) :=
  match r with [] => Some buf | _ :: _ => strcpy buf r end.

Section Loop.
Context {P : Type} `{Machine P}.

(** The number part, the command part and the number insertion. *)
Definition run_command (stopped : bool) (g : Gcode) (current : Z) (buf : list Z) (p : P)
    : option (Z * list Z * P) :=
  buf ← store buf 0 0;
  let '(current, r) := check_number g current in
  buf ← set_or_keep buf r;
  '(p, buf) ← (if response_set buf then Some (p, buf)
               else let '(p', r) := execute stopped g p in buf ← set_or_keep buf r; Some (p', buf));
  '(current, buf) ←
    (if flag (commandParameters g) PARAMETER_N_OFFSET
        && (starts_with (str "ok") buf || starts_with (str "rs") buf || starts_with (str "skip") buf) then
       let current := if starts_with (str "ok") buf then u64 (current + 1) else current in
       buf ← append_number (if deref buf =? 114 then current else valueN g) buf;
       Some (current, buf)
     else Some (current, buf));
  buf ← (if response_set buf then Some buf else strcpy buf (str "Error: Unknown G-code command"));
  Some (current, buf, p).

(** The response to a request, with its newline. *)
Definition respond (stopped : bool) (g : Gcode) (a : App P) : option (App P) :=
  let '(p, r) := probe (periph a) in
  '(current, buf, p) ←
    (match r with
     | [] => run_command stopped g (currentCommandNumber a) (responseBuffer a) p
     | _ :: _ => buf ← strcpy (responseBuffer a) r; Some (currentCommandNumber a, buf, p)
     end);
  buf ← strcat buf [10];
  Some (set_number current (set_response buf (set_periph p a))).

(** ** The loop *)

(** Where the main program is: at the test of the loop, before a command is run,
    before its response is sent, and before the request is cleared. *)
Inductive Phase := Idle | Run | Respond | Finish.

#[global] Instance Phase_eq_dec : EqDecision Phase.
Proof. solve_decision. Defined.

(** The system: the variables, the phase, and what was given to [sendDataToUsb]
    (a message that is sent only if there is room is marked). *)
Record Sys := mkSys { app : App P; phase : Phase; sent : list (list Z * bool) }.

Definition disableSendingWaitResponses (a : App P) : App P := set_wait_irq false a.
Definition enableSendingWaitResponses (a : App P) : App P := set_wait_irq true (set_wait_counters 0 0 a).

Definition current_request (a : App P) : option Gcode := requests a !! Z.to_nat (currentProcessingRequest a).

(** The end of a turn: the request is cleared, or the pending stop gets nearer. *)
Definition finish_request (g : Gcode) (a : App P) : App P :=
  let a := disableUsbInterrupts a in
  let a := set_requests (<[Z.to_nat (currentProcessingRequest a) := set_isParsed false g]> (requests a)) a in
  let a := if emergencyStopRequest a =? NO_EMERGENCY_STOP then enableUsbInterrupts a
           else set_emergency (u8 (emergencyStopRequest a - 1)) a in
  let a := set_processing (next_request (currentProcessingRequest a)) a in
  enableSendingWaitResponses a.

Definition emergency_stop (a : App P) : App P :=
  enableUsbInterrupts (set_emergency NO_EMERGENCY_STOP (set_periph (resetPeripherals (periph a)) a)).

Definition main_step (s : Sys) : option Sys :=
  let a := app s in
  g ← current_request a;
  match phase s with
  | Idle =>
      if isParsed g || (emergencyStopRequest a =? EMERGENCY_STOP_NOW) then
        let a := disableSendingWaitResponses a in
        if negb (emergencyStopRequest a =? EMERGENCY_STOP_NOW) then
          Some (mkSys a (if emergencyStopRequest a =? NO_EMERGENCY_STOP then Run else Finish) (sent s))
        else
          Some (mkSys (enableSendingWaitResponses (emergency_stop a)) Idle (sent s ++ [(str "ok" ++ [10], false)]))
      else Some s
  | Run =>
      a ← respond (negb (emergencyStopRequest a =? NO_EMERGENCY_STOP)) g a;
      Some (mkSys a Respond (sent s))
  | Respond =>
      Some (mkSys a Finish
        (if emergencyStopRequest a =? NO_EMERGENCY_STOP then sent s ++ [(cstr (responseBuffer a), false)] else sent s))
  | Finish => Some (mkSys (finish_request g a) Idle (sent s))
  end.

(** [sysclk_get_cpu_hz()]: the internal oscillator at 48 MHz, divided by two. *)
Definition cpu_hz : Z := 48000000 / 2.
Definition WAIT_TIMER_PERIOD : Z := 8333.
Definition INACTIVITY_TIMEOUT_SECONDS : Z := 10 * 60.

Definition wait_timer (s : Sys) : Sys :=
  let a := app s in
  let w := u8 (waitTimerCounter a + 1) in
  if w >=? cpu_hz / 64 / WAIT_TIMER_PERIOD then
    let out := sent s ++ [(str "wait" ++ [10], true)] in
    let '(p, on) := peripheralsOn (periph a) in
    let a := set_periph p a in
    if on then
      let i := u16 (inactivityCounter a + 1) in
      if i >=? INACTIVITY_TIMEOUT_SECONDS then
        mkSys (set_periph (resetPeripherals (periph a)) (set_wait_counters 0 0 a)) (phase s)
          (out ++ [(str "Peripherals automatically turned off" ++ [10], true)])
      else mkSys (set_wait_counters 0 i a) (phase s) out
    else mkSys (set_wait_counters 0 0 a) (phase s) out
  else mkSys (set_wait_counters w (inactivityCounter a) a) (phase s) (sent s).
End Loop.
Arguments Sys : clear implicits.
Arguments mkSys {P}.

(** ** The response buffer *)

(** The buffer holds the string [t]. *)
Definition holds (t buf : list Z) : Prop :=
  Forall (fun c => c <> 0) t /\ exists junk, buf = t ++ 0 :: junk.

Lemma holds_cstr t buf : holds t buf -> cstr buf = t.
Proof. intros [Ht [junk ->]]. apply cstr_app_nul, Ht. Qed.

Lemma holds_length t buf : holds t buf -> len t < len buf.
Proof. intros [_ [junk ->]]. rewrite length_app. cbn. lia. Qed.

Lemma strcpy_holds buf r : Forall (fun c => c <> 0) r -> len r < len buf ->
  exists buf', strcpy buf r = Some buf' /\ holds r buf' /\ length buf' = length buf.
Proof.
  intros Hr Hl. unfold strcpy, blit. rewrite length_app. cbn [length].
  rewrite (proj2 (Z.leb_le 0 0)), (proj2 (Z.leb_le _ (len buf))) by lia. cbn [andb]. change (Z.to_nat 0) with 0%nat. rewrite take_0. cbn [app].
  eexists. split; [reflexivity|]. split.
  - split; [exact Hr|]. rewrite <- app_assoc. eexists. reflexivity.
  - rewrite !length_app, length_drop. cbn [length Nat.add]. lia.
Qed.

Lemma strcat_holds t buf r : holds t buf -> Forall (fun c => c <> 0) r -> len t + len r < len buf ->
  exists buf', strcat buf r = Some buf' /\ holds (t ++ r) buf' /\ length buf' = length buf.
Proof.
  intros Ht Hr Hl. unfold strcat. rewrite (holds_cstr t buf Ht). destruct Ht as [Ht [junk ->]]. unfold blit.
  assert (Z.of_nat (length (t ++ 0 :: junk)) = len t + 1 + len junk) as Lb by (rewrite length_app; cbn [length]; lia).
  assert (Z.of_nat (length (r ++ [0])) = len r + 1) as Lr by (rewrite length_app; cbn [length]; lia).
  rewrite (proj2 (Z.leb_le 0 (len t))), (proj2 (Z.leb_le _ _)) by lia. cbn [andb].
  rewrite Nat2Z.id, take_app_length. eexists. split; [reflexivity|]. split.
  - split; [apply Forall_app; auto|]. eexists. rewrite <- !app_assoc. reflexivity.
  - rewrite !length_app, length_drop. rewrite !length_app in *. cbn [length] in *. lia.
Qed.

Lemma digits_nonzero v : 0 <= v -> Forall (fun c => c <> 0) (digits v).
Proof.
  intros Hv. eapply Forall_impl; [|exact (digits_digit v Hv)]. intros c Hc ->. discriminate.
Qed.

Lemma insert_at {X} (l r : list X) x y : <[length l := x]> (l ++ y :: r) = l ++ x :: r.
Proof. rewrite insert_app_r_alt, Nat.sub_diag by lia. reflexivity. Qed.

Lemma blit_at (l m r d : list Z) : length m = length d -> blit (l ++ m ++ r) (len l) d = Some (l ++ d ++ r).
Proof.
  intros Hl. unfold blit. rewrite !length_app.
  rewrite (proj2 (Z.leb_le 0 _)), (proj2 (Z.leb_le _ (Z.of_nat (_ + _)))) by lia. cbn [andb].
  rewrite Nat2Z.id, take_app_length, drop_app_ge by lia.
  replace (length l + length d - length l)%nat with (length m) by lia. rewrite drop_app_length. reflexivity.
Qed.

(** Inserting a number behind the first [e] characters. *)
Lemma insert_number_holds t e n buf :
  holds t buf -> 2 <= e <= len t -> Forall (fun c => c <> 0) n -> e + len n + len t <= len buf ->
  exists buf1 buf2 buf3, memmove buf (e + 1 + len n) e (len t - 1) = Some buf1 /\
    store buf1 e 32 = Some buf2 /\ blit buf2 (e + 1) n = Some buf3 /\
    holds (take (Z.to_nat e) t ++ 32 :: n ++ drop (Z.to_nat e) t) buf3 /\ length buf3 = length buf.
Proof.
  intros [Ht [junk ->]] He Hn Hl. rewrite length_app in Hl. cbn [length] in Hl.
  set (buf := t ++ 0 :: junk). assert (length buf = length t + S (length junk))%nat as Lb by (unfold buf; rewrite length_app; reflexivity).
  set (E := Z.to_nat e). set (h := take E t). assert (length h = E) as Lh by (unfold h; rewrite length_take; lia).
  assert (exists m mid, take (E + (1 + length n)) buf = h ++ m :: mid /\ length mid = length n) as (m & mid & Em & Lm).
  { destruct (take (1 + length n) (drop E buf)) as [|m mid] eqn:D.
    - apply (f_equal length) in D. rewrite length_take, length_drop in D. cbn [length] in D. lia.
    - exists m, mid. split; [rewrite <- take_take_drop, D; unfold buf; rewrite take_app_le by lia; reflexivity|].
      apply (f_equal length) in D. rewrite length_take, length_drop in D. cbn [length] in D. lia. }
  assert (exists r, take (Z.to_nat (len t - 1)) (drop E buf) = drop E t ++ 0 :: r) as [r Er].
  { unfold buf. rewrite drop_app_le by lia. rewrite take_app_ge by (rewrite length_drop; lia). rewrite length_drop.
    destruct (Z.to_nat (len t - 1) - (length t - E))%nat eqn:K; [lia|]. eexists. reflexivity. }
  assert (exists tl, memmove buf (e + 1 + len n) e (len t - 1) = Some (h ++ m :: mid ++ drop E t ++ 0 :: r ++ tl) /\
    length (h ++ m :: mid ++ drop E t ++ 0 :: r ++ tl) = length buf) as (tl & Emm & L1).
  { rewrite memmove_in by lia. replace (Z.to_nat (e + 1 + len n)) with (E + (1 + length n))%nat by lia. fold E.
    rewrite Em, Er, <- !app_assoc. eexists. split; [reflexivity|].
    pose proof (f_equal length Er) as Lr. rewrite length_take, !length_drop, length_app, length_drop in Lr. cbn [length] in Lr.
    rewrite length_app. cbn [length]. rewrite length_app, length_app. cbn [length]. rewrite length_app, !length_drop. lia. }
  assert (store (h ++ m :: mid ++ drop E t ++ 0 :: r ++ tl) e 32 = Some ((h ++ [32]) ++ mid ++ drop E t ++ 0 :: r ++ tl)) as Es.
  { rewrite store_in by lia. fold E. rewrite <- Lh at 1. rewrite insert_at, <- app_assoc. reflexivity. }
  eexists _, _, _. split; [exact Emm|]. split; [exact Es|].
  replace (e + 1) with (len (h ++ [32])) by (rewrite length_app; cbn [length]; lia).
  rewrite blit_at by exact Lm. split; [reflexivity|]. split.
  - split; [|exists (r ++ tl); rewrite <- !app_assoc; f_equal; exact (f_equal (cons 32) (app_assoc _ _ _))].
    apply Forall_app. split; [apply Forall_take, Ht|]. constructor; [discriminate|].
    apply Forall_app. split; [exact Hn|apply Forall_drop, Ht].
  - rewrite <- L1. repeat (rewrite length_app; cbn [length]). lia.
Qed.

(** ** The response as text *)

Definition prefix (s t : list Z) : bool := bool_decide (take (length s) t = s).

Definition number_into (t : list Z) (number : Z) : list Z :=
  let e := if deref t =? 115 then 4%nat else 2%nat in take e t ++ 32 :: digits number ++ drop e t.

(** The reply to a command as a string, without the buffer: the specification of
    [run_command]. *)
Definition reply {P} `{Machine P} (stopped : bool) (g : Gcode) (current : Z) (p : P) : Z * list Z * P :=
  let '(c, r) := check_number g current in
  let '(p, t) := match r with [] => execute stopped g p | _ :: _ => (p, r) end in
  let '(c, t) :=
    if flag (commandParameters g) PARAMETER_N_OFFSET
       && (prefix (str "ok") t || prefix (str "rs") t || prefix (str "skip") t) then
      let c := if prefix (str "ok") t then u64 (c + 1) else c in
      (c, number_into t (if deref t =? 114 then c else valueN g))
    else (c, t) in
  (c, match t with [] => str "Error: Unknown G-code command" | _ :: _ => t end, p).

(** A response that the number insertion can take. *)
Definition numberable (t : list Z) : Prop := response_ok t /\ (deref t <> 115 \/ t = str "skip").

Lemma deref_holds t buf : holds t buf -> deref buf = deref t.
Proof. intros [_ [junk ->]]. destruct t; reflexivity. Qed.

Lemma response_set_holds t buf : holds t buf -> response_set buf = match t with [] => false | _ :: _ => true end.
Proof.
  intros Hh. unfold response_set. rewrite (holds_cstr _ _ Hh). destruct Hh as [Ht _].
  destruct t as [|c t]; [reflexivity|]. cbn. inversion Ht; subst. apply negb_true_iff, Z.eqb_neq. assumption.
Qed.

Lemma prefix_length s t : prefix s t = true -> (length s <= length t)%nat.
Proof.
  intros E. apply bool_decide_eq_true in E. apply (f_equal length) in E. rewrite length_take in E. lia.
Qed.

Lemma append_number_holds t buf number :
  holds t buf -> numberable t -> prefix (str "ok") t || prefix (str "rs") t || prefix (str "skip") t = true ->
  0 <= number < two64 -> len buf = RESPONSE_BUFFER_SIZE ->
  exists buf', append_number number buf = Some buf' /\ holds (number_into t number) buf' /\
    length buf' = length buf /\ len (number_into t number) + 1 < len buf.
Proof.
  intros Hh [[Hnz Hmax] Hs] Hp Hn Hb. unfold append_number. rewrite (deref_holds t buf Hh), (holds_cstr t buf Hh).
  destruct (ulltoa_buffer number (repeat 0 (Z.to_nat INT_BUFFER_SIZE)) Hn) as (junk & E & _);
    [rewrite repeat_length; vm_compute; discriminate|].
  rewrite E. bind_some. rewrite cstr_app_nul by (apply digits_nonzero; lia).
  pose proof (digits_length number) as Hd. unfold RESPONSE_BUFFER_SIZE, RESPONSE_MAX in *. change INT_BUFFER_SIZE with 22 in *.
  set (e := if deref t =? 115 then 4 else 2).
  assert (2 <= e <= len t /\ e + len t <= 2 + Z.max (len t) 6) as [He Hel].
  { unfold e. destruct (Z.eqb_spec (deref t) 115) as [E5|N5].
    - destruct Hs as [?| ->]; [contradiction|cbn; lia].
    - destruct (prefix (str "ok") t) eqn:P1; [apply prefix_length in P1; cbn in P1; lia|].
      destruct (prefix (str "rs") t) eqn:P2; [apply prefix_length in P2; cbn in P2; lia|].
      apply prefix_length in Hp. cbn in Hp. lia. }
  assert (len firmware_details = 119) as Lf by (vm_compute; reflexivity).
  destruct (insert_number_holds t e (digits number) buf Hh He (digits_nonzero number ltac:(lia)))
    as (b1 & b2 & b3 & E1 & E2 & E3 & H3 & L3); [unfold EEPROM_SERIAL_NUMBER_LENGTH in *; lia|].
  rewrite E1. bind_some. rewrite E2. bind_some. rewrite E3. exists b3.
  assert (number_into t number = take (Z.to_nat e) t ++ 32 :: digits number ++ drop (Z.to_nat e) t) as En
    by (unfold number_into, e; destruct (deref t =? 115); reflexivity).
  split; [reflexivity|]. rewrite En. split; [exact H3|]. split; [exact L3|].
  rewrite length_app. cbn [length]. rewrite length_app, length_take, length_drop.
  unfold EEPROM_SERIAL_NUMBER_LENGTH in *. lia.
Qed.

Lemma check_number_cases g current :
  let '(c, r) := check_number g current in
  numberable r /\ (0 <= valueN g < two64 -> 0 <= current < two64 -> 0 <= c < two64).
Proof.
  unfold check_number. repeat case_bool; (split; [|auto]);
    (split; [split; [repeat constructor; discriminate|vm_compute; discriminate]|]);
    first [left; discriminate|right; reflexivity].
Qed.

Lemma set_or_keep_holds t buf r : holds t buf -> response_ok r -> len buf = RESPONSE_BUFFER_SIZE ->
  exists buf', set_or_keep buf r = Some buf' /\ holds (match r with [] => t | _ :: _ => r end) buf' /\ length buf' = length buf.
Proof.
  intros Hh [Hnz Hmax] Hb. destruct r as [|c r]; [exists buf; auto|]. apply strcpy_holds; [exact Hnz|].
  rewrite Hb. unfold RESPONSE_BUFFER_SIZE, RESPONSE_MAX in *. change INT_BUFFER_SIZE with 22. lia.
Qed.

Lemma clear_holds buf : 0 < len buf -> exists buf', store buf 0 0 = Some buf' /\ holds [] buf' /\ length buf' = length buf.
Proof.
  intros Hb. rewrite store_in by lia. eexists. split; [reflexivity|]. split; [|apply length_insert].
  split; [constructor|]. destruct buf as [|b buf]; [cbn in Hb; lia|]. exists buf. reflexivity.
Qed.

(** The part of [run_command] before the number is inserted. *)
Lemma run_command_text {P} `{MachineLaws P} stopped g current buf (p : P) :
  len buf = RESPONSE_BUFFER_SIZE ->
  let '(c, r) := check_number g current in
  let '(p', t) := match r with [] => execute stopped g p | _ :: _ => (p, r) end in
  exists buf0 buf1 buf2, store buf 0 0 = Some buf0 /\ set_or_keep buf0 r = Some buf1 /\
    (if response_set buf1 then Some (p, buf1)
     else let '(p', r) := execute stopped g p in buf ← set_or_keep buf1 r; Some (p', buf)) = Some (p', buf2) /\
    holds t buf2 /\ length buf2 = length buf /\ numberable t.
Proof.
  intros Hb. assert (0 < RESPONSE_BUFFER_SIZE) as Hpos by (vm_compute; reflexivity).
  pose proof (check_number_cases g current) as Hc. destruct (check_number g current) as [c r]. destruct Hc as [Hr _].
  destruct (clear_holds buf ltac:(lia)) as (b0 & E0 & Hh0 & L0).
  destruct (set_or_keep_holds [] b0 r Hh0 (proj1 Hr) ltac:(congruence)) as (b1 & E1 & Hh1 & L1).
  destruct r as [|x r].
  - pose proof (execute_ok stopped g p) as [He Hne]. destruct (execute stopped g p) as [p' t]. cbn [snd] in *.
    destruct (set_or_keep_holds [] b1 t Hh1 He ltac:(congruence)) as (b2 & E2 & Hh2 & L2).
    exists b0, b1, b2. rewrite (response_set_holds _ _ Hh1), E2. split; [exact E0|]. split; [exact E1|]. split; [reflexivity|].
    split; [destruct t; exact Hh2|]. split; [congruence|]. split; [exact He|left; exact Hne].
  - exists b0, b1, b1. rewrite (response_set_holds _ _ Hh1). split; [exact E0|]. split; [exact E1|]. split; [reflexivity|].
    split; [exact Hh1|]. split; [congruence|exact Hr].
Qed.

(** [run_command] writes the reply that is specified, with room for a newline. *)
Lemma run_command_reply {P} `{MachineLaws P} stopped g current buf (p : P) :
  len buf = RESPONSE_BUFFER_SIZE -> 0 <= valueN g < two64 -> 0 <= current < two64 ->
  let '(c, t, p') := reply stopped g current p in
  exists buf', run_command stopped g current buf p = Some (c, buf', p') /\
    holds t buf' /\ length buf' = length buf /\ len t + 1 < len buf /\ 0 <= c < two64.
Proof.
  intros Hb Hv Hc. pose proof (run_command_text stopped g current buf p Hb) as R.
  pose proof (check_number_cases g current) as Hcn.
  unfold reply, run_command. destruct (check_number g current) as [c r]. destruct Hcn as [_ Hcr]. specialize (Hcr Hv Hc).
  destruct (match r with [] => _ | _ :: _ => _ end) as [p' t].
  destruct R as (b0 & b1 & b2 & E0 & E1 & E2 & Hh2 & L2 & Hnum).
  rewrite E0. bind_some. rewrite E1. bind_some. rewrite E2. bind_some.
  unfold starts_with. rewrite (holds_cstr _ _ Hh2). fold (prefix (str "ok") t). fold (prefix (str "rs") t). fold (prefix (str "skip") t).
  rewrite (deref_holds _ _ Hh2).
  destruct (flag (commandParameters g) PARAMETER_N_OFFSET && _) eqn:Hp.
  - apply andb_true_iff in Hp. destruct Hp as [_ Hp].
    set (c' := if prefix (str "ok") t then u64 (c + 1) else c).
    assert (0 <= c' < two64) as Hc' by (unfold c'; destruct (prefix _ _); [apply u64_range|exact Hcr]).
    destruct (append_number_holds t b2 (if deref t =? 114 then c' else valueN g) Hh2 Hnum Hp) as (b3 & E3 & Hh3 & L3 & Hl);
      [destruct (_ =? _); assumption|congruence|].
    rewrite E3. bind_some. rewrite (response_set_holds _ _ Hh3).
    assert (exists x y, number_into t (if deref t =? 114 then c' else valueN g) = x :: y) as (x & y & En).
    { unfold number_into. destruct (_ =? 115); destruct t as [|x t]; cbn; eauto. }
    rewrite En in *. exists b3. split; [reflexivity|]. split; [exact Hh3|]. split; [congruence|]. split; [lia|exact Hc'].
  - bind_some. rewrite (response_set_holds _ _ Hh2). destruct Hnum as [[Hnz Hmax] _].
    destruct t as [|x t].
    + destruct (strcpy_holds b2 (str "Error: Unknown G-code command")) as (b3 & E3 & Hh3 & L3);
        [repeat constructor; discriminate|rewrite L2, Hb; vm_compute; reflexivity|].
      rewrite E3. exists b3. split; [reflexivity|]. split; [exact Hh3|]. split; [congruence|].
      split; [rewrite Hb; vm_compute; reflexivity|exact Hcr].
    + exists b2. split; [reflexivity|]. split; [exact Hh2|]. split; [congruence|].
      split; [rewrite Hb; unfold RESPONSE_BUFFER_SIZE, RESPONSE_MAX in *; change INT_BUFFER_SIZE with 22; lia|exact Hcr].
Qed.

(** The reply to a request, with the check of the peripherals. *)
Definition full_reply {P} `{Machine P} (stopped : bool) (g : Gcode) (current : Z) (p : P) : Z * list Z * P :=
  let '(p, r) := probe p in
  match r with
  | [] => reply stopped g current p
  | _ :: _ => (current, r, p)
  end.

(** [respond] writes it, with a newline. *)
Lemma respond_reply {P} `{MachineLaws P} stopped g (a : App P) :
  len (responseBuffer a) = RESPONSE_BUFFER_SIZE -> 0 <= valueN g < two64 -> 0 <= currentCommandNumber a < two64 ->
  let '(c, t, p) := full_reply stopped g (currentCommandNumber a) (periph a) in
  exists buf, respond stopped g a = Some (set_number c (set_response buf (set_periph p a))) /\
    holds (t ++ [10]) buf /\ length buf = length (responseBuffer a) /\ 0 <= c < two64.
Proof.
  intros Hb Hv Hc. unfold full_reply, respond. pose proof (probe_ok (periph a)) as Hpr.
  destruct (probe (periph a)) as [p r]. cbn [snd] in Hpr.
  assert (Forall (fun c => c <> 0) [10]) as H10 by (repeat constructor; discriminate).
  destruct r as [|x r].
  - pose proof (run_command_reply stopped g (currentCommandNumber a) (responseBuffer a) p Hb Hv Hc) as R.
    destruct (reply stopped g (currentCommandNumber a) p) as [[c t] p']. destruct R as (b1 & E1 & Hh1 & L1 & Hr & Hc').
    rewrite E1. bind_some.
    destruct (strcat_holds t b1 [10] Hh1 H10) as (b2 & E2 & Hh2 & L2); [cbn [length]; lia|].
    rewrite E2. exists b2. split; [reflexivity|]. split; [exact Hh2|]. split; [congruence|exact Hc'].
  - destruct Hpr as [Hnz Hmax]. unfold RESPONSE_BUFFER_SIZE, RESPONSE_MAX in *. change INT_BUFFER_SIZE with 22 in *.
    destruct (strcpy_holds (responseBuffer a) (x :: r) Hnz ltac:(lia)) as (b1 & E1 & Hh1 & L1). rewrite E1. bind_some.
    destruct (strcat_holds (x :: r) b1 [10] Hh1 H10) as (b2 & E2 & Hh2 & L2); [cbn [length] in *; lia|].
    rewrite E2. exists b2. split; [reflexivity|]. split; [exact Hh2|]. split; [congruence|exact Hc].
Qed.

(** ** The interleaving of the main program with interrupts *)

Section Steps.
Context {P : Type} `{Build} `{MachineLaws P} (stack : list Z -> Gcode) `{!StackValues stack}.

(** A step of the main program, a packet while USB interrupts are enabled, or a
    turn of the wait timer while its interrupt is enabled. *)
Inductive step : Sys P -> Sys P -> Prop :=
| step_main s s' : main_step s = Some s' -> step s s'
| step_packet s d a' :
    usb_irq (app s) = true -> 0 < len d <= 64 -> near_asterisks (accumulated (app s) ++ d) ->
    receive stack d (app s) = Some a' -> step s (mkSys a' (phase s) (sent s))
| step_wait s : wait_irq (app s) = true -> step s (wait_timer s).

(** The invariant of the loop: the ring implements a queue; a stop is pending
    exactly when packets are not taken, and counts requests of the queue; while a
    request is processed it is the head of the queue and, if a stop is pending, it
    is one of the counted ones; buffers and numbers keep their sizes; and the wait
    timer runs only between requests. *)
Record sys_inv (s : Sys P) (q : Spec) : Prop := {
  inv_impl : implements (app s) q;
  inv_buffer : buffer_ok (app s);
  inv_response : len (responseBuffer (app s)) = RESPONSE_BUFFER_SIZE;
  inv_number : 0 <= currentCommandNumber (app s) < two64;
  inv_wf : Forall Gcode_wf (pending q);
  inv_discard : match discard q with None => True | Some n => (n <= length (pending q))%nat end;
  inv_listening : listening q = match discard q with None => true | Some _ => false end;
  inv_phase : phase s <> Idle -> pending q <> [] /\ discard q <> Some 0%nat;
  inv_wait : wait_irq (app s) = bool_decide (phase s = Idle)
}.

(** The head of the queue is at the processing index. *)
Lemma ring_head (a : App P) q : ring a q ->
  exists g, current_request a = Some g /\
    match q with [] => isParsed g = false | h :: _ => g = h /\ isParsed g = true end.
Proof.
  intros [L Hp _ (free & Es & Fq & Ff)]. unfold current_request.
  assert (requests a !! Z.to_nat (currentProcessingRequest a) = (q ++ free) !! 0%nat) as E.
  { rewrite <- Es, <- rot_lookup by lia. rewrite Nat.add_0_r, Nat.mod_small by lia. reflexivity. }
  rewrite E. destruct q as [|h q].
  - destruct free as [|g free]; [apply (f_equal length) in Es; rewrite rot_length in Es; cbn in Es; lia|].
    exists g. split; [reflexivity|]. inversion Ff; assumption.
  - exists h. split; [reflexivity|]. inversion Fq; auto.
Qed.

(** Clearing the head and going on to the next slot. *)
Lemma ring_pop (a a' : App P) h q : ring a (h :: q) ->
  requests a' = <[Z.to_nat (currentProcessingRequest a) := set_isParsed false h]> (requests a) ->
  currentProcessingRequest a' = next_request (currentProcessingRequest a) ->
  currentReceivingRequest a' = currentReceivingRequest a -> ring a' q.
Proof.
  intros [L Hp Hv (free & Es & Fq & Ff)] Er Ep Ev. inversion Fq as [|? ? _ Fq']; subst.
  rewrite next_request_mod in Ep by exact Hp.
  assert (rot (Z.to_nat (currentProcessingRequest a)) (requests a') = set_isParsed false h :: (q ++ free)) as Ei.
  { rewrite Er. pose proof (rot_insert (Z.to_nat (currentProcessingRequest a)) 0 (set_isParsed false h) (requests a)) as R.
    rewrite Nat.add_0_r, Nat.mod_small in R by lia. rewrite R by lia. rewrite Es. reflexivity. }
  assert (length (requests a') = 15%nat) as L' by (rewrite Er, length_insert; exact L).
  apply rot_next in Ei; [|lia]. rewrite L' in Ei.
  assert (Z.to_nat (currentProcessingRequest a') = ((Z.to_nat (currentProcessingRequest a) + 1) mod 15)%nat) as Ep'.
  { rewrite Ep. change 15%nat with (Z.to_nat 15). rewrite <- (Nat2Z.id (_ mod Z.to_nat 15)). f_equal.
    rewrite Nat2Z.inj_mod, Nat2Z.inj_add, !Z2Nat.id by lia. reflexivity. }
  constructor; [exact L'|rewrite Ep; apply Z.mod_pos_bound; lia| |].
  - rewrite Ev, Hv, Ep, Z.add_mod_idemp_l by lia. f_equal. cbn [length]. lia.
  - exists (free ++ [set_isParsed false h]). rewrite Ep', Ei, <- app_assoc. split; [reflexivity|].
    split; [exact Fq'|]. apply Forall_app. split; [exact Ff|]. repeat constructor.
Qed.

(** The variables that ending a request or a packet's commands leave alone. *)
Definition kept (a : App P) : Z * list Z * list Z * Z * P :=
  (lastCharacterOffset a, accumulatedBuffer a, responseBuffer a, currentCommandNumber a, periph a).

Lemma buffer_ok_kept (a a' : App P) : kept a' = kept a -> buffer_ok a -> buffer_ok a'.
Proof. intros [= E1 E2 _ _ _] []. constructor; congruence. Qed.

(** One request less, as specified. *)
Definition spec_finish (q : Spec) : Spec :=
  mkSpec (tail (pending q)) (match discard q with Some n => Some (pred n) | None => None end) (listening q).

Lemma discard_bound a q : implements (P := P) a q ->
  match discard q with None => True | Some n => (n <= length (pending q))%nat end ->
  match discard q with None => True | Some n => (n <= 15)%nat end.
Proof. intros Hi. pose proof (ring_bound a _ (impl_ring _ _ Hi)). destruct (discard q); lia. Qed.

Lemma finish_inv s q h t : sys_inv s q -> phase s = Finish -> pending q = h :: t ->
  sys_inv (mkSys (finish_request h (app s)) Idle (sent s)) (spec_finish q).
Proof.
  intros [Hi Hb Hr Hn Hw Hd Hl Hp Hwt] Eph Epd. destruct (Hp ltac:(congruence)) as [_ Hd0].
  pose proof (discard_bound _ _ Hi Hd) as Hd15. destruct Hi as [Hring He Hirq].
  assert (ring (finish_request h (app s)) t) as Hring'.
  { rewrite Epd in Hring. destruct s as [a ph out]. cbn [app] in *.
    apply (ring_pop a _ h t Hring); destruct a; unfold finish_request; cbn; destruct (_ =? _); reflexivity. }
  assert (emergencyStopRequest (finish_request h (app s)) = emergency_of (discard (spec_finish q)) /\
          usb_irq (finish_request h (app s)) = listening q) as [He' Hirq'].
  { destruct s as [a ph out]. destruct a. unfold finish_request, spec_finish. cbn in *. rewrite He, Hl.
    destruct (discard q) as [[|n]|]; [contradiction| |split; reflexivity].
    unfold emergency_of, EMERGENCY_STOP_NOW, NO_EMERGENCY_STOP in *. rewrite (proj2 (Z.eqb_neq (1 + Z.of_nat (S n)) 0)) by lia.
    cbn. split; [rewrite u8_id by lia; lia|reflexivity]. }
  assert (kept (finish_request h (app s)) = kept (app s)) as K
    by (destruct s as [a ph out], a; unfold finish_request; cbn; destruct (_ =? _); reflexivity).
  constructor.
  - unfold spec_finish. rewrite Epd. constructor; [exact Hring'|exact He'|exact Hirq'].
  - apply (buffer_ok_kept _ _ K Hb).
  - cbn [app]. injection K as _ _ -> _ _. exact Hr.
  - cbn [app]. injection K as _ _ _ -> _. exact Hn.
  - unfold spec_finish. cbn. rewrite Epd in *. inversion Hw; assumption.
  - unfold spec_finish. cbn. rewrite Epd in *. destruct (discard q) as [n|]; [|exact I]. cbn in *. lia.
  - unfold spec_finish. cbn. rewrite Hl. destruct (discard q); reflexivity.
  - intros E. contradiction E. reflexivity.
  - destruct s as [a ph out], a; unfold finish_request; cbn in *. destruct (_ =? _); reflexivity.
Qed.

(** The emergency stop, as specified: packets are taken again. *)
Definition spec_stop (q : Spec) : Spec := mkSpec (pending q) None true.

(** The invariant moves along with changes of the other variables. *)
Lemma sys_inv_kept s q s' : sys_inv s q -> kept (app s') = kept (app s) -> implements (app s') q ->
  (phase s' <> Idle -> pending q <> [] /\ discard q <> Some 0%nat) ->
  wait_irq (app s') = bool_decide (phase s' = Idle) -> sys_inv s' q.
Proof.
  intros [Hi Hb Hr Hn Hw Hd Hl Hp Hwt] K Hi' Hp' Hwt'. pose proof (buffer_ok_kept _ _ K Hb).
  injection K as _ _ K3 K4 _. constructor; try assumption; congruence.
Qed.

Lemma implements_other (a a' : App P) q : implements a q ->
  (requests a', currentProcessingRequest a', currentReceivingRequest a', emergencyStopRequest a', usb_irq a')
  = (requests a, currentProcessingRequest a, currentReceivingRequest a, emergencyStopRequest a, usb_irq a) ->
  implements a' q.
Proof.
  intros [[L Hp Hv Hs] He Hi] [= E1 E2 E3 E4 E5].
  constructor; [constructor; rewrite ?E1, ?E2, ?E3; assumption|congruence|congruence].
Qed.

(** At the test of the loop. *)
Lemma idle_step s q : sys_inv s q -> phase s = Idle ->
  exists s', main_step s = Some s' /\
    match discard q with
    | Some 0%nat => sys_inv s' (spec_stop q) /\ phase s' = Idle /\
        periph (app s') = resetPeripherals (periph (app s)) /\ sent s' = sent s ++ [(str "ok" ++ [10], false)]
    | d => sys_inv s' q /\ kept (app s') = kept (app s) /\ sent s' = sent s /\
        phase s' = match pending q with [] => Idle | _ :: _ => match d with None => Run | Some _ => Finish end end
    end.
Proof.
  intros Hinv Eph. destruct (ring_head _ _ (impl_ring _ _ (inv_impl _ _ Hinv))) as (g & Eg & Hg).
  unfold main_step. rewrite Eg, Eph. bind_some. pose proof Hinv as [Hi Hb Hr Hn Hw Hd Hl Hp Hwt].
  pose proof (discard_bound _ _ Hi Hd) as Hd15.
  assert (emergencyStopRequest (disableSendingWaitResponses (app s)) = emergencyStopRequest (app s)) as Ee
    by (destruct s as [a ph out], a; reflexivity).
  rewrite Ee, (impl_emergency _ _ Hi). destruct (discard q) as [[|n]|] eqn:Ed; unfold emergency_of, EMERGENCY_STOP_NOW, NO_EMERGENCY_STOP.
  - change (1 + Z.of_nat 0 =? 1) with true. rewrite orb_true_r. cbn [negb]. eexists. split; [reflexivity|].
    split; [|destruct s as [a ph out], a; auto].
    destruct s as [a ph out], a, Hi as [[L Hpr Hv Hs] He Hirq], Hb.
    constructor; try assumption; [constructor; [constructor; assumption|reflexivity|reflexivity]
      |constructor; assumption|exact I|reflexivity|intros E; contradiction E; reflexivity|reflexivity].
  - rewrite (proj2 (Z.eqb_neq (1 + Z.of_nat (S n)) 1)), (proj2 (Z.eqb_neq (1 + Z.of_nat (S n)) 0)), orb_false_r by lia.
    destruct (pending q) as [|h t] eqn:Eq; [cbn in Hd; lia|]. destruct Hg as [_ ->]. cbn [negb].
    eexists. split; [reflexivity|]. split; [|destruct s as [a ph out], a; auto].
    apply (sys_inv_kept s q); [exact Hinv|destruct s as [a ph out], a; reflexivity| | |destruct s as [a ph out], a; reflexivity].
    + apply (implements_other (app s)); [exact Hi|destruct s as [a ph out], a; reflexivity].
    + intros _. rewrite Eq, Ed. split; discriminate.
  - cbn [Z.eqb orb]. rewrite orb_false_r. destruct (pending q) as [|h t] eqn:Eq.
    + rewrite Hg. exists s. split; [reflexivity|]. auto.
    + destruct Hg as [_ ->]. cbn [negb]. eexists. split; [reflexivity|]. split; [|destruct s as [a ph out], a; auto].
      apply (sys_inv_kept s q); [exact Hinv|destruct s as [a ph out], a; reflexivity| | |destruct s as [a ph out], a; reflexivity].
      * apply (implements_other (app s)); [exact Hi|destruct s as [a ph out], a; reflexivity].
      * intros _. rewrite Eq, Ed. split; discriminate.
Qed.

(** Running the command at the head of the queue. *)
Lemma run_step s q : sys_inv s q -> phase s = Run ->
  exists g s', head (pending q) = Some g /\ main_step s = Some s' /\ sys_inv s' q /\ phase s' = Respond /\ sent s' = sent s /\
    let '(c, t, p) := full_reply (negb (bool_decide (discard q = None))) g (currentCommandNumber (app s)) (periph (app s)) in
    cstr (responseBuffer (app s')) = t ++ [10] /\ currentCommandNumber (app s') = c /\ periph (app s') = p.
Proof.
  intros Hinv Eph. destruct (ring_head _ _ (impl_ring _ _ (inv_impl _ _ Hinv))) as (g & Eg & Hg).
  pose proof Hinv as [Hi Hb Hr Hn Hw Hd Hl Hp Hwt]. destruct (Hp ltac:(congruence)) as [Hne Hd0].
  destruct (pending q) as [|h t] eqn:Eq; [contradiction|]. destruct Hg as [-> Hpg]. exists h.
  unfold main_step. rewrite Eg, Eph. bind_some.
  assert ((emergencyStopRequest (app s) =? NO_EMERGENCY_STOP) = bool_decide (discard q = None)) as ->.
  { rewrite (impl_emergency _ _ Hi). unfold emergency_of, NO_EMERGENCY_STOP, EMERGENCY_STOP_NOW.
    destruct (discard q) as [n|]; [rewrite bool_decide_eq_false_2 by discriminate; apply Z.eqb_neq; lia|reflexivity]. }
  assert (0 <= valueN h < two64) as Hv by (inversion Hw as [|? ? Wh _]; apply Wh).
  pose proof (respond_reply (negb (bool_decide (discard q = None))) h (app s) Hr Hv Hn) as R.
  destruct (full_reply _ h _ _) as [[c tx] p]. destruct R as (buf & E & Hh & L & Hc). rewrite E. bind_some.
  eexists. split; [reflexivity|]. split; [reflexivity|]. split; [|split; [reflexivity|split; [reflexivity|]]].
  - assert (sys_inv s q) as [] by exact Hinv. destruct s as [a ph out], a. cbn in *. subst ph.
    constructor; cbn; try assumption; [| |lia|rewrite Eq; auto].
    + apply (implements_other _ _ _ Hi). reflexivity.
    + destruct Hb. constructor; assumption.
  - destruct s as [a ph out], a. cbn. split; [apply (holds_cstr _ _ Hh)|auto].
Qed.

(** Sending the response, unless a stop came in the meantime. *)
Lemma respond_step s q : sys_inv s q -> phase s = Respond ->
  exists s', main_step s = Some s' /\ sys_inv s' q /\ phase s' = Finish /\ app s' = app s /\
    sent s' = match discard q with None => sent s ++ [(cstr (responseBuffer (app s)), false)] | Some _ => sent s end.
Proof.
  intros Hinv Eph. destruct (ring_head _ _ (impl_ring _ _ (inv_impl _ _ Hinv))) as (g & Eg & _).
  unfold main_step. rewrite Eg, Eph. bind_some. pose proof Hinv as [Hi Hb Hr Hn Hw Hd Hl Hp Hwt].
  eexists. split; [reflexivity|]. split; [|split; [reflexivity|split; [reflexivity|]]].
  - apply (sys_inv_kept s q); [exact Hinv|reflexivity|exact Hi|intros _; apply Hp; congruence|].
    cbn [app phase]. rewrite Hwt, Eph. reflexivity.
  - cbn [sent]. rewrite (impl_emergency _ _ Hi). destruct (discard q) as [n|]; [|reflexivity].
    unfold emergency_of, EMERGENCY_STOP_NOW, NO_EMERGENCY_STOP. rewrite (proj2 (Z.eqb_neq _ _)) by lia. reflexivity.
Qed.

(** Ending the turn. *)
Lemma finish_step s q : sys_inv s q -> phase s = Finish ->
  exists s', main_step s = Some s' /\ sys_inv s' (spec_finish q) /\ phase s' = Idle /\ sent s' = sent s /\
    kept (app s') = kept (app s).
Proof.
  intros Hinv Eph. destruct (ring_head _ _ (impl_ring _ _ (inv_impl _ _ Hinv))) as (g & Eg & Hg).
  destruct (inv_phase _ _ Hinv ltac:(congruence)) as [Hne _].
  destruct (pending q) as [|h t] eqn:Eq; [contradiction|]. destruct Hg as [-> _].
  unfold main_step. rewrite Eg, Eph. bind_some. eexists. split; [reflexivity|].
  split; [exact (finish_inv s q h t Hinv Eph Eq)|]. split; [reflexivity|]. split; [reflexivity|].
  destruct s as [a ph out], a; unfold finish_request; cbn. destruct (_ =? _); reflexivity.
Qed.

(** What the commands of a packet do to the queue. *)
Record spec_ok (q : Spec) : Prop := {
  spec_wf : Forall Gcode_wf (pending q);
  spec_discard : match discard q with None => True | Some n => (n <= length (pending q))%nat end;
  spec_listening : listening q = match discard q with None => true | Some _ => false end
}.

Definition busy (q : Spec) : Prop := pending q <> [] /\ discard q <> Some 0%nat.

Lemma spec_dispatch_ok g q : Gcode_wf g -> spec_ok q -> spec_ok (spec_dispatch g q) /\ (busy q -> busy (spec_dispatch g q)).
Proof.
  intros Hg [Hw Hd Hl]. unfold spec_dispatch, busy. destruct (is_stop g).
  - split; [constructor; cbn; auto|]. cbn. intros [Hne _]. split; [exact Hne|]. destruct (pending q); [contradiction|discriminate].
  - destruct (_ <? _)%nat; (split; [constructor; cbn|cbn; intros [Hne Hd0]; split; [|exact Hd0]]); auto.
    + apply Forall_app. auto.
    + rewrite length_app. destruct (discard q); [lia|exact I].
    + destruct (pending q); discriminate.
Qed.

Lemma spec_fold_ok gs q : Forall Gcode_wf gs -> spec_ok q ->
  let q' := fold_left (fun s g => spec_dispatch g s) gs q in spec_ok q' /\ (busy q -> busy q').
Proof.
  intros Hg. revert q. induction Hg as [|g gs Hg _ IH]; intros q Hq; cbn; [auto|].
  destruct (spec_dispatch_ok g q Hg Hq) as [Hq' Hb]. destruct (IH _ Hq') as [? ?]. auto.
Qed.

Lemma sys_inv_spec s q : sys_inv s q -> spec_ok q.
Proof. intros []. constructor; assumption. Qed.

(** A packet that is taken keeps the invariant. *)
Lemma packet_inv s q d a' : sys_inv s q -> received stack d (app s) q a' ->
  exists q', sys_inv (mkSys a' (phase s) (sent s)) q'.
Proof.
  intros Hinv (Hb' & gs & _ & Wg & Hi' & _ & Er & En & Ew). pose proof Hinv as [Hi Hb Hr Hn Hw Hd Hl Hp Hwt].
  destruct (spec_fold_ok gs q Wg (sys_inv_spec s q Hinv)) as [[W' D' L'] B'].
  eexists. constructor; cbn [app phase]; [exact Hi'|exact Hb'|congruence|congruence|exact W'|exact D'|exact L'| |congruence].
  intros Hne. apply B', Hp, Hne.
Qed.

Lemma wait_inv s q : sys_inv s q -> sys_inv (wait_timer s) q.
Proof.
  intros Hinv. assert (phase (wait_timer s) = phase s /\ exists w i p,
    app (wait_timer s) = set_periph p (set_wait_counters w i (app s))) as [Eph (w & i & p & Ea)].
  { destruct s as [a ph out], a. unfold wait_timer. cbn -[cpu_hz Z.div]. case_bool;
      [destruct (peripheralsOn _) as [p []]; [case_bool|]|]; (split; [reflexivity|]); cbn [app]; eexists _, _, _; reflexivity. }
  pose proof Hinv as [Hi Hb Hr Hn Hw Hd Hl Hp Hwt]. destruct s as [a ph out], a. cbn [app phase] in *.
  constructor; rewrite ?Ea, ?Eph; try assumption;
    [apply (implements_other _ _ _ Hi); reflexivity|destruct Hb; constructor; assumption].
Qed.

(** The main program never gets stuck. *)
Lemma main_step_inv s q : sys_inv s q -> exists s' q', main_step s = Some s' /\ sys_inv s' q'.
Proof.
  intros Hinv. destruct (phase s) eqn:Eph.
  - destruct (idle_step s q Hinv Eph) as (s' & E & H'). exists s'.
    destruct (discard q) as [[|n]|]; destruct H' as [H' _]; eauto.
  - destruct (run_step s q Hinv Eph) as (g & s' & _ & E & H' & _). eauto.
  - destruct (respond_step s q Hinv Eph) as (s' & E & H' & _). eauto.
  - destruct (finish_step s q Hinv Eph) as (s' & E & H' & _). eauto.
Qed.

Lemma step_inv s q s' : sys_inv s q -> step s s' -> exists q', sys_inv s' q'.
Proof.
  intros Hinv Hs. destruct Hs as [s s' E|s d a' Hu Hd Hn E|s Hw].
  - destruct (main_step_inv s q Hinv) as (s1 & q1 & E1 & H'). rewrite E in E1. injection E1 as ->. eauto.
  - destruct (accumulate_received stack (app s) q d (inv_buffer _ _ Hinv) (inv_impl _ _ Hinv) Hn ltac:(lia)) as (a1 & E1 & R).
    rewrite E in E1. injection E1 as ->. apply (packet_inv s q d a1 Hinv R).
  - exists q. apply wait_inv, Hinv.
Qed.

(** ** Runs of the main program *)

Fixpoint main_steps (n : nat) (s : Sys P) : option (Sys P) :=
  match n with O => Some s | S n => s ← main_step s; main_steps n s end.

Lemma main_steps_S n s s1 : main_step s = Some s1 -> main_steps (S n) s = main_steps n s1.
Proof. intros E. cbn. rewrite E. reflexivity. Qed.

Lemma main_steps_plus n m s : main_steps (n + m) s = (s ← main_steps n s; main_steps m s).
Proof. revert s. induction n as [|n IH]; intros s; cbn; [reflexivity|]. destruct (main_step s); [apply IH|reflexivity]. Qed.

(** With a stop pending, two steps drop a request. *)
Lemma discards n : forall s q, sys_inv s q -> phase s = Idle -> discard q = Some n ->
  exists s', main_steps (2 * n + 1) s = Some s' /\ sys_inv s' (mkSpec (drop n (pending q)) None true) /\ phase s' = Idle /\
    periph (app s') = resetPeripherals (periph (app s)) /\ sent s' = sent s ++ [(str "ok" ++ [10], false)].
Proof.
  induction n as [|n IH]; intros s q Hinv Eph Ed; destruct (idle_step s q Hinv Eph) as (s1 & E1 & H1'); rewrite Ed in H1'.
  - exists s1. cbn [Nat.mul Nat.add]. rewrite (main_steps_S _ _ _ E1), drop_0. split; [reflexivity|exact H1'].
  - destruct H1' as (I1 & P1 & S1 & Ph1). pose proof (inv_discard _ _ Hinv) as Hd. rewrite Ed in Hd.
    destruct (pending q) as [|h t] eqn:Eq; [cbn in Hd; lia|].
    destruct (finish_step s1 q I1 Ph1) as (s2 & E2 & I2 & Ph2 & S2 & K2). unfold spec_finish in I2. rewrite Ed, Eq in I2.
    destruct (IH s2 _ I2 Ph2 eq_refl) as (s' & E' & I' & Ph' & P' & S'). exists s'.
    replace (2 * S n + 1)%nat with (S (S (2 * n + 1))) by lia.
    rewrite (main_steps_S _ _ _ E1), (main_steps_S _ _ _ E2). injection K2 as _ _ _ _ K2. injection P1 as _ _ _ _ P1.
    split; [exact E'|]. split; [exact I'|]. split; [exact Ph'|]. split; congruence.
Qed.

(** Without a stop, four steps answer a request. *)
Lemma turn s q g t : sys_inv s q -> phase s = Idle -> discard q = None -> pending q = g :: t ->
  exists s', main_steps 4 s = Some s' /\ sys_inv s' (mkSpec t None true) /\ phase s' = Idle /\
    let '(c, r, p) := full_reply false g (currentCommandNumber (app s)) (periph (app s)) in
    currentCommandNumber (app s') = c /\ periph (app s') = p /\ sent s' = sent s ++ [(r ++ [10], false)].
Proof.
  intros Hinv Eph Ed Eq. destruct (idle_step s q Hinv Eph) as (s1 & E1 & H1'). rewrite Ed, Eq in H1'.
  destruct H1' as (I1 & P1 & S1 & Ph1).
  destruct (run_step s1 q I1 Ph1) as (h & s2 & Eh & E2 & I2 & Ph2 & S2 & R2).
  rewrite Eq in Eh. injection Eh as <-. rewrite Ed in R2. rewrite bool_decide_eq_true_2 in R2 by reflexivity. cbn [negb] in R2.
  destruct (respond_step s2 q I2 Ph2) as (s3 & E3 & I3 & Ph3 & A3 & S3). rewrite Ed in S3.
  destruct (finish_step s3 q I3 Ph3) as (s4 & E4 & I4 & Ph4 & S4 & K4).
  exists s4. rewrite (main_steps_S _ _ _ E1), (main_steps_S _ _ _ E2), (main_steps_S _ _ _ E3), (main_steps_S _ _ _ E4).
  split; [reflexivity|]. pose proof (inv_listening _ _ Hinv) as Hl. rewrite Ed in Hl.
  unfold spec_finish in I4. rewrite Eq, Ed, Hl in I4. split; [exact I4|]. split; [exact Ph4|].
  injection P1 as _ _ _ K1 K1'. injection K4 as _ _ _ K4 K4'. rewrite K1, K1' in R2.
  destruct (full_reply _ _ _ _) as [[c r] p]. destruct R2 as (R1 & R2 & R3).
  split; [congruence|]. split; [congruence|]. rewrite S4, S3, S2, S1, R1. reflexivity.
Qed.

(** The replies to the requests of the queue, one after the other. *)
Fixpoint serve (gs : list Gcode) (current : Z) (p : P) : list (list Z) * Z * P :=
  match gs with
  | [] => ([], current, p)
  | g :: gs =>
      let '(c, r, p) := full_reply false g current p in
      let '(rs, c, p) := serve gs c p in (r :: rs, c, p)
  end.

Lemma serves gs : forall s q, sys_inv s q -> phase s = Idle -> discard q = None -> pending q = gs ->
  exists s', main_steps (4 * length gs) s = Some s' /\ sys_inv s' (mkSpec [] None true) /\ phase s' = Idle /\
    let '(rs, c, p) := serve gs (currentCommandNumber (app s)) (periph (app s)) in
    currentCommandNumber (app s') = c /\ periph (app s') = p /\
    sent s' = sent s ++ map (fun r => (r ++ [10], false)) rs.
Proof.
  induction gs as [|g gs IH]; intros s q Hinv Eph Ed Eq.
  - exists s. split; [reflexivity|]. pose proof (inv_listening _ _ Hinv) as Hl. rewrite Ed in Hl.
    destruct q as [pe di li]. cbn in *. subst. cbn. rewrite app_nil_r. auto.
  - destruct (turn s q g gs Hinv Eph Ed Eq) as (s1 & E1 & I1 & Ph1 & T1).
    destruct (IH s1 _ I1 Ph1 eq_refl eq_refl) as (s2 & E2 & I2 & Ph2 & T2). exists s2.
    split.
    { replace (4 * length (g :: gs))%nat with (4 + 4 * length gs)%nat by (cbn [length]; lia).
      rewrite main_steps_plus, E1. exact E2. }
    split; [exact I2|]. split; [exact Ph2|]. cbn [serve].
    destruct (full_reply _ _ _ _) as [[c r] p]. destruct T1 as (C1 & P1 & T1). rewrite C1, P1 in T2.
    destruct (serve gs c p) as [[rs c'] p']. destruct T2 as (? & ? & T2). split; [assumption|]. split; [assumption|].
    rewrite T2, T1, <- app_assoc. reflexivity.
Qed.

(** The system where the loop starts: the static variables are zero. *)
Definition boot (p : P) : Sys P :=
  mkSys (enableSendingWaitResponses (mkApp (replicate 15 empty_command) 0 0 0 0 0 (replicate (Z.to_nat REQUEST_BUFFER_SIZE) 0)
    0 0 (replicate (Z.to_nat RESPONSE_BUFFER_SIZE) 0) true false p)) Idle [].

Lemma boot_inv p : sys_inv (boot p) (mkSpec [] None true).
Proof.
  constructor; cbn [app phase boot pending discard listening]; try reflexivity; try exact I.
  - constructor; [|reflexivity|reflexivity]. constructor; [reflexivity|vm_compute; split; [discriminate|reflexivity]|reflexivity|].
    exists (replicate 15 empty_command). split; [reflexivity|]. split; [constructor|]. apply Forall_replicate. reflexivity.
  - constructor; [reflexivity|vm_compute; split; discriminate].
  - vm_compute. split; [discriminate|reflexivity].
  - constructor.
  - intros E. contradiction E. reflexivity.
Qed.
(** ** Invariants of the peripherals *)

(** A property that everything the loop asks of the peripherals keeps. *)
Record stable (I : P -> Prop) : Prop := {
  stable_probe : forall p, I p -> I (fst (probe p));
  stable_execute : forall e g p, Gcode_wf g -> I p -> I (fst (execute e g p));
  stable_reset : forall p, I p -> I (resetPeripherals p);
  stable_asked : forall p, I p -> I (fst (peripheralsOn p))
}.

Lemma full_reply_stable I e g c p : stable I -> Gcode_wf g -> I p -> I (snd (full_reply e g c p)).
Proof.
  intros St Wg Hp. unfold full_reply. pose proof (stable_probe I St p Hp) as P1. destruct (probe p) as [p1 [|x r]]; [|exact P1].
  unfold reply. destruct (check_number g c) as [c1 [|y t]].
  - pose proof (stable_execute I St e g p1 Wg P1) as P2. destruct (execute e g p1) as [p2 t]. cbn [fst snd] in *. repeat case_bool; exact P2.
  - repeat case_bool; exact P1.
Qed.

Lemma wait_stable I s : stable I -> I (periph (app s)) -> I (periph (app (wait_timer s))).
Proof.
  intros St Hp. unfold wait_timer. destruct s as [a ph out], a. cbn -[cpu_hz Z.div] in *. pose proof (stable_asked I St _ Hp) as P1.
  case_bool; [|exact Hp]. destruct (peripheralsOn _) as [p1 []]; [|exact P1]. case_bool; [apply (stable_reset I St), P1|exact P1].
Qed.

Lemma main_stable I s q s' : stable I -> sys_inv s q -> main_step s = Some s' -> I (periph (app s)) -> I (periph (app s')).
Proof.
  intros St Hinv E Hp. destruct (phase s) eqn:Eph.
  - destruct (idle_step s q Hinv Eph) as (s1 & E1 & H'). rewrite E in E1. injection E1 as <-.
    destruct (discard q) as [[|n]|]; [destruct H' as (_ & _ & -> & _); apply (stable_reset I St), Hp|..];
      destruct H' as (_ & K & _); injection K as _ _ _ _ ->; exact Hp.
  - destruct (run_step s q Hinv Eph) as (g & s1 & Hg & E1 & _ & _ & _ & R). rewrite E in E1. injection E1 as <-.
    assert (Gcode_wf g) as Wg.
    { pose proof (inv_wf _ _ Hinv) as W. destruct (pending q); [discriminate Hg|]. injection Hg as ->. inversion W. assumption. }
    pose proof (full_reply_stable I (negb (bool_decide (discard q = None))) g (currentCommandNumber (app s)) _ St Wg Hp) as P1.
    destruct (full_reply _ _ _ _) as [[c t] p]. destruct R as (_ & _ & ->). exact P1.
  - destruct (respond_step s q Hinv Eph) as (s1 & E1 & _ & _ & A1 & _). rewrite E in E1. injection E1 as <-. rewrite A1. exact Hp.
  - destruct (finish_step s q Hinv Eph) as (s1 & E1 & _ & _ & _ & K). rewrite E in E1. injection E1 as <-.
    injection K as _ _ _ _ ->. exact Hp.
Qed.

(** It holds in every state that the firmware reaches. *)
Lemma reachable_stable I p s : stable I -> I p -> rtc step (boot p) s -> (exists q, sys_inv s q) /\ I (periph (app s)).
Proof.
  intros St Hp Hr. apply (rtc_ind_r (fun s => (exists q, sys_inv s q) /\ I (periph (app s))) (boot p)) in Hr; [exact Hr|..].
  - split; [eexists; apply boot_inv|exact Hp].
  - intros y z _ Hs [[q Hq] Hy]. split; [exact (step_inv y q z Hq Hs)|]. destruct Hs as [t t' E|t d a' Hu Hd Hn E|t Hw].
    + exact (main_stable I t q t' St Hq E Hy).
    + destruct (accumulate_received stack (app t) q d (inv_buffer _ _ Hq) (inv_impl _ _ Hq) Hn ltac:(lia)) as (a1 & E1 & _ & gs & R).
      rewrite E in E1. injection E1 as <-. destruct R as (_ & _ & _ & Ep & _). cbn [app]. rewrite Ep. exact Hy.
    + apply wait_stable; assumption.
Qed.
End Steps.

(** ** Numbered requests *)

Definition numbered (g : Gcode) : Prop :=
  flag (commandParameters g) PARAMETER_N_OFFSET = true /\
  flag (commandParameters g) PARAMETER_M_OFFSET && (valueM g =? 110) = false.

Definition checksum_ok (g : Gcode) : bool := flag (commandParameters g) VALID_CHECKSUM_OFFSET.

(** What becomes of a numbered request, apart from the peripherals' check. *)
Lemma numbered_reply {P} `{MachineLaws P} g current (p : P) :
  numbered g -> 0 <= valueN g < two64 -> 0 <= current < UINT64_MAX ->
  if negb (checksum_ok g) then reply false g current p = (current, str "rs" ++ 32 :: digits current, p)
  else if valueN g <? current then reply false g current p = (current, str "skip" ++ 32 :: digits (valueN g), p)
  else if current <? valueN g then reply false g current p = (current, str "rs" ++ 32 :: digits current, p)
  else let '(p', t) := execute false g p in
       if prefix (str "ok") t
       then reply false g current p = (current + 1, str "ok" ++ 32 :: digits current ++ drop 2 t, p')
       else exists r, reply false g current p = (current, r, p').
Proof.
  intros [Hn Hm] Hv Hc. unfold reply, check_number, checksum_ok. rewrite Hn, Hm, Z.gtb_ltb.
  destruct (flag (commandParameters g) VALID_CHECKSUM_OFFSET); cbn [negb].
  2: { cbn. unfold number_into. cbn. rewrite app_nil_r. reflexivity. }
  rewrite (proj2 (Z.eqb_neq current UINT64_MAX)) by lia.
  destruct (Z.ltb_spec (valueN g) current); [cbn; unfold number_into; cbn; rewrite app_nil_r; reflexivity|].
  destruct (Z.ltb_spec current (valueN g)); [cbn; unfold number_into; cbn; rewrite app_nil_r; reflexivity|].
  replace (valueN g) with current by lia.
  destruct (execute false g p) as [p' t]. cbn [andb].
  destruct (prefix (str "ok") t) eqn:Eo; cbn [orb].
  - assert (exists r, t = str "ok" ++ r) as [r ->].
    { apply bool_decide_eq_true in Eo. exists (drop 2 t). rewrite <- Eo at 1. symmetry. apply (take_drop 2). }
    cbn. unfold u64. rewrite Z.mod_small by (unfold two64, UINT64_MAX in *; lia). reflexivity.
  - destruct (prefix (str "rs") t || prefix (str "skip") t); eauto.
Qed.

(** The requests that are run and answered with ok, in order. *)
Definition acknowledges {P} `{Machine P} (g : Gcode) (current : Z) (p : P) : bool :=
  match snd (probe p), snd (check_number g current) with
  | [], [] => prefix (str "ok") (snd (execute false g (fst (probe p))))
  | _, _ => false
  end.

Fixpoint acknowledged {P} `{Machine P} (gs : list Gcode) (current : Z) (p : P) : list Gcode :=
  match gs with
  | [] => []
  | g :: gs =>
      let '(c, _, p') := full_reply false g current p in
      (if acknowledges g current p then [g] else []) ++ acknowledged gs c p'
  end.

Lemma numbered_step {P} `{MachineLaws P} g current (p : P) :
  numbered g -> 0 <= valueN g < two64 -> 0 <= current <= UINT64_MAX ->
  let '(c, _, _) := full_reply false g current p in
  if acknowledges g current p then valueN g = current /\ c = current + 1 /\ c <= UINT64_MAX else c = current.
Proof.
  intros Hg Hv Hc. unfold full_reply, acknowledges. destruct (probe p) as [p1 e]. cbn [fst snd].
  destruct e as [|x e]; [|reflexivity].
  destruct (Z.eq_dec current UINT64_MAX) as [->|Hne].
  - destruct Hg as [Hn Hm]. unfold reply, check_number. rewrite Hn, Hm.
    destruct (negb _); [reflexivity|]. rewrite Z.eqb_refl. reflexivity.
  - pose proof (numbered_reply g current p1 Hg Hv ltac:(lia)) as R. unfold check_number.
    destruct Hg as [Hn Hm]. rewrite Hn, Hm, Z.gtb_ltb. unfold checksum_ok in R.
    destruct (negb _); [rewrite R; reflexivity|]. rewrite (proj2 (Z.eqb_neq current UINT64_MAX)) by lia.
    destruct (Z.ltb_spec (valueN g) current); [rewrite R; reflexivity|].
    destruct (Z.ltb_spec current (valueN g)); [rewrite R; reflexivity|]. cbn [snd].
    destruct (execute false g p1) as [p' t]. cbn [snd]. destruct (prefix _ t).
    + rewrite R. split; [lia|]. split; [reflexivity|lia].
    + destruct R as [r ->]. reflexivity.
Qed.

(** ** The wait timer *)

Definition TICKS : nat := Z.to_nat (cpu_hz / 64 / WAIT_TIMER_PERIOD).
Definition wait_message : list Z * bool := (str "wait" ++ [10], true).

(** The peripherals after a number of questions whether they are on. *)
Definition asked {P} `{Machine P} (n : nat) (p : P) : P := Nat.iter n (fun p => fst (peripheralsOn p)) p.
Definition stays_on {P} `{Machine P} (p : P) : Prop := forall n, (n < 600)%nat -> snd (peripheralsOn (asked n p)) = true.

Lemma wait_timer_tick {P} `{Machine P} (s : Sys P) w i :
  0 <= w < 45 -> 0 <= i < 600 -> snd (peripheralsOn (periph (app s))) = true ->
  wait_timer (mkSys (set_wait_counters w i (app s)) (phase s) (sent s)) =
    if w =? 44 then
      if i =? 599 then
        mkSys (set_periph (resetPeripherals (asked 1 (periph (app s)))) (set_wait_counters 0 0 (app s))) (phase s)
          (sent s ++ [wait_message; (str "Peripherals automatically turned off" ++ [10], true)])
      else mkSys (set_periph (asked 1 (periph (app s))) (set_wait_counters 0 (i + 1) (app s))) (phase s) (sent s ++ [wait_message])
    else mkSys (set_wait_counters (w + 1) i (app s)) (phase s) (sent s).
Proof.
  intros Hw Hi Hon. destruct s as [a ph out], a as [b1 b2 b3 b4 b5 b6 b7 b8 b9 b10 b11 b12 b13].
  unfold wait_timer. cbn [app phase sent set_wait_counters waitTimerCounter inactivityCounter periph] in *.
  change (cpu_hz / 64 / WAIT_TIMER_PERIOD) with 45. change INACTIVITY_TIMEOUT_SECONDS with 600. unfold asked. cbn [Nat.iter nat_rect].
  destruct (peripheralsOn _) as [p on]. cbn [fst snd] in *. subst on. cbn [set_periph inactivityCounter]. rewrite u8_id, u16_id by lia.
  rewrite !Z.geb_leb. destruct (Z.eqb_spec w 44) as [->|N].
  - change (45 <=? 44 + 1) with true. destruct (Z.eqb_spec i 599) as [->|N].
    + change (600 <=? 599 + 1) with true. cbn -[str]. rewrite <- app_assoc. reflexivity.
    + rewrite (proj2 (Z.leb_gt 600 _)) by lia. reflexivity.
  - rewrite (proj2 (Z.leb_gt 45 _)) by lia. reflexivity.
Qed.

Lemma counters_periph {P} w i (p : P) a : set_periph p (set_wait_counters w i a) = set_wait_counters w i (set_periph p a).
Proof. destruct a; reflexivity. Qed.
Lemma periph_set {P} (p : P) a : periph (set_periph p a) = p.
Proof. destruct a; reflexivity. Qed.
Lemma periph_periph {P} (p q : P) a : set_periph p (set_periph q a) = set_periph p a.
Proof. destruct a; reflexivity. Qed.

(** The timer's turns before the timeout. *)
Lemma wait_timer_turns {P} `{Machine P} (s : Sys P) n :
  waitTimerCounter (app s) = 0 -> inactivityCounter (app s) = 0 -> stays_on (periph (app s)) ->
  (n < TICKS * 600)%nat ->
  Nat.iter n wait_timer s =
    mkSys (set_periph (asked (n / TICKS) (periph (app s)))
             (set_wait_counters (Z.of_nat (n mod TICKS)) (Z.of_nat (n / TICKS)) (app s))) (phase s)
      (sent s ++ replicate (n / TICKS) wait_message).
Proof.
  intros Hw Hi Hon. change TICKS with 45%nat. induction n as [|n IH]; intros Hn.
  - destruct s as [a ph out], a. cbn in *. subst. rewrite app_nil_r. reflexivity.
  - cbn [Nat.iter nat_rect]. fold (Nat.iter n (@wait_timer P H) s). rewrite IH by lia.
    pose proof (Nat.div_mod_eq n 45) as E. pose proof (Nat.mod_upper_bound n 45 ltac:(lia)) as Hm.
    set (k := (n / 45)%nat) in *. set (w := (n mod 45)%nat) in *.
    pose proof (wait_timer_tick (mkSys (set_periph (asked k (periph (app s))) (app s)) (phase s) (sent s ++ replicate k wait_message))
      (Z.of_nat w) (Z.of_nat k) ltac:(lia) ltac:(lia)) as T. cbn [app phase sent] in T. rewrite counters_periph, T; clear T.
    2: { rewrite periph_set. apply Hon. lia. }
    rewrite periph_set.
    destruct (Z.eqb_spec (Z.of_nat w) 44) as [E4|N4].
    + rewrite (proj2 (Z.eqb_neq (Z.of_nat k) 599)) by lia.
      replace (S n mod 45)%nat with 0%nat by (apply (Nat.mod_unique _ _ (S k)); lia).
      replace (S n / 45)%nat with (S k) by (apply (Nat.div_unique _ _ _ 0); lia).
      rewrite <- app_assoc, replicate_S_end, counters_periph, periph_periph. replace (Z.of_nat k + 1) with (Z.of_nat (S k)) by lia.
      rewrite counters_periph. reflexivity.
    + replace (S n mod 45)%nat with (S w) by (apply (Nat.mod_unique _ _ k); lia).
      replace (S n / 45)%nat with k by (apply (Nat.div_unique _ _ _ (S w)); lia).
      rewrite counters_periph. do 3 f_equal. lia.
Qed.

(** ** Properties *)

Section Claims.
Context {P : Type} `{Build} `{MachineLaws P} (stack : list Z -> Gcode) `{!StackValues stack}.


(** C3. An emergency stop discards exactly the requests that were queued before
    it: with [n] of them left, the main program drops them without running any,
    without sending the response of the one that was being answered, resets the
    peripherals, confirms with one ok, and takes packets again; requests behind
    the stop stay queued. No packet is taken in the meantime. *)
Theorem emergency_stop_discards s q n :
  sys_inv s q -> discard q = Some n -> phase s <> Run ->
  usb_irq (app s) = false /\
  exists k s', (k <= 2 * n + 2)%nat /\ main_steps k s = Some s' /\
    sys_inv s' (mkSpec (drop n (pending q)) None true) /\ phase s' = Idle /\
    periph (app s') = resetPeripherals (periph (app s)) /\ sent s' = sent s ++ [(str "ok" ++ [10], false)].
Proof.
  intros Hinv Ed Hrun. split.
  { rewrite (impl_irq _ _ (inv_impl _ _ Hinv)), (inv_listening _ _ Hinv), Ed. reflexivity. }
  assert (forall s, sys_inv s q -> phase s = Finish ->
    exists s', main_steps (2 * n) s = Some s' /\ sys_inv s' (mkSpec (drop n (pending q)) None true) /\ phase s' = Idle /\
      periph (app s') = resetPeripherals (periph (app s)) /\ sent s' = sent s ++ [(str "ok" ++ [10], false)]) as Hfin.
  { intros s0 I0 Ph0. destruct (finish_step s0 q I0 Ph0) as (s1 & E1 & I1 & Ph1 & S1 & K1).
    destruct (inv_phase _ _ I0 ltac:(congruence)) as [Hne Hn0]. destruct n as [|n]; [contradiction|].
    unfold spec_finish in I1. rewrite Ed in I1. destruct (discards n s1 _ I1 Ph1 eq_refl) as (s' & E' & I' & Ph' & P' & S').
    exists s'. replace (2 * S n)%nat with (S (2 * n + 1)) by lia. rewrite (main_steps_S _ _ _ E1). injection K1 as _ _ _ _ K1.
    split; [exact E'|]. split; [destruct (pending q); [contradiction|exact I']|]. split; [exact Ph'|]. split; congruence. }
  destruct (phase s) eqn:Eph; [|contradiction| |].
  - destruct (discards n s q Hinv Eph Ed) as (s' & E' & H'). exists (2 * n + 1)%nat, s'. split; [lia|]. split; [exact E'|exact H'].
  - destruct (respond_step s q Hinv Eph) as (s1 & E1 & I1 & Ph1 & A1 & S1). rewrite Ed in S1.
    destruct (Hfin s1 I1 Ph1) as (s' & E' & I' & Ph' & P' & S'). exists (S (2 * n)), s'. split; [lia|].
    rewrite (main_steps_S _ _ _ E1). split; [exact E'|]. split; [exact I'|]. split; [exact Ph'|]. split; congruence.
  - destruct (Hfin s Hinv Eph) as (s' & E' & H'). exists (2 * n)%nat, s'. split; [lia|]. split; [exact E'|exact H'].
Qed.

(** C4. Without a stop the main program answers every request of the queue, once
    and in the order of the queue, each with its reply and a newline, and empties
    the queue. The replies thread the command number and the peripherals through
    the requests. *)
Theorem requests_answered s q :
  sys_inv s q -> phase s = Idle -> discard q = None ->
  exists s', main_steps (4 * length (pending q)) s = Some s' /\ sys_inv s' (mkSpec [] None true) /\
    let '(rs, c, p) := serve (pending q) (currentCommandNumber (app s)) (periph (app s)) in
    length rs = length (pending q) /\ currentCommandNumber (app s') = c /\ periph (app s') = p /\
    sent s' = sent s ++ map (fun r => (r ++ [10], false)) rs.
Proof.
  intros Hinv Eph Ed. destruct (serves (pending q) s q Hinv Eph Ed eq_refl) as (s' & E & I' & _ & R).
  exists s'. split; [exact E|]. split; [exact I'|].
  assert (forall gs c p, length (fst (fst (serve gs c p))) = length gs) as L.
  { induction gs as [|g gs IH]; intros c p; cbn; [reflexivity|]. destruct (full_reply _ _ _ _) as [[c1 r1] p1].
    specialize (IH c1 p1). destruct (serve gs c1 p1) as [[rs c2] p2]. cbn in *. congruence. }
  specialize (L (pending q) (currentCommandNumber (app s)) (periph (app s))).
  destruct (serve _ _ _) as [[rs c] p]. split; [exact L|exact R].
Qed.

(** C16. The response buffer is exactly large enough: the strcpy, memmove, memcpy
    and strcat on it stay within its bounds for the longest response with the
    longest number, and leave the terminated reply as specified on strings: the
    peripherals' error, or the line-number protocol's answer, or the command's
    answer with the number inserted behind its first word, or the error for an
    unknown command, each with a newline. *)
Theorem response_text stopped g (a : App P) :
  len (responseBuffer a) = RESPONSE_BUFFER_SIZE -> 0 <= valueN g < two64 -> 0 <= currentCommandNumber a < two64 ->
  exists a', respond stopped g a = Some a' /\ len (responseBuffer a') = RESPONSE_BUFFER_SIZE /\
    let '(c, t, p) := full_reply stopped g (currentCommandNumber a) (periph a) in
    cstr (responseBuffer a') = t ++ [10] /\ currentCommandNumber a' = c /\ periph a' = p.
Proof.
  intros Hb Hv Hc. pose proof (respond_reply stopped g a Hb Hv Hc) as R.
  destruct (full_reply _ _ _ _) as [[c t] p]. destruct R as (buf & E & Hh & L & _). eexists. split; [exact E|].
  destruct a; cbn in *. split; [lia|]. split; [apply (holds_cstr _ _ Hh)|auto].
Qed.

(** The line-number protocol: a numbered request is run exactly when its
    checksum is valid and its number is the expected one; then an answer that
    starts with ok gets the number and the expected number goes up by one, and
    after any other answer the number stays expected. An older request is skipped,
    a damaged or early one makes the firmware ask for the expected one, and
    neither touches the machine. *)
Theorem line_number_protocol g current (p : P) :
  numbered g -> 0 <= valueN g < two64 -> 0 <= current < UINT64_MAX -> snd (probe p) = [] ->
  let p1 := fst (probe p) in
  if checksum_ok g && (valueN g =? current) then
    let '(p', t) := execute false g p1 in
    if prefix (str "ok") t
    then full_reply false g current p = (current + 1, str "ok" ++ 32 :: digits current ++ drop 2 t, p')
    else exists r, full_reply false g current p = (current, r, p')
  else if checksum_ok g && (valueN g <? current) then
    full_reply false g current p = (current, str "skip" ++ 32 :: digits (valueN g), p1)
  else full_reply false g current p = (current, str "rs" ++ 32 :: digits current, p1).
Proof.
  intros Hg Hv Hc Hp. unfold full_reply. destruct (probe p) as [p1 e]. cbn [fst snd] in *. subst e.
  pose proof (numbered_reply g current p1 Hg Hv Hc) as R.
  destruct (checksum_ok g); [|exact R]. cbn [negb andb] in *. cbn zeta.
  destruct (Z.ltb_spec (valueN g) current), (Z.ltb_spec current (valueN g)), (Z.eqb_spec (valueN g) current);
    first [lia|exact R].
Qed.

(** C8. However a host repeats, reorders or damages numbered requests, the ones
    that are run and answered with ok have consecutive numbers from the expected
    one on, each once: the expected number counts them, and never wraps around. *)
Theorem numbers_acknowledged_once gs current (p : P) :
  Forall numbered gs -> Forall (fun g => 0 <= valueN g < two64) gs -> 0 <= current <= UINT64_MAX ->
  let '(_, c, _) := serve gs current p in
  map valueN (acknowledged gs current p) = seqZ current (c - current) /\ current <= c <= UINT64_MAX.
Proof.
  intros Hg Hv. revert current p. induction Hg as [|g gs Hg _ IH]; intros current p Hc; cbn [serve acknowledged].
  - rewrite Z.sub_diag. cbn. split; [reflexivity|lia].
  - inversion Hv as [|? ? Hvg Hvs]; subst. specialize (IH Hvs). pose proof (numbered_step g current p Hg Hvg Hc) as S.
    destruct (full_reply false g current p) as [[c1 r1] p1]. destruct (acknowledges g current p).
    + destruct S as (Ev & -> & Hc1). specialize (IH (current + 1) p1 ltac:(lia)).
      destruct (serve gs (current + 1) p1) as [[rs c] p2]. destruct IH as [E Hb]. split; [|lia].
      change (valueN g :: map valueN (acknowledged gs (current + 1) p1) = seqZ current (c - current)).
      rewrite E, Ev, (seqZ_cons current) by lia. f_equal. f_equal; lia.
    + subst c1. specialize (IH current p1 Hc). destruct (serve gs current p1) as [[rs c] p2]. exact IH.
Qed.

(** The wait timer sends one wait message a second; when something stays
    turned on each time it is asked, it turns the peripherals off after 600 seconds
    without a request, and not before. *)
Theorem inactivity_turns_off (s : Sys P) :
  waitTimerCounter (app s) = 0 -> inactivityCounter (app s) = 0 -> stays_on (periph (app s)) ->
  (forall n, (n < TICKS * 600)%nat ->
     periph (app (Nat.iter n wait_timer s)) = asked (n / TICKS) (periph (app s)) /\
     sent (Nat.iter n wait_timer s) = sent s ++ replicate (n / TICKS) wait_message) /\
  Nat.iter (TICKS * 600) wait_timer s =
    mkSys (set_periph (resetPeripherals (asked 600 (periph (app s)))) (set_wait_counters 0 0 (app s))) (phase s)
      (sent s ++ replicate 600 wait_message ++ [(str "Peripherals automatically turned off" ++ [10], true)]).
Proof.
  intros Hw Hi Hon. split.
  - intros n Hn. rewrite wait_timer_turns by assumption. destruct s as [a ph out], a. split; reflexivity.
  - assert (exists n, TICKS * 600 = S n)%nat as [n En] by (exists (TICKS * 600 - 1)%nat; change TICKS with 45%nat; lia).
    rewrite En. cbn [Nat.iter nat_rect]. fold (Nat.iter n (@wait_timer P _) s).
    rewrite wait_timer_turns by (assumption || lia).
    replace (n mod TICKS)%nat with 44%nat by (apply (Nat.mod_unique _ _ 599); change TICKS with 45%nat in *; lia).
    replace (n / TICKS)%nat with 599%nat by (apply (Nat.div_unique _ _ _ 44); change TICKS with 45%nat in *; lia).
    pose proof (wait_timer_tick (mkSys (set_periph (asked 599 (periph (app s))) (app s)) (phase s) (sent s ++ replicate 599 wait_message)) 44 599
      ltac:(lia) ltac:(lia)) as T. cbn [app phase sent] in T. change (Z.of_nat 44) with 44. change (Z.of_nat 599) with 599.
    rewrite periph_set in T. rewrite counters_periph, (T (Hon 599%nat ltac:(lia))). cbn [Z.eqb Pos.eqb]. rewrite counters_periph, periph_periph, <- counters_periph.
    f_equal. rewrite <- !app_assoc. f_equal.
Qed.
End Claims.

(** ** Witnesses *)

(** A machine that counts the commands it is given. *)
Definition counting_machine : Machine nat := {|
  probe := fun p => (p, []);
  execute := fun _ _ p => (S p, str "ok");
  resetPeripherals := fun _ => 0%nat;
  peripheralsOn := fun p => (p, negb (p =? 0)%nat)
|}.

Lemma counting_laws : @MachineLaws nat counting_machine.
Proof.
  constructor; cbn.
  - intros _. split; [constructor|vm_compute; discriminate].
  - intros _ _ _. split; [split; [repeat constructor; discriminate|vm_compute; discriminate]|discriminate].
Defined.

#[local] Existing Instance counting_machine.
#[local] Existing Instance counting_laws.
#[local] Existing Instance default_build.

(** [N0 M17] with its checksum, as it was parsed. *)
Definition numbered_command : Gcode :=
  match parseCommand (str "N0 M17*21") empty_command with Some g => g | None => empty_command end.

(** Two requests are queued when a stop arrives. *)
Definition queued_spec : Spec := mkSpec [numbered_command; numbered_command] None true.
Definition queued_sys : Sys nat :=
  mkSys (set_receiving 2 (set_requests ([numbered_command; numbered_command] ++ replicate 13 empty_command) (app (boot 7%nat)))) Idle [].
Definition stopped_sys : Sys nat := mkSys (disableUsbInterrupts (set_emergency 3 (app queued_sys))) Idle [].

Lemma numbered_wf : Gcode_wf numbered_command.
Proof. vm_compute. intuition congruence. Defined.

Lemma queued_ring (a : App nat) :
  requests a = [numbered_command; numbered_command] ++ replicate 13 empty_command ->
  currentProcessingRequest a = 0 -> currentReceivingRequest a = 2 -> ring a [numbered_command; numbered_command].
Proof.
  intros E1 E2 E3. constructor; rewrite ?E1, ?E2, ?E3; [reflexivity|lia|reflexivity|].
  exists (replicate 13 empty_command). split; [reflexivity|].
  split; [apply List.Forall_cons; [reflexivity|apply List.Forall_cons; [reflexivity|apply List.Forall_nil]]|].
  apply Forall_replicate. reflexivity.
Defined.

Lemma queued_inv : sys_inv queued_sys queued_spec.
Proof.
  constructor; try reflexivity; try exact I.
  - constructor; [apply queued_ring; reflexivity|reflexivity|reflexivity].
  - constructor; [reflexivity|vm_compute; intuition congruence].
  - vm_compute. intuition congruence.
  - apply List.Forall_cons; [exact numbered_wf|apply List.Forall_cons; [exact numbered_wf|apply List.Forall_nil]].
  - intros E. contradiction E. reflexivity.
Defined.

Lemma stopped_inv : sys_inv stopped_sys (mkSpec [numbered_command; numbered_command] (Some 2%nat) false).
Proof.
  constructor; try reflexivity.
  - constructor; [apply queued_ring; reflexivity|reflexivity|reflexivity].
  - constructor; [reflexivity|vm_compute; intuition congruence].
  - vm_compute. intuition congruence.
  - apply List.Forall_cons; [exact numbered_wf|apply List.Forall_cons; [exact numbered_wf|apply List.Forall_nil]].
  - cbn. lia.
  - intros E. contradiction E. reflexivity.
Defined.


Lemma emergency_stop_discards_witness :
  usb_irq (app stopped_sys) = false /\
  exists k s', (k <= 6)%nat /\ main_steps k stopped_sys = Some s' /\ sys_inv s' (mkSpec [] None true) /\ phase s' = Idle /\
    periph (app s') = 0%nat /\ sent s' = [(str "ok" ++ [10], false)].
Proof.
  destruct (emergency_stop_discards stopped_sys (mkSpec [numbered_command; numbered_command] (Some 2%nat) false) 2)
    as (Hu & k & s' & Hk & E & I' & Ph & Hp & Hs).
  - exact stopped_inv.
  - reflexivity.
  - discriminate.
  - split; [exact Hu|]. exists k, s'. split; [exact Hk|]. split; [exact E|]. split; [exact I'|]. auto.
Defined.

(** The second one is a repetition. *)
Lemma requests_answered_witness :
  exists s', main_steps 8 queued_sys = Some s' /\ periph (app s') = 8%nat /\ currentCommandNumber (app s') = 1 /\
    sent s' = [(str "ok 0" ++ [10], false); (str "skip 0" ++ [10], false)].
Proof.
  destruct (requests_answered queued_sys queued_spec) as (s' & E & _ & R).
  - exact queued_inv.
  - reflexivity.
  - reflexivity.
  - exists s'. split; [exact E|]. vm_compute in R. destruct R as (_ & Hc & Hp & Hs).
    split; [exact Hp|]. split; [exact Hc|]. exact Hs.
Defined.

Lemma response_text_witness :
  exists a', respond false numbered_command (app (boot 7%nat)) = Some a' /\ cstr (responseBuffer a') = str "ok 0" ++ [10].
Proof.
  destruct (response_text false numbered_command (app (boot 7%nat))) as (a' & E & _ & R).
  - reflexivity.
  - vm_compute. intuition congruence.
  - vm_compute. intuition congruence.
  - exists a'. split; [exact E|].
    replace (full_reply false numbered_command (currentCommandNumber (app (boot 7%nat))) (periph (app (boot 7%nat))))
      with (1, str "ok 0", 8%nat) in R by (vm_compute; reflexivity).
    exact (proj1 R).
Defined.

Lemma line_number_protocol_witness :
  full_reply false numbered_command 0 7%nat = (1, str "ok 0", 8%nat).
Proof.
  refine (line_number_protocol numbered_command 0 7%nat _ _ _ _).
  - split; vm_compute; reflexivity.
  - vm_compute. intuition congruence.
  - vm_compute. intuition congruence.
  - reflexivity.
Defined.

Lemma numbers_acknowledged_once_witness :
  map valueN (acknowledged [numbered_command; numbered_command] 0 7%nat) = seqZ 0 1.
Proof.
  assert (serve [numbered_command; numbered_command] 0 7%nat = ([str "ok 0"; str "skip 0"], 1, 8%nat)) as E
    by (vm_compute; reflexivity).
  pose proof (numbers_acknowledged_once [numbered_command; numbered_command] 0 7%nat) as R. rewrite E in R.
  apply R.
  - repeat (apply List.Forall_cons; [split; vm_compute; reflexivity|]). apply List.Forall_nil.
  - repeat (apply List.Forall_cons; [vm_compute; intuition congruence|]). apply List.Forall_nil.
  - vm_compute. intuition congruence.
Defined.

Lemma inactivity_turns_off_witness :
  periph (app (Nat.iter (TICKS * 600) wait_timer (boot 7%nat))) = 0%nat.
Proof.
  destruct (inactivity_turns_off (boot 7%nat)) as [_ E].
  - reflexivity.
  - reflexivity.
  - intros n _. unfold asked. assert (Nat.iter n (fun p => fst (peripheralsOn p)) (periph (app (boot 7%nat))) = 7%nat) as ->; [|reflexivity].
    induction n as [|n IH]; [reflexivity|]. cbn [Nat.iter nat_rect]. fold (Nat.iter n (fun p : nat => fst (peripheralsOn p)) (periph (app (boot 7%nat)))).
    rewrite IH. reflexivity.
  - rewrite E. reflexivity.
Defined.
