(* ===== verification/Nvm.v ===== *)
(** * EEPROM (nvm.c, nvm.h)

    The driver of the non-volatile memory controller, as far as the firmware uses
    it: reading the EEPROM through its mapping in data memory, and writing it byte
    by byte or page by page through the page buffer. The controller itself is the
    interface [Controller] with the behaviour that the device manual documents;
    the driver's registers are a record around it. *)

From S2P Require Import Prelude.

(** ** The controller *)

Definition EEPROM_SIZE : Z := 1024.
Definition EEPROM_PAGE_SIZE : Z := 32.

Definition NVM_CMD_ERASE_EEPROM : Z := 0x30.
Definition NVM_CMD_ERASE_EEPROM_PAGE : Z := 0x32.
Definition NVM_CMD_WRITE_EEPROM_PAGE : Z := 0x34.
Definition NVM_CMD_ERASE_WRITE_EEPROM_PAGE : Z := 0x35.
Definition NVM_CMD_ERASE_EEPROM_BUFFER : Z := 0x36.

(** The memory cells, the bytes loaded in the page buffer, whether a command is
    being executed, the state once it is done, a store to a mapped address, and
    the execution of a command with the address registers. *)
Class Controller (H : Type) := {
  cells : H -> list Z;
  latch : H -> nat -> option Z;
  busy : H -> bool;
  eeload : H -> bool;
  settle : H -> H;
  store_latch : Z -> Z -> H -> H;
  exec : Z -> Z -> H -> H
}.

(** What a page command does to a cell for which a byte is loaded. *)
Definition cell_effect (cmd old v : Z) : Z :=
  if cmd =? NVM_CMD_ERASE_WRITE_EEPROM_PAGE then v
  else if cmd =? NVM_CMD_WRITE_EEPROM_PAGE then Z.land old v
  else 255.

Definition in_page (cmd address : Z) (i : nat) : bool :=
  (cmd =? NVM_CMD_ERASE_EEPROM) || (Z.of_nat i / EEPROM_PAGE_SIZE =? address / EEPROM_PAGE_SIZE).

Definition commit (cmd address : Z) (lt : nat -> option Z) (m : list Z) : list Z :=
  imap (fun i old => if in_page cmd address i
                     then match lt (i mod 32)%nat with Some v => cell_effect cmd old v | None => old end
                     else old) m.

Definition page_command (cmd : Z) : bool :=
  (cmd =? NVM_CMD_ERASE_EEPROM) || (cmd =? NVM_CMD_ERASE_EEPROM_PAGE)
  || (cmd =? NVM_CMD_WRITE_EEPROM_PAGE) || (cmd =? NVM_CMD_ERASE_WRITE_EEPROM_PAGE).

(** The documented behaviour: the memory is stable between commands; a store to a
    mapped address loads the page buffer at the address within a page; the page
    commands change exactly the cells for which a byte is loaded and empty the
    buffer; and nothing is promised about a store or a command during another
    command. *)
Class ControllerLaws (H : Type) `{Controller H} : Prop := {
  cells_length : forall h, length (cells h) = Z.to_nat EEPROM_SIZE;
  settle_ready : forall h, busy (settle h) = false;
  settle_id : forall h, busy h = false -> settle h = h;
  eeload_off : forall h, busy h = false -> eeload h = false -> forall i, latch h i = None;
  store_latch_ready : forall a v h, busy h = false -> busy (store_latch a v h) = false;
  store_latch_cells : forall a v h, busy h = false -> cells (store_latch a v h) = cells h;
  store_latch_latch : forall a v h i, busy h = false -> 0 <= a ->
    latch (store_latch a v h) i = if decide (Z.of_nat i = a mod EEPROM_PAGE_SIZE) then Some v else latch h i;
  exec_flush : forall a h, busy h = false ->
    cells (settle (exec NVM_CMD_ERASE_EEPROM_BUFFER a h)) = cells h /\
    forall i, latch (settle (exec NVM_CMD_ERASE_EEPROM_BUFFER a h)) i = None;
  exec_page : forall cmd a h, busy h = false -> page_command cmd = true -> cmd = NVM_CMD_ERASE_EEPROM \/ 0 <= a < EEPROM_SIZE ->
    cells (settle (exec cmd a h)) = commit cmd a (latch h) (cells h) /\
    forall i, latch (settle (exec cmd a h)) i = None
}.

(** ** The driver *)

Section Driver.
Context {H : Type} `{Controller H}.

Record Nvm := mkNvm { hw : H; CMD : Z; ADDR0 : Z; ADDR1 : Z; ADDR2 : Z; mapped : bool }.

Definition set_hw (h : H) (s : Nvm) : Nvm := let '(mkNvm _ c a0 a1 a2 m) := s in mkNvm h c a0 a1 a2 m.
Definition set_CMD (c : Z) (s : Nvm) : Nvm := let '(mkNvm h _ a0 a1 a2 m) := s in mkNvm h c a0 a1 a2 m.
Definition set_ADDR (x0 x1 x2 : Z) (s : Nvm) : Nvm := let '(mkNvm h c _ _ _ m) := s in mkNvm h c x0 x1 x2 m.
Definition set_mapped (b : bool) (s : Nvm) : Nvm := let '(mkNvm h c a0 a1 a2 _) := s in mkNvm h c a0 a1 a2 b.

(** The polling loop ends in the state where the command is done. *)
Definition nvm_wait_until_ready : M Nvm unit := modify (fun s => set_hw (settle (hw s)) s).

Definition nvm_exec : M Nvm unit :=
  modify (fun s => set_hw (exec (CMD s) (ADDR0 s + 256 * ADDR1 s + 65536 * ADDR2 s) (hw s)) s).

Definition nvm_issue_command (nvm_command : Z) : M Nvm unit :=
  old_cmd ← gets CMD;
  _ ← modify (set_CMD nvm_command);
  _ ← nvm_exec;
  modify (set_CMD old_cmd).

Definition eeprom_enable_mapping : M Nvm unit := modify (set_mapped true).
Definition eeprom_disable_mapping : M Nvm unit := modify (set_mapped false).

(** Loads from and stores to the mapped memory, which is there only while the
    mapping is enabled. *)
Definition mapped_read (address len : Z) : M Nvm (list Z) := fun s =>
  if mapped s && negb (busy (hw s)) && (0 <=? address) && (0 <=? len) && (address + len <=? EEPROM_SIZE)
  then Some (s, take (Z.to_nat len) (drop (Z.to_nat address) (cells (hw s)))) else None.
Definition mapped_write (address value : Z) : M Nvm unit := fun s =>
  if mapped s && (0 <=? address) && (address <? EEPROM_SIZE)
  then Some (set_hw (store_latch address value (hw s)) s, tt) else None.

Definition nvm_eeprom_read_byte (addr : Z) : M Nvm Z :=
  _ ← nvm_wait_until_ready;
  _ ← eeprom_enable_mapping;
  data ← mapped_read addr 1;
  _ ← eeprom_disable_mapping;
  of_option (load data 0).

Definition nvm_eeprom_read_buffer (address len : Z) : M Nvm (list Z) :=
  _ ← nvm_wait_until_ready;
  _ ← eeprom_enable_mapping;
  data ← mapped_read address len;
  _ ← eeprom_disable_mapping;
  mret data.

Definition nvm_eeprom_flush_buffer : M Nvm unit :=
  _ ← nvm_wait_until_ready;
  loaded ← gets (fun s => eeload (hw s));
  when loaded (_ ← modify (set_CMD NVM_CMD_ERASE_EEPROM_BUFFER); nvm_exec).

Definition nvm_eeprom_load_byte_to_buffer (byte_addr value : Z) : M Nvm unit :=
  _ ← nvm_wait_until_ready;
  _ ← eeprom_enable_mapping;
  _ ← mapped_write (u8 byte_addr) (u8 value);
  eeprom_disable_mapping.

Definition set_address (address : Z) : M Nvm unit :=
  modify (set_ADDR (Z.land address 255) (Z.land (Z.shiftr address 8) 255) 0).

Definition nvm_eeprom_write_byte (address value : Z) : M Nvm unit :=
  old_cmd ← gets CMD;
  _ ← nvm_eeprom_flush_buffer;
  _ ← nvm_wait_until_ready;
  _ ← nvm_eeprom_load_byte_to_buffer address value;
  _ ← set_address address;
  _ ← modify (set_CMD NVM_CMD_ERASE_WRITE_EEPROM_PAGE);
  _ ← nvm_exec;
  modify (set_CMD old_cmd).

(** The loops over the bytes of a page. *)
Fixpoint load_loop (i : Z) (values : list Z) : M Nvm unit :=
  match values with
  | [] => mret tt
  | v :: values => _ ← nvm_eeprom_load_byte_to_buffer i v; load_loop (i + 1) values
  end.

Definition nvm_eeprom_load_page_to_buffer (values : list Z) : M Nvm unit :=
  _ ← nvm_wait_until_ready;
  if len values <? EEPROM_PAGE_SIZE then of_option None
  else load_loop 0 (take (Z.to_nat EEPROM_PAGE_SIZE) values).

Definition nvm_eeprom_atomic_write_page (page_addr : Z) : M Nvm unit :=
  _ ← nvm_wait_until_ready;
  _ ← set_address (u16 (page_addr * EEPROM_PAGE_SIZE));
  nvm_issue_command NVM_CMD_ERASE_WRITE_EEPROM_PAGE.

Definition nvm_eeprom_split_write_page (page_addr : Z) : M Nvm unit :=
  _ ← nvm_wait_until_ready;
  _ ← set_address (u16 (page_addr * EEPROM_PAGE_SIZE));
  nvm_issue_command NVM_CMD_WRITE_EEPROM_PAGE.

Definition nvm_eeprom_fill_buffer_with_value (value : Z) : M Nvm unit :=
  _ ← nvm_eeprom_flush_buffer;
  _ ← nvm_wait_until_ready;
  load_loop 0 (replicate (Z.to_nat EEPROM_PAGE_SIZE) value).

Definition nvm_eeprom_erase_bytes_in_page (page_addr : Z) : M Nvm unit :=
  _ ← nvm_wait_until_ready;
  _ ← set_address (u16 (page_addr * EEPROM_PAGE_SIZE));
  nvm_issue_command NVM_CMD_ERASE_EEPROM_PAGE.

Definition nvm_eeprom_erase_page (page_addr : Z) : M Nvm unit :=
  _ ← nvm_eeprom_fill_buffer_with_value 0xff;
  nvm_eeprom_erase_bytes_in_page page_addr.

Definition nvm_eeprom_erase_bytes_in_all_pages : M Nvm unit :=
  _ ← nvm_wait_until_ready;
  nvm_issue_command NVM_CMD_ERASE_EEPROM.

Definition nvm_eeprom_erase_all : M Nvm unit :=
  _ ← nvm_eeprom_fill_buffer_with_value 0xff;
  nvm_eeprom_erase_bytes_in_all_pages.

(** The loop over the rest of the buffer. *)
Fixpoint write_buffer_loop (fuel : nat) (address : Z) (buf : list Z) (len : Z) : M Nvm unit :=
  match fuel with
  | O => of_option None
  | S fuel =>
      if len =? 0 then mret tt
      else if (address mod EEPROM_PAGE_SIZE =? 0) && (len >=? EEPROM_PAGE_SIZE) then
        _ ← nvm_eeprom_load_page_to_buffer buf;
        _ ← nvm_eeprom_atomic_write_page (u8 (address / EEPROM_PAGE_SIZE));
        write_buffer_loop fuel (u16 (address + EEPROM_PAGE_SIZE)) (drop (Z.to_nat EEPROM_PAGE_SIZE) buf) (len - EEPROM_PAGE_SIZE)
      else
        v ← of_option (load buf 0);
        _ ← nvm_eeprom_write_byte address v;
        write_buffer_loop fuel (u16 (address + 1)) (drop 1 buf) (len - 1)
  end.

Definition nvm_eeprom_erase_and_write_buffer (address : Z) (buf : list Z) (len : Z) : M Nvm unit :=
  write_buffer_loop (S (Z.to_nat len)) address buf len.
End Driver.
Arguments Nvm : clear implicits.

(** ** Committing the page buffer *)

Lemma commit_length cmd a lt m : length (commit cmd a lt m) = length m.
Proof. apply length_imap. Qed.

Lemma commit_lookup cmd a lt m i : commit cmd a lt m !! i =
  (fun old => if in_page cmd a i then match lt (i mod 32)%nat with Some v => cell_effect cmd old v | None => old end else old)
    <$> m !! i.
Proof. apply list_lookup_imap. Qed.

Lemma in_page_split a i : 0 <= a ->
  in_page NVM_CMD_ERASE_WRITE_EEPROM_PAGE a i = true <-> Z.of_nat i = a - a mod 32 + Z.of_nat (i mod 32).
Proof.
  intros Ha. unfold in_page, EEPROM_PAGE_SIZE. cbn [Z.eqb orb]. rewrite Nat2Z.inj_mod, orb_false_l, Z.eqb_eq.
  change (Z.of_nat 32) with 32. split; intros; lia_mod.
Qed.

(** One loaded byte changes one cell. *)
Lemma commit_byte a v lt m : 0 <= a ->
  (forall i, lt i = if decide (Z.of_nat i = a mod 32) then Some v else None) ->
  commit NVM_CMD_ERASE_WRITE_EEPROM_PAGE a lt m = <[Z.to_nat a := v]> m.
Proof.
  intros Ha Hl. apply list_eq. intros i. rewrite commit_lookup, Hl.
  pose proof (in_page_split a i Ha) as Hp. pose proof (Z.mod_pos_bound a 32 ltac:(lia)) as Hm.
  destruct (decide (Z.to_nat a = i /\ (i < length m)%nat)) as [Hd|Hne].
  - destruct Hd as [<- Hlt].
    destruct (lookup_lt_is_Some_2 m (Z.to_nat a) Hlt) as [old ->]. cbn [fmap option_fmap option_map].
    assert (Z.of_nat (Z.to_nat a mod 32) = a mod 32) as E by (rewrite Nat2Z.inj_mod, Z2Nat.id by lia; reflexivity).
    rewrite decide_True by exact E. rewrite (proj2 Hp) by lia. rewrite list_lookup_insert_eq by exact Hlt. reflexivity.
  - replace (<[Z.to_nat a:=v]> m !! i) with (m !! i) by
      (destruct (decide (Z.to_nat a = i)) as [<-|]; [|rewrite list_lookup_insert_ne by assumption; reflexivity];
       rewrite list_insert_ge by (apply Nat.nlt_ge; tauto); reflexivity).
    destruct (m !! i) as [old|] eqn:Em; [|reflexivity]. cbn [fmap option_fmap option_map]. f_equal.
    apply lookup_lt_Some in Em. destruct (in_page _ _ _); [|reflexivity].
    destruct (decide _) as [E|]; [|reflexivity]. contradiction Hne. split; [|exact Em].
    destruct Hp as [Hp _]. specialize (Hp eq_refl). lia.
Qed.

(** A loaded page changes a page. *)
Lemma commit_full_page a vs lt m : 0 <= a -> a mod 32 = 0 -> a + 32 <= len m -> length vs = 32%nat ->
  (forall i, (i < 32)%nat -> lt i = vs !! i) ->
  commit NVM_CMD_ERASE_WRITE_EEPROM_PAGE a lt m = take (Z.to_nat a) m ++ vs ++ drop (Z.to_nat a + 32) m.
Proof.
  intros Ha Hm Hlen Hvs Hl. apply list_eq. intros i. rewrite commit_lookup.
  pose proof (in_page_split a i Ha) as Hp. pose proof (Nat.mod_upper_bound i 32 ltac:(lia)) as Hi.
  rewrite Hl by exact Hi. rewrite Hm, Z.sub_0_r in Hp.
  destruct (decide (i < Z.to_nat a)%nat) as [H1|H1].
  - rewrite lookup_app_l by (rewrite length_take; lia). rewrite lookup_take_lt by exact H1.
    destruct (in_page _ _ _); [|destruct (m !! i); reflexivity]. destruct Hp as [Hp _]. specialize (Hp eq_refl). lia.
  - rewrite lookup_app_r by (rewrite length_take; lia). rewrite length_take, Nat.min_l by lia.
    destruct (decide (i < Z.to_nat a + 32)%nat) as [H2|H2].
    + rewrite lookup_app_l by lia.
      assert (i mod 32 = i - Z.to_nat a)%nat as E.
      { apply Nat2Z.inj. rewrite Nat2Z.inj_mod, Nat2Z.inj_sub, Z2Nat.id by lia. change (Z.of_nat 32) with 32. lia_mod. }
      rewrite E in *. destruct (lookup_lt_is_Some_2 m i ltac:(lia)) as [old ->].
      rewrite (proj2 Hp) by lia. destruct (lookup_lt_is_Some_2 vs (i - Z.to_nat a) ltac:(lia)) as [v ->]. reflexivity.
    + rewrite lookup_app_r by lia. rewrite lookup_drop. replace (Z.to_nat a + 32 + (i - Z.to_nat a - length vs))%nat with i by lia.
      destruct (in_page _ _ _); [|destruct (m !! i); reflexivity]. destruct Hp as [Hp _]. specialize (Hp eq_refl). lia.
Qed.

(** ** The driver against the controller *)

Section Specs.
Context {H : Type} `{HL : ControllerLaws H}.

(** What the EEPROM holds once the controller is done. *)
Definition contents (s : Nvm H) : list Z := cells (settle (hw s)).

Lemma contents_length s : len (contents s) = EEPROM_SIZE.
Proof. unfold contents. rewrite cells_length. reflexivity. Qed.

Lemma settle_settle h : settle (settle h) = settle h.
Proof. apply settle_id, settle_ready. Qed.

Lemma flush_spec s : exists s1, nvm_eeprom_flush_buffer s = Some (s1, tt) /\
  contents s1 = contents s /\ forall i, latch (settle (hw s1)) i = None.
Proof.
  destruct s as [h c a0 a1 a2 m]. unfold nvm_eeprom_flush_buffer, nvm_wait_until_ready, nvm_exec, contents. run. cbn [set_hw hw].
  destruct (eeload (settle h)) eqn:E; run; (eexists; split; [reflexivity|]); cbn [set_CMD set_hw hw CMD ADDR0 ADDR1 ADDR2].
  - apply exec_flush, settle_ready.
  - rewrite settle_settle. split; [reflexivity|]. apply eeload_off; [apply settle_ready|exact E].
Qed.

Lemma load_byte_spec s a v : 0 <= a -> exists s1,
  nvm_eeprom_load_byte_to_buffer a v s = Some (s1, tt) /\ busy (hw s1) = false /\ cells (hw s1) = contents s /\
  CMD s1 = CMD s /\
  forall i, latch (hw s1) i = if decide (Z.of_nat i = a mod 32) then Some (u8 v) else latch (settle (hw s)) i.
Proof.
  intros Ha. destruct s as [h c a0 a1 a2 m].
  unfold nvm_eeprom_load_byte_to_buffer, nvm_wait_until_ready, eeprom_enable_mapping, eeprom_disable_mapping, mapped_write, contents. run.
  cbn [set_hw set_mapped hw mapped]. pose proof (u8_range a) as Hu. unfold EEPROM_SIZE.
  rewrite (proj2 (Z.leb_le 0 (u8 a))), (proj2 (Z.ltb_lt (u8 a) 1024)) by lia. cbn [andb].
  eexists. split; [reflexivity|]. cbn [set_hw set_mapped hw CMD]. pose proof (settle_ready h) as Hr.
  split; [apply store_latch_ready, Hr|]. split; [apply store_latch_cells, Hr|]. split; [reflexivity|].
  intros i. rewrite store_latch_latch by (assumption || lia).
  replace (u8 a mod EEPROM_PAGE_SIZE) with (a mod 32) by (unfold u8, EEPROM_PAGE_SIZE; lia_mod). reflexivity.
Qed.

Lemma load_loop_spec vs : forall k s, 0 <= k -> k + len vs <= 32 -> exists s1,
  load_loop k vs s = Some (s1, tt) /\ contents s1 = contents s /\ CMD s1 = CMD s /\
  forall i, latch (settle (hw s1)) i =
    if decide (k <= Z.of_nat i < k + len vs) then (u8 <$> vs) !! (i - Z.to_nat k)%nat else latch (settle (hw s)) i.
Proof.
  induction vs as [|v vs IH]; intros k s Hk Hl.
  - exists s. split; [reflexivity|]. split; [reflexivity|]. split; [reflexivity|]. intros i.
    rewrite decide_False by (cbn; lia). reflexivity.
  - cbn [load_loop length] in *. destruct (load_byte_spec s k v Hk) as (s1 & E1 & B1 & C1 & M1 & L1).
    destruct (IH (k + 1) s1 ltac:(lia) ltac:(lia)) as (s2 & E2 & C2 & M2 & L2).
    exists s2. split; [step E1; exact E2|]. unfold contents in C2 at 2. rewrite settle_id in C2 by exact B1.
    split; [congruence|]. split; [congruence|]. intros i. rewrite L2. rewrite (settle_id _ B1), L1, Z.mod_small by lia.
    destruct (decide (Z.of_nat i = k)) as [E|N].
    + rewrite decide_False, decide_True by lia. replace (i - Z.to_nat k)%nat with 0%nat by lia. reflexivity.
    + destruct (decide (k + 1 <= Z.of_nat i < k + 1 + len vs)) as [E|N'].
      * rewrite decide_True by lia. replace (i - Z.to_nat k)%nat with (S (i - Z.to_nat (k + 1))) by lia. reflexivity.
      * rewrite decide_False by lia. reflexivity.
Qed.

Lemma address_split a : 0 <= a < 65536 -> Z.land a 255 + 256 * Z.land (Z.shiftr a 8) 255 + 65536 * 0 = a.
Proof.
  intros Ha. change 255 with (Z.ones 8). rewrite !Z.land_ones, Z.shiftr_div_pow2 by lia.
  change (2 ^ 8) with 256. lia_mod.
Qed.

(** Executing a page command at an address. *)
Lemma page_exec_spec cmd a s : busy (hw s) = false -> page_command cmd = true -> 0 <= a < EEPROM_SIZE ->
  exists s1, (_ ← set_address a; _ ← modify (set_CMD cmd); nvm_exec) s = Some (s1, tt) /\
    contents s1 = commit cmd a (latch (hw s)) (cells (hw s)).
Proof.
  intros Hb Hc Ha. destruct s as [h c a0 a1 a2 m]. unfold set_address, nvm_exec, contents. run.
  eexists. split; [reflexivity|]. cbn [set_CMD set_ADDR set_hw hw CMD ADDR0 ADDR1 ADDR2] in *.
  unfold EEPROM_SIZE in Ha. rewrite address_split by lia. apply exec_page; auto.
Qed.

Lemma issue_page_spec cmd a s : busy (hw s) = false -> page_command cmd = true -> 0 <= a < EEPROM_SIZE ->
  exists s1, (_ ← set_address a; nvm_issue_command cmd) s = Some (s1, tt) /\ CMD s1 = CMD s /\
    contents s1 = commit cmd a (latch (hw s)) (cells (hw s)).
Proof.
  intros Hb Hc Ha. destruct s as [h c a0 a1 a2 m]. unfold nvm_issue_command, set_address, nvm_exec, contents. run.
  eexists. split; [reflexivity|]. cbn [set_CMD set_ADDR set_hw hw CMD ADDR0 ADDR1 ADDR2] in *. split; [reflexivity|].
  unfold EEPROM_SIZE in Ha. rewrite address_split by lia. apply exec_page; auto.
Qed.

(** Writing a byte. *)
Lemma write_byte_spec s a v : 0 <= a < EEPROM_SIZE -> exists s1,
  nvm_eeprom_write_byte a v s = Some (s1, tt) /\ CMD s1 = CMD s /\ contents s1 = <[Z.to_nat a := u8 v]> (contents s).
Proof.
  intros Ha. unfold nvm_eeprom_write_byte. destruct (flush_spec s) as (s1 & E1 & C1 & L1).
  set (s2 := set_hw (settle (hw s1)) s1).
  assert (hw s2 = settle (hw s1)) as Eh by (destruct s1; reflexivity).
  destruct (load_byte_spec s2 a v ltac:(lia)) as (s3 & E3 & B3 & C3 & _ & L3).
  destruct (page_exec_spec NVM_CMD_ERASE_WRITE_EEPROM_PAGE a s3 B3 eq_refl Ha) as (s4 & E4 & C4).
  exists (set_CMD (CMD s) s4). split; [|split; [destruct s4; reflexivity|]].
  - step_pure. step E1. step_pure. step E3. revert E4. run. 
    destruct (set_address a s3) as [[s3' ?]|]; [|discriminate].
    destruct (nvm_exec (set_CMD NVM_CMD_ERASE_WRITE_EEPROM_PAGE s3')) as [[s4' ?]|]; [|discriminate].
    intros [= ->]. reflexivity.
  - replace (contents (set_CMD (CMD s) s4)) with (contents s4) by (destruct s4; reflexivity).
    rewrite C4, C3, (commit_byte a (u8 v)) by (first [lia|intros i; rewrite L3, Eh, settle_settle, L1; reflexivity]).
    unfold contents at 1. rewrite Eh, settle_settle. fold (contents s1). rewrite C1. reflexivity.
Qed.

(** Writing a page. *)
Lemma write_page_spec s a buf : 0 <= a -> a mod 32 = 0 -> a + 32 <= EEPROM_SIZE -> 32 <= len buf -> exists s1,
  (_ ← nvm_eeprom_load_page_to_buffer buf; nvm_eeprom_atomic_write_page (u8 (a / 32))) s = Some (s1, tt) /\
  CMD s1 = CMD s /\ contents s1 = patched (contents s) (Z.to_nat a) (u8 <$> take 32 buf).
Proof.
  intros Ha Hm Hl Hb. unfold EEPROM_SIZE in Hl. unfold nvm_eeprom_load_page_to_buffer, EEPROM_PAGE_SIZE.
  rewrite (proj2 (Z.ltb_ge _ _)) by lia. change (Z.to_nat 32) with 32%nat.
  set (s0 := set_hw (settle (hw s)) s).
  assert (hw s0 = settle (hw s) /\ CMD s0 = CMD s) as [Eh Ec] by (destruct s; split; reflexivity).
  destruct (load_loop_spec (take 32 buf) 0 s0) as (s1 & E1 & C1 & M1 & L1); [lia|rewrite length_take; lia|].
  set (s2 := set_hw (settle (hw s1)) s1).
  assert (hw s2 = settle (hw s1) /\ CMD s2 = CMD s1) as [Eh2 Ec2] by (destruct s1; split; reflexivity).
  assert (u16 (u8 (a / 32) * 32) = a) as Ea by (rewrite u8_id, u16_id by lia_mod; lia_mod).
  destruct (issue_page_spec NVM_CMD_ERASE_WRITE_EEPROM_PAGE a s2) as (s3 & E3 & M3 & C3);
    [rewrite Eh2; apply settle_ready|reflexivity|unfold EEPROM_SIZE; lia|].
  exists s3. split; [|split; [congruence|]].
  - unfold nvm_eeprom_atomic_write_page, EEPROM_PAGE_SIZE. rewrite Ea.
    eapply eq_trans; [eapply bind_step; step_pure; exact E1|]. step_pure. exact E3.
  - pose proof (contents_length s) as Lc. unfold EEPROM_SIZE in Lc.
    assert (cells (hw s2) = contents s) as Ecell.
    { rewrite Eh2. fold (contents s1). rewrite C1. unfold contents. rewrite Eh, settle_settle. reflexivity. }
    rewrite C3, Ecell. rewrite (commit_full_page a (u8 <$> take 32 buf)); [|lia|exact Hm|lia| |].
    + unfold patched. rewrite length_fmap, length_take. replace (32 `min` length buf)%nat with 32%nat by lia. reflexivity.
    + rewrite length_fmap, length_take. lia.
    + intros i Hi. rewrite Eh2, L1, decide_True by (rewrite length_take; lia). rewrite Nat.sub_0_r. reflexivity.
Qed.

Lemma write_buffer_loop_spec fuel : forall s a buf n, 0 <= n -> (Z.to_nat n < fuel)%nat -> 0 <= a -> a + n <= EEPROM_SIZE -> n <= len buf ->
  exists s1, write_buffer_loop fuel a buf n s = Some (s1, tt) /\ CMD s1 = CMD s /\
    contents s1 = patched (contents s) (Z.to_nat a) (u8 <$> take (Z.to_nat n) buf).
Proof.
  induction fuel as [|fuel IH]; intros s a buf n Hn Hf Ha Hl Hb; [lia|]. cbn [write_buffer_loop]. unfold EEPROM_PAGE_SIZE, EEPROM_SIZE in *.
  pose proof (contents_length s) as Lc. unfold EEPROM_SIZE in Lc.
  destruct (Z.eqb_spec n 0) as [->|Hn0].
  { exists s. rewrite take_0. cbn. rewrite patched_nil. auto. }
  destruct ((a mod 32 =? 0) && (n >=? 32)) eqn:Hp.
  - bool_hyps. destruct (write_page_spec s a buf Ha) as (s1 & E1 & M1 & C1); [assumption|unfold EEPROM_SIZE; lia|lia|].
    destruct (IH s1 (a + 32) (drop 32 buf) (n - 32)) as (s2 & E2 & M2 & C2); [lia|lia|lia|lia|rewrite length_drop; lia|].
    exists s2. split; [|split; [congruence|]].
    + rewrite u16_id by lia. revert E1. run. 
      destruct (nvm_eeprom_load_page_to_buffer buf s) as [[s' ?]|]; [|discriminate]. intros ->. exact E2.
    + assert (length (u8 <$> take 32 buf) = 32%nat) as Lp by (rewrite length_fmap, length_take; lia).
      rewrite C2, C1. replace (Z.to_nat (a + 32)) with (Z.to_nat a + length (u8 <$> take 32 buf))%nat by lia.
      rewrite patched_app by lia. rewrite <- fmap_app, take_take_drop. do 3 f_equal. lia.
  - destruct buf as [|v buf]; [cbn in Hb; lia|].
    destruct (write_byte_spec s a v) as (s1 & E1 & M1 & C1); [unfold EEPROM_SIZE; lia|].
    destruct (IH s1 (a + 1) buf (n - 1)) as (s2 & E2 & M2 & C2); [lia|lia|lia|lia|cbn in Hb; lia|].
    exists s2. split; [|split; [congruence|]].
    + rewrite u16_id by lia. step_pure. step E1. exact E2.
    + rewrite C2, C1, <- patched_one by lia. replace (Z.to_nat (a + 1)) with (Z.to_nat a + length [u8 v])%nat by (cbn; lia).
      rewrite patched_app by (cbn; lia). replace (Z.to_nat n) with (S (Z.to_nat (n - 1))) by lia. reflexivity.
Qed.

(** Reading. *)
Lemma read_buffer_spec s a n : 0 <= a -> 0 <= n -> a + n <= EEPROM_SIZE -> exists s1,
  nvm_eeprom_read_buffer a n s = Some (s1, take (Z.to_nat n) (drop (Z.to_nat a) (contents s))) /\ contents s1 = contents s /\ CMD s1 = CMD s.
Proof.
  intros Ha Hn Hl. destruct s as [h c a0 a1 a2 m].
  unfold nvm_eeprom_read_buffer, nvm_wait_until_ready, eeprom_enable_mapping, eeprom_disable_mapping, mapped_read, contents. run.
  cbn [set_hw set_mapped hw mapped]. rewrite settle_ready, !(proj2 (Z.leb_le _ _)) by lia. cbn [andb negb].
  eexists. split; [reflexivity|]. cbn [set_hw set_mapped hw CMD]. rewrite settle_settle. auto.
Qed.

Lemma read_byte_spec s a : 0 <= a < EEPROM_SIZE -> exists s1 v,
  nvm_eeprom_read_byte a s = Some (s1, v) /\ contents s !! Z.to_nat a = Some v /\ contents s1 = contents s /\ CMD s1 = CMD s.
Proof.
  intros Ha. pose proof (contents_length s) as Lc. 
  destruct (lookup_lt_is_Some_2 (contents s) (Z.to_nat a) ltac:(lia)) as [v Hv].
  destruct s as [h c a0 a1 a2 m]. 
  unfold nvm_eeprom_read_byte, nvm_wait_until_ready, eeprom_enable_mapping, eeprom_disable_mapping, mapped_read, contents in *. run.
  cbn [set_hw set_mapped hw mapped]. rewrite settle_ready, !(proj2 (Z.leb_le _ _)) by lia. cbn [andb negb].
  cbn [hw] in Hv. unfold load. change (Z.to_nat 1) with 1%nat. change (Z.to_nat 0) with 0%nat. rewrite (drop_S _ _ _ Hv). cbn.
  eexists _, v. split; [reflexivity|]. cbn. rewrite settle_settle. auto.
Qed.

(** Erasing: every byte of the buffer is loaded, so the whole page changes. *)
Lemma fill_spec s v : exists s1, nvm_eeprom_fill_buffer_with_value v s = Some (s1, tt) /\ contents s1 = contents s /\ forall i, (i < 32)%nat -> latch (settle (hw s1)) i = Some (u8 v).
Proof.
  unfold nvm_eeprom_fill_buffer_with_value. destruct (flush_spec s) as (s1 & E1 & C1 & _).
  set (s2 := set_hw (settle (hw s1)) s1). assert (hw s2 = settle (hw s1)) as Eh by (destruct s1; reflexivity).
  destruct (load_loop_spec (replicate 32 v) 0 s2) as (s3 & E3 & C3 & _ & L3); [lia|rewrite length_replicate; lia|].
  exists s3. split; [step E1; step_pure; exact E3|]. split.
  - rewrite C3, <- C1. unfold contents. rewrite Eh, settle_settle. reflexivity.
  - intros i Hi. rewrite L3, decide_True by (rewrite length_replicate; lia).
    rewrite fmap_replicate. apply lookup_replicate_2. lia.
Qed.

Lemma erase_page_spec s page : 0 <= page < 32 -> exists s1,
  nvm_eeprom_erase_page page s = Some (s1, tt) /\ contents s1 = imap (fun i old => if Z.of_nat i / 32 =? page then 255 else old) (contents s).
Proof.
  intros Hp. unfold nvm_eeprom_erase_page, nvm_eeprom_erase_bytes_in_page, EEPROM_PAGE_SIZE.
  destruct (fill_spec s 255) as (s1 & E1 & C1 & L1). rewrite u16_id by lia.
  set (s2 := set_hw (settle (hw s1)) s1). assert (hw s2 = settle (hw s1)) as Eh by (destruct s1; reflexivity).
  destruct (issue_page_spec NVM_CMD_ERASE_EEPROM_PAGE (page * 32) s2) as (s3 & E3 & _ & C3);
    [rewrite Eh; apply settle_ready|reflexivity|unfold EEPROM_SIZE; lia|].
  exists s3. split; [step E1; step_pure; exact E3|]. rewrite C3, Eh. fold (contents s1). rewrite C1.
  unfold commit. apply imap_ext. intros i old _. unfold in_page, EEPROM_PAGE_SIZE. rewrite Z.div_mul by lia. cbn [Z.eqb orb].
  rewrite L1 by (apply Nat.mod_upper_bound; lia). reflexivity.
Qed.

Lemma erase_all_spec s : exists s1,
  nvm_eeprom_erase_all s = Some (s1, tt) /\ contents s1 = replicate (Z.to_nat EEPROM_SIZE) 255.
Proof.
  unfold nvm_eeprom_erase_all, nvm_eeprom_erase_bytes_in_all_pages.
  destruct (fill_spec s 255) as (s1 & E1 & C1 & L1). pose proof (contents_length s1) as Lc.
  exists (set_hw (exec NVM_CMD_ERASE_EEPROM (ADDR0 s1 + 256 * ADDR1 s1 + 65536 * ADDR2 s1) (settle (hw s1))) s1).
  split; [step E1; destruct s1; reflexivity|].
  destruct s1 as [h c a0 a1 a2 m]. unfold contents. cbn [set_hw hw ADDR0 ADDR1 ADDR2] in *.
  destruct (exec_page NVM_CMD_ERASE_EEPROM (a0 + 256 * a1 + 65536 * a2) (settle h) (settle_ready h) eq_refl (or_introl eq_refl)) as [-> _].
  change (length (cells (settle h))) with (length (contents (mkNvm h c a0 a1 a2 m))) in Lc.
  apply list_eq. intros i. rewrite commit_lookup, L1 by (apply Nat.mod_upper_bound; lia). cbn [in_page orb Z.eqb].
  destruct (decide (i < 1024)%nat) as [Hi|Hi].
  - destruct (lookup_lt_is_Some_2 (cells (settle h)) i) as [old ->]; [unfold contents, EEPROM_SIZE in Lc; cbn [hw] in Lc; lia|].
    rewrite lookup_replicate_2 by (change (Z.to_nat EEPROM_SIZE) with 1024%nat; lia). reflexivity.
  - rewrite !lookup_ge_None_2; [reflexivity|rewrite length_replicate; change (Z.to_nat EEPROM_SIZE) with 1024%nat; lia|].
    unfold contents, EEPROM_SIZE in Lc. cbn [hw] in Lc. lia.
Qed.
End Specs.

(** ** Properties *)

Section Claims.
Context {H : Type} `{HL : ControllerLaws H}.

(** Writing a buffer to the EEPROM changes exactly the bytes from the address
    on, for any address and length that fit: it mixes single bytes and whole
    pages, and neither touches a neighbour in its page nor depends on what an
    interrupted write left in the page buffer. It ends for every length, and
    reading the range back gives the buffer. *)
Theorem eeprom_write_read (s : Nvm H) a buf :
  0 <= a -> a + len buf <= EEPROM_SIZE -> Forall (fun b => 0 <= b < 256) buf ->
  exists s1 s2, nvm_eeprom_erase_and_write_buffer a buf (len buf) s = Some (s1, tt) /\ CMD s1 = CMD s /\
    contents s1 = patched (contents s) (Z.to_nat a) buf /\
    nvm_eeprom_read_buffer a (len buf) s1 = Some (s2, buf) /\ contents s2 = contents s1.
Proof.
  intros Ha Hl Hb. pose proof (contents_length s) as Lc.
  destruct (write_buffer_loop_spec (S (Z.to_nat (len buf))) s a buf (len buf)) as (s1 & E1 & M1 & C1); [lia..|].
  rewrite Nat2Z.id, take_ge in C1 by lia.
  assert (u8 <$> buf = buf) as Eb.
  { clear -Hb. induction Hb as [|b buf Hb _ IH]; [reflexivity|]. cbn. rewrite u8_id by exact Hb. f_equal. exact IH. }
  rewrite Eb in C1. destruct (read_buffer_spec s1 a (len buf)) as (s2 & E2 & C2 & _); [lia..|].
  exists s1, s2. split; [exact E1|]. split; [exact M1|]. split; [exact C1|]. split; [|exact C2].
  rewrite E2, C1. do 2 f_equal. unfold patched. rewrite drop_app_ge by (rewrite length_take; lia).
  rewrite length_take, Nat.min_l, Nat.sub_diag, drop_0, Nat2Z.id by lia. apply take_app_length.
Qed.

(** Erasing a page sets its 32 bytes, and erasing all sets every byte, to the
    erased value, and nothing else changes. *)
Theorem eeprom_erase (s : Nvm H) page : 0 <= page < 32 ->
  (exists s1, nvm_eeprom_erase_page page s = Some (s1, tt) /\
     contents s1 = imap (fun i old => if Z.of_nat i / 32 =? page then 255 else old) (contents s)) /\
  (exists s1, nvm_eeprom_erase_all s = Some (s1, tt) /\ contents s1 = replicate (Z.to_nat EEPROM_SIZE) 255).
Proof. intros Hp. split; [apply erase_page_spec, Hp|apply erase_all_spec]. Qed.
End Claims.

(** ** Witnesses *)

(** A controller that carries out a command when it is waited for. *)
Record Model := mkModel { raw : nat -> Z; loaded : nat -> option Z; pending_cmd : option (Z * Z) }.

Definition raw_commit (cmd a : Z) (lt : nat -> option Z) (r : nat -> Z) : nat -> Z := fun i =>
  if in_page cmd a i then match lt (i mod 32)%nat with Some v => cell_effect cmd (r i) v | None => r i end else r i.

Definition model_settle (h : Model) : Model :=
  match pending_cmd h with
  | None => h
  | Some (cmd, a) => mkModel (if page_command cmd then raw_commit cmd a (loaded h) (raw h) else raw h) (fun _ => None) None
  end.

Definition model_latch (h : Model) (i : nat) : option Z := if (i <? 32)%nat then loaded h i else None.

#[local] Instance model_controller : Controller Model := {|
  cells := fun h => map (raw h) (seq 0 1024);
  latch := model_latch;
  busy := fun h => match pending_cmd h with None => false | Some _ => true end;
  eeload := fun h => existsb (fun i => match loaded h i with None => false | Some _ => true end) (seq 0 32);
  settle := model_settle;
  store_latch := fun a v h =>
    mkModel (raw h) (fun i => if decide (Z.of_nat i = a mod 32) then Some v else loaded h i) (pending_cmd h);
  exec := fun cmd a h => mkModel (raw h) (loaded h) (Some (cmd, a))
|}.

Lemma model_empty h i : existsb (fun i => match loaded h i with None => false | Some _ => true end) (seq 0 32) = false ->
  model_latch h i = None.
Proof.
  intros E. unfold model_latch. destruct (Nat.ltb_spec i 32) as [Hi|_]; [|reflexivity].
  destruct (loaded h i) eqn:Ei; [|reflexivity]. exfalso. apply Bool.not_true_iff_false in E. apply E.
  apply existsb_exists. exists i. rewrite Ei. split; [apply in_seq; lia|reflexivity].
Qed.

Lemma model_commit cmd a h :
  map (raw_commit cmd a (loaded h) (raw h)) (seq 0 1024) = commit cmd a (model_latch h) (map (raw h) (seq 0 1024)).
Proof.
  apply list_eq. intros i. rewrite commit_lookup, !list_lookup_fmap. destruct (seq 0 1024 !! i) as [j|] eqn:E; [|reflexivity].
  apply lookup_seq in E. destruct E as [-> _]. cbn [fmap option_fmap option_map Nat.add]. unfold raw_commit, model_latch.
  rewrite (proj2 (Nat.ltb_lt (i mod 32) 32)) by (apply Nat.mod_upper_bound; lia). reflexivity.
Qed.

#[local] Instance model_laws : ControllerLaws Model.
Proof.
  constructor; cbn [cells latch busy eeload settle store_latch exec model_controller].
  - intros h. rewrite length_map, length_seq. reflexivity.
  - intros h. unfold model_settle. destruct (pending_cmd h) as [[cmd a]|] eqn:E; [reflexivity|rewrite E; reflexivity].
  - intros h. unfold model_settle. destruct (pending_cmd h); [discriminate|reflexivity].
  - intros h _ E i. apply model_empty, E.
  - auto.
  - auto.
  - intros a v h i _ Ha. unfold model_latch, EEPROM_PAGE_SIZE. cbn [loaded].
    pose proof (Z.mod_pos_bound a 32 ltac:(lia)). destruct (decide _), (Nat.ltb_spec i 32); (reflexivity || lia).
  - intros a h _. split; [reflexivity|]. intros i. unfold model_latch. destruct (i <? 32)%nat; reflexivity.
  - intros cmd a h _ Hc _. unfold model_settle. cbn [pending_cmd loaded raw]. rewrite Hc. cbn [raw]. split.
    + apply model_commit.
    + intros i. unfold model_latch. destruct (i <? 32)%nat; reflexivity.
Qed.

(** A write was interrupted: bytes are left in the page buffer. *)
Definition example_nvm : Nvm Model := mkNvm (mkModel (fun _ => 7) (fun _ => Some 9) None) 0 0 0 0 false.

Lemma eeprom_write_read_witness :
  exists s1 s2, nvm_eeprom_erase_and_write_buffer 30 (repeat 1 40) 40 example_nvm = Some (s1, tt) /\
    contents s1 = patched (contents example_nvm) 30 (repeat 1 40) /\
    nvm_eeprom_read_buffer 30 40 s1 = Some (s2, repeat 1 40).
Proof.
  destruct (eeprom_write_read example_nvm 30 (repeat 1 40)) as (s1 & s2 & E1 & _ & C1 & E2 & _).
  - lia.
  - vm_compute. discriminate.
  - apply List.Forall_forall. intros x Hx. apply repeat_spec in Hx. lia.
  - exists s1, s2. auto.
Defined.

Lemma eeprom_erase_witness :
  exists s1, nvm_eeprom_erase_page 3 example_nvm = Some (s1, tt) /\
    contents s1 = imap (fun i old => if Z.of_nat i / 32 =? 3 then 255 else old) (contents example_nvm).
Proof.
  assert (0 <= 3 < 32) as Hp by lia.
  exact (proj1 (eeprom_erase example_nvm 3 Hp)).
Defined.
