(* ===== verification/Flash.v ===== *)
(** * Program memory, signature rows, fuses and the check module (nvm.c, nvm.h, nvm_asm.s, crc.c)

    The rest of the driver of the non-volatile memory controller: reading and writing of the
    program memory through its page buffer, the two signature rows, the fuse and lock bytes,
    and the module that computes checks over the program memory or over bytes that are
    written to it. The memory and the two instructions that access it are the interface
    [FlashController] with their documented behaviour; the registers are a record around it. *)

From S2P Require Import Prelude.

(** ** The memory *)

Definition FLASH_SIZE : Z := 32 * 1024.
Definition FLASH_PAGE_SIZE : Z := 256.

Inductive NVM_CMD_t :=
| NO_OPERATION | READ_USER_SIG_ROW | READ_CALIB_ROW | READ_FUSES | WRITE_LOCK_BITS
| ERASE_USER_SIG_ROW | WRITE_USER_SIG_ROW | ERASE_APP | ERASE_APP_PAGE | LOAD_FLASH_BUFFER
| WRITE_APP_PAGE | ERASE_WRITE_APP_PAGE | ERASE_FLASH_BUFFER | ERASE_BOOT_PAGE | WRITE_BOOT_PAGE
| ERASE_WRITE_BOOT_PAGE | APP_CRC | BOOT_CRC | FLASH_RANGE_CRC.

#[export] Instance NVM_CMD_t_eq : EqDecision NVM_CMD_t.
Proof. solve_decision. Defined.

(** The memories, the words loaded in the page buffer, whether a command is being executed
    and the state once it is done; the instructions [lpm] and [spm] under a command, with
    the address and the word in registers; the execution of a command with the address and
    data registers, and the data register afterwards; the check of bytes, from the contents
    of the check register, with one of the two polynomials, and the bytes that a command
    passes to the check module. *)
Class FlashController (H : Type) := {
  program : H -> list Z;
  user_row : H -> list Z;
  production_row : H -> list Z;
  fuse : H -> Z -> Z;
  page_word : H -> nat -> option Z;
  nvm_busy : H -> bool;
  nvm_settle : H -> H;
  lpm : NVM_CMD_t -> Z -> H -> Z;
  spm : NVM_CMD_t -> Z -> Z -> H -> H;
  cmdex : NVM_CMD_t -> Z -> Z -> H -> H;
  data0 : H -> Z;
  check_byte : bool -> Z -> Z -> Z;
  checked : NVM_CMD_t -> Z -> Z -> H -> list Z
}.

Section Memory.
Context {H : Type} `{FlashController H}.

(** The byte of the page buffer for an address; a word that is not loaded reads as ones. *)
Definition buffer_byte (h : H) (i : nat) : Z :=
  match page_word h (i mod 256 / 2)%nat with
  | Some w => if Nat.even i then w mod 256 else w / 256
  | None => 255
  end.

Definition page_of (a : Z) (i : nat) : bool := Z.of_nat i / FLASH_PAGE_SIZE =? a / FLASH_PAGE_SIZE.

(** A page that is erased and written, and one that is only written: bits can be cleared. *)
Definition erased_written (a : Z) (h : H) (m : list Z) : list Z :=
  imap (fun i old => if page_of a i then buffer_byte h i else old) m.
Definition only_written (a : Z) (h : H) (m : list Z) : list Z :=
  imap (fun i old => if page_of a i then Z.land old (buffer_byte h i) else old) m.

Definition rows (h : H) : list Z * list Z := (user_row h, production_row h).

End Memory.

(** The documented behaviour. Nothing is promised about an instruction during a command, a
    word that is loaded twice, or another address. *)
Class FlashLaws (H : Type) `{FlashController H} : Prop := {
  program_length : forall h, FLASH_SIZE <= len (program h);
  program_bytes : forall h, Forall (fun b => 0 <= b < 256) (program h);
  user_row_length : forall h, len (user_row h) = FLASH_PAGE_SIZE;
  user_row_bytes : forall h, Forall (fun b => 0 <= b < 256) (user_row h);
  nvm_settle_ready : forall h, nvm_busy (nvm_settle h) = false;
  nvm_settle_id : forall h, nvm_busy h = false -> nvm_settle h = h;
  lpm_program : forall a h, nvm_busy h = false -> 0 <= a < len (program h) ->
    program h !! Z.to_nat a = Some (lpm NO_OPERATION a h);
  lpm_user_row : forall a h, nvm_busy h = false -> 0 <= a < len (user_row h) ->
    user_row h !! Z.to_nat a = Some (lpm READ_USER_SIG_ROW a h);
  lpm_production_row : forall a h, nvm_busy h = false -> 0 <= a < len (production_row h) ->
    production_row h !! Z.to_nat a = Some (lpm READ_CALIB_ROW a h);
  spm_load : forall a w h, nvm_busy h = false -> 0 <= a -> 0 <= w < 65536 -> page_word h (Z.to_nat (a mod FLASH_PAGE_SIZE / 2)) = None ->
    let h' := spm LOAD_FLASH_BUFFER a w h in
    nvm_busy h' = false /\ program h' = program h /\ rows h' = rows h /\
    forall i, page_word h' i = if (i =? Z.to_nat (a mod FLASH_PAGE_SIZE / 2))%nat then Some w else page_word h i;
  spm_write : forall cmd a w h, nvm_busy h = false -> 0 <= a < FLASH_SIZE ->
    cmd = ERASE_WRITE_APP_PAGE \/ cmd = WRITE_APP_PAGE ->
    let h' := nvm_settle (spm cmd a w h) in
    rows h' = rows h /\ (forall i, page_word h' i = None) /\
    program h' = if decide (cmd = WRITE_APP_PAGE) then only_written a h (program h) else erased_written a h (program h);
  spm_erase_user_row : forall a w h, nvm_busy h = false ->
    let h' := nvm_settle (spm ERASE_USER_SIG_ROW a w h) in
    program h' = program h /\ production_row h' = production_row h /\ page_word h' = page_word h /\
    user_row h' = replicate (length (user_row h)) 255;
  spm_write_user_row : forall a w h, nvm_busy h = false ->
    let h' := nvm_settle (spm WRITE_USER_SIG_ROW a w h) in
    program h' = program h /\ production_row h' = production_row h /\ (forall i, page_word h' i = None) /\
    user_row h' = imap (fun i old => Z.land old (buffer_byte h i)) (user_row h);
  read_fuses : forall a d h, nvm_busy h = false -> 0 <= a < 6 ->
    data0 (cmdex READ_FUSES a d h) = fuse h a /\ program (cmdex READ_FUSES a d h) = program h /\
    rows (cmdex READ_FUSES a d h) = rows h /\ fuse (cmdex READ_FUSES a d h) = fuse h;
  check_byte_range : forall wide c b, 0 <= check_byte wide c b < if wide then 4294967296 else 65536;
  range_checked : forall first last h, nvm_busy h = false -> 0 <= first <= last -> last < len (program h) ->
    checked FLASH_RANGE_CRC first last h = take (Z.to_nat (last + 1 - first)) (drop (Z.to_nat first) (program h));
  check_keeps : forall cmd a d h, nvm_busy h = false -> cmd = FLASH_RANGE_CRC \/ cmd = APP_CRC \/ cmd = BOOT_CRC ->
    program (nvm_settle (cmdex cmd a d h)) = program h /\ rows (nvm_settle (cmdex cmd a d h)) = rows h
}.

(** ** The driver *)

Section Driver.
Context {H : Type} `{FlashController H}.

Record Flash := mkFlash {
  hw : H; CMD : NVM_CMD_t; ADDR0 : Z; ADDR1 : Z; ADDR2 : Z; DATA0 : Z; DATA1 : Z; DATA2 : Z;
  CRC_CTRL : Z; CHECKSUM : list Z; crc_initial_value : Z
}.

Definition set_hw (h : H) (s : Flash) : Flash :=
  let '(mkFlash _ c a0 a1 a2 d0 d1 d2 k x v) := s in mkFlash h c a0 a1 a2 d0 d1 d2 k x v.
Definition set_CMD (c : NVM_CMD_t) (s : Flash) : Flash :=
  let '(mkFlash h _ a0 a1 a2 d0 d1 d2 k x v) := s in mkFlash h c a0 a1 a2 d0 d1 d2 k x v.
Definition set_ADDR0 (a0 : Z) (s : Flash) : Flash :=
  let '(mkFlash h c _ a1 a2 d0 d1 d2 k x v) := s in mkFlash h c a0 a1 a2 d0 d1 d2 k x v.
Definition set_DATA0 (d0 : Z) (s : Flash) : Flash :=
  let '(mkFlash h c a0 a1 a2 _ d1 d2 k x v) := s in mkFlash h c a0 a1 a2 d0 d1 d2 k x v.
Definition set_range (a0 a1 d0 d1 : Z) (s : Flash) : Flash :=
  let '(mkFlash h c _ _ a2 _ _ d2 k x v) := s in mkFlash h c a0 a1 a2 d0 d1 d2 k x v.
Definition set_high (a2 d2 : Z) (s : Flash) : Flash :=
  let '(mkFlash h c a0 a1 _ d0 d1 _ k x v) := s in mkFlash h c a0 a1 a2 d0 d1 d2 k x v.
Definition set_CTRL (k : Z) (s : Flash) : Flash :=
  let '(mkFlash h c a0 a1 a2 d0 d1 d2 _ x v) := s in mkFlash h c a0 a1 a2 d0 d1 d2 k x v.
Definition set_CHECKSUM (x : list Z) (s : Flash) : Flash :=
  let '(mkFlash h c a0 a1 a2 d0 d1 d2 k _ v) := s in mkFlash h c a0 a1 a2 d0 d1 d2 k x v.
Definition set_initial (v : Z) (s : Flash) : Flash :=
  let '(mkFlash h c a0 a1 a2 d0 d1 d2 k x _) := s in mkFlash h c a0 a1 a2 d0 d1 d2 k x v.

Definition CRC_CRC32_bm : Z := 0x20.
Definition CRC_SOURCE_gm : Z := 0x0F.
Definition CRC_RESET_RESET0_gc : Z := 0x80.
Definition CRC_SOURCE_DISABLE_gc : Z := 0x00.
Definition CRC_SOURCE_IO_gc : Z := 0x01.
Definition CRC_SOURCE_FLASH_gc : Z := 0x02.

(** The four bytes of a check and the check of four bytes, the lowest first. *)
Definition check_bytes (v : Z) : list Z :=
  [Z.land v 255; Z.land (Z.shiftr v 8) 255; Z.land (Z.shiftr v 16) 255; Z.land (Z.shiftr v 24) 255].
Definition of_bytes (x : list Z) : Z := nth 0 x 0 + 256 * (nth 1 x 0 + 256 * (nth 2 x 0 + 256 * nth 3 x 0)).

Definition wide (ctrl : Z) : bool := flag ctrl CRC_CRC32_bm.

(** The check module takes bytes from its source. *)
Definition check_from (source : Z) (bytes : list Z) (s : Flash) : Flash :=
  if Z.land (CRC_CTRL s) CRC_SOURCE_gm =? source
  then set_CHECKSUM (check_bytes (fold_left (check_byte (wide (CRC_CTRL s))) bytes (of_bytes (CHECKSUM s)))) s
  else s.

Definition nvm_wait_until_ready : M Flash unit := modify (fun s => set_hw (nvm_settle (hw s)) s).

(** [ccp_write_io(&NVM.CTRLA, NVM_CMDEX_bm)]. *)
Definition nvm_exec : M Flash unit := modify (fun s =>
  let a := ADDR0 s + 256 * ADDR1 s + 65536 * ADDR2 s in
  let d := DATA0 s + 256 * DATA1 s + 65536 * DATA2 s in
  check_from CRC_SOURCE_FLASH_gc (checked (CMD s) a d (hw s)) (set_hw (cmdex (CMD s) a d (hw s)) s)).

Definition nvm_issue_command (nvm_command : NVM_CMD_t) : M Flash unit :=
  old_cmd ← gets CMD;
  _ ← modify (set_CMD nvm_command);
  _ ← nvm_exec;
  modify (set_CMD old_cmd).

(** The routines in assembler: the command register is saved around the instruction. *)
Definition nvm_read_byte (nvm_cmd : NVM_CMD_t) (address : Z) : M Flash Z :=
  old_cmd ← gets CMD;
  _ ← modify (set_CMD nvm_cmd);
  data ← gets (fun s => lpm (CMD s) (u16 address) (hw s));
  _ ← modify (set_CMD old_cmd);
  mret data.

Definition self_program (nvm_cmd : NVM_CMD_t) (addr word : Z) : M Flash unit :=
  old_cmd ← gets CMD;
  _ ← modify (set_CMD nvm_cmd);
  _ ← modify (fun s => set_hw (spm (CMD s) addr word (hw s)) s);
  modify (set_CMD old_cmd).

Definition nvm_common_spm (addr : Z) (nvm_cmd : NVM_CMD_t) : M Flash unit := self_program nvm_cmd addr 0.

Definition nvm_flash_load_word_to_buffer (word_addr data : Z) : M Flash unit :=
  _ ← nvm_wait_until_ready;
  self_program LOAD_FLASH_BUFFER word_addr data.

(** *** Signature rows, fuses and lock bits *)

Definition nvm_read_production_signature_row (address : Z) : M Flash Z := nvm_read_byte READ_CALIB_ROW (u8 address).
Definition nvm_read_user_signature_row (address : Z) : M Flash Z := nvm_read_byte READ_USER_SIG_ROW (u16 address).

(** The eleven bytes of the serial number; the offsets are those of the device's header. *)
Record nvm_device_serial := mkSerial {
  lotnum0 : Z; lotnum1 : Z; lotnum2 : Z; lotnum3 : Z; lotnum4 : Z; lotnum5 : Z;
  wafnum : Z; coordx0 : Z; coordx1 : Z; coordy0 : Z; coordy1 : Z
}.

Definition nvm_read_device_serial (offset : nvm_device_serial) : M Flash nvm_device_serial :=
  l0 ← nvm_read_production_signature_row (lotnum0 offset);
  l1 ← nvm_read_production_signature_row (lotnum1 offset);
  l2 ← nvm_read_production_signature_row (lotnum2 offset);
  l3 ← nvm_read_production_signature_row (lotnum3 offset);
  l4 ← nvm_read_production_signature_row (lotnum4 offset);
  l5 ← nvm_read_production_signature_row (lotnum5 offset);
  w ← nvm_read_production_signature_row (wafnum offset);
  x0 ← nvm_read_production_signature_row (coordx0 offset);
  x1 ← nvm_read_production_signature_row (coordx1 offset);
  y0 ← nvm_read_production_signature_row (coordy0 offset);
  y1 ← nvm_read_production_signature_row (coordy1 offset);
  mret (mkSerial l0 l1 l2 l3 l4 l5 w x0 x1 y0 y1).

Definition nvm_fuses_read (fuse : Z) : M Flash Z :=
  _ ← nvm_wait_until_ready;
  _ ← modify (set_ADDR0 fuse);
  _ ← nvm_issue_command READ_FUSES;
  gets (fun s => data0 (hw s)).

Definition nvm_lock_bits_write (blbb_lock blba_lock blbat_lock lb_lock : Z) : M Flash unit :=
  _ ← nvm_wait_until_ready;
  _ ← modify (set_DATA0 (Z.lor (Z.lor (Z.lor (u8 blbb_lock) (u8 blba_lock)) (u8 blbat_lock)) (u8 lb_lock)));
  nvm_issue_command WRITE_LOCK_BITS.

Definition NVM_NOLOCK_gc (shift : Z) : Z := Z.shiftl 3 shift.
Definition nvm_blbb_lock_bits_write (blbb_lock : Z) : M Flash unit :=
  nvm_lock_bits_write blbb_lock (NVM_NOLOCK_gc 4) (NVM_NOLOCK_gc 2) (NVM_NOLOCK_gc 0).
Definition nvm_blba_lock_bits_write (blba_lock : Z) : M Flash unit :=
  nvm_lock_bits_write (NVM_NOLOCK_gc 6) blba_lock (NVM_NOLOCK_gc 2) (NVM_NOLOCK_gc 0).
Definition nvm_blbat_lock_bits_write (blbat_lock : Z) : M Flash unit :=
  nvm_lock_bits_write (NVM_NOLOCK_gc 6) (NVM_NOLOCK_gc 4) blbat_lock (NVM_NOLOCK_gc 0).
Definition nvm_lb_lock_bits_write (lb_lock : Z) : M Flash unit :=
  nvm_lock_bits_write (NVM_NOLOCK_gc 6) (NVM_NOLOCK_gc 4) (NVM_NOLOCK_gc 2) lb_lock.

(** *** Pages of the program memory *)

(** [pgm_read_byte] and [pgm_read_word] are [lpm] under the command that is set. *)
Definition nvm_flash_read_byte (addr : Z) : M Flash Z := gets (fun s => lpm (CMD s) addr (hw s)).
Definition nvm_flash_read_word (addr : Z) : M Flash Z :=
  gets (fun s => lpm (CMD s) addr (hw s) + 256 * lpm (CMD s) (addr + 1) (hw s)).

(** Wait for the memory and program it. *)
Definition nvm_program (nvm_cmd : NVM_CMD_t) (page_addr : Z) : M Flash unit :=
  _ ← nvm_wait_until_ready; nvm_common_spm page_addr nvm_cmd.

Definition nvm_flash_flush_buffer : M Flash unit := nvm_program ERASE_FLASH_BUFFER 0.
Definition nvm_flash_erase_app : M Flash unit := nvm_program ERASE_APP 0.
Definition nvm_flash_erase_app_page (page_addr : Z) : M Flash unit := nvm_program ERASE_APP_PAGE page_addr.
Definition nvm_flash_split_write_app_page (page_addr : Z) : M Flash unit := nvm_program WRITE_APP_PAGE page_addr.
Definition nvm_flash_atomic_write_app_page (page_addr : Z) : M Flash unit := nvm_program ERASE_WRITE_APP_PAGE page_addr.
Definition nvm_flash_erase_boot_page (page_addr : Z) : M Flash unit := nvm_program ERASE_BOOT_PAGE page_addr.
Definition nvm_flash_split_write_boot_page (page_addr : Z) : M Flash unit := nvm_program WRITE_BOOT_PAGE page_addr.
Definition nvm_flash_atomic_write_boot_page (page_addr : Z) : M Flash unit := nvm_program ERASE_WRITE_BOOT_PAGE page_addr.
Definition nvm_flash_erase_user_section : M Flash unit := nvm_program ERASE_USER_SIG_ROW 0.
Definition nvm_flash_write_user_page : M Flash unit := nvm_program WRITE_USER_SIG_ROW 0.

(** The loops that read byte after byte. *)
Fixpoint read_loop (n : nat) (read : Z -> M Flash Z) (opt_address : Z) : M Flash (list Z) :=
  match n with
  | O => mret []
  | S n => b ← read opt_address; bs ← read_loop n read (u16 (opt_address + 1)); mret (b :: bs)
  end.

Definition nvm_flash_read_buffer (address len : Z) : M Flash (list Z) :=
  _ ← nvm_wait_until_ready;
  read_loop (Z.to_nat len) nvm_flash_read_byte (u16 address).

Definition nvm_user_sig_read_buffer (address len : Z) : M Flash (list Z) :=
  read_loop (Z.to_nat len) nvm_read_user_signature_row (Z.land (u16 address) (FLASH_PAGE_SIZE - 1)).

(** [LSB(w_value) = b] and [MSB(w_value) = b]. *)
Definition set_LSB (w b : Z) : Z := b + 256 * (w / 256).
Definition set_MSB (w b : Z) : Z := w mod 256 + 256 * b.

(** The rest of the data: its length, its address and its bytes. *)
Definition rest : Type := Z * Z * list Z.

(** [if(len) if(opt_address == here) ...]: the next byte of the data becomes a byte of the word. *)
Definition take_byte (set : Z -> Z -> Z) (here : Z) (r : rest) (w_value : Z) : option (rest * Z) :=
  let '(len, opt_address, buf) := r in
  if negb (len =? 0) && (opt_address =? here) then
    b ← load buf 0; Some (u16 (len - 1), u16 (opt_address + 1), drop 1 buf, set w_value b)
  else Some (r, w_value).

(** The loop over the words of a page from [page_address] on; [read] reads a word of the memory. *)
Fixpoint page_loop (n : nat) (read : Z -> M Flash Z) (b_blank_check : bool) (page_address : Z) (r : rest) (b_flag_erase : bool)
    : M Flash (rest * bool) :=
  match n with
  | O => mret (r, b_flag_erase)
  | S n =>
      w_value ← (if b_blank_check then read page_address else mret 0xFFFF);
      let b_flag_erase := b_flag_erase || negb (w_value =? 0xFFFF) in
      '(r, w_value) ← of_option (take_byte set_LSB page_address r w_value);
      '(r, w_value) ← of_option (take_byte set_MSB (page_address + 1) r w_value);
      _ ← nvm_flash_load_word_to_buffer page_address w_value;
      page_loop n read b_blank_check (u16 (page_address + 2)) r b_flag_erase
  end.

Definition PAGE_WORDS : nat := 128.

(** The loop over the pages. *)
Fixpoint pages_loop (fuel : nat) (b_blank_check : bool) (page_address : Z) (r : rest) : M Flash unit :=
  match fuel with
  | O => of_option None
  | S fuel =>
      if fst (fst r) =? 0 then mret tt
      else
        _ ← nvm_wait_until_ready;
        '(r, b_flag_erase) ← page_loop PAGE_WORDS nvm_flash_read_word b_blank_check page_address r false;
        let page_address := u16 (page_address + FLASH_PAGE_SIZE) in
        _ ← (if b_flag_erase : bool then nvm_flash_atomic_write_app_page (u16 (page_address - FLASH_PAGE_SIZE))
             else nvm_flash_split_write_app_page (u16 (page_address - FLASH_PAGE_SIZE)));
        pages_loop fuel b_blank_check page_address r
  end.

Definition nvm_flash_erase_and_write_buffer (fuel : nat) (address : Z) (buf : list Z) (len : Z) (b_blank_check : bool) : M Flash unit :=
  let opt_address := u16 address in
  pages_loop fuel b_blank_check (opt_address - opt_address mod FLASH_PAGE_SIZE) (len, opt_address, buf).

(** The word of the user's signature row, read byte by byte. *)
Definition read_user_word (page_pos : Z) : M Flash Z :=
  l ← nvm_read_user_signature_row page_pos; h ← nvm_read_user_signature_row (page_pos + 1); mret (l + 256 * h).

(** The loop of the user's signature row: its passes are all over the same page. *)
Fixpoint row_loop (fuel : nat) (b_blank_check : bool) (r : rest) (b_flag_erase : bool) : M Flash bool :=
  match fuel with
  | O => of_option None
  | S fuel =>
      if fst (fst r) =? 0 then mret b_flag_erase
      else '(r, b_flag_erase) ← page_loop PAGE_WORDS read_user_word b_blank_check 0 r b_flag_erase;
           row_loop fuel b_blank_check r b_flag_erase
  end.

Definition nvm_user_sig_write_buffer (fuel : nat) (address : Z) (buf : list Z) (len : Z) (b_blank_check : bool) : M Flash unit :=
  b_flag_erase ← row_loop fuel b_blank_check (len, u16 address, buf) false;
  _ ← when b_flag_erase nvm_flash_erase_user_section;
  nvm_flash_write_user_page.

(** *** The check module *)

Definition nvm_issue_flash_range_crc (start_addr end_addr : Z) : M Flash unit :=
  old_cmd ← gets CMD;
  _ ← modify (set_CMD FLASH_RANGE_CRC);
  _ ← modify (set_range (Z.land start_addr 255) (Z.land (Z.shiftr start_addr 8) 255)
                        (Z.land end_addr 255) (Z.land (Z.shiftr end_addr 8) 255));
  _ ← nvm_exec;
  modify (set_CMD old_cmd).

Definition crc_io_checksum_byte_add (data : Z) : M Flash unit := modify (check_from CRC_SOURCE_IO_gc [u8 data]).

(** A write of the control register with the reset bit clears the registers of the module. *)
Definition write_CTRL (v : Z) : M Flash unit :=
  modify (fun s => if flag v CRC_RESET_RESET0_gc then set_CHECKSUM [0; 0; 0; 0] (set_CTRL 0 s) else set_CTRL v s).

Definition crc_reset : M Flash unit :=
  k ← gets CRC_CTRL;
  _ ← write_CTRL (Z.lor k CRC_RESET_RESET0_gc);
  v ← gets crc_initial_value;
  _ ← modify (set_CHECKSUM (check_bytes v));
  modify (set_initial 0).

Definition crc16_checksum_read : M Flash Z :=
  x ← gets CHECKSUM;
  mret (Z.lor (Z.land (nth 0 x 0) 0x00FF) (Z.land (Z.shiftl (nth 1 x 0) 8) 0xFF00)).

(** [for(result = i = 0; i < 32; i++)], and the reversed value. *)
Fixpoint revert_loop (n : nat) (result value : Z) : Z :=
  match n with
  | O => result
  | S n => revert_loop n (u32 (Z.shiftl result 1 + Z.land value 1)) (Z.shiftr value 1)
  end.
Definition crc_bit_revert (value : Z) : Z := revert_loop 32 0 value.

(** [~] of a 32-bit value. *)
Definition not32 (v : Z) : Z := 4294967295 - v.

Definition crc32_checksum_read : M Flash Z :=
  x ← gets CHECKSUM;
  let checksum := Z.lor (Z.lor (Z.lor (Z.land (nth 0 x 0) 0x000000FF) (Z.land (Z.shiftl (nth 1 x 0) 8) 0x0000FF00))
                               (Z.land (Z.shiftl (nth 2 x 0) 16) 0x00FF0000)) (Z.land (Z.shiftl (nth 3 x 0) 24) 0xFF000000) in
  mret (not32 (crc_bit_revert checksum)).

(** The wait for the module is the wait for the memory that it reads. *)
Definition crc_checksum_read : M Flash Z :=
  _ ← nvm_wait_until_ready;
  k ← gets CRC_CTRL;
  if wide k then crc32_checksum_read else crc16_checksum_read.

Definition crc_set_source (source : Z) : M Flash unit :=
  k ← gets CRC_CTRL;
  _ ← write_CTRL (Z.ldiff k CRC_SOURCE_gm);
  k ← gets CRC_CTRL;
  write_CTRL (Z.lor k source).

Definition crc_32_enable : M Flash unit := k ← gets CRC_CTRL; write_CTRL (Z.lor k CRC_CRC32_bm).
Definition crc_disable : M Flash unit := crc_set_source CRC_SOURCE_DISABLE_gc.

Definition crc_checksum_complete : M Flash Z :=
  checksum ← crc_checksum_read;
  _ ← crc_disable;
  mret checksum.

Definition crc32_append_value (value : Z) : list Z := check_bytes (crc_bit_revert value).
Definition crc16_append_value (value : Z) : list Z := [u8 (Z.shiftr value 8); u8 value].

Definition crc_set_initial_value (value : Z) : M Flash unit := modify (set_initial value).

Definition crc_flash_checksum (crc_type : NVM_CMD_t) (flash_addr length : Z) : M Flash Z :=
  if (length =? 0) && bool_decide (crc_type = FLASH_RANGE_CRC) then mret 0
  else
    _ ← crc_reset;
    _ ← crc_32_enable;
    _ ← crc_set_source CRC_SOURCE_FLASH_gc;
    _ ← (if decide (crc_type = FLASH_RANGE_CRC)
         then nvm_issue_flash_range_crc (u16 flash_addr) (u16 (flash_addr + length - 1))
         else nvm_issue_command crc_type);
    crc_checksum_complete.

Inductive crc_16_32_t := CRC_16BIT | CRC_32BIT.

Definition crc_io_checksum_byte_start (crc_16_32 : crc_16_32_t) : M Flash unit :=
  _ ← crc_reset;
  _ ← (match crc_16_32 with CRC_32BIT => crc_32_enable | CRC_16BIT => mret tt end);
  crc_set_source CRC_SOURCE_IO_gc.

Definition crc_io_checksum_byte_stop : M Flash Z := crc_checksum_complete.

Fixpoint add_loop (data : list Z) : M Flash unit :=
  match data with [] => mret tt | b :: data => _ ← crc_io_checksum_byte_add b; add_loop data end.

Definition crc_io_checksum (data : list Z) (crc_16_32 : crc_16_32_t) : M Flash Z :=
  _ ← crc_io_checksum_byte_start crc_16_32;
  _ ← add_loop data;
  crc_io_checksum_byte_stop.

End Driver.
Arguments Flash : clear implicits.

(** ** The check *)

Lemma revert_loop_bits n : forall result value i, (n <= 32)%nat -> 0 <= i < 32 ->
  Z.testbit (revert_loop n result value) i =
    if i <? Z.of_nat n then Z.testbit value (Z.of_nat n - 1 - i) else Z.testbit result (i - Z.of_nat n).
Proof.
  induction n as [|n IH]; intros result value i Hn Hi; cbn [revert_loop].
  - destruct (Z.ltb_spec i (Z.of_nat 0)); [lia|]. f_equal. lia.
  - rewrite IH by lia.
    assert (forall j, 0 <= j < 32 -> Z.testbit (u32 (Z.shiftl result 1 + Z.land value 1)) j
              = if j =? 0 then Z.testbit value 0 else Z.testbit result (j - 1)) as B.
    { intros j Hj. unfold u32. change 4294967296 with (2 ^ 32). rewrite Z.mod_pow2_bits_low by lia.
      change 1 with (Z.ones 1) at 2. rewrite Z.land_ones by lia. change (2 ^ 1) with 2.
      rewrite <- Z.bit0_mod. rewrite Z.shiftl_mul_pow2, Z.mul_comm by lia. change (2 ^ 1) with 2.
      destruct (Z.eqb_spec j 0) as [->|Hj0]; [rewrite Z.add_comm; apply Z.add_b2z_double_bit0|].
      replace j with (Z.succ (j - 1)) at 1 by lia. apply Z.testbit_succ_r. lia. }
    destruct (Z.ltb_spec i (Z.of_nat n)), (Z.ltb_spec i (Z.of_nat (S n))); try lia.
    + rewrite Z.shiftr_spec by lia. f_equal. lia.
    + rewrite B by lia. destruct (Z.eqb_spec (i - Z.of_nat n) 0); [|lia]. f_equal. lia.
    + rewrite B by lia. destruct (Z.eqb_spec (i - Z.of_nat n) 0); [lia|]. f_equal. lia.
Qed.

Lemma revert_loop_range n : forall result value, 0 <= result < 4294967296 -> 0 <= revert_loop n result value < 4294967296.
Proof. induction n as [|n IH]; intros result value Hr; cbn [revert_loop]; [exact Hr|]. apply IH, u32_range. Qed.

Lemma revert_range v : 0 <= crc_bit_revert v < 4294967296.
Proof. apply revert_loop_range. lia. Qed.

Lemma revert_bits v i : 0 <= i < 32 -> Z.testbit (crc_bit_revert v) i = Z.testbit v (31 - i).
Proof. intros Hi. unfold crc_bit_revert. rewrite revert_loop_bits by lia. destruct (Z.ltb_spec i (Z.of_nat 32)); [f_equal; lia|lia]. Qed.

Lemma bits_ext32 a b : 0 <= a < 4294967296 -> 0 <= b < 4294967296 ->
  (forall i, 0 <= i < 32 -> Z.testbit a i = Z.testbit b i) -> a = b.
Proof.
  intros Ha Hb E. apply Z.bits_inj'. intros i Hi. destruct (Z.lt_ge_cases i 32) as [Hlt|Hge]; [apply E; lia|].
  change 4294967296 with (2 ^ 32) in *. rewrite <- (Z.mod_small a (2 ^ 32)), <- (Z.mod_small b (2 ^ 32)) by lia.
  rewrite !Z.mod_pow2_bits_high by lia. reflexivity.
Qed.

(** Reversing the bits twice gives the value back. *)
Lemma revert_revert v : 0 <= v < 4294967296 -> crc_bit_revert (crc_bit_revert v) = v.
Proof.
  intros Hv. apply bits_ext32; [apply revert_range|exact Hv|]. intros i Hi. rewrite !revert_bits by lia. f_equal. lia.
Qed.

Lemma not32_not32 v : not32 (not32 v) = v.
Proof. unfold not32. lia. Qed.

Lemma of_check_bytes v : of_bytes (check_bytes v) = u32 v.
Proof.
  unfold of_bytes, check_bytes, u32. cbn [nth]. change 255 with (Z.ones 8).
  rewrite !Z.shiftr_div_pow2, !Z.land_ones by lia. change (2 ^ 8) with 256. change (2 ^ 16) with 65536.
  change (2 ^ 24) with 16777216. lia_mod.
Qed.

(** The checksum registers read together. *)
Lemma checksum_bytes v : 0 <= v < 4294967296 ->
  Z.lor (Z.lor (Z.lor (Z.land (Z.land v 255) 0x000000FF) (Z.land (Z.shiftl (Z.land (Z.shiftr v 8) 255) 8) 0x0000FF00))
    (Z.land (Z.shiftl (Z.land (Z.shiftr v 16) 255) 16) 0x00FF0000)) (Z.land (Z.shiftl (Z.land (Z.shiftr v 24) 255) 24) 0xFF000000) = v.
Proof.
  intros Hv. change 0xFF000000 with (Z.shiftl 255 24). change 0x00FF0000 with (Z.shiftl 255 16).
  change 0x0000FF00 with (Z.shiftl 255 8). rewrite <- !Z.shiftl_land, <- !Z.land_assoc, !Z.land_diag.
  change 255 with (Z.ones 8). rewrite !Z.shiftr_div_pow2, !Z.land_ones by lia.
  change (2 ^ 8) with 256. change (2 ^ 16) with 65536. change (2 ^ 24) with 16777216.
  rewrite (lor_shifted (v mod 256)) by (change (2 ^ 8) with 256; lia_mod). change (2 ^ 8) with 256.
  rewrite (lor_shifted (v mod 256 + _)) by (change (2 ^ 16) with 65536; lia_mod). change (2 ^ 16) with 65536.
  rewrite lor_shifted by (change (2 ^ 24) with 16777216; lia_mod). change (2 ^ 24) with 16777216. lia_mod.
Qed.

Section Check.
Context {H : Type} `{FlashLaws H}.

(** The check of some bytes, from a start value, as the module computes it. *)
Definition check (init : Z) (bytes : list Z) : Z := fold_left (check_byte true) bytes init.

Lemma check_range init bytes : 0 <= init < 4294967296 -> 0 <= check init bytes < 4294967296.
Proof.
  unfold check. revert init. induction bytes as [|b bytes IH]; intros init Hi; [exact Hi|]. cbn [fold_left].
  apply IH, (check_byte_range true).
Qed.

Lemma reset_flag k : flag (Z.lor k CRC_RESET_RESET0_gc) CRC_RESET_RESET0_gc = true.
Proof.
  unfold flag, CRC_RESET_RESET0_gc. destruct (Z.eqb_spec (Z.land (Z.lor k 128) 128) 0) as [E|]; [|reflexivity].
  exfalso. apply (f_equal (fun x => Z.testbit x 7)) in E. rewrite Z.land_spec, Z.lor_spec in E.
  rewrite orb_true_r in E. discriminate.
Qed.

(** The set-up of the module for a check of the program memory. *)
Lemma setup_spec (s : Flash H) : exists s1,
  (_ ← crc_reset; _ ← crc_32_enable; crc_set_source CRC_SOURCE_FLASH_gc) s = Some (s1, tt) /\
  s1 = set_initial 0 (set_CHECKSUM (check_bytes (crc_initial_value s)) (set_CTRL 0x22 s)).
Proof.
  destruct s as [h c a0 a1 a2 d0 d1 d2 k x v]. eexists. split; [|reflexivity].
  unfold crc_reset, crc_32_enable, crc_set_source, write_CTRL. run. cbn [CRC_CTRL]. rewrite reset_flag. reflexivity.
Qed.

Lemma complete_spec (s : Flash H) v : CRC_CTRL s = 0x22 -> CHECKSUM s = check_bytes v -> 0 <= v < 4294967296 ->
  crc_checksum_complete s = Some (set_CTRL 0x20 (set_hw (nvm_settle (hw s)) s), not32 (crc_bit_revert v)).
Proof.
  destruct s as [h c a0 a1 a2 d0 d1 d2 k x w]. cbn [CRC_CTRL CHECKSUM]. intros -> -> Hv.
  rewrite <- (f_equal crc_bit_revert (checksum_bytes v Hv)). reflexivity.
Qed.

Lemma split_address a : 0 <= a < 65536 -> Z.land a 255 + 256 * Z.land (Z.shiftr a 8) 255 + 65536 * 0 = a.
Proof.
  intros Ha. change 255 with (Z.ones 8). rewrite !Z.land_ones, Z.shiftr_div_pow2 by lia. change (2 ^ 8) with 256. lia_mod.
Qed.

(** The check of a range of the program memory. *)
Lemma range_check_spec (s : Flash H) a n :
  ADDR2 s = 0 -> DATA2 s = 0 -> nvm_busy (hw s) = false -> 0 <= crc_initial_value s < 4294967296 ->
  0 <= a -> 0 < n -> a + n <= len (program (hw s)) -> a + n <= 65536 ->
  exists s', crc_flash_checksum FLASH_RANGE_CRC a n s =
    Some (s', not32 (crc_bit_revert (check (crc_initial_value s) (take (Z.to_nat n) (drop (Z.to_nat a) (program (hw s))))))) /\
  program (hw s') = program (hw s) /\ rows (hw s') = rows (hw s) /\ CMD s' = CMD s /\ nvm_busy (hw s') = false.
Proof.
  intros Ea Ed Hb Hi Ha Hn Hl Hw. unfold crc_flash_checksum. rewrite (proj2 (Z.eqb_neq n 0)) by lia. cbn [andb].
  destruct (setup_spec s) as (s1 & E1 & ->). run. revert E1. run.
  destruct (crc_reset s) as [[s2 ?]|]; [|discriminate]. destruct (crc_32_enable s2) as [[s3 ?]|]; [|discriminate].
  intros ->. rewrite decide_True by reflexivity. rewrite (u16_id a), (u16_id (a + n - 1)) by lia.
  destruct s as [h c a0 a1 a2 d0 d1 d2 k x v]. cbn [ADDR2 DATA2 hw crc_initial_value CMD] in *. subst a2 d2.
  unfold nvm_issue_flash_range_crc, nvm_exec, check_from. run.
  cbn [set_initial set_CHECKSUM set_CTRL set_hw set_CMD set_range CMD CRC_CTRL hw ADDR0 ADDR1 ADDR2 DATA0 DATA1 DATA2 CHECKSUM].
  rewrite !split_address by lia. change (Z.land 0x22 CRC_SOURCE_gm =? CRC_SOURCE_FLASH_gc) with true.
  change (wide 0x22) with true. rewrite of_check_bytes, u32_id by exact Hi.
  rewrite range_checked by (first [exact Hb|lia]). replace (a + n - 1 + 1 - a) with n by lia.
  fold (check v (take (Z.to_nat n) (drop (Z.to_nat a) (program h)))).
  rewrite (complete_spec _ (check v (take (Z.to_nat n) (drop (Z.to_nat a) (program h))))) by (first [reflexivity|apply check_range; exact Hi]).
  eexists. split; [reflexivity|]. cbn.
  destruct (check_keeps FLASH_RANGE_CRC a (a + n - 1) h Hb) as [K1 K2]; [auto|]. rewrite K1, K2. auto using nvm_settle_ready.
Qed.

End Check.

(** ** Writing *)

(** The byte for an address when data is written from an address on. *)
Definition byte_at (opt : Z) (data : list Z) (old i : Z) : Z :=
  if (opt <=? i) && (i <? opt + len data) then nth (Z.to_nat (i - opt)) data 0 else old.

(** What is left of the data after the byte at an address. *)
Definition after_byte (here opt : Z) (data : list Z) : Z * list Z :=
  match data with b :: d => if opt =? here then (opt + 1, d) else (opt, data) | [] => (opt, []) end.

Definition is_byte (b : Z) : Prop := 0 <= b < 256.

Lemma byte_at_nil opt old i : byte_at opt [] old i = old.
Proof. unfold byte_at. cbn [length]. destruct (Z.leb_spec opt i), (Z.ltb_spec i (opt + Z.of_nat 0)); try reflexivity. lia. Qed.

Lemma byte_at_before opt data old i : i < opt -> byte_at opt data old i = old.
Proof. intros Hi. unfold byte_at. rewrite (proj2 (Z.leb_gt _ _)) by lia. reflexivity. Qed.

Lemma byte_at_cons opt b data old i : byte_at opt (b :: data) old i = if opt =? i then b else byte_at (opt + 1) data old i.
Proof.
  unfold byte_at. cbn [length]. destruct (Z.eqb_spec opt i) as [->|Hne].
  - rewrite (proj2 (Z.leb_le _ _)), (proj2 (Z.ltb_lt _ _)) by lia. rewrite Z.sub_diag. reflexivity.
  - destruct (Z.leb_spec opt i), (Z.leb_spec (opt + 1) i), (Z.ltb_spec i (opt + Z.of_nat (S (length data)))),
      (Z.ltb_spec i (opt + 1 + len data)); cbn [andb]; try reflexivity; try lia.
    replace (Z.to_nat (i - opt)) with (S (Z.to_nat (i - (opt + 1)))) by lia. reflexivity.
Qed.

Lemma byte_at_byte opt data old i : Forall is_byte data -> is_byte old -> is_byte (byte_at opt data old i).
Proof.
  intros Hd Ho. unfold byte_at. destruct ((opt <=? i) && (i <? opt + len data)) eqn:E; [|exact Ho]. bool_hyps.
  apply (proj1 (List.Forall_forall _ _) Hd). apply List.nth_In. lia.
Qed.

Lemma byte_at_lookup m a d i old : (a + length d <= length m)%nat -> m !! i = Some old ->
  patched m a d !! i = Some (byte_at (Z.of_nat a) d old (Z.of_nat i)).
Proof.
  intros Ha Hi. rewrite patched_lookup by exact Ha. unfold byte_at.
  destruct (Nat.leb_spec a i), (Nat.ltb_spec i (a + length d)), (Z.leb_spec (Z.of_nat a) (Z.of_nat i)),
    (Z.ltb_spec (Z.of_nat i) (Z.of_nat a + len d)); cbn [andb]; try lia; try exact Hi.
  replace (Z.to_nat (Z.of_nat i - Z.of_nat a)) with (i - a)%nat by lia.
  destruct (lookup_lt_is_Some_2 d (i - a)) as [x Hx]; [lia|]. rewrite Hx. f_equal. symmetry. apply nth_lookup_Some, Hx.
Qed.

(** What one byte of a page takes from the data. *)
Lemma take_byte_spec set here opt data extra w : 0 <= opt -> opt + len data < 65536 ->
  take_byte set here (len data, opt, data ++ extra) w =
    let '(opt', data') := after_byte here opt data in
    Some ((len data', opt', data' ++ extra), match data with b :: _ => if opt =? here then set w b else w | [] => w end).
Proof.
  intros Ho Hl. unfold take_byte, after_byte. destruct data as [|b data]; [reflexivity|]. cbn [length] in *.
  rewrite (proj2 (Z.eqb_neq _ 0)) by lia. cbn [negb andb]. destruct (Z.eqb_spec opt here) as [->|]; [|reflexivity].
  cbn [load app lookup list_lookup Z.leb Z.to_nat mbind option_bind drop]. rewrite !u16_id by lia.
  replace (Z.of_nat (S (length data)) - 1) with (len data) by lia. reflexivity.
Qed.

(** The data that is left before an address has nothing for the addresses below it. *)
Record advanced (p opt : Z) (data : list Z) (opt' : Z) (data' : list Z) : Prop := {
  adv_reached : p <= opt' \/ data' = [];
  adv_end : opt' + len data' = opt + len data;
  adv_bytes : forall old i, p <= i -> byte_at opt' data' old i = byte_at opt data old i;
  adv_suffix : suffix data' data;
  adv_up : opt <= opt';
  adv_top : opt' <= Z.max opt p
}.

Lemma advanced_refl p opt data : p <= opt \/ data = [] -> advanced p opt data opt data.
Proof. intros Hp. constructor; auto; reflexivity || lia. Qed.

Lemma advanced_trans p q opt data opt1 data1 opt2 data2 : p <= q ->
  advanced p opt data opt1 data1 -> advanced q opt1 data1 opt2 data2 -> advanced q opt data opt2 data2.
Proof.
  intros Hpq [R1 E1 B1 S1 U1 T1] [R2 E2 B2 S2 U2 T2]. constructor; [exact R2|lia| |etransitivity; eassumption|lia|lia].
  intros old i Hi. rewrite B2, B1 by lia. reflexivity.
Qed.

Lemma after_byte_spec here opt data : here <= opt \/ data = [] ->
  let '(opt', data') := after_byte here opt data in advanced (here + 1) opt data opt' data'.
Proof.
  unfold after_byte. intros Hh. destruct data as [|b data]; [apply advanced_refl; auto|].
  destruct Hh as [Hh|]; [|discriminate].
  destruct (Z.eqb_spec opt here) as [->|Hne]; [|apply advanced_refl; left; lia].
  constructor; cbn [length]; [left; lia|lia| |apply suffix_cons_r; reflexivity|lia|lia].
  intros old i Hi. rewrite byte_at_cons. destruct (Z.eqb_spec here i); [lia|reflexivity].
Qed.

(** What one word of a page takes from the data. *)
Lemma take_word_spec pa opt data extra lo hi : 0 <= opt -> opt + len data < 65536 -> pa <= opt \/ data = [] ->
  is_byte lo -> is_byte hi -> Forall is_byte data -> exists opt' data',
  ('(r, w) ← take_byte set_LSB pa (len data, opt, data ++ extra) (lo + 256 * hi); take_byte set_MSB (pa + 1) r w) =
    Some ((len data', opt', data' ++ extra), byte_at opt data lo pa + 256 * byte_at opt data hi (pa + 1)) /\
  advanced (pa + 2) opt data opt' data'.
Proof.
  intros Ho Hl Hp Hlo Hhi Hd. unfold is_byte in *. pose proof (after_byte_spec pa opt data Hp) as A1.
  rewrite take_byte_spec by lia. destruct (after_byte pa opt data) as [opt1 data1] eqn:E1. cbn [mbind option_bind].
  pose proof (adv_end _ _ _ _ _ A1). pose proof (adv_up _ _ _ _ _ A1).
  pose proof (after_byte_spec (pa + 1) opt1 data1 (adv_reached _ _ _ _ _ A1)) as A2.
  rewrite take_byte_spec by lia. destruct (after_byte (pa + 1) opt1 data1) as [opt2 data2] eqn:E2.
  exists opt2, data2. split; [|replace (pa + 2) with (pa + 1 + 1) by lia; eapply advanced_trans; [|exact A1|exact A2]; lia].
  do 2 f_equal. unfold set_LSB, set_MSB.
  assert (match data with b :: _ => if opt =? pa then b + 256 * ((lo + 256 * hi) / 256) else lo + 256 * hi | [] => lo + 256 * hi end
          = byte_at opt data lo pa + 256 * hi) as W1.
  { replace ((lo + 256 * hi) / 256) with hi by lia_mod. destruct data as [|b data]; [rewrite byte_at_nil; reflexivity|].
    rewrite byte_at_cons. destruct (Z.eqb_spec opt pa); [reflexivity|].
    destruct Hp as [Hp|]; [|discriminate]. rewrite byte_at_before by lia. reflexivity. }
  rewrite W1. rewrite <- (adv_bytes _ _ _ _ _ A1 hi (pa + 1)) by lia.
  assert (0 <= byte_at opt data lo pa < 256) as Hb by (apply (byte_at_byte opt data lo pa Hd); exact Hlo).
  destruct data1 as [|b data1]; [rewrite byte_at_nil; reflexivity|]. rewrite byte_at_cons.
  destruct (Z.eqb_spec opt1 (pa + 1)); [lia_mod|]. destruct (adv_reached _ _ _ _ _ A1) as [Hr|]; [|discriminate].
  rewrite (byte_at_before (opt1 + 1)) by lia. reflexivity.
Qed.

Section Writing.
Context {H : Type} `{FlashLaws H}.

Abbreviation F := (Flash H).

(** A memory that is not changed by loading words, and a way to read its words. *)
Record word_reader (mem : H -> list Z) (read : Z -> M F Z) : Prop := {
  reader_load : forall a w h, nvm_busy h = false -> 0 <= a -> 0 <= w < 65536 -> page_word h (Z.to_nat (a mod FLASH_PAGE_SIZE / 2)) = None ->
    mem (spm LOAD_FLASH_BUFFER a w h) = mem h;
  reader_bytes : forall h, Forall is_byte (mem h);
  reader_reads : forall (s : F) a, CMD s = NO_OPERATION -> nvm_busy (hw s) = false -> 0 <= a -> a + 1 < len (mem (hw s)) -> a < 65536 - 1 ->
    read a s = Some (s, nth (Z.to_nat a) (mem (hw s)) 0 + 256 * nth (Z.to_nat (a + 1)) (mem (hw s)) 0)
}.

Lemma set_CMD_same (s : F) : set_CMD (CMD s) s = s.
Proof. destruct s; reflexivity. Qed.
Lemma set_CMD_CMD c d (s : F) : set_CMD c (set_CMD d s) = set_CMD c s.
Proof. destruct s; reflexivity. Qed.
Lemma hw_set_CMD c (s : F) : hw (set_CMD c s) = hw s.
Proof. destruct s; reflexivity. Qed.

Lemma program_reader : word_reader program nvm_flash_read_word.
Proof.
  constructor.
  - intros a w h Hb Ha Hw Hp. apply (spm_load a w h Hb Ha Hw Hp).
  - apply program_bytes.
  - intros s a Hc Hb Ha Hl Hw. unfold nvm_flash_read_word, gets. rewrite Hc.
    rewrite (nth_lookup_Some _ _ 0 _ (lpm_program a (hw s) Hb ltac:(lia))), (nth_lookup_Some _ _ 0 _ (lpm_program (a + 1) (hw s) Hb ltac:(lia))).
    reflexivity.
Qed.

Lemma read_byte_step cmd a (s : F) : 0 <= a < 65536 -> nvm_read_byte cmd a s = Some (s, lpm cmd a (hw s)).
Proof.
  intros Ha. unfold nvm_read_byte. run. rewrite set_CMD_CMD, set_CMD_same. destruct s; cbn. rewrite u16_id by exact Ha. reflexivity.
Qed.

Lemma read_row_byte a (s : F) : 0 <= a < 65536 ->
  nvm_read_user_signature_row a s = Some (s, lpm READ_USER_SIG_ROW a (hw s)).
Proof. intros Ha. unfold nvm_read_user_signature_row. rewrite u16_id by exact Ha. apply read_byte_step, Ha. Qed.

Lemma user_row_reader : word_reader user_row read_user_word.
Proof.
  constructor.
  - intros a w h Hb Ha Hw Hp. pose proof (proj1 (proj2 (proj2 (spm_load a w h Hb Ha Hw Hp)))) as [=]. assumption.
  - apply user_row_bytes.
  - intros s a Hc Hb Ha Hl Hw. unfold read_user_word.
    step_by (read_row_byte a s ltac:(lia)). step_by (read_row_byte (a + 1) s ltac:(lia)).
    rewrite (nth_lookup_Some _ _ 0 _ (lpm_user_row a (hw s) Hb ltac:(lia))), (nth_lookup_Some _ _ 0 _ (lpm_user_row (a + 1) (hw s) Hb ltac:(lia))).
    reflexivity.
Qed.

(** The word that is loaded for an address. *)
Definition loaded_word (blank : bool) (opt : Z) (data m : list Z) (a : Z) : Z :=
  let base i := if blank then nth (Z.to_nat i) m 0 else 255 in
  byte_at opt data (base a) a + 256 * byte_at opt data (base (a + 1)) (a + 1).

Lemma load_word_spec (s : F) a w : nvm_busy (hw s) = false -> 0 <= a ->
  page_word (hw s) (Z.to_nat (a mod FLASH_PAGE_SIZE / 2)) = None ->
  nvm_flash_load_word_to_buffer a w s = Some (set_hw (spm LOAD_FLASH_BUFFER a w (hw s)) s, tt).
Proof.
  intros Hb Ha Hp. unfold nvm_flash_load_word_to_buffer, nvm_wait_until_ready, self_program. run.
  rewrite nvm_settle_id by exact Hb. destruct s; reflexivity.
Qed.

(** The result of the loop over [n] words of a page. *)
Record page_result (mem : H -> list Z) (blank : bool) (n : nat) (pa opt : Z) (data : list Z) (erase : bool) (s : F)
    (opt' : Z) (data' : list Z) (erase' : bool) (s' : F) : Prop := {
  pr_ready : nvm_busy (hw s') = false;
  pr_cmd : CMD s' = CMD s;
  pr_program : program (hw s') = program (hw s);
  pr_rows : rows (hw s') = rows (hw s);
  pr_mem : mem (hw s') = mem (hw s);
  pr_rest : advanced (pa + 2 * Z.of_nat n) opt data opt' data';
  pr_words : forall k, page_word (hw s') k =
    if (Z.to_nat (pa mod 256 / 2) <=? k)%nat && (k <? Z.to_nat (pa mod 256 / 2) + n)%nat
    then Some (loaded_word blank opt data (mem (hw s)) (pa + 2 * (Z.of_nat k - pa mod 256 / 2))) else page_word (hw s) k;
  pr_erase : erase' = false -> blank = true -> forall i, pa <= i < pa + 2 * Z.of_nat n -> nth (Z.to_nat i) (mem (hw s)) 0 = 255;
  pr_mono : erase' = false -> erase = false;
  pr_no_check : blank = false -> erase' = erase
}.

Lemma of_option_step {S R} (o : option R) (s : S) r : o = Some r -> of_option o s = Some (s, r).
Proof. intros ->. reflexivity. Qed.

(** One word and then [n] words. *)
Lemma page_result_cons (mem : H -> list Z) (blank : bool) n pa opt data erase (s : F) opt1 data1 s1 opt2 data2 erase2 s2 :
  let base (i : Z) := if blank then nth (Z.to_nat i) (mem (hw s)) 0 else 255 in
  0 <= pa -> pa mod 2 = 0 -> pa mod 256 + 2 * Z.of_nat (S n) <= 256 ->
  (forall i, pa <= i < pa + 2 -> is_byte (base i)) ->
  CMD s1 = CMD s -> program (hw s1) = program (hw s) -> rows (hw s1) = rows (hw s) -> mem (hw s1) = mem (hw s) ->
  (forall k, page_word (hw s1) k = if (k =? Z.to_nat (pa mod 256 / 2))%nat then Some (loaded_word blank opt data (mem (hw s)) pa)
                                   else page_word (hw s) k) ->
  advanced (pa + 2) opt data opt1 data1 ->
  page_result mem blank n (pa + 2) opt1 data1 (erase || negb (base pa + 256 * base (pa + 1) =? 0xFFFF)) s1 opt2 data2 erase2 s2 ->
  page_result mem blank (S n) pa opt data erase s opt2 data2 erase2 s2.
Proof.
  intros base Hpa H2 Hn Hb E1 E2 E3 E4 L A [P1 P2 P3 P4 P5 P6 P7 P8 P9 P10].
  assert (n <> 0%nat -> (pa + 2) mod 256 = pa mod 256 + 2) as Hmod by (intros; lia_mod).
  constructor; try congruence.
  - replace (pa + 2 * Z.of_nat (S n)) with (pa + 2 + 2 * Z.of_nat n) by lia. eapply advanced_trans; [|exact A|exact P6]. lia.
  - intros k. rewrite P7, L, E4. clear P7. set (i := Z.to_nat (pa mod 256 / 2)).
    assert (n <> 0%nat -> Z.to_nat ((pa + 2) mod 256 / 2) = S i) as Hi by (intros; rewrite Hmod by assumption; unfold i; lia_mod).
    assert (n <> 0%nat -> (pa + 2) mod 256 / 2 = pa mod 256 / 2 + 1) as Hz by (intros; rewrite Hmod by assumption; lia_mod).
    assert (0 <= pa mod 256 / 2) by lia_mod.
    destruct n as [|n]; [|rewrite Hi, Hz by discriminate].
    + rewrite Nat.add_0_r. replace (_ && _) with false by (symmetry; destruct (Nat.leb_spec (Z.to_nat ((pa + 2) mod 256 / 2)) k),
        (Nat.ltb_spec k (Z.to_nat ((pa + 2) mod 256 / 2))); try reflexivity; lia).
      destruct (Nat.eqb_spec k i) as [Hk|Hne], (Nat.leb_spec i k), (Nat.ltb_spec k (i + 1)); cbn [andb]; try lia; try reflexivity.
      do 2 f_equal. unfold i in Hk. lia.
    + destruct (Nat.eqb_spec k i) as [->|Hne].
      * rewrite (proj2 (Nat.leb_gt (S i) i)), (proj2 (Nat.leb_le i i)), (proj2 (Nat.ltb_lt i (i + S (S n)))) by lia.
        cbn [andb]. do 2 f_equal. unfold i. lia.
      * replace (i + S (S n))%nat with (S i + S n)%nat by lia.
        destruct (Nat.leb_spec (S i) k), (Nat.leb_spec i k), (Nat.ltb_spec k (S i + S n)); cbn [andb]; try lia; try reflexivity.
        f_equal. unfold loaded_word. rewrite !(adv_bytes _ _ _ _ _ A) by lia.
        replace (pa + 2 + 2 * (Z.of_nat k - (pa mod 256 / 2 + 1))) with (pa + 2 * (Z.of_nat k - pa mod 256 / 2)) by lia. reflexivity.
  - intros He Hbl i Hi. destruct (Z.lt_ge_cases i (pa + 2)) as [Hlt|Hge]; [|rewrite <- E4; apply P8; auto; lia].
    apply P9, orb_false_iff in He as [_ He]. apply negb_false_iff, Z.eqb_eq in He.
    pose proof (Hb pa ltac:(lia)) as B0. pose proof (Hb (pa + 1) ltac:(lia)) as B1. unfold is_byte in *.
    assert (base i = 255) as Hx by (assert (i = pa \/ i = pa + 1) as [->| ->] by lia; lia).
    unfold base in Hx. rewrite Hbl in Hx. exact Hx.
  - intros He. apply P9, orb_false_iff in He. apply He.
  - intros ->. rewrite P10 by reflexivity. unfold base. change (255 + 256 * 255 =? 0xFFFF) with true. apply orb_false_r.
Qed.

Lemma page_loop_spec mem read (R : word_reader mem read) blank extra n : forall pa opt data erase (s : F),
  CMD s = NO_OPERATION -> nvm_busy (hw s) = false -> 0 <= pa -> pa mod 2 = 0 -> pa mod 256 + 2 * Z.of_nat n <= 256 ->
  pa + 2 * Z.of_nat n <= len (mem (hw s)) -> pa + 2 * Z.of_nat n < 65536 -> 0 <= opt -> opt + len data < 65536 ->
  pa <= opt \/ data = [] -> Forall is_byte data ->
  (forall k, (Z.to_nat (pa mod 256 / 2) <= k < Z.to_nat (pa mod 256 / 2) + n)%nat -> page_word (hw s) k = None) ->
  exists opt' data' erase' s', page_loop n read blank pa (len data, opt, data ++ extra) erase s =
    Some (s', ((len data', opt', data' ++ extra), erase')) /\ page_result mem blank n pa opt data erase s opt' data' erase' s'.
Proof.
  induction n as [|n IH]; intros pa opt data erase s Hc Hb Hpa H2 Hn Hm Hw Ho Hl Hp Hd He.
  - exists opt, data, erase, s. split; [reflexivity|]. constructor; try reflexivity; try assumption.
    + apply advanced_refl. rewrite Z.mul_0_r, Z.add_0_r. exact Hp.
    + intros k. rewrite Nat.add_0_r. destruct (Nat.leb_spec (Z.to_nat (pa mod 256 / 2)) k), (Nat.ltb_spec k (Z.to_nat (pa mod 256 / 2))); try reflexivity. lia.
    + intros. lia.
    + auto.
  - cbn [page_loop]. set (m := mem (hw s)) in *.
    set (base := fun i => if blank then nth (Z.to_nat i) m 0 else 255).
    assert (forall i, 0 <= i < len m -> is_byte (base i)) as Hbase.
    { intros i Hi. unfold base. destruct blank; [|unfold is_byte; lia].
      apply (proj1 (List.Forall_forall _ _) (reader_bytes _ _ R (hw s))). apply List.nth_In. fold m. lia. }
    assert ((if blank then read pa else mret 0xFFFF) s = Some (s, base pa + 256 * base (pa + 1))) as Er.
    { unfold base. destruct blank; [apply (reader_reads _ _ R); auto; fold m; lia|reflexivity]. }
    destruct (take_word_spec pa opt data extra (base pa) (base (pa + 1))) as (opt1 & data1 & Et & A1);
      try assumption; try (apply Hbase; lia).
    assert (page_word (hw s) (Z.to_nat (pa mod FLASH_PAGE_SIZE / 2)) = None) as Hnone by (apply He; unfold FLASH_PAGE_SIZE; lia).
    set (w := loaded_word blank opt data m pa) in *.
    set (s1 := set_hw (spm LOAD_FLASH_BUFFER pa w (hw s)) s).
    assert (0 <= w < 65536) as Hww.
    { pose proof (byte_at_byte opt data (base pa) pa Hd (Hbase pa ltac:(lia))) as B1.
      pose proof (byte_at_byte opt data (base (pa + 1)) (pa + 1) Hd (Hbase (pa + 1) ltac:(lia))) as B2.
      unfold is_byte in B1, B2. change w with (byte_at opt data (base pa) pa + 256 * byte_at opt data (base (pa + 1)) (pa + 1)). lia. }
    destruct (spm_load pa w (hw s) Hb Hpa Hww Hnone) as (L1 & L2 & L3 & L4).
    pose proof (reader_load _ _ R pa w (hw s) Hb Hpa Hww Hnone) as L5. fold m in L5.
    assert (hw s1 = spm LOAD_FLASH_BUFFER pa w (hw s) /\ CMD s1 = CMD s) as [Eh Ec] by (destruct s; split; reflexivity).
    assert (n <> 0%nat -> (pa + 2) mod 256 = pa mod 256 + 2) as Hmod by (intros; lia_mod).
    set (erase1 := erase || negb (base pa + 256 * base (pa + 1) =? 0xFFFF)).
    destruct (IH (pa + 2) opt1 data1 erase1 s1) as (opt2 & data2 & erase2 & s2 & E2 & P2);
      rewrite ?Eh, ?Ec, ?L5; try assumption; try lia.
    + lia_mod.
    + destruct n; [lia_mod|]. rewrite Hmod; lia.
    + pose proof (adv_up _ _ _ _ _ A1). lia.
    + pose proof (adv_end _ _ _ _ _ A1). lia.
    + apply (adv_reached _ _ _ _ _ A1).
    + destruct (adv_suffix _ _ _ _ _ A1) as [t ->]. apply Forall_app in Hd. apply Hd.
    + intros k Hk. rewrite L4. unfold FLASH_PAGE_SIZE. destruct (Nat.eqb_spec k (Z.to_nat (pa mod 256 / 2))) as [->|];
        destruct n; try lia; rewrite Hmod in Hk by lia; [lia_mod|]. apply He. lia_mod.
    + exists opt2, data2, erase2, s2. split.
      * step Er. cbv beta zeta. cbn [mbind option_bind] in Et.
        destruct (take_byte set_LSB pa (len data, opt, data ++ extra) (base pa + 256 * base (pa + 1))) as [[r1 w1]|] eqn:E1; [|discriminate].
        change (take_byte set_MSB (pa + 1) r1 w1 = Some (len data1, opt1, data1 ++ extra, w)) in Et.
        step_pure. step (of_option_step _ s _ Et).
        step_by (load_word_spec s pa w Hb Hpa Hnone). fold s1. rewrite u16_id by lia. exact E2.
      * apply (page_result_cons mem blank n pa opt data erase s opt1 data1 s1); assumption || (rewrite ?Eh, ?Ec; assumption) || auto.
        intros i Hi. apply Hbase. lia.
Qed.

(** *** The program memory *)

Definition contents (s : F) : list Z := program (nvm_settle (hw s)).
Definition signature_rows (s : F) : list Z * list Z := rows (nvm_settle (hw s)).
Definition buffer_empty (s : F) : Prop := forall k, page_word (nvm_settle (hw s)) k = None.

(** A byte of the memory after data was written, with and without the check for erased pages. *)
Definition written (blank : bool) (opt : Z) (data : list Z) (old i : Z) : Z :=
  if blank then byte_at opt data old i else Z.land old (byte_at opt data 255 i).

Lemma land_ones_byte b : is_byte b -> Z.land b 255 = b /\ Z.land 255 b = b.
Proof.
  intros Hb. unfold is_byte in *. change 255 with (Z.ones 8). rewrite (Z.land_comm (Z.ones 8)), Z.land_ones by lia.
  rewrite Z.mod_small by (change (2 ^ 8) with 256; lia). auto.
Qed.

Lemma program_step (s : F) cmd a : nvm_busy (hw s) = false -> 0 <= a < FLASH_SIZE ->
  cmd = ERASE_WRITE_APP_PAGE \/ cmd = WRITE_APP_PAGE -> exists s',
  nvm_program cmd a s = Some (s', tt) /\ CMD s' = CMD s /\ signature_rows s' = rows (hw s) /\ buffer_empty s' /\
  contents s' = if decide (cmd = WRITE_APP_PAGE) then only_written a (hw s) (program (hw s)) else erased_written a (hw s) (program (hw s)).
Proof.
  intros Hb Ha Hc. unfold nvm_program, nvm_wait_until_ready, nvm_common_spm, self_program. run.
  rewrite nvm_settle_id by exact Hb. destruct s as [h c a0 a1 a2 d0 d1 d2 k x v]. cbn in Hb. eexists. split; [reflexivity|].
  unfold signature_rows, buffer_empty, contents. cbn. destruct (spm_write cmd a 0 h Hb Ha Hc) as (L1 & L2 & L3). auto.
Qed.

Lemma buffer_after (mem : H -> list Z) (s s' : F) blank pa opt data erase opt' data' erase' i :
  page_result mem blank PAGE_WORDS pa opt data erase s opt' data' erase' s' -> Forall is_byte (mem (hw s)) ->
  0 <= pa -> pa mod 256 = 0 -> pa <= i < pa + 256 -> i < len (mem (hw s)) -> Forall is_byte data ->
  buffer_byte (hw s') (Z.to_nat i) = byte_at opt data (if blank then nth (Z.to_nat i) (mem (hw s)) 0 else 255) i.
Proof.
  intros P Hmem Hpa Hp Hi Hl Hd. unfold buffer_byte. rewrite (pr_words _ _ _ _ _ _ _ _ _ _ _ _ P), Hp.
  change (Z.to_nat (0 / 2)) with 0%nat. change (0 / 2) with 0. rewrite Z.sub_0_r.
  assert (Z.of_nat (Z.to_nat i mod 256 / 2) = (i - pa) / 2) as Hk.
  { rewrite Nat2Z.inj_div, Nat2Z.inj_mod, Z2Nat.id by lia. change (Z.of_nat 256) with 256. change (Z.of_nat 2) with 2. lia_mod. }
  rewrite Hk. replace (_ && _) with true by (symmetry; apply andb_true_iff; split; [reflexivity|apply Nat.ltb_lt; unfold PAGE_WORDS; lia_mod]).
  cbv iota. unfold loaded_word.
  set (base := fun j => if blank then nth (Z.to_nat j) (mem (hw s)) 0 else 255).
  assert (forall j, 0 <= j < len (mem (hw s)) -> is_byte (byte_at opt data (base j) j)) as Hb.
  { intros j Hj. apply byte_at_byte; [exact Hd|]. unfold base. destruct blank; [|unfold is_byte; lia].
    apply (proj1 (List.Forall_forall _ _) Hmem). apply List.nth_In. lia. }
  change (if blank then nth (Z.to_nat i) (mem (hw s)) 0 else 255) with (base i).
  pose proof (Hb i ltac:(lia)) as Bi. unfold is_byte in *.
  destruct (Nat.even (Z.to_nat i)) eqn:E.
  - apply Nat.even_spec in E as [q Hq]. replace (pa + 2 * ((i - pa) / 2)) with i by lia_mod. fold (base i). lia_mod.
  - assert (Nat.odd (Z.to_nat i) = true) as O by (unfold Nat.odd; rewrite E; reflexivity). apply Nat.odd_spec in O as [q Hq].
    replace (pa + 2 * ((i - pa) / 2)) with (i - 1) by lia_mod. replace (i - 1 + 1) with i by lia.
    pose proof (Hb (i - 1) ltac:(lia)) as Bj. fold (base i) (base (i - 1)). lia_mod.
Qed.

(** What one page of the loop does. *)
Lemma write_one_page (s : F) blank pa opt data extra :
  CMD s = NO_OPERATION -> buffer_empty s -> 0 <= pa -> pa mod 256 = 0 -> pa + 256 <= FLASH_SIZE -> pa <= opt -> opt + len data < 65536 ->
  Forall is_byte data -> exists s' opt' data' erase,
  (_ ← nvm_wait_until_ready; page_loop PAGE_WORDS nvm_flash_read_word blank pa (len data, opt, data ++ extra) false) s
    = Some (s', ((len data', opt', data' ++ extra), erase)) /\ advanced (pa + 256) opt data opt' data' /\
  exists s'', (if erase : bool then nvm_flash_atomic_write_app_page pa else nvm_flash_split_write_app_page pa) s' = Some (s'', tt) /\
    CMD s'' = NO_OPERATION /\ buffer_empty s'' /\ signature_rows s'' = signature_rows s /\
    contents s'' = imap (fun i old => if page_of pa i then written blank opt data old (Z.of_nat i) else old) (contents s).
Proof.
  intros Hc He Hpa Hp Hf Ho Hl Hd. unfold FLASH_SIZE in Hf. set (s1 := set_hw (nvm_settle (hw s)) s).
  assert (hw s1 = nvm_settle (hw s) /\ CMD s1 = CMD s) as [Eh Ec] by (destruct s; split; reflexivity).
  pose proof (program_length (hw s1)) as Hpl. unfold FLASH_SIZE in Hpl.
  destruct (page_loop_spec program nvm_flash_read_word program_reader blank extra PAGE_WORDS pa opt data false s1)
    as (opt' & data' & erase & s2 & E2 & P2); rewrite ?Eh, ?Ec, ?Hp; unfold PAGE_WORDS in *;
    try first [exact Hc | apply nvm_settle_ready | exact Hd | lia | lia_mod | rewrite <- Eh; lia].
  { intros k _. apply He. }
  exists s2, opt', data', erase. split; [step_pure; exact E2|]. split; [exact (pr_rest _ _ _ _ _ _ _ _ _ _ _ _ P2)|].
  destruct (program_step s2 (if erase then ERASE_WRITE_APP_PAGE else WRITE_APP_PAGE) pa) as (s3 & E3 & C3 & R3 & B3 & M3);
    [apply (pr_ready _ _ _ _ _ _ _ _ _ _ _ _ P2)|unfold FLASH_SIZE; lia|destruct erase; auto|].
  exists s3. split; [destruct erase; exact E3|]. rewrite C3, (pr_cmd _ _ _ _ _ _ _ _ _ _ _ _ P2), Ec. split; [exact Hc|]. split; [exact B3|].
  split; [rewrite R3, (pr_rows _ _ _ _ _ _ _ _ _ _ _ _ P2), Eh; reflexivity|].
  rewrite M3, (pr_program _ _ _ _ _ _ _ _ _ _ _ _ P2), Eh. fold (contents s). unfold only_written, erased_written.
  assert (program (hw s1) = contents s) as Em by (rewrite Eh; reflexivity).
  assert (forall i old, contents s !! i = Some old -> page_of pa i = true ->
    is_byte old /\ buffer_byte (hw s2) i = byte_at opt data (if blank then old else 255) (Z.of_nat i)) as Hbuf.
  { intros i old Hi Hpg. apply Z.eqb_eq in Hpg. unfold FLASH_PAGE_SIZE in Hpg. pose proof (lookup_lt_Some _ _ _ Hi).
    split; [apply (Forall_lookup_1 _ _ _ _ (program_bytes _) Hi)|].
    rewrite <- (Nat2Z.id i) at 1. rewrite (buffer_after program s1 s2 blank pa opt data false opt' data' erase) by (rewrite ?Em; try apply program_bytes; auto; lia_mod).
    rewrite Em, Nat2Z.id, (nth_lookup_Some _ _ _ _ Hi). reflexivity. }
  assert (forall i old, contents s !! i = Some old -> page_of pa i = true ->
    (if erase then buffer_byte (hw s2) i else Z.land old (buffer_byte (hw s2) i)) = written blank opt data old (Z.of_nat i)) as Hw.
  { intros i old Hi Hpg. destruct (Hbuf i old Hi Hpg) as [Hb ->]. unfold written. destruct blank.
    - destruct erase eqn:Ee; [reflexivity|]. apply Z.eqb_eq in Hpg. unfold FLASH_PAGE_SIZE in Hpg. pose proof (lookup_lt_Some _ _ _ Hi).
      pose proof (pr_erase _ _ _ _ _ _ _ _ _ _ _ _ P2 eq_refl eq_refl (Z.of_nat i) ltac:(unfold PAGE_WORDS; lia_mod)) as H255.
      rewrite Em, Nat2Z.id, (nth_lookup_Some _ _ _ _ Hi) in H255. subst old. apply land_ones_byte, byte_at_byte; [exact Hd|unfold is_byte; lia].
    - rewrite (pr_no_check _ _ _ _ _ _ _ _ _ _ _ _ P2 eq_refl). reflexivity. }
  apply list_eq. intros i. destruct erase; cbn [decide]; rewrite ?decide_True by reflexivity; rewrite ?decide_False by discriminate;
    rewrite !list_lookup_imap; destruct (contents s !! i) as [old|] eqn:Hi; cbn; try reflexivity; f_equal;
    destruct (page_of pa i) eqn:Hpg; try reflexivity; apply (Hw i old Hi Hpg).
Qed.

Lemma written_before blank opt data old i : is_byte old -> i < opt -> written blank opt data old i = old.
Proof. intros Hb Hi. unfold written. rewrite !byte_at_before by exact Hi. destruct blank; [reflexivity|apply land_ones_byte, Hb]. Qed.

Lemma written_nil blank opt old i : is_byte old -> written blank opt [] old i = old.
Proof. intros Hb. unfold written. rewrite !byte_at_nil. destruct blank; [reflexivity|apply land_ones_byte, Hb]. Qed.

Lemma contents_byte (s : F) i old : contents s !! i = Some old -> is_byte old.
Proof. intros Hi. apply (Forall_lookup_1 _ _ _ _ (program_bytes _) Hi). Qed.

(** Writing one page and then the rest of the data. *)
Lemma written_step blank pa opt data opt1 data1 old i : is_byte old -> Forall is_byte data -> 0 <= pa -> pa mod 256 = 0 -> pa <= opt ->
  advanced (pa + 256) opt data opt1 data1 ->
  written blank opt1 data1 (if page_of pa i then written blank opt data old (Z.of_nat i) else old) (Z.of_nat i)
    = written blank opt data old (Z.of_nat i).
Proof.
  intros Hb Hd Hpa Hp Ho A. unfold page_of, FLASH_PAGE_SIZE. destruct (Z.eqb_spec (Z.of_nat i / 256) (pa / 256)) as [E|E].
  - assert (Z.of_nat i < pa + 256) by lia_mod. unfold written.
    destruct (adv_reached _ _ _ _ _ A) as [R| ->]; rewrite ?byte_at_nil, ?(byte_at_before opt1) by lia; destruct blank; try reflexivity;
      rewrite <- Z.land_assoc; f_equal; apply land_ones_byte, byte_at_byte; assumption || (unfold is_byte; lia).
  - destruct (Z.lt_ge_cases (Z.of_nat i) pa).
    + rewrite (written_before blank opt data) by (auto; lia). destruct (adv_reached _ _ _ _ _ A) as [R| ->]; [apply written_before; auto; lia|apply written_nil, Hb].
    + unfold written. rewrite !(adv_bytes _ _ _ _ _ A) by lia_mod. reflexivity.
Qed.

(** The pages that are written are those of the data, one after the other. *)
Lemma pages_loop_spec blank extra fuel : forall (s : F) pa opt data,
  CMD s = NO_OPERATION -> buffer_empty s -> 0 <= pa -> pa mod 256 = 0 -> pa <= opt \/ data = [] -> opt < pa + 256 \/ data = [] ->
  opt + len data <= FLASH_SIZE -> Forall is_byte data -> (length data < fuel)%nat -> exists s',
  pages_loop fuel blank pa (len data, opt, data ++ extra) s = Some (s', tt) /\
  CMD s' = NO_OPERATION /\ buffer_empty s' /\ signature_rows s' = signature_rows s /\
  contents s' = imap (fun i old => written blank opt data old (Z.of_nat i)) (contents s).
Proof.
  induction fuel as [|fuel IH]; intros s pa opt data Hc He Hpa Hp Hlo Hhi Hf Hd Hfu; [lia|]. cbn [pages_loop fst].
  destruct data as [|b data].
  { exists s. repeat split; auto. apply list_eq. intros i. rewrite list_lookup_imap.
    destruct (contents s !! i) as [old|] eqn:Hi; [|reflexivity]. cbn. rewrite written_nil by exact (contents_byte _ _ _ Hi). reflexivity. }
  set (d := b :: data) in *. destruct Hlo as [Hlo|]; [|discriminate]. destruct Hhi as [Hhi|]; [|discriminate].
  assert (0 < len d) as Hn by (unfold d; cbn [length]; lia). rewrite (proj2 (Z.eqb_neq _ 0)) by lia. unfold FLASH_SIZE in Hf.
  destruct (write_one_page s blank pa opt d extra) as (s1 & opt1 & data1 & erase & E1 & A1 & s2 & E2 & C2 & B2 & R2 & M2);
    auto; try (unfold FLASH_SIZE; lia_mod); try lia.
  pose proof (adv_end _ _ _ _ _ A1) as Ae. pose proof (adv_up _ _ _ _ _ A1) as Au. pose proof (adv_reached _ _ _ _ _ A1) as Ar.
  assert (pa + 256 <= 32768) by lia_mod. assert ((pa + 256) mod 256 = 0) as Hp1 by lia_mod.
  assert (Forall is_byte data1) as Hd1 by (destruct (adv_suffix _ _ _ _ _ A1) as [t Et]; rewrite Et in Hd; apply Forall_app in Hd; apply Hd).
  destruct (IH s2 (pa + 256) opt1 data1) as (s3 & E3 & C3 & B3 & R3 & M3); auto; try (unfold FLASH_SIZE; lia); try lia.
  { pose proof (adv_top _ _ _ _ _ A1). left. lia. }
  { destruct Ar as [Ar| ->]; [|cbn; lia]. lia. }
  exists s3. split; [|split; [exact C3|split; [exact B3|split; [congruence|]]]].
  - apply bind_inv in E1 as (s0 & [] & E0 & E1). step E0. step E1. cbv beta iota zeta. unfold FLASH_PAGE_SIZE.
    rewrite (u16_id (pa + 256)) by lia. replace (pa + 256 - 256) with pa by lia. rewrite (u16_id pa) by lia.
    step E2. exact E3.
  - rewrite M3, M2. apply list_eq. intros i. rewrite !list_lookup_imap. destruct (contents s !! i) as [old|] eqn:Hi; [|reflexivity].
    pose proof (contents_byte _ _ _ Hi) as Hb. cbn. f_equal. apply (written_step blank pa opt d opt1 data1 old i Hb Hd Hpa Hp Hlo A1).
Qed.

(** Reading byte after byte. *)
Lemma read_loop_spec (s : F) n : forall a, CMD s = NO_OPERATION -> nvm_busy (hw s) = false -> 0 <= a ->
  a + Z.of_nat n <= len (program (hw s)) -> a + Z.of_nat n < 65536 ->
  read_loop n nvm_flash_read_byte a s = Some (s, take n (drop (Z.to_nat a) (program (hw s)))).
Proof.
  induction n as [|n IH]; intros a Hc Hb Ha Hl Hw; [reflexivity|]. cbn [read_loop].
  pose proof (lpm_program a (hw s) Hb ltac:(lia)) as E. step_pure. rewrite Hc. rewrite u16_id by lia.
  step (IH (a + 1) Hc Hb ltac:(lia) ltac:(lia) ltac:(lia)). rewrite (drop_S _ _ _ E). cbn [take].
  replace (Z.to_nat (a + 1)) with (S (Z.to_nat a)) by lia. reflexivity.
Qed.

Lemma read_buffer_contents (s : F) a n : CMD s = NO_OPERATION -> 0 <= a -> 0 <= n -> a + n <= FLASH_SIZE ->
  exists s', nvm_flash_read_buffer a n s = Some (s', take (Z.to_nat n) (drop (Z.to_nat a) (contents s))).
Proof.
  intros Hc Ha Hn Hl. pose proof (program_length (nvm_settle (hw s))) as Hp. unfold FLASH_SIZE in *.
  exists (set_hw (nvm_settle (hw s)) s). unfold nvm_flash_read_buffer. step_pure. rewrite u16_id by lia.
  assert (hw (set_hw (nvm_settle (hw s)) s) = nvm_settle (hw s) /\ CMD (set_hw (nvm_settle (hw s)) s) = CMD s) as [Eh Ec] by (destruct s; split; reflexivity).
  rewrite read_loop_spec; rewrite ?Eh, ?Ec; auto using nvm_settle_ready; lia.
Qed.

(** *** The user's signature row *)

Lemma row_program_step (s : F) cmd : exists s',
  nvm_program cmd 0 s = Some (s', tt) /\ hw s' = spm cmd 0 0 (nvm_settle (hw s)) /\ CMD s' = CMD s.
Proof. destruct s as [h c a0 a1 a2 d0 d1 d2 k x v]. eexists. split; [reflexivity|]. split; reflexivity. Qed.

(** The erasure, if there was something in the row, and the write. *)
Lemma row_finish (s : F) (erase : bool) : nvm_busy (hw s) = false -> exists s',
  (_ ← when erase nvm_flash_erase_user_section; nvm_flash_write_user_page) s = Some (s', tt) /\
  CMD s' = CMD s /\ buffer_empty s' /\ contents s' = program (hw s) /\ snd (signature_rows s') = production_row (hw s) /\
  fst (signature_rows s') = imap (fun i old => Z.land (if erase then 255 else old) (buffer_byte (hw s) i)) (user_row (hw s)).
Proof.
  intros Hb. unfold contents, signature_rows, buffer_empty, rows. cbn [fst snd]. destruct erase; cbn [when].
  - destruct (row_program_step s ERASE_USER_SIG_ROW) as (s1 & E1 & H1' & C1). rewrite nvm_settle_id in H1' by exact Hb.
    destruct (spm_erase_user_row 0 0 (hw s) Hb) as (L1 & L2 & L3 & L4).
    destruct (row_program_step s1 WRITE_USER_SIG_ROW) as (s2 & E2 & H2' & C2). rewrite H1' in H2'.
    set (h1 := nvm_settle (spm ERASE_USER_SIG_ROW 0 0 (hw s))) in *.
    destruct (spm_write_user_row 0 0 h1 (nvm_settle_ready _)) as (K1 & K2 & K3 & K4). rewrite <- H2' in *.
    exists s2. split; [step E1; exact E2|]. split; [congruence|]. split; [exact K3|]. split; [congruence|]. split; [congruence|].
    rewrite K4, L4. unfold buffer_byte. rewrite L3. apply list_eq. intros i. rewrite !list_lookup_imap.
    destruct (user_row (hw s) !! i) as [old|] eqn:E.
    + rewrite lookup_replicate_2 by (apply lookup_lt_Some in E; exact E). reflexivity.
    + rewrite (lookup_ge_None_2 (replicate _ _)) by (rewrite length_replicate; apply lookup_ge_None in E; exact E). reflexivity.
  - destruct (row_program_step s WRITE_USER_SIG_ROW) as (s2 & E2 & H2' & C2). rewrite nvm_settle_id in H2' by exact Hb.
    destruct (spm_write_user_row 0 0 (hw s) Hb) as (K1 & K2 & K3 & K4). rewrite <- H2' in *.
    exists s2. split; [step_pure; exact E2|]. auto.
Qed.

(** One pass over the row is enough for data that fits it. *)
Lemma row_pass (s : F) blank opt data extra : CMD s = NO_OPERATION -> nvm_busy (hw s) = false -> (forall k, page_word (hw s) k = None) ->
  0 <= opt -> opt + len data <= 256 -> Forall is_byte data -> exists s' opt' erase,
  page_loop PAGE_WORDS read_user_word blank 0 (len data, opt, data ++ extra) false s = Some (s', ((0, opt', extra), erase)) /\
  exists data', page_result user_row blank PAGE_WORDS 0 opt data false s opt' data' erase s'.
Proof.
  intros Hc Hb He Ho Hl Hd. pose proof (user_row_length (hw s)) as Hu. unfold FLASH_PAGE_SIZE in Hu.
  destruct (page_loop_spec user_row read_user_word user_row_reader blank extra PAGE_WORDS 0 opt data false s)
    as (opt' & data' & erase & s' & E & P); unfold PAGE_WORDS in *; auto; try lia; try (change (0 mod 256) with 0; lia).
  assert (data' = []) as ->.
  { destruct data' as [|b data']; [reflexivity|]. pose proof (adv_reached _ _ _ _ _ (pr_rest _ _ _ _ _ _ _ _ _ _ _ _ P)) as [R|]; [|discriminate].
    pose proof (adv_end _ _ _ _ _ (pr_rest _ _ _ _ _ _ _ _ _ _ _ _ P)) as Ae. cbn [length] in Ae. lia. }
  exists s', opt', erase. split; [exact E|]. exists []. exact P.
Qed.

Lemma row_written (s : F) blank opt data : CMD s = NO_OPERATION -> nvm_busy (hw s) = false -> (forall k, page_word (hw s) k = None) ->
  0 <= opt -> 0 < len data -> opt + len data <= 256 -> Forall is_byte data -> exists s',
  nvm_user_sig_write_buffer 2 opt data (len data) blank s = Some (s', tt) /\
  CMD s' = NO_OPERATION /\ buffer_empty s' /\ contents s' = program (hw s) /\ snd (signature_rows s') = production_row (hw s) /\
  fst (signature_rows s') = imap (fun i old => written blank opt data old (Z.of_nat i)) (user_row (hw s)).
Proof.
  intros Hc Hb He Ho Hn Hl Hd. destruct (row_pass s blank opt data [] Hc Hb He Ho Hl Hd) as (s1 & opt1 & erase & E1 & data1 & P1).
  rewrite app_nil_r in E1.
  destruct (row_finish s1 erase (pr_ready _ _ _ _ _ _ _ _ _ _ _ _ P1)) as (s2 & E2 & C2 & B2 & M2 & R2 & U2).
  exists s2. split.
  { unfold nvm_user_sig_write_buffer. rewrite u16_id by lia.
    assert (row_loop 2 blank (len data, opt, data) false s = Some (s1, erase)) as Er.
    { cbn [row_loop fst]. rewrite (proj2 (Z.eqb_neq (len data) 0)) by lia. step E1. reflexivity. }
    step Er. exact E2. }
  rewrite C2, (pr_cmd _ _ _ _ _ _ _ _ _ _ _ _ P1), M2, (pr_program _ _ _ _ _ _ _ _ _ _ _ _ P1), R2.
  pose proof (pr_rows _ _ _ _ _ _ _ _ _ _ _ _ P1) as [= Er1 Er2]. repeat (split; [assumption || reflexivity|]).
  rewrite U2, Er1. apply list_eq. intros i. rewrite !list_lookup_imap.
  destruct (user_row (hw s) !! i) as [old|] eqn:Hi; [|reflexivity]. cbn. f_equal. pose proof (lookup_lt_Some _ _ _ Hi) as Hlt.
  pose proof (user_row_length (hw s)) as Hu. unfold FLASH_PAGE_SIZE in Hu.
  pose proof (buffer_after user_row s s1 blank 0 opt data false opt1 data1 erase (Z.of_nat i) P1 (user_row_bytes _) ltac:(lia) eq_refl
    ltac:(lia) ltac:(lia) Hd) as Hbuf. rewrite Nat2Z.id, (nth_lookup_Some _ _ _ _ Hi) in Hbuf. rewrite Hbuf. unfold written.
  destruct blank; [|rewrite (pr_no_check _ _ _ _ _ _ _ _ _ _ _ _ P1 eq_refl); reflexivity].
  assert ((if erase then 255 else old) = 255) as ->.
  { destruct erase; [reflexivity|]. pose proof (pr_erase _ _ _ _ _ _ _ _ _ _ _ _ P1 eq_refl eq_refl (Z.of_nat i) ltac:(unfold PAGE_WORDS; lia)) as E.
    rewrite Nat2Z.id, (nth_lookup_Some _ _ _ _ Hi) in E. exact E. }
  apply land_ones_byte, byte_at_byte; [exact Hd|]. apply (Forall_lookup_1 _ _ _ _ (user_row_bytes (hw s)) Hi).
Qed.

(** Data that does not fit the row: some of it is always left. *)
Definition overlong (r : rest) : Prop :=
  let '(len, opt_address, _) := r in 0 < len < 65536 /\ 0 <= opt_address < 65536 /\ 256 < opt_address + len.

Lemma take_byte_overlong set here r w r' w' : here < 256 -> overlong r -> take_byte set here r w = Some (r', w') -> overlong r'.
Proof.
  destruct r as [[n opt] buf]. unfold take_byte, overlong. intros Hh (Hn & Ho & Hs).
  destruct (negb (n =? 0) && (opt =? here)) eqn:E; [|intros [= <- _]; auto]. bool_hyps. subst opt.
  destruct (load buf 0) as [b|]; [|discriminate]. cbn. intros [= <- _]. rewrite !u16_id by lia. lia.
Qed.

Lemma page_loop_overlong read blank n : forall pa r erase (s s' : F) r' erase', 0 <= pa -> pa + 2 * Z.of_nat n <= 256 -> overlong r ->
  page_loop n read blank pa r erase s = Some (s', (r', erase')) -> overlong r'.
Proof.
  induction n as [|n IH]; intros pa r erase s s' r' erase' Hp Hn Hr; cbn [page_loop].
  - intros [= _ <- _]. exact Hr.
  - intros E. unbind E as s1 w E1. unbind E as s2 x2 E2. destruct x2 as [r2 w2]. unbind E as s3 x3 E3. destruct x3 as [r3 w3].
    apply of_option_inv in E2 as [E2 _]. apply of_option_inv in E3 as [E3 _]. unbind E as s4 u E4.
    rewrite u16_id in E by lia. eapply (IH (pa + 2)); [lia|lia| |exact E].
    eapply take_byte_overlong; [|eapply take_byte_overlong; [|exact Hr|exact E2]|exact E3]; lia.
Qed.

Lemma row_loop_overlong blank fuel : forall r erase (s : F), overlong r -> row_loop fuel blank r erase s = None.
Proof.
  induction fuel as [|fuel IH]; intros r erase s Hr; [reflexivity|]. cbn [row_loop]. destruct r as [[n opt] buf].
  cbn [fst]. rewrite (proj2 (Z.eqb_neq n 0)) by (unfold overlong in Hr; lia). unfold mbind, M_bind.
  destruct (page_loop PAGE_WORDS read_user_word blank 0 (n, opt, buf) erase s) as [[s1 [r1 e1]]|] eqn:E; [|reflexivity].
  apply IH. eapply page_loop_overlong; [| |exact Hr|exact E]; [lia|reflexivity].
Qed.

End Writing.

(** The bytes that are written, as a whole. *)
Lemma imap_written_checked m a d : (a + length d <= length m)%nat ->
  imap (fun i old => written true (Z.of_nat a) d old (Z.of_nat i)) m = patched m a d.
Proof.
  intros Ha. apply list_eq. intros i. rewrite list_lookup_imap. destruct (m !! i) as [old|] eqn:Hi; cbn.
  - symmetry. apply byte_at_lookup; assumption.
  - rewrite patched_lookup by exact Ha. apply lookup_ge_None in Hi.
    destruct (Nat.ltb_spec i (a + length d)); [lia|]. rewrite andb_false_r. symmetry. apply lookup_ge_None_2, Hi.
Qed.

Lemma imap_written_unchecked m a d : (a + length d <= length m)%nat ->
  imap (fun i old => written false (Z.of_nat a) d old (Z.of_nat i)) m = zip_with Z.land m (patched (replicate (length m) 255) a d).
Proof.
  intros Ha. apply list_eq. intros i. rewrite list_lookup_imap, lookup_zip_with. destruct (m !! i) as [old|] eqn:Hi; [|reflexivity].
  rewrite (byte_at_lookup _ _ _ _ 255) by (rewrite ?length_replicate; auto; apply lookup_replicate_2, (lookup_lt_Some _ _ _ Hi)).
  reflexivity.
Qed.

(** ** Theorems *)

Section Theorems.
Context {H : Type} `{FlashLaws H}.

(** C38. Writing data to the program memory ends. With the check for erased pages exactly the
    bytes of the data change, and reading them returns the data; without it bits are only
    cleared, and no byte outside the data changes. The signature rows are kept. *)
Theorem flash_write_read (s : Flash H) address data (b_blank_check : bool) :
  CMD s = NO_OPERATION -> buffer_empty s -> Forall is_byte data -> 0 <= address -> address + len data <= FLASH_SIZE ->
  exists s', nvm_flash_erase_and_write_buffer (S (length data)) address data (len data) b_blank_check s = Some (s', tt) /\
    contents s' = (if b_blank_check then patched (contents s) (Z.to_nat address) data
                   else zip_with Z.land (contents s) (patched (replicate (length (contents s)) 255) (Z.to_nat address) data)) /\
    signature_rows s' = signature_rows s /\
    (b_blank_check = true -> exists s'', nvm_flash_read_buffer address (len data) s' = Some (s'', data)).
Proof.
  intros Hc He Hd Ha Hl. unfold nvm_flash_erase_and_write_buffer. unfold FLASH_SIZE in Hl. rewrite u16_id by lia. unfold FLASH_PAGE_SIZE.
  destruct (pages_loop_spec b_blank_check [] (S (length data)) s (address - address mod 256) address data)
    as (s' & E & C & B & R & M); auto; try (left; lia_mod); try lia_mod; try (unfold FLASH_SIZE; lia).
  rewrite app_nil_r in E. pose proof (program_length (nvm_settle (hw s))) as Hp. unfold FLASH_SIZE in Hp. fold (contents s) in Hp.
  assert (contents s' = if b_blank_check then patched (contents s) (Z.to_nat address) data
    else zip_with Z.land (contents s) (patched (replicate (length (contents s)) 255) (Z.to_nat address) data)) as M'.
  { rewrite <- (Z2Nat.id address Ha) in M. rewrite M. destruct b_blank_check; [apply imap_written_checked|apply imap_written_unchecked]; lia. }
  exists s'. split; [exact E|]. split; [exact M'|]. split; [exact R|]. intros ->. 
  destruct (read_buffer_contents s' address (len data) C Ha ltac:(lia) Hl) as [s'' Er]. exists s''. rewrite Er. do 2 f_equal.
  rewrite M'. unfold patched. rewrite drop_app_ge by (rewrite length_take; lia). rewrite length_take, Nat.min_l, Nat.sub_diag, drop_0 by lia.
  rewrite Nat2Z.id. apply take_app_length.
Qed.

(** Writing data to the user's signature row changes exactly the bytes of the data, in one pass. *)
Theorem row_write (s : Flash H) address data :
  CMD s = NO_OPERATION -> nvm_busy (hw s) = false -> (forall k, page_word (hw s) k = None) -> Forall is_byte data ->
  0 <= address -> 0 < len data -> address + len data <= FLASH_PAGE_SIZE ->
  exists s', nvm_user_sig_write_buffer 2 address data (len data) true s = Some (s', tt) /\ contents s' = program (hw s) /\
    signature_rows s' = (patched (user_row (hw s)) (Z.to_nat address) data, production_row (hw s)).
Proof.
  intros Hc Hb He Hd Ha Hn Hl. unfold FLASH_PAGE_SIZE in Hl. destruct (row_written s true address data Hc Hb He Ha Hn Hl Hd) as (s' & E & C & B & M & R & U).
  pose proof (user_row_length (hw s)) as Hu. unfold FLASH_PAGE_SIZE in Hu.
  exists s'. split; [exact E|]. split; [exact M|]. rewrite <- (Z2Nat.id address Ha) in U.
  rewrite (surjective_pairing (signature_rows s')), R, U. f_equal. apply imap_written_checked. lia.
Qed.

(** Data that does not fit the user's signature row is written forever. *)
Theorem long_row_hangs (s : Flash H) address buf len b_blank_check fuel :
  0 <= address < 65536 -> 0 < len < 65536 -> FLASH_PAGE_SIZE < address + len ->
  nvm_user_sig_write_buffer fuel address buf len b_blank_check s = None.
Proof.
  intros Ha Hn Hs. unfold FLASH_PAGE_SIZE in Hs. unfold nvm_user_sig_write_buffer, mbind, M_bind. rewrite u16_id by exact Ha.
  rewrite row_loop_overlong by (unfold overlong; lia). reflexivity.
Qed.

End Theorems.

(** ** A memory with the documented behaviour *)

Record Chip := mkChip { cell : nat -> Z; user_cell : nat -> Z; calib_cell : nat -> Z; fuse_cell : Z -> Z; words : nat -> option Z; register : Z }.

Definition bytes_of (n : nat) (f : nat -> Z) : list Z := map (fun i => u8 (f i)) (seq 0 n).
Definition PROGRAM_BYTES : nat := Z.to_nat 36864.
Lemma PROGRAM_BYTES_large : FLASH_SIZE <= Z.of_nat PROGRAM_BYTES.
Proof. unfold PROGRAM_BYTES, FLASH_SIZE. rewrite Z2Nat.id by lia. lia. Qed.
#[local] Opaque PROGRAM_BYTES.

Definition chip_word (c : Chip) (k : nat) : option Z := option_map u16 (words c k).
Definition chip_buffer (c : Chip) (i : nat) : Z :=
  match chip_word c (i mod 256 / 2)%nat with Some w => if Nat.even i then w mod 256 else w / 256 | None => 255 end.

Definition chip_lpm (cmd : NVM_CMD_t) (a : Z) (c : Chip) : Z :=
  match cmd with
  | NO_OPERATION => u8 (cell c (Z.to_nat a))
  | READ_USER_SIG_ROW => u8 (user_cell c (Z.to_nat a))
  | READ_CALIB_ROW => u8 (calib_cell c (Z.to_nat a))
  | _ => 0
  end.

Definition chip_spm (cmd : NVM_CMD_t) (a w : Z) (c : Chip) : Chip :=
  let '(mkChip p u k f ws r) := c in
  match cmd with
  | LOAD_FLASH_BUFFER => mkChip p u k f (fun i => if (i =? Z.to_nat (a mod FLASH_PAGE_SIZE / 2))%nat then Some w else ws i) r
  | ERASE_WRITE_APP_PAGE => mkChip (fun i => if page_of a i then chip_buffer c i else p i) u k f (fun _ => None) r
  | WRITE_APP_PAGE => mkChip (fun i => if page_of a i then Z.land (u8 (p i)) (chip_buffer c i) else p i) u k f (fun _ => None) r
  | ERASE_USER_SIG_ROW => mkChip p (fun _ => 255) k f ws r
  | WRITE_USER_SIG_ROW => mkChip p (fun i => Z.land (u8 (u i)) (chip_buffer c i)) k f (fun _ => None) r
  | _ => c
  end.

Definition chip_cmdex (cmd : NVM_CMD_t) (a d : Z) (c : Chip) : Chip :=
  let '(mkChip p u k f ws r) := c in match cmd with READ_FUSES => mkChip p u k f ws (f a) | _ => c end.

#[export] Instance chip : FlashController Chip := {|
  program c := bytes_of PROGRAM_BYTES (cell c);
  user_row c := bytes_of 256 (user_cell c);
  production_row c := bytes_of 64 (calib_cell c);
  fuse := fuse_cell;
  page_word := chip_word;
  nvm_busy _ := false;
  nvm_settle c := c;
  lpm := chip_lpm;
  spm := chip_spm;
  cmdex := chip_cmdex;
  data0 := register;
  check_byte wide c b := (c * 257 + b) mod (if wide then 4294967296 else 65536);
  checked cmd a d c := match cmd with FLASH_RANGE_CRC => take (Z.to_nat (d + 1 - a)) (drop (Z.to_nat a) (bytes_of PROGRAM_BYTES (cell c))) | _ => [] end
|}.

Lemma bytes_of_length n f : length (bytes_of n f) = n.
Proof. unfold bytes_of. rewrite List.length_map, length_seq. reflexivity. Qed.
Lemma bytes_of_lookup n f i : bytes_of n f !! i = if (i <? n)%nat then Some (u8 (f i)) else None.
Proof.
  unfold bytes_of. rewrite list_lookup_fmap. destruct (Nat.ltb_spec i n).
  - rewrite lookup_seq_lt by lia. reflexivity.
  - rewrite lookup_seq_ge by lia. reflexivity.
Qed.
Lemma bytes_of_bytes n f : Forall (fun b => 0 <= b < 256) (bytes_of n f).
Proof. unfold bytes_of. apply Forall_map, List.Forall_forall. intros i _. apply u8_range. Qed.

Lemma chip_buffer_byte c i : 0 <= chip_buffer c i < 256.
Proof.
  unfold chip_buffer, chip_word. destruct (words c (i mod 256 / 2)%nat) as [w|]; cbn; [|lia].
  pose proof (u16_range w). destruct (Nat.even i); lia_mod.
Qed.
Lemma land_u8 x y : 0 <= y < 256 -> u8 (Z.land x y) = Z.land x y.
Proof.
  intros Hy. unfold u8. change 256 with (2 ^ 8) in *. rewrite <- Z.land_ones, <- Z.land_assoc, (Z.land_ones y) by lia.
  rewrite Z.mod_small by exact Hy. reflexivity.
Qed.

(** Memories whose bytes are given by a function, after a change of it. *)
Lemma bytes_of_imap n f g (k : nat -> Z -> Z) : (forall i, (i < n)%nat -> u8 (g i) = k i (u8 (f i))) -> bytes_of n g = imap k (bytes_of n f).
Proof.
  intros E. apply list_eq. intros i. rewrite list_lookup_imap, !bytes_of_lookup. destruct (Nat.ltb_spec i n); [|reflexivity].
  cbn. rewrite E by assumption. reflexivity.
Qed.

#[export] Instance chip_laws : FlashLaws Chip.
Proof.
  constructor; cbn [program user_row production_row fuse page_word nvm_busy nvm_settle lpm spm cmdex data0 check_byte checked chip];
    try reflexivity; try (intros; apply bytes_of_bytes); try (intros; rewrite bytes_of_length; reflexivity).
  - intros h. rewrite bytes_of_length. apply PROGRAM_BYTES_large.
  - intros a h _. rewrite bytes_of_length, bytes_of_lookup. intros Ha. rewrite (proj2 (Nat.ltb_lt _ _)) by lia. reflexivity.
  - intros a h _. rewrite bytes_of_length, bytes_of_lookup. intros Ha. rewrite (proj2 (Nat.ltb_lt _ _)) by lia. reflexivity.
  - intros a h _. rewrite bytes_of_length, bytes_of_lookup. intros Ha. rewrite (proj2 (Nat.ltb_lt _ _)) by lia. reflexivity.
  - intros a w [p u k f ws r] _ Ha Hw Hn. repeat split. intros i. unfold chip_word. cbn.
    destruct (i =? _)%nat; [cbn; rewrite u16_id by exact Hw; reflexivity|reflexivity].
  - intros cmd a w [p u k f ws r] _ Ha [-> | ->]; (split; [reflexivity|split; [reflexivity|]]); cbn [decide cell chip_spm];
      rewrite ?decide_True, ?decide_False by (discriminate || reflexivity); apply bytes_of_imap; intros i Hi; cbn [cell]; destruct (page_of a i); try reflexivity.
    + apply Z.mod_small, (chip_buffer_byte (mkChip p u k f ws r)).
    + apply land_u8, (chip_buffer_byte (mkChip p u k f ws r)).
  - intros a w [p u k f ws r] _. do 3 (split; [reflexivity|]). cbn [user_cell chip_spm]. rewrite bytes_of_length. apply list_eq.
    intros i. rewrite bytes_of_lookup. destruct (Nat.ltb_spec i 256); [rewrite lookup_replicate_2 by assumption; reflexivity|].
    rewrite lookup_ge_None_2 by (rewrite length_replicate; assumption). reflexivity.
  - intros a w [p u k f ws r] _. do 3 (split; [reflexivity|]). cbn [user_cell chip_spm]. apply bytes_of_imap.
    intros i Hi. apply land_u8, (chip_buffer_byte (mkChip p u k f ws r)).
  - intros a d [p u k f ws r] _ Ha. repeat split.
  - intros wide c b. destruct wide; apply Z.mod_pos_bound; lia.
  - intros cmd a d [p u k f ws r] _ [-> | [-> | ->]]; split; reflexivity.
Qed.

Definition example_chip : Chip := mkChip (fun i => Z.of_nat i) (fun _ => 255) (fun i => 7) (fun a => a) (fun _ => None) 0.
Definition example_flash : Flash Chip := mkFlash example_chip NO_OPERATION 0 0 0 0 0 0 0 [0; 0; 0; 0] 0.

Lemma flash_write_read_witness :
  exists s', nvm_flash_erase_and_write_buffer 4 255 [1; 2; 3] 3 true example_flash = Some (s', tt) /\
    exists s'', nvm_flash_read_buffer 255 3 s' = Some (s'', [1; 2; 3]).
Proof.
  destruct (flash_write_read example_flash 255 [1; 2; 3] true) as (s' & E & _ & _ & R);
    [reflexivity|intros k; reflexivity|repeat constructor; unfold is_byte; lia|lia|unfold FLASH_SIZE; cbn; lia|].
  exists s'. split; [exact E|apply R; reflexivity].
Defined.
