(* ===== verification/HostCommands.v ===== *)
(** * Host commands (main.cpp, build option ENABLE_HOST_COMMANDS)

    The text commands behind an at sign, with which a host reads the memories of the
    microcontroller: program memory, EEPROM, signature rows, fuse and lock bytes, and checks
    over parts of the program memory. A command sends its text in parts and leaves the last
    part in the response buffer. The registers and the layout of the memories, which the
    compiler's device header defines, are parameters. *)

From Stdlib Require Import String.
From S2P Require Import Prelude Common Nvm Flash MainLoop.

(** ** Parameters of the device *)

(** The first address and the size of a section. *)
Definition section : Type := Z * Z.
Definition section_end (s : section) : Z := fst s + snd s - 1.

Class Device := {
  APP_SECTION : section;
  APPTABLE_SECTION : section;
  BOOT_SECTION : section;
  EEPROM_SECTION : section;
  USER_SIGNATURES : section;
  PROD_SIGNATURES : section;
  LOCK_BITS : Z;
  DEVID0 : Z; DEVID1 : Z; DEVID2 : Z;
  REVID : Z;
  serial_offsets : Flash.nvm_device_serial
}.

(** ** Text *)

(** A digit of a hexadecimal number, and [ltoa(value, buffer, 16)] of a value of 32 bits. *)
Definition hex_char (d : Z) : Z := if d <? 10 then 48 + d else 87 + d.
Fixpoint hex_loop (n : nat) (v : Z) (acc : list Z) : list Z :=
  match n with
  | O => acc
  | S n => let acc := hex_char (v mod 16) :: acc in if v / 16 =? 0 then acc else hex_loop n (v / 16) acc
  end.
Definition ltoa16 (value : Z) (buffer : list Z) : option (list Z) := strcpy buffer (hex_loop 8 (u32 value) []).

(** [memset(buffer, padding, n)]. *)
Definition memset (buffer : list Z) (padding n : Z) : option (list Z) := blit buffer 0 (replicate (Z.to_nat n) padding).

Definition leadingPadBuffer (buffer : list Z) (size : Z) : option (list Z) :=
  let bufferSize := u8 (len (cstr buffer)) in
  if bufferSize <? size then
    buffer ← memmove buffer (size - bufferSize) 0 (bufferSize + 1);
    memset buffer 48 (size - bufferSize)
  else Some buffer.

Fixpoint reverse_loop (n : nat) (result value : Z) : Z :=
  match n with
  | O => result
  | S n => reverse_loop n (u32 (Z.shiftl result 1 + Z.land value 1)) (Z.shiftr value 1)
  end.
Definition reverseBits (value : Z) : Z := reverse_loop 32 0 value.

(** ** The commands *)

Section Commands.
Context `{Device} {F : Type} `{Flash.FlashController F} {E : Type} `{Nvm.Controller E}.

(** Both drivers, the two buffers, and the parts that were sent. *)
Record Host := mkHost {
  flash : Flash.Flash F; eeprom : Nvm.Nvm E; responseBuffer : list Z; numberBuffer : list Z; sent : list (list Z)
}.

Definition on_flash {R} (c : M (Flash.Flash F) R) : M Host R := fun s =>
  let '(mkHost f e r n t) := s in match c f with Some (f, x) => Some (mkHost f e r n t, x) | None => None end.
Definition on_eeprom {R} (c : M (Nvm.Nvm E) R) : M Host R := fun s =>
  let '(mkHost f e r n t) := s in match c e with Some (e, x) => Some (mkHost f e r n t, x) | None => None end.
Definition on_response (c : list Z -> option (list Z)) : M Host unit := fun s =>
  let '(mkHost f e r n t) := s in match c r with Some r => Some (mkHost f e r n t, tt) | None => None end.
Definition on_number (c : list Z -> option (list Z)) : M Host unit := fun s =>
  let '(mkHost f e r n t) := s in match c n with Some n => Some (mkHost f e r n t, tt) | None => None end.

Definition copy (t : list Z) : M Host unit := on_response (fun r => strcpy r t).
Definition append (t : list Z) : M Host unit := on_response (fun r => strcat r t).
Definition sendDataToUsb : M Host unit := fun s =>
  let '(mkHost f e r n t) := s in Some (mkHost f e r n (t ++ [cstr r]), tt).

Definition ok_line : list Z := str "ok" ++ [10].
Definition first_prefix : list Z := str "0x".
Definition next_prefix : list Z := str " 0x".

(** A byte as two digits behind the response, and four bytes of a check, the highest first. *)
Definition append_byte (v : Z) : M Host unit :=
  _ ← on_number (ltoa16 v);
  _ ← on_number (fun n => leadingPadBuffer n 2);
  n ← gets numberBuffer;
  append (cstr n).

Definition append_check (crc : Z) : M Host unit :=
  _ ← on_number (ltoa16 crc);
  _ ← on_number (fun n => leadingPadBuffer n 8);
  n ← gets numberBuffer;
  _ ← append (take 2 (cstr n));
  _ ← append next_prefix;
  _ ← append (take 2 (cstr (drop 2 n)));
  _ ← append next_prefix;
  _ ← append (take 2 (cstr (drop 4 n)));
  _ ← append next_prefix;
  append (cstr (drop 6 n)).

(** More bytes, each behind its prefix. *)
Fixpoint append_bytes (vs : list (M Host Z)) : M Host unit :=
  match vs with
  | [] => mret tt
  | r :: vs => _ ← append next_prefix; v ← r; _ ← append_byte v; append_bytes vs
  end.

Definition answer_bytes (r : M Host Z) (vs : list (M Host Z)) : M Host unit :=
  _ ← copy (ok_line ++ first_prefix);
  v ← r;
  _ ← append_byte v;
  append_bytes vs.

(** [for(uint16_t i = start; i <= end; ++i)] over a memory. *)
Fixpoint dump_loop (fuel : nat) (read : Z -> M Host Z) (start last i : Z) : M Host unit :=
  match fuel with
  | O => of_option None
  | S fuel =>
      if i <=? last then
        _ ← copy (if i =? start then first_prefix else next_prefix);
        v ← read i;
        _ ← append_byte v;
        _ ← when (negb (i =? last)) sendDataToUsb;
        dump_loop fuel read start last (u16 (i + 1))
      else mret tt
  end.

Definition LOOP_FUEL : nat := Z.to_nat 65537.

Definition answer_dump (s : section) (read : Z -> M Host Z) : M Host unit :=
  _ ← copy ok_line;
  _ ← sendDataToUsb;
  dump_loop LOOP_FUEL read (fst s) (section_end s) (fst s).

Definition UINT32_MAX : Z := 4294967295.

(** The check of a range, with the high bytes of the address cleared first. *)
Definition range_check (start length : Z) : M Host Z :=
  _ ← on_flash (Flash.crc_set_initial_value UINT32_MAX);
  _ ← on_flash (modify (Flash.set_high 0 0));
  crc ← on_flash (Flash.crc_flash_checksum Flash.FLASH_RANGE_CRC start length);
  mret (reverseBits (Flash.not32 crc)).
Definition section_check (crc_type : Flash.NVM_CMD_t) : M Host Z :=
  _ ← on_flash (Flash.crc_set_initial_value UINT32_MAX);
  crc ← on_flash (Flash.crc_flash_checksum crc_type 0 0);
  mret (reverseBits (Flash.not32 crc)).

(** [for(uint16_t i = 1; i < size; i += 2)] over the checks of ever longer ranges. *)
Fixpoint steps_loop (fuel : nat) (start size i : Z) : M Host unit :=
  match fuel with
  | O => of_option None
  | S fuel =>
      if i <? size then
        crc ← range_check start (i + 1);
        _ ← copy (if i =? 1 then first_prefix else next_prefix);
        _ ← append_check crc;
        _ ← when (negb (i =? size - 1)) sendDataToUsb;
        steps_loop fuel start size (u16 (i + 2))
      else mret tt
  end.

Definition answer_steps (s : section) : M Host unit :=
  _ ← copy ok_line;
  _ ← sendDataToUsb;
  steps_loop LOOP_FUEL (fst s) (snd s) 1.

Definition answer_check (c : M Host Z) : M Host unit :=
  crc ← c;
  _ ← copy (ok_line ++ first_prefix);
  append_check crc.

(** The commands. *)
Definition lock_bits : M Host unit := answer_bytes (mret LOCK_BITS) [].
Definition fuse_bytes : M Host unit :=
  answer_bytes (on_flash (Flash.nvm_fuses_read 0)) (map (fun i => on_flash (Flash.nvm_fuses_read i)) [1; 2; 3; 4; 5]).
Definition application_contents : M Host unit := answer_dump APP_SECTION (fun i => on_flash (Flash.nvm_flash_read_byte i)).
Definition application_table_contents : M Host unit := answer_dump APPTABLE_SECTION (fun i => on_flash (Flash.nvm_flash_read_byte i)).
Definition bootloader_contents : M Host unit := answer_dump BOOT_SECTION (fun i => on_flash (Flash.nvm_flash_read_byte i)).
Definition bootloader_crc_steps : M Host unit := answer_steps BOOT_SECTION.
Definition application_crc_steps : M Host unit := answer_steps APP_SECTION.
Definition application_table_crc_steps : M Host unit := answer_steps APPTABLE_SECTION.
Definition application_crc : M Host unit := answer_check (section_check Flash.APP_CRC).
Definition application_table_crc : M Host unit := answer_check (range_check (fst APPTABLE_SECTION) (snd APPTABLE_SECTION)).
Definition bootloader_crc : M Host unit := answer_check (section_check Flash.BOOT_CRC).
Definition eeprom_contents : M Host unit := answer_dump EEPROM_SECTION (fun i => on_eeprom (Nvm.nvm_eeprom_read_byte i)).
Definition user_signature : M Host unit := answer_dump USER_SIGNATURES (fun i => on_flash (Flash.nvm_read_user_signature_row i)).
Definition production_signature : M Host unit := answer_dump PROD_SIGNATURES (fun i => on_flash (Flash.nvm_read_production_signature_row i)).
Definition device_id : M Host unit := answer_bytes (mret DEVID2) [mret DEVID1; mret DEVID0].
Definition device_revision : M Host unit := answer_bytes (mret REVID) [].
Definition device_serial : M Host unit :=
  s ← on_flash (Flash.nvm_read_device_serial serial_offsets);
  answer_bytes (mret (Flash.coordx1 s))
    (map mret [Flash.coordx0 s; Flash.coordy1 s; Flash.coordy0 s; Flash.lotnum5 s; Flash.lotnum4 s; Flash.lotnum3 s;
               Flash.lotnum2 s; Flash.lotnum1 s; Flash.lotnum0 s; Flash.wafnum s]).

(** The command by its text, in the order of the tests. *)
Definition host_commands : list (list Z * M Host unit) := [
  (str "Lock bits", lock_bits);
  (str "Fuse bytes", fuse_bytes);
  (str "Application contents", application_contents);
  (str "Application table contents", application_table_contents);
  (str "Bootloader contents", bootloader_contents);
  (str "Bootloader CRC steps", bootloader_crc_steps);
  (str "Application CRC steps", application_crc_steps);
  (str "Application table CRC steps", application_table_crc_steps);
  (str "Application CRC", application_crc);
  (str "Application table CRC", application_table_crc);
  (str "Bootloader CRC", bootloader_crc);
  (str "EEPROM", eeprom_contents);
  (str "User signature", user_signature);
  (str "Production signature", production_signature);
  (str "Device ID", device_id);
  (str "Device revision", device_revision);
  (str "Device serial", device_serial)].

Definition host_command (hostCommand : list Z) : M Host unit :=
  match find (fun c => bool_decide (fst c = hostCommand)) host_commands with
  | Some c => snd c
  | None => copy (str "Error: Unknown host command")
  end.

End Commands.
Arguments Host : clear implicits.

(** ** Numbers as digits *)

(** The lowest [n] hexadecimal digits. *)
Fixpoint fixed (n : nat) (v : Z) : list Z :=
  match n with O => [] | S n => fixed n (v / 16) ++ [hex_char (v mod 16)] end.

Lemma fixed_length n : forall v, length (fixed n v) = n.
Proof. induction n as [|n IH]; intros v; cbn [fixed]; [reflexivity|]. rewrite length_app, IH. cbn. lia. Qed.

Lemma fixed_zero n : fixed n 0 = replicate n 48.
Proof. induction n as [|n IH]; cbn [fixed]; [reflexivity|]. change (0 / 16) with 0. rewrite IH. symmetry. apply (replicate_S_end n 48). Qed.

Lemma hex_char_nonzero d : 0 <= d -> hex_char d <> 0.
Proof. intros Hd. unfold hex_char. destruct (d <? 10); lia. Qed.

Lemma fixed_nonzero n : forall v, 0 <= v -> Forall (fun c => c <> 0) (fixed n v).
Proof.
  induction n as [|n IH]; intros v Hv; cbn [fixed]; [constructor|]. apply Forall_app. split; [apply IH; lia_mod|].
  constructor; [apply hex_char_nonzero; lia_mod|constructor].
Qed.

Lemma hex_loop_acc n : forall v acc, hex_loop n v acc = hex_loop n v [] ++ acc.
Proof.
  induction n as [|n IH]; intros v acc; cbn [hex_loop]; [reflexivity|]. destruct (v / 16 =? 0); [reflexivity|].
  rewrite IH, (IH _ [_]), <- app_assoc. reflexivity.
Qed.

Lemma hex_loop_nonzero n : forall v, 0 <= v -> Forall (fun c => c <> 0) (hex_loop n v []).
Proof.
  induction n as [|n IH]; intros v Hv; cbn [hex_loop]; [constructor|].
  assert (Forall (fun c => c <> 0) [hex_char (v mod 16)]) as H1 by (constructor; [apply hex_char_nonzero; lia_mod|constructor]).
  destruct (v / 16 =? 0); [exact H1|]. rewrite hex_loop_acc. apply Forall_app. split; [apply IH; lia_mod|exact H1].
Qed.

(** A number with leading zeros. *)
Lemma hex_pad n : forall m v, (0 < n <= m)%nat -> 0 <= v < 16 ^ Z.of_nat n ->
  (length (hex_loop m v []) <= n)%nat /\ replicate (n - length (hex_loop m v [])) 48 ++ hex_loop m v [] = fixed n v.
Proof.
  induction n as [|n IH]; intros m v Hm Hv; [lia|]. destruct m as [|m]; [lia|]. cbn [hex_loop fixed].
  destruct (Z.eqb_spec (v / 16) 0) as [E|E]; cbn [length].
  - rewrite E, fixed_zero. split; [lia|]. replace (S n - 1)%nat with n by lia. reflexivity.
  - rewrite hex_loop_acc, length_app. cbn [length]. rewrite Nat2Z.inj_succ, Z.pow_succ_r in Hv by lia.
    assert (n <> 0)%nat by (intros ->; cbn in Hv; lia_mod).
    destruct (IH m (v / 16) ltac:(lia) ltac:(lia_mod)) as [L R]. split; [lia|].
    replace (S n - (length (hex_loop m (v / 16) []) + 1))%nat with (n - length (hex_loop m (v / 16) []))%nat by lia.
    rewrite app_assoc, R. reflexivity.
Qed.

(** Eight digits are those of four bytes. *)
Lemma fixed_bytes c : fixed 8 c = fixed 2 (c / 16777216) ++ fixed 2 (c / 65536) ++ fixed 2 (c / 256) ++ fixed 2 c.
Proof.
  cbn [fixed Datatypes.app]. repeat rewrite Z.div_div by lia. cbn. reflexivity.
Qed.

Lemma fixed_mod c : fixed 2 (c mod 256) = fixed 2 c.
Proof.
  cbn [fixed Datatypes.app]. replace (c mod 256 / 16 mod 16) with (c / 16 mod 16) by lia_mod.
  replace ((c mod 256) mod 16) with (c mod 16) by lia_mod. reflexivity.
Qed.

(** ** Buffers *)

Lemma leadingPad_holds d buf size : holds d buf -> len d < 256 -> len d <= size -> size < len buf ->
  exists buf', leadingPadBuffer buf size = Some buf' /\ holds (replicate (Z.to_nat size - length d) 48 ++ d) buf' /\ length buf' = length buf.
Proof.
  intros [Hd [junk Ej]] Hs Hl Hb. unfold leadingPadBuffer. rewrite (holds_cstr d buf (conj Hd (ex_intro _ junk Ej))), u8_id by lia.
  destruct (Z.ltb_spec (len d) size) as [Hlt|Hge].
  - subst buf. rewrite length_app in *. cbn [length] in *. rewrite memmove_in by (rewrite ?length_app; cbn [length]; lia). bind_some.
    change (Z.to_nat 0) with 0%nat. rewrite drop_0. set (k := (Z.to_nat size - length d)%nat).
    replace (Z.to_nat (size - len d)) with k by lia. replace (Z.to_nat (len d + 1)) with (length d + 1)%nat by lia.
    rewrite take_app_add' by reflexivity. cbn [take]. set (tl := drop _ _).
    assert (length (take k (d ++ 0 :: junk)) = k) as Lk by (rewrite length_take, length_app; cbn [length]; lia).
    assert (length tl = (length d + S (length junk) - (k + (length d + 1)))%nat) as Lt by (unfold tl; rewrite length_drop, length_app; cbn [length]; lia).
    unfold memset, blit. rewrite length_replicate. replace (Z.to_nat (size - len d)) with k by lia.
    rewrite (proj2 (Z.leb_le 0 0)), (proj2 (Z.leb_le (0 + Z.of_nat k) _)) by (rewrite ?length_app, ?Lk, ?length_app; cbn [length]; lia). cbn [andb].
    change (Z.to_nat 0) with 0%nat. rewrite take_0. cbn [Datatypes.app Nat.add]. rewrite drop_app_ge by lia. rewrite Lk, Nat.sub_diag, drop_0.
    eexists. split; [reflexivity|]. split.
    + split; [apply Forall_app; split; [apply Forall_replicate; lia|exact Hd]|]. exists tl. rewrite <- !app_assoc. reflexivity.
    + rewrite !length_app, length_replicate, Lt, take_0. cbn [length]. lia.
  - exists buf. replace (Z.to_nat size - length d)%nat with 0%nat by lia. cbn. repeat split; eauto.
Qed.

(** ** What is sent *)

(** The text of bytes: the first behind a prefix, every other one behind a space and a prefix. *)
Definition more_text (bs : list Z) : list Z := concat (map (fun b => next_prefix ++ fixed 2 b) bs).
Definition bytes_text (bs : list Z) : list Z :=
  match bs with [] => [] | b :: bs => first_prefix ++ fixed 2 b ++ more_text bs end.

(** Reading such a text. *)
Definition hex_value (c : Z) : option Z :=
  if (48 <=? c) && (c <=? 57) then Some (c - 48) else if (97 <=? c) && (c <=? 102) then Some (c - 87) else None.
Fixpoint read_bytes (t : list Z) : option (list Z) :=
  match t with
  | 48 :: 120 :: a :: b :: t =>
      x ← hex_value a; y ← hex_value b;
      match t with
      | [] => Some [16 * x + y]
      | 32 :: t => (bs ← read_bytes t; Some (16 * x + y :: bs))
      | _ => None
      end
  | _ => None
  end.

Lemma hex_value_char d : 0 <= d < 16 -> hex_value (hex_char d) = Some d.
Proof.
  intros Hd. unfold hex_value, hex_char. destruct (Z.ltb_spec d 10).
  - rewrite (proj2 (Z.leb_le _ _)), (proj2 (Z.leb_le _ 57)) by lia. cbn [andb]. f_equal. lia.
  - rewrite (proj2 (Z.leb_gt _ 57)) by lia. rewrite andb_false_r, (proj2 (Z.leb_le _ _)), (proj2 (Z.leb_le _ 102)) by lia. cbn [andb]. f_equal. lia.
Qed.

Lemma read_step b t : 0 <= b < 256 -> read_bytes (first_prefix ++ fixed 2 b ++ t) =
  match t with [] => Some [b] | 32 :: t => (bs ← read_bytes t; Some (b :: bs)) | _ => None end.
Proof.
  intros Hb. change first_prefix with [48; 120]. cbn [fixed Datatypes.app].
  cbn [read_bytes].
  rewrite !hex_value_char by lia_mod. bind_some. replace (16 * (b / 16 mod 16) + b mod 16) with b by lia_mod. reflexivity.
Qed.

(** The bytes are read back from their text. *)
Lemma read_bytes_text b bs : Forall (fun b => 0 <= b < 256) (b :: bs) -> read_bytes (bytes_text (b :: bs)) = Some (b :: bs).
Proof.
  revert b. induction bs as [|c bs IH]; intros b Hb; inversion Hb as [|? ? B Bs]; subst; unfold bytes_text; rewrite read_step by exact B;
    [reflexivity|].
  assert (more_text (c :: bs) = 32 :: bytes_text (c :: bs)) as -> by reflexivity. rewrite IH by exact Bs. reflexivity.
Qed.

Section Answers.
Context `{Device} {F : Type} `{Flash.FlashLaws F} {E : Type} `{Nvm.ControllerLaws E}.

Abbreviation HS := (Host F E).

Definition buffers_ok (s : HS) : Prop :=
  len (responseBuffer s) = RESPONSE_BUFFER_SIZE /\ len (numberBuffer s) = INT_BUFFER_SIZE.

(** Only the buffers differ, and the response buffer holds a text. *)
Record shows (s : HS) (t : list Z) (s' : HS) : Prop := {
  sh_flash : flash s' = flash s;
  sh_eeprom : eeprom s' = eeprom s;
  sh_sent : sent s' = sent s;
  sh_ok : buffers_ok s';
  sh_text : holds t (responseBuffer s')
}.

(** A text of at most [n] characters. *)
Definition plain (n : Z) (t : list Z) : Prop := Forall (fun c => c <> 0) t /\ len t <= n.
Abbreviation plain_text := (plain 60).

Lemma plain_app n m t u : plain n t -> plain m u -> plain (n + m) (t ++ u).
Proof. intros [Ht Lt] [Hu Lu]. split; [apply Forall_app; auto|]. rewrite length_app. lia. Qed.
Lemma plain_le n m t : plain n t -> n <= m -> plain m t.
Proof. intros [Ht Lt] Hm. split; [exact Ht|lia]. Qed.
Lemma plain_fixed v : 0 <= v -> plain 2 (fixed 2 v).
Proof. intros Hv. split; [apply fixed_nonzero, Hv|]. rewrite fixed_length. lia. Qed.
Lemma plain_next : plain 3 next_prefix.
Proof. split; [repeat constructor; discriminate|vm_compute; discriminate]. Qed.
Lemma plain_first : plain 2 first_prefix.
Proof. split; [repeat constructor; discriminate|vm_compute; discriminate]. Qed.
Lemma plain_ok : plain 3 ok_line.
Proof. split; [repeat constructor; discriminate|vm_compute; discriminate]. Qed.

Lemma response_room : 60 + 60 < RESPONSE_BUFFER_SIZE.
Proof. vm_compute. reflexivity. Qed.

Lemma copy_shows s t : buffers_ok s -> plain_text t -> exists s', copy t s = Some (s', tt) /\ shows s t s'.
Proof.
  intros [Hr Hn] [Ht Hl]. pose proof response_room. destruct s as [f e r n x]. cbn in Hr, Hn.
  destruct (strcpy_holds r t Ht ltac:(lia)) as (r' & Er & Hh & Lr). exists (mkHost f e r' n x).
  unfold copy, on_response. rewrite Er. split; [reflexivity|]. constructor; cbn; auto. split; cbn; lia.
Qed.

Lemma append_shows s0 t s u : shows s0 t s -> plain_text t -> plain_text u -> exists s', append u s = Some (s', tt) /\ shows s0 (t ++ u) s'.
Proof.
  intros [H1' H2' H3' [Hr Hn] Hh] [Ht Hl] [Hu Hm]. pose proof response_room. destruct s as [f e r n x]. cbn in *.
  destruct (strcat_holds t r u Hh Hu ltac:(lia)) as (r' & Er & Hh' & Lr). exists (mkHost f e r' n x).
  unfold append, on_response. rewrite Er. split; [reflexivity|]. constructor; cbn; auto. split; cbn; lia.
Qed.

(** A number with leading zeros in the number buffer. *)
Lemma number_shows s0 t s v (size : nat) : shows s0 t s -> (0 < size <= 8)%nat -> 0 <= v < 16 ^ Z.of_nat size ->
  exists s1 s', on_number (ltoa16 v) s = Some (s1, tt) /\
    on_number (fun n => leadingPadBuffer n (Z.of_nat size)) s1 = Some (s', tt) /\ shows s0 t s' /\ holds (fixed size v) (numberBuffer s').
Proof.
  intros [H1' H2' H3' [Hr Hn] Hh] Hs Hv. destruct s as [f e r n x]. cbn in *. change INT_BUFFER_SIZE with 22 in Hn.
  assert (v < 4294967296) as Hw. { change 4294967296 with (16 ^ 8). eapply Z.lt_le_trans; [apply Hv|]. apply Z.pow_le_mono_r; lia. }
  destruct (hex_pad size 8 v ltac:(lia) Hv) as [L P].
  destruct (strcpy_holds n (hex_loop 8 v []) (hex_loop_nonzero 8 v ltac:(lia)) ltac:(lia)) as (n1 & E1 & Hh1 & L1).
  destruct (leadingPad_holds (hex_loop 8 v []) n1 (Z.of_nat size) Hh1 ltac:(lia) ltac:(lia) ltac:(lia)) as (n2 & E2 & Hh2 & L2).
  rewrite Nat2Z.id, P in Hh2. exists (mkHost f e r n1 x), (mkHost f e r n2 x).
  unfold on_number, ltoa16. rewrite u32_id, E1, E2 by lia. split; [reflexivity|]. split; [reflexivity|]. split; [|exact Hh2].
  constructor; cbn; auto. split; cbn; [exact Hr|]. change INT_BUFFER_SIZE with 22. lia.
Qed.

Lemma append_byte_shows s0 t s v : shows s0 t s -> plain_text t -> 0 <= v < 256 ->
  exists s', append_byte v s = Some (s', tt) /\ shows s0 (t ++ fixed 2 v) s'.
Proof.
  intros Hs Ht Hv. destruct (number_shows s0 t s v 2 Hs ltac:(lia) ltac:(change (16 ^ Z.of_nat 2) with 256; lia)) as (s1 & s2 & E1 & E2 & Hs2 & Hn).
  destruct (append_shows s0 t s2 (fixed 2 v) Hs2 Ht) as (s3 & E3 & Hs3).
  { eapply plain_le; [apply plain_fixed; lia|lia]. }
  exists s3. split; [|exact Hs3]. unfold append_byte. step E1. step E2. step_pure. rewrite (holds_cstr _ _ Hn). exact E3.
Qed.

(** The bytes of a check, the highest first. *)
Definition check_list (c : Z) : list Z := [c / 16777216; c / 65536 mod 256; c / 256 mod 256; c mod 256].
Definition check_text (c : Z) : list Z := fixed 2 (c / 16777216) ++ more_text [c / 65536 mod 256; c / 256 mod 256; c mod 256].

Lemma check_list_bytes c : 0 <= c < 4294967296 -> Forall (fun b => 0 <= b < 256) (check_list c).
Proof. intros Hc. unfold check_list. repeat constructor; lia_mod. Qed.

(** The parts of the number buffer with the eight digits of a check. *)
Lemma fixed_two v : 0 <= v -> exists x y, fixed 2 v = [x; y] /\ x <> 0 /\ y <> 0.
Proof. intros Hv. eexists _, _. split; [reflexivity|]. split; apply hex_char_nonzero; lia_mod. Qed.

Lemma cstr_no_nul x s : x <> 0 -> cstr (x :: s) = x :: cstr s.
Proof. intros Hx. cbn [cstr]. rewrite (proj2 (Z.eqb_neq _ _) Hx). reflexivity. Qed.

Lemma check_parts c n : 0 <= c -> holds (fixed 8 c) n ->
  take 2 (cstr n) = fixed 2 (c / 16777216) /\ take 2 (cstr (drop 2 n)) = fixed 2 (c / 65536 mod 256) /\
  take 2 (cstr (drop 4 n)) = fixed 2 (c / 256 mod 256) /\ cstr (drop 6 n) = fixed 2 (c mod 256).
Proof.
  intros Hc [_ [junk ->]]. rewrite !fixed_mod, fixed_bytes.
  destruct (fixed_two (c / 16777216)) as (a & b & -> & Ha & Hb); [lia_mod|]. destruct (fixed_two (c / 65536)) as (d & e & -> & Hd & He); [lia_mod|].
  destruct (fixed_two (c / 256)) as (f & g & -> & Hf & Hg); [lia_mod|]. destruct (fixed_two c) as (h & i & -> & Hh & Hi); [lia|].
  cbn [Datatypes.app drop]. rewrite !cstr_no_nul by assumption. repeat split.
Qed.

(** One more text behind the response. *)
Lemma append_plain s0 n m t s u : shows s0 t s -> plain n t -> plain m u -> n + m <= 60 ->
  exists s', append u s = Some (s', tt) /\ shows s0 (t ++ u) s' /\ plain (n + m) (t ++ u).
Proof.
  intros Hs Ht Hu Hl. pose proof (Zle_0_nat (length t)). pose proof (Zle_0_nat (length u)). destruct (append_shows s0 t s u Hs) as (s' & E' & Hs').
  - destruct Ht, Hu. split; [assumption|lia].
  - destruct Ht, Hu. split; [assumption|lia].
  - exists s'. split; [exact E'|]. split; [exact Hs'|apply plain_app; assumption].
Qed.

Lemma append_check_shows s0 t s c : shows s0 t s -> plain 20 t -> 0 <= c < 4294967296 ->
  exists s', append_check c s = Some (s', tt) /\ shows s0 (t ++ check_text c) s'.
Proof.
  intros Hs Ht Hc. destruct (number_shows s0 t s c 8 Hs ltac:(lia) ltac:(change (16 ^ Z.of_nat 8) with 4294967296; lia)) as (s1 & s2 & E1 & E2 & Hs2 & Hn).
  destruct (check_parts c _ ltac:(lia) Hn) as (P1 & P2 & P3 & P4). pose proof plain_next as Pn.
  pose proof (plain_fixed (c / 16777216) ltac:(lia_mod)) as Pa. pose proof (plain_fixed (c / 65536 mod 256) ltac:(lia_mod)) as Pb.
  pose proof (plain_fixed (c / 256 mod 256) ltac:(lia_mod)) as Pc. pose proof (plain_fixed (c mod 256) ltac:(lia_mod)) as Pd.
  destruct (append_plain _ _ _ _ _ _ Hs2 Ht Pa ltac:(lia)) as (s3 & E3 & Hs3 & Q3).
  destruct (append_plain _ _ _ _ _ _ Hs3 Q3 Pn ltac:(lia)) as (s4 & E4 & Hs4 & Q4).
  destruct (append_plain _ _ _ _ _ _ Hs4 Q4 Pb ltac:(lia)) as (s5 & E5 & Hs5 & Q5).
  destruct (append_plain _ _ _ _ _ _ Hs5 Q5 Pn ltac:(lia)) as (s6 & E6 & Hs6 & Q6).
  destruct (append_plain _ _ _ _ _ _ Hs6 Q6 Pc ltac:(lia)) as (s7 & E7 & Hs7 & Q7).
  destruct (append_plain _ _ _ _ _ _ Hs7 Q7 Pn ltac:(lia)) as (s8 & E8 & Hs8 & Q8).
  destruct (append_plain _ _ _ _ _ _ Hs8 Q8 Pd ltac:(lia)) as (s9 & E9 & Hs9 & _).
  exists s9. split.
  - unfold append_check. step E1. step E2. step_pure. rewrite P1, P2, P3, P4. step E3. step E4. step E5. step E6. step E7. step E8. exact E9.
  - unfold check_text. cbn [more_text map concat]. rewrite app_nil_r. rewrite <- !app_assoc in Hs9. rewrite <- !app_assoc. exact Hs9.
Qed.

(** What a command sent, and what it left in the response buffer, together. *)
Definition outputs (s : HS) (body : list Z) (s' : HS) : Prop :=
  buffers_ok s' /\ exists parts t, sent s' = sent s ++ parts /\ holds t (responseBuffer s') /\ concat parts ++ t = body.

Lemma shows_self s t : buffers_ok s -> holds t (responseBuffer s) -> shows s t s.
Proof. intros Hb Ht. constructor; auto. Qed.

Lemma shows_outputs s t s' : shows s t s' -> outputs s t s'.
Proof. intros [_ _ Es Hb Ht]. split; [exact Hb|]. exists [], t. rewrite app_nil_r. auto. Qed.

Lemma send_spec s0 t s : shows s0 t s -> exists s', sendDataToUsb s = Some (s', tt) /\ sent s' = sent s0 ++ [t] /\
  flash s' = flash s0 /\ eeprom s' = eeprom s0 /\ buffers_ok s'.
Proof.
  intros [Ef Ee Es Hb Ht]. destruct s as [f e r n x]. cbn in *. exists (mkHost f e r n (x ++ [cstr r])). split; [reflexivity|].
  cbn. rewrite (holds_cstr _ _ Ht), Es. auto.
Qed.

(** A part that is sent and then the rest. *)
Lemma outputs_after s0 t s body s' : sent s = sent s0 ++ [t] -> outputs s body s' -> outputs s0 (t ++ body) s'.
Proof.
  intros Es (Hb & parts & u & Ep & Hu & Eb). split; [exact Hb|]. exists (t :: parts), u. split; [rewrite Ep, Es, <- app_assoc; reflexivity|].
  split; [exact Hu|]. cbn [concat]. rewrite <- app_assoc, Eb. reflexivity.
Qed.

(** The values of a function from an argument on. *)
Fixpoint values {X} (b : Z -> X) (i step : Z) (n : nat) : list X :=
  match n with O => [] | S n => b i :: values b (i + step) step n end.

(** A way to read a memory: under an invariant of both drivers, which it keeps. *)
Definition reads (I : Flash.Flash F -> Nvm.Nvm E -> Prop) (b : Z -> Z) (lo hi : Z) (read : Z -> M HS Z) : Prop :=
  forall s i, lo <= i <= hi -> I (flash s) (eeprom s) -> 0 <= b i < 256 /\
    exists f e, read i s = Some (mkHost f e (responseBuffer s) (numberBuffer s) (sent s), b i) /\ I f e.

Lemma dump_loop_spec I b start last read : reads I b start last read -> 0 <= start -> last < 65535 ->
  forall n fuel i (s : HS), start <= i -> i + Z.of_nat n = last + 1 -> (0 < n < fuel)%nat -> buffers_ok s -> I (flash s) (eeprom s) ->
  exists s', dump_loop fuel read start last i s = Some (s', tt) /\ I (flash s') (eeprom s') /\
    outputs s (if i =? start then bytes_text (values b i 1 n) else more_text (values b i 1 n)) s'.
Proof.
  intros Hread Hs0 Hlast. induction n as [|n IH]; intros fuel i s Hi Hn Hf Hb HI; [lia|]. destruct fuel as [|fuel]; [lia|]. cbn [dump_loop].
  set (p := if i =? start then first_prefix else next_prefix).
  assert (plain 3 p) as Pp by (unfold p; destruct (i =? start); [eapply plain_le; [apply plain_first|lia]|apply plain_next]).
  destruct (copy_shows s p Hb (plain_le 3 60 p Pp ltac:(lia))) as (s1 & E1 & Hs1).
  destruct (Hread s1 i ltac:(lia)) as (Bi & f & e & E2 & HI2); [rewrite (sh_flash _ _ _ Hs1), (sh_eeprom _ _ _ Hs1); exact HI|].
  set (s2 := mkHost f e (responseBuffer s1) (numberBuffer s1) (sent s1)) in *.
  destruct (append_byte_shows s2 p s2 (b i)) as (s3 & E3 & Hs3); [apply shows_self; [exact (sh_ok _ _ _ Hs1)|exact (sh_text _ _ _ Hs1)]|exact (plain_le 3 60 p Pp ltac:(lia))|exact Bi|].
  rewrite (proj2 (Z.leb_le i last)) by lia. rewrite u16_id by lia.
  assert (values b i 1 (S n) = b i :: values b (i + 1) 1 n) as -> by reflexivity.
  assert (forall vs, (if i =? start then bytes_text (b i :: vs) else more_text (b i :: vs)) = (p ++ fixed 2 (b i)) ++ more_text vs) as Et.
  { intros vs. unfold p. destruct (i =? start); rewrite <- !app_assoc; [reflexivity|]. unfold more_text. cbn [map concat]. rewrite <- app_assoc. reflexivity. }
  rewrite Et. destruct n as [|n].
  - exists s3. split; [|split].
    + step E1. step E2. step E3. rewrite (proj2 (Z.eqb_eq i last)) by lia. step_pure. destruct fuel; [lia|]. cbn [dump_loop].
      rewrite (proj2 (Z.leb_gt (i + 1) last)) by lia. reflexivity.
    + rewrite (sh_flash _ _ _ Hs3), (sh_eeprom _ _ _ Hs3). exact HI2.
    + apply shows_outputs in Hs3. change (more_text (values b (i + 1) 1 0)) with (@nil Z). rewrite app_nil_r.
      destruct Hs3 as (Hb3 & parts & t & Ep & Ht). split; [exact Hb3|]. exists parts, t. rewrite Ep. change (sent s2) with (sent s1).
      rewrite (sh_sent _ _ _ Hs1). auto.
  - destruct (send_spec s2 _ s3 Hs3) as (s4 & E4 & Es4 & Ef4 & Ee4 & Hb4).
    destruct (IH fuel (i + 1) s4) as (s5 & E5 & HI5 & Ho5); try lia; [exact Hb4|rewrite Ef4, Ee4; exact HI2|].
    exists s5. split; [|split; [exact HI5|]].
    + step E1. step E2. step E3. rewrite (proj2 (Z.eqb_neq i last)) by lia. step E4. exact E5.
    + rewrite (proj2 (Z.eqb_neq (i + 1) start)) in Ho5 by lia. refine (outputs_after s _ s4 _ s5 _ Ho5).
      rewrite Es4. change (sent s2) with (sent s1). rewrite (sh_sent _ _ _ Hs1). reflexivity.
Qed.

(** ** Checks of the program memory *)

Lemma reverse_loop_revert n : forall result value, reverse_loop n result value = Flash.revert_loop n result value.
Proof. induction n as [|n IH]; intros result value; cbn [reverse_loop Flash.revert_loop]; [reflexivity|apply IH]. Qed.
Lemma reverseBits_revert v : reverseBits v = Flash.crc_bit_revert v.
Proof. apply reverse_loop_revert. Qed.

(** The program memory of a driver that is ready for the next command. *)
Definition ready_with (m : list Z) (f : Flash.Flash F) (e : Nvm.Nvm E) : Prop :=
  Flash.nvm_busy (Flash.hw f) = false /\ Flash.CMD f = Flash.NO_OPERATION /\ Flash.program (Flash.hw f) = m.

(** The check that the module computes over a range, from a start value of ones. *)
Definition range_value (m : list Z) (start n : Z) : Z := Flash.check UINT32_MAX (take (Z.to_nat n) (drop (Z.to_nat start) m)).

Lemma range_value_range m start n : 0 <= range_value m start n < 4294967296.
Proof. apply Flash.check_range. unfold UINT32_MAX. lia. Qed.

Lemma range_check_value m (s : HS) start n : ready_with m (flash s) (eeprom s) -> 0 <= start -> 0 < n -> start + n <= len m -> start + n <= 65536 ->
  exists f, range_check start n s = Some (mkHost f (eeprom s) (responseBuffer s) (numberBuffer s) (sent s), range_value m start n) /\
    ready_with m f (eeprom s).
Proof.
  intros (Hb & Hc & Hm) Hs Hn Hl Hw. destruct s as [f e r k x]. cbn in *.
  set (f1 := Flash.set_high 0 0 (Flash.set_initial UINT32_MAX f)).
  assert (Flash.hw f1 = Flash.hw f /\ Flash.CMD f1 = Flash.CMD f /\ Flash.ADDR2 f1 = 0 /\ Flash.DATA2 f1 = 0 /\ Flash.crc_initial_value f1 = UINT32_MAX)
    as (E1 & E2 & E3 & E4 & E5) by (destruct f; repeat split; reflexivity).
  destruct (Flash.range_check_spec f1 start n) as (f2 & Ec & Ep & Er & Ecmd & Eb); rewrite ?E1, ?E5, ?Hm; unfold UINT32_MAX; auto; try lia.
  rewrite E1, E5, Hm in Ec. exists f2. split; [|split; [exact Eb|split; [congruence|congruence]]].
  unfold range_check, on_flash, Flash.crc_set_initial_value. run. fold f1. rewrite Ec. rewrite Flash.not32_not32.
  rewrite reverseBits_revert, Flash.revert_revert by (apply Flash.check_range; unfold UINT32_MAX; lia). reflexivity.
Qed.

Lemma more_text_app a b : more_text (a ++ b) = more_text a ++ more_text b.
Proof. unfold more_text. rewrite map_app, concat_app. reflexivity. Qed.

Lemma check_text_first c : first_prefix ++ check_text c = bytes_text (check_list c).
Proof. reflexivity. Qed.
Lemma check_text_next c : next_prefix ++ check_text c = more_text (check_list c).
Proof. unfold check_text, check_list, more_text. cbn [map concat]. rewrite <- !app_assoc. reflexivity. Qed.
Lemma bytes_text_app a b : a <> [] -> bytes_text (a ++ b) = bytes_text a ++ more_text b.
Proof. destruct a as [|x a]; [contradiction|]. intros _. cbn [Datatypes.app bytes_text]. rewrite more_text_app, <- !app_assoc. reflexivity. Qed.

(** The text of the checks of ever longer ranges. *)
Definition steps_bytes (m : list Z) (start i : Z) (n : nat) : list Z := concat (map check_list (values (fun i => range_value m start (i + 1)) i 2 n)).

Lemma steps_bytes_cons m start i n : steps_bytes m start i (S n) = check_list (range_value m start (i + 1)) ++ steps_bytes m start (i + 2) n.
Proof. reflexivity. Qed.

Lemma steps_loop_spec m start size : 0 <= start -> start + size <= len m -> start + size <= 65536 -> size < 65534 ->
  forall n fuel i (s : HS), 0 < i -> i + 2 * Z.of_nat n = size + 1 -> (0 < n < fuel)%nat -> buffers_ok s -> ready_with m (flash s) (eeprom s) ->
  exists s', steps_loop fuel start size i s = Some (s', tt) /\ ready_with m (flash s') (eeprom s') /\
    outputs s (if i =? 1 then bytes_text (steps_bytes m start i n) else more_text (steps_bytes m start i n)) s'.
Proof.
  intros Hst Hl Hw Hsz. induction n as [|n IH]; intros fuel i s Hi Hn Hf Hb HI; [lia|]. destruct fuel as [|fuel]; [lia|]. cbn [steps_loop].
  destruct (range_check_value m s start (i + 1) HI Hst ltac:(lia) ltac:(lia) ltac:(lia)) as (f & E0 & HI0).
  set (s0 := mkHost f (eeprom s) (responseBuffer s) (numberBuffer s) (sent s)) in *. set (c := range_value m start (i + 1)) in *.
  set (p := if i =? 1 then first_prefix else next_prefix).
  assert (plain 3 p) as Pp by (unfold p; destruct (i =? 1); [eapply plain_le; [apply plain_first|lia]|apply plain_next]).
  destruct (copy_shows s0 p Hb (plain_le 3 60 p Pp ltac:(lia))) as (s1 & E1 & Hs1).
  destruct (append_check_shows s0 p s1 c Hs1 (plain_le 3 20 p Pp ltac:(lia)) (range_value_range _ _ _)) as (s3 & E3 & Hs3).
  rewrite (proj2 (Z.ltb_lt i size)) by lia. rewrite u16_id by lia.
  assert (forall vs, (if i =? 1 then bytes_text (check_list c ++ vs) else more_text (check_list c ++ vs)) = (p ++ check_text c) ++ more_text vs) as Et.
  { intros vs. unfold p. destruct (i =? 1); [rewrite bytes_text_app by discriminate; rewrite <- check_text_first; reflexivity|].
    rewrite more_text_app, <- check_text_next. reflexivity. }
  rewrite steps_bytes_cons. fold c. rewrite Et. destruct n as [|n].
  - exists s3. split; [|split].
    + step E0. step E1. step E3. rewrite (proj2 (Z.eqb_eq i (size - 1))) by lia. step_pure. destruct fuel; [lia|]. cbn [steps_loop].
      rewrite (proj2 (Z.ltb_ge (i + 2) size)) by lia. reflexivity.
    + rewrite (sh_flash _ _ _ Hs3), (sh_eeprom _ _ _ Hs3). exact HI0.
    + change (more_text (steps_bytes m start (i + 2) 0)) with (@nil Z). rewrite app_nil_r. exact (shows_outputs _ _ _ Hs3).
  - destruct (send_spec s0 _ s3 Hs3) as (s4 & E4 & Es4 & Ef4 & Ee4 & Hb4).
    destruct (IH fuel (i + 2) s4) as (s5 & E5 & HI5 & Ho5); try lia; [exact Hb4|rewrite Ef4, Ee4; exact HI0|].
    exists s5. split; [|split; [exact HI5|]].
    + step E0. step E1. step E3. rewrite (proj2 (Z.eqb_neq i (size - 1))) by lia. step E4. exact E5.
    + rewrite (proj2 (Z.eqb_neq (i + 2) 1)) in Ho5 by lia. exact (outputs_after s _ s4 _ s5 Es4 Ho5).
Qed.

(** ** Memories *)

Lemma values_take m n : forall i, 0 <= i -> i + Z.of_nat n <= len m ->
  values (fun i => nth (Z.to_nat i) m 0) i 1 n = take n (drop (Z.to_nat i) m).
Proof.
  induction n as [|n IH]; intros i Hi Hl; [reflexivity|]. cbn [values].
  destruct (lookup_lt_is_Some_2 m (Z.to_nat i)) as [x Hx]; [lia|]. rewrite (drop_S _ _ _ Hx). cbn [take].
  rewrite (nth_lookup_Some _ _ _ _ Hx), IH by lia. replace (Z.to_nat (i + 1)) with (S (Z.to_nat i)) by lia. reflexivity.
Qed.

Lemma answer_dump_spec I m sec read (s : HS) :
  reads I (fun i => nth (Z.to_nat i) m 0) (fst sec) (section_end sec) read -> 0 <= fst sec -> 0 < snd sec -> fst sec + snd sec <= len m ->
  fst sec + snd sec <= 65535 -> Forall (fun b => 0 <= b < 256) m -> buffers_ok s -> I (flash s) (eeprom s) ->
  exists s' body, answer_dump sec read s = Some (s', tt) /\ outputs s (ok_line ++ body) s' /\
    read_bytes body = Some (take (Z.to_nat (snd sec)) (drop (Z.to_nat (fst sec)) m)).
Proof.
  intros Hr Hs Hn Hl Hw Hm Hb HI. unfold section_end in *.
  destruct (copy_shows s ok_line Hb (plain_le 3 60 ok_line plain_ok ltac:(lia))) as (s1 & E1 & Hs1).
  destruct (send_spec s _ s1 Hs1) as (s2 & E2 & Es2 & Ef2 & Ee2 & Hb2).
  destruct (dump_loop_spec I _ (fst sec) (fst sec + snd sec - 1) read Hr Hs ltac:(lia) (Z.to_nat (snd sec)) LOOP_FUEL (fst sec) s2)
    as (s3 & E3 & _ & Ho3); try lia; [unfold LOOP_FUEL; lia|exact Hb2|rewrite Ef2, Ee2; exact HI|].
  rewrite Z.eqb_refl, values_take in Ho3 by lia.
  exists s3, (bytes_text (take (Z.to_nat (snd sec)) (drop (Z.to_nat (fst sec)) m))). split; [|split].
  - unfold answer_dump, section_end. step E1. step E2. exact E3.
  - exact (outputs_after s _ s2 _ s3 Es2 Ho3).
  - destruct (take (Z.to_nat (snd sec)) (drop (Z.to_nat (fst sec)) m)) as [|b bs] eqn:Ed.
    + apply (f_equal length) in Ed. rewrite length_take, length_drop in Ed. cbn in Ed. lia.
    + apply read_bytes_text. rewrite <- Ed. apply Forall_take, Forall_drop, Hm.
Qed.

Definition program_of (s : HS) : list Z := Flash.program (Flash.hw (flash s)).
Definition user_row_of (s : HS) : list Z := Flash.user_row (Flash.hw (flash s)).
Definition production_row_of (s : HS) : list Z := Flash.production_row (Flash.hw (flash s)).
Definition eeprom_of (s : HS) : list Z := Nvm.contents (eeprom s).

Definition driver_ready (s : HS) : Prop := Flash.nvm_busy (Flash.hw (flash s)) = false /\ Flash.CMD (flash s) = Flash.NO_OPERATION.

Lemma nth_byte m i : Forall (fun b => 0 <= b < 256) m -> 0 <= i < len m -> 0 <= nth (Z.to_nat i) m 0 < 256.
Proof. intros Hm Hi. apply (proj1 (List.Forall_forall _ _) Hm). apply List.nth_In. lia. Qed.

Definition same_flash (f0 : Flash.Flash F) (f : Flash.Flash F) (e : Nvm.Nvm E) : Prop := f = f0.

(** The four ways to read a byte. *)
Lemma reads_program (s : HS) lo hi : driver_ready s -> Forall (fun b => 0 <= b < 256) (program_of s) -> 0 <= lo -> hi < len (program_of s) ->
  reads (same_flash (flash s)) (fun i => nth (Z.to_nat i) (program_of s) 0) lo hi (fun i => on_flash (Flash.nvm_flash_read_byte i)).
Proof.
  intros [Hb Hc] Hm Hlo Hhi s' i Hi Hf. split; [apply nth_byte; [exact Hm|lia]|]. unfold same_flash in *. exists (flash s'), (eeprom s').
  destruct s' as [f e r n x]. cbn in *. subst f. split; [|reflexivity]. unfold Flash.nvm_flash_read_byte, gets. rewrite Hc.
  unfold program_of in *. rewrite (nth_lookup_Some _ _ 0 _ (Flash.lpm_program i _ Hb ltac:(lia))). reflexivity.
Qed.

Lemma reads_user_row (s : HS) lo hi : driver_ready s -> Forall (fun b => 0 <= b < 256) (user_row_of s) -> 0 <= lo -> hi < len (user_row_of s) -> hi < 65536 ->
  reads (same_flash (flash s)) (fun i => nth (Z.to_nat i) (user_row_of s) 0) lo hi (fun i => on_flash (Flash.nvm_read_user_signature_row i)).
Proof.
  intros [Hb Hc] Hm Hlo Hhi Hw s' i Hi Hf. split; [apply nth_byte; [exact Hm|lia]|]. unfold same_flash in *. exists (flash s'), (eeprom s').
  destruct s' as [f e r n x]. cbn in *. subst f. split; [|reflexivity]. rewrite Flash.read_row_byte by lia.
  unfold user_row_of in *. rewrite (nth_lookup_Some _ _ 0 _ (Flash.lpm_user_row i _ Hb ltac:(lia))). reflexivity.
Qed.

Lemma reads_production_row (s : HS) lo hi : driver_ready s -> Forall (fun b => 0 <= b < 256) (production_row_of s) -> 0 <= lo -> hi < len (production_row_of s) -> hi < 256 ->
  reads (same_flash (flash s)) (fun i => nth (Z.to_nat i) (production_row_of s) 0) lo hi (fun i => on_flash (Flash.nvm_read_production_signature_row i)).
Proof.
  intros [Hb Hc] Hm Hlo Hhi Hw s' i Hi Hf. split; [apply nth_byte; [exact Hm|lia]|]. unfold same_flash in *. exists (flash s'), (eeprom s').
  destruct s' as [f e r n x]. cbn in *. subst f. split; [|reflexivity]. unfold Flash.nvm_read_production_signature_row.
  rewrite u8_id, Flash.read_byte_step by lia.
  unfold production_row_of in *. rewrite (nth_lookup_Some _ _ 0 _ (Flash.lpm_production_row i _ Hb ltac:(lia))). reflexivity.
Qed.

Lemma reads_eeprom (m : list Z) lo hi : Forall (fun b => 0 <= b < 256) m -> len m = Nvm.EEPROM_SIZE -> 0 <= lo -> hi < Nvm.EEPROM_SIZE ->
  reads (fun _ e => Nvm.contents e = m) (fun i => nth (Z.to_nat i) m 0) lo hi (fun i => on_eeprom (Nvm.nvm_eeprom_read_byte i)).
Proof.
  intros Hm Hl Hlo Hhi s' i Hi He. split; [apply nth_byte; [exact Hm|lia]|]. destruct s' as [f e r n x]. cbn in *.
  destruct (Nvm.read_byte_spec e i ltac:(lia)) as (e1 & v & Er & Ev & Ec & _). exists f, e1. rewrite Er.
  rewrite He in Ev. rewrite (nth_lookup_Some _ _ _ _ Ev). split; [reflexivity|congruence].
Qed.

(** The commands that show a memory: their names, sections and memories, and how far the
    index of their reads reaches. *)
Definition dumps : list (list Z * section * (HS -> list Z) * Z) := [
  (str "Application contents", APP_SECTION, program_of, 65535);
  (str "Application table contents", APPTABLE_SECTION, program_of, 65535);
  (str "Bootloader contents", BOOT_SECTION, program_of, 65535);
  (str "EEPROM", EEPROM_SECTION, eeprom_of, 65535);
  (str "User signature", USER_SIGNATURES, user_row_of, 65535);
  (str "Production signature", PROD_SIGNATURES, production_row_of, 256)].

(** No two commands have the same name, so that each is found. *)
Lemma find_named {X} (cs : list (list Z * X)) name c : NoDup (map fst cs) -> In (name, c) cs ->
  find (fun c => bool_decide (fst c = name)) cs = Some (name, c).
Proof.
  induction cs as [|[n x] cs IH]; intros Hn Hin; [contradiction|]. inversion Hn as [|? ? Hx Hn']; subst.
  cbn [find fst]. destruct Hin as [[= -> ->]|Hin]; [rewrite bool_decide_true by reflexivity; reflexivity|].
  rewrite bool_decide_false; [apply IH; assumption|]. intros ->. apply Hx. cbn [fst]. apply list_elem_of_In. apply (List.in_map fst) in Hin. exact Hin.
Qed.

Lemma names_distinct : NoDup (map fst (host_commands (F := F) (E := E))).
Proof. apply (bool_decide_unpack _). vm_compute. exact I. Qed.

Lemma host_command_in name (c : M HS unit) : In (name, c) host_commands -> host_command name = c.
Proof. intros Hin. unfold host_command. rewrite (find_named _ _ _ names_distinct Hin). reflexivity. Qed.

(** C39. A command that shows a memory ends, keeps its texts within the buffers, and sends a
    text from which the host reads exactly the bytes of the section. *)
Theorem host_dump name sec mem limit (s : HS) :
  In (name, sec, mem, limit) dumps -> buffers_ok s -> driver_ready s -> Forall (fun b => 0 <= b < 256) (mem s) ->
  0 <= fst sec -> 0 < snd sec -> fst sec + snd sec <= len (mem s) -> fst sec + snd sec <= limit ->
  exists s' body, host_command name s = Some (s', tt) /\ outputs s (ok_line ++ body) s' /\
    read_bytes body = Some (take (Z.to_nat (snd sec)) (drop (Z.to_nat (fst sec)) (mem s))).
Proof.
  intros Hin Hb Hd Hm Hs Hn Hl Hw. pose proof (Nvm.contents_length (eeprom s)) as Le. unfold dumps in Hin. cbn [In] in Hin.
  decompose [or] Hin; clear Hin; try contradiction; match goal with E : _ = _ |- _ => injection E as <- <- <- <- end;
    erewrite host_command_in by (cbn [In host_commands]; tauto);
    first [ apply (answer_dump_spec (same_flash (flash s))); [first [apply reads_program | apply reads_user_row | apply reads_production_row]|..]
          | apply (answer_dump_spec (fun _ e => Nvm.contents e = eeprom_of s)); [apply reads_eeprom|..] ];
    assumption || reflexivity || (unfold section_end, eeprom_of in *; lia).
Qed.

(** The commands that show checks: their names and the ranges that they check. *)
Definition step_checks : list (list Z * section) := [
  (str "Bootloader CRC steps", BOOT_SECTION);
  (str "Application CRC steps", APP_SECTION);
  (str "Application table CRC steps", APPTABLE_SECTION)].

Lemma check_bytes_concat m start i n : Forall (fun b => 0 <= b < 256) (steps_bytes m start i n).
Proof.
  revert i. induction n as [|n IH]; intros i; [constructor|]. rewrite steps_bytes_cons. apply Forall_app. split; [apply check_list_bytes, range_value_range|apply IH].
Qed.

(** A command that shows the checks of a growing part of a section ends and sends a text from
    which the host reads, for every even number of bytes up to the size of the section, the
    check of that many bytes as the hardware computes it, from a start value of ones: the
    conversions of the driver and those of the command cancel. *)
Theorem host_steps name sec (s : HS) :
  In (name, sec) step_checks -> buffers_ok s -> driver_ready s ->
  0 <= fst sec -> 0 < snd sec -> snd sec mod 2 = 0 -> fst sec + snd sec <= len (program_of s) -> fst sec + snd sec <= 65533 ->
  exists s' body, host_command name s = Some (s', tt) /\ outputs s (ok_line ++ body) s' /\ program_of s' = program_of s /\
    read_bytes body = Some (concat (map (fun n => check_list (range_value (program_of s) (fst sec) n))
                                        (values (fun i => i + 1) 1 2 (Z.to_nat (snd sec / 2))))).
Proof.
  intros Hin Hb [Hr Hc] Hs Hn Heven Hl Hw. assert (host_command name = answer_steps sec) as ->.
  { apply host_command_in. destruct Hin as [[= <- <-]|[[= <- <-]|[[= <- <-]|[]]]];
      [apply (List.nth_error_In _ 5)|apply (List.nth_error_In _ 6)|apply (List.nth_error_In _ 7)]; reflexivity. }
  destruct (copy_shows s ok_line Hb (plain_le 3 60 ok_line plain_ok ltac:(lia))) as (s1 & E1 & Hs1).
  destruct (send_spec s _ s1 Hs1) as (s2 & E2 & Es2 & Ef2 & Ee2 & Hb2).
  destruct (steps_loop_spec (program_of s) (fst sec) (snd sec) Hs Hl ltac:(lia) ltac:(lia) (Z.to_nat (snd sec / 2)) LOOP_FUEL 1 s2)
    as (s3 & E3 & (_ & _ & Hp3) & Ho3); try lia_mod; [unfold LOOP_FUEL; lia_mod|exact Hb2|rewrite Ef2; split; auto|].
  rewrite Z.eqb_refl in Ho3. exists s3, (bytes_text (steps_bytes (program_of s) (fst sec) 1 (Z.to_nat (snd sec / 2)))). split; [|split; [|split]].
  - unfold answer_steps. step E1. step E2. exact E3.
  - exact (outputs_after s _ s2 _ s3 Es2 Ho3).
  - exact Hp3.
  - assert (forall i n, steps_bytes (program_of s) (fst sec) i n
        = concat (map (fun n => check_list (range_value (program_of s) (fst sec) n)) (values (fun i => i + 1) i 2 n))) as Eq.
    { intros i n. revert i. induction n as [|n IH]; intros i; [reflexivity|]. rewrite steps_bytes_cons, IH. reflexivity. }
    rewrite <- Eq. pose proof (check_bytes_concat (program_of s) (fst sec) 1 (Z.to_nat (snd sec / 2))) as Hf.
    destruct (steps_bytes (program_of s) (fst sec) 1 (Z.to_nat (snd sec / 2))) as [|b bs] eqn:Ed; [|apply read_bytes_text, Hf].
    exfalso. destruct (Z.to_nat (snd sec / 2)) eqn:En; [lia_mod|]. rewrite steps_bytes_cons in Ed. discriminate.
Qed.

End Answers.

(** ** Concrete instances *)

(** The layout of a microcontroller with 32 kilobytes of program memory. *)
#[local] Instance layout : Device := {|
  APP_SECTION := (0, 32768);
  APPTABLE_SECTION := (28672, 4096);
  BOOT_SECTION := (32768, 4096);
  EEPROM_SECTION := (0, 1024);
  USER_SIGNATURES := (0, 256);
  PROD_SIGNATURES := (0, 64);
  LOCK_BITS := 255;
  DEVID0 := 30; DEVID1 := 149; DEVID2 := 68;
  REVID := 0;
  serial_offsets := Flash.mkSerial 8 9 10 11 12 13 16 18 19 20 21
|}.
#[local] Existing Instance Nvm.model_controller.
#[local] Existing Instance Nvm.model_laws.

Definition example_host : Host Flash.Chip Nvm.Model :=
  mkHost Flash.example_flash Nvm.example_nvm (replicate (Z.to_nat RESPONSE_BUFFER_SIZE) 0) (replicate (Z.to_nat INT_BUFFER_SIZE) 0) [].

(** The user signature row of the example is shown. *)
Lemma host_dump_witness : exists s' body,
  host_command (str "User signature") example_host = Some (s', tt) /\ outputs example_host (ok_line ++ body) s' /\
  read_bytes body = Some (user_row_of example_host).
Proof.
  destruct (host_dump (str "User signature") USER_SIGNATURES user_row_of 65535 example_host) as (s' & body & E & Ho & Er).
  - apply (List.nth_error_In _ 4). reflexivity.
  - split; reflexivity.
  - split; reflexivity.
  - apply (bool_decide_unpack _). vm_compute. exact I.
  - cbn. lia.
  - cbn. lia.
  - vm_compute. discriminate.
  - vm_compute. discriminate.
  - exists s', body. split; [exact E|]. split; [exact Ho|]. rewrite Er. vm_compute. reflexivity.
Defined.

(** The checks over the table of the example's application are shown. *)
Lemma host_steps_witness : exists s' body,
  host_command (str "Application table CRC steps") example_host = Some (s', tt) /\ outputs example_host (ok_line ++ body) s' /\
  program_of s' = program_of example_host.
Proof.
  destruct (host_steps (str "Application table CRC steps") APPTABLE_SECTION example_host) as (s' & body & E & Ho & Ep & _).
  - apply (List.nth_error_In _ 2). reflexivity.
  - split; reflexivity.
  - split; reflexivity.
  - cbn. lia.
  - cbn. lia.
  - reflexivity.
  - etransitivity; [|apply Flash.program_length]. vm_compute. discriminate.
  - vm_compute. discriminate.
  - exists s', body. auto.
Defined.
