(* ===== verification/Eeprom.v ===== *)
(** * The layout of the EEPROM (eeprom.h)

    Where each setting is stored, and the accesses to it as the rest of the
    firmware sees them: on the contents of the memory, which the driver of Nvm.v
    implements. Floats are stored as their four bytes, lowest first. *)

From S2P Require Import Prelude Float32 Common Nvm.

(** ** Regions *)

Definition EEPROM_FIRMWARE_VERSION : Z * Z := (0x00, 4).
Definition EEPROM_FIRMWARE_CRC : Z * Z := (0x04, 4).
Definition EEPROM_LAST_RECORDED_Z_VALUE : Z * Z := (0x08, 4).
Definition EEPROM_BACKLASH_X : Z * Z := (0x0C, 4).
Definition EEPROM_BACKLASH_Y : Z * Z := (0x10, 4).
Definition EEPROM_BED_ORIENTATION_BACK_RIGHT : Z * Z := (0x14, 4).
Definition EEPROM_BED_ORIENTATION_BACK_LEFT : Z * Z := (0x18, 4).
Definition EEPROM_BED_ORIENTATION_FRONT_LEFT : Z * Z := (0x1C, 4).
Definition EEPROM_BED_ORIENTATION_FRONT_RIGHT : Z * Z := (0x20, 4).
Definition EEPROM_FILAMENT_COLOR : Z * Z := (0x24, 4).
Definition EEPROM_FILAMENT_TYPE_AND_LOCATION : Z * Z := (0x28, 1).
Definition EEPROM_FILAMENT_TEMPERATURE : Z * Z := (0x29, 1).
Definition EEPROM_FILAMENT_AMOUNT : Z * Z := (0x2A, 4).
Definition EEPROM_BACKLASH_EXPANSION_X_PLUS : Z * Z := (0x2E, 4).
Definition EEPROM_BACKLASH_EXPANSION_Y_L_PLUS : Z * Z := (0x32, 4).
Definition EEPROM_BACKLASH_EXPANSION_Y_R_PLUS : Z * Z := (0x36, 4).
Definition EEPROM_BACKLASH_EXPANSION_Y_R_MINUS : Z * Z := (0x3A, 4).
Definition EEPROM_BACKLASH_EXPANSION_Z : Z * Z := (0x3E, 4).
Definition EEPROM_BACKLASH_EXPANSION_E : Z * Z := (0x42, 4).
Definition EEPROM_BED_OFFSET_BACK_LEFT : Z * Z := (0x46, 4).
Definition EEPROM_BED_OFFSET_BACK_RIGHT : Z * Z := (0x4A, 4).
Definition EEPROM_BED_OFFSET_FRONT_RIGHT : Z * Z := (0x4E, 4).
Definition EEPROM_BED_OFFSET_FRONT_LEFT : Z * Z := (0x52, 4).
Definition EEPROM_BED_HEIGHT_OFFSET : Z * Z := (0x56, 4).
Definition EEPROM_RESERVED : Z * Z := (0x5A, 4).
Definition EEPROM_BACKLASH_SPEED : Z * Z := (0x5E, 4).
Definition EEPROM_BED_ORIENTATION_VERSION : Z * Z := (0x62, 1).
Definition EEPROM_SPEED_LIMIT_X : Z * Z := (0x66, 4).
Definition EEPROM_SPEED_LIMIT_Y : Z * Z := (0x6A, 4).
Definition EEPROM_SPEED_LIMIT_Z : Z * Z := (0x6E, 4).
Definition EEPROM_SPEED_LIMIT_E_POSITIVE : Z * Z := (0x72, 4).
Definition EEPROM_SPEED_LIMIT_E_NEGATIVE : Z * Z := (0x76, 4).
Definition EEPROM_FILAMENT_SIZE : Z * Z := (0x82, 1).
Definition EEPROM_FILAMENT_UID : Z * Z := (0x83, 4).
Definition EEPROM_BED_ORIENTATION_FIRST_SAMPLE : Z * Z := (0x106, 4).
Definition EEPROM_HEATBED_TEMPERATURE : Z * Z := (0x28B, 1).
Definition EEPROM_SKEW_X : Z * Z := (0x28C, 4).
Definition EEPROM_SKEW_Y : Z * Z := (0x290, 4).
Definition EEPROM_EXPAND_PRINTABLE_REGION : Z * Z := (0x294, 1).
Definition EEPROM_EXTERNAL_BED_HEIGHT : Z * Z := (0x295, 4).
Definition EEPROM_CALIBRATE_Z0_CORRECTION : Z * Z := (0x299, 4).
Definition EEPROM_X_JERK_SENSITIVITY : Z * Z := (0x29D, 1).
Definition EEPROM_Y_JERK_SENSITIVITY : Z * Z := (0x29E, 1).
Definition EEPROM_LAST_RECORDED_X_VALUE : Z * Z := (0x29F, 4).
Definition EEPROM_LAST_RECORDED_Y_VALUE : Z * Z := (0x2A3, 4).
Definition EEPROM_LAST_RECORDED_X_DIRECTION : Z * Z := (0x2A7, 1).
Definition EEPROM_LAST_RECORDED_Y_DIRECTION : Z * Z := (0x2A8, 1).
Definition EEPROM_SAVED_X_STATE : Z * Z := (0x2A9, 1).
Definition EEPROM_SAVED_Y_STATE : Z * Z := (0x2AA, 1).
Definition EEPROM_FAN_TYPE : Z * Z := (0x2AB, 1).
Definition EEPROM_FAN_OFFSET : Z * Z := (0x2AC, 1).
Definition EEPROM_FAN_SCALE : Z * Z := (0x2AD, 4).
Definition EEPROM_HEATER_CALIBRATION_MODE : Z * Z := (0x2B1, 1).
Definition EEPROM_X_MOTOR_CURRENT : Z * Z := (0x2B2, 2).
Definition EEPROM_Y_MOTOR_CURRENT : Z * Z := (0x2B4, 2).
Definition EEPROM_Z_MOTOR_CURRENT : Z * Z := (0x2B6, 2).
Definition EEPROM_HARDWARE_STATUS : Z * Z := (0x2B8, 2).
Definition EEPROM_HEATER_TEMPERATURE_MEASUREMENT_B : Z * Z := (0x2BA, 4).
Definition EEPROM_HOURS_COUNTER : Z * Z := (0x2C0, 4).
Definition EEPROM_X_MOTOR_STEPS_PER_MM : Z * Z := (0x2D6, 4).
Definition EEPROM_Y_MOTOR_STEPS_PER_MM : Z * Z := (0x2DA, 4).
Definition EEPROM_Z_MOTOR_STEPS_PER_MM : Z * Z := (0x2DE, 4).
Definition EEPROM_E_MOTOR_STEPS_PER_MM : Z * Z := (0x2E2, 4).
Definition EEPROM_SAVED_Z_STATE : Z * Z := (0x2E6, 2).
Definition EEPROM_E_MOTOR_CURRENT : Z * Z := (0x2E8, 2).
Definition EEPROM_HEATER_RESISTANCE_M : Z * Z := (0x2EA, 4).
Definition EEPROM_SERIAL_NUMBER : Z * Z := (0x2EF, 16).
Definition EEPROM_DECRYPTION_TABLE : Z * Z := (0x300, 256).

(** All regions, in the order of their addresses. *)
Definition eeprom_layout : list (Z * Z) :=
  [EEPROM_FIRMWARE_VERSION; EEPROM_FIRMWARE_CRC; EEPROM_LAST_RECORDED_Z_VALUE; EEPROM_BACKLASH_X;
   EEPROM_BACKLASH_Y; EEPROM_BED_ORIENTATION_BACK_RIGHT; EEPROM_BED_ORIENTATION_BACK_LEFT;
   EEPROM_BED_ORIENTATION_FRONT_LEFT; EEPROM_BED_ORIENTATION_FRONT_RIGHT; EEPROM_FILAMENT_COLOR;
   EEPROM_FILAMENT_TYPE_AND_LOCATION; EEPROM_FILAMENT_TEMPERATURE; EEPROM_FILAMENT_AMOUNT;
   EEPROM_BACKLASH_EXPANSION_X_PLUS; EEPROM_BACKLASH_EXPANSION_Y_L_PLUS; EEPROM_BACKLASH_EXPANSION_Y_R_PLUS;
   EEPROM_BACKLASH_EXPANSION_Y_R_MINUS; EEPROM_BACKLASH_EXPANSION_Z; EEPROM_BACKLASH_EXPANSION_E;
   EEPROM_BED_OFFSET_BACK_LEFT; EEPROM_BED_OFFSET_BACK_RIGHT; EEPROM_BED_OFFSET_FRONT_RIGHT;
   EEPROM_BED_OFFSET_FRONT_LEFT; EEPROM_BED_HEIGHT_OFFSET; EEPROM_RESERVED; EEPROM_BACKLASH_SPEED;
   EEPROM_BED_ORIENTATION_VERSION; EEPROM_SPEED_LIMIT_X; EEPROM_SPEED_LIMIT_Y; EEPROM_SPEED_LIMIT_Z;
   EEPROM_SPEED_LIMIT_E_POSITIVE; EEPROM_SPEED_LIMIT_E_NEGATIVE; EEPROM_FILAMENT_SIZE; EEPROM_FILAMENT_UID;
   EEPROM_BED_ORIENTATION_FIRST_SAMPLE; EEPROM_HEATBED_TEMPERATURE; EEPROM_SKEW_X; EEPROM_SKEW_Y;
   EEPROM_EXPAND_PRINTABLE_REGION; EEPROM_EXTERNAL_BED_HEIGHT; EEPROM_CALIBRATE_Z0_CORRECTION;
   EEPROM_X_JERK_SENSITIVITY; EEPROM_Y_JERK_SENSITIVITY; EEPROM_LAST_RECORDED_X_VALUE;
   EEPROM_LAST_RECORDED_Y_VALUE; EEPROM_LAST_RECORDED_X_DIRECTION; EEPROM_LAST_RECORDED_Y_DIRECTION;
   EEPROM_SAVED_X_STATE; EEPROM_SAVED_Y_STATE; EEPROM_FAN_TYPE; EEPROM_FAN_OFFSET; EEPROM_FAN_SCALE;
   EEPROM_HEATER_CALIBRATION_MODE; EEPROM_X_MOTOR_CURRENT; EEPROM_Y_MOTOR_CURRENT; EEPROM_Z_MOTOR_CURRENT;
   EEPROM_HARDWARE_STATUS; EEPROM_HEATER_TEMPERATURE_MEASUREMENT_B; EEPROM_HOURS_COUNTER;
   EEPROM_X_MOTOR_STEPS_PER_MM; EEPROM_Y_MOTOR_STEPS_PER_MM; EEPROM_Z_MOTOR_STEPS_PER_MM;
   EEPROM_E_MOTOR_STEPS_PER_MM; EEPROM_SAVED_Z_STATE; EEPROM_E_MOTOR_CURRENT; EEPROM_HEATER_RESISTANCE_M;
   EEPROM_SERIAL_NUMBER; EEPROM_DECRYPTION_TABLE].

(** ** Accesses *)

Definition ee_read (m : list Z) (region : Z * Z) : option (list Z) :=
  if (0 <=? fst region) && (fst region + snd region <=? len m)
  then Some (take (Z.to_nat (snd region)) (drop (Z.to_nat (fst region)) m)) else None.
Definition ee_write (m : list Z) (region : Z * Z) (d : list Z) : option (list Z) :=
  if len d =? snd region then blit m (fst region) d else None.

(** Bytes of an integer, lowest first. *)
Fixpoint le_bytes (n : nat) (v : Z) : list Z :=
  match n with O => [] | S n => v mod 256 :: le_bytes n (v / 256) end.
Fixpoint le_value (d : list Z) : Z := match d with [] => 0 | b :: d => b + 256 * le_value d end.

Definition ee_byte (m : list Z) (region : Z * Z) : option Z := load m (fst region).
Definition ee_set_byte (m : list Z) (region : Z * Z) (v : Z) : option (list Z) := store m (fst region) v.
Definition ee_float (m : list Z) (region : Z * Z) : option f32 := d ← ee_read m region; Some (f_of_bits (le_value d)).
Definition ee_set_float (m : list Z) (region : Z * Z) (v : f32) : option (list Z) :=
  ee_write m region (le_bytes 4 (f_to_bits v)).
Definition ee_int (m : list Z) (region : Z * Z) : option Z := d ← ee_read m region; Some (le_value d).

(** ** Bytes and floats *)

Lemma le_bytes_length n v : length (le_bytes n v) = n.
Proof. revert v. induction n as [|n IH]; intros v; cbn; [reflexivity|]. rewrite IH. reflexivity. Qed.

Lemma le_bytes_byte n v : Forall (fun b => 0 <= b < 256) (le_bytes n v).
Proof. revert v. induction n as [|n IH]; intros v; cbn; constructor; [apply Z.mod_pos_bound; lia|apply IH]. Qed.

Lemma le_value_bytes n v : 0 <= v < 256 ^ Z.of_nat n -> le_value (le_bytes n v) = v.
Proof.
  revert v. induction n as [|n IH]; intros v Hv; cbn [le_bytes le_value]; [cbn in Hv; lia|].
  rewrite Nat2Z.inj_succ, Z.pow_succ_r in Hv by lia. rewrite IH by (split; [apply Z.div_pos; lia|apply Z.div_lt_upper_bound; lia]).
  pose proof (Z.div_mod v 256 ltac:(lia)). lia.
Qed.

(** A float with its sign, exponent and fraction apart. *)
Lemma f_of_fields (s : bool) ex ma : 0 <= ex < 256 -> 0 <= ma < 8388608 ->
  f_of_bits ((if s then 2147483648 else 0) + ex * 8388608 + ma) =
    (if ex =? 0 then match ma with Z.pos m => S754_finite s m (-149) | _ => S754_zero s end
     else if ex =? 255 then (if ma =? 0 then S754_infinity s else S754_nan)
     else S754_finite s (Z.to_pos (ma + 8388608)) (ex - 150)).
Proof.
  intros He Hm. unfold f_of_bits. set (b := (if s then 2147483648 else 0) + ex * 8388608 + ma).
  assert (Z.testbit b 31 = s) as ->.
  { rewrite Z.testbit_eqb by lia. change (2 ^ 31) with 2147483648. unfold b. destruct s; apply Z.eqb_eq || apply Z.eqb_neq; lia_mod. }
  assert (Z.land (Z.shiftr b 23) 255 = ex) as ->.
  { change 255 with (Z.ones 8). rewrite Z.land_ones, Z.shiftr_div_pow2 by lia. change (2 ^ 23) with 8388608. change (2 ^ 8) with 256.
    unfold b. destruct s; lia_mod. }
  assert (Z.land b 8388607 = ma) as ->; [|reflexivity].
  change 8388607 with (Z.ones 23). rewrite Z.land_ones by lia. change (2 ^ 23) with 8388608. unfold b. destruct s; lia_mod.
Qed.

(** The mantissa and the exponent of a valid float. *)
Lemma f32_ok_finite s m e : f32_ok (S754_finite s m e) = true ->
  (Z.pos m < 8388608 /\ e = -149) \/ (8388608 <= Z.pos m < 16777216 /\ -149 <= e <= 104).
Proof.
  unfold f32_ok, valid_binary, bounded, canonical_mantissa. intros Hv. apply andb_true_iff in Hv. destruct Hv as [Hc He].
  apply Z.eqb_eq in Hc. apply Z.leb_le in He. unfold fexp, emin in *.
  assert (Z.pos (digits2_pos m) = Z.log2 (Z.pos m) + 1) as Ed.
  { clear. induction m as [m IH|m IH|]; cbn [digits2_pos]; [| |reflexivity];
      rewrite Pos2Z.inj_succ, IH; [rewrite (Pos2Z.inj_xI m), Z.log2_succ_double by lia|rewrite (Pos2Z.inj_xO m), Z.log2_double by lia]; lia. }
  rewrite Ed in Hc. pose proof (Z.log2_spec (Z.pos m) ltac:(lia)) as [L1 L2].
  destruct (Z.le_gt_cases (Z.log2 (Z.pos m)) 22) as [Hl|Hl].
  - left. assert (2 ^ Z.succ (Z.log2 (Z.pos m)) <= 2 ^ 23) by (apply Z.pow_le_mono_r; lia). change (2 ^ 23) with 8388608 in *. lia.
  - assert (Z.log2 (Z.pos m) = 23) as E by lia. rewrite E in *. change (2 ^ 23) with 8388608 in *. change (2 ^ Z.succ 23) with 16777216 in *. right. lia.
Qed.

Lemma f_bits_range x : f32_ok x = true -> 0 <= f_to_bits x < 4294967296.
Proof.
  destruct x as [s|s| |s m e]; intros Hv; cbn [f_to_bits]; try (destruct s; lia); [lia|].
  destruct (f32_ok_finite s m e Hv) as [[Hm ->]|[Hm He]].
  - rewrite (proj2 (Z.ltb_lt _ _)) by lia. destruct s; lia.
  - rewrite (proj2 (Z.ltb_ge _ _)) by lia. destruct s; lia.
Qed.

(** The image of a float determines it. *)
Lemma f_of_to_bits x : f32_ok x = true -> f_of_bits (f_to_bits x) = x.
Proof.
  destruct x as [s|s| |s m e]; intros Hv; cbn [f_to_bits]; [destruct s; reflexivity|destruct s; reflexivity|reflexivity|].
  destruct (f32_ok_finite s m e Hv) as [[Hm ->]|[Hm He]].
  - rewrite (proj2 (Z.ltb_lt _ _)) by lia. pose proof (f_of_fields s 0 (Z.pos m) ltac:(lia) ltac:(lia)) as F.
    rewrite Z.mul_0_l, Z.add_0_r in F. rewrite F. reflexivity.
  - rewrite (proj2 (Z.ltb_ge _ _)) by lia. rewrite f_of_fields by lia.
    rewrite (proj2 (Z.eqb_neq _ _)), (proj2 (Z.eqb_neq _ _)) by lia. f_equal; [|lia].
    replace (Z.pos m - 8388608 + 8388608) with (Z.pos m) by lia. reflexivity.
Qed.

(** ** Regions apart *)

Definition disjoint (r q : Z * Z) : Prop := fst r + snd r <= fst q \/ fst q + snd q <= fst r.

Lemma ee_write_spec m r d m' : ee_write m r d = Some m' -> 0 <= snd r ->
  m' = patched m (Z.to_nat (fst r)) d /\ 0 <= fst r /\ fst r + snd r <= len m /\ len d = snd r.
Proof.
  unfold ee_write, blit, patched. intros E Hr. destruct (Z.eqb_spec (len d) (snd r)) as [El|]; [|discriminate].
  destruct (Z.leb_spec 0 (fst r)), (Z.leb_spec (fst r + len d) (len m)); cbn [andb] in E; try discriminate.
  injection E as <-. split; [reflexivity|lia].
Qed.

Lemma ee_write_defined m r d : 0 <= fst r -> fst r + snd r <= len m -> len d = snd r ->
  ee_write m r d = Some (patched m (Z.to_nat (fst r)) d).
Proof.
  intros H1 H2 H3. unfold ee_write, blit. rewrite H3, Z.eqb_refl, !(proj2 (Z.leb_le _ _)) by lia. reflexivity.
Qed.

Lemma patched_read m a d b n : (a + length d <= length m)%nat -> (a + length d <= b \/ b + n <= a)%nat ->
  take n (drop b (patched m a d)) = take n (drop b m).
Proof.
  intros Ha Hd. apply list_eq. intros i. destruct (decide (i < n)%nat) as [Hi|Hi].
  2: { rewrite !lookup_take_ge by lia. reflexivity. }
  rewrite !lookup_take_lt by exact Hi. rewrite !lookup_drop. unfold patched.
  destruct Hd as [Hd|Hd].
  - rewrite lookup_app_r by (rewrite length_take; lia). rewrite lookup_app_r by (rewrite length_take; lia).
    rewrite lookup_drop. f_equal. rewrite length_take. lia.
  - rewrite lookup_app_l by (rewrite length_take; lia). apply lookup_take_lt. lia.
Qed.

(** A write leaves the other regions alone. *)
Lemma ee_write_other m r d m' q : ee_write m r d = Some m' -> 0 <= snd r -> 0 <= fst q -> 0 <= snd q -> disjoint r q ->
  ee_read m' q = ee_read m q.
Proof.
  intros E Hr Hq Hq' Hd. destruct (ee_write_spec m r d m' E Hr) as (-> & H1 & H2 & H3). unfold ee_read, disjoint in *.
  rewrite patched_length by lia. destruct (_ && _); [|reflexivity]. f_equal. apply patched_read; lia.
Qed.

Lemma ee_write_same m r d m' : ee_write m r d = Some m' -> 0 <= snd r -> ee_read m' r = Some d.
Proof.
  intros E Hr. destruct (ee_write_spec m r d m' E Hr) as (-> & H1 & H2 & H3). unfold ee_read.
  rewrite patched_length by lia. rewrite !(proj2 (Z.leb_le _ _)) by lia. cbn [andb]. f_equal.
  unfold patched. rewrite drop_app_ge by (rewrite length_take; lia). rewrite length_take, Nat.min_l, Nat.sub_diag, drop_0 by lia.
  rewrite take_app_le by lia. apply take_ge. lia.
Qed.

Lemma ee_set_float_defined m r v : 0 <= fst r -> snd r = 4 -> fst r + 4 <= len m ->
  exists m', ee_set_float m r v = Some m' /\ length m' = length m.
Proof.
  intros H1 H2 H3. unfold ee_set_float. rewrite ee_write_defined by (rewrite ?le_bytes_length; lia).
  eexists. split; [reflexivity|]. apply patched_length. rewrite le_bytes_length. lia.
Qed.

Lemma ee_float_same m r v m' : snd r = 4 -> f32_ok v = true -> ee_set_float m r v = Some m' -> ee_float m' r = Some v.
Proof.
  intros Hr Hv E. unfold ee_float. rewrite (ee_write_same m r _ m' E) by lia. bind_some.
  rewrite le_value_bytes by (apply f_bits_range, Hv). rewrite f_of_to_bits by exact Hv. reflexivity.
Qed.

(** ** Properties *)

(** The regions of a list are in order and apart, up to an end. *)
Fixpoint ordered (last : Z) (l : list (Z * Z)) (size : Z) : bool :=
  match l with
  | [] => last <=? size
  | r :: l => (last <=? fst r) && (0 <? snd r) && ordered (fst r + snd r) l size
  end.

Lemma ordered_spec l : forall last size, ordered last l size = true ->
  forall j r, l !! j = Some r -> last <= fst r /\ 0 < snd r /\ fst r + snd r <= size /\
    forall i q, (i < j)%nat -> l !! i = Some q -> fst q + snd q <= fst r.
Proof.
  induction l as [|x l IH]; intros last size E j r Hj; [destruct j; discriminate|]. cbn [ordered] in E. bool_hyps.
  assert (forall k, ordered k l size = true -> k <= size) as Hend.
  { clear. induction l as [|x l IH]; intros k E; cbn in E; bool_hyps; [assumption|].
    match goal with H : ordered _ _ _ = true |- _ => apply IH in H end. lia. }
  destruct j as [|j].
  - cbn in Hj. injection Hj as <-. specialize (Hend _ ltac:(eassumption)). split; [assumption|]. split; [assumption|]. split; [lia|].
    intros i q Hi. lia.
  - destruct (IH _ _ ltac:(eassumption) j r Hj) as (R1 & R2 & R3 & R4). split; [lia|]. split; [assumption|]. split; [assumption|].
    intros [|i] q Hi Hq; [cbn in Hq; injection Hq as <-; lia|]. apply (R4 i q); [lia|exact Hq].
Qed.

(** The settings in the EEPROM do not overlap: every two regions of the layout
    are apart, and all lie within the memory. *)
Theorem layout_disjoint i j r q :
  i <> j -> eeprom_layout !! i = Some r -> eeprom_layout !! j = Some q ->
  disjoint r q /\ 0 <= fst r /\ 0 < snd r /\ fst r + snd r <= EEPROM_SIZE.
Proof.
  intros Hij Hi Hj. assert (ordered 0 eeprom_layout EEPROM_SIZE = true) as E by (vm_compute; reflexivity).
  destruct (ordered_spec _ _ _ E i r Hi) as (A1 & A2 & A3 & A4). destruct (ordered_spec _ _ _ E j q Hj) as (B1 & B2 & B3 & B4).
  split; [|auto]. unfold disjoint. destruct (Nat.lt_trichotomy i j) as [Ho|[Ho|Ho]]; [left; apply (B4 i); assumption|contradiction|right; apply (A4 j); assumption].
Qed.

(** A float that is stored in its region is read back as the same float, bit
    for bit, and every other region reads as before. *)
Theorem float_stored m i r v :
  len m = EEPROM_SIZE -> eeprom_layout !! i = Some r -> snd r = 4 -> f32_ok v = true ->
  exists m', ee_set_float m r v = Some m' /\ len m' = EEPROM_SIZE /\ ee_float m' r = Some v /\
    forall j q, i <> j -> eeprom_layout !! j = Some q -> ee_read m' q = ee_read m q.
Proof.
  intros Lm Hi Hr Hv. assert (ordered 0 eeprom_layout EEPROM_SIZE = true) as E by (vm_compute; reflexivity).
  destruct (ordered_spec _ _ _ E i r Hi) as (A1 & A2 & A3 & A4).
  destruct (ee_set_float_defined m r v) as (m' & Em & L'); [lia..|]. exists m'. split; [exact Em|]. split; [lia|].
  split; [apply (ee_float_same m r v m' Hr Hv Em)|]. intros j q Hij Hj.
  destruct (ordered_spec _ _ _ E j q Hj) as (B1 & B2 & B3 & B4).
  apply (ee_write_other m r _ m' q Em); [lia..|]. unfold disjoint.
  destruct (Nat.lt_trichotomy i j) as [Ho|[Ho|Ho]]; [left; apply (B4 i); assumption|contradiction|right; apply (A4 j); assumption].
Qed.


(** ** Witnesses *)

Lemma layout_disjoint_witness : disjoint EEPROM_SKEW_X EEPROM_SKEW_Y /\ fst EEPROM_SKEW_X + snd EEPROM_SKEW_X <= EEPROM_SIZE.
Proof.
  destruct (layout_disjoint 36 37 EEPROM_SKEW_X EEPROM_SKEW_Y) as (H & _ & _ & H').
  - discriminate.
  - reflexivity.
  - reflexivity.
  - split; [exact H|exact H'].
Defined.

Lemma float_stored_witness :
  exists m', ee_set_float (repeat 255 1024) EEPROM_SKEW_X (f_of_dec (-5) 2) = Some m' /\ ee_float m' EEPROM_SKEW_X = Some (f_of_dec (-5) 2).
Proof.
  destruct (float_stored (repeat 255 1024) 36 EEPROM_SKEW_X (f_of_dec (-5) 2)) as (m' & E & _ & R & _).
  - vm_compute. reflexivity.
  - reflexivity.
  - reflexivity.
  - vm_compute. reflexivity.
  - exists m'. split; [exact E|exact R].
Defined.

