(* ===== verification/Stepper.v ===== *)
(** * The step timer (motors.cpp)

    The overflow interrupt of the motors' step timer: each motor that moves counts
    timer periods, makes a step when its delay is over, and skips a period now and
    then so that all motors of a movement end together. *)

From S2P Require Import Prelude.

(** ** One motor *)

(** The entry of a motor in the global arrays. *)
Record Stepper := mkStepper {
  motorsDelaySkips : Z; motorsDelaySkipsCounter : Z;
  motorsStepDelay : Z; motorsStepDelayCounter : Z;
  motorsNumberOfSteps : Z; motorsIsMoving : bool
}.

(** The new entry, and whether the step pin is set. *)
Definition motorsStepAction (s : Stepper) : Stepper * bool :=
  let '(mkStepper skips skipsCounter delay delayCounter steps moving) := s in
  let '(skip, skipsCounter) :=
    if skips =? 0 then (false, skipsCounter) else (skipsCounter >=? skips, u32 (skipsCounter + 1)) in
  if skip then (mkStepper skips 0 delay delayCounter steps moving, false)
  else
    let delayCounter := u32 (delayCounter + 1) in
    if delayCounter >=? delay then
      let steps := u32 (steps - 1) in
      (mkStepper skips skipsCounter delay 0 steps (if steps =? 0 then false else moving), true)
    else (mkStepper skips skipsCounter delay delayCounter steps moving, false).

(** The turn of one motor in the interrupt: the pin is cleared first. *)
Definition motor_tick (s : Stepper) : Stepper * bool :=
  if motorsIsMoving s then motorsStepAction s else (s, false).

(** ** All motors *)

(** The motors, and the levels of their step pins. *)
Definition updateMotorsStepTimer (ms : list Stepper) : list Stepper * list bool :=
  (map (fun s => fst (motor_tick s)) ms, map (fun s => snd (motor_tick s)) ms).

Definition areMotorsMoving (ms : list Stepper) : bool := existsb motorsIsMoving ms.

(** The part of [stopMotorsStepTimer] on the motors. *)
Definition stop_moving (s : Stepper) : Stepper :=
  let '(mkStepper a b c d e _) := s in mkStepper a b c d e false.
Definition stopMotorsStepTimer (ms : list Stepper) : list Stepper * list bool :=
  updateMotorsStepTimer (map stop_moving ms).

(** ** Running *)

(** A number of timer periods, with the number of steps made. *)
Fixpoint ticks (n : nat) (s : Stepper) : Stepper * Z :=
  match n with
  | O => (s, 0)
  | S n => let '(s, c) := ticks n s in let '(s, b) := motor_tick s in (s, c + (if b then 1 else 0))
  end.

(** A motor that is set up to make [n] steps. *)
Definition armed (skips delay n : Z) : Stepper := mkStepper skips 0 delay 0 n true.

(** The delay periods among the first [t] periods, and the number of periods that
    a movement takes. *)
Definition delays (skips t : Z) : Z := if skips =? 0 then t else t - t / (skips + 1).
Definition movement_ticks (skips delay n : Z) : Z :=
  n * delay + (if skips =? 0 then 0 else (n * delay - 1) / skips).

Lemma delays_bound skips t : 0 <= skips -> 0 <= t -> 0 <= delays skips t <= t.
Proof. intros Hs Ht. unfold delays. destruct (Z.eqb_spec skips 0); [lia|]. pose proof (Z.div_pos t (skips + 1)). lia_mod. Qed.

(** Before the last period, the delay periods are fewer than the movement needs,
    and the last one is a delay period. *)
Lemma delays_movement skips total t : 0 <= skips -> 1 <= total -> 0 <= t ->
  t < total + (if skips =? 0 then 0 else (total - 1) / skips) -> delays skips t < total.
Proof.
  intros Hs Hn Ht. unfold delays. destruct (Z.eqb_spec skips 0) as [->|Hne]; [lia|]. intros Hlt.
  pose proof (Z.div_mod (total - 1) skips ltac:(lia)) as D1. pose proof (Z.mod_pos_bound (total - 1) skips ltac:(lia)) as D2.
  pose proof (Z.div_mod t (skips + 1) ltac:(lia)) as D3. pose proof (Z.mod_pos_bound t (skips + 1) ltac:(lia)) as D4.
  set (a := (total - 1) / skips) in *. set (b := t / (skips + 1)) in *.
  destruct (Z.lt_ge_cases (t - b) total) as [|Hge]; [assumption|exfalso].
  assert (b <= a - 0 \/ a < b) as [Hba|Hba] by lia; nia.
Qed.

Lemma delays_last skips total : 0 <= skips -> 1 <= total ->
  delays skips (total + (if skips =? 0 then 0 else (total - 1) / skips)) = total.
Proof.
  intros Hs Hn. unfold delays. destruct (Z.eqb_spec skips 0) as [->|Hne]; [lia|].
  pose proof (Z.div_mod (total - 1) skips ltac:(lia)) as D1. pose proof (Z.mod_pos_bound (total - 1) skips ltac:(lia)) as D2.
  set (a := (total - 1) / skips) in *.
  assert ((total + a) / (skips + 1) = a) as ->; [|lia].
  symmetry. apply (Z.div_unique _ _ _ (total - skips * a)); [left; lia|]. ring.
Qed.

Lemma delays_succ skips t : 0 <= skips -> 0 <= t ->
  delays skips (t + 1) = if (skips =? 0) || negb (t mod (skips + 1) =? skips) then delays skips t + 1 else delays skips t.
Proof.
  intros Hs Ht. unfold delays. destruct (Z.eqb_spec skips 0) as [->|Hne]; [reflexivity|]. cbn [orb].
  pose proof (Z.div_mod t (skips + 1) ltac:(lia)) as D3. pose proof (Z.mod_pos_bound t (skips + 1) ltac:(lia)) as D4.
  destruct (Z.eqb_spec (t mod (skips + 1)) skips) as [E|N]; cbn [negb].
  - rewrite <- (Z.div_unique (t + 1) (skips + 1) (t / (skips + 1) + 1) 0) by (nia). lia.
  - rewrite <- (Z.div_unique (t + 1) (skips + 1) (t / (skips + 1)) (t mod (skips + 1) + 1)) by nia. lia.
Qed.

Lemma div_succ j d : 1 <= d -> 0 <= j -> j / d + (if (j + 1) mod d =? 0 then 1 else 0) = (j + 1) / d.
Proof.
  intros Hd Hj. pose proof (Z.div_mod j d ltac:(lia)). pose proof (Z.mod_pos_bound j d ltac:(lia)).
  pose proof (Z.div_mod (j + 1) d ltac:(lia)). pose proof (Z.mod_pos_bound (j + 1) d ltac:(lia)).
  destruct (Z.eqb_spec ((j + 1) mod d) 0); nia.
Qed.

(** The state of a motor in the middle of its movement. *)
Definition running (skips delay n t : Z) : Stepper :=
  mkStepper skips (if skips =? 0 then 0 else t mod (skips + 1)) delay (delays skips t mod delay)
    (n - delays skips t / delay) true.

Section Motor.
Context (skips delay n : Z) (Hs : 0 <= skips < 4294967296) (Hd : 1 <= delay < 4294967296) (Hn : 1 <= n < 4294967296).

Lemma delay_tick t : 0 <= t -> delays skips t < n * delay -> delays skips (t + 1) = delays skips t + 1 ->
  let c := if skips =? 0 then 0 else (t + 1) mod (skips + 1) in
  let j := delays skips t in
  let steps := u32 (n - j / delay - 1) in
  (if u32 (j mod delay + 1) >=? delay
   then (mkStepper skips c delay 0 steps (if steps =? 0 then false else true), true)
   else (mkStepper skips c delay (u32 (j mod delay + 1)) (n - j / delay) true, false))
  = ((if j + 1 =? n * delay then mkStepper skips c delay 0 0 false else running skips delay n (t + 1)),
     (j + 1) mod delay =? 0).
Proof.
  intros Ht Hj Hj1 c j steps. unfold running. rewrite Hj1. fold j in Hj |- *. fold c.
  pose proof (delays_bound skips t ltac:(lia) Ht) as Hb. fold j in Hb.
  pose proof (Z.div_mod j delay ltac:(lia)) as D1. pose proof (Z.mod_pos_bound j delay ltac:(lia)) as D2.
  set (a := j / delay) in *. set (r := j mod delay) in *.
  assert (0 <= a < n) as Ha by nia. unfold steps. rewrite !u32_id by lia. rewrite Z.geb_leb.
  destruct (Z.leb_spec delay (r + 1)).
  - assert ((j + 1) mod delay = 0 /\ (j + 1) / delay = a + 1) as [-> ->].
    { split; [symmetry; apply (Z.mod_unique _ _ (a + 1)); nia|symmetry; apply (Z.div_unique _ _ _ 0); nia]. }
    rewrite Z.eqb_refl. f_equal. destruct (Z.eqb_spec (j + 1) (n * delay)), (Z.eqb_spec (n - a - 1) 0); try nia.
    + f_equal. lia.
    + f_equal. lia.
  - assert ((j + 1) mod delay = r + 1 /\ (j + 1) / delay = a) as [-> ->].
    { split; [symmetry; apply (Z.mod_unique _ _ a); nia|symmetry; apply (Z.div_unique _ _ _ (r + 1)); nia]. }
    rewrite (proj2 (Z.eqb_neq (j + 1) (n * delay))), (proj2 (Z.eqb_neq (r + 1) 0)) by nia. reflexivity.
Qed.

Lemma running_tick t : 0 <= t -> delays skips t < n * delay ->
  motor_tick (running skips delay n t) =
    if delays skips (t + 1) =? delays skips t then (running skips delay n (t + 1), false)
    else ((if delays skips (t + 1) =? n * delay
           then mkStepper skips (if skips =? 0 then 0 else (t + 1) mod (skips + 1)) delay 0 0 false
           else running skips delay n (t + 1)), delays skips (t + 1) mod delay =? 0).
Proof.
  intros Ht Hj. pose proof (delays_succ skips t ltac:(lia) Ht) as Hsucc. unfold motor_tick.
  change (motorsIsMoving (running skips delay n t)) with true. unfold motorsStepAction, running at 1. cbv beta iota.
  pose proof (Z.mod_pos_bound t (skips + 1) ltac:(lia)) as Hm.
  destruct (Z.eqb_spec skips 0) as [E0|N0].
  - cbn [orb] in Hsucc. rewrite (proj2 (Z.eqb_neq _ (delays skips t))) by lia. rewrite Hsucc.
    pose proof (delay_tick t Ht Hj Hsucc) as D. rewrite E0 in D |- *. exact D.
  - cbn [orb] in Hsucc. rewrite Z.geb_leb. destruct (Z.eqb_spec (t mod (skips + 1)) skips) as [E|N]; cbn [negb] in Hsucc.
    + rewrite (proj2 (Z.leb_le _ _)) by lia. rewrite Hsucc, Z.eqb_refl. unfold running. rewrite Hsucc, (proj2 (Z.eqb_neq skips 0) N0).
      replace ((t + 1) mod (skips + 1)) with 0; [reflexivity|]. symmetry.
      apply Z.mod_divide; [lia|]. exists (t / (skips + 1) + 1). pose proof (Z.div_mod t (skips + 1)). lia.
    + rewrite (proj2 (Z.leb_gt _ _)) by lia. rewrite (proj2 (Z.eqb_neq _ (delays skips t))) by lia. rewrite Hsucc.
      pose proof (delay_tick t Ht Hj Hsucc) as D. rewrite (proj2 (Z.eqb_neq skips 0) N0) in D.
      replace (u32 (t mod (skips + 1) + 1)) with ((t + 1) mod (skips + 1)); [exact D|].
      rewrite u32_id by lia. symmetry. apply (Z.mod_unique _ _ (t / (skips + 1))); [lia|]. pose proof (Z.div_mod t (skips + 1)). lia.
Qed.

Lemma ticks_running t : Z.of_nat t < movement_ticks skips delay n ->
  ticks t (armed skips delay n) = (running skips delay n (Z.of_nat t), delays skips (Z.of_nat t) / delay).
Proof.
  unfold movement_ticks. induction t as [|t IH]; intros Ht.
  - cbn [ticks]. unfold armed, running, delays. cbn [Z.of_nat].
    rewrite Z.mod_0_l, Z.div_0_l by lia. destruct (skips =? 0); cbn -[Z.div Z.modulo]; rewrite Z.mod_0_l, Z.div_0_l, Z.sub_0_r by lia; reflexivity.
  - cbn [ticks]. rewrite IH by lia. assert (0 <= Z.of_nat t) as Ht0 by lia.
    assert (1 <= n * delay) as Hnd by nia.
    pose proof (delays_movement skips (n * delay) (Z.of_nat t) ltac:(lia) Hnd Ht0 ltac:(lia)) as Hj.
    pose proof (delays_movement skips (n * delay) (Z.of_nat t + 1) ltac:(lia) Hnd ltac:(lia) ltac:(lia)) as Hj1.
    rewrite (running_tick (Z.of_nat t) Ht0 Hj). replace (Z.of_nat (S t)) with (Z.of_nat t + 1) by lia.
    pose proof (delays_succ skips (Z.of_nat t) ltac:(lia) Ht0) as Hsucc.
    pose proof (delays_bound skips (Z.of_nat t) ltac:(lia) Ht0) as Hb.
    destruct (Z.eqb_spec (delays skips (Z.of_nat t + 1)) (delays skips (Z.of_nat t))) as [E|N].
    + rewrite E, Z.add_0_r. reflexivity.
    + rewrite (proj2 (Z.eqb_neq _ (n * delay))) by lia. f_equal.
      assert (delays skips (Z.of_nat t + 1) = delays skips (Z.of_nat t) + 1) as E1 by (destruct (_ || _); lia).
      rewrite E1. apply div_succ; lia.
Qed.

(** The last period. *)
Lemma ticks_end : exists c,
  ticks (Z.to_nat (movement_ticks skips delay n)) (armed skips delay n) = (mkStepper skips c delay 0 0 false, n).
Proof.
  assert (1 <= n * delay) as Hnd by nia.
  assert (0 <= (if skips =? 0 then 0 else (n * delay - 1) / skips)) as Hq
    by (destruct (Z.eqb_spec skips 0); [lia|apply Z.div_pos; lia]).
  pose proof (delays_last skips (n * delay) ltac:(lia) Hnd) as Hlast.
  unfold movement_ticks. set (T := n * delay + _) in *.
  replace (Z.to_nat T) with (S (Z.to_nat (T - 1))) by lia. cbn [ticks].
  rewrite ticks_running by (unfold movement_ticks; fold T; lia). rewrite Z2Nat.id by lia.
  pose proof (delays_movement skips (n * delay) (T - 1) ltac:(lia) Hnd ltac:(lia) ltac:(fold T; lia)) as Hj.
  rewrite running_tick by (lia || exact Hj). replace (T - 1 + 1) with T by lia. rewrite Hlast, Z.eqb_refl.
  rewrite (proj2 (Z.eqb_neq (n * delay) _)) by lia. rewrite Z.mod_mul, Z.eqb_refl by lia.
  eexists. f_equal.
  pose proof (delays_succ skips (T - 1) ltac:(lia) ltac:(lia)) as Hsucc. replace (T - 1 + 1) with T in Hsucc by lia.
  assert (delays skips (T - 1) = n * delay - 1) as -> by (destruct (_ || _); lia).
  pose proof (div_succ (n * delay - 1) delay ltac:(lia) ltac:(lia)) as E. rewrite Z.sub_add, Z.mod_mul, Z.div_mul in E by lia. exact E.
Qed.
End Motor.

(** ** Waiting for all motors *)

(** The loops that wait until all motors stop or an emergency stop occurs; [polls]
    tells after how many more periods an emergency stop occurs, if one does. *)
Fixpoint wait_motors (fuel : nat) (polls : option nat) (ms : list Stepper) (made : list Z)
    : option (list Stepper * list Z * option nat) :=
  match fuel with
  | O => None
  | S fuel =>
      if areMotorsMoving ms && negb (bool_decide (polls = Some 0%nat)) then
        let '(ms, pins) := updateMotorsStepTimer ms in
        wait_motors fuel (pred <$> polls) ms (zip_with (fun c (b : bool) => c + (if b then 1 else 0)) made pins)
      else Some (ms, made, polls)
  end.

(** A motor that stands still, or is set up for a movement. A delay of zero acts
    like a delay of one. *)
Definition ready (m : Stepper) : Prop :=
  motorsIsMoving m = false \/ exists skips delay n, m = armed skips delay n /\
    0 <= skips < 4294967296 /\ 0 <= delay < 4294967296 /\ 1 <= n < 4294967296.

Definition duration (m : Stepper) : Z :=
  if motorsIsMoving m then movement_ticks (motorsDelaySkips m) (Z.max 1 (motorsStepDelay m)) (motorsNumberOfSteps m) else 0.
Definition steps_due (m : Stepper) : Z := if motorsIsMoving m then motorsNumberOfSteps m else 0.

Lemma ticks_still t m : motorsIsMoving m = false -> ticks t m = (m, 0).
Proof.
  intros Hm. induction t as [|t IH]; [reflexivity|]. cbn [ticks]. rewrite IH. unfold motor_tick. rewrite Hm. reflexivity.
Qed.

Lemma ticks_plus t u m : ticks (t + u) m =
  (fst (ticks u (fst (ticks t m))), snd (ticks t m) + snd (ticks u (fst (ticks t m)))).
Proof.
  induction u as [|u IH].
  - rewrite Nat.add_0_r. cbn. rewrite Z.add_0_r. apply surjective_pairing.
  - rewrite Nat.add_succ_r. cbn [ticks]. rewrite IH. destruct (ticks u (fst (ticks t m))) as [s c]. cbn [fst snd].
    destruct (motor_tick s). cbn. f_equal. lia.
Qed.

Definition set_delay (d : Z) (s : Stepper) : Stepper :=
  let '(mkStepper a b _ c e m) := s in mkStepper a b d c e m.

Lemma zero_delay_tick s : motorsStepDelay s = 1 -> motorsStepDelayCounter s = 0 ->
  motor_tick (set_delay 0 s) = (set_delay 0 (fst (motor_tick s)), snd (motor_tick s)) /\
  motorsStepDelay (fst (motor_tick s)) = 1 /\ motorsStepDelayCounter (fst (motor_tick s)) = 0.
Proof.
  destruct s as [a b c d e m]. cbn [motorsStepDelay motorsStepDelayCounter]. intros -> ->. unfold motor_tick, set_delay.
  cbn [motorsIsMoving]. destruct m; [|auto]. unfold motorsStepAction. change (u32 (0 + 1) >=? 0) with true. change (u32 (0 + 1) >=? 1) with true.
  destruct (a =? 0); [|destruct (b >=? a)]; auto.
Qed.

Lemma ticks_zero_delay t k n : ticks t (armed k 0 n) =
    (set_delay 0 (fst (ticks t (armed k 1 n))), snd (ticks t (armed k 1 n))) /\
  motorsStepDelay (fst (ticks t (armed k 1 n))) = 1 /\ motorsStepDelayCounter (fst (ticks t (armed k 1 n))) = 0.
Proof.
  induction t as [|t (E & H1 & H2)]; [auto|]. cbn [ticks]. rewrite E. destruct (ticks t (armed k 1 n)) as [s c]. cbn [fst snd] in *.
  destruct (zero_delay_tick s H1 H2) as (E' & H1' & H2'). rewrite E'. destruct (motor_tick s) as [s' b]. auto.
Qed.

(** What a motor that is set up does, for any delay. *)
Lemma armed_ticks k d n t : 0 <= k < 4294967296 -> 0 <= d < 4294967296 -> 1 <= n < 4294967296 ->
  motorsIsMoving (fst (ticks t (armed k d n))) = (Z.of_nat t <? movement_ticks k (Z.max 1 d) n) /\
  (movement_ticks k (Z.max 1 d) n <= Z.of_nat t -> snd (ticks t (armed k d n)) = n).
Proof.
  intros Hk Hd Hn.
  assert (forall d, 1 <= d < 4294967296 ->
    motorsIsMoving (fst (ticks t (armed k d n))) = (Z.of_nat t <? movement_ticks k d n) /\
    (movement_ticks k d n <= Z.of_nat t -> snd (ticks t (armed k d n)) = n)) as Hpos.
  { clear d Hd. intros d Hd. destruct (Z.ltb_spec (Z.of_nat t) (movement_ticks k d n)) as [Hlt|Hge].
    - rewrite ticks_running by assumption. split; [reflexivity|lia].
    - destruct (ticks_end k d n Hk Hd Hn) as [c E].
      replace t with (Z.to_nat (movement_ticks k d n) + (t - Z.to_nat (movement_ticks k d n)))%nat by lia.
      rewrite ticks_plus, E. cbn [fst snd]. rewrite ticks_still by reflexivity. split; [reflexivity|cbn; lia]. }
  destruct (Z.eq_dec d 0) as [->|Hne]; [|rewrite Z.max_r by lia; apply Hpos; lia].
  destruct (ticks_zero_delay t k n) as (-> & _ & _). cbn [fst snd]. change (Z.max 1 0) with 1.
  replace (motorsIsMoving (set_delay 0 (fst (ticks t (armed k 1 n))))) with (motorsIsMoving (fst (ticks t (armed k 1 n))))
    by (destruct (fst (ticks t (armed k 1 n))); reflexivity).
  apply Hpos. lia.
Qed.

(** A motor moves exactly for its duration, and then has made its steps. *)
Lemma ready_moving m t : ready m -> motorsIsMoving (fst (ticks t m)) = (Z.of_nat t <? duration m).
Proof.
  intros [Hm|(k & d & n & -> & Hk & Hd & Hn)].
  - rewrite ticks_still by exact Hm. unfold duration. rewrite Hm. cbn. symmetry. rewrite Hm. apply Z.ltb_ge. lia.
  - apply armed_ticks; assumption.
Qed.

Lemma ready_steps m t : ready m -> duration m <= Z.of_nat t -> snd (ticks t m) = steps_due m.
Proof.
  intros [Hm|(k & d & n & -> & Hk & Hd & Hn)] Ht.
  - rewrite ticks_still by exact Hm. unfold steps_due. rewrite Hm. reflexivity.
  - apply armed_ticks; assumption.
Qed.

(** The longest of the movements. *)
Definition longest (ms : list Stepper) : Z := fold_right (fun m => Z.max (duration m)) 0 ms.

Lemma moving_longest ms t : Forall ready ms ->
  areMotorsMoving (map (fun m => fst (ticks t m)) ms) = (Z.of_nat t <? longest ms).
Proof.
  induction 1 as [|m ms Hm _ IH]; cbn [areMotorsMoving existsb map longest fold_right].
  - symmetry. apply Z.ltb_ge. lia.
  - unfold areMotorsMoving in IH. rewrite IH, ready_moving by exact Hm. fold (longest ms).
    destruct (Z.ltb_spec (Z.of_nat t) (duration m)), (Z.ltb_spec (Z.of_nat t) (longest ms)),
      (Z.ltb_spec (Z.of_nat t) (Z.max (duration m) (longest ms))); cbn; lia || reflexivity.
Qed.

Lemma tick_list t ms : updateMotorsStepTimer (map (fun m => fst (ticks t m)) ms) =
    (map (fun m => fst (ticks (S t) m)) ms, map (fun m => snd (motor_tick (fst (ticks t m)))) ms).
Proof.
  unfold updateMotorsStepTimer. rewrite !map_map. f_equal; apply map_ext; intros m; cbn [ticks];
    destruct (ticks t m) as [s c]; cbn [fst]; destruct (motor_tick s); reflexivity.
Qed.

Lemma tick_made t ms :
  zip_with (fun c (b : bool) => c + (if b then 1 else 0)) (map (fun m => snd (ticks t m)) ms)
    (map (fun m => snd (motor_tick (fst (ticks t m)))) ms) = map (fun m => snd (ticks (S t) m)) ms.
Proof.
  induction ms as [|m ms IH]; [reflexivity|]. cbn [map zip_with]. rewrite IH. f_equal.
  cbn [ticks]. destruct (ticks t m) as [s c]. cbn [fst snd]. destruct (motor_tick s). reflexivity.
Qed.

Lemma wait_from fuel ms t : Forall ready ms -> Z.of_nat t <= longest ms -> longest ms - Z.of_nat t < Z.of_nat fuel ->
  wait_motors fuel None (map (fun m => fst (ticks t m)) ms) (map (fun m => snd (ticks t m)) ms) =
    Some (map (fun m => fst (ticks (Z.to_nat (longest ms)) m)) ms,
          map (fun m => snd (ticks (Z.to_nat (longest ms)) m)) ms, None).
Proof.
  intros Hr. revert t. induction fuel as [|fuel IH]; intros t Ht Hf; [lia|]. cbn [wait_motors].
  rewrite moving_longest by exact Hr. rewrite bool_decide_eq_false_2 by discriminate. cbn [negb].
  destruct (Z.ltb_spec (Z.of_nat t) (longest ms)) as [Hlt|Hge]; cbn [andb].
  - rewrite tick_list, tick_made. apply IH; lia.
  - replace t with (Z.to_nat (longest ms)) by lia. reflexivity.
Qed.

(** The loop ends for any time of an emergency stop. *)
Lemma wait_ends fuel ms t : Forall ready ms -> Z.of_nat t <= longest ms -> longest ms - Z.of_nat t < Z.of_nat fuel ->
  forall polls made, exists ms' made' polls',
    wait_motors fuel polls (map (fun m => fst (ticks t m)) ms) made = Some (ms', made', polls') /\ length ms' = length ms.
Proof.
  intros Hr. revert t. induction fuel as [|fuel IH]; intros t Ht Hf polls made; [lia|]. cbn [wait_motors].
  rewrite moving_longest by exact Hr. destruct (bool_decide (polls = Some 0%nat)); cbn [negb];
    [rewrite andb_false_r; eexists _, _, _; split; [reflexivity|apply length_map]|]. rewrite andb_true_r.
  destruct (Z.ltb_spec (Z.of_nat t) (longest ms)) as [Hlt|Hge].
  - rewrite tick_list. apply IH; lia.
  - eexists _, _, _. split; [reflexivity|apply length_map].
Qed.

Lemma longest_nonneg ms : 0 <= longest ms.
Proof. induction ms as [|m ms IH]; cbn; [lia|]. fold (longest ms). lia. Qed.

Lemma longest_bound ms m : In m ms -> duration m <= longest ms.
Proof.
  induction ms as [|x ms IH]; [intros []|]. cbn. fold (longest ms). intros [->|Hin]; [lia|]. specialize (IH Hin). lia.
Qed.

(** Every motor makes its steps and stops. *)
Lemma wait_motors_done ms fuel : Forall ready ms -> longest ms < Z.of_nat fuel ->
  exists ms', wait_motors fuel None ms (map (fun _ => 0) ms) = Some (ms', map steps_due ms, None) /\
    Forall (fun m => motorsIsMoving m = false) ms' /\ length ms' = length ms.
Proof.
  intros Hr Hf. assert (0 <= longest ms) as H0 by (clear; induction ms; cbn; [lia|]; fold (longest ms); lia).
  pose proof (wait_from fuel ms 0 Hr ltac:(lia) ltac:(lia)) as E. cbn [ticks fst snd] in E.
  rewrite map_id in E. rewrite E. eexists. split; [|split; [|apply length_map]].
  - do 3 f_equal. apply map_ext_in. intros m Hin. rewrite List.Forall_forall in Hr.
    apply ready_steps; [apply Hr, Hin|]. pose proof (longest_bound ms m Hin). lia.
  - apply List.Forall_forall. intros s Hs. apply in_map_iff in Hs. destruct Hs as (m & <- & Hin).
    rewrite List.Forall_forall in Hr. rewrite ready_moving by (apply Hr, Hin). apply Z.ltb_ge. pose proof (longest_bound ms m Hin). lia.
Qed.

(** With an emergency stop after [p] periods the loop ends after at most [p]. *)
Lemma wait_motors_stopped p : forall ms made fuel, (p < fuel)%nat ->
  exists ms' made' q, wait_motors fuel (Some p) ms made = Some (ms', made', Some q) /\ (q <= p)%nat /\ length ms' = length ms.
Proof.
  induction p as [|p IH]; intros ms made [|fuel] Hf; [lia| |lia|]; cbn [wait_motors].
  - rewrite bool_decide_eq_true_2, andb_false_r by reflexivity. eauto 6.
  - rewrite bool_decide_eq_false_2, andb_true_r by discriminate. destruct (areMotorsMoving ms); [|eauto 6].
    cbn [fmap option_fmap option_map pred]. unfold updateMotorsStepTimer.
    destruct (IH (map (fun s => fst (motor_tick s)) ms)
      (zip_with (fun c (b : bool) => c + (if b then 1 else 0)) made (map (fun s => snd (motor_tick s)) ms)) fuel ltac:(lia))
      as (ms' & made' & q & E & Hq & L). exists ms', made', q. split; [exact E|]. split; [lia|]. rewrite L. apply length_map.
Qed.

Lemma stop_moving_still ms : forall s, In s (map stop_moving ms) -> motorsIsMoving s = false.
Proof. intros s Hs. apply in_map_iff in Hs. destruct Hs as (m & <- & _). destruct m. reflexivity. Qed.

Lemma stopped_timer ms : fst (stopMotorsStepTimer ms) = map stop_moving ms /\
  snd (stopMotorsStepTimer ms) = map (fun _ => false) ms.
Proof.
  unfold stopMotorsStepTimer, updateMotorsStepTimer. cbn [fst snd]. rewrite !map_map.
  split; apply map_ext; intros []; reflexivity.
Qed.

(** ** Properties *)

(** C33. A motor that is set up for [n] steps with a delay of [delay] timer periods
    and a skipped period after every [skips] others makes exactly [n] steps, one
    pulse each, and moves for exactly as many periods as the comment in
    [motorsStepAction] says: n * delay * (1 + 1 / skips) - 1 rounded up, or
    n * delay without skips. The 32-bit counters never wrap around. *)
Theorem movement_exact skips delay n :
  0 <= skips < 4294967296 -> 1 <= delay < 4294967296 -> 1 <= n < 4294967296 ->
  let periods := if skips =? 0 then n * delay else - (- (n * delay * (skips + 1) - skips) / skips) in
  (forall t, Z.of_nat t < periods -> motorsIsMoving (fst (ticks t (armed skips delay n))) = true) /\
  (forall t, periods <= Z.of_nat t ->
     motorsIsMoving (fst (ticks t (armed skips delay n))) = false /\ snd (ticks t (armed skips delay n)) = n).
Proof.
  intros Hs Hd Hn periods.
  assert (periods = movement_ticks skips delay n) as Ep.
  { unfold periods, movement_ticks. destruct (Z.eqb_spec skips 0) as [|N]; [lia|].
    replace (- (n * delay * (skips + 1) - skips)) with (- (n * delay) + (1 - n * delay) * skips) by ring.
    rewrite Z.div_add by lia. pose proof (Z.div_mod (n * delay - 1) skips N) as D1.
    pose proof (Z.mod_pos_bound (n * delay - 1) skips ltac:(lia)) as D2.
    rewrite <- (Z.div_unique (- (n * delay)) skips (- ((n * delay - 1) / skips) - 1) (skips - 1 - (n * delay - 1) mod skips)) by lia.
    lia. }
  assert (ready (armed skips delay n)) as Hr by (right; exists skips, delay, n; split; [reflexivity|lia]).
  rewrite Ep. replace (movement_ticks skips delay n) with (duration (armed skips delay n))
    by (unfold duration, armed; cbn [motorsIsMoving motorsDelaySkips motorsStepDelay motorsNumberOfSteps]; rewrite Z.max_r by lia; reflexivity).
  split; intros t Ht.
  - rewrite ready_moving by exact Hr. apply Z.ltb_lt, Ht.
  - rewrite ready_moving by exact Hr. split; [apply Z.ltb_ge, Ht|]. apply (ready_steps _ t Hr Ht).
Qed.

(** Waiting for the motors ends in either way: without an emergency stop every
    motor makes all of its steps and stands still; with one, the wait ends by
    then, and stopping the timer leaves every motor still and every step pin
    low. *)
Theorem motors_wait ms fuel : Forall ready ms ->
  (longest ms < Z.of_nat fuel ->
   exists ms', wait_motors fuel None ms (map (fun _ => 0) ms) = Some (ms', map steps_due ms, None) /\
     Forall (fun m => motorsIsMoving m = false) ms') /\
  (forall p, (p < fuel)%nat ->
   exists ms' made q, wait_motors fuel (Some p) ms (map (fun _ => 0) ms) = Some (ms', made, Some q) /\ (q <= p)%nat /\
     areMotorsMoving (fst (stopMotorsStepTimer ms')) = false /\ Forall (fun pin => pin = false) (snd (stopMotorsStepTimer ms'))).
Proof.
  intros Hr. split.
  - intros Hf. destruct (wait_motors_done ms fuel Hr Hf) as (ms' & E & Hs & _). eauto.
  - intros p Hp. destruct (wait_motors_stopped p ms (map (fun _ => 0) ms) fuel Hp) as (ms' & made & q & E & Hq & _).
    exists ms', made, q. split; [exact E|]. split; [exact Hq|]. destruct (stopped_timer ms') as [-> ->]. split.
    + unfold areMotorsMoving. destruct (existsb _ _) eqn:Ex; [|reflexivity]. apply existsb_exists in Ex.
      destruct Ex as (s & Hin & Hm). rewrite (stop_moving_still ms' s Hin) in Hm. discriminate.
    + apply List.Forall_forall. intros b Hb. apply in_map_iff in Hb. destruct Hb as (? & <- & _). reflexivity.
Qed.

(** ** Witnesses *)

Lemma movement_exact_witness : snd (ticks 17 (armed 3 2 6)) = 6 /\ motorsIsMoving (fst (ticks 14 (armed 3 2 6))) = true.
Proof.
  destruct (movement_exact 3 2 6) as [Hlt Hge].
  - lia.
  - lia.
  - lia.
  - split; [apply Hge; vm_compute; discriminate|apply Hlt; vm_compute; reflexivity].
Defined.

Lemma motors_wait_witness :
  exists ms', wait_motors 20 None [armed 3 2 6; mkStepper 0 0 0 0 0 false] [0; 0] = Some (ms', [6; 0], None) /\
    Forall (fun m => motorsIsMoving m = false) ms'.
Proof.
  destruct (motors_wait [armed 3 2 6; mkStepper 0 0 0 0 0 false] 20) as [Hdone _].
  - apply List.Forall_cons; [right; exists 3, 2, 6; split; [reflexivity|lia]|].
    apply List.Forall_cons; [left; reflexivity|apply List.Forall_nil].
  - apply Hdone. vm_compute. reflexivity.
Defined.
