(* ===== verification/Bed.v ===== *)
(** * Vectors, the bed and its compensation (vector.cpp, motors.cpp)

    The vector operations; the planes through the calibrated corners of the bed and
    the height adjustment at a position; the skew adjustment at a height; and the
    tiers of the printable region with their bounds. *)

From S2P Require Import Prelude Float32 Common.

#[local] Open Scope fw_scope.

(** ** Vectors *)

Record Vector := mkVector { vx : f32; vy : f32; vz : f32; ve : f32 }.

Definition initialize (x y z e : f32) : Vector := mkVector x y z e.

(** The subscript operator: any index but 0, 1 and 2 is the last component. *)
Definition component (v : Vector) (index : Z) : f32 :=
  if index =? 0 then vx v else if index =? 1 then vy v else if index =? 2 then vz v else ve v.

(** [pow(c, 2)] is compiled to a product. *)
Definition getLength (v : Vector) : f32 :=
  let square c := c ⊗ c in
  fsqrt (f_zero ⊕ square (ve v) ⊕ square (vz v) ⊕ square (vy v) ⊕ square (vx v)).

Definition map_components (f : f32 -> f32) (v : Vector) : Vector := mkVector (f (vx v)) (f (vy v)) (f (vz v)) (f (ve v)).
Definition zip_components (f : f32 -> f32 -> f32) (v w : Vector) : Vector :=
  mkVector (f (vx v) (vx w)) (f (vy v) (vy w)) (f (vz v) (vz w)) (f (ve v) (ve w)).

Definition normalize (v : Vector) : Vector := let length := getLength v in map_components (fun c => c ⊘ length) v.
Definition vadd (v w : Vector) : Vector := zip_components fadd v w.
Definition vsub (v w : Vector) : Vector := zip_components fsub v w.
Definition vmul (v : Vector) (multiplier : f32) : Vector := map_components (fun c => c ⊗ multiplier) v.
Definition vdiv (v : Vector) (divisor : f32) : Vector := map_components (fun c => c ⊘ divisor) v.

(** ** Planes *)

Definition calculatePlaneNormalVector (v1 v2 v3 : Vector) : Vector :=
  let a := vsub v2 v1 in
  let b := vsub v3 v1 in
  mkVector (vy a ⊗ vz b ⊖ vy b ⊗ vz a) (vz a ⊗ vx b ⊖ vz b ⊗ vx a) (vx a ⊗ vy b ⊖ vx b ⊗ vy a) f_zero.

Definition generatePlaneEquation (v1 v2 v3 : Vector) : Vector :=
  let n := calculatePlaneNormalVector v1 v2 v3 in
  mkVector (vx n) (vy n) (vz n) (fneg (vx n ⊗ vx v1 ⊕ vy n ⊗ vy v1 ⊕ vz n ⊗ vz v1)).

(** A float as a condition. *)
Definition f_true (x : f32) : bool := negb (feq x f_zero).

Definition getZFromXYAndPlane (point planeABC : Vector) : f32 :=
  if f_true (vz planeABC)
  then (vx planeABC ⊗ vx point ⊕ vy planeABC ⊗ vy point ⊕ ve planeABC) ⊘ fneg (vz planeABC)
  else f_zero.

Definition sign (p1 p2 p3 : Vector) : f32 :=
  (vx p1 ⊖ vx p3) ⊗ (vy p2 ⊖ vy p3) ⊖ (vx p2 ⊖ vx p3) ⊗ (vy p1 ⊖ vy p3).

Definition isPointInTriangle (pt v1 v2 v3 : Vector) : bool :=
  let margin := f_of_dec 1 100 in
  let vector2 := vadd v1 (vmul (normalize (vsub (vadd (vsub v1 v2) v1) v3)) margin) in
  let vector3 := vadd v2 (vmul (normalize (vsub (vadd (vsub v2 v1) v2) v3)) margin) in
  let vector4 := vadd v3 (vmul (normalize (vsub (vadd (vsub v3 v1) v3) v2)) margin) in
  let flag := flt (sign pt vector2 vector3) f_zero in
  let flag2 := flt (sign pt vector3 vector4) f_zero in
  let flag3 := flt (sign pt vector4 vector2) f_zero in
  Bool.eqb flag flag2 && Bool.eqb flag2 flag3.

(** ** The bed *)

Definition BED_CENTER_X : f32 := f_of_Z 54.
Definition BED_CENTER_Y : f32 := f_of_Z 50.
Definition BED_CALIBRATION_POSITIONS_DISTANCE_FROM_CENTER : f32 := f_of_Z 45.
Definition BED_LOW_MAX_X : f32 := f_of_Z 106.
Definition BED_LOW_MIN_X : f32 := f_of_Z (-2).
Definition BED_LOW_MAX_Y : f32 := f_of_Z 105.
Definition BED_LOW_MIN_Y : f32 := f_of_Z (-2).
Definition BED_LOW_MAX_Z : f32 := f_of_Z 5.
Definition BED_LOW_MIN_Z : f32 := f_of_Z 0.
Definition BED_MEDIUM_MAX_X : f32 := f_of_Z 106.
Definition BED_MEDIUM_MIN_X : f32 := f_of_Z (-2).
Definition BED_MEDIUM_MAX_Y : f32 := f_of_Z 105.
Definition BED_MEDIUM_MIN_Y : f32 := f_of_Z (-9).
Definition BED_MEDIUM_MAX_Z : f32 := f_of_dec 735 10.
Definition BED_HIGH_MAX_X : f32 := f_of_Z 97.
Definition BED_HIGH_MIN_X : f32 := f_of_Z 7.
Definition BED_HIGH_MAX_Y : f32 := f_of_Z 85.
Definition BED_HIGH_MIN_Y : f32 := f_of_Z 9.
Definition BED_HIGH_MAX_Z : f32 := f_of_Z 112.

Record Bed := mkBed {
  backRightVector : Vector; backLeftVector : Vector; frontLeftVector : Vector; frontRightVector : Vector;
  centerVector : Vector;
  backPlane : Vector; leftPlane : Vector; rightPlane : Vector; frontPlane : Vector;
  externalBedHeight : f32; skewX : f32; skewY : f32
}.

Definition getHeightAdjustmentRequired (b : Bed) (x y : f32) : f32 :=
  let point := initialize x y f_zero f_zero in
  let z plane := getZFromXYAndPlane point (plane b) in
  let two := f_of_Z 2 in
  let left := fle x (vx (frontLeftVector b)) in
  let right := fle (vx (frontRightVector b)) x in
  let back := fle (vy (backRightVector b)) y in
  let front := fle y (vy (frontLeftVector b)) in
  if left && back then (z backPlane ⊕ z leftPlane) ⊘ two
  else if left && front then (z frontPlane ⊕ z leftPlane) ⊘ two
  else if right && front then (z frontPlane ⊕ z rightPlane) ⊘ two
  else if right && back then (z backPlane ⊕ z rightPlane) ⊘ two
  else if left then z leftPlane
  else if right then z rightPlane
  else if back then z backPlane
  else if front then z frontPlane
  else if isPointInTriangle point (centerVector b) (frontLeftVector b) (backLeftVector b) then z leftPlane
  else if isPointInTriangle point (centerVector b) (frontRightVector b) (backRightVector b) then z rightPlane
  else if isPointInTriangle point (centerVector b) (backLeftVector b) (backRightVector b) then z backPlane
  else z frontPlane.

Inductive Axes := X | Y | Z_ | E | F.

#[global] Instance Axes_eq_dec : EqDecision Axes.
Proof. solve_decision. Defined.

Definition getSkewAdjustmentRequired (b : Bed) (axis : Axes) (height : f32) : f32 :=
  let span := BED_HIGH_MAX_Z ⊖ externalBedHeight b ⊖ BED_LOW_MIN_Z in
  if f_true span then height ⊘ span ⊗ fneg (if decide (axis = X) then skewX b else skewY b) else f_zero.

(** ** Tiers *)

Inductive Tiers := LOW_TIER | MEDIUM_TIER | HIGH_TIER.

Definition tier_index (t : Tiers) : Z := match t with LOW_TIER => 0 | MEDIUM_TIER => 1 | HIGH_TIER => 2 end.

(** [expandPrintableRegion] is read from the EEPROM. *)
Definition getTierAtHeight (b : Bed) (expandPrintableRegion : bool) (height : f32) : Tiers :=
  if flt height BED_LOW_MAX_Z && negb expandPrintableRegion then LOW_TIER
  else if flt (height ⊕ externalBedHeight b) BED_MEDIUM_MAX_Z then MEDIUM_TIER
  else HIGH_TIER.

(** The bounds of X and Y in a tier. *)
Definition tier_min (t : Tiers) (axis : Axes) : f32 :=
  match t, axis with
  | LOW_TIER, X => BED_LOW_MIN_X | LOW_TIER, _ => BED_LOW_MIN_Y
  | MEDIUM_TIER, X => BED_MEDIUM_MIN_X | MEDIUM_TIER, _ => BED_MEDIUM_MIN_Y
  | HIGH_TIER, X => BED_HIGH_MIN_X | HIGH_TIER, _ => BED_HIGH_MIN_Y
  end.
Definition tier_max (t : Tiers) (axis : Axes) : f32 :=
  match t, axis with
  | LOW_TIER, X => BED_LOW_MAX_X | LOW_TIER, _ => BED_LOW_MAX_Y
  | MEDIUM_TIER, X => BED_MEDIUM_MAX_X | MEDIUM_TIER, _ => BED_MEDIUM_MAX_Y
  | HIGH_TIER, X => BED_HIGH_MAX_X | HIGH_TIER, _ => BED_HIGH_MAX_Y
  end.

(** The part of [move] that enforces the boundaries: the loop over the tiers. *)
Definition bounded_in (b : Bed) (t : Tiers) (z x y : f32) : f32 * f32 :=
  (getValueInRange x (tier_min t X ⊖ getSkewAdjustmentRequired b X z) (tier_max t X ⊖ getSkewAdjustmentRequired b X z),
   getValueInRange y (tier_min t Y ⊖ getSkewAdjustmentRequired b Y z) (tier_max t Y ⊖ getSkewAdjustmentRequired b Y z)).

Definition potential_z (b : Bed) (t : Tiers) (x y z : f32) : f32 :=
  z ⊕ getHeightAdjustmentRequired b (getValueInRange x (tier_min t X) (tier_max t X))
                                    (getValueInRange y (tier_min t Y) (tier_max t Y)).

Fixpoint enforce_loop (fuel : nat) (b : Bed) (expand : bool) (t : Tiers) (x y z : f32) : option (f32 * f32) :=
  match fuel with
  | O => None
  | S fuel =>
      let pz := potential_z b t x y z in
      if tier_index t >=? tier_index (getTierAtHeight b expand pz) then Some (bounded_in b t pz x y)
      else enforce_loop fuel b expand (match t with LOW_TIER => MEDIUM_TIER | _ => HIGH_TIER end) x y z
  end.
Definition enforce_boundaries (b : Bed) (expand : bool) (x y z : f32) : option (f32 * f32) :=
  enforce_loop 3 b expand LOW_TIER x y z.

(** The bed whose corners have the given heights, as [initialize] and
    [updateBedChanges] set it up. *)
Definition bed_with (backRight backLeft frontLeft frontRight external skx sky : f32) : Bed :=
  let d := BED_CALIBRATION_POSITIONS_DISTANCE_FROM_CENTER in
  let br := initialize (BED_CENTER_X ⊕ d) (BED_CENTER_Y ⊕ d) backRight f_zero in
  let bl := initialize (BED_CENTER_X ⊖ d) (BED_CENTER_Y ⊕ d) backLeft f_zero in
  let fl := initialize (BED_CENTER_X ⊖ d) (BED_CENTER_Y ⊖ d) frontLeft f_zero in
  let fr := initialize (BED_CENTER_X ⊕ d) (BED_CENTER_Y ⊖ d) frontRight f_zero in
  let c := initialize BED_CENTER_X BED_CENTER_Y f_zero f_zero in
  mkBed br bl fl fr c (generatePlaneEquation bl br c) (generatePlaneEquation bl fl c)
    (generatePlaneEquation br fr c) (generatePlaneEquation fl fr c) external skx sky.

(** ** Zeros *)

Definition is_zero (x : f32) : bool := match x with S754_zero _ => true | _ => false end.
Definition is_fin (x : f32) : bool := match x with S754_zero _ | S754_finite _ _ _ => true | _ => false end.

Lemma zero_mul_fin x y : is_zero x = true -> is_fin y = true -> is_zero (x ⊗ y) = true.
Proof. destruct x, y; try discriminate; reflexivity. Qed.
Lemma fin_mul_zero x y : is_fin x = true -> is_zero y = true -> is_zero (x ⊗ y) = true.
Proof. destruct x, y; try discriminate; reflexivity. Qed.
Lemma zero_add_zero x y : is_zero x = true -> is_zero y = true -> is_zero (x ⊕ y) = true.
Proof. destruct x as [[]| | |], y as [[]| | |]; try discriminate; reflexivity. Qed.
Lemma zero_div_fin x y : is_zero x = true -> is_zero y = false -> is_fin y = true -> is_zero (x ⊘ y) = true.
Proof. destruct x, y; try discriminate; reflexivity. Qed.
Lemma sub_zero x y : is_fin x = true -> is_zero x = false -> is_zero y = true -> x ⊖ y = x.
Proof. destruct x, y; try discriminate; reflexivity. Qed.
Lemma fneg_zero x : is_zero (fneg x) = is_zero x /\ is_fin (fneg x) = is_fin x.
Proof. destruct x; split; reflexivity. Qed.

(** A horizontal plane through the origin. *)
Definition horizontal (p : Vector) : bool :=
  is_zero (vx p) && is_zero (vy p) && is_zero (ve p) && negb (is_zero (vz p)) && is_fin (vz p).

Lemma horizontal_z p x y : horizontal p = true -> is_fin x = true -> is_fin y = true ->
  is_zero (getZFromXYAndPlane (initialize x y f_zero f_zero) p) = true.
Proof.
  intros Hp Hx Hy. unfold horizontal in Hp. bool_hyps. unfold getZFromXYAndPlane. destruct (f_true _); [|reflexivity].
  destruct (fneg_zero (vz p)) as [En Ef]. apply zero_div_fin; [|congruence|congruence].
  repeat apply zero_add_zero; try assumption; apply zero_mul_fin; assumption.
Qed.

Lemma half_zero x y : is_zero x = true -> is_zero y = true -> is_zero ((x ⊕ y) ⊘ f_of_Z 2) = true.
Proof. intros Hx Hy. apply zero_div_fin; [apply zero_add_zero; assumption|reflexivity|reflexivity]. Qed.

(** ** Boundaries *)

(** The tier that the loop settles on. *)
Lemma enforce_settles b expand x y z : exists t,
  let pz := potential_z b t x y z in
  tier_index (getTierAtHeight b expand pz) <= tier_index t /\ enforce_boundaries b expand x y z = Some (bounded_in b t pz x y).
Proof.
  unfold enforce_boundaries. cbn [enforce_loop]. rewrite !Z.geb_leb.
  destruct (Z.leb_spec (tier_index (getTierAtHeight b expand (potential_z b LOW_TIER x y z))) (tier_index LOW_TIER));
    [exists LOW_TIER; auto|].
  destruct (Z.leb_spec (tier_index (getTierAtHeight b expand (potential_z b MEDIUM_TIER x y z))) (tier_index MEDIUM_TIER));
    [exists MEDIUM_TIER; auto|].
  exists HIGH_TIER. assert (forall t, tier_index t <= 2) as Ht by (intros []; cbn; lia).
  change (tier_index HIGH_TIER) with 2. rewrite (proj2 (Z.leb_le _ 2)) by apply Ht. auto.
Qed.

Lemma clamped v lo hi : is_num v = true -> fle lo hi = true ->
  fle lo (getValueInRange v lo hi) = true /\ fle (getValueInRange v lo hi) hi = true.
Proof. intros Hv Hl. destruct (getValueInRange_bounds v lo hi Hv Hl) as (? & ? & _). auto. Qed.

Lemma no_skew b axis z : is_zero (skewX b) = true -> is_zero (skewY b) = true ->
  is_fin (z ⊘ (BED_HIGH_MAX_Z ⊖ externalBedHeight b ⊖ BED_LOW_MIN_Z)) = true ->
  is_zero (getSkewAdjustmentRequired b axis z) = true.
Proof.
  intros Hx Hy Hz. unfold getSkewAdjustmentRequired. destruct (f_true _); [|reflexivity].
  apply fin_mul_zero; [exact Hz|]. destruct (decide _); rewrite (proj1 (fneg_zero _)); assumption.
Qed.

(** ** Properties *)


(** Without skew, and with a height that the skew computation can divide, the
    enforced position lies within the bounds of the tier themselves. *)
Theorem boundaries_without_skew b expand x y z :
  is_num x = true -> is_num y = true -> is_zero (skewX b) = true -> is_zero (skewY b) = true ->
  (forall t, is_fin (potential_z b t x y z ⊘ (BED_HIGH_MAX_Z ⊖ externalBedHeight b ⊖ BED_LOW_MIN_Z)) = true) ->
  exists t x' y', enforce_boundaries b expand x y z = Some (x', y') /\
    tier_index (getTierAtHeight b expand (potential_z b t x y z)) <= tier_index t /\
    fle (tier_min t X) x' = true /\ fle x' (tier_max t X) = true /\
    fle (tier_min t Y) y' = true /\ fle y' (tier_max t Y) = true.
Proof.
  intros Hx Hy Hsx Hsy Hz. destruct (enforce_settles b expand x y z) as (t & Ht & E).
  exists t. unfold bounded_in in E.
  rewrite !(sub_zero (tier_min t _)), !(sub_zero (tier_max t _)) in E
    by (try (apply no_skew; [exact Hsx|exact Hsy|apply Hz]); destruct t; reflexivity).
  eexists _, _. split; [exact E|]. split; [exact Ht|].
  destruct (clamped x (tier_min t X) (tier_max t X) Hx ltac:(destruct t; reflexivity)) as [? ?].
  destruct (clamped y (tier_min t Y) (tier_max t Y) Hy ltac:(destruct t; reflexivity)) as [? ?]. auto.
Qed.

(** A flat bed needs no height adjustment: when the four calibrated corners
    have height zero, the adjustment is zero at every position, inside and outside
    the calibrated square. *)
Theorem flat_bed_no_adjustment external skx sky x y :
  is_fin x = true -> is_fin y = true ->
  is_zero (getHeightAdjustmentRequired (bed_with f_zero f_zero f_zero f_zero external skx sky) x y) = true.
Proof.
  intros Hx Hy. set (b := bed_with _ _ _ _ _ _ _).
  assert (horizontal (backPlane b) = true /\ horizontal (leftPlane b) = true /\
          horizontal (rightPlane b) = true /\ horizontal (frontPlane b) = true) as (H1 & H2 & H3 & H4)
    by (vm_compute; auto).
  pose proof (horizontal_z _ x y H1 Hx Hy). pose proof (horizontal_z _ x y H2 Hx Hy).
  pose proof (horizontal_z _ x y H3 Hx Hy). pose proof (horizontal_z _ x y H4 Hx Hy).
  unfold getHeightAdjustmentRequired. repeat case_bool; try assumption; apply half_zero; assumption.
Qed.

(** ** Witnesses *)

Definition example_bed : Bed := bed_with f_zero f_zero f_zero f_zero f_zero f_zero f_zero.


Lemma boundaries_without_skew_witness :
  exists t x' y', enforce_boundaries example_bed false (f_of_Z 200) (f_of_Z 50) (f_of_Z 1) = Some (x', y') /\
    tier_index (getTierAtHeight example_bed false (potential_z example_bed t (f_of_Z 200) (f_of_Z 50) (f_of_Z 1))) <= tier_index t /\
    fle (tier_min t X) x' = true /\ fle x' (tier_max t X) = true /\
    fle (tier_min t Y) y' = true /\ fle y' (tier_max t Y) = true.
Proof.
  apply (boundaries_without_skew example_bed false (f_of_Z 200) (f_of_Z 50) (f_of_Z 1)); try reflexivity.
  intros t. destruct t; vm_compute; reflexivity.
Defined.

Lemma flat_bed_no_adjustment_witness :
  is_zero (getHeightAdjustmentRequired example_bed (f_of_Z 60) (f_of_Z 20)) = true.
Proof.
  apply (flat_bed_no_adjustment f_zero f_zero f_zero (f_of_Z 60) (f_of_Z 20)).
  - reflexivity.
  - reflexivity.
Defined.
