(* ===== verification/Motors.v ===== *)
(** * Moving the motors (motors.cpp)

    The state of the motors and the movements: the target of a command, its
    boundaries, the compensation of backlash, bed and skew, the segments of a
    movement, and the steps that the step timer makes. [polls] tells after how many
    more periods of the step timer an emergency stop occurs, if one does, and
    [travelled] counts the steps that were made, with their direction. *)

From S2P Require Import Prelude Float32 Common Gcode Nvm Eeprom Stepper Bed.

#[local] Open Scope fw_scope.

(** ** Data *)

(** One value per axis. *)
Record PerAxis (A : Type) := mkPer { atX : A; atY : A; atZ : A; atE : A; atF : A }.
Arguments mkPer {A}.
Arguments atX {A}.
Arguments atY {A}.
Arguments atZ {A}.
Arguments atE {A}.
Arguments atF {A}.

Definition get {A} (a : Axes) (p : PerAxis A) : A :=
  match a with X => atX p | Y => atY p | Z_ => atZ p | E => atE p | F => atF p end.
Definition put {A} (a : Axes) (v : A) (p : PerAxis A) : PerAxis A :=
  let '(mkPer x y z e f) := p in
  match a with X => mkPer v y z e f | Y => mkPer x v z e f | Z_ => mkPer x y v e f | E => mkPer x y z v f | F => mkPer x y z e v end.
Definition all {A} (v : A) : PerAxis A := mkPer v v v v v.

(** A copy of the entries of the four motors. *)
Definition copy_motors {A} (src dst : PerAxis A) : PerAxis A := mkPer (atX src) (atY src) (atZ src) (atE src) (atF dst).

Inductive Modes := RELATIVE | ABSOLUTE.
Inductive Units := MILLIMETERS | INCHES.
Inductive BacklashDirection := NONE | POSITIVE | NEGATIVE.

#[global] Instance Modes_eq_dec : EqDecision Modes.
Proof. solve_decision. Defined.
#[global] Instance Units_eq_dec : EqDecision Units.
Proof. solve_decision. Defined.
#[global] Instance BacklashDirection_eq_dec : EqDecision BacklashDirection.
Proof. solve_decision. Defined.

Record Motors := mkMotors {
  currentValues : PerAxis f32;
  currentMotorDirections : PerAxis bool;
  currentStateOfValues : PerAxis bool;
  mode : Modes;
  extruderMode : Modes;
  units : Units;
  startValues : PerAxis f32;
  bed : Bed;
  bedHeightOffset : f32;
  steppers : PerAxis Stepper;
  remainingSteps : PerAxis f32;
  direction_pins : PerAxis bool;
  motors_on : bool;
  vrefs : PerAxis Z;
  save_enabled : bool;
  eeprom : list Z;
  polls : option nat;
  travelled : PerAxis Z
}.

Definition set_currentValues (v : PerAxis f32) (m : Motors) : Motors :=
  let '(mkMotors _ x1 x2 x3 x4 x5 x6 x7 x8 x9 x10 x11 x12 x13 x14 x15 x16 x17) := m in mkMotors v x1 x2 x3 x4 x5 x6 x7 x8 x9 x10 x11 x12 x13 x14 x15 x16 x17.
Definition set_currentMotorDirections (v : PerAxis bool) (m : Motors) : Motors :=
  let '(mkMotors x0 _ x2 x3 x4 x5 x6 x7 x8 x9 x10 x11 x12 x13 x14 x15 x16 x17) := m in mkMotors x0 v x2 x3 x4 x5 x6 x7 x8 x9 x10 x11 x12 x13 x14 x15 x16 x17.
Definition set_currentStateOfValues (v : PerAxis bool) (m : Motors) : Motors :=
  let '(mkMotors x0 x1 _ x3 x4 x5 x6 x7 x8 x9 x10 x11 x12 x13 x14 x15 x16 x17) := m in mkMotors x0 x1 v x3 x4 x5 x6 x7 x8 x9 x10 x11 x12 x13 x14 x15 x16 x17.
Definition set_mode (v : Modes) (m : Motors) : Motors :=
  let '(mkMotors x0 x1 x2 _ x4 x5 x6 x7 x8 x9 x10 x11 x12 x13 x14 x15 x16 x17) := m in mkMotors x0 x1 x2 v x4 x5 x6 x7 x8 x9 x10 x11 x12 x13 x14 x15 x16 x17.
Definition set_extruderMode (v : Modes) (m : Motors) : Motors :=
  let '(mkMotors x0 x1 x2 x3 _ x5 x6 x7 x8 x9 x10 x11 x12 x13 x14 x15 x16 x17) := m in mkMotors x0 x1 x2 x3 v x5 x6 x7 x8 x9 x10 x11 x12 x13 x14 x15 x16 x17.
Definition set_units (v : Units) (m : Motors) : Motors :=
  let '(mkMotors x0 x1 x2 x3 x4 _ x6 x7 x8 x9 x10 x11 x12 x13 x14 x15 x16 x17) := m in mkMotors x0 x1 x2 x3 x4 v x6 x7 x8 x9 x10 x11 x12 x13 x14 x15 x16 x17.
Definition set_startValues (v : PerAxis f32) (m : Motors) : Motors :=
  let '(mkMotors x0 x1 x2 x3 x4 x5 _ x7 x8 x9 x10 x11 x12 x13 x14 x15 x16 x17) := m in mkMotors x0 x1 x2 x3 x4 x5 v x7 x8 x9 x10 x11 x12 x13 x14 x15 x16 x17.
Definition set_bed (v : Bed) (m : Motors) : Motors :=
  let '(mkMotors x0 x1 x2 x3 x4 x5 x6 _ x8 x9 x10 x11 x12 x13 x14 x15 x16 x17) := m in mkMotors x0 x1 x2 x3 x4 x5 x6 v x8 x9 x10 x11 x12 x13 x14 x15 x16 x17.
Definition set_bedHeightOffset (v : f32) (m : Motors) : Motors :=
  let '(mkMotors x0 x1 x2 x3 x4 x5 x6 x7 _ x9 x10 x11 x12 x13 x14 x15 x16 x17) := m in mkMotors x0 x1 x2 x3 x4 x5 x6 x7 v x9 x10 x11 x12 x13 x14 x15 x16 x17.
Definition set_steppers (v : PerAxis Stepper) (m : Motors) : Motors :=
  let '(mkMotors x0 x1 x2 x3 x4 x5 x6 x7 x8 _ x10 x11 x12 x13 x14 x15 x16 x17) := m in mkMotors x0 x1 x2 x3 x4 x5 x6 x7 x8 v x10 x11 x12 x13 x14 x15 x16 x17.
Definition set_remainingSteps (v : PerAxis f32) (m : Motors) : Motors :=
  let '(mkMotors x0 x1 x2 x3 x4 x5 x6 x7 x8 x9 _ x11 x12 x13 x14 x15 x16 x17) := m in mkMotors x0 x1 x2 x3 x4 x5 x6 x7 x8 x9 v x11 x12 x13 x14 x15 x16 x17.
Definition set_direction_pins (v : PerAxis bool) (m : Motors) : Motors :=
  let '(mkMotors x0 x1 x2 x3 x4 x5 x6 x7 x8 x9 x10 _ x12 x13 x14 x15 x16 x17) := m in mkMotors x0 x1 x2 x3 x4 x5 x6 x7 x8 x9 x10 v x12 x13 x14 x15 x16 x17.
Definition set_motors_on (v : bool) (m : Motors) : Motors :=
  let '(mkMotors x0 x1 x2 x3 x4 x5 x6 x7 x8 x9 x10 x11 _ x13 x14 x15 x16 x17) := m in mkMotors x0 x1 x2 x3 x4 x5 x6 x7 x8 x9 x10 x11 v x13 x14 x15 x16 x17.
Definition set_vrefs (v : PerAxis Z) (m : Motors) : Motors :=
  let '(mkMotors x0 x1 x2 x3 x4 x5 x6 x7 x8 x9 x10 x11 x12 _ x14 x15 x16 x17) := m in mkMotors x0 x1 x2 x3 x4 x5 x6 x7 x8 x9 x10 x11 x12 v x14 x15 x16 x17.
Definition set_save_enabled (v : bool) (m : Motors) : Motors :=
  let '(mkMotors x0 x1 x2 x3 x4 x5 x6 x7 x8 x9 x10 x11 x12 x13 _ x15 x16 x17) := m in mkMotors x0 x1 x2 x3 x4 x5 x6 x7 x8 x9 x10 x11 x12 x13 v x15 x16 x17.
Definition set_eeprom (v : list Z) (m : Motors) : Motors :=
  let '(mkMotors x0 x1 x2 x3 x4 x5 x6 x7 x8 x9 x10 x11 x12 x13 x14 _ x16 x17) := m in mkMotors x0 x1 x2 x3 x4 x5 x6 x7 x8 x9 x10 x11 x12 x13 x14 v x16 x17.
Definition set_polls (v : option nat) (m : Motors) : Motors :=
  let '(mkMotors x0 x1 x2 x3 x4 x5 x6 x7 x8 x9 x10 x11 x12 x13 x14 x15 _ x17) := m in mkMotors x0 x1 x2 x3 x4 x5 x6 x7 x8 x9 x10 x11 x12 x13 x14 x15 v x17.
Definition set_travelled (v : PerAxis Z) (m : Motors) : Motors :=
  let '(mkMotors x0 x1 x2 x3 x4 x5 x6 x7 x8 x9 x10 x11 x12 x13 x14 x15 x16 _) := m in mkMotors x0 x1 x2 x3 x4 x5 x6 x7 x8 x9 x10 x11 x12 x13 x14 x15 x16 v.

Definition emergency (m : Motors) : bool := bool_decide (polls m = Some 0%nat).

(** ** Constants *)

(** A decimal literal, correctly rounded. *)
Definition f_lit (p q : positive) : f32 := SFdiv 24 128 (S754_finite false p 0) (S754_finite false q 0).

(** [round]: to the nearest integer, halves away from zero. *)
Definition f_round (x : f32) : option Z :=
  match x with
  | S754_zero _ => Some 0
  | S754_finite s m e =>
      Some (cond_Zopp s (if 0 <=? e then Z.pos m * 2 ^ e else (2 * Z.pos m + 2 ^ (- e)) / (2 * 2 ^ (- e))))
  | _ => None
  end.

Definition SEGMENT_LENGTH : f32 := f_of_Z 2.
Definition MICROSTEPS_PER_STEP : f32 := f_of_Z 8.
Definition MOTORS_STEP_TIMER_PERIOD : f32 := f_of_Z 1024.
Definition MOTORS_VREF_TIMER_PERIOD : f32 := f_of_Z 0x27F.
Definition MICROCONTROLLER_VOLTAGE : f32 := f_lit 33 10.
Definition MOTORS_CURRENT_SENSE_RESISTANCE : f32 := f_lit 1 10.
Definition MOTORS_CURRENT_TO_VOLTAGE_SCALAR : f32 := f_of_Z 5 ⊗ MOTORS_CURRENT_SENSE_RESISTANCE.
Definition INCHES_TO_MILLIMETERS_SCALAR : f32 := f_lit 254 10.
Definition UINT32_MAX_f : f32 := f_of_Z 4294967295.
Definition sysclk_cpu_hz : Z := 24000000.

Definition NO_TASK : Z := 0.
Definition BACKLASH_TASK : Z := 1.
Definition BED_LEVELING_AND_SKEW_TASK : Z := Z.shiftl 1 1.
Definition HANDLE_RECEIVED_COMMAND_TASK : Z := Z.shiftl 1 2.

(** The current of a motor, in amperes, when it stands still and when it moves. *)
Definition current_idle (i : Axes) : f32 :=
  match i with
  | X | Y => f_lit 692018779 1000000000 | Z_ => f_lit 196244131 1000000000
  | _ => f_lit 299530516 1000000000
  end.
Definition current_active (i : Axes) : f32 :=
  match i with
  | X => f_lit 723004695 1000000000 | Y => f_lit 82629108 100000000 | _ => f_lit 650704225 1000000000
  end.
Definition vref_of (current : f32) : option Z :=
  f_round (current ⊗ MOTORS_CURRENT_TO_VOLTAGE_SCALAR ⊘ MICROCONTROLLER_VOLTAGE ⊗ MOTORS_VREF_TIMER_PERIOD).

(** The level of a direction pin for a movement to a lower or a higher value. *)
Definition direction_level (i : Axes) (lower : bool) : bool :=
  match i with X => lower | Y => negb lower | Z_ => negb lower | _ => lower end.

(** The settings of a motor. *)
Definition steps_per_mm_region (i : Axes) : Z * Z :=
  match i with
  | X => EEPROM_X_MOTOR_STEPS_PER_MM | Y => EEPROM_Y_MOTOR_STEPS_PER_MM | Z_ => EEPROM_Z_MOTOR_STEPS_PER_MM
  | _ => EEPROM_E_MOTOR_STEPS_PER_MM
  end.
Definition speed_limit_region (i : Axes) (lower : bool) : Z * Z :=
  match i with
  | X => EEPROM_SPEED_LIMIT_X | Y => EEPROM_SPEED_LIMIT_Y | Z_ => EEPROM_SPEED_LIMIT_Z
  | _ => if lower then EEPROM_SPEED_LIMIT_E_NEGATIVE else EEPROM_SPEED_LIMIT_E_POSITIVE
  end.
Definition EEPROM_SPEED_LIMIT_X_MAX : f32 := f_of_Z 4800.
Definition EEPROM_SPEED_LIMIT_Z_MAX : f32 := f_of_Z 60.
Definition max_feed_rate (i : Axes) (lower : bool) : f32 :=
  match i with
  | X | Y => f_of_Z 4800 | Z_ => f_of_Z 60 | _ => if lower then f_of_Z 720 else f_of_Z 600
  end.
Definition min_feed_rate (i : Axes) : f32 :=
  match i with X | Y => f_of_Z 120 | Z_ => f_of_Z 30 | _ => f_of_Z 60 end.

(** ** Small operations *)

Definition get_m {A} (f : Motors -> A) : M Motors A := gets f.

(** A change of the values with saving disabled. *)
Definition unsaved (f : Motors -> Motors) : M Motors unit :=
  _ ← modify (set_save_enabled false);
  _ ← modify f;
  modify (set_save_enabled true).

Definition turnOn : M Motors unit := modify (set_motors_on true).
Definition turnOff : M Motors unit := modify (set_motors_on false).
Definition isOn (m : Motors) : bool := motors_on m.

Definition write_vref (i : Axes) (v : option Z) : M Motors unit :=
  v ← of_option v; modify (fun m => set_vrefs (put i v (vrefs m)) m).

Definition motor_list (p : PerAxis Stepper) : list Stepper := [atX p; atY p; atZ p; atE p].
Definition of_motor_list (l : list Stepper) (p : PerAxis Stepper) : PerAxis Stepper :=
  match l with [x; y; z; e] => mkPer x y z e (atF p) | _ => p end.

(** [stopMotorsStepTimer] on the state, and [reset]. *)
Definition stop_timer : M Motors unit :=
  modify (fun m => set_steppers (of_motor_list (fst (stopMotorsStepTimer (motor_list (steppers m)))) (steppers m)) m).
Definition reset : M Motors unit := _ ← stop_timer; turnOff.

Definition height_adjustment (x y : f32) : M Motors f32 := get_m (fun m => getHeightAdjustmentRequired (bed m) x y).
Definition skew_adjustment (axis : Axes) (height : f32) : M Motors f32 := get_m (fun m => getSkewAdjustmentRequired (bed m) axis height).

(** ** Speed *)

Definition getMovementsNumberOfCycles (steps : Z) (stepsPerMm feedRate : f32) : f32 :=
  fmax (f_of_Z steps ⊘ stepsPerMm ⊘ MICROSTEPS_PER_STEP ⊘ feedRate ⊗ f_of_Z 60 ⊗ f_of_Z sysclk_cpu_hz)
       (f_of_Z steps ⊗ MOTORS_STEP_TIMER_PERIOD).

(** The delay and the skips for a number of steps; a conversion that overflows is
    undefined. *)
Definition delay_and_skips (steps : Z) (cycles : f32) : option (Z * Z) :=
  delay ← f_to_u32 (getValueInRange (cycles ⊘ MOTORS_STEP_TIMER_PERIOD ⊘ f_of_Z steps) f_one UINT32_MAX_f);
  let delay :=
    if flt (f_ceil (f_of_Z steps ⊗ f_of_Z delay ⊗ f_of_Z 2 ⊖ f_one) ⊗ MOTORS_STEP_TIMER_PERIOD) cycles
    then u32 (delay + 1) else delay in
  let denominator := cycles ⊘ MOTORS_STEP_TIMER_PERIOD ⊖ (f_of_Z steps ⊗ f_of_Z delay ⊖ f_one) in
  skips ← (if f_true denominator
           then f_to_u32 (getValueInRange (f_of_Z steps ⊗ f_of_Z delay ⊘ denominator) f_zero UINT32_MAX_f)
           else Some 0);
  Some (delay, skips).

Definition setMotorDelayAndSkip (i : Axes) (cycles : f32) : M Motors unit :=
  s ← get_m (fun m => get i (steppers m));
  ds ← of_option (delay_and_skips (motorsNumberOfSteps s) cycles);
  modify (fun m => set_steppers (put i (mkStepper (snd ds) 0 (fst ds) 0 (motorsNumberOfSteps s) (motorsIsMoving s)) (steppers m)) m).

(** ** The parts of a movement *)

Definition parameter (i : Axes) (g : Gcode) : Z * f32 :=
  match i with
  | X => (PARAMETER_X_OFFSET, valueX g) | Y => (PARAMETER_Y_OFFSET, valueY g) | Z_ => (PARAMETER_Z_OFFSET, valueZ g)
  | _ => (PARAMETER_E_OFFSET, valueE g)
  end.

Definition relative (i : Axes) (m : Motors) : bool :=
  match i with
  | X | Y | Z_ => bool_decide (mode m = RELATIVE)
  | E => bool_decide (extruderMode m = RELATIVE)
  | F => false
  end.

(** The value that a command gives a motor. *)
Definition target (g : Gcode) (tasks : Z) (m : Motors) (i : Axes) : f32 :=
  let '(offset, value) := parameter i g in
  if flag (commandParameters g) offset then
    let value := if flag tasks HANDLE_RECEIVED_COMMAND_TASK && bool_decide (units m = INCHES)
                 then value ⊗ INCHES_TO_MILLIMETERS_SCALAR else value in
    if relative i m then value ⊕ get i (currentValues m) else value
  else get i (currentValues m).

Definition set_feed_rate (g : Gcode) (tasks : Z) (m : Motors) : Motors :=
  if flag (commandParameters g) PARAMETER_F_OFFSET then
    let f := valueF g in
    let f := if bool_decide (units m = INCHES) && flag tasks HANDLE_RECEIVED_COMMAND_TASK then f ⊗ INCHES_TO_MILLIMETERS_SCALAR else f in
    set_currentValues (put F f (currentValues m)) m
  else m.

Definition targets (g : Gcode) (tasks : Z) (m : Motors) : PerAxis f32 :=
  let t := target g tasks m in mkPer (t X) (t Y) (t Z_) (t E) (atF (currentValues m)).

(** The targets of a received command, within the boundaries. *)
Definition enforced (tasks : Z) (new : PerAxis f32) (m : Motors) : option (PerAxis f32) :=
  if flag tasks HANDLE_RECEIVED_COMMAND_TASK then
    expand ← ee_byte (eeprom m) EEPROM_EXPAND_PRINTABLE_REGION;
    '(x, y) ← enforce_boundaries (bed m) (negb (expand =? 0)) (atX new) (atY new) (atZ new);
    Some (put X x (put Y y new))
  else Some new.

(** The number of steps of a motor, not rounded. *)
Definition total_steps (distance stepsPerMm : f32) (direction_change : bool) (remaining : f32) : f32 :=
  distance ⊗ stepsPerMm ⊗ MICROSTEPS_PER_STEP ⊕ (if direction_change then fneg remaining else remaining).

(** A motor that makes at least a step, in a movement without tasks: the steps are
    set up, and the number of cycles of the movement is updated. *)
Definition start_motor (i : Axes) (lower : bool) (stepsPerMm total highest : f32) : M Motors f32 :=
  m ← get_m id;
  limit ← of_option (ee_float (eeprom m) (speed_limit_region i lower));
  n ← of_option (f_to_u32 total);
  let s := get i (steppers m) in
  _ ← modify (fun m => set_steppers (put i
        (mkStepper (motorsDelaySkips s) (motorsDelaySkipsCounter s) (motorsStepDelay s) (motorsStepDelayCounter s) n true)
        (steppers m)) m);
  _ ← modify (fun m => set_remainingSteps (put i (get i (remainingSteps m) ⊖ f_of_Z n) (remainingSteps m)) m);
  let feed := getValueInRange (fmin (atF (currentValues m)) limit) (min_feed_rate i) (max_feed_rate i lower) in
  mret (fmax (getMovementsNumberOfCycles n stepsPerMm feed) highest).

(** The value of a motor whose validity gets saved becomes invalid. *)
Definition invalidate (i : Axes) : M Motors unit :=
  match i with
  | X | Y | Z_ => modify (fun m => set_currentStateOfValues (put i false (currentStateOfValues m)) m)
  | _ => mret tt
  end.

(** The direction change of X or Y is noted. *)
Definition note_backlash (i : Axes) (lower : bool) (directions : PerAxis bool) (back : PerAxis BacklashDirection)
    : PerAxis BacklashDirection :=
  match i with
  | X | Y => if Bool.eqb (get i directions) (direction_level i lower) then back
             else put i (if lower then NEGATIVE else POSITIVE) back
  | _ => back
  end.

(** The same with tasks; no result is a movement that is too big. *)
Definition note_motor (i : Axes) (lower : bool) (total : f32) (back : PerAxis BacklashDirection)
    : M Motors (option (PerAxis BacklashDirection)) :=
  if flt UINT32_MAX_f total then mret None
  else
    m ← get_m id;
    _ ← invalidate i;
    mret (Some (note_backlash i lower (currentMotorDirections m) back)).

(** The turn of a motor in the loop of [move]; no result is a movement that is too
    big. *)
Definition motor_turn (tasks : Z) (new : PerAxis f32) (i : Axes) (acc : f32 * PerAxis BacklashDirection)
    : M Motors (option (f32 * PerAxis BacklashDirection)) :=
  m ← get_m id;
  let cur := get i (currentValues m) in
  let distance := fabs (get i new ⊖ cur) in
  if f_true distance then
    let lower := flt (get i new) cur in
    let change := negb (Bool.eqb (get i (direction_pins m)) (direction_level i lower)) in
    stepsPerMm ← of_option (ee_float (eeprom m) (steps_per_mm_region i));
    _ ← when (tasks =? 0) (modify (fun m => set_direction_pins (put i (direction_level i lower) (direction_pins m)) m));
    let total := total_steps distance stepsPerMm change (get i (remainingSteps m)) in
    _ ← when (tasks =? 0) (modify (fun m => set_remainingSteps (put i total (remainingSteps m)) m));
    r ← (if fle f_one total then
           if tasks =? 0 then highest ← start_motor i lower stepsPerMm total (fst acc); mret (Some (highest, snd acc))
           else back ← note_motor i lower total (snd acc); mret (match back with Some back => Some (fst acc, back) | None => None end)
         else mret (Some acc));
    match r with
    | None => mret None
    | Some acc => _ ← unsaved (fun m => set_currentValues (put i (get i new) (currentValues m)) m); mret (Some acc)
    end
  else mret (Some acc).

Fixpoint motor_turns (tasks : Z) (new : PerAxis f32) (axes : list Axes) (acc : f32 * PerAxis BacklashDirection)
    : M Motors (option (f32 * PerAxis BacklashDirection)) :=
  match axes with
  | [] => mret (Some acc)
  | i :: axes =>
      r ← motor_turn tasks new i acc;
      match r with None => mret None | Some acc => motor_turns tasks new axes acc end
  end.

Definition four : list Axes := [X; Y; Z_; E].

(** ** Making the steps *)

(** The extruder motor's voltage comes from its current in the EEPROM. *)
Definition extruder_vref (ee : list Z) : option Z :=
  current ← ee_int ee EEPROM_E_MOTOR_CURRENT;
  let voltage := MOTORS_CURRENT_TO_VOLTAGE_SCALAR ⊘ f_of_Z 1000 ⊗ f_of_Z current in
  f_round (voltage ⊘ MICROCONTROLLER_VOLTAGE ⊗ MOTORS_VREF_TIMER_PERIOD).

(** The delay, the skips and the voltage of each motor that moves. *)
Fixpoint set_up_motors (cycles : f32) (axes : list Axes) : M Motors unit :=
  match axes with
  | [] => mret tt
  | i :: axes =>
      m ← get_m id;
      _ ← when (motorsIsMoving (get i (steppers m)))
            (_ ← setMotorDelayAndSkip i cycles;
             match i with
             | X | Y | Z_ => write_vref i (vref_of (current_active i))
             | _ =>
                 write_vref E (extruder_vref (eeprom m))
             end);
      set_up_motors cycles axes
  end.

(** The steps that a motor made, with their direction. *)
Definition travel (m : Motors) (i : Axes) (made : Z) : Z :=
  get i (travelled m) + (if Bool.eqb (get i (direction_pins m)) (direction_level i false) then made else - made).

(** The wait for the motors; the periods that it can take are bounded by the longest
    movement. *)
Definition run_motors : M Motors unit :=
  m ← get_m id;
  let ms := motor_list (steppers m) in
  r ← of_option (wait_motors (S (Z.to_nat (longest ms))) (polls m) ms [0; 0; 0; 0]);
  let '(ms, made, p) := r in
  let n (k : nat) : Z := default 0 (made !! k) in
  modify (fun m =>
    set_travelled (mkPer (travel m X (n 0%nat)) (travel m Y (n 1%nat)) (travel m Z_ (n 2%nat)) (travel m E (n 3%nat)) (atF (travelled m)))
      (set_polls p (set_steppers (of_motor_list ms (steppers m)) m))).

Fixpoint idle_vrefs (axes : list Axes) : M Motors unit :=
  match axes with [] => mret tt | i :: axes => _ ← write_vref i (vref_of (current_idle i)); idle_vrefs axes end.

(** The last part of [move], without tasks. *)
Definition perform (cycles : f32) : M Motors unit :=
  _ ← set_up_motors cycles four;
  _ ← turnOn;
  _ ← run_motors;
  _ ← stop_timer;
  idle_vrefs four.

(** ** Movements *)

(** [move] without tasks. *)
Definition move_no_task (g : Gcode) : M Motors unit :=
  _ ← modify (set_feed_rate g NO_TASK);
  m ← get_m id;
  new ← of_option (enforced NO_TASK (targets g NO_TASK m) m);
  r ← motor_turns NO_TASK new (rev four) (f_zero, all NONE);
  match r with
  | None => mret tt
  | Some (highest, _) =>
      stop ← get_m emergency;
      if (stop : bool) then mret tt else perform highest
  end.

(** A command made by the firmware. *)
Definition movement (flags : Z) (x y z e f : f32) : Gcode := mkGcode false flags 0 0 0 0 0 x y z f e 0 [].

Definition backlash_value (d : BacklashDirection) (region : Z * Z) (m : Motors) : option f32 :=
  match d with
  | NONE => Some f_zero
  | POSITIVE => ee_float (eeprom m) region
  | NEGATIVE => v ← ee_float (eeprom m) region; Some (v ⊗ f_of_Z (-1))
  end.

Definition compensateForBacklash (dx dy : BacklashDirection) : M Motors unit :=
  m0 ← get_m id;
  _ ← modify (fun m => set_remainingSteps (put X f_zero (put Y f_zero (remainingSteps m))) m);
  x ← of_option (backlash_value dx EEPROM_BACKLASH_X m0);
  y ← of_option (backlash_value dy EEPROM_BACKLASH_Y m0);
  f ← of_option (ee_float (eeprom m0) EEPROM_BACKLASH_SPEED);
  _ ← modify (set_mode RELATIVE);
  _ ← move_no_task (movement (Z.lor (Z.lor PARAMETER_X_OFFSET PARAMETER_Y_OFFSET) PARAMETER_F_OFFSET) x y f_zero f_zero f);
  _ ← unsaved (fun m => set_currentValues (put X (atX (currentValues m0)) (put Y (atY (currentValues m0)) (currentValues m))) m);
  _ ← modify (fun m => set_currentValues (put F (atF (currentValues m0)) (currentValues m)) m);
  _ ← modify (set_mode (mode m0));
  _ ← modify (fun m => set_remainingSteps (put X (atX (remainingSteps m0)) (put Y (atY (remainingSteps m0)) (remainingSteps m))) m);
  modify (fun m => set_direction_pins (put X (atX (direction_pins m0)) (put Y (atY (direction_pins m0)) (direction_pins m))) m).

(** The command for the end of a segment. *)
Definition segment_command (compensate : bool) (values : PerAxis f32) (m : Motors) : Gcode :=
  let flags := Z.lor (Z.lor (Z.lor PARAMETER_X_OFFSET PARAMETER_Y_OFFSET) PARAMETER_Z_OFFSET) PARAMETER_E_OFFSET in
  let '(mkPer x y z e _) := values in
  if compensate then
    let z := z ⊕ getHeightAdjustmentRequired (bed m) x y in
    movement flags (x ⊕ getSkewAdjustmentRequired (bed m) X z) (y ⊕ getSkewAdjustmentRequired (bed m) Y z) z e f_zero
  else movement flags x y z e f_zero.

Definition segment_values (m : Motors) (changes ends : PerAxis f32) (counter total : Z) : PerAxis f32 :=
  let v i := if counter =? total then get i ends
             else get i (startValues m) ⊕ f_of_Z counter ⊗ SEGMENT_LENGTH ⊗ get i changes in
  mkPer (v X) (v Y) (v Z_) (v E) f_zero.

(** The loop over the segments, from a counter on. *)
Fixpoint segments_loop (fuel : nat) (compensate : bool) (changes ends : PerAxis f32) (counter total : Z) : M Motors unit :=
  match fuel with
  | O => of_option None
  | S fuel =>
      m ← get_m id;
      _ ← move_no_task (segment_command compensate (segment_values m changes ends counter total) m);
      if counter =? total then mret tt
      else segments_loop fuel compensate changes ends (u32 (counter + 1)) total
  end.

Definition splitUpMovement (compensate : bool) : M Motors unit :=
  m0 ← get_m id;
  let ends := currentValues m0 in
  let change i := get i ends ⊖ get i (startValues m0) in
  _ ← modify (set_save_enabled false);
  _ ← modify (fun m => set_currentValues (copy_motors (startValues m) (currentValues m)) m);
  _ ← when compensate (
        _ ← modify (fun m => set_currentStateOfValues (put X false (put Y false (put Z_ false (currentStateOfValues m)))) m);
        _ ← modify (fun m => set_currentValues (put Z_ (atZ (currentValues m)
               ⊕ getHeightAdjustmentRequired (bed m) (atX (currentValues m)) (atY (currentValues m))) (currentValues m)) m);
        _ ← modify (fun m => set_currentValues (put X (atX (currentValues m)
               ⊕ getSkewAdjustmentRequired (bed m) X (atZ (currentValues m))) (currentValues m)) m);
        modify (fun m => set_currentValues (put Y (atY (currentValues m)
               ⊕ getSkewAdjustmentRequired (bed m) Y (atZ (currentValues m))) (currentValues m)) m));
  _ ← modify (set_save_enabled true);
  let distance := fsqrt (change X ⊗ change X ⊕ change Y ⊗ change Y) in
  let ratio i := if f_true distance then change i ⊘ distance else f_zero in
  let changes := mkPer (ratio X) (ratio Y) (ratio Z_) (ratio E) f_zero in
  _ ← modify (set_mode ABSOLUTE);
  _ ← modify (set_extruderMode ABSOLUTE);
  n ← of_option (minimumOneCeil (distance ⊘ SEGMENT_LENGTH));
  _ ← segments_loop (Z.to_nat n) compensate changes ends 1 n;
  _ ← unsaved (fun m => set_currentValues (copy_motors ends (currentValues m)) m);
  stop ← get_m emergency;
  _ ← when (negb stop) (modify (set_currentStateOfValues (currentStateOfValues m0)));
  _ ← modify (set_mode (mode m0));
  modify (set_extruderMode (extruderMode m0)).

(** The directions of X and Y after a movement. *)
Definition settle_directions (back : PerAxis BacklashDirection) (m : Motors) : Motors :=
  let dir i := match get i back with
               | NONE => get i (currentMotorDirections m)
               | d => direction_level i (bool_decide (d = NEGATIVE))
               end in
  set_currentMotorDirections (put X (dir X) (put Y (dir Y) (currentMotorDirections m))) m.

(** [move] with tasks: whether the movement was not too big. *)
Definition move (g : Gcode) (tasks : Z) : M Motors bool :=
  if tasks =? 0 then _ ← move_no_task g; mret true
  else
    m0 ← get_m id;
    _ ← modify (fun m => set_startValues (copy_motors (currentValues m) (startValues m)) m);
    _ ← modify (set_feed_rate g tasks);
    m ← get_m id;
    new ← of_option (enforced tasks (targets g tasks m) m);
    r ← motor_turns tasks new (rev four) (f_zero, all NONE);
    match r with
    | None =>
        _ ← unsaved (fun m => set_currentValues (copy_motors (startValues m) (currentValues m)) m);
        _ ← modify (set_currentStateOfValues (currentStateOfValues m0));
        mret false
    | Some (_, back) =>
        let levelled := flag tasks BED_LEVELING_AND_SKEW_TASK in
        let valid := if levelled then currentStateOfValues m0
                     else put X false (put Y false (put Z_ false (currentStateOfValues m0))) in
        _ ← when (negb levelled)
              (modify (fun m => set_currentStateOfValues (put X false (put Y false (put Z_ false (currentStateOfValues m)))) m));
        _ ← when (flag tasks BACKLASH_TASK && negb (bool_decide (atX back = NONE) && bool_decide (atY back = NONE)))
              (compensateForBacklash (atX back) (atY back));
        _ ← splitUpMovement levelled;
        _ ← modify (settle_directions back);
        stop ← get_m emergency;
        _ ← when (negb stop) (modify (set_currentStateOfValues valid));
        mret true
    end.

Definition ALL_TASKS : Z := Z.lor (Z.lor BACKLASH_TASK BED_LEVELING_AND_SKEW_TASK) HANDLE_RECEIVED_COMMAND_TASK.

Definition moveToHeight (height : f32) (compensate : bool) : M Motors unit :=
  m0 ← get_m id;
  _ ← modify (set_mode ABSOLUTE);
  _ ← move (movement (Z.lor PARAMETER_Z_OFFSET PARAMETER_F_OFFSET) f_zero f_zero height f_zero EEPROM_SPEED_LIMIT_Z_MAX)
        (Z.lor BACKLASH_TASK (if compensate then BED_LEVELING_AND_SKEW_TASK else 0));
  _ ← modify (fun m => set_currentValues (put F (atF (currentValues m0)) (currentValues m)) m);
  _ ← modify (set_mode (mode m0));
  stop ← get_m emergency;
  when (negb stop) (modify (fun m => set_currentStateOfValues (put Z_ (atZ (currentStateOfValues m0)) (currentStateOfValues m)) m)).

(** ** The bed and the saved state *)

Definition set_height (z : f32) (v : Vector) : Vector := mkVector (vx v) (vy v) z (ve v).

(** The corners from the EEPROM, and the planes through them. *)
Definition update_corners (ee : list Z) (b : Bed) : option Bed :=
  let height orientation offset :=
    o ← ee_float ee orientation; d ← ee_float ee offset; Some (o ⊕ d) in
  hbr ← height EEPROM_BED_ORIENTATION_BACK_RIGHT EEPROM_BED_OFFSET_BACK_RIGHT;
  hbl ← height EEPROM_BED_ORIENTATION_BACK_LEFT EEPROM_BED_OFFSET_BACK_LEFT;
  hfl ← height EEPROM_BED_ORIENTATION_FRONT_LEFT EEPROM_BED_OFFSET_FRONT_LEFT;
  hfr ← height EEPROM_BED_ORIENTATION_FRONT_RIGHT EEPROM_BED_OFFSET_FRONT_RIGHT;
  let br := set_height hbr (backRightVector b) in
  let bl := set_height hbl (backLeftVector b) in
  let fl := set_height hfl (frontLeftVector b) in
  let fr := set_height hfr (frontRightVector b) in
  let c := centerVector b in
  Some (mkBed br bl fl fr c (generatePlaneEquation bl br c) (generatePlaneEquation bl fl c)
          (generatePlaneEquation br fr c) (generatePlaneEquation fl fr c) (externalBedHeight b) (skewX b) (skewY b)).

Definition update_skew (ee : list Z) (b : Bed) : option Bed :=
  x ← ee_float ee EEPROM_SKEW_X;
  y ← ee_float ee EEPROM_SKEW_Y;
  external ← ee_float ee EEPROM_EXTERNAL_BED_HEIGHT;
  Some (mkBed (backRightVector b) (backLeftVector b) (frontLeftVector b) (frontRightVector b) (centerVector b)
          (backPlane b) (leftPlane b) (rightPlane b) (frontPlane b) external x y).

Definition updateBedChanges (affectValues : bool) : M Motors unit :=
  m0 ← get_m id;
  let cur := currentValues m0 in
  let height := getHeightAdjustmentRequired (bed m0) (atX cur) (atY cur) in
  let previous := height ⊕ bedHeightOffset m0 in
  b ← of_option (update_corners (eeprom m0) (bed m0));
  offset ← of_option (ee_float (eeprom m0) EEPROM_BED_HEIGHT_OFFSET);
  let previousX := getSkewAdjustmentRequired b X (atZ cur ⊕ height) in
  let previousY := getSkewAdjustmentRequired b Y (atZ cur ⊕ height) in
  b ← of_option (update_skew (eeprom m0) b);
  _ ← modify (fun m => set_bedHeightOffset offset (set_bed b m));
  when affectValues (
    let height := getHeightAdjustmentRequired b (atX cur) (atY cur) in
    let z := atZ cur ⊕ (previous ⊖ height ⊖ offset) in
    let x := atX cur ⊕ (previousX ⊖ getSkewAdjustmentRequired b X (z ⊕ height)) in
    let y := atY cur ⊕ (previousY ⊖ getSkewAdjustmentRequired b Y (z ⊕ height)) in
    unsaved (fun m => set_currentValues (put X x (put Y y (put Z_ z (currentValues m)))) m)).

Inductive AxesParameter := DIRECTION | VALIDITY | VALUE.

#[global] Instance AxesParameter_eq_dec : EqDecision AxesParameter.
Proof. solve_decision. Defined.

Definition value_region (i : Axes) : Z * Z :=
  match i with X => EEPROM_LAST_RECORDED_X_VALUE | Y => EEPROM_LAST_RECORDED_Y_VALUE | _ => EEPROM_LAST_RECORDED_Z_VALUE end.
Definition state_region (i : Axes) : Z * Z :=
  match i with X => EEPROM_SAVED_X_STATE | Y => EEPROM_SAVED_Y_STATE | _ => EEPROM_SAVED_Z_STATE end.
Definition direction_region (i : Axes) : option (Z * Z) :=
  match i with X => Some EEPROM_LAST_RECORDED_X_DIRECTION | Y => Some EEPROM_LAST_RECORDED_Y_DIRECTION | _ => None end.

Definition bit (b : bool) : Z := if b then 1 else 0.

(** A byte is written only when it is not up to date. *)
Definition save_byte (ee : list Z) (region : Z * Z) (v : bool) : option (list Z) :=
  old ← ee_byte ee region;
  if old =? bit v then Some ee else ee_set_byte ee region (bit v).

(** [changeState] when saving one parameter of a motor. *)
Definition save_parameter (i : Axes) (p : AxesParameter) (m : Motors) : option (list Z) :=
  let ee := eeprom m in
  match p with
  | DIRECTION =>
      match direction_region i with Some r => save_byte ee r (get i (currentMotorDirections m)) | None => Some ee end
  | VALIDITY => save_byte ee (state_region i) (get i (currentStateOfValues m))
  | VALUE =>
      old ← ee_float ee (value_region i);
      if feq old (get i (currentValues m)) then Some ee else ee_set_float ee (value_region i) (get i (currentValues m))
  end.
Definition saveState (i : Axes) (p : AxesParameter) : M Motors unit :=
  m ← get_m id;
  ee ← of_option (save_parameter i p m);
  modify (set_eeprom ee).

(** [changeState] when restoring one motor. *)
Definition restore_motor (i : Axes) : M Motors unit :=
  m ← get_m id;
  _ ← (match direction_region i with
       | Some r => b ← of_option (ee_byte (eeprom m) r);
                   modify (fun m => set_currentMotorDirections (put i (negb (b =? 0)) (currentMotorDirections m)) m)
       | None => mret tt
       end);
  s ← of_option (ee_byte (eeprom m) (state_region i));
  _ ← modify (fun m => set_currentStateOfValues (put i (negb (s =? 0)) (currentStateOfValues m)) m);
  v ← of_option (ee_float (eeprom m) (value_region i));
  modify (fun m => set_currentValues (put i v (currentValues m)) m).
Definition restoreState : M Motors unit := _ ← restore_motor X; _ ← restore_motor Y; restore_motor Z_.

Definition saveZAsBedCenterZ0 : M Motors unit :=
  m ← get_m id;
  ee ← of_option (ee_set_float (eeprom m) EEPROM_BED_HEIGHT_OFFSET f_zero);
  _ ← modify (set_eeprom ee);
  _ ← updateBedChanges false;
  _ ← unsaved (fun m => set_currentValues (put Z_ f_zero (currentValues m)) m);
  modify (fun m => set_currentStateOfValues (put Z_ true (currentStateOfValues m)) m).

(** The save timer's callback with its static variables. *)
Record SaveTimer := mkSaveTimer { motorsSaveTimerCounter : Z; currentSaveMotor : Axes; currentSaveParameter : AxesParameter }.

Definition SAVE_PERIODS : Z := sysclk_cpu_hz / 0x27F * 200 / 1000.

Definition next_saved (i : Axes) (p : AxesParameter) : Axes * AxesParameter :=
  match p with
  | VALUE => (match i with X => Y | Y => Z_ | _ => X end, DIRECTION)
  | DIRECTION => (i, VALIDITY)
  | VALIDITY => (i, VALUE)
  end.

Definition save_timer (t : SaveTimer) : M Motors SaveTimer :=
  let counter := u16 (motorsSaveTimerCounter t + 1) in
  if counter >=? SAVE_PERIODS then
    let '(i, p) := next_saved (currentSaveMotor t) (currentSaveParameter t) in
    _ ← saveState i p;
    mret (mkSaveTimer 0 i p)
  else mret (mkSaveTimer counter (currentSaveMotor t) (currentSaveParameter t)).

(** The saving of all parameters before a reset (M115 S628). *)
Definition save_all : M Motors unit :=
  _ ← saveState X DIRECTION; _ ← saveState X VALIDITY; _ ← saveState X VALUE;
  _ ← saveState Y DIRECTION; _ ← saveState Y VALIDITY; _ ← saveState Y VALUE;
  _ ← saveState Z_ DIRECTION; _ ← saveState Z_ VALIDITY; saveState Z_ VALUE.

(** [initialize], apart from the hardware's configuration: the vectors of the bed
    are set and the planes computed. *)
Definition initial_bed (b : Bed) : Bed :=
  let d := BED_CALIBRATION_POSITIONS_DISTANCE_FROM_CENTER in
  mkBed (initialize (BED_CENTER_X ⊕ d) (BED_CENTER_Y ⊕ d) f_zero f_zero) (initialize (BED_CENTER_X ⊖ d) (BED_CENTER_Y ⊕ d) f_zero f_zero)
    (initialize (BED_CENTER_X ⊖ d) (BED_CENTER_Y ⊖ d) f_zero f_zero) (initialize (BED_CENTER_X ⊕ d) (BED_CENTER_Y ⊖ d) f_zero f_zero)
    (initialize BED_CENTER_X BED_CENTER_Y f_zero f_zero)
    (backPlane b) (leftPlane b) (rightPlane b) (frontPlane b) (externalBedHeight b) (skewX b) (skewY b).

Definition initialize_motors : M Motors unit :=
  _ ← restoreState;
  _ ← modify (set_mode ABSOLUTE);
  _ ← modify (set_extruderMode ABSOLUTE);
  _ ← modify (set_units MILLIMETERS);
  _ ← modify (fun m => set_currentValues (put F EEPROM_SPEED_LIMIT_X_MAX (currentValues m)) m);
  _ ← turnOff;
  _ ← modify (fun m => set_direction_pins (put X (atX (currentMotorDirections m)) (put Y (atY (currentMotorDirections m)) (direction_pins m))) m);
  _ ← idle_vrefs four;
  _ ← reset;
  _ ← modify (fun m => set_bed (initial_bed (bed m)) m);
  _ ← updateBedChanges false;
  modify (set_save_enabled true).
