(* ===== verification/Movement.v ===== *)
(** * Movements: what they do (motors.cpp)

    The steps that a movement makes, that it ends, the position and the modes it
    leaves behind, the movement that is too big, the compensation of backlash, and
    the state of the motors in the EEPROM. *)

From S2P Require Import Prelude Float32 FloatValid Common Gcode Nvm Eeprom Stepper Bed Motors.

#[local] Open Scope fw_scope.

(** ** Axes *)

Lemma get_put {A} (i j : Axes) (v : A) p : get i (put j v p) = if decide (i = j) then v else get i p.
Proof. destruct p, i, j; reflexivity. Qed.
Lemma get_put_eq {A} (i : Axes) (v : A) p : get i (put i v p) = v.
Proof. destruct p, i; reflexivity. Qed.
Lemma get_put_ne {A} (i j : Axes) (v : A) p : i <> j -> get i (put j v p) = get i p.
Proof. destruct p, i, j; (reflexivity || contradiction). Qed.
Lemma per_axis_ext {A} (p q : PerAxis A) : (forall i, get i p = get i q) -> p = q.
Proof.
  intros H. destruct p, q. pose proof (H X) as H1. pose proof (H Y) as H2. pose proof (H Z_) as H3.
  pose proof (H E) as H4. pose proof (H F) as H5. cbn in *. congruence.
Qed.

(** The fields of the state that a change does not touch, axis by axis. *)
Ltac fields := repeat match goal with m : Motors |- _ => destruct m end; cbn in *.

(** ** Setting up *)

Lemma delay_and_skips_range steps cycles delay skips : delay_and_skips steps cycles = Some (delay, skips) ->
  0 <= delay < 4294967296 /\ 0 <= skips < 4294967296.
Proof.
  unfold delay_and_skips. destruct (f_to_u32 _) as [d|] eqn:Ed; cbn [mbind option_bind]; [|discriminate].
  destruct (f_true _).
  - destruct (f_to_u32 (getValueInRange _ f_zero _)) as [k|] eqn:Ek; cbn [mbind option_bind]; [|discriminate].
    intros [= <- <-]. apply f_to_u32_range in Ed, Ek. split; [|lia]. case_bool; [apply u32_range|lia].
  - cbn [mbind option_bind]. intros [= <- <-]. apply f_to_u32_range in Ed. split; [|lia]. case_bool; [apply u32_range|lia].
Qed.

(** A motor that the set-up is defined for: it stands still, or is to make at least
    a step and its delay and its voltage can be computed. *)
Definition prepared (cycles : f32) (m : Motors) (i : Axes) : Prop :=
  let s := get i (steppers m) in
  motorsIsMoving s = true ->
  1 <= motorsNumberOfSteps s < 4294967296 /\ is_Some (delay_and_skips (motorsNumberOfSteps s) cycles) /\
  (i = E -> is_Some (extruder_vref (eeprom m))).

Lemma vref_active_defined i : is_Some (vref_of (current_active i)).
Proof. destruct i; vm_compute; eauto. Qed.
Lemma vref_idle_defined i : is_Some (vref_of (current_idle i)).
Proof. destruct i; vm_compute; eauto. Qed.

(** What the set-up leaves of a motor. *)
Definition set_up (cycles : f32) (s : Stepper) : Stepper :=
  if motorsIsMoving s then
    match delay_and_skips (motorsNumberOfSteps s) cycles with
    | Some (delay, skips) => armed skips delay (motorsNumberOfSteps s)
    | None => s
    end
  else s.

Section SetUp.
Context (cycles : f32).

(** The turn of one motor. *)
Definition set_up_motor (i : Axes) : M Motors unit :=
  m ← get_m id;
  when (motorsIsMoving (get i (steppers m)))
    (_ ← setMotorDelayAndSkip i cycles;
     match i with X | Y | Z_ => write_vref i (vref_of (current_active i)) | _ => write_vref E (extruder_vref (eeprom m)) end).

Lemma set_up_cons i axes m : set_up_motors cycles (i :: axes) m = (_ ← set_up_motor i; set_up_motors cycles axes) m.
Proof. unfold set_up_motor. cbn [set_up_motors]. unfold get_m. run. case_bool; reflexivity. Qed.

Lemma set_up_motor_spec i m : i <> F -> prepared cycles m i -> exists v,
  set_up_motor i m = Some (set_vrefs v (set_steppers (put i (set_up cycles (get i (steppers m))) (steppers m)) m), tt).
Proof.
  intros Hi Hp. unfold set_up_motor, set_up, get_m, id. run. destruct (motorsIsMoving (get i (steppers m))) eqn:Em.
  2: { exists (vrefs m). rewrite (per_axis_ext (put i _ _) (steppers m)) by (intros j; rewrite get_put; destruct (decide _); subst; reflexivity).
       destruct m; reflexivity. }
  destruct (Hp Em) as (_ & [[d k] Ed] & He). unfold setMotorDelayAndSkip, write_vref, get_m. run. rewrite Ed. cbn [fst snd].
  destruct (vref_active_defined i) as [v Ev]. destruct m as [x0 x1 x2 x3 x4 x5 x6 x7 x8 st x10 x11 x12 vr x14 x15 x16 x17].
  cbn in Em, He |- *. rewrite Em.
  destruct i; try (rewrite Ev; eexists; reflexivity); [|contradiction].
  destruct (He eq_refl) as [w ->]. eexists. reflexivity.
Qed.

Lemma prepared_other i s v m j : j <> i -> prepared cycles m j -> prepared cycles (set_vrefs v (set_steppers (put i s (steppers m)) m)) j.
Proof. intros Hj. unfold prepared. destruct m. cbn -[get put delay_and_skips]. rewrite get_put_ne by exact Hj. auto. Qed.

(** All motors are set up. *)
Lemma set_up_motors_spec m : (forall i, i <> F -> prepared cycles m i) -> exists v,
  set_up_motors cycles four m = Some (set_vrefs v (set_steppers
    (mkPer (set_up cycles (atX (steppers m))) (set_up cycles (atY (steppers m))) (set_up cycles (atZ (steppers m)))
           (set_up cycles (atE (steppers m))) (atF (steppers m))) m), tt).
Proof.
  intros Hp. unfold four. rewrite set_up_cons.
  destruct (set_up_motor_spec X m ltac:(discriminate) (Hp X ltac:(discriminate))) as [v1 E1]. set (m1 := set_vrefs v1 _) in E1.
  erewrite bind_step by exact E1. rewrite set_up_cons.
  assert (forall j, j <> F -> j <> X -> prepared cycles m1 j) as H1 by (intros; apply prepared_other; auto).
  destruct (set_up_motor_spec Y m1 ltac:(discriminate) ltac:(apply H1; discriminate)) as [v2 E2]. set (m2 := set_vrefs v2 _) in E2.
  erewrite bind_step by exact E2. rewrite set_up_cons.
  assert (forall j, j <> F -> j <> X -> j <> Y -> prepared cycles m2 j) as H2 by (intros; apply prepared_other; auto).
  destruct (set_up_motor_spec Z_ m2 ltac:(discriminate) ltac:(apply H2; discriminate)) as [v3 E3]. set (m3 := set_vrefs v3 _) in E3.
  erewrite bind_step by exact E3. rewrite set_up_cons.
  assert (prepared cycles m3 E) as H3 by (apply prepared_other; [discriminate|]; apply H2; discriminate).
  destruct (set_up_motor_spec E m3 ltac:(discriminate) H3) as [v4 E4]. erewrite bind_step by exact E4.
  exists v4. destruct m as [x0 x1 x2 x3 x4 x5 x6 x7 x8 [] x10 x11 x12 vr x14 x15 x16 x17]. reflexivity.
Qed.
End SetUp.

(** ** Performing *)

Definition still (m : Motors) : Prop := areMotorsMoving (motor_list (steppers m)) = false.

Lemma set_up_ready cycles m i : prepared cycles m i -> ready (set_up cycles (get i (steppers m))).
Proof.
  intros Hp. unfold set_up, ready. destruct (motorsIsMoving (get i (steppers m))) eqn:Em; [|auto].
  destruct (Hp Em) as (Hn & [[d k] Ed] & _). rewrite Ed. right. exists k, d, (motorsNumberOfSteps (get i (steppers m))).
  destruct (delay_and_skips_range _ _ _ _ Ed). auto.
Qed.

Lemma set_up_due cycles s : steps_due (set_up cycles s) = steps_due s.
Proof.
  unfold steps_due, set_up. destruct (motorsIsMoving s) eqn:Em; [|rewrite Em; reflexivity].
  destruct (delay_and_skips _ _) as [[d k]|]; [reflexivity|]. rewrite Em. reflexivity.
Qed.

(** The steps of a movement, with their direction. *)
Definition signed_steps (m : Motors) (i : Axes) : Z :=
  let n := steps_due (get i (steppers m)) in
  if Bool.eqb (get i (direction_pins m)) (direction_level i false) then n else - n.

(** What a movement without tasks can change. *)
Definition performed (m : Motors) :=
  (currentValues m, currentMotorDirections m, currentStateOfValues m, (mode m, extruderMode m, units m),
   startValues m, (bed m, bedHeightOffset m), (remainingSteps m, direction_pins m), (save_enabled m, eeprom m)).

Lemma write_vref_keeps i v : Keeps performed (write_vref i v).
Proof. unfold write_vref. keep. Qed.
#[export] Hint Resolve write_vref_keeps : keeps.
Lemma set_delay_keeps i cycles : Keeps performed (setMotorDelayAndSkip i cycles).
Proof. unfold setMotorDelayAndSkip, get_m. keep. Qed.
#[export] Hint Resolve set_delay_keeps : keeps.
Lemma set_up_motors_keeps cycles axes : Keeps performed (set_up_motors cycles axes).
Proof. induction axes as [|i axes IH]; cbn [set_up_motors]; unfold get_m; keep. Qed.
#[export] Hint Resolve set_up_motors_keeps : keeps.
Lemma idle_vrefs_keeps axes : Keeps performed (idle_vrefs axes).
Proof. induction axes as [|i axes IH]; cbn [idle_vrefs]; keep. Qed.
#[export] Hint Resolve idle_vrefs_keeps : keeps.
Lemma run_motors_keeps : Keeps performed run_motors.
Proof. unfold run_motors, get_m. keep. Qed.
#[export] Hint Resolve run_motors_keeps : keeps.
Lemma perform_keeps cycles : Keeps performed (perform cycles).
Proof. unfold perform, turnOn, stop_timer. keep. Qed.
#[export] Hint Resolve perform_keeps : keeps.

Lemma stop_timer_still m : exists m', stop_timer m = Some (m', tt) /\ still m' /\ performed m' = performed m /\
  polls m' = polls m /\ travelled m' = travelled m.
Proof.
  unfold stop_timer. run. eexists. split; [reflexivity|]. destruct m as [x0 x1 x2 x3 x4 x5 x6 x7 x8 [x y z e f] x10 x11 x12 vr x14 x15 x16 x17].
  split; [|auto]. destruct x, y, z, e. reflexivity.
Qed.

Lemma idle_vrefs_spec axes m : exists v, idle_vrefs axes m = Some (set_vrefs v m, tt).
Proof.
  revert m. induction axes as [|i axes IH]; intros m; cbn [idle_vrefs].
  - exists (vrefs m). destruct m; reflexivity.
  - destruct (vref_idle_defined i) as [w Ew]. unfold write_vref at 1. rewrite Ew. run.
    destruct (IH (set_vrefs (put i w (vrefs m)) m)) as [v E]. exists v. unfold write_vref in E. rewrite E. destruct m; reflexivity.
Qed.

(** The wait ends; without an emergency stop all steps are made. *)
Lemma run_motors_spec m : Forall ready (motor_list (steppers m)) -> exists m', run_motors m = Some (m', tt) /\
  (polls m = None -> polls m' = None /\ forall i, i <> F -> get i (travelled m') = get i (travelled m) + signed_steps m i).
Proof.
  intros Hr. unfold run_motors, get_m. run. set (ms := motor_list (steppers m)) in *.
  pose proof (longest_nonneg ms) as H0. destruct (polls m) as [p|] eqn:Ep.
  - destruct (wait_ends (S (Z.to_nat (longest ms))) ms 0 Hr ltac:(lia) ltac:(lia) (Some p) [0; 0; 0; 0]) as (ms' & made & q & E & _).
    cbn [ticks fst] in E. rewrite map_id in E. unfold id. fold ms. rewrite Ep, E. eexists. split; [reflexivity|discriminate].
  - destruct (wait_motors_done ms (S (Z.to_nat (longest ms))) Hr ltac:(lia)) as (ms' & E & _).
    unfold id. fold ms. rewrite Ep. unfold ms in E |- *. cbn [motor_list map] in E |- *. rewrite E. eexists. split; [reflexivity|]. intros _.
    destruct m. cbn -[travel steps_due] in *. split; [reflexivity|]. intros i Hi.
    destruct i; try contradiction; reflexivity.
Qed.

Lemma perform_spec cycles m : (forall i, i <> F -> prepared cycles m i) -> exists m', perform cycles m = Some (m', tt) /\
  still m' /\ (polls m = None -> polls m' = None /\
    forall i, i <> F -> get i (travelled m') = get i (travelled m) + signed_steps m i).
Proof.
  intros Hp. destruct (set_up_motors_spec cycles m Hp) as [v E1]. unfold perform. erewrite bind_step by exact E1.
  set (m1 := set_vrefs v _) in *. unfold turnOn. erewrite bind_step by reflexivity. set (m2 := set_motors_on true m1).
  assert (Forall ready (motor_list (steppers m2))) as Hr.
  { assert (motor_list (steppers m2) = map (fun i => set_up cycles (get i (steppers m))) four) as -> by (destruct m; reflexivity).
    apply List.Forall_forall. intros s Hs. apply in_map_iff in Hs. destruct Hs as (i & <- & Hi).
    apply set_up_ready, Hp. intros ->. cbn in Hi. intuition discriminate. }
  destruct (run_motors_spec m2 Hr) as (m3 & E3 & H3). erewrite bind_step by exact E3.
  destruct (stop_timer_still m3) as (m4 & E4 & S4 & _ & P4 & T4). erewrite bind_step by exact E4.
  destruct (idle_vrefs_spec four m4) as [w E5]. exists (set_vrefs w m4). split; [exact E5|].
  replace (polls (set_vrefs w m4)) with (polls m4) by (destruct m4; reflexivity).
  replace (travelled (set_vrefs w m4)) with (travelled m4) by (destruct m4; reflexivity).
  split; [destruct m4; exact S4|]. rewrite P4, T4. replace (polls m2) with (polls m) in H3 by (destruct m; reflexivity).
  intros Hpoll. destruct (H3 Hpoll) as [-> Ht]. split; [reflexivity|]. intros i Hi. rewrite (Ht i Hi).
  unfold m2, m1, signed_steps. destruct m. destruct i; cbn -[set_up steps_due]; rewrite ?set_up_due; (reflexivity || contradiction).
Qed.

(** ** The turn of a motor *)

(** The part of the state of one motor. *)
Definition axis (i : Axes) (m : Motors) : f32 * Stepper * f32 * bool :=
  (get i (currentValues m), get i (steppers m), get i (remainingSteps m), get i (direction_pins m)).

(** What the loop of [move] does not change, without tasks. *)
Definition settings (m : Motors) :=
  (currentMotorDirections m, currentStateOfValues m, (mode m, extruderMode m, units m),
   startValues m, (bed m, bedHeightOffset m), eeprom m).

(** A motor's number of steps for a movement to [t], not rounded. *)
Definition steps_to (m : Motors) (i : Axes) (t stepsPerMm : f32) : f32 :=
  let cur := get i (currentValues m) in
  total_steps (fabs (t ⊖ cur)) stepsPerMm (negb (Bool.eqb (get i (direction_pins m)) (direction_level i (flt t cur)))) (get i (remainingSteps m)).

Definition moves (m : Motors) (i : Axes) (t : f32) : bool := f_true (fabs (t ⊖ get i (currentValues m))).

Definition turned (m m' : Motors) (i : Axes) (t : f32) : Prop :=
  if moves m i t then exists spm, ee_float (eeprom m) (steps_per_mm_region i) = Some spm /\
    get i (currentValues m') = t /\
    get i (direction_pins m') = direction_level i (flt t (get i (currentValues m))) /\
    (if fle f_one (steps_to m i t spm) then exists n, f_to_u32 (steps_to m i t spm) = Some n /\
       motorsIsMoving (get i (steppers m')) = true /\ motorsNumberOfSteps (get i (steppers m')) = n /\
       get i (remainingSteps m') = steps_to m i t spm ⊖ f_of_Z n
     else get i (steppers m') = get i (steppers m) /\ get i (remainingSteps m') = steps_to m i t spm)
  else axis i m' = axis i m.

(** Everything but the entries of motor [i]. *)
Definition others (i : Axes) (m m' : Motors) : Prop :=
  (forall j, j <> i -> axis j m' = axis j m) /\ settings m' = settings m /\ polls m' = polls m /\ travelled m' = travelled m.

Lemma others_trans i j m1 m2 m3 : others i m1 m2 -> others j m2 m3 ->
  (forall k, k <> i -> k <> j -> axis k m3 = axis k m1) /\ settings m3 = settings m1 /\ polls m3 = polls m1 /\ travelled m3 = travelled m1.
Proof.
  intros (H1 & H2 & H3 & H4) (K1 & K2 & K3 & K4). split; [|repeat split; congruence].
  intros k Hi Hj. rewrite K1, H1 by assumption. reflexivity.
Qed.

Lemma start_motor_spec i lower spm total highest m m' r : i <> F ->
  start_motor i lower spm total highest m = Some (m', r) -> exists n, f_to_u32 total = Some n /\ others i m m' /\
    motorsIsMoving (get i (steppers m')) = true /\ motorsNumberOfSteps (get i (steppers m')) = n /\
    get i (remainingSteps m') = get i (remainingSteps m) ⊖ f_of_Z n /\
    get i (currentValues m') = get i (currentValues m) /\ get i (direction_pins m') = get i (direction_pins m).
Proof.
  intros Hi. unfold start_motor, get_m. run. unfold id. destruct (ee_float _ _) as [limit|]; [|discriminate].
  destruct (f_to_u32 total) as [n|]; [|discriminate]. intros H. injection H as <- _. exists n. split; [reflexivity|].
  destruct m. unfold others, axis, settings. cbn -[get put]. rewrite !get_put_eq.
  repeat split; try reflexivity. intros j Hj. rewrite !get_put_ne by exact Hj. reflexivity.
Qed.

(** The value is set at the end of a turn. *)
Lemma unsaved_value i t m m' r : unsaved (fun m => set_currentValues (put i t (currentValues m)) m) m = Some (m', r) ->
  others i m m' /\ get i (currentValues m') = t /\ get i (steppers m') = get i (steppers m) /\
  get i (remainingSteps m') = get i (remainingSteps m) /\ get i (direction_pins m') = get i (direction_pins m).
Proof.
  intros H. injection H as <- _. destruct m. unfold others, axis, settings. cbn -[get put]. rewrite get_put_eq.
  repeat split; try reflexivity. intros j Hj. rewrite !get_put_ne by exact Hj. reflexivity.
Qed.

Lemma others_join i m1 m2 m3 : others i m1 m2 -> others i m2 m3 -> others i m1 m3.
Proof. intros H1 H2. destruct (others_trans _ _ _ _ _ H1 H2) as (H & K). split; [|exact K]. intros j Hj. apply H; exact Hj. Qed.

Lemma motor_turn_spec new i acc m m' r : i <> F -> motor_turn NO_TASK new i acc m = Some (m', r) ->
  (exists acc', r = Some acc') /\ turned m m' i (get i new) /\ others i m m'.
Proof.
  intros Hi. unfold motor_turn, turned, moves, get_m. intros H. unbind H as s0 r0 E0. apply gets_inv in E0 as [-> ->]. unfold id in H.
  destruct (f_true _).
  2: { injection H as <- <-. split; [eauto|]. split; [reflexivity|]. repeat split. }
  unbind H as s1 spm E1. apply of_option_inv in E1 as [Es ->]. fold (steps_to m i (get i new) spm) in H.
  set (total := steps_to m i (get i new) spm) in *.
  set (level := direction_level i _) in *. change (NO_TASK =? 0) with true in H. unfold when in H.
  unbind H as s2 u2 E2. apply modify_inv in E2. unbind H as m1 u1 E3. apply modify_inv in E3.
  assert (others i m m1 /\ get i (direction_pins m1) = level /\ get i (remainingSteps m1) = total /\
    get i (currentValues m1) = get i (currentValues m) /\ get i (steppers m1) = get i (steppers m)) as (Ho & Hp & Hr & Hv & Hs).
  { subst m1 s2. destruct m. unfold others, axis, settings. cbn -[get put steps_to level total]. rewrite !get_put_eq.
    repeat split; try reflexivity. intros j Hj. rewrite !get_put_ne by exact Hj. reflexivity. }
  clear E2 E3 s2. unbind H as s3 r3 E4.
  destruct (fle f_one total) eqn:Hf.
  - unbind E4 as s4 r4 E5. injection E4 as <- <-. destruct (start_motor_spec _ _ _ _ _ _ _ _ Hi E5) as (n & En & Ho2 & S1 & S2 & S3 & S4 & S5).
    cbv iota beta in H. unbind H as s5 u5 E6. injection H as <- <-. apply unsaved_value in E6 as (Ho3 & V1 & V2 & V3 & V4).
    split; [eauto|]. split; [|eauto using others_join].
    exists spm. split; [exact Es|]. split; [exact V1|]. split; [congruence|]. fold total. rewrite Hf. exists n. repeat split; congruence.
  - injection E4 as <- <-. cbv iota beta in H. unbind H as s5 u5 E6. injection H as <- <-.
    apply unsaved_value in E6 as (Ho3 & V1 & V2 & V3 & V4). split; [eauto|]. split; [|eauto using others_join].
    exists spm. split; [exact Es|]. split; [exact V1|]. split; [congruence|]. fold total. rewrite Hf. split; congruence.
Qed.

Lemma turned_ext m1 m1' m2 m2' i t : axis i m1 = axis i m2 -> axis i m1' = axis i m2' -> eeprom m1 = eeprom m2 ->
  turned m1 m1' i t -> turned m2 m2' i t.
Proof.
  unfold turned, moves, steps_to, axis. intros H H' He. injection H as -> -> -> ->. injection H' as -> -> -> ->. rewrite He. auto.
Qed.

Lemma motor_turns_spec new axes acc m m' r : List.NoDup axes -> ~ In F axes -> motor_turns NO_TASK new axes acc m = Some (m', r) ->
  (exists acc', r = Some acc') /\ (forall i, In i axes -> turned m m' i (get i new)) /\
  (forall j, ~ In j axes -> axis j m' = axis j m) /\ settings m' = settings m /\ polls m' = polls m /\ travelled m' = travelled m.
Proof.
  revert acc m. induction axes as [|i axes IH]; intros acc m Hnd HF; cbn [motor_turns]; intros H.
  - injection H as <- <-. split; [eauto|]. split; [intros i []|]. auto.
  - apply NoDup_cons_iff in Hnd as [Hni Hnd]. cbn in HF. assert (i <> F) as Hi by (intros ->; tauto). unbind H as s r1 E1.
    destruct (motor_turn_spec _ _ _ _ _ _ Hi E1) as ([acc' ->] & Ht & Ho & Hset & Hp & Htr).
    destruct (IH acc' s Hnd ltac:(tauto) H) as (Hr & Hts & Hos & Hset' & Hp' & Htr').
    assert (eeprom s = eeprom m) as He by (unfold settings in Hset; congruence).
    split; [exact Hr|]. split; [|split; [|repeat split; congruence]].
    + intros j [<-|Hj].
      * apply (turned_ext m s m m'); [reflexivity|symmetry; apply Hos, Hni|reflexivity|exact Ht].
      * apply (turned_ext s m' m m'); [apply Ho; intros ->; contradiction|reflexivity|exact He|apply Hts, Hj].
    + intros j Hj. cbn in Hj. rewrite Hos, Ho by (intros ->; tauto) || tauto. reflexivity.
Qed.

(** ** A movement without tasks *)

(** The floats of a command and of the state are values of the format. *)
Definition gcode_ok (g : Gcode) : Prop :=
  f32_ok (valueX g) = true /\ f32_ok (valueY g) = true /\ f32_ok (valueZ g) = true /\ f32_ok (valueE g) = true /\ f32_ok (valueF g) = true.
Definition floats_ok (m : Motors) : Prop :=
  forall i, f32_ok (get i (currentValues m)) = true /\ f32_ok (get i (remainingSteps m)) = true.

Lemma ee_float_valid ee r v : ee_float ee r = Some v -> f32_ok v = true.
Proof. unfold ee_float. destruct (ee_read ee r); [|discriminate]. intros [= <-]. apply f_of_bits_valid. Qed.
#[local] Hint Resolve ee_float_valid : f32.

Lemma f_lit_valid p q : f32_ok (f_lit p q) = true.
Proof. apply fdiv_valid. Qed.
#[local] Hint Resolve f_lit_valid : f32.

Lemma total_steps_valid d spm change r : f32_ok d = true -> f32_ok spm = true -> f32_ok r = true -> f32_ok (total_steps d spm change r) = true.
Proof. intros. unfold total_steps, MICROSTEPS_PER_STEP. destruct change; auto 8 with f32. Qed.

Lemma target_valid g tasks m i : gcode_ok g -> floats_ok m -> f32_ok (target g tasks m i) = true.
Proof.
  intros (Hx & Hy & Hz & He & _) Hm. destruct (Hm i) as [Hc _]. unfold target, INCHES_TO_MILLIMETERS_SCALAR.
  destruct i; cbn [parameter]; repeat case_bool; auto with f32.
Qed.

Lemma steps_to_valid m i t spm : floats_ok m -> f32_ok t = true -> f32_ok spm = true -> f32_ok (steps_to m i t spm) = true.
Proof. intros Hm Ht Hs. destruct (Hm i). apply total_steps_valid; auto with f32. Qed.

Lemma target_feed g tasks m i : i <> F -> target g tasks (set_feed_rate g tasks m) i = target g tasks m i.
Proof. intros Hi. unfold set_feed_rate. case_bool; [|reflexivity]. destruct m as [[]]. destruct i; (reflexivity || contradiction). Qed.

(** Motor [i] is moved to [t]: it makes the whole steps of the distance, in the
    right direction, and the rest is kept for the next movement. *)
Definition moved (m m' : Motors) (i : Axes) (t : f32) : Prop :=
  if moves m i t then exists spm, ee_float (eeprom m) (steps_per_mm_region i) = Some spm /\
    get i (currentValues m') = t /\
    get i (direction_pins m') = direction_level i (flt t (get i (currentValues m))) /\
    (if fle f_one (steps_to m i t spm) then exists n, f_to_u32 (steps_to m i t spm) = Some n /\ 1 <= n /\
       get i (travelled m') = get i (travelled m) + (if flt t (get i (currentValues m)) then - n else n) /\
       get i (remainingSteps m') = steps_to m i t spm ⊖ f_of_Z n
     else get i (travelled m') = get i (travelled m) /\ get i (remainingSteps m') = steps_to m i t spm)
  else get i (currentValues m') = get i (currentValues m) /\ get i (direction_pins m') = get i (direction_pins m) /\
    get i (remainingSteps m') = get i (remainingSteps m) /\ get i (travelled m') = get i (travelled m).

Lemma still_motor m i : still m -> i <> F -> motorsIsMoving (get i (steppers m)) = false.
Proof.
  unfold still, motor_list, areMotorsMoving. cbn [existsb]. intros H Hi.
  destruct (steppers m) as [x y z e f]. cbn [atX atY atZ atE] in H. bool_hyps. destruct i; (assumption || contradiction).
Qed.

Lemma four_spec : List.NoDup (rev four) /\ ~ In F (rev four) /\ (forall i, i <> F -> In i (rev four)) /\
  List.NoDup four /\ ~ In F four /\ (forall i, i <> F -> In i four).
Proof.
  unfold four. cbn [rev app]. repeat split; try (intros []; cbn; intuition congruence);
    try (cbn; intuition discriminate); repeat constructor; cbn; intuition discriminate.
Qed.

(** A motor that was started is to make at least a step. *)
Lemma turned_count m m1 i t : i <> F -> still m -> floats_ok m -> f32_ok t = true -> turned m m1 i t ->
  motorsIsMoving (get i (steppers m1)) = true -> 1 <= motorsNumberOfSteps (get i (steppers m1)) < 4294967296.
Proof.
  intros Hi Hs Hv Htv Ht Hm. unfold turned in Ht. destruct (moves m i t).
  - destruct Ht as (spm & Es & _ & _ & Hc). destruct (fle f_one _) eqn:Hf.
    + destruct Hc as (n & En & _ & -> & _). pose proof (f_to_u32_range _ _ En).
      pose proof (f_to_u32_pos _ _ (steps_to_valid m i t spm Hv Htv (ee_float_valid _ _ _ Es)) Hf En). lia.
    + destruct Hc as [E1 _]. rewrite E1, still_motor in Hm by assumption. discriminate.
  - assert (get i (steppers m1) = get i (steppers m)) as E1 by (unfold axis in Ht; congruence).
    rewrite E1, still_motor in Hm by assumption. discriminate.
Qed.

Lemma turned_moved cycles m m1 m2 r i t : i <> F -> still m -> floats_ok m -> f32_ok t = true -> turned m m1 i t ->
  perform cycles m1 = Some (m2, r) -> travelled m1 = travelled m ->
  get i (travelled m2) = get i (travelled m1) + signed_steps m1 i -> moved m m2 i t.
Proof.
  intros Hi Hs Hv Htv Ht Hperf Htr H2. pose proof (perform_keeps cycles _ _ _ Hperf) as K. unfold performed in K.
  assert (currentValues m2 = currentValues m1 /\ direction_pins m2 = direction_pins m1 /\ remainingSteps m2 = remainingSteps m1)
    as (K1 & K2 & K3) by (repeat split; congruence). clear K. rewrite Htr in H2. unfold signed_steps, steps_due in H2.
  unfold turned in Ht. unfold moved. rewrite K1, K2, K3. destruct (moves m i t).
  - destruct Ht as (spm & Es & Ev & Ep & Hc). exists spm. split; [exact Es|]. split; [exact Ev|]. split; [exact Ep|].
    destruct (fle f_one _) eqn:Hf.
    + destruct Hc as (n & En & Em & Esn & Er). exists n. split; [exact En|].
      split; [exact (f_to_u32_pos _ _ (steps_to_valid m i t spm Hv Htv (ee_float_valid _ _ _ Es)) Hf En)|]. split; [|exact Er].
      rewrite H2, Em, Esn, Ep. destruct i, (flt t _); reflexivity || contradiction.
    + destruct Hc as [E Er]. rewrite E, still_motor in H2 by assumption. split; [|exact Er]. rewrite H2. case_bool; lia.
  - unfold axis in Ht. injection Ht as E1 E2 E3 E4. rewrite E2, still_motor in H2 by assumption.
    repeat split; try assumption. rewrite H2. case_bool; lia.
Qed.

Lemma get_targets g tasks m i : i <> F -> get i (targets g tasks m) = target g tasks m i.
Proof. destruct i; (reflexivity || contradiction). Qed.

Lemma feed_others g tasks m : others F m (set_feed_rate g tasks m).
Proof.
  unfold set_feed_rate. case_bool; [|repeat split]. destruct m. unfold others, axis, settings. cbn -[get put].
  repeat split. intros j Hj. rewrite !get_put_ne by exact Hj. reflexivity.
Qed.

(** The turns of all motors, from the state before the feed rate is set. *)
Lemma no_task_turns g m m1 r : let m0 := set_feed_rate g NO_TASK m in
  motor_turns NO_TASK (targets g NO_TASK m0) (rev four) (f_zero, all NONE) m0 = Some (m1, r) ->
  (exists acc, r = Some acc) /\ (forall i, i <> F -> turned m m1 i (target g NO_TASK m i)) /\
  settings m1 = settings m /\ polls m1 = polls m /\ travelled m1 = travelled m.
Proof.
  intros m0 H. destruct four_spec as (Hnd & HnF & Hin & _). destruct (feed_others g NO_TASK m) as (Ha & Hs & Hp & Ht). fold m0 in Ha, Hs, Hp, Ht.
  destruct (motor_turns_spec _ _ _ _ _ _ Hnd HnF H) as (Hr & Hts & _ & Hs1 & Hp1 & Ht1). split; [exact Hr|].
  split; [|repeat split; congruence]. intros i Hi. specialize (Hts i (Hin i Hi)). rewrite get_targets in Hts by exact Hi.
  unfold m0 in Hts at 2. rewrite target_feed in Hts by exact Hi.
  apply (turned_ext m0 m1 m m1); [apply Ha, Hi|reflexivity| |exact Hts]. unfold settings in Hs. congruence.
Qed.

(** A movement without tasks takes the turns of the motors and performs them. *)
Lemma move_no_task_inv g m m' r : move_no_task g m = Some (m', r) -> let m0 := set_feed_rate g NO_TASK m in
  exists m1 acc, motor_turns NO_TASK (targets g NO_TASK m0) (rev four) (f_zero, all NONE) m0 = Some (m1, Some acc) /\
    (if emergency m1 then m' = m1 else exists u, perform (fst acc) m1 = Some (m', u)).
Proof.
  intros H m0. unfold move_no_task, get_m in H. unbind H as s0 u0 E0. apply modify_inv in E0. fold m0 in E0. subst s0.
  unbind H as s0 m1 E0. apply gets_inv in E0 as [-> ->]. unfold id in H. unbind H as s0 new E0. apply of_option_inv in E0 as [E0 ->].
  unfold enforced in E0. cbn in E0. injection E0 as <-. unbind H as s1 r1 E1.
  destruct (no_task_turns g m s1 r1 E1) as ((acc & ->) & _). exists s1, acc. split; [exact E1|]. destruct acc as [highest back].
  unbind H as s2 stop E2. apply gets_inv in E2 as [-> ->]. destruct (emergency s1); [injection H as <- _; reflexivity|].
  cbn [fst]. destruct r. eauto.
Qed.

(** No conversion to an integer overflows in the set-up of a movement. *)
Definition representable (g : Gcode) (m : Motors) : bool :=
  let m0 := set_feed_rate g NO_TASK m in
  match motor_turns NO_TASK (targets g NO_TASK m0) (rev four) (f_zero, all NONE) m0 with
  | Some (m1, Some (cycles, _)) =>
      forallb (fun i => let s := get i (steppers m1) in
        negb (motorsIsMoving s) ||
        (bool_decide (is_Some (delay_and_skips (motorsNumberOfSteps s) cycles)) &&
         (negb (bool_decide (i = E)) || bool_decide (is_Some (extruder_vref (eeprom m1)))))) four
  | _ => false
  end.

Lemma representable_prepared g m : still m -> floats_ok m -> gcode_ok g -> representable g m = true ->
  let m0 := set_feed_rate g NO_TASK m in
  exists m1 acc, motor_turns NO_TASK (targets g NO_TASK m0) (rev four) (f_zero, all NONE) m0 = Some (m1, Some acc) /\
    forall i, i <> F -> prepared (fst acc) m1 i.
Proof.
  intros Hs Hv Hg Hr m0. unfold representable in Hr. fold m0 in Hr.
  destruct (motor_turns _ _ _ _ m0) as [[m1 [[cycles back]|]]|] eqn:Et; try discriminate. exists m1, (cycles, back). split; [reflexivity|].
  destruct (no_task_turns g m m1 _ Et) as (_ & Ht & _). intros i Hi Hm. destruct four_spec as (_ & _ & _ & _ & _ & Hin).
  pose proof (proj1 (forallb_forall _ _) Hr i (Hin i Hi)) as Hc. cbv beta zeta in Hc. rewrite Hm in Hc. cbn [negb orb] in Hc.
  apply andb_true_iff in Hc as [Hd He]. apply bool_decide_eq_true in Hd. split; [|split; [exact Hd|]].
  - exact (turned_count m m1 i _ Hi Hs Hv (target_valid g NO_TASK m i Hg Hv) (Ht i Hi) Hm).
  - intros ->. rewrite bool_decide_eq_true_2 in He by reflexivity. apply bool_decide_eq_true in He. exact He.
Qed.

(** A movement that is representable is made. *)
Lemma no_task_spec g m : still m -> floats_ok m -> gcode_ok g -> representable g m = true -> emergency m = false ->
  exists m', move_no_task g m = Some (m', tt) /\ still m' /\ settings m' = settings m /\
    (polls m = None -> polls m' = None /\ forall i, i <> F -> moved m m' i (target g NO_TASK m i)).
Proof.
  intros Hs Hv Hg Hr He. destruct (representable_prepared g m Hs Hv Hg Hr) as (m1 & acc & Et & Hp). cbv zeta in Et.
  destruct (no_task_turns g m m1 _ Et) as (_ & Ht & Hset & Hpoll & Htr).
  destruct (perform_spec (fst acc) m1 Hp) as (m' & Ep & Hs' & Hm'). exists m'. split; [|split; [exact Hs'|]].
  - unfold move_no_task, get_m. step_pure. step_pure. unfold id. step_pure. step Et. destruct acc as [cycles back]. cbv iota beta.
    step_pure. unfold emergency in He |- *. rewrite Hpoll, He. exact Ep.
  - pose proof (perform_keeps (fst acc) _ _ _ Ep) as K. unfold performed in K. split.
    + unfold settings in *. congruence.
    + rewrite <- Hpoll. intros HN. destruct (Hm' HN) as [-> Hd]. split; [reflexivity|]. intros i Hi.
      apply (turned_moved (fst acc) m m1 m' tt i _ Hi Hs Hv (target_valid g NO_TASK m i Hg Hv) (Ht i Hi) Ep Htr (Hd i Hi)).
Qed.

(** ** What movements keep *)

Lemma no_task_keeps g : Keeps settings (move_no_task g).
Proof.
  intros m m' r H. destruct (move_no_task_inv _ _ _ _ H) as (m1 & acc & Et & Hp).
  destruct (no_task_turns g m m1 _ Et) as (_ & _ & Hset & _). rewrite <- Hset.
  destruct (emergency m1); [subst; reflexivity|]. destruct Hp as [u Hp]. pose proof (perform_keeps _ _ _ _ Hp) as K.
  unfold performed in K. unfold settings. congruence.
Qed.
#[export] Hint Resolve no_task_keeps : keeps.

Definition feed_rate (m : Motors) : f32 := atF (currentValues m).

Lemma no_task_feed g : flag (commandParameters g) PARAMETER_F_OFFSET = false -> Keeps feed_rate (move_no_task g).
Proof.
  intros Hg m m' r H. destruct (move_no_task_inv _ _ _ _ H) as (m1 & acc & Et & Hp).
  unfold set_feed_rate in Et. rewrite Hg in Et. destruct four_spec as (Hnd & HnF & _).
  destruct (motor_turns_spec _ _ _ _ _ _ Hnd HnF Et) as (_ & _ & Ho & _). specialize (Ho F HnF). unfold axis in Ho.
  assert (feed_rate m1 = feed_rate m) as <- by (unfold feed_rate; injection Ho as E1 _ _ _; exact E1).
  destruct (emergency m1); [subst; reflexivity|]. destruct Hp as [u Hp]. pose proof (perform_keeps _ _ _ _ Hp) as K.
  unfold performed in K. unfold feed_rate. congruence.
Qed.

(** ** Segments *)

(** One segment of a movement, and a computation for each number of a list. *)
Definition segment (compensate : bool) (changes ends : PerAxis f32) (total counter : Z) : M Motors unit :=
  m ← get_m id; move_no_task (segment_command compensate (segment_values m changes ends counter total) m).

Fixpoint each {S A} (f : A -> M S unit) (l : list A) : M S unit :=
  match l with [] => mret tt | a :: l => _ ← f a; each f l end.

Lemma keeps_each {S A B} (f : S -> B) (c : A -> M S unit) l : (forall a, Keeps f (c a)) -> Keeps f (each c l).
Proof. intros Hc. induction l as [|a l IH]; cbn [each]; [apply keeps_ret|]. apply keeps_bind; [apply Hc|intros _; exact IH]. Qed.

Lemma segments_from compensate changes ends total n : forall k m, 1 <= k -> k + Z.of_nat n = total + 1 -> total < 4294967296 -> (0 < n)%nat ->
  segments_loop n compensate changes ends k total m = each (segment compensate changes ends total) (seqZ k (Z.of_nat n)) m.
Proof.
  induction n as [|n IH]; intros k m Hk Hn Ht H0; [lia|]. cbn [segments_loop].
  rewrite seqZ_cons by lia. cbn [each].
  assert (segment compensate changes ends total k m =
    move_no_task (segment_command compensate (segment_values m changes ends k total) m) m) as Es by reflexivity.
  unfold get_m. run. rewrite Es. unfold id.
  destruct (move_no_task _ m) as [[m1 []]|]; [|reflexivity].
  destruct (Z.eqb_spec k total) as [->|Hne].
  - replace (Z.pred (Z.of_nat (S n))) with 0 by lia. reflexivity.
  - rewrite u32_id by lia. rewrite IH by lia. do 2 f_equal; lia.
Qed.

Lemma segment_command_no_feed compensate values m :
  flag (commandParameters (segment_command compensate values m)) PARAMETER_F_OFFSET = false.
Proof. unfold segment_command. destruct values, compensate; reflexivity. Qed.

Lemma segments_loop_keeps fuel compensate changes ends k total :
  Keeps (fun m => (settings m, feed_rate m)) (segments_loop fuel compensate changes ends k total).
Proof.
  revert k. induction fuel as [|fuel IH]; intros k; cbn [segments_loop]; [apply keeps_of_option|].
  apply keeps_bind; [apply keeps_gets|]. intros m. apply keeps_bind; [|intros _; case_bool; [apply keeps_ret|apply IH]].
  intros s s' r H. rewrite (no_task_keeps _ _ _ _ H), (no_task_feed _ (segment_command_no_feed _ _ _) _ _ _ H). reflexivity.
Qed.

(** The state in which the segments start, but for the values. *)
Definition invalid_xyz (p : PerAxis bool) : PerAxis bool := put X false (put Y false (put Z_ false p)).

Definition split_settings (compensate : bool) (m : Motors) : Motors :=
  set_mode ABSOLUTE (set_extruderMode ABSOLUTE
    (if compensate then set_currentStateOfValues (invalid_xyz (currentStateOfValues m)) m else m)).

(** What a split movement keeps: the modes are restored, the position is the one
    before, which is the end of the movement, and so are the validities unless an
    emergency stop occurred. *)
Lemma split_spec compensate m m' r : splitUpMovement compensate m = Some (m', r) ->
  currentValues m' = currentValues m /\ currentMotorDirections m' = currentMotorDirections m /\
  (mode m', extruderMode m', units m') = (mode m, extruderMode m, units m) /\ startValues m' = startValues m /\
  (bed m', bedHeightOffset m', eeprom m') = (bed m, bedHeightOffset m, eeprom m) /\
  currentStateOfValues m' = (if emergency m' && compensate then invalid_xyz (currentStateOfValues m) else currentStateOfValues m).
Proof.
  intros H. unfold splitUpMovement, get_m in H.
  unbind H as s0 r0 E0. apply gets_inv in E0 as [-> ->]. unfold id in H.
  unbind H as s1 r1 E1. unbind H as s2 r2 E2. unbind H as s3 r3 E3. unbind H as s4 r4 E4. unbind H as s5 r5 E5. unbind H as s6 r6 E6.
  unbind H as s7 n E7. apply of_option_inv in E7 as [_ ->]. unbind H as s8 r8 E8. apply segments_loop_keeps in E8.
  assert (settings s6 = settings (split_settings compensate m) /\ feed_rate s6 = feed_rate m) as [K1 K2].
  { apply modify_inv in E1, E2, E4, E5, E6. destruct compensate.
    - cbn [when] in E3. unbind E3 as t1 u1 F1. unbind E3 as t2 u2 F2. unbind E3 as t3 u3 F3. apply modify_inv in E3, F1, F2, F3.
      subst. destruct m as [[]]. split; reflexivity.
    - injection E3 as <- _. subst. destruct m as [[]]. split; reflexivity. }
  pose proof (f_equal snd E8) as E9. apply (f_equal fst) in E8. cbn [fst snd] in E8, E9. rewrite K1 in E8. rewrite K2 in E9. clear -H E8 E9.
  unbind H as s9 r9 E10. unbind H as s10 stop E11. apply gets_inv in E11 as [-> ->]. unbind H as s11 r11 E12. unbind H as s12 r12 E13.
  apply modify_inv in E13, H. injection E10 as <- _. unfold split_settings, settings in E8.
  destruct m as [[x y z e f] dirs valid md em un sv bd off st rs pins on vr se ee po tr].
  destruct s8 as [[x' y' z' e' f'] dirs' valid' md' em' un' sv' bd' off' st' rs' pins' on' vr' se' ee' po' tr'].
  destruct compensate; cbn in E8, E9; injection E8; clear E8; intros; subst; (destruct (emergency _) eqn:Em in E12;
    cbn [negb when] in E12; injection E12 as <- _; cbn in Em |- *; unfold emergency in *; cbn in Em |- *; rewrite ?Em; repeat split).
Qed.

(** ** Backlash *)

Lemma sub_self x : is_fin x = true -> f_true (fabs (x ⊖ x)) = false.
Proof.
  destruct x as [[]| | |s m e]; try discriminate; intros _; [reflexivity|reflexivity|]. unfold fsub, SFsub. rewrite Z.sub_diag. reflexivity.
Qed.

(** A motor's values after a movement without tasks. *)
Lemma no_task_axis g m m' r : move_no_task g m = Some (m', r) -> exists m1,
  currentValues m' = currentValues m1 /\ remainingSteps m' = remainingSteps m1 /\ direction_pins m' = direction_pins m1 /\
  forall i, i <> F -> turned m m1 i (target g NO_TASK m i).
Proof.
  intros H. destruct (move_no_task_inv _ _ _ _ H) as (m1 & acc & Et & Hp). exists m1.
  destruct (no_task_turns g m m1 _ Et) as (_ & Ht & _).
  destruct (emergency m1); [subst; auto|]. destruct Hp as [u Hp]. pose proof (perform_keeps _ _ _ _ Hp) as K.
  unfold performed in K. repeat split; try congruence. exact Ht.
Qed.

Lemma turned_value m m1 i t : turned m m1 i t -> moves m i t = true -> get i (currentValues m1) = t.
Proof. unfold turned. intros H E1. rewrite E1 in H. destruct H as (spm & _ & H & _). exact H. Qed.

(** A motor that a command does not name keeps its value; if the value is finite,
    the motor is not touched at all. *)
Lemma turned_own m m1 i : turned m m1 i (get i (currentValues m)) ->
  get i (currentValues m1) = get i (currentValues m) /\
  (is_fin (get i (currentValues m)) = true ->
     get i (remainingSteps m1) = get i (remainingSteps m) /\ get i (direction_pins m1) = get i (direction_pins m)).
Proof.
  intros H. split.
  - destruct (moves m i (get i (currentValues m))) eqn:Em; [exact (turned_value _ _ _ _ H Em)|].
    unfold turned in H. rewrite Em in H. unfold axis in H. congruence.
  - intros Hf. unfold turned, moves in H. rewrite sub_self in H by exact Hf. unfold axis in H. split; congruence.
Qed.

Lemma backlash_spec dx dy m m' r : compensateForBacklash dx dy m = Some (m', r) ->
  currentValues m' = currentValues m /\ settings m' = settings m /\
  forall i, i = X \/ i = Y \/ is_fin (get i (currentValues m)) = true /\ i <> F ->
    get i (remainingSteps m') = get i (remainingSteps m) /\ get i (direction_pins m') = get i (direction_pins m).
Proof.
  intros H. unfold compensateForBacklash, get_m in H.
  unbind H as s0 r0 E0. apply gets_inv in E0 as [-> ->]. unfold id in H. unbind H as s1 r1 E1. apply modify_inv in E1.
  unbind H as s2 x E2. apply of_option_inv in E2 as [_ ->]. unbind H as s3 y E3. apply of_option_inv in E3 as [_ ->].
  unbind H as s4 f E4. apply of_option_inv in E4 as [_ ->]. unbind H as s5 r5 E5. apply modify_inv in E5. unbind H as s6 r6 E6.
  set (g := movement _ _ _ _ _ _) in E6. pose proof (no_task_keeps _ _ _ _ E6) as K.
  destruct (no_task_axis _ _ _ _ E6) as (m1 & V & R & P & Ht). clear E6.
  assert (get Z_ (currentValues s5) = get Z_ (currentValues m) /\ get E (currentValues s5) = get E (currentValues m)) as [VZ VE]
    by (subst s1 s5; destruct m; auto).
  assert (forall i, i = Z_ \/ i = E -> get i (currentValues s6) = get i (currentValues m) /\
    (is_fin (get i (currentValues m)) = true -> get i (remainingSteps s6) = get i (remainingSteps m) /\
       get i (direction_pins s6) = get i (direction_pins m))) as Hown.
  { intros i Hi. assert (i <> F) as HF by (destruct Hi as [-> | ->]; discriminate). specialize (Ht i HF).
    replace (target g NO_TASK s5 i) with (get i (currentValues s5)) in Ht by (destruct Hi as [-> | ->]; reflexivity).
    apply turned_own in Ht. rewrite V, R, P. subst s1 s5. destruct m as [[] p1 p2 p3 p4 p5 p6 p7 p8 p9 [] [] p12 p13 p14 p15 p16 p17]. destruct Hi as [-> | ->]; exact Ht. }
  destruct (Hown Z_ ltac:(auto)) as [OZ OZ']. destruct (Hown E ltac:(auto)) as [OE OE']. clear Hown Ht V R P VZ VE.
  assert (settings s6 = settings (set_mode RELATIVE m)) as K' by (rewrite K; subst s5 s1; destruct m; reflexivity).
  clear K m1 g E1 E5 s1 s5.
  unbind H as s7 r7 E7. injection E7 as <- _. unbind H as s8 r8 E8. unbind H as s9 r9 E9. unbind H as s10 r10 E10.
  apply modify_inv in E8, E9, E10, H.
  destruct m as [[x0 y0 z0 e0 f0] dirs valid md em un sv bd off st [] [] on vr se ee po tr].
  destruct s6 as [[x' y' z' e' f'] dirs' valid' md' em' un' sv' bd' off' st' [] [] on' vr' se' ee' po' tr'].
  cbn in OZ, OE, OZ', OE', K'. unfold settings in K'. cbn in K'. injection K'; clear K'; intros; subst. cbn.
  split; [reflexivity|]. split; [reflexivity|].
  intros i Hi. destruct i; cbn in Hi |- *; auto; destruct Hi as [|[|[Hf Hi]]]; try discriminate; try contradiction; auto.
Qed.

(** ** The turns of the motors for a task *)

(** What the turns do not change for a task. *)
Definition untouched (m : Motors) :=
  (currentMotorDirections m, (mode m, extruderMode m, units m), startValues m, (bed m, bedHeightOffset m, eeprom m),
   (steppers m, remainingSteps m, direction_pins m), (motors_on m, vrefs m), (polls m, travelled m), feed_rate m).

(** The value that a motor gets, and whether it makes at least a step. *)
Definition reached (m : Motors) (i : Axes) (t : f32) : f32 := if moves m i t then t else get i (currentValues m).
Definition makes_step (m : Motors) (i : Axes) (t : f32) : bool :=
  moves m i t && match ee_float (eeprom m) (steps_per_mm_region i) with Some spm => fle f_one (steps_to m i t spm) | None => false end.

(** The noted change of direction of X and Y leads to the direction of the
    movement. *)
Definition settled (dir : bool) (i : Axes) (back : PerAxis BacklashDirection) : bool :=
  match get i back with NONE => dir | d => direction_level i (bool_decide (d = NEGATIVE)) end.
Definition final_direction (m : Motors) (i : Axes) (t : f32) : bool :=
  if makes_step m i t then direction_level i (flt t (get i (currentValues m))) else get i (currentMotorDirections m).

Definition validity_kept (m m' : Motors) : Prop :=
  forall j, get j (currentStateOfValues m') = get j (currentStateOfValues m) \/
            get j (currentStateOfValues m') = false /\ (j = X \/ j = Y \/ j = Z_).

Lemma invalidate_spec i m : i <> F -> exists m', invalidate i m = Some (m', tt) /\
  untouched m' = untouched m /\ currentValues m' = currentValues m /\ validity_kept m m'.
Proof.
  intros Hi. unfold invalidate, validity_kept. destruct i; try contradiction; (eexists; split; [reflexivity|]);
    destruct m; cbn -[get put]; (split; [reflexivity|split; [reflexivity|]]); intros j; auto;
    rewrite get_put; destruct (decide _); subst; auto.
Qed.

Lemma note_backlash_spec i lower dirs back :
  (forall j, j <> i -> get j (note_backlash i lower dirs back) = get j back) /\
  (i = X \/ i = Y -> get i back = NONE -> settled (get i dirs) i (note_backlash i lower dirs back) = direction_level i lower).
Proof.
  unfold note_backlash, settled. split.
  - intros j Hj. destruct i; try reflexivity; case_bool; try reflexivity; apply get_put_ne, Hj.
  - intros [-> | ->] Hn; (destruct (Bool.eqb _ _) eqn:Eb; [rewrite Hn; apply Bool.eqb_prop, Eb|rewrite get_put_eq; destruct lower; reflexivity]).
Qed.

(** The turn of a motor for a task: too big, or its value is the target. *)
Definition noted (m m' : Motors) (i : Axes) (t : f32) (back back' : PerAxis BacklashDirection) : Prop :=
  currentValues m' = put i (reached m i t) (currentValues m) /\
  (forall j, j <> i -> get j back' = get j back) /\
  (i = X \/ i = Y -> get i back = NONE -> settled (get i (currentMotorDirections m)) i back' = final_direction m i t).

Definition too_big (m : Motors) (i : Axes) (t : f32) : bool :=
  moves m i t && match ee_float (eeprom m) (steps_per_mm_region i) with
                 | Some spm => fle f_one (steps_to m i t spm) && flt UINT32_MAX_f (steps_to m i t spm)
                 | None => false
                 end.

Lemma put_get {A} (i : Axes) (p : PerAxis A) : put i (get i p) p = p.
Proof. destruct p, i; reflexivity. Qed.

Lemma set_value_spec i t m m' r : i <> F -> unsaved (fun m => set_currentValues (put i t (currentValues m)) m) m = Some (m', r) ->
  untouched m' = untouched m /\ currentValues m' = put i t (currentValues m) /\ currentStateOfValues m' = currentStateOfValues m.
Proof. intros Hi H. injection H as <- _. destruct m as [[]]. destruct i; try contradiction; auto. Qed.

Lemma task_turn_spec tasks new i acc m m' r : (tasks =? 0) = false -> i <> F -> motor_turn tasks new i acc m = Some (m', r) ->
  untouched m' = untouched m /\ validity_kept m m' /\
  match r with
  | None => too_big m i (get i new) = true /\ currentValues m' = currentValues m
  | Some acc' => too_big m i (get i new) = false /\ noted m m' i (get i new) (snd acc) (snd acc')
  end.
Proof.
  intros Htasks Hi H. unfold motor_turn, get_m in H. unbind H as s0 r0 E0. apply gets_inv in E0 as [-> ->]. unfold id in H.
  unfold noted, reached, final_direction, makes_step, too_big, moves. rewrite Htasks in H. cbn [when] in H.
  destruct (f_true _); cbn [andb].
  2: { injection H as <- <-. rewrite put_get. split; [reflexivity|]. split; [intros j; auto|]. repeat split; auto.
       intros _ Hn. unfold settled. rewrite Hn. reflexivity. }
  unbind H as s1 spm E1. apply of_option_inv in E1 as [Es ->]. rewrite Es. fold (steps_to m i (get i new) spm) in H.
  set (total := steps_to m i (get i new) spm) in *. unbind H as s2 r2 E2. injection E2 as <- _. unbind H as s3 r3 E3. injection E3 as <- _.
  unbind H as s4 r4 E4. unfold note_motor in E4. destruct (fle f_one total); cbn [andb].
  - unbind E4 as s5 r5 E5. injection E4 as <- <-. destruct (flt UINT32_MAX_f total).
    + injection E5 as <- <-. cbv iota beta in H. injection H as <- <-. split; [reflexivity|]. split; [intros j; auto|auto].
    + unfold get_m in E5. unbind E5 as s6 r6 E6. apply gets_inv in E6 as [-> ->]. unbind E5 as s7 r7 E7.
      destruct (invalidate_spec i m Hi) as (m1 & E8 & U1 & V1 & K1). rewrite E8 in E7. injection E7 as <- _. injection E5 as <- <-.
      cbv iota beta in H. unbind H as s9 r9 E9. injection H as <- <-. destruct (set_value_spec _ _ _ _ _ Hi E9) as (U2 & V2 & K2).
      destruct (note_backlash_spec i (flt (get i new) (get i (currentValues m))) (currentMotorDirections m) (snd acc)) as [N1 N2].
      split; [congruence|]. split; [intros j; rewrite K2; apply K1|]. split; [reflexivity|]. split; [congruence|]. split; [exact N1|exact N2].
  - injection E4 as <- <-. cbv iota beta in H. unbind H as s9 r9 E9. injection H as <- <-.
    destruct (set_value_spec _ _ _ _ _ Hi E9) as (U2 & V2 & K2). split; [exact U2|]. split; [intros j; rewrite K2; auto|].
    split; [reflexivity|]. split; [exact V2|]. split; [reflexivity|]. intros _ Hn. unfold settled. rewrite Hn. reflexivity.
Qed.

Lemma task_ext m m1 i t : untouched m1 = untouched m -> get i (currentValues m1) = get i (currentValues m) ->
  too_big m1 i t = too_big m i t /\ reached m1 i t = reached m i t /\ final_direction m1 i t = final_direction m i t.
Proof.
  unfold untouched. intros U V.
  assert (eeprom m1 = eeprom m /\ direction_pins m1 = direction_pins m /\ remainingSteps m1 = remainingSteps m /\
    currentMotorDirections m1 = currentMotorDirections m) as (U1 & U2 & U3 & U4) by (repeat split; congruence).
  unfold too_big, reached, final_direction, makes_step, moves, steps_to. rewrite V, U1, U2, U3, U4. auto.
Qed.

Lemma validity_trans m1 m2 m3 : validity_kept m1 m2 -> validity_kept m2 m3 -> validity_kept m1 m3.
Proof. intros H1 H2 j. destruct (H1 j) as [<-|[E1 K1]], (H2 j) as [->|[E2 K2]]; auto. Qed.

Lemma task_turns_spec tasks new axes acc m m' r : (tasks =? 0) = false -> List.NoDup axes -> ~ In F axes ->
  motor_turns tasks new axes acc m = Some (m', r) ->
  untouched m' = untouched m /\ validity_kept m m' /\
  match r with
  | None => exists i, In i axes /\ too_big m i (get i new) = true
  | Some acc' =>
      (forall i, In i axes -> too_big m i (get i new) = false /\ get i (currentValues m') = reached m i (get i new) /\
         (i = X \/ i = Y -> get i (snd acc) = NONE ->
          settled (get i (currentMotorDirections m)) i (snd acc') = final_direction m i (get i new))) /\
      (forall j, ~ In j axes -> get j (currentValues m') = get j (currentValues m) /\ get j (snd acc') = get j (snd acc))
  end.
Proof.
  intros Htasks. revert acc m. induction axes as [|i axes IH]; intros acc m Hnd HF; cbn [motor_turns]; intros H.
  - injection H as <- <-. split; [reflexivity|]. split; [intros j; auto|]. split; [intros i []|auto].
  - apply NoDup_cons_iff in Hnd as [Hni Hnd]. cbn in HF. assert (i <> F) as Hi by (intros ->; tauto). unbind H as m1 r1 E1.
    destruct (task_turn_spec _ _ _ _ _ _ _ Htasks Hi E1) as (U1 & K1 & Hr1). destruct r1 as [acc1|].
    2: { injection H as <- <-. split; [exact U1|]. split; [exact K1|]. exists i. split; [left; reflexivity|apply Hr1]. }
    destruct Hr1 as (B1 & V1 & N1 & N2). destruct (IH acc1 m1 Hnd ltac:(tauto) H) as (U2 & K2 & Hr).
    assert (forall j, j <> i -> get j (currentValues m1) = get j (currentValues m)) as Vj by (intros j Hj; rewrite V1; apply get_put_ne, Hj).
    assert (currentMotorDirections m1 = currentMotorDirections m) as Ed by (unfold untouched in U1; congruence).
    split; [congruence|]. split; [exact (validity_trans _ _ _ K1 K2)|]. destruct r as [acc'|].
    + destruct Hr as [Hr1 Hr2]. split.
      * intros j [<-|Hj].
        -- destruct (Hr2 i Hni) as [V2 B2]. split; [exact B1|]. split; [rewrite V2, V1; apply get_put_eq|].
           intros Hxy Hn. rewrite <- (N2 Hxy Hn). unfold settled. rewrite B2. reflexivity.
        -- assert (j <> i) as Hji by (intros ->; contradiction). destruct (task_ext m m1 j (get j new) U1 (Vj j Hji)) as (T1 & T2 & T3).
           destruct (Hr1 j Hj) as (A1 & A2 & A3). rewrite <- T1, <- T2, <- T3, <- Ed. split; [exact A1|]. split; [exact A2|].
           intros Hxy Hn. apply A3; [exact Hxy|]. rewrite N1 by exact Hji. exact Hn.
      * intros j Hj. cbn in Hj. destruct (Hr2 j ltac:(tauto)) as [A1 A2]. rewrite A1, A2.
        assert (j <> i) as Hji by (intros ->; tauto). split; [apply Vj, Hji|apply N1, Hji].
    + destruct Hr as (j & Hj & Hb). exists j. split; [right; exact Hj|].
      rewrite <- (proj1 (task_ext m m1 j (get j new) U1 (Vj j ltac:(intros ->; contradiction)))). exact Hb.
Qed.

(** ** Movements with tasks *)

(** The state in which the turns of the motors start. *)
Definition started (g : Gcode) (tasks : Z) (m : Motors) : Motors :=
  set_feed_rate g tasks (set_startValues (copy_motors (currentValues m) (startValues m)) m).

Lemma started_spec g tasks m : let m0 := started g tasks m in
  (forall i t, i <> F -> too_big m0 i t = too_big m i t /\ reached m0 i t = reached m i t /\ final_direction m0 i t = final_direction m i t) /\
  startValues m0 = copy_motors (currentValues m) (startValues m) /\ currentStateOfValues m0 = currentStateOfValues m /\
  (forall i, i <> F -> get i (currentValues m0) = get i (currentValues m)) /\
  set_startValues (startValues m) (set_currentValues (currentValues m) m0) = m.
Proof.
  unfold started, set_feed_rate. destruct m as [[] d v md em un [] b bo st rs dp on vr se ee po tr]. cbn -[too_big reached final_direction].
  split; [|case_bool; repeat split; intros []; (reflexivity || contradiction)].
  intros i t Hi. unfold too_big, reached, final_direction, makes_step, moves, steps_to.
  case_bool; destruct i; (repeat split; reflexivity) || contradiction.
Qed.

(** The values are restored for a movement that is too big. *)
Lemma restored_values m m0 m1 : untouched m1 = untouched m0 ->
  startValues m0 = copy_motors (currentValues m) (startValues m) ->
  forall i, i <> F -> get i (copy_motors (startValues m1) (currentValues m1)) = get i (currentValues m).
Proof.
  intros U S i Hi. replace (startValues m1) with (startValues m0) by (unfold untouched in U; congruence). rewrite S.
  destruct i; (reflexivity || contradiction).
Qed.

(** The second part of a movement with tasks, after the turns of the motors. *)
Definition carry_out (tasks : Z) (valid : PerAxis bool) (back : PerAxis BacklashDirection) : M Motors bool :=
  let levelled := flag tasks BED_LEVELING_AND_SKEW_TASK in
  _ ← when (negb levelled) (modify (fun m => set_currentStateOfValues (invalid_xyz (currentStateOfValues m)) m));
  _ ← when (flag tasks BACKLASH_TASK && negb (bool_decide (atX back = NONE) && bool_decide (atY back = NONE)))
        (compensateForBacklash (atX back) (atY back));
  _ ← splitUpMovement levelled;
  _ ← modify (settle_directions back);
  stop ← get_m emergency;
  _ ← when (negb stop) (modify (set_currentStateOfValues (if levelled then valid else invalid_xyz valid)));
  mret true.

Lemma carry_out_spec tasks valid back m m' b : carry_out tasks valid back m = Some (m', b) ->
  currentValues m' = currentValues m /\
  (forall i, get i (currentMotorDirections m') =
     if decide (i = X \/ i = Y) then settled (get i (currentMotorDirections m)) i back else get i (currentMotorDirections m)) /\
  (mode m', extruderMode m', units m', bed m', bedHeightOffset m', eeprom m') =
    (mode m, extruderMode m, units m, bed m, bedHeightOffset m, eeprom m) /\
  currentStateOfValues m' =
    (if emergency m' then invalid_xyz (currentStateOfValues m)
     else if flag tasks BED_LEVELING_AND_SKEW_TASK then valid else invalid_xyz valid).
Proof.
  intros H. unfold carry_out, get_m in H. set (levelled := flag tasks BED_LEVELING_AND_SKEW_TASK) in *.
  unbind H as s1 r1 E1. unbind H as s2 r2 E2. unbind H as s3 r3 E3. unbind H as s4 r4 E4. apply modify_inv in E4.
  unbind H as s5 stop E5. apply gets_inv in E5 as [-> ->]. unbind H as s6 r6 E6. injection H as -> _.
  assert (currentValues s2 = currentValues s1 /\ settings s2 = settings s1) as [V2 S2].
  { destruct (_ && _); cbn [when] in E2; [destruct (backlash_spec _ _ _ _ _ E2) as (V & S & _); auto|injection E2 as <- _; auto]. }
  destruct (split_spec _ _ _ _ E3) as (V3 & D3 & M3 & _ & B3 & C3).
  assert (s1 = if levelled then m else set_currentStateOfValues (invalid_xyz (currentStateOfValues m)) m) as ->
    by (destruct levelled; injection E1 as <- _; reflexivity).
  assert (emergency s4 = emergency s3) as Em by (subst s4; destruct s3; reflexivity). rewrite Em in E6.
  assert (m' = if emergency s3 then s4 else set_currentStateOfValues (if levelled then valid else invalid_xyz valid) s4) as Em'
    by (destruct (emergency s3); injection E6 as <- _; reflexivity).
  assert (emergency m' = emergency s3) as -> by (rewrite Em'; destruct (emergency s3); subst s4; destruct s3; reflexivity || assumption).
  clear E1 E2 E3 E6 Em. subst m' s4.
  destruct m as [[] [] [] md em un sv bd off st rs pins on vr se ee po tr].
  destruct s2 as [[] [] [] md2 em2 un2 sv2 bd2 off2 st2 rs2 pins2 on2 vr2 se2 ee2 po2 tr2].
  destruct s3 as [[] [] [] md3 em3 un3 sv3 bd3 off3 st3 rs3 pins3 on3 vr3 se3 ee3 po3 tr3].
  destruct levelled, (emergency _); unfold settings in S2; cbn in *; simplify_eq; cbn; repeat split; intros []; reflexivity.
Qed.

(** A movement with tasks is refused after the turns of the motors, or carried out. *)
Lemma move_inv g tasks m m' b : (tasks =? 0) = false -> move g tasks m = Some (m', b) ->
  exists new m1 r, enforced tasks (targets g tasks (started g tasks m)) (started g tasks m) = Some new /\
    motor_turns tasks new (rev four) (f_zero, all NONE) (started g tasks m) = Some (m1, r) /\
    match r with
    | None => b = false /\ m' = set_currentStateOfValues (currentStateOfValues m) (set_save_enabled true
                                 (set_currentValues (copy_motors (startValues m1) (currentValues m1)) (set_save_enabled false m1)))
    | Some (_, back) => b = true /\ carry_out tasks (currentStateOfValues m) back m1 = Some (m', b)
    end.
Proof.
  intros Htasks H. unfold move, get_m in H. rewrite Htasks in H. unbind H as s0 r0 E0. apply gets_inv in E0 as [-> ->]. unfold id in H.
  unbind H as s1 r1 E1. apply modify_inv in E1. unbind H as s2 r2 E2. apply modify_inv in E2. subst s1. fold (started g tasks m) in E2.
  unbind H as s3 r3 E3. apply gets_inv in E3 as [-> ->]. unbind H as s4 new E4. apply of_option_inv in E4 as [E4 ->]. subst s2.
  unbind H as m1 r E5. exists new, m1, r. split; [exact E4|]. split; [exact E5|]. destruct r as [[cycles back]|].
  - assert (b = true) as -> by (unbinds H; injection H as _ <-; reflexivity). split; [reflexivity|exact H].
  - unbind H as s5 u5 E6. injection E6 as <- _. unbind H as s6 u6 E7. apply modify_inv in E7. injection H as <- <-. subst s6.
    split; [reflexivity|]. destruct m1; reflexivity.
Qed.

(** A movement is refused exactly when a motor would have to make more than
    [UINT32_MAX] steps, and then it has no effect: the values and validities are
    restored, no motor moves, and the modes, directions and the EEPROM are
    unchanged. *)
Theorem move_too_big g tasks m m' b : (tasks =? 0) = false -> move g tasks m = Some (m', b) ->
  exists new, enforced tasks (targets g tasks (started g tasks m)) (started g tasks m) = Some new /\
  (b = false <-> exists i, i <> F /\ too_big m i (get i new) = true) /\
  (b = false -> currentStateOfValues m' = currentStateOfValues m /\
     (forall i, i <> F -> get i (currentValues m') = get i (currentValues m)) /\
     (steppers m', remainingSteps m', direction_pins m', travelled m') = (steppers m, remainingSteps m, direction_pins m, travelled m) /\
     (currentMotorDirections m', mode m', extruderMode m', units m', bed m', eeprom m') =
       (currentMotorDirections m, mode m, extruderMode m, units m, bed m, eeprom m)).
Proof.
  intros Htasks H. destruct (move_inv _ _ _ _ _ Htasks H) as (new & m1 & r & E4 & E5 & Hr). exists new. split; [exact E4|].
  destruct (started_spec g tasks m) as (Hst & Hsv & Hcs & _ & Hm). set (m0 := started g tasks m) in *.
  destruct four_spec as (Hnd & HnF & Hin & _). destruct (task_turns_spec _ _ _ _ _ _ _ Htasks Hnd HnF E5) as (U & _ & Ht).
  destruct r as [[cycles back]|]; destruct Hr as [-> Hr].
  - split; [|discriminate]. split; [discriminate|]. intros (i & Hi & Hb). destruct (proj1 Ht i (Hin i Hi)) as [Hnb _].
    rewrite (proj1 (Hst i (get i new) Hi)) in Hnb. congruence.
  - destruct Ht as (i & Hi & Hb). assert (i <> F) as HiF by (intros ->; contradiction). subst m'.
    split; [split; [intros _; exists i; split; [exact HiF|rewrite <- (proj1 (Hst i (get i new) HiF)); exact Hb]|reflexivity]|].
    intros _. pose proof (restored_values m m0 m1 U Hsv) as Hv. rewrite <- Hm. unfold untouched in U. clear -U Hv Hcs.
    destruct m1, m0. cbn in *. injection U as -> -> -> -> -> -> -> -> -> -> -> -> -> -> ->. 
    split; [reflexivity|]. split; [exact Hv|]. split; reflexivity.
Qed.


(** ** Properties of single movements *)

(** C6. A movement without tasks ends, whenever an emergency stop occurs, if no
    conversion in its set-up overflows, and leaves all motors still. Without an
    emergency stop every motor has made exactly the whole steps of its distance, in
    the direction of its target, and the rest is kept for the next movement. *)
Theorem movement_steps g m : still m -> floats_ok m -> gcode_ok g -> representable g m = true -> emergency m = false ->
  exists m', move_no_task g m = Some (m', tt) /\ still m' /\ settings m' = settings m /\
    (polls m = None -> polls m' = None /\ forall i, i <> F -> moved m m' i (target g NO_TASK m i)).
Proof. apply no_task_spec. Qed.

(** The movement from the start to the end of a command is made in segments,
    exactly one for each number from 1 to their total, in this order, and the last
    one ends at the values of the command: the loop's 32-bit counter reaches the
    total and stops. *)
Theorem segments_iterated compensate changes ends total m : 1 <= total < 4294967296 ->
  segments_loop (Z.to_nat total) compensate changes ends 1 total m =
    each (segment compensate changes ends total) (seqZ 1 total) m /\
  (forall m1 i, i <> F -> get i (segment_values m1 changes ends total total) = get i ends).
Proof.
  intros Ht. split.
  - rewrite segments_from by lia. rewrite Z2Nat.id by lia. reflexivity.
  - intros m1 i Hi. unfold segment_values. rewrite Z.eqb_refl. destruct i; (reflexivity || contradiction).
Qed.

(** The movement that compensates backlash, and the state it starts from. *)
Definition backlash_start (m : Motors) : Motors :=
  set_mode RELATIVE (set_remainingSteps (put X f_zero (put Y f_zero (remainingSteps m))) m).
Definition backlash_move (x y f : f32) : Gcode :=
  movement (Z.lor (Z.lor PARAMETER_X_OFFSET PARAMETER_Y_OFFSET) PARAMETER_F_OFFSET) x y f_zero f_zero f.

Lemma backlash_value_valid d r m v : backlash_value d r m = Some v -> f32_ok v = true.
Proof.
  unfold backlash_value. destruct d; [intros [= <-]; reflexivity|apply ee_float_valid|].
  destruct (ee_float _ _) as [w|] eqn:Ew; bind_some; [|discriminate]. intros [= <-]. apply fmul_valid; [exact (ee_float_valid _ _ _ Ew)|reflexivity].
Qed.

Lemma backlash_start_ok m : floats_ok m -> floats_ok (backlash_start m).
Proof.
  intros H i. destruct (H i) as [Hc Hr]. unfold backlash_start. destruct m. cbn -[get put] in *. split; [exact Hc|].
  rewrite !get_put. repeat destruct (decide _); [reflexivity|reflexivity|exact Hr].
Qed.

(** The compensation of backlash moves X and Y by the backlash of the changed
    direction, from a fresh count of remaining steps, and nothing else of the
    printer's idea of its position changes: all values, the feed rate, the modes,
    the remaining steps and the direction pins are as before, and Z and the
    extruder do not move. *)
Theorem backlash_neutral dx dy m x y f :
  backlash_value dx EEPROM_BACKLASH_X m = Some x -> backlash_value dy EEPROM_BACKLASH_Y m = Some y ->
  ee_float (eeprom m) EEPROM_BACKLASH_SPEED = Some f ->
  still m -> floats_ok m -> is_fin (atZ (currentValues m)) = true -> is_fin (atE (currentValues m)) = true -> polls m = None ->
  representable (backlash_move x y f) (backlash_start m) = true ->
  exists m' m2, compensateForBacklash dx dy m = Some (m', tt) /\ still m' /\
    currentValues m' = currentValues m /\ settings m' = settings m /\
    (forall i, i <> F -> get i (remainingSteps m') = get i (remainingSteps m) /\ get i (direction_pins m') = get i (direction_pins m)) /\
    moved (backlash_start m) m2 X (x ⊕ atX (currentValues m)) /\ moved (backlash_start m) m2 Y (y ⊕ atY (currentValues m)) /\
    travelled m' = travelled m2 /\ atZ (travelled m') = atZ (travelled m) /\ atE (travelled m') = atE (travelled m).
Proof.
  intros Ex Ey Ef Hs Hv Hz He Hp Hr. set (m1 := backlash_start m) in *. set (g := backlash_move x y f) in *.
  assert (gcode_ok g) as Hg.
  { unfold gcode_ok. cbn. pose proof (backlash_value_valid _ _ _ _ Ex). pose proof (backlash_value_valid _ _ _ _ Ey).
    pose proof (ee_float_valid _ _ _ Ef). auto. }
  destruct (no_task_spec g m1) as (m2 & E2 & Hs2 & _ & Hm2); [destruct m; exact Hs|apply backlash_start_ok, Hv|exact Hg|exact Hr| |].
  { unfold m1, backlash_start, emergency. destruct m. cbn in *. rewrite Hp. reflexivity. }
  assert (polls m1 = None) as Hp1 by (destruct m; exact Hp). destruct (Hm2 Hp1) as [Hp2 Hmv].
  assert (exists m', compensateForBacklash dx dy m = Some (m', tt) /\ steppers m' = steppers m2 /\ travelled m' = travelled m2)
    as (m' & E' & Est & Etr).
  { eexists. split; [unfold compensateForBacklash, get_m; step_pure; unfold id; step_pure; step_option Ex; step_option Ey; step_option Ef;
      step_pure; step E2; reflexivity|]. destruct m2; auto. }
  exists m', m2. split; [exact E'|]. destruct (backlash_spec _ _ _ _ _ E') as (V & S & R).
  split; [unfold still; rewrite Est; exact Hs2|]. split; [exact V|]. split; [exact S|].
  split; [intros i Hi; apply R; destruct i; auto; contradiction|].
  split; [specialize (Hmv X ltac:(discriminate)); destruct m; exact Hmv|]. split; [specialize (Hmv Y ltac:(discriminate)); destruct m; exact Hmv|].
  rewrite Etr. specialize (Hmv Z_ ltac:(discriminate)) as HmZ. specialize (Hmv E ltac:(discriminate)) as HmE.
  split; [reflexivity|]. unfold moved, moves in HmZ, HmE.
  change (target g NO_TASK m1 Z_) with (get Z_ (currentValues m1)) in HmZ. change (target g NO_TASK m1 E) with (get E (currentValues m1)) in HmE.
  rewrite sub_self in HmZ by (destruct m; exact Hz). rewrite sub_self in HmE by (destruct m; exact He).
  destruct HmZ as (_ & _ & _ & TZ), HmE as (_ & _ & _ & TE). destruct m. auto.
Qed.

(** ** Witnesses *)

Definition example_eeprom : list Z :=
  let put_f region v m := default m (ee_set_float m region v) in
  put_f EEPROM_X_MOTOR_STEPS_PER_MM (f_of_Z 18) (put_f EEPROM_Y_MOTOR_STEPS_PER_MM (f_of_Z 18)
  (put_f EEPROM_Z_MOTOR_STEPS_PER_MM (f_of_Z 646) (put_f EEPROM_E_MOTOR_STEPS_PER_MM (f_of_Z 128)
  (put_f EEPROM_SPEED_LIMIT_X (f_of_Z 1500) (put_f EEPROM_SPEED_LIMIT_Y (f_of_Z 1500)
  (put_f EEPROM_SPEED_LIMIT_Z (f_of_Z 60) (put_f EEPROM_SPEED_LIMIT_E_POSITIVE (f_of_Z 102)
  (put_f EEPROM_BACKLASH_X (f_lit 3 100) (put_f EEPROM_BACKLASH_SPEED (f_of_Z 1500) (repeat 0 1024)))))))))).

Definition example_motors : Motors :=
  mkMotors (put F (f_of_Z 4800) (all f_zero)) (all false) (all true) ABSOLUTE ABSOLUTE MILLIMETERS (all f_zero) example_bed f_zero
    (all (mkStepper 0 0 0 0 0 false)) (all f_zero) (all false) false (all 0) true example_eeprom None (all 0).

Lemma example_ok : floats_ok example_motors.
Proof. intros []; split; vm_compute; reflexivity. Qed.

Definition to_x (v : f32) : Gcode := movement PARAMETER_X_OFFSET v f_zero f_zero f_zero f_zero.
Definition to_e (v : f32) : Gcode := movement PARAMETER_E_OFFSET f_zero f_zero f_zero v f_zero.

Lemma movement_steps_witness :
  exists m', move_no_task (to_x (f_lit 1 32)) example_motors = Some (m', tt) /\ still m' /\ atX (travelled m') = 4.
Proof.
  destruct (movement_steps (to_x (f_lit 1 32)) example_motors) as (m' & E1 & S & _ & H).
  - reflexivity.
  - exact example_ok.
  - repeat split.
  - vm_compute. reflexivity.
  - reflexivity.
  - exists m'. split; [exact E1|]. split; [exact S|]. destruct (H eq_refl) as [_ Hm]. specialize (Hm X ltac:(discriminate)).
    unfold moved in Hm. set (t := target _ _ _ _) in Hm. assert (moves example_motors X t = true) as E2 by (vm_compute; reflexivity).
    rewrite E2 in Hm. destruct Hm as (spm & Es & _ & _ & Hn).
    assert (ee_float (eeprom example_motors) (steps_per_mm_region X) = Some (f_of_Z 18)) as Es' by (vm_compute; reflexivity).
    rewrite Es' in Es. apply Some_inj in Es. subst spm.
    assert (fle f_one (steps_to example_motors X t (f_of_Z 18)) = true) as Ef by (vm_compute; reflexivity). rewrite Ef in Hn.
    destruct Hn as (n & En & _ & Ht & _).
    assert (f_to_u32 (steps_to example_motors X t (f_of_Z 18)) = Some 4) as E4 by (vm_compute; reflexivity).
    rewrite E4 in En. apply Some_inj in En. subst n.
    assert (flt t (get X (currentValues example_motors)) = false) as El by (vm_compute; reflexivity). rewrite El in Ht. exact Ht.
Defined.

Lemma segments_iterated_witness :
  segments_loop 2 false (all f_zero) (all f_zero) 1 2 example_motors =
    each (segment false (all f_zero) (all f_zero) 2) [1; 2] example_motors.
Proof. apply (segments_iterated false (all f_zero) (all f_zero) 2 example_motors). lia. Defined.


Lemma move_too_big_witness : exists m', move (to_e (f_of_Z 1000000000)) ALL_TASKS example_motors = Some (m', false) /\
  currentStateOfValues m' = currentStateOfValues example_motors.
Proof.
  assert (match move (to_e (f_of_Z 1000000000)) ALL_TASKS example_motors with Some (_, b) => negb b | None => false end = true) as Hd by (vm_compute; reflexivity).
  destruct (move (to_e (f_of_Z 1000000000)) ALL_TASKS example_motors) as [[m' b]|] eqn:E1; [|discriminate]. destruct b; [discriminate|].
  exists m'. split; [reflexivity|]. destruct (move_too_big (to_e (f_of_Z 1000000000)) ALL_TASKS example_motors m' false) as (new & _ & _ & H).
  - reflexivity.
  - exact E1.
  - apply (H eq_refl).
Defined.

Lemma backlash_neutral_witness : exists m', compensateForBacklash POSITIVE NONE example_motors = Some (m', tt) /\
  currentValues m' = currentValues example_motors /\ atE (travelled m') = 0.
Proof.
  destruct (backlash_neutral POSITIVE NONE example_motors (f_lit 3 100) f_zero (f_of_Z 1500)) as (m' & m2 & E1 & _ & V & _ & _ & _ & _ & _ & _ & T).
  - vm_compute. reflexivity.
  - reflexivity.
  - vm_compute. reflexivity.
  - reflexivity.
  - exact example_ok.
  - reflexivity.
  - reflexivity.
  - reflexivity.
  - vm_compute. reflexivity.
  - exists m'. split; [exact E1|]. split; [exact V|exact T].
Defined.
