(* ===== verification/SavedState.v ===== *)
(** * The motors' state in the EEPROM (motors.cpp)

    What is saved of the motors' state is restored by the next start: saving all
    parameters at once, and the save timer, which saves one parameter at a time. *)

From S2P Require Import Prelude Float32 FloatValid Common Gcode Nvm Eeprom Stepper Bed Motors Movement.

#[local] Open Scope fw_scope.

(** ** Changes within a region *)

Definition changed (r : Z * Z) (ee ee' : list Z) : Prop :=
  length ee' = length ee /\ forall k, Z.of_nat k < fst r \/ fst r + snd r <= Z.of_nat k -> ee' !! k = ee !! k.

Lemma changed_refl r ee : changed r ee ee.
Proof. split; auto. Qed.

Lemma changed_byte r ee ee' v : 0 <= fst r -> 0 < snd r -> ee_set_byte ee r v = Some ee' -> changed r ee ee'.
Proof.
  intros H0 H1. unfold ee_set_byte, store. case_bool; [|discriminate]. intros [= <-]. bool_hyps. split; [apply length_insert|].
  intros k Hk. apply list_lookup_insert_ne. lia.
Qed.

Lemma changed_write r ee ee' d : 0 <= snd r -> ee_write ee r d = Some ee' -> changed r ee ee'.
Proof.
  intros Hr E. destruct (ee_write_spec _ _ _ _ E Hr) as (-> & H1 & H2 & H3). split; [apply patched_length; lia|].
  intros k Hk. unfold patched. destruct Hk as [Hk|Hk].
  - rewrite lookup_app_l by (rewrite length_take; lia). apply lookup_take_lt. lia.
  - rewrite lookup_app_r by (rewrite length_take; lia). rewrite lookup_app_r by (rewrite length_take; lia).
    rewrite lookup_drop, length_take. f_equal. lia.
Qed.

Lemma byte_frame r ee ee' q : changed r ee ee' -> 0 <= fst q -> fst q < fst r \/ fst r + snd r <= fst q -> ee_byte ee' q = ee_byte ee q.
Proof.
  intros [_ H] Hq Hd. unfold ee_byte, load. rewrite (proj2 (Z.leb_le _ _)) by lia. apply H. lia.
Qed.

Lemma float_frame r ee ee' q : changed r ee ee' -> 0 <= fst q -> 0 <= snd q -> disjoint r q -> ee_float ee' q = ee_float ee q.
Proof.
  intros [L H] Hq Hq' Hd. unfold ee_float, ee_read. rewrite L. case_bool; [|reflexivity]. bool_hyps.
  replace (take (Z.to_nat (snd q)) (drop (Z.to_nat (fst q)) ee')) with (take (Z.to_nat (snd q)) (drop (Z.to_nat (fst q)) ee)); [reflexivity|].
  apply list_eq. intros k. destruct (decide (k < Z.to_nat (snd q))%nat); [|rewrite !lookup_take_ge by lia; reflexivity].
  rewrite !lookup_take_lt, !lookup_drop by lia. symmetry. apply H. unfold disjoint in Hd. lia.
Qed.

(** ** Saving one parameter *)

(** Equal as floats: a zero may differ in its sign. *)
Definition same_float (v w : f32) : Prop := v = w \/ feq v w = true.

Definition saved (m : Motors) (ee : list Z) (ip : Axes * AxesParameter) : Prop :=
  let '(i, p) := ip in
  match p with
  | DIRECTION => forall r, direction_region i = Some r -> ee_byte ee r = Some (bit (get i (currentMotorDirections m)))
  | VALIDITY => ee_byte ee (state_region i) = Some (bit (get i (currentStateOfValues m)))
  | VALUE => exists v, ee_float ee (value_region i) = Some v /\ same_float v (get i (currentValues m))
  end.

Definition stored_axis (i : Axes) : Prop := i = X \/ i = Y \/ i = Z_.

Lemma save_byte_spec ee r v : len ee = EEPROM_SIZE -> 0 <= fst r < EEPROM_SIZE -> 0 < snd r ->
  exists ee', save_byte ee r v = Some ee' /\ changed (fst r, 1) ee ee' /\ ee_byte ee' r = Some (bit v).
Proof.
  intros L Hr Hs. unfold save_byte. destruct (load_lt ee (fst r)) as [old Eo]; [lia|]. unfold ee_byte at 1. rewrite Eo. bind_some.
  destruct (Z.eqb_spec old (bit v)) as [->|Hne].
  - exists ee. split; [reflexivity|]. split; [apply changed_refl|exact Eo].
  - unfold ee_set_byte. rewrite store_in by lia. eexists. split; [reflexivity|]. split.
    + apply (changed_byte (fst r, 1) ee _ (bit v)); [cbn; lia|cbn; lia|]. unfold ee_set_byte. apply store_in. cbn. lia.
    + unfold ee_byte, load. rewrite (proj2 (Z.leb_le _ _)) by lia. apply list_lookup_insert_eq. lia.
Qed.

(** The bytes of a parameter. *)
Definition parameter_region (ip : Axes * AxesParameter) : Z * Z :=
  let '(i, p) := ip in
  match p with
  | DIRECTION => match direction_region i with Some r => (fst r, 1) | None => (0, 0) end
  | VALIDITY => (fst (state_region i), 1)
  | VALUE => value_region i
  end.

Lemma save_parameter_spec i p m : stored_axis i -> len (eeprom m) = EEPROM_SIZE -> f32_ok (get i (currentValues m)) = true ->
  exists ee', save_parameter i p m = Some ee' /\ changed (parameter_region (i, p)) (eeprom m) ee' /\ saved m ee' (i, p).
Proof.
  intros Hi L Hv. destruct p; cbn [save_parameter saved parameter_region].
  - destruct (direction_region i) as [r|] eqn:Er.
    + assert (0 <= fst r < EEPROM_SIZE /\ 0 < snd r) as [R1 R2] by (destruct i; try discriminate; injection Er as <-; vm_compute; repeat split; discriminate).
      destruct (save_byte_spec (eeprom m) r (get i (currentMotorDirections m)) L R1 R2) as (ee' & E1 & C1 & B1).
      exists ee'. split; [exact E1|]. split; [exact C1|]. intros r' [= <-]. exact B1.
    + exists (eeprom m). split; [reflexivity|]. split; [apply changed_refl|discriminate].
  - assert (0 <= fst (state_region i) < EEPROM_SIZE /\ 0 < snd (state_region i)) as [R1 R2]
      by (destruct i; vm_compute; repeat split; discriminate).
    exact (save_byte_spec (eeprom m) (state_region i) (get i (currentStateOfValues m)) L R1 R2).
  - assert (0 <= fst (value_region i) /\ snd (value_region i) = 4 /\ fst (value_region i) + 4 <= EEPROM_SIZE) as (R1 & R2 & R3)
      by (destruct i; vm_compute; repeat split; discriminate).
    unfold ee_float at 1, ee_read. rewrite !(proj2 (Z.leb_le _ _)) by lia. cbn [andb]. bind_some.
    set (d := take _ _). destruct (feq (f_of_bits (le_value d)) (get i (currentValues m))) eqn:Ef.
    + exists (eeprom m). split; [reflexivity|]. split; [apply changed_refl|]. exists (f_of_bits (le_value d)). split; [|right; exact Ef].
      unfold ee_float, ee_read. rewrite !(proj2 (Z.leb_le _ _)) by lia. reflexivity.
    + destruct (ee_set_float_defined (eeprom m) (value_region i) (get i (currentValues m))) as (ee' & E1 & _); [lia..|].
      exists ee'. split; [exact E1|]. split; [eapply changed_write; [|exact E1]; lia|].
      eexists. split; [apply (ee_float_same _ _ _ _ R2 Hv E1)|left; reflexivity].
Qed.

(** Saving one parameter leaves the others saved. *)
Lemma saved_frame m ee ee' ip jq : stored_axis (fst ip) -> stored_axis (fst jq) -> changed (parameter_region ip) ee ee' ->
  ip <> jq -> saved m ee jq -> saved m ee' jq.
Proof.
  destruct ip as [i p], jq as [j q]. unfold stored_axis. cbn [fst]. intros Hi Hj Hc Hne. destruct q; cbn [saved].
  - intros H r Hr. rewrite <- (H r Hr). apply (byte_frame (parameter_region (i, p))); [exact Hc| |];
      destruct Hj as [->|[-> | ->]]; try discriminate; injection Hr as <-; [cbn; lia..| |];
      destruct Hi as [->|[-> | ->]], p; try contradiction; cbn; lia.
  - intros H. rewrite <- H. apply (byte_frame (parameter_region (i, p))); [exact Hc| |];
      destruct Hj as [->|[-> | ->]]; [cbn; lia..| | |]; destruct Hi as [->|[-> | ->]], p; try contradiction; cbn; lia.
  - intros (v & E1 & S1). exists v. split; [|exact S1]. rewrite <- E1.
    apply (float_frame (parameter_region (i, p))); [exact Hc| | |]; destruct Hj as [->|[-> | ->]]; [cbn; lia..| | |];
      destruct Hi as [->|[-> | ->]], p; try contradiction; cbn; unfold disjoint; cbn; lia.
Qed.

(** ** Saving several parameters *)

Definition save_each : list (Axes * AxesParameter) -> M Motors unit := each (fun ip => saveState (fst ip) (snd ip)).

Definition storable (m : Motors) : Prop :=
  len (eeprom m) = EEPROM_SIZE /\ forall i, stored_axis i -> f32_ok (get i (currentValues m)) = true.

Lemma save_state_spec i p m : stored_axis i -> storable m -> exists ee, saveState i p m = Some (set_eeprom ee m, tt) /\
  storable (set_eeprom ee m) /\ saved m ee (i, p) /\
  forall jq, stored_axis (fst jq) -> saved m (eeprom m) jq -> saved m ee jq.
Proof.
  intros Hi [L Hv]. destruct (save_parameter_spec i p m Hi L (Hv i Hi)) as (ee & E1 & C1 & S1). exists ee.
  split; [unfold saveState, get_m; run; unfold id; rewrite E1; reflexivity|]. split; [|split; [exact S1|]].
  - destruct C1 as [L1 _]. destruct m. split; [cbn in *; lia|exact Hv].
  - intros [j q] Hj Hs. destruct (decide ((i, p) = (j, q))) as [<-|Hne]; [exact S1|].
    apply (saved_frame m (eeprom m) ee (i, p) (j, q) Hi Hj C1 Hne Hs).
Qed.

Lemma saved_eeprom m ee ee' ip : saved (set_eeprom ee m) ee' ip <-> saved m ee' ip.
Proof. destruct m, ip as [i []]; reflexivity. Qed.

Lemma save_each_spec l : forall m, Forall (fun ip => stored_axis (fst ip)) l -> storable m ->
  exists ee, save_each l m = Some (set_eeprom ee m, tt) /\ storable (set_eeprom ee m) /\
    forall jq, stored_axis (fst jq) -> In jq l \/ saved m (eeprom m) jq -> saved m ee jq.
Proof.
  induction l as [|[i p] l IH]; intros m Hl Hm; cbn [save_each each].
  - exists (eeprom m). split; [destruct m; reflexivity|]. split; [destruct m; exact Hm|]. intros jq _ [[]|H]. exact H.
  - apply Forall_cons_1 in Hl as [Hi Hl]. destruct (save_state_spec i p m Hi Hm) as (ee & E1 & Hm1 & S1 & K1).
    destruct (IH (set_eeprom ee m) Hl Hm1) as (ee2 & E2 & Hm2 & S2). exists ee2.
    split; [step E1; rewrite E2; destruct m; reflexivity|]. split; [destruct m; exact Hm2|]. intros jq Hj Hs.
    apply (saved_eeprom m ee), S2; [exact Hj|]. replace (eeprom (set_eeprom ee m)) with ee by (destruct m; reflexivity).
    rewrite saved_eeprom. destruct Hs as [[<-|Hin]|Hs]; [right; exact S1|left; exact Hin|right; apply K1; assumption].
Qed.

Definition nine : list (Axes * AxesParameter) :=
  [(X, DIRECTION); (X, VALIDITY); (X, VALUE); (Y, DIRECTION); (Y, VALIDITY); (Y, VALUE); (Z_, DIRECTION); (Z_, VALIDITY); (Z_, VALUE)].

Lemma nine_all i p : stored_axis i -> In (i, p) nine.
Proof. intros [->|[-> | ->]]; destruct p; cbn; tauto. Qed.

Lemma save_all_each m m' : save_each nine m = Some (m', tt) -> save_all m = Some (m', tt).
Proof.
  unfold save_each, nine, save_all. cbn [each fst snd]. intros H.
  do 8 (apply bind_inv in H as (? & ? & E1 & H); step E1; clear E1). unbind H as s2 r2 E2. injection H as <-. destruct r2. exact E2.
Qed.

(** ** Restoring *)

Definition all_saved (m : Motors) (ee : list Z) : Prop := forall i p, stored_axis i -> saved m ee (i, p).

(** Motor [i] of [m'] has the state that it has in [m]. *)
Definition restored (m m' : Motors) (i : Axes) : Prop :=
  same_float (get i (currentValues m')) (get i (currentValues m)) /\
  get i (currentStateOfValues m') = get i (currentStateOfValues m) /\
  (i <> Z_ -> get i (currentMotorDirections m') = get i (currentMotorDirections m)).

Lemma bit_true b : negb (bit b =? 0) = b.
Proof. destruct b; reflexivity. Qed.

Lemma restore_motor_spec i m m2 : stored_axis i -> all_saved m (eeprom m2) ->
  exists m3, restore_motor i m2 = Some (m3, tt) /\ eeprom m3 = eeprom m2 /\ restored m m3 i /\
    forall j, j <> i -> restored m m2 j -> restored m m3 j.
Proof.
  intros Hi Hs. destruct (Hs i VALUE Hi) as (v & Ev & Sv). pose proof (Hs i VALIDITY Hi) as Es. pose proof (Hs i DIRECTION Hi) as Ed. cbn [saved] in Es, Ed.
  unfold restored, restore_motor, get_m. run. unfold id.
  assert (exists m3, match direction_region i with
      | Some r => match ee_byte (eeprom m2) r with
                  | Some b => Some (set_currentMotorDirections (put i (negb (b =? 0)) (currentMotorDirections m2)) m2, tt)
                  | None => None end
      | None => Some (m2, tt) end = Some (m3, tt)
    /\ (m3 = m2 /\ i = Z_ \/ m3 = set_currentMotorDirections (put i (get i (currentMotorDirections m)) (currentMotorDirections m2)) m2)) as (m3 & E3 & H3).
  { destruct (direction_region i) as [r|] eqn:Er.
    - rewrite (Ed r eq_refl), bit_true. eexists. split; [reflexivity|right; reflexivity].
    - eexists. split; [reflexivity|left]. split; [reflexivity|]. destruct Hi as [->|[-> | ->]]; (discriminate || reflexivity). }
  destruct (direction_region i) as [r|]; [destruct (ee_byte (eeprom m2) r) as [b|]; [|discriminate]|]; injection E3 as E3;
    rewrite Es, Ev, E3, bit_true; (eexists; split; [reflexivity|]);
    destruct H3 as [[-> ->]| ->]; destruct m2; cbn -[get put]; rewrite ?get_put_eq;
    (split; [reflexivity|split; [split; [exact Sv|split; [reflexivity|try reflexivity; congruence]]|]]);
    intros j Hj; rewrite !get_put_ne by exact Hj; auto.
Qed.

Lemma restore_spec m m2 : all_saved m (eeprom m2) -> exists m3, restoreState m2 = Some (m3, tt) /\ forall i, stored_axis i -> restored m m3 i.
Proof.
  intros Hs. destruct (restore_motor_spec X m m2 ltac:(left; reflexivity) Hs) as (s1 & E1 & K1 & R1 & _). rewrite <- K1 in Hs.
  destruct (restore_motor_spec Y m s1 ltac:(right; left; reflexivity) Hs) as (s2 & E2 & K2 & R2 & O2). rewrite <- K2 in Hs.
  destruct (restore_motor_spec Z_ m s2 ltac:(right; right; reflexivity) Hs) as (s3 & E3 & _ & R3 & O3).
  exists s3. split; [unfold restoreState; step E1; step E2; exact E3|].
  intros i [->|[-> | ->]]; [apply O3; [discriminate|]; apply O2; [discriminate|exact R1]|apply O3; [discriminate|exact R2]|exact R3].
Qed.

(** ** The save timer *)

(** A number of periods of the timer while the motors' state does not change. *)
Fixpoint save_periods (n : nat) (t : SaveTimer) : M Motors SaveTimer :=
  match n with O => mret t | S n => t ← save_timer t; save_periods n t end.

Lemma save_periods_plus a b t m : save_periods (a + b) t m = (t1 ← save_periods a t; save_periods b t1) m.
Proof.
  revert t m. induction a as [|a IH]; intros t m; [reflexivity|]. cbn [Nat.add save_periods]. unfold mbind, M_bind at 1 2 3.
  unfold M_bind. destruct (save_timer t m) as [[m1 t1]|]; [|reflexivity]. rewrite IH. reflexivity.
Qed.

Lemma SAVE_PERIODS_eq : SAVE_PERIODS = 7511.
Proof. vm_compute. reflexivity. Qed.

(** The timer counts up to its limit, and then saves the next parameter. *)
Lemma counting k : forall c i p m, 0 <= c -> c + Z.of_nat k < SAVE_PERIODS ->
  save_periods k (mkSaveTimer c i p) m = Some (m, mkSaveTimer (c + Z.of_nat k) i p).
Proof.
  rewrite SAVE_PERIODS_eq. induction k as [|k IH]; intros c i p m Hc Hk; cbn [save_periods]; [rewrite Z.add_0_r; reflexivity|].
  unfold save_timer. cbn [motorsSaveTimerCounter currentSaveMotor currentSaveParameter].
  rewrite u16_id, SAVE_PERIODS_eq, Z.geb_leb, (proj2 (Z.leb_gt _ _)) by lia. step_pure. rewrite IH by lia. do 3 f_equal. lia.
Qed.

Lemma one_save i p m : save_periods (Z.to_nat SAVE_PERIODS) (mkSaveTimer 0 i p) m =
  (let '(j, q) := next_saved i p in _ ← saveState j q; mret (mkSaveTimer 0 j q)) m.
Proof.
  replace (Z.to_nat SAVE_PERIODS) with (Z.to_nat (SAVE_PERIODS - 1) + 1)%nat by (rewrite SAVE_PERIODS_eq; lia).
  rewrite save_periods_plus. rewrite (bind_step _ _ _ _ _ (counting (Z.to_nat (SAVE_PERIODS - 1)) 0 i p m ltac:(lia) ltac:(rewrite SAVE_PERIODS_eq; lia))).
  cbn [save_periods]. unfold save_timer. cbn [motorsSaveTimerCounter currentSaveMotor currentSaveParameter].
  rewrite u16_id, Z.geb_leb, (proj2 (Z.leb_le _ _)) by (rewrite SAVE_PERIODS_eq; lia).
  destruct (next_saved i p) as [j q]. run. destruct (saveState j q m) as [[m1 r]|]; reflexivity.
Qed.

(** The parameters in the order in which the timer saves them. *)
Fixpoint saves_from (n : nat) (i : Axes) (p : AxesParameter) : list (Axes * AxesParameter) :=
  match n with O => [] | S n => let '(j, q) := next_saved i p in (j, q) :: saves_from n j q end.

Lemma save_periods_each n : forall i p m m', save_each (saves_from n i p) m = Some (m', tt) ->
  exists t, save_periods (n * Z.to_nat SAVE_PERIODS) (mkSaveTimer 0 i p) m = Some (m', t).
Proof.
  induction n as [|n IH]; intros i p m m' H; cbn [saves_from] in H; [injection H as <-; eexists; reflexivity|].
  destruct (next_saved i p) as [j q] eqn:En. unfold save_each in H. cbn [each fst snd] in H. unbind H as s1 r1 E1.
  destruct (IH j q s1 m' H) as [t Et]. exists t. rewrite Nat.mul_succ_l, Nat.add_comm, save_periods_plus.
  rewrite (bind_step _ _ m s1 (mkSaveTimer 0 j q)); [exact Et|]. rewrite one_save, En. step E1. reflexivity.
Qed.

(** All nine parameters are saved. *)
Lemma save_nine m : storable m -> exists ee, save_each nine m = Some (set_eeprom ee m, tt) /\ all_saved m (eeprom (set_eeprom ee m)).
Proof.
  intros Hm. destruct (save_each_spec nine m) as (ee & E1 & _ & Hs); [|exact Hm|].
  { repeat (apply List.Forall_cons; [unfold stored_axis; cbn; tauto|]). apply List.Forall_nil. }
  exists ee. split; [exact E1|]. replace (eeprom (set_eeprom ee m)) with ee by (destruct m; reflexivity).
  intros i p Hi. apply Hs; [exact Hi|left; apply nine_all, Hi].
Qed.

(** ** Properties *)

(** C17. What is saved is restored: saving all parameters of the motors' state ends,
    and after a reset restoring them from the EEPROM gives X, Y and Z the same
    values (as floats), validities and directions, from any other state. *)
Theorem state_restored m : storable m ->
  exists m1, save_all m = Some (m1, tt) /\
    forall m2, eeprom m2 = eeprom m1 -> exists m3, restoreState m2 = Some (m3, tt) /\ forall i, stored_axis i -> restored m m3 i.
Proof.
  intros Hm. destruct (save_nine m Hm) as (ee & E1 & Hs). exists (set_eeprom ee m). split; [apply save_all_each, E1|].
  intros m2 E2. apply restore_spec. rewrite E2. exact Hs.
Qed.

(** The save timer keeps the EEPROM up to date: from its initial state, after
    nine times its number of periods every parameter of the motors' state has been
    saved, and a reset restores it. *)
Theorem timer_saves_all m : storable m ->
  exists m1 t, save_periods (9 * Z.to_nat SAVE_PERIODS) (mkSaveTimer 0 Z_ VALUE) m = Some (m1, t) /\
    forall m2, eeprom m2 = eeprom m1 -> exists m3, restoreState m2 = Some (m3, tt) /\ forall i, stored_axis i -> restored m m3 i.
Proof.
  intros Hm. assert (saves_from 9 Z_ VALUE = nine) as E9 by reflexivity. destruct (save_nine m Hm) as (ee & E1 & Hs).
  rewrite <- E9 in E1. destruct (save_periods_each 9 Z_ VALUE m _ E1) as [t Et]. exists (set_eeprom ee m), t. split; [exact Et|].
  intros m2 E2. apply restore_spec. rewrite E2. exact Hs.
Qed.

(** ** Witnesses *)

Lemma example_storable : storable example_motors.
Proof. split; [vm_compute; reflexivity|]. intros i _. apply example_ok. Qed.

Lemma state_restored_witness : exists m1, save_all example_motors = Some (m1, tt).
Proof. destruct (state_restored example_motors example_storable) as (m1 & E1 & _). exists m1. exact E1. Defined.

Lemma timer_saves_all_witness :
  exists m1 t, save_periods (9 * Z.to_nat SAVE_PERIODS) (mkSaveTimer 0 Z_ VALUE) example_motors = Some (m1, t).
Proof. destruct (timer_saves_all example_motors example_storable) as (m1 & t & E1 & _). exists m1, t. exact E1. Defined.
