(* ===== verification/Heater.v ===== *)
(** * The heater, the fan and the LED (heater.cpp, fan.cpp, led.cpp)

    The heater's temperature control: the periodic callback that measures and
    switches, the test of the connection, and the setting of a temperature with the
    wait for it. The results of the converter are an interface, [Adc]. The fan and
    the LED are compare values of one timer. *)

From Stdlib Require Import String.
From S2P Require Import Prelude Float32 Common FloatValid Eeprom MainLoop.

#[local] Open Scope fw_scope.

(** ** Fan and LED *)

Definition FAN_TIMER_PERIOD : Z := 0x208D.
Definition FAN_MIN_SPEED : Z := 0.
Definition FAN_MAX_SPEED : Z := 255.
Definition LED_MIN_BRIGHTNESS : Z := 0.
Definition LED_MAX_BRIGHTNESS : Z := 100.

(** The compare values of the fan's and the LED's channel. *)
Record Pwm := mkPwm { fan_cc : Z; led_cc : Z }.

Definition fan_value (ee : list Z) (speed : Z) : option Z :=
  fanScale ← ee_float ee EEPROM_FAN_SCALE;
  offset ← ee_byte ee EEPROM_FAN_OFFSET;
  if speed <=? FAN_MIN_SPEED then Some 0
  else f_to_u16 ((getValueInRange (f_of_Z speed) (f_of_Z FAN_MIN_SPEED) (f_of_Z FAN_MAX_SPEED) ⊗ fanScale ⊕ f_of_Z offset)
                   ⊗ f_of_Z FAN_TIMER_PERIOD ⊘ f_of_Z FAN_MAX_SPEED).
Definition setSpeed (ee : list Z) (speed : Z) : M Pwm unit :=
  v ← of_option (fan_value ee speed);
  modify (fun p => mkPwm v (led_cc p)).
Definition fan_reset (ee : list Z) : M Pwm unit := setSpeed ee FAN_MIN_SPEED.
Definition fan_isOn (p : Pwm) : bool := negb (fan_cc p =? 0).

Definition setBrightness (brightness : Z) : M Pwm unit :=
  v ← of_option (f_to_u16 (getValueInRange (f_of_Z brightness) (f_of_Z LED_MIN_BRIGHTNESS) (f_of_Z LED_MAX_BRIGHTNESS)
                             ⊗ f_of_Z FAN_TIMER_PERIOD ⊘ f_of_Z LED_MAX_BRIGHTNESS));
  modify (fun p => mkPwm (fan_cc p) v).
Definition led_reset : M Pwm unit := setBrightness LED_MAX_BRIGHTNESS.
Definition led_isOn (p : Pwm) : bool := negb (led_cc p =? FAN_TIMER_PERIOD).

(** ** The heater's state *)

(** The two configurations of the converter, and the result register after the
    k-th conversion with one of them. *)
Inductive AdcInput := HeaterRead | ResistanceRead.
Class Adc := RES : AdcInput -> nat -> Z.

(** The variables of heater.cpp, the level of the pin that turns the heater on,
    whether the callback is enabled, the converter's configuration and the number
    of its conversions, and the messages that were sent. *)
Record Heater := mkHeater {
  isWorking : bool;
  idealTemperature : f32;
  actualTemperature : f32;
  heaterCalibrationMode : Z;
  heaterTemperatureMeasurementB : f32;
  heaterResistanceM : f32;
  HEATER_MODE_SELECT : bool;
  updating : bool;
  input : AdcInput;
  conversions : nat;
  messages : list (list Z)
}.

Definition set_isWorking (v : bool) (h : Heater) : Heater :=
  let '(mkHeater _ i a c b m p u n k s) := h in mkHeater v i a c b m p u n k s.
Definition set_temperatures (i a : f32) (h : Heater) : Heater :=
  let '(mkHeater w _ _ c b m p u n k s) := h in mkHeater w i a c b m p u n k s.
Definition set_calibration (c : Z) (b m : f32) (h : Heater) : Heater :=
  let '(mkHeater w i a _ _ _ p u n k s) := h in mkHeater w i a c b m p u n k s.
Definition set_pin (v : bool) (h : Heater) : Heater :=
  let '(mkHeater w i a c b m _ u n k s) := h in mkHeater w i a c b m v u n k s.
Definition set_updating (v : bool) (h : Heater) : Heater :=
  let '(mkHeater w i a c b m p _ n k s) := h in mkHeater w i a c b m p v n k s.
Definition set_input (v : AdcInput) (h : Heater) : Heater :=
  let '(mkHeater w i a c b m p u _ k s) := h in mkHeater w i a c b m p u v k s.
Definition set_conversions (v : nat) (h : Heater) : Heater :=
  let '(mkHeater w i a c b m p u n _ s) := h in mkHeater w i a c b m p u n v s.
Definition send (t : list Z) (h : Heater) : Heater :=
  let '(mkHeater w i a c b m p u n k s) := h in mkHeater w i a c b m p u n k (s ++ [t]).

Definition set_ideal (i : f32) (h : Heater) : Heater := set_temperatures i (actualTemperature h) h.
Definition set_actual (a : f32) (h : Heater) : Heater := set_temperatures (idealTemperature h) a h.

(** ** Constants *)

Definition HEATER_READ_ADC_SAMPLE_SIZE : Z := 50.
Definition HEATER_VOLTAGE_TO_TEMPERATURE_SCALAR : f32 := fneg (f_of_Z 245) ⊘ f_of_Z (-450) ⊗ f_of_Z 4.
Definition INT12_MAX : Z := 2 ^ 11 - 1.
Definition HEATER_OFF_TEMPERATURE : Z := 0.
Definition HEATER_MIN_TEMPERATURE : Z := 100.
Definition HEATER_MAX_TEMPERATURE : Z := 285.
Definition INVALID_HEATER_CALIBRATION_MODE : Z := 0.
Definition MAX_SUPPORTED_HEATER_CALIBRATION_MODE : Z := 1.

Section Control.
Context `{Adc}.

(** ** Measuring *)

Definition convert : M Heater Z :=
  h ← gets id;
  _ ← modify (set_conversions (S (conversions h)));
  mret (RES (input h) (conversions h)).

(** The sums of signed and of unsigned results. *)
Fixpoint signed_sum (n : nat) (sum : Z) : M Heater Z :=
  match n with O => mret sum | S n => r ← convert; signed_sum n (s32 (sum + s16 r)) end.
Fixpoint unsigned_sum (n : nat) (sum : Z) : M Heater Z :=
  match n with O => mret sum | S n => r ← convert; unsigned_sum n (u32 (sum + u16 r)) end.

Definition getHeaterValue (testConnection : bool) : M Heater Z :=
  _ ← modify (set_input HeaterRead);
  let sampleSize := if testConnection then 1 else HEATER_READ_ADC_SAMPLE_SIZE in
  heaterValue ← signed_sum (Z.to_nat sampleSize) 0;
  mret (s16 (Z.quot heaterValue sampleSize)).

Definition getResistanceValue : M Heater Z :=
  _ ← modify (set_input ResistanceRead);
  resistanceValue ← unsigned_sum (Z.to_nat HEATER_READ_ADC_SAMPLE_SIZE) 0;
  mret (resistanceValue / HEATER_READ_ADC_SAMPLE_SIZE).

(** ** Control *)

Definition clearTemperature : M Heater unit :=
  _ ← modify (set_updating false);
  _ ← modify (set_temperatures (f_of_Z HEATER_OFF_TEMPERATURE) (f_of_Z HEATER_OFF_TEMPERATURE));
  _ ← modify (set_updating true);
  modify (set_pin false).

Definition testConnection : M Heater bool :=
  _ ← modify (set_updating false);
  value ← getHeaterValue true;
  let working := value <? Z.quot INT12_MAX 2 in
  _ ← modify (set_isWorking working);
  _ ← when (negb working) clearTemperature;
  _ ← modify (set_updating true);
  mret working.

Definition is_heating (h : Heater) : bool := negb (feq (idealTemperature h) (f_of_Z HEATER_OFF_TEMPERATURE)).

(** The temperature that a resistance and a heater value give. *)
Definition temperature (resistanceValue heaterValue : Z) (h : Heater) : f32 :=
  HEATER_VOLTAGE_TO_TEMPERATURE_SCALAR ⊗ f_of_Z heaterValue ⊘ f_of_Z resistanceValue
    ⊗ heaterResistanceM h ⊕ heaterTemperatureMeasurementB h.

(** The callback of the temperature timer. *)
Definition update_temperature : M Heater unit :=
  heating ← gets is_heating;
  working ← (if (heating : bool) then testConnection else mret false);
  if (working : bool) then
    _ ← modify (set_pin true);
    resistanceValue ← getResistanceValue;
    heaterValue ← getHeaterValue false;
    _ ← modify (fun h => set_actual (temperature resistanceValue heaterValue h) h);
    h ← gets id;
    when (fle (idealTemperature h) (actualTemperature h)) (modify (set_pin false))
  else clearTemperature.

Definition getTemperature : M Heater f32 :=
  _ ← testConnection;
  _ ← modify (set_updating false);
  value ← gets actualTemperature;
  _ ← modify (set_updating true);
  mret value.

Definition updateHeaterChanges (ee : list Z) (enableUpdatingTemperature : bool) : M Heater bool :=
  _ ← modify (set_updating false);
  mode ← of_option (ee_byte ee EEPROM_HEATER_CALIBRATION_MODE);
  b ← of_option (ee_float ee EEPROM_HEATER_TEMPERATURE_MEASUREMENT_B);
  m ← of_option (ee_float ee EEPROM_HEATER_RESISTANCE_M);
  _ ← modify (set_calibration mode b m);
  if (mode =? INVALID_HEATER_CALIBRATION_MODE) || (mode >? MAX_SUPPORTED_HEATER_CALIBRATION_MODE) then
    _ ← clearTemperature; mret false
  else
    _ ← when enableUpdatingTemperature (modify (set_updating true));
    mret true.

Definition heater_reset : M Heater unit := clearTemperature.

Definition heater_isOn : M Heater bool :=
  _ ← testConnection;
  _ ← modify (set_updating false);
  on ← gets is_heating;
  _ ← modify (set_updating true);
  mret on.

(** ** Setting a temperature *)

(** The callback's runs between two points of the main program. *)
Fixpoint ticks (n : nat) : M Heater unit :=
  match n with
  | O => mret tt
  | S n => enabled ← gets updating; _ ← when enabled update_temperature; ticks n
  end.

(** The message with the temperature, in a buffer of its size. *)
Definition temperature_message (value : f32) : option (list Z) :=
  buffer ← strcpy (repeat 0 (Z.to_nat (FLOAT_BUFFER_SIZE + 4 - 1))) (str "T:");
  number ← ftoa value (drop 2 buffer);
  buffer ← strcat (take 2 buffer ++ number) [10];
  Some (cstr buffer).

(** The temperature that is shown: a reached one is not shown on the wrong side. *)
Definition shown_temperature (done lower : bool) (h : Heater) : f32 :=
  if done && (if lower then fle (idealTemperature h) (actualTemperature h) else fle (actualTemperature h) (idealTemperature h))
  then idealTemperature h ⊕ f_of_Z (if lower then -1 else 1) ⊘ f_of_Z 10000
  else actualTemperature h.

(** The wait. A round tells how often the callback runs before the test of the
    loop and between it and the rest of the body; when the rounds end, an
    emergency stop occurs. The result tells whether the wait ended without one. *)
Fixpoint wait_temperature (lower : bool) (rounds : list (nat * nat)) : M Heater bool :=
  match rounds with
  | [] => mret false
  | (before, between) :: rounds =>
      _ ← ticks before;
      working ← gets isWorking;
      if negb working then mret true
      else
        _ ← ticks between;
        _ ← modify (set_updating false);
        h ← gets id;
        let done := negb (Bool.eqb (HEATER_MODE_SELECT h) (negb lower)) in
        text ← of_option (temperature_message (shown_temperature done lower h));
        _ ← modify (set_updating true);
        _ ← modify (send text);
        if done then mret true else wait_temperature lower rounds
  end.

(** The result, and whether the wait ended without an emergency stop. *)
Definition setTemperature (ee : list Z) (value : Z) (wait : bool) (rounds : list (nat * nat)) : M Heater (bool * bool) :=
  _ ← testConnection;
  supported ← updateHeaterChanges ee false;
  if negb supported then mret (false, true)
  else
    _ ← modify (set_ideal (f_of_Z value));
    heating ← gets is_heating;
    if (heating : bool) then
      current ← getTemperature;
      let lower := flt (f_of_Z value) current in
      _ ← modify (set_pin (negb lower));
      ended ← (if wait then wait_temperature lower rounds else mret true);
      mret (true, ended)
    else _ ← clearTemperature; mret (true, true).

End Control.

(** * Properties *)

(** ** Measurements *)

Section Measurements.
Context `{Adc}.

(** The sum of the results of [n] conversions from the k-th on. *)
Fixpoint samples (width : Z -> Z) (i : AdcInput) (k n : nat) : Z :=
  match n with O => 0 | S n => width (RES i k) + samples width i (S k) n end.

Lemma s16_bounds x : -32768 <= s16 x < 32768.
Proof. unfold s16. pose proof (Z.mod_pos_bound (x + 32768) 65536). lia. Qed.
Lemma s16_id x : -32768 <= x < 32768 -> s16 x = x.
Proof. intros Hx. unfold s16. rewrite Z.mod_small; lia. Qed.

Lemma signed_samples_bounds i n : forall k, - 32768 * Z.of_nat n <= samples s16 i k n <= 32767 * Z.of_nat n.
Proof.
  induction n as [|n IH]; intros k; [cbn; lia|].
  pose proof (IH (S k)). pose proof (s16_bounds (RES i k)). cbn [samples]. lia.
Qed.
Lemma unsigned_samples_bounds i n : forall k, 0 <= samples u16 i k n <= 65535 * Z.of_nat n.
Proof.
  induction n as [|n IH]; intros k; [cbn; lia|].
  pose proof (IH (S k)). pose proof (u16_range (RES i k)). cbn [samples]. lia.
Qed.

Lemma converted h k : set_conversions k (set_conversions (S (conversions h)) h) = set_conversions k h.
Proof. destruct h; reflexivity. Qed.

Lemma signed_sum_spec n : forall sum h, Z.abs sum + 32768 * Z.of_nat n < 2147483648 ->
  signed_sum n sum h = Some (set_conversions (conversions h + n) h, sum + samples s16 (input h) (conversions h) n).
Proof.
  induction n as [|n IH]; intros sum h B.
  - rewrite Nat.add_0_r, Z.add_0_r. destruct h; reflexivity.
  - cbn [signed_sum samples]. step_pure. unfold id. pose proof (s16_bounds (RES (input h) (conversions h))).
    rewrite s32_id by lia. rewrite IH by lia.
    destruct h; cbn. rewrite Nat.add_succ_r, Z.add_assoc. reflexivity.
Qed.
Lemma unsigned_sum_spec n : forall sum h, 0 <= sum -> sum + 65536 * Z.of_nat n < 4294967296 ->
  unsigned_sum n sum h = Some (set_conversions (conversions h + n) h, sum + samples u16 (input h) (conversions h) n).
Proof.
  induction n as [|n IH]; intros sum h P B.
  - rewrite Nat.add_0_r, Z.add_0_r. destruct h; reflexivity.
  - cbn [unsigned_sum samples]. step_pure. unfold id. pose proof (u16_range (RES (input h) (conversions h))).
    rewrite u32_id by lia. rewrite IH by lia.
    destruct h; cbn. rewrite Nat.add_succ_r, Z.add_assoc. reflexivity.
Qed.

(** The reading of one test, and the averages of fifty conversions. *)
Definition test_reading (h : Heater) : Z := s16 (RES HeaterRead (conversions h)).
Definition heater_average (k : nat) : Z := Z.quot (samples s16 HeaterRead k 50) 50.
Definition resistance_average (k : nat) : Z := samples u16 ResistanceRead k 50 / 50.

Definition measured (i : AdcInput) (n : nat) (h : Heater) : Heater := set_conversions (conversions h + n) (set_input i h).

Lemma getHeaterValue_test h : getHeaterValue true h = Some (measured HeaterRead 1 h, test_reading h).
Proof.
  unfold getHeaterValue. step_pure. cbn [Z.to_nat Pos.to_nat Pos.iter_op Nat.add]. step (signed_sum_spec 1 0 (set_input HeaterRead h) ltac:(lia)).
  unfold mret, M_ret, measured, test_reading. pose proof (s16_bounds (RES HeaterRead (conversions h))).
  cbn [samples]. rewrite Z.add_0_l, Z.add_0_r, Z.quot_1_r.
  replace (conversions (set_input HeaterRead h)) with (conversions h) by (destruct h; reflexivity).
  replace (input (set_input HeaterRead h)) with HeaterRead by (destruct h; reflexivity).
  rewrite (s16_id (s16 _)) by lia. reflexivity.
Qed.
Lemma getHeaterValue_average h : getHeaterValue false h = Some (measured HeaterRead 50 h, heater_average (conversions h)).
Proof.
  unfold getHeaterValue. step_pure.
  change (Z.to_nat (if false then 1 else HEATER_READ_ADC_SAMPLE_SIZE)) with 50%nat.
  step (signed_sum_spec 50 0 (set_input HeaterRead h) ltac:(lia)).
  unfold mret, M_ret, measured, heater_average. cbn [HEATER_READ_ADC_SAMPLE_SIZE].
  pose proof (signed_samples_bounds HeaterRead 50 (conversions h)) as B.
  destruct h; cbn [set_input conversions input set_conversions] in *. do 2 f_equal.
  rewrite Z.add_0_l. apply s16_id. change HEATER_READ_ADC_SAMPLE_SIZE with 50. Z.quot_rem_to_equations. lia.
Qed.
Lemma getResistanceValue_average h :
  getResistanceValue h = Some (measured ResistanceRead 50 h, resistance_average (conversions h)).
Proof.
  unfold getResistanceValue. step_pure. change (Z.to_nat HEATER_READ_ADC_SAMPLE_SIZE) with 50%nat.
  step (unsigned_sum_spec 50 0 (set_input ResistanceRead h) ltac:(lia) ltac:(lia)).
  destruct h; reflexivity.
Qed.

(** ** The connection and the callback *)

Definition cleared (h : Heater) : Heater := set_pin false (set_updating true (set_temperatures f_zero f_zero h)).

Lemma clearTemperature_spec h : clearTemperature h = Some (cleared h, tt).
Proof. destruct h; reflexivity. Qed.

Definition connected (h : Heater) : bool := test_reading h <? 1023.

Definition tested (h : Heater) : Heater :=
  let h' := set_updating true (set_isWorking (connected h) (measured HeaterRead 1 h)) in
  if connected h then h' else cleared h'.

Lemma testConnection_spec h : testConnection h = Some (tested h, connected h).
Proof.
  unfold testConnection. step_pure. step (getHeaterValue_test (set_updating false h)).
  change (Z.quot INT12_MAX 2) with 1023. unfold tested, connected.
  replace (test_reading (set_updating false h)) with (test_reading h) by (destruct h; reflexivity).
  destruct (test_reading h <? 1023); destruct h; reflexivity.
Qed.

Lemma tested_working h : isWorking (tested h) = connected h.
Proof. unfold tested. destruct (connected h) eqn:C; destruct h; cbn; congruence. Qed.
Lemma tested_updating h : updating (tested h) = true.
Proof. unfold tested. destruct (connected h); destruct h; reflexivity. Qed.
Lemma tested_connected h : connected h = true ->
  tested h = set_updating true (set_isWorking true (measured HeaterRead 1 h)).
Proof. intros C. unfold tested. rewrite C. reflexivity. Qed.
Lemma tested_failed h : connected h = false -> tested h = cleared (set_isWorking false (measured HeaterRead 1 h)).
Proof. intros C. unfold tested. rewrite C. destruct h; reflexivity. Qed.

(** The temperature that the callback measures: the test takes one conversion,
    then come those of the resistance and those of the heater. *)
Definition next_temperature (h : Heater) : f32 :=
  temperature (resistance_average (conversions h + 1)) (heater_average (conversions h + 51)) h.

Definition regulated (h : Heater) : Heater :=
  if is_heating h && connected h then
    set_pin (negb (fle (idealTemperature h) (next_temperature h)))
      (set_actual (next_temperature h) (set_isWorking true (set_updating true (measured HeaterRead 101 h))))
  else if is_heating h then cleared (set_isWorking false (measured HeaterRead 1 h))
  else cleared h.

Lemma update_temperature_spec h : update_temperature h = Some (regulated h, tt).
Proof.
  unfold update_temperature, regulated. step_pure. destruct (is_heating h) eqn:Hh; cbn [andb].
  - step (testConnection_spec h). destruct (connected h) eqn:C.
    + rewrite tested_connected by exact C. step_pure. step_by getResistanceValue_average.
      step_by getHeaterValue_average. step_pure. step_pure. unfold next_temperature.
      destruct h as [w i a c b m p u n k s].
      unfold measured, set_actual, temperature, id.
      cbn [set_temperatures set_pin set_updating set_isWorking set_conversions set_input conversions idealTemperature
           actualTemperature heaterResistanceM heaterTemperatureMeasurementB].
      replace (k + 1 + 50)%nat with (k + 51)%nat by lia. replace (k + 51 + 50)%nat with (k + 101)%nat by lia.
      destruct (fle _ _); reflexivity.
    + rewrite clearTemperature_spec, tested_failed by exact C. destruct h; reflexivity.
  - step_pure. apply clearTemperature_spec.
Qed.

End Measurements.

(** ** Waiting for a temperature *)

Section Waiting.
Context `{Adc}.

(** A heater that does not work has no temperature to reach; one that works and has
    one was switched by the main program or by what the callback measured. *)
Definition steered (value : f32) (lower : bool) (h : Heater) : Prop :=
  updating h = true /\
  ((isWorking h = false /\ is_heating h = false) \/
   (idealTemperature h = value /\ is_heating h = true /\
    (HEATER_MODE_SELECT h = negb lower \/ HEATER_MODE_SELECT h = negb (fle value (actualTemperature h))))).

Lemma regulated_steered value lower h : steered value lower h -> steered value lower (regulated h).
Proof.
  intros [U D]. unfold steered, regulated.
  destruct D as [[W I]|(V & I & _)]; rewrite I; cbn [andb].
  - destruct h; cbn in *. auto.
  - destruct (connected h) eqn:C; destruct h; cbn -[fle next_temperature] in *; [|auto].
    split; [reflexivity|right]. subst. auto.
Qed.

Lemma ticks_spec n : forall h, exists h', ticks n h = Some (h', tt) /\
  forall value lower, steered value lower h -> steered value lower h'.
Proof.
  induction n as [|n IH]; intros h; [eauto|]. cbn [ticks].
  destruct (updating h) eqn:U.
  - destruct (IH (regulated h)) as (h' & E & S). exists h'. split.
    + step_pure. rewrite U. step_by update_temperature_spec. exact E.
    + intros. apply S, regulated_steered. assumption.
  - destruct (IH h) as (h' & E & S). exists h'. split; [|exact S]. step_pure. rewrite U. step_pure. exact E.
Qed.

Lemma ticks_steered n h h' r value lower : ticks n h = Some (h', r) -> steered value lower h -> steered value lower h'.
Proof. intros E S. destruct (ticks_spec n h) as (h1 & E1 & S1). rewrite E in E1. injection E1 as -> _. auto. Qed.

(** What is true when the wait ended. *)
Definition wait_over (value : f32) (lower : bool) (h : Heater) : Prop :=
  isWorking h = false \/
  (idealTemperature h = value /\ fle value (actualTemperature h) = negb lower /\ HEATER_MODE_SELECT h = lower).

Lemma steered_done value lower h : steered value lower h -> HEATER_MODE_SELECT h = lower -> wait_over value lower h.
Proof.
  intros [_ [[W _]|(V & _ & P)]] D; [left; exact W|]. right. split; [exact V|]. split; [|exact D].
  rewrite D in P. destruct P as [P|P]; destruct lower, (fle _ _); cbn in *; congruence.
Qed.

Lemma wait_temperature_spec value lower rounds : forall h h',
  steered value lower h -> wait_temperature lower rounds h = Some (h', true) -> wait_over value lower h'.
Proof.
  induction rounds as [|[before between] rounds IH]; intros h h' S E; [discriminate E|]. cbn [wait_temperature] in E.
  unbind E as h1 u1 T1. pose proof (ticks_steered _ _ _ _ value lower T1 S) as S1.
  unbind E as h2 w G. apply gets_inv in G as [-> ->].
  destruct (isWorking h1) eqn:W; cbn [negb] in E; [|injection E as <-; left; exact W].
  unbind E as h2 u2 T2. pose proof (ticks_steered _ _ _ _ value lower T2 S1) as S2.
  unbind E as h3 u3 G3. apply modify_inv in G3 as ->. unbind E as h4 hh G4. apply gets_inv in G4 as [-> ->].
  unbind E as h5 text G5. apply of_option_inv in G5 as [_ ->].
  unbind E as h6 u6 G6. apply modify_inv in G6 as ->. unbind E as h7 u7 G7. apply modify_inv in G7 as ->.
  set (hf := send text _) in E.
  assert (HEATER_MODE_SELECT hf = HEATER_MODE_SELECT h2) as Ep by (destruct h2; reflexivity).
  assert (steered value lower hf) as Sf by (destruct S2 as [U D2]; destruct h2; exact (conj eq_refl D2)).
  replace (HEATER_MODE_SELECT (id _)) with (HEATER_MODE_SELECT h2) in E by (destruct h2; reflexivity).
  rewrite <- Ep in E.
  destruct (negb (Bool.eqb (HEATER_MODE_SELECT hf) (negb lower))) eqn:D.
  - injection E as <-. apply steered_done; [exact Sf|]. destruct (HEATER_MODE_SELECT hf), lower; cbn in D; congruence.
  - eapply IH; [exact Sf|exact E].
Qed.

(** A temperature of the range is never the one that means off, and not below it. *)
Lemma temperatures_positive value : 0 < value <= HEATER_MAX_TEMPERATURE ->
  feq (f_of_Z value) (f_of_Z HEATER_OFF_TEMPERATURE) = false /\ flt (f_of_Z value) f_zero = false.
Proof.
  intros V. set (off v := feq (f_of_Z v) (f_of_Z HEATER_OFF_TEMPERATURE) || flt (f_of_Z v) f_zero).
  assert (forallb (fun v => negb (off v)) (seqZ 1 HEATER_MAX_TEMPERATURE) = true) as A by (vm_compute; reflexivity).
  rewrite forallb_forall in A. apply orb_false_iff, negb_true_iff, A. apply list_elem_of_In, elem_of_seqZ. lia.
Qed.

(** The state in which the wait begins. *)
Lemma wait_start value h : 0 < value <= HEATER_MAX_TEMPERATURE -> forall lower,
  steered (f_of_Z value) lower (set_pin (negb lower) (tested (set_ideal (f_of_Z value) h))).
Proof.
  intros V lower. destruct (temperatures_positive value V) as [N _].
  unfold steered, tested, set_ideal. destruct (connected _); destruct h; cbn -[feq f_of_Z]; [|auto].
  split; [reflexivity|right]. unfold is_heating. cbn -[feq f_of_Z]. rewrite N. auto.
Qed.

Lemma updateHeaterChanges_conversions ee enable : Keeps conversions (updateHeaterChanges ee enable).
Proof. unfold updateHeaterChanges, clearTemperature. keep. Qed.
Lemma tested_conversions h : conversions (tested h) = (conversions h + 1)%nat.
Proof. unfold tested. destruct (connected h); destruct h; reflexivity. Qed.

(** [setTemperature] up to the wait. *)
Lemma setTemperature_inv ee value wait rounds h h' r : 0 < value <= HEATER_MAX_TEMPERATURE ->
  setTemperature ee value wait rounds h = Some (h', (true, r)) ->
  exists h1, conversions h1 = (conversions h + 1)%nat /\
    let h2 := tested (set_ideal (f_of_Z value) h1) in
    let lower := flt (f_of_Z value) (actualTemperature h2) in
    (if wait then wait_temperature lower rounds (set_pin (negb lower) h2) = Some (h', r)
     else h' = set_pin (negb lower) h2 /\ r = true).
Proof.
  intros V E. unfold setTemperature in E.
  unbind E as h1 u1 T1. rewrite testConnection_spec in T1. injection T1 as <- <-.
  unbind E as h2 u2 T2. destruct u2; cbn [negb] in E; [|discriminate E].
  apply updateHeaterChanges_conversions in T2. rewrite tested_conversions in T2.
  unbind E as h3 u3 T3. apply modify_inv in T3 as ->. unbind E as h4 u4 T4. apply gets_inv in T4 as [-> ->].
  replace (is_heating (set_ideal (f_of_Z value) h2)) with true in E.
  2: { unfold is_heating, set_ideal. destruct h2; cbn -[feq f_of_Z]. rewrite (proj1 (temperatures_positive value V)). reflexivity. }
  unbind E as h5 current T5. unfold getTemperature in T5. unbind T5 as h6 c T6. rewrite testConnection_spec in T6. injection T6 as <- <-.
  unbinds T5. repeat match goal with H : modify _ _ = _ |- _ => apply modify_inv in H; subst
    | H : gets _ _ = _ |- _ => apply gets_inv in H as [? ?]; subst end.
  injection T5 as <- <-. exists h2. split; [exact T2|]. cbn zeta.
  set (h2' := tested _) in *.
  replace (set_updating true (set_updating false h2')) with h2' in E.
  2: { pose proof (tested_updating (set_ideal (f_of_Z value) h2)) as U. fold h2' in U. destruct h2'; cbn in *. congruence. }
  replace (actualTemperature (set_updating false h2')) with (actualTemperature h2') in E by (destruct h2'; reflexivity).
  unbind E as h8 u8 T8. apply modify_inv in T8 as ->. unbind E as h9 e T9. injection E as <- <-.
  destruct wait; [exact T9|]. injection T9 as <- <-. auto.
Qed.

End Waiting.

(** ** Fan and LED *)

Lemma fan_reset_off ee p p' : fan_reset ee p = Some (p', tt) -> fan_isOn p' = false.
Proof.
  unfold fan_reset, setSpeed. intros E. unbind E as p1 v T. apply of_option_inv in T as [T ->]. apply modify_inv in E as ->.
  unfold fan_value in T. destruct (ee_float _ _), (ee_byte _ _); cbn in T; [|discriminate..]. injection T as <-. reflexivity.
Qed.

(** Every brightness gives a defined compare value within the period, the same for
    all brightnesses from the maximum on; it is the LED's default only there. *)
Lemma brightness_values brightness p : 0 <= brightness < 256 ->
  exists v, setBrightness brightness p = Some (mkPwm (fan_cc p) v, tt) /\ 0 <= v <= FAN_TIMER_PERIOD /\
    v = Z.min brightness 100 * FAN_TIMER_PERIOD / 100 /\
    led_isOn (mkPwm (fan_cc p) v) = (brightness <? LED_MAX_BRIGHTNESS).
Proof.
  intros B. set (f b := f_to_u16 (getValueInRange (f_of_Z b) (f_of_Z LED_MIN_BRIGHTNESS) (f_of_Z LED_MAX_BRIGHTNESS)
                             ⊗ f_of_Z FAN_TIMER_PERIOD ⊘ f_of_Z LED_MAX_BRIGHTNESS)).
  assert (forallb (fun b => bool_decide (f b = Some (Z.min b 100 * FAN_TIMER_PERIOD / 100))) (seqZ 0 256) = true) as A by (vm_compute; reflexivity).
  rewrite forallb_forall in A. specialize (A brightness). rewrite bool_decide_eq_true in A.
  unfold setBrightness. fold (f brightness). rewrite A by (apply list_elem_of_In, elem_of_seqZ; lia).
  eexists. split; [reflexivity|]. unfold led_isOn. change FAN_TIMER_PERIOD with 8333. cbn [led_cc].
  change LED_MAX_BRIGHTNESS with 100. repeat split; [lia_mod..|].
  destruct (Z.ltb_spec brightness 100), (Z.eqb_spec (Z.min brightness 100 * 8333 / 100) 8333); try reflexivity; lia_mod.
Qed.

(** ** The properties *)

(** C11. Whatever the state and the measurements, the callback of the temperature
    timer ends, and the heater is on afterwards only if it works, a temperature is
    set, and the measured temperature has not reached it. If no temperature is set
    or the connection test fails, the heater is off and both temperatures are
    cleared; otherwise the temperature is the one that the averages of the next
    fifty readings of the resistance and of the heater give, and the heater is on
    exactly if it is not reached. *)
Theorem callback_safe `{Adc} h : exists h', update_temperature h = Some (h', tt) /\
  (HEATER_MODE_SELECT h' = true ->
     isWorking h' = true /\ is_heating h' = true /\ fle (idealTemperature h') (actualTemperature h') = false) /\
  (is_heating h = false \/ connected h = false ->
     HEATER_MODE_SELECT h' = false /\ idealTemperature h' = f_zero /\ actualTemperature h' = f_zero) /\
  (is_heating h = true -> connected h = true ->
     idealTemperature h' = idealTemperature h /\ actualTemperature h' = next_temperature h /\
     HEATER_MODE_SELECT h' = negb (fle (idealTemperature h) (next_temperature h))).
Proof.
  exists (regulated h). split; [apply update_temperature_spec|]. unfold regulated.
  destruct (is_heating h) eqn:Hh, (connected h) eqn:C; cbn [andb].
  - set (t := next_temperature h). split; [|split].
    + intros P. destruct h; cbn -[fle] in *. destruct (fle _ t); [discriminate P|]. auto.
    + intros [D|D]; discriminate D.
    + intros _ _. destruct h; cbn -[fle]. auto.
  - destruct h; cbn. intuition congruence.
  - destruct h; cbn. intuition congruence.
  - destruct h; cbn. intuition congruence.
Qed.

(** When the setting of a temperature with a wait ends without an emergency stop
    and the heater still works, the temperature is still the one that was set and it
    has been reached: when the heater had to heat, the last measurement is at least
    the set temperature and the heater is off; when it had to cool down, the last
    measurement is not, and the heater is on again. *)
Theorem wait_reaches `{Adc} ee value rounds h h' :
  0 < value <= HEATER_MAX_TEMPERATURE ->
  setTemperature ee value true rounds h = Some (h', (true, true)) ->
  isWorking h' = true ->
  idealTemperature h' = f_of_Z value /\
  HEATER_MODE_SELECT h' = negb (fle (f_of_Z value) (actualTemperature h')).
Proof.
  intros V E W. destruct (setTemperature_inv _ _ _ _ _ _ _ V E) as (h1 & _ & E1).
  destruct (wait_temperature_spec _ _ _ _ _ (wait_start value h1 V _) E1) as [D|(I & F & P)]; [congruence|].
  split; [exact I|]. rewrite P, F, negb_involutive. reflexivity.
Qed.

(** The connection is tested twice when a temperature is set, and a failure of the
    second test does not keep the heater off: the heater is turned on although it is
    known not to work and no temperature is set. The next callback turns it off. *)
Theorem failed_test_turns_on `{Adc} ee value rounds h h' r :
  0 < value <= HEATER_MAX_TEMPERATURE ->
  setTemperature ee value false rounds h = Some (h', (true, r)) ->
  1023 <= s16 (RES HeaterRead (conversions h + 1)) ->
  isWorking h' = false /\ is_heating h' = false /\ HEATER_MODE_SELECT h' = true /\
  exists h'', update_temperature h' = Some (h'', tt) /\ HEATER_MODE_SELECT h'' = false.
Proof.
  intros V E R. destruct (setTemperature_inv _ _ _ _ _ _ _ V E) as (h1 & K & E1). cbn zeta in E1.
  assert (connected (set_ideal (f_of_Z value) h1) = false) as C.
  { unfold connected, test_reading. replace (conversions (set_ideal _ h1)) with (conversions h1) by (destruct h1; reflexivity).
    rewrite K. apply Z.ltb_ge. exact R. }
  rewrite tested_failed in E1 by exact C. destruct E1 as [-> _].
  replace (actualTemperature (cleared _)) with f_zero by (destruct h1; reflexivity). rewrite (proj2 (temperatures_positive value V)).
  repeat split; [destruct h1; reflexivity..|].
  eexists. split; [apply update_temperature_spec|]. unfold regulated. destruct h1; reflexivity.
Qed.

(** ** Witnesses *)

(** A printer whose settings give 83 degrees for a heater value of 800 and 217
    degrees for one of 1000; it is hot from the 200th conversion on. *)
Definition example_settings : list Z :=
  match (ee ← ee_set_byte (repeat 0 1024) EEPROM_HEATER_CALIBRATION_MODE 1;
         ee ← ee_set_float ee EEPROM_HEATER_TEMPERATURE_MEASUREMENT_B (f_of_Z (-450));
         ee_set_float ee EEPROM_HEATER_RESISTANCE_M (f_of_Z 245)) with Some ee => ee | None => [] end.
Definition example_adc : Adc := fun i k =>
  match i with ResistanceRead => 800 | HeaterRead => if (k <? 200)%nat then 800 else 1000 end.
Definition failing_adc : Adc := fun _ k => if (k =? 0)%nat then 800 else 2000.
Definition cold_heater : Heater := mkHeater true f_zero f_zero 0 f_zero f_zero false true HeaterRead 0 [].

Lemma wait_reaches_witness : exists h', @setTemperature example_adc example_settings 150 true (repeat (1, 0)%nat 5) cold_heater = Some (h', (true, true)) /\
  isWorking h' = true /\ idealTemperature h' = f_of_Z 150 /\ HEATER_MODE_SELECT h' = false /\
  HEATER_MODE_SELECT h' = negb (fle (f_of_Z 150) (actualTemperature h')) /\ length (messages h') = 3%nat.
Proof.
  eexists. split; [vm_compute; reflexivity|]. split; [reflexivity|].
  pose proof (wait_reaches (H := example_adc) example_settings 150 (repeat (1, 0)%nat 5) cold_heater) as W.
  edestruct W as [I P]; [vm_compute; split; congruence|vm_compute; reflexivity|reflexivity|].
  split; [exact I|]. split; [reflexivity|]. split; [exact P|reflexivity].
Defined.

Lemma failed_test_turns_on_witness : exists h', @setTemperature failing_adc example_settings 150 false [] cold_heater = Some (h', (true, true)) /\
  isWorking h' = false /\ HEATER_MODE_SELECT h' = true.
Proof.
  eexists. split; [vm_compute; reflexivity|].
  pose proof (failed_test_turns_on (H := failing_adc) example_settings 150 [] cold_heater) as W.
  edestruct W as (I & _ & P & _); [vm_compute; split; congruence|vm_compute; reflexivity|vm_compute; congruence|].
  split; [exact I|exact P].
Defined.
