(* ===== verification/Homing.v ===== *)
(** * Homing and calibration (motors.cpp)

    The movements that are stopped by the accelerometer: homing X and Y against the
    corner, finding the bed with Z, and the two calibrations of the bed. What the
    accelerometer measures, and how many periods of the step timer a reading takes,
    is an interface, [Sensor]. *)

From S2P Require Import Prelude Float32 Common FloatValid Gcode Nvm Eeprom Stepper Bed Motors Movement.

#[local] Open Scope fw_scope.

(** ** Readings *)

(** The k-th reading: the timer periods that pass, whether it succeeds, and the
    accelerations Y and X, which the accelerometer's driver keeps within twelve bits,
    so that the difference of two of them fits in an int. *)
Class Sensor := reading : nat -> nat * bool * (Z * Z).

(** A reading takes more time than a period of the step timer, 43 microseconds: it
    waits for twenty-five samples. *)
Class SensorLaws `{Sensor} : Prop := reading_takes_time : forall k, (1 <= fst (fst (reading k)))%nat.

(** The number of readings, and the accelerometer's variables. *)
Record Sensing := mkSensing { readings : nat; isWorking : bool; acceleration_Y : Z; acceleration_X : Z }.

Abbreviation MS := (M (Motors * Sensing)).

Definition mot {A} (f : Motors -> A) : MS A := gets (fun s => f (fst s)).
Definition upd (f : Motors -> Motors) : MS unit := on_fst (modify f).
Definition stopped : MS bool := mot emergency.
Definition working : MS bool := gets (fun s => isWorking (snd s)).

(** A period of time, in which the interrupt of the step timer occurs if it runs. *)
Definition timer_period (running : bool) (m : Motors) : Motors :=
  let m' :=
    if running then
      let '(ms, pins) := updateMotorsStepTimer (motor_list (steppers m)) in
      let n (k : nat) : Z := if default false (pins !! k) then 1 else 0 in
      set_travelled (mkPer (travel m X (n 0%nat)) (travel m Y (n 1%nat)) (travel m Z_ (n 2%nat)) (travel m E (n 3%nat)) (atF (travelled m)))
        (set_steppers (of_motor_list ms (steppers m)) m)
    else m in
  set_polls (pred <$> polls m) m'.

Fixpoint periods (running : bool) (n : nat) (m : Motors) : Motors :=
  match n with O => m | S n => periods running n (timer_period running m) end.

(** ** Constants *)

Definition HOMING_FEED_RATE : f32 := f_of_Z 1500.
Definition CALIBRATING_Z_FEED_RATE : f32 := f_of_Z 17.
Definition HOMING_ADDITIONAL_DISTANCE : f32 := f_of_Z 8.
Definition CENTER_DISTANCE_FROM_HOMING_CORNER : f32 := f_of_Z 55.
Definition INVALID_BED_ORIENTATION_VERSION : Z := 255.
Definition BED_ORIENTATION_VERSION : Z := 1.
Definition JERK_SENSITIVITY_MAX : Z := 255.
Definition Y_TILT_ACCELERATION : Z := 10.
Definition UINT32_MAX : Z := 4294967295.

Definition homing_distance (i : Axes) : f32 :=
  match i with
  | X => fmax (fmax BED_LOW_MAX_X BED_MEDIUM_MAX_X) BED_HIGH_MAX_X ⊖ fmin (fmin BED_LOW_MIN_X BED_MEDIUM_MIN_X) BED_HIGH_MIN_X ⊕ HOMING_ADDITIONAL_DISTANCE
  | _ => fmax (fmax BED_LOW_MAX_Y BED_MEDIUM_MAX_Y) BED_HIGH_MAX_Y ⊖ fmin (fmin BED_LOW_MIN_Y BED_MEDIUM_MIN_Y) BED_HIGH_MIN_Y ⊕ HOMING_ADDITIONAL_DISTANCE
  end.
Definition jerk_region (i : Axes) : Z * Z := match i with X => EEPROM_X_JERK_SENSITIVITY | _ => EEPROM_Y_JERK_SENSITIVITY end.

Section Homing.
Context `{Sensor}.

Definition readAccelerationValues (running : bool) : MS bool :=
  s ← gets snd;
  let '(n, ok, (y, x)) := reading (readings s) in
  _ ← upd (periods running n);
  _ ← on_snd (modify (fun _ => mkSensing (S (readings s)) ok y x));
  mret ok.

(** The changes of one motor. *)
Definition set_stepper (i : Axes) (f : Stepper -> Stepper) (m : Motors) : Motors :=
  set_steppers (put i (f (get i (steppers m))) (steppers m)) m.
Definition set_steps (n : Z) (s : Stepper) : Stepper :=
  let '(mkStepper a b c d _ v) := s in mkStepper a b c d n v.
Definition set_moving (v : bool) (s : Stepper) : Stepper :=
  let '(mkStepper a b c d n _) := s in mkStepper a b c d n v.
Definition set_valid (i : Axes) (v : bool) (m : Motors) : Motors :=
  set_currentStateOfValues (put i v (currentStateOfValues m)) m.
Definition set_value (i : Axes) (v : f32) (m : Motors) : Motors :=
  set_currentValues (put i v (currentValues m)) m.
Definition clear_remaining (i : Axes) (m : Motors) : Motors :=
  set_remainingSteps (put i f_zero (remainingSteps m)) m.

(** ** Homing *)

Definition axis_acceleration (i : Axes) (s : Sensing) : Z := match i with X => acceleration_X s | _ => acceleration_Y s end.

(** The loop that waits for the edge: two jerks in a row stop the motor. *)
Fixpoint edge_loop (fuel : nat) (i : Axes) (jerk counter : Z) (last : option Z) : MS unit :=
  match fuel with
  | O => of_option None
  | S fuel =>
      moving ← mot (fun m => areMotorsMoving (motor_list (steppers m)));
      stop ← stopped;
      if moving && negb stop then
        ok ← readAccelerationValues true;
        if (ok : bool) then
          value ← gets (fun s => axis_acceleration i (snd s));
          match last with
          | None => edge_loop fuel i jerk counter (Some value)
          | Some lastValue =>
              if Z.abs (lastValue - value) >=? jerk then
                let counter := u8 (counter + 1) in
                _ ← when (counter >=? 2) (upd (set_stepper i (set_moving false)));
                edge_loop fuel i jerk counter (Some value)
              else edge_loop fuel i jerk 0 (Some value)
          end
        else mret tt
      else mret tt
  end.

(** The motor is set up to move to the corner. *)
Definition set_up_homing (i : Axes) : M Motors Z :=
  _ ← modify (fun m => set_valid i false (set_valid Z_ false m));
  m ← get_m id;
  stepsPerMm ← of_option (ee_float (eeprom m) (steps_per_mm_region i));
  _ ← modify (fun m => set_direction_pins (put i (direction_level i false) (direction_pins m)) m);
  _ ← modify (fun m => set_currentMotorDirections (put i (direction_level i false) (currentMotorDirections m)) m);
  _ ← write_vref i (vref_of (current_active i));
  sensitivity ← of_option (ee_byte (eeprom m) (jerk_region i));
  n ← of_option (minimumOneCeil (homing_distance i ⊗ stepsPerMm ⊗ MICROSTEPS_PER_STEP));
  _ ← modify (set_stepper i (set_steps n));
  _ ← modify (clear_remaining i);
  _ ← setMotorDelayAndSkip i (getMovementsNumberOfCycles n stepsPerMm HOMING_FEED_RATE);
  _ ← modify (set_stepper i (set_moving true));
  mret (u8 (JERK_SENSITIVITY_MAX - sensitivity)).

(** One motor against its edge; the loop ends with the movement at the latest. *)
Definition home_motor (i : Axes) : MS unit :=
  jerk ← on_fst (set_up_homing i);
  _ ← on_fst turnOn;
  m ← mot id;
  _ ← edge_loop (S (Z.to_nat (longest (motor_list (steppers m))))) i jerk 0 None;
  _ ← on_fst stop_timer;
  _ ← on_fst (write_vref X (vref_of (current_idle X)));
  on_fst (write_vref Y (vref_of (current_idle Y))).

(** The movement from the corner to the center, X first. *)
Definition center_command (compensate : bool) (m : Motors) (flags : Z) : Gcode :=
  let x := fneg CENTER_DISTANCE_FROM_HOMING_CORNER in
  let z := atZ (currentValues m) in
  if compensate then
    movement flags (x ⊕ getSkewAdjustmentRequired (bed m) X z) (x ⊕ getSkewAdjustmentRequired (bed m) Y z)
      (getHeightAdjustmentRequired (bed m) BED_CENTER_X BED_CENTER_Y
         ⊖ getHeightAdjustmentRequired (bed m) (atX (currentValues m)) (atY (currentValues m))) f_zero EEPROM_SPEED_LIMIT_X_MAX
  else movement flags x x f_zero f_zero EEPROM_SPEED_LIMIT_X_MAX.

Definition move_to_center (compensate validZ : bool) : M Motors unit :=
  m ← get_m id;
  _ ← modify (set_mode RELATIVE);
  _ ← move (center_command compensate m (Z.lor PARAMETER_X_OFFSET PARAMETER_F_OFFSET)) BACKLASH_TASK;
  _ ← move (center_command compensate m (Z.lor PARAMETER_Y_OFFSET PARAMETER_Z_OFFSET)) BACKLASH_TASK;
  _ ← unsaved (fun m' => set_value X BED_CENTER_X (set_value Y BED_CENTER_Y (set_value Z_ (atZ (currentValues m)) m')));
  _ ← modify (set_value F (atF (currentValues m)));
  _ ← modify (set_mode (mode m));
  stop ← get_m emergency;
  when (negb stop && compensate) (modify (fun m' => set_valid X true (set_valid Y true (set_valid Z_ validZ m')))).

Definition too_high (m : Motors) : bool :=
  fle BED_MEDIUM_MAX_Z (atZ (currentValues m)
    ⊕ getHeightAdjustmentRequired (bed m) (atX (currentValues m)) (atY (currentValues m)) ⊕ externalBedHeight (bed m)).

Definition homeXY (applyBedAndSkewCompensation : bool) : MS bool :=
  m ← mot id;
  if too_high m then mret false
  else
    let validZ := atZ (currentStateOfValues m) in
    _ ← home_motor Y;
    w ← working;
    stop ← stopped;
    if negb w || stop then mret w
    else
      _ ← home_motor X;
      w ← working;
      stop ← stopped;
      if negb w || stop then mret w
      else
        _ ← on_fst (move_to_center applyBedAndSkewCompensation validZ);
        mret true.

(** ** Finding the bed *)

(** The loop that waits for the bed: two tilts in a row stop the motor. *)
Fixpoint bed_loop (fuel : nat) (still counter : Z) : MS unit :=
  match fuel with
  | O => of_option None
  | S fuel =>
      moving ← mot (fun m => motorsIsMoving (atZ (steppers m)));
      stop ← stopped;
      if moving && negb stop then
        ok ← readAccelerationValues true;
        if (ok : bool) then
          value ← gets (fun s => acceleration_Y (snd s));
          if Z.abs (still - value) >=? Y_TILT_ACCELERATION then
            let counter := u8 (counter + 1) in
            _ ← when (counter >=? 2) (upd (set_stepper Z_ (set_moving false)));
            bed_loop fuel still counter
          else bed_loop fuel still 0
        else mret tt
      else mret tt
  end.

(** The motor is set up to move down; the delay before the still value is read lets
    [settle] periods pass. *)
Definition set_up_down : M Motors f32 :=
  _ ← modify (set_stepper Z_ (set_steps UINT32_MAX));
  _ ← modify (fun m => set_direction_pins (put Z_ (direction_level Z_ true) (direction_pins m)) m);
  _ ← modify (set_stepper Z_ (set_moving true));
  _ ← modify (clear_remaining Z_);
  m ← get_m id;
  stepsPerMm ← of_option (ee_float (eeprom m) EEPROM_Z_MOTOR_STEPS_PER_MM);
  _ ← setMotorDelayAndSkip Z_ (getMovementsNumberOfCycles UINT32_MAX stepsPerMm CALIBRATING_Z_FEED_RATE);
  _ ← write_vref Z_ (vref_of (current_active Z_));
  _ ← turnOn;
  mret stepsPerMm.

Definition SETTLE_PERIODS : nat := Z.to_nat (sysclk_cpu_hz / 1024 / 10).

(** One approach to the bed. *)
Definition approach : MS unit :=
  stepsPerMm ← on_fst set_up_down;
  _ ← upd (periods false SETTLE_PERIODS);
  stop ← stopped;
  ok ← (if (stop : bool) then mret false else readAccelerationValues false);
  _ ← when ok (
        still ← gets (fun s => acceleration_Y (snd s));
        _ ← on_fst turnOn;
        m ← mot id;
        _ ← bed_loop (S (Z.to_nat (longest (motor_list (steppers m))))) still 0;
        on_fst stop_timer);
  _ ← upd (set_save_enabled false);
  upd (fun m => set_value Z_ (atZ (currentValues m)
        ⊖ f_of_Z (UINT32_MAX - motorsNumberOfSteps (atZ (steppers m))) ⊘ (stepsPerMm ⊗ MICROSTEPS_PER_STEP)) m).

(** The correction when the bed was found. *)
Definition correct_height : M Motors unit :=
  m ← get_m id;
  correction ← of_option (ee_float (eeprom m) EEPROM_CALIBRATE_Z0_CORRECTION);
  _ ← moveToHeight (atZ (currentValues m) ⊕ correction) false;
  _ ← modify (set_save_enabled false);
  modify (fun m => set_value Z_ (atZ (currentValues m) ⊖ correction) m).

(** The approaches, until two heights in a row match; [tries] bounds their number. *)
Fixpoint find_bed (tries : nat) (maxZ lastZ0 : f32) (matchCounter : Z) : MS unit :=
  match tries with
  | O => of_option None
  | S tries =>
      stop ← stopped;
      if (stop : bool) then mret tt
      else
        _ ← approach;
        stop ← stopped;
        w ← working;
        if stop || negb w then mret tt
        else
          z ← mot (fun m => atZ (currentValues m));
          let matches := fle (fabs (lastZ0 ⊖ z)) f_one in
          let matchCounter := if matches then u8 (matchCounter + 1) else 0 in
          if matches && (matchCounter >=? 2) then on_fst correct_height
          else
            _ ← upd (set_save_enabled true);
            _ ← on_fst (moveToHeight (fmin (z ⊕ f_of_Z 2) maxZ) false);
            find_bed tries maxZ z matchCounter
  end.

Definition moveToZ0 (tries : nat) : MS bool :=
  m ← mot id;
  _ ← upd (set_valid Z_ false);
  let maxZ := atZ (currentValues m) in
  _ ← find_bed tries maxZ maxZ 0;
  _ ← upd (set_save_enabled true);
  _ ← on_fst (write_vref Z_ (vref_of (current_idle Z_)));
  stop ← stopped;
  _ ← when (negb stop) (upd (set_valid Z_ (atZ (currentStateOfValues m))));
  working.

(** ** Calibration *)

Definition set_all_valid (m : Motors) : Motors := set_valid X true (set_valid Y true (set_valid Z_ true m)).

Definition calibrateBedCenterZ0 (tries : nat) (applyBedAndSkewCompensation : bool) : MS bool :=
  m ← mot id;
  _ ← on_fst (moveToHeight (atZ (currentValues m) ⊕ f_of_Z 3) false);
  stop ← stopped;
  if (stop : bool) then mret true
  else
    homed ← homeXY false;
    if negb homed then mret false
    else
      stop ← stopped;
      if (stop : bool) then mret true
      else
        found ← moveToZ0 tries;
        if negb found then mret false
        else
          stop ← stopped;
          if (stop : bool) then mret true
          else
            _ ← on_fst saveZAsBedCenterZ0;
            _ ← upd set_all_valid;
            _ ← on_fst (moveToHeight (f_of_Z 3) applyBedAndSkewCompensation);
            mret true.

(** The positions, with the settings that are saved there. *)
Definition positions : list (f32 * f32 * option ((Z * Z) * (Z * Z))) :=
  let d := BED_CALIBRATION_POSITIONS_DISTANCE_FROM_CENTER in
  [ (BED_CENTER_X ⊖ d, BED_CENTER_Y, None);
    (BED_CENTER_X ⊖ d, BED_CENTER_Y ⊖ d, Some (EEPROM_BED_ORIENTATION_FRONT_LEFT, EEPROM_BED_OFFSET_FRONT_LEFT));
    (BED_CENTER_X ⊕ d, BED_CENTER_Y ⊖ d, Some (EEPROM_BED_ORIENTATION_FRONT_RIGHT, EEPROM_BED_OFFSET_FRONT_RIGHT));
    (BED_CENTER_X ⊕ d, BED_CENTER_Y ⊕ d, Some (EEPROM_BED_ORIENTATION_BACK_RIGHT, EEPROM_BED_OFFSET_BACK_RIGHT));
    (BED_CENTER_X ⊖ d, BED_CENTER_Y ⊕ d, Some (EEPROM_BED_ORIENTATION_BACK_LEFT, EEPROM_BED_OFFSET_BACK_LEFT)) ].

Definition XYF : Z := Z.lor (Z.lor PARAMETER_X_OFFSET PARAMETER_Y_OFFSET) PARAMETER_F_OFFSET.

Definition move_to (x y : f32) : M Motors unit :=
  _ ← move (movement XYF x y f_zero f_zero EEPROM_SPEED_LIMIT_X_MAX) BACKLASH_TASK; mret tt.

Definition save_float (region : Z * Z) (v : f32) : M Motors unit :=
  m ← get_m id;
  ee ← of_option (ee_set_float (eeprom m) region v);
  modify (set_eeprom ee).
Definition save_version (v : Z) : M Motors unit :=
  m ← get_m id;
  ee ← of_option (ee_set_byte (eeprom m) EEPROM_BED_ORIENTATION_VERSION v);
  modify (set_eeprom ee).

(** The loop over the positions; its result is the last position it moved to. *)
Fixpoint visit (tries : nat) (ps : list (f32 * f32 * option ((Z * Z) * (Z * Z)))) (at_ : f32 * f32) : MS (f32 * f32) :=
  match ps with
  | [] => mret at_
  | (x, y, save) :: ps =>
      stop ← stopped;
      if (stop : bool) then mret at_
      else
        _ ← on_fst (move_to x y);
        stop ← stopped;
        if (stop : bool) then mret (x, y)
        else
          ok ← (match save with
                | None => mret true
                | Some (orientation, offset) =>
                    found ← moveToZ0 tries;
                    stop ← stopped;
                    if negb found || stop then mret false
                    else
                      _ ← on_fst (save_float offset f_zero);
                      m ← mot id;
                      _ ← on_fst (save_float orientation (atZ (currentValues m)));
                      mret true
                end);
          if (ok : bool) then
            _ ← on_fst (moveToHeight (f_of_Z 3) false);
            visit tries ps (x, y)
          else mret (x, y)
  end.

(** The way back to the center, and the end of the calibration. *)
Definition finish_orientation (at_ : f32 * f32) : M Motors unit :=
  m ← get_m id;
  let y := BED_CENTER_Y ⊕ getSkewAdjustmentRequired (bed m) Y (atZ (currentValues m)) in
  _ ← move_to (fst at_) y;
  m ← get_m id;
  _ ← move_to (BED_CENTER_X ⊕ getSkewAdjustmentRequired (bed m) X (atZ (currentValues m))) y;
  _ ← unsaved (fun m => set_value X BED_CENTER_X (set_value Y BED_CENTER_Y m));
  stop ← get_m emergency;
  when (negb stop) (_ ← modify set_all_valid; save_version BED_ORIENTATION_VERSION).

Definition calibrateBedOrientation (tries : nat) : MS bool :=
  ok ← calibrateBedCenterZ0 tries false;
  if negb ok then mret false
  else
    stop ← stopped;
    _ ← when (negb stop) (on_fst (save_version INVALID_BED_ORIENTATION_VERSION));
    m ← mot id;
    _ ← upd (set_mode ABSOLUTE);
    last ← visit tries positions (f_zero, f_zero);
    _ ← on_fst (updateBedChanges false);
    stop ← stopped;
    w ← working;
    _ ← when (negb stop && w) (on_fst (finish_orientation last));
    _ ← upd (set_value F (atF (currentValues m)));
    _ ← upd (set_mode (mode m));
    working.

End Homing.

(** * Properties *)

(** ** The time that a loop takes *)

(** Every motor that moves is where it would be after [t] periods. *)
Definition on_course (t : nat) (ms l : list Stepper) : Prop :=
  Forall2 (fun m s => motorsIsMoving s = true -> s = fst (Stepper.ticks t m)) ms l.

Lemma on_course_start ms : on_course 0 ms ms.
Proof. induction ms; constructor; auto. Qed.

Lemma on_course_tick t ms l : on_course t ms l -> on_course (S t) ms (fst (updateMotorsStepTimer l)).
Proof.
  intros C. unfold on_course, updateMotorsStepTimer in *. cbn [fst].
  induction C as [|m s ms l K _ IH]; cbn [map]; constructor; [|exact IH]. clear IH. intros Mv. unfold motor_tick in Mv |- *. destruct (motorsIsMoving s) eqn:Ms; [|cbn in Mv; congruence].
  rewrite K by reflexivity. cbn [Stepper.ticks]. destruct (Stepper.ticks t m) as [s' c] eqn:Et. cbn [fst] in *.
  assert (s = s') as -> by (apply K; reflexivity). unfold motor_tick. rewrite Ms. destruct (motorsStepAction s'); reflexivity.
Qed.

Lemma on_course_moving t ms l : Forall ready ms -> on_course t ms l -> areMotorsMoving l = true -> Z.of_nat t < longest ms.
Proof.
  intros R C Mv. unfold areMotorsMoving in Mv. apply existsb_exists in Mv as (s & Hs & Mv).
  apply list_elem_of_In in Hs. apply list_elem_of_lookup_1 in Hs as [k Hk].
  destruct (Forall2_lookup_r _ _ _ _ _ C Hk) as (m & Hm & K).
  pose proof (K Mv) as ->. rewrite ready_moving in Mv by (eapply Forall_lookup_1; eassumption).
  apply Z.ltb_lt in Mv. apply list_elem_of_lookup_2, list_elem_of_In in Hm. pose proof (longest_bound ms m Hm). lia.
Qed.

Lemma period_list (m : Motors) : motor_list (steppers (timer_period true m)) = fst (updateMotorsStepTimer (motor_list (steppers m))).
Proof. destruct m; reflexivity. Qed.

Lemma periods_course n : forall t ms m, on_course t ms (motor_list (steppers m)) ->
  on_course (t + n) ms (motor_list (steppers (periods true n m))).
Proof.
  induction n as [|n IH]; intros t ms m C; cbn [periods]; [rewrite Nat.add_0_r; exact C|].
  rewrite Nat.add_succ_r. apply (IH (S t)). rewrite period_list. apply on_course_tick, C.
Qed.

(** Stopping a motor keeps the others on course. *)
Lemma stop_course t ms m i : on_course t ms (motor_list (steppers m)) ->
  on_course t ms (motor_list (steppers (set_stepper i (set_moving false) m))).
Proof.
  unfold on_course, set_stepper, motor_list. destruct m as [x0 x1 x2 x3 x4 x5 x6 x7 x8 [x y z e f] x10 x11 x12 vr x14 x15 x16 x17].
  cbn [steppers atX atY atZ atE]. intros C.
  repeat match goal with H : Forall2 _ _ (_ :: _) |- _ => apply Forall2_cons_inv_r in H as (? & ? & ? & ? & ?); subst
    | H : Forall2 _ _ [] |- _ => apply Forall2_nil_inv_r in H; subst end.
  destruct x, y, z, e. destruct i; cbn; repeat (apply List.Forall2_cons || apply List.Forall2_nil); try assumption; try (intros N; discriminate N).
Qed.

Lemma on_fst_modify {A B} (f : A -> A) (s : A * B) : on_fst (modify f) s = Some ((f (fst s), snd s), tt).
Proof. destruct s; reflexivity. Qed.
Lemma on_fst_run {A B R} (c : M A R) (a a' : A) (b : B) r : c a = Some (a', r) -> on_fst c (a, b) = Some ((a', b), r).
Proof. intros E. unfold on_fst. cbn [fst snd]. rewrite E. reflexivity. Qed.

Section Ends.
Context `{SensorLaws}.

Lemma reading_run m s : exists n ok y x, reading (readings s) = (n, ok, (y, x)) /\ (1 <= n)%nat /\
  forall running, readAccelerationValues running (m, s) = Some ((periods running n m, mkSensing (S (readings s)) ok y x), ok).
Proof.
  pose proof (reading_takes_time (readings s)) as T. destruct (reading (readings s)) as [[n ok] [y x]] eqn:R.
  exists n, ok, y, x. split; [reflexivity|]. split; [exact T|]. intros running.
  unfold readAccelerationValues. step_pure. cbn [snd]. rewrite R. reflexivity.
Qed.

(** A computation that is defined, and so ends. *)
Definition defined {S R} (c : M S R) (s : S) : Prop := exists s' r, c s = Some (s', r).

Lemma defined_bind {S R R'} (c : M S R) (k : R -> M S R') s s1 r :
  c s = Some (s1, r) -> defined (k r) s1 -> defined (x ← c; k x) s.
Proof. intros E (s2 & r2 & E2). exists s2, r2. step E. exact E2. Qed.
Lemma defined_ret {S R} (r : R) (s : S) : defined (mret r) s.
Proof. exists s, r. reflexivity. Qed.

Lemma edge_loop_ends ms i jerk : Forall ready ms -> forall fuel t m s counter last,
  on_course t ms (motor_list (steppers m)) -> (1 <= fuel)%nat -> longest ms < Z.of_nat t + Z.of_nat fuel ->
  defined (edge_loop fuel i jerk counter last) (m, s).
Proof.
  intros R. induction fuel as [|fuel IH]; intros t m s counter last C P L; [lia|]. cbn [edge_loop].
  eapply defined_bind; [reflexivity|]. eapply defined_bind; [reflexivity|]. cbn [fst].
  destruct (areMotorsMoving (motor_list (steppers m))) eqn:Mv; [|apply defined_ret].
  destruct (emergency m); [apply defined_ret|]. cbn [andb negb].
  pose proof (on_course_moving t ms _ R C Mv) as T.
  destruct (reading_run m s) as (n & ok & y & x & _ & N & E). eapply defined_bind; [apply E|].
  destruct ok; [|apply defined_ret]. eapply defined_bind; [reflexivity|].
  pose proof (periods_course n t ms m C) as C'.
  destruct last as [last|]; [|apply (IH (t + n)%nat); [exact C'|lia|lia]].
  destruct (_ >=? jerk); [|apply (IH (t + n)%nat); [exact C'|lia|lia]].
  destruct (_ >=? 2).
  - eapply defined_bind; [apply on_fst_modify|]. apply (IH (t + n)%nat); [apply stop_course, C'|lia|lia].
  - eapply defined_bind; [reflexivity|]. apply (IH (t + n)%nat); [exact C'|lia|lia].
Qed.

Lemma bed_loop_ends ms still : Forall ready ms -> forall fuel t m s counter,
  on_course t ms (motor_list (steppers m)) -> (1 <= fuel)%nat -> longest ms < Z.of_nat t + Z.of_nat fuel ->
  defined (bed_loop fuel still counter) (m, s).
Proof.
  intros R. induction fuel as [|fuel IH]; intros t m s counter C P L; [lia|]. cbn [bed_loop].
  eapply defined_bind; [reflexivity|]. eapply defined_bind; [reflexivity|]. cbn [fst].
  destruct (motorsIsMoving (atZ (steppers m))) eqn:Mv; [|apply defined_ret].
  destruct (emergency m); [apply defined_ret|]. cbn [andb negb].
  assert (areMotorsMoving (motor_list (steppers m)) = true) as Ma.
  { unfold motor_list. cbn. rewrite Mv, !orb_true_r. reflexivity. }
  pose proof (on_course_moving t ms _ R C Ma) as T.
  destruct (reading_run m s) as (n & ok & y & x & _ & N & E). eapply defined_bind; [apply E|].
  destruct ok; [|apply defined_ret]. eapply defined_bind; [reflexivity|].
  pose proof (periods_course n t ms m C) as C'.
  destruct (_ >=? Y_TILT_ACCELERATION); [|apply (IH (t + n)%nat); [exact C'|lia|lia]].
  destruct (_ >=? 2).
  - eapply defined_bind; [apply on_fst_modify|]. apply (IH (t + n)%nat); [apply stop_course, C'|lia|lia].
  - eapply defined_bind; [reflexivity|]. apply (IH (t + n)%nat); [exact C'|lia|lia].
Qed.

(** ** Setting up *)

Lemma f_ceil_valid x : f32_ok x = true -> f32_ok (f_ceil x) = true.
Proof.
  intros V. unfold f_ceil. destruct x as [| | |sg m e]; try exact V.
  destruct (0 <=? e); [exact V|]. cbn zeta. destruct sg; [destruct (_ =? 0); [reflexivity|]|]; apply f_of_Z_valid.
Qed.

Lemma minimumOneCeil_range v n : f32_ok v = true -> minimumOneCeil v = Some n -> 1 <= n < 4294967296.
Proof.
  intros V E. unfold minimumOneCeil in E. pose proof (f_to_u32_range _ _ E) as R.
  destruct (is_num (f_ceil v)) eqn:N.
  - destruct (getValueInRange_bounds (f_ceil v) (f_of_Z 1) (f_of_Z 4294967295) N eq_refl) as [L _].
    split; [|lia]. eapply f_to_u32_pos; [|exact L|exact E].
    pose proof (f_ceil_valid v V). unfold getValueInRange, fmin, fmax. repeat case_bool; auto using f_of_Z_valid.
  - destruct (f_ceil v); try discriminate N. discriminate E.
Qed.

(** The set-up of a motor's speed. *)
Lemma set_delay_inv i cycles m m' u : setMotorDelayAndSkip i cycles m = Some (m', u) ->
  exists delay skips, 0 <= skips < 4294967296 /\ 0 <= delay < 4294967296 /\
    let s := get i (steppers m) in
    m' = set_steppers (put i (mkStepper skips 0 delay 0 (motorsNumberOfSteps s) (motorsIsMoving s)) (steppers m)) m.
Proof.
  unfold setMotorDelayAndSkip, get_m. intros E. unbind E as m1 st G. apply gets_inv in G as [-> ->].
  unbind E as m2 ds G. apply of_option_inv in G as [D ->]. apply modify_inv in E as ->.
  destruct ds as [delay skips]. destruct (delay_and_skips_range _ _ _ _ D). exists delay, skips. auto.
Qed.

(** A list of motors in which one is set up and the others stand still. *)
Lemma ready_one i skips delay n ss : i <> F -> areMotorsMoving (motor_list ss) = false ->
  0 <= skips < 4294967296 -> 0 <= delay < 4294967296 -> 1 <= n < 4294967296 ->
  Forall ready (motor_list (put i (armed skips delay n) ss)).
Proof.
  intros NF St Hk Hd Hn. assert (ready (armed skips delay n)) as A by (right; exists skips, delay, n; auto).
  destruct ss as [x y z e f]. unfold motor_list, areMotorsMoving in *. cbn in *. bool_hyps.
  assert (forall s, motorsIsMoving s = false -> ready s) as St by (intros s Hs; left; exact Hs).
  destruct i; try contradiction; repeat apply Forall_cons_2; try apply Forall_nil_2; auto.
Qed.

Lemma put_put {A} i (a b : A) p : put i a (put i b p) = put i a p.
Proof. destruct p, i; reflexivity. Qed.

(** The common part of both set-ups, on the motor alone. *)
Lemma armed_after i n cycles m m1 u : i <> F -> still m -> 1 <= n < 4294967296 ->
  steppers m1 = put i (set_steps n (get i (steppers m))) (steppers m) \/
  steppers m1 = put i (set_moving true (set_steps n (get i (steppers m)))) (steppers m) ->
  forall m2, setMotorDelayAndSkip i cycles m1 = Some (m2, u) ->
  exists skips delay, 0 <= skips < 4294967296 /\ 0 <= delay < 4294967296 /\
    put i (set_moving true (get i (steppers m2))) (steppers m2) = put i (armed skips delay n) (steppers m) /\
    (steppers m1 = put i (set_moving true (set_steps n (get i (steppers m)))) (steppers m) ->
     steppers m2 = put i (armed skips delay n) (steppers m)).
Proof.
  intros NF St Hn S1 m2 E. destruct (set_delay_inv _ _ _ _ _ E) as (delay & skips & Hk & Hd & ->).
  exists skips, delay. split; [exact Hk|]. split; [exact Hd|].
  replace (steppers (set_steppers _ m1)) with (put i (mkStepper skips 0 delay 0 (motorsNumberOfSteps (get i (steppers m1)))
    (motorsIsMoving (get i (steppers m1)))) (steppers m1)) by (destruct m1; reflexivity).
  rewrite get_put_eq, put_put. cbn [set_moving].
  assert (motorsNumberOfSteps (get i (steppers m1)) = n /\ forall v, put i v (steppers m1) = put i v (steppers m)) as [-> P].
  { destruct S1 as [-> | ->]; rewrite get_put_eq; destruct (get i (steppers m)) as [q1 q2 q3 q4 q5 q6]; split; auto; intros v; apply put_put. }
  rewrite P. split; [reflexivity|]. intros S2. rewrite S2, get_put_eq. destruct (get i (steppers m)) as [q1 q2 q3 q4 q5 q6]; cbn [set_steps set_moving motorsIsMoving].
  rewrite !put_put. reflexivity.
Qed.

Lemma write_vref_steppers i v : Keeps steppers (write_vref i v).
Proof. unfold write_vref. keep. Qed.

Lemma set_up_homing_ready i m m1 jerk : i = X \/ i = Y -> still m -> set_up_homing i m = Some (m1, jerk) ->
  Forall ready (motor_list (steppers m1)).
Proof.
  intros I St E. unfold set_up_homing, get_m in E. unbind E as a1 u1 G1. apply modify_inv in G1.
  unbind E as a2 u2 G2. apply gets_inv in G2 as [-> ->]. unbind E as a2 stepsPerMm G3. apply of_option_inv in G3 as [Ev ->].
  unbind E as a3 u3 G4. apply modify_inv in G4. unbind E as a4 u4 G5. apply modify_inv in G5.
  unbind E as a5 u5 G6. apply write_vref_steppers in G6. unbind E as a6 u6 G7. apply of_option_inv in G7 as [_ ->].
  unbind E as a6 n G8. apply of_option_inv in G8 as [Ec ->]. unbind E as a6 u7 G9. apply modify_inv in G9.
  unbind E as a7 u8 G10. apply modify_inv in G10. unbind E as a8 u9 G11. unbind E as a9 u10 G12. apply modify_inv in G12. injection E as <- _.
  assert (steppers a5 = steppers m) as S5 by (rewrite G6; subst; destruct m; reflexivity).
  assert (1 <= n < 4294967296) as Hn.
  { eapply minimumOneCeil_range; [|exact Ec].
    apply fmul_valid; [apply fmul_valid; [destruct I as [-> | ->]; reflexivity|eapply ee_float_valid, Ev]|reflexivity]. }
  assert (steppers a7 = put i (set_steps n (get i (steppers m))) (steppers m)) as S7.
  { rewrite <- S5. subst a7 a6. destruct a5; reflexivity. }
  destruct (armed_after i n _ m a7 u9 ltac:(destruct I; congruence) St Hn (or_introl S7) a8 G11) as (skips & delay & Hk & Hd & P & _).
  assert (steppers a9 = put i (armed skips delay n) (steppers m)) as ->.
  { rewrite <- P. subst a9. unfold set_stepper. destruct a8; reflexivity. }
  apply ready_one; auto. destruct I; congruence.
Qed.

Lemma set_up_down_ready m m1 stepsPerMm : still m -> set_up_down m = Some (m1, stepsPerMm) ->
  exists skips delay, 0 <= skips < 4294967296 /\ 0 <= delay < 4294967296 /\
    steppers m1 = put Z_ (armed skips delay UINT32_MAX) (steppers m).
Proof.
  intros St E. unfold set_up_down, get_m in E. unbind E as a1 u1 G1. apply modify_inv in G1. unbind E as a2 u2 G2. apply modify_inv in G2.
  unbind E as a3 u3 G3. apply modify_inv in G3. unbind E as a4 u4 G4. apply modify_inv in G4.
  unbind E as a5 u5 G5. apply gets_inv in G5 as [-> ->]. unbind E as a5 v G6. apply of_option_inv in G6 as [_ ->].
  unbind E as a6 u6 G7. unbind E as a7 u7 G8. apply write_vref_steppers in G8. unbind E as a8 u8 G9. apply modify_inv in G9. injection E as <- _.
  assert (steppers a4 = put Z_ (set_moving true (set_steps UINT32_MAX (get Z_ (steppers m)))) (steppers m)) as S4.
  { subst. destruct m as [x0 x1 x2 x3 x4 x5 x6 x7 x8 [x y z e f] x10 x11 x12 vr x14 x15 x16 x17]. reflexivity. }
  destruct (armed_after Z_ UINT32_MAX _ m a4 u6 ltac:(discriminate) St ltac:(unfold UINT32_MAX; lia) (or_intror S4) a6 G7)
    as (skips & delay & Hk & Hd & _ & P).
  exists skips, delay. split; [exact Hk|]. split; [exact Hd|].
  replace (steppers a8) with (steppers a7) by (subst a8; destruct a7; reflexivity). rewrite G8. exact (P S4).
Qed.

(** ** The movements end *)

Lemma vref_step {i} (m : Motors) : exists v, write_vref i (vref_of (current_idle i)) m = Some (set_vrefs v m, tt).
Proof. destruct (vref_idle_defined i) as [w Ew]. unfold write_vref. rewrite Ew. eexists. reflexivity. Qed.

Lemma still_vrefs v m : still m -> still (set_vrefs v m).
Proof. destruct m; auto. Qed.

Lemma home_motor_ends i m s m1 jerk : i = X \/ i = Y -> still m -> set_up_homing i m = Some (m1, jerk) ->
  exists m' s', home_motor i (m, s) = Some ((m', s'), tt) /\ still m'.
Proof.
  intros I St E. pose proof (set_up_homing_ready i m m1 jerk I St E) as R. unfold home_motor.
  set (m2 := set_motors_on true m1). assert (steppers m2 = steppers m1) as S2 by (destruct m1; reflexivity).
  destruct (edge_loop_ends (motor_list (steppers m1)) i jerk R (S (Z.to_nat (longest (motor_list (steppers m1))))) 0 m2 s 0 None)
    as ([m3 s3] & [] & E3); [rewrite S2; apply on_course_start|lia|pose proof (longest_nonneg (motor_list (steppers m1))); lia|].
  destruct (stop_timer_still m3) as (m4 & E4 & St4 & _).
  destruct (vref_step (i := X) m4) as [v5 E5]. destruct (vref_step (i := Y) (set_vrefs v5 m4)) as [v6 E6].
  eexists _, s3. split; [|apply still_vrefs, still_vrefs, St4].
  step (on_fst_run _ _ _ s _ E). step_by on_fst_modify. cbn [fst snd]. fold m2. step_pure. cbn [fst id]. rewrite S2.
  step E3. step (on_fst_run _ _ _ s3 _ E4). step (on_fst_run _ _ _ s3 _ E5). exact (on_fst_run _ _ _ s3 _ E6).
Qed.

Lemma periods_still n : forall m, exists q, periods false n m = set_polls q m /\ (polls m = None -> q = None).
Proof.
  induction n as [|n IH]; intros m; cbn [periods].
  - exists (polls m). destruct m; auto.
  - destruct (IH (timer_period false m)) as (q & E & P). exists q. rewrite E. split; [destruct m; reflexivity|].
    intros N. apply P. destruct m; cbn in *. rewrite N. reflexivity.
Qed.

Lemma steppers_polls q m : steppers (set_polls q m) = steppers m.
Proof. destruct m; reflexivity. Qed.

Lemma approach_ends m s m1 stepsPerMm : still m -> set_up_down m = Some (m1, stepsPerMm) -> defined approach (m, s).
Proof.
  intros St E. destruct (set_up_down_ready m m1 stepsPerMm St E) as (skips & delay & Hk & Hd & S1).
  assert (Forall ready (motor_list (steppers m1))) as R.
  { rewrite S1. apply ready_one; [discriminate|exact St|exact Hk|exact Hd|unfold UINT32_MAX; lia]. }
  unfold approach. eapply defined_bind; [exact (on_fst_run _ _ _ s _ E)|]. eapply defined_bind; [apply on_fst_modify|].
  destruct (periods_still SETTLE_PERIODS m1) as (q & Eq & _). cbn [fst snd]. rewrite Eq. set (m2 := set_polls q m1).
  eapply defined_bind; [reflexivity|]. cbn [fst].
  assert (forall m' s', defined (_ ← upd (set_save_enabled false);
     upd (fun m => set_value Z_ (atZ (currentValues m)
        ⊖ f_of_Z (UINT32_MAX - motorsNumberOfSteps (atZ (steppers m))) ⊘ (stepsPerMm ⊗ MICROSTEPS_PER_STEP)) m)) (m', s')) as Last.
  { intros m' s'. do 2 eexists. step_by on_fst_modify. apply on_fst_modify. }
  destruct (emergency m2).
  - eapply defined_bind; [reflexivity|]. eapply defined_bind; [reflexivity|]. apply Last.
  - destruct (reading_run m2 s) as (n & ok & y & x & _ & _ & Er). eapply defined_bind; [apply Er|]. destruct ok.
    2: { eapply defined_bind; [reflexivity|]. apply Last. }
    destruct (periods_still n m2) as (q2 & Eq2 & _). rewrite Eq2. set (m3 := set_motors_on true (set_polls q2 m2)).
    assert (steppers m3 = steppers m1) as S3 by (unfold m3, m2; destruct m1; reflexivity).
    destruct (bed_loop_ends (motor_list (steppers m1)) y R (S (Z.to_nat (longest (motor_list (steppers m1))))) 0 m3 (mkSensing (S (readings s)) true y x) 0)
      as ([m4 s4] & [] & E4); [rewrite S3; apply on_course_start|lia|pose proof (longest_nonneg (motor_list (steppers m1))); lia|].
    destruct (stop_timer_still m4) as (m5 & E5 & _).
    eapply defined_bind; [|apply (Last m5 s4)]. cbn [when]. step_pure. step_by on_fst_modify. cbn [fst snd]. fold m3. step_pure. cbn [fst id snd].
    rewrite S3. step E4. exact (on_fst_run _ _ _ s4 _ E5).
Qed.

(** ** A failed reading *)

Lemma set_up_down_polls : Keeps polls set_up_down.
Proof. unfold set_up_down, get_m, write_vref, setMotorDelayAndSkip, turnOn, get_m. keep. Qed.

Lemma approach_fails m s m1 stepsPerMm : polls m = None -> set_up_down m = Some (m1, stepsPerMm) ->
  snd (fst (reading (readings s))) = false ->
  exists m' s', approach (m, s) = Some ((m', s'), tt) /\ steppers m' = steppers m1 /\ isWorking s' = false /\ polls m' = None.
Proof.
  intros P E F. unfold approach. pose proof (set_up_down_polls _ _ _ E) as P1. rewrite P in P1.
  destruct (periods_still SETTLE_PERIODS m1) as (q & Eq & Q). rewrite (Q P1) in Eq. set (m2 := set_polls None m1) in Eq.
  destruct (reading_run m2 s) as (n & ok & y & x & Er & _ & Rr). rewrite Er in F. cbn in F. subst ok.
  destruct (periods_still n m2) as (q2 & Eq2 & Q2). rewrite Q2 in Eq2 by (unfold m2; destruct m1; reflexivity).
  do 2 eexists. split.
  - step (on_fst_run _ _ _ s _ E). step_by on_fst_modify. cbn [fst snd]. rewrite Eq. step_pure. cbn [fst].
    replace (emergency m2) with false by (unfold m2; destruct m1; reflexivity).
    step_by (Rr false). rewrite Eq2. step_pure. step_by on_fst_modify. apply on_fst_modify.
  - cbn [fst snd]. repeat split; unfold m2; destruct m1; reflexivity.
Qed.

(** ** What homing keeps *)

Definition place (m : Motors) : PerAxis f32 * Modes := (currentValues m, mode m).
Abbreviation placed := (fun s : Motors * Sensing => place (fst s)).

Lemma keeps_on_fst {R} (c : M Motors R) : Keeps place c -> Keeps placed (on_fst c : MS R).
Proof.
  intros K [m s] [m' s'] r. unfold on_fst. cbn [fst snd]. destruct (c m) as [[m1 r1]|] eqn:E; [|discriminate].
  intros [= <- <- <-]. exact (K _ _ _ E).
Qed.
Lemma keeps_on_snd {R} (c : M Sensing R) : Keeps placed (on_snd c : MS R).
Proof.
  intros [m s] [m' s'] r. unfold on_snd. cbn [fst snd]. destruct (c s) as [[s1 r1]|]; [|discriminate].
  intros [= <- <- <-]. reflexivity.
Qed.
Lemma periods_place running n : forall m, place (periods running n m) = place m.
Proof.
  induction n as [|n IH]; intros m; cbn [periods]; [reflexivity|]. rewrite IH. destruct running, m; reflexivity.
Qed.

Ltac keep_places := repeat (progress keep || apply keeps_on_fst || apply keeps_on_snd).

Lemma read_place running : Keeps placed (readAccelerationValues running).
Proof. unfold readAccelerationValues, upd. keep_places. apply keeps_modify, periods_place. Qed.
#[local] Hint Resolve read_place : keeps.

Lemma edge_loop_place fuel i jerk : forall counter last, Keeps placed (edge_loop fuel i jerk counter last).
Proof.
  induction fuel as [|fuel IH]; intros counter last; cbn [edge_loop]; unfold stopped, mot, upd, set_stepper; [keep|].
  keep_places; auto with keeps.
Qed.
#[local] Hint Resolve edge_loop_place : keeps.

Lemma home_motor_place i : Keeps placed (home_motor i).
Proof.
  unfold home_motor, set_up_homing, turnOn, stop_timer, write_vref, setMotorDelayAndSkip, mot, get_m,
    set_stepper, clear_remaining, set_valid.
  keep_places; auto with keeps.
Qed.

End Ends.

(** ** The properties *)



(** When the reading of the accelerometer that precedes an approach of the bed
    fails, the calibration is given up, but the motor is left set up: Z still moves
    according to its flag, with the largest possible number of steps down, and the
    next movement of any motor starts the timer for it, too. *)
Theorem failed_reading_leaves_motor `{SensorLaws} tries m s :
  still m -> polls m = None -> is_Some (set_up_down (set_valid Z_ false m)) ->
  snd (fst (reading (readings s))) = false ->
  exists m' s', moveToZ0 (S tries) (m, s) = Some ((m', s'), false) /\
    motorsIsMoving (atZ (steppers m')) = true /\ motorsNumberOfSteps (atZ (steppers m')) = UINT32_MAX /\ ~ still m'.
Proof.
  intros St P [[m1 v] E] F. set (m0 := set_valid Z_ false m) in *.
  assert (still m0) as St0 by (unfold m0; destruct m; exact St). assert (polls m0 = None) as P0 by (unfold m0; destruct m; exact P).
  destruct (set_up_down_ready m0 m1 v St0 E) as (skips & delay & _ & _ & S1).
  destruct (approach_fails m0 s m1 v P0 E F) as (m2 & s2 & Ea & S2 & W & P2).
  destruct (vref_step (i := Z_) (set_save_enabled true m2)) as [w Ew].
  set (m4 := set_vrefs w (set_save_enabled true m2)) in *. assert (emergency m4 = false) as N4 by (unfold m4, emergency; destruct m2; cbn in *; subst; reflexivity).
  assert (steppers m4 = put Z_ (armed skips delay UINT32_MAX) (steppers m0)) as S4 by (rewrite <- S1, <- S2; unfold m4; destruct m2; reflexivity).
  exists (set_valid Z_ (atZ (currentStateOfValues m)) m4), s2. split.
  - unfold moveToZ0. step_pure. step_by on_fst_modify. cbn [fst snd id]. fold m0.
    assert (find_bed (S tries) (atZ (currentValues m)) (atZ (currentValues m)) 0 (m0, s) = Some ((m2, s2), tt)) as Ef.
    { cbn [find_bed]. step_pure. cbn [fst]. unfold emergency at 1. rewrite P0. cbn. step Ea. step_pure. step_pure. cbn [fst snd].
      rewrite W, orb_true_r. reflexivity. }
    step Ef. step_by on_fst_modify. step (on_fst_run _ _ _ s2 _ Ew). step_pure. cbn [fst]. rewrite N4. step_by on_fst_modify.
    unfold working, gets. cbn [snd]. rewrite W. destruct m4; reflexivity.
  - replace (steppers (set_valid _ _ m4)) with (steppers m4) by (destruct m4; reflexivity). rewrite S4.
    split; [destruct (steppers m0); reflexivity|]. split; [destruct (steppers m0); reflexivity|].
    unfold still. replace (steppers (set_valid _ _ m4)) with (steppers m4) by (destruct m4; reflexivity). rewrite S4.
    destruct (steppers m0). unfold motor_list, areMotorsMoving. cbn. rewrite !orb_true_r. discriminate.
Qed.

(** ** Witnesses *)

(** A printer with coarse motors. *)
Definition coarse_eeprom : list Z :=
  let put_f region v m := default m (ee_set_float m region v) in
  put_f EEPROM_X_MOTOR_STEPS_PER_MM (f_lit 1 16) (put_f EEPROM_Y_MOTOR_STEPS_PER_MM (f_lit 1 16)
  (put_f EEPROM_Z_MOTOR_STEPS_PER_MM (f_lit 1 16) (put_f EEPROM_SPEED_LIMIT_X (f_of_Z 4800) (put_f EEPROM_SPEED_LIMIT_Y (f_of_Z 4800)
  (put_f EEPROM_SPEED_LIMIT_Z (f_of_Z 60) (put_f EEPROM_BACKLASH_SPEED (f_of_Z 1500) (repeat 0 1024))))))).
Definition coarse_motors : Motors := set_eeprom coarse_eeprom example_motors.

(** An accelerometer that jerks with every reading, and one that never works. *)
Definition jerky_sensor : Sensor := fun k => (1%nat, true, (if Nat.even k then 0 else 1000, if Nat.even k then 0 else 1000)).
Definition broken_sensor : Sensor := fun k => (1%nat, false, (0, 0)).
#[local] Instance jerky_laws : @SensorLaws jerky_sensor.
Proof. intros k. cbn. lia. Qed.
#[local] Instance broken_laws : @SensorLaws broken_sensor.
Proof. intros k. cbn. lia. Qed.
Definition new_sensing : Sensing := mkSensing 0 true 0 0.



Lemma failed_reading_leaves_motor_witness : exists m' s', @moveToZ0 broken_sensor 1 (coarse_motors, new_sensing) = Some ((m', s'), false) /\
  motorsIsMoving (atZ (steppers m')) = true.
Proof.
  destruct (failed_reading_leaves_motor (H := broken_sensor) 0 coarse_motors new_sensing) as (m' & s' & E1 & Mv & _).
  - reflexivity.
  - reflexivity.
  - vm_compute. eauto.
  - reflexivity.
  - exists m', s'. split; [exact E1|exact Mv].
Defined.
