(* ===== verification/Twi.v ===== *)
(** * The two-wire bus and the accelerometer (twim.c, accelerometer.cpp)

    The master driver is a state machine that is run by the interrupts of the bus
    module. The module's registers are an interface, [Bus], with the documented
    behaviour that the driver relies on, [BusLaws]; a write to a register gives the
    module's state at its next interrupt. The driver is shown to be equal to a
    transfer in direct style, and the accelerometer is built on it. *)

From S2P Require Import Prelude.

(** ** The bus module *)

Definition TWI_MASTER_RIF_bm : Z := 0x80.
Definition TWI_MASTER_WIF_bm : Z := 0x40.
Definition TWI_MASTER_RXACK_bm : Z := 0x10.
Definition TWI_MASTER_ARBLOST_bm : Z := 0x08.
Definition TWI_MASTER_BUSERR_bm : Z := 0x04.
Definition TWI_MASTER_ACKACT_bm : Z := 0x04.
Definition TWI_MASTER_CMD_RECVTRANS_gc : Z := 0x02.
Definition TWI_MASTER_CMD_STOP_gc : Z := 0x03.

Class Bus (B : Type) := {
  STATUS : B -> Z;
  ADDR : B -> Z;
  DATA : B -> Z;
  write_STATUS : Z -> B -> B;
  write_ADDR : Z -> B -> B;
  write_DATA : Z -> B -> B;
  write_CTRLC : Z -> B -> B
}.

(** No arbitration was lost, no bus error occurred, and the last byte was
    acknowledged. *)
Definition quiet {B} `{Bus B} (b : B) : bool :=
  negb (flag (STATUS b) TWI_MASTER_ARBLOST_bm) &&
  negb (flag (STATUS b) TWI_MASTER_BUSERR_bm || flag (STATUS b) TWI_MASTER_RXACK_bm).

(** Without an error, the module raises the write flag after an address for writing
    and after a byte that was sent, and the read flag alone after an address for
    reading and after the command to receive another byte. *)
Class BusLaws (B : Type) `{Bus B} : Prop := {
  address_register : forall a b, ADDR (write_ADDR a b) = a;
  address_kept : forall v b, ADDR (write_DATA v b) = ADDR b;
  address_written : forall a b, Z.testbit a 0 = false -> quiet (write_ADDR a b) = true ->
    flag (STATUS (write_ADDR a b)) TWI_MASTER_WIF_bm = true;
  data_written : forall v b, quiet (write_DATA v b) = true -> flag (STATUS (write_DATA v b)) TWI_MASTER_WIF_bm = true;
  address_read : forall a b, Z.testbit a 0 = true -> quiet (write_ADDR a b) = true ->
    flag (STATUS (write_ADDR a b)) TWI_MASTER_WIF_bm = false /\ flag (STATUS (write_ADDR a b)) TWI_MASTER_RIF_bm = true;
  data_read : forall b, quiet (write_CTRLC TWI_MASTER_CMD_RECVTRANS_gc b) = true ->
    flag (STATUS (write_CTRLC TWI_MASTER_CMD_RECVTRANS_gc b)) TWI_MASTER_WIF_bm = false /\
    flag (STATUS (write_CTRLC TWI_MASTER_CMD_RECVTRANS_gc b)) TWI_MASTER_RIF_bm = true
}.

(** ** The driver *)

Inductive status_code_t := STATUS_OK | OPERATION_IN_PROGRESS | ERR_BUSY | ERR_IO_ERROR | ERR_NO_MEMORY | ERR_PROTOCOL.

#[global] Instance status_code_eq_dec : EqDecision status_code_t.
Proof. solve_decision. Defined.

Record twi_package_t := mkPackage {
  chip : Z; addr : list Z; addr_length : Z; buffer : list Z; length_ : Z; no_wait : bool
}.

(** The transfer descriptor, with the package it points to and the bus module. *)
Record Twim (B : Type) := mkTwim {
  bus : B; pkg : twi_package_t; addr_count : Z; data_count : Z; read : bool; locked : bool; status : status_code_t
}.
Arguments mkTwim {B}.
Arguments bus {B}.
Arguments pkg {B}.
Arguments addr_count {B}.
Arguments data_count {B}.
Arguments read {B}.
Arguments locked {B}.
Arguments status {B}.

Section Driver.
Context {B : Type} `{Bus B}.

Definition set_bus (v : B) (t : Twim B) : Twim B := let '(mkTwim _ p a d r l s) := t in mkTwim v p a d r l s.
Definition set_buffer (v : list Z) (t : Twim B) : Twim B :=
  let '(mkTwim b (mkPackage c ad al _ n w) a d r l s) := t in mkTwim b (mkPackage c ad al v n w) a d r l s.
Definition set_addr_count (v : Z) (t : Twim B) : Twim B := let '(mkTwim b p _ d r l s) := t in mkTwim b p v d r l s.
Definition set_data_count (v : Z) (t : Twim B) : Twim B := let '(mkTwim b p a _ r l s) := t in mkTwim b p a v r l s.
Definition set_locked (v : bool) (t : Twim B) : Twim B := let '(mkTwim b p a d r _ s) := t in mkTwim b p a d r v s.
Definition set_status (v : status_code_t) (t : Twim B) : Twim B := let '(mkTwim b p a d r l _) := t in mkTwim b p a d r l v.

Definition on_bus (f : B -> B) : M (Twim B) unit := modify (fun t => set_bus (f (bus t)) t).

Definition twim_write_handler : M (Twim B) unit :=
  t ← gets id;
  if addr_count t <? addr_length (pkg t) then
    v ← of_option (load (addr (pkg t)) (addr_count t));
    _ ← modify (set_addr_count (addr_count t + 1));
    on_bus (write_DATA v)
  else if data_count t <? length_ (pkg t) then
    if read t then on_bus (fun b => write_ADDR (Z.lor (ADDR b) 1) b)
    else
      v ← of_option (load (buffer (pkg t)) (data_count t));
      _ ← modify (set_data_count (u16 (data_count t + 1)));
      on_bus (write_DATA v)
  else
    _ ← on_bus (write_CTRLC TWI_MASTER_CMD_STOP_gc);
    modify (set_status STATUS_OK).

Definition twim_read_handler : M (Twim B) unit :=
  t ← gets id;
  if data_count t <? length_ (pkg t) then
    data ← of_option (store (buffer (pkg t)) (data_count t) (DATA (bus t)));
    _ ← modify (set_buffer data);
    _ ← modify (set_data_count (u16 (data_count t + 1)));
    if u16 (data_count t + 1) <? length_ (pkg t) then on_bus (write_CTRLC TWI_MASTER_CMD_RECVTRANS_gc)
    else
      _ ← on_bus (write_CTRLC (Z.lor TWI_MASTER_ACKACT_bm TWI_MASTER_CMD_STOP_gc));
      modify (set_status STATUS_OK)
  else
    _ ← on_bus (write_CTRLC TWI_MASTER_CMD_STOP_gc);
    modify (set_status ERR_NO_MEMORY).

Definition twim_interrupt_handler : M (Twim B) unit :=
  t ← gets id;
  let master_status := STATUS (bus t) in
  if flag master_status TWI_MASTER_ARBLOST_bm then
    _ ← on_bus (write_STATUS (Z.lor master_status TWI_MASTER_ARBLOST_bm));
    _ ← on_bus (write_CTRLC TWI_MASTER_CMD_STOP_gc);
    modify (set_status ERR_BUSY)
  else if flag master_status TWI_MASTER_BUSERR_bm || flag master_status TWI_MASTER_RXACK_bm then
    _ ← on_bus (write_CTRLC TWI_MASTER_CMD_STOP_gc);
    modify (set_status ERR_IO_ERROR)
  else if flag master_status TWI_MASTER_WIF_bm then twim_write_handler
  else if flag master_status TWI_MASTER_RIF_bm then twim_read_handler
  else modify (set_status ERR_PROTOCOL).

(** [twim_acquire]; the wait for a lock that nobody releases does not end. *)
Definition twim_acquire (no_wait : bool) : M (Twim B) status_code_t :=
  t ← gets id;
  if locked t then (if no_wait then mret ERR_BUSY else of_option None)
  else
    _ ← modify (set_locked true);
    _ ← modify (set_status OPERATION_IN_PROGRESS);
    mret STATUS_OK.

(** [twim_release]: the interrupts until the transfer ends; the bus becomes idle
    after it. *)
Fixpoint twim_release (fuel : nat) : M (Twim B) status_code_t :=
  match fuel with
  | O => of_option None
  | S fuel =>
      t ← gets id;
      if bool_decide (status t = OPERATION_IN_PROGRESS) then _ ← twim_interrupt_handler; twim_release fuel
      else _ ← modify (set_locked false); mret (status t)
  end.

(** The number of interrupts of a transfer: one per byte, the two addresses, the end. *)
Definition transfer_fuel (package : twi_package_t) : nat :=
  Z.to_nat (addr_length package) + Z.to_nat (length_ package) + 4.

(** The transfer: its status, and the buffer of the package afterwards. *)
Definition twi_master_transfer (package : twi_package_t) (is_read : bool) : M (Twim B) (status_code_t * list Z) :=
  acquired ← twim_acquire (no_wait package);
  if bool_decide (acquired = STATUS_OK) then
    _ ← modify (fun t => mkTwim (bus t) package 0 0 is_read (locked t) (status t));
    let chip_ := u8 (Z.shiftl (chip package) 1) in
    _ ← (if negb (addr_length package =? 0) || negb is_read then on_bus (write_ADDR chip_)
         else on_bus (write_ADDR (Z.lor chip_ 1)));
    s ← twim_release (transfer_fuel package);
    t ← gets id;
    mret (s, buffer (pkg t))
  else mret (acquired, buffer package).

(** [twi_master_init], apart from the configuration. *)
Definition twi_master_init : M (Twim B) status_code_t :=
  _ ← on_bus (write_STATUS 1);
  _ ← modify (set_locked false);
  _ ← modify (set_status STATUS_OK);
  mret STATUS_OK.

End Driver.

(** ** A transfer in direct style *)

Section Direct.
Context {B : Type} `{Bus B}.

(** The end of a transfer after an error. *)
Definition failed (b : B) : status_code_t * B :=
  if flag (STATUS b) TWI_MASTER_ARBLOST_bm
  then (ERR_BUSY, write_CTRLC TWI_MASTER_CMD_STOP_gc (write_STATUS (Z.lor (STATUS b) TWI_MASTER_ARBLOST_bm) b))
  else (ERR_IO_ERROR, write_CTRLC TWI_MASTER_CMD_STOP_gc b).

(** Send bytes, then go on. *)
Fixpoint send_bytes {R} (vs : list Z) (b : B) (fail : status_code_t * B -> R) (next : B -> R) : R :=
  if quiet b then
    match vs with [] => next b | v :: vs => send_bytes vs (write_DATA v b) fail next end
  else fail (failed b).

(** Receive [n] more bytes; the module holds the first one. *)
Fixpoint receive_bytes (n : nat) (b : B) : status_code_t * B * list Z :=
  if quiet b then
    match n with
    | O => (STATUS_OK, b, [])
    | S O => (STATUS_OK, write_CTRLC (Z.lor TWI_MASTER_ACKACT_bm TWI_MASTER_CMD_STOP_gc) b, [DATA b])
    | S n =>
        let '(s, b', vs) := receive_bytes n (write_CTRLC TWI_MASTER_CMD_RECVTRANS_gc b) in (s, b', DATA b :: vs)
    end
  else (failed b, []).

(** Write [sent] to a device, and then read [n] bytes if there are any to read. *)
Definition direct_transfer (device : Z) (sent : list Z) (n : nat) (b : B) : status_code_t * B * list Z :=
  send_bytes sent (write_ADDR device b) (fun r => (r, []))
    (fun b => match n with
              | O => (STATUS_OK, write_CTRLC TWI_MASTER_CMD_STOP_gc b, [])
              | S _ => receive_bytes n (write_ADDR (Z.lor device 1) b)
              end).

End Direct.

(** ** The driver does the direct transfer *)

Section Refinement.
Context {B : Type} `{BusLaws B}.

(** The transfer ends, within the fuel, with a status, a bus and a buffer. *)
Definition ends (fuel : nat) (t : Twim B) (r : status_code_t * B * list Z) : Prop :=
  exists t', twim_release fuel t = Some (t', fst (fst r)) /\ bus t' = snd (fst r) /\ buffer (pkg t') = snd r /\ locked t' = false.

Lemma release_done fuel t : status t <> OPERATION_IN_PROGRESS ->
  ends (S fuel) t (status t, bus t, buffer (pkg t)).
Proof.
  intros D. exists (set_locked false t). split; [|destruct t; auto].
  cbn [twim_release]. step_pure. unfold id. rewrite bool_decide_false by exact D. step_pure. reflexivity.
Qed.

Lemma release_with fuel t s b buf : status t = s -> s <> OPERATION_IN_PROGRESS -> bus t = b -> buffer (pkg t) = buf ->
  ends (S fuel) t (s, b, buf).
Proof. intros <- N <- <-. apply release_done, N. Qed.

Lemma release_step fuel t t' r : status t = OPERATION_IN_PROGRESS ->
  twim_interrupt_handler t = Some (t', tt) -> ends fuel t' r -> ends (S fuel) t r.
Proof.
  intros P E (t2 & E2 & R). exists t2. split; [|exact R].
  cbn [twim_release]. step_pure. unfold id. rewrite bool_decide_true by exact P. step E. exact E2.
Qed.

Lemma ends_more fuel fuel' t r : (fuel <= fuel')%nat -> ends fuel t r -> ends fuel' t r.
Proof.
  intros L (t' & E & R). exists t'. split; [|exact R]. clear R. revert fuel' t L E.
  induction fuel as [|fuel IH]; intros fuel' t L E; [discriminate E|].
  destruct fuel' as [|fuel']; [lia|]. cbn [twim_release] in *. unbind E as t1 x G. apply gets_inv in G as [-> ->].
  step_pure. unfold id in *. destruct (bool_decide _); [|exact E].
  unbind E as t2 u T. step T. apply (IH fuel'); [lia|exact E].
Qed.

Lemma release_fails fuel t : status t = OPERATION_IN_PROGRESS -> quiet (bus t) = false ->
  ends (S (S fuel)) t (failed (bus t), buffer (pkg t)).
Proof.
  intros P Q. unfold quiet in Q. unfold failed.
  destruct (flag (STATUS (bus t)) TWI_MASTER_ARBLOST_bm) eqn:A; cbn [negb andb] in Q; [|apply negb_false_iff in Q].
  - eapply release_step; [exact P| |].
    + unfold twim_interrupt_handler. step_pure. unfold id. rewrite A. do 2 step_pure. reflexivity.
    + destruct t as [b p a d r l s]. cbn in *. apply (release_done fuel (mkTwim _ p a d r l ERR_BUSY)). discriminate.
  - eapply release_step; [exact P| |].
    + unfold twim_interrupt_handler. step_pure. unfold id. rewrite A, Q. step_pure. reflexivity.
    + destruct t as [b p a d r l s]. cbn in *. apply (release_done fuel (mkTwim _ p a d r l ERR_IO_ERROR)). discriminate.
Qed.

(** The handler, when there is no error. *)
Lemma handler_writes t : quiet (bus t) = true -> flag (STATUS (bus t)) TWI_MASTER_WIF_bm = true ->
  twim_interrupt_handler t = twim_write_handler t.
Proof.
  unfold quiet, twim_interrupt_handler. intros Q W. apply andb_true_iff in Q as [Q1 Q2].
  apply negb_true_iff in Q1, Q2. step_pure. unfold id. rewrite Q1, Q2, W. reflexivity.
Qed.
Lemma handler_reads t : quiet (bus t) = true -> flag (STATUS (bus t)) TWI_MASTER_WIF_bm = false ->
  flag (STATUS (bus t)) TWI_MASTER_RIF_bm = true -> twim_interrupt_handler t = twim_read_handler t.
Proof.
  unfold quiet, twim_interrupt_handler. intros Q W R. apply andb_true_iff in Q as [Q1 Q2].
  apply negb_true_iff in Q1, Q2. step_pure. unfold id. rewrite Q1, Q2, W, R. reflexivity.
Qed.

Lemma patch_next (buf vs : list Z) v k : (k < length buf)%nat ->
  take (S k) (<[k := v]> buf) ++ vs ++ drop (S k + length vs) (<[k := v]> buf)
  = take k buf ++ (v :: vs) ++ drop (k + length (v :: vs)) buf.
Proof.
  intros K. rewrite insert_take_drop by exact K.
  rewrite !drop_app, !take_app, !length_take, !Nat.min_l by lia.
  rewrite !(take_ge (take k buf)) by (rewrite length_take; lia).
  rewrite (drop_ge (take k buf)) by (rewrite length_take; lia).
  replace (S k - k)%nat with 1%nat by lia. replace (S k + length vs - k)%nat with (S (length vs)) by lia.
  rewrite <- app_assoc. cbn [take drop app length]. rewrite drop_drop, Nat.add_succ_r. reflexivity.
Qed.

(** Receiving: the byte at [k] is next. *)
Lemma receive_ends n : forall b c ad al buf len_ w k l,
  (0 < n)%nat -> 0 <= k -> k + Z.of_nat n = len_ -> len_ <= len buf -> len_ < 65536 ->
  (quiet b = true -> flag (STATUS b) TWI_MASTER_WIF_bm = false /\ flag (STATUS b) TWI_MASTER_RIF_bm = true) ->
  ends (S (S n)) (mkTwim b (mkPackage c ad al buf len_ w) al k true l OPERATION_IN_PROGRESS)
    (let '(r, vs) := receive_bytes n b in (r, take (Z.to_nat k) buf ++ vs ++ drop (Z.to_nat k + length vs) buf)).
Proof.
  induction n as [|n IH]; intros b c ad al buf len_ w k l P K L Lb Lw Fl; [lia|].
  cbn [receive_bytes]. destruct (quiet b) eqn:Q.
  2: { cbn [length app]. rewrite Nat.add_0_r, take_drop. apply (release_fails (S n)); [reflexivity|exact Q]. }
  destruct (Fl eq_refl) as [NW R].
  assert (forall t', twim_read_handler (mkTwim b (mkPackage c ad al buf len_ w) al k true l OPERATION_IN_PROGRESS) = Some (t', tt) ->
            twim_interrupt_handler (mkTwim b (mkPackage c ad al buf len_ w) al k true l OPERATION_IN_PROGRESS) = Some (t', tt)) as Hr.
  { intros t' E. rewrite handler_reads; assumption. }
  assert (u16 (k + 1) = k + 1) as U by (apply u16_id; lia).
  destruct n as [|n].
  - eapply release_step; [reflexivity|apply Hr|].
    + unfold twim_read_handler. step_pure. cbn [data_count length_ pkg buffer id bus].
      rewrite (proj2 (Z.ltb_lt _ _)) by lia. step_option (store_in buf k (DATA b) ltac:(lia)). do 2 step_pure.
      rewrite U, (proj2 (Z.ltb_ge _ _)) by lia. step_pure. reflexivity.
    + cbn [app length].
      match goal with |- ends _ ?t _ => pose proof (release_done 1 t) as D end.
      cbn -[twim_release] in D. unfold id in D. rewrite Nat.add_1_r, <- insert_take_drop by lia. apply D. discriminate.
  - eapply release_step; [reflexivity|apply Hr|].
    + unfold twim_read_handler. step_pure. cbn [data_count length_ pkg buffer id bus].
      rewrite (proj2 (Z.ltb_lt _ _)) by lia. step_option (store_in buf k (DATA b) ltac:(lia)). do 2 step_pure.
      rewrite U, (proj2 (Z.ltb_lt _ _)) by lia. reflexivity.
    + specialize (IH (write_CTRLC TWI_MASTER_CMD_RECVTRANS_gc b) c ad al (<[Z.to_nat k := DATA b]> buf) len_ w (k + 1) l).
      replace (Z.to_nat (k + 1)) with (S (Z.to_nat k)) in IH by lia.
      destruct (receive_bytes (S n) (write_CTRLC TWI_MASTER_CMD_RECVTRANS_gc b)) as [[st b'] vs].
      rewrite patch_next in IH by lia. apply IH; try lia; [rewrite length_insert; lia|apply data_read].
Qed.

Lemma load_part buf n k v (vs : list Z) : 0 <= k -> drop (Z.to_nat k) (take n buf) = v :: vs -> load buf k = Some v.
Proof.
  intros K D. unfold load. rewrite (proj2 (Z.leb_le 0 k)) by lia.
  assert (take n buf !! Z.to_nat k = Some v) as E by (rewrite <- (Nat.add_0_r (Z.to_nat k)), <- lookup_drop, D; reflexivity).
  pose proof (lookup_lt_Some _ _ _ E) as L. rewrite length_take in L. rewrite lookup_take_lt in E by lia. exact E.
Qed.

(** Sending the data: the byte at [k] is next. *)
Lemma data_ends vs : forall b c ad al buf n w k l,
  0 <= k -> k + len vs = n -> n < 65536 -> drop (Z.to_nat k) (take (Z.to_nat n) buf) = vs ->
  (quiet b = true -> flag (STATUS b) TWI_MASTER_WIF_bm = true) ->
  ends (S (S (length vs))) (mkTwim b (mkPackage c ad al buf n w) al k false l OPERATION_IN_PROGRESS)
    (send_bytes vs b (fun r => (r, buf)) (fun b => (STATUS_OK, write_CTRLC TWI_MASTER_CMD_STOP_gc b, buf))).
Proof.
  induction vs as [|v vs IH]; intros b c ad al buf n w k l K L N D W; cbn [send_bytes length];
    destruct (quiet b) eqn:Q;
    try (match goal with |- ends _ ?t _ => apply (release_fails _ t); [reflexivity|exact Q] end).
  - eapply release_step; [reflexivity|rewrite handler_writes by auto; unfold twim_write_handler; step_pure|].
    + cbn [id addr_count addr_length pkg data_count length_ length] in *. rewrite Z.ltb_irrefl, (proj2 (Z.ltb_ge _ _)) by lia.
      step_pure. reflexivity.
    + apply release_with; [reflexivity|discriminate|reflexivity|reflexivity].
  - assert (load buf k = Some v) as E by (eapply load_part; eassumption).
    cbn [length] in L. assert (u16 (k + 1) = k + 1) as U by (apply u16_id; lia).
    eapply release_step; [reflexivity|rewrite handler_writes by auto; unfold twim_write_handler; step_pure|].
    + cbn [id addr_count addr_length pkg data_count length_ read buffer]. rewrite Z.ltb_irrefl, (proj2 (Z.ltb_lt _ _)) by lia.
      step_option E. step_pure. rewrite U. reflexivity.
    + apply IH; try lia; [|apply data_written]. replace (Z.to_nat (k + 1)) with (Z.to_nat k + 1)%nat by lia.
      rewrite <- drop_drop, D. reflexivity.
Qed.

(** Sending the address bytes, before anything else. *)
Lemma address_ends fuel next vs : forall b c ad al buf n w j rd l d,
  0 <= j -> j + len vs = al -> drop (Z.to_nat j) (take (Z.to_nat al) ad) = vs ->
  ADDR b = d -> (quiet b = true -> flag (STATUS b) TWI_MASTER_WIF_bm = true) ->
  (forall b', ADDR b' = d -> quiet b' = true -> flag (STATUS b') TWI_MASTER_WIF_bm = true ->
     ends (S (S fuel)) (mkTwim b' (mkPackage c ad al buf n w) al 0 rd l OPERATION_IN_PROGRESS) (next b')) ->
  ends (S (S fuel) + length vs) (mkTwim b (mkPackage c ad al buf n w) j 0 rd l OPERATION_IN_PROGRESS)
    (send_bytes vs b (fun r => (r, buf)) next).
Proof.
  induction vs as [|v vs IH]; intros b c ad al buf n w j rd l d K L D A W C; cbn [send_bytes length];
    destruct (quiet b) eqn:Q;
    try (match goal with |- ends _ ?t _ => apply (release_fails _ t); [reflexivity|exact Q] end).
  - rewrite Nat.add_0_r. cbn [length] in L. replace j with al by lia. apply C; auto.
  - assert (load ad j = Some v) as E by (eapply load_part; eassumption).
    cbn [length] in L. rewrite Nat.add_succ_r.
    eapply release_step; [reflexivity|rewrite handler_writes by auto; unfold twim_write_handler; step_pure|].
    + cbn [id addr_count addr_length pkg addr]. rewrite (proj2 (Z.ltb_lt _ _)) by lia. step_option E. step_pure. reflexivity.
    + apply IH with (d := d); try lia; [| |apply data_written|exact C].
      * replace (Z.to_nat (j + 1)) with (Z.to_nat j + 1)%nat by lia. rewrite <- drop_drop, D. reflexivity.
      * cbn [bus set_addr_count]. rewrite address_kept. exact A.
Qed.

Lemma send_bytes_app {R} (fail : status_code_t * B -> R) next us vs : forall b,
  send_bytes (us ++ vs) b fail next = send_bytes us b fail (fun b => send_bytes vs b fail next).
Proof.
  induction us as [|u us IH]; intros b; cbn [app send_bytes].
  - destruct (quiet b) eqn:Q; [reflexivity|]. destruct vs; cbn [send_bytes]; rewrite Q; reflexivity.
  - destruct (quiet b); [apply IH|reflexivity].
Qed.

Lemma send_bytes_map {R R'} (f : R -> R') fail next vs : forall b,
  f (send_bytes vs b fail next) = send_bytes vs b (fun r => f (fail r)) (fun b => f (next b)).
Proof. induction vs as [|v vs IH]; intros b; cbn [send_bytes]; destruct (quiet b); auto. Qed.

Lemma device_even c : Z.testbit (u8 (Z.shiftl c 1)) 0 = false.
Proof.
  unfold u8. rewrite Z.shiftl_mul_pow2 by lia. change 256 with (2 ^ 8). rewrite Z.mod_pow2_bits_low by lia.
  rewrite Z.mul_comm. change (2 ^ 1) with 2. apply Z.testbit_even_0.
Qed.
Lemma device_odd d : Z.testbit (Z.lor d 1) 0 = true.
Proof. rewrite Z.lor_spec. apply orb_true_r. Qed.

(** A package that can be transferred: its sizes are those of its arrays. *)
Definition package_ok (p : twi_package_t) (rd : bool) : Prop :=
  0 <= addr_length p <= len (addr p) /\ 0 <= length_ p <= len (buffer p) /\ length_ p < 65536 /\
  (rd = true -> 0 < addr_length p).

Definition package_sent (p : twi_package_t) (rd : bool) : list Z :=
  take (Z.to_nat (addr_length p)) (addr p) ++ (if rd then [] else take (Z.to_nat (length_ p)) (buffer p)).
Definition package_wanted (p : twi_package_t) (rd : bool) : nat := if rd then Z.to_nat (length_ p) else 0.

(** The result of a direct transfer, with the received bytes in a buffer. *)
Definition into (buf : list Z) (r : status_code_t * B * list Z) : status_code_t * B * list Z :=
  (fst r, snd r ++ drop (length (snd r)) buf).

Lemma transfer_ends p rd l b : package_ok p rd ->
  ends (transfer_fuel p) (mkTwim (write_ADDR (u8 (Z.shiftl (chip p) 1)) b) p 0 0 rd l OPERATION_IN_PROGRESS)
    (into (buffer p) (direct_transfer (u8 (Z.shiftl (chip p) 1)) (package_sent p rd) (package_wanted p rd) b)).
Proof.
  intros (A & L & N & _). set (d := u8 _). destruct p as [c ad al buf n w]. cbn [addr_length addr length_ buffer chip] in *.
  unfold direct_transfer, package_sent, package_wanted, transfer_fuel. cbn [addr_length addr length_ buffer chip].
  rewrite send_bytes_map. rewrite send_bytes_app.
  apply ends_more with (fuel := (S (S (2 + Z.to_nat n)) + length (take (Z.to_nat al) ad))%nat); [rewrite length_take; lia|].
  apply address_ends with (d := d); try lia.
  - rewrite length_take. lia.
  - reflexivity.
  - apply address_register.
  - apply address_written, device_even.
  - intros b' Ab Q W. destruct rd.
    + cbn [send_bytes]. rewrite Q. destruct (Z.to_nat n) as [|n'] eqn:En.
      * eapply release_step; [reflexivity|rewrite handler_writes by auto; unfold twim_write_handler; step_pure|].
        -- cbn [id addr_count addr_length pkg data_count length_]. rewrite Z.ltb_irrefl, (proj2 (Z.ltb_ge _ _)) by lia. step_pure. reflexivity.
        -- apply release_with; [reflexivity|discriminate|reflexivity|reflexivity].
      * eapply release_step; [reflexivity|rewrite handler_writes by auto; unfold twim_write_handler; step_pure|].
        -- cbn [id addr_count addr_length pkg data_count length_ read]. rewrite Z.ltb_irrefl, (proj2 (Z.ltb_lt _ _)) by lia. reflexivity.
        -- cbn [set_bus bus]. rewrite Ab. apply ends_more with (fuel := S (S (S n'))); [lia|].
           pose proof (receive_ends (S n') (write_ADDR (Z.lor d 1) b') c ad al buf n w 0 l) as R.
           unfold into. destruct (receive_bytes _ _) as [[s b2] vs]. cbn [fst snd]. apply R; try lia. apply address_read, device_odd.
    + unfold into. cbn [fst snd app length drop].
      apply ends_more with (fuel := S (S (length (take (Z.to_nat n) buf)))); [rewrite length_take; lia|].
      apply data_ends; try lia; [rewrite length_take; lia|reflexivity|auto].
Qed.

(** A transfer on a free bus, in terms of the direct one. *)
Lemma transfer_spec p rd t : locked t = false -> package_ok p rd -> exists t',
  twi_master_transfer p rd t = Some (t', let r := direct_transfer (u8 (Z.shiftl (chip p) 1)) (package_sent p rd) (package_wanted p rd) (bus t) in
    (fst (fst r), snd r ++ drop (length (snd r)) (buffer p))) /\
  bus t' = snd (fst (direct_transfer (u8 (Z.shiftl (chip p) 1)) (package_sent p rd) (package_wanted p rd) (bus t))) /\ locked t' = false.
Proof.
  intros F P. destruct (transfer_ends p rd true (bus t) P) as (t' & E & Eb & Ebuf & El).
  exists t'. split; [|split; [exact Eb|exact El]]. unfold twi_master_transfer.
  eapply eq_trans; [eapply bind_step; unfold twim_acquire; step_pure; unfold id; rewrite F; do 2 step_pure; reflexivity|].
  rewrite bool_decide_true by reflexivity. step_pure.
  assert (negb (addr_length p =? 0) || negb rd = true) as Hn.
  { destruct P as (_ & _ & _ & R). destruct rd; [|apply orb_true_r]. specialize (R eq_refl).
    rewrite (proj2 (Z.eqb_neq _ _)) by lia. reflexivity. }
  rewrite Hn. step_pure. replace (bus (set_status _ _)) with (bus t) by (destruct t; reflexivity).
  cbn [set_bus bus]. eapply eq_trans; [eapply bind_step; destruct t; exact E|]. step_pure. unfold id. rewrite Ebuf. reflexivity.
Qed.

End Refinement.

(** ** A device on the bus *)

(** A device with registers, a pointer to the next one, and the module's registers;
    it answers to one address, and the first byte that it is sent sets the pointer. *)
Record Device := mkDevice {
  dev_address : Z; registers : list Z; pointer : Z; first : bool; dev_STATUS : Z; dev_ADDR : Z; dev_DATA : Z
}.

Definition next_byte (d : Device) : Device :=
  mkDevice (dev_address d) (registers d) (u8 (pointer d + 1)) false (Z.lor TWI_MASTER_RIF_bm 2) (dev_ADDR d)
    (default 0 (registers d !! Z.to_nat (pointer d))).

#[export] Instance device_bus : Bus Device := {
  STATUS := dev_STATUS;
  ADDR := dev_ADDR;
  DATA := dev_DATA;
  write_STATUS _ d := d;
  write_ADDR a d :=
    let d' s := mkDevice (dev_address d) (registers d) (pointer d) true s a (dev_DATA d) in
    if Z.shiftr a 1 =? dev_address d then
      if Z.testbit a 0 then next_byte (d' 0) else d' (Z.lor TWI_MASTER_WIF_bm 2)
    else d' (Z.lor (Z.lor TWI_MASTER_WIF_bm TWI_MASTER_RXACK_bm) 2);
  write_DATA v d :=
    if first d then mkDevice (dev_address d) (registers d) v false (Z.lor TWI_MASTER_WIF_bm 2) (dev_ADDR d) (dev_DATA d)
    else mkDevice (dev_address d) (<[Z.to_nat (pointer d) := v]> (registers d)) (u8 (pointer d + 1)) false
           (Z.lor TWI_MASTER_WIF_bm 2) (dev_ADDR d) (dev_DATA d);
  write_CTRLC c d :=
    if c =? TWI_MASTER_CMD_RECVTRANS_gc then next_byte d
    else mkDevice (dev_address d) (registers d) (pointer d) true 1 (dev_ADDR d) (dev_DATA d)
}.

#[export] Instance device_laws : BusLaws Device.
Proof.
  constructor.
  - intros a b. cbn -[Z.testbit]. destruct (_ =? _), (Z.testbit a 0); reflexivity.
  - intros v b. cbn. destruct (first b); reflexivity.
  - intros a b T _. cbn -[Z.testbit]. rewrite T. destruct (_ =? _); reflexivity.
  - intros v b _. cbn. destruct (first b); reflexivity.
  - intros a b T. unfold quiet. cbn -[Z.testbit]. rewrite T.
    destruct (_ =? _); [intros _; split; reflexivity|discriminate].
  - intros b _. split; reflexivity.
Qed.

(** ** Properties *)


Definition example_device : Device := mkDevice 29 (seqZ 100 50) 0 true 1 0 0.
Definition idle_twim : Twim Device := mkTwim example_device (mkPackage 0 [] 0 [] 0 false) 0 0 false false STATUS_OK.
Definition read_six : twi_package_t := mkPackage 29 [1] 1 (repeat 0 8) 6 false.

