(* ===== verification/Accelerometer.v ===== *)
(** * The accelerometer (accelerometer.cpp)

    The accelerometer's registers are read and written by transfers on the two-wire
    bus. A byte that the code reads before it was ever written is a parameter,
    [junk], on which the results are shown not to depend. *)

From S2P Require Import Prelude Twi.

Definition ACCELEROMETER_SAMPLE_SIZE : Z := 25.
Definition ACCELEROMETER_ADDRESS : Z := 0x1D.
Definition DEVICE_ID : Z := 0x4A.
Definition STATUS_REG : Z := 0x00.
Definition STATUS_DR : Z := Z.lor (Z.lor 1 2) 4.
Definition OUT_X_MSB : Z := 0x01.
Definition OUT_LENGTH : Z := 6.
Definition WHO_AM_I : Z := 0x0D.
Definition CTRL_REG1 : Z := 0x2A.
Definition CTRL_REG1_ACTIVE : Z := 1.
Definition CTRL_REG1_DR0 : Z := 8.
Definition CTRL_REG2 : Z := 0x2B.
Definition CTRL_REG2_RST : Z := 64.

(** The driver's state, the flag, and the accelerations in the order of the
    enumeration: Z, Y, X. *)
Record Accelerometer (B : Type) := mkAccelerometer { twi : Twim B; isWorking : bool; accelerations : list Z }.
Arguments mkAccelerometer {B}.
Arguments twi {B}.
Arguments isWorking {B}.
Arguments accelerations {B}.

Section Operations.
Context {B : Type} `{Bus B} (junk : Z).

Definition set_isWorking (v : bool) (a : Accelerometer B) : Accelerometer B := mkAccelerometer (twi a) v (accelerations a).
Definition set_accelerations (v : list Z) (a : Accelerometer B) : Accelerometer B := mkAccelerometer (twi a) (isWorking a) v.

Definition on_twi {R} (c : M (Twim B) R) : M (Accelerometer B) R :=
  fun a => match c (twi a) with
           | Some (t, r) => Some (mkAccelerometer t (isWorking a) (accelerations a), r)
           | None => None
           end.

(** Whether the transmission was successful, and the response buffer. *)
Definition transmit (command value : Z) (sendValue : bool) (responseBuffer : list Z) (responseLength : Z)
    : M (Accelerometer B) (bool * list Z) :=
  let packet := mkPackage ACCELEROMETER_ADDRESS (if sendValue then [command; value] else [command])
                  (if sendValue then 2 else 1) responseBuffer responseLength false in
  r ← on_twi (twi_master_transfer packet (negb (responseLength =? 0)));
  let working := bool_decide (fst r = STATUS_OK) in
  _ ← modify (set_isWorking working);
  mret (working, snd r).

Definition sendCommand (command : Z) : M (Accelerometer B) bool := r ← transmit command 0 false [] 0; mret (fst r).
Definition writeValue (address value : Z) : M (Accelerometer B) bool := r ← transmit address value true [] 0; mret (fst r).
Definition readValue (address : Z) (responseBuffer : list Z) (responseLength : Z) : M (Accelerometer B) (bool * list Z) :=
  transmit address 0 false responseBuffer responseLength.

Definition dataAvailable : M (Accelerometer B) bool :=
  r ← readValue STATUS_REG [junk] 1;
  mret (flag (hd 0 (snd r)) STATUS_DR).

Definition testConnection : M (Accelerometer B) bool :=
  r ← readValue WHO_AM_I [junk] 1;
  ok ← (if fst r && (hd 0 (snd r) =? DEVICE_ID) then
          reset ← writeValue CTRL_REG2 CTRL_REG2_RST;
          if (reset : bool) then
            idle ← writeValue CTRL_REG1 0;
            if (idle : bool) then writeValue CTRL_REG1 (Z.lor CTRL_REG1_DR0 CTRL_REG1_ACTIVE) else mret false
          else mret false
        else mret false);
  _ ← modify (set_isWorking ok);
  mret ok.

(** The wait for data; it is left when the accelerometer does not work. A wait that
    does not end within the fuel has no result. *)
Fixpoint wait_available (fuel : nat) : M (Accelerometer B) unit :=
  match fuel with
  | O => of_option None
  | S fuel =>
      available ← dataAvailable;
      if (available : bool) then mret tt
      else working ← gets isWorking; if negb working then mret tt else wait_available fuel
  end.

(** The acceleration in two registers: twelve bits, left-aligned. *)
Definition acceleration (values : list Z) (j : nat) : Z :=
  Z.shiftr (s16 (Z.lor (Z.shiftl (nth (2 * j) values 0) 8) (nth (2 * j + 1) values 0))) 4.

Definition add_sample (values averages : list Z) : list Z :=
  zip_with (fun a j => s32 (a + acceleration values j)) averages [0; 1; 2]%nat.

Fixpoint sample_loop (fuel : nat) (n : nat) (averages : list Z) : M (Accelerometer B) (list Z) :=
  match n with
  | O => mret averages
  | S n =>
      _ ← wait_available fuel;
      working ← gets isWorking;
      if negb working then mret averages
      else
        r ← readValue OUT_X_MSB (repeat junk (Z.to_nat OUT_LENGTH)) OUT_LENGTH;
        if (fst r : bool) then sample_loop fuel n (add_sample (snd r : list Z) averages) else mret averages
  end.

Definition readAccelerationValues (fuel : nat) : M (Accelerometer B) bool :=
  averages ← sample_loop fuel (Z.to_nat ACCELEROMETER_SAMPLE_SIZE) [0; 0; 0];
  _ ← modify (set_accelerations (map (fun a => s16 (Z.quot a ACCELEROMETER_SAMPLE_SIZE)) averages));
  gets isWorking.

End Operations.

(** * Properties *)

Section Properties.
Context {B : Type} `{BusLaws B}.

(** A read and a write of registers, as direct transfers. *)
Definition device : Z := u8 (Z.shiftl ACCELEROMETER_ADDRESS 1).
Definition read_registers (address : Z) (n : nat) (b : B) : status_code_t * B * list Z := direct_transfer device [address] n b.

Lemma receive_length n : forall (b b' : B) vs, receive_bytes n b = (STATUS_OK, b', vs) -> length vs = n.
Proof.
  induction n as [|n IH]; intros b b' vs E; cbn [receive_bytes] in E; destruct (quiet b).
  - injection E as <- <-. reflexivity.
  - unfold failed in E. destruct (flag _ _); discriminate E.
  - destruct n as [|n]; [injection E as <- <-; reflexivity|].
    destruct (receive_bytes (S n) _) as [[s b1] vs1] eqn:R. injection E as -> <- <-. cbn [length]. f_equal. eauto.
  - unfold failed in E. destruct (flag _ _); discriminate E.
Qed.

Lemma send_bytes_ok (next : B -> status_code_t * B * list Z) us : forall b r, send_bytes us b (fun r => (r, [])) next = r ->
  fst (fst r) = STATUS_OK -> exists b1, next b1 = r.
Proof.
  induction us as [|u us IH]; intros b r E S; cbn [send_bytes] in E; destruct (quiet b); eauto;
    subst r; unfold failed in S; destruct (flag _ _); discriminate S.
Qed.

Lemma direct_length d us n (b b' : B) vs : (0 < n)%nat -> direct_transfer d us n b = (STATUS_OK, b', vs) -> length vs = n.
Proof.
  intros P E. apply send_bytes_ok in E as [b1 E]; [|reflexivity]. destruct n as [|n]; [lia|].
  eapply receive_length, E.
Qed.

(** A read of registers, whatever is in the buffer. *)
Lemma readValue_spec address buf n (a : Accelerometer B) : locked (twi a) = false -> (0 < n)%nat -> length buf = n -> Z.of_nat n < 65536 ->
  let r := read_registers address n (bus (twi a)) in
  exists t', readValue address buf (Z.of_nat n) a =
    Some (mkAccelerometer t' (bool_decide (fst (fst r) = STATUS_OK)) (accelerations a),
          (bool_decide (fst (fst r) = STATUS_OK), snd r ++ drop (length (snd r)) buf)) /\
    bus t' = snd (fst r) /\ locked t' = false.
Proof.
  intros F P Lb Lw r. unfold readValue, transmit.
  set (p := mkPackage _ _ _ _ _ _).
  destruct (transfer_spec p true (twi a)) as (t' & E & Eb & El); [exact F| |].
  { unfold package_ok, p. cbn. rewrite Lb. lia. }
  assert (package_sent p true = [address]) as Es by reflexivity.
  assert (package_wanted p true = n) as Ew by (unfold package_wanted, p; cbn; lia).
  rewrite Es, Ew in E, Eb. exists t'. split; [|split; [exact Eb|exact El]].
  replace (negb (Z.of_nat n =? 0)) with true by (symmetry; apply negb_true_iff, Z.eqb_neq; lia).
  eapply eq_trans; [eapply bind_step; unfold on_twi; rewrite E; reflexivity|]. step_pure. reflexivity.
Qed.

(** ** What a device delivers *)

(** The status register has a new value after some polls that succeed. *)
Inductive becomes_available : nat -> B -> B -> Prop :=
| available_now fuel b b' v : read_registers STATUS_REG 1 b = (STATUS_OK, b', [v]) -> flag v STATUS_DR = true ->
    becomes_available (S fuel) b b'
| available_later fuel b b1 b' v : read_registers STATUS_REG 1 b = (STATUS_OK, b1, [v]) -> flag v STATUS_DR = false ->
    becomes_available fuel b1 b' -> becomes_available (S fuel) b b'.

(** A sequence of samples, each available after some polls. *)
Inductive delivers (fuel : nat) : B -> list (list Z) -> B -> Prop :=
| delivers_none b : delivers fuel b [] b
| delivers_sample b b1 b2 b' vs samples : becomes_available fuel b b1 ->
    read_registers OUT_X_MSB 6 b1 = (STATUS_OK, b2, vs) -> delivers fuel b2 samples b' -> delivers fuel b (vs :: samples) b'.

Lemma dataAvailable_spec junk (a : Accelerometer B) : locked (twi a) = false ->
  let r := read_registers STATUS_REG 1 (bus (twi a)) in
  exists t', dataAvailable junk a =
    Some (mkAccelerometer t' (bool_decide (fst (fst r) = STATUS_OK)) (accelerations a),
          flag (hd 0 (snd r ++ drop (length (snd r)) [junk])) STATUS_DR) /\
    bus t' = snd (fst r) /\ locked t' = false.
Proof.
  intros F r. destruct (readValue_spec STATUS_REG [junk] 1 a F) as (t' & E & R); [lia|reflexivity|lia|].
  exists t'. split; [|exact R]. unfold dataAvailable. step E. reflexivity.
Qed.

Lemma wait_available_spec junk fuel b b' : becomes_available fuel b b' -> forall a : Accelerometer B,
  bus (twi a) = b -> locked (twi a) = false ->
  exists t', wait_available junk fuel a = Some (mkAccelerometer t' true (accelerations a), tt) /\ bus t' = b' /\ locked t' = false.
Proof.
  induction 1 as [fuel b b' v R Fv|fuel b b1 b' v R Fv _ IH]; intros a Eb F; subst b;
    destruct (dataAvailable_spec junk a F) as (t1 & E1 & Eb1 & L1); rewrite R in E1, Eb1; cbn [fst snd app hd] in E1, Eb1; rewrite Fv in E1.
  - exists t1. split; [|auto]. cbn [wait_available]. step E1. reflexivity.
  - destruct (IH (mkAccelerometer t1 true (accelerations a)) Eb1 L1) as (t' & E' & R').
    exists t'. split; [|exact R']. cbn [wait_available]. step E1. step_pure. exact E'.
Qed.

(** The sums that the samples add to. *)
Definition sum_samples (samples : list (list Z)) (averages : list Z) : list Z := fold_left (fun av vs => add_sample vs av) samples averages.

Lemma sample_loop_spec junk fuel b samples b' : delivers fuel b samples b' -> forall averages (a : Accelerometer B),
  bus (twi a) = b -> locked (twi a) = false ->
  exists t', sample_loop junk fuel (length samples) averages a =
    Some (mkAccelerometer t' (match samples with [] => isWorking a | _ => true end) (accelerations a), sum_samples samples averages) /\
    bus t' = b' /\ locked t' = false.
Proof.
  induction 1 as [b|b b1 b2 b' vs samples W R _ IH]; intros averages a Eb F.
  - exists (twi a). destruct a; auto.
  - destruct (wait_available_spec junk _ _ _ W a Eb F) as (t1 & E1 & Eb1 & L1).
    destruct (readValue_spec OUT_X_MSB (repeat junk 6) 6 (mkAccelerometer t1 true (accelerations a)) L1) as (t2 & E2 & Eb2 & L2); [lia|reflexivity|lia|].
    cbn [twi accelerations] in E2, Eb2. rewrite Eb1, R in E2, Eb2. cbn [fst snd] in E2, Eb2.
    rewrite (direct_length _ _ 6 _ _ _ ltac:(lia) R) in E2. cbn [drop repeat] in E2. rewrite app_nil_r in E2.
    destruct (IH (add_sample vs averages) (mkAccelerometer t2 true (accelerations a)) Eb2 L2) as (t' & E' & R').
    exists t'. split; [|exact R']. cbn [length sample_loop]. step E1. step_pure. step E2.
    rewrite bool_decide_true by reflexivity. cbn [fst snd]. eapply eq_trans; [exact E'|]. destruct samples; reflexivity.
Qed.

(** ** Sums *)

Lemma acceleration_range vs j : -2048 <= acceleration vs j < 2048.
Proof.
  unfold acceleration. set (v := Z.lor _ _). rewrite Z.shiftr_div_pow2 by lia. change (2 ^ 4) with 16.
  unfold s16. pose proof (Z.mod_pos_bound (v + 32768) 65536). lia_mod.
Qed.

Definition axis_sum (samples : list (list Z)) (j : nat) : Z := foldr (fun vs s => acceleration vs j + s) 0 samples.

Lemma axis_sum_range samples j : -2048 * len samples <= axis_sum samples j <= 2047 * len samples.
Proof.
  induction samples as [|vs samples IH]; cbn [axis_sum foldr length]; [lia|].
  pose proof (acceleration_range vs j). unfold axis_sum in *. lia.
Qed.

Lemma sum_samples_spec samples : forall x y z,
  Z.abs x + 2048 * len samples < 2147483648 -> Z.abs y + 2048 * len samples < 2147483648 -> Z.abs z + 2048 * len samples < 2147483648 ->
  sum_samples samples [x; y; z] = [x + axis_sum samples 0; y + axis_sum samples 1; z + axis_sum samples 2].
Proof.
  induction samples as [|vs samples IH]; intros x y z Hx Hy Hz; cbn [axis_sum foldr sum_samples fold_left].
  - rewrite !Z.add_0_r. reflexivity.
  - cbn [length] in *. pose proof (acceleration_range vs 0). pose proof (acceleration_range vs 1). pose proof (acceleration_range vs 2).
    unfold add_sample at 2. cbn [zip_with]. rewrite !s32_id by lia.
    unfold sum_samples in IH. rewrite IH by lia. unfold axis_sum. rewrite !Z.add_assoc. reflexivity.
Qed.

(** ** The byte that is not initialized *)

(** The same but for what is left in buffers. *)
Definition agree (a a' : Accelerometer B) : Prop :=
  bus (twi a) = bus (twi a') /\ locked (twi a) = false /\ locked (twi a') = false /\
  isWorking a = isWorking a' /\ accelerations a = accelerations a'.

(** Two computations that agree, and are both defined or both not. *)
Definition similar {R} (c c' : M (Accelerometer B) R) : Prop := forall a a', agree a a' ->
  match c a, c' a' with
  | Some (x, r), Some (x', r') => agree x x' /\ r = r'
  | None, None => True
  | _, _ => False
  end.

Lemma similar_bind {R R'} (c c' : M (Accelerometer B) R) (k k' : R -> M (Accelerometer B) R') :
  similar c c' -> (forall r, similar (k r) (k' r)) -> similar (x ← c; k x) (x ← c'; k' x).
Proof.
  intros Hc Hk a a' A. specialize (Hc a a' A). unfold mbind, M_bind.
  destruct (c a) as [[x r]|], (c' a') as [[x' r']|]; try contradiction; [|exact I].
  destruct Hc as [A' <-]. exact (Hk r x x' A').
Qed.
Lemma similar_ret {R} (r : R) : similar (mret r) (mret r).
Proof. intros a a' A. cbn. auto. Qed.
Lemma similar_working : similar (gets isWorking) (gets isWorking).
Proof. intros a a' A. cbn. split; [exact A|apply A]. Qed.
Lemma similar_accelerations v : similar (modify (set_accelerations v)) (modify (set_accelerations v)).
Proof. intros a a' A. unfold agree in *. cbn. intuition. Qed.

Lemma agree_after (a a' : Accelerometer B) t t' b w : agree a a' -> bus t = b -> bus t' = b -> locked t = false -> locked t' = false ->
  agree (mkAccelerometer t w (accelerations a)) (mkAccelerometer t' w (accelerations a')).
Proof. unfold agree. cbn. intuition congruence. Qed.

Lemma similar_wait junk junk' fuel : similar (wait_available junk fuel) (wait_available junk' fuel).
Proof.
  induction fuel as [|fuel IH]; intros a a' A; [exact I|]. pose proof A as (Eb & F & F' & _).
  destruct (dataAvailable_spec junk a F) as (t & E & T & L). destruct (dataAvailable_spec junk' a' F') as (t' & E' & T' & L').
  rewrite <- Eb in E', T'. set (r := read_registers _ _ _) in *.
  cbn [wait_available]. unfold mbind, M_bind, gets. rewrite E, E'. cbn [isWorking].
  pose proof (agree_after a a' t t' _ (bool_decide (fst (fst r) = STATUS_OK)) A T T' L L') as A'.
  destruct (bool_decide (fst (fst r) = STATUS_OK)) eqn:D; cbn [negb].
  - apply bool_decide_eq_true in D. destruct r as [[s b] vs] eqn:R. cbn [fst snd] in *. subst s.
    apply (direct_length _ _ 1) in R; [|lia]. destruct vs as [|v []]; try discriminate R. cbn [app hd].
    destruct (flag v STATUS_DR); [split; auto|]. exact (IH _ _ A').
  - destruct (flag _ _), (flag _ _); split; auto.
Qed.

Lemma similar_loop junk junk' fuel n : forall averages, similar (sample_loop junk fuel n averages) (sample_loop junk' fuel n averages).
Proof.
  induction n as [|n IH]; intros averages; [apply similar_ret|]. cbn [sample_loop].
  apply similar_bind; [apply similar_wait|intros _]. apply similar_bind; [apply similar_working|intros w].
  destruct w; cbn [negb]; [|apply similar_ret]. intros a a' A. pose proof A as (Eb & F & F' & _).
  change OUT_LENGTH with (Z.of_nat 6). change (Z.to_nat (Z.of_nat 6)) with 6%nat.
  destruct (readValue_spec OUT_X_MSB (repeat junk 6) 6 a F) as (t & E & T & L); [lia|reflexivity|lia|].
  destruct (readValue_spec OUT_X_MSB (repeat junk' 6) 6 a' F') as (t' & E' & T' & L'); [lia|reflexivity|lia|].
  rewrite <- Eb in E', T'. unfold mbind, M_bind. rewrite E, E'. cbn [fst snd].
  pose proof (agree_after a a' t t' _ (bool_decide (fst (fst (read_registers OUT_X_MSB 6 (bus (twi a)))) = STATUS_OK)) A T T' L L') as A'.
  destruct (bool_decide _) eqn:D; [|split; [exact A'|reflexivity]]. apply bool_decide_eq_true in D.
  destruct (read_registers _ _ _) as [[s b] vs] eqn:R. cbn [fst snd] in *. subst s.
  rewrite (direct_length _ _ 6 _ _ _ ltac:(lia) R). cbn [drop repeat]. exact (IH _ _ _ A').
Qed.

End Properties.

(** ** The properties *)

(** When the device delivers twenty-five samples, each after some polls of its
    status, the reading ends, reports success, and the accelerations are the
    averages of the twelve-bit values of each axis, rounded toward zero and within
    twelve bits. *)
Theorem accelerations_averaged {B} `{BusLaws B} junk fuel (a : Accelerometer B) samples b' :
  locked (twi a) = false -> delivers fuel (bus (twi a)) samples b' -> length samples = 25%nat ->
  exists t', bus t' = b' /\ locked t' = false /\
    readAccelerationValues junk fuel a =
      Some (mkAccelerometer t' true (map (fun j => Z.quot (axis_sum samples j) 25) [0; 1; 2]%nat), true) /\
    forall j, -2048 <= Z.quot (axis_sum samples j) 25 <= 2047.
Proof.
  intros F D L. destruct (sample_loop_spec junk _ _ _ _ D [0; 0; 0] a eq_refl F) as (t' & E & Eb & El).
  assert (forall j, -2048 <= Z.quot (axis_sum samples j) 25 <= 2047) as Q.
  { intros j. pose proof (axis_sum_range samples j) as R. rewrite L in R. Z.quot_rem_to_equations. lia. }
  exists t'. split; [exact Eb|]. split; [exact El|]. split; [|exact Q].
  unfold readAccelerationValues. change (Z.to_nat ACCELEROMETER_SAMPLE_SIZE) with 25%nat. rewrite <- L at 1. step E. step_pure.
  rewrite sum_samples_spec by (rewrite L; cbn; lia). rewrite !Z.add_0_l. destruct samples; [discriminate L|].
  unfold gets. cbn [map]. change ACCELEROMETER_SAMPLE_SIZE with 25.
  assert (forall x, -2048 <= x <= 2047 -> s16 x = x) as S16 by (intros x X; unfold s16; rewrite Z.mod_small; lia).
  rewrite !S16 by apply Q. reflexivity.
Qed.

(** The byte that [dataAvailable] reads although a failed transfer has not
    written it does not matter: with any two values of it, a reading takes the same
    accesses to the bus and has the same result and the same accelerations. *)
Theorem uninitialized_byte_harmless {B} `{BusLaws B} junk junk' fuel (a : Accelerometer B) :
  locked (twi a) = false ->
  match readAccelerationValues junk fuel a, readAccelerationValues junk' fuel a with
  | Some (x, r), Some (x', r') => bus (twi x) = bus (twi x') /\ isWorking x = isWorking x' /\ accelerations x = accelerations x' /\ r = r'
  | None, None => True
  | _, _ => False
  end.
Proof.
  intros F. assert (similar (readAccelerationValues junk fuel) (readAccelerationValues junk' fuel)) as S.
  { apply similar_bind; [apply similar_loop|intros r]. apply similar_bind; [apply similar_accelerations|intros _]. apply similar_working. }
  specialize (S a a). destruct (readAccelerationValues junk fuel a) as [[x r]|], (readAccelerationValues junk' fuel a) as [[x' r']|];
    try (apply S; repeat split; auto; fail).
  destruct S as [(X1 & _ & _ & X2 & X3) ->]; [repeat split; auto|]. auto.
Qed.

(** ** Witnesses *)

(** A device with new data, whose registers hold the accelerations 1, -1 and 16. *)
Definition example_sensor : Device := mkDevice 29 ([7; 0; 16; 255; 240; 1; 0] ++ repeat 0 60) 0 true 1 0 0.
Definition example_accelerometer : Accelerometer Device :=
  mkAccelerometer (mkTwim example_sensor (mkPackage 0 [] 0 [] 0 false) 0 0 false false STATUS_OK) false [0; 0; 0].

Definition after_sample (d : Device) : Device :=
  let '(_, d1, _) := read_registers STATUS_REG 1 d in let '(_, d2, _) := read_registers OUT_X_MSB 6 d1 in d2.

Lemma example_delivers : delivers 1 example_sensor (repeat [0; 16; 255; 240; 1; 0] 25) (after_sample example_sensor).
Proof.
  assert (becomes_available 1 (after_sample example_sensor) (snd (fst (read_registers STATUS_REG 1 example_sensor)))) as W.
  { eapply available_now; [vm_compute; reflexivity|reflexivity]. }
  assert (read_registers OUT_X_MSB 6 (snd (fst (read_registers STATUS_REG 1 example_sensor)))
          = (STATUS_OK, after_sample example_sensor, [0; 16; 255; 240; 1; 0])) as R by (vm_compute; reflexivity).
  assert (forall n, delivers 1 (after_sample example_sensor) (repeat [0; 16; 255; 240; 1; 0] n) (after_sample example_sensor)) as N.
  { induction n as [|n IH]; [apply delivers_none|]. eapply delivers_sample; [exact W|exact R|exact IH]. }
  change (repeat [0; 16; 255; 240; 1; 0] 25) with ([0; 16; 255; 240; 1; 0] :: repeat [0; 16; 255; 240; 1; 0] 24).
  eapply delivers_sample; [|exact R|apply N]. eapply available_now; [vm_compute; reflexivity|reflexivity].
Qed.

Lemma accelerations_averaged_witness : exists t',
  readAccelerationValues 0 1 example_accelerometer = Some (mkAccelerometer t' true [1; -1; 16], true) /\ locked t' = false.
Proof.
  destruct (accelerations_averaged 0 1 example_accelerometer _ _ eq_refl example_delivers eq_refl) as (t' & _ & L & E & _).
  exists t'. split; [exact E|exact L].
Defined.

(** An accelerometer that does not answer. *)
Definition silent_accelerometer : Accelerometer Device :=
  mkAccelerometer (mkTwim (mkDevice 5 [] 0 true 1 0 0) (mkPackage 0 [] 0 [] 0 false) 0 0 false false STATUS_OK) true [0; 0; 0].

Lemma uninitialized_byte_harmless_witness :
  match readAccelerationValues 0 1 silent_accelerometer, readAccelerationValues 255 1 silent_accelerometer with
  | Some (x, r), Some (x', r') => bus (twi x) = bus (twi x') /\ isWorking x = isWorking x' /\ accelerations x = accelerations x' /\ r = r'
  | None, None => True
  | _, _ => False
  end /\ exists x, readAccelerationValues 0 1 silent_accelerometer = Some (x, false).
Proof.
  split; [exact (uninitialized_byte_harmless 0 255 1 silent_accelerometer eq_refl)|eexists; vm_compute; reflexivity].
Defined.
