(* ===== verification/Commands.v ===== *)
(** * The commands (main.cpp)

    The M, G and T commands on the printer: motors, accelerometer, heater, fan, LED,
    settings and serial number. Together with the check of accelerometer and heater
    before a command and the reset, they are an instance of [Machine], the interface
    of the main loop. What the world does meanwhile is the class [World]. *)

From Stdlib Require Import String.
From S2P Require Import Prelude Float32 Common FloatValid Gcode Udd UdiCdc Requests MainLoop Nvm Eeprom Stepper Bed Motors Movement.
From S2P Require Import SavedState Heater Homing.

#[local] Open Scope fw_scope.

(** ** The printer *)

(** What a command meets: the results of the converter and of the accelerometer,
    and, for the n-th command, after how many timer periods an emergency stop comes
    if one comes, the callback's runs during a wait for a temperature, how many
    approaches of the bed are enough, the result of a test of the accelerometer,
    and how often the heater's callback runs before the command. *)
Class World := {
  world_adc :: Adc;
  world_sensor :: Sensor;
  stop_time : nat -> nat;
  heating_rounds : nat -> list (nat * nat);
  approaches : nat -> nat;
  accelerometer_test : nat -> bool;
  heater_ticks : nat -> nat
}.

(** The settings in the EEPROM are part of [motors]. *)
Record Printer := mkPrinter {
  motors : Motors; sensing : Sensing; heater : Heater; pwm : Pwm; serialNumber : list Z; commands : nat
}.

Definition set_motors (v : Motors) (p : Printer) : Printer := let '(mkPrinter _ a h w s n) := p in mkPrinter v a h w s n.
Definition set_sensing (v : Sensing) (p : Printer) : Printer := let '(mkPrinter m _ h w s n) := p in mkPrinter m v h w s n.
Definition set_heater (v : Heater) (p : Printer) : Printer := let '(mkPrinter m a _ w s n) := p in mkPrinter m a v w s n.
Definition set_pwm (v : Pwm) (p : Printer) : Printer := let '(mkPrinter m a h _ s n) := p in mkPrinter m a h v s n.
Definition set_serialNumber (v : list Z) (p : Printer) : Printer := let '(mkPrinter m a h w _ n) := p in mkPrinter m a h w v n.
Definition set_commands (v : nat) (p : Printer) : Printer := let '(mkPrinter m a h w s _) := p in mkPrinter m a h w s v.

Definition on_motors {R} (c : M Motors R) : M Printer R :=
  fun p => match c (motors p) with Some (m, r) => Some (set_motors m p, r) | None => None end.
Definition on_heater {R} (c : M Heater R) : M Printer R :=
  fun p => match c (heater p) with Some (h, r) => Some (set_heater h p, r) | None => None end.
Definition on_pwm {R} (c : M Pwm R) : M Printer R :=
  fun p => match c (pwm p) with Some (w, r) => Some (set_pwm w p, r) | None => None end.
Definition on_sensed {R} (c : M (Motors * Sensing) R) : M Printer R :=
  fun p => match c (motors p, sensing p) with Some ((m, a), r) => Some (set_sensing a (set_motors m p), r) | None => None end.

Definition settings_of (p : Printer) : list Z := eeprom (motors p).

(** ** Texts *)

Definition ok : list Z := str "ok".
Definition ok_line : list Z := ok ++ [10].
Definition no_accelerometer : list Z := str "Error: Accelerometer isn't working".
Definition no_heater : list Z := str "Error: Heater isn't working".

(** The text of a number, in [numberBuffer]. *)
Definition numberBuffer : list Z := repeat 0 (Z.to_nat INT_BUFFER_SIZE).
Definition float_digits (v : f32) : option (list Z) := b ← ftoa v numberBuffer; Some (cstr b).
Definition number_digits (v : Z) : option (list Z) := b ← ulltoa v numberBuffer; Some (cstr b).

(** ** Serial number *)

Definition isAlphanumeric (value : Z) : bool :=
  ((48 <=? value) && (value <=? 57)) || ((97 <=? lowerCase value) && (lowerCase value <=? 122)).

Definition updateSerialNumber : M Printer unit :=
  p ← gets id;
  characters ← of_option (ee_read (settings_of p) EEPROM_SERIAL_NUMBER);
  modify (set_serialNumber (map (fun c => if isAlphanumeric c then c else 95) characters)).

(** The string in the array, whose last element is never written. *)
Definition serial_string (p : Printer) : list Z := cstr (take (Z.to_nat MainLoop.EEPROM_SERIAL_NUMBER_LENGTH) (serialNumber p)).

Section Commands.
Context `{World}.

(** ** M commands *)

(** M104 and M109; a wait that ends neither with the temperature nor with an
    emergency stop has no result. *)
Definition set_temperature (stopped : bool) (g : Gcode) : M Printer (list Z) :=
  let temperature := if flag (commandParameters g) PARAMETER_S_OFFSET then valueS g else HEATER_OFF_TEMPERATURE in
  if (temperature =? HEATER_OFF_TEMPERATURE) || ((temperature >=? HEATER_MIN_TEMPERATURE) && (temperature <=? HEATER_MAX_TEMPERATURE)) then
    p ← gets id;
    r ← on_heater (setTemperature (settings_of p) (u16 temperature) (valueM g =? 109) (heating_rounds (commands p)));
    _ ← of_option (if (snd r : bool) || stopped then Some tt else None);
    working ← gets (fun p => Heater.isWorking (heater p));
    mret (if negb (working : bool) then no_heater
          else if (fst r : bool) then ok else str "Error: Heater calibration mode not supported")
  else mret (str "Error: Temperature must be between 100 and 285 degrees Celsius").

(** M105. *)
Definition get_temperature : M Printer (list Z) :=
  t ← on_heater getTemperature;
  digits ← of_option (float_digits t);
  working ← gets (fun p => Heater.isWorking (heater p));
  mret (if negb working then no_heater else ok_line ++ str "T:" ++ digits).

(** M114 and M117: the position and its validity. *)
Definition axis_name (i : Axes) : list Z :=
  match i with X => str "X:" | Y => str " Y:" | Z_ => str " Z:" | _ => str " E:" end.
Definition MILLIMETERS_TO_INCHES_SCALAR : f32 := f_one ⊘ INCHES_TO_MILLIMETERS_SCALAR.

Fixpoint positions_text (m : Motors) (axes : list Axes) : option (list Z) :=
  match axes with
  | [] => Some []
  | i :: axes =>
      digits ← float_digits (get i (currentValues m) ⊗ (if bool_decide (units m = INCHES) then MILLIMETERS_TO_INCHES_SCALAR else f_one));
      rest ← positions_text m axes;
      Some (axis_name i ++ digits ++ rest)
  end.
Definition get_position : M Printer (list Z) :=
  p ← gets id;
  text ← of_option (positions_text (motors p) four);
  mret (ok_line ++ text).

Definition validity_text (m : Motors) : list Z :=
  let v i := if get i (currentStateOfValues m) : bool then str "1" else str "0" in
  str "XV:" ++ v X ++ str " YV:" ++ v Y ++ str " ZV:" ++ v Z_.

(** M115: the details, or a reset after the state was saved. *)
Definition details_or_reset (g : Gcode) : M Printer (option (list Z)) :=
  if flag (commandParameters g) PARAMETER_S_OFFSET && (valueS g =? 628) then _ ← on_motors save_all; mret None
  else text ← gets serial_string; mret (Some (firmware_details ++ text)).

(** The sum of an address and a length, in signed 32-bit arithmetic. *)
Definition add_s32 (a b : Z) : option Z :=
  if (-2147483648 <=? a + b) && (a + b <? 2147483648) then Some (a + b) else None.

(** M618 and M619: writing and reading a setting. *)
Definition access_setting (g : Gcode) : M Printer (list Z) :=
  let parameters := Z.lor (Z.lor PARAMETER_S_OFFSET PARAMETER_T_OFFSET) (if valueM g =? 618 then PARAMETER_P_OFFSET else 0) in
  if flag (commandParameters g) parameters then
    valid ← of_option
      (if (valueS g >=? fst EEPROM_FIRMWARE_VERSION) && negb (valueT g =? 0) && (valueT g <=? 4)
       then e ← add_s32 (valueS g) (valueT g); Some (e <=? fst EEPROM_DECRYPTION_TABLE) else Some false);
    if (valid : bool) then
      address ← of_option (number_digits (u64 (valueS g)));
      p ← gets id;
      if valueM g =? 619 then
        data ← of_option (ee_read (settings_of p) (valueS g, valueT g));
        value ← of_option (number_digits (le_value data));
        mret (ok_line ++ str "PT:" ++ address ++ str " DT:" ++ value)
      else
        ee ← of_option (ee_write (settings_of p) (valueS g, valueT g) (take (Z.to_nat (valueT g)) (le_bytes 4 (u32 (valueP g)))));
        _ ← on_motors (modify (set_eeprom ee));
        _ ← updateSerialNumber;
        _ ← on_motors (updateBedChanges true);
        _ ← on_heater (updateHeaterChanges ee true);
        mret (ok_line ++ str "PT:" ++ address)
    else mret (str "Error: Invalid address range")
  else mret [].

(** The response; no response at all means that the firmware was reset. *)
Definition m_command (stopped : bool) (g : Gcode) : M Printer (option (list Z)) :=
  let done (c : M Printer unit) : M Printer (option (list Z)) := _ ← c; mret (Some ok) in
  let text (c : M Printer (list Z)) : M Printer (option (list Z)) := r ← c; mret (Some r) in
  let m := valueM g in
  if m =? 17 then done (on_motors turnOn)
  else if (m =? 18) || (m =? 84) then done (on_motors turnOff)
  else if (m =? 82) || (m =? 83) then done (on_motors (modify (set_extruderMode (if m =? 82 then ABSOLUTE else RELATIVE))))
  else if (m =? 104) || (m =? 109) then text (set_temperature stopped g)
  else if m =? 105 then text get_temperature
  else if (m =? 106) || (m =? 107) then
    done (p ← gets id;
          on_pwm (setSpeed (settings_of p)
            (u8 (if (m =? 106) && flag (commandParameters g) PARAMETER_S_OFFSET then valueS g else FAN_MIN_SPEED))))
  else if m =? 114 then text get_position
  else if m =? 115 then details_or_reset g
  else if m =? 117 then text (p ← gets id; mret (ok_line ++ validity_text (motors p)))
  else if m =? 420 then
    done (on_pwm (setBrightness (if flag (commandParameters g) PARAMETER_T_OFFSET then valueT g else LED_MAX_BRIGHTNESS)))
  else if (m =? 618) || (m =? 619) then text (access_setting g)
  else if existsb (Z.eqb m) [20; 21; 22; 80; 81; 110; 111; 400; 999] then mret (Some ok)
  else mret (Some []).

(** ** G commands *)

(** G0 and G1. *)
Definition move_command (g : Gcode) : M Printer (list Z) :=
  allowed ← (if flag (commandParameters g) PARAMETER_E_OFFSET then on_heater heater_isOn else mret true);
  if (allowed : bool) then
    moved ← on_motors (move g ALL_TASKS);
    mret (if (moved : bool) then ok else str "Error: Movement is too big")
  else
    working ← gets (fun p => Heater.isWorking (heater p));
    mret (if (working : bool) then str "Error: Can't use the extruder when the heater is off" else no_heater).

(** The response to a movement that the accelerometer stops. *)
Definition sensed (c : M (Motors * Sensing) bool) : M Printer (list Z) :=
  success ← on_sensed c;
  working ← gets (fun p => Homing.isWorking (sensing p));
  mret (if (success : bool) then ok
        else if (working : bool) then str "Error: Extruder is too high to home successfully" else no_accelerometer).

(** G30 and G32. *)
Definition calibrate (g : Gcode) : M Printer (list Z) :=
  p ← gets id;
  _ ← on_pwm (setSpeed (settings_of p) FAN_MIN_SPEED);
  _ ← on_heater (setTemperature (settings_of p) HEATER_OFF_TEMPERATURE false []);
  sensed (if valueG g =? 30 then calibrateBedCenterZ0 (approaches (commands p)) true
          else calibrateBedOrientation (approaches (commands p))).

(** G92: the values of the given axes, or zero for all of them if none is given. *)
Definition set_position_of (g : Gcode) (i : Axes) (m : Motors) : Motors :=
  let given := flag (commandParameters g)
                 (Z.lor (Z.lor (Z.lor PARAMETER_X_OFFSET PARAMETER_Y_OFFSET) PARAMETER_Z_OFFSET) PARAMETER_E_OFFSET) in
  let offset := if given then fst (parameter i g) else PARAMETER_G_OFFSET in
  let value := if given then snd (parameter i g) else f_zero in
  if flag (commandParameters g) offset
  then set_value i (value ⊗ (if bool_decide (units m = INCHES) then INCHES_TO_MILLIMETERS_SCALAR else f_one)) m else m.
Definition set_position (g : Gcode) : M Motors unit :=
  unsaved (fun m => fold_left (fun m i => set_position_of g i m) four m).

Definition g_command (g : Gcode) : M Printer (list Z) :=
  let done (c : M Motors unit) : M Printer (list Z) := _ ← on_motors c; mret ok in
  let n := valueG g in
  if (n =? 0) || (n =? 1) then move_command g
  else if n =? 4 then mret ok
  else if n =? 28 then sensed (homeXY true)
  else if (n =? 30) || (n =? 32) then calibrate g
  else if n =? 33 then done saveZAsBedCenterZ0
  else if (n =? 90) || (n =? 91) then
    done (modify (fun m => let v := if n =? 90 then ABSOLUTE else RELATIVE in set_mode v (set_extruderMode v m)))
  else if n =? 92 then done (set_position g)
  else if (n =? 20) || (n =? 21) then done (modify (set_units (if n =? 20 then INCHES else MILLIMETERS)))
  else mret [].

(** ** All commands *)

(** The interrupts before a command, and the time of an emergency stop. *)
Definition prepare (stopped : bool) : M Printer unit :=
  p ← gets id;
  _ ← on_heater (ticks (heater_ticks (commands p)));
  _ ← on_motors (modify (set_polls (if stopped then Some (stop_time (commands p)) else None)));
  modify (set_commands (S (commands p))).

Definition command (stopped : bool) (g : Gcode) : M Printer (option (list Z)) :=
  _ ← prepare stopped;
  if flag (commandParameters g) PARAMETER_M_OFFSET then m_command stopped g
  else if flag (commandParameters g) PARAMETER_G_OFFSET then r ← g_command g; mret (Some r)
  else if flag (commandParameters g) PARAMETER_T_OFFSET then mret (Some ok)
  else mret (Some []).

(** The check before a command. *)
Definition check_peripherals : M Printer (list Z) :=
  p ← gets id;
  found ← (if Homing.isWorking (sensing p) then mret true
           else
             let r := accelerometer_test (readings (sensing p)) in
             _ ← modify (set_sensing (let a := sensing p in mkSensing (S (readings a)) r (acceleration_Y a) (acceleration_X a)));
             mret r);
  if negb found then mret no_accelerometer
  else if Heater.isWorking (heater p) then mret []
  else connected ← on_heater testConnection; mret (if (connected : bool) then [] else no_heater).

(** [resetPeripherals], and whether a peripheral is on. *)
Definition reset_all : M Printer unit :=
  p ← gets id;
  _ ← on_pwm (fan_reset (settings_of p));
  _ ← on_heater heater_reset;
  _ ← on_pwm led_reset;
  on_motors Motors.reset.

Definition any_on : M Printer bool :=
  p ← gets id;
  if fan_isOn (pwm p) then mret true
  else if led_isOn (pwm p) then mret true
  else
    heating ← on_heater heater_isOn;
    if (heating : bool) then mret true else gets (fun p => Motors.isOn (motors p)).

(** ** The start *)

(** The static variables at power on, with the contents of the EEPROM. *)
Definition power_on (ee : list Z) : Printer :=
  let v := mkVector f_zero f_zero f_zero f_zero in
  mkPrinter
    (mkMotors (all f_zero) (all false) (all false) RELATIVE RELATIVE MILLIMETERS (all f_zero)
       (mkBed v v v v v v v v v f_zero f_zero f_zero) f_zero (all (mkStepper 0 0 0 0 0 false)) (all f_zero) (all false) false (all 0) false ee None (all 0))
    (mkSensing 0 false 0 0)
    (mkHeater false f_zero f_zero 0 f_zero f_zero false false HeaterRead 0 [])
    (mkPwm 0 0) (repeat 0 16) 0.

(** The initialization before the loop, apart from clocks, pins and timers. *)
Definition initialize_peripherals : M Printer unit :=
  p ← gets id;
  _ ← on_pwm (fan_reset (settings_of p));
  _ ← on_heater heater_reset;
  _ ← on_pwm led_reset;
  _ ← on_motors initialize_motors;
  p ← gets id;
  b ← of_option (load (settings_of p) 0);
  ee ← of_option (store (settings_of p) 0 b);
  _ ← on_motors (modify (set_eeprom ee));
  updateSerialNumber.

(** ** The machine of the main loop *)

(** The printer runs, or the firmware was reset, or what it does is not defined
    (or a command does not end). *)
Inductive Outcome := Running (p : Printer) | Restarted (p : Printer) | Lost.

Definition run {R} (c : M Printer R) (none : R) (o : Outcome) : Outcome * R :=
  match o with
  | Running p => match c p with Some (p', r) => (Running p', r) | None => (Lost, none) end
  | _ => (o, none)
  end.

#[export] Instance printer_machine : Machine Outcome := {
  probe := run check_peripherals [];
  execute stopped g o :=
    match run (command stopped g) (Some []) o with
    | (o', Some r) => (o', r)
    | (Running p, None) => (Restarted p, [])
    | (o', None) => (o', [])
    end;
  resetPeripherals o := fst (run reset_all tt o);
  peripheralsOn := run any_on false
}.

End Commands.

(** * Properties *)

(** ** Texts *)

Lemma cstr_nonzero m : Forall (fun c => c <> 0) (cstr m).
Proof. induction m as [|c m IH]; cbn [cstr]; [constructor|]. destruct (Z.eqb_spec c 0); [constructor|constructor; assumption]. Qed.
Lemma cstr_short m : len (cstr m) <= len m.
Proof. pose proof (cstr_length m). lia. Qed.

Lemma memmove_size m dst src n m' : memmove m dst src n = Some m' -> length m' = length m.
Proof.
  unfold memmove. case_bool; [|discriminate]. bool_hyps. intros [= <-].
  rewrite !length_app, !length_take, !length_drop. lia.
Qed.

Lemma ulltoa_loop_size fuel : forall value i b b' j, ulltoa_loop fuel value i b = Some (b', j) -> length b' = length b.
Proof.
  induction fuel as [|fuel IH]; intros value i b b' j E; cbn [ulltoa_loop] in E; [discriminate E|].
  destruct (store b _ _) as [b1|] eqn:S1; [|discriminate E]. cbn in E. apply store_length in S1.
  destruct (_ =? 0); [injection E as <- _; exact S1|]. apply IH in E. congruence.
Qed.
Lemma ulltoa_size v b b' : ulltoa v b = Some b' -> length b' = length b.
Proof.
  unfold ulltoa. destruct (store b _ _) as [b1|] eqn:S1; [|discriminate]. cbn [mbind option_bind]. apply store_length in S1.
  destruct (ulltoa_loop _ _ _ b1) as [[b2 j]|] eqn:S2; [|discriminate]. cbn [mbind option_bind]. apply ulltoa_loop_size in S2.
  intros E. apply memmove_size in E. congruence.
Qed.

Lemma ftoa_digits_size fuel : forall value i b b' j, ftoa_digits fuel value i b = Some (b', j) -> length b' = length b.
Proof.
  induction fuel as [|fuel IH]; intros value i b b' j E; cbn [ftoa_digits] in E; [discriminate E|].
  destruct (store b _ _) as [b1|] eqn:S1; [|discriminate E]. cbn in E. apply store_length in S1.
  destruct (_ =? 0); [injection E as <- _; exact S1|]. apply IH in E. congruence.
Qed.
Lemma ftoa_decimals_size k : forall t j b b', ftoa_decimals k t j b = Some b' -> length b' = length b.
Proof.
  induction k as [|k IH]; intros t j b b' E; cbn [ftoa_decimals] in E; [injection E as <-; reflexivity|].
  destruct (store b _ _) as [b1|] eqn:S1; [|discriminate E]. cbn in E. apply store_length in S1. apply IH in E. congruence.
Qed.
Lemma ftoa_size v b b' : ftoa v b = Some b' -> length b' = length b.
Proof.
  unfold ftoa. destruct (store b _ _) as [b1|] eqn:S1; [|discriminate]. cbn [mbind option_bind]. apply store_length in S1.
  destruct (store b1 _ _) as [b2|] eqn:S2; [|discriminate]. cbn [mbind option_bind]. apply store_length in S2.
  destruct (f_to_u32 _); [|discriminate]. cbn [mbind option_bind].
  destruct (ftoa_digits _ _ _ b2) as [[b3 j]|] eqn:S3; [|discriminate]. cbn [mbind option_bind]. apply ftoa_digits_size in S3.
  destruct (f_to_u32 _); [|discriminate]. cbn [mbind option_bind].
  destruct (ftoa_decimals _ _ _ b3) as [b4|] eqn:S4; [|discriminate]. cbn [mbind option_bind]. apply ftoa_decimals_size in S4.
  destruct (flt v f_zero).
  - destruct (store b4 _ _) as [b5|] eqn:S5; [|discriminate]. cbn [mbind option_bind]. apply store_length in S5.
    intros E. apply memmove_size in E. congruence.
  - cbn [mbind option_bind]. intros E. apply memmove_size in E. congruence.
Qed.

(** A text without terminator, of a bounded length. *)
Definition text_ok (n : Z) (t : list Z) : Prop := Forall (fun c => c <> 0) t /\ len t <= n.

Lemma text_ok_app n k t u : text_ok n t -> text_ok k u -> text_ok (n + k) (t ++ u).
Proof. intros [F1 L1] [F2 L2]. split; [apply Forall_app; auto|rewrite length_app; lia]. Qed.
Lemma text_ok_more n k t : text_ok n t -> n <= k -> text_ok k t.
Proof. intros [F L] K. split; [exact F|lia]. Qed.
Lemma float_digits_ok v t : float_digits v = Some t -> text_ok 22 t.
Proof.
  unfold float_digits. destruct (ftoa v numberBuffer) as [b|] eqn:E; [|discriminate]. cbn. intros [= <-].
  apply ftoa_size in E. split; [apply cstr_nonzero|]. pose proof (cstr_short b).
  assert (len b = 22) by (rewrite E; reflexivity). lia.
Qed.
Lemma number_digits_ok v t : number_digits v = Some t -> text_ok 22 t.
Proof.
  unfold number_digits. destruct (ulltoa v numberBuffer) as [b|] eqn:E; [|discriminate]. cbn. intros [= <-].
  apply ulltoa_size in E. split; [apply cstr_nonzero|]. pose proof (cstr_short b).
  assert (len b = 22) by (rewrite E; reflexivity). lia.
Qed.
Lemma text_constant t : forallb (fun c => negb (c =? 0)) t = true -> text_ok (len t) t.
Proof.
  intros E. split; [|lia]. apply List.Forall_forall. intros c Hc. rewrite forallb_forall in E.
  apply E in Hc. apply negb_true_iff, Z.eqb_neq in Hc. exact Hc.
Qed.

(** ** Responses *)

(** Every result of a computation satisfies a property. *)
Definition Yields {S R} (Q : R -> Prop) (c : M S R) : Prop := forall s s' r, c s = Some (s', r) -> Q r.

Lemma yields_ret {S R} (Q : R -> Prop) (r : R) : Q r -> Yields Q (mret r : M S R).
Proof. intros Hr s s' x [= _ <-]. exact Hr. Qed.
Lemma yields_bind {S R R'} (Q : R' -> Prop) (c : M S R) (k : R -> M S R') : (forall r, Yields Q (k r)) -> Yields Q (x ← c; k x).
Proof. intros Hk s s' x E. unbind E as s1 r1 E1. exact (Hk r1 _ _ _ E). Qed.
Lemma yields_option {S R R'} (Q : R' -> Prop) (o : option R) (k : R -> M S R') :
  (forall r, o = Some r -> Yields Q (k r)) -> Yields Q (x ← of_option o; k x).
Proof. intros Hk s s' x E. unbind E as s1 r1 E1. apply of_option_inv in E1 as [Eo ->]. exact (Hk r1 Eo _ _ _ E). Qed.
Lemma yields_gets {S R R'} (Q : R' -> Prop) (f : S -> R) (k : R -> M S R') :
  (forall s, Yields Q (k (f s))) -> Yields Q (x ← gets f; k x).
Proof. intros Hk s s' x E. unbind E as s1 r1 E1. apply gets_inv in E1 as [-> ->]. exact (Hk s _ _ _ E). Qed.

(** What the main loop requires of a response. *)
Definition good (r : list Z) : Prop := response_ok r /\ deref r <> 115.

Definition good_constant (r : list Z) : bool :=
  forallb (fun c => negb (c =? 0)) r && (len r <=? RESPONSE_MAX) && negb (deref r =? 115).
Lemma constant_good r : good_constant r = true -> good r.
Proof.
  unfold good_constant. intros E. apply andb_true_iff in E as [E E3]. apply andb_true_iff in E as [E1 E2].
  apply Z.leb_le in E2. apply negb_true_iff, Z.eqb_neq in E3. destruct (text_constant r E1) as [F _]. split; [split; assumption|exact E3].
Qed.

(** A constant part and more text. *)
Lemma good_app c t n : good_constant c = true -> negb (length c =? 0)%nat = true -> text_ok n t -> len c + n <= RESPONSE_MAX -> good (c ++ t).
Proof.
  intros C N [F L] B. destruct (constant_good c C) as [[Fc _] D]. split; [split|].
  - apply Forall_app. auto.
  - rewrite length_app. lia.
  - destruct c; [discriminate N|exact D].
Qed.

Ltac yield :=
  repeat lazymatch goal with
  | |- Yields _ (mbind _ (of_option _)) => apply yields_option; intros ? ?
  | |- Yields _ (mbind _ (gets _)) => apply yields_gets; intros ?
  | |- Yields _ (mbind _ _) => apply yields_bind; intros ?
  | |- Yields _ (if ?b then _ else _) => destruct b
  | |- Yields _ (mret _) => apply yields_ret
  end.

Section Responses.
Context `{World}.

Lemma set_temperature_good stopped g : Yields good (set_temperature stopped g).
Proof. unfold set_temperature. yield; repeat case_bool; apply constant_good; vm_compute; reflexivity. Qed.

Lemma get_temperature_good : Yields good get_temperature.
Proof.
  unfold get_temperature. yield. case_bool; [apply constant_good; vm_compute; reflexivity|].
  rewrite app_assoc. eapply good_app; [vm_compute; reflexivity|reflexivity|eapply float_digits_ok; eassumption|vm_compute; discriminate].
Qed.

Lemma positions_text_ok m axes t : positions_text m axes = Some t -> text_ok (25 * len axes) t.
Proof.
  revert t. induction axes as [|i axes IH]; intros t E; cbn [positions_text] in E.
  - injection E as <-. split; [constructor|cbn; lia].
  - destruct (float_digits _) as [d|] eqn:D; [|discriminate E]. cbn [mbind option_bind] in E.
    destruct (positions_text m axes) as [r|]; [|discriminate E]. cbn [mbind option_bind] in E. injection E as <-.
    apply text_ok_more with (n := 3 + (22 + 25 * len axes)); [|cbn [length]; lia].
    apply text_ok_app; [|apply text_ok_app; [eapply float_digits_ok, D|apply IH; reflexivity]].
    eapply text_ok_more; [apply text_constant|]; destruct i; vm_compute; congruence.
Qed.

Lemma get_position_good : Yields good get_position.
Proof.
  unfold get_position. yield. eapply good_app; [vm_compute; reflexivity|reflexivity|eapply positions_text_ok; eassumption|vm_compute; discriminate].
Qed.

Lemma access_setting_good g : Yields good (access_setting g).
Proof.
  unfold access_setting. yield; try (apply constant_good; vm_compute; reflexivity).
  - rewrite app_assoc. eapply good_app; [vm_compute; reflexivity|reflexivity| |].
    + apply text_ok_app; [eapply number_digits_ok; eassumption|]. apply text_ok_app; [apply text_constant; vm_compute; reflexivity|eapply number_digits_ok; eassumption].
    + vm_compute. discriminate.
  - rewrite app_assoc. eapply good_app; [vm_compute; reflexivity|reflexivity|eapply number_digits_ok; eassumption|vm_compute; discriminate].
Qed.

Lemma serial_ok p : text_ok MainLoop.EEPROM_SERIAL_NUMBER_LENGTH (serial_string p).
Proof.
  split; [apply cstr_nonzero|]. unfold serial_string. pose proof (cstr_short (take (Z.to_nat MainLoop.EEPROM_SERIAL_NUMBER_LENGTH) (serialNumber p))) as L.
  rewrite length_take in L. unfold MainLoop.EEPROM_SERIAL_NUMBER_LENGTH in *. lia.
Qed.

Definition good_option (r : option (list Z)) : Prop := match r with Some r => good r | None => True end.

Lemma details_good g : Yields good_option (details_or_reset g).
Proof.
  unfold details_or_reset. yield; [exact I|]. eapply good_app; [vm_compute; reflexivity|reflexivity|apply serial_ok|vm_compute; discriminate].
Qed.

Lemma yields_some {S} (c : M S (list Z)) : Yields good c -> Yields good_option (r ← c; mret (Some r)).
Proof. intros Hc s s' r E. unbind E as s1 t E1. injection E as _ <-. exact (Hc _ _ _ E1). Qed.

Lemma validity_ok m : good (ok_line ++ validity_text m).
Proof. unfold validity_text. apply constant_good. destruct (get X _), (get Y _), (get Z_ _); vm_compute; reflexivity. Qed.

Lemma m_command_good stopped g : Yields good_option (m_command stopped g).
Proof.
  unfold m_command. repeat (lazymatch goal with |- Yields _ (if ?b then _ else _) => destruct b end);
    try apply details_good; try (apply yields_some);
    try apply set_temperature_good; try apply get_temperature_good; try apply get_position_good; try apply access_setting_good;
    yield; try apply validity_ok; apply constant_good; vm_compute; reflexivity.
Qed.

Lemma sensed_good c : Yields good (sensed c).
Proof. unfold sensed. yield. repeat case_bool; apply constant_good; vm_compute; reflexivity. Qed.

Lemma g_command_good g : Yields good (g_command g).
Proof.
  unfold g_command, move_command, calibrate.
  repeat (lazymatch goal with |- Yields _ (if ?b then _ else _) => destruct b end);
    yield; try apply sensed_good; repeat case_bool; apply constant_good; vm_compute; reflexivity.
Qed.

Lemma command_good stopped g : Yields good_option (command stopped g).
Proof.
  unfold command. apply yields_bind. intros _. repeat (lazymatch goal with |- Yields _ (if ?b then _ else _) => destruct b end).
  - apply m_command_good.
  - apply yields_some, g_command_good.
  - apply yields_ret. apply constant_good. vm_compute. reflexivity.
  - apply yields_ret. apply constant_good. vm_compute. reflexivity.
Qed.

Lemma check_good : Yields (fun r => response_ok r) check_peripherals.
Proof. unfold check_peripherals. yield; repeat case_bool; apply constant_good; vm_compute; reflexivity. Qed.

Lemma good_nil : good [].
Proof. apply constant_good. reflexivity. Qed.

#[export] Instance printer_laws : MachineLaws Outcome.
Proof.
  constructor.
  - intros o. change (response_ok (snd (run check_peripherals [] o))). destruct o as [p|p|]; try exact (proj1 good_nil).
    unfold run. destruct (check_peripherals p) as [[p' r]|] eqn:E; [exact (check_good _ _ _ E)|exact (proj1 good_nil)].
  - intros e g o. change (good (snd (execute e g o))). unfold execute, printer_machine. destruct o as [p|p|]; try exact good_nil.
    unfold run. destruct (command e g p) as [[p' [r|]]|] eqn:E; [exact (command_good e g _ _ _ E)|exact good_nil..].
Qed.

End Responses.

(** ** The extruder *)

(** C21. A movement that uses the extruder is refused while the heater is off or does
    not work: the response is the error, and no motor, no position and no setting
    changes. *)
Theorem cold_extrusion_refused `{World} g p :
  valueG g = 0 \/ valueG g = 1 -> flag (commandParameters g) PARAMETER_E_OFFSET = true ->
  is_heating (heater p) = false \/ connected (heater p) = false ->
  exists p', g_command g p = Some (p', if connected (heater p) then str "Error: Can't use the extruder when the heater is off" else no_heater) /\
    motors p' = motors p /\ sensing p' = sensing p /\ pwm p' = pwm p /\ is_heating (heater p') = false.
Proof.
  intros G F C. assert ((valueG g =? 0) || (valueG g =? 1) = true) as B by (destruct G as [-> | ->]; reflexivity).
  set (h' := set_updating true (set_updating false (tested (heater p)))).
  assert (heater_isOn (heater p) = Some (h', is_heating (set_updating false (tested (heater p))))) as Eo.
  { unfold heater_isOn. step (testConnection_spec (heater p)). reflexivity. }
  assert (is_heating (set_updating false (tested (heater p))) = false) as Ei.
  { unfold tested. destruct C as [C|C]; [|rewrite C; destruct (heater p); reflexivity].
    destruct (connected (heater p)); destruct (heater p); [exact C|reflexivity]. }
  exists (set_heater h' p). split.
  - unfold g_command, move_command. rewrite B, F.
    eapply eq_trans; [eapply bind_step; unfold on_heater; rewrite Eo, Ei; reflexivity|]. cbn [andb].
    step_pure. unfold mret, M_ret. do 2 f_equal. pose proof (tested_working (heater p)) as Ew.
    assert (Heater.isWorking (heater (set_heater h' p)) = connected (heater p)) as ->; [|destruct (connected (heater p)); reflexivity].
    unfold h'. rewrite <- Ew. destruct p as [m a h w sn n]. cbn [set_heater heater]. destruct (tested h). reflexivity.
  - unfold h'. destruct p as [m a h w sn n]. cbn [set_heater heater motors sensing pwm] in *.
    repeat split. destruct (tested h). exact Ei.
Qed.

(** ** Witnesses *)

#[local] Existing Instance default_build.

(** The converter and the accelerometer of the examples before; nothing waits. *)
Definition example_world : World :=
  Build_World example_adc jerky_sensor (fun _ => 0%nat) (fun _ => []) (fun _ => 3%nat) (fun _ => true) (fun _ => 1%nat).
#[local] Existing Instance example_world.

Definition example_printer : Printer :=
  match initialize_peripherals (power_on example_settings) with Some (p, _) => p | None => power_on [] end.
Definition parsed (text : string) : Gcode := match parseCommand (str text) empty_command with Some g => g | None => empty_command end.

Lemma cold_extrusion_refused_witness : exists p',
  g_command (parsed "G1 E5") example_printer = Some (p', str "Error: Can't use the extruder when the heater is off") /\ motors p' = motors example_printer.
Proof.
  destruct (cold_extrusion_refused (parsed "G1 E5") example_printer) as (p' & E & Hm & _).
  - right. vm_compute. reflexivity.
  - vm_compute. reflexivity.
  - left. vm_compute. reflexivity.
  - exists p'. split; [|exact Hm]. assert (connected (heater example_printer) = true) as C by (vm_compute; reflexivity). rewrite C in E. exact E.
Defined.
