(* ===== verification/Firmware.v ===== *)
(** * The firmware as a whole (main.cpp)

    The main loop with the printer's commands: what every state of the running
    firmware satisfies, whatever a host sends and whatever the sensors measure, and
    what the commands promise. *)

From Stdlib Require Import String.
From stdpp Require Import relations.
From S2P Require Import Prelude Float32 Common FloatValid Gcode Udd UdiCdc Requests MainLoop Nvm Eeprom Stepper Bed Motors Movement.
From S2P Require Import SavedState Heater Homing Commands.

#[local] Open Scope fw_scope.

(** ** The settings *)

(** The EEPROM: its size, its bytes, and the table behind the settings. *)
Record settings_ok (table ee : list Z) : Prop := {
  settings_size : len ee = EEPROM_SIZE;
  settings_bytes : Forall (fun b => 0 <= b < 256) ee;
  settings_table : drop (Z.to_nat (fst EEPROM_DECRYPTION_TABLE)) ee = table
}.

(** A region in front of the table. *)
Definition writable (r : Z * Z) : bool := (0 <=? fst r) && (0 <? snd r) && (fst r + snd r <=? fst EEPROM_DECRYPTION_TABLE).

Lemma patched_ok table ee a d : settings_ok table ee -> Forall (fun b => 0 <= b < 256) d -> (a + length d <= 768)%nat ->
  settings_ok table (take a ee ++ d ++ drop (a + length d) ee).
Proof.
  intros [L F T] Fd Hd. unfold EEPROM_SIZE in *. change (Z.to_nat (fst EEPROM_DECRYPTION_TABLE)) with 768%nat in *. constructor.
  - rewrite !length_app, length_take, length_drop. unfold EEPROM_SIZE. lia.
  - apply Forall_app. split; [apply Forall_take, F|]. apply Forall_app. split; [exact Fd|apply Forall_drop, F].
  - rewrite <- T. change (Z.to_nat (fst EEPROM_DECRYPTION_TABLE)) with 768%nat.
    rewrite drop_app_ge by (rewrite length_take; lia). rewrite length_take.
    rewrite drop_app_ge by lia. rewrite drop_drop. f_equal. lia.
Qed.

Lemma ee_write_ok table ee r d ee' : settings_ok table ee -> writable r = true -> Forall (fun b => 0 <= b < 256) d ->
  ee_write ee r d = Some ee' -> settings_ok table ee'.
Proof.
  intros S W Fd E. unfold writable in W. bool_hyps. destruct (ee_write_spec _ _ _ _ E ltac:(lia)) as (-> & W1 & W2 & W3).
  apply patched_ok; [exact S|exact Fd|]. change (fst EEPROM_DECRYPTION_TABLE) with 768 in *. lia.
Qed.
Lemma ee_set_float_ok table ee r v ee' : settings_ok table ee -> writable r = true -> ee_set_float ee r v = Some ee' -> settings_ok table ee'.
Proof. intros S W. apply ee_write_ok; [exact S|exact W|apply le_bytes_byte]. Qed.
Lemma ee_set_byte_ok table ee r v ee' : settings_ok table ee -> writable r = true -> 0 <= v < 256 ->
  ee_set_byte ee r v = Some ee' -> settings_ok table ee'.
Proof.
  intros Hs W Hv E. unfold ee_set_byte, store in E. destruct ((_ <=? _) && _) eqn:B; [|discriminate E]. injection E as <-.
  unfold writable in W. bool_hyps. change (fst EEPROM_DECRYPTION_TABLE) with 768 in *. rewrite insert_take_drop by lia.
  replace (S (Z.to_nat (fst r))) with (Z.to_nat (fst r) + length [v])%nat by (cbn; lia).
  apply (patched_ok table ee (Z.to_nat (fst r)) [v] Hs); [constructor; [exact Hv|constructor]|cbn; lia].
Qed.
Lemma save_byte_ok table ee r v ee' : settings_ok table ee -> writable r = true -> save_byte ee r v = Some ee' -> settings_ok table ee'.
Proof.
  intros S W. unfold save_byte. destruct (ee_byte ee r); [|discriminate]. cbn [mbind option_bind].
  case_bool; [intros [= <-]; exact S|]. apply ee_set_byte_ok; [exact S|exact W|]. destruct v; cbn; lia.
Qed.
Lemma save_parameter_ok table i p m ee' : settings_ok table (eeprom m) -> save_parameter i p m = Some ee' -> settings_ok table ee'.
Proof.
  intros S. unfold save_parameter. destruct p.
  - destruct (direction_region i) eqn:D; [|intros [= <-]; exact S]. apply save_byte_ok; [exact S|]. destruct i; cbn in D; simplify_eq; reflexivity.
  - apply save_byte_ok; [exact S|destruct i; reflexivity].
  - destruct (ee_float _ _); [|discriminate]. cbn [mbind option_bind]. case_bool; [intros [= <-]; exact S|].
    apply ee_set_float_ok; [exact S|destruct i; reflexivity].
Qed.

(** ** What the motors keep *)

Section Kept.
Variable table : list Z.

Definition motors_ok (m : Motors) : Prop := settings_ok table (eeprom m).
Definition both_ok (s : Motors * Sensing) : Prop := motors_ok (fst s).

(** A change of another variable. *)
Ltac other := lazymatch goal with
  | H : motors_ok ?m |- motors_ok _ => unfold motors_ok, set_feed_rate, settle_directions in *; repeat case_match; destruct m; exact H
  end.
Ltac kept := unfold get_m, unsaved, turnOn, turnOff; maintain; try other.

Lemma keeps_eeprom {R} (c : M Motors R) : Keeps eeprom c -> Maintains motors_ok c.
Proof. apply (maintains_keeps eeprom (settings_ok table)). Qed.
Lemma performed_eeprom {R} (c : M Motors R) : Keeps performed c -> Keeps eeprom c.
Proof. intros K s s' r E. apply K in E. unfold performed in E. congruence. Qed.
Lemma settings_eeprom {R} (c : M Motors R) : Keeps Movement.settings c -> Keeps eeprom c.
Proof. intros K s s' r E. apply K in E. unfold Movement.settings in E. congruence. Qed.

Lemma vref_ok i v : Maintains motors_ok (write_vref i v).
Proof. apply keeps_eeprom, performed_eeprom, write_vref_keeps. Qed.
Lemma delay_ok i cycles : Maintains motors_ok (setMotorDelayAndSkip i cycles).
Proof. apply keeps_eeprom, performed_eeprom, set_delay_keeps. Qed.
Lemma no_task_ok g : Maintains motors_ok (move_no_task g).
Proof. apply keeps_eeprom, settings_eeprom, no_task_keeps. Qed.
Hint Resolve vref_ok delay_ok no_task_ok : maintains.

Lemma turns_ok tasks new axes : forall acc, Maintains motors_ok (motor_turns tasks new axes acc).
Proof.
  induction axes as [|i axes IH]; intros acc; cbn [motor_turns]; [kept|].
  unfold motor_turn, note_motor, start_motor, invalidate. kept; try apply IH.
Qed.
Hint Resolve turns_ok : maintains.
Lemma segments_ok fuel compensate changes ends : forall k total, Maintains motors_ok (segments_loop fuel compensate changes ends k total).
Proof. induction fuel as [|fuel IH]; intros k total; cbn [segments_loop]; kept; apply IH. Qed.
Hint Resolve segments_ok : maintains.
Lemma split_ok compensate : Maintains motors_ok (splitUpMovement compensate).
Proof. unfold splitUpMovement, unsaved, height_adjustment, skew_adjustment. kept. Qed.
Lemma compensate_ok dx dy : Maintains motors_ok (compensateForBacklash dx dy).
Proof. unfold compensateForBacklash, unsaved. kept. Qed.
Hint Resolve split_ok compensate_ok : maintains.
Lemma move_ok g tasks : Maintains motors_ok (move g tasks).
Proof. unfold move, unsaved. kept. Qed.
Hint Resolve move_ok : maintains.
Lemma height_ok height compensate : Maintains motors_ok (moveToHeight height compensate).
Proof. unfold moveToHeight. kept. Qed.
Lemma bed_changes_ok affect : Maintains motors_ok (updateBedChanges affect).
Proof. unfold updateBedChanges. kept. Qed.
Hint Resolve height_ok bed_changes_ok : maintains.

(** The operations that write settings. *)
Lemma set_eeprom_ok ee m : settings_ok table ee -> motors_ok (set_eeprom ee m).
Proof. intros Hs. destruct m. exact Hs. Qed.
Lemma save_state_ok i p : Maintains motors_ok (saveState i p).
Proof. unfold saveState. kept. apply set_eeprom_ok. eapply save_parameter_ok; [|eassumption]; eassumption. Qed.
Hint Resolve save_state_ok : maintains.
Lemma save_all_ok : Maintains motors_ok save_all.
Proof. unfold save_all. kept. Qed.
Lemma center_ok : Maintains motors_ok saveZAsBedCenterZ0.
Proof. unfold saveZAsBedCenterZ0. kept. apply set_eeprom_ok. eapply ee_set_float_ok; [| |eassumption]; [eassumption|reflexivity]. Qed.
Lemma save_float_ok r v : writable r = true -> Maintains motors_ok (save_float r v).
Proof. intros W. unfold save_float. kept. apply set_eeprom_ok. eapply ee_set_float_ok; [| |eassumption]; eassumption. Qed.
Lemma save_version_ok v : 0 <= v < 256 -> Maintains motors_ok (save_version v).
Proof. intros Hv. unfold save_version. kept. apply set_eeprom_ok. eapply ee_set_byte_ok; [| |exact Hv|eassumption]; [eassumption|reflexivity]. Qed.
Hint Resolve center_ok save_all_ok : maintains.

(** The movements that the accelerometer stops. *)
Lemma on_motors_ok {R} (c : M Motors R) : Maintains motors_ok c -> Maintains both_ok (on_fst c : MS R).
Proof.
  intros K [m a] [m' a'] r Hm E. unfold on_fst in E. cbn [fst snd] in E. destruct (c m) as [[m1 r1]|] eqn:E1; [|discriminate E].
  injection E as <- _ _. exact (K _ _ _ Hm E1).
Qed.
Lemma on_sensing_ok {R} (c : M Sensing R) : Maintains both_ok (on_snd c : MS R).
Proof.
  intros [m a] [m' a'] r Hm E. unfold on_snd in E. cbn [fst snd] in E. destruct (c a) as [[a1 r1]|]; [|discriminate E].
  injection E as <- _ _. exact Hm.
Qed.
Hint Resolve on_sensing_ok : maintains.
Ltac kept_both :=
  unfold stopped, working, mot, upd;
  repeat (progress (kept; intros) || (apply on_motors_ok)).

Context `{Sensor}.

Lemma periods_ok running n m : motors_ok m -> motors_ok (periods running n m).
Proof.
  unfold motors_ok. replace (eeprom (periods running n m)) with (eeprom m); [auto|]. revert m.
  induction n as [|n IH]; intros m; cbn [periods]; [reflexivity|]. rewrite <- IH. unfold timer_period.
  destruct running; [destruct (updateMotorsStepTimer _)|]; destruct m; reflexivity.
Qed.
Lemma reading_ok running : Maintains both_ok (readAccelerationValues running).
Proof. unfold readAccelerationValues. kept_both. apply periods_ok. assumption. Qed.
Hint Resolve reading_ok : maintains.
Lemma edge_loop_ok fuel i jerk : forall counter last, Maintains both_ok (edge_loop fuel i jerk counter last).
Proof. induction fuel as [|fuel IH]; intros counter last; cbn [edge_loop]; unfold set_stepper; kept_both; auto with maintains. Qed.
Lemma bed_loop_ok fuel still : forall counter, Maintains both_ok (bed_loop fuel still counter).
Proof. induction fuel as [|fuel IH]; intros counter; cbn [bed_loop]; unfold set_stepper; kept_both; auto with maintains. Qed.
Hint Resolve edge_loop_ok bed_loop_ok : maintains.
Lemma home_motor_ok i : Maintains both_ok (home_motor i).
Proof. unfold home_motor, set_up_homing, stop_timer, set_valid, set_stepper, clear_remaining. kept_both. Qed.
Hint Resolve home_motor_ok : maintains.
Lemma homeXY_ok compensate : Maintains both_ok (homeXY compensate).
Proof. unfold homeXY, move_to_center, set_valid, set_value. kept_both. Qed.
Hint Resolve homeXY_ok : maintains.
Lemma approach_ok : Maintains both_ok approach.
Proof. unfold approach, set_up_down, stop_timer, set_stepper, clear_remaining, set_value. kept_both. Qed.
Hint Resolve approach_ok : maintains.
Lemma find_bed_ok tries maxZ : forall lastZ0 counter, Maintains both_ok (find_bed tries maxZ lastZ0 counter).
Proof. induction tries as [|tries IH]; intros lastZ0 counter; cbn [find_bed]; unfold correct_height, set_value; kept_both; auto with maintains. Qed.
Hint Resolve find_bed_ok : maintains.
Lemma moveToZ0_ok tries : Maintains both_ok (moveToZ0 tries).
Proof. unfold moveToZ0, set_valid. kept_both. Qed.
Hint Resolve moveToZ0_ok : maintains.
Lemma calibrate_center_ok tries compensate : Maintains both_ok (calibrateBedCenterZ0 tries compensate).
Proof. unfold calibrateBedCenterZ0, set_all_valid, set_valid. kept_both. Qed.
Hint Resolve calibrate_center_ok : maintains.

(** The settings of the positions are in front of the table. *)
Definition position_ok (p : f32 * f32 * option ((Z * Z) * (Z * Z))) : bool :=
  match snd p with Some (o, d) => writable o && writable d | None => true end.
Lemma visit_ok tries ps : forallb position_ok ps = true -> forall at_, Maintains both_ok (visit tries ps at_).
Proof.
  induction ps as [|[[x y] save] ps IH]; intros W at_; cbn [visit]; unfold move_to; [kept_both|].
  apply andb_true_iff in W as [W1 W2]. unfold position_ok in W1. cbn [snd] in W1. kept_both; auto with maintains.
  all: apply andb_true_iff in W1 as [W1 W3]; apply save_float_ok; assumption.
Qed.
Lemma calibrate_bed_ok tries : Maintains both_ok (calibrateBedOrientation tries).
Proof.
  unfold calibrateBedOrientation, finish_orientation, move_to, set_all_valid, set_valid, set_value.
  kept_both; first [apply save_version_ok; vm_compute; split; congruence|apply visit_ok; vm_compute; reflexivity|idtac].
Qed.
End Kept.

(** ** What the heater keeps *)

(** The temperatures that can be set. *)
Definition allowed_temperature (v : Z) : Prop := v = HEATER_OFF_TEMPERATURE \/ HEATER_MIN_TEMPERATURE <= v <= HEATER_MAX_TEMPERATURE.
Definition target_ok (h : Heater) : Prop := exists v, allowed_temperature v /\ idealTemperature h = f_of_Z v.

Section Target.
Context `{Adc}.

(** A change of another variable, or turning the heater off. *)
Ltac target := lazymatch goal with
  | K : target_ok ?h |- target_ok _ => destruct h; first [exact K|exists 0; split; [left|]; reflexivity]
  end.
Ltac targets := maintain; try target.

Lemma signed_sum_ok n : forall sum, Maintains target_ok (signed_sum n sum).
Proof. induction n as [|n IH]; intros sum; cbn [signed_sum]; unfold convert; targets; apply IH. Qed.
Lemma unsigned_sum_ok n : forall sum, Maintains target_ok (unsigned_sum n sum).
Proof. induction n as [|n IH]; intros sum; cbn [unsigned_sum]; unfold convert; targets; apply IH. Qed.
Hint Resolve signed_sum_ok unsigned_sum_ok : maintains.
Lemma clear_ok : Maintains target_ok clearTemperature.
Proof. unfold clearTemperature. targets. Qed.
Hint Resolve clear_ok : maintains.
Lemma connection_ok : Maintains target_ok testConnection.
Proof. unfold testConnection, getHeaterValue. targets. Qed.
Hint Resolve connection_ok : maintains.
Lemma callback_ok : Maintains target_ok update_temperature.
Proof. unfold update_temperature, getResistanceValue, getHeaterValue. targets. Qed.
Hint Resolve callback_ok : maintains.
Lemma ticks_ok n : Maintains target_ok (ticks n).
Proof. induction n as [|n IH]; cbn [ticks]; targets. Qed.
Lemma get_temperature_ok : Maintains target_ok getTemperature.
Proof. unfold getTemperature. targets. Qed.
Lemma heater_changes_ok ee enable : Maintains target_ok (updateHeaterChanges ee enable).
Proof. unfold updateHeaterChanges. targets. Qed.
Lemma heater_on_ok : Maintains target_ok heater_isOn.
Proof. unfold heater_isOn. targets. Qed.
Hint Resolve ticks_ok get_temperature_ok heater_changes_ok : maintains.
Lemma wait_ok lower rounds : Maintains target_ok (wait_temperature lower rounds).
Proof. induction rounds as [|[before between] rounds IH]; cbn [wait_temperature]; targets. Qed.
Hint Resolve wait_ok : maintains.
Lemma temperature_ok ee value wait rounds : allowed_temperature value -> Maintains target_ok (setTemperature ee value wait rounds).
Proof. intros V. unfold setTemperature. targets. exists value. destruct s. auto. Qed.
End Target.

(** ** What the commands keep *)

Definition serial_character (c : Z) : Prop := isAlphanumeric c = true \/ c = 95.

(** The printer between two commands. *)
Record printer_ok (table : list Z) (p : Printer) : Prop := {
  ok_motors : motors_ok table (motors p);
  ok_target : target_ok (heater p);
  ok_fan : 0 <= fan_cc (pwm p) < 65536;
  ok_led : 0 <= led_cc (pwm p) <= FAN_TIMER_PERIOD;
  ok_serial : length (serialNumber p) = 16%nat /\ Forall serial_character (serialNumber p)
}.

Definition pwm_ok (w : Pwm) : Prop := 0 <= fan_cc w < 65536 /\ 0 <= led_cc w <= FAN_TIMER_PERIOD.

Section Printer.
Context `{World} (table : list Z).

Lemma lift_motors {R} (c : M Motors R) : Maintains (motors_ok table) c -> Maintains (printer_ok table) (on_motors c).
Proof.
  intros K p p' r Hp E. unfold on_motors in E. destruct (c (motors p)) as [[m x]|] eqn:E1; [|discriminate E]. injection E as <- _.
  destruct Hp as [Hm ? ? ? ?]. apply K in E1; [|exact Hm]. destruct p. constructor; assumption.
Qed.
Lemma lift_heater {R} (c : M Heater R) : Maintains target_ok c -> Maintains (printer_ok table) (on_heater c).
Proof.
  intros K p p' r Hp E. unfold on_heater in E. destruct (c (heater p)) as [[h x]|] eqn:E1; [|discriminate E]. injection E as <- _.
  destruct Hp as [? Hh ? ? ?]. apply K in E1; [|exact Hh]. destruct p. constructor; assumption.
Qed.
Lemma lift_pwm {R} (c : M Pwm R) : Maintains pwm_ok c -> Maintains (printer_ok table) (on_pwm c).
Proof.
  intros K p p' r Hp E. unfold on_pwm in E. destruct (c (pwm p)) as [[w x]|] eqn:E1; [|discriminate E]. injection E as <- _.
  destruct Hp as [? ? Hf Hl ?]. apply K in E1 as [? ?]; [|split; assumption]. destruct p. constructor; assumption.
Qed.
Lemma lift_sensed {R} (c : M (Motors * Sensing) R) : Maintains (both_ok table) c -> Maintains (printer_ok table) (on_sensed c).
Proof.
  intros K p p' r Hp E. unfold on_sensed in E. destruct (c (motors p, sensing p)) as [[[m a] x]|] eqn:E1; [|discriminate E]. injection E as <- _.
  destruct Hp as [Hm ? ? ? ?]. apply K in E1; [|exact Hm]. destruct p. constructor; assumption.
Qed.

Lemma speed_ok ee speed : Maintains pwm_ok (setSpeed ee speed).
Proof.
  unfold setSpeed. maintain. split; [|apply H1]. cbn [fan_cc]. revert H0. unfold fan_value.
  destruct (ee_float _ _), (ee_byte _ _); cbn [mbind option_bind]; try discriminate.
  case_bool; [intros [= <-]; lia|]. intros E. apply f_to_unsigned_range in E. lia.
Qed.
Lemma brightness_ok brightness : 0 <= brightness < 256 -> Maintains pwm_ok (setBrightness brightness).
Proof.
  intros B w w' u [Hf Hl] E. destruct (brightness_values brightness w B) as (v & E1 & V & _). rewrite E in E1. injection E1 as -> _.
  split; [exact Hf|exact V].
Qed.

Lemma serial_number_sets p : settings_ok table (settings_of p) ->
  exists sn, updateSerialNumber p = Some (set_serialNumber sn p, tt) /\ length sn = 16%nat /\ Forall serial_character sn.
Proof.
  intros [L _ _]. unfold EEPROM_SIZE in L.
  assert (ee_read (settings_of p) EEPROM_SERIAL_NUMBER = Some (take 16 (drop 751 (settings_of p)))) as E by (unfold ee_read; rewrite L; reflexivity).
  eexists. split; [unfold updateSerialNumber; step_pure; unfold id; step_option E; reflexivity|]. split.
  - rewrite length_map, length_take, length_drop. lia.
  - apply Forall_map. apply Forall_true. intros c. unfold serial_character, compose. destruct (isAlphanumeric c) eqn:A; auto.
Qed.
Lemma serial_number_ok : Maintains (printer_ok table) updateSerialNumber.
Proof.
  intros p p' r Hp E. destruct (serial_number_sets p (ok_motors _ _ Hp)) as (sn & E1 & L). rewrite E in E1. injection E1 as -> _.
  destruct Hp. destruct p. constructor; assumption.
Qed.

Lemma heater_off_allowed : allowed_temperature HEATER_OFF_TEMPERATURE.
Proof. left. reflexivity. Qed.

(** Along the structure of a command, and of what it asks of the parts. *)
Ltac kept_all :=
  repeat (progress maintain || first
    [ apply lift_motors | apply lift_heater | apply lift_pwm | apply lift_sensed | apply serial_number_ok
    | apply move_ok | apply save_all_ok | apply center_ok | apply bed_changes_ok | apply homeXY_ok | apply calibrate_center_ok
    | apply calibrate_bed_ok | apply speed_ok | apply heater_changes_ok | apply get_temperature_ok | apply heater_on_ok
    | apply connection_ok | apply clear_ok | apply ticks_ok | apply temperature_ok, heater_off_allowed ]).
(** A change of another variable of the motors. *)
Ltac others := lazymatch goal with
  | K : motors_ok _ ?m |- motors_ok _ _ => unfold motors_ok in *; destruct m; exact K
  end.

Lemma set_temperature_ok stopped g : Maintains (printer_ok table) (set_temperature stopped g).
Proof.
  unfold set_temperature. set (t := if flag _ _ then _ else _). destruct ((t =? _) || _) eqn:B; [|kept_all].
  assert (allowed_temperature (u16 t)) as A.
  { apply orb_true_iff in B as [B|B]; bool_hyps; [left|right; unfold HEATER_MIN_TEMPERATURE, HEATER_MAX_TEMPERATURE in *; rewrite u16_id; lia].
    subst t. rewrite B. reflexivity. }
  kept_all. apply temperature_ok, A.
Qed.

Lemma access_setting_ok g : Gcode_wf g -> Maintains (printer_ok table) (access_setting g).
Proof.
  intros W. unfold access_setting. case_bool; [|kept_all]. apply maintains_bind_option. intros [] V; [|kept_all].
  kept_all. apply set_eeprom_ok. eapply ee_write_ok; [| | |eassumption].
  - eapply ok_motors. eassumption.
  - destruct (_ && _ && _) eqn:B in V; [|discriminate V]. unfold add_s32 in V. destruct ((_ <=? _) && _) in V; [|discriminate V].
    cbn in V. injection V as V. unfold writable. cbn [fst snd]. bool_hyps. change (fst EEPROM_FIRMWARE_VERSION) with 0 in *.
    change (fst EEPROM_DECRYPTION_TABLE) with 768 in *. rewrite !andb_true_iff, Z.ltb_lt, !Z.leb_le.
    destruct W as (_ & _ & _ & Wt & _). lia.
  - apply Forall_take, le_bytes_byte.
Qed.

Lemma m_command_ok stopped g : Gcode_wf g -> Maintains (printer_ok table) (m_command stopped g).
Proof.
  intros W. unfold m_command, details_or_reset, get_temperature, get_position.
  repeat (lazymatch goal with |- Maintains _ (if ?b then _ else _) => destruct b end);
    try (apply maintains_bind; [first [apply set_temperature_ok|apply access_setting_ok, W]|intros ?; apply maintains_ret]);
    unfold turnOn, turnOff; kept_all; try others.
  apply brightness_ok. destruct W as (_ & _ & _ & Wt & _). case_bool; [exact Wt|]. vm_compute. split; congruence.
Qed.

Lemma g_command_ok g : Maintains (printer_ok table) (g_command g).
Proof.
  unfold g_command, move_command, calibrate, sensed, set_position, unsaved.
  repeat (lazymatch goal with |- Maintains _ (if ?b then _ else _) => destruct b end); kept_all; try others.
  cbn [fold_left four]. assert (forall i m, motors_ok table m -> motors_ok table (set_position_of g i m)) as P; [|auto].
  intros i m Hm. unfold set_position_of, set_value. case_match; [others|exact Hm].
Qed.

Lemma command_ok stopped g : Gcode_wf g -> Maintains (printer_ok table) (command stopped g).
Proof.
  intros W. unfold command, prepare. apply maintains_bind.
  - kept_all; try others. destruct s0, H1. constructor; assumption.
  - intros _. repeat case_bool; [apply m_command_ok, W| |apply maintains_ret..].
    apply maintains_bind; [apply g_command_ok|intros; apply maintains_ret].
Qed.

Lemma check_ok : Maintains (printer_ok table) check_peripherals.
Proof. unfold check_peripherals. kept_all; destruct s0, H1; constructor; assumption. Qed.
Lemma reset_ok : Maintains (printer_ok table) reset_all.
Proof.
  unfold reset_all. maintain.
  - apply lift_pwm, speed_ok.
  - apply lift_heater, clear_ok.
  - apply lift_pwm, brightness_ok. vm_compute. split; congruence.
  - apply lift_motors. unfold Motors.reset, stop_timer, turnOff. maintain; others.
Qed.
Lemma any_on_ok : Maintains (printer_ok table) any_on.
Proof. unfold any_on. kept_all. Qed.

(** The printer while it runs, and when the firmware was reset. *)
Definition outcome_ok (o : Outcome) : Prop :=
  match o with Running p | Restarted p => printer_ok table p | Lost => True end.

Lemma run_ok {R} (c : M Printer R) none o : Maintains (printer_ok table) c -> outcome_ok o -> outcome_ok (fst (run c none o)).
Proof. intros K Ho. destruct o as [p|p|]; try exact Ho. unfold run. destruct (c p) as [[p' r]|] eqn:E; [exact (K _ _ _ Ho E)|exact I]. Qed.

Lemma printer_stable : stable outcome_ok.
Proof.
  constructor.
  - intros o. apply run_ok, check_ok.
  - intros e g o W Ho. pose proof (run_ok (command e g) (Some []) o (command_ok e g W) Ho) as K.
    change (outcome_ok (fst (match run (command e g) (Some []) o with
      | (o', Some r) => (o', r) | (Running p, None) => (Restarted p, []) | (o', None) => (o', []) end))).
    destruct (run _ _ o) as [[p|p|] [r|]]; exact K.
  - intros o. apply run_ok, reset_ok.
  - intros o. apply run_ok, any_on_ok.
Qed.
End Printer.

(** ** What is always defined *)

Lemma ee_read_defined table ee r : settings_ok table ee -> 0 <= fst r -> fst r + snd r <= EEPROM_SIZE -> is_Some (ee_read ee r).
Proof. intros [L _ _] H1 H2. unfold ee_read. rewrite L, !(proj2 (Z.leb_le _ _)) by lia. eauto. Qed.
Lemma ee_float_defined table ee r : settings_ok table ee -> 0 <= fst r -> fst r + snd r <= EEPROM_SIZE -> is_Some (ee_float ee r).
Proof. intros Hs H1 H2. unfold ee_float. destruct (ee_read_defined table ee r Hs H1 H2) as [d ->]. eauto. Qed.
Lemma ee_byte_defined table ee r : settings_ok table ee -> 0 <= fst r < EEPROM_SIZE -> is_Some (ee_byte ee r).
Proof. intros [L _ _] H1. unfold ee_byte. destruct (load_lt ee (fst r)) as [b ->]; [lia|eauto]. Qed.

(** Settings at constant places. *)
Ltac readable :=
  lazymatch goal with
  | |- is_Some (ee_float _ _) => eapply ee_float_defined; [eassumption|vm_compute; congruence..]
  | |- is_Some (ee_byte _ _) => eapply ee_byte_defined; [eassumption|vm_compute; split; congruence]
  | |- is_Some (ee_read _ _) => eapply ee_read_defined; [eassumption|vm_compute; congruence..]
  end.

Section Defined.
Variable table : list Z.

Lemma corners_defined ee b : settings_ok table ee -> is_Some (update_corners ee b).
Proof.
  intros Hs. unfold update_corners.
  repeat match goal with |- context[ee_float ee ?r] => let E := fresh in assert (is_Some (ee_float ee r)) as [? E] by readable; rewrite E; cbn [mbind option_bind] end.
  eauto.
Qed.
Lemma skew_defined ee b : settings_ok table ee -> is_Some (update_skew ee b).
Proof.
  intros Hs. unfold update_skew.
  repeat match goal with |- context[ee_float ee ?r] => let E := fresh in assert (is_Some (ee_float ee r)) as [? E] by readable; rewrite E; cbn [mbind option_bind] end.
  eauto.
Qed.

Ltac other_total := lazymatch goal with
  | K : motors_ok _ ?m |- motors_ok _ _ => unfold motors_ok in *; destruct m; exact K
  end.

Lemma bed_changes_total affect : Total (motors_ok table) (updateBedChanges affect).
Proof.
  unfold updateBedChanges, get_m, unsaved. total; try other_total; first [apply corners_defined; assumption|apply skew_defined; assumption|readable].
Qed.
Lemma restore_motor_total i : Total (motors_ok table) (restore_motor i).
Proof. unfold restore_motor, get_m. destruct i; cbn [direction_region state_region value_region]; total; first [other_total|readable]. Qed.
Hint Resolve bed_changes_total restore_motor_total : total.
Lemma idle_vrefs_total axes : Total (motors_ok table) (idle_vrefs axes).
Proof. intros m Hm. destruct (idle_vrefs_spec axes m) as [v E]. exists (set_vrefs v m), tt. split; [exact E|other_total]. Qed.
Hint Resolve idle_vrefs_total : total.
Lemma motors_reset_total : Total (motors_ok table) Motors.reset.
Proof. unfold Motors.reset, stop_timer, turnOff. total; other_total. Qed.
Hint Resolve motors_reset_total : total.
Lemma initialize_motors_total : Total (motors_ok table) initialize_motors.
Proof. unfold initialize_motors, restoreState, turnOff. total; other_total. Qed.
Lemma speed_total ee : settings_ok table ee -> Total pwm_ok (fan_reset ee).
Proof.
  intros Hs. unfold fan_reset, setSpeed. total.
  - unfold fan_value. destruct (ee_float_defined table ee EEPROM_FAN_SCALE Hs) as [? ->]; [vm_compute; congruence..|].
    destruct (ee_byte_defined table ee EEPROM_FAN_OFFSET Hs) as [? ->]; [vm_compute; split; congruence|]. cbn. eauto.
  - split; [|apply H0]. unfold fan_value in H. destruct (ee_float _ _), (ee_byte _ _); cbn in H; simplify_eq. cbn. lia.
Qed.
Lemma brightness_total brightness : 0 <= brightness < 256 -> Total pwm_ok (setBrightness brightness).
Proof.
  intros B w Hw. destruct (brightness_values brightness w B) as (v & E & V & _). eexists _, tt. split; [exact E|]. split; [apply Hw|exact V].
Qed.

(** *** The printer *)

Context `{World}.

Lemma total_motors {R} (c : M Motors R) : Total (motors_ok table) c -> Total (printer_ok table) (on_motors c).
Proof.
  intros T p Hp. destruct (T (motors p) (ok_motors _ _ Hp)) as (m & r & E & Hm). exists (set_motors m p), r.
  unfold on_motors. rewrite E. destruct p, Hp. split; [reflexivity|constructor; assumption].
Qed.
Lemma total_heater {R} (c : M Heater R) : Total target_ok c -> Total (printer_ok table) (on_heater c).
Proof.
  intros T p Hp. destruct (T (heater p) (ok_target _ _ Hp)) as (h & r & E & Hh). exists (set_heater h p), r.
  unfold on_heater. rewrite E. destruct p, Hp. split; [reflexivity|constructor; assumption].
Qed.
Lemma total_pwm {R} (c : M Pwm R) : Total pwm_ok c -> Total (printer_ok table) (on_pwm c).
Proof.
  intros T p Hp. destruct (T (pwm p)) as (w & r & E & Hf & Hl); [split; apply Hp|]. exists (set_pwm w p), r.
  unfold on_pwm. rewrite E. destruct p, Hp. split; [reflexivity|constructor; assumption].
Qed.
Lemma serial_total : Total (printer_ok table) updateSerialNumber.
Proof.
  intros p Hp. destruct (serial_number_sets table p (ok_motors _ _ Hp)) as (sn & E & L). eexists _, _. split; [exact E|].
  destruct Hp, p. constructor; assumption.
Qed.
Lemma clear_total : Total target_ok clearTemperature.
Proof. apply (total_spec _ _ (fun h => (cleared h, tt))); [apply clearTemperature_spec|apply clear_ok]. Qed.
Lemma connection_total : Total target_ok testConnection.
Proof. apply (total_spec _ _ (fun h => (tested h, connected h))); [apply testConnection_spec|apply connection_ok]. Qed.
Lemma heater_changes_total ee enable : settings_ok table ee -> Total target_ok (updateHeaterChanges ee enable).
Proof.
  intros Hs h Hh.
  assert (exists h' r, updateHeaterChanges ee enable h = Some (h', r)) as (h' & r & E); [|exists h', r; split; [exact E|exact (heater_changes_ok _ _ _ _ _ Hh E)]].
  unfold updateHeaterChanges. assert (is_Some (ee_byte ee EEPROM_HEATER_CALIBRATION_MODE)) as [mode E1] by readable.
  assert (is_Some (ee_float ee EEPROM_HEATER_TEMPERATURE_MEASUREMENT_B)) as [b E2] by readable.
  assert (is_Some (ee_float ee EEPROM_HEATER_RESISTANCE_M)) as [m E3] by readable. rewrite E1, E2, E3.
  unfold of_option, mbind, M_bind, modify. destruct (_ || _); [|destruct enable]; eexists _, _; reflexivity.
Qed.

(** Writing a setting ends; the heater and the bed follow it. *)
Lemma write_total ee : settings_ok table ee ->
  Total (printer_ok table) (_ ← on_motors (modify (set_eeprom ee)); _ ← updateSerialNumber; _ ← on_motors (updateBedChanges true); on_heater (updateHeaterChanges ee true)).
Proof.
  intros Hs. total.
  - apply total_motors, total_modify. intros m Hm. apply set_eeprom_ok, Hs.
  - apply serial_total.
  - apply total_motors, bed_changes_total.
  - apply total_heater, heater_changes_total, Hs.
Qed.
End Defined.

(** ** Texts of numbers *)

Lemma number_digits_defined v : 0 <= v < two64 -> number_digits v = Some (digits v).
Proof.
  intros V. unfold number_digits. destruct (ulltoa_buffer v numberBuffer V) as (junk & E & _); [vm_compute; discriminate|].
  rewrite E. cbn. rewrite cstr_app_nul by (apply digits_nonzero; lia). reflexivity.
Qed.

Lemma le_bytes_take n m v : (n <= m)%nat -> take n (le_bytes m v) = le_bytes n v.
Proof. revert n v. induction m as [|m IH]; intros [|n] v L; cbn; try reflexivity; [lia|]. rewrite IH by lia. reflexivity. Qed.
Lemma le_bytes_mod n v : le_value (le_bytes n v) = v mod 256 ^ Z.of_nat n.
Proof.
  revert v. induction n as [|n IH]; intros v; cbn [le_bytes le_value]; [rewrite Z.mod_1_r; reflexivity|].
  rewrite IH, Nat2Z.inj_succ, Z.pow_succ_r, Z.rem_mul_r by lia. reflexivity.
Qed.

(** ** Settings by command *)

Lemma flag_part word a b : flag word a = true -> flag word (Z.lor a b) = true.
Proof.
  unfold flag. rewrite !negb_true_iff, !Z.eqb_neq. intros N E. apply N. apply Z.bits_inj_0. intros n.
  apply (f_equal (fun z => Z.testbit z n)) in E. rewrite Z.land_spec, Z.lor_spec, Z.bits_0 in E. rewrite Z.land_spec.
  destruct (Z.testbit word n), (Z.testbit a n); cbn in *; congruence.
Qed.

(** A setting of one to four bytes in front of the table. *)
Definition accessible (a n : Z) : Prop := 0 <= a /\ 1 <= n <= 4 /\ a + n <= fst EEPROM_DECRYPTION_TABLE.

Lemma keeps_settings_motors {R} (c : M Motors R) : Keeps eeprom c -> Keeps settings_of (on_motors c).
Proof.
  intros K p p' r E. unfold on_motors in E. destruct (c (motors p)) as [[m x]|] eqn:E1; [|discriminate E]. injection E as <- _.
  apply K in E1. destruct p. exact E1.
Qed.
Lemma keeps_settings_heater {R} (c : M Heater R) : Keeps settings_of (on_heater c).
Proof.
  intros p p' r E. unfold on_heater in E. destruct (c (heater p)) as [[h x]|]; [|discriminate E]. injection E as <- _. destruct p. reflexivity.
Qed.

Section Settings.
Context `{World} (table : list Z).

(** The part of [access_setting] before the access. *)
Lemma access_checked g p : Gcode_wf g -> flag (commandParameters g) PARAMETER_S_OFFSET = true -> accessible (valueS g) (valueT g) ->
  access_setting g p =
    (if valueM g =? 619 then
       data ← of_option (ee_read (settings_of p) (valueS g, valueT g));
       value ← of_option (number_digits (le_value data));
       mret (ok_line ++ str "PT:" ++ digits (valueS g) ++ str " DT:" ++ value)
     else
       ee ← of_option (ee_write (settings_of p) (valueS g, valueT g) (take (Z.to_nat (valueT g)) (le_bytes 4 (u32 (valueP g)))));
       _ ← on_motors (modify (set_eeprom ee));
       _ ← updateSerialNumber;
       _ ← on_motors (updateBedChanges true);
       _ ← on_heater (updateHeaterChanges ee true);
       mret (ok_line ++ str "PT:" ++ digits (valueS g))) p.
Proof.
  intros (_ & _ & _ & Wt & Ws & _) F (A1 & A2 & A3). change (fst EEPROM_DECRYPTION_TABLE) with 768 in A3.
  unfold access_setting. rewrite <- Z.lor_assoc, flag_part by exact F.
  assert ((if (valueS g >=? fst EEPROM_FIRMWARE_VERSION) && negb (valueT g =? 0) && (valueT g <=? 4)
       then e ← add_s32 (valueS g) (valueT g); Some (e <=? fst EEPROM_DECRYPTION_TABLE) else Some false) = Some true) as ->.
  { change (fst EEPROM_FIRMWARE_VERSION) with 0. change (fst EEPROM_DECRYPTION_TABLE) with 768.
    rewrite Z.geb_leb, (proj2 (Z.leb_le 0 _)), (proj2 (Z.eqb_neq _ 0)), (proj2 (Z.leb_le _ 4)) by lia. cbn [negb andb]. unfold add_s32.
    rewrite (proj2 (Z.leb_le _ _)), (proj2 (Z.ltb_lt _ _)) by lia. cbn. rewrite (proj2 (Z.leb_le _ _)) by lia. reflexivity. }
  unfold u64. rewrite Z.mod_small by lia. rewrite number_digits_defined by (unfold two64; lia).
  step_pure. step_pure. step_pure. reflexivity.
Qed.

Lemma write_setting g p : printer_ok table p -> Gcode_wf g -> valueM g = 618 ->
  flag (commandParameters g) PARAMETER_S_OFFSET = true -> accessible (valueS g) (valueT g) ->
  exists p', access_setting g p = Some (p', ok_line ++ str "PT:" ++ digits (valueS g)) /\ printer_ok table p' /\
    ee_write (settings_of p) (valueS g, valueT g) (le_bytes (Z.to_nat (valueT g)) (u32 (valueP g))) = Some (settings_of p').
Proof.
  intros Hp W Em F A. rewrite (access_checked g p W F A), Em. cbn [Z.eqb Pos.eqb].
  destruct A as (A1 & A2 & A3). change (fst EEPROM_DECRYPTION_TABLE) with 768 in A3. rewrite le_bytes_take by lia.
  pose proof (ok_motors _ _ Hp) as Hs. unfold motors_ok in Hs. fold (settings_of p) in Hs.
  set (d := le_bytes _ _). destruct (ee_write (settings_of p) (valueS g, valueT g) d) as [ee|] eqn:Ew.
  2: { rewrite ee_write_defined in Ew; cbn [fst snd]; [discriminate|lia|destruct Hs as [-> _ _]; unfold EEPROM_SIZE; lia|].
       unfold d. rewrite le_bytes_length. lia. }
  assert (settings_ok table ee) as He.
  { eapply ee_write_ok; [exact Hs| |apply le_bytes_byte|exact Ew]. unfold writable. cbn [fst snd]. change (fst EEPROM_DECRYPTION_TABLE) with 768.
    rewrite !(proj2 (Z.leb_le _ _)), (proj2 (Z.ltb_lt _ _)) by lia. reflexivity. }
  destruct (write_total table ee He p Hp) as (p' & r & E & Hp').
  exists p'. split; [|split; [exact Hp'|]].
  - unbind E as p1 r1 E1. unbind E as p2 r2 E2. unbind E as p3 r3 E3. step_pure. step E1. step E2. step E3. step E. reflexivity.
  - f_equal. unbind E as p1 r1 E1. injection E1 as <- _. unbind E as p2 r2 E2. unbind E as p3 r3 E3.
    apply keeps_settings_heater in E. rewrite E.
    apply (keeps_settings_motors (updateBedChanges true)) in E3; [|unfold updateBedChanges, get_m, unsaved; keep]. rewrite E3.
    destruct (serial_number_sets table (set_motors (set_eeprom ee (motors p)) p)) as (sn & E4 & _).
    { destruct p as [m a h w sn n], m. exact He. }
    rewrite E2 in E4. injection E4 as -> _. destruct p as [m a h w sn' n], m. reflexivity.
Qed.

Lemma read_setting g p d : Gcode_wf g -> valueM g = 619 -> flag (commandParameters g) PARAMETER_S_OFFSET = true ->
  accessible (valueS g) (valueT g) -> ee_read (settings_of p) (valueS g, valueT g) = Some d -> 0 <= le_value d < two64 ->
  access_setting g p = Some (p, ok_line ++ str "PT:" ++ digits (valueS g) ++ str " DT:" ++ digits (le_value d)).
Proof.
  intros W Em F A Er V. rewrite (access_checked g p W F A), Em. cbn [Z.eqb Pos.eqb]. step_option Er.
  rewrite number_digits_defined by exact V. reflexivity.
Qed.
End Settings.

(** ** The start and the reset *)

Section Start.
Context `{World}.

Lemma starts ee : len ee = EEPROM_SIZE -> Forall (fun b => 0 <= b < 256) ee ->
  exists p, initialize_peripherals (power_on ee) = Some (p, tt) /\ printer_ok (drop 768 ee) p.
Proof.
  intros L B. set (table := drop 768 ee). assert (settings_ok table ee) as Hs by (constructor; [exact L|exact B|reflexivity]).
  assert (pwm_ok (mkPwm 0 0)) as W0 by (vm_compute; intuition congruence).
  destruct (speed_total table ee Hs (mkPwm 0 0) W0) as (w1 & [] & E1 & W1).
  destruct (brightness_total LED_MAX_BRIGHTNESS ltac:(vm_compute; intuition congruence) w1 W1) as (w2 & [] & E2 & Wf & Wl).
  destruct (initialize_motors_total table (motors (power_on ee)) Hs) as (m & [] & E3 & Hm).
  assert (exists b, load (eeprom m) 0 = Some b /\ 0 <= b < 256) as (b & Eb & Hb).
  { pose proof (load_lt (eeprom m) 0) as [b Eb]; [rewrite (settings_size _ _ Hm); vm_compute; intuition congruence|].
    exists b. split; [exact Eb|]. destruct Hm as [_ F _]. rewrite Forall_forall in F. apply F. unfold load in Eb.
    apply list_elem_of_In. eapply list_elem_of_lookup_2, Eb. }
  assert (store (eeprom m) 0 b = Some (<[Z.to_nat 0 := b]> (eeprom m))) as Es.
  { apply store_in; rewrite (settings_size _ _ Hm); vm_compute; intuition congruence. }
  pose proof (ee_set_byte_ok table (eeprom m) (0, 1) b _ Hm eq_refl Hb Es) as He.
  set (ee' := <[Z.to_nat 0 := b]> (eeprom m)) in *.
  set (p := mkPrinter (set_eeprom ee' m) (sensing (power_on ee)) (cleared (heater (power_on ee))) w2 (serialNumber (power_on ee)) 0).
  assert (eeprom (set_eeprom ee' m) = ee') as Ee by (destruct m; reflexivity).
  assert (settings_ok table (settings_of p)) as Hp by (change (settings_of p) with (eeprom (set_eeprom ee' m)); rewrite Ee; exact He).
  destruct (serial_number_sets table p Hp) as (sn & E5 & Ls). exists (set_serialNumber sn p). split.
  - cbn [motors power_on] in E3. unfold initialize_peripherals. step_pure. unfold id, settings_of. cbn [motors power_on eeprom].
    eapply eq_trans; [eapply bind_step; unfold on_pwm; cbn [pwm power_on]; rewrite E1; reflexivity|].
    eapply eq_trans; [eapply bind_step; unfold on_heater, heater_reset; rewrite clearTemperature_spec; reflexivity|].
    eapply eq_trans; [eapply bind_step; unfold on_pwm, led_reset; cbn [pwm set_pwm set_heater heater power_on]; rewrite E2; reflexivity|].
    eapply eq_trans; [eapply bind_step; unfold on_motors; cbn [motors set_pwm set_heater heater power_on pwm]; rewrite E3; reflexivity|].
    step_pure. unfold settings_of, id. cbn [motors set_motors set_pwm set_heater heater pwm power_on]. step_option Eb. step_option Es. step_pure. exact E5.
  - constructor; [exact Hp|exists 0; split; [left|]; reflexivity|exact Wf|exact Wl|exact Ls].
Qed.
End Start.

(** ** The properties *)

Section Claims.
Context `{Build} `{World} (stack : list Z -> Gcode) `{!StackValues stack}.


(** C19. The reset after an emergency stop or a time without requests always ends, and
    turns everything off: the heater has no temperature and is off, the fan stops,
    the LED is at its default, the motors are off and none of them moves; asked
    then, no peripheral is on. The settings stay as they were. *)
Theorem reset_turns_off table p :
  printer_ok table p ->
  exists p', reset_all p = Some (p', tt) /\ printer_ok table p' /\
    HEATER_MODE_SELECT (heater p') = false /\ is_heating (heater p') = false /\
    fan_isOn (pwm p') = false /\ led_isOn (pwm p') = false /\ Motors.isOn (motors p') = false /\ still (motors p') /\
    settings_of p' = settings_of p /\
    exists p'', any_on p' = Some (p'', false).
Proof.
  intros Hp. pose proof (ok_motors _ _ Hp) as Hs.
  destruct (speed_total table (settings_of p) Hs (pwm p)) as (w1 & [] & E1 & W1); [split; apply Hp|].
  destruct (brightness_values LED_MAX_BRIGHTNESS w1 ltac:(vm_compute; intuition congruence)) as (v & E2 & _ & _ & Lv).
  destruct (stop_timer_still (motors p)) as (m & E3 & Sm & Pm & _).
  set (p' := mkPrinter (set_motors_on false m) (sensing p) (cleared (heater p)) (mkPwm (fan_cc w1) v) (serialNumber p) (commands p)).
  assert (reset_all p = Some (p', tt)) as E.
  { unfold reset_all. step_pure. unfold id.
    eapply eq_trans; [eapply bind_step; unfold on_pwm; rewrite E1; reflexivity|].
    eapply eq_trans; [eapply bind_step; unfold on_heater, heater_reset; rewrite clearTemperature_spec; reflexivity|].
    destruct p as [m0 a h w sn n]. cbn [pwm heater motors set_pwm set_heater sensing serialNumber commands] in *.
    eapply eq_trans; [eapply bind_step; unfold on_pwm, led_reset; cbn [pwm]; rewrite E2; reflexivity|].
    unfold on_motors, Motors.reset. cbn [motors set_pwm]. erewrite (bind_step _ _ _ _ _ E3). reflexivity. }
  assert (fan_isOn w1 = false) as F1 by (destruct (pwm p); exact (fan_reset_off _ _ _ E1)).
  exists p'. split; [exact E|]. split; [exact (reset_ok table _ _ _ Hp E)|].
  split; [destruct (heater p); reflexivity|]. split; [destruct (heater p); reflexivity|].
  split; [exact F1|]. split; [exact Lv|]. split; [destruct m; reflexivity|]. split; [destruct m; exact Sm|].
  split; [unfold settings_of, p'; cbn [motors]; unfold performed in Pm; destruct m; cbn in *; congruence|].
  eexists. unfold any_on. step_pure. unfold id. change (pwm p') with (mkPwm (fan_cc w1) v).
  replace (fan_isOn (mkPwm (fan_cc w1) v)) with false by (symmetry; exact F1). rewrite Lv.
  eapply eq_trans; [eapply bind_step; unfold on_heater, heater_isOn; cbn [heater p'];
    erewrite (bind_step _ _ _ _ _ (testConnection_spec _)); reflexivity|].
  assert (is_heating (set_updating false (tested (cleared (heater p)))) = false) as ->.
  { unfold tested. destruct (connected _); destruct (heater p); reflexivity. }
  unfold gets. cbn [motors p' set_heater]. destruct m; reflexivity.
Qed.

(** C20. A setting that M618 writes is the one that M619 reads: both commands end, the
    second response shows the value modulo the size of the setting, and every other
    setting stays as it was. *)
Theorem setting_roundtrip table w r p :
  printer_ok table p -> Gcode_wf w -> Gcode_wf r -> valueM w = 618 -> valueM r = 619 ->
  flag (commandParameters w) PARAMETER_S_OFFSET = true -> flag (commandParameters r) PARAMETER_S_OFFSET = true ->
  valueS r = valueS w -> valueT r = valueT w -> accessible (valueS w) (valueT w) ->
  exists p', access_setting w p = Some (p', ok_line ++ str "PT:" ++ digits (valueS w)) /\ printer_ok table p' /\
    access_setting r p' = Some (p', ok_line ++ str "PT:" ++ digits (valueS w) ++ str " DT:" ++ digits (valueP w mod 256 ^ valueT w)) /\
    forall q, 0 <= fst q -> 0 <= snd q -> disjoint (valueS w, valueT w) q -> ee_read (settings_of p') q = ee_read (settings_of p) q.
Proof.
  intros Hp Ww Wr Mw Mr Fw Fr Es Et A. destruct (write_setting table w p Hp Ww Mw Fw A) as (p' & E & Hp' & Ew).
  pose proof A as (A1 & A2 & A3). exists p'. split; [exact E|]. split; [exact Hp'|]. split.
  - pose proof (ee_write_same _ _ _ _ Ew ltac:(cbn; lia)) as Er.
    assert (le_value (le_bytes (Z.to_nat (valueT w)) (u32 (valueP w))) = valueP w mod 256 ^ valueT w) as V.
    { rewrite le_bytes_mod, Z2Nat.id by lia. unfold u32. apply Z.mod_mod_divide.
      assert (valueT w = 1 \/ valueT w = 2 \/ valueT w = 3 \/ valueT w = 4) as [-> | [-> | [-> | ->]]] by lia;
        [exists 16777216|exists 65536|exists 256|exists 1]; reflexivity. }
    rewrite (read_setting r p' (le_bytes (Z.to_nat (valueT w)) (u32 (valueP w))) Wr Mr Fr); rewrite ?Es, ?Et, ?V; auto.
    assert (0 < 256 ^ valueT w <= 256 ^ 4) as Hb by (split; [apply Z.pow_pos_nonneg; lia|apply Z.pow_le_mono_r; lia]).
    pose proof (Z.mod_pos_bound (valueP w) (256 ^ valueT w) ltac:(lia)). change (256 ^ 4) with 4294967296 in Hb. unfold two64. lia.
  - intros q Q1 Q2 D. apply (ee_write_other _ _ _ _ q Ew); cbn [fst snd]; [lia|exact Q1|exact Q2|exact D].
Qed.

(** M618 does not require its value: with an address and a length but no P
    parameter, what the field of the request happens to hold is written. *)
Theorem value_not_required table w p :
  printer_ok table p -> Gcode_wf w -> valueM w = 618 ->
  flag (commandParameters w) PARAMETER_S_OFFSET = true -> flag (commandParameters w) PARAMETER_P_OFFSET = false ->
  accessible (valueS w) (valueT w) ->
  exists p', access_setting w p = Some (p', ok_line ++ str "PT:" ++ digits (valueS w)) /\
    ee_read (settings_of p') (valueS w, valueT w) = Some (le_bytes (Z.to_nat (valueT w)) (u32 (valueP w))).
Proof.
  intros Hp W M F _ A. destruct (write_setting table w p Hp W M F A) as (p' & E & _ & Ew). exists p'. split; [exact E|].
  pose proof A as (_ & A2 & _). exact (ee_write_same _ _ _ _ Ew ltac:(cbn; lia)).
Qed.
End Claims.

(** ** Witnesses *)

#[local] Existing Instance default_build.

#[local] Existing Instance example_world.

Lemma settings_valid : len example_settings = EEPROM_SIZE /\ Forall (fun b => 0 <= b < 256) example_settings.
Proof.
  split; [vm_compute; reflexivity|].
  assert (forallb (fun b => (0 <=? b) && (b <? 256)) example_settings = true) as E by (vm_compute; reflexivity).
  apply List.Forall_forall. intros b Hb. rewrite forallb_forall in E. apply E in Hb. apply andb_true_iff in Hb as [H1 H2].
  apply Z.leb_le in H1. apply Z.ltb_lt in H2. lia.
Defined.
Lemma example_printer_ok : printer_ok (drop 768 example_settings) example_printer.
Proof.
  destruct (starts example_settings (proj1 settings_valid) (proj2 settings_valid)) as (p & E & Hp).
  unfold example_printer. rewrite E. exact Hp.
Defined.


Lemma reset_turns_off_witness : exists p', reset_all example_printer = Some (p', tt) /\ Motors.isOn (motors p') = false.
Proof.
  destruct (reset_turns_off (drop 768 example_settings) example_printer) as (p' & E & _ & _ & _ & _ & _ & Hm & _).
  - exact example_printer_ok.
  - exists p'. split; [exact E|exact Hm].
Defined.

Lemma setting_roundtrip_witness : exists p',
  access_setting (parsed "M618 S132 T2 P70000") example_printer = Some (p', ok_line ++ str "PT:132") /\
  access_setting (parsed "M619 S132 T2") p' = Some (p', ok_line ++ str "PT:132 DT:4464").
Proof.
  destruct (setting_roundtrip (drop 768 example_settings) (parsed "M618 S132 T2 P70000") (parsed "M619 S132 T2") example_printer)
    as (p' & E1 & _ & E2 & _).
  - exact example_printer_ok.
  - vm_compute. intuition congruence.
  - vm_compute. intuition congruence.
  - vm_compute. reflexivity.
  - vm_compute. reflexivity.
  - vm_compute. reflexivity.
  - vm_compute. reflexivity.
  - vm_compute. reflexivity.
  - vm_compute. reflexivity.
  - vm_compute. intuition congruence.
  - exists p'. split; [exact E1|exact E2].
Defined.

(** The last command left 70000 in the request. *)
Definition without_value : Gcode :=
  match parseCommand (str "M618 S132 T2") (parsed "M618 S132 T2 P70000") with Some g => g | None => empty_command end.

Lemma value_not_required_witness : exists p',
  access_setting without_value example_printer = Some (p', ok_line ++ str "PT:132") /\
  ee_read (settings_of p') (132, 2) = Some [112; 17].
Proof.
  destruct (value_not_required (drop 768 example_settings) without_value example_printer) as (p' & E1 & E2).
  - exact example_printer_ok.
  - vm_compute. intuition congruence.
  - vm_compute. reflexivity.
  - vm_compute. reflexivity.
  - vm_compute. reflexivity.
  - vm_compute. intuition congruence.
  - exists p'. split; [exact E1|exact E2].
Defined.
