(* ===== verification/HostGcode.v ===== *)
(** * G-code in the desktop program (M33 Manager/gcode.cpp, gcode.h)

    M33 Manager keeps a command as texts of its parameters: [parseLine] reads a line,
    [getAscii] writes what the iMe firmware parses, [getBinary] writes the binary form
    with a Fletcher checksum that the manufacturer's firmware reads, and [parseBinary]
    reads that form back. A character is its unsigned code. An operation returns, throws
    an exception of the standard library, or hangs: eight-bit loop counters wrap. *)

From Stdlib Require Import String.
From S2P Require Import Prelude Float32 Common.
From S2P Require Gcode.

(** ** Outcomes *)

Inductive exception := invalid_argument | out_of_range.
Inductive outcome (A : Type) := Done (a : A) | Throw (e : exception) | Hang.
Arguments Done {A} a.
Arguments Throw {A} e.
Arguments Hang {A}.

#[export] Instance outcome_ret : MRet outcome := fun A a => Done a.
#[export] Instance outcome_bind : MBind outcome :=
  fun A B k m => match m with Done a => k a | Throw e => Throw e | Hang => Hang end.

(** ** The standard library

    [text] is [std::string]. What the C standard leaves to the implementation is a
    parameter: whether a result too small for a normal number is reported as a range
    error, and the payload of a not-a-number with a character sequence. *)
Abbreviation text := (list Z).

Class CLibrary := {
  reports_underflow : forall m p : Z, bool;
  nan_payload : text -> Z
}.

Definition isspace (c : Z) : bool := (c =? 32) || ((9 <=? c) && (c <=? 13)).
Definition isupper (c : Z) : bool := (65 <=? c) && (c <=? 90).
Definition tolower (c : Z) : Z := if isupper c then c + 32 else c.

(** [to_string(int)]. *)
Definition to_string_int (z : Z) : text := if z <? 0 then 45 :: digits (- z) else digits z.

(** The sign that [strtol] and [strtof] accept, after white space. *)
Definition read_sign (s : text) : bool * text :=
  let s := drop (count_while isspace s) s in
  if deref s =? 45 then (true, drop 1 s) else if deref s =? 43 then (false, drop 1 s) else (false, s).

(** [stoi]: the digits after white space and a sign; what follows them is ignored. *)
Definition stoi (s : text) : outcome Z :=
  let '(negative, s) := read_sign s in
  let n := count_while isdigit s in
  if (n =? 0)%nat then Throw invalid_argument
  else let v := dec_value (take n s) in
       let v := if negative then - v else v in
       if (-2147483648 <=? v) && (v <=? 2147483647) then Done v else Throw out_of_range.

Definition hex_digit (c : Z) : option Z :=
  let c := tolower c in
  if isdigit c then Some (c - 48) else if (97 <=? c) && (c <=? 102) then Some (c - 87) else None.
Definition is_hex (c : Z) : bool := match hex_digit c with Some _ => true | None => false end.
Definition hex_value (s : text) : Z := fold_left (fun v c => v * 16 + default 0 (hex_digit c)) s 0.

(** An exponent: the letter, a sign and at least one digit; otherwise none. *)
Definition read_exponent (letter : Z) (s : text) : Z :=
  if tolower (deref s) =? letter then
    let s := drop 1 s in
    let '(negative, s) := if deref s =? 45 then (true, drop 1 s)
                          else if deref s =? 43 then (false, drop 1 s) else (false, s) in
    let v := dec_value (take (count_while isdigit s) s) in if negative then - v else v
  else 0.

(** A mantissa with an optional point: its digits as an integer, how many of them are
    behind the point, and what follows; [None] without a digit. *)
Definition read_mantissa (digit : Z -> bool) (s : text) : option (text * nat * text) :=
  let n := count_while digit s in
  let whole := take n s in
  let s := drop n s in
  let '(fraction, s) :=
    if deref s =? 46 then let k := count_while digit (drop 1 s) in (take k (drop 1 s), drop (S k) s)
    else ([], s) in
  if (length whole + length fraction =? 0)%nat then None else Some (whole ++ fraction, length fraction, s).

(** [m * b ^ e] as a ratio of integers, correctly rounded, as the bits of a float. *)
Definition f_of_ratio (m p q : Z) : f32 :=
  match m * p, q with
  | Z.pos n, Z.pos d => SFdiv 24 128 (S754_finite false n 0) (S754_finite false d 0)
  | _, _ => S754_zero false
  end.
Definition scaled `{CLibrary} (m b e : Z) : outcome f32 :=
  let f := f_of_ratio m (if 0 <=? e then b ^ e else 1) (if 0 <=? e then 1 else b ^ (- e)) in
  match f with
  | S754_infinity _ => Throw out_of_range
  | S754_finite _ n _ => if (Z.pos n <? 8388608) && reports_underflow m e then Throw out_of_range else Done f
  | _ => if (0 <? m) && reports_underflow m e then Throw out_of_range else Done f
  end.

(** Whether a text starts with a word in either case. *)
Definition starts_with (w s : text) : bool := bool_decide (map tolower (take (length w) s) = w).

(** The magnitude of the number that [strtof] reads, as bits. *)
Definition read_magnitude `{CLibrary} (s : text) : outcome Z :=
  if starts_with (str "inf") s then Done 2139095040
  else if starts_with (str "nan") s then
    let s := drop 3 s in
    let n := count_while (fun c => isdigit c || isupper c || ((97 <=? c) && (c <=? 122)) || (c =? 95)) (drop 1 s) in
    Done (if (deref s =? 40) && (deref (drop (S n) s) =? 41)
          then 2143289344 + nan_payload (take n (drop 1 s)) mod 4194304 else 2143289344)
  else match (if starts_with (str "0x") s then read_mantissa is_hex (drop 2 s) else None) with
  | Some (ds, k, s) => f ← scaled (hex_value ds) 2 (read_exponent 112 s - 4 * Z.of_nat k); Done (f_to_bits f)
  | None =>
      match read_mantissa isdigit s with
      | Some (ds, k, s) => f ← scaled (dec_value ds) 10 (read_exponent 101 s - Z.of_nat k); Done (f_to_bits f)
      | None => Throw invalid_argument
      end
  end.

(** [stof], as the bits of its result. *)
Definition stof `{CLibrary} (s : text) : outcome Z :=
  let '(negative, s) := read_sign s in
  b ← read_magnitude s;
  Done (if negative then 2147483648 + b else b).

(** The integer nearest to [m * 2 ^ e], ties to even. *)
Definition nearest (m e : Z) : Z :=
  if 0 <=? e then m * 2 ^ e
  else let q := m / 2 ^ (- e) in
       match 2 * (m mod 2 ^ (- e)) ?= 2 ^ (- e) with
       | Lt => q
       | Gt => q + 1
       | Eq => if Z.even q then q else q + 1
       end.

(** [to_string(float)] of the float with given bits: the format "%f". *)
Definition to_string_float (b : Z) : text :=
  let sign := if Z.testbit b 31 then [45] else [] in
  match f_of_bits b with
  | S754_nan => sign ++ str "nan"
  | S754_infinity _ => sign ++ str "inf"
  | S754_zero _ => sign ++ str "0.000000"
  | S754_finite _ m e =>
      let n := nearest (Z.pos m * 1000000) e in
      let fraction := digits (n mod 1000000) in
      sign ++ digits_loop 40 (n / 1000000) [] ++ [46] ++ repeat 48 (6 - length fraction) ++ fraction
  end.

(** ** Data *)

Definition INVALID : Z := 255.
Definition ORDER : text := str "NMGXYZE FTSP    IJRD".
Definition ORDER_LENGTH : nat := length ORDER.

(** The offsets of D to Z; every other character is [INVALID]. *)
Definition orderToOffset : list Z :=
  repeat INVALID 68 ++
  [19; 6; 8; 2; INVALID; 16; 17; INVALID; INVALID; 1; 0; INVALID;
   11; INVALID; 18; 10; 9; INVALID; INVALID; INVALID; 3; 4; 5] ++
  repeat INVALID 165.

Definition offset_of (c : Z) : Z := nth (Z.to_nat c) orderToOffset INVALID.

Record Gcode := mkGcode {
  originalCommand : text;
  parameterValue : list text;
  dataType : Z;
  hostCommand : text
}.

Definition no_values : list text := repeat [] ORDER_LENGTH.

(** The constructor without arguments, and [clear]. *)
Definition new_Gcode : Gcode := mkGcode [] no_values 4224 [].
Definition clear (g : Gcode) : Gcode := mkGcode [] no_values 4224 [].

(** [parameterValue[k]]. *)
Definition value (vs : list text) (k : nat) : text := nth k vs [].
Definition empty (s : text) : bool := match s with [] => true | _ => false end.

(** ** Reading a line *)

(** The M commands with a text instead of parameters. *)
Definition takes_string (v : text) : bool :=
  existsb (fun w => bool_decide (v = w)) [str "23"; str "28"; str "29"; str "30"; str "32"; str "117"].

(** [for(; i < command.length(); i++) currentValue.push_back(command[i])]; the index has
    eight bits. *)
Fixpoint rest_loop (fuel : nat) (command : text) (i : Z) (currentValue : text) : option text :=
  match fuel with
  | O => None
  | S fuel =>
      if i <? len command then rest_loop fuel command (u8 (i + 1)) (currentValue ++ [nth (Z.to_nat i) command 0])
      else Some currentValue
  end.

(** [find_first_not_of(" \t\n\r")] and [substr]. *)
Definition trim_left (s : text) : text :=
  let n := count_while (fun c => (c =? 32) || (c =? 9) || (c =? 10) || (c =? 13)) s in
  if (n =? length s)%nat then s else drop n s.

(** The loop over the characters with an eight-bit index; [None] is a loop that does not
    end within the fuel. *)
Fixpoint parse_loop (fuel : nat) (command : text) (i : Z) (dataType : Z) (vs : list text)
    (currentValue : text) (parameterIdentifier : Z) : option (Z * list text) :=
  match fuel with
  | O => None
  | S fuel =>
      if i <=? len command then
        let c := nth (Z.to_nat i) command 0 in
        if (i =? 0) || isupper c || (c =? 32) || (c =? 0) then
          let parameterOffset := offset_of parameterIdentifier in
          let '(dataType, vs) :=
            if negb (i =? 0) && negb (parameterOffset =? INVALID)
            then (Z.lor dataType (Z.shiftl 1 parameterOffset), <[Z.to_nat parameterOffset := currentValue]> vs)
            else (dataType, vs) in
          if (parameterIdentifier =? 77) && takes_string (value vs 1) then
            rest ← rest_loop 257 command i [];
            let rest := trim_left rest in
            Some (if empty rest then dataType else Z.lor dataType (Z.shiftl 1 15), <[15%nat := rest]> vs)
          else parse_loop fuel command (u8 (i + 1)) dataType vs [] c
        else if negb (isspace c) then
          parse_loop fuel command (u8 (i + 1)) dataType vs (currentValue ++ [c]) parameterIdentifier
        else parse_loop fuel command (u8 (i + 1)) dataType vs currentValue parameterIdentifier
      else Some (dataType, vs)
  end.

(** What is left of a line without white space around it, comment and checksum. *)
Definition stripped (line : text) : text :=
  let s := drop (count_while isspace line) line in
  let s := take (count_while (fun c => negb ((c =? 59) || (c =? 42))) s) s in
  take (length s - count_while isspace (rev s)) s.

Definition parseLine (fuel : nat) (line : text) (g : Gcode) : option (Gcode * bool) :=
  let command := stripped line in
  if empty command then Some (mkGcode [] no_values 4224 [], false)
  else if deref command =? 64 then Some (mkGcode command no_values 4224 command, true)
  else
    '(dataType, vs) ← parse_loop fuel command 0 4224 no_values [] 0;
    Some (mkGcode command vs dataType [], negb (dataType =? 4224)).

(** ** The binary form *)

Definition bytes16 (n : Z) : list Z := [Z.land n 255; Z.land (Z.shiftr n 8) 255].
Definition bytes32 (n : Z) : list Z :=
  [Z.land n 255; Z.land (Z.shiftr n 8) 255; Z.land (Z.shiftr n 16) 255; Z.land (Z.shiftr n 24) 255].

Definition pushBackInt8 (request : list Z) (v : text) : outcome (list Z) :=
  n ← stoi v; Done (request ++ [Z.land n 255]).
Definition pushBackInt16 (request : list Z) (v : text) : outcome (list Z) :=
  n ← stoi v; Done (request ++ bytes16 n).
Definition pushBackInt32 (request : list Z) (v : text) : outcome (list Z) :=
  n ← stoi v; Done (request ++ bytes32 n).
Definition pushBackFloat `{CLibrary} (request : list Z) (v : text) : outcome (list Z) :=
  b ← stof v; Done (request ++ bytes32 b).

(** [for(uint8_t i = 0; i < s.length(); i++) request.push_back(s[i])]. *)
Fixpoint append_loop (fuel : nat) (s : text) (i : Z) (request : list Z) : outcome (list Z) :=
  match fuel with
  | O => Hang
  | S fuel =>
      if i <? len s then append_loop fuel s (u8 (i + 1)) (request ++ [nth (Z.to_nat i) s 0]) else Done request
  end.

(** The Fletcher checksum, with an eight-bit index as well. *)
Fixpoint fletcher_loop (fuel : nat) (request : list Z) (index sum1 sum2 : Z) : outcome (Z * Z) :=
  match fuel with
  | O => Hang
  | S fuel =>
      if index <? len request then
        let sum1 := (sum1 + nth (Z.to_nat index) request 0) mod 255 in
        fletcher_loop fuel request (u8 (index + 1)) sum1 ((sum1 + sum2) mod 255)
      else Done (sum1, sum2)
  end.

(** An eight-bit index reaches every length below 256 in so many iterations. *)
Definition BYTE_FUEL : nat := 257.

(** [if(!parameterValue[k].empty()) push(request, parameterValue[k])]. *)
Definition push_value (push : list Z -> text -> outcome (list Z)) (vs : list text) (k : nat) (request : list Z) :
    outcome (list Z) :=
  if empty (value vs k) then Done request else push request (value vs k).

Definition getBinary `{CLibrary} (g : Gcode) : outcome (list Z) :=
  if negb (empty (hostCommand g)) then append_loop BYTE_FUEL (hostCommand g) 0 []
  else
    let vs := parameterValue g in
    let request := bytes32 (dataType g) in
    let request := if empty (value vs 15) then request else request ++ [u8 (len (value vs 15))] in
    request ← push_value pushBackInt16 vs 0 request;
    request ← push_value pushBackInt16 vs 1 request;
    request ← push_value pushBackInt16 vs 2 request;
    request ← push_value pushBackFloat vs 3 request;
    request ← push_value pushBackFloat vs 4 request;
    request ← push_value pushBackFloat vs 5 request;
    request ← push_value pushBackFloat vs 6 request;
    request ← push_value pushBackFloat vs 8 request;
    request ← push_value pushBackInt8 vs 9 request;
    request ← push_value pushBackInt32 vs 10 request;
    request ← push_value pushBackInt32 vs 11 request;
    request ← push_value pushBackFloat vs 16 request;
    request ← push_value pushBackFloat vs 17 request;
    request ← push_value pushBackFloat vs 18 request;
    request ← push_value pushBackFloat vs 19 request;
    request ← if empty (value vs 15) then Done request else append_loop BYTE_FUEL (value vs 15) 0 request;
    '(sum1, sum2) ← fletcher_loop BYTE_FUEL request 0 0 0;
    Done (request ++ [u8 sum1; u8 sum2]).

(** ** The text form *)

(** One iteration of the loop over the value indices. *)
Definition ascii_step (g : Gcode) (i : nat) : text :=
  if existsb (Nat.eqb i) [7; 12; 13; 14; 15]%nat then []
  else if Z.testbit (dataType g) (Z.of_nat i) then
    nth i ORDER 0 :: value (parameterValue g) i ++ [32] ++
    (if (i =? 1)%nat && Z.testbit (dataType g) 15 then value (parameterValue g) 15 ++ [32] else [])
  else [].

Definition getAscii (g : Gcode) : text :=
  if negb (empty (hostCommand g)) then hostCommand g
  else removelast (concat (map (ascii_step g) (seq 0 ORDER_LENGTH))).

(** ** Reading the binary form

    [line] is the buffer; a read behind its end is undefined. *)

Definition read16 (line : list Z) (index : Z) : option Z :=
  a ← load line index; b ← load line (index + 1);
  Some (Z.land a 255 + Z.shiftl (Z.land b 255) 8).
Definition read32 (line : list Z) (index : Z) : option Z :=
  a ← load line index; b ← load line (index + 1); c ← load line (index + 2); d ← load line (index + 3);
  Some (Z.land a 255 + Z.shiftl (Z.land b 255) 8 + Z.shiftl (Z.land c 255) 16 + Z.shiftl (Z.land d 255) 24).

(** The readers: the text of the value at an index and the next index. *)
Definition intToFloat (line : list Z) (index : Z) : option (text * Z) :=
  b ← read32 line index; Some (to_string_float (u32 b), u8 (index + 4)).
Definition readInt8 (line : list Z) (index : Z) : option (text * Z) :=
  a ← load line index; Some (to_string_int (Z.land a 255), u8 (index + 1)).
Definition readInt16 (line : list Z) (index : Z) : option (text * Z) :=
  n ← read16 line index; Some (to_string_int n, u8 (index + 2)).
Definition readInt32 (line : list Z) (index : Z) : option (text * Z) :=
  n ← read32 line index; Some (to_string_int (s32 n), u8 (index + 4)).

(** [if(dataType & (1 << k)) parameterValue[k] = read(line, index)]. *)
Definition read_value (read : list Z -> Z -> option (text * Z)) (line : list Z) (dataType : Z) (k : nat)
    (st : list text * Z) : option (list text * Z) :=
  if Z.testbit dataType (Z.of_nat k) then
    '(v, index) ← read line (snd st); Some (<[k := v]> (fst st), index)
  else Some st.

(** The characters of the string parameter. *)
Fixpoint read_string (n : nat) (line : list Z) (index : Z) : option text :=
  match n with
  | O => Some []
  | S n => c ← load line index; s ← read_string n line (index + 1); Some (c :: s)
  end.

Definition parseBinary (line : list Z) (g : Gcode) : option (Gcode * bool) :=
  d ← read32 line 0;
  let d := u32 d in
  if (d =? 0) || (d =? 4224) then Some (mkGcode (originalCommand g) (parameterValue g) d (hostCommand g), false)
  else
    st ← read_value readInt16 line d 0 (no_values, if Z.testbit d 15 then 5 else 4);
    st ← read_value readInt16 line d 1 st;
    st ← read_value readInt16 line d 2 st;
    st ← read_value intToFloat line d 3 st;
    st ← read_value intToFloat line d 4 st;
    st ← read_value intToFloat line d 5 st;
    st ← read_value intToFloat line d 6 st;
    st ← read_value intToFloat line d 8 st;
    st ← read_value readInt8 line d 9 st;
    st ← read_value readInt32 line d 10 st;
    st ← read_value readInt32 line d 11 st;
    st ← read_value intToFloat line d 16 st;
    st ← read_value intToFloat line d 17 st;
    st ← read_value intToFloat line d 18 st;
    st ← read_value intToFloat line d 19 st;
    vs ← (if Z.testbit d 15 then
            n ← load line 4;
            s ← read_string (Z.to_nat (Z.land n 255)) line (snd st);
            Some (<[15%nat := s]> (fst st))
          else Some (fst st));
    let g := mkGcode (originalCommand g) vs d [] in
    Some (mkGcode (getAscii g) vs d [], true).

(** ** Access to the parameters *)

Definition hasParameter (parameter : Z) (g : Gcode) : bool :=
  let parameterOffset := offset_of parameter in
  if parameterOffset =? INVALID then false else Z.testbit (dataType g) parameterOffset.

Definition removeParameter (parameter : Z) (g : Gcode) : Gcode :=
  let parameterOffset := offset_of parameter in
  if parameterOffset =? INVALID then g
  else
    let d := Z.ldiff (dataType g) (Z.shiftl 1 parameterOffset) in
    mkGcode (if d =? 4224 then [] else originalCommand g)
      (<[Z.to_nat parameterOffset := []]> (parameterValue g)) d (hostCommand g).

Definition hasValue (parameter : Z) (g : Gcode) : bool :=
  let parameterOffset := offset_of parameter in
  if parameterOffset =? INVALID then false
  else negb (empty (value (parameterValue g) (Z.to_nat parameterOffset))).

Definition getValue (parameter : Z) (g : Gcode) : text :=
  let parameterOffset := offset_of parameter in
  if parameterOffset =? INVALID then [] else value (parameterValue g) (Z.to_nat parameterOffset).

Definition setValue (parameter : Z) (v : text) (g : Gcode) : Gcode :=
  let parameterOffset := offset_of parameter in
  if parameterOffset =? INVALID then g
  else mkGcode (originalCommand g) (<[Z.to_nat parameterOffset := v]> (parameterValue g))
         (Z.lor (dataType g) (Z.shiftl 1 parameterOffset)) (hostCommand g).

Definition hasString (g : Gcode) : bool := Z.testbit (dataType g) 15.
Definition getString (g : Gcode) : text := value (parameterValue g) 15.
Definition setString (v : text) (g : Gcode) : Gcode :=
  mkGcode (originalCommand g) (<[15%nat := v]> (parameterValue g)) (Z.lor (dataType g) (Z.shiftl 1 15)) (hostCommand g).

Definition isHostCommand (g : Gcode) : bool := negb (empty (hostCommand g)).
Definition isEmpty (g : Gcode) : bool := dataType g =? 4224.

(** What [operator<<] writes. *)
Definition output (g : Gcode) : text := if isEmpty g then originalCommand g else getAscii g.

(** ** Outcomes and loops with an eight-bit index *)

Lemma outcome_bind_inv {A B} (m : outcome A) (k : A -> outcome B) b :
  (a ← m; k a) = Done b -> exists a, m = Done a /\ k a = Done b.
Proof. destruct m; cbn; [eauto|discriminate|discriminate]. Qed.

Lemma append_loop_spec fuel pre s request :
  len pre + len s < 256 -> (length s < fuel)%nat ->
  append_loop fuel (pre ++ s) (len pre) request = Done (request ++ s).
Proof.
  revert pre s request. induction fuel as [|fuel IH]; intros pre s request Hl Hf; [lia|].
  cbn [append_loop]. destruct s as [|c t].
  - rewrite (proj2 (Z.ltb_ge _ _)) by (rewrite app_nil_r; lia). rewrite app_nil_r. reflexivity.
  - rewrite (proj2 (Z.ltb_lt _ _)) by (rewrite length_app; cbn; lia).
    cbn [length] in *. rewrite Nat2Z.id, app_nth2, Nat.sub_diag, u8_id by lia. cbn [nth].
    replace (pre ++ c :: t) with ((pre ++ [c]) ++ t) by (rewrite <- app_assoc; reflexivity).
    replace (len pre + 1) with (len (pre ++ [c])) by (rewrite length_app; cbn; lia).
    rewrite IH by (rewrite ?length_app; cbn; lia). rewrite <- app_assoc. reflexivity.
Qed.

Lemma append_all s request : len s < 256 -> append_loop BYTE_FUEL s 0 request = Done (request ++ s).
Proof. intros H. apply (append_loop_spec BYTE_FUEL [] s request); unfold BYTE_FUEL; cbn; lia. Qed.

Lemma append_loop_hangs fuel s i request : 256 <= len s -> 0 <= i < 256 -> append_loop fuel s i request = Hang.
Proof.
  intros Hs. revert i request. induction fuel as [|fuel IH]; intros i request Hi; [reflexivity|].
  cbn [append_loop]. rewrite (proj2 (Z.ltb_lt _ _)) by lia. apply IH, u8_range.
Qed.

(** The sums of the checksum after some more bytes. *)
Definition fletcher (s : list Z) (sums : Z * Z) : Z * Z :=
  fold_left (fun '(a, b) x => let a := (a + x) mod 255 in (a, (a + b) mod 255)) s sums.

Lemma fletcher_loop_spec fuel pre s a b :
  len pre + len s < 256 -> (length s < fuel)%nat ->
  fletcher_loop fuel (pre ++ s) (len pre) a b = Done (fletcher s (a, b)).
Proof.
  revert pre s a b. induction fuel as [|fuel IH]; intros pre s a b Hl Hf; [lia|].
  cbn [fletcher_loop]. destruct s as [|c t].
  - rewrite (proj2 (Z.ltb_ge _ _)) by (rewrite app_nil_r; lia). reflexivity.
  - rewrite (proj2 (Z.ltb_lt _ _)) by (rewrite length_app; cbn; lia).
    cbn [length] in *. rewrite Nat2Z.id, app_nth2, Nat.sub_diag, u8_id by lia. cbn [nth].
    replace (pre ++ c :: t) with ((pre ++ [c]) ++ t) by (rewrite <- app_assoc; reflexivity).
    replace (len pre + 1) with (len (pre ++ [c])) by (rewrite length_app; cbn; lia).
    rewrite IH by (rewrite ?length_app; cbn; lia). reflexivity.
Qed.

Lemma fletcher_all s : len s < 256 -> fletcher_loop BYTE_FUEL s 0 0 0 = Done (fletcher s (0, 0)).
Proof. intros H. apply (fletcher_loop_spec BYTE_FUEL [] s); unfold BYTE_FUEL; cbn; lia. Qed.

Lemma fletcher_loop_hangs fuel s i a b : 256 <= len s -> 0 <= i < 256 -> fletcher_loop fuel s i a b = Hang.
Proof.
  intros Hs. revert i a b. induction fuel as [|fuel IH]; intros i a b Hi; [reflexivity|].
  cbn [fletcher_loop]. rewrite (proj2 (Z.ltb_lt _ _)) by lia. apply IH, u8_range.
Qed.

(** Two runs of the checksum over the same bytes: a difference of the first sums stays,
    and with equal first sums a difference of the second sums stays. *)
Definition residue (x : Z) : Prop := 0 <= x < 255.

Lemma fletcher_step_residue a b x : residue ((a + x) mod 255) /\ residue (((a + x) mod 255 + b) mod 255).
Proof. split; apply Z.mod_pos_bound; lia. Qed.

Lemma add_mod_inj a a' x : residue a -> residue a' -> (a + x) mod 255 = (a' + x) mod 255 -> a = a'.
Proof. unfold residue. intros Ha Ha' E. lia_mod. Qed.

Lemma fletcher_app s t sums : fletcher (s ++ t) sums = fletcher t (fletcher s sums).
Proof. apply fold_left_app. Qed.

Lemma fletcher_residue s a b : residue a -> residue b ->
  residue (fst (fletcher s (a, b))) /\ residue (snd (fletcher s (a, b))).
Proof.
  revert a b. induction s as [|x s IH]; intros a b Ha Hb; [auto|].
  cbn. apply IH; [apply (fletcher_step_residue a b x)|apply (fletcher_step_residue a b x)].
Qed.

Lemma fletcher_first s a b a' b' : residue a -> residue a' -> a <> a' ->
  fst (fletcher s (a, b)) <> fst (fletcher s (a', b')).
Proof.
  revert a b a' b'. induction s as [|x s IH]; intros a b a' b' Ha Ha' N; [exact N|].
  cbn. apply IH; [apply (fletcher_step_residue a b x)|apply (fletcher_step_residue a' b x)|].
  intros E. apply N. exact (add_mod_inj _ _ _ Ha Ha' E).
Qed.

Lemma fletcher_second s a b b' : residue b -> residue b' -> b <> b' ->
  snd (fletcher s (a, b)) <> snd (fletcher s (a, b')).
Proof.
  revert a b b'. induction s as [|x s IH]; intros a b b' Hb Hb' N; [exact N|].
  cbn. apply IH; [apply (fletcher_step_residue a b x)|apply (fletcher_step_residue a b' x)|].
  intros E. apply N. rewrite !(Z.add_comm ((a + x) mod 255)) in E. exact (add_mod_inj _ _ _ Hb Hb' E).
Qed.

Lemma fletcher_cons x s a b : fletcher (x :: s) (a, b) = fletcher s ((a + x) mod 255, ((a + x) mod 255 + b) mod 255).
Proof. reflexivity. Qed.

Lemma fletcher_start pre : exists a b, fletcher pre (0, 0) = (a, b) /\ residue a /\ residue b.
Proof.
  destruct (fletcher_residue pre 0 0) as [Ra Rb]; [unfold residue; lia|unfold residue; lia|].
  destruct (fletcher pre (0, 0)) as [a b]. eauto.
Qed.

Lemma fletcher_change pre x y post : (x - y) mod 255 <> 0 ->
  fletcher (pre ++ x :: post) (0, 0) <> fletcher (pre ++ y :: post) (0, 0).
Proof.
  intros N E. rewrite !fletcher_app in E. destruct (fletcher_start pre) as (a & b & E0 & Ra & Rb).
  rewrite E0, !fletcher_cons in E. apply (f_equal fst) in E. revert E.
  apply fletcher_first; [apply (fletcher_step_residue a b)|apply (fletcher_step_residue a b)|].
  intros F. apply N. rewrite Z.cong_iff_0 in F. replace (x - y) with (a + x - (a + y)) by lia. exact F.
Qed.

Lemma fletcher_swap pre x y post : (x - y) mod 255 <> 0 ->
  fletcher (pre ++ x :: y :: post) (0, 0) <> fletcher (pre ++ y :: x :: post) (0, 0).
Proof.
  intros N E. rewrite !fletcher_app in E. destruct (fletcher_start pre) as (a & b & E0 & Ra & Rb).
  rewrite E0, !fletcher_cons in E. apply (f_equal snd) in E. revert E.
  replace (((a + y) mod 255 + x) mod 255) with (((a + x) mod 255 + y) mod 255) by lia_mod.
  apply fletcher_second; [apply Z.mod_pos_bound; lia|apply Z.mod_pos_bound; lia|].
  intros F. apply N. lia_mod.
Qed.

(** ** The binary form as a sequence of fields *)

Inductive kind := Int8 | Int16 | Int32 | Float.

(** The fields in the order of the binary form. *)
Definition fields : list (nat * kind) :=
  [(0, Int16); (1, Int16); (2, Int16); (3, Float); (4, Float); (5, Float); (6, Float); (8, Float);
   (9, Int8); (10, Int32); (11, Int32); (16, Float); (17, Float); (18, Float); (19, Float)]%nat.

Section Fields.
Context `{CLibrary}.

Definition pusher (t : kind) : list Z -> text -> outcome (list Z) :=
  match t with Int8 => pushBackInt8 | Int16 => pushBackInt16 | Int32 => pushBackInt32 | Float => pushBackFloat end.
Definition reader (t : kind) : list Z -> Z -> option (text * Z) :=
  match t with Int8 => readInt8 | Int16 => readInt16 | Int32 => readInt32 | Float => intToFloat end.

(** The text that a value has after the binary form. *)
Definition normal (t : kind) (v : text) : text :=
  match t with
  | Float => match stof v with Done b => to_string_float (u32 b) | _ => [] end
  | _ => match stoi v with
         | Done n => to_string_int (match t with Int8 => u8 n | Int16 => u16 n | _ => n end)
         | _ => []
         end
  end.

Lemma land_byte n : Z.land n 255 = u8 n.
Proof. apply (Z.land_ones n 8). lia. Qed.

Lemma byte_of_shift n k : 0 <= k -> Z.land (Z.shiftr n k) 255 = (n / 2 ^ k) mod 256.
Proof. intros Hk. rewrite land_byte, Z.shiftr_div_pow2 by lia. reflexivity. Qed.

Lemma load_behind pre (s : list Z) k : 0 <= k -> load (pre ++ s) (len pre + k) = load s k.
Proof.
  unfold load. intros Hk. rewrite !(proj2 (Z.leb_le _ _)) by lia. rewrite lookup_app_r by lia. f_equal. lia.
Qed.
Lemma load_here pre (s : list Z) : load (pre ++ s) (len pre) = load s 0.
Proof. rewrite <- (load_behind pre s 0), Z.add_0_r by lia. reflexivity. Qed.

(** Numbers of two and four bytes are read back from any place. *)
Lemma read16_bytes pre n rest : read16 (pre ++ bytes16 n ++ rest) (len pre) = Some (u16 n).
Proof.
  unfold read16. rewrite load_here, load_behind by lia.
  change (Some (Z.land (Z.land n 255) 255 + Z.shiftl (Z.land (Z.land (Z.shiftr n 8) 255) 255) 8) = Some (u16 n)). f_equal.
  rewrite !land_byte, !Z.shiftr_div_pow2, Z.shiftl_mul_pow2, !(u8_id (u8 _)) by (lia || apply u8_range).
  unfold u8, u16. lia_mod.
Qed.

Lemma read32_bytes pre n rest : read32 (pre ++ bytes32 n ++ rest) (len pre) = Some (u32 n).
Proof.
  unfold read32. rewrite load_here, !load_behind by lia.
  change (Some (Z.land (Z.land n 255) 255 + Z.shiftl (Z.land (Z.land (Z.shiftr n 8) 255) 255) 8
    + Z.shiftl (Z.land (Z.land (Z.shiftr n 16) 255) 255) 16
    + Z.shiftl (Z.land (Z.land (Z.shiftr n 24) 255) 255) 24) = Some (u32 n)). f_equal.
  rewrite !land_byte, !Z.shiftr_div_pow2, !Z.shiftl_mul_pow2, !(u8_id (u8 _)) by (lia || apply u8_range).
  unfold u8, u32. change (2 ^ 8) with 256. change (2 ^ 16) with 65536. change (2 ^ 24) with 16777216. lia_mod.
Qed.

Lemma stoi_range v n : stoi v = Done n -> -2147483648 <= n <= 2147483647.
Proof. unfold stoi. destruct (read_sign v) as [neg s]. repeat case_bool; intros [= <-]; bool_hyps; lia. Qed.

Lemma s32_u32 n : -2147483648 <= n <= 2147483647 -> s32 (u32 n) = n.
Proof. unfold s32, u32. intros Hn. lia_mod. Qed.

(** What is pushed is read back. *)
Lemma push_field t request v request' rest :
  pusher t request v = Done request' -> len request' < 256 ->
  (exists bs, request' = request ++ bs) /\ reader t (request' ++ rest) (len request) = Some (normal t v, len request').
Proof.
  intros E Hl. unfold normal. destruct t; cbn [pusher reader] in *; apply outcome_bind_inv in E as (n & Hn & [= <-]); rewrite Hn;
    (split; [eexists; reflexivity|]); rewrite <- app_assoc; rewrite length_app in Hl |- *; cbn [length bytes16 bytes32] in *.
  - unfold readInt8. rewrite load_here. change (load _ 0) with (Some (Z.land n 255)). bind_some.
    rewrite !land_byte, (u8_id (u8 _)), (u8_id (len request + 1)) by (apply u8_range || lia). do 2 f_equal. lia.
  - unfold readInt16. rewrite read16_bytes. bind_some. rewrite u8_id by lia. do 2 f_equal. lia.
  - unfold readInt32. rewrite read32_bytes. bind_some. rewrite u8_id, s32_u32 by (lia || exact (stoi_range _ _ Hn)). do 2 f_equal. lia.
  - unfold intToFloat. rewrite read32_bytes. bind_some. rewrite u32_id, u8_id by (apply u32_range || lia). do 2 f_equal. lia.
Qed.

(** The two operations as loops over the fields. *)
Fixpoint push_then (vs : list text) (fs : list (nat * kind)) (request : list Z) (K : list Z -> outcome (list Z)) :
    outcome (list Z) :=
  match fs with
  | [] => K request
  | (k, t) :: fs => request ← push_value (pusher t) vs k request; push_then vs fs request K
  end.

Fixpoint read_then {B} (line : list Z) (d : Z) (fs : list (nat * kind)) (st : list text * Z)
    (K : list text * Z -> option B) : option B :=
  match fs with
  | [] => K st
  | (k, t) :: fs => st ← read_value (reader t) line d k st; read_then line d fs st K
  end.

Lemma getBinary_fields g : hostCommand g = [] ->
  let s := value (parameterValue g) 15 in
  getBinary g =
  push_then (parameterValue g) fields (if empty s then bytes32 (dataType g) else bytes32 (dataType g) ++ [u8 (len s)])
    (fun request =>
       request ← if empty s then Done request else append_loop BYTE_FUEL s 0 request;
       '(sum1, sum2) ← fletcher_loop BYTE_FUEL request 0 0 0;
       Done (request ++ [u8 sum1; u8 sum2])).
Proof. intros H0. unfold getBinary. rewrite H0. reflexivity. Qed.

(** The fields that were pushed between two requests. *)
Fixpoint pushed (vs : list text) (fs : list (nat * kind)) (request request' : list Z) : Prop :=
  match fs with
  | [] => request' = request
  | (k, t) :: fs => exists r, push_value (pusher t) vs k request = Done r /\ pushed vs fs r request'
  end.

Lemma push_then_inv vs fs request K b : push_then vs fs request K = Done b ->
  exists request', pushed vs fs request request' /\ K request' = Done b.
Proof.
  revert request. induction fs as [|[k t] fs IH]; intros request E; cbn in *; [eauto|].
  apply outcome_bind_inv in E as (r & Er & E). destruct (IH _ E) as (r' & P & EK). eauto.
Qed.

Lemma push_value_extends t vs k request r : push_value (pusher t) vs k request = Done r -> exists bs, r = request ++ bs.
Proof.
  unfold push_value. case_bool; [intros [= <-]; exists []; rewrite app_nil_r; reflexivity|].
  destruct t; cbn [pusher]; intros E; apply outcome_bind_inv in E as (n & _ & [= <-]); eauto.
Qed.

Lemma pushed_extends vs fs request request' : pushed vs fs request request' -> exists bs, request' = request ++ bs.
Proof.
  revert request. induction fs as [|[k t] fs IH]; intros request P; cbn in P.
  - exists []. rewrite app_nil_r. exact P.
  - destruct P as (r & E & P). apply push_value_extends in E as (a & ->). apply IH in P as (b & ->).
    exists (a ++ b). symmetry. apply app_assoc.
Qed.

(** The values after the binary form. *)
Definition fill (vs : list text) (fs : list (nat * kind)) (vs0 : list text) : list text :=
  fold_left (fun acc '(k, t) => if empty (value vs k) then acc else <[k := normal t (value vs k)]> acc) fs vs0.

Lemma read_then_pushed {B} vs fs request request' rest d vs0 (K : list text * Z -> option B) :
  pushed vs fs request request' -> len request' < 256 ->
  Forall (fun f => Z.testbit d (Z.of_nat (fst f)) = negb (empty (value vs (fst f)))) fs ->
  read_then (request' ++ rest) d fs (vs0, len request) K = K (fill vs fs vs0, len request').
Proof.
  intros P Hl F. revert request vs0 P. induction F as [|[k t] fs Hf F IH]; intros request vs0 P; cbn in P; [rewrite P; reflexivity|].
  destruct P as (r & E & P). cbn [read_then]. unfold read_value. cbn [fst snd] in *. rewrite Hf.
  destruct (pushed_extends _ _ _ _ P) as (bs & Hbs). unfold push_value in E. unfold fill. cbn [fold_left].
  destruct (empty (value vs k)) eqn:Ev; cbn [negb].
  - injection E as <-. bind_some. apply IH, P.
  - assert (len r < 256) as Hr by (rewrite Hbs, length_app in Hl; lia).
    destruct (push_field t request _ r (bs ++ rest) E Hr) as [_ Hread].
    rewrite Hbs, <- app_assoc, Hread. bind_some. rewrite app_assoc, <- Hbs. apply IH, P.
Qed.

Lemma value_insert vs k j v : (k < length vs)%nat -> value (<[k := v]> vs) j = if (j =? k)%nat then v else value vs j.
Proof.
  intros Hk. unfold value. rewrite !nth_lookup.
  destruct (Nat.eqb_spec j k) as [->|N]; [rewrite list_lookup_insert_eq by lia|rewrite list_lookup_insert_ne by congruence]; reflexivity.
Qed.

Lemma fill_step_length (e : bool) k (v : text) acc : length (if e then acc else <[k := v]> acc) = length acc.
Proof. destruct e; [reflexivity|apply length_insert]. Qed.

Lemma fill_cons vs k t fs vs0 :
  fill vs ((k, t) :: fs) vs0 = fill vs fs (if empty (value vs k) then vs0 else <[k := normal t (value vs k)]> vs0).
Proof. reflexivity. Qed.

Lemma fill_length vs fs vs0 : length (fill vs fs vs0) = length vs0.
Proof.
  unfold fill. revert vs0. induction fs as [|[k t] fs IH]; intros vs0; [reflexivity|].
  cbn [fold_left]. rewrite IH. apply fill_step_length.
Qed.

Lemma fill_other vs fs vs0 j : Forall (fun f => fst f < length vs0)%nat fs -> ~ In j (map fst fs) ->
  value (fill vs fs vs0) j = value vs0 j.
Proof.
  unfold fill. revert vs0. induction fs as [|[k t] fs IH]; intros vs0 F N; [reflexivity|].
  inversion F as [|? ? Hk F']; subst. cbn [map fst In] in N, Hk. cbn [fold_left]. rewrite IH; [|rewrite fill_step_length; exact F'|tauto].
  case_bool; [reflexivity|]. rewrite value_insert by exact Hk.
  destruct (Nat.eqb_spec j k); [subst; tauto|reflexivity].
Qed.

Lemma fill_field vs fs vs0 k t : Forall (fun f => fst f < length vs0)%nat fs -> List.NoDup (map fst fs) -> In (k, t) fs ->
  value (fill vs fs vs0) k = if empty (value vs k) then value vs0 k else normal t (value vs k).
Proof.
  revert vs0. induction fs as [|[k' t'] fs IH]; intros vs0 F N I; [destruct I|].
  inversion F as [|? ? Hk F']; subst. inversion N as [|? ? Hk' N']; subst. cbn [fst] in Hk.
  destruct I as [[= -> ->]|I].
  - rewrite fill_cons. rewrite fill_other by (rewrite ?fill_step_length; assumption).
    destruct (empty _); [reflexivity|]. rewrite value_insert, Nat.eqb_refl by exact Hk. reflexivity.
  - rewrite fill_cons. rewrite IH by (rewrite ?fill_step_length; assumption).
    destruct (empty (value vs k)); [|reflexivity]. destruct (empty (value vs k')); [reflexivity|].
    rewrite value_insert by exact Hk. destruct (Nat.eqb_spec k k'); [|reflexivity].
    subst. destruct Hk'. change k' with (fst (k', t)). apply in_map, I.
Qed.

Lemma read_string_spec pre s rest : read_string (length s) (pre ++ s ++ rest) (len pre) = Some s.
Proof.
  revert pre. induction s as [|c s IH]; intros pre; [reflexivity|].
  cbn [read_string length]. rewrite load_here. change (load _ 0) with (Some c). bind_some.
  replace (pre ++ (c :: s) ++ rest) with ((pre ++ [c]) ++ s ++ rest) by (rewrite <- app_assoc; reflexivity).
  replace (len pre + 1) with (len (pre ++ [c])) by (rewrite length_app; cbn; lia).
  rewrite IH. reflexivity.
Qed.

(** An integer is read back as the same text. *)
Lemma digits_start n : 0 <= n -> isspace (deref (digits n)) = false /\ deref (digits n) <> 45 /\ deref (digits n) <> 43.
Proof.
  intros Hn. pose proof (digits_digit n Hn) as F. pose proof (digits_length n) as L.
  destruct (digits n) as [|c t]; [cbn in L; lia|]. inversion F as [|? ? Hc _]; subst. apply isdigit_spec in Hc.
  cbn. unfold isspace. repeat split; [|lia|lia].
  rewrite (proj2 (Z.eqb_neq _ _)), (proj2 (Z.leb_gt c 13)) by lia. rewrite andb_false_r. reflexivity.
Qed.

Lemma count_digits n : 0 <= n -> count_while isdigit (digits n) = length (digits n).
Proof.
  intros Hn. rewrite <- (app_nil_r (digits n)) at 1. apply count_while_app; [apply digits_digit, Hn|auto].
Qed.

Lemma stoi_to_string n : -2147483648 <= n <= 2147483647 -> stoi (to_string_int n) = Done n.
Proof.
  intros Hn. assert (forall m, 0 <= m <= 2147483648 -> read_sign (digits m) = (false, digits m)) as R.
  { intros m Hm. destruct (digits_start m) as (Hs & H1 & H2); [lia|]. unfold read_sign.
    rewrite (count_while_app isspace [] (digits m) ltac:(constructor) (or_introl Hs) : count_while isspace (digits m) = 0%nat).
    cbn [length drop]. cbv zeta.
    rewrite !(proj2 (Z.eqb_neq _ _)) by assumption. reflexivity. }
  assert (forall m, 0 <= m <= 2147483648 -> dec_value (take (length (digits m)) (digits m)) = m) as V.
  { intros m Hm. rewrite firstn_all. apply digits_value. unfold two64. lia. }
  unfold stoi, to_string_int. destruct (Z.ltb_spec n 0).
  - change (read_sign (45 :: digits (- n))) with (true, digits (- n)). cbv beta iota zeta.
    rewrite count_digits, V by lia. pose proof (digits_length (- n)).
    rewrite (proj2 (Nat.eqb_neq _ _)), Z.opp_involutive, !(proj2 (Z.leb_le _ _)) by lia. reflexivity.
  - rewrite R by lia. cbv beta iota zeta. rewrite count_digits, V by lia. pose proof (digits_length n).
    rewrite (proj2 (Nat.eqb_neq _ _)), !(proj2 (Z.leb_le _ _)) by lia. reflexivity.
Qed.

(** The integers that a field holds. *)
Definition in_field (t : kind) (n : Z) : bool :=
  match t with
  | Int8 => (0 <=? n) && (n <? 256)
  | Int16 => (0 <=? n) && (n <? 65536)
  | Int32 => (-2147483648 <=? n) && (n <=? 2147483647)
  | Float => false
  end.

Lemma normal_integer t n : in_field t n = true -> normal t (to_string_int n) = to_string_int n.
Proof.
  destruct t; cbn [in_field normal]; intros Hn; [| | |discriminate]; bool_hyps; rewrite stoi_to_string by lia;
    rewrite ?u8_id, ?u16_id by lia; reflexivity.
Qed.
End Fields.

(** ** The text form as a sequence of words *)

(** The indices that stand for a letter. *)
Definition letters : list nat := [0; 1; 2; 3; 4; 5; 6; 8; 9; 10; 11; 16; 17; 18; 19]%nat.

Definition letter_of (k : nat) : Z := nth k ORDER 0.

(** The characters of a value. *)
Definition value_char (c : Z) : bool :=
  negb (isspace c || isupper c || (c =? 0) || (c =? 59) || (c =? 42)).

(** The words of a command that are set, in the order in which they are written. *)
Definition word_of (g : Gcode) (k : nat) : list (nat * text) :=
  if Z.testbit (dataType g) (Z.of_nat k) then [(k, value (parameterValue g) k)] else [].
Definition words (g : Gcode) : list (nat * text) := flat_map (word_of g) letters.

Definition spelled (w : nat * text) : Z * text := (letter_of (fst w), snd w).

(** Storing a word. *)
Definition store_word (st : Z * list text) (w : nat * text) : Z * list text :=
  (Z.lor (fst st) (Z.shiftl 1 (Z.of_nat (fst w))), <[fst w := snd w]> (snd st)).

Definition is_string_word (w : nat * text) : bool := (fst w =? 1)%nat && takes_string (snd w).

Lemma letters_spec k : In k letters ->
  isupper (letter_of k) = true /\ offset_of (letter_of k) = Z.of_nat k /\ (k < 20)%nat /\
  (letter_of k =? 77) = (k =? 1)%nat.
Proof.
  intros Hk. repeat (destruct Hk as [<-|Hk]; [vm_compute; repeat split; lia|]). destruct Hk.
Qed.

(** The position of the loop in a command that is split there. *)
Lemma at_split pre (rest : text) : nth (Z.to_nat (len pre)) (pre ++ rest) 0 = deref rest.
Proof. rewrite Nat2Z.id, app_nth2, Nat.sub_diag by lia. destruct rest; reflexivity. Qed.

Lemma within_split pre (rest : text) : (len pre <=? len (pre ++ rest)) = true.
Proof. apply Z.leb_le. rewrite length_app. lia. Qed.

Lemma parse_value fuel pre v rest d vs cur pid :
  pre <> [] -> Forall (fun c => value_char c = true) v -> len (pre ++ v ++ rest) < 255 ->
  parse_loop (length v + fuel) (pre ++ v ++ rest) (len pre) d vs cur pid
  = parse_loop fuel (pre ++ v ++ rest) (len pre + len v) d vs (cur ++ v) pid.
Proof.
  intros Hp F. revert pre cur Hp. induction F as [|c v Hc F IH]; intros pre cur Hp Hl.
  { cbn [length Nat.add app]. rewrite Z.add_0_r, app_nil_r. reflexivity. }
  cbn [length Nat.add parse_loop]. rewrite within_split, at_split. cbn [app deref hd].
  unfold value_char in Hc. apply negb_true_iff in Hc.
  apply orb_false_iff in Hc as [Hc _]. apply orb_false_iff in Hc as [Hc _].
  apply orb_false_iff in Hc as [Hc H0]. apply orb_false_iff in Hc as [Hc Hu].
  rewrite (proj2 (Z.eqb_neq (len pre) 0)) by (destruct pre; [contradiction|cbn; lia]).
  assert ((c =? 32) = false) as -> by (unfold isspace in Hc; apply orb_false_iff in Hc as [Hc _]; exact Hc).
  rewrite H0, Hu, Hc. cbn [orb negb].
  rewrite !length_app in Hl. cbn [length app] in Hl.
  rewrite u8_id by lia. replace (pre ++ c :: v ++ rest) with ((pre ++ [c]) ++ v ++ rest) by (rewrite <- app_assoc; reflexivity).
  replace (len pre + 1) with (len (pre ++ [c])) by (rewrite length_app; cbn; lia).
  rewrite IH; [|destruct pre; discriminate|rewrite !length_app; cbn; lia].
  f_equal; [rewrite length_app; cbn; lia|rewrite <- app_assoc; reflexivity].
Qed.

(** A letter starts a word. *)
Lemma parse_letter fuel pre c rest d vs cur pid :
  isupper c = true -> offset_of pid = INVALID -> (pid =? 77) = false -> len (pre ++ c :: rest) < 255 ->
  parse_loop (S fuel) (pre ++ c :: rest) (len pre) d vs cur pid
  = parse_loop fuel (pre ++ c :: rest) (len pre + 1) d vs [] c.
Proof.
  intros Hc Ho Hp Hl. cbn [parse_loop]. rewrite within_split, at_split. cbn [deref hd].
  rewrite Hc, Ho, Hp, Z.eqb_refl. rewrite !orb_true_r, andb_false_r. cbn [orb].
  rewrite length_app in Hl. cbn [length] in Hl. rewrite u8_id by lia. reflexivity.
Qed.

(** A space or the end stores it. *)
Definition delimits (rest : text) : Prop := rest = [] \/ deref rest = 32.

Lemma parse_delimiter fuel pre rest d vs v k :
  pre <> [] -> delimits rest -> In k letters -> is_string_word (k, v) = false -> len (pre ++ rest) < 255 ->
  length vs = 20%nat ->
  parse_loop (S fuel) (pre ++ rest) (len pre) d vs v (letter_of k)
  = parse_loop fuel (pre ++ rest) (len pre + 1) (fst (store_word (d, vs) (k, v))) (snd (store_word (d, vs) (k, v))) [] (deref rest).
Proof.
  intros Hp Hd Hk Hs Hl Hv. destruct (letters_spec k Hk) as (_ & Ho & Hk20 & H77).
  cbn [parse_loop]. rewrite within_split, at_split.
  rewrite (proj2 (Z.eqb_neq (len pre) 0)) by (destruct pre; [contradiction|cbn; lia]).
  assert ((false || isupper (deref rest) || (deref rest =? 32) || (deref rest =? 0)) = true) as ->.
  { destruct Hd as [-> | ->]; reflexivity. }
  rewrite Ho, H77, (proj2 (Z.eqb_neq (Z.of_nat k) INVALID)) by (unfold INVALID; lia). cbn [negb andb].
  assert ((k =? 1)%nat && takes_string (value (<[Z.to_nat (Z.of_nat k) := v]> vs) 1) = false) as ->.
  { destruct (Nat.eqb_spec k 1) as [->|]; [|reflexivity]. rewrite value_insert by (cbn; lia). exact Hs. }
  rewrite length_app in Hl. rewrite u8_id by lia. unfold store_word. cbn [fst snd]. rewrite Nat2Z.id. reflexivity.
Qed.

(** A whole word. *)
Lemma parse_word fuel pre k v rest d vs cur pid :
  In k letters -> Forall (fun c => value_char c = true) v -> delimits rest -> is_string_word (k, v) = false ->
  offset_of pid = INVALID -> (pid =? 77) = false -> length vs = 20%nat ->
  len (pre ++ letter_of k :: v ++ rest) < 255 ->
  parse_loop (S (length v + S fuel)) (pre ++ letter_of k :: v ++ rest) (len pre) d vs cur pid
  = parse_loop fuel (pre ++ letter_of k :: v ++ rest) (len pre + len v + 2)
      (fst (store_word (d, vs) (k, v))) (snd (store_word (d, vs) (k, v))) [] (deref rest).
Proof.
  intros Hk F Hd Hs Ho Hp Hv Hl. destruct (letters_spec k Hk) as (Hu & _).
  rewrite parse_letter by assumption.
  assert (pre ++ letter_of k :: v ++ rest = (pre ++ [letter_of k]) ++ v ++ rest) as E by (rewrite <- app_assoc; reflexivity).
  rewrite E in Hl |- *. replace (len pre + 1) with (len (pre ++ [letter_of k])) by (rewrite length_app; cbn; lia).
  rewrite parse_value by (assumption || destruct pre; discriminate). cbn [app].
  rewrite app_assoc in Hl |- *.
  replace (len (pre ++ [letter_of k]) + len v) with (len ((pre ++ [letter_of k]) ++ v)) by (rewrite length_app; lia).
  rewrite parse_delimiter; try assumption; [|destruct pre; discriminate].
  f_equal. rewrite !length_app. cbn. lia.
Qed.

Lemma store_word_length st w : length (snd (store_word st w)) = length (snd st).
Proof. apply length_insert. Qed.

(** A command of words. *)
Definition word_fits (w : nat * text) : Prop :=
  In (fst w) letters /\ Forall (fun c => value_char c = true) (snd w) /\ is_string_word w = false.

Lemma parse_words ws fuel pre d vs cur pid :
  ws <> [] -> Forall word_fits ws -> offset_of pid = INVALID -> (pid =? 77) = false -> length vs = 20%nat ->
  len (pre ++ Gcode.render (map spelled ws)) < 255 -> (length (Gcode.render (map spelled ws)) + 2 <= fuel)%nat ->
  parse_loop fuel (pre ++ Gcode.render (map spelled ws)) (len pre) d vs cur pid = Some (fold_left store_word ws (d, vs)).
Proof.
  intros Hne F. revert fuel pre d vs cur pid. induction F as [|[k v] ws (Hk & Fv & Hs) F IH]; [contradiction|].
  intros fuel pre d vs cur pid Ho Hp Hv Hl Hf. cbn [fst snd] in *. destruct ws as [|w2 ws].
  - cbn [map Gcode.render spelled fst snd] in *. rewrite <- (app_nil_r v) in Hl |- * at 1.
    cbn [length] in Hf. replace fuel with (S (length v + S (S (fuel - length v - 3)))) by lia.
    rewrite parse_word by (assumption || (left; reflexivity)). rewrite app_nil_r in *. cbn [parse_loop].
    rewrite (proj2 (Z.leb_gt _ _)) by (rewrite length_app; cbn [length]; lia). cbn [fold_left].
    rewrite <- surjective_pairing. reflexivity.
  - cbn [map] in *. rewrite Gcode.render_cons in *. cbn [spelled fst snd] in *. fold (spelled w2) in *.
    set (body := Gcode.render (spelled w2 :: map spelled ws)) in *.
    cbn [length] in Hf. rewrite length_app in Hf. cbn [length] in Hf.
    replace fuel with (S (length v + S (fuel - length v - 2))) by lia.
    rewrite parse_word by (assumption || (right; reflexivity)).
    replace (pre ++ letter_of k :: v ++ 32 :: body) with ((pre ++ letter_of k :: v ++ [32]) ++ body) in *
      by (rewrite <- app_assoc; cbn; rewrite <- app_assoc; reflexivity).
    replace (len pre + len v + 2) with (len (pre ++ letter_of k :: v ++ [32]))
      by (rewrite length_app; cbn [length]; rewrite length_app; cbn [length]; lia).
    rewrite IH; [cbn [fold_left]; rewrite <- surjective_pairing; reflexivity|discriminate|reflexivity|reflexivity|rewrite store_word_length; exact Hv|exact Hl|lia].
Qed.

(** The commands with a text: everything behind the M word. *)
Lemma rest_loop_spec fuel pre rest cur : len (pre ++ rest) < 256 -> (length rest < fuel)%nat ->
  rest_loop fuel (pre ++ rest) (len pre) cur = Some (cur ++ rest).
Proof.
  revert pre rest cur. induction fuel as [|fuel IH]; intros pre rest cur Hl Hf; [lia|].
  cbn [rest_loop]. rewrite length_app in *. destruct rest as [|c t].
  - rewrite (proj2 (Z.ltb_ge _ _)) by (cbn; lia). rewrite app_nil_r. reflexivity.
  - rewrite (proj2 (Z.ltb_lt _ _)) by (cbn; lia). rewrite at_split. cbn [deref hd]. cbn [length] in *.
    rewrite u8_id by lia. replace (pre ++ c :: t) with ((pre ++ [c]) ++ t) by (rewrite <- app_assoc; reflexivity).
    replace (len pre + 1) with (len (pre ++ [c])) by (rewrite length_app; cbn; lia).
    rewrite IH by (rewrite ?length_app; cbn; lia). rewrite <- app_assoc. reflexivity.
Qed.

Definition store_string (st : Z * list text) (s : text) : Z * list text :=
  (if empty s then fst st else Z.lor (fst st) (Z.shiftl 1 15), <[15%nat := s]> (snd st)).

Lemma parse_string_word fuel pre v rest d vs cur pid :
  takes_string v = true -> Forall (fun c => value_char c = true) v -> delimits rest ->
  offset_of pid = INVALID -> (pid =? 77) = false -> length vs = 20%nat ->
  len (pre ++ 77 :: v ++ rest) < 255 ->
  parse_loop (S (length v + S fuel)) (pre ++ 77 :: v ++ rest) (len pre) d vs cur pid
  = Some (store_string (store_word (d, vs) (1%nat, v)) (trim_left rest)).
Proof.
  intros Hs F Hd Ho Hp Hv Hl. rewrite parse_letter by (assumption || reflexivity).
  assert (pre ++ 77 :: v ++ rest = (pre ++ [77]) ++ v ++ rest) as E by (rewrite <- app_assoc; reflexivity).
  rewrite E in Hl |- *. replace (len pre + 1) with (len (pre ++ [77])) by (rewrite length_app; cbn; lia).
  rewrite parse_value by (assumption || destruct pre; discriminate). cbn [app].
  rewrite app_assoc in Hl |- *.
  replace (len (pre ++ [77]) + len v) with (len ((pre ++ [77]) ++ v)) by (rewrite length_app; lia).
  cbn [parse_loop]. rewrite within_split, at_split.
  rewrite (proj2 (Z.eqb_neq (len _) 0)) by (rewrite !length_app; cbn; lia).
  assert ((false || isupper (deref rest) || (deref rest =? 32) || (deref rest =? 0)) = true) as ->.
  { destruct Hd as [-> | ->]; reflexivity. }
  change (offset_of 77) with 1. change (1 =? INVALID) with false. change (77 =? 77) with true.
  change (Z.to_nat 1) with 1%nat. cbn [negb andb]. rewrite value_insert by lia. cbn [Nat.eqb]. rewrite Hs.
  rewrite rest_loop_spec by (rewrite ?length_app in *; lia). reflexivity.
Qed.

(** ** Commands that are written and read back *)

Definition VALUE_BITS : Z := 1019775.

(** The texts of the M commands that have one. *)
Definition string_ok (s : text) : bool :=
  negb (empty s) && negb (isspace (deref s)) && negb (isspace (List.last s 0)) &&
  forallb (fun c => negb ((c =? 0) || (c =? 59) || (c =? 42))) s.

(** A command with no value where none is set, values of value characters, and a text
    only with an M command that has one, which then has no parameters. *)
Definition writable (g : Gcode) : bool :=
  let bit k := Z.testbit (dataType g) (Z.of_nat k) in
  let v := value (parameterValue g) in
  empty (hostCommand g) && (length (parameterValue g) =? 20)%nat &&
  (Z.ldiff (dataType g) VALUE_BITS =? 4224) && existsb bit letters &&
  forallb (fun k => bit k || empty (v k)) (15%nat :: letters) && forallb (fun k => empty (v k)) [7; 12; 13; 14]%nat &&
  forallb (fun k => forallb value_char (v k)) letters &&
  (if bit 1%nat && takes_string (v 1%nat)
   then forallb (fun k => negb (bit k)) (drop 2 letters) && (if bit 15%nat then string_ok (v 15%nat) else true)
   else negb (bit 15%nat)) &&
  (len (getAscii g) <? 255).

Definition in_letters (j : nat) : bool := existsb (Nat.eqb j) letters.

Lemma in_letters_spec j : in_letters j = true <-> In j letters.
Proof.
  unfold in_letters. rewrite existsb_exists. split; [intros (k & Hk & E); apply Nat.eqb_eq in E; subst; exact Hk|].
  intros Hj. exists j. rewrite Nat.eqb_refl. auto.
Qed.

(** Storing the words of a command. *)
Lemma store_words g ks d vs : length vs = 20%nat -> Forall (fun k => k < 20)%nat ks ->
  let r := fold_left store_word (flat_map (word_of g) ks) (d, vs) in
  length (snd r) = 20%nat /\
  forall j, let hit := existsb (Nat.eqb j) ks && Z.testbit (dataType g) (Z.of_nat j) in
    Z.testbit (fst r) (Z.of_nat j) = Z.testbit d (Z.of_nat j) || hit /\
    value (snd r) j = if hit then value (parameterValue g) j else value vs j.
Proof.
  intros Hv F. revert d vs Hv. induction F as [|k ks Hk F IH]; intros d vs Hv.
  { cbn. split; [exact Hv|]. intros j. rewrite orb_false_r. auto. }
  cbn [flat_map existsb]. rewrite fold_left_app. unfold word_of at 2 4 6. destruct (Z.testbit (dataType g) (Z.of_nat k)) eqn:B; cbn [fold_left].
  - destruct (IH (Z.lor d (Z.shiftl 1 (Z.of_nat k))) (<[k := value (parameterValue g) k]> vs)) as [L R];
      [rewrite length_insert; exact Hv|].
    split; [exact L|]. intros j. destruct (R j) as [R1 R2]. unfold store_word at 2 4. cbn [fst snd]. rewrite R1, R2.
    rewrite Gcode.testbit_lor_bit, value_insert by lia.
    destruct (Nat.eqb_spec j k) as [->|N].
    + rewrite Z.eqb_refl, B. cbn [orb andb]. rewrite orb_true_r, andb_true_r. split; [reflexivity|]. destruct (existsb _ _); reflexivity.
    + rewrite (proj2 (Z.eqb_neq _ _)), orb_false_r by lia. auto.
  - destruct (IH d vs Hv) as [L R]. split; [exact L|]. intros j. destruct (R j) as [R1 R2]. rewrite R1, R2.
    destruct (Nat.eqb_spec j k) as [->|N]; [|auto]. rewrite B, !andb_false_r. auto.
Qed.

Lemma value_bits j : Z.testbit VALUE_BITS (Z.of_nat j) = (j =? 15)%nat || in_letters j.
Proof.
  destruct (Nat.lt_ge_cases j 20) as [Hj|Hj].
  - do 20 (destruct j as [|j]; [reflexivity|]). lia.
  - rewrite Z.bits_above_log2 by (vm_compute Z.log2; unfold VALUE_BITS; lia).
    symmetry. apply not_true_iff_false. intros E. apply orb_true_iff in E as [E|E].
    + apply Nat.eqb_eq in E. lia.
    + apply in_letters_spec, letters_spec in E. lia.
Qed.

Lemma values_equal (vs vs' : list text) : length vs = length vs' -> (forall j, value vs j = value vs' j) -> vs = vs'.
Proof.
  intros L H. apply (nth_ext _ _ [] []); [exact L|]. intros j _. apply H.
Qed.

Lemma empty_nil s : empty s = true -> s = [].
Proof. destruct s; [reflexivity|discriminate]. Qed.

Lemma some_index k : (k < 20)%nat -> In k (15%nat :: letters) \/ In k [7; 12; 13; 14]%nat.
Proof. intros Hk. do 20 (destruct k as [|k]; [vm_compute; tauto|]). lia. Qed.

(** The parts of [writable]. *)
Lemma writable_spec g : writable g = true ->
  hostCommand g = [] /\ length (parameterValue g) = 20%nat /\ Z.ldiff (dataType g) VALUE_BITS = 4224 /\
  (exists k, In k letters /\ Z.testbit (dataType g) (Z.of_nat k) = true) /\
  (forall k, Z.testbit (dataType g) (Z.of_nat k) = false \/ ~ (k = 15%nat \/ In k letters) -> value (parameterValue g) k = []) /\
  (forall k, In k letters -> Forall (fun c => value_char c = true) (value (parameterValue g) k)) /\
  len (getAscii g) < 255.
Proof.
  unfold writable. intros W. repeat (apply andb_true_iff in W as [W ?]).
  repeat match goal with
  | H : forallb _ _ = true |- _ => rewrite forallb_forall in H
  | H : existsb _ _ = true |- _ => rewrite existsb_exists in H
  | H : (_ =? _) = true |- _ => apply Z.eqb_eq in H
  | H : (_ =? _)%nat = true |- _ => apply Nat.eqb_eq in H
  | H : (_ <? _) = true |- _ => apply Z.ltb_lt in H
  end.
  repeat split; try assumption.
  - apply empty_nil. assumption.
  - intros k Hk. destruct (Nat.lt_ge_cases k 20) as [H20|H20]; [|apply nth_overflow; lia].
    apply empty_nil. destruct (some_index k H20) as [I|I]; [|auto].
    destruct Hk as [Hk|Hk]; [|destruct Hk; destruct I; auto].
    match goal with H : forall x, In x (15%nat :: letters) -> _ |- _ => specialize (H k I); rewrite Hk in H; exact H end.
  - intros k Hk. apply List.Forall_forall. intros c Hc.
    match goal with H : forall x, In x letters -> forallb _ _ = true |- _ => specialize (H k Hk); rewrite forallb_forall in H; apply H end.
    exact Hc.
Qed.

Lemma writable_string g : writable g = true ->
  hasString g = negb (empty (getString g)) /\
  if Z.testbit (dataType g) 1 && takes_string (value (parameterValue g) 1)
  then (forall k, In k letters -> (1 < k)%nat -> Z.testbit (dataType g) (Z.of_nat k) = false) /\
       (hasString g = true -> string_ok (getString g) = true)
  else hasString g = false.
Proof.
  intros W. pose proof (writable_spec g W) as (_ & _ & _ & _ & He & _ & _). specialize (He 15%nat).
  unfold writable in W. apply andb_true_iff in W as [W _]. apply andb_true_iff in W as [_ W].
  unfold hasString, getString in *. change (Z.of_nat 15) with 15 in *. change (Z.of_nat 1) with 1 in *.
  destruct (Z.testbit (dataType g) 1 && _).
  - apply andb_true_iff in W as [W1 W2]. rewrite forallb_forall in W1. split.
    + destruct (Z.testbit (dataType g) 15); [|rewrite He by auto; reflexivity].
      unfold string_ok in W2. destruct (value (parameterValue g) 15); [discriminate|reflexivity].
    + split; [|intros E; rewrite E in W2; exact W2]. intros k Hk H1. apply negb_true_iff, W1.
      destruct Hk as [<-|[<-|Hk]]; [lia|lia|exact Hk].
  - apply negb_true_iff in W. rewrite W, He by auto. auto.
Qed.

(** Storing all words and the text of a command rebuilds it. *)
Lemma stored_again g : writable g = true ->
  store_string (fold_left store_word (words g) (4224, no_values)) (getString g) = (dataType g, parameterValue g).
Proof.
  intros W. pose proof (writable_spec g W) as (_ & Hl & Hb & _ & He & _ & _).
  destruct (store_words g letters 4224 no_values) as [L R]; [reflexivity|repeat constructor; lia|]. fold (words g) in *.
  destruct (fold_left store_word (words g) (4224, no_values)) as [d vs] eqn:E. cbn [fst snd] in *.
  assert (forall j, Z.testbit (dataType g) (Z.of_nat j) = Z.testbit 4224 (Z.of_nat j) || ((j =? 15)%nat || in_letters j) && Z.testbit (dataType g) (Z.of_nat j)) as Hd.
  { intros j. rewrite <- Hb. rewrite Z.ldiff_spec, value_bits. destruct (Z.testbit (dataType g) _), (j =? 15)%nat, (in_letters j); reflexivity. }
  unfold store_string, getString. cbn [fst snd]. f_equal.
  - apply Z.bits_inj'. intros n Hn. rewrite <- (Z2Nat.id n Hn). set (j := Z.to_nat n). rewrite (Hd j).
    destruct (writable_string g W) as [H15 _]. unfold hasString, getString in H15. destruct (R j) as [R1 _].
    fold (in_letters j) in R1.
    destruct (Nat.eqb_spec j 15) as [->|N].
    + change (Z.of_nat 15) with 15 in *. rewrite H15. destruct (empty _); [exact R1|].
      change 15 with (Z.of_nat 15). rewrite Gcode.testbit_lor_bit by lia. apply orb_true_r.
    + cbn [orb]. rewrite <- R1. destruct (empty _); [reflexivity|].
      change (Z.shiftl 1 15) with (Z.shiftl 1 (Z.of_nat 15)). rewrite Gcode.testbit_lor_bit, (proj2 (Z.eqb_neq (Z.of_nat j) (Z.of_nat 15))) by lia.
      apply orb_false_r.
  - apply values_equal; [rewrite length_insert; congruence|]. intros j. rewrite value_insert by lia.
    destruct (Nat.eqb_spec j 15) as [->|N]; [reflexivity|]. destruct (R j) as [_ ->]. fold (in_letters j).
    destruct (in_letters j) eqn:I; cbn [andb].
    + destruct (Z.testbit _ _) eqn:B; [reflexivity|]. rewrite (He j) by auto.
      unfold value, no_values. rewrite nth_repeat. reflexivity.
    + rewrite (He j). { unfold value, no_values. rewrite nth_repeat. reflexivity. }
      right. intros [E1|E1]; [contradiction|]. apply in_letters_spec in E1. congruence.
Qed.

(** ** What is written *)

Definition piece (w : nat * text) : text := letter_of (fst w) :: snd w ++ [32].

Lemma getAscii_letters g : hostCommand g = [] -> getAscii g = removelast (concat (map (ascii_step g) letters)).
Proof. intros E. unfold getAscii. rewrite E. reflexivity. Qed.

Lemma ascii_step_word g k : In k letters -> k <> 1%nat \/ hasString g = false ->
  ascii_step g k = concat (map piece (word_of g k)).
Proof.
  intros Hk Hs. unfold ascii_step, word_of.
  assert (existsb (Nat.eqb k) [7; 12; 13; 14; 15]%nat = false) as ->.
  { repeat (destruct Hk as [<-|Hk]; [reflexivity|]). destruct Hk. }
  destruct (Z.testbit _ (Z.of_nat k)); [|reflexivity]. cbn [map concat piece fst snd app]. unfold letter_of.
  assert ((k =? 1)%nat && Z.testbit (dataType g) 15 = false) as ->.
  { destruct Hs as [Hs|Hs]; [rewrite (proj2 (Nat.eqb_neq _ _)) by exact Hs; reflexivity|].
    unfold hasString in Hs. rewrite Hs. apply andb_false_r. }
  rewrite app_nil_r. reflexivity.
Qed.

Lemma removelast_pieces ws : ws <> [] -> removelast (concat (map piece ws)) = Gcode.render (map spelled ws).
Proof.
  induction ws as [|w ws IH]; [contradiction|]. intros _. destruct ws as [|w2 ws].
  - cbn [map concat Gcode.render spelled fst snd]. rewrite app_nil_r. unfold piece.
    change (letter_of (fst w) :: snd w ++ [32]) with ((letter_of (fst w) :: snd w) ++ [32]). apply removelast_last.
  - change (map spelled (w :: w2 :: ws)) with (spelled w :: spelled w2 :: map spelled ws). rewrite Gcode.render_cons.
    change (concat (map piece (w :: w2 :: ws))) with (piece w ++ concat (map piece (w2 :: ws))).
    rewrite removelast_app by (cbn; discriminate). rewrite IH by discriminate.
    unfold piece. cbn [app spelled fst snd]. rewrite <- app_assoc. reflexivity.
Qed.

Lemma ascii_words g ks : Forall (fun k => In k letters) ks -> Forall (fun k => k <> 1%nat) ks \/ hasString g = false ->
  concat (map (ascii_step g) ks) = concat (map piece (flat_map (word_of g) ks)).
Proof.
  intros F Hs. induction F as [|k ks Hk F IH]; [reflexivity|].
  cbn [map concat flat_map]. rewrite map_app, concat_app, IH, ascii_step_word; [reflexivity|exact Hk| |];
    (destruct Hs as [Hs|Hs]; [inversion Hs; subst|]; auto).
Qed.

Lemma letters_self : Forall (fun k => In k letters) letters.
Proof. apply List.Forall_forall. auto. Qed.

Lemma getAscii_words g : hostCommand g = [] -> hasString g = false -> words g <> [] ->
  getAscii g = Gcode.render (map spelled (words g)).
Proof.
  intros E Hs Hw. rewrite getAscii_letters, ascii_words by (auto using letters_self). apply removelast_pieces, Hw.
Qed.

(** With a text there are only the line number and the M word. *)
Lemma no_words g ks : Forall (fun k => Z.testbit (dataType g) (Z.of_nat k) = false) ks -> flat_map (word_of g) ks = [].
Proof. induction 1 as [|k ks Hk F IH]; [reflexivity|]. cbn. rewrite IH. unfold word_of. rewrite Hk. reflexivity. Qed.

Lemma getAscii_string g : hostCommand g = [] -> Z.testbit (dataType g) 1 = true ->
  (forall k, In k letters -> (1 < k)%nat -> Z.testbit (dataType g) (Z.of_nat k) = false) ->
  getAscii g = concat (map piece (word_of g 0)) ++ 77 :: value (parameterValue g) 1 ++ (if hasString g then 32 :: getString g else []).
Proof.
  intros E B1 Hn. rewrite getAscii_letters by exact E.
  change letters with ([0%nat] ++ [1%nat] ++ drop 2 letters). rewrite !map_app, !concat_app.
  assert (Forall (fun k => In k letters /\ (1 < k)%nat) (drop 2 letters)) as F by (repeat (constructor; [split; [vm_compute; tauto|lia]|]); constructor).
  rewrite (ascii_words g [0%nat]), (ascii_words g (drop 2 letters)); try (left; repeat constructor; lia).
  2: eapply Forall_impl; [|exact F]; intros k [? _]; assumption.
  2: repeat constructor.
  rewrite (no_words g (drop 2 letters)) by (eapply Forall_impl; [|exact F]; intros k [? ?]; auto).
  cbn [map concat flat_map]. rewrite !app_nil_r. unfold ascii_step at 1. change (Z.of_nat 1) with 1. rewrite B1.
  cbn [existsb Nat.eqb orb andb]. change (nth 1 ORDER 0) with 77. unfold hasString, getString.
  rewrite removelast_app by discriminate. f_equal. destruct (Z.testbit (dataType g) 15).
  - rewrite (app_assoc [32]), app_assoc, app_comm_cons. apply removelast_last.
  - rewrite !app_nil_r, app_comm_cons. apply removelast_last.
Qed.

(** ** Lines that are kept as they are *)

Definition clean (s : text) : Prop := Forall (fun c => (c =? 59) || (c =? 42) = false) s.
Definition opens (s : text) : Prop := isspace (deref s) = false /\ deref s <> 64.
Definition closes (s : text) : Prop := exists p d, s = p ++ [d] /\ isspace d = false.

Lemma closes_app p s : closes s -> closes (p ++ s).
Proof. intros (q & d & -> & Hd). exists (p ++ q), d. rewrite app_assoc. auto. Qed.

Lemma closes_last s : s <> [] -> isspace (List.last s 0) = false -> closes s.
Proof.
  intros Hs Hd. destruct (exists_last Hs) as (p & d & ->). rewrite last_last in Hd. exists p, d. auto.
Qed.

Lemma stripped_id s : clean s -> opens s -> closes s -> stripped s = s.
Proof.
  intros Hc [Ho _] (p & d & E & Hd). unfold stripped. cbv zeta.
  rewrite (count_while_app isspace [] s ltac:(constructor) (or_introl Ho) : count_while isspace s = 0%nat). change (drop 0 s) with s.
  assert (count_while (fun c => negb ((c =? 59) || (c =? 42))) s = length s) as ->.
  { rewrite <- (app_nil_r s) at 1. apply count_while_app; [|auto]. eapply Forall_impl; [|exact Hc]. intros c Hc'. cbv beta. rewrite Hc'. reflexivity. }
  rewrite firstn_all, E, rev_unit. cbn [count_while]. rewrite Hd, Nat.sub_0_r, firstn_all. reflexivity.
Qed.

Lemma value_char_clean c : value_char c = true -> isspace c = false /\ (c =? 59) || (c =? 42) = false.
Proof.
  unfold value_char. intros H. apply negb_true_iff in H. repeat (apply orb_false_iff in H as [H ?]).
  split; [unfold isspace; rewrite H|]; auto using orb_false_intro.
Qed.

Lemma word_line k v : In k letters -> Forall (fun c => value_char c = true) v ->
  clean (letter_of k :: v) /\ opens (letter_of k :: v) /\ closes (letter_of k :: v).
Proof.
  intros Hk F.
  assert (isspace (letter_of k) = false /\ (letter_of k =? 59) || (letter_of k =? 42) = false /\ letter_of k <> 64) as (H1 & H2 & H3).
  { repeat (destruct Hk as [<-|Hk]; [vm_compute; repeat split; discriminate|]). destruct Hk. }
  repeat split.
  - constructor; [exact H2|]. eapply Forall_impl; [|exact F]. intros c Hc. apply value_char_clean, Hc.
  - exact H1.
  - exact H3.
  - apply closes_last; [discriminate|]. destruct v as [|c v] using rev_ind; [exact H1|].
    rewrite app_comm_cons, last_last. apply Forall_app in F as [_ F]. inversion F; subst. apply value_char_clean. assumption.
Qed.

Lemma words_line ws : ws <> [] -> Forall word_fits ws ->
  let s := Gcode.render (map spelled ws) in clean s /\ opens s /\ closes s.
Proof.
  intros Hne F. induction F as [|[k v] ws (Hk & Fv & _) F IH]; [contradiction|].
  destruct (word_line k v Hk Fv) as (C & O & L). destruct ws as [|w2 ws]; [auto|].
  destruct IH as (C2 & _ & L2); [discriminate|].
  change (map spelled ((k, v) :: w2 :: ws)) with (spelled (k, v) :: map spelled (w2 :: ws)).
  change (map spelled (w2 :: ws)) with (spelled w2 :: map spelled ws) in *. rewrite Gcode.render_cons. cbn [spelled fst snd] in *.
  inversion C as [|? ? C0 C1]; subst. repeat split; [|apply O|apply O|].
  - constructor; [exact C0|]. apply Forall_app. split; [exact C1|]. constructor; [reflexivity|exact C2].
  - rewrite app_comm_cons. apply closes_app. apply (closes_app [32]), L2.
Qed.

Lemma string_line s : string_ok s = true -> clean s /\ closes s /\ trim_left (32 :: s) = s.
Proof.
  unfold string_ok. intros H. apply andb_true_iff in H as [H H4]. apply andb_true_iff in H as [H H3].
  apply andb_true_iff in H as [H1 H2]. apply negb_true_iff in H2, H3. rewrite forallb_forall in H4. repeat split.
  - apply List.Forall_forall. intros c Hc. specialize (H4 c Hc). apply negb_true_iff in H4.
    destruct (c =? 0); [discriminate|exact H4].
  - apply closes_last; [destruct s; discriminate|exact H3].
  - unfold trim_left. cbn [count_while Z.eqb Pos.eqb orb length].
    rewrite (count_while_app _ [] s ltac:(constructor)); [destruct s; [discriminate|reflexivity]|].
    left. cbv beta. unfold isspace in H2. destruct s as [|c s]; [discriminate|]. cbn [deref hd] in *.
    destruct (Z.eqb_spec c 32), (Z.eqb_spec c 9), (Z.eqb_spec c 10), (Z.eqb_spec c 13); subst; try discriminate. reflexivity.
Qed.

Lemma words_set g k : In k letters -> Z.testbit (dataType g) (Z.of_nat k) = true -> words g <> [].
Proof.
  intros Hk B E. enough (In (k, value (parameterValue g) k) (words g)) as H by (rewrite E in H; destruct H).
  apply in_flat_map. exists k. split; [exact Hk|]. unfold word_of. rewrite B. left. reflexivity.
Qed.

Lemma words_fit g : (forall k, In k letters -> Forall (fun c => value_char c = true) (value (parameterValue g) k)) ->
  Z.testbit (dataType g) 1 && takes_string (value (parameterValue g) 1) = false -> Forall word_fits (words g).
Proof.
  intros F N. apply List.Forall_forall. intros [k v] I. apply in_flat_map in I as (j & Hj & I).
  unfold word_of in I. destruct (Z.testbit (dataType g) (Z.of_nat j)) eqn:B; [destruct I as [[= <- <-]|[]]|destruct I].
  repeat split; cbn [fst snd]; auto. unfold is_string_word. cbn [fst snd].
  destruct (Nat.eqb_spec j 1) as [->|]; [|reflexivity]. change (Z.of_nat 1) with 1 in B. rewrite B in N. exact N.
Qed.

(** Without a text, [store_string] changes nothing. *)
Lemma store_no_string g :
  store_string (fold_left store_word (words g) (4224, no_values)) [] = fold_left store_word (words g) (4224, no_values).
Proof.
  destruct (store_words g letters 4224 no_values) as [L R]; [reflexivity|repeat constructor; lia|]. fold (words g) in *.
  destruct (fold_left store_word (words g) (4224, no_values)) as [d vs]. unfold store_string. cbn [fst snd empty] in *. f_equal.
  apply values_equal; [apply length_insert|]. intros j. rewrite value_insert by lia.
  destruct (Nat.eqb_spec j 15) as [->|]; [|reflexivity]. destruct (R 15%nat) as [_ ->]. reflexivity.
Qed.

Lemma string_words g : Z.testbit (dataType g) 1 = true ->
  (forall k, In k letters -> (1 < k)%nat -> Z.testbit (dataType g) (Z.of_nat k) = false) ->
  words g = word_of g 0 ++ [(1%nat, value (parameterValue g) 1)].
Proof.
  intros B1 Hn. unfold words. change letters with ([0; 1]%nat ++ drop 2 letters). rewrite flat_map_app, (no_words g (drop 2 letters)).
  - cbn [flat_map]. unfold word_of at 2. change (Z.of_nat 1) with 1. rewrite B1, !app_nil_r. reflexivity.
  - apply List.Forall_forall. intros k Hk. apply Hn; [right; right; exact Hk|].
    repeat (destruct Hk as [<-|Hk]; [lia|]). destruct Hk.
Qed.

(** The part of a command with a text that follows the M word. *)
Lemma string_rest g : hasString g = negb (empty (getString g)) -> (hasString g = true -> string_ok (getString g) = true) ->
  let rest := if hasString g then 32 :: getString g else [] in
  delimits rest /\ trim_left rest = getString g /\ clean rest /\ (rest = [] \/ closes rest).
Proof.
  intros Hs Hok. destruct (hasString g) eqn:E; cbv zeta.
  - destruct (string_line _ (Hok eq_refl)) as (C & L & T). repeat split; [right; reflexivity|exact T| |].
    + constructor; [reflexivity|exact C].
    + right. exact (closes_app [32] _ L).
  - repeat split; [left; reflexivity| |constructor|auto]. destruct (getString g); [reflexivity|discriminate].
Qed.

(** The two shapes of a written command are kept by [stripped] and read by the loop. *)
Definition read_back (s : text) (st : Z * list text) : Prop :=
  (clean s /\ opens s /\ closes s) /\ parse_loop 257 s 0 4224 no_values [] 0 = Some st.

Lemma read_back_words ws : ws <> [] -> Forall word_fits ws -> len (Gcode.render (map spelled ws)) < 255 ->
  read_back (Gcode.render (map spelled ws)) (fold_left store_word ws (4224, no_values)).
Proof.
  intros Hne F Hl. split; [apply words_line; assumption|].
  apply (parse_words ws 257 [] 4224 no_values [] 0); try assumption; try reflexivity. cbn [app]. lia.
Qed.

Lemma read_back_string ws v rest : (ws = [] \/ exists n, ws = [(0%nat, n)] /\ Forall (fun c => value_char c = true) n) ->
  takes_string v = true -> Forall (fun c => value_char c = true) v ->
  delimits rest -> clean rest -> rest = [] \/ closes rest ->
  len (concat (map piece ws) ++ 77 :: v ++ rest) < 255 ->
  read_back (concat (map piece ws) ++ 77 :: v ++ rest)
    (store_string (fold_left store_word (ws ++ [(1%nat, v)]) (4224, no_values)) (trim_left rest)).
Proof.
  intros Hws Ht Fv Hd Hc Hr Hl. destruct (word_line 1 v ltac:(vm_compute; tauto) Fv) as (C & O & L). change (letter_of 1) with 77 in *.
  assert (clean (77 :: v ++ rest) /\ closes (77 :: v ++ rest)) as [C' L'].
  { split; [rewrite app_comm_cons; apply Forall_app; auto|]. rewrite app_comm_cons.
    destruct Hr as [-> |Hr]; [rewrite app_nil_r; exact L|apply closes_app, Hr]. }
  destruct Hws as [-> | (n & -> & Fn)]; cbn [map concat app] in *.
  - split; [exact (conj C' (conj O L'))|]. cbn [length] in Hl. rewrite length_app in Hl.
    replace 257%nat with (S (length v + S (255 - length v))) by lia.
    apply (parse_string_word _ [] v rest 4224 no_values [] 0); try assumption; try reflexivity.
    cbn [length app]. rewrite length_app. lia.
  - destruct (word_line 0 n ltac:(vm_compute; tauto) Fn) as (C0 & O0 & _). unfold piece in *. cbn [fst snd] in *.
    rewrite !app_nil_r in *. change (letter_of 0) with 78 in *.
    change ((78 :: n ++ [32]) ++ 77 :: v ++ rest) with (78 :: (n ++ [32]) ++ 77 :: v ++ rest) in *.
    rewrite <- (app_assoc n [32]) in *. cbn [app] in *.
    split.
    + inversion C0 as [|? ? C1 C2]; subst. split; [|split; [exact O0|]].
      * constructor; [exact C1|]. apply Forall_app. split; [exact C2|]. constructor; [reflexivity|exact C'].
      * apply (closes_app (78 :: n)), (closes_app [32]), L'.
    + cbn [length] in Hl. rewrite length_app in Hl. cbn [length] in Hl. rewrite length_app in Hl.
      replace 257%nat with (S (length n + S (255 - length n))) by lia.
      rewrite (parse_word _ [] 0 n (32 :: 77 :: v ++ rest)); try assumption; try reflexivity;
        [|vm_compute; tauto|right; reflexivity|cbn [length app letter_of nth ORDER]; rewrite length_app; cbn [length]; rewrite length_app; lia].
      cbn [app]. change (letter_of 0) with 78.
      replace (78 :: n ++ 32 :: 77 :: v ++ rest) with ((78 :: n ++ [32]) ++ 77 :: v ++ rest) by (cbn [app]; rewrite <- app_assoc; reflexivity).
      replace (len [] + len n + 2) with (len (78 :: n ++ [32])) by (cbn [length]; rewrite length_app; cbn [length]; lia).
      replace (255 - length n)%nat with (S (length v + S (255 - length n - length v - 2))) by lia.
      rewrite parse_string_word; try assumption; try reflexivity.
      rewrite length_app. cbn [length]. rewrite !length_app. cbn [length]. lia.
Qed.

Lemma parse_ascii g : writable g = true -> read_back (getAscii g) (dataType g, parameterValue g).
Proof.
  intros W. pose proof (writable_spec g W) as (Hh & _ & _ & (k & Hk & Bk) & _ & Fv & Hl).
  destruct (writable_string g W) as [Hs Hcase]. rewrite <- (stored_again g W).
  destruct (Z.testbit (dataType g) 1 && _) eqn:T.
  - apply andb_true_iff in T as [B1 T]. destruct Hcase as [Hn Hok].
    rewrite (getAscii_string g Hh B1 Hn) in *. destruct (string_rest g Hs Hok) as (Hd & Ht & Hc & Hr).
    set (rest := if hasString g then _ else _) in *. rewrite (string_words g B1 Hn), <- Ht. apply read_back_string; try assumption; [|apply Fv; vm_compute; tauto].
    unfold word_of. destruct (Z.testbit _ (Z.of_nat 0)); [right; eexists; split; [reflexivity|apply Fv; vm_compute; tauto]|auto].
  - rewrite Hcase in Hs. destruct (getString g) eqn:Es; [|discriminate].
    rewrite store_no_string. rewrite (getAscii_words g Hh Hcase (words_set g k Hk Bk)) in *.
    apply read_back_words; [exact (words_set g k Hk Bk)|apply words_fit; assumption|exact Hl].
Qed.

Lemma writable_not_empty g : writable g = true -> isEmpty g = false.
Proof.
  intros W. pose proof (writable_spec g W) as (_ & _ & _ & (k & Hk & Bk) & _). apply Z.eqb_neq. intros E.
  rewrite E in Bk. repeat (destruct Hk as [<-|Hk]; [discriminate|]). destruct Hk.
Qed.

Lemma getAscii_original o o' vs d h : getAscii (mkGcode o vs d h) = getAscii (mkGcode o' vs d h).
Proof. unfold getAscii, ascii_step. reflexivity. Qed.

(** ** Lines that are too long *)

(** A loop whose index wraps before it passes the end, in a command without an M word. *)
Lemma parse_loop_hangs fuel command i d vs cur pid :
  255 <= len command -> Forall (fun c => c <> 77) command -> 0 <= i < 256 -> pid <> 77 ->
  parse_loop fuel command i d vs cur pid = None.
Proof.
  intros Hl F. revert i d vs cur pid. induction fuel as [|fuel IH]; intros i d vs cur pid Hi Hp; [reflexivity|].
  cbn [parse_loop]. rewrite (proj2 (Z.leb_le _ _)), (proj2 (Z.eqb_neq pid 77)) by lia.
  assert (nth (Z.to_nat i) command 0 <> 77) as Hc.
  { destruct (nth_in_or_default (Z.to_nat i) command 0) as [I| ->]; [|lia]. rewrite List.Forall_forall in F. apply F, I. }
  pose proof (u8_range (i + 1)). repeat case_bool; cbn [andb] in *; try discriminate; apply IH; assumption || lia.
Qed.

(** The commands in which exactly the parameters with a value are set. *)
Definition valued (g : Gcode) : bool :=
  (length (parameterValue g) =? 20)%nat && (0 <=? dataType g) && (dataType g <? 4294967296) &&
  negb (dataType g =? 0) && negb (isEmpty g) && empty (hostCommand g) &&
  forallb (fun k => Bool.eqb (Z.testbit (dataType g) (Z.of_nat k)) (negb (empty (value (parameterValue g) k)))) (15%nat :: letters).

Lemma valued_spec g : valued g = true ->
  0 <= dataType g < 4294967296 /\ (dataType g =? 0) || (dataType g =? 4224) = false /\ hostCommand g = [] /\
  hasString g = negb (empty (getString g)) /\
  Forall (fun f => Z.testbit (dataType g) (Z.of_nat (fst f)) = negb (empty (value (parameterValue g) (fst f)))) fields.
Proof.
  unfold valued. intros V. apply andb_true_iff in V as [V B]. apply andb_true_iff in V as [V Hh].
  apply andb_true_iff in V as [V H4]. apply andb_true_iff in V as [V H0]. apply andb_true_iff in V as [V H2].
  apply andb_true_iff in V as [_ H1]. apply Z.leb_le in H1. apply Z.ltb_lt in H2. apply negb_true_iff in H0, H4.
  rewrite forallb_forall in B. repeat split; try assumption.
  - unfold isEmpty in H4. rewrite H0, H4. reflexivity.
  - apply empty_nil, Hh.
  - apply eqb_prop, (B 15%nat). left. reflexivity.
  - apply List.Forall_forall. intros [k t] Hk. apply eqb_prop, B. right. apply (in_map fst) in Hk. exact Hk.
Qed.

(** The head of a request: the data type and, with a text, its length. *)
Definition head_bytes (g : Gcode) : list Z :=
  if empty (getString g) then bytes32 (dataType g) else bytes32 (dataType g) ++ [u8 (len (getString g))].

Section Binary.
Context `{CLibrary}.

Lemma getBinary_shape g line : hostCommand g = [] -> getBinary g = Done line ->
  exists r a b, pushed (parameterValue g) fields (head_bytes g) r /\ len (r ++ getString g) < 256 /\
    line = (r ++ getString g) ++ [u8 a; u8 b] /\ (a, b) = fletcher (r ++ getString g) (0, 0).
Proof.
  intros Hh E. rewrite getBinary_fields in E by exact Hh. apply push_then_inv in E as (r & P & E). fold (getString g) in *.
  apply outcome_bind_inv in E as (q & Eq & E). apply outcome_bind_inv in E as ([a b] & Ef & [= <-]).
  assert (q = r ++ getString g) as ->.
  { destruct (getString g) as [|c s] eqn:Es; [injection Eq as <-; symmetry; apply app_nil_r|]. cbn [empty] in Eq.
    destruct (Z.lt_ge_cases (len (c :: s)) 256) as [L|L]; [rewrite append_all in Eq by exact L; congruence|].
    rewrite append_loop_hangs in Eq by (assumption || lia). discriminate. }
  destruct (Z.lt_ge_cases (len (r ++ getString g)) 256) as [L|L].
  - rewrite fletcher_all in Ef by exact L. exists r, a, b. repeat split; try assumption. congruence.
  - rewrite fletcher_loop_hangs in Ef by (assumption || lia). discriminate.
Qed.

(** [parseBinary] as a loop over the fields. *)
Lemma parseBinary_fields line g0 d : read32 line 0 = Some d -> 0 <= d < 4294967296 ->
  (d =? 0) || (d =? 4224) = false ->
  parseBinary line g0 =
  read_then line d fields (no_values, if Z.testbit d 15 then 5 else 4)
    (fun st => vs ← (if Z.testbit d 15 then
                       n ← load line 4;
                       s ← read_string (Z.to_nat (Z.land n 255)) line (snd st);
                       Some (<[15%nat := s]> (fst st))
                     else Some (fst st));
               let g := mkGcode (originalCommand g0) vs d [] in
               Some (mkGcode (getAscii g) vs d [], true)).
Proof. intros E Hd Hn. unfold parseBinary. rewrite E. bind_some. rewrite u32_id, Hn by exact Hd. reflexivity. Qed.

Lemma fields_distinct : List.NoDup (map fst fields) /\ Forall (fun f => fst f < length no_values)%nat fields /\ ~ In 15%nat (map fst fields).
Proof.
  split; [|split].
  - repeat (constructor; [vm_compute; intuition lia|]). constructor.
  - repeat constructor.
  - vm_compute. intuition lia.
Qed.

(** The values that are read. *)
Lemma read_values g g0 r tail : valued g = true ->
  pushed (parameterValue g) fields (head_bytes g) r -> len (r ++ getString g) < 256 ->
  let vs := <[15%nat := getString g]> (fill (parameterValue g) fields no_values) in
  parseBinary (r ++ getString g ++ tail) g0 = Some (mkGcode (getAscii (mkGcode (originalCommand g0) vs (dataType g) [])) vs (dataType g) [], true).
Proof.
  intros V P L. destruct (valued_spec g V) as (Hd & Hn & Hh & Hs & F).
  destruct (pushed_extends _ _ _ _ P) as (bs & Hr). unfold hasString in Hs.
  assert (exists x, r = bytes32 (dataType g) ++ x /\ (empty (getString g) = false -> load r 4 = Some (u8 (len (getString g))))) as (x & Hx & H4).
  { rewrite Hr. unfold head_bytes. destruct (empty (getString g)); [exists bs; split; [reflexivity|discriminate]|].
    exists ([u8 (len (getString g))] ++ bs). rewrite <- app_assoc. split; reflexivity. }
  rewrite (parseBinary_fields _ g0 (dataType g)); [|rewrite Hx, <- app_assoc; rewrite <- (u32_id (dataType g) Hd) at 2; apply (read32_bytes [])|exact Hd|exact Hn].
  replace (if Z.testbit (dataType g) 15 then 5 else 4) with (len (head_bytes g)).
  2: { rewrite Hs. unfold head_bytes. destruct (empty _); reflexivity. }
  assert (len r < 256) as Lr by (rewrite length_app in L; lia).
  rewrite (read_then_pushed _ _ _ _ _ _ _ _ P Lr F). cbn [fst snd]. rewrite Hs.
  destruct (empty (getString g)) eqn:Ee; cbn [negb].
  - apply empty_nil in Ee. rewrite Ee. bind_some.
    replace (<[15%nat := []]> (fill (parameterValue g) fields no_values)) with (fill (parameterValue g) fields no_values); [reflexivity|].
    destruct fields_distinct as (_ & F20 & N15).
    apply values_equal; [symmetry; apply length_insert|]. intros j. rewrite value_insert by (rewrite fill_length; cbn; lia).
    destruct (Nat.eqb_spec j 15) as [->|]; [|reflexivity]. rewrite fill_other by assumption. reflexivity.
  - assert (load (r ++ getString g ++ tail) 4 = Some (u8 (len (getString g)))) as ->.
    { specialize (H4 eq_refl). unfold load in *. cbn [Z.leb Z.compare] in *. rewrite lookup_app_l; [exact H4|]. apply lookup_lt_Some in H4. exact H4. }
    bind_some. rewrite length_app in L. rewrite land_byte, !u8_id, Nat2Z.id by (rewrite ?u8_id; lia).
    rewrite read_string_spec. reflexivity.
Qed.
End Binary.

(** ** What the firmware makes of it *)

(** The firmware's index of a letter. *)
Definition firmware_index (k : nat) : nat := Gcode.word_index (letter_of k, []).

Definition firmware_word (w : nat * text) : bool := Gcode.word_ok (spelled w).

Lemma firmware_index_known k v : firmware_word (k, v) = true ->
  nth (firmware_index k) Gcode.PARAMETER_ORDER 0 = lowerCase (letter_of k).
Proof.
  unfold firmware_word, firmware_index, Gcode.word_ok, Gcode.word_index. cbn [spelled fst snd].
  destruct (Gcode.strchr _ _) as [j|] eqn:E; [|discriminate]. intros _. apply Gcode.strchr_lt in E. apply E.
Qed.

Lemma letters_differ j k : In j letters -> In k letters -> lowerCase (letter_of j) = lowerCase (letter_of k) -> j = k.
Proof.
  intros Hj Hk. repeat (destruct Hj as [<-|Hj]; [repeat (destruct Hk as [<-|Hk]; [vm_compute; (reflexivity || discriminate)|]); destruct Hk|]).
  destruct Hj.
Qed.

Lemma words_nodup g : List.NoDup (map fst (words g)).
Proof.
  assert (forall ks, List.NoDup ks -> List.NoDup (map fst (flat_map (word_of g) ks)) /\ forall k, In k (map fst (flat_map (word_of g) ks)) -> In k ks) as A.
  { induction 1 as [|k ks Hk N [IH1 IH2]]; [split; [constructor|auto]|]. cbn [flat_map]. unfold word_of at 1 3.
    destruct (Z.testbit _ _); cbn [app map fst]; [|split; [exact IH1|intros j Hj; right; auto]].
    split; [constructor; [intros I; apply Hk, IH2, I|exact IH1]|]. intros j [<-|Hj]; [left; reflexivity|right; auto]. }
  apply A. repeat (constructor; [vm_compute; intuition lia|]). constructor.
Qed.

Lemma in_words g k v : In (k, v) (words g) <->
  In k letters /\ Z.testbit (dataType g) (Z.of_nat k) = true /\ v = value (parameterValue g) k.
Proof.
  unfold words. rewrite in_flat_map. split.
  - intros (j & Hj & I). unfold word_of in I. destruct (Z.testbit _ _) eqn:B; [|destruct I].
    destruct I as [[= <- <-]|[]]. auto.
  - intros (Hk & B & ->). exists k. split; [exact Hk|]. unfold word_of. rewrite B. left. reflexivity.
Qed.

Lemma firmware_nodup g : Forall (fun w => firmware_word w = true) (words g) ->
  List.NoDup (map Gcode.word_index (map spelled (words g))).
Proof.
  intros F. rewrite map_map. rewrite List.Forall_forall in F.
  change (fun w => Gcode.word_index (spelled w)) with (fun w : nat * text => firmware_index (fst w)).
  apply NoDup_map_NoDup_ForallPairs; [|exact (NoDup_map_inv _ _ (words_nodup g))].
  intros [j u] [k v] Ij Ik E. cbn [fst] in E.
  pose proof (firmware_index_known j u (F _ Ij)) as Hj. pose proof (firmware_index_known k v (F _ Ik)) as Hk.
  apply in_words in Ij as (Lj & _ & ->), Ik as (Lk & _ & ->). rewrite E, Hk in Hj.
  rewrite (letters_differ _ _ Lk Lj Hj). reflexivity.
Qed.

Lemma no_checksum `{Gcode.Build} s g : Gcode.parse_checksum s (length s) g = Some g.
Proof. unfold Gcode.parse_checksum. rewrite drop_all. reflexivity. Qed.

(** ** Properties *)

(** A command that M33 Manager writes as text reads back as the same command: for every
    command whose values consist of value characters, with a text only for the M commands
    that take one, and of less than 255 characters, parsing the written line succeeds and
    gives the same set of parameters with the same values. *)
Theorem ascii_roundtrip g g0 : writable g = true ->
  parseLine 257 (getAscii g) g0 = Some (mkGcode (getAscii g) (parameterValue g) (dataType g) [], true).
Proof.
  intros W. destruct (parse_ascii g W) as [(C & O & L) P]. pose proof (writable_not_empty g W) as N.
  unfold parseLine. rewrite stripped_id by assumption. destruct L as (p & c & E & _).
  assert (empty (getAscii g) = false) as -> by (rewrite E; destruct p; reflexivity).
  rewrite (proj2 (Z.eqb_neq _ _)) by apply O. rewrite P. bind_some. unfold isEmpty in N. rewrite N. reflexivity.
Qed.


(** The checksum of the binary form detects what a line does to it most often: when one
    byte of a request is changed, unless 0 and 255 are exchanged, or when two neighbouring
    bytes are exchanged, the checksum of what arrives differs from the one that was sent. *)
Theorem corruption_detected `{CLibrary} g line body a b :
  hostCommand g = [] -> getBinary g = Done line -> line = body ++ [a; b] ->
  (forall pre x y post, body = pre ++ x :: post -> (x - y) mod 255 <> 0 ->
     fletcher_loop BYTE_FUEL (pre ++ y :: post) 0 0 0 <> Done (a, b)) /\
  (forall pre x y post, body = pre ++ x :: y :: post -> (x - y) mod 255 <> 0 ->
     fletcher_loop BYTE_FUEL (pre ++ y :: x :: post) 0 0 0 <> Done (a, b)).
Proof.
  intros Hh E El. destruct (getBinary_shape g line Hh E) as (r & s1 & s2 & _ & L & Hl & Hf).
  rewrite Hl in El. apply app_inj_2 in El as [<- [= <- <-]]; [|reflexivity].
  destruct (fletcher_residue (r ++ getString g) 0 0) as [R1 R2]; [unfold residue; lia|unfold residue; lia|].
  rewrite <- Hf in R1, R2. cbn [fst snd] in R1, R2. unfold residue in R1, R2. rewrite !u8_id by lia.
  rewrite Hf. clear Hl Hf R1 R2.
  split; intros pre x y post Eb N; rewrite Eb in *; rewrite length_app in L; cbn [length] in L;
    rewrite fletcher_all by (rewrite length_app; cbn [length]; lia); intros [= EE]; symmetry in EE; revert EE.
  - apply fletcher_change, N.
  - apply fletcher_swap, N.
Qed.

(** C22. The firmware understands what M33 Manager writes: when every parameter of a writable
    command is one of the firmware's and has the text of a number, the firmware parses the
    written line, each of its fields has the value of the parameter's text, every other
    field is unchanged, and a parameter is present for the firmware if and only if it is set. *)
Theorem firmware_understands `{Gcode.Build} g f :
  writable g = true -> hasString g = false -> Forall (fun w => firmware_word w = true) (words g) ->
  exists f', Gcode.parseCommand (getAscii g) f = Some f' /\ Gcode.isParsed f' = true /\
    (forall k, In k letters -> Z.testbit (dataType g) (Z.of_nat k) = true ->
       Gcode.field f' (firmware_index k) = fst (Gcode.convert (firmware_index k) (value (parameterValue g) k))) /\
    (forall j, (j < 11)%nat -> (forall k, In k letters -> Z.testbit (dataType g) (Z.of_nat k) = true -> firmware_index k <> j) ->
       Gcode.field f' j = Gcode.field f j /\ Z.testbit (Gcode.commandParameters f') (Z.of_nat j) = false) /\
    (forall k, In k letters -> Z.testbit (dataType g) (Z.of_nat k) = true ->
       Z.testbit (Gcode.commandParameters f') (Z.of_nat (firmware_index k)) = true).
Proof.
  intros W Hs F. pose proof (writable_spec g W) as (Hh & _ & _ & (k0 & Hk0 & B0) & _ & _ & Hl).
  rewrite (getAscii_words g Hh Hs (words_set g k0 Hk0 B0)) in *. set (ws := map spelled (words g)) in *.
  assert (Forall (fun w => Gcode.word_ok w = true) ws) as Hok by (apply Forall_map; exact F).
  assert (ws <> []) as Hne by (pose proof (words_set g k0 Hk0 B0); unfold ws; destruct (words g); [congruence|discriminate]).
  pose proof (Gcode.parseCommand_render ws [] [] [] f Hne Hok (firmware_nodup g F)) as P.
  rewrite !app_nil_r in P. cbn [app length Nat.add] in P. rewrite P, no_checksum; try constructor; [|lia].
  set (f0 := Gcode.set_commandParameters 0 (Gcode.set_isParsed true f)).
  destruct (Gcode.put_words_spec ws f0 Hok (firmware_nodup g F)) as (P1 & _ & P3 & P4 & P5).
  assert (forall j, (j < 11)%nat -> Gcode.field f0 j = Gcode.field f j) as F0
    by (intros j Hj; unfold f0; rewrite Gcode.field_params; destruct f; reflexivity).
  assert (forall k, In k letters -> Z.testbit (dataType g) (Z.of_nat k) = true -> In (spelled (k, value (parameterValue g) k)) ws) as Iw
    by (intros k Hk B; apply in_map, in_words; auto).
  eexists. split; [reflexivity|]. split; [exact P1|]. split; [|split].
  - intros k Hk B. exact (P3 _ (Iw k Hk B)).
  - intros j Hj N. assert (~ In j (map Gcode.word_index ws)) as Nj.
    { intros I. apply in_map_iff in I as (w & Ej & I). apply in_map_iff in I as ([k v] & <- & I).
      apply in_words in I as (Hk & B & _). exact (N k Hk B Ej). }
    rewrite P4, P5, F0 by assumption. split; [reflexivity|]. change (Gcode.commandParameters f0) with 0.
    rewrite Z.testbit_0_l. apply not_true_iff_false. cbn [orb]. intros E.
    apply existsb_exists in E as (i & I & E). apply Nat.eqb_eq in E. subst. exact (Nj I).
  - intros k Hk B. rewrite P5. apply orb_true_iff. right. apply existsb_exists. exists (firmware_index k).
    split; [exact (in_map Gcode.word_index _ _ (Iw k Hk B))|apply Nat.eqb_refl].
Qed.

(** A long line hangs M33 Manager: a command of at least 255 characters, not a host
    command and without the letter M, is never parsed to its end, because the eight-bit
    index of the loop cannot pass its length. *)
Theorem long_line_hangs fuel line g :
  255 <= len (stripped line) -> deref (stripped line) <> 64 -> Forall (fun c => c <> 77) (stripped line) ->
  parseLine fuel line g = None.
Proof.
  intros Hl H64 F. unfold parseLine. destruct (stripped line) as [|c s] eqn:E; [cbn in Hl; lia|].
  cbn [empty]. rewrite (proj2 (Z.eqb_neq _ _)) by exact H64.
  rewrite parse_loop_hangs by (assumption || lia). reflexivity.
Qed.

(** A parameter without a value, such as the X of "G1 X Y1.5", is announced in the data type
    but takes no bytes: the reader takes the bytes of the next parameter for it. *)
Lemma flag_misread `{CLibrary} :
  exists g line g', parseLine 257 (str "G1 X Y1.5") new_Gcode = Some (g, true) /\ getBinary g = Done line /\
    parseBinary (line ++ [0; 0]) new_Gcode = Some (g', true) /\
    hasValue 88 g = false /\ getValue 88 g' = str "1.500000" /\ getValue 89 g' <> str "1.500000".
Proof.
  do 3 eexists. split; [vm_compute; reflexivity|]. split; [vm_compute; reflexivity|].
  split; [vm_compute; reflexivity|]. repeat split; vm_compute; congruence.
Qed.

(** ** Witnesses *)

#[export] Instance example_library : CLibrary := {| reports_underflow _ _ := false; nan_payload _ := 0 |}.

Definition example_command : Gcode :=
  setValue 83 (str "-20") (setValue 88 (str "-2.5") (setValue 71 (str "1") (setValue 78 (str "7") new_Gcode))).
Definition example_text_command : Gcode :=
  setString (str "Hello World") (setValue 77 (str "117") (setValue 78 (str "7") new_Gcode)).

Lemma ascii_roundtrip_witness :
  (exists g, parseLine 257 (getAscii example_command) new_Gcode = Some (g, true) /\ getAscii example_command = str "N7 G1 X-2.5 S-20") /\
  exists g, parseLine 257 (getAscii example_text_command) new_Gcode = Some (g, true) /\ getAscii example_text_command = str "N7 M117 Hello World".
Proof.
  split; eexists; (split; [apply ascii_roundtrip; vm_compute; reflexivity|vm_compute; reflexivity]).
Defined.


Lemma corruption_detected_witness :
  exists line, getBinary example_command = Done line /\
    forall a b, line = take (length line - 2) line ++ [a; b] -> fletcher_loop BYTE_FUEL (158 :: drop 1 (take (length line - 2) line)) 0 0 0 <> Done (a, b).
Proof.
  exists (match getBinary example_command with Done l => l | _ => [] end). split; [vm_compute; reflexivity|].
  intros a b E.
  refine (proj1 (corruption_detected example_command _ _ a b eq_refl _ E) [] 141 158 _ _ _);
    [vm_compute; reflexivity|vm_compute; reflexivity|vm_compute; discriminate].
Defined.

Lemma firmware_understands_witness :
  exists f, @Gcode.parseCommand Gcode.default_build (getAscii example_command) Gcode.empty_command = Some f /\
    Gcode.valueN f = 7 /\ Gcode.valueS f = -20.
Proof.
  destruct (@firmware_understands Gcode.default_build example_command Gcode.empty_command) as (f & E & _ & Hf & _ & _);
    [vm_compute; reflexivity|vm_compute; reflexivity|repeat constructor|].
  exists f. split; [exact E|].
  pose proof (Hf 0%nat ltac:(vm_compute; tauto) eq_refl) as H0. pose proof (Hf 10%nat ltac:(vm_compute; tauto) eq_refl) as H1.
  vm_compute in H0, H1. split; [injection H0; auto|injection H1; auto].
Defined.

Lemma long_line_hangs_witness : parseLine 1000 (71 :: repeat 49 254) new_Gcode = None.
Proof.
  apply long_line_hangs; [vm_compute; discriminate|vm_compute; discriminate|].
  apply List.Forall_forall. intros c Hc. apply Z.eqb_neq.
  assert (forallb (fun c => negb (c =? 77)) (stripped (71 :: repeat 49 254)) = true) as A by (vm_compute; reflexivity).
  rewrite forallb_forall in A. apply negb_true_iff, A, Hc.
Defined.
