(* ===== verification/Rom.v ===== *)
(** * The images that M33 Manager installs (M33 Manager/printer.cpp)

    The tables, the cyclic redundancy check, the preparation of a firmware file and the bytes
    that [installFirmware] sends for its pages. A byte is a number below 256. The loop that
    encrypts a file has a sixteen-bit index and may not end: [None]. *)

From S2P Require Import Prelude.

(** ** Definitions *)

Definition CHIP_PAGE_SIZE : Z := 128.
Definition CHIP_NUMBER_OF_PAGES : Z := 128.
Definition CHIP_TOTAL_MEMORY : Z := CHIP_NUMBER_OF_PAGES * CHIP_PAGE_SIZE * 2.

Definition romDecryptionTable : list Z :=
  [38; 226; 99; 172; 39; 222; 13; 148; 121; 171; 41; 135; 20; 149; 31; 174; 95; 237; 71; 206; 96; 188; 17; 195;
   66; 227; 3; 142; 109; 157; 110; 242; 77; 132; 37; 255; 64; 192; 68; 253; 15; 155; 103; 144; 22; 180; 7; 128;
   57; 251; 29; 249; 90; 202; 87; 169; 94; 239; 107; 182; 47; 131; 101; 138; 19; 245; 60; 220; 55; 211; 10;
   244; 119; 243; 32; 232; 115; 219; 123; 187; 11; 250; 100; 143; 8; 163; 125; 235; 92; 156; 62; 140; 48; 176;
   127; 190; 42; 208; 104; 162; 34; 247; 28; 194; 23; 205; 120; 199; 33; 158; 112; 153; 26; 248; 88; 234; 54;
   177; 105; 201; 4; 238; 59; 214; 52; 254; 85; 231; 27; 166; 74; 154; 84; 230; 81; 160; 78; 207; 50; 136; 72;
   164; 51; 165; 91; 185; 98; 212; 111; 152; 108; 225; 83; 203; 70; 221; 1; 229; 122; 134; 117; 223; 49; 210;
   2; 151; 102; 228; 56; 236; 18; 183; 0; 147; 21; 139; 106; 197; 113; 146; 69; 161; 89; 240; 6; 168; 93; 130;
   44; 196; 67; 204; 45; 213; 53; 215; 61; 178; 116; 179; 9; 198; 124; 191; 46; 184; 40; 159; 65; 186; 16; 175;
   12; 252; 35; 217; 73; 246; 126; 141; 24; 150; 86; 209; 43; 173; 75; 193; 79; 200; 58; 241; 30; 189; 76; 218;
   80; 167; 82; 233; 118; 216; 25; 145; 114; 133; 63; 129; 97; 170; 5; 137; 14; 181; 36; 224].

Definition romEncryptionTable : list Z :=
  [172; 156; 164; 26; 120; 250; 184; 46; 84; 200; 70; 80; 212; 6; 252; 40; 210; 22; 170; 64; 12; 174; 44; 104;
   220; 242; 112; 128; 102; 50; 232; 14; 74; 108; 100; 214; 254; 34; 0; 4; 206; 10; 96; 224; 188; 192; 204; 60;
   92; 162; 138; 142; 124; 194; 116; 68; 168; 48; 230; 122; 66; 196; 90; 246; 36; 208; 24; 190; 38; 180; 154;
   18; 140; 216; 130; 226; 234; 32; 136; 228; 236; 134; 238; 152; 132; 126; 222; 54; 114; 182; 52; 144; 88;
   186; 56; 16; 20; 248; 146; 2; 82; 62; 166; 42; 98; 118; 176; 58; 150; 28; 30; 148; 110; 178; 244; 76; 198;
   160; 240; 72; 106; 8; 158; 78; 202; 86; 218; 94; 47; 247; 187; 61; 33; 245; 159; 11; 139; 251; 63; 175; 91;
   219; 27; 83; 43; 243; 179; 173; 7; 13; 221; 165; 149; 111; 131; 41; 89; 29; 109; 207; 135; 181; 99; 85; 141;
   143; 129; 237; 185; 55; 249; 9; 3; 225; 15; 211; 93; 117; 197; 199; 45; 253; 59; 171; 205; 145; 209; 79; 21;
   233; 95; 203; 37; 227; 103; 23; 189; 177; 201; 107; 229; 119; 53; 153; 191; 105; 19; 137; 97; 223; 163; 69;
   147; 193; 123; 195; 241; 215; 235; 77; 67; 155; 5; 161; 255; 151; 1; 25; 167; 157; 133; 127; 75; 239; 115;
   87; 169; 17; 121; 57; 183; 231; 31; 73; 71; 65; 217; 101; 113; 51; 81; 49; 213; 39; 125; 35].

Definition crc32Seed : Z := 4294967295.

Definition crc32Table : list Z :=
  [0; 1996959894; 3993919788; 2567524794; 124634137; 1886057615; 3915621685; 2657392035; 249268274; 2044508324;
   3772115230; 2547177864; 162941995; 2125561021; 3887607047; 2428444049; 498536548; 1789927666; 4089016648;
   2227061214; 450548861; 1843258603; 4107580753; 2211677639; 325883990; 1684777152; 4251122042; 2321926636;
   335633487; 1661365465; 4195302755; 2366115317; 997073096; 1281953886; 3579855332; 2724688242; 1006888145;
   1258607687; 3524101629; 2768942443; 901097722; 1119000684; 3686517206; 2898065728; 853044451; 1172266101;
   3705015759; 2882616665; 651767980; 1373503546; 3369554304; 3218104598; 565507253; 1454621731; 3485111705;
   3099436303; 671266974; 1594198024; 3322730930; 2970347812; 795835527; 1483230225; 3244367275; 3060149565;
   1994146192; 31158534; 2563907772; 4023717930; 1907459465; 112637215; 2680153253; 3904427059; 2013776290;
   251722036; 2517215374; 3775830040; 2137656763; 141376813; 2439277719; 3865271297; 1802195444; 476864866;
   2238001368; 4066508878; 1812370925; 453092731; 2181625025; 4111451223; 1706088902; 314042704; 2344532202;
   4240017532; 1658658271; 366619977; 2362670323; 4224994405; 1303535960; 984961486; 2747007092; 3569037538;
   1256170817; 1037604311; 2765210733; 3554079995; 1131014506; 879679996; 2909243462; 3663771856; 1141124467;
   855842277; 2852801631; 3708648649; 1342533948; 654459306; 3188396048; 3373015174; 1466479909; 544179635;
   3110523913; 3462522015; 1591671054; 702138776; 2966460450; 3352799412; 1504918807; 783551873; 3082640443;
   3233442989; 3988292384; 2596254646; 62317068; 1957810842; 3939845945; 2647816111; 81470997; 1943803523;
   3814918930; 2489596804; 225274430; 2053790376; 3826175755; 2466906013; 167816743; 2097651377; 4027552580;
   2265490386; 503444072; 1762050814; 4150417245; 2154129355; 426522225; 1852507879; 4275313526; 2312317920;
   282753626; 1742555852; 4189708143; 2394877945; 397917763; 1622183637; 3604390888; 2714866558; 953729732;
   1340076626; 3518719985; 2797360999; 1068828381; 1219638859; 3624741850; 2936675148; 906185462; 1090812512;
   3747672003; 2825379669; 829329135; 1181335161; 3412177804; 3160834842; 628085408; 1382605366; 3423369109;
   3138078467; 570562233; 1426400815; 3317316542; 2998733608; 733239954; 1555261956; 3268935591; 3050360625;
   752459403; 1541320221; 2607071920; 3965973030; 1969922972; 40735498; 2617837225; 3943577151; 1913087877;
   83908371; 2512341634; 3803740692; 2075208622; 213261112; 2463272603; 3855990285; 2094854071; 198958881;
   2262029012; 4057260610; 1759359992; 534414190; 2176718541; 4139329115; 1873836001; 414664567; 2282248934;
   4279200368; 1711684554; 285281116; 2405801727; 4167216745; 1634467795; 376229701; 2685067896; 3608007406;
   1308918612; 956543938; 2808555105; 3495958263; 1231636301; 1047427035; 2932959818; 3654703836; 1088359270;
   936918000; 2847714899; 3736837829; 1202900863; 817233897; 3183342108; 3401237130; 1404277552; 615818150;
   3134207493; 3453421203; 1423857449; 601450431; 3009837614; 3294710456; 1567103746; 711928724; 3020668471;
   3272380065; 1510334235; 755167117].

(** A table at the index that a byte gives. *)
Definition at_byte (table : list Z) (b : Z) : Z := nth (Z.to_nat b) table 0.
Definition encrypted (b : Z) : Z := at_byte romEncryptionTable b.
Definition decrypted (b : Z) : Z := at_byte romDecryptionTable b.

(** One iteration of [crc32]. *)
Definition crc_update (crc b : Z) : Z :=
  Z.lxor (at_byte crc32Table (Z.land (Z.lxor crc b) 255)) (Z.shiftr crc 8).

(** [while(--count >= 0)]; a read outside the data is [None]. *)
Fixpoint crc32_loop (count : nat) (data : list Z) (offset crc : Z) : option Z :=
  match count with
  | O => Some crc
  | S count => b ← load data offset; crc32_loop count data (offset + 1) (crc_update crc b)
  end.

Definition crc32 (offset : Z) (data : list Z) (count : Z) : option Z :=
  crc ← crc32_loop (Z.to_nat count) data offset (Z.lxor 0 crc32Seed);
  Some (Z.lxor crc crc32Seed).

(** The byte of the pair that is at a position after its bytes are exchanged; the last
    byte of an odd length is paired with padding. *)
Definition swapped (rom : list Z) (i : Z) (padding : Z) : Z :=
  if (i mod 2 =? 0) && (i =? len rom - 1) then padding
  else nth (Z.to_nat (i + (if i mod 2 =? 0 then 1 else -1))) rom 0.

(** The loop that encrypts, with a sixteen-bit index. *)
Fixpoint encrypt_loop (fuel : nat) (rom : list Z) (i : Z) (encryptedRom : list Z) : option (list Z) :=
  match fuel with
  | O => None
  | S fuel =>
      if i <? len rom then
        encrypt_loop fuel rom (u16 (i + 1)) (encryptedRom ++ [encrypted (swapped rom i 255)])
      else Some encryptedRom
  end.

(** The file as it is installed: encrypted if it is not yet, and of even length. *)
Definition prepare_rom (fuel : nat) (file : list Z) : option (list Z) :=
  rom ← (if (hd 0 file =? 12) || (hd 0 file =? 253) then
           let file := if negb (len file mod 2 =? 0) && (len file <? CHIP_TOTAL_MEMORY) then file ++ [255] else file in
           encrypt_loop fuel file 0 []
         else Some file);
  Some (if negb (len rom mod 2 =? 0) && (len rom <? CHIP_TOTAL_MEMORY) then rom ++ [encrypted 255] else rom).

(** The number of pages. *)
Definition pagesToWrite (rom : list Z) : Z :=
  let pages := len rom / 2 / CHIP_PAGE_SIZE in
  if negb ((len rom / 2) mod CHIP_PAGE_SIZE =? 0) then pages + 1 else pages.

(** The byte that is sent for a position. *)
Definition sent_byte (rom : list Z) (position : Z) : Z :=
  if position <? len rom then swapped rom position (encrypted 255) else encrypted 255.

(** The bytes that are sent for a page. *)
Definition page_bytes (rom : list Z) (page : Z) : list Z :=
  map (fun j => sent_byte rom (Z.of_nat j + CHIP_PAGE_SIZE * page * 2)) (seq 0 (Z.to_nat (CHIP_PAGE_SIZE * 2))).

(** The image whose check the chip is expected to report. *)
Definition decryptedRom (rom : list Z) : list Z :=
  map (fun i => if Z.of_nat i <? len rom then
                  (if (Z.of_nat i mod 2 =? 0) && (Z.of_nat i =? len rom - 1) then 255
                   else decrypted (swapped rom (Z.of_nat i) 0))
                else 255) (seq 0 (Z.to_nat CHIP_TOTAL_MEMORY)).

Definition romCrc (rom : list Z) : option Z := crc32 0 (decryptedRom rom) CHIP_TOTAL_MEMORY.

(** ** The check against its definition

    The reference: one division step by the reflected polynomial per bit. *)
Definition POLYNOMIAL : Z := 3988292384.

Definition crc_bit (c : Z) : Z := Z.lxor (Z.shiftr c 1) (if Z.testbit c 0 then POLYNOMIAL else 0).
Fixpoint crc_bits (n : nat) (c : Z) : Z := match n with O => c | S n => crc_bits n (crc_bit c) end.
Definition crc_byte (c b : Z) : Z := crc_bits 8 (Z.lxor c b).
Definition crc_reference (data : list Z) : Z := Z.lxor (fold_left crc_byte data crc32Seed) crc32Seed.

Definition byte (b : Z) : Prop := 0 <= b < 256.
Definition word (c : Z) : Prop := 0 <= c < 4294967296.

Lemma lxor_cases a b p : Z.lxor (Z.lxor a b) 0 = Z.lxor (Z.lxor a p) (Z.lxor b p) /\
  Z.lxor (Z.lxor a b) p = Z.lxor (Z.lxor a p) b /\ Z.lxor (Z.lxor a b) p = Z.lxor a (Z.lxor b p).
Proof.
  repeat split; apply Z.bits_inj'; intros n Hn; rewrite !Z.lxor_spec, ?Z.bits_0;
    destruct (Z.testbit a n), (Z.testbit b n), (Z.testbit p n); reflexivity.
Qed.

Lemma crc_bit_lxor a b : crc_bit (Z.lxor a b) = Z.lxor (crc_bit a) (crc_bit b).
Proof.
  unfold crc_bit. rewrite Z.shiftr_lxor, Z.lxor_spec.
  destruct (lxor_cases (Z.shiftr a 1) (Z.shiftr b 1) POLYNOMIAL) as (E1 & E2 & E3).
  destruct (Z.testbit a 0), (Z.testbit b 0); cbn [xorb]; rewrite ?Z.lxor_0_r in *; assumption || reflexivity.
Qed.

Lemma crc_bits_lxor n a b : crc_bits n (Z.lxor a b) = Z.lxor (crc_bits n a) (crc_bits n b).
Proof. revert a b. induction n as [|n IH]; intros a b; cbn [crc_bits]; [reflexivity|]. rewrite crc_bit_lxor. apply IH. Qed.

(** Shifted words only lose their zeros. *)
Lemma crc_bits_shifted n x : crc_bits n (Z.shiftl x (Z.of_nat n)) = x.
Proof.
  induction n as [|n IH]; [apply Z.shiftl_0_r|]. cbn [crc_bits].
  assert (crc_bit (Z.shiftl x (Z.of_nat (S n))) = Z.shiftl x (Z.of_nat n)) as ->; [|exact IH].
  unfold crc_bit. rewrite Z.shiftl_spec_low, Z.lxor_0_r, Z.shiftr_shiftl_l by lia. f_equal. lia.
Qed.

Lemma split_byte c : 0 <= c -> c = Z.lxor (Z.shiftl (Z.shiftr c 8) 8) (Z.land c 255).
Proof.
  intros Hc. apply Z.bits_inj'. intros n Hn. change 255 with (Z.ones 8). rewrite Z.lxor_spec, Z.land_spec.
  destruct (Z.lt_ge_cases n 8).
  - rewrite Z.shiftl_spec_low, Z.ones_spec_low, andb_true_r by lia. reflexivity.
  - rewrite Z.shiftl_spec_high, Z.shiftr_spec, Z.ones_spec_high, andb_false_r, xorb_false_r by lia. f_equal. lia.
Qed.

Definition table_right : bool :=
  forallb (fun i => at_byte crc32Table (Z.of_nat i) =? crc_bits 8 (Z.of_nat i)) (seq 0 256).

Lemma table_spec i : byte i -> at_byte crc32Table i = crc_bits 8 i.
Proof.
  intros Hi. assert (table_right = true) as T by (vm_compute; reflexivity). unfold table_right in T.
  rewrite forallb_forall in T. specialize (T (Z.to_nat i)). rewrite Z2Nat.id in T by (unfold byte in Hi; lia).
  apply Z.eqb_eq, T. apply in_seq. unfold byte in Hi. lia.
Qed.

Lemma land_byte_range c : byte (Z.land c 255).
Proof. change 255 with (Z.ones 8). rewrite Z.land_ones by lia. apply Z.mod_pos_bound. lia. Qed.

(** The table step is eight bit steps. *)
Lemma crc_update_spec c b : 0 <= c -> byte b -> crc_update c b = crc_byte c b.
Proof.
  intros Hc Hb. unfold crc_update, crc_byte. rewrite table_spec by apply land_byte_range.
  assert (0 <= Z.lxor c b) as Hx by (apply Z.lxor_nonneg; unfold byte in Hb; lia).
  rewrite (split_byte (Z.lxor c b) Hx) at 2. rewrite crc_bits_lxor, (crc_bits_shifted 8), Z.lxor_comm.
  f_equal. rewrite Z.shiftr_lxor, (Z.shiftr_div_pow2 b 8), (Z.div_small b) by (unfold byte in Hb; lia).
  symmetry. apply Z.lxor_0_r.
Qed.

(** ** Words of 32 bits *)

Lemma word_of_bits x : 0 <= x -> (forall n, 32 <= n -> Z.testbit x n = false) -> word x.
Proof.
  intros Hx H. split; [exact Hx|]. enough (x = x mod 2 ^ 32) as E by (rewrite E; apply Z.mod_pos_bound; lia).
  apply Z.bits_inj'. intros n Hn. destruct (Z.lt_ge_cases n 32).
  - rewrite Z.mod_pow2_bits_low by lia. reflexivity.
  - rewrite Z.mod_pow2_bits_high by lia. apply H. lia.
Qed.

Lemma word_high x n : word x -> 32 <= n -> Z.testbit x n = false.
Proof.
  intros Hx Hn. rewrite <- (Z.mod_small x (2 ^ 32)) by exact Hx. apply Z.mod_pow2_bits_high. lia.
Qed.

Lemma lxor_word a b : word a -> word b -> word (Z.lxor a b).
Proof.
  intros Ha Hb. apply word_of_bits; [apply Z.lxor_nonneg; unfold word in *; lia|].
  intros n Hn. rewrite Z.lxor_spec, !word_high by assumption. reflexivity.
Qed.

Lemma half_word c : word c -> 0 <= Z.shiftr c 1 < 2147483648.
Proof. intros Hc. rewrite Z.shiftr_div_pow2 by lia. unfold word in Hc. change (2 ^ 1) with 2. lia_mod. Qed.

Lemma crc_bit_word c : word c -> word (crc_bit c).
Proof.
  intros Hc. pose proof (half_word c Hc). apply lxor_word; [unfold word; lia|].
  destruct (Z.testbit c 0); unfold word, POLYNOMIAL; lia.
Qed.

Lemma crc_bits_word n c : word c -> word (crc_bits n c).
Proof. revert c. induction n as [|n IH]; intros c Hc; cbn [crc_bits]; [exact Hc|]. apply IH, crc_bit_word, Hc. Qed.

Lemma byte_word b : byte b -> word b.
Proof. unfold byte, word. lia. Qed.

Lemma crc_byte_word c b : word c -> byte b -> word (crc_byte c b).
Proof. intros Hc Hb. apply crc_bits_word, lxor_word; [exact Hc|apply byte_word, Hb]. Qed.

(** No word but zero is taken to zero, so that different words stay different. *)
Lemma crc_bit_zero c : word c -> crc_bit c = 0 -> c = 0.
Proof.
  intros Hc E. pose proof (half_word c Hc) as Hh. unfold crc_bit in E. apply Z.lxor_eq in E.
  destruct (Z.testbit c 0) eqn:B; [unfold POLYNOMIAL in E; lia|].
  rewrite Z.bit0_odd in B. rewrite <- Z.negb_even in B. apply negb_false_iff, Z.even_spec in B as [h ->].
  rewrite Z.shiftr_div_pow2, Z.mul_comm, Z.div_mul in E by lia. lia.
Qed.

Lemma crc_bits_zero n c : word c -> crc_bits n c = 0 -> c = 0.
Proof.
  revert c. induction n as [|n IH]; intros c Hc E; cbn [crc_bits] in E; [exact E|].
  apply crc_bit_zero; [exact Hc|]. apply IH; [apply crc_bit_word, Hc|exact E].
Qed.

Lemma crc_byte_bits c b : crc_byte c b = crc_bits 8 (Z.lxor c b).
Proof. reflexivity. Qed.

#[local] Opaque crc_bits crc_byte.

Lemma crc_byte_inj c b c' b' : word c -> word c' -> byte b -> byte b' ->
  crc_byte c b = crc_byte c' b' -> Z.lxor c b = Z.lxor c' b'.
Proof.
  intros Hc Hc' Hb Hb' E. apply Z.lxor_eq. apply (crc_bits_zero 8).
  - repeat apply lxor_word; try assumption; apply byte_word; assumption.
  - rewrite crc_bits_lxor, <- !crc_byte_bits, E. apply Z.lxor_nilpotent.
Qed.

Lemma lxor_cancel_r a a' b : Z.lxor a b = Z.lxor a' b -> a = a'.
Proof.
  intros E. rewrite <- (Z.lxor_0_r a), <- (Z.lxor_0_r a'), <- (Z.lxor_nilpotent b), <- !Z.lxor_assoc, E. reflexivity.
Qed.

Lemma fold_cons {A B} (f : A -> B -> A) b l a : fold_left f (b :: l) a = fold_left f l (f a b).
Proof. reflexivity. Qed.

Lemma crc_fold_word data c : Forall byte data -> word c -> word (fold_left crc_byte data c).
Proof.
  intros F. revert c. induction F as [|b data Hb F IH]; intros c Hc; [exact Hc|]. rewrite fold_cons. apply IH, crc_byte_word; assumption.
Qed.

Lemma crc_fold_inj data c c' : Forall byte data -> word c -> word c' ->
  fold_left crc_byte data c = fold_left crc_byte data c' -> c = c'.
Proof.
  intros F. revert c c'. induction F as [|b data Hb F IH]; intros c c' Hc Hc' E; [exact E|]. rewrite !fold_cons in E.
  apply IH in E; [|apply crc_byte_word; assumption|apply crc_byte_word; assumption].
  apply crc_byte_inj in E; try assumption. exact (lxor_cancel_r _ _ _ E).
Qed.

(** The loop over the data. *)
Lemma crc32_loop_spec pre data post c : Forall byte data -> word c ->
  crc32_loop (length data) (pre ++ data ++ post) (len pre) c = Some (fold_left crc_byte data c).
Proof.
  intros F. revert pre c. induction F as [|b data Hb F IH]; intros pre c Hc; [reflexivity|].
  rewrite fold_cons. cbn [length crc32_loop]. assert (load (pre ++ (b :: data) ++ post) (len pre) = Some b) as ->.
  { unfold load. rewrite (proj2 (Z.leb_le _ _)), Nat2Z.id by lia. apply list_lookup_middle. reflexivity. }
  bind_some. replace (pre ++ (b :: data) ++ post) with ((pre ++ [b]) ++ data ++ post) by (rewrite <- app_assoc; reflexivity).
  replace (len pre + 1) with (len (pre ++ [b])) by (rewrite length_app; cbn; lia).
  rewrite crc_update_spec by (unfold word in Hc; lia || exact Hb). apply IH, crc_byte_word; assumption.
Qed.

Lemma seed_word : word (Z.lxor 0 crc32Seed).
Proof. change (Z.lxor 0 crc32Seed) with crc32Seed. unfold word, crc32Seed. lia. Qed.

Lemma crc32_whole data : Forall byte data -> crc32 0 data (len data) = Some (crc_reference data).
Proof.
  intros F. unfold crc32. rewrite Nat2Z.id. pose proof (crc32_loop_spec [] data [] _ F seed_word) as E.
  rewrite app_nil_r in E. cbn [app] in E. change (len []) with 0 in E. rewrite E. reflexivity.
Qed.

(** ** The tables are inverse *)

Definition tables_inverse : bool :=
  forallb (fun i => let b := Z.of_nat i in
    (decrypted (encrypted b) =? b) && (encrypted (decrypted b) =? b) && (0 <=? encrypted b) && (encrypted b <? 256)
    && (0 <=? decrypted b) && (decrypted b <? 256)) (seq 0 256).

Lemma tables_spec b : byte b -> decrypted (encrypted b) = b /\ encrypted (decrypted b) = b /\ byte (encrypted b) /\ byte (decrypted b).
Proof.
  intros Hb. assert (tables_inverse = true) as T by (vm_compute; reflexivity). unfold tables_inverse in T.
  rewrite forallb_forall in T. specialize (T (Z.to_nat b)). rewrite Z2Nat.id in T by (unfold byte in Hb; lia).
  assert (In (Z.to_nat b) (seq 0 256)) as I by (apply in_seq; unfold byte in Hb; lia). specialize (T I). cbv zeta in T. bool_hyps.
  unfold byte. repeat split; assumption.
Qed.

(** ** Exchanged pairs *)

Definition partner (i : Z) : Z := i + (if i mod 2 =? 0 then 1 else -1).

Lemma partner_twice i : partner (partner i) = i.
Proof. unfold partner. destruct (Z.eqb_spec (i mod 2) 0);
  [destruct (Z.eqb_spec ((i + 1) mod 2) 0)|destruct (Z.eqb_spec ((i + -1) mod 2) 0)]; lia_mod. Qed.

Lemma partner_range i n : 0 <= i < n -> n mod 2 = 0 -> 0 <= partner i < n.
Proof. unfold partner. intros Hi Hn. destruct (Z.eqb_spec (i mod 2) 0); lia_mod. Qed.

Lemma swapped_even rom i padding : len rom mod 2 = 0 -> 0 <= i < len rom ->
  swapped rom i padding = nth (Z.to_nat (partner i)) rom 0.
Proof.
  intros Hn Hi. unfold swapped, partner. destruct (Z.eqb_spec i (len rom - 1)); [|rewrite andb_false_r; reflexivity].
  destruct (Z.eqb_spec (i mod 2) 0); [exfalso; lia_mod|reflexivity].
Qed.

(** ** The loop that encrypts *)

Lemma encrypt_loop_spec fuel rom k acc : len rom < 65536 -> (k <= length rom)%nat -> (length rom - k < fuel)%nat ->
  encrypt_loop fuel rom (Z.of_nat k) acc
  = Some (acc ++ map (fun i => encrypted (swapped rom (Z.of_nat i) 255)) (seq k (length rom - k))).
Proof.
  intros Hl. revert k acc. induction fuel as [|fuel IH]; intros k acc Hk Hf; [lia|]. cbn [encrypt_loop].
  destruct (Z.ltb_spec (Z.of_nat k) (len rom)).
  - rewrite u16_id by lia. replace (Z.of_nat k + 1) with (Z.of_nat (S k)) by lia. rewrite IH by lia.
    replace (length rom - k)%nat with (S (length rom - S k)) by lia. cbn [seq map]. rewrite <- app_assoc. reflexivity.
  - replace (length rom - k)%nat with 0%nat by lia. rewrite app_nil_r. reflexivity.
Qed.

Lemma encrypt_loop_hangs fuel rom i acc : 65536 <= len rom -> 0 <= i < 65536 -> encrypt_loop fuel rom i acc = None.
Proof.
  intros Hl. revert i acc. induction fuel as [|fuel IH]; intros i acc Hi; [reflexivity|]. cbn [encrypt_loop].
  rewrite (proj2 (Z.ltb_lt _ _)) by lia. apply IH, u16_range.
Qed.

(** An even image, encrypted. *)
Definition encrypt (rom : list Z) : list Z := map (fun i => encrypted (swapped rom (Z.of_nat i) 255)) (seq 0 (length rom)).

Lemma nth_map_seq (f : nat -> Z) n i : (i < n)%nat -> nth i (map f (seq 0 n)) 0 = f i.
Proof. intros Hi. rewrite (nth_indep _ 0 (f 0%nat)) by (rewrite length_map, length_seq; exact Hi). rewrite map_nth, seq_nth by exact Hi. reflexivity. Qed.

Lemma encrypt_length rom : length (encrypt rom) = length rom.
Proof. unfold encrypt. rewrite length_map, length_seq. reflexivity. Qed.

Lemma encrypt_nth rom p : len rom mod 2 = 0 -> 0 <= p < len rom -> nth (Z.to_nat (partner p)) (encrypt rom) 0 = encrypted (nth (Z.to_nat p) rom 0).
Proof.
  intros Hn Hp. pose proof (partner_range p (len rom) Hp Hn). unfold encrypt. rewrite nth_map_seq by lia.
  rewrite Z2Nat.id, swapped_even, partner_twice by lia. reflexivity.
Qed.

(** ** The image on the chip *)

(** A file behind which the flash memory is erased. *)
Definition flash_image (file : list Z) : list Z := file ++ repeat 255 (Z.to_nat CHIP_TOTAL_MEMORY - length file).

(** The byte of the expected image at a position. *)
Definition image_byte (rom : list Z) (i : nat) : Z :=
  if Z.of_nat i <? len rom then decrypted (nth (Z.to_nat (partner (Z.of_nat i))) rom 0) else 255.

Lemma decryptedRom_even rom : len rom mod 2 = 0 ->
  decryptedRom rom = map (image_byte rom) (seq 0 (Z.to_nat CHIP_TOTAL_MEMORY)).
Proof.
  intros Hn. apply map_ext. intros i. unfold image_byte. destruct (Z.ltb_spec (Z.of_nat i) (len rom)); [|reflexivity].
  rewrite swapped_even by lia. destruct (Z.eqb_spec (Z.of_nat i) (len rom - 1)); [|rewrite andb_false_r; reflexivity].
  destruct (Z.eqb_spec (Z.of_nat i mod 2) 0); [exfalso; lia_mod|reflexivity].
Qed.

Lemma decrypted_padding : decrypted (encrypted 255) = 255.
Proof. reflexivity. Qed.

Lemma sent_decrypted rom i : len rom mod 2 = 0 -> decrypted (sent_byte rom (Z.of_nat i)) = image_byte rom i.
Proof.
  intros Hn. unfold sent_byte, image_byte. destruct (Z.ltb_spec (Z.of_nat i) (len rom)); [|reflexivity].
  rewrite swapped_even by lia. reflexivity.
Qed.

(** What is sent for a page is the page of the expected image. *)
Lemma page_decrypted rom p : len rom mod 2 = 0 -> 0 <= p -> (p + 1) * 256 <= CHIP_TOTAL_MEMORY ->
  map decrypted (page_bytes rom p) = take 256 (drop (Z.to_nat (256 * p)) (decryptedRom rom)).
Proof.
  intros Hn Hp Hl. rewrite decryptedRom_even by exact Hn.
  rewrite skipn_map, firstn_map, skipn_seq, take_seq. unfold page_bytes. rewrite map_map.
  change (Z.to_nat (CHIP_PAGE_SIZE * 2)) with 256%nat.
  replace (Nat.min 256 (Z.to_nat CHIP_TOTAL_MEMORY - Z.to_nat (256 * p))) with 256%nat by lia.
  rewrite Nat.add_0_l, <- (Nat.add_0_r (Z.to_nat (256 * p))), <- fmap_add_seq.
  change (?f <$> ?l) with (map f l). rewrite map_map. apply map_ext. intros j.
  rewrite <- sent_decrypted by exact Hn. do 2 f_equal. unfold CHIP_PAGE_SIZE. lia.
Qed.

(** The pages cover the file and fit the chip. *)
Lemma pages_cover rom : len rom mod 2 = 0 -> len rom <= CHIP_TOTAL_MEMORY ->
  len rom <= 256 * pagesToWrite rom <= CHIP_TOTAL_MEMORY.
Proof.
  unfold pagesToWrite, CHIP_TOTAL_MEMORY, CHIP_NUMBER_OF_PAGES, CHIP_PAGE_SIZE. intros Hn Hl.
  destruct (Z.eqb_spec ((len rom / 2) mod 128) 0); cbn [negb]; lia_mod.
Qed.

(** An unencrypted file comes out as it is. *)
Lemma encrypted_image rom : len rom mod 2 = 0 -> len rom <= CHIP_TOTAL_MEMORY -> Forall byte rom ->
  decryptedRom (encrypt rom) = flash_image rom.
Proof.
  intros Hn Hl F. rewrite decryptedRom_even by (rewrite encrypt_length; exact Hn).
  apply (nth_ext _ _ 0 0).
  { unfold flash_image. rewrite length_map, length_seq, length_app, repeat_length. lia. }
  intros i Hi. rewrite length_map, length_seq in Hi. rewrite nth_map_seq by exact Hi.
  unfold image_byte, flash_image. rewrite encrypt_length. destruct (Z.ltb_spec (Z.of_nat i) (len rom)).
  - rewrite encrypt_nth, Nat2Z.id, app_nth1 by lia. apply tables_spec. rewrite List.Forall_forall in F. apply F, nth_In. lia.
  - rewrite app_nth2 by lia. rewrite (nth_indep _ 0 255), nth_repeat by (rewrite repeat_length; lia). reflexivity.
Qed.

Definition unencrypted (file : list Z) : bool := (hd 0 file =? 12) || (hd 0 file =? 253).

Lemma flash_image_padded file : len file < CHIP_TOTAL_MEMORY -> flash_image (file ++ [255]) = flash_image file.
Proof.
  intros Hl. unfold flash_image. rewrite <- app_assoc. f_equal. rewrite length_app. cbn [length].
  replace (Z.to_nat CHIP_TOTAL_MEMORY - length file)%nat with (S (Z.to_nat CHIP_TOTAL_MEMORY - (length file + 1))) by lia. reflexivity.
Qed.

Lemma even_add_one n : n mod 2 <> 0 -> (n + 1) mod 2 = 0.
Proof. intros. lia_mod. Qed.

(** A file that fits the chip is prepared, whatever it holds. *)
Lemma prepare_rom_spec fuel file : len file <= CHIP_TOTAL_MEMORY -> (length file + 1 < fuel)%nat -> Forall byte file ->
  exists rom, prepare_rom fuel file = Some rom /\ len rom mod 2 = 0 /\ len file <= len rom <= CHIP_TOTAL_MEMORY /\ Forall byte rom /\
    (unencrypted file = true -> decryptedRom rom = flash_image file).
Proof.
  intros Hl Hf F. unfold prepare_rom. fold (unencrypted file).
  assert (forall f (pad : Z), len f <= CHIP_TOTAL_MEMORY -> Forall byte f -> byte pad ->
    let f' := if negb (len f mod 2 =? 0) && (len f <? CHIP_TOTAL_MEMORY) then f ++ [pad] else f in
    len f' mod 2 = 0 /\ len f <= len f' <= CHIP_TOTAL_MEMORY /\ len f' <= len f + 1 /\ Forall byte f' /\ (f' = f \/ (len f < CHIP_TOTAL_MEMORY /\ f' = f ++ [pad]))) as A.
  { intros f pad Hlf Ff Hb. cbv zeta. destruct (Z.eqb_spec (len f mod 2) 0); cbn [negb andb]; [repeat split; auto; lia|].
    destruct (Z.ltb_spec (len f) CHIP_TOTAL_MEMORY) as [L|L].
    - rewrite length_app, Nat2Z.inj_add. cbn [length]. change (Z.of_nat 1) with 1.
      repeat split; [apply even_add_one; assumption|lia|lia|lia|apply Forall_app; split; [exact Ff|constructor; [exact Hb|constructor]]|auto].
    - unfold CHIP_TOTAL_MEMORY, CHIP_NUMBER_OF_PAGES, CHIP_PAGE_SIZE in *. exfalso. lia_mod. }
  assert (byte 255) as B255 by (unfold byte; lia).
  destruct (unencrypted file).
  - destruct (A file 255 Hl F B255) as (E & L & L1 & F' & C). cbv zeta in *.
    match goal with |- context [encrypt_loop fuel ?f] => set (f' := f) in * end.
    pose proof (encrypt_loop_spec fuel f' 0 []) as EL. change (Z.of_nat 0) with 0 in EL.
    rewrite EL by (unfold CHIP_TOTAL_MEMORY, CHIP_NUMBER_OF_PAGES, CHIP_PAGE_SIZE in *; lia).
    rewrite Nat.sub_0_r. bind_some. cbn [app]. fold (encrypt f'). rewrite encrypt_length, E. cbn [Z.eqb negb andb].
    exists (encrypt f'). rewrite encrypt_length. repeat split; try assumption; try lia.
    + apply List.Forall_forall. intros b Hb. apply in_map_iff in Hb as (i & <- & Hi). apply in_seq in Hi. apply tables_spec.
      rewrite swapped_even by lia. rewrite List.Forall_forall in F'. apply F', nth_In.
      pose proof (partner_range (Z.of_nat i) (len f')). lia.
    + intros _. rewrite encrypted_image by (assumption || lia).
      destruct C as [-> |[Lt ->]]; [reflexivity|apply flash_image_padded, Lt].
  - destruct (A file (encrypted 255) Hl F) as (E & L & L1 & F' & _); [apply tables_spec, B255|]. bind_some.
    eexists. split; [reflexivity|]. repeat split; try assumption; try lia.
Qed.

Lemma image_byte_byte rom i : Forall byte rom -> len rom mod 2 = 0 -> byte (image_byte rom i).
Proof.
  intros F Hn. unfold image_byte. destruct (Z.ltb_spec (Z.of_nat i) (len rom)); [|unfold byte; lia].
  apply tables_spec. rewrite List.Forall_forall in F. apply F, nth_In.
  pose proof (partner_range (Z.of_nat i) (len rom)). lia.
Qed.

Lemma decryptedRom_bytes rom : Forall byte rom -> len rom mod 2 = 0 ->
  Forall byte (decryptedRom rom) /\ len (decryptedRom rom) = CHIP_TOTAL_MEMORY.
Proof.
  intros F Hn. rewrite decryptedRom_even by exact Hn. split.
  - apply List.Forall_forall. intros b Hb. apply in_map_iff in Hb as (i & <- & _). apply image_byte_byte; assumption.
  - rewrite length_map, length_seq. apply Z2Nat.id. unfold CHIP_TOTAL_MEMORY, CHIP_NUMBER_OF_PAGES, CHIP_PAGE_SIZE. lia.
Qed.

(** ** Properties *)

(** C28. The table-driven check is the standard one: for any bytes anywhere in a buffer it
    returns the remainder that the bit-by-bit division by the reflected polynomial gives. *)
Theorem crc32_is_reference pre data post : Forall byte data ->
  crc32 (len pre) (pre ++ data ++ post) (len data) = Some (crc_reference data).
Proof.
  intros F. unfold crc32. rewrite Nat2Z.id, crc32_loop_spec; [reflexivity|exact F|exact seed_word].
Qed.

(** The check detects every damaged byte: two images of the chip's size or any other that
    differ in one byte have different checks. *)
Theorem crc32_detects pre x y post : Forall byte pre -> Forall byte post -> byte x -> byte y -> x <> y ->
  let n := len (pre ++ x :: post) in crc32 0 (pre ++ x :: post) n <> crc32 0 (pre ++ y :: post) n.
Proof.
  intros Fp Fq Hx Hy N n. unfold n. rewrite crc32_whole by (apply Forall_app; split; [exact Fp|constructor; assumption]).
  replace (len (pre ++ x :: post)) with (len (pre ++ y :: post)) by (rewrite !length_app; reflexivity).
  rewrite crc32_whole by (apply Forall_app; split; [exact Fp|constructor; assumption]).
  intros [= E]. apply lxor_cancel_r in E. rewrite !fold_left_app, !fold_cons in E.
  assert (word (fold_left crc_byte pre crc32Seed)) as W by (apply crc_fold_word; [exact Fp|unfold word, crc32Seed; lia]).
  apply crc_fold_inj in E; [|exact Fq|apply crc_byte_word; assumption|apply crc_byte_word; assumption].
  apply crc_byte_inj in E; try assumption. rewrite !(Z.lxor_comm (fold_left crc_byte pre crc32Seed)) in E.
  exact (N (lxor_cancel_r _ _ _ E)).
Qed.


(** The installation of a large unencrypted file hangs: its size is checked only after
    the loop that encrypts it, whose sixteen-bit index never reaches a length of 65536. *)
Theorem large_file_hangs fuel file : unencrypted file = true -> 65536 <= len file -> prepare_rom fuel file = None.
Proof.
  intros U Hl. unfold prepare_rom. fold (unencrypted file). rewrite U.
  rewrite (proj2 (Z.ltb_ge (len file) CHIP_TOTAL_MEMORY)), andb_false_r
    by (unfold CHIP_TOTAL_MEMORY, CHIP_NUMBER_OF_PAGES, CHIP_PAGE_SIZE; lia).
  rewrite encrypt_loop_hangs by lia. reflexivity.
Qed.

(** ** Witnesses *)

Lemma crc32_is_reference_witness : crc32 1 ([7] ++ [49; 50; 51; 52; 53; 54; 55; 56; 57] ++ [8]) 9 = Some 3421780262.
Proof.
  refine (eq_trans (crc32_is_reference [7] [49; 50; 51; 52; 53; 54; 55; 56; 57] [8] _) _); [|vm_compute; reflexivity].
  repeat (constructor; [unfold byte; lia|]). constructor.
Defined.

Lemma crc32_detects_witness : crc32 0 [1; 2; 3] 3 <> crc32 0 [1; 4; 3] 3.
Proof.
  apply (crc32_detects [1] 2 4 [3]); try discriminate; try (constructor; [unfold byte; lia|constructor]); unfold byte; lia.
Defined.


Lemma large_file_hangs_witness : prepare_rom 100 (12 :: repeat 0 (Z.to_nat 65535)) = None.
Proof.
  apply large_file_hangs; [reflexivity|]. cbn [length]. rewrite repeat_length, Nat2Z.inj_succ, Z2Nat.id; lia.
Defined.
