(* ===== verification/Manager.v ===== *)
(** * The desktop program's side of the printer (M33 Manager/printer.cpp)

    Requests to the printer and its boot loader, access to its EEPROM, the checks of the
    settings and the installation of a firmware. The operating system's serial port is an
    interface, [Serial]; the state keeps every byte that was written to it. Locks, the log
    and the status text are left out. [None] is undefined behaviour (an index outside a
    response), an exception, or a response that does not end within the fuel. *)

From Stdlib Require Import String.
From S2P Require Import Prelude Float32 Common Eeprom HostGcode Rom.

(** ** The serial port and the state *)

(** [still_open] is [tcgetattr]; [os_write] sends bytes and tells whether all were sent;
    [os_read] fails, has nothing yet, or returns a byte; [os_close] is the rest of
    [disconnect], which closes the port if it is open and forgets its name; [refresh_ports]
    is [updateAvailableSerialPorts]; [reconnect] is [connect("", false)] a second after a
    change of the mode and tells whether the port was opened. *)
Class Serial (L : Type) := {
  still_open : L -> bool;
  os_write : list Z -> L -> L * bool;
  os_read : L -> L * option (option Z);
  os_close : bool -> L -> L;
  refresh_ports : L -> L;
  reconnect : bool -> L -> option (L * bool)
}.

Inductive firmwareTypes := M3D | M3D_MOD | IME | UNKNOWN_FIRMWARE.
Inductive operatingModes := BOOTLOADER | FIRMWARE.

#[export] Instance firmwareTypes_eq : EqDecision firmwareTypes.
Proof. solve_decision. Defined.
#[export] Instance operatingModes_eq : EqDecision operatingModes.
Proof. solve_decision. Defined.

Record Printer (L : Type) := mkPrinter {
  link : L;
  fd : bool;
  sent : list Z;
  operatingMode : operatingModes;
  eeprom : list Z;
  firmwareVersion : Z;
  firmwareType : firmwareTypes;
  serialNumber : text;
  validFirmware : bool;
  validBedPosition : bool;
  validBedOrientation : bool
}.
Arguments mkPrinter {L}.
Arguments link {L}.
Arguments fd {L}.
Arguments sent {L}.
Arguments operatingMode {L}.
Arguments eeprom {L}.
Arguments firmwareVersion {L}.
Arguments firmwareType {L}.
Arguments serialNumber {L}.
Arguments validFirmware {L}.
Arguments validBedPosition {L}.
Arguments validBedOrientation {L}.

(** [s[i]] of a [std::string]: the terminator may be read, nothing behind it. *)
Definition string_at (s : text) (i : Z) : option Z := if i =? len s then Some 0 else load s i.

(** ** Firmware versions *)

Definition getFirmwareTypeFromFirmwareVersion (version : Z) : firmwareTypes :=
  let n := version / 100000000 in
  if n =? 19 then IME else if n =? 20 then M3D else if n =? 21 then M3D_MOD else UNKNOWN_FIRMWARE.

(** [substr(pos, n)]: an exception if [pos] is behind the end. *)
Definition substr (s : text) (pos n : nat) : option text :=
  if (pos <=? length s)%nat then Some (take n (drop pos s)) else None.

Definition getFirmwareReleaseFromFirmwareVersion (version : Z) : option text :=
  match getFirmwareTypeFromFirmwareVersion version with
  | M3D => Some (to_string_int version)
  | M3D_MOD => Some (to_string_int (u32 (version - 100000000)))
  | _ =>
      let temp := to_string_int version in
      a ← substr temp 2 2; b ← substr temp 4 2; c ← substr temp 6 2; d ← substr temp 8 2;
      Some (a ++ [46] ++ b ++ [46] ++ c ++ [46] ++ d)
  end.

Definition is_m3d (t : firmwareTypes) : bool := bool_decide (t = M3D) || bool_decide (t = M3D_MOD).

(** [stoi] of a text, an exception being undefined here. *)
Definition stoi_ok (s : text) : option Z := match stoi s with Done n => Some n | _ => None end.

(** ** Settings

    The largest and the smallest normal float. *)
Definition FLT_MAX : f32 := S754_finite false 16777215 104.
Definition FLT_MIN : f32 := S754_finite false 8388608 (-149).

(** A setting with its region, range and default. *)
Inductive setting :=
| FloatSetting (region : Z * Z) (min max default : f32)
| IntSetting (region : Z * Z) (min max default : Z).

(** The settings that are checked for every firmware, for all but the manufacturer's, and
    for every firmware again, in the order of the code. *)
Definition common_settings : list setting := [
  FloatSetting EEPROM_BACKLASH_X f_zero (f_of_Z 2) (f_of_ratio 3 1 10);
  FloatSetting EEPROM_BACKLASH_Y f_zero (f_of_Z 2) (f_of_ratio 6 1 10);
  FloatSetting EEPROM_BACKLASH_SPEED (f_of_Z 1) FLT_MAX (f_of_Z 1500);
  FloatSetting EEPROM_BED_ORIENTATION_BACK_RIGHT (f_of_Z (-3)) (f_of_Z 3) f_zero;
  FloatSetting EEPROM_BED_ORIENTATION_BACK_LEFT (f_of_Z (-3)) (f_of_Z 3) f_zero;
  FloatSetting EEPROM_BED_ORIENTATION_FRONT_LEFT (f_of_Z (-3)) (f_of_Z 3) f_zero;
  FloatSetting EEPROM_BED_ORIENTATION_FRONT_RIGHT (f_of_Z (-3)) (f_of_Z 3) f_zero;
  FloatSetting EEPROM_BED_OFFSET_BACK_RIGHT (fneg FLT_MAX) FLT_MAX f_zero;
  FloatSetting EEPROM_BED_OFFSET_BACK_LEFT (fneg FLT_MAX) FLT_MAX f_zero;
  FloatSetting EEPROM_BED_OFFSET_FRONT_LEFT (fneg FLT_MAX) FLT_MAX f_zero;
  FloatSetting EEPROM_BED_OFFSET_FRONT_RIGHT (fneg FLT_MAX) FLT_MAX f_zero;
  FloatSetting EEPROM_BED_HEIGHT_OFFSET (fneg FLT_MAX) FLT_MAX f_zero;
  IntSetting EEPROM_FILAMENT_TEMPERATURE 50 215 115;
  FloatSetting EEPROM_SPEED_LIMIT_X (f_of_Z 120) (f_of_Z 4800) (f_of_Z 1500);
  FloatSetting EEPROM_SPEED_LIMIT_Y (f_of_Z 120) (f_of_Z 4800) (f_of_Z 1500);
  FloatSetting EEPROM_SPEED_LIMIT_Z (f_of_Z 30) (f_of_Z 60) (f_of_Z 60);
  FloatSetting EEPROM_SPEED_LIMIT_E_POSITIVE (f_of_Z 60) (f_of_Z 600) (f_of_Z 102);
  FloatSetting EEPROM_SPEED_LIMIT_E_NEGATIVE (f_of_Z 60) (f_of_Z 720) (f_of_Z 360)].

Definition other_settings : list setting := [
  FloatSetting EEPROM_LAST_RECORDED_X_VALUE (fneg FLT_MAX) FLT_MAX (f_of_Z 54);
  FloatSetting EEPROM_LAST_RECORDED_Y_VALUE (fneg FLT_MAX) FLT_MAX (f_of_Z 50);
  FloatSetting EEPROM_X_MOTOR_STEPS_PER_MM FLT_MIN FLT_MAX (f_of_ratio 193067875 1 10000000);
  FloatSetting EEPROM_Y_MOTOR_STEPS_PER_MM FLT_MIN FLT_MAX (f_of_ratio 1800885 1 100000);
  FloatSetting EEPROM_Z_MOTOR_STEPS_PER_MM FLT_MIN FLT_MAX (f_of_ratio 6463295 1 10000);
  FloatSetting EEPROM_E_MOTOR_STEPS_PER_MM FLT_MIN FLT_MAX (f_of_ratio 128451375 1 1000000);
  IntSetting EEPROM_X_JERK_SENSITIVITY 1 255 195;
  IntSetting EEPROM_Y_JERK_SENSITIVITY 1 255 195;
  FloatSetting EEPROM_CALIBRATE_Z0_CORRECTION (fneg FLT_MAX) FLT_MAX f_zero;
  FloatSetting EEPROM_EXTERNAL_BED_HEIGHT f_zero (f_of_Z 50) f_zero;
  FloatSetting EEPROM_SKEW_X (f_of_Z (-40)) (f_of_Z 40) f_zero;
  FloatSetting EEPROM_SKEW_Y (f_of_Z (-40)) (f_of_Z 40) f_zero;
  IntSetting EEPROM_HEATBED_TEMPERATURE 0 110 70].

Definition last_settings : list setting := [
  FloatSetting EEPROM_LAST_RECORDED_Z_VALUE (fneg FLT_MAX) FLT_MAX (f_of_Z 5)].

(** ** The version in the name of a file *)

Definition s8 (x : Z) : Z := (x + 128) mod 256 - 128.

(** [find_last_of('.')]. *)
Fixpoint last_dot (s : text) (i : Z) (found : option Z) : option Z :=
  match s with [] => found | c :: s => last_dot s (i + 1) (if c =? 46 then Some i else found) end.

(** [for(; begin >= 0 && isdigit(file[begin]); begin--)]. *)
Fixpoint digits_back (fuel : nat) (file : text) (beginning : Z) : Z :=
  match fuel with
  | O => beginning
  | S fuel =>
      if (0 <=? beginning) && isdigit (nth (Z.to_nat beginning) file 0) then digits_back fuel file (s8 (beginning - 1))
      else beginning
  end.

(** The index of the last character of the version, in eight bits, and the index before its
    first digit, in eight bits with a sign. *)
Definition endOfNumbers (file : text) : Z :=
  match last_dot file 0 None with Some i => u8 (i - 1) | None => u8 (len file - 1) end.
Definition beginningOfNumbers (file : text) : Z := digits_back 128 file (s8 (endOfNumbers file)).

(** The version: an exception, no version in the name, or the version. *)
Definition rom_version (file : text) : option (option Z) :=
  if negb (beginningOfNumbers file =? endOfNumbers file - 10) then Some None
  else digits ← substr file (Z.to_nat (beginningOfNumbers file + 1)) 10; v ← stoi_ok digits; Some (Some v).

(** ** Heights of the manufacturer's firmware

    It stores a height as an integer; the conversions are in double precision. *)
Definition M3D_SCALAR : spec_float :=
  SFdiv 53 1024 (S754_finite false 5170635833481 0) (S754_finite false 1000000000 0).

Definition float_of_double (x : spec_float) : f32 :=
  match x with S754_finite s m e => binary_round 24 128 s m e | _ => x end.
Definition height_of_int (v : Z) : f32 := float_of_double (SFdiv 53 1024 (binary_normalize 53 1024 v 0 false) M3D_SCALAR).

(** [round], and its conversion to [uint32_t]. *)
Definition round_to_int (x : spec_float) : option Z :=
  match x with
  | S754_zero _ => Some 0
  | S754_finite s m e => Some (cond_Zopp s (if 0 <=? e then Z.pos m * 2 ^ e else (2 * Z.pos m + 2 ^ (- e)) / (2 * 2 ^ (- e))))
  | _ => None
  end.
Definition int_of_height (x : f32) : option Z :=
  n ← round_to_int (SFmul 53 1024 x M3D_SCALAR);
  if (0 <=? n) && (n <? 4294967296) then Some n else None.

(** [if(!m) return false;] and what follows. *)
Definition andthen {S} (m k : M S bool) : M S bool :=
  m ≫= (fun ok : bool => if ok then k else mret false).
Infix "&&>" := andthen (at level 58, right associativity) : fw_scope.
#[local] Open Scope fw_scope.

Section Operations.
Context {L : Type} `{Serial L}.

Abbreviation P := (Printer L).

Definition put (l : L) (open : bool) (bytes : list Z) (p : P) : P :=
  mkPrinter l open (sent p ++ bytes) (operatingMode p) (eeprom p) (firmwareVersion p) (firmwareType p)
    (serialNumber p) (validFirmware p) (validBedPosition p) (validBedOrientation p).
Definition set_mode (m : operatingModes) (p : P) : P :=
  mkPrinter (link p) (fd p) (sent p) m (eeprom p) (firmwareVersion p) (firmwareType p)
    (serialNumber p) (validFirmware p) (validBedPosition p) (validBedOrientation p).
Definition set_eeprom (m : list Z) (p : P) : P :=
  mkPrinter (link p) (fd p) (sent p) (operatingMode p) m (firmwareVersion p) (firmwareType p)
    (serialNumber p) (validFirmware p) (validBedPosition p) (validBedOrientation p).
Definition set_identity (v : Z) (t : firmwareTypes) (n : text) (p : P) : P :=
  mkPrinter (link p) (fd p) (sent p) (operatingMode p) (eeprom p) v t n
    (validFirmware p) (validBedPosition p) (validBedOrientation p).
Definition set_validity (f b o : bool) (p : P) : P :=
  mkPrinter (link p) (fd p) (sent p) (operatingMode p) (eeprom p) (firmwareVersion p) (firmwareType p)
    (serialNumber p) f b o.

(** ** Connection *)

Definition disconnect : M P unit := modify (fun p => put (os_close (fd p) (link p)) false [] p).

Definition isConnected : M P bool :=
  open ← gets fd;
  if negb open then mret false
  else l ← gets link;
       if still_open l then mret true else (_ ← disconnect; mret false).

(** [write] to the port. *)
Definition write_port (bytes : list Z) : M P bool :=
  fun p => let '(l, ok) := os_write bytes (link p) in Some (put l (fd p) (if ok then bytes else []) p, ok).

Definition connect_again : M P unit :=
  fun p => '(l, ok) ← reconnect (fd p) (link p); Some (put l ok [] p, tt).

Definition update_ports : M P unit := modify (fun p => put (refresh_ports (link p)) (fd p) [] p).

(** The end of every request: disconnect unless it was sent and the port is still there. *)
Definition end_request (returnValue : bool) : M P bool :=
  ok ← (if returnValue then isConnected else mret false);
  _ ← when (negb ok) disconnect;
  if returnValue then isConnected else mret false.

(** The reconnection after a request that changes the mode. *)
Definition change_mode (mode : operatingModes) : M P unit :=
  m ← gets operatingMode;
  when (negb (bool_decide (m = mode))) (_ ← modify (set_mode mode); connect_again).

(** [sendRequestAscii] of a character. *)
Definition sendChar (data : Z) (checkForModeSwitching : bool) : M P bool :=
  isConnected &&>
  (_ ← when (checkForModeSwitching && (u8 data =? 81)) update_ports;
   returnValue ← write_port [u8 data];
   _ ← when (returnValue && checkForModeSwitching && (u8 data =? 81)) (change_mode FIRMWARE);
   end_request returnValue).

(** [sendRequestAscii] of a text. *)
Definition sendText (data : text) (checkForModeSwitching : bool) : M P bool :=
  isConnected &&>
  (let boot := bool_decide (data = str "M115 S628") in
   _ ← when (checkForModeSwitching && (boot || bool_decide (data = str "Q"))) update_ports;
   returnValue ← write_port data;
   _ ← when (returnValue && checkForModeSwitching && (boot || bool_decide (data = str "Q")))
         (change_mode (if boot then BOOTLOADER else FIRMWARE));
   end_request returnValue).

(** [sendRequestRepetier] of a command and of a line. *)
Definition sendRequestRepetier `{CLibrary} (data : Gcode) : M P bool :=
  isConnected &&>
  (let boot := bool_decide (getValue 77 data = str "115") && bool_decide (getValue 83 data = str "628") in
   _ ← when boot update_ports;
   request ← of_option (match getBinary data with Done r => Some r | _ => None end);
   returnValue ← write_port request;
   _ ← when (returnValue && boot)
         (change_mode BOOTLOADER);
   end_request returnValue).

Definition sendLineRepetier `{CLibrary} (data : text) : M P bool :=
  '(g, ok) ← of_option (parseLine 257 data new_Gcode);
  if ok : bool then sendRequestRepetier g else mret false.

(** ** Responses *)

(** [read] of one character. *)
Definition read_port : M P (option (option Z)) :=
  fun p => let '(l, r) := os_read (link p) in Some (put l (fd p) [] p, r).

(** [for(; i < 10 && !bytesReceived; i++)]: a failure, or how often was read and what. *)
Fixpoint wait_loop (n : nat) (i : Z) : M P (option (Z * option Z)) :=
  match n with
  | O => mret (Some (i, None))
  | S n =>
      r ← read_port;
      match r with
      | None => mret None
      | Some None => wait_loop n (i + 1)
      | Some (Some c) => mret (Some (i + 1, Some c))
      end
  end.

(** The loop over the rest of a response. *)
Fixpoint response_loop (fuel : nat) (response : text) (c : Z) : M P (option text) :=
  match fuel with
  | O => of_option None
  | S fuel =>
      r ← read_port;
      match r with
      | None => mret None
      | Some None => mret (Some (response ++ [c]))
      | Some (Some d) => response_loop fuel (response ++ [c]) d
      end
  end.

(** More characters than any response has. *)
Definition RESPONSE_FUEL : nat := 1024.

Definition receiveResponseAscii : M P text :=
  connected ← isConnected;
  if negb connected then mret []
  else
    w ← wait_loop 10 0;
    match w with
    | None => _ ← disconnect; mret []
    | Some (i, c) =>
        if i =? 10 then mret []
        else r ← response_loop RESPONSE_FUEL [] (default 0 c);
             match r with None => (_ ← disconnect; mret []) | Some s => mret s end
    end.

(** Whether the response is a carriage return. *)
Definition acknowledged : M P bool := r ← receiveResponseAscii; mret (bool_decide (r = [13])).

(** ** Modes *)

Definition ask_mode (mode : operatingModes) : M P bool :=
  sendText (str "M115") true &&>
  (response ← receiveResponseAscii;
   c ← of_option (string_at response 0);
   let m := if c =? 66 then BOOTLOADER else FIRMWARE in
   _ ← modify (set_mode m);
   mret (bool_decide (m = mode))).

Definition inBootloaderMode : M P bool := ask_mode BOOTLOADER.
Definition inFirmwareMode : M P bool := ask_mode FIRMWARE.

Definition switchToBootloaderMode `{CLibrary} : M P unit :=
  firmware ← inFirmwareMode;
  when firmware
    (_ ← sendText (str "M115 S628") true;
     still ← inFirmwareMode;
     when still (_ ← sendLineRepetier (str "M115 S628"); mret tt)).

Definition switchToFirmwareMode : M P unit :=
  boot ← inBootloaderMode;
  when boot (_ ← sendText (str "Q") true; mret tt).

(** ** The EEPROM

    Reading is from the copy that [refreshEeprom] made. *)

Definition refreshEeprom : M P bool :=
  sendChar 83 true &&>
  (response ← receiveResponseAscii;
   if (len response =? 769) && bool_decide (response !! 768%nat = Some 13)
   then (_ ← modify (set_eeprom (take 768 response)); mret true)
   else mret false).

(** [for(int16_t i = offset + length - 1; i >= offset; i--)]. *)
Fixpoint get_int_loop (n : nat) (m : list Z) (offset value : Z) : option Z :=
  match n with
  | O => Some value
  | S n => b ← string_at m (offset + Z.of_nat n); get_int_loop n m offset (u32 (u32 (Z.shiftl value 8) + b))
  end.
Definition eepromGetInt (region : Z * Z) : M P Z :=
  m ← gets eeprom; of_option (get_int_loop (Z.to_nat (snd region)) m (fst region) 0).
Definition eepromGetFloat (region : Z * Z) : M P f32 := v ← eepromGetInt region; mret (f_of_bits v).

Fixpoint get_string_loop (n : nat) (m : list Z) (i : Z) : option text :=
  match n with
  | O => Some []
  | S n => c ← string_at m i; if c =? 0 then Some [] else s ← get_string_loop n m (i + 1); Some (c :: s)
  end.
Definition eepromGetString (region : Z * Z) : M P text :=
  m ← gets eeprom; of_option (get_string_loop (Z.to_nat (snd region)) m (fst region)).

(** Bytes without a check for a change of the mode. *)
Fixpoint send_all (bytes : list Z) : M P bool :=
  match bytes with
  | [] => mret true
  | b :: bytes => sendChar b false &&> send_all bytes
  end.

Definition writeToEeprom (address : Z) (data : list Z) : M P bool :=
  sendChar 85 true &&> sendChar (Z.shiftr address 8) false &&> sendChar address false &&>
  sendChar (Z.shiftr (len data) 8) false &&> sendChar (len data) false &&> send_all data &&> acknowledged.

(** One write for each byte. *)
Fixpoint write_bytes (n : nat) (offset i : Z) (byte_at : Z -> Z) : M P bool :=
  match n with
  | O => mret true
  | S n => writeToEeprom (u16 (offset + i)) [byte_at i] &&> write_bytes n offset (i + 1) byte_at
  end.

Definition int_byte (value i : Z) : Z := if i <? 4 then u8 (Z.shiftr value (8 * i)) else 0.

Definition eepromWriteInt (region : Z * Z) (value : Z) : M P bool :=
  write_bytes (Z.to_nat (snd region)) (fst region) 0 (int_byte value).
Definition eepromWriteFloat (region : Z * Z) (value : f32) : M P bool := eepromWriteInt region (f_to_bits value).
Definition eepromWriteString (region : Z * Z) (value : text) : M P bool :=
  write_bytes (Z.to_nat (snd region)) (fst region) 0 (fun i => if i <? len value then nth (Z.to_nat i) value 0 else 0).

Definition eepromKeepIntWithinRange (region : Z * Z) (min max default : Z) : M P bool :=
  value ← eepromGetInt region;
  if (value <? min) || (max <? value) then
    let low := if value <=? min then min else value in
    eepromWriteInt region (if max <=? low then max else low)
  else mret true.

(** [minValue(max, maxValue(min, value))]. *)
Definition clampFloat (min max value : f32) : f32 :=
  let low := if fle value min then min else value in if fle max low then max else low.

Definition eepromKeepFloatWithinRange (region : Z * Z) (min max default : f32) : M P bool :=
  value ← eepromGetFloat region;
  if negb (is_num value) then eepromWriteFloat region default
  else if flt value min || flt max value then eepromWriteFloat region (clampFloat min max value)
  else mret true.

Definition keep_setting (s : setting) : M P bool :=
  match s with
  | FloatSetting r lo hi d => eepromKeepFloatWithinRange r lo hi d
  | IntSetting r lo hi d => eepromKeepIntWithinRange r lo hi d
  end.
Fixpoint keep_settings (l : list setting) : M P bool :=
  match l with [] => mret true | s :: l => keep_setting s &&> keep_settings l end.

(** ** Fan and extruder *)

Definition HENGLIXIN : Z := 1.
Definition LISTENER : Z := 2.
Definition SHENZHEW : Z := 3.
Definition XINYUJIE : Z := 4.
Definition NO_FAN : Z := 255.

(** Offset and scale of the known fans. *)
Definition fan_calibration (fanType : Z) : option (Z * f32) :=
  if fanType =? HENGLIXIN then Some (200, f_of_ratio 2165354 1 10000000)
  else if fanType =? LISTENER then Some (145, f_of_ratio 3333333 1 10000000)
  else if fanType =? SHENZHEW then Some (82, f_of_ratio 3843137 1 10000000)
  else if fanType =? XINYUJIE then Some (200, f_of_ratio 2165354 1 10000000)
  else None.

(** [if(read != value) if(write) return false;], as the code has it: a write that succeeds
    makes it return false. *)
Definition update_int (region : Z * Z) (value : Z) : M P bool :=
  v ← eepromGetInt region;
  if v =? value then mret true else (written ← eepromWriteInt region value; mret (negb written)).

Definition setFanType (fanType : Z) : M P bool :=
  match fan_calibration fanType with
  | None => mret true
  | Some (fanOffset, fanScale) =>
      scale ← eepromGetFloat EEPROM_FAN_SCALE;
      (if negb (feq scale fanScale) then eepromWriteFloat EEPROM_FAN_SCALE fanScale else mret true) &&>
      update_int EEPROM_FAN_OFFSET fanOffset &&> update_int EEPROM_FAN_TYPE fanType
  end.

Definition setExtruderCurrent (current : Z) : M P bool := update_int EEPROM_E_MOTOR_CURRENT current.

(** ** Collecting the printer's information *)

(** The four bytes of a response, lowest first. *)
Definition response_crc (response : text) : option Z := get_int_loop 4 response 0 0.

(** The fan of a printer whose EEPROM does not name one, from the date of its serial number. *)
Definition fan_of_serial (fanType : Z) (serial : text) : option Z :=
  if ((fanType =? 0) || (fanType =? NO_FAN)) && (8 <=? length serial)%nat then
    let date := take 6 (drop 2 serial) in
    if forallb isdigit date then d ← stoi_ok date; Some (if 150602 <=? d then SHENZHEW else HENGLIXIN)
    else Some fanType
  else Some fanType.

(** The printers whose extruder may not get more than 500mA. *)
Definition weak_extruders : list text :=
  [str "BK15033001100"; str "BK15040201050"; str "BK15040301050"; str "BK15040602050"; str "BK15040801050";
   str "BK15040802100"; str "GR15032702100"; str "GR15033101100"; str "GR15040601100"; str "GR15040701100";
   str "OR15032701100"; str "SL15032601050"].
Definition weak_extruder (serial : text) : bool :=
  (13 <=? length serial)%nat && existsb (fun w => bool_decide (take 13 serial = w)) weak_extruders.

Definition EEPROM_BACKLASH_SPEED_DEFAULT : f32 := f_of_Z 1500.

(** Firmware from before the new bed orientation: clear the offsets of the bed and set the
    speed of the backlash compensation. *)
Definition update_old_firmware : M P bool :=
  t ← gets firmwareType; v ← gets firmwareVersion;
  old ← (if is_m3d t then
           release ← of_option (getFirmwareReleaseFromFirmwareVersion v);
           n ← of_option (stoi_ok release); mret (n <? 2015080402)
         else mret false);
  if old : bool then
    eepromWriteInt (fst EEPROM_BED_OFFSET_BACK_LEFT,
                    snd EEPROM_BED_HEIGHT_OFFSET + fst EEPROM_BED_HEIGHT_OFFSET - fst EEPROM_BED_OFFSET_BACK_LEFT) 0 &&>
    eepromWriteFloat EEPROM_BACKLASH_SPEED EEPROM_BACKLASH_SPEED_DEFAULT
  else mret true.

(** All checks of settings. *)
Definition check_settings : M P bool :=
  t ← gets firmwareType;
  keep_settings (common_settings ++ (if is_m3d t then [] else other_settings) ++ last_settings).

(** What is recorded about the printer. *)
Definition record_validity (chipCrc eepromCrc : Z) : M P unit :=
  t ← gets firmwareType;
  x ← eepromGetInt EEPROM_SAVED_X_STATE; y ← eepromGetInt EEPROM_SAVED_Y_STATE; z ← eepromGetInt EEPROM_SAVED_Z_STATE;
  version ← eepromGetInt EEPROM_BED_ORIENTATION_VERSION;
  br ← eepromGetFloat EEPROM_BED_ORIENTATION_BACK_RIGHT; bl ← eepromGetFloat EEPROM_BED_ORIENTATION_BACK_LEFT;
  fl ← eepromGetFloat EEPROM_BED_ORIENTATION_FRONT_LEFT; fr ← eepromGetFloat EEPROM_BED_ORIENTATION_FRONT_RIGHT;
  let nonzero x := negb (feq x f_zero) in
  modify (set_validity (chipCrc =? eepromCrc)
    (if is_m3d t then negb (z =? 0) else negb (x =? 0) && negb (y =? 0) && negb (z =? 0))
    (negb (version =? 0) && negb (version =? 255) && (nonzero br || nonzero bl || nonzero fl || nonzero fr))).

Definition collectPrinterInformation `{CLibrary} : M P bool :=
  boot ← inBootloaderMode;
  _ ← when (negb boot) switchToBootloaderMode;
  _ ← isConnected;
  sendChar 67 true &&> sendChar 65 true &&>
  (response ← receiveResponseAscii;
   chipCrc ← of_option (response_crc response);
   refreshEeprom &&>
   (eepromCrc ← eepromGetInt EEPROM_FIRMWARE_CRC;
    version ← eepromGetInt EEPROM_FIRMWARE_VERSION;
    serial ← eepromGetString EEPROM_SERIAL_NUMBER;
    _ ← modify (set_identity version (getFirmwareTypeFromFirmwareVersion version) serial);
    fanType ← eepromGetInt EEPROM_FAN_TYPE;
    fanType ← of_option (fan_of_serial fanType serial);
    setFanType fanType &&>
    (if weak_extruder serial then setExtruderCurrent 500 else mret true) &&>
    update_old_firmware &&>
    check_settings &&>
    (_ ← record_validity chipCrc eepromCrc; refreshEeprom))).

(** ** Installing a firmware *)

(** The check of the chip's flash memory. *)
Definition chip_crc : M P (option Z) :=
  ok ← (sendChar 67 true &&> sendChar 65 true);
  if ok : bool then (response ← receiveResponseAscii; crc ← of_option (response_crc response); mret (Some crc))
  else mret None.

Definition set_chip_address : M P bool :=
  sendChar 65 true &&> sendChar 0 true &&> sendChar 0 true &&> acknowledged.

Definition send_page (rom : list Z) (i : Z) : M P bool :=
  sendChar 66 true &&> sendChar (Z.shiftr (CHIP_PAGE_SIZE * 2) 8) false &&> sendChar (CHIP_PAGE_SIZE * 2) false &&>
  send_all (page_bytes rom i) &&> acknowledged.

Fixpoint send_pages (n : nat) (rom : list Z) (i : Z) : M P bool :=
  match n with O => mret true | S n => send_page rom i &&> send_pages n rom (i + 1) end.

(** Erase the flash memory and write the image. *)
Definition write_flash (rom : list Z) : M P bool :=
  (sendChar 69 true &&> acknowledged) &&> set_chip_address &&>
  send_pages (Z.to_nat (pagesToWrite rom)) rom 0 &&> set_chip_address.

(** The values for a firmware other than the manufacturer's, floats as their bits. *)
Definition new_values : list ((Z * Z) * Z) :=
  [(EEPROM_EXPAND_PRINTABLE_REGION, 0);
   (EEPROM_EXTERNAL_BED_HEIGHT, f_to_bits f_zero);
   (EEPROM_CALIBRATE_Z0_CORRECTION, f_to_bits f_zero);
   (EEPROM_X_JERK_SENSITIVITY, 195);
   (EEPROM_Y_JERK_SENSITIVITY, 195);
   (EEPROM_X_MOTOR_STEPS_PER_MM, f_to_bits (f_of_ratio 193067875 1 10000000));
   (EEPROM_Y_MOTOR_STEPS_PER_MM, f_to_bits (f_of_ratio 1800885 1 100000));
   (EEPROM_Z_MOTOR_STEPS_PER_MM, f_to_bits (f_of_ratio 6463295 1 10000));
   (EEPROM_E_MOTOR_STEPS_PER_MM, f_to_bits (f_of_ratio 128451375 1 1000000));
   (EEPROM_SKEW_X, f_to_bits f_zero);
   (EEPROM_SKEW_Y, f_to_bits f_zero);
   (EEPROM_HEATBED_TEMPERATURE, 70)].

Fixpoint write_values (l : list ((Z * Z) * Z)) : M P bool :=
  match l with [] => mret true | (r, v) :: l => eepromWriteInt r v &&> write_values l end.

(** From the manufacturer's firmware to another. *)
Definition leave_m3d (valid_z : bool) : M P bool :=
  if valid_z then
    v ← eepromGetInt EEPROM_LAST_RECORDED_Z_VALUE;
    eepromWriteFloat EEPROM_LAST_RECORDED_Z_VALUE (height_of_int v) &&> write_values new_values
  else mret true.

(** From another firmware to the manufacturer's. *)
Definition enter_m3d (valid_z : bool) : M P bool :=
  (if valid_z then
     z ← eepromGetFloat EEPROM_LAST_RECORDED_Z_VALUE;
     n ← of_option (int_of_height z); eepromWriteInt EEPROM_LAST_RECORDED_Z_VALUE n
   else mret true) &&>
  eepromWriteInt (fst EEPROM_HEATBED_TEMPERATURE,
                  snd EEPROM_SAVED_Y_STATE + fst EEPROM_SAVED_Y_STATE - fst EEPROM_HEATBED_TEMPERATURE) 0 &&>
  eepromWriteInt (fst EEPROM_X_MOTOR_STEPS_PER_MM,
                  snd EEPROM_E_MOTOR_STEPS_PER_MM + fst EEPROM_E_MOTOR_STEPS_PER_MM - fst EEPROM_X_MOTOR_STEPS_PER_MM) 0.

(** The settings that the new firmware reads differently. *)
Definition migrate (romVersion : Z) : M P bool :=
  z ← eepromGetInt EEPROM_SAVED_Z_STATE;
  (if z =? 0 then eepromWriteInt EEPROM_LAST_RECORDED_Z_VALUE 0 else mret true) &&>
  (version ← eepromGetInt EEPROM_FIRMWARE_VERSION;
   let old := is_m3d (getFirmwareTypeFromFirmwareVersion version) in
   let new := is_m3d (getFirmwareTypeFromFirmwareVersion romVersion) in
   if old && negb new then leave_m3d (negb (z =? 0))
   else if negb old && new then enter_m3d (negb (z =? 0))
   else mret true).

(** [installFirmware] of the file with a name and, if it exists, a content. *)
Definition installFirmware `{CLibrary} (fuel : nat) (file : text) (content : option (list Z)) : M P bool :=
  v ← of_option (rom_version file);
  match v with
  | None => mret false
  | Some romVersion =>
      _ ← switchToBootloaderMode;
      match content with
      | None => mret false
      | Some bytes =>
          rom ← of_option (prepare_rom fuel bytes);
          if CHIP_TOTAL_MEMORY <? len rom then mret false
          else
            old ← chip_crc;
            match old with
            | None => mret false
            | Some _ =>
                write_flash rom &&>
                (new ← chip_crc;
                 match new with
                 | None => mret false
                 | Some firmwareCrc =>
                     crc ← of_option (romCrc rom);
                     if negb (firmwareCrc =? crc) then mret false
                     else
                       refreshEeprom &&> migrate romVersion &&>
                       eepromWriteInt EEPROM_FIRMWARE_VERSION romVersion &&>
                       eepromWriteInt EEPROM_FIRMWARE_CRC crc &&>
                       collectPrinterInformation &&> refreshEeprom
                 end)
            end
      end
  end.
End Operations.

(** ** What is sent *)

Section Sent.
Context {L : Type} `{Serial L}.
Abbreviation P := (Printer L).

(** The bytes that were written between two states with the same copy of the EEPROM. *)
Definition Wrote (bytes : list Z) (p p' : P) : Prop :=
  sent p' = sent p ++ bytes /\ eeprom p' = eeprom p /\ firmwareType p' = firmwareType p /\
  firmwareVersion p' = firmwareVersion p.

(** Whatever it returns, nothing is written; or exactly some bytes if it returns true. *)
Definition Silent {A} (m : M P A) : Prop := forall p p' r, m p = Some (p', r) -> Wrote [] p p'.
Definition Sends (m : M P bool) (bytes : list Z) : Prop := forall p p', m p = Some (p', true) -> Wrote bytes p p'.

Lemma wrote_refl p : Wrote [] p p.
Proof. unfold Wrote. rewrite app_nil_r. auto. Qed.

Lemma wrote_trans a b p q r : Wrote a p q -> Wrote b q r -> Wrote (a ++ b) p r.
Proof. intros (A1 & A2 & A3 & A4) (B1 & B2 & B3 & B4). unfold Wrote. rewrite B1, A1, <- app_assoc. repeat split; congruence. Qed.

Lemma wrote_silent b p q r : Wrote [] p q -> Wrote b q r -> Wrote b p r.
Proof. apply wrote_trans. Qed.

Lemma wrote_silent_r b p q r : Wrote b p q -> Wrote [] q r -> Wrote b p r.
Proof. intros A B. rewrite <- (app_nil_r b). exact (wrote_trans _ _ _ _ _ A B). Qed.

Lemma silent_ret {A} (a : A) : Silent (mret a).
Proof. intros p p' r [= <- _]. apply wrote_refl. Qed.
Lemma silent_gets {A} (f : P -> A) : Silent (gets f).
Proof. intros p p' r [= <- _]. apply wrote_refl. Qed.
Lemma silent_option {A} (o : option A) : Silent (of_option o).
Proof. intros p p' r E. apply of_option_inv in E as [_ ->]. apply wrote_refl. Qed.
Lemma silent_bind {A B} (m : M P A) (k : A -> M P B) : Silent m -> (forall a, Silent (k a)) -> Silent (x ← m; k x).
Proof. intros Hm Hk p p' r E. unbind E as q x E1. exact (wrote_silent _ _ _ _ (Hm _ _ _ E1) (Hk _ _ _ _ E)). Qed.
Lemma silent_disconnect : Silent disconnect.
Proof. intros p p' r [= <- _]. unfold Wrote. cbn. rewrite app_nil_r. auto. Qed.
Lemma silent_update_ports : Silent update_ports.
Proof. intros p p' r [= <- _]. unfold Wrote. cbn. rewrite app_nil_r. auto. Qed.
Lemma silent_connect_again : Silent connect_again.
Proof. intros p p' r. unfold connect_again. destruct (reconnect _ _) as [[l ok]|]; [|discriminate]. intros [= <- _]. unfold Wrote. cbn. rewrite app_nil_r. auto. Qed.
Lemma silent_set_mode m : Silent (modify (set_mode m)).
Proof. intros p p' r [= <- _]. unfold Wrote. cbn. rewrite app_nil_r. auto. Qed.
Lemma silent_read_port : Silent read_port.
Proof. intros p p' r. unfold read_port. destruct (os_read _). intros [= <- _]. unfold Wrote. cbn. rewrite app_nil_r. auto. Qed.

Create HintDb silent discriminated.
Hint Constants Opaque : silent.
Hint Resolve silent_ret silent_gets silent_option silent_disconnect silent_update_ports silent_connect_again silent_set_mode silent_read_port : silent.

Ltac silent :=
  repeat lazymatch goal with
  | |- Silent (mbind _ _) => apply silent_bind; [|intros ?]
  | |- Silent (when ?b _) => destruct b; cbn [when]
  | |- Silent (match ?x with _ => _ end) => destruct x
  | |- Silent _ => solve [eauto with silent]
  end.

Lemma silent_isConnected : Silent isConnected.
Proof. unfold isConnected. silent. Qed.
Hint Resolve silent_isConnected : silent.
Lemma silent_finish b : Silent (end_request b).
Proof. unfold end_request. silent. Qed.
Lemma silent_change_mode m : Silent (change_mode m).
Proof. unfold change_mode. silent. Qed.
Hint Resolve silent_finish silent_change_mode : silent.
Lemma silent_wait n i : Silent (wait_loop n i).
Proof. revert i. induction n as [|n IH]; intros i; cbn [wait_loop]; silent. Qed.
Lemma silent_response n s c : Silent (response_loop n s c).
Proof. revert s c. induction n as [|n IH]; intros s c; cbn [response_loop]; silent. Qed.
Hint Resolve silent_wait silent_response : silent.
Lemma silent_receive : Silent receiveResponseAscii.
Proof. unfold receiveResponseAscii. silent. Qed.
Hint Resolve silent_receive : silent.

(** What is sent by a computation that returns true. *)
Lemma andthen_true (m k : M P bool) p p' : (m &&> k) p = Some (p', true) ->
  exists q, m p = Some (q, true) /\ k q = Some (p', true).
Proof.
  unfold andthen. intros E. unbind E as q ok E1. destruct ok; [eauto|discriminate].
Qed.

Lemma sends_andthen m k a b : Sends m a -> Sends k b -> Sends (m &&> k) (a ++ b).
Proof.
  intros Hm Hk p p' E. apply andthen_true in E as (q & E1 & E2). exact (wrote_trans _ _ _ _ _ (Hm _ _ E1) (Hk _ _ E2)).
Qed.

Lemma sends_eq m a b : Sends m a -> a = b -> Sends m b.
Proof. intros Hm <-. exact Hm. Qed.

Lemma sends_silent (m : M P bool) : Silent m -> Sends m [].
Proof. intros Hm p p' E. exact (Hm _ _ _ E). Qed.

Lemma sends_ret b : Sends (mret b) [].
Proof. apply sends_silent, silent_ret. Qed.

(** A request is sent if it returns true. *)
Lemma finish_true ok p p' : end_request ok p = Some (p', true) -> ok = true.
Proof. unfold end_request. intros E. unbind E as q1 a E1. unbind E as q2 b E2. destruct ok; [reflexivity|discriminate]. Qed.

Lemma sends_char b check : Sends (sendChar b check) [u8 b].
Proof.
  intros p p' E. unfold sendChar in E. apply andthen_true in E as (q & E1 & E). apply silent_isConnected in E1.
  apply (wrote_silent _ _ _ _ E1). unbind E as q0 v Eu. assert (Wrote [] q q0) as Wu.
  { refine ((_ : Silent (when _ update_ports)) _ _ _ Eu). silent. }
  apply (wrote_silent _ _ _ _ Wu). unbind E as q1 ok Ew. unbind E as q2 u Em. pose proof (finish_true _ _ _ E) as ->.
  apply silent_finish in E. assert (Wrote [] q1 q2) as Wm.
  { refine ((_ : Silent (when _ (change_mode FIRMWARE))) _ _ _ Em). silent. }
  unfold write_port in Ew. destruct (os_write [u8 b] (link q0)) as [l ok]. injection Ew as Eq1 ->.
  apply (wrote_silent_r _ _ q2); [|exact E]. apply (wrote_silent_r _ _ q1); [|exact Wm].
  rewrite <- Eq1. unfold Wrote. cbn. auto.
Qed.

Lemma sends_all bytes : Sends (send_all bytes) (map u8 bytes).
Proof. induction bytes as [|b bytes IH]; [apply sends_ret|]. exact (sends_andthen _ _ [u8 b] _ (sends_char b false) IH). Qed.

Lemma sends_acknowledged : Sends acknowledged [].
Proof. apply sends_silent. unfold acknowledged. silent. Qed.

(** The command that writes a byte of the EEPROM. *)
Definition write_command (w : Z * Z) : list Z := [85; u8 (Z.shiftr (fst w) 8); u8 (fst w); 0; 1; u8 (snd w)].
Definition commands (ws : list (Z * Z)) : list Z := concat (map write_command ws).

Lemma commands_app a b : commands (a ++ b) = commands a ++ commands b.
Proof. unfold commands. rewrite map_app, concat_app. reflexivity. Qed.

Lemma sends_write address b : Sends (writeToEeprom address [b]) (write_command (address, b)).
Proof.
  unfold writeToEeprom. eapply sends_eq.
  - do 5 (eapply sends_andthen; [apply sends_char|]). eapply sends_andthen; [apply sends_all|apply sends_acknowledged].
  - reflexivity.
Qed.

(** The writes of a value to a region. *)
Definition writes_from (n : nat) (offset i : Z) (byte_at : Z -> Z) : list (Z * Z) :=
  map (fun k => (u16 (offset + (i + Z.of_nat k)), byte_at (i + Z.of_nat k))) (seq 0 n).
Definition writes_of (region : Z * Z) (value : Z) : list (Z * Z) :=
  writes_from (Z.to_nat (snd region)) (fst region) 0 (int_byte value).

Lemma writes_from_succ n offset i f :
  writes_from (S n) offset i f = (u16 (offset + i), f i) :: writes_from n offset (i + 1) f.
Proof.
  unfold writes_from. cbn [seq map]. rewrite Z.add_0_r, <- seq_shift, map_map. f_equal.
  apply map_ext. intros k. replace (i + Z.of_nat (S k)) with (i + 1 + Z.of_nat k) by lia. reflexivity.
Qed.

Lemma sends_write_bytes n offset i f : Sends (write_bytes n offset i f) (commands (writes_from n offset i f)).
Proof.
  revert i. induction n as [|n IH]; intros i; [apply sends_ret|]. rewrite writes_from_succ. cbn [write_bytes].
  exact (sends_andthen _ _ (write_command _) _ (sends_write _ _) (IH _)).
Qed.

Lemma sends_write_int region value : Sends (eepromWriteInt region value) (commands (writes_of region value)).
Proof. apply sends_write_bytes. Qed.
End Sent.

(** ** What the writes do to the memory *)

Definition apply_write (m : list Z) (w : Z * Z) : list Z := <[Z.to_nat (fst w) := u8 (snd w)]> m.
Definition apply_writes (ws : list (Z * Z)) (m : list Z) : list Z := fold_left apply_write ws m.

Lemma apply_writes_app a b m : apply_writes (a ++ b) m = apply_writes b (apply_writes a m).
Proof. apply fold_left_app. Qed.

Lemma apply_writes_length ws m : length (apply_writes ws m) = length m.
Proof. unfold apply_writes. revert m. induction ws as [|w ws IH]; intros m; [reflexivity|]. cbn [fold_left]. rewrite IH. apply length_insert. Qed.

Lemma apply_writes_other ws m (j : nat) : Forall (fun w => Z.to_nat (fst w) <> j) ws -> apply_writes ws m !! j = m !! j.
Proof.
  unfold apply_writes. intros F. revert m. induction F as [|w ws Hw F IH]; intros m; [reflexivity|]. cbn [fold_left].
  rewrite IH. apply list_lookup_insert_ne, Hw.
Qed.

(** Regions inside the copy of the EEPROM. *)
Definition region_ok (r : Z * Z) : Prop := 0 <= fst r /\ 0 <= snd r <= 4 /\ fst r + snd r <= 768.

Lemma writes_lookup n offset i f m (k : nat) :
  0 <= offset + i -> offset + i + Z.of_nat n <= 768 -> length m = 768%nat -> (k < n)%nat ->
  apply_writes (writes_from n offset i f) m !! Z.to_nat (offset + i + Z.of_nat k) = Some (u8 (f (i + Z.of_nat k))).
Proof.
  revert i m k. induction n as [|n IH]; intros i m k Hi Hn Hm Hk; [lia|]. rewrite writes_from_succ.
  change (apply_writes (?w :: ?ws) m) with (apply_writes ws (apply_write m w)).
  destruct k as [|k].
  - rewrite Z.add_0_r, apply_writes_other.
    + unfold apply_write. cbn [fst snd]. rewrite u16_id by lia. rewrite Z.add_0_r, list_lookup_insert_eq by lia. reflexivity.
    + apply List.Forall_forall. intros w Hw. apply in_map_iff in Hw as (q & <- & Hq). apply in_seq in Hq. cbn [fst].
      rewrite u16_id by lia. lia.
  - replace (offset + i + Z.of_nat (S k)) with (offset + (i + 1) + Z.of_nat k) by lia.
    replace (i + Z.of_nat (S k)) with (i + 1 + Z.of_nat k) by lia.
    apply IH; try lia. unfold apply_write. rewrite length_insert. exact Hm.
Qed.

(** A region of a memory as an integer. *)
Definition region_int (m : list Z) (r : Z * Z) : option Z := get_int_loop (Z.to_nat (snd r)) m (fst r) 0.

Lemma string_at_inside m i : length m = 768%nat -> 0 <= i < 768 -> string_at m i = m !! Z.to_nat i.
Proof.
  intros Hm Hi. unfold string_at, load. rewrite (proj2 (Z.eqb_neq _ _)), (proj2 (Z.leb_le _ _)) by lia. reflexivity.
Qed.

Lemma get_int_ext n m m' offset v : length m = 768%nat -> length m' = 768%nat -> 0 <= offset -> offset + Z.of_nat n <= 768 ->
  (forall k, (k < n)%nat -> m !! Z.to_nat (offset + Z.of_nat k) = m' !! Z.to_nat (offset + Z.of_nat k)) ->
  get_int_loop n m offset v = get_int_loop n m' offset v.
Proof.
  intros Hm Hm' Ho Hn E. revert v. induction n as [|n IH]; intros v; [reflexivity|]. cbn [get_int_loop].
  rewrite !string_at_inside by (assumption || lia). rewrite (E n) by lia. destruct (m' !! _); [|reflexivity].
  bind_some. apply IH; [lia|]. intros k Hk. apply E. lia.
Qed.

Lemma get_int_bytes n m offset v acc : length m = 768%nat -> 0 <= offset -> offset + Z.of_nat n <= 768 -> 0 <= acc ->
  (forall k, (k < n)%nat -> m !! Z.to_nat (offset + Z.of_nat k) = Some (u8 (Z.shiftr v (8 * Z.of_nat k)))) ->
  acc * 256 ^ Z.of_nat n + v mod 256 ^ Z.of_nat n < 4294967296 ->
  get_int_loop n m offset acc = Some (acc * 256 ^ Z.of_nat n + v mod 256 ^ Z.of_nat n).
Proof.
  intros Hm Ho. revert acc. induction n as [|n IH]; intros acc Hn Ha E Hb.
  { cbn [get_int_loop]. change (256 ^ Z.of_nat 0) with 1. rewrite Z.mod_1_r. f_equal. lia. }
  cbn [get_int_loop]. rewrite string_at_inside, (E n) by (assumption || lia). bind_some.
  rewrite Nat2Z.inj_succ, Z.pow_succ_r in Hb |- * by lia.
  assert (0 < 256 ^ Z.of_nat n) as Hp by (apply Z.pow_pos_nonneg; lia).
  rewrite (Z.mul_comm 256), Z.rem_mul_r in Hb |- * by lia.
  assert (u8 (Z.shiftr v (8 * Z.of_nat n)) = (v / 256 ^ Z.of_nat n) mod 256) as Eb.
  { unfold u8. rewrite Z.shiftr_div_pow2, Z.pow_mul_r by lia. reflexivity. }
  set (b := (v / 256 ^ Z.of_nat n) mod 256) in *. assert (0 <= b < 256) by (apply Z.mod_pos_bound; lia).
  pose proof (Z.mod_pos_bound v (256 ^ Z.of_nat n) Hp). assert (acc * 256 + b < 4294967296) by nia.
  rewrite Eb, Z.shiftl_mul_pow2 by lia. change (2 ^ 8) with 256. rewrite !u32_id by (rewrite ?u32_id; lia).
  rewrite IH by (try lia; try nia; intros k Hk; apply E; lia). f_equal. nia.
Qed.

Lemma region_written_mod r v m : region_ok r -> length m = 768%nat -> 0 <= v ->
  region_int (apply_writes (writes_of r v) m) r = Some (v mod 256 ^ snd r).
Proof.
  intros (H0 & H4 & H768) Hm Hv. unfold region_int.
  rewrite (get_int_bytes _ _ _ v); try (rewrite ?Z2Nat.id; lia || reflexivity || (rewrite apply_writes_length; exact Hm)).
  - intros k Hk. pose proof (writes_lookup (Z.to_nat (snd r)) (fst r) 0 (int_byte v) m k) as W.
    rewrite Z.add_0_r, Z.add_0_l in W. unfold writes_of. rewrite W by lia. unfold int_byte.
    rewrite (proj2 (Z.ltb_lt _ _)) by lia. f_equal. apply u8_id, u8_range.
  - rewrite Z2Nat.id by lia. assert (0 < 256 ^ snd r <= 256 ^ 4) by (split; [apply Z.pow_pos_nonneg|apply Z.pow_le_mono_r]; lia).
    pose proof (Z.mod_pos_bound v (256 ^ snd r)). change (256 ^ 4) with 4294967296 in *. lia.
Qed.

Lemma region_written r v m : region_ok r -> length m = 768%nat -> 0 <= v < 256 ^ snd r ->
  region_int (apply_writes (writes_of r v) m) r = Some v.
Proof. intros Hr Hm Hv. rewrite region_written_mod, Z.mod_small by (assumption || lia). reflexivity. Qed.

(** Two memories agree on a region. *)
Definition agree (m m' : list Z) (r : Z * Z) : Prop :=
  forall k, (k < Z.to_nat (snd r))%nat -> m !! Z.to_nat (fst r + Z.of_nat k) = m' !! Z.to_nat (fst r + Z.of_nat k).

Lemma agree_int m m' r : region_ok r -> length m = 768%nat -> length m' = 768%nat -> agree m m' r -> region_int m r = region_int m' r.
Proof. intros (H0 & H4 & H768) Hm Hm' A. apply get_int_ext; try assumption; try lia. Qed.

(** Writes within other regions. *)
Definition within (r : Z * Z) (w : Z * Z) : Prop := fst r <= fst w < fst r + snd r.

Lemma writes_within r v : region_ok r -> Forall (within r) (writes_of r v).
Proof.
  intros (H0 & H4 & H768). apply List.Forall_forall. intros w Hw. apply in_map_iff in Hw as (k & <- & Hk). apply in_seq in Hk.
  unfold within. cbn [fst]. rewrite u16_id by lia. lia.
Qed.

Lemma disjoint_agree ws r q m : Forall (within r) ws -> disjoint r q -> 0 <= fst r -> 0 <= fst q -> agree (apply_writes ws m) m q.
Proof.
  intros F D Hr Hq k Hk. apply apply_writes_other. apply (List.Forall_impl _) with (2 := F). intros w Hw.
  unfold within in Hw. unfold disjoint in D. lia.
Qed.

(** ** Settings within their ranges *)

Definition region_of (s : setting) : Z * Z := match s with FloatSetting r _ _ _ | IntSetting r _ _ _ => r end.

(** A value within the range of a setting, and the setting of a memory. *)
Definition float_between (lo hi x : f32) : bool := fle lo x && fle x hi.
Definition in_range (m : list Z) (s : setting) : Prop :=
  exists v, region_int m (region_of s) = Some v /\
    match s with
    | FloatSetting _ lo hi _ => float_between lo hi (f_of_bits v) = true
    | IntSetting _ lo hi _ => lo <= v <= hi
    end.

(** The tables are sensible: the range of a setting is not empty and has its default, its
    limits fit its bytes, and it is inside the copy of the EEPROM. *)
Definition setting_ok (s : setting) : bool :=
  let r := region_of s in
  (0 <=? fst r) && (0 <=? snd r) && (snd r <=? 4) && (fst r + snd r <=? 768) &&
  match s with
  | FloatSetting _ lo hi d =>
      (snd r =? 4) && f32_ok lo && f32_ok hi && f32_ok d && float_between lo hi d && float_between lo hi lo && float_between lo hi hi
  | IntSetting _ lo hi _ => (0 <=? lo) && (lo <=? hi) && (hi <? 256 ^ snd r)
  end.

Lemma setting_region s : setting_ok s = true -> region_ok (region_of s).
Proof. unfold setting_ok, region_ok. intros Hs. apply andb_true_iff in Hs as [Hs _]. bool_hyps. auto. Qed.

(** The clamped value is one of the limits. *)
Lemma clamp_limit lo hi x : is_num x = true -> is_num lo = true -> is_num hi = true -> fle lo hi = true ->
  flt x lo || flt hi x = true -> clampFloat lo hi x = lo \/ clampFloat lo hi x = hi.
Proof.
  intros Hx Hl Hh Hle Ho. unfold clampFloat. destruct (fle x lo) eqn:E1; [destruct (fle hi lo); auto|].
  apply orb_true_iff in Ho as [Ho|Ho]; [apply flt_fle in Ho; congruence|]. apply flt_fle in Ho. rewrite Ho. auto.
Qed.

Lemma fle_num x y : fle x y = true -> is_num x = true /\ is_num y = true.
Proof. unfold fle, SFleb. destruct x, y; cbn; auto; discriminate. Qed.

Section Kept.
Context {L : Type} `{Serial L}.
Abbreviation P := (Printer L).

Lemma eepromGetInt_inv r (p p' : P) v : eepromGetInt r p = Some (p', v) -> p' = p /\ region_int (eeprom p) r = Some v.
Proof. unfold eepromGetInt. intros E. unbind E as q m E1. apply gets_inv in E1 as [-> ->]. apply of_option_inv in E as [E ->]. auto. Qed.

(** What a check of a setting does, as writes. *)
Definition kept (s : setting) (p p' : P) : Prop :=
  exists ws, Wrote (commands ws) p p' /\ Forall (within (region_of s)) ws /\
    forall m, length m = 768%nat -> length (eeprom p) = 768%nat -> agree m (eeprom p) (region_of s) -> in_range (apply_writes ws m) s.

Lemma kept_written s v p p' : region_ok (region_of s) -> Wrote (commands (writes_of (region_of s) v)) p p' ->
  0 <= v < 256 ^ snd (region_of s) ->
  (match s with FloatSetting _ lo hi _ => float_between lo hi (f_of_bits v) = true | IntSetting _ lo hi _ => lo <= v <= hi end) ->
  kept s p p'.
Proof.
  intros Hr W Hv Hi. exists (writes_of (region_of s) v). split; [exact W|]. split; [apply writes_within, Hr|].
  intros m Hm He A. exists v. split; [apply region_written; assumption|exact Hi].
Qed.

Lemma kept_untouched s v p : region_ok (region_of s) -> region_int (eeprom p) (region_of s) = Some v ->
  (match s with FloatSetting _ lo hi _ => float_between lo hi (f_of_bits v) = true | IntSetting _ lo hi _ => lo <= v <= hi end) ->
  kept s p p.
Proof.
  intros Hr Ev Hi. exists []. split; [apply wrote_refl|]. split; [constructor|].
  intros m Hm He A. exists v. split; [rewrite <- Ev; apply agree_int; assumption|exact Hi].
Qed.

Lemma kept_float r lo hi d x p p' : setting_ok (FloatSetting r lo hi d) = true -> f32_ok x = true -> float_between lo hi x = true ->
  eepromWriteFloat r x p = Some (p', true) -> kept (FloatSetting r lo hi d) p p'.
Proof.
  intros Hs Hx Hb E. pose proof (setting_region _ Hs) as Hr. apply sends_write_int in E.
  apply (kept_written _ (f_to_bits x)); [exact Hr|exact E| |].
  - unfold setting_ok in Hs. apply andb_true_iff in Hs as [_ Hs]. cbn [region_of] in *. bool_hyps.
    replace (snd r) with 4 by lia. apply f_bits_range, Hx.
  - rewrite f_of_to_bits by exact Hx. exact Hb.
Qed.

Lemma keep_setting_spec s p p' : setting_ok s = true -> keep_setting s p = Some (p', true) -> kept s p p'.
Proof.
  intros Hs E. pose proof (setting_region s Hs) as Hr. destruct s as [r lo hi d|r lo hi d]; cbn [keep_setting region_of] in *.
  - unfold eepromKeepFloatWithinRange, eepromGetFloat in E. unbind E as q x E1. unbind E1 as q1 v E2.
    apply eepromGetInt_inv in E2 as [-> Ev]. injection E1 as <- <-.
    assert (f32_ok lo = true /\ f32_ok hi = true /\ f32_ok d = true /\ float_between lo hi d = true /\ float_between lo hi lo = true /\ float_between lo hi hi = true) as (Hl & Hh & Hd & B1 & B2 & B3).
    { unfold setting_ok in Hs. cbn [region_of] in Hs. apply andb_true_iff in Hs as [_ Hs].
      repeat (apply andb_true_iff in Hs as [Hs ?]). repeat apply conj; assumption. }
    destruct (fle_num lo hi) as [Nl Nh]; [apply andb_true_iff in B2 as [_ B2]; exact B2|].
    destruct (is_num (f_of_bits v)) eqn:N; cbn [negb] in E; [|exact (kept_float _ _ _ _ _ _ _ Hs Hd B1 E)].
    destruct (flt (f_of_bits v) lo || flt hi (f_of_bits v)) eqn:O.
    + destruct (clamp_limit lo hi (f_of_bits v)) as [C|C]; try assumption; [apply andb_true_iff in B2 as [_ B2]; exact B2| |];
        rewrite C in E; [exact (kept_float _ _ _ _ _ _ _ Hs Hl B2 E)|exact (kept_float _ _ _ _ _ _ _ Hs Hh B3 E)].
    + injection E as <-. apply (kept_untouched _ v); [exact Hr|exact Ev|]. apply orb_false_iff in O as [O1 O2].
      unfold float_between. rewrite !fle_not_flt, O1, O2 by assumption. reflexivity.
  - unfold eepromKeepIntWithinRange in E. unbind E as q v E1. apply eepromGetInt_inv in E1 as [-> Ev].
    assert (0 <= lo /\ lo <= hi /\ hi < 256 ^ snd r) as (H1 & H2 & H3).
    { unfold setting_ok in Hs. cbn [region_of] in Hs. apply andb_true_iff in Hs as [_ Hs]. bool_hyps. auto. }
    destruct ((v <? lo) || (hi <? v)) eqn:O.
    + apply sends_write_int in E. eapply kept_written; [exact Hr|exact E| |]; cbn [region_of];
        destruct (Z.leb_spec v lo); destruct (Z.leb_spec hi (if v <=? lo then lo else v)); bool_hyps; repeat case_bool; bool_hyps; lia.
    + injection E as <-. apply (kept_untouched _ v); [exact Hr|exact Ev|]. bool_hyps. lia.
Qed.

(** Lists of settings whose regions do not overlap. *)
Definition apart (s q : setting) : bool :=
  (fst (region_of s) + snd (region_of s) <=? fst (region_of q)) || (fst (region_of q) + snd (region_of q) <=? fst (region_of s)).
Fixpoint all_apart (l : list setting) : bool :=
  match l with [] => true | s :: l => forallb (apart s) l && all_apart l end.

Lemma apart_disjoint s q : apart s q = true -> disjoint (region_of s) (region_of q).
Proof. unfold apart, disjoint. intros D. bool_hyps; lia. Qed.

Lemma in_range_agree m m' s : region_ok (region_of s) -> length m = 768%nat -> length m' = 768%nat ->
  agree m' m (region_of s) -> in_range m s -> in_range m' s.
Proof. intros Hr Hm Hm' A (v & Ev & Hv). exists v. rewrite (agree_int m' m) by assumption. auto. Qed.

Lemma agree_trans m1 m2 m3 r : agree m1 m2 r -> agree m2 m3 r -> agree m1 m3 r.
Proof. intros A B k Hk. rewrite A, B by exact Hk. reflexivity. Qed.

Lemma disjoint_sym r q : disjoint r q -> disjoint q r.
Proof. unfold disjoint. lia. Qed.

(** Writes that are all within settings of a list leave a setting apart from them alone. *)
Lemma apart_agree l ws q m : Forall (fun s => setting_ok s = true) l -> Forall (fun w => exists s, In s l /\ within (region_of s) w) ws ->
  Forall (fun s => disjoint (region_of s) (region_of q)) l -> region_ok (region_of q) -> agree (apply_writes ws m) m (region_of q).
Proof.
  intros Hok F D Hq k Hk. apply apply_writes_other. apply (List.Forall_impl _) with (2 := F). intros w (s & Hs & Hw).
  rewrite List.Forall_forall in Hok, D. specialize (D s Hs). pose proof (setting_region s (Hok s Hs)) as (Hr & _).
  unfold within in Hw. unfold disjoint in D. destruct Hq. lia.
Qed.

Lemma keep_settings_spec l p p' : Forall (fun s => setting_ok s = true) l -> all_apart l = true ->
  keep_settings l p = Some (p', true) ->
  exists ws, Wrote (commands ws) p p' /\ Forall (fun w => exists s, In s l /\ within (region_of s) w) ws /\
    forall m, length m = 768%nat -> length (eeprom p) = 768%nat -> (forall s, In s l -> agree m (eeprom p) (region_of s)) ->
      forall s, In s l -> in_range (apply_writes ws m) s.
Proof.
  intros Hok. revert p. induction Hok as [|s l Hs Hok IH]; intros p Ha E; cbn [keep_settings all_apart] in *.
  { injection E as <-. exists []. split; [apply wrote_refl|]. split; [constructor|]. intros m _ _ _ s []. }
  apply andb_true_iff in Ha as [Hd Ha]. rewrite forallb_forall in Hd.
  apply andthen_true in E as (q & E1 & E2).
  destruct (keep_setting_spec s p q Hs E1) as (w1 & W1 & F1 & R1). destruct (IH q Ha E2) as (w2 & W2 & F2 & R2).
  exists (w1 ++ w2). split; [rewrite commands_app; exact (wrote_trans _ _ _ _ _ W1 W2)|]. split.
  - apply Forall_app. split; [apply (List.Forall_impl _) with (2 := F1); intros w Hw; exists s; split; [left; reflexivity|exact Hw]|].
    apply (List.Forall_impl _) with (2 := F2). intros w (t & Ht & Hw). exists t. split; [right; exact Ht|exact Hw].
  - intros m Hm He A t Ht. rewrite apply_writes_app. pose proof (setting_region s Hs) as Rs.
    rewrite List.Forall_forall in Hok. destruct Ht as [<-|Ht].
    + apply (in_range_agree (apply_writes w1 m)); [exact Rs|rewrite apply_writes_length; exact Hm|rewrite !apply_writes_length; exact Hm| |].
      * apply (apart_agree l); [apply List.Forall_forall; exact Hok|exact F2| |exact Rs].
        apply List.Forall_forall. intros t Ht. apply disjoint_sym, apart_disjoint, Hd, Ht.
      * apply R1; [exact Hm|exact He|apply A; left; reflexivity].
    + destruct W1 as (_ & Eq & _). apply R2; [rewrite apply_writes_length; exact Hm|rewrite Eq; exact He| |exact Ht].
      intros u Hu. rewrite Eq. apply (agree_trans _ m); [|apply A; right; exact Hu].
      apply (disjoint_agree w1 (region_of s)); [exact F1|apply apart_disjoint, Hd, Hu|apply Rs|apply (setting_region u (Hok u Hu))].
Qed.

(** The settings that are checked for a firmware. *)
Definition checked_settings (t : firmwareTypes) : list setting :=
  common_settings ++ (if is_m3d t then [] else other_settings) ++ last_settings.

Lemma checked_ok t : Forall (fun s => setting_ok s = true) (checked_settings t) /\ all_apart (checked_settings t) = true.
Proof.
  unfold checked_settings. destruct (is_m3d t).
  - split; [|vm_compute; reflexivity]. apply List.Forall_forall, forallb_forall. vm_compute. reflexivity.
  - split; [|vm_compute; reflexivity]. apply List.Forall_forall, forallb_forall. vm_compute. reflexivity.
Qed.

Lemma agree_refl m r : agree m m r.
Proof. intros k _. reflexivity. Qed.
End Kept.

(** ** Nothing is taken back *)

Section Appends.
Context {L : Type} `{Serial L}.
Abbreviation P := (Printer L).

Definition Appends {A} (m : M P A) : Prop := forall p p' r, m p = Some (p', r) -> exists bytes, sent p' = sent p ++ bytes.

Lemma appends_silent {A} (m : M P A) : Silent m -> Appends m.
Proof. intros Hm p p' r E. exists []. apply (Hm _ _ _ E). Qed.
Lemma appends_ret {A} (a : A) : Appends (mret a).
Proof. apply appends_silent, silent_ret. Qed.
Lemma appends_gets {A} (f : P -> A) : Appends (gets f).
Proof. apply appends_silent, silent_gets. Qed.
Lemma appends_option {A} (o : option A) : Appends (of_option o).
Proof. apply appends_silent, silent_option. Qed.
Lemma appends_bind {A B} (m : M P A) (k : A -> M P B) : Appends m -> (forall a, Appends (k a)) -> Appends (x ← m; k x).
Proof.
  intros Hm Hk p p' r E. unbind E as q x E1.
  destruct (Hk _ _ _ _ E) as (b & Eb). destruct (Hm _ _ _ E1) as (a & Ea). exists (a ++ b). rewrite Eb, Ea. symmetry. apply app_assoc.
Qed.
Lemma appends_andthen (m k : M P bool) : Appends m -> Appends k -> Appends (m &&> k).
Proof. intros Hm Hk. apply appends_bind; [exact Hm|]. intros []; [exact Hk|apply appends_ret]. Qed.
Lemma appends_modify (f : P -> P) : (forall p, sent (f p) = sent p) -> Appends (modify f).
Proof. intros Hf p p' r [= <- _]. exists []. rewrite app_nil_r. apply Hf. Qed.
Lemma appends_write bytes : Appends (write_port bytes).
Proof. intros p p' r. unfold write_port. destruct (os_write _ _) as [l ok]. intros [= <- _]. cbn. eauto. Qed.

Create HintDb appends discriminated.
Hint Constants Opaque : appends.
Hint Resolve appends_ret appends_gets appends_option appends_write : appends.

Ltac appends :=
  repeat lazymatch goal with
  | |- Appends (mbind _ _) => apply appends_bind; [|intros ?]
  | |- Appends (andthen _ _) => apply appends_andthen
  | |- Appends (when ?b _) => destruct b; cbn [when]
  | |- Appends (modify _) => apply appends_modify; reflexivity
  | |- Appends (match ?x with _ => _ end) => destruct x
  | |- Appends _ => solve [eauto with appends]
  end.

Lemma appends_isConnected : Appends isConnected.
Proof. apply appends_silent, silent_isConnected. Qed.
Lemma appends_receive : Appends receiveResponseAscii.
Proof. apply appends_silent, silent_receive. Qed.
Lemma appends_finish b : Appends (end_request b).
Proof. apply appends_silent, silent_finish. Qed.
Lemma appends_update_ports : Appends update_ports.
Proof. apply appends_silent, silent_update_ports. Qed.
Lemma appends_change_mode m : Appends (change_mode m).
Proof. apply appends_silent, silent_change_mode. Qed.
Hint Resolve appends_isConnected appends_receive appends_finish appends_update_ports appends_change_mode : appends.

Lemma appends_char b c : Appends (sendChar b c).
Proof. unfold sendChar. appends. Qed.
Lemma appends_text s c : Appends (sendText s c).
Proof. unfold sendText. appends. Qed.
Lemma appends_repetier `{CLibrary} s : Appends (sendLineRepetier s).
Proof. unfold sendLineRepetier, sendRequestRepetier. appends. Qed.
Hint Resolve appends_char appends_text appends_repetier : appends.
Lemma appends_all bytes : Appends (send_all bytes).
Proof. induction bytes; cbn [send_all]; appends. Qed.
Hint Resolve appends_all : appends.
Lemma appends_mode m : Appends (ask_mode m).
Proof. unfold ask_mode. appends. Qed.
Hint Resolve appends_mode : appends.
Lemma appends_boot : Appends inBootloaderMode.
Proof. apply appends_mode. Qed.
Lemma appends_switch `{CLibrary} : Appends switchToBootloaderMode.
Proof. unfold switchToBootloaderMode, inFirmwareMode. appends. Qed.
Lemma appends_refresh : Appends refreshEeprom.
Proof. unfold refreshEeprom. appends. Qed.
Lemma appends_get_int r : Appends (eepromGetInt r).
Proof. unfold eepromGetInt. appends. Qed.
Hint Resolve appends_boot appends_switch appends_refresh appends_get_int : appends.
Lemma appends_get_float r : Appends (eepromGetFloat r).
Proof. unfold eepromGetFloat. appends. Qed.
Lemma appends_get_string r : Appends (eepromGetString r).
Proof. unfold eepromGetString. appends. Qed.
Lemma appends_write_bytes n o i f : Appends (write_bytes n o i f).
Proof. revert i. induction n; intros i; cbn [write_bytes]; unfold writeToEeprom, acknowledged; appends. Qed.
Hint Resolve appends_get_float appends_get_string appends_write_bytes : appends.
Lemma appends_write_int r v : Appends (eepromWriteInt r v).
Proof. apply appends_write_bytes. Qed.
Lemma appends_write_float r v : Appends (eepromWriteFloat r v).
Proof. apply appends_write_bytes. Qed.
Hint Resolve appends_write_int appends_write_float : appends.
Lemma appends_keep l : Appends (keep_settings l).
Proof.
  induction l as [|s l IH]; cbn [keep_settings]; [appends|]. apply appends_andthen; [|exact IH].
  unfold keep_setting, eepromKeepFloatWithinRange, eepromKeepIntWithinRange. appends.
Qed.
Lemma appends_update r v : Appends (update_int r v).
Proof. unfold update_int. appends. Qed.
Hint Resolve appends_keep appends_update : appends.
Lemma appends_collect `{CLibrary} : Appends collectPrinterInformation.
Proof.
  unfold collectPrinterInformation, setFanType, setExtruderCurrent, update_old_firmware, check_settings, record_validity. appends.
Qed.
Lemma appends_values l : Appends (write_values l).
Proof. induction l as [|[r v] l IH]; cbn [write_values]; appends. Qed.
Hint Resolve appends_collect appends_values : appends.
Lemma appends_migrate v : Appends (migrate v).
Proof. unfold migrate, leave_m3d, enter_m3d. appends. Qed.
Lemma appends_chip_crc : Appends chip_crc.
Proof. unfold chip_crc. appends. Qed.
End Appends.

(** ** The flash memory *)

Section Flash.
Context {L : Type} `{Serial L}.
Abbreviation P := (Printer L).

(** The bytes that write an image. *)
Definition page_command (rom : list Z) (i : Z) : list Z := [66; 1; 0] ++ map u8 (page_bytes rom i).
Definition pages_from (n : nat) (rom : list Z) (i : Z) : list Z :=
  concat (map (fun k => page_command rom (i + Z.of_nat k)) (seq 0 n)).
Definition flash_bytes (rom : list Z) : list Z :=
  [69] ++ [65; 0; 0] ++ pages_from (Z.to_nat (pagesToWrite rom)) rom 0 ++ [65; 0; 0].

Lemma sends_page rom i : Sends (L := L) (send_page rom i) (page_command rom i).
Proof.
  unfold send_page. eapply sends_eq.
  - do 3 (eapply sends_andthen; [apply sends_char|]). eapply sends_andthen; [apply sends_all|apply sends_acknowledged].
  - unfold page_command. rewrite app_nil_r. reflexivity.
Qed.

Lemma sends_pages n rom i : Sends (L := L) (send_pages n rom i) (pages_from n rom i).
Proof.
  revert i. induction n as [|n IH]; intros i; [apply sends_ret|]. cbn [send_pages]. eapply sends_eq.
  - apply sends_andthen; [apply sends_page|apply IH].
  - unfold pages_from. cbn [seq map concat]. rewrite Z.add_0_r, <- seq_shift, map_map. do 2 f_equal.
    apply map_ext. intros k. f_equal. lia.
Qed.

Lemma sends_chip_address : Sends (L := L) set_chip_address [65; 0; 0].
Proof.
  unfold set_chip_address. eapply sends_eq.
  - do 3 (eapply sends_andthen; [apply sends_char|]). apply sends_acknowledged.
  - reflexivity.
Qed.

Lemma sends_flash rom : Sends (L := L) (write_flash rom) (flash_bytes rom).
Proof.
  unfold write_flash. eapply sends_eq.
  - eapply sends_andthen; [eapply sends_andthen; [apply sends_char|apply sends_acknowledged]|].
    eapply sends_andthen; [apply sends_chip_address|]. eapply sends_andthen; [apply sends_pages|apply sends_chip_address].
  - unfold flash_bytes. reflexivity.
Qed.

(** The part of an installation behind the check of the chip. *)
Definition conclude `{CLibrary} (romVersion crc : Z) : M P bool :=
  refreshEeprom &&> migrate romVersion &&>
  eepromWriteInt EEPROM_FIRMWARE_VERSION romVersion &&>
  eepromWriteInt EEPROM_FIRMWARE_CRC crc &&>
  collectPrinterInformation &&> refreshEeprom.

Lemma conclude_sends `{CLibrary} v crc p p' : conclude v crc p = Some (p', true) ->
  exists a b, sent p' = sent p ++ a ++ commands (writes_of EEPROM_FIRMWARE_VERSION v ++ writes_of EEPROM_FIRMWARE_CRC crc) ++ b.
Proof.
  unfold conclude. intros E. apply andthen_true in E as (q1 & E1 & E). apply andthen_true in E as (q2 & E2 & E).
  apply andthen_true in E as (q3 & E3 & E). apply andthen_true in E as (q4 & E4 & E). apply andthen_true in E as (q5 & E5 & E6).
  destruct (appends_refresh _ _ _ E1) as (a1 & S1), (appends_migrate _ _ _ _ E2) as (a2 & S2).
  apply sends_write_int in E3 as (S3 & _), E4 as (S4 & _).
  destruct (appends_collect _ _ _ E5) as (b1 & S5), (appends_refresh _ _ _ E6) as (b2 & S6).
  exists (a1 ++ a2), (b1 ++ b2). rewrite S6, S5, S4, S3, S2, S1, commands_app, <- !app_assoc. reflexivity.
Qed.
End Flash.

(** ** Properties *)

Section Properties.
Context {L : Type} `{Serial L}.
Abbreviation P := (Printer L).

(** C26. The check of the settings works: when it reports success, what it sent is exactly the
    commands of some writes, and after these writes every setting that it checks for the
    firmware is a number within its range, whatever the EEPROM held before. *)
Theorem settings_in_range (p p' : P) : length (eeprom p) = 768%nat -> check_settings p = Some (p', true) ->
  exists ws, sent p' = sent p ++ commands ws /\
    forall s, In s (checked_settings (firmwareType p)) -> in_range (apply_writes ws (eeprom p)) s.
Proof.
  intros He E. unfold check_settings in E. unbind E as q t E1. apply gets_inv in E1 as [-> ->].
  fold (checked_settings (firmwareType p)) in E. destruct (checked_ok (firmwareType p)) as [Hok Ha].
  destruct (keep_settings_spec _ _ _ Hok Ha E) as (ws & (Ws & _) & _ & R). exists ws. split; [exact Ws|].
  apply R; [exact He|exact He|]. intros s _. apply agree_refl.
Qed.

(** The parts of an installation that reports success. *)
Lemma install_sent `{CLibrary} fuel file content (p p' : P) :
  installFirmware fuel file content p = Some (p', true) ->
  exists bytes romVersion rom crc a b c q q', content = Some bytes /\
    rom_version file = Some (Some romVersion) /\ prepare_rom fuel bytes = Some rom /\ len rom <= CHIP_TOTAL_MEMORY /\
    sent q = sent p ++ a ++ flash_bytes rom /\ chip_crc q = Some (q', Some crc) /\ romCrc rom = Some crc /\
    sent p' = sent p ++ a ++ flash_bytes rom ++ b ++
      commands (writes_of EEPROM_FIRMWARE_VERSION romVersion ++ writes_of EEPROM_FIRMWARE_CRC crc) ++ c.
Proof.
  unfold installFirmware. intros E. unbind E as p0 v E0. apply of_option_inv in E0 as [Ev ->].
  destruct v as [romVersion|]; [|discriminate]. unbind E as p1 u E1. destruct (appends_switch _ _ _ E1) as (a1 & S1).
  destruct content as [bytes|]; [|discriminate]. unbind E as p2 rom E2. apply of_option_inv in E2 as [Er ->].
  destruct (Z.ltb_spec CHIP_TOTAL_MEMORY (len rom)) as [|Hl]; [discriminate|].
  unbind E as p3 old E3. destruct (appends_chip_crc _ _ _ E3) as (a2 & S3). destruct old as [|]; [|discriminate].
  apply andthen_true in E as (q & E4 & E). apply sends_flash in E4 as (S4 & _).
  unbind E as q' new E5. destruct (appends_chip_crc _ _ _ E5) as (b1 & S5). destruct new as [firmwareCrc|]; [|discriminate].
  unbind E as q2 crc E6. apply of_option_inv in E6 as [Ec ->]. destruct (Z.eqb_spec firmwareCrc crc) as [->|]; cbn [negb] in E; [|discriminate].
  fold (conclude romVersion crc) in E. apply conclude_sends in E as (b2 & c & S7).
  exists bytes, romVersion, rom, crc, (a1 ++ a2), (b1 ++ b2), c, q, q'.
  repeat (split; [assumption || reflexivity|]). split; [rewrite S4, S3, S1, <- !app_assoc; reflexivity|].
  repeat (split; [assumption|]). rewrite S7, S5, S4, S3, S1, <- !app_assoc. reflexivity.
Qed.


(** A fan that has to be updated is reported as a failure: when the offset of a known fan
    in the EEPROM differs from the calibration and the write of the new offset succeeds,
    setting the fan returns false; it goes on only when the write fails. *)
Theorem fan_update_reported_failed fanType fanOffset fanScale scale v (p q : P) :
  fan_calibration fanType = Some (fanOffset, fanScale) ->
  region_int (eeprom p) EEPROM_FAN_SCALE = Some scale -> feq (f_of_bits scale) fanScale = true ->
  region_int (eeprom p) EEPROM_FAN_OFFSET = Some v -> v <> fanOffset ->
  eepromWriteInt EEPROM_FAN_OFFSET fanOffset p = Some (q, true) ->
  setFanType fanType p = Some (q, false).
Proof.
  intros Ec Es Ef Ev N Ew. unfold setFanType. rewrite Ec.
  assert (eepromGetFloat EEPROM_FAN_SCALE p = Some (p, f_of_bits scale)) as Eg.
  { unfold eepromGetFloat. eapply eq_trans; [eapply bind_step|reflexivity]. unfold eepromGetInt. step_pure.
    unfold region_int in Es. rewrite Es. reflexivity. }
  step Eg. rewrite Ef. cbn [negb]. unfold andthen at 1. step_pure. unfold andthen, update_int.
  assert (eepromGetInt EEPROM_FAN_OFFSET p = Some (p, v)) as Eo.
  { unfold eepromGetInt. step_pure. unfold region_int in Ev. rewrite Ev. reflexivity. }
  eapply eq_trans; [eapply bind_step; step Eo; rewrite (proj2 (Z.eqb_neq _ _)) by exact N; step Ew; reflexivity|]. reflexivity.
Qed.

(** Reads that find nothing. *)
Fixpoint quiet (n : nat) (l : L) : option L :=
  match n with O => Some l | S n => match os_read l with (l, Some None) => quiet n l | _ => None end end.

(** A response that begins at the tenth read is lost: the counter then equals the limit,
    and what was read is dropped. *)
Theorem late_response_lost (p : P) l l' c : fd p = true -> still_open (link p) = true ->
  quiet 9 (link p) = Some l -> os_read l = (l', Some (Some c)) ->
  exists p', receiveResponseAscii p = Some (p', []) /\ link p' = l'.
Proof.
  intros Hf Ho Hq Hr. assert (isConnected p = Some (p, true)) as Ec.
  { unfold isConnected. step_pure. rewrite Hf. cbn [negb]. step_pure. rewrite Ho. reflexivity. }
  assert (forall n k (q : P), quiet n (link q) = Some l -> exists q', wait_loop (S n) k q = Some (q', Some (k + Z.of_nat n + 1, Some c)) /\ link q' = l') as A.
  { induction n as [|n IH]; intros k q Hn; cbn [quiet] in Hn.
    - injection Hn as Hn. cbn [wait_loop]. eexists. split.
      + eapply eq_trans; [eapply bind_step; unfold read_port; rewrite Hn, Hr; reflexivity|]. rewrite Z.add_0_r. reflexivity.
      + reflexivity.
    - destruct (os_read (link q)) as [l1 r] eqn:E1. destruct r as [[|]|]; try discriminate.
      destruct (IH (k + 1) (put l1 (fd q) [] q) Hn) as (q' & Ew & Hl). exists q'. split; [|exact Hl].
      change (wait_loop (S (S n)) k) with (r ← read_port; match r with None => mret None | Some None => wait_loop (S n) (k + 1) | Some (Some c) => mret (Some (k + 1, Some c)) end : M P _).
      eapply eq_trans; [eapply bind_step; unfold read_port; rewrite E1; reflexivity|]. cbv beta iota. rewrite Ew. do 4 f_equal. lia. }
  destruct (A 9%nat 0 p Hq) as (p' & Ew & Hl). exists p'. split; [|exact Hl].
  unfold receiveResponseAscii. step Ec. cbn [negb]. step Ew. reflexivity.
Qed.

(** A file whose name is long is refused: when the last dot is at an index from 129 to 256,
    the eight-bit indices of the search for the version cannot meet. *)
Theorem long_name_refused file i : last_dot file 0 None = Some i -> 129 <= i <= 256 -> rom_version file = Some None.
Proof.
  intros Hd Hi. unfold rom_version, beginningOfNumbers, endOfNumbers. rewrite Hd, u8_id by lia.
  assert (s8 (i - 1) < 0) as Hs by (unfold s8; lia_mod). cbn [digits_back].
  rewrite (proj2 (Z.leb_gt _ _)) by exact Hs. cbn [andb]. rewrite (proj2 (Z.eqb_neq _ _)); [reflexivity|]. unfold s8. lia_mod.
Qed.
End Properties.

(** ** Witnesses *)

(** A port that accepts everything and answers with given responses, one after the other. *)
#[export] Instance scripted : Serial (list (list Z)) := {|
  still_open _ := true;
  os_write _ l := (l, true);
  os_read l := match l with
               | [] => ([], Some None)
               | [] :: l => (l, Some None)
               | (c :: r) :: l => (r :: l, Some (Some c))
               end;
  os_close _ l := l;
  refresh_ports l := l;
  reconnect _ l := Some (l, true)
|}.

(** An EEPROM with the defaults of all settings. *)
Definition default_writes (s : setting) : list (Z * Z) :=
  match s with FloatSetting r _ _ d => writes_of r (f_to_bits d) | IntSetting r _ _ d => writes_of r d end.
Definition example_eeprom : list Z :=
  apply_writes (concat (map default_writes (checked_settings IME)) ++ writes_of EEPROM_FIRMWARE_VERSION 1900000117 ++
                writes_of EEPROM_SAVED_Z_STATE 1 ++ writes_of EEPROM_FAN_TYPE 254) (repeat 0 768).
Definition example_printer (m : list Z) (responses : list (list Z)) : Printer (list (list Z)) :=
  mkPrinter responses true [] BOOTLOADER m 1900000117 IME [] false false false.

(** Not a number as the backlash: four bytes are written. *)
Definition broken_eeprom : list Z := apply_writes (writes_of EEPROM_BACKLASH_X 2143289344) example_eeprom.

Definition after {L} (r : option (Printer L * bool)) (p : Printer L) : Printer L := match r with Some (p', _) => p' | None => p end.

Lemma settings_in_range_witness :
  exists p', check_settings (example_printer broken_eeprom (repeat [13] 4)) = Some (p', true) /\ sent p' <> [] /\
    exists ws, sent p' = commands ws.
Proof.
  set (p := example_printer broken_eeprom (repeat [13] 4)).
  exists (after (check_settings p) p). split; [vm_compute; reflexivity|]. split; [vm_compute; discriminate|].
  destruct (settings_in_range p (after (check_settings p) p)) as (ws & E & _); [vm_compute; reflexivity|vm_compute; reflexivity|].
  exists ws. exact E.
Defined.

Lemma fan_update_reported_failed_witness :
  exists q, setFanType LISTENER (example_printer (apply_writes (writes_of EEPROM_FAN_SCALE (f_to_bits (f_of_ratio 3333333 1 10000000))) example_eeprom) [[13]]) = Some (q, false).
Proof.
  set (p := example_printer _ _).
  exists (after (eepromWriteInt EEPROM_FAN_OFFSET 145 p) p).
  apply (fan_update_reported_failed LISTENER 145 (f_of_ratio 3333333 1 10000000) (f_to_bits (f_of_ratio 3333333 1 10000000)) 0 p);
    [reflexivity|vm_compute; reflexivity|vm_compute; reflexivity|vm_compute; reflexivity|discriminate|vm_compute; reflexivity].
Defined.

(** The installation of a small file. *)
Definition example_file : list Z := [12; 148; 1].
Definition example_rom : list Z := match prepare_rom 10 example_file with Some r => r | None => [] end.
Definition example_crc : Z := crc_reference (flash_image example_file).
Definition example_responses : list (list Z) :=
  let eeprom := example_eeprom ++ [13] in
  [[66]; [1; 2; 3; 4]; [13]; [13]; [13]; [13]; le_bytes 4 example_crc; eeprom] ++ repeat [13] 8 ++
  [[66]; le_bytes 4 example_crc; eeprom; eeprom; eeprom].
Definition example_name : text := str "roms/iMe 1900000118.hex".

Lemma example_rom_crc : prepare_rom 10 example_file = Some example_rom /\ romCrc example_rom = Some example_crc.
Proof.
  destruct (prepare_rom_spec 10 example_file) as (rom & E & Hn & L & F & Hu);
    [vm_compute; discriminate|cbn; lia|repeat (constructor; [unfold byte; lia|]); constructor|].
  unfold example_rom. rewrite E. split; [reflexivity|]. destruct (decryptedRom_bytes rom F Hn) as [B L'].
  unfold romCrc, example_crc. rewrite <- L', <- (Hu eq_refl). apply crc32_whole, B.
Qed.

(** The installation with the image and its check known. *)
Definition install_rom `{Serial L} `{CLibrary} (romVersion : Z) (rom : list Z) (crc : Z) : M (Printer L) bool :=
  _ ← switchToBootloaderMode;
  old ← chip_crc;
  match old with
  | None => mret false
  | Some _ =>
      write_flash rom &&>
      (new ← chip_crc;
       match new with
       | None => mret false
       | Some firmwareCrc => if negb (firmwareCrc =? crc) then mret false else conclude romVersion crc
       end)
  end.

Lemma bind_same {S A B} (m : M S A) (k k' : A -> M S B) p :
  (forall q a, m p = Some (q, a) -> k a q = k' a q) -> (x ← m; k x) p = (x ← m; k' x) p.
Proof. intros E. unfold mbind, M_bind. destruct (m p) as [[q a]|] eqn:Em; [exact (E q a eq_refl)|reflexivity]. Qed.

Lemma install_is `{Serial L} `{CLibrary} fuel file bytes v rom crc (p : Printer L) :
  rom_version file = Some (Some v) -> prepare_rom fuel bytes = Some rom -> len rom <= CHIP_TOTAL_MEMORY ->
  romCrc rom = Some crc -> installFirmware fuel file (Some bytes) p = install_rom v rom crc p.
Proof.
  intros Ev Er Hl Ec. unfold installFirmware. step_option Ev. unfold install_rom.
  apply bind_same. intros p1 u _. step_option Er. rewrite (proj2 (Z.ltb_ge _ _)) by exact Hl.
  apply bind_same. intros p2 [old|] _; [|reflexivity].
  apply bind_same. intros p3 [] _; [|reflexivity].
  apply bind_same. intros p4 [new|] _; [|reflexivity]. step_option Ec. reflexivity.
Qed.

Definition example_start : Printer (list (list Z)) := example_printer example_eeprom example_responses.

