(* ===== verification/Connection.v ===== *)
(** * Finding and opening the printer's port (M33 Manager/printer.cpp)

    The ports of connected printers, the search for a port, connecting to a new printer and
    connecting again after a change of the mode; requests and responses in the form that the
    printer's mode and firmware expect. The operating system (Linux) is an interface,
    [System]; [line_serial] implements with it the port that the requests of [Manager] use.
    Locks and the log are left out. *)

From Stdlib Require Import String.
From stdpp Require Import sorting.
From S2P Require Import Prelude Float32 Common Eeprom HostGcode Rom Manager.

(** ** Texts *)

(** [<] of [std::string]. *)
Fixpoint text_lt (a b : text) : bool :=
  match a, b with
  | _, [] => false
  | [], _ :: _ => true
  | x :: a, y :: b => (x <? y) || (x =? y) && text_lt a b
  end.
Definition text_le (a b : text) : Prop := text_lt b a = false.

#[export] Instance text_le_dec : RelDecision text_le.
Proof. intros a b. unfold text_le. apply _. Defined.

Definition is_empty (t : text) : bool := match t with [] => true | _ => false end.

(** [toupper] in the C locale. *)
Definition toupper (c : Z) : Z := if (97 <=? c) && (c <=? 122) then c - 32 else c.

(** ** The operating system *)

Inductive errno := ENOENT | EACCES | OTHER_ERROR.

(** The entries of /sys/class/tty with the text of their file device/modalias; opening,
    locking and configuring a device; time; and the open device. *)
Class System (W : Type) := {
  tty_devices : W -> option (list (text * option text));
  open_device : text -> W -> W * option errno;
  lock_device : W -> W * bool;
  set_attributes : W -> W * bool;
  close_device : W -> W;
  sleepUs : Z -> W -> W;
  device_there : W -> bool;
  write_device : list Z -> W -> W * bool;
  read_device : W -> W * option (option Z)
}.

(** ** Available ports *)

Definition PRINTER_VENDOR_ID : Z := 0x03EB.
Definition PRINTER_PRODUCT_ID : Z := 0x2404.

(** [setfill('0') << setw(4) << hex << uppercase]. *)
Definition upper_digit (d : Z) : Z := if d <? 10 then 48 + d else 55 + d.
Definition hex4 (v : Z) : text := map upper_digit [v / 4096 mod 16; v / 256 mod 16; v / 16 mod 16; v mod 16].

Definition deviceInfoString : text := str "USB:V" ++ hex4 PRINTER_VENDOR_ID ++ str "P" ++ hex4 PRINTER_PRODUCT_ID.

Definition is_printer (entry : text * option text) : bool :=
  negb (bool_decide (fst entry = str ".")) && negb (bool_decide (fst entry = str "..")) &&
  bool_decide (str "ttyACM" `prefix_of` fst entry) &&
  match snd entry with Some info => bool_decide (deviceInfoString `prefix_of` map toupper info) | None => false end.

Definition listed_ports (entries : list (text * option text)) : list text :=
  map (fun e => str "/dev/" ++ fst e) (List.filter is_printer entries).

(** ** The state *)

Record Line (W : Type) := mkLine {
  os : W; currentSerialPort : text; availableSerialPorts : list text; status : text
}.
Arguments mkLine {W}.
Arguments os {W}.
Arguments currentSerialPort {W}.
Arguments availableSerialPorts {W}.
Arguments status {W}.

(** [for(uint8_t i = 0; i < ports.size(); i++)] up to the first port that passes the test;
    with more than 255 ports the loop may never end. *)
Fixpoint index_loop (fuel : nat) (test : text -> option bool) (ports : list text) (i : Z) : option (option text) :=
  match fuel with
  | O => None
  | S fuel =>
      if i <? len ports then
        let p := nth (Z.to_nat i) ports [] in
        b ← test p;
        if b : bool then Some (Some p) else index_loop fuel test ports (u8 (i + 1))
      else Some None
  end.
Definition search_ports (test : text -> option bool) (ports : list text) : option (option text) := index_loop 257 test ports 0.

Definition found (r : option (option text)) : option bool := option_map (fun o => match o with Some _ => true | None => false end) r.

Section Line.
Context {W : Type} `{System W}.

Abbreviation LN := (Line W).

Definition set_os (o : W) (l : LN) : LN := mkLine o (currentSerialPort l) (availableSerialPorts l) (status l).
Definition set_port (p : text) (l : LN) : LN := mkLine (os l) p (availableSerialPorts l) (status l).
Definition set_ports (ps : list text) (l : LN) : LN := mkLine (os l) (currentSerialPort l) ps (status l).
Definition set_status (s : text) (l : LN) : LN := mkLine (os l) (currentSerialPort l) (availableSerialPorts l) s.

Definition on_os {A} (c : W -> W * A) : M LN A := fun l => let '(o, a) := c (os l) in Some (set_os o l, a).
Definition sleep (us : Z) : M LN unit := modify (fun l => set_os (sleepUs us (os l)) l).

Definition ports_of (o : W) : list text :=
  match tty_devices o with Some entries => merge_sort text_le (listed_ports entries) | None => [] end.
Definition updateAvailableSerialPorts : M LN unit := modify (fun l => set_ports (ports_of (os l)) l).

(** [disconnect], but for the file descriptor. *)
Definition close_line (open : bool) (l : LN) : LN :=
  set_port [] (set_os (if open then close_device (os l) else os l)
                 (if bool_decide (status l = str "Connected") then set_status (str "Disconnected") l else l)).

(** ** The search for a port *)

Definition getNewSerialPort (lastAttemptedPort stopAtPort : text) : M LN text :=
  temp ← gets availableSerialPorts;
  _ ← updateAvailableSerialPorts;
  ports ← gets availableSerialPorts;
  current ← gets currentSerialPort;
  if is_empty current && negb (len ports =? 0) then
    next ← of_option (if is_empty lastAttemptedPort then Some None
                      else search_ports (fun p => Some (text_lt lastAttemptedPort p)) ports);
    let p := match next with Some p => p | None => nth 0 ports [] end in
    mret (if bool_decide (p = stopAtPort) then [] else p)
  else
    same ← of_option (search_ports (fun p => Some (bool_decide (current = p))) ports);
    match same with
    | Some _ => mret current
    | None =>
        fresh ← of_option (search_ports (fun p => option_map negb (found (search_ports (fun q => Some (bool_decide (q = p))) temp))) ports);
        mret (match fresh with Some p => p | None => [] end)
    end.

(** ** Connecting *)

(** Opening the current port, for a new printer or again. *)
Definition open_current (connectingToNewPrinter : bool) : M LN bool :=
  port ← gets currentSerialPort;
  r ← on_os (open_device port);
  match r with
  | None =>
      locked ← on_os lock_device;
      if locked : bool then
        ok ← on_os set_attributes;
        if ok : bool then mret true else (_ ← modify (close_line true); mret false)
      else
        _ ← when connectingToNewPrinter (modify (set_status (str "Device is busy")));
        _ ← modify (close_line true);
        mret false
  | Some e =>
      _ ← when connectingToNewPrinter
            match e with
            | ENOENT => modify (set_status (str "Device not found"))
            | EACCES => modify (set_status (str "No read/write access to the device"))
            | OTHER_ERROR => mret tt
            end;
      _ ← modify (close_line false);
      mret false
  end.

End Line.

(** A state with a line in it. *)
Class HasLine (W St : Type) := {
  line : St -> Line W;
  set_line : Line W -> St -> St;
  line_set : forall l s, line (set_line l s) = l;
  set_line_line : forall s, set_line (line s) s = s;
  set_set_line : forall l l' s, set_line l (set_line l' s) = set_line l s
}.

Section Connect.
Context {W St : Type} `{System W} `{!HasLine W St}.

Definition on_line {A} (m : M (Line W) A) : M St A :=
  fun s => match m (line s) with Some (l, a) => Some (set_line l s, a) | None => None end.

(** What is done with a port, and the end of a connection. *)
Variables (attempt : M St bool) (disconnect : M St unit).

Fixpoint connect_loop (fuel : nat) (serialPort : text) (connectingToNewPrinter : bool) (i : Z)
    (lastAttemptedSerialPort initialSerialPort : text) : M St bool :=
  match fuel with
  | O => of_option None
  | S fuel =>
      if i <? 5 then
        let specified := negb (is_empty serialPort) || negb connectingToNewPrinter in
        let i := if specified then u8 (i + 1) else i in
        _ ← when specified (on_line (sleep 100000));
        savedSerialPort ← on_line (gets currentSerialPort);
        port ← (if is_empty serialPort then on_line (getNewSerialPort lastAttemptedSerialPort initialSerialPort) else mret serialPort);
        _ ← on_line (modify (set_port port));
        if is_empty port then
          if connectingToNewPrinter then mret false
          else
            _ ← on_line (modify (set_port savedSerialPort));
            connect_loop fuel serialPort connectingToNewPrinter i lastAttemptedSerialPort initialSerialPort
        else
          ok ← attempt;
          if ok : bool then mret true
          else connect_loop fuel serialPort connectingToNewPrinter i port (if is_empty initialSerialPort then port else initialSerialPort)
      else mret false
  end.

Definition is_status (t : text) : M St bool := on_line (gets (fun l => bool_decide (status l = t))).

(** What precedes and follows the loop. *)
Definition connect_frame (loop : M St bool) (serialPort : text) (connectingToNewPrinter : bool) : M St bool :=
  _ ← when (connectingToNewPrinter && is_empty serialPort) (on_line (sleep 300000));
  was ← is_status (str "Connected");
  _ ← when connectingToNewPrinter (on_line (modify (set_status (if was : bool then str "Reconnecting" else str "Connecting"))));
  savedSerialPort ← on_line (gets currentSerialPort);
  _ ← disconnect;
  _ ← when (negb connectingToNewPrinter) (on_line (modify (set_port savedSerialPort)));
  ok ← loop;
  if ok : bool then mret true
  else
    _ ← when connectingToNewPrinter
          (connecting ← is_status (str "Connecting");
           again ← is_status (str "Reconnecting");
           port ← on_line (gets currentSerialPort);
           if (connecting : bool) || again then
             on_line (modify (set_status (if is_empty port then (if is_empty serialPort then str "No devices found" else str "Device not found")
                                          else str "Failed to connect to the device")))
           else when (is_empty serialPort) (on_line (modify (set_status (str "Couldn't connect to any devices")))));
    mret false.

Definition connect_with (fuel : nat) (serialPort : text) (connectingToNewPrinter : bool) : M St bool :=
  connect_frame (connect_loop fuel serialPort connectingToNewPrinter 0 [] []) serialPort connectingToNewPrinter.

End Connect.

(** ** Interfaces *)

Section Interfaces.
Context {W : Type} `{System W}.

#[export] Instance line_line : HasLine W (Line W).
Proof. refine {| line := id; set_line := fun l _ => l |}; reflexivity. Defined.

(** The port of the requests. *)
Definition reconnect_line (open : bool) : M (Line W) bool :=
  _ ← sleep 1000000;
  connect_with (open_current false) (modify (close_line open)) 6 [] false.

#[export] Instance line_serial : Serial (Line W) := {|
  still_open l := device_there (os l);
  os_write bytes l := let '(o, ok) := write_device bytes (os l) in (set_os o l, ok);
  os_read l := let '(o, r) := read_device (os l) in (set_os o l, r);
  os_close := close_line;
  refresh_ports l := set_ports (ports_of (os l)) l;
  reconnect open l := reconnect_line open l
|}.

Abbreviation P := (Printer (Line W)).

#[export] Instance printer_line : HasLine W P.
Proof. refine {| line := link; set_line := fun l p => put l (fd p) [] p |}; intros; try destruct s; unfold put; cbn; rewrite ?app_nil_r; reflexivity. Defined.

Definition set_fd (open : bool) : M P unit := modify (fun p => put (link p) open [] p).

(** Opening the current port and asking the printer there; a log of the success reads the
    release, which may be an exception. *)
Definition attempt_printer `{CLibrary} (logFunction : bool) : M P bool :=
  ok ← on_line (open_current true);
  _ ← set_fd ok;
  if ok : bool then
    collected ← collectPrinterInformation;
    if collected : bool then
      version ← gets firmwareVersion;
      _ ← when logFunction (_ ← of_option (getFirmwareReleaseFromFirmwareVersion version); mret tt);
      mret true
    else (_ ← disconnect; mret false)
  else mret false.

Definition connect `{CLibrary} (fuel : nat) (logFunction : bool) (serialPort : text) : M P bool :=
  connect_with (attempt_printer logFunction) disconnect fuel serialPort true.

(** One round of the thread that updates the status. *)
Definition updateStatus_step : M P unit :=
  connected ← isConnected;
  when connected (on_line (modify (set_status (str "Connected")))).

(** ** Requests *)

Definition sendGcodeAscii (data : Gcode) : M P bool := sendText (cstr (getAscii data)) true.

Definition sendGcode `{CLibrary} (data : Gcode) : M P bool :=
  t ← gets firmwareType;
  match t with M3D | M3D_MOD => sendRequestRepetier data | _ => sendGcodeAscii data end.

Definition sendRequest `{CLibrary} (data : text) : M P bool :=
  mode ← gets operatingMode;
  t ← gets firmwareType;
  match mode, t with
  | BOOTLOADER, _ => sendText (cstr data) true
  | FIRMWARE, (M3D | M3D_MOD) => sendLineRepetier (cstr data)
  | FIRMWARE, _ => sendText (cstr data) true
  end.

(** ** Responses *)

(** [do ... while(!bytesReceived)]. *)
Fixpoint next_loop (fuel : nat) : M P (option Z) :=
  match fuel with
  | O => of_option None
  | S fuel =>
      r ← read_port;
      match r with None => mret None | Some None => next_loop fuel | Some (Some c) => mret (Some c) end
  end.

(** [while(character != '\n')]. *)
Fixpoint line_loop (fuel : nat) (response : text) (c : Z) : M P (option text) :=
  match fuel with
  | O => of_option None
  | S fuel =>
      if c =? 10 then mret (Some response)
      else
        r ← next_loop fuel;
        match r with None => mret None | Some d => line_loop fuel (response ++ [c]) d end
  end.

Definition receiveResponseTerminated (fuel : nat) : M P text :=
  connected ← isConnected;
  if negb connected then mret []
  else
    w ← wait_loop 10 0;
    match w with
    | None => _ ← disconnect; mret []
    | Some (i, c) =>
        if i =? 10 then mret []
        else r ← line_loop fuel [] (default 0 c);
             match r with None => (_ ← disconnect; mret []) | Some s => mret s end
    end.

Definition receiveResponse (fuel : nat) : M P text :=
  mode ← gets operatingMode;
  match mode with BOOTLOADER => receiveResponseAscii | FIRMWARE => receiveResponseTerminated fuel end.

End Interfaces.

(** ** The order of texts *)

Lemma text_lt_irrefl a : text_lt a a = false.
Proof. induction a as [|x a IH]; [reflexivity|]. cbn. rewrite Z.ltb_irrefl, Z.eqb_refl. exact IH. Qed.

Lemma text_lt_trans a : forall b c, text_lt a b = true -> text_lt b c = true -> text_lt a c = true.
Proof.
  induction a as [|x a IH]; intros [|y b] [|z c]; cbn; try congruence. intros H1 H2. bool_hyps; apply orb_true_iff;
    try (left; apply Z.ltb_lt; lia). right. apply andb_true_iff. split; [apply Z.eqb_eq; lia|eauto].
Qed.

Lemma text_lt_total a : forall b, text_lt a b = false -> text_lt b a = false -> a = b.
Proof.
  induction a as [|x a IH]; intros [|y b]; cbn; try congruence. intros H1 H2. bool_hyps; try lia. f_equal; [lia|auto].
Qed.

Lemma text_lt_asym a b : text_lt a b = true -> text_lt b a = false.
Proof. intros E. destruct (text_lt b a) eqn:E'; [|reflexivity]. pose proof (text_lt_trans a b a E E'). rewrite text_lt_irrefl in *. congruence. Qed.

#[export] Instance text_le_total : base.Total text_le.
Proof. intros a b. unfold text_le. destruct (text_lt b a) eqn:E; [right; apply text_lt_asym, E|left; reflexivity]. Qed.

#[export] Instance text_le_trans : Transitive text_le.
Proof.
  intros a b c. unfold text_le. intros H1 H2. destruct (text_lt c a) eqn:E; [|reflexivity].
  destruct (text_lt a b) eqn:E1; [rewrite (text_lt_trans _ _ _ E E1) in H2; discriminate|].
  rewrite (text_lt_total _ _ E1 H1) in E. congruence.
Qed.

(** Ports in order, each once. *)
Definition increasing (ports : list text) : Prop := StronglySorted (fun a b => text_lt a b = true) ports.

Lemma sorted_increasing l : StronglySorted text_le l -> NoDup l -> increasing l.
Proof.
  induction 1 as [|x l Hs IH Hx]; intros Hn; [constructor|]. inversion Hn as [|? ? Hi Hn']; subst. constructor; [apply IH, Hn'|].
  apply List.Forall_forall. intros y Hy. destruct (text_lt x y) eqn:E; [reflexivity|]. exfalso. apply Hi.
  rewrite (text_lt_total x y E (proj1 (List.Forall_forall _ _) Hx y Hy)). apply list_elem_of_In, Hy.
Qed.

Lemma ports_increasing entries : NoDup (listed_ports entries) -> increasing (merge_sort text_le (listed_ports entries)).
Proof.
  intros Hn. apply sorted_increasing; [apply StronglySorted_merge_sort; apply _|].
  rewrite merge_sort_Permutation. exact Hn.
Qed.

Lemma increasing_app a b : increasing (a ++ b) -> increasing a /\ increasing b /\ forall x y, In x a -> In y b -> text_lt x y = true.
Proof.
  induction a as [|x a IH]; cbn; intros Hs; [repeat split; [constructor|exact Hs|contradiction]|].
  apply StronglySorted_inv in Hs as [Hs Hx]. destruct (IH Hs) as (Ha & Hb & Hab). rewrite List.Forall_forall in Hx. repeat split.
  - constructor; [exact Ha|]. apply List.Forall_forall. intros y Hy. apply Hx, in_or_app. auto.
  - exact Hb.
  - intros u v [<-|Hu] Hv; [apply Hx, in_or_app; auto|auto].
Qed.

(** ** Loops over ports *)

Lemma index_loop_find test f ports : (forall p, In p ports -> test p = Some (f p)) -> len ports <= 255 ->
  forall post pre fuel, ports = pre ++ post -> (length post < fuel)%nat -> index_loop fuel test ports (len pre) = Some (List.find f post).
Proof.
  intros Ht Hl. induction post as [|p post IH]; intros pre fuel E Hf; (destruct fuel as [|fuel]; [cbn [length] in Hf; lia|]); cbn [index_loop List.find].
  - rewrite (proj2 (Z.ltb_ge _ _)); [reflexivity|]. rewrite E, app_nil_r. lia.
  - assert (len ports = len pre + 1 + len post) as El by (rewrite E, length_app; cbn [length]; lia).
    rewrite (proj2 (Z.ltb_lt _ _)) by lia. rewrite Nat2Z.id. rewrite E at 1. rewrite nth_middle, Ht by (rewrite E; apply in_elt). bind_some.
    destruct (f p); [rewrite E, nth_middle; reflexivity|]. rewrite u8_id by lia.
    replace (len pre + 1) with (len (pre ++ [p])) by (rewrite length_app; cbn [length]; lia).
    apply IH; [rewrite <- app_assoc; exact E|cbn [length] in Hf; lia].
Qed.

Lemma search_ports_find f ports : len ports <= 255 -> search_ports (fun p => Some (f p)) ports = Some (List.find f ports).
Proof. intros Hl. apply (index_loop_find _ f ports (fun _ _ => eq_refl) Hl ports []); [reflexivity|lia]. Qed.

(** The first port behind another one. *)
Lemma find_next a x y b : increasing (a ++ x :: y :: b) -> List.find (fun p => text_lt x p) (a ++ x :: y :: b) = Some y.
Proof.
  intros Hs. induction a as [|z a IH]; cbn.
  - rewrite text_lt_irrefl. apply StronglySorted_inv in Hs as [_ Hx]. inversion Hx as [|? ? E _]; subst. rewrite E. reflexivity.
  - apply StronglySorted_inv in Hs as [Hs Hz]. rewrite List.Forall_forall in Hz.
    rewrite (text_lt_asym z x) by (apply Hz, in_elt). apply IH, Hs.
Qed.

Lemma find_last a x : increasing (a ++ [x]) -> List.find (fun p => text_lt x p) (a ++ [x]) = None.
Proof.
  intros Hs. induction a as [|z a IH]; cbn; [rewrite text_lt_irrefl; reflexivity|].
  apply StronglySorted_inv in Hs as [Hs Hz]. rewrite List.Forall_forall in Hz. rewrite (text_lt_asym z x) by (apply Hz, in_elt). apply IH, Hs.
Qed.

(** The next port in the cyclic order of the ports, up to the first one. *)
Definition next_port (ports : list text) (last stop : text) : text :=
  let p := match List.find (fun p => text_lt last p) ports with Some p => p | None => nth 0 ports [] end in
  if bool_decide (p = stop) then [] else p.

Lemma next_port_cyclic pre c post done rest last : increasing (pre ++ c :: post) -> post ++ pre = done ++ rest ->
  last = List.last (c :: done) [] -> next_port (pre ++ c :: post) last c = match rest with [] => [] | p :: _ => p end.
Proof.
  intros Hs E El. assert (forall p, In p (post ++ pre) -> p <> c) as Hc.
  { intros p Hp ->. destruct (increasing_app _ _ Hs) as (_ & Hb & Hab). apply StronglySorted_inv in Hb as [_ Hb]. rewrite List.Forall_forall in Hb.
    apply in_app_or in Hp as [Hp|Hp]; [pose proof (Hb c Hp) as X|pose proof (Hab c c Hp ltac:(left; reflexivity)) as X]; rewrite text_lt_irrefl in X; discriminate. }
  assert (forall p, In p (post ++ pre) -> (if bool_decide (p = c) then [] else p) = p) as Hd.
  { intros p Hp. rewrite bool_decide_false; [reflexivity|apply Hc, Hp]. }
  unfold next_port. apply List.app_eq_app in E as [t [[-> ->]|[-> ->]]].
  - destruct (exists_last (l := c :: done)) as (d & x & Ex); [discriminate|]. rewrite Ex, last_last in El. subst x.
    destruct t as [|y t]; cbn [Datatypes.app].
    + rewrite app_nil_r in *. rewrite Ex, app_assoc in *. rewrite find_last by exact Hs. rewrite <- app_assoc, <- Ex.
      destruct pre as [|p pre]; cbn [Datatypes.app nth]; [rewrite bool_decide_true by reflexivity; reflexivity|]. apply Hd, in_elt.
    + replace (pre ++ c :: done ++ y :: t) with ((pre ++ d) ++ last :: y :: t) in *
        by (rewrite <- app_assoc; f_equal; change (c :: done ++ y :: t) with ((c :: done) ++ y :: t); rewrite Ex, <- app_assoc; reflexivity).
      rewrite find_next by exact Hs. apply Hd. rewrite <- app_assoc. apply in_elt.
  - destruct t as [|u t].
    + cbn [Datatypes.app] in *. rewrite app_nil_r in El. destruct (exists_last (l := c :: post)) as (d & x & Ex); [discriminate|].
      rewrite Ex, last_last in El. subst x. rewrite Ex, app_assoc in *. rewrite find_last by exact Hs. rewrite <- app_assoc, <- Ex.
      destruct rest as [|p rest]; cbn [Datatypes.app nth]; [rewrite bool_decide_true by reflexivity; reflexivity|]. apply Hd, in_elt.
    + destruct (exists_last (l := u :: t)) as (d & x & Ex); [discriminate|]. rewrite Ex in *.
      replace (c :: post ++ d ++ [x]) with ((c :: post ++ d) ++ [x]) in El by (cbn; rewrite <- app_assoc; reflexivity). rewrite last_last in El. subst x.
      rewrite <- !app_assoc in *. cbn [Datatypes.app] in *. destruct rest as [|y rest]; cbn [Datatypes.app] in *; rewrite find_next by exact Hs.
      * rewrite bool_decide_true by reflexivity. reflexivity.
      * apply Hd. rewrite !in_app_iff. cbn [In]. tauto.
Qed.

(** ** What a search does *)

Section Reference.
Context {W St : Type} `{System W} `{!HasLine W St} (attempt : M St bool).

(** Each of the given ports, one after the other, up to the first success. *)
Fixpoint try_each (ports : list text) : M St bool :=
  _ ← on_line updateAvailableSerialPorts;
  match ports with
  | [] => _ ← on_line (modify (set_port [])); mret false
  | p :: ports =>
      _ ← on_line (modify (set_port p));
      ok ← attempt;
      if ok : bool then mret true else try_each ports
  end.

(** The same with a pause before each and at most [n] rounds; rounds without a port only wait. *)
Fixpoint retry (n : nat) (ports : list text) : M St bool :=
  match n with
  | O => mret false
  | S n =>
      _ ← on_line (sleep 100000);
      _ ← on_line updateAvailableSerialPorts;
      match ports with
      | [] => retry n []
      | p :: ports =>
          _ ← on_line (modify (set_port p));
          ok ← attempt;
          if ok : bool then mret true else retry n ports
      end
  end.

(** The devices stay the same; a port is listed once; an attempt that fails forgets the port. *)
Variable entries : list (text * option text).
Hypothesis stable : forall o, tty_devices o = Some entries.
Hypothesis listed_once : NoDup (listed_ports entries).
Hypothesis attempt_forgets : forall s s', attempt s = Some (s', false) -> currentSerialPort (line s') = [].

Let ports : list text := merge_sort text_le (listed_ports entries).
Hypothesis few : len ports <= 255.

Lemma ports_named p : In p ports -> is_empty p = false.
Proof.
  intros Hp. apply list_elem_of_In in Hp. unfold ports in Hp. rewrite merge_sort_Permutation in Hp. apply list_elem_of_In, in_map_iff in Hp.
  destruct Hp as ([n m] & <- & _). reflexivity.
Qed.

Lemma ports_sorted : increasing ports.
Proof. apply ports_increasing, listed_once. Qed.

Lemma ports_of_stable o : ports_of o = ports.
Proof. unfold ports_of. rewrite stable. reflexivity. Qed.

Lemma on_line_run {A} (m : M (Line W) A) (s : St) l a : m (line s) = Some (l, a) -> on_line m s = Some (set_line l s, a).
Proof. intros E. unfold on_line. rewrite E. reflexivity. Qed.

Lemma update_run (s : St) : on_line updateAvailableSerialPorts s = Some (set_line (set_ports ports (line s)) s, tt).
Proof. apply on_line_run. unfold updateAvailableSerialPorts, modify. rewrite ports_of_stable. reflexivity. Qed.

Lemma gets_run {A} (f : Line W -> A) (s : St) : on_line (gets f) s = Some (s, f (line s)).
Proof. unfold on_line, gets. rewrite set_line_line. reflexivity. Qed.

Lemma set_port_run p (s : St) : on_line (modify (set_port p)) s = Some (set_line (set_port p (line s)) s, tt).
Proof. reflexivity. Qed.

(** Without a current port the search goes to the next one. *)
Lemma search_next last stop (l : Line W) : currentSerialPort l = [] -> ports <> [] -> last <> [] ->
  getNewSerialPort last stop l = Some (set_ports ports l, next_port ports last stop).
Proof.
  intros Hc Hp Hl. unfold getNewSerialPort. step_pure. eapply eq_trans; [eapply bind_step; unfold updateAvailableSerialPorts, modify; rewrite ports_of_stable; reflexivity|].
  step_pure. step_pure. cbn [set_ports currentSerialPort availableSerialPorts]. rewrite Hc. cbn [is_empty].
  rewrite (proj2 (Z.eqb_neq _ _)) by (intros E; apply Hp, length_zero_iff_nil; lia). cbn [andb negb].
  replace (is_empty last) with false by (destruct last; [contradiction|reflexivity]).
  step_option (search_ports_find (fun p => text_lt last p) ports few). reflexivity.
Qed.

Lemma search_first (l : Line W) : currentSerialPort l = [] ->
  getNewSerialPort [] [] l = Some (set_ports ports l, match ports with [] => [] | p :: _ => p end).
Proof.
  intros Hc. unfold getNewSerialPort. step_pure. eapply eq_trans; [eapply bind_step; unfold updateAvailableSerialPorts, modify; rewrite ports_of_stable; reflexivity|].
  step_pure. step_pure. cbn [set_ports currentSerialPort availableSerialPorts]. rewrite Hc. cbn [is_empty andb].
  pose proof ports_named as Hn. destruct ports as [|p ps]; [reflexivity|]. rewrite (proj2 (Z.eqb_neq _ _)) by (cbn [length]; lia). cbn [negb].
  step_pure. cbn [nth]. rewrite bool_decide_false; [reflexivity|]. intros ->. discriminate (Hn [] ltac:(left; reflexivity)).
Qed.

(** With a current port that is there, it is found. *)
Lemma search_same last stop (l : Line W) : In (currentSerialPort l) ports ->
  getNewSerialPort last stop l = Some (set_ports ports l, currentSerialPort l).
Proof.
  intros Hin. unfold getNewSerialPort. step_pure. eapply eq_trans; [eapply bind_step; unfold updateAvailableSerialPorts, modify; rewrite ports_of_stable; reflexivity|].
  step_pure. step_pure. cbn [set_ports currentSerialPort availableSerialPorts]. rewrite (ports_named _ Hin). cbn [andb].
  step_option (search_ports_find (fun p => bool_decide (currentSerialPort l = p)) ports few).
  destruct (List.find (fun p => bool_decide (currentSerialPort l = p)) ports) as [q|] eqn:E; [reflexivity|].
  pose proof (List.find_none _ _ E _ Hin) as F. cbv beta in F. rewrite bool_decide_true in F by reflexivity. discriminate.
Qed.

(** The decomposition of the ports around the first one that is tried. *)
Section Around.
Variables (pre post : list text) (c : text).
Hypothesis around : ports = pre ++ c :: post.

Lemma in_order p : In p (c :: post ++ pre) -> In p ports.
Proof. rewrite around. cbn [In]. rewrite !in_app_iff. cbn [In]. tauto. Qed.

Lemma last_in_order done rest : post ++ pre = done ++ rest -> In (List.last (c :: done) []) ports.
Proof.
  intros E. apply in_order. rewrite E. destruct (exists_last (l := c :: done)) as (d & x & Ex); [discriminate|].
  rewrite Ex, last_last. change (c :: done ++ rest) with ((c :: done) ++ rest). rewrite Ex, !in_app_iff. cbn [In]. tauto.
Qed.

Lemma search_around done rest (l : Line W) : post ++ pre = done ++ rest -> currentSerialPort l = [] ->
  getNewSerialPort (List.last (c :: done) []) c l = Some (set_ports ports l, match rest with [] => [] | p :: _ => p end).
Proof.
  intros E Hc. rewrite (search_next _ c l Hc).
  - do 2 f_equal. rewrite around. apply (next_port_cyclic pre c post done); [rewrite <- around; apply ports_sorted|exact E|reflexivity].
  - rewrite around. destruct pre; discriminate.
  - intros El. pose proof (ports_named _ (last_in_order done rest E)) as F. rewrite El in F. discriminate.
Qed.

Lemma last_snoc done (p : text) : List.last (c :: done ++ [p]) [] = p.
Proof. change (c :: done ++ [p]) with ((c :: done) ++ [p]). apply last_last. Qed.

Lemma loop_each : forall rest done fuel s, post ++ pre = done ++ rest -> currentSerialPort (line s) = [] -> (length rest < fuel)%nat ->
  connect_loop attempt fuel [] true 0 (List.last (c :: done) []) c s = try_each rest s.
Proof.
  pose proof (ports_named c ltac:(rewrite around; apply in_elt)) as Nc.
  induction rest as [|p rest IH]; intros done fuel s E Hc Hf; (destruct fuel as [|fuel]; [cbn [length] in Hf; lia|]);
    cbn [connect_loop try_each]; change (0 <? 5) with true; cbn [is_empty negb orb when];
    (step_pure; step (gets_run currentSerialPort s); step (on_line_run _ s _ _ (search_around done _ (line s) E Hc))); (symmetry; step (update_run s); symmetry).
  - step (set_port_run [] (set_line (set_ports ports (line s)) s)). symmetry. step (set_port_run [] (set_line (set_ports ports (line s)) s)). reflexivity.
  - set (s1 := set_line (set_ports ports (line s)) s). step (set_port_run p s1). symmetry. step (set_port_run p s1). symmetry.
    rewrite (ports_named p) by (apply in_order; rewrite E; right; apply in_elt). unfold mbind, M_bind. destruct (attempt _) as [[s2 [|]]|] eqn:Ea; [reflexivity| |reflexivity].
    rewrite Nc. rewrite <- (last_snoc done p) at 1. apply IH; [rewrite <- app_assoc; exact E|exact (attempt_forgets _ _ Ea)|cbn [length] in Hf; lia].
Qed.

Lemma loop_retry n : forall rest done fuel i s, post ++ pre = done ++ rest -> currentSerialPort (line s) = [] -> 0 <= i -> i + Z.of_nat n = 5 -> (n < fuel)%nat ->
  connect_loop attempt fuel [] false i (List.last (c :: done) []) c s = retry n rest s.
Proof.
  pose proof (ports_named c ltac:(rewrite around; apply in_elt)) as Nc.
  induction n as [|n IH]; intros rest done fuel i s E Hc Hi Hn Hf; (destruct fuel as [|fuel]; [lia|]); cbn [retry connect_loop];
    [rewrite (proj2 (Z.ltb_ge i 5)) by lia; reflexivity|]. rewrite (proj2 (Z.ltb_lt i 5)), u8_id by lia. cbn [is_empty negb orb when].
  set (s0 := set_line (set_os (sleepUs 100000 (os (line s))) (line s)) s).
  assert (on_line (sleep 100000) s = Some (s0, tt)) as E0 by reflexivity. assert (currentSerialPort (line s0) = []) as Hc0 by (unfold s0; rewrite line_set; exact Hc).
  step E0. symmetry. step E0. symmetry. step (gets_run currentSerialPort s0). step (on_line_run _ s0 _ _ (search_around done _ (line s0) E Hc0)). symmetry. step (update_run s0). symmetry.
  set (s1 := set_line (set_ports ports (line s0)) s0). assert (line s1 = set_ports ports (line s0)) as L1 by apply line_set.
  destruct rest as [|p rest].
  - step (set_port_run [] s1). cbn [is_empty]. eapply eq_trans; [eapply bind_step; apply set_port_run|].
    rewrite line_set, set_set_line, Hc0. replace (set_line _ s1) with s1; [apply (IH [] done); [exact E|rewrite L1; exact Hc0|lia|lia|lia]|].
    rewrite <- (set_line_line s1) at 1. f_equal. rewrite L1. unfold set_port, set_ports. cbn. rewrite Hc0. reflexivity.
  - step (set_port_run p s1). symmetry. step (set_port_run p s1). symmetry.
    rewrite (ports_named p) by (apply in_order; rewrite E; right; apply in_elt). unfold mbind, M_bind. destruct (attempt _) as [[s2 [|]]|] eqn:Ea; [reflexivity| |reflexivity].
    rewrite Nc. rewrite <- (last_snoc done p) at 1. apply IH; [rewrite <- app_assoc; exact E|exact (attempt_forgets _ _ Ea)|lia|lia|lia].
Qed.

End Around.
(** The loop for a new printer, and the one after a change of the mode. *)
Lemma autodetect_loop fuel (s : St) : currentSerialPort (line s) = [] -> (length ports < fuel)%nat ->
  connect_loop attempt fuel [] true 0 [] [] s = try_each ports s.
Proof.
  intros Hc Hf. destruct fuel as [|fuel]; [lia|]. cbn [connect_loop]. change (0 <? 5) with true. cbn [is_empty negb orb when].
  step_pure. step (gets_run currentSerialPort s). step (on_line_run _ s _ _ (search_first (line s) Hc)).
  set (s1 := set_line (set_ports ports (line s)) s). pose proof ports_named as Hn.
  pose proof (fun c post => loop_each [] post c) as Hloop. pose proof (update_run s) as Hu. fold s1 in Hu.
  destruct ports as [|c post] eqn:Ep; cbn [try_each]; (symmetry; step Hu; symmetry); step_by set_port_run; symmetry; step_by set_port_run; symmetry.
  - reflexivity.
  - rewrite (Hn c) by (left; reflexivity). unfold mbind, M_bind. destruct (attempt _) as [[s2 [|]]|] eqn:Ea; [reflexivity| |reflexivity].
    apply (Hloop c post eq_refl post [] fuel s2); [apply app_nil_r|exact (attempt_forgets _ _ Ea)|cbn [length] in Hf; lia].
Qed.

Lemma reconnect_loop pre c post fuel (s : St) : ports = pre ++ c :: post -> currentSerialPort (line s) = c -> (5 < fuel)%nat ->
  connect_loop attempt fuel [] false 0 [] [] s = retry 5 (c :: post ++ pre) s.
Proof.
  intros Ep Hc Hf. destruct fuel as [|fuel]; [lia|]. cbn [connect_loop]. change (0 <? 5) with true. cbn [is_empty negb orb when].
  assert (In c ports) as Hin by (rewrite Ep; apply in_elt).
  set (s0 := set_line (set_os (sleepUs 100000 (os (line s))) (line s)) s).
  assert (on_line (sleep 100000) s = Some (s0, tt)) as E0 by reflexivity. assert (currentSerialPort (line s0) = c) as Hc0 by (unfold s0; rewrite line_set; exact Hc).
  change (retry 5 (c :: post ++ pre)) with (_ ← on_line (sleep 100000); _ ← on_line updateAvailableSerialPorts; _ ← on_line (modify (set_port c));
    ok ← attempt; if ok : bool then mret true else retry 4 (post ++ pre)).
  step E0. symmetry. step E0. step (update_run s0). symmetry. step (gets_run currentSerialPort s0).
  assert (In (currentSerialPort (line s0)) ports) as Hin0 by (rewrite Hc0; exact Hin).
  step (on_line_run _ s0 _ _ (search_same [] [] (line s0) Hin0)). rewrite Hc0. step_by set_port_run. symmetry. step_by set_port_run. symmetry.
  rewrite (ports_named c Hin). unfold mbind at 1, M_bind at 1. symmetry. unfold mbind at 1, M_bind at 1. symmetry.
  destruct (attempt _) as [[s2 [|]]|] eqn:Ea; [reflexivity| |reflexivity].
  change (u8 (0 + 1)) with 1.
  apply (loop_retry pre post c Ep 4 (post ++ pre) [] fuel 1 s2); [reflexivity|exact (attempt_forgets _ _ Ea)|lia|lia|lia].
Qed.

End Reference.

Section Theorems.
Context {W : Type} `{System W}.

Abbreviation P := (Printer (Line W)).

(** ** An attempt that fails forgets the port *)

Lemma open_current_forgets new (l l' : Line W) : open_current new l = Some (l', false) -> currentSerialPort l' = [].
Proof.
  unfold open_current, on_os. run. destruct (open_device _ _) as [o1 [e|]].
  - destruct new, e; run; intros [= <-]; reflexivity.
  - destruct (lock_device _) as [o2 [|]].
    + destruct (set_attributes _) as [o3 [|]]; run; intros [=]; subst; reflexivity.
    + destruct new; run; intros [= <-]; reflexivity.
Qed.

Lemma disconnect_forgets (p p' : P) u : disconnect p = Some (p', u) -> currentSerialPort (line p') = [].
Proof. intros [= <- _]. reflexivity. Qed.

Lemma attempt_printer_forgets `{CLibrary} log (p p' : P) : attempt_printer log p = Some (p', false) -> currentSerialPort (line p') = [].
Proof.
  unfold attempt_printer. intros E. unfold mbind at 1, M_bind at 1 in E. destruct (on_line _ p) as [[p1 ok]|] eqn:E1; [|discriminate].
  unfold on_line in E1. destruct (open_current true (line p)) as [[l b]|] eqn:Eo; [|discriminate]. injection E1 as <- <-.
  unfold mbind at 1, M_bind at 1 in E. cbn [set_fd modify] in E. destruct b.
  - unfold mbind at 1, M_bind at 1 in E. destruct (collectPrinterInformation _) as [[p2 [|]]|]; [|exact (disconnect_forgets p2 p' tt (f_equal (fun r => match r with Some (p, _) => Some (p, tt) | None => None end) E))|discriminate].
    exfalso. revert E. unfold mbind, M_bind, gets. destruct log; [|discriminate]. cbn [when]. unfold of_option. destruct (getFirmwareReleaseFromFirmwareVersion _); discriminate.
  - injection E as <-. exact (open_current_forgets true _ _ Eo).
Qed.

(** ** Theorems *)

(** The ports of printers among the entries, in order. *)
Definition printer_ports (entries : list (text * option text)) : list text := merge_sort text_le (listed_ports entries).

(** C31. Without a given port, a search for a printer while the devices stay the same tries
    the port of every device that is a printer, in the order of their names and each exactly
    once, up to the first printer that answers, and then ends; it ends also when none does.
    For at most 255 ports. *)
Theorem autodetect_tries_each `{CLibrary} entries (log : bool) fuel (p : P) :
  (forall o, tty_devices o = Some entries) -> NoDup (listed_ports entries) -> len (printer_ports entries) <= 255 ->
  (length (printer_ports entries) < fuel)%nat ->
  connect fuel log [] p = connect_frame disconnect (try_each (attempt_printer log) (printer_ports entries)) [] true p.
Proof.
  intros Hs Hn Hl Hf. unfold connect, connect_with, connect_frame. do 4 (apply bind_ext; intros ? ? _). apply bind_ext. intros p5 u5 Ed.
  apply bind_ext. intros p6 u6 [= <- _]. unfold mbind at 1, M_bind at 1.
  rewrite (autodetect_loop _ entries Hs Hn (attempt_printer_forgets log) Hl fuel p5 (disconnect_forgets _ _ _ Ed) Hf). reflexivity.
Qed.

(** Connecting again after a change of the mode, while the devices stay the same and the
    port is still there: five rounds, of which the first opens the port. When it cannot be
    opened, the following rounds try the other ports, in the cyclic order of their names,
    and when there is none left they only wait. *)
Theorem reconnect_order entries pre c post open (l : Line W) :
  (forall o, tty_devices o = Some entries) -> NoDup (listed_ports entries) -> len (printer_ports entries) <= 255 ->
  printer_ports entries = pre ++ c :: post -> currentSerialPort l = c ->
  reconnect open l = retry (open_current false) 5 (c :: post ++ pre) (set_port c (close_line open (set_os (sleepUs 1000000 (os l)) l))).
Proof.
  intros Hs Hn Hl Ep Hc. cbn [reconnect line_serial]. unfold reconnect_line. step_pure. unfold connect_with, connect_frame. cbn [andb negb when].
  do 6 step_pure. cbn [on_line line set_line line_line id gets modify].
  eapply eq_trans; [apply (bind_ext _ _ mret); intros s' [|] _; reflexivity|]. cbn [set_os currentSerialPort]. rewrite Hc.
  assert (forall m : M (Line W) bool, forall s, (x ← m; mret x) s = m s) as Er by (intros m s; unfold mbind, M_bind, mret, M_ret; destruct (m s) as [[s' [|]]|]; reflexivity).
  rewrite Er. apply (reconnect_loop (open_current false) entries); try assumption; [apply open_current_forgets|reflexivity|lia].
Qed.

(** The only port that cannot be opened in the first round is not opened in the other four. *)
Theorem reconnect_gives_up entries c open (l : Line W) o e :
  (forall o, tty_devices o = Some entries) -> NoDup (listed_ports entries) -> printer_ports entries = [c] -> currentSerialPort l = c ->
  open_device c (sleepUs 100000 (os (close_line open (set_os (sleepUs 1000000 (os l)) l)))) = (o, Some e) ->
  exists l', reconnect open l = Some (l', false) /\ os l' = Nat.iter 4 (sleepUs 100000) o.
Proof.
  intros Hs Hn Ep Hc Ho. rewrite (reconnect_order entries [] c []) by (rewrite ?Ep; cbn [length]; (lia || assumption || reflexivity)).
  cbn [Datatypes.app retry]. unfold on_line, sleep, updateAvailableSerialPorts, open_current, on_os. cbn [line set_line line_line id]. run.
  cbn [set_os set_port set_ports os currentSerialPort] in *. rewrite Ho. destruct e; run; eexists; split; reflexivity.
Qed.

(** ** Responses *)

(** Within [n] reads the characters of a text arrive, with pauses. *)
Inductive arrives : nat -> W -> text -> W -> Prop :=
| arrives_end o : arrives 0 o [] o
| arrives_wait n o o1 c t o2 : read_device o = (o1, Some None) -> arrives n o1 (c :: t) o2 -> arrives (S n) o (c :: t) o2
| arrives_char n o o1 c t o2 : read_device o = (o1, Some (Some c)) -> arrives n o1 t o2 -> arrives (S n) o (c :: t) o2.

Definition at_os (o : W) (p : P) : P := put (set_os o (link p)) (fd p) [] p.

Lemma at_at_os o o' (p : P) : at_os o' (at_os o p) = at_os o' p.
Proof. destruct p. unfold at_os, put. cbn. rewrite app_nil_r. reflexivity. Qed.

Lemma read_port_run (p : P) o r : read_device (os (link p)) = (o, r) -> read_port p = Some (at_os o p, r).
Proof. intros E. unfold read_port. cbn [os_read line_serial]. rewrite E. reflexivity. Qed.

Lemma next_loop_char n o t o2 : arrives n o t o2 -> forall c t' fuel (p : P), t = c :: t' -> os (link p) = o -> (n <= fuel)%nat ->
  exists m o1, (m < n)%nat /\ next_loop fuel p = Some (at_os o1 p, Some c) /\ arrives m o1 t' o2.
Proof.
  induction 1 as [o|n o o1 d t o2 E A IH|n o o1 d t o2 E A IH]; intros c t' fuel p Et Ho Hf; [discriminate| |];
    (destruct fuel as [|fuel]; [lia|]); cbn [next_loop]; rewrite <- Ho in E; pose proof (read_port_run p _ _ E) as Er.
  - destruct (IH c t' fuel (at_os o1 p) Et eq_refl ltac:(lia)) as (m & o3 & Hm & E3 & A3). exists m, o3. split; [lia|]. split; [|exact A3].
    step Er. cbv beta iota. rewrite E3, at_at_os. reflexivity.
  - injection Et as -> ->. exists n, o1. split; [lia|]. split; [step Er; reflexivity|exact A].
Qed.

Lemma at_os_self (p : P) : at_os (os (link p)) p = p.
Proof. destruct p as [[]]. unfold at_os, put, set_os. cbn. rewrite app_nil_r. reflexivity. Qed.

Lemma line_loop_text body : ~ In 10 body -> forall n o o2 c t fuel response (p : P), arrives n o t o2 -> c :: t = body ++ [10] -> os (link p) = o -> (n < fuel)%nat ->
  line_loop fuel response c p = Some (at_os o2 p, Some (response ++ body)).
Proof.
  induction body as [|b body IH]; intros Hb n o o2 c t fuel response p A E Ho Hf; (destruct fuel as [|fuel]; [lia|]); injection E as -> ->; cbn [line_loop].
  - inversion A; subst. rewrite at_os_self, app_nil_r. reflexivity.
  - rewrite (proj2 (Z.eqb_neq b 10)) by (intros ->; apply Hb; left; reflexivity).
    destruct (body ++ [10]) as [|d t] eqn:Et; [destruct body; discriminate|].
    destruct (next_loop_char _ _ _ _ A d t fuel p eq_refl Ho ltac:(lia)) as (m & o1 & Hm & En & A1). step En. cbv beta iota.
    rewrite (IH (fun h => Hb (or_intror h)) m o1 o2 d t fuel (response ++ [b]) (at_os o1 p) A1 eq_refl eq_refl ltac:(lia)).
    rewrite at_at_os, <- app_assoc. reflexivity.
Qed.

(** Reads that find nothing. *)
Fixpoint pauses (n : nat) (o : W) : option W :=
  match n with O => Some o | S n => match read_device o with (o, Some None) => pauses n o | _ => None end end.

Lemma wait_loop_pauses j : forall k i (p : P) o1 o2 c, (j < k)%nat -> pauses j (os (link p)) = Some o1 -> read_device o1 = (o2, Some (Some c)) ->
  wait_loop k i p = Some (at_os o2 p, Some (i + Z.of_nat j + 1, Some c)).
Proof.
  induction j as [|j IH]; intros k i p o1 o2 c Hk Ep Ec; (destruct k as [|k]; [lia|]); cbn [wait_loop pauses] in *.
  - injection Ep as <-. step (read_port_run p _ _ Ec). rewrite Z.add_0_r. reflexivity.
  - destruct (read_device (os (link p))) as [o [[d|]|]] eqn:Er; try discriminate. step (read_port_run p _ _ Er). cbv beta iota.
    rewrite (IH k (i + 1) (at_os o p) o1 o2 c ltac:(lia) Ep Ec), at_at_os. do 4 f_equal. lia.
Qed.

(** In firmware mode a response is the text up to the new line: when its first character
    arrives within the first nine reads, it is received as it was sent, whatever pauses are
    between the other characters, and nothing behind it is read. *)
Theorem response_line body j n o1 o2 o3 c t fuel (p : P) :
  operatingMode p = FIRMWARE -> fd p = true -> device_there (os (link p)) = true -> ~ In 10 body -> c :: t = body ++ [10] ->
  (j <= 8)%nat -> pauses j (os (link p)) = Some o1 -> read_device o1 = (o2, Some (Some c)) -> arrives n o2 t o3 -> (n < fuel)%nat ->
  receiveResponse fuel p = Some (at_os o3 p, body).
Proof.
  intros Hm Hf Hd Hb Et Hj Ep Ec A Hn. unfold receiveResponse. step_pure. rewrite Hm. unfold receiveResponseTerminated.
  assert (isConnected p = Some (p, true)) as Ei.
  { unfold isConnected. step_pure. rewrite Hf. cbn [negb]. step_pure. cbn [still_open line_serial]. rewrite Hd. reflexivity. }
  step Ei. cbn [negb]. step (wait_loop_pauses j 10 0 p o1 o2 c ltac:(lia) Ep Ec). cbv beta iota. rewrite (proj2 (Z.eqb_neq _ _)) by lia.
  cbn [default]. step (line_loop_text body Hb n o2 o3 c t fuel [] (at_os o2 p) A Et eq_refl Hn). rewrite at_at_os. reflexivity.
Qed.

End Theorems.

(** The release of a version with fewer than eight digits is an exception; it is asked for
    when a connection is logged. *)
Lemma digits_loop_short n : forall m v, 0 <= v < 10 ^ Z.of_nat n -> (0 < n)%nat -> (length (digits_loop m v []) <= n)%nat.
Proof.
  induction n as [|n IH]; intros m v Hv Hn; [lia|]. destruct m as [|m]; cbn [digits_loop]; [cbn; lia|].
  destruct (Z.eqb_spec (v / 10) 0) as [E|E]; [cbn; lia|]. rewrite digits_loop_acc, length_app. cbn [length].
  rewrite Nat2Z.inj_succ, Z.pow_succ_r in Hv by lia. assert (n <> 0)%nat by (intros ->; cbn in Hv; lia_mod).
  pose proof (IH m (v / 10) ltac:(lia_mod) ltac:(lia)). lia.
Qed.

Theorem no_release version : 0 <= version < 10000000 -> getFirmwareReleaseFromFirmwareVersion version = None.
Proof.
  intros Hv. unfold getFirmwareReleaseFromFirmwareVersion, getFirmwareTypeFromFirmwareVersion. rewrite Z.div_small by lia. cbn [Z.eqb].
  unfold to_string_int. rewrite (proj2 (Z.ltb_ge _ _)) by lia.
  assert (length (digits version) <= 7)%nat as Hl by (apply digits_loop_short; [exact Hv|lia]).
  unfold substr. rewrite (proj2 (Nat.leb_gt 8 _)) by lia.
  destruct (2 <=? _)%nat; [|reflexivity]. bind_some. destruct (4 <=? _)%nat; [|reflexivity]. bind_some. destruct (6 <=? _)%nat; reflexivity.
Qed.

(** ** A bench with two printers *)

(** The ports that were opened, those that open, and the responses of the open device. *)
Record Bench := mkBench { tried : list text; opens : list text; inbox : list (list Z) }.

Definition bench_entries : list (text * option text) := [
  (str "tty0", None); (str "ttyACM1", Some (str "usb:v03EBp2404d0000")); (str "ttyS0", None);
  (str "ttyACM0", Some (str "usb:v03EBp2404d0000")); (str "ttyACM2", Some (str "usb:v1234p5678d0000"))].

#[export] Instance bench : System Bench := {|
  tty_devices _ := Some bench_entries;
  open_device p b := (mkBench (tried b ++ [p]) (opens b) (inbox b), if bool_decide (p ∈ opens b) then None else Some EACCES);
  lock_device b := (b, true);
  set_attributes b := (b, true);
  close_device b := b;
  sleepUs _ b := b;
  device_there _ := true;
  write_device _ b := (b, true);
  read_device b := match inbox b with
                   | [] => (b, Some None)
                   | [] :: l => (mkBench (tried b) (opens b) l, Some None)
                   | (c :: r) :: l => (mkBench (tried b) (opens b) (r :: l), Some (Some c))
                   end
|}.

Definition bench_line (opens : list text) (inbox : list (list Z)) (port : text) : Line Bench := mkLine (mkBench [] opens inbox) port [] (str "Not connected").
Definition bench_printer (opens : list text) (inbox : list (list Z)) (mode : operatingModes) : Printer (Line Bench) :=
  mkPrinter (bench_line opens inbox []) false [] mode [] 0 UNKNOWN_FIRMWARE [] false false false.

(** No port opens: both are tried, in order, and the search ends. *)
Lemma autodetect_tries_each_witness :
  exists p', connect 3 true [] (bench_printer [] [] FIRMWARE) = Some (p', false) /\
    tried (os (link p')) = [str "/dev/ttyACM0"; str "/dev/ttyACM1"] /\ status (link p') = str "Couldn't connect to any devices".
Proof.
  rewrite (autodetect_tries_each bench_entries);
    [|reflexivity|apply (bool_decide_unpack _); vm_compute; exact I|vm_compute; discriminate|vm_compute; lia].
  eexists. split; [vm_compute; reflexivity|]. split; vm_compute; reflexivity.
Defined.

(** The second printer answers. *)
Example second_printer_found :
  let eeprom := example_eeprom ++ [13] in
  exists p', connect 3 true [] (bench_printer [str "/dev/ttyACM1"] [[66]; le_bytes 4 example_crc; eeprom; eeprom; eeprom] FIRMWARE) = Some (p', true) /\
    currentSerialPort (link p') = str "/dev/ttyACM1".
Proof. eexists. split; vm_compute; reflexivity. Qed.

(** The port of the printer cannot be opened for a moment: the other printer is opened. *)
Lemma reconnect_order_witness :
  exists l', reconnect true (bench_line [str "/dev/ttyACM1"] [] (str "/dev/ttyACM0")) = Some (l', true) /\ currentSerialPort l' = str "/dev/ttyACM1".
Proof.
  rewrite (reconnect_order bench_entries [] (str "/dev/ttyACM0") [str "/dev/ttyACM1"]);
    [|reflexivity|apply (bool_decide_unpack _); vm_compute; exact I|vm_compute; discriminate|vm_compute; reflexivity|reflexivity].
  eexists. split; vm_compute; reflexivity.
Defined.

(** A response with a pause, and a byte of the next one behind it. *)
Lemma response_line_witness :
  exists p', receiveResponse 8 (bench_printer [] [[]; [111]; [107; 10; 33]] FIRMWARE) = Some (p', []) /\
    receiveResponse 8 (mkPrinter (bench_line [] [[]; [111]; [107; 10; 33]] []) true [] FIRMWARE [] 0 UNKNOWN_FIRMWARE [] false false false)
    = Some (mkPrinter (bench_line [] [[33]] []) true [] FIRMWARE [] 0 UNKNOWN_FIRMWARE [] false false false, str "ok").
Proof.
  eexists. split; [vm_compute; reflexivity|].
  refine (response_line (str "ok") 1 3 (mkBench [] [] [[111]; [107; 10; 33]]) (mkBench [] [] [[]; [107; 10; 33]]) (mkBench [] [] [[33]]) 111 [107; 10] 8
            (mkPrinter (bench_line [] [[]; [111]; [107; 10; 33]] []) true [] FIRMWARE [] 0 UNKNOWN_FIRMWARE [] false false false) _ _ _ _ _ _ _ _ _ _);
    try reflexivity; [vm_compute; intros [?|[?|[]]]; discriminate|lia| |lia].
  apply (arrives_wait _ _ (mkBench [] [] [[107; 10; 33]])); [reflexivity|]. apply (arrives_char _ _ (mkBench [] [] [[10; 33]])); [reflexivity|].
  apply (arrives_char _ _ (mkBench [] [] [[33]])); [reflexivity|]. apply arrives_end.
Defined.
