(* ===== verification/Settings.v ===== *)
(** * The settings by name (M33 Manager: printer.cpp, gui.cpp, common.cpp)

    The settings that the user sees, where the EEPROM keeps them, how the window for the
    settings shows and saves them, and the feed rates of the manufacturer's firmware. *)

From Stdlib Require Import String.
From S2P Require Import Prelude Float32 Common Eeprom HostGcode Rom Manager.

Inductive EEPROM_TYPES := EEPROM_INT | EEPROM_FLOAT | EEPROM_STRING | EEPROM_BOOL.

Definition getEepromSettingsNames : list text := map str [
  "Backlash X"; "Backlash Y"; "Backlash speed"; "Back right orientation"; "Back left orientation"; "Front left orientation";
  "Front right orientation"; "Back right offset"; "Back left offset"; "Front left offset"; "Front right offset";
  "Bed height offset"; "Speed limit X"; "Speed limit Y"; "Speed limit Z"; "Speed limit E+"; "Speed limit E-";
  "X motor steps/mm"; "Y motor steps/mm"; "Z motor steps/mm"; "E motor steps/mm"; "X jerk homing sensitivity";
  "Y jerk homing sensitivity"; "Calibrate Z0 correction"; "External bed height"; "Expand printable region"; "Skew X"; "Skew Y"]%string.

(** The tests of the name, in order. *)
Definition setting_places : list (string * ((Z * Z) * EEPROM_TYPES)) := [
  ("Backlash X", (EEPROM_BACKLASH_X, EEPROM_FLOAT));
  ("Backlash Y", (EEPROM_BACKLASH_Y, EEPROM_FLOAT));
  ("Backlash speed", (EEPROM_BACKLASH_SPEED, EEPROM_FLOAT));
  ("Back right orientation", (EEPROM_BED_ORIENTATION_BACK_RIGHT, EEPROM_FLOAT));
  ("Back left orientation", (EEPROM_BED_ORIENTATION_BACK_LEFT, EEPROM_FLOAT));
  ("Front left orientation", (EEPROM_BED_ORIENTATION_FRONT_LEFT, EEPROM_FLOAT));
  ("Front right orientation", (EEPROM_BED_ORIENTATION_FRONT_RIGHT, EEPROM_FLOAT));
  ("Back right offset", (EEPROM_BED_OFFSET_BACK_RIGHT, EEPROM_FLOAT));
  ("Back left offset", (EEPROM_BED_OFFSET_BACK_LEFT, EEPROM_FLOAT));
  ("Front left offset", (EEPROM_BED_OFFSET_FRONT_LEFT, EEPROM_FLOAT));
  ("Front right offset", (EEPROM_BED_OFFSET_FRONT_RIGHT, EEPROM_FLOAT));
  ("Bed height offset", (EEPROM_BED_HEIGHT_OFFSET, EEPROM_FLOAT));
  ("Speed limit X", (EEPROM_SPEED_LIMIT_X, EEPROM_FLOAT));
  ("Speed limit Y", (EEPROM_SPEED_LIMIT_Y, EEPROM_FLOAT));
  ("Speed limit Z", (EEPROM_SPEED_LIMIT_Z, EEPROM_FLOAT));
  ("Speed limit E+", (EEPROM_SPEED_LIMIT_E_POSITIVE, EEPROM_FLOAT));
  ("Speed limit E-", (EEPROM_SPEED_LIMIT_E_NEGATIVE, EEPROM_FLOAT));
  ("X motor steps/mm", (EEPROM_X_MOTOR_STEPS_PER_MM, EEPROM_FLOAT));
  ("Y motor steps/mm", (EEPROM_Y_MOTOR_STEPS_PER_MM, EEPROM_FLOAT));
  ("Z motor steps/mm", (EEPROM_Z_MOTOR_STEPS_PER_MM, EEPROM_FLOAT));
  ("E motor steps/mm", (EEPROM_E_MOTOR_STEPS_PER_MM, EEPROM_FLOAT));
  ("X jerk homing sensitivity", (EEPROM_X_JERK_SENSITIVITY, EEPROM_INT));
  ("Y jerk homing sensitivity", (EEPROM_Y_JERK_SENSITIVITY, EEPROM_INT));
  ("Calibrate Z0 correction", (EEPROM_CALIBRATE_Z0_CORRECTION, EEPROM_FLOAT));
  ("External bed height", (EEPROM_EXTERNAL_BED_HEIGHT, EEPROM_FLOAT));
  ("Expand printable region", (EEPROM_EXPAND_PRINTABLE_REGION, EEPROM_BOOL));
  ("Skew X", (EEPROM_SKEW_X, EEPROM_FLOAT));
  ("Skew Y", (EEPROM_SKEW_Y, EEPROM_FLOAT))]%string.

(** The offset and the length, and the type; for another name nothing is set. *)
Definition getEepromOffsetLengthAndType (name : text) : option ((Z * Z) * EEPROM_TYPES) :=
  option_map snd (List.find (fun e => bool_decide (str (fst e) = name)) setting_places).

(** [toLowerCase], in the C locale. *)
Definition tolower (c : Z) : Z := if (65 <=? c) && (c <=? 90) then c + 32 else c.
Definition toLowerCase (t : text) : text := map tolower t.

(** [getenv] is the environment; [back] of an empty text is undefined. *)
Definition getTemporaryLocation (getenv : text -> option text) (P_tmpdir : text) : option text :=
  let path := match getenv (str "TEMP") with
              | Some p => Some p
              | None => match getenv (str "TMP") with Some p => Some p | None => getenv (str "TMPDIR") end
              end in
  let tempPath := match path with Some p => p | None => P_tmpdir end in
  back ← List.last (map Some tempPath) None;
  Some (if back =? 47 then tempPath else tempPath ++ [47]).

Section Window.
Context {L : Type} `{Serial L} `{CLibrary}.

Abbreviation P := (Printer L).

Definition number (o : outcome Z) : option Z := match o with Done n => Some n | _ => None end.

(** The task of [savePrinterSetting]: a value that is not a number is an exception, and for a
    name without a place the variables have no value. *)
Definition savePrinterSetting (name value : text) : M P bool :=
  '(region, type) ← of_option (getEepromOffsetLengthAndType name);
  match type with
  | EEPROM_INT => n ← of_option (number (stoi value)); eepromWriteInt region (u32 n)
  | EEPROM_FLOAT => b ← of_option (number (stof value)); eepromWriteInt region (u32 b)
  | EEPROM_STRING => eepromWriteString region value
  | EEPROM_BOOL => eepromWriteInt region (if bool_decide (toLowerCase value = str "false") then 0 else 1)
  end.

(** [while(value.back() == '0') value.pop_back();]. *)
Fixpoint drop_zeros (r : text) : text := match r with 48 :: r => drop_zeros r | _ => r end.
Definition clean_up (value : text) : text :=
  rev (match drop_zeros (rev value) with 46 :: r => r | r => r end).

Definition setPrinterSettingValue (name : text) : M P text :=
  '(region, type) ← of_option (getEepromOffsetLengthAndType name);
  match type with
  | EEPROM_INT => v ← eepromGetInt region; mret (to_string_int v)
  | EEPROM_FLOAT => v ← eepromGetInt region; mret (clean_up (to_string_float v))
  | EEPROM_STRING => eepromGetString region
  | EEPROM_BOOL => v ← eepromGetInt region; mret (if v =? 0 then str "False" else str "True")
  end.

End Window.

(** ** Feed rates, in double precision *)

Definition double_of (n : Z) : spec_float := binary_normalize 53 1024 n 0 false.
Definition MAX_FEED_RATE : spec_float := SFdiv 53 1024 (double_of 600001) (double_of 10000).

Definition convertFeedRate (type : firmwareTypes) (version : Z) (feedRate : spec_float) : option spec_float :=
  release ← (if is_m3d type then t ← getFirmwareReleaseFromFirmwareVersion version; n ← stoi_ok t; Some (Some n) else Some None);
  if match release with Some n => n <? 2015122112 | None => false end then
    let converted := SFdiv 53 1024 feedRate (double_of 60) in
    let converted := if SFltb MAX_FEED_RATE converted then MAX_FEED_RATE else converted in
    Some (SFadd 53 1024 (double_of 30)
            (SFmul 53 1024 (SFsub 53 1024 (double_of 1) (SFdiv 53 1024 converted MAX_FEED_RATE)) (double_of 800)))
  else Some feedRate.

(** ** Places *)

(** The number that is saved for a text. *)
Definition saved_number `{CLibrary} (type : EEPROM_TYPES) (value : text) : option Z :=
  match type with
  | EEPROM_INT => option_map u32 (number (stoi value))
  | EEPROM_FLOAT => option_map u32 (number (stof value))
  | EEPROM_STRING => None
  | EEPROM_BOOL => Some (if bool_decide (toLowerCase value = str "false") then 0 else 1)
  end.

(** Every name has a place of its own; none is a text. *)
Definition place_ok (e : string * ((Z * Z) * EEPROM_TYPES)) : bool :=
  let r := fst (snd e) in
  (0 <=? fst r) && (0 <? snd r) && (snd r <=? 4) && (fst r + snd r <=? 768) &&
  match snd (snd e) with EEPROM_STRING => false | EEPROM_FLOAT => snd r =? 4 | _ => snd r =? 1 end.
Definition places_apart (e d : string * ((Z * Z) * EEPROM_TYPES)) : bool :=
  let r := fst (snd e) in let q := fst (snd d) in
  String.eqb (fst e) (fst d) || (fst r + snd r <=? fst q) || (fst q + snd q <=? fst r).

Lemma places_checked : forallb place_ok setting_places = true /\ forallb (fun e => forallb (places_apart e) setting_places) setting_places = true.
Proof. split; vm_compute; reflexivity. Qed.

Lemma names_placed : getEepromSettingsNames = map (fun e => str (fst e)) setting_places.
Proof. reflexivity. Qed.

Lemma place_found name : In name getEepromSettingsNames ->
  exists e, In e setting_places /\ str (fst e) = name /\ getEepromOffsetLengthAndType name = Some (snd e) /\ place_ok e = true.
Proof.
  rewrite names_placed. intros Hin. unfold getEepromOffsetLengthAndType.
  destruct (List.find _ setting_places) as [e|] eqn:E.
  - apply List.find_some in E as [Hi He]. apply bool_decide_eq_true in He. exists e.
    repeat split; [exact Hi|exact He|]. exact (proj1 (forallb_forall _ _) (proj1 places_checked) e Hi).
  - apply in_map_iff in Hin as (e & <- & Hi). pose proof (List.find_none _ _ E e Hi) as F. cbv beta in F. rewrite bool_decide_true in F by reflexivity. discriminate.
Qed.

Lemma place_region e : place_ok e = true -> region_ok (fst (snd e)) /\ 0 < snd (fst (snd e)) /\ snd (snd e) <> EEPROM_STRING.
Proof.
  unfold place_ok, region_ok. intros Hp. apply andb_true_iff in Hp as [Hp Ht]. bool_hyps. repeat split; try lia.
  intros Es. rewrite Es in Ht. discriminate.
Qed.

Lemma saved_nonneg `{CLibrary} type value v : saved_number type value = Some v -> 0 <= v.
Proof.
  destruct type; cbn; try discriminate.
  - destruct (number _); intros [= <-]. apply u32_range.
  - destruct (number _); intros [= <-]. apply u32_range.
  - case_bool; intros [= <-]; lia.
Qed.

Section Theorems.
Context {L : Type} `{Serial L} `{CLibrary}.

Lemma save_writes name value region type v (p p' : Printer L) :
  getEepromOffsetLengthAndType name = Some (region, type) -> type <> EEPROM_STRING -> savePrinterSetting name value p = Some (p', true) ->
  saved_number type value = Some v -> sent p' = sent p ++ commands (writes_of region v).
Proof.
  intros Eg Ht E Ev. unfold savePrinterSetting in E. rewrite Eg in E. destruct type; cbn [saved_number] in Ev; [| |contradiction|];
    unfold mbind, M_bind, of_option in E; try (destruct (number _) as [n|]; [|discriminate]; cbn [option_map] in Ev);
    injection Ev as <-; exact (proj1 (sends_write_int _ _ p p' E)).
Qed.


End Theorems.

(** Feed rates above the largest one are all converted to the same one, the fastest. *)
Theorem feed_rate_limited version release feedRate : getFirmwareReleaseFromFirmwareVersion version = Some release ->
  (exists n, stoi release = Done n /\ n < 2015122112) -> SFltb MAX_FEED_RATE (SFdiv 53 1024 feedRate (double_of 60)) = true ->
  convertFeedRate M3D version feedRate = Some (double_of 30).
Proof.
  intros Er (n & En & Hn) Hf. unfold convertFeedRate, stoi_ok. change (is_m3d M3D) with true. rewrite Er. bind_some. rewrite En. cbn [mbind option_bind].
  rewrite (proj2 (Z.ltb_lt _ _) Hn), Hf. vm_compute. reflexivity.
Qed.

(** The location for temporary files ends with a separator, unless the variable is empty. *)
Theorem temporary_location getenv P_tmpdir t : getTemporaryLocation getenv P_tmpdir = Some t -> List.last t 0 = 47.
Proof.
  unfold getTemporaryLocation. set (q := match match getenv _ with Some p => _ | None => _ end with Some p => p | None => P_tmpdir end).
  induction q as [|x d _] using rev_ind; [discriminate|]. rewrite map_app. cbn [map]. rewrite last_last. bind_some. intros [= <-].
  destruct (Z.eqb_spec x 47) as [->|_]; apply last_last.
Qed.

(** ** Witness *)

