(* ===== verification/Window.v ===== *)
(** * The window's tasks (M33 Manager/gui.cpp)

    The window gives its work to a second thread: an action appends three functions to three
    queues, one that the window runs when the task starts, the task, and one that it runs with
    the task's response. The thread takes the tasks one by one and posts events, which the
    window's loop handles. [Queue] is the protocol as a transition system of the two threads,
    over any tasks; [Tasks] are the tasks on the printer. The widgets are not modelled. *)

From Stdlib Require Import String.
From stdpp Require Import relations.
From S2P Require Import Prelude Float32 Common Eeprom HostGcode Rom Manager Connection Settings.

Section Queue.
(** Functions for the start, tasks, functions for the end, responses, and what tasks work on.
    A task that does not return has no result. *)
Context {A T C R W : Type} (run : T -> W -> option (W * R)).

Record Job := mkJob { on_start : A; task : T; on_complete : C }.

Inductive Event := TaskStart | TaskComplete (response : R).
Inductive Callback := Started (a : A) | Completed (c : C) (response : R).

(** Where the thread is: before it takes a task, with a task, behind the start event, behind
    the task. *)
Inductive Worker := Idle | Took (t : T) | Running (t : T) | Ran (t : T) (r : R).

(** The three queues, the events, both threads' progress, and a record of what was submitted,
    which tasks ran with which response, and which functions the window ran. *)
Record Frame := mkFrame {
  threadStartCallbackQueue : list A; threadTaskQueue : list T; threadCompleteCallbackQueue : list C;
  events : list Event; worker : Worker; world : W;
  submitted : list Job; tasks_run : list (T * R); callbacks : list Callback
}.

(** An action of the window, under the lock. *)
Definition submit (j : Job) (f : Frame) : Frame :=
  mkFrame (threadStartCallbackQueue f ++ [on_start j]) (threadTaskQueue f ++ [task j]) (threadCompleteCallbackQueue f ++ [on_complete j])
    (events f) (worker f) (world f) (submitted f ++ [j]) (tasks_run f) (callbacks f).

Definition set_world (w : W) (f : Frame) : Frame :=
  mkFrame (threadStartCallbackQueue f) (threadTaskQueue f) (threadCompleteCallbackQueue f) (events f) (worker f) w
    (submitted f) (tasks_run f) (callbacks f).

(** A step of [Entry]. *)
Definition worker_step (f : Frame) : option Frame :=
  let '(mkFrame ss ts cs es k w js rs gs) := f in
  match k with
  | Idle => match ts with [] => None | t :: ts => Some (mkFrame ss ts cs es (Took t) w js rs gs) end
  | Took t => Some (mkFrame ss ts cs (es ++ [TaskStart]) (Running t) w js rs gs)
  | Running t => '(w, r) ← run t w; Some (mkFrame ss ts cs es (Ran t r) w js rs gs)
  | Ran t r => Some (mkFrame ss ts cs (es ++ [TaskComplete r]) Idle w js (rs ++ [(t, r)]) gs)
  end.

(** The handlers of the two events: the function at the front of the queue, if there is one. *)
Definition threadTaskStart (f : Frame) : Frame :=
  let '(mkFrame ss ts cs es k w js rs gs) := f in
  match ss with [] => f | a :: ss => mkFrame ss ts cs es k w js rs (gs ++ [Started a]) end.
Definition threadTaskComplete (r : R) (f : Frame) : Frame :=
  let '(mkFrame ss ts cs es k w js rs gs) := f in
  match cs with [] => f | c :: cs => mkFrame ss ts cs es k w js rs (gs ++ [Completed c r]) end.

Definition set_events (es : list Event) (f : Frame) : Frame :=
  mkFrame (threadStartCallbackQueue f) (threadTaskQueue f) (threadCompleteCallbackQueue f) es (worker f) (world f)
    (submitted f) (tasks_run f) (callbacks f).

Definition event_step (f : Frame) : option Frame :=
  match events f with
  | [] => None
  | TaskStart :: es => Some (threadTaskStart (set_events es f))
  | TaskComplete r :: es => Some (threadTaskComplete r (set_events es f))
  end.

(** The two threads take turns in any order; the window submits tasks at any time, and what
    the tasks work on may change under them. *)
Inductive internal : Frame -> Frame -> Prop :=
| worker_moves f f' : worker_step f = Some f' -> internal f f'
| window_moves f f' : event_step f = Some f' -> internal f f'.

Inductive step : Frame -> Frame -> Prop :=
| step_submit j f : step f (submit j f)
| step_internal f f' : internal f f' -> step f f'
| step_world w f : step f (set_world w f).

Definition initial (w : W) : Frame := mkFrame [] [] [] [] Idle w [] [] [].

Inductive reachable : Frame -> Prop :=
| reachable_initial w : reachable (initial w)
| reachable_step f f' : reachable f -> step f f' -> reachable f'.

(** ** What the window sees *)

(** Jobs with their responses, one after the other; the next one may have started. *)
Fixpoint dialogue (jobs : list Job) (responses : list R) : list Callback :=
  match jobs, responses with
  | j :: jobs, r :: responses => Started (on_start j) :: Completed (on_complete j) r :: dialogue jobs responses
  | j :: _, [] => [Started (on_start j)]
  | [], _ => []
  end.

(** Finished jobs. *)
Fixpoint finished (jobs : list Job) (responses : list R) : list Callback :=
  match jobs, responses with
  | j :: jobs, r :: responses => Started (on_start j) :: Completed (on_complete j) r :: finished jobs responses
  | _, _ => []
  end.

Lemma dialogue_app done rest rdone rrest : length done = length rdone ->
  dialogue (done ++ rest) (rdone ++ rrest) = finished done rdone ++ dialogue rest rrest.
Proof. revert rdone. induction done as [|j done IH]; intros [|r rdone] E; try discriminate; [reflexivity|]. cbn. rewrite IH by (injection E; auto). reflexivity. Qed.

Lemma finished_snoc done rdone j r : length done = length rdone ->
  finished (done ++ [j]) (rdone ++ [r]) = finished done rdone ++ [Started (on_start j); Completed (on_complete j) r].
Proof. revert rdone. induction done as [|d done IH]; intros [|x rdone] E; try discriminate; [reflexivity|]. cbn. rewrite IH by (injection E; auto). reflexivity. Qed.

(** ** The invariant *)

Definition both (r : R) : list Event := [TaskStart; TaskComplete r].

(** The events of responses that the window has not seen to the end, and of the task that runs. *)
Definition posted (k : Worker) (responses : list R) : list Event :=
  flat_map both responses ++ match k with Running _ | Ran _ _ => [TaskStart] | _ => [] end.

(** The task that the thread has. *)
Definition current (k : Worker) : list T := match k with Idle => [] | Took t | Running t | Ran t _ => [t] end.

(** [done] are the jobs that the window has seen to the end; of the next one it may have seen
    the start. *)
Record inv_at (f : Frame) (done rest : list Job) (rdone rrest : list R) (half : bool) : Prop := {
  inv_jobs : submitted f = done ++ rest;
  inv_done : length done = length rdone;
  inv_responses : map snd (tasks_run f) = rdone ++ rrest;
  inv_tasks : map task rest = drop (length done) (map fst (tasks_run f)) ++ current (worker f) ++ threadTaskQueue f;
  inv_ran : map fst (tasks_run f) = map task done ++ drop (length done) (map fst (tasks_run f));
  inv_callbacks : callbacks f = finished done rdone ++ (if half then map (fun j => Started (on_start j)) (take 1 rest) else []);
  inv_starts : threadStartCallbackQueue f = map on_start (if half then drop 1 rest else rest);
  inv_completes : threadCompleteCallbackQueue f = map on_complete rest;
  inv_events : (if half then TaskStart :: events f else events f) = posted (worker f) rrest
}.

Definition inv (f : Frame) : Prop := exists done rest rdone rrest half, inv_at f done rest rdone rrest half.

(** As many tasks have run as there are responses. *)
Lemma ran_length f done rest rdone rrest half : inv_at f done rest rdone rrest half ->
  length (drop (length done) (map fst (tasks_run f))) = length rrest.
Proof.
  intros [Hj Hd Hr Ht Hn Hc Hs Hm He]. apply (f_equal length) in Hr. rewrite length_map, length_app in Hr.
  rewrite length_drop, length_map. lia.
Qed.

(** A job whose event was posted is there. *)
Lemma posted_rest f done rest rdone rrest half e es : inv_at f done rest rdone rrest half -> posted (worker f) rrest = e :: es ->
  e = TaskStart /\ exists j rest', rest = j :: rest'.
Proof.
  intros I E. pose proof (ran_length f _ _ _ _ _ I) as L. pose proof (inv_tasks _ _ _ _ _ _ I) as Ht. apply (f_equal length) in Ht.
  rewrite !length_app, length_map, L in Ht. unfold posted in E. destruct rrest as [|r rrest].
  - destruct (worker f); cbn in E; try discriminate; injection E as <- _; (split; [reflexivity|]); (destruct rest as [|j rest]; [cbn in Ht; lia|eauto]).
  - cbn in E. injection E as <- _. split; [reflexivity|]. destruct rest as [|j rest]; [cbn in Ht; lia|eauto].
Qed.

Lemma half_rest f done rest rdone rrest : inv_at f done rest rdone rrest true -> exists j rest', rest = j :: rest'.
Proof. intros I. exact (proj2 (posted_rest f _ _ _ _ _ _ _ I (eq_sym (inv_events _ _ _ _ _ _ I)))). Qed.

Lemma drop_snoc {X} n (l : list X) x : (n <= length l)%nat -> drop n (l ++ [x]) = drop n l ++ [x].
Proof. intros Hn. rewrite drop_app_le by exact Hn. reflexivity. Qed.

Lemma ran_bound f done rest rdone rrest half : inv_at f done rest rdone rrest half -> (length done <= length (map fst (tasks_run f)))%nat.
Proof. intros I. pose proof (inv_responses _ _ _ _ _ _ I) as Hr. apply (f_equal length) in Hr. rewrite length_map, length_app in Hr. rewrite length_map, (inv_done _ _ _ _ _ _ I). lia. Qed.

Lemma inv_submit j f : inv f -> inv (submit j f).
Proof.
  intros (done & rest & rdone & rrest & half & I). exists done, (rest ++ [j]), rdone, rrest, half.
  assert (half = true -> exists j rest', rest = j :: rest') as Hh by (intros ->; exact (half_rest _ _ _ _ _ I)).
  destruct I as [Hj Hd Hr Ht Hn Hc Hs Hm He]. constructor; cbn [submit submitted tasks_run worker threadTaskQueue callbacks threadStartCallbackQueue threadCompleteCallbackQueue events]; auto.
  - rewrite Hj, <- app_assoc. reflexivity.
  - rewrite map_app, Ht, <- !app_assoc. reflexivity.
  - rewrite Hc. destruct half; [|reflexivity]. destruct (Hh eq_refl) as (k & rest' & ->). reflexivity.
  - rewrite Hs. destruct half; [|rewrite map_app; reflexivity]. destruct (Hh eq_refl) as (k & rest' & ->). cbn. rewrite !drop_0, map_app. reflexivity.
  - rewrite Hm, map_app. reflexivity.
Qed.

Lemma posted_start k es t (half : bool) rs : (if half then TaskStart :: es else es) = posted (Took t) rs -> k = Running t ->
  (if half then TaskStart :: (es ++ [TaskStart]) else es ++ [TaskStart]) = posted k rs.
Proof.
  intros E ->. unfold posted in *. rewrite app_nil_r in E. rewrite <- E. destruct half; reflexivity.
Qed.

Lemma posted_complete es t r (half : bool) rs : (if half then TaskStart :: es else es) = posted (Ran t r) rs ->
  (if half then TaskStart :: (es ++ [TaskComplete r]) else es ++ [TaskComplete r]) = posted Idle (rs ++ [r]).
Proof.
  intros E. unfold posted in *. rewrite flat_map_app, app_nil_r. cbn [flat_map both app]. rewrite ?app_nil_r.
  change [TaskStart; TaskComplete r] with ([TaskStart] ++ [TaskComplete r]). rewrite app_assoc, <- E. destruct half; reflexivity.
Qed.

Lemma inv_worker f f' : inv f -> worker_step f = Some f' -> inv f'.
Proof.
  intros (done & rest & rdone & rrest & half & I) E. pose proof (ran_bound _ _ _ _ _ _ I) as Hb. destruct f as [ss ts cs es k w js rs gs].
  destruct I as [Hj Hd Hr Ht Hn Hc Hs Hm He]. cbn in *. destruct k as [|t|t|t r].
  - destruct ts as [|t ts]; [discriminate|]. injection E as <-. exists done, rest, rdone, rrest, half. constructor; auto.
  - injection E as <-. exists done, rest, rdone, rrest, half. constructor; auto. exact (posted_start _ _ _ _ _ He eq_refl).
  - destruct (run t w) as [[w' r]|]; [|discriminate]. injection E as <-. exists done, rest, rdone, rrest, half. constructor; auto.
  - injection E as <-. exists done, rest, rdone, (rrest ++ [r]), half. constructor; cbn; auto.
    + rewrite map_app, Hr, <- app_assoc. reflexivity.
    + rewrite map_app. cbn [map fst]. rewrite drop_snoc by exact Hb. rewrite Ht, <- app_assoc. reflexivity.
    + rewrite map_app. cbn [map fst]. rewrite drop_snoc by exact Hb. rewrite Hn at 1. rewrite <- app_assoc. reflexivity.
    + exact (posted_complete _ t _ _ _ He).
Qed.

Lemma inv_event f f' : inv f -> event_step f = Some f' -> inv f'.
Proof.
  intros (done & rest & rdone & rrest & half & I) E.
  pose proof (ran_bound _ _ _ _ _ _ I) as Hb. pose proof (ran_length _ _ _ _ _ _ I) as Hl. destruct half.
  - destruct (half_rest _ _ _ _ _ I) as (j & rest' & ->). destruct I as [Hj Hd Hr Ht Hn Hc Hs Hm He]. destruct f as [ss ts cs es k w js rs gs]. cbn in *.
    destruct rrest as [|r rrest]; [destruct k; cbn in He; try discriminate; injection He as ->; discriminate|].
    cbn in He. injection He as ->. cbn in E. unfold threadTaskComplete, set_events in E. cbn in E. rewrite Hm in E. injection E as <-.
    destruct (drop (length done) (map fst rs)) as [|t ran] eqn:Ed; [discriminate|]. injection Ht as <- Ht.
    exists (done ++ [j]), rest', (rdone ++ [r]), rrest, false. constructor; cbn; auto.
    + rewrite Hj, <- app_assoc. reflexivity.
    + rewrite !length_app, Hd. reflexivity.
    + rewrite Hr, <- app_assoc. reflexivity.
    + rewrite length_app, <- drop_drop, Ed. exact Ht.
    + rewrite length_app, <- drop_drop, Ed, map_app. cbn. rewrite drop_0. rewrite Hn at 1. rewrite <- app_assoc. reflexivity.
    + rewrite finished_snoc by exact Hd. rewrite Hc, <- !app_assoc. reflexivity.
  - destruct (events f) as [|e es] eqn:Ee; [unfold event_step in E; rewrite Ee in E; discriminate|].
    pose proof (inv_events _ _ _ _ _ _ I) as He. cbv iota in He. rewrite Ee in He. destruct (posted_rest _ _ _ _ _ _ _ _ I (eq_sym He)) as (-> & j & rest' & ->).
    destruct I as [Hj Hd Hr Ht Hn Hc Hs Hm _]. destruct f as [ss ts cs es0 k w js rs gs]. cbn in *. subst es0. cbn in E. unfold threadTaskStart, set_events in E. cbn in E. rewrite Hs in E.
    injection E as <-. exists done, (j :: rest'), rdone, rrest, true. constructor; cbn; auto.
    + rewrite Hc, app_nil_r. reflexivity.
Qed.

Lemma reachable_inv f : reachable f -> inv f.
Proof.
  induction 1 as [w|f f' _ IH S]; [exists [], [], [], [], false; constructor; reflexivity|].
  destruct S as [j f|f f' [g g' E|g g' E]|w f].
  - apply inv_submit, IH.
  - exact (inv_worker _ _ IH E).
  - exact (inv_event _ _ IH E).
  - destruct IH as (done & rest & rdone & rrest & half & [Hj Hd Hr Ht Hn Hc Hs Hm He]). exists done, rest, rdone, rrest, half. constructor; auto.
Qed.

(** ** Theorems *)

Definition responses (f : Frame) : list R := map snd (tasks_run f).


(** The work that is left. *)
Definition left (k : Worker) : nat := match k with Idle => 0 | Took _ => 5 | Running _ => 3 | Ran _ _ => 2 end.
Definition measure (f : Frame) : nat := 6 * length (threadTaskQueue f) + left (worker f) + length (events f).

Lemma internal_measure f f' : internal f f' -> (measure f' < measure f)%nat /\ submitted f' = submitted f.
Proof.
  intros [g g' E|g g' E]; destruct g as [ss ts cs es k w js rs gs]; unfold measure; cbn in *.
  - destruct k as [|t|t|t r].
    + destruct ts as [|t ts]; [discriminate|]. injection E as <-. cbn. split; [lia|reflexivity].
    + injection E as <-. cbn. rewrite length_app. cbn. split; [lia|reflexivity].
    + destruct (run t w) as [[w' r]|]; [|discriminate]. injection E as <-. cbn. split; [lia|reflexivity].
    + injection E as <-. cbn. rewrite length_app. cbn. split; [lia|reflexivity].
  - destruct es as [|[|r] es]; [discriminate| |]; injection E as <-; [destruct ss|destruct cs]; cbn; (split; [lia|reflexivity]).
Qed.

(** Every job seen to the end. *)
Definition settled (f : Frame) : Prop :=
  callbacks f = finished (submitted f) (responses f) /\ length (responses f) = length (submitted f) /\
  threadStartCallbackQueue f = [] /\ threadTaskQueue f = [] /\ threadCompleteCallbackQueue f = [].

Lemma stuck_settled f : (forall t w, run t w <> None) -> reachable f -> worker_step f = None -> event_step f = None -> settled f.
Proof.
  intros Hrun Hf Ew Ee. destruct (reachable_inv f Hf) as (done & rest & rdone & rrest & half & I). pose proof (ran_length _ _ _ _ _ _ I) as Hl.
  destruct f as [ss ts cs es k w js rs gs]. unfold settled, responses. destruct I as [Hj Hd Hr Ht Hn Hc Hs Hm He]. cbn in *.
  assert (es = []) as -> by (unfold event_step in Ee; cbn in Ee; destruct es as [|[|r] es]; [reflexivity|discriminate|discriminate]).
  destruct k as [|t|t|t r]; try discriminate; [|destruct (run t w) as [[w' r]|] eqn:Er; [discriminate|destruct (Hrun t w Er)]].
  destruct ts as [|t ts]; [|discriminate].
  assert (rrest = [] /\ half = false) as [-> ->].
  { unfold posted in He. rewrite app_nil_r in He. destruct rrest as [|r rrest]; [destruct half; [discriminate|auto]|]. destruct half; discriminate. }
  cbn in Hl. apply length_zero_iff_nil in Hl. rewrite Hl in Ht. cbn in Ht. destruct rest as [|j rest]; [|discriminate]. rewrite app_nil_r in *.
  rewrite Hc, Hj, Hr. auto.
Qed.


End Queue.

(** ** Tasks on the printer *)

Section Tasks.
Context {W : Type} `{System W} `{CLibrary} (fuel : nat) (read_file : text -> W -> option (list Z)).

Abbreviation P := (Printer (Line W)).

(** The names of a firmware and of a mode, for the messages. *)
Definition mode_name (m : operatingModes) : text := match m with FIRMWARE => str "firmware" | BOOTLOADER => str "bootloader" end.

(** The tasks of the buttons: connect and disconnect, switch the mode, install a firmware,
    save a setting, send a command, and switch to the boot loader before the checks. *)
Inductive WindowTask :=
| Connect (choice : text) | Disconnect | SwitchToMode (mode : operatingModes) | InstallFirmware (firmwareLocation : text)
| SaveSetting (name value : text) | SendCommand (command : text) | CheckInvalidValues.

Definition changePrinterConnection (choice : text) : M P text :=
  _ ← connect fuel true (if bool_decide (choice = str "Auto") then [] else choice);
  mret [].

Definition switchToMode (newOperatingMode : operatingModes) : M P text :=
  _ ← match newOperatingMode with FIRMWARE => switchToFirmwareMode | BOOTLOADER => switchToBootloaderMode end;
  connected ← isConnected;
  port ← on_line (gets currentSerialPort);
  mret (if connected : bool then
          str "Printer has been successfully switched into " ++ mode_name newOperatingMode ++ str " mode and is connected at " ++ port ++
          str " running at a baud rate of 115200"
        else str "Failed to switch printer into " ++ mode_name newOperatingMode ++ str " mode").

Definition window_install (firmwareLocation : text) : M P text :=
  w ← on_line (gets os);
  match read_file firmwareLocation w with
  | None => mret (str "Firmware ROM doesn't exist")
  | Some bytes =>
      if negb (beginningOfNumbers firmwareLocation =? endOfNumbers firmwareLocation - 10) then mret (str "Invalid firmware name")
      else
        installed ← installFirmware fuel firmwareLocation (Some bytes);
        mret (if installed : bool then str "Firmware successfully installed" else str "Failed to update firmware")
  end.

(** The responses to a command: the log, and whether the loop ends. *)
Fixpoint await_response (n : nat) : M P text :=
  match n with
  | O => of_option None
  | S n =>
      response ← receiveResponse fuel;
      if is_empty response then (connected ← isConnected; if connected : bool then await_response n else mret response)
      else mret response
  end.

Definition hex_response (response : text) : text :=
  removelast (concat (map (fun c => str "0x" ++ [upper_digit (c / 16 mod 16); upper_digit (c mod 16); 32]) response)).

Definition ends_command (response : text) : bool :=
  bool_decide (take 2 response = str "ok") || bool_decide (take 1 response = str "k") || bool_decide (take 2 response = str "rs") ||
  bool_decide (take 4 response = str "skip") || bool_decide (take 5 response = str "Error").

Fixpoint command_loop (n : nat) (log : list text) : M P (list text) :=
  match n with
  | O => of_option None
  | S n =>
      response ← await_response fuel;
      connected ← isConnected;
      if negb connected then mret log
      else
        mode ← gets operatingMode;
        let boot := bool_decide (mode = BOOTLOADER) in
        let response := if boot then hex_response response else response in
        let log := if bool_decide (response = str "wait") || bool_decide (response = str "ait") then log else log ++ [str "Receive: " ++ response] in
        if boot || ends_command response then mret log else command_loop n log
  end.

Definition sendCommand (command : text) : M P (list text) :=
  mode ← gets operatingMode;
  let changedMode := bool_decide (command = str "Q") && bool_decide (mode = BOOTLOADER) ||
                     bool_decide (command = str "M115 S628") && bool_decide (mode = FIRMWARE) in
  ok ← sendRequest command;
  if negb ok then mret [str "Sending command failed"]
  else if changedMode then mret [] else command_loop fuel [].

Definition window_save (name value : text) : M P text :=
  ok ← savePrinterSetting name value;
  mret (if ok : bool then str "Setting successfully saved" else str "Failed to save setting").

(** A task with its message; nothing when it is an exception or does not return. *)
Definition run_task (t : WindowTask) : M P text :=
  match t with
  | Connect choice => changePrinterConnection choice
  | Disconnect => _ ← disconnect; mret []
  | SwitchToMode m => switchToMode m
  | InstallFirmware file => window_install file
  | SaveSetting name value => window_save name value
  | SendCommand command => _ ← sendCommand command; mret []
  | CheckInvalidValues => mode ← gets operatingMode; _ ← when (bool_decide (mode = FIRMWARE)) switchToBootloaderMode; mret []
  end.

End Tasks.

(** ** Witnesses *)

(** Moves in a given order: of the thread or of the window. *)
Fixpoint schedule {A T C R W} (run : T -> W -> option (W * R)) (moves : list bool) (f : @Frame A T C R W) : option (@Frame A T C R W) :=
  match moves with
  | [] => Some f
  | m :: moves => f ← (if m : bool then worker_step run f else event_step f); schedule run moves f
  end.

Lemma schedule_reachable {A T C R W} (run : T -> W -> option (W * R)) moves : forall (f f' : @Frame A T C R W),
  reachable run f -> schedule run moves f = Some f' -> reachable run f'.
Proof.
  induction moves as [|m moves IH]; intros f f' Hf E; cbn in E; [injection E as <-; exact Hf|].
  destruct (if m then worker_step run f else event_step f) as [g|] eqn:Eg; [|discriminate].
  apply (IH g); [|exact E]. apply (reachable_step _ f); [exact Hf|]. apply step_internal. destruct m; [apply worker_moves|apply window_moves]; exact Eg.
Qed.

(** A button for a connection that fails and one for the mode, on the bench: the second task
    runs before the window has seen the end of the first. *)
Definition bench_task : WindowTask -> Printer (Line Bench) -> option (Printer (Line Bench) * text) := run_task 3 (fun _ _ => None).
Definition bench_jobs : @Frame text WindowTask text text (Printer (Line Bench)) :=
  submit (mkJob (str "disable") (SwitchToMode BOOTLOADER) (str "enable"))
    (submit (mkJob (str "connecting") (Connect (str "Auto")) (str "connected")) (initial (bench_printer [] [] FIRMWARE))).
Definition bench_moves : list bool := [true; true; false; true; true; true; true; true; true; false; false].


Definition add (t w : Z) : option (Z * Z) := Some (w + t, w).

