(* ===== verification/CommandLine.v ===== *)
(** * The command line of the desktop program (M33 Manager/main.cpp)

    The console build for Linux: the options, the installation of drivers and of a firmware,
    switching the mode, and the manual mode. What the program uses of the operating system
    besides the serial port is an interface, [Desktop]; the files that the build embeds in the
    program are parameters, [Embedded]. The status is read as if its lock were free. *)

From Stdlib Require Import String.
From S2P Require Import Prelude Float32 Common Eeprom HostGcode Rom Manager Connection Settings.

(** Creating a file fails or writes its content; a command tells whether its status is zero. *)
Class Desktop (W : Type) := {
  read_file : text -> W -> option (list Z);
  create_file : text -> list Z -> W -> option W;
  superuser : W -> bool;
  run_command : text -> W -> W * bool;
  next_line : W -> W * text;
  environment : W -> text -> option text;
  P_tmpdir : text
}.

Class Embedded := {
  IME_HEX_DATA : list Z;
  M3D_HEX_DATA : list Z;
  _90Micro3dLocalRulesData : list Z;
  _91Micro3dHeatbedLocalRulesData : list Z;
  _92M3dProLocalRulesData : list Z;
  _93Micro_localRulesData : list Z
}.

Definition VERSION : text := str "0.16".
Definition IME_ROM_VERSION_STRING : text := str "1900000125".
Definition M3D_ROM_VERSION_STRING : text := str "2016040401".

(** The version with dots. *)
Definition insert_at (i : nat) (c : Z) (t : text) : text := take i t ++ [c] ++ drop i t.
Definition iMeVersion : text := insert_at 8 46 (insert_at 5 46 (insert_at 2 46 (drop 2 IME_ROM_VERSION_STRING))).

Definition help : list text := [
  str "Usage: " ++ [34] ++ str "M33 Manager" ++ [34] ++ str " -d -f -b -i -3 -r firmware.rom -m serialport";
  str "-d | --drivers: Install device drivers";
  str "-f | --firmware: Switches printer into firmware mode";
  str "-b | --bootloader: Switches printer into bootloader mode";
  str "-i | --ime: Installs iMe V" ++ iMeVersion;
  str "-3 | --m3d: Installs M3D V" ++ M3D_ROM_VERSION_STRING;
  str "-r | --rom: Installs the provided firmware";
  str "-m | --manual: Allows manually sending commands to the printer";
  str "serialport: The printer's serial port or it will automatically find the printer if not specified"; []].

(** ** Options *)

Inductive Option_ := Help | Drivers | ToFirmware | ToBootloader | InstallIme | InstallM3d | InstallRom | Manual.

Definition options : list (string * string * Option_) := [
  ("-h", "--help", Help); ("-d", "--drivers", Drivers); ("-f", "--firmware", ToFirmware); ("-b", "--bootloader", ToBootloader);
  ("-i", "--ime", InstallIme); ("-3", "--m3d", InstallM3d); ("-r", "--firmwarerom", InstallRom); ("-m", "--manual", Manual)]%string.

Definition option_of (arg : text) : option Option_ :=
  option_map snd (List.find (fun o => bool_decide (arg = str (fst (fst o))) || bool_decide (arg = str (snd (fst o)))) options).

(** The serial port: the last argument, unless the option is the last one. *)
Definition serial_port (argv : list text) (i : Z) : text := if i <? len argv - 1 then nth (length argv - 1) argv [] else [].

Section Program.
Context {W : Type} `{System W} `{!Desktop W} `{Embedded} `{CLibrary}.

Record Console := mkConsole { printer : Printer (Line W); output : list text }.

Definition on_printer {A} (m : M (Printer (Line W)) A) : M Console A :=
  fun c => match m (printer c) with Some (p, a) => Some (mkConsole p (output c), a) | None => None end.
Definition on_world {A} (f : W -> W * A) : M Console A := on_printer (on_line (on_os f)).
Definition display (t : text) : M Console unit := modify (fun c => mkConsole (printer c) (output c ++ [t])).
Definition display_all (ts : list text) : M Console unit := modify (fun c => mkConsole (printer c) (output c ++ ts)).

(** [cout << t << endl; return EXIT_FAILURE;]. *)
Definition failure (t : text) : M Console bool := _ ← display t; mret false.

Definition getStatus : M Console text := on_printer (on_line (gets status)).
Definition getCurrentSerialPort : M Console text := on_printer (on_line (gets currentSerialPort)).
Definition world : M Console W := on_printer (on_line (gets os)).

Definition show_port : M Console unit := port ← getCurrentSerialPort; display (str "Current serial port: " ++ port).

(** Writing a file. *)
Definition unpack (name : text) (data : list Z) : M Console bool :=
  on_world (fun w => match create_file name data w with Some w => (w, true) | None => (w, false) end).

Variable fuel : nat.

Definition connect_to (serialPort : text) : M Console bool := on_printer (connect fuel true serialPort).

(** ** Drivers *)

Definition rules : list (text * list Z) := [
  (str "/etc/udev/rules.d/90-micro-3d-local.rules", _90Micro3dLocalRulesData);
  (str "/etc/udev/rules.d/91-micro-3d-heatbed-local.rules", _91Micro3dHeatbedLocalRulesData);
  (str "/etc/udev/rules.d/92-m3d-pro-local.rules", _92M3dProLocalRulesData);
  (str "/etc/udev/rules.d/93-micro+-local.rules", _93Micro_localRulesData)].

Fixpoint unpack_all (files : list (text * list Z)) : M Console bool :=
  match files with [] => mret true | (n, d) :: files => ok ← unpack n d; if ok : bool then unpack_all files else mret false end.

Definition install_drivers : M Console bool :=
  _ ← display (str "Installing drivers");
  w ← world;
  if negb (superuser w) then failure (str "Elevated privileges required")
  else
    ok ← unpack_all rules;
    if negb ok then failure (str "Failed to unpack udev rule")
    else
      reloaded ← on_world (run_command (str "udevadm control --reload-rules"));
      triggered ← (if reloaded : bool then on_world (run_command (str "udevadm trigger")) else mret false);
      if negb triggered then failure (str "Failed to install drivers")
      else (_ ← display (str "Drivers successfully installed"); mret true).

(** ** Modes *)

Definition switch_to (name : text) (in_mode : M (Printer (Line W)) bool) (switch : M (Printer (Line W)) unit) (serialPort : text) : M Console bool :=
  _ ← display (str "Switching printer into " ++ name ++ str " mode");
  connected ← connect_to serialPort;
  if negb connected then (s ← getStatus; failure s)
  else
    already ← on_printer in_mode;
    if already : bool then
      _ ← display (str "Printer is already in " ++ name ++ str " mode");
      _ ← show_port;
      mret true
    else
      _ ← on_printer switch;
      still ← on_printer isConnected;
      if negb still then (s ← getStatus; failure s)
      else
        _ ← display (str "Printer has been successfully switched into " ++ name ++ str " mode");
        _ ← show_port;
        mret true.

(** ** Installing a firmware *)

Definition installFirmware (firmwareLocation serialPort : text) : M Console bool :=
  w ← world;
  match read_file firmwareLocation w with
  | None => failure (str "Firmware ROM doesn't exist")
  | Some _ =>
      if negb (beginningOfNumbers firmwareLocation =? endOfNumbers firmwareLocation - 10) then failure (str "Invalid firmware ROM name")
      else
        connected ← connect_to serialPort;
        if negb connected then (s ← getStatus; failure s)
        else
          w ← world;
          installed ← on_printer (Manager.installFirmware fuel firmwareLocation (read_file firmwareLocation w));
          if negb installed then failure (str "Failed to update firmware")
          else
            _ ← display (str "Firmware successfully installed");
            _ ← show_port;
            mret true
  end.

(** A firmware of the program, unpacked to a temporary file. *)
Definition install_embedded (name version : text) (data : list Z) (serialPort : text) : M Console bool :=
  _ ← display (str "Installing " ++ name ++ str " firmware");
  w ← world;
  location ← of_option (getTemporaryLocation (environment w) P_tmpdir);
  let firmwareLocation := location ++ name ++ [32] ++ version ++ str ".hex" in
  ok ← unpack firmwareLocation data;
  if negb ok then failure (str "Failed to unpack " ++ name ++ str " firmware")
  else installFirmware firmwareLocation serialPort.

(** ** Manual mode *)

(** [do response = receiveResponse(); while(response.empty() && isConnected())]. *)
Fixpoint await (n : nat) : M Console text :=
  match n with
  | O => of_option None
  | S n =>
      response ← on_printer (receiveResponse fuel);
      if is_empty response then
        connected ← on_printer isConnected;
        if connected : bool then await n else mret response
      else mret response
  end.

Definition is_answer (response : text) : bool :=
  bool_decide (take 2 response = str "ok") || bool_decide (take 2 response = str "rs") ||
  bool_decide (take 4 response = str "skip") || bool_decide (take 5 response = str "Error").

(** The responses to a command; false when the printer was disconnected. *)
Fixpoint answers (n : nat) (response : text) : M Console bool :=
  match n with
  | O => of_option None
  | S n =>
      if is_answer response then mret true
      else
        response ← await fuel;
        connected ← on_printer isConnected;
        if negb connected then (_ ← display_all [str "Printer disconnected"; []]; mret false)
        else
          _ ← when (negb (bool_decide (response = str "wait"))) (display (str "Receive: " ++ response));
          mode ← on_printer (gets operatingMode);
          if bool_decide (mode = BOOTLOADER) then mret true else answers n response
  end.

Fixpoint manual_loop (n : nat) : M Console bool :=
  match n with
  | O => of_option None
  | S n =>
      _ ← display (str "Enter command: ");
      line ← on_world next_line;
      if bool_decide (line = str "quit") then mret true
      else
        mode ← on_printer (gets operatingMode);
        let changedMode := bool_decide (line = str "Q") && bool_decide (mode = BOOTLOADER) ||
                           bool_decide (line = str "M115 S628") && bool_decide (mode = FIRMWARE) in
        ok ← on_printer (sendRequest line);
        if negb ok then
          connected ← on_printer isConnected;
          _ ← display_all [if connected : bool then str "Sending command failed" else str "Printer disconnected"; []];
          mret false
        else
          _ ← display (str "Send: " ++ line);
          go_on ← (if changedMode then mret true else answers fuel []);
          if negb go_on then mret false
          else (_ ← display []; manual_loop n)
  end.

Definition manual_mode (serialPort : text) : M Console bool :=
  _ ← display (str "Starting manual mode");
  connected ← connect_to serialPort;
  if negb connected then (s ← getStatus; failure s)
  else (_ ← display (str "Enter 'quit' to exit"); manual_loop fuel).

(** ** The program *)

Definition show_help : M Console bool := _ ← display_all help; mret true.
Definition switch_to_firmware (serialPort : text) : M Console bool := switch_to (str "firmware") inFirmwareMode switchToFirmwareMode serialPort.
Definition switch_to_bootloader (serialPort : text) : M Console bool := switch_to (str "bootloader") inBootloaderMode switchToBootloaderMode serialPort.
Definition install_ime (serialPort : text) : M Console bool := install_embedded (str "iMe") IME_ROM_VERSION_STRING IME_HEX_DATA serialPort.
Definition install_m3d (serialPort : text) : M Console bool := install_embedded (str "M3D") M3D_ROM_VERSION_STRING M3D_HEX_DATA serialPort.
Definition install_from_file (argv : list text) (i : Z) : M Console bool :=
  _ ← display (str "Installing firmware");
  if len argv - 1 <=? i then failure (str "No firmware ROM provided")
  else let i := u8 (i + 1) in installFirmware (nth (Z.to_nat i) argv []) (serial_port argv i).

Definition perform (o : Option_) (argv : list text) (i : Z) : M Console bool :=
  match o with
  | Help => show_help
  | Drivers => install_drivers
  | ToFirmware => switch_to_firmware (serial_port argv i)
  | ToBootloader => switch_to_bootloader (serial_port argv i)
  | InstallIme => install_ime (serial_port argv i)
  | InstallM3d => install_m3d (serial_port argv i)
  | InstallRom => install_from_file argv i
  | Manual => manual_mode (serial_port argv i)
  end.

(** [for(uint8_t i = 0; i < argc; i++)]. *)
Fixpoint arguments_loop (n : nat) (argv : list text) (i : Z) : M Console bool :=
  match n with
  | O => of_option None
  | S n =>
      if i <? len argv then
        match option_of (nth (Z.to_nat i) argv []) with
        | Some o => perform o argv i
        | None => arguments_loop n argv (u8 (i + 1))
        end
      else failure (str "Invalid parameters")
  end.

Definition main (argv : list text) : M Console bool :=
  _ ← display_all [str "M33 Manager V" ++ VERSION; []];
  if 1 <? len argv then arguments_loop 257 argv 0 else failure (str "Invalid parameters").

End Program.
Arguments Console : clear implicits.

(** ** What the options do *)

(** The first argument that is an option, with its index. *)
Fixpoint first_option (argv : list text) (i : Z) : option (Z * Option_) :=
  match argv with
  | [] => None
  | a :: argv => match option_of a with Some o => Some (i, o) | None => first_option argv (i + 1) end
  end.

Section Theorems.
Context {W : Type} `{System W} `{!Desktop W} `{Embedded} `{CLibrary}.

Lemma arguments_loop_first fuel argv : len argv <= 255 -> forall post pre n (c : Console W), argv = pre ++ post -> (length post < n)%nat ->
  arguments_loop fuel n argv (len pre) c =
  match first_option post (len pre) with Some (i, o) => perform fuel o argv i c | None => failure (str "Invalid parameters") c end.
Proof.
  intros Hl. induction post as [|a post IH]; intros pre n c E Hn; (destruct n as [|n]; [cbn [length] in Hn; lia|]); cbn [arguments_loop first_option].
  - rewrite (proj2 (Z.ltb_ge _ _)); [reflexivity|]. rewrite E, app_nil_r. lia.
  - assert (len argv = len pre + 1 + len post) as El by (rewrite E, length_app; cbn [length]; lia).
    rewrite (proj2 (Z.ltb_lt _ _)), Nat2Z.id by lia. replace (nth (length pre) argv []) with a by (rewrite E, nth_middle; reflexivity). destruct (option_of a); [reflexivity|].
    rewrite u8_id by lia. replace (len pre + 1) with (len (pre ++ [a])) by (rewrite length_app; cbn [length]; lia).
    apply IH; [rewrite <- app_assoc; exact E|cbn [length] in Hn; lia].
Qed.

Lemma main_first fuel argv (c : Console W) : 1 < len argv <= 255 ->
  main fuel argv c =
  (_ ← display_all [str "M33 Manager V" ++ VERSION; []];
   match first_option argv 0 with Some (i, o) => perform fuel o argv i | None => failure (str "Invalid parameters") end) c.
Proof.
  intros Hl. unfold main. rewrite (proj2 (Z.ltb_lt _ _)) by lia. apply bind_ext. intros c' u _.
  refine (eq_trans (arguments_loop_first fuel argv _ argv [] 257 c' eq_refl _) _); [lia|lia|]. change (len (@nil text)) with 0.
  destruct (first_option argv 0) as [[i o]|]; reflexivity.
Qed.

(** With at most 255 arguments the program ends its loop over them: the first argument
    that is an option decides what is done, whatever precedes or follows it, and without an
    option nothing but the message about invalid parameters is done and the exit is a failure. *)
Theorem first_option_decides fuel argv (c : Console W) : 1 < len argv <= 255 ->
  main fuel argv c =
  (_ ← display_all [str "M33 Manager V" ++ VERSION; []];
   match first_option argv 0 with Some (i, o) => perform fuel o argv i | None => failure (str "Invalid parameters") end) c.
Proof. apply main_first. Qed.

(** More than 255 arguments without an option are looked at for ever. *)
Lemma loop_hangs fuel argv n : forall i (c : Console W), 255 < len argv -> 0 <= i < 256 ->
  (forall k, (k < 256)%nat -> option_of (nth k argv []) = None) -> arguments_loop fuel n argv i c = None.
Proof.
  induction n as [|n IH]; intros i c Hl Hi Ho; [reflexivity|]. cbn [arguments_loop]. rewrite (proj2 (Z.ltb_lt _ _)) by lia. rewrite Ho by lia.
  apply IH; [exact Hl|apply u8_range|exact Ho].
Qed.

Theorem many_arguments_hang fuel argv (c : Console W) : 255 < len argv -> (forall k, (k < 256)%nat -> option_of (nth k argv []) = None) ->
  forall n, arguments_loop fuel n argv 0 c = None.
Proof. intros Hl Ho n. apply loop_hangs; [exact Hl|lia|exact Ho]. Qed.

(** The long name of the option for a file in the help text is not an option. *)
Theorem help_misnames_rom : In (str "-r | --rom: Installs the provided firmware") help /\ option_of (str "--rom") = None.
Proof. split; [vm_compute; tauto|reflexivity]. Qed.

Lemma on_printer_inv {A} (m : M (Printer (Line W)) A) (c c' : Console W) a : on_printer m c = Some (c', a) -> m (printer c) = Some (printer c', a).
Proof. unfold on_printer. destruct (m (printer c)) as [[p x]|]; [|discriminate]. intros [= <- <-]. reflexivity. Qed.

Lemma display_printer t (c c' : Console W) u : display t c = Some (c', u) -> printer c' = printer c.
Proof. intros [= <- _]. reflexivity. Qed.

Lemma world_same (c c' : Console W) w : world c = Some (c', w) -> c' = c.
Proof. unfold world, on_printer. rewrite gets_run. intros [= <- _]. destruct c. reflexivity. Qed.

Lemma failure_false t (c c' : Console W) : failure t c = Some (c', true) -> False.
Proof. discriminate. Qed.

(** An installation that reports success has connected and installed. *)
Lemma installFirmware_true fuel file port (c c' : Console W) : installFirmware fuel file port c = Some (c', true) ->
  exists p w, connect fuel true port (printer c) = Some (p, true) /\ Manager.installFirmware fuel file (read_file file w) p = Some (printer c', true).
Proof.
  unfold installFirmware. intros E. unbind E as c1 w E1. apply world_same in E1 as ->. destruct (read_file file w); [|destruct (failure_false _ _ _ E)].
  destruct (negb (beginningOfNumbers file =? _)); [destruct (failure_false _ _ _ E)|]. unbind E as c2 ok E2. apply on_printer_inv in E2.
  destruct ok; cbn [negb] in E; [|unbind E as c3 s E3; destruct (failure_false _ _ _ E)].
  unbind E as c3 w' E3. apply world_same in E3 as ->. unbind E as c4 ok E4. apply on_printer_inv in E4. destruct ok; cbn [negb] in E; [|destruct (failure_false _ _ _ E)].
  exists (printer c2), w'. split; [exact E2|]. unbind E as c5 u5 E5. apply display_printer in E5. unbind E as c6 u6 E6. injection E as <-.
  unfold show_port in E6. unbind E6 as c7 t7 E7. apply on_printer_inv in E7. rewrite gets_run in E7. injection E7 as E7 _.
  apply display_printer in E6. rewrite E6, <- E7, E5. exact E4.
Qed.

(** Conversely, a connection and an installation that succeed are reported. *)
Lemma installFirmware_runs fuel file port (c : Console W) p bytes p' :
  read_file file (os (link (printer c))) = Some bytes -> beginningOfNumbers file = endOfNumbers file - 10 ->
  connect fuel true port (printer c) = Some (p, true) -> read_file file (os (link p)) = Some bytes ->
  Manager.installFirmware fuel file (Some bytes) p = Some (p', true) ->
  exists o, (_ ← display (str "Installing firmware"); installFirmware fuel file port) c = Some (mkConsole p' o, true).
Proof.
  intros Hr Hn Hc Hr' Hi. assert (forall c : Console W, world c = Some (c, os (link (printer c)))) as Ew.
  { intros [q o]. unfold world, on_printer. cbn [printer]. rewrite gets_run. reflexivity. }
  eexists. step_pure. unfold installFirmware. step (Ew (mkConsole (printer c) (output c ++ [str "Installing firmware"]))). cbn [printer]. rewrite Hr.
  rewrite (proj2 (Z.eqb_eq _ _) Hn). cbn [negb].
  eapply eq_trans; [eapply bind_step; unfold connect_to, on_printer; cbn [printer]; rewrite Hc; reflexivity|]. cbn [negb].
  step (Ew (mkConsole p (output c ++ [str "Installing firmware"]))). cbn [printer]. rewrite Hr'.
  eapply eq_trans; [eapply bind_step; unfold on_printer; cbn [printer]; rewrite Hi; reflexivity|]. cbn [negb]. step_pure. unfold show_port, getCurrentSerialPort.
  eapply eq_trans; [eapply bind_step; eapply eq_trans; [eapply bind_step; unfold on_printer; cbn [printer]; rewrite gets_run; reflexivity|reflexivity]|]. reflexivity.
Qed.


End Theorems.

(** ** Witnesses *)

#[export] Instance bench_desktop : Desktop Bench := {|
  read_file n _ := if bool_decide (n = example_name) then Some example_file else None;
  create_file _ _ w := Some w;
  superuser _ := false;
  run_command _ w := (w, true);
  next_line w := (w, str "quit");
  environment _ _ := None;
  P_tmpdir := str "/tmp"
|}.

#[export] Instance no_files : Embedded := {|
  IME_HEX_DATA := []; M3D_HEX_DATA := []; _90Micro3dLocalRulesData := []; _91Micro3dHeatbedLocalRulesData := [];
  _92M3dProLocalRulesData := []; _93Micro_localRulesData := []
|}.

Definition bench_port : text := str "/dev/ttyACM0".
Definition bench_console : Console Bench :=
  let eeprom := example_eeprom ++ [13] in
  mkConsole (bench_printer [bench_port] ([[66]; le_bytes 4 example_crc; eeprom; eeprom; eeprom] ++ example_responses) FIRMWARE) [].

Lemma first_option_decides_witness :
  exists c', main 3 [str "m33"; str "quickly"; str "--help"; str "-f"] bench_console = Some (c', true) /\ (5 < length (output c'))%nat.
Proof.
  rewrite first_option_decides by (cbn [length]; lia). eexists. split; [reflexivity|]. cbn. lia.
Defined.

Definition bench_connected : Printer (Line Bench) := after (connect 10 true bench_port (printer bench_console)) (printer bench_console).
Definition bench_installed : Printer (Line Bench) := after (install_rom 1900000118 example_rom example_crc bench_connected) bench_connected.

Lemma bench_connect : connect 10 true bench_port (printer bench_console) = Some (bench_connected, true).
Proof. vm_compute. reflexivity. Qed.

Lemma bench_install : Manager.installFirmware 10 example_name (Some example_file) bench_connected = Some (bench_installed, true).
Proof.
  rewrite (install_is 10 example_name example_file 1900000118 example_rom example_crc);
    [vm_compute; reflexivity|vm_compute; reflexivity|apply example_rom_crc|vm_compute; discriminate|apply example_rom_crc].
Qed.

