(* ===== verification/Bin2h.v ===== *)
(** * The tool that embeds files in the desktop program (M33 Manager/bin2h.cpp)

    It writes a file as a C array into a header and adds the header to the file resources.h.
    What the streams report is an argument, [Streams]; the state is the two files. *)

From Stdlib Require Import String.
From S2P Require Import Prelude Common HostGcode Connection Settings.

(** ** Names *)

(** The part behind the last slash. *)
Fixpoint base_name (path : text) : text :=
  match path with
  | [] => []
  | c :: path => if existsb (Z.eqb 47) path then base_name path else if c =? 47 then path else c :: path
  end.

(** [front] of an empty text is undefined. *)
Definition front (t : text) : option Z := match t with [] => None | c :: _ => Some c end.

Definition outputFileName (path : text) : option text :=
  let name := map (fun c => if (c =? 46) || (c =? 45) then 95 else c) (base_name path) in
  f ← front name;
  Some (if isdigit f then 95 :: name else name).

Definition headerGaurdName (outputFileName : text) : text :=
  map (fun c => toupper (if (c =? 32) || (c =? 43) then 95 else c)) outputFileName.

Definition separator (c : Z) : bool := (c =? 32) || (c =? 95) || (c =? 43).

(** The loop that erases a separator and changes the character behind it. *)
Fixpoint erase_separators (t : text) : text :=
  match t with
  | [] => []
  | c :: t => if separator c then match t with [] => [] | d :: t => toupper d :: erase_separators t end else c :: erase_separators t
  end.

Definition variableName (outputFileName : text) : option text :=
  match erase_separators outputFileName with
  | [] => None
  | c :: t => let t := tolower c :: t in Some (if isdigit (tolower c) then 95 :: t else t)
  end.

(** ** The header *)

Definition endl : text := [10].

(** [hex << uppercase << setw(2) << setfill('0')]. *)
Definition byte_text (c : Z) : text := str "0x" ++ [upper_digit (c / 16 mod 16); upper_digit (c mod 16)].

Fixpoint data_text (data : list Z) : text :=
  match data with
  | [] => []
  | [c] => byte_text c
  | c :: data => byte_text c ++ str ", " ++ data_text data
  end.

Definition header_start (guard variable : text) : text :=
  str "// Header guard" ++ endl ++ str "#ifndef " ++ guard ++ str "_H" ++ endl ++ str "#define " ++ guard ++ str "_H" ++ endl ++ endl ++ endl ++
  str "// Constants" ++ endl ++ endl ++ str "// Size" ++ endl ++ str "const uintmax_t " ++ variable ++ str "Size = ".
Definition header_middle (variable : text) : text :=
  str ";" ++ endl ++ endl ++ str "// Data" ++ endl ++ str "const uint8_t " ++ variable ++ str "Data[] = {".
Definition header_end : text := str "};" ++ endl ++ endl ++ endl ++ str "#endif".

Definition header (guard variable : text) (size : Z) (data : list Z) : text :=
  header_start guard variable ++ to_string_int size ++ header_middle variable ++ data_text data ++ header_end.

Definition resource_line (name : text) : text := str "#include " ++ [34] ++ name ++ str ".h" ++ [34] ++ endl.

(** ** The program *)

(** Which operations on the streams succeed: opening the input, asking for its start, going
    to its end, asking for it, going back, opening the output and the resources, reading to
    the end, writing, and closing the three. *)
Record Streams := mkStreams {
  opens_input : bool; tells_begin : bool; seeks_end : bool; tells_end : bool; seeks_begin : bool;
  opens_output : bool; opens_resources : bool; reads_all : bool; writes_all : bool;
  closes_input : bool; closes_output : bool; closes_resources : bool;
  content : list Z
}.

(** The two files, if they exist. *)
Record Files := mkFiles { header_file : option text; resources_file : option text }.

(** The exit, the message and the files. *)
Definition Result : Type := bool * text * Files.

(** What follows the writing: a failure removes the files. *)
Definition finish (io : Streams) (name output resources : text) : Result :=
  let removed := mkFiles None None in
  if negb (reads_all io) then (false, str "Reading input file failed", removed)
  else if negb (writes_all io) then (false, str "Writing output file failed", removed)
  else if negb (closes_input io) then (false, str "Closing input file failed", removed)
  else if negb (closes_output io) then (false, str "Closing output file failed", removed)
  else if negb (closes_resources io) then (false, str "Closing resources file failed", mkFiles (Some output) None)
  else (true, name ++ str " generated successfully", mkFiles (Some output) (Some resources)).

Definition bin2h (packed : bool) (argv : list text) (io : Streams) (files : Files) : option Result :=
  match argv with
  | _ :: path :: _ =>
      if bool_decide (path = str "-h") || bool_decide (path = str "--help") then Some (false, str "Usage: ./bin2h " ++ [34] ++ str "fileToConvert" ++ [34], files)
      else
        name ← outputFileName path;
        let guard := headerGaurdName name in
        variable ← variableName name;
        if negb packed && negb (bool_decide (name = str "icon_png")) then Some (true, name ++ str " not used", files)
        else if negb (opens_input io) then Some (false, str "Opening input file failed", files)
        else if negb (tells_begin io && seeks_end io && tells_end io && seeks_begin io) then Some (false, str "Reading input file failed", files)
        else if negb (opens_output io) then Some (false, str "Opening output file failed", files)
        else if negb (opens_resources io) then Some (false, str "Opening resources file failed", mkFiles (Some []) (resources_file files))
        else Some (finish io name (header guard variable (len (content io)) (content io)) (default [] (resources_file files) ++ resource_line name))
  | _ => Some (false, str "File name not provided", files)
  end.

(** ** Reading a header *)

Fixpoint strip (p t : text) : option text :=
  match p, t with
  | [], _ => Some t
  | c :: p, d :: t => if c =? d then strip p t else None
  | _ :: _, [] => None
  end.

Fixpoint span_digits (t : text) : text * text :=
  match t with
  | c :: t => if isdigit c then let '(a, b) := span_digits t in (c :: a, b) else ([], c :: t)
  | [] => ([], [])
  end.

Definition digit_value (c : Z) : option Z :=
  if (48 <=? c) && (c <=? 57) then Some (c - 48) else if (65 <=? c) && (c <=? 70) then Some (c - 55) else None.

(** The elements of the array up to the brace, and what is behind it. *)
Fixpoint read_elements (n : nat) (t : text) : option (list Z * text) :=
  match n with
  | O => None
  | S n =>
      match t with
      | 125 :: t => Some ([], t)
      | 48 :: 120 :: a :: b :: t =>
          x ← digit_value a; y ← digit_value b;
          match t with
          | 44 :: 32 :: t => ('(vs, t) ← read_elements n t; Some (16 * x + y :: vs, t))
          | 125 :: t => Some ([16 * x + y], t)
          | _ => None
          end
      | _ => None
      end
  end.

Definition read_header (guard variable t : text) : option (Z * list Z) :=
  t ← strip (header_start guard variable) t;
  let '(size, t) := span_digits t in
  t ← strip (header_middle variable) t;
  '(data, _) ← read_elements (S (length t)) t;
  Some (dec_value size, data).

(** ** Round trip *)

Lemma strip_app p t : strip p (p ++ t) = Some t.
Proof. induction p as [|c p IH]; [destruct t; reflexivity|]. cbn. rewrite Z.eqb_refl. exact IH. Qed.

Lemma span_digits_app ds c t : Forall (fun c => isdigit c = true) ds -> isdigit c = false -> span_digits (ds ++ c :: t) = (ds, c :: t).
Proof. induction 1 as [|d ds Hd _ IH]; intros Hc; cbn; [rewrite Hc; reflexivity|]. rewrite Hd, IH by exact Hc. reflexivity. Qed.

Lemma digit_value_upper d : 0 <= d < 16 -> digit_value (upper_digit d) = Some d.
Proof.
  intros Hd. unfold digit_value, upper_digit. destruct (Z.ltb_spec d 10).
  - rewrite (proj2 (Z.leb_le _ _)), (proj2 (Z.leb_le _ 57)) by lia. cbn [andb]. f_equal. lia.
  - rewrite (proj2 (Z.leb_gt _ 57)) by lia. rewrite andb_false_r, (proj2 (Z.leb_le _ _)), (proj2 (Z.leb_le _ 70)) by lia. cbn [andb]. f_equal. lia.
Qed.

Lemma read_element n c t : 0 <= c < 256 -> read_elements (S n) (byte_text c ++ t) =
  match t with
  | 44 :: 32 :: t => '(vs, t) ← read_elements n t; Some (c :: vs, t)
  | 125 :: t => Some ([c], t)
  | _ => None
  end.
Proof.
  intros Hc. unfold byte_text. cbn [str Datatypes.app read_elements]. change (str "0x" ++ [?a; ?b]) with [48; 120; a; b]. cbn [Datatypes.app].
  rewrite !digit_value_upper by lia_mod. bind_some. replace (16 * (c / 16 mod 16) + c mod 16) with c by lia_mod. reflexivity.
Qed.

Lemma read_data data : Forall (fun c => 0 <= c < 256) data -> forall n t, (length data < n)%nat ->
  read_elements n (data_text data ++ 125 :: t) = Some (data, t).
Proof.
  induction 1 as [|c data Hc Hd IH]; intros n t Hn; (destruct n as [|n]; [cbn [length] in Hn; lia|]); [reflexivity|].
  destruct data as [|d data]; cbn [data_text].
  - rewrite read_element by exact Hc. reflexivity.
  - rewrite <- !app_assoc, read_element by exact Hc. change (str ", " ++ ?u) with (44 :: 32 :: u). cbv iota.
    rewrite IH by (cbn [length] in *; lia). reflexivity.
Qed.

Lemma data_text_length data : (length data <= length (data_text data))%nat.
Proof.
  induction data as [|c data IH]; [cbn; lia|]. destruct data as [|d data]; [cbn; lia|]. cbn [data_text length] in *. rewrite !length_app. cbn [length] in *. change (length (byte_text c)) with 4%nat. lia.
Qed.

Lemma header_read guard variable data : Forall (fun c => 0 <= c < 256) data -> len data < 10 ^ 20 ->
  read_header guard variable (header guard variable (len data) data) = Some (len data, data).
Proof.
  intros Hd Hl. unfold read_header, header. rewrite strip_app. bind_some. unfold to_string_int. rewrite (proj2 (Z.ltb_ge _ _)) by lia.
  change (header_middle variable ++ ?u) with (59 :: (endl ++ endl ++ str "// Data" ++ endl ++ str "const uint8_t " ++ variable ++ str "Data[] = {") ++ u).
  rewrite span_digits_app by (reflexivity || (apply digits_loop_digit; lia)).
  change (59 :: (endl ++ endl ++ str "// Data" ++ endl ++ str "const uint8_t " ++ variable ++ str "Data[] = {") ++ ?u) with (header_middle variable ++ u).
  rewrite strip_app. bind_some. change header_end with (125 :: drop 1 header_end).
  rewrite read_data by (exact Hd || (rewrite length_app; pose proof (data_text_length data); lia)). bind_some.
  do 2 f_equal. apply digits_loop_value. split; [lia|exact Hl].
Qed.

(** ** Identifiers *)

Definition is_letter (c : Z) : bool := (65 <=? c) && (c <=? 90) || (97 <=? c) && (c <=? 122).
Definition alnum (c : Z) : bool := is_letter c || isdigit c.
Definition identifier (t : text) : bool :=
  match t with [] => false | c :: _ => (is_letter c || (c =? 95)) && forallb (fun c => alnum c || (c =? 95)) t end.

(** A plain file name: letters, digits and separators, the first character and that behind a
    separator being letters or digits. *)
Definition mark (c : Z) : bool := separator c || (c =? 46) || (c =? 45).
Fixpoint well_named (t : text) : bool :=
  match t with
  | [] => true
  | c :: t => if mark c then match t with [] => true | d :: t => alnum d && well_named t end else alnum c && well_named t
  end.
Definition plain_name (t : text) : bool := match t with [] => false | c :: _ => alnum c && well_named t end.

Lemma toupper_alnum c : alnum c = true -> alnum (toupper c) = true.
Proof.
  unfold alnum, is_letter, isdigit, toupper. intros Ha. destruct ((97 <=? c) && (c <=? 122)) eqn:E; [|rewrite ?E in *; exact Ha]. clear Ha. bool_hyps.
  rewrite (proj2 (Z.leb_le 65 _)), (proj2 (Z.leb_le _ 90)) by lia. reflexivity.
Qed.

Lemma tolower_alnum c : alnum c = true -> alnum (tolower c) = true.
Proof.
  unfold alnum, is_letter, isdigit, tolower. intros Ha. destruct ((65 <=? c) && (c <=? 90)) eqn:E; [|rewrite ?E in *; exact Ha]. clear Ha. bool_hyps.
  rewrite (proj2 (Z.leb_le 97 _)), (proj2 (Z.leb_le _ 122)) by lia. rewrite orb_true_r. reflexivity.
Qed.

Lemma alnum_unmarked c : alnum c = true -> mark c = false.
Proof.
  unfold alnum, is_letter, isdigit, mark, separator. intros Ha.
  destruct (Z.eqb_spec c 32), (Z.eqb_spec c 95), (Z.eqb_spec c 43), (Z.eqb_spec c 46), (Z.eqb_spec c 45); subst; try discriminate. reflexivity.
Qed.

(** The first replacement. *)
Definition underscore (c : Z) : Z := if (c =? 46) || (c =? 45) then 95 else c.

Lemma underscore_alnum c : alnum c = true -> underscore c = c /\ separator c = false.
Proof.
  intros Ha. apply alnum_unmarked in Ha. unfold mark in Ha. unfold underscore. bool_hyps.
  rewrite (proj2 (Z.eqb_neq c 46)), (proj2 (Z.eqb_neq c 45)) by assumption. split; [reflexivity|assumption].
Qed.

Lemma underscore_mark c : mark c = true -> separator (underscore c) = true.
Proof.
  unfold mark, underscore. destruct (Z.eqb_spec c 46), (Z.eqb_spec c 45); cbn [orb]; try reflexivity. rewrite !orb_false_r. auto.
Qed.

Lemma erased_alnum n : forall t, (length t <= n)%nat -> well_named t = true -> forallb alnum (erase_separators (map underscore t)) = true.
Proof.
  induction n as [|n IH]; intros [|c t] Hn Hw; [reflexivity|cbn in Hn; lia|reflexivity|]. cbn [length well_named map erase_separators] in *.
  destruct (mark c) eqn:Em.
  - rewrite (underscore_mark c Em). destruct t as [|d t]; [reflexivity|]. apply andb_true_iff in Hw as [Hd Hw]. cbn [map forallb].
    rewrite (proj1 (underscore_alnum d Hd)), (toupper_alnum d Hd). apply IH; [cbn [length] in Hn; lia|exact Hw].
  - apply andb_true_iff in Hw as [Hc Hw]. destruct (underscore_alnum c Hc) as [-> ->]. cbn [forallb]. rewrite Hc. apply IH; [lia|exact Hw].
Qed.

Lemma identifier_of c t : forallb alnum (c :: t) = true -> identifier (if isdigit c then 95 :: c :: t else c :: t) = true.
Proof.
  intros Ha. assert (forallb (fun c => alnum c || (c =? 95)) (c :: t) = true) as Hf.
  { apply forallb_forall. intros x Hx. rewrite (proj1 (forallb_forall _ _) Ha x Hx). reflexivity. }
  cbn [forallb] in Ha. apply andb_true_iff in Ha as [Hc _]. unfold identifier. destruct (isdigit c) eqn:Ed.
  - cbn [is_letter orb]. change (forallb ?f (95 :: c :: t)) with (forallb f (c :: t)). rewrite Hf. reflexivity.
  - unfold alnum in Hc. rewrite Ed, orb_false_r in Hc. rewrite Hc, Hf. reflexivity.
Qed.

(** The name of a plain file becomes an identifier. *)
Lemma variable_identifier path name : plain_name (base_name path) = true -> outputFileName path = Some name ->
  exists v, variableName name = Some v /\ identifier v = true.
Proof.
  unfold outputFileName. fold underscore. change (map (fun c => if (c =? 46) || (c =? 45) then 95 else c)) with (map underscore).
  destruct (base_name path) as [|c t] eqn:Eb; [discriminate|]. intros Hp. cbn [plain_name] in Hp. apply andb_true_iff in Hp as [Hc Hw]. cbn [map front]. bind_some.
  destruct (underscore_alnum c Hc) as [-> Hs]. intros [= <-]. cbn [well_named] in Hw. rewrite (alnum_unmarked c Hc), Hc in Hw.
  pose proof (erased_alnum (length t) t (Nat.le_refl _) Hw) as Ha. set (rest := erase_separators (map underscore t)) in *.
  assert (exists c', alnum c' = true /\ erase_separators (if isdigit c then 95 :: c :: map underscore t else c :: map underscore t) = c' :: rest) as (c' & Hc' & Ee).
  { destruct (isdigit c); cbn [erase_separators].
    - change (separator 95) with true. exists (toupper c). split; [apply toupper_alnum, Hc|reflexivity].
    - rewrite Hs. exists c. split; [exact Hc|reflexivity]. }
  unfold variableName. rewrite Ee. eexists. split; [reflexivity|]. apply identifier_of. cbn [forallb]. rewrite (tolower_alnum _ Hc'). exact Ha.
Qed.

(** ** Theorems *)


(** Two separators in a row leave one in the name of the variable. *)
Example adjacent_separators : outputFileName (str "93-micro+-local.rules") = Some (str "_93_micro+_local_rules") /\
  variableName (str "_93_micro+_local_rules") = Some (str "_93Micro_localRules").
Proof. split; reflexivity. Qed.

Definition all_succeed (data : list Z) : Streams := mkStreams true true true true true true true true true true true true data.

