(* ===== verification/Clock.v ===== *)
(** * Clocks (sysclk.c, sysclk.h, osc.h of the clock service)

    The start of the system clock at power on, the frequencies that the rest of the
    firmware computes with, and the gates that switch the clock of every peripheral.
    The registers are a memory of bytes with symbolic addresses; every write is also
    kept in order, because the order of the writes decides whether the processor's own
    clock keeps running. What the hardware reports about its oscillators and the row of
    factory values are parameters, and so is the set of peripherals that the device has,
    which its header defines. *)

From S2P Require Import Prelude.

(** ** Registers *)

Inductive sysclk_port_id :=
| SYSCLK_PORT_GEN | SYSCLK_PORT_A | SYSCLK_PORT_B | SYSCLK_PORT_C | SYSCLK_PORT_D | SYSCLK_PORT_E | SYSCLK_PORT_F.

Inductive reg :=
| PR (port : sysclk_port_id)
| CLK_CTRL | CLK_PSCTRL | CLK_RTCCTRL | CLK_USBCTRL
| OSC_CTRL | OSC_DFLLCTRL
| DFLLRC2M_CTRL | DFLLRC2M_CALA | DFLLRC2M_CALB
| DFLLRC32M_CTRL | DFLLRC32M_CALA | DFLLRC32M_CALB | DFLLRC32M_COMP1 | DFLLRC32M_COMP2.

#[export] Instance sysclk_port_id_eq : EqDecision sysclk_port_id.
Proof. solve_decision. Defined.
#[export] Instance reg_eq : EqDecision reg.
Proof. solve_decision. Defined.

(** The contents, the number of polls of the oscillators' status so far and the writes. *)
Record Clk := mkClk { io : reg -> Z; polls : nat; written : list (reg * Z) }.

Definition upd (r : reg) (v : Z) (m : reg -> Z) : reg -> Z := fun r' => if decide (r = r') then v else m r'.

Definition write (r : reg) (v : Z) : M Clk unit :=
  modify (fun s => mkClk (upd r (u8 v) (io s)) (polls s) (written s ++ [(r, u8 v)])).
Definition read (r : reg) : M Clk Z := gets (fun s => io s r).
(** [r |= v] and [r &= ~v]. *)
Definition set_bits (r : reg) (v : Z) : M Clk unit := x ← read r; write r (Z.lor x v).
Definition clear_bits (r : reg) (v : Z) : M Clk unit := x ← read r; write r (Z.ldiff x v).
(** The timed sequence that protected registers need ends in the write. *)
Definition ccp_write_io (r : reg) (v : Z) : M Clk unit := write r v.

(** ** Values of the device's header *)

Definition SYSCLK_SRC_RC2MHZ : Z := 0.
Definition SYSCLK_SRC_RC32MHZ : Z := 1.
Definition SYSCLK_SRC_RC32KHZ : Z := 2.
Definition SYSCLK_SRC_XOSC : Z := 3.
Definition SYSCLK_SRC_PLL : Z := 4.

Definition CLK_PSADIV_gp : Z := 2.
Definition SYSCLK_PSADIV_1 : Z := Z.shiftl 0x00 CLK_PSADIV_gp.
Definition SYSCLK_PSADIV_2 : Z := Z.shiftl 0x01 CLK_PSADIV_gp.
Definition SYSCLK_PSADIV_4 : Z := Z.shiftl 0x03 CLK_PSADIV_gp.
Definition SYSCLK_PSADIV_8 : Z := Z.shiftl 0x05 CLK_PSADIV_gp.
Definition SYSCLK_PSADIV_16 : Z := Z.shiftl 0x07 CLK_PSADIV_gp.
Definition SYSCLK_PSADIV_32 : Z := Z.shiftl 0x09 CLK_PSADIV_gp.
Definition SYSCLK_PSADIV_64 : Z := Z.shiftl 0x0B CLK_PSADIV_gp.
Definition SYSCLK_PSADIV_128 : Z := Z.shiftl 0x0D CLK_PSADIV_gp.
Definition SYSCLK_PSADIV_256 : Z := Z.shiftl 0x0F CLK_PSADIV_gp.
Definition SYSCLK_PSADIV_512 : Z := Z.shiftl 0x11 CLK_PSADIV_gp.

Definition CLK_PSBCDIV_gp : Z := 0.
Definition SYSCLK_PSBCDIV_1_1 : Z := 0.
Definition SYSCLK_PSBCDIV_1_2 : Z := 1.
Definition SYSCLK_PSBCDIV_4_1 : Z := 2.
Definition SYSCLK_PSBCDIV_2_2 : Z := 3.

Definition SYSCLK_DMA : Z := 0x01.
Definition SYSCLK_EDMA : Z := 0x01.
Definition SYSCLK_EVSYS : Z := 0x02.
Definition SYSCLK_RTC : Z := 0x04.
Definition SYSCLK_EBI : Z := 0x08.
Definition SYSCLK_AES : Z := 0x10.
Definition SYSCLK_USB : Z := 0x40.
Definition SYSCLK_XCL : Z := 0x80.
Definition SYSCLK_AC : Z := 0x01.
Definition SYSCLK_ADC : Z := 0x02.
Definition SYSCLK_DAC : Z := 0x04.
Definition SYSCLK_TC0 : Z := 0x01.
Definition SYSCLK_TC1 : Z := 0x02.
Definition SYSCLK_TC4 : Z := 0x01.
Definition SYSCLK_TC5 : Z := 0x02.
Definition SYSCLK_HIRES : Z := 0x04.
Definition SYSCLK_SPI : Z := 0x08.
Definition SYSCLK_USART0 : Z := 0x10.
Definition SYSCLK_USART1 : Z := 0x20.
Definition SYSCLK_TWI : Z := 0x40.

Definition OSC_ID_RC2MHZ : Z := 0x01.
Definition OSC_ID_RC32MHZ : Z := 0x02.
Definition OSC_ID_RC32KHZ : Z := 0x04.
Definition OSC_ID_XOSC : Z := 0x08.
Definition OSC_ID_USBSOF : Z := 0xff.

Definition OSC_RC2MCREF_bm : Z := 0x01.
Definition OSC_RC32MCREF_gm : Z := 0x06.
Definition OSC_RC32MCREF_RC32K_gc : Z := 0x00.
Definition OSC_RC32MCREF_XOSC32K_gc : Z := 0x02.
Definition OSC_RC32MCREF_USBSOF_gc : Z := 0x04.
Definition DFLL_ENABLE_bm : Z := 0x01.

Definition CLK_USBPSDIV_8_gc : Z := 0x18.
Definition CLK_USBSRC_RC32M_gc : Z := 0x02.
Definition CLK_USBSEN_bm : Z := 0x01.

Definition SYSCLK_RTCSRC_ULP : Z := 0x00.
Definition SYSCLK_RTCSRC_TOSC : Z := 0x02.
Definition SYSCLK_RTCSRC_RCOSC : Z := 0x04.
Definition SYSCLK_RTCSRC_TOSC32 : Z := 0x0A.
Definition SYSCLK_RTCSRC_RCOSC32 : Z := 0x0C.
Definition SYSCLK_RTCSRC_EXTCLK : Z := 0x0E.
Definition CLK_RTCEN_bm : Z := 0x01.

(** The configuration of the firmware. *)
Definition CONFIG_SYSCLK_SOURCE : Z := SYSCLK_SRC_RC32MHZ.
Definition CONFIG_SYSCLK_PSADIV : Z := SYSCLK_PSADIV_2.
Definition CONFIG_SYSCLK_PSBCDIV : Z := SYSCLK_PSBCDIV_1_1.
Definition CONFIG_OSC_RC32_CAL : Z := 48000000.
Definition CONFIG_OSC_AUTOCAL_RC32MHZ_REF_OSC : Z := OSC_ID_USBSOF.

(** ** Frequencies

    The functions read the configuration; it is an argument here, so that their theorem
    is about every configuration without an external oscillator and a phase-locked loop. *)

Definition sysclk_get_main_hz (source : Z) : Z :=
  if source =? SYSCLK_SRC_RC2MHZ then 2000000
  else if source =? SYSCLK_SRC_RC32MHZ then CONFIG_OSC_RC32_CAL
  else if source =? SYSCLK_SRC_RC32KHZ then 32768
  else 0.

Definition sysclk_get_per4_hz (source psadiv : Z) : Z :=
  let shift :=
    if flag psadiv (Z.shiftl 1 CLK_PSADIV_gp) then u8 (Z.shiftr psadiv (1 + CLK_PSADIV_gp) + 1) else 0 in
  Z.shiftr (sysclk_get_main_hz source) shift.

Definition sysclk_get_per2_hz (source psadiv psbcdiv : Z) : Z :=
  if (psbcdiv =? SYSCLK_PSBCDIV_1_1) || (psbcdiv =? SYSCLK_PSBCDIV_1_2) then sysclk_get_per4_hz source psadiv
  else if psbcdiv =? SYSCLK_PSBCDIV_4_1 then sysclk_get_per4_hz source psadiv / 4
  else if psbcdiv =? SYSCLK_PSBCDIV_2_2 then sysclk_get_per4_hz source psadiv / 2
  else 0.

Definition sysclk_get_per_hz (source psadiv psbcdiv : Z) : Z :=
  if flag psbcdiv (Z.shiftl 1 CLK_PSBCDIV_gp) then sysclk_get_per2_hz source psadiv psbcdiv / 2
  else sysclk_get_per2_hz source psadiv psbcdiv.

Definition sysclk_get_cpu_hz (source psadiv psbcdiv : Z) : Z := sysclk_get_per_hz source psadiv psbcdiv.

(** The frequencies of this firmware. *)
Definition per4_hz : Z := sysclk_get_per4_hz CONFIG_SYSCLK_SOURCE CONFIG_SYSCLK_PSADIV.
Definition per2_hz : Z := sysclk_get_per2_hz CONFIG_SYSCLK_SOURCE CONFIG_SYSCLK_PSADIV CONFIG_SYSCLK_PSBCDIV.
Definition per_hz : Z := sysclk_get_per_hz CONFIG_SYSCLK_SOURCE CONFIG_SYSCLK_PSADIV CONFIG_SYSCLK_PSBCDIV.
Definition cpu_hz : Z := sysclk_get_cpu_hz CONFIG_SYSCLK_SOURCE CONFIG_SYSCLK_PSADIV CONFIG_SYSCLK_PSBCDIV.

Definition osc_get_rate (id : Z) : Z :=
  if id =? OSC_ID_RC2MHZ then 2000000
  else if id =? OSC_ID_RC32MHZ then CONFIG_OSC_RC32_CAL
  else if id =? OSC_ID_RC32KHZ then 32768
  else 0.

(** ** Peripherals *)

Inductive module :=
| AES | EBI | RTC | EVSYS | DMA | EDMA | ACA | ACB | ADCA | ADCB
| DACA | DACB | FAULTC0 | FAULTC1 | TCC0 | TCD0 | TCE0 | TCF0 | TCC1 | TCD1
| TCE1 | TCF1 | TCC4 | TCC5 | TCD4 | TCD5 | HIRESC | HIRESD | HIRESE | HIRESF
| SPIC | SPID | SPIE | SPIF | USARTC0 | USARTD0 | USARTE0 | USARTF0 | USARTC1 | USARTD1
| USARTE1 | USARTF1 | TWIC | TWID | TWIE | TWIF | XCL.

#[export] Instance module_eq : EqDecision module.
Proof. solve_decision. Defined.

Section Peripherals.
(** Which peripherals the device has: the others are left out when the code is compiled. *)
Variable present : module -> bool.

(** A null pointer is [None]. *)
Definition sysclk_get_peripheral_bus_hz (m : option module) : Z :=
  match m with
  | None => 0
  | Some m =>
    if present m then match m with
    | AES => per_hz
    | EBI => per2_hz
    | RTC | EVSYS | DMA | EDMA | ACA | ACB | ADCA | ADCB | DACA | DACB | FAULTC0 | FAULTC1
    | TCC0 | TCD0 | TCE0 | TCF0 | TCC1 | TCD1 | TCE1 | TCF1 | TCC4 | TCC5 | TCD4 | TCD5 => per_hz
    | HIRESC | HIRESD | HIRESE | HIRESF => per4_hz
    | SPIC | SPID | SPIE | SPIF | USARTC0 | USARTD0 | USARTE0 | USARTF0 | USARTC1 | USARTD1 | USARTE1 | USARTF1
    | TWIC | TWID | TWIE | TWIF | XCL => per_hz
    end else 0
  end.

Definition sysclk_enable_module (port : sysclk_port_id) (id : Z) : M Clk unit := clear_bits (PR port) (u8 id).
Definition sysclk_disable_module (port : sysclk_port_id) (id : Z) : M Clk unit := set_bits (PR port) (u8 id).
Definition sysclk_module_is_enabled (port : sysclk_port_id) (id : Z) (s : Clk) : bool := Z.land (io s (PR port)) (u8 id) =? 0.

Definition sysclk_enable_peripheral_clock (m : option module) : M Clk unit :=
  match m with
  | None => mret tt
  | Some m =>
    if present m then match m with
    | AES => sysclk_enable_module SYSCLK_PORT_GEN SYSCLK_AES
    | EBI => sysclk_enable_module SYSCLK_PORT_GEN SYSCLK_EBI
    | RTC => sysclk_enable_module SYSCLK_PORT_GEN SYSCLK_RTC
    | EVSYS => sysclk_enable_module SYSCLK_PORT_GEN SYSCLK_EVSYS
    | DMA => sysclk_enable_module SYSCLK_PORT_GEN SYSCLK_DMA
    | EDMA => sysclk_enable_module SYSCLK_PORT_GEN SYSCLK_EDMA
    | ACA => sysclk_enable_module SYSCLK_PORT_A SYSCLK_AC
    | ACB => sysclk_enable_module SYSCLK_PORT_B SYSCLK_AC
    | ADCA => sysclk_enable_module SYSCLK_PORT_A SYSCLK_ADC
    | ADCB => sysclk_enable_module SYSCLK_PORT_B SYSCLK_ADC
    | DACA => sysclk_enable_module SYSCLK_PORT_A SYSCLK_DAC
    | DACB => sysclk_enable_module SYSCLK_PORT_B SYSCLK_DAC
    | TCC0 => sysclk_enable_module SYSCLK_PORT_C SYSCLK_TC0
    | TCD0 => sysclk_enable_module SYSCLK_PORT_D SYSCLK_TC0
    | TCE0 => sysclk_enable_module SYSCLK_PORT_E SYSCLK_TC0
    | TCF0 => sysclk_enable_module SYSCLK_PORT_F SYSCLK_TC0
    | TCC1 => sysclk_enable_module SYSCLK_PORT_C SYSCLK_TC1
    | TCD1 => sysclk_enable_module SYSCLK_PORT_D SYSCLK_TC1
    | TCE1 => sysclk_enable_module SYSCLK_PORT_E SYSCLK_TC1
    | TCF1 => sysclk_enable_module SYSCLK_PORT_F SYSCLK_TC1
    | TCC4 => sysclk_enable_module SYSCLK_PORT_C SYSCLK_TC4
    | TCC5 => sysclk_enable_module SYSCLK_PORT_C SYSCLK_TC5
    | TCD4 => sysclk_enable_module SYSCLK_PORT_D SYSCLK_TC4
    | TCD5 => sysclk_enable_module SYSCLK_PORT_D SYSCLK_TC5
    | HIRESC => sysclk_enable_module SYSCLK_PORT_C SYSCLK_HIRES
    | HIRESD => sysclk_enable_module SYSCLK_PORT_D SYSCLK_HIRES
    | HIRESE => sysclk_enable_module SYSCLK_PORT_E SYSCLK_HIRES
    | HIRESF => sysclk_enable_module SYSCLK_PORT_F SYSCLK_HIRES
    | SPIC => sysclk_enable_module SYSCLK_PORT_C SYSCLK_SPI
    | SPID => sysclk_enable_module SYSCLK_PORT_D SYSCLK_SPI
    | SPIE => sysclk_enable_module SYSCLK_PORT_E SYSCLK_SPI
    | SPIF => sysclk_enable_module SYSCLK_PORT_F SYSCLK_SPI
    | USARTC0 => sysclk_enable_module SYSCLK_PORT_C SYSCLK_USART0
    | USARTD0 => sysclk_enable_module SYSCLK_PORT_D SYSCLK_USART0
    | USARTE0 => sysclk_enable_module SYSCLK_PORT_E SYSCLK_USART0
    | USARTF0 => sysclk_enable_module SYSCLK_PORT_F SYSCLK_USART0
    | USARTC1 => sysclk_enable_module SYSCLK_PORT_C SYSCLK_USART1
    | USARTD1 => sysclk_enable_module SYSCLK_PORT_D SYSCLK_USART1
    | USARTE1 => sysclk_enable_module SYSCLK_PORT_E SYSCLK_USART1
    | USARTF1 => sysclk_enable_module SYSCLK_PORT_F SYSCLK_USART1
    | TWIC => sysclk_enable_module SYSCLK_PORT_C SYSCLK_TWI
    | TWID => sysclk_enable_module SYSCLK_PORT_D SYSCLK_TWI
    | TWIE => sysclk_enable_module SYSCLK_PORT_E SYSCLK_TWI
    | TWIF => sysclk_enable_module SYSCLK_PORT_F SYSCLK_TWI
    | XCL => sysclk_enable_module SYSCLK_PORT_GEN SYSCLK_XCL
    | FAULTC0 | FAULTC1 => mret tt
    end else mret tt
  end.

Definition sysclk_disable_peripheral_clock (m : option module) : M Clk unit :=
  match m with
  | None => mret tt
  | Some m =>
    if present m then match m with
    | AES => sysclk_disable_module SYSCLK_PORT_GEN SYSCLK_AES
    | EBI => sysclk_disable_module SYSCLK_PORT_GEN SYSCLK_EBI
    | RTC => sysclk_disable_module SYSCLK_PORT_GEN SYSCLK_RTC
    | EVSYS => sysclk_disable_module SYSCLK_PORT_GEN SYSCLK_EVSYS
    | DMA => sysclk_disable_module SYSCLK_PORT_GEN SYSCLK_DMA
    | EDMA => sysclk_disable_module SYSCLK_PORT_GEN SYSCLK_EDMA
    | ACA => sysclk_disable_module SYSCLK_PORT_A SYSCLK_AC
    | ACB => sysclk_disable_module SYSCLK_PORT_B SYSCLK_AC
    | ADCA => sysclk_disable_module SYSCLK_PORT_A SYSCLK_ADC
    | ADCB => sysclk_disable_module SYSCLK_PORT_B SYSCLK_ADC
    | DACA => sysclk_disable_module SYSCLK_PORT_A SYSCLK_DAC
    | DACB => sysclk_disable_module SYSCLK_PORT_B SYSCLK_DAC
    | TCC0 => sysclk_disable_module SYSCLK_PORT_C SYSCLK_TC0
    | TCD0 => sysclk_disable_module SYSCLK_PORT_D SYSCLK_TC0
    | TCE0 => sysclk_disable_module SYSCLK_PORT_E SYSCLK_TC0
    | TCF0 => sysclk_disable_module SYSCLK_PORT_F SYSCLK_TC0
    | TCC1 => sysclk_disable_module SYSCLK_PORT_C SYSCLK_TC1
    | TCD1 => sysclk_disable_module SYSCLK_PORT_D SYSCLK_TC1
    | TCE1 => sysclk_disable_module SYSCLK_PORT_E SYSCLK_TC1
    | TCF1 => sysclk_disable_module SYSCLK_PORT_F SYSCLK_TC1
    | TCC4 => sysclk_disable_module SYSCLK_PORT_C SYSCLK_TC4
    | TCC5 => sysclk_disable_module SYSCLK_PORT_C SYSCLK_TC5
    | TCD4 => sysclk_disable_module SYSCLK_PORT_D SYSCLK_TC4
    | TCD5 => sysclk_disable_module SYSCLK_PORT_D SYSCLK_TC5
    | HIRESC => sysclk_disable_module SYSCLK_PORT_C SYSCLK_HIRES
    | HIRESD => sysclk_disable_module SYSCLK_PORT_D SYSCLK_HIRES
    | HIRESE => sysclk_disable_module SYSCLK_PORT_E SYSCLK_HIRES
    | HIRESF => sysclk_disable_module SYSCLK_PORT_F SYSCLK_HIRES
    | SPIC => sysclk_disable_module SYSCLK_PORT_C SYSCLK_SPI
    | SPID => sysclk_disable_module SYSCLK_PORT_D SYSCLK_SPI
    | SPIE => sysclk_disable_module SYSCLK_PORT_E SYSCLK_SPI
    | SPIF => sysclk_disable_module SYSCLK_PORT_F SYSCLK_SPI
    | USARTC0 => sysclk_disable_module SYSCLK_PORT_C SYSCLK_USART0
    | USARTD0 => sysclk_disable_module SYSCLK_PORT_D SYSCLK_USART0
    | USARTE0 => sysclk_disable_module SYSCLK_PORT_E SYSCLK_USART0
    | USARTF0 => sysclk_disable_module SYSCLK_PORT_F SYSCLK_USART0
    | USARTC1 => sysclk_disable_module SYSCLK_PORT_C SYSCLK_USART1
    | USARTD1 => sysclk_disable_module SYSCLK_PORT_D SYSCLK_USART1
    | USARTE1 => sysclk_disable_module SYSCLK_PORT_E SYSCLK_USART1
    | USARTF1 => sysclk_disable_module SYSCLK_PORT_F SYSCLK_USART1
    | TWIC => sysclk_disable_module SYSCLK_PORT_C SYSCLK_TWI
    | TWID => sysclk_disable_module SYSCLK_PORT_D SYSCLK_TWI
    | TWIE => sysclk_disable_module SYSCLK_PORT_E SYSCLK_TWI
    | TWIF => sysclk_disable_module SYSCLK_PORT_F SYSCLK_TWI
    | XCL => sysclk_disable_module SYSCLK_PORT_GEN SYSCLK_XCL
    | FAULTC0 | FAULTC1 => mret tt
    end else mret tt
  end.

End Peripherals.

(** ** Oscillators and the start of the clock *)

Section Oscillators.
(** What the status register of the oscillators shows at each poll, and the bytes of the
    row of factory values: the offsets of the two that are used are those of the device. *)
Variable status : nat -> Z.
Variable signature : Z -> Z.
Variables USBRCOSC USBRCOSCA : Z.

Definition osc_enable_internal (id : Z) : M Clk unit := set_bits OSC_CTRL id.
(** The board has no external oscillator. *)
Definition osc_enable_external (id : Z) : M Clk unit := mret tt.
Definition osc_disable (id : Z) : M Clk unit := clear_bits OSC_CTRL id.
Definition osc_enable (id : Z) : M Clk unit :=
  if negb (id =? OSC_ID_XOSC) then osc_enable_internal id else osc_enable_external id.

(** One poll of the status. *)
Definition osc_is_ready (id : Z) : M Clk bool :=
  fun s => Some (mkClk (io s) (S (polls s)) (written s), flag (status (polls s)) id).

(** The loop over the polls; [None] when it has not ended after [fuel] of them. *)
Fixpoint osc_wait_ready (fuel : nat) (id : Z) : M Clk unit :=
  match fuel with
  | O => of_option None
  | S fuel => ready ← osc_is_ready id; if ready : bool then mret tt else osc_wait_ready fuel id
  end.

Definition osc_enable_autocalibration (id ref_id : Z) : M Clk unit :=
  if id =? OSC_ID_RC2MHZ then
    _ ← (if ref_id =? OSC_ID_XOSC then
           _ ← osc_enable OSC_ID_RC32KHZ; set_bits OSC_DFLLCTRL OSC_RC2MCREF_bm
         else clear_bits OSC_DFLLCTRL OSC_RC2MCREF_bm);
    set_bits DFLLRC2M_CTRL DFLL_ENABLE_bm
  else if id =? OSC_ID_RC32MHZ then
    _ ← clear_bits OSC_DFLLCTRL OSC_RC32MCREF_gm;
    _ ← (if ref_id =? OSC_ID_XOSC then
           _ ← osc_enable OSC_ID_RC32KHZ; set_bits OSC_DFLLCTRL OSC_RC32MCREF_XOSC32K_gc
         else if ref_id =? OSC_ID_RC32KHZ then set_bits OSC_DFLLCTRL OSC_RC32MCREF_RC32K_gc
         else if ref_id =? OSC_ID_USBSOF then
           _ ← write DFLLRC32M_COMP1 0x80;
           _ ← write DFLLRC32M_COMP2 0xBB;
           set_bits OSC_DFLLCTRL OSC_RC32MCREF_USBSOF_gc
         else mret tt);
    set_bits DFLLRC32M_CTRL DFLL_ENABLE_bm
  else mret tt.

Definition osc_disable_autocalibration (id : Z) : M Clk unit :=
  if id =? OSC_ID_RC2MHZ then write DFLLRC2M_CTRL 0
  else if id =? OSC_ID_RC32MHZ then write DFLLRC32M_CTRL 0
  else mret tt.

Definition osc_user_calibration (id calib : Z) : M Clk unit :=
  if id =? OSC_ID_RC2MHZ then
    _ ← write DFLLRC2M_CALA (calib mod 256); write DFLLRC2M_CALB (calib / 256)
  else if id =? OSC_ID_RC32MHZ then
    _ ← write DFLLRC32M_CALA (calib mod 256); write DFLLRC32M_CALB (calib / 256)
  else mret tt.

Definition sysclk_set_prescalers (psadiv psbcdiv : Z) : M Clk unit := ccp_write_io CLK_PSCTRL (Z.lor psadiv psbcdiv).
Definition sysclk_set_source (src : Z) : M Clk unit := ccp_write_io CLK_CTRL src.

Definition sysclk_rtcsrc_enable (fuel : nat) (id : Z) : M Clk unit :=
  _ ← (if (id =? SYSCLK_RTCSRC_RCOSC) || (id =? SYSCLK_RTCSRC_RCOSC32) then
         _ ← osc_enable OSC_ID_RC32KHZ; osc_wait_ready fuel OSC_ID_RC32KHZ
       else if (id =? SYSCLK_RTCSRC_TOSC) || (id =? SYSCLK_RTCSRC_TOSC32) || (id =? SYSCLK_RTCSRC_EXTCLK) then
         _ ← osc_enable OSC_ID_XOSC; osc_wait_ready fuel OSC_ID_XOSC
       else mret tt);
  write CLK_RTCCTRL (Z.lor id CLK_RTCEN_bm).
Definition sysclk_rtcsrc_disable : M Clk unit := write CLK_RTCCTRL 0.

(** The gates of all ports are closed, from the first to the last. *)
Fixpoint close_all (ports : list sysclk_port_id) : M Clk unit :=
  match ports with
  | [] => mret tt
  | p :: ports => _ ← write (PR p) 0xff; close_all ports
  end.
Definition all_ports : list sysclk_port_id :=
  [SYSCLK_PORT_GEN; SYSCLK_PORT_A; SYSCLK_PORT_B; SYSCLK_PORT_C; SYSCLK_PORT_D; SYSCLK_PORT_E; SYSCLK_PORT_F].

(** The factory's calibration for 48 MHz, or a default where the row is blank. *)
Definition calibration : Z :=
  let cal := u8 (signature USBRCOSCA) + 256 * u8 (signature USBRCOSC) in
  if cal =? 0xFFFF then 0x2340 else cal.

(** Enabling the oscillator of the source; [None] for a source that is not one. *)
Definition start_source (fuel : nat) : option (M Clk unit) :=
  if CONFIG_SYSCLK_SOURCE =? SYSCLK_SRC_RC32MHZ then Some (
    _ ← osc_enable OSC_ID_RC32MHZ;
    _ ← osc_wait_ready fuel OSC_ID_RC32MHZ;
    _ ← when (negb (CONFIG_OSC_AUTOCAL_RC32MHZ_REF_OSC =? OSC_ID_USBSOF))
          (_ ← osc_enable CONFIG_OSC_AUTOCAL_RC32MHZ_REF_OSC; osc_wait_ready fuel CONFIG_OSC_AUTOCAL_RC32MHZ_REF_OSC);
    osc_enable_autocalibration OSC_ID_RC32MHZ CONFIG_OSC_AUTOCAL_RC32MHZ_REF_OSC)
  else if CONFIG_SYSCLK_SOURCE =? SYSCLK_SRC_RC32KHZ then Some (
    _ ← osc_enable OSC_ID_RC32KHZ; osc_wait_ready fuel OSC_ID_RC32KHZ)
  else if CONFIG_SYSCLK_SOURCE =? SYSCLK_SRC_XOSC then Some (
    _ ← osc_enable OSC_ID_XOSC; osc_wait_ready fuel OSC_ID_XOSC)
  else None.

Definition sysclk_init (fuel : nat) : M Clk unit :=
  _ ← close_all all_ports;
  _ ← when (negb (CONFIG_SYSCLK_PSADIV =? SYSCLK_PSADIV_1) || negb (CONFIG_SYSCLK_PSBCDIV =? SYSCLK_PSBCDIV_1_1))
        (sysclk_set_prescalers CONFIG_SYSCLK_PSADIV CONFIG_SYSCLK_PSBCDIV);
  _ ← osc_user_calibration OSC_ID_RC32MHZ calibration;
  if CONFIG_SYSCLK_SOURCE =? SYSCLK_SRC_RC2MHZ then mret tt
  else match start_source fuel with
       | None => mret tt
       | Some start => _ ← start; _ ← ccp_write_io CLK_CTRL CONFIG_SYSCLK_SOURCE; osc_disable OSC_ID_RC2MHZ
       end.

(** The clock of the USB module, from the oscillator of 32 MHz tuned to 48 MHz. *)
Definition sysclk_enable_usb (fuel : nat) (frequency : Z) : M Clk unit :=
  let prescaler := if frequency =? 6 then CLK_USBPSDIV_8_gc else 0 in
  ready ← osc_is_ready OSC_ID_RC32MHZ;
  _ ← when (negb ready)
        (_ ← osc_enable OSC_ID_RC32MHZ;
         _ ← osc_wait_ready fuel OSC_ID_RC32MHZ;
         _ ← when (negb (CONFIG_OSC_AUTOCAL_RC32MHZ_REF_OSC =? OSC_ID_USBSOF))
               (_ ← osc_enable CONFIG_OSC_AUTOCAL_RC32MHZ_REF_OSC; osc_wait_ready fuel CONFIG_OSC_AUTOCAL_RC32MHZ_REF_OSC);
         osc_enable_autocalibration OSC_ID_RC32MHZ CONFIG_OSC_AUTOCAL_RC32MHZ_REF_OSC);
  _ ← ccp_write_io CLK_USBCTRL (Z.lor (Z.lor prescaler CLK_USBSRC_RC32M_gc) CLK_USBSEN_bm);
  sysclk_enable_module SYSCLK_PORT_GEN SYSCLK_USB.

Definition sysclk_disable_usb : M Clk unit :=
  _ ← sysclk_disable_module SYSCLK_PORT_GEN SYSCLK_USB;
  ccp_write_io CLK_USBCTRL 0.

End Oscillators.

(** ** Properties *)

(** *** Frequencies *)

Definition psadiv_factors : list (Z * Z) :=
  [(SYSCLK_PSADIV_1, 1); (SYSCLK_PSADIV_2, 2); (SYSCLK_PSADIV_4, 4); (SYSCLK_PSADIV_8, 8); (SYSCLK_PSADIV_16, 16);
   (SYSCLK_PSADIV_32, 32); (SYSCLK_PSADIV_64, 64); (SYSCLK_PSADIV_128, 128); (SYSCLK_PSADIV_256, 256);
   (SYSCLK_PSADIV_512, 512)].
Definition psbcdiv_factors : list (Z * (Z * Z)) :=
  [(SYSCLK_PSBCDIV_1_1, (1, 1)); (SYSCLK_PSBCDIV_1_2, (1, 2)); (SYSCLK_PSBCDIV_4_1, (4, 1)); (SYSCLK_PSBCDIV_2_2, (2, 2))].

Lemma per4_prescaled src a fa : (a, fa) ∈ psadiv_factors -> 0 < fa /\ sysclk_get_per4_hz src a = sysclk_get_main_hz src / fa.
Proof.
  intros Ha. unfold sysclk_get_per4_hz. generalize (sysclk_get_main_hz src). intros n. unfold psadiv_factors in Ha.
  repeat (apply elem_of_cons in Ha; destruct Ha as [[= -> ->]|Ha];
    [split; [lia|]; match goal with |- Z.shiftr n ?k = _ => let v := eval vm_compute in k in change k with v end;
     rewrite Z.shiftr_div_pow2 by lia; reflexivity|]).
  apply elem_of_nil in Ha. destruct Ha.
Qed.

(** The frequencies are those of the main clock divided by the factors of the prescalers
    that the settings stand for, in every configuration. *)
Theorem frequencies_prescaled src a fa bc fb fc :
  (a, fa) ∈ psadiv_factors -> (bc, (fb, fc)) ∈ psbcdiv_factors ->
  sysclk_get_per4_hz src a = sysclk_get_main_hz src / fa /\
  sysclk_get_per2_hz src a bc = sysclk_get_main_hz src / (fa * fb) /\
  sysclk_get_per_hz src a bc = sysclk_get_main_hz src / (fa * fb * fc).
Proof.
  intros Ha Hb. destruct (per4_prescaled src a fa Ha) as [Hf E]. split; [exact E|].
  unfold sysclk_get_per_hz, sysclk_get_per2_hz. rewrite E. generalize (sysclk_get_main_hz src). intros n. unfold psbcdiv_factors in Hb.
  repeat (apply elem_of_cons in Hb; destruct Hb as [[= -> -> ->]|Hb];
    [cbv -[Z.div Z.mul]; rewrite ?Z.mul_1_r, ?Z.div_div by lia; split; reflexivity|]).
  apply elem_of_nil in Hb. destruct Hb.
Qed.

(** The processor runs at 24 MHz. *)
Lemma cpu_at_24_mhz : cpu_hz = 24000000 /\ per4_hz = cpu_hz /\ per2_hz = cpu_hz /\ per_hz = cpu_hz.
Proof. repeat split. Qed.

(** *** Gates *)

(** The register and the bit that hold the clock of a peripheral back. *)
Definition gate (m : module) : option (sysclk_port_id * Z) :=
  match m with
  | AES => Some (SYSCLK_PORT_GEN, SYSCLK_AES)
  | EBI => Some (SYSCLK_PORT_GEN, SYSCLK_EBI)
  | RTC => Some (SYSCLK_PORT_GEN, SYSCLK_RTC)
  | EVSYS => Some (SYSCLK_PORT_GEN, SYSCLK_EVSYS)
  | DMA => Some (SYSCLK_PORT_GEN, SYSCLK_DMA)
  | EDMA => Some (SYSCLK_PORT_GEN, SYSCLK_EDMA)
  | ACA => Some (SYSCLK_PORT_A, SYSCLK_AC)
  | ACB => Some (SYSCLK_PORT_B, SYSCLK_AC)
  | ADCA => Some (SYSCLK_PORT_A, SYSCLK_ADC)
  | ADCB => Some (SYSCLK_PORT_B, SYSCLK_ADC)
  | DACA => Some (SYSCLK_PORT_A, SYSCLK_DAC)
  | DACB => Some (SYSCLK_PORT_B, SYSCLK_DAC)
  | TCC0 => Some (SYSCLK_PORT_C, SYSCLK_TC0)
  | TCD0 => Some (SYSCLK_PORT_D, SYSCLK_TC0)
  | TCE0 => Some (SYSCLK_PORT_E, SYSCLK_TC0)
  | TCF0 => Some (SYSCLK_PORT_F, SYSCLK_TC0)
  | TCC1 => Some (SYSCLK_PORT_C, SYSCLK_TC1)
  | TCD1 => Some (SYSCLK_PORT_D, SYSCLK_TC1)
  | TCE1 => Some (SYSCLK_PORT_E, SYSCLK_TC1)
  | TCF1 => Some (SYSCLK_PORT_F, SYSCLK_TC1)
  | TCC4 => Some (SYSCLK_PORT_C, SYSCLK_TC4)
  | TCC5 => Some (SYSCLK_PORT_C, SYSCLK_TC5)
  | TCD4 => Some (SYSCLK_PORT_D, SYSCLK_TC4)
  | TCD5 => Some (SYSCLK_PORT_D, SYSCLK_TC5)
  | HIRESC => Some (SYSCLK_PORT_C, SYSCLK_HIRES)
  | HIRESD => Some (SYSCLK_PORT_D, SYSCLK_HIRES)
  | HIRESE => Some (SYSCLK_PORT_E, SYSCLK_HIRES)
  | HIRESF => Some (SYSCLK_PORT_F, SYSCLK_HIRES)
  | SPIC => Some (SYSCLK_PORT_C, SYSCLK_SPI)
  | SPID => Some (SYSCLK_PORT_D, SYSCLK_SPI)
  | SPIE => Some (SYSCLK_PORT_E, SYSCLK_SPI)
  | SPIF => Some (SYSCLK_PORT_F, SYSCLK_SPI)
  | USARTC0 => Some (SYSCLK_PORT_C, SYSCLK_USART0)
  | USARTD0 => Some (SYSCLK_PORT_D, SYSCLK_USART0)
  | USARTE0 => Some (SYSCLK_PORT_E, SYSCLK_USART0)
  | USARTF0 => Some (SYSCLK_PORT_F, SYSCLK_USART0)
  | USARTC1 => Some (SYSCLK_PORT_C, SYSCLK_USART1)
  | USARTD1 => Some (SYSCLK_PORT_D, SYSCLK_USART1)
  | USARTE1 => Some (SYSCLK_PORT_E, SYSCLK_USART1)
  | USARTF1 => Some (SYSCLK_PORT_F, SYSCLK_USART1)
  | TWIC => Some (SYSCLK_PORT_C, SYSCLK_TWI)
  | TWID => Some (SYSCLK_PORT_D, SYSCLK_TWI)
  | TWIE => Some (SYSCLK_PORT_E, SYSCLK_TWI)
  | TWIF => Some (SYSCLK_PORT_F, SYSCLK_TWI)
  | XCL => Some (SYSCLK_PORT_GEN, SYSCLK_XCL)
  | FAULTC0 | FAULTC1 => None
  end.

Definition clock_on (m : module) (s : Clk) : bool :=
  match gate m with Some (p, id) => sysclk_module_is_enabled p id s | None => false end.

Definition all_modules : list module :=
  [AES; EBI; RTC; EVSYS; DMA; EDMA; ACA; ACB; ADCA; ADCB; DACA; DACB; FAULTC0; FAULTC1; TCC0; TCD0; TCE0; TCF0; TCC1; TCD1; TCE1; TCF1; TCC4; TCC5; TCD4; TCD5; HIRESC; HIRESD; HIRESE; HIRESF; SPIC; SPID; SPIE; SPIF; USARTC0; USARTD0; USARTE0; USARTF0; USARTC1; USARTD1; USARTE1; USARTF1; TWIC; TWID; TWIE; TWIF; XCL].

Section Gates.
Context (present : module -> bool).
(** The peripherals of one device do not share a gate. *)
Hypothesis own_gates : forall m m', present m -> present m' -> gate m = gate m' -> is_Some (gate m) -> m = m'.

Lemma gate_bit m p id : gate m = Some (p, id) -> exists k, 0 <= k < 8 /\ id = 2 ^ k.
Proof.
  destruct m; cbn; intros [= <- <-];
    first [exists 0; split; [lia|reflexivity]|exists 1; split; [lia|reflexivity]|exists 2; split; [lia|reflexivity]
          |exists 3; split; [lia|reflexivity]|exists 4; split; [lia|reflexivity]|exists 5; split; [lia|reflexivity]
          |exists 6; split; [lia|reflexivity]|exists 7; split; [lia|reflexivity]].
Qed.

(** A gate in terms of its bit. *)
Lemma enabled_bit p k s : 0 <= k < 8 -> sysclk_module_is_enabled p (2 ^ k) s = negb (Z.testbit (io s (PR p)) k).
Proof.
  intros Hk. unfold sysclk_module_is_enabled, u8.
  assert (0 <= 2 ^ k < 256) by (change 256 with (2 ^ 8); split; [|apply Z.pow_lt_mono_r]; lia).
  rewrite Z.mod_small by lia. rewrite Z.land_comm, Z.eqb_sym.
  destruct (Z.testbit _ k) eqn:E; cbn [negb].
  - apply Z.eqb_neq. intros E0. assert (Z.testbit (Z.land (2 ^ k) (io s (PR p))) k = true) as T.
    { rewrite Z.land_spec, Z.pow2_bits_true by lia. exact E. }
    rewrite <- E0, Z.bits_0 in T. discriminate.
  - apply Z.eqb_eq. symmetry. apply Z.bits_inj'. intros n Hn. rewrite Z.land_spec, Z.bits_0, Z.pow2_bits_eqb by lia.
    destruct (Z.eqb_spec k n) as [<-|]; [exact E|reflexivity].
Qed.

Lemma pow2_bit k j : 0 <= k < 8 -> 0 <= j < 8 -> Z.testbit (u8 (2 ^ k)) j = (k =? j).
Proof. intros Hk Hj. rewrite u8_bit by exact Hj. apply Z.pow2_bits_eqb. lia. Qed.

(** Opening or closing one gate, seen through any gate. *)
Lemma gate_opened p q j k s s' : 0 <= j < 8 -> 0 <= k < 8 -> sysclk_enable_module p (2 ^ k) s = Some (s', tt) ->
  sysclk_module_is_enabled q (2 ^ j) s' = bool_decide (p = q /\ k = j) || sysclk_module_is_enabled q (2 ^ j) s.
Proof.
  intros Hj Hk [= <-]. rewrite !enabled_bit by exact Hj. cbn [io upd]. unfold upd.
  destruct (decide (PR p = PR q)) as [[= ->]|N].
  - rewrite u8_bit, Z.ldiff_spec, pow2_bit by lia. destruct (Z.eqb_spec k j) as [->|].
    + rewrite bool_decide_true by auto. rewrite andb_false_r. reflexivity.
    + rewrite bool_decide_false by tauto. rewrite andb_true_r. reflexivity.
  - rewrite bool_decide_false by (intros [-> _]; congruence). reflexivity.
Qed.

Lemma gate_closed p q j k s s' : 0 <= j < 8 -> 0 <= k < 8 -> sysclk_disable_module p (2 ^ k) s = Some (s', tt) ->
  sysclk_module_is_enabled q (2 ^ j) s' = negb (bool_decide (p = q /\ k = j)) && sysclk_module_is_enabled q (2 ^ j) s.
Proof.
  intros Hj Hk [= <-]. rewrite !enabled_bit by exact Hj. cbn [io upd]. unfold upd.
  destruct (decide (PR p = PR q)) as [[= ->]|N].
  - rewrite u8_bit, Z.lor_spec, pow2_bit by lia. destruct (Z.eqb_spec k j) as [->|].
    + rewrite bool_decide_true by auto. rewrite orb_true_r. reflexivity.
    + rewrite bool_decide_false by tauto. rewrite orb_false_r. reflexivity.
  - rewrite bool_decide_false by (intros [-> _]; congruence). reflexivity.
Qed.

(** The tables of the two functions are the gates. *)
Lemma enable_gate m p id : present m = true -> gate m = Some (p, id) ->
  sysclk_enable_peripheral_clock present (Some m) = sysclk_enable_module p id /\
  sysclk_disable_peripheral_clock present (Some m) = sysclk_disable_module p id.
Proof.
  intros Hm E. unfold sysclk_enable_peripheral_clock, sysclk_disable_peripheral_clock. rewrite Hm.
  destruct m; cbn in E; try discriminate E; injection E as <- <-; split; reflexivity.
Qed.

(** Switching the clock of one peripheral on or off changes the clock of no other one:
    the functions implement a set of running peripherals. *)
Theorem clock_gates m m' s : present m -> present m' -> is_Some (gate m) -> is_Some (gate m') ->
  exists on off,
    sysclk_enable_peripheral_clock present (Some m) s = Some (on, tt) /\
    sysclk_disable_peripheral_clock present (Some m) s = Some (off, tt) /\
    clock_on m' on = bool_decide (m = m') || clock_on m' s /\
    clock_on m' off = negb (bool_decide (m = m')) && clock_on m' s.
Proof.
  intros Hm Hm' [[p id] G] [[q jd] G']. apply Is_true_eq_true in Hm as Tm.
  destruct (enable_gate m p id Tm G) as [-> ->].
  destruct (gate_bit _ _ _ G) as (k & Hk & ->), (gate_bit _ _ _ G') as (j & Hj & ->).
  do 2 eexists. split; [reflexivity|]. split; [reflexivity|].
  assert (bool_decide (m = m') = bool_decide (p = q /\ k = j)) as ->.
  { apply bool_decide_ext. split; [intros <-|intros [-> ->]].
    - rewrite G in G'. injection G' as <- E. split; [reflexivity|]. apply Z.pow_inj_r with (a := 2); lia.
    - apply own_gates; [assumption..| |]; rewrite G; [symmetry; exact G'|eauto]. }
  unfold clock_on. rewrite G'. split; [eapply gate_opened|eapply gate_closed]; try eassumption; reflexivity.
Qed.

End Gates.

(** *** The start of the clock *)

(** The registers after a list of writes, and whether the oscillator that the processor is
    clocked from is enabled. *)
Definition replay (ws : list (reg * Z)) (m : reg -> Z) : reg -> Z := fold_left (fun m w => upd (fst w) (snd w) m) ws m.
Definition source_on (m : reg -> Z) : bool := Z.testbit (m OSC_CTRL) (m CLK_CTRL).

Lemma upd_eq r v m : upd r v m r = v.
Proof. unfold upd. rewrite decide_True by reflexivity. reflexivity. Qed.
Lemma upd_ne r r' v m : r <> r' -> upd r v m r' = m r'.
Proof. intros N. unfold upd. rewrite decide_False by exact N. reflexivity. Qed.

Lemma set_bits_run r v s :
  set_bits r v s = Some (mkClk (upd r (u8 (Z.lor (io s r) v)) (io s)) (polls s) (written s ++ [(r, u8 (Z.lor (io s r) v))]), tt).
Proof. reflexivity. Qed.
Lemma clear_bits_run r v s :
  clear_bits r v s = Some (mkClk (upd r (u8 (Z.ldiff (io s r) v)) (io s)) (polls s) (written s ++ [(r, u8 (Z.ldiff (io s r) v))]), tt).
Proof. reflexivity. Qed.

Lemma replay_app ws ws' m : replay (ws ++ ws') m = replay ws' (replay ws m).
Proof. unfold replay. apply fold_left_app. Qed.
(** A register that is not written keeps its value. *)
Lemma replay_kept ws m r : existsb (fun w => bool_decide (fst w = r)) ws = false -> replay ws m r = m r.
Proof.
  revert m. induction ws as [|[r' v] ws IH]; intros m; [reflexivity|]. cbn [existsb fst]. intros [N E]%orb_false_iff.
  cbn [replay fold_left fst snd]. etransitivity; [apply IH, E|]. apply upd_ne. apply bool_decide_eq_false in N. exact N.
Qed.

(** The writes of the automatic calibration from the frames of the USB. *)
Definition autocalibrate (m : reg -> Z) : list (reg * Z) :=
  let d := u8 (Z.ldiff (m OSC_DFLLCTRL) OSC_RC32MCREF_gm) in
  [(OSC_DFLLCTRL, d); (DFLLRC32M_COMP1, 0x80); (DFLLRC32M_COMP2, 0xBB);
   (OSC_DFLLCTRL, u8 (Z.lor d OSC_RC32MCREF_USBSOF_gc));
   (DFLLRC32M_CTRL, u8 (Z.lor (m DFLLRC32M_CTRL) DFLL_ENABLE_bm))].

Lemma autocalibration_run s :
  osc_enable_autocalibration OSC_ID_RC32MHZ CONFIG_OSC_AUTOCAL_RC32MHZ_REF_OSC s =
  Some (mkClk (replay (autocalibrate (io s)) (io s)) (polls s) (written s ++ autocalibrate (io s)), tt).
Proof.
  destruct s as [m k ws].
  change (osc_enable_autocalibration OSC_ID_RC32MHZ CONFIG_OSC_AUTOCAL_RC32MHZ_REF_OSC) with
    (_ ← clear_bits OSC_DFLLCTRL OSC_RC32MCREF_gm;
     _ ← (_ ← write DFLLRC32M_COMP1 0x80; _ ← write DFLLRC32M_COMP2 0xBB; set_bits OSC_DFLLCTRL OSC_RC32MCREF_USBSOF_gc);
     set_bits DFLLRC32M_CTRL DFLL_ENABLE_bm : M Clk unit).
  step_by clear_bits_run. cbn [io polls written].
  eapply eq_trans; [eapply bind_step; step_pure; step_pure; cbn [io polls written]; apply set_bits_run|].
  eapply eq_trans; [apply set_bits_run|]. cbn [io polls written]. rewrite !(upd_ne _ DFLLRC32M_CTRL), !(upd_ne _ OSC_DFLLCTRL), !upd_eq by discriminate.
  rewrite <- !app_assoc. reflexivity.
Qed.

Section Start.
Variables (status : nat -> Z) (signature : Z -> Z) (USBRCOSC USBRCOSCA : Z).

(** The loop ends at the first poll that shows the oscillator as ready, or an earlier one. *)
Lemma osc_wait_ends id n fuel s : flag (status (polls s + n)) id = true -> (n < fuel)%nat ->
  exists j, osc_wait_ready status fuel id s = Some (mkClk (io s) j (written s), tt).
Proof.
  revert fuel s. induction n as [|n IH]; intros [|fuel] s Hn Hf; try lia; cbn [osc_wait_ready]; run; unfold osc_is_ready.
  - rewrite Nat.add_0_r in Hn. rewrite Hn. eauto.
  - destruct (flag (status (polls s)) id); [eauto|].
    destruct (IH fuel (mkClk (io s) (S (polls s)) (written s))) as [j Hj]; [cbn; rewrite <- Nat.add_succ_r; exact Hn|lia|].
    exists j. exact Hj.
Qed.

Lemma calibration_range : 0 <= calibration signature USBRCOSC USBRCOSCA < 65536.
Proof. unfold calibration, u8. case_bool; lia_mod. Qed.
Lemma split_bytes x : 0 <= x < 65536 -> u8 (x mod 256) + 256 * u8 (x / 256) = x.
Proof. unfold u8. lia_mod. Qed.

(** The writes before and after the wait, from the registers at the start. *)
Definition before (m : reg -> Z) : list (reg * Z) :=
  map (fun p => (PR p, 0xff)) all_ports ++
  [(CLK_PSCTRL, 4);
   (DFLLRC32M_CALA, u8 (calibration signature USBRCOSC USBRCOSCA mod 256));
   (DFLLRC32M_CALB, u8 (calibration signature USBRCOSC USBRCOSCA / 256));
   (OSC_CTRL, u8 (Z.lor (m OSC_CTRL) OSC_ID_RC32MHZ))].
Definition after (m : reg -> Z) : list (reg * Z) :=
  autocalibrate m ++ [(CLK_CTRL, 1); (OSC_CTRL, u8 (Z.ldiff (u8 (Z.lor (m OSC_CTRL) OSC_ID_RC32MHZ)) OSC_ID_RC2MHZ))].

Lemma before_osc m : replay (before m) m OSC_CTRL = u8 (Z.lor (m OSC_CTRL) OSC_ID_RC32MHZ).
Proof. unfold before. rewrite replay_app. apply upd_eq. Qed.
Lemma autocalibrate_before m : autocalibrate (replay (before m) m) = autocalibrate m.
Proof. unfold autocalibrate. rewrite !replay_kept by reflexivity. reflexivity. Qed.

Lemma init_writes n fuel s : written s = [] ->
  flag (status (polls s + n)) OSC_ID_RC32MHZ = true -> (n < fuel)%nat ->
  exists j, sysclk_init status signature USBRCOSC USBRCOSCA fuel s =
    Some (mkClk (replay (before (io s) ++ after (io s)) (io s)) j (before (io s) ++ after (io s)), tt).
Proof.
  destruct s as [m k ws]; cbn [written polls io]. intros -> Hr Hf.
  destruct (osc_wait_ends OSC_ID_RC32MHZ n fuel (mkClk (replay (before m) m) k (before m)) Hr Hf) as [j E].
  exists j. cbn [io written] in E. unfold sysclk_init.
  do 3 step_pure. cbv beta iota delta [start_source CONFIG_SYSCLK_SOURCE SYSCLK_SRC_RC2MHZ SYSCLK_SRC_RC32MHZ Z.eqb Pos.eqb].
  cbn [io polls written Datatypes.app].
  eapply eq_trans; [eapply bind_step; step_by set_bits_run; cbn [io polls written Datatypes.app]; rewrite !upd_ne by discriminate; step E|].
  1: { step_pure. apply autocalibration_run. }
  cbn [io polls written]. step_pure. cbn [io polls written]. eapply eq_trans; [apply clear_bits_run|].
  cbn [io polls written]. rewrite autocalibrate_before, upd_ne, (replay_kept (autocalibrate m)) by (discriminate || reflexivity).
  rewrite before_osc. unfold after. rewrite !app_assoc, !replay_app. rewrite <- !app_assoc. reflexivity.
Qed.

(** The two registers that matter, after a prefix of the writes; and their bits. *)
Ltac prefix_on :=
  unfold source_on; cbn [take replay fold_left fst snd]; repeat (rewrite upd_eq || rewrite upd_ne by discriminate).
Ltac on_bits :=
  repeat first [rewrite u8_bit by lia | rewrite Z.lor_spec | rewrite Z.ldiff_spec];
  first [assumption | match goal with H : Z.testbit _ _ = true |- _ => rewrite H end; reflexivity | rewrite ?orb_true_r; reflexivity].

(** C35. From a reset, when the oscillator gets ready, the start ends with the processor on the
    tuned oscillator, the prescaler that the frequencies are computed with, the factory's
    calibration (or its default), the automatic calibration from the frames of the USB and
    the clocks of all peripherals off; and after every single write the oscillator that
    the processor is clocked from is enabled. *)
Theorem clock_started n fuel s :
  io s CLK_CTRL = SYSCLK_SRC_RC2MHZ -> Z.testbit (io s OSC_CTRL) 0 = true -> written s = [] ->
  flag (status (polls s + n)) OSC_ID_RC32MHZ = true -> (n < fuel)%nat ->
  exists s', sysclk_init status signature USBRCOSC USBRCOSCA fuel s = Some (s', tt) /\
    (forall p, io s' (PR p) = 0xff) /\
    io s' CLK_CTRL = CONFIG_SYSCLK_SOURCE /\ io s' CLK_PSCTRL = Z.lor CONFIG_SYSCLK_PSADIV CONFIG_SYSCLK_PSBCDIV /\
    Z.testbit (io s' OSC_CTRL) 0 = false /\ Z.testbit (io s' OSC_CTRL) 1 = true /\
    io s' DFLLRC32M_CALA + 256 * io s' DFLLRC32M_CALB = calibration signature USBRCOSC USBRCOSCA /\
    Z.land (io s' OSC_DFLLCTRL) OSC_RC32MCREF_gm = OSC_RC32MCREF_USBSOF_gc /\ Z.testbit (io s' DFLLRC32M_CTRL) 0 = true /\
    io s' = replay (written s') (io s) /\
    forall k, source_on (replay (take k (written s')) (io s)) = true.
Proof.
  intros Hc Ho Hw Hr Hf. destruct (init_writes n fuel s Hw Hr Hf) as [j E]. eexists. split; [exact E|]. clear E. cbn [io written].
  destruct s as [m k ws]. cbn [io] in *. change SYSCLK_SRC_RC2MHZ with 0 in Hc. repeat split.
  - intros []; reflexivity.
  - change (Z.testbit (u8 (Z.ldiff (u8 (Z.lor (m OSC_CTRL) OSC_ID_RC32MHZ)) OSC_ID_RC2MHZ)) 0 = false).
    rewrite u8_bit, Z.ldiff_spec by lia. apply andb_false_r.
  - change (Z.testbit (u8 (Z.ldiff (u8 (Z.lor (m OSC_CTRL) OSC_ID_RC32MHZ)) OSC_ID_RC2MHZ)) 1 = true).
    rewrite u8_bit, Z.ldiff_spec, u8_bit, Z.lor_spec by lia. rewrite orb_true_r. reflexivity.
  - change (u8 (calibration signature USBRCOSC USBRCOSCA mod 256) + 256 * u8 (calibration signature USBRCOSC USBRCOSCA / 256) =
      calibration signature USBRCOSC USBRCOSCA).
    apply split_bytes, calibration_range.
  - change (Z.land (u8 (Z.lor (u8 (Z.ldiff (m OSC_DFLLCTRL) OSC_RC32MCREF_gm)) OSC_RC32MCREF_USBSOF_gc)) OSC_RC32MCREF_gm = OSC_RC32MCREF_USBSOF_gc).
    rewrite u8_land, Z.land_lor_distr_l, u8_land, <- Z.land_lor_distr_l by (vm_compute; intuition congruence).
    apply land_field. reflexivity.
  - change (Z.testbit (u8 (Z.lor (m DFLLRC32M_CTRL) DFLL_ENABLE_bm)) 0 = true).
    rewrite u8_bit, Z.lor_spec by lia. apply orb_true_r.
  - intros i. unfold before, after, autocalibrate. cbn [map all_ports Datatypes.app].
    assert (Z.testbit (m OSC_CTRL) (m CLK_CTRL) = true) as Hm by (rewrite Hc; exact Ho).
    do 18 (destruct i as [|i]; [prefix_on; rewrite ?Hc; on_bits|]). destruct i; prefix_on; rewrite ?Hc; on_bits.
Qed.
End Start.

(** The USB module gets its clock, divided for the low speed or not, and loses it again;
    no other gate and not the processor's clock is touched. *)
Lemma usb_clock status fuel frequency s : flag (status (polls s)) OSC_ID_RC32MHZ = true ->
  exists on off, sysclk_enable_usb status fuel frequency s = Some (on, tt) /\ sysclk_disable_usb on = Some (off, tt) /\
    sysclk_module_is_enabled SYSCLK_PORT_GEN SYSCLK_USB on = true /\ Z.testbit (io on CLK_USBCTRL) 0 = true /\
    Z.shiftr (io on CLK_USBCTRL) 3 = (if frequency =? 6 then 3 else 0) /\
    sysclk_module_is_enabled SYSCLK_PORT_GEN SYSCLK_USB off = false /\ io off CLK_USBCTRL = 0 /\
    forall r, r <> PR SYSCLK_PORT_GEN -> r <> CLK_USBCTRL -> io on r = io s r /\ io off r = io s r.
Proof.
  intros Hr. do 2 eexists.
  split; [unfold sysclk_enable_usb, osc_is_ready; run; rewrite Hr; cbn [negb]; reflexivity|]. split; [reflexivity|].
  repeat split; cbn [io].
  - change SYSCLK_USB with (2 ^ 6). rewrite enabled_bit by lia. cbn [io]. rewrite upd_eq, u8_bit, Z.ldiff_spec by lia. rewrite andb_false_r. reflexivity.
  - rewrite upd_ne by discriminate. rewrite upd_eq. case_bool; reflexivity.
  - rewrite upd_ne by discriminate. rewrite upd_eq. case_bool; reflexivity.
  - change SYSCLK_USB with (2 ^ 6). rewrite enabled_bit by lia. cbn [io]. rewrite upd_ne by discriminate.
    rewrite upd_eq, u8_bit, Z.lor_spec by lia. rewrite orb_true_r. reflexivity.
  - intros. rewrite !upd_ne by congruence. reflexivity.
  - intros. rewrite !upd_ne by congruence. reflexivity.
Qed.

(** *** Witnesses *)

Definition device (m : module) : bool :=
  match m with
  | RTC | EVSYS | ACA | ADCA | TCC0 | TCD0 | TCE0 | TCC1 | HIRESC | SPIC | SPID | USARTC0 | USARTD0 | TWIC | TWIE => true
  | _ => false
  end.

Lemma device_gates m m' : device m -> device m' -> gate m = gate m' -> is_Some (gate m) -> m = m'.
Proof. destruct m; cbn; try tauto; destruct m'; cbn; try tauto; discriminate. Qed.

(** A reset: the oscillator of 2 MHz is on, everything else is off. *)
Definition at_reset : Clk := mkClk (fun r => match r with OSC_CTRL => 1 | _ => 0 end) 0 [].

Lemma frequencies_witness :
  sysclk_get_per_hz SYSCLK_SRC_RC32MHZ SYSCLK_PSADIV_8 SYSCLK_PSBCDIV_2_2 = sysclk_get_main_hz SYSCLK_SRC_RC32MHZ / 32.
Proof.
  apply (frequencies_prescaled SYSCLK_SRC_RC32MHZ SYSCLK_PSADIV_8 8 SYSCLK_PSBCDIV_2_2 2 2); apply list_elem_of_lookup_2 with 3%nat; reflexivity.
Defined.

Lemma clock_gates_witness : exists on off,
  sysclk_enable_peripheral_clock device (Some TWIC) at_reset = Some (on, tt) /\
  sysclk_disable_peripheral_clock device (Some TWIC) at_reset = Some (off, tt) /\
  clock_on TCC0 on = bool_decide (TWIC = TCC0) || clock_on TCC0 at_reset /\
  clock_on TCC0 off = negb (bool_decide (TWIC = TCC0)) && clock_on TCC0 at_reset.
Proof.
  apply (clock_gates device device_gates TWIC TCC0 at_reset); [exact I|exact I|eexists; reflexivity|eexists; reflexivity].
Defined.

Lemma clock_started_witness : exists s',
  sysclk_init (fun k => if (k =? 3)%nat then 3 else 1) (fun _ => 0xff) 0x0E 0x0F 9 at_reset = Some (s', tt) /\
  io s' CLK_CTRL = CONFIG_SYSCLK_SOURCE.
Proof.
  destruct (clock_started (fun k => if (k =? 3)%nat then 3 else 1) (fun _ => 0xff) 0x0E 0x0F 3 9 at_reset)
    as (s' & E & _ & C & _); [reflexivity|reflexivity|reflexivity|reflexivity|lia|].
  exists s'. split; [exact E|exact C].
Defined.
