(* ===== verification/Timer.v ===== *)
(** * Timers (tc.c, tc.h) and the timers of this firmware (fan.cpp, heater.cpp, motors.cpp)

    The driver of the timer counters: the callbacks of their interrupts, the levels of the
    interrupts, the clock, the compare channels and the commands. The registers of a timer
    are words at symbolic addresses; where the hardware does more than store what is
    written (registers that set or clear bits, flags that a one clears) the write says so.
    At the end the timers of the firmware as it sets them up, and what their periods are. *)

From S2P Require Import Prelude Clock.

(** ** Registers of a timer *)

Inductive tc_addr :=
| CTRLA | CTRLB | CTRLD | CTRLE | INTCTRLA | INTCTRLB
| CTRLFCLR | CTRLFSET | CTRLGCLR | CTRLGSET | INTFLAGS
| CNT | PER | PERBUF | CCA | CCB | CCC | CCD | CCABUF | CCBBUF | CCCBUF | CCDBUF.

#[export] Instance tc_addr_eq : EqDecision tc_addr.
Proof. solve_decision. Defined.

Definition regs : Type := tc_addr -> Z.

(** Both addresses of a set-and-clear register read the same bits. *)
Definition cell (a : tc_addr) : tc_addr :=
  match a with CTRLFCLR => CTRLFSET | CTRLGCLR => CTRLGSET | a => a end.
Definition rd (a : tc_addr) (r : regs) : Z := r (cell a).

Definition put (a : tc_addr) (v : Z) (r : regs) : regs := fun a' => if decide (a = a') then v else r a'.

(** The command bits of register F; what the commands do is a parameter of the driver. *)
Definition TC0_CMD_gm : Z := 0x0C.
Definition TC_CMD_NONE_gc : Z := 0x00.
Definition TC_CMD_UPDATE_gc : Z := 0x04.
Definition TC_CMD_RESTART_gc : Z := 0x08.
Definition TC_CMD_RESET_gc : Z := 0x0C.
Definition TC0_DIR_bm : Z := 0x01.
Definition TC0_LUPD_bm : Z := 0x02.

Definition TC0_CLKSEL_gm : Z := 0x0F.
Definition TC_CLKSEL_OFF_gc : Z := 0.
Definition TC_CLKSEL_DIV1_gc : Z := 1.
Definition TC_CLKSEL_DIV2_gc : Z := 2.
Definition TC_CLKSEL_DIV4_gc : Z := 3.
Definition TC_CLKSEL_DIV8_gc : Z := 4.
Definition TC_CLKSEL_DIV64_gc : Z := 5.
Definition TC_CLKSEL_DIV256_gc : Z := 6.
Definition TC_CLKSEL_DIV1024_gc : Z := 7.

Definition TC0_WGMODE_gm : Z := 0x07.
Definition TC_WG_NORMAL : Z := 0x00.
Definition TC_WG_FRQ : Z := 0x01.
Definition TC_WG_SS : Z := 0x03.
Definition TC_WG_DS_T : Z := 0x05.
Definition TC_WG_DS_TB : Z := 0x06.
Definition TC_WG_DS_B : Z := 0x07.

Definition TC_CCAEN : Z := 0x10.
Definition TC_CCBEN : Z := 0x20.
Definition TC_CCCEN : Z := 0x40.
Definition TC_CCDEN : Z := 0x80.

Definition TC_INT_LVL_OFF : Z := 0.
Definition TC_INT_LVL_LO : Z := 1.
Definition TC_INT_LVL_MED : Z := 2.
Definition TC_INT_LVL_HI : Z := 3.

Definition TC0_OVFINTLVL_gm : Z := 0x03.
Definition TC0_ERRINTLVL_gm : Z := 0x0C.
Definition TC0_CCAINTLVL_gm : Z := 0x03.
Definition TC0_CCBINTLVL_gm : Z := 0x0C.
Definition TC0_CCCINTLVL_gm : Z := 0x30.
Definition TC0_CCDINTLVL_gm : Z := 0xC0.

Definition TC0_EVACT_gm : Z := 0xE0.
Definition TC0_EVDLY_bm : Z := 0x10.
Definition TC0_EVSEL_gm : Z := 0x0F.
Definition TC0_BYTEM0_bm : Z := 0x01.
Definition TC0_PERBV_bm : Z := 0x01.
Definition TC0_OVFIF_bm : Z := 0x01.
Definition TC0_ERRIF_bm : Z := 0x02.

(** [~mask] of a byte. *)
Definition not8 (mask : Z) : Z := Z.ldiff 255 mask.

Inductive tc_cc_channel_t := TC_CCA | TC_CCB | TC_CCC | TC_CCD.
Inductive tc_dir_t := TC_UP | TC_DOWN.
#[export] Instance tc_cc_channel_t_eq : EqDecision tc_cc_channel_t.
Proof. solve_decision. Defined.

Section Driver.
(** What the commands do to the registers. *)
Variable command : Z -> regs -> regs.

(** A write by the processor. *)
Definition wr (a : tc_addr) (v : Z) (r : regs) : regs :=
  match a with
  | CTRLFSET =>
      command (Z.land v TC0_CMD_gm) (put CTRLFSET (Z.lor (rd CTRLFSET r) (Z.ldiff (u8 v) TC0_CMD_gm)) r)
  | CTRLFCLR => put CTRLFSET (Z.ldiff (rd CTRLFSET r) (u8 v)) r
  | CTRLGSET => put CTRLGSET (Z.lor (rd CTRLGSET r) (u8 v)) r
  | CTRLGCLR => put CTRLGSET (Z.ldiff (rd CTRLGSET r) (u8 v)) r
  | INTFLAGS => put INTFLAGS (Z.ldiff (rd INTFLAGS r) (u8 v)) r
  | CTRLA | CTRLB | CTRLD | CTRLE | INTCTRLA | INTCTRLB => put a (u8 v) r
  | _ => put a (u16 v) r
  end.

(** *** Interrupt levels *)

Definition tc_set_overflow_interrupt_level (level : Z) (r : regs) : regs :=
  let r := wr INTCTRLA (Z.land (rd INTCTRLA r) (not8 TC0_OVFINTLVL_gm)) r in
  wr INTCTRLA (Z.lor (rd INTCTRLA r) (Z.shiftl level 0)) r.
Definition tc_set_error_interrupt_level (level : Z) (r : regs) : regs :=
  let r := wr INTCTRLA (Z.land (rd INTCTRLA r) (not8 TC0_ERRINTLVL_gm)) r in
  wr INTCTRLA (Z.lor (rd INTCTRLA r) (Z.shiftl level 2)) r.
Definition tc_set_cca_interrupt_level (level : Z) (r : regs) : regs :=
  let r := wr INTCTRLB (Z.land (rd INTCTRLB r) (not8 TC0_CCAINTLVL_gm)) r in
  wr INTCTRLB (Z.lor (rd INTCTRLB r) (Z.shiftl level 0)) r.
Definition tc_set_ccb_interrupt_level (level : Z) (r : regs) : regs :=
  let r := wr INTCTRLB (Z.land (rd INTCTRLB r) (not8 TC0_CCBINTLVL_gm)) r in
  wr INTCTRLB (Z.lor (rd INTCTRLB r) (Z.shiftl level 2)) r.
Definition tc_set_ccc_interrupt_level (level : Z) (r : regs) : regs :=
  let r := wr INTCTRLB (Z.land (rd INTCTRLB r) (not8 TC0_CCCINTLVL_gm)) r in
  wr INTCTRLB (Z.lor (rd INTCTRLB r) (Z.shiftl level 4)) r.
Definition tc_set_ccd_interrupt_level (level : Z) (r : regs) : regs :=
  let r := wr INTCTRLB (Z.land (rd INTCTRLB r) (not8 TC0_CCDINTLVL_gm)) r in
  wr INTCTRLB (Z.lor (rd INTCTRLB r) (Z.shiftl level 6)) r.

(** *** Clock, counter and period *)

Definition tc_write_clock_source (TC_CLKSEL_enum : Z) (r : regs) : regs :=
  wr CTRLA (Z.lor (Z.land (rd CTRLA r) (not8 TC0_CLKSEL_gm)) TC_CLKSEL_enum) r.
Definition tc_read_clock_source (r : regs) : Z := Z.land (rd CTRLA r) TC0_CLKSEL_gm.

Definition tc_set_resolution (resolution : Z) (r : regs) : regs :=
  let tc_clk_rate := per_hz in
  if resolution <=? tc_clk_rate / 1024 then tc_write_clock_source TC_CLKSEL_DIV1024_gc r
  else if resolution <=? tc_clk_rate / 256 then tc_write_clock_source TC_CLKSEL_DIV256_gc r
  else if resolution <=? tc_clk_rate / 64 then tc_write_clock_source TC_CLKSEL_DIV64_gc r
  else if resolution <=? tc_clk_rate / 8 then tc_write_clock_source TC_CLKSEL_DIV8_gc r
  else if resolution <=? tc_clk_rate / 4 then tc_write_clock_source TC_CLKSEL_DIV4_gc r
  else if resolution <=? tc_clk_rate / 2 then tc_write_clock_source TC_CLKSEL_DIV2_gc r
  else tc_write_clock_source TC_CLKSEL_DIV1_gc r.

Definition tc_get_resolution (r : regs) : Z :=
  let tc_clk_rate := per_hz in
  let source := tc_read_clock_source r in
  if source =? TC_CLKSEL_OFF_gc then 0
  else if source =? TC_CLKSEL_DIV1024_gc then tc_clk_rate / 1024
  else if source =? TC_CLKSEL_DIV256_gc then tc_clk_rate / 256
  else if source =? TC_CLKSEL_DIV64_gc then tc_clk_rate / 64
  else if source =? TC_CLKSEL_DIV8_gc then tc_clk_rate / 8
  else if source =? TC_CLKSEL_DIV4_gc then tc_clk_rate / 4
  else if source =? TC_CLKSEL_DIV2_gc then tc_clk_rate / 2
  else if source =? TC_CLKSEL_DIV1_gc then tc_clk_rate
  else 0.

Definition tc_set_direction (dir : tc_dir_t) (r : regs) : regs :=
  match dir with
  | TC_UP => wr CTRLFCLR (Z.lor (rd CTRLFCLR r) (not8 TC0_DIR_bm)) r
  | TC_DOWN => wr CTRLFSET (Z.lor (rd CTRLFSET r) TC0_DIR_bm) r
  end.

Definition tc_write_count (cnt_value : Z) (r : regs) : regs := wr CNT cnt_value r.
Definition tc_read_count (r : regs) : Z := rd CNT r.
Definition tc_write_period (per_value : Z) (r : regs) : regs := wr PER per_value r.
Definition tc_read_period (r : regs) : Z := rd PER r.
Definition tc_write_period_buffer (per_buf : Z) (r : regs) : regs := wr PERBUF per_buf r.
Definition tc_read_period_buffer (r : regs) : Z := rd PERBUF r.
Definition tc_period_buffer_is_valid (r : regs) : bool := flag (rd CTRLGCLR r) TC0_PERBV_bm.

Definition tc_enable_delay (r : regs) : regs := wr CTRLD (Z.lor (Z.land (rd CTRLD r) (not8 TC0_EVDLY_bm)) (Z.shiftl 1 4)) r.
Definition tc_disable_delay (r : regs) : regs := wr CTRLD (Z.land (rd CTRLD r) (not8 TC0_EVDLY_bm)) r.

(** *** Flags and commands *)

Definition tc_is_overflow (r : regs) : bool := flag (rd INTFLAGS r) TC0_OVFIF_bm.
Definition tc_clear_overflow (r : regs) : regs := wr INTFLAGS (Z.lor (rd INTFLAGS r) TC0_OVFIF_bm) r.
Definition tc_read_error (r : regs) : bool := flag (rd INTFLAGS r) TC0_ERRIF_bm.
Definition tc_clear_error (r : regs) : regs := wr INTFLAGS (Z.lor (rd INTFLAGS r) TC0_ERRIF_bm) r.
Definition tc_restart (r : regs) : regs := wr CTRLFSET TC_CMD_RESTART_gc r.
Definition tc_reset (r : regs) : regs := wr CTRLFSET TC_CMD_RESET_gc r.
Definition tc_update (r : regs) : regs := wr CTRLFSET TC_CMD_UPDATE_gc r.
Definition tc_set_8bits_mode (r : regs) : regs := wr CTRLE (Z.lor (rd CTRLE r) TC0_BYTEM0_bm) r.
Definition tc_lock_update_buffers (r : regs) : regs := wr CTRLFSET (Z.lor (rd CTRLFSET r) TC0_LUPD_bm) r.
Definition tc_unlock_update_buffers (r : regs) : regs := wr CTRLFCLR (Z.lor (rd CTRLFCLR r) TC0_LUPD_bm) r.

(** *** Compare channels

    A timer of the second kind ([tc1]) has two channels; its address tells. *)

Definition cc (c : tc_cc_channel_t) : tc_addr :=
  match c with TC_CCA => CCA | TC_CCB => CCB | TC_CCC => CCC | TC_CCD => CCD end.
Definition ccbuf (c : tc_cc_channel_t) : tc_addr :=
  match c with TC_CCA => CCABUF | TC_CCB => CCBBUF | TC_CCC => CCCBUF | TC_CCD => CCDBUF end.
Definition ccbv (c : tc_cc_channel_t) : Z :=
  match c with TC_CCA => 0x02 | TC_CCB => 0x04 | TC_CCC => 0x08 | TC_CCD => 0x10 end.
Definition ccif (c : tc_cc_channel_t) : Z :=
  match c with TC_CCA => 0x10 | TC_CCB => 0x20 | TC_CCC => 0x40 | TC_CCD => 0x80 end.

Definition tc_enable_cc_channels (tc1 : bool) (enablemask : Z) (r : regs) : regs :=
  if negb tc1 then wr CTRLB (Z.lor (rd CTRLB r) enablemask) r
  else wr CTRLB (Z.lor (rd CTRLB r) (Z.land enablemask (Z.lor TC_CCAEN TC_CCBEN))) r.
Definition tc_disable_cc_channels (tc1 : bool) (disablemask : Z) (r : regs) : regs :=
  if negb tc1 then wr CTRLB (Z.land (rd CTRLB r) (not8 disablemask)) r
  else wr CTRLB (Z.land (rd CTRLB r) (not8 (Z.land (Z.land disablemask TC_CCAEN) TC_CCBEN))) r.

Definition tc_set_input_capture (eventsource eventaction : Z) (r : regs) : regs :=
  let r := wr CTRLD (Z.land (rd CTRLD r) (not8 (Z.lor TC0_EVSEL_gm TC0_EVACT_gm))) r in
  wr CTRLD (Z.lor (rd CTRLD r) (Z.lor (u8 eventsource) (u8 eventaction))) r.

Definition tc_read_cc (tc1 : bool) (channel_index : tc_cc_channel_t) (r : regs) : Z :=
  if negb tc1 then
    match channel_index with TC_CCA => rd CCA r | TC_CCB => rd CCB r | TC_CCC => rd CCC r | TC_CCD => rd CCD r end
  else match channel_index with TC_CCA => rd CCA r | TC_CCB => rd CCB r | _ => 0 end.
Definition tc_write_cc (tc1 : bool) (channel_index : tc_cc_channel_t) (value : Z) (r : regs) : regs :=
  if negb tc1 then
    match channel_index with TC_CCA => wr CCA value r | TC_CCB => wr CCB value r | TC_CCC => wr CCC value r | TC_CCD => wr CCD value r end
  else match channel_index with TC_CCA => wr CCA value r | TC_CCB => wr CCB value r | _ => r end.
Definition tc_write_cc_buffer (tc1 : bool) (channel_index : tc_cc_channel_t) (buffer_value : Z) (r : regs) : regs :=
  if negb tc1 then
    match channel_index with
    | TC_CCA => wr CCABUF buffer_value r | TC_CCB => wr CCBBUF buffer_value r
    | TC_CCC => wr CCCBUF buffer_value r | TC_CCD => wr CCDBUF buffer_value r
    end
  else match channel_index with TC_CCA => wr CCABUF buffer_value r | TC_CCB => wr CCBBUF buffer_value r | _ => r end.
Definition tc_read_cc_buffer (tc1 : bool) (channel_index : tc_cc_channel_t) (r : regs) : Z :=
  if negb tc1 then
    match channel_index with TC_CCA => rd CCABUF r | TC_CCB => rd CCBBUF r | TC_CCC => rd CCCBUF r | TC_CCD => rd CCDBUF r end
  else match channel_index with TC_CCA => rd CCABUF r | TC_CCB => rd CCBBUF r | _ => 0 end.
Definition tc_cc_buffer_is_valid (tc1 : bool) (channel_index : tc_cc_channel_t) (r : regs) : bool :=
  if negb tc1 then flag (rd CTRLGCLR r) (ccbv channel_index)
  else match channel_index with TC_CCA | TC_CCB => flag (rd CTRLGCLR r) (ccbv channel_index) | _ => false end.
Definition tc_is_cc_interrupt (tc1 : bool) (channel_index : tc_cc_channel_t) (r : regs) : bool :=
  if negb tc1 then flag (rd INTFLAGS r) (ccif channel_index)
  else match channel_index with TC_CCA | TC_CCB => flag (rd INTFLAGS r) (ccif channel_index) | _ => false end.
Definition tc_clear_cc_interrupt (tc1 : bool) (channel_index : tc_cc_channel_t) (r : regs) : regs :=
  if negb tc1 then wr INTFLAGS (ccif channel_index) r
  else match channel_index with TC_CCA | TC_CCB => wr INTFLAGS (ccif channel_index) r | _ => r end.

Definition tc_set_wgm (wgm : Z) (r : regs) : regs :=
  wr CTRLB (Z.lor (Z.land (rd CTRLB r) (not8 TC0_WGMODE_gm)) wgm) r.

End Driver.

(** ** The timers of a device *)

(** The kinds of interrupt of a timer. *)
Inductive vector := OVF | ERR | VCCA | VCCB | VCCC | VCCD.
#[export] Instance vector_eq : EqDecision vector.
Proof. solve_decision. Defined.

(** A timer of the second kind: its address has the bit 0x40. *)
Definition tc_is_tc1 (tc : module) : bool :=
  match tc with TCC1 | TCD1 | TCE1 | TCF1 => true | _ => false end.

(** The port and the bit of the clock of a timer. *)
Definition timer_gate (tc : module) : option (sysclk_port_id * Z) :=
  match tc with
  | TCC0 => Some (SYSCLK_PORT_C, SYSCLK_TC0) | TCC1 => Some (SYSCLK_PORT_C, SYSCLK_TC1)
  | TCD0 => Some (SYSCLK_PORT_D, SYSCLK_TC0) | TCD1 => Some (SYSCLK_PORT_D, SYSCLK_TC1)
  | TCE0 => Some (SYSCLK_PORT_E, SYSCLK_TC0) | TCE1 => Some (SYSCLK_PORT_E, SYSCLK_TC1)
  | TCF0 => Some (SYSCLK_PORT_F, SYSCLK_TC0) | TCF1 => Some (SYSCLK_PORT_F, SYSCLK_TC1)
  | _ => None
  end.

Section Timers.
(** Which timers the device has, and the functions that can be callbacks. *)
Variable present : module -> bool.
Context {C : Type}.

(** The clocks, the registers of every timer and the static variables for the callbacks. *)
Record Timers := mkTimers { clk : Clk; tc_regs : module -> regs; tc_callback : module -> vector -> option C }.

(** The sleep manager is not part of the build: its locks do nothing. *)
Definition tc_enable (tc : module) (s : Timers) : option Timers :=
  match timer_gate tc with
  | Some (port, id) =>
      if present tc then
        '(c, _) ← (_ ← sysclk_enable_module port id; sysclk_enable_module port SYSCLK_HIRES : M Clk unit) (clk s);
        Some (mkTimers c (tc_regs s) (tc_callback s))
      else Some s
  | None => Some s
  end.
Definition tc_disable (tc : module) (s : Timers) : option Timers :=
  match timer_gate tc with
  | Some (port, id) =>
      if present tc then
        '(c, _) ← (_ ← sysclk_disable_module port id; sysclk_disable_module port SYSCLK_HIRES : M Clk unit) (clk s);
        Some (mkTimers c (tc_regs s) (tc_callback s))
      else Some s
  | None => Some s
  end.

Definition set_callback (tc : module) (v : vector) (callback : option C) (s : Timers) : Timers :=
  mkTimers (clk s) (tc_regs s)
    (fun tc' v' => if decide (tc = tc' /\ v = v') then callback else tc_callback s tc' v').

(** The chains of comparisons, by kind of interrupt. *)
Definition tc_set_overflow_interrupt_callback (tc : module) (callback : option C) (s : Timers) : Timers :=
  match tc with
  | TCC0 | TCC1 | TCD0 | TCD1 | TCE0 | TCE1 | TCF0 | TCF1 => if present tc then set_callback tc OVF callback s else s
  | _ => s
  end.
Definition tc_set_error_interrupt_callback (tc : module) (callback : option C) (s : Timers) : Timers :=
  match tc with
  | TCC0 | TCC1 | TCD0 | TCD1 | TCE0 | TCE1 | TCF0 | TCF1 => if present tc then set_callback tc ERR callback s else s
  | _ => s
  end.
Definition tc_set_cca_interrupt_callback (tc : module) (callback : option C) (s : Timers) : Timers :=
  match tc with
  | TCC0 | TCC1 | TCD0 | TCD1 | TCE0 | TCE1 | TCF0 | TCF1 => if present tc then set_callback tc VCCA callback s else s
  | _ => s
  end.
Definition tc_set_ccb_interrupt_callback (tc : module) (callback : option C) (s : Timers) : Timers :=
  match tc with
  | TCC0 | TCC1 | TCD0 | TCD1 | TCE0 | TCE1 | TCF0 | TCF1 => if present tc then set_callback tc VCCB callback s else s
  | _ => s
  end.
Definition tc_set_ccc_interrupt_callback (tc : module) (callback : option C) (s : Timers) : Timers :=
  match tc with
  | TCC0 | TCD0 | TCE0 | TCF0 => if present tc then set_callback tc VCCC callback s else s
  | _ => s
  end.
Definition tc_set_ccd_interrupt_callback (tc : module) (callback : option C) (s : Timers) : Timers :=
  match tc with
  | TCC0 | TCD0 | TCE0 | TCF0 => if present tc then set_callback tc VCCD callback s else s
  | _ => s
  end.

(** The interrupt handlers of each timer: the callback that runs, if one is set. *)
Definition TCC0_vect (v : vector) (s : Timers) : option C :=
  match v with
  | OVF => tc_callback s TCC0 OVF | ERR => tc_callback s TCC0 ERR | VCCA => tc_callback s TCC0 VCCA
  | VCCB => tc_callback s TCC0 VCCB | VCCC => tc_callback s TCC0 VCCC | VCCD => tc_callback s TCC0 VCCD
  end.
Definition TCC1_vect (v : vector) (s : Timers) : option C :=
  match v with
  | OVF => tc_callback s TCC1 OVF | ERR => tc_callback s TCC1 ERR | VCCA => tc_callback s TCC1 VCCA
  | VCCB => tc_callback s TCC1 VCCB | _ => None
  end.
Definition TCD0_vect (v : vector) (s : Timers) : option C :=
  match v with
  | OVF => tc_callback s TCD0 OVF | ERR => tc_callback s TCD0 ERR | VCCA => tc_callback s TCD0 VCCA
  | VCCB => tc_callback s TCD0 VCCB | VCCC => tc_callback s TCD0 VCCC | VCCD => tc_callback s TCD0 VCCD
  end.
Definition TCD1_vect (v : vector) (s : Timers) : option C :=
  match v with
  | OVF => tc_callback s TCD1 OVF | ERR => tc_callback s TCD1 ERR | VCCA => tc_callback s TCD1 VCCA
  | VCCB => tc_callback s TCD1 VCCB | _ => None
  end.
Definition TCE0_vect (v : vector) (s : Timers) : option C :=
  match v with
  | OVF => tc_callback s TCE0 OVF | ERR => tc_callback s TCE0 ERR | VCCA => tc_callback s TCE0 VCCA
  | VCCB => tc_callback s TCE0 VCCB | VCCC => tc_callback s TCE0 VCCC | VCCD => tc_callback s TCE0 VCCD
  end.
Definition TCE1_vect (v : vector) (s : Timers) : option C :=
  match v with
  | OVF => tc_callback s TCE1 OVF | ERR => tc_callback s TCE1 ERR | VCCA => tc_callback s TCE1 VCCA
  | VCCB => tc_callback s TCE1 VCCB | _ => None
  end.
Definition TCF0_vect (v : vector) (s : Timers) : option C :=
  match v with
  | OVF => tc_callback s TCF0 OVF | ERR => tc_callback s TCF0 ERR | VCCA => tc_callback s TCF0 VCCA
  | VCCB => tc_callback s TCF0 VCCB | VCCC => tc_callback s TCF0 VCCC | VCCD => tc_callback s TCF0 VCCD
  end.
Definition TCF1_vect (v : vector) (s : Timers) : option C :=
  match v with
  | OVF => tc_callback s TCF1 OVF | ERR => tc_callback s TCF1 ERR | VCCA => tc_callback s TCF1 VCCA
  | VCCB => tc_callback s TCF1 VCCB | _ => None
  end.

(** The vector table: the handler of a timer that the device does not have is left out. *)
Definition ISR (tc : module) (v : vector) (s : Timers) : option C :=
  if present tc then
    match tc with
    | TCC0 => TCC0_vect v s | TCC1 => TCC1_vect v s | TCD0 => TCD0_vect v s | TCD1 => TCD1_vect v s
    | TCE0 => TCE0_vect v s | TCE1 => TCE1_vect v s | TCF0 => TCF0_vect v s | TCF1 => TCF1_vect v s
    | _ => None
    end
  else None.

(** The function that registers a callback for a kind of interrupt. *)
Definition register (v : vector) : module -> option C -> Timers -> Timers :=
  match v with
  | OVF => tc_set_overflow_interrupt_callback | ERR => tc_set_error_interrupt_callback
  | VCCA => tc_set_cca_interrupt_callback | VCCB => tc_set_ccb_interrupt_callback
  | VCCC => tc_set_ccc_interrupt_callback | VCCD => tc_set_ccd_interrupt_callback
  end.

(** A timer of the device has this kind of interrupt. *)
Definition has_vector (tc : module) (v : vector) : bool :=
  match timer_gate tc with
  | Some _ => present tc && match v with VCCC | VCCD => negb (tc_is_tc1 tc) | _ => true end
  | None => false
  end.

(** Changing the registers of one timer. *)
Definition on_tc (tc : module) (f : regs -> regs) (s : Timers) : Timers :=
  mkTimers (clk s) (fun tc' => if decide (tc = tc') then f (tc_regs s tc) else tc_regs s tc') (tc_callback s).

End Timers.
Arguments Timers : clear implicits.

(** ** Properties of the driver *)

Lemma put_eq a v r : put a v r a = v.
Proof. unfold put. rewrite decide_True by reflexivity. reflexivity. Qed.
Lemma put_ne a a' v r : a <> a' -> put a v r a' = r a'.
Proof. intros N. unfold put. rewrite decide_False by exact N. reflexivity. Qed.

(** *** Callbacks *)

(** Registering a callback decides what runs at this interrupt of this timer, when the
    device has them, and nothing else: the handlers implement a table. *)
Theorem callbacks_dispatched {C} present v v' tc tc' (c : option C) s :
  ISR present tc' v' (register present v tc c s) =
    if bool_decide (tc = tc' /\ v = v') && has_vector present tc v then c else ISR present tc' v' s.
Proof.
  unfold ISR, has_vector. destruct (decide (tc = tc' /\ v = v')) as [[<- <-]|N].
  - rewrite bool_decide_true by auto. cbn [andb].
    destruct (present tc) eqn:P; [|destruct (timer_gate tc); reflexivity].
    destruct tc, v; cbn -[decide]; rewrite ?P; cbn -[decide]; rewrite ?decide_True by auto; reflexivity.
  - rewrite bool_decide_false by exact N. cbn [andb]. destruct (present tc'); [|reflexivity].
    assert (forall v0, tc_callback (register present v tc c s) tc' v0 =
      if decide (v0 = v') then tc_callback s tc' v0 else tc_callback (register present v tc c s) tc' v0) as K.
    { intros v0. destruct (decide (v0 = v')) as [->|]; [|reflexivity].
      assert (tc_callback (set_callback tc v c s) tc' v' = tc_callback s tc' v') as E.
      { cbn. rewrite decide_False by tauto. reflexivity. }
      destruct v, tc; cbn [register tc_set_overflow_interrupt_callback tc_set_error_interrupt_callback tc_set_cca_interrupt_callback
        tc_set_ccb_interrupt_callback tc_set_ccc_interrupt_callback tc_set_ccd_interrupt_callback];
        try reflexivity; case_bool; (exact E || reflexivity). }
    specialize (K v'). rewrite decide_True in K by reflexivity.
    destruct tc', v'; try reflexivity; exact K.
Qed.

(** *** Interrupt levels *)

Definition level_reg (v : vector) : tc_addr := match v with OVF | ERR => INTCTRLA | _ => INTCTRLB end.
Definition level_gp (v : vector) : Z := match v with OVF | VCCA => 0 | ERR | VCCB => 2 | VCCC => 4 | VCCD => 6 end.
Definition level_gm (v : vector) : Z := Z.shiftl 3 (level_gp v).
(** The level of an interrupt, as the interrupt controller reads it. *)
Definition level (v : vector) (r : regs) : Z := Z.shiftr (Z.land (rd (level_reg v) r) (level_gm v)) (level_gp v).

Definition set_level command (v : vector) : Z -> regs -> regs :=
  match v with
  | OVF => tc_set_overflow_interrupt_level command | ERR => tc_set_error_interrupt_level command
  | VCCA => tc_set_cca_interrupt_level command | VCCB => tc_set_ccb_interrupt_level command
  | VCCC => tc_set_ccc_interrupt_level command | VCCD => tc_set_ccd_interrupt_level command
  end.

Lemma not8_land x gm m : 0 <= m < 256 -> Z.land (Z.land x (not8 gm)) m = Z.land (Z.ldiff x gm) m.
Proof.
  intros Hm. unfold not8. apply Z.bits_inj'. intros k Hk. rewrite !Z.land_spec, !Z.ldiff_spec.
  destruct (Z.lt_ge_cases k 8) as [L|L].
  - assert (Z.testbit 255 k = true) as -> by (change 255 with (Z.ones 8); apply Z.ones_spec_low; lia).
    destruct (Z.testbit x k), (Z.testbit gm k), (Z.testbit m k); reflexivity.
  - rewrite <- (Z.mod_small m 256) by exact Hm. fold (u8 m). rewrite (u8_bit_high m) by lia. rewrite !andb_false_r. reflexivity.
Qed.

(** A field that is cleared and then set, seen through a mask. *)
Lemma field_written x gm v m : 0 <= m < 256 ->
  Z.land (u8 (Z.lor (u8 (Z.land x (not8 gm))) v)) m = Z.land (Z.lor (Z.ldiff x gm) v) m.
Proof.
  intros Hm. rewrite u8_land by exact Hm. rewrite !Z.land_lor_distr_l, u8_land, not8_land by exact Hm. reflexivity.
Qed.

Lemma level_gm_range v : 0 <= level_gm v < 256.
Proof. destruct v; vm_compute; intuition congruence. Qed.

Lemma set_level_reg command v l r :
  set_level command v l r =
    put (level_reg v) (u8 (Z.lor (u8 (Z.land (rd (level_reg v) r) (not8 (level_gm v)))) (Z.shiftl l (level_gp v))))
      (put (level_reg v) (u8 (Z.land (rd (level_reg v) r) (not8 (level_gm v)))) r).
Proof. destruct v; reflexivity. Qed.

(** Setting the level of one interrupt sets it, and leaves the levels of the others and
    all other registers as they were. *)
Theorem interrupt_level_set command v v' l r : 0 <= l <= 3 ->
  level v' (set_level command v l r) = (if decide (v = v') then l else level v' r) /\
  forall a, a <> INTCTRLA -> a <> INTCTRLB -> set_level command v l r a = r a.
Proof.
  intros Hl. rewrite set_level_reg. split.
  2:{ intros a Ha Hb. rewrite !put_ne by (destruct v; cbn; congruence). reflexivity. }
  unfold level, rd. assert (forall w, cell (level_reg w) = level_reg w) as Cw by (intros []; reflexivity). rewrite !Cw.
  assert (Z.land (Z.shiftl l (level_gp v)) (level_gm v) = Z.shiftl l (level_gp v)) as F.
  { assert (l = 0 \/ l = 1 \/ l = 2 \/ l = 3) as [->|[->|[->| ->]]] by lia; destruct v; reflexivity. }
  destruct (decide (v = v')) as [<-|N].
  - rewrite put_eq, field_written, land_field by (exact F || apply level_gm_range).
    destruct v; cbn [level_gp]; rewrite Z.shiftr_shiftl_l by lia; apply Z.shiftl_0_r.
  - destruct (decide (level_reg v = level_reg v')) as [E|E].
    + rewrite <- E, put_eq, field_written, land_other; [reflexivity| |exact F|apply level_gm_range].
      destruct v, v'; try congruence; try discriminate E; reflexivity.
    + rewrite !put_ne by exact E. reflexivity.
Qed.

(** *** Clock *)

Definition dividers : list (Z * Z) :=
  [(TC_CLKSEL_DIV1_gc, 1); (TC_CLKSEL_DIV2_gc, 2); (TC_CLKSEL_DIV4_gc, 4); (TC_CLKSEL_DIV8_gc, 8);
   (TC_CLKSEL_DIV64_gc, 64); (TC_CLKSEL_DIV256_gc, 256); (TC_CLKSEL_DIV1024_gc, 1024)].

Lemma source_bits x v : Z.land v TC0_CLKSEL_gm = v -> Z.land (u8 (Z.lor (Z.land x (not8 TC0_CLKSEL_gm)) v)) TC0_CLKSEL_gm = v.
Proof.
  intros E. rewrite u8_land, Z.land_lor_distr_l, not8_land, <- Z.land_lor_distr_l by (vm_compute; intuition congruence).
  apply land_field, E.
Qed.

Lemma clock_source_read command v r : Z.land v TC0_CLKSEL_gm = v ->
  tc_read_clock_source (tc_write_clock_source command v r) = v.
Proof. intros E. unfold tc_read_clock_source, tc_write_clock_source, rd. cbn [cell wr]. rewrite put_eq. apply source_bits, E. Qed.

Lemma resolution_of command s d r : (s, d) ∈ dividers -> tc_get_resolution (tc_write_clock_source command s r) = per_hz / d.
Proof.
  intros Hd. unfold tc_get_resolution. unfold dividers in Hd.
  repeat (apply elem_of_cons in Hd; destruct Hd as [[= -> ->]|Hd]; [rewrite clock_source_read by reflexivity; reflexivity|]).
  apply elem_of_nil in Hd. destruct Hd.
Qed.

Ltac quotients :=
  repeat match goal with
  | |- context [24000000 / Z.pos ?d] => let q := eval vm_compute in (24000000 / Z.pos d) in change (24000000 / Z.pos d) with q
  | H : context [24000000 / Z.pos ?d] |- _ => let q := eval vm_compute in (24000000 / Z.pos d) in change (24000000 / Z.pos d) with q in H
  end.

Lemma resolution_set command resolution r :
  exists s d, (s, d) ∈ dividers /\ tc_set_resolution command resolution r = tc_write_clock_source command s r /\
    (resolution <= per_hz -> resolution <= per_hz / d) /\
    Forall (fun q => resolution <= per_hz / snd q -> per_hz / d <= per_hz / snd q) dividers.
Proof.
  unfold tc_set_resolution. change per_hz with 24000000. unfold dividers. repeat case_bool; bool_hyps.
  1: exists TC_CLKSEL_DIV1024_gc, 1024. 2: exists TC_CLKSEL_DIV256_gc, 256. 3: exists TC_CLKSEL_DIV64_gc, 64.
  4: exists TC_CLKSEL_DIV8_gc, 8. 5: exists TC_CLKSEL_DIV4_gc, 4. 6: exists TC_CLKSEL_DIV2_gc, 2. 7: exists TC_CLKSEL_DIV1_gc, 1.
  all: split; [repeat (apply list_elem_of_here || apply list_elem_of_further)|]; split; [reflexivity|]; quotients; split; [lia|]; repeat constructor; cbn [snd]; quotients; lia.
Qed.

(** A resolution that the clock can give is given at least, and none of the dividers gives
    one that is lower and still high enough. *)
Theorem resolution_chosen command resolution r : 0 < resolution <= per_hz ->
  resolution <= tc_get_resolution (tc_set_resolution command resolution r) /\
  forall s d, (s, d) ∈ dividers -> resolution <= per_hz / d ->
    tc_get_resolution (tc_set_resolution command resolution r) <= per_hz / d.
Proof.
  intros Hr. destruct (resolution_set command resolution r) as (s & d & Hd & -> & H1 & H2). rewrite (resolution_of _ s d) by exact Hd.
  split; [apply H1, Hr|]. intros s' d' Hd'. exact (proj1 (list.Forall_forall _ _) H2 _ Hd').
Qed.

(** *** Compare channels *)

Definition has_channel (tc1 : bool) (c : tc_cc_channel_t) : bool :=
  match c with TC_CCA | TC_CCB => true | TC_CCC | TC_CCD => negb tc1 end.

(** A channel reads what was written to it, and no other register changes; a channel that
    the timer does not have ignores writes and reads zero. The same for the buffers. *)
Theorem channels_written command tc1 c c' v r :
  tc_read_cc tc1 c' (tc_write_cc command tc1 c v r) =
    (if decide (c = c') then if has_channel tc1 c then u16 v else 0 else tc_read_cc tc1 c' r) /\
  (forall a, a <> cc c \/ has_channel tc1 c = false -> tc_write_cc command tc1 c v r a = r a) /\
  tc_read_cc_buffer tc1 c' (tc_write_cc_buffer command tc1 c v r) =
    (if decide (c = c') then if has_channel tc1 c then u16 v else 0 else tc_read_cc_buffer tc1 c' r) /\
  (forall a, a <> ccbuf c \/ has_channel tc1 c = false -> tc_write_cc_buffer command tc1 c v r a = r a).
Proof.
  repeat split.
  - destruct (decide (c = c')) as [<-|N]; destruct tc1, c; try reflexivity; destruct c'; (congruence || reflexivity).
  - intros a H. destruct tc1, c; cbn in *; try reflexivity; apply put_ne; intros E; destruct H; congruence.
  - destruct (decide (c = c')) as [<-|N]; destruct tc1, c; try reflexivity; destruct c'; (congruence || reflexivity).
  - intros a H. destruct tc1, c; cbn in *; try reflexivity; apply put_ne; intros E; destruct H; congruence.
Qed.

(** *** What some functions do besides *)

(** Switching the channels of a timer of the second kind off does nothing. *)
Theorem two_channels_stay_on command mask r : rd CTRLB r = u8 (rd CTRLB r) ->
  rd CTRLB (tc_disable_cc_channels command true mask r) = rd CTRLB r.
Proof.
  intros B. unfold tc_disable_cc_channels. cbn [negb]. change (rd CTRLB) with (fun r : regs => r CTRLB) in *. cbn beta in *. cbn [wr]. rewrite put_eq.
  assert (Z.land (Z.land mask TC_CCAEN) TC_CCBEN = 0) as ->.
  { rewrite <- Z.land_assoc. change (Z.land TC_CCAEN TC_CCBEN) with 0. apply Z.land_0_r. }
  rewrite B at 2. unfold not8. rewrite Z.ldiff_0_r. change 255 with (Z.ones 8). rewrite Z.land_ones by lia.
  unfold u8. change (2 ^ 8) with 256. apply Zmod_mod.
Qed.

(** Clearing the overflow clears every flag that is set; clearing the flag of a channel
    clears that one. *)
Theorem clearing_flags command tc1 c r : has_channel tc1 c = true -> rd INTFLAGS r = u8 (rd INTFLAGS r) ->
  rd INTFLAGS (tc_clear_overflow command r) = 0 /\ rd INTFLAGS (tc_clear_error command r) = 0 /\
  rd INTFLAGS (tc_clear_cc_interrupt command tc1 c r) = Z.ldiff (rd INTFLAGS r) (ccif c).
Proof.
  intros Hc B. unfold tc_clear_overflow, tc_clear_error.
  assert (forall m, 0 <= m < 256 -> Z.ldiff (rd INTFLAGS r) (u8 (Z.lor (rd INTFLAGS r) m)) = 0) as Z0.
  { intros m Hm. apply Z.bits_inj'. intros k Hk. rewrite Z.ldiff_spec, Z.bits_0. destruct (Z.lt_ge_cases k 8).
    - rewrite u8_bit, Z.lor_spec by lia. destruct (Z.testbit (rd INTFLAGS r) k); reflexivity.
    - rewrite B, u8_bit_high by lia. reflexivity. }
  split; [|split].
  - unfold rd at 1. cbn [cell wr]. rewrite put_eq. apply Z0. vm_compute. intuition congruence.
  - unfold rd at 1. cbn [cell wr]. rewrite put_eq. apply Z0. vm_compute. intuition congruence.
  - destruct tc1, c; try discriminate Hc; reflexivity.
Qed.

(** Register F without a command: direction and lock of the buffers. *)
Definition direction (r : regs) : bool := flag (rd CTRLFSET r) TC0_DIR_bm.
Definition locked (r : regs) : bool := flag (rd CTRLFSET r) TC0_LUPD_bm.

(** The direction is set as asked for and the lock is set as asked for; but setting the
    direction to up also unlocks the buffers, and unlocking the buffers also sets the
    direction to up. *)
Theorem direction_and_lock command r :
  (forall r, command TC_CMD_NONE_gc r = r) -> (rd CTRLFSET r = 0 \/ rd CTRLFSET r = 1 \/ rd CTRLFSET r = 2 \/ rd CTRLFSET r = 3) ->
  let down := tc_set_direction command TC_DOWN r in let up := tc_set_direction command TC_UP r in
  let lock := tc_lock_update_buffers command r in let unlock := tc_unlock_update_buffers command r in
  (direction down = true /\ locked down = locked r) /\ (direction up = false /\ locked up = false) /\
  (direction lock = direction r /\ locked lock = true) /\ (direction unlock = false /\ locked unlock = false).
Proof.
  intros Hn HF. unfold direction, locked, tc_set_direction, tc_lock_update_buffers, tc_unlock_update_buffers.
  change (rd CTRLFCLR r) with (rd CTRLFSET r).
  destruct HF as [E|[E|[E|E]]]; rewrite !E; cbn [wr]; rewrite ?E;
    repeat match goal with |- context [command (Z.land ?a ?b)] => change (Z.land a b) with TC_CMD_NONE_gc; rewrite Hn end;
    repeat split; reflexivity.
Qed.

(** ** Counting

    One period of a timer's clock, in the modes that count up to the period: the counter
    goes back to zero after it and the overflow is flagged. *)
Definition count (r : regs) : regs * bool :=
  if rd CNT r =? rd PER r then (put CNT 0 (put INTFLAGS (Z.lor (rd INTFLAGS r) TC0_OVFIF_bm) r), true)
  else (put CNT (u16 (rd CNT r + 1)) r, false).

Fixpoint counts (n : nat) (r : regs) : regs * nat :=
  match n with
  | O => (r, O)
  | S n => let '(r, k) := counts n r in let '(r, o) := count r in (r, if o : bool then S k else k)
  end.

Lemma count_period r : rd PER (fst (count r)) = rd PER r.
Proof. unfold count. case_bool; reflexivity. Qed.

(** A timer overflows once every period plus one. *)
Theorem overflows_counted n r : 0 <= rd CNT r <= rd PER r -> rd PER r < 65536 ->
  rd PER (fst (counts n r)) = rd PER r /\
  rd CNT (fst (counts n r)) = (rd CNT r + Z.of_nat n) mod (rd PER r + 1) /\
  Z.of_nat (snd (counts n r)) = (rd CNT r + Z.of_nat n) / (rd PER r + 1).
Proof.
  intros Hc Hp. induction n as [|n (IP & IC & IN)]; cbn [counts].
  - cbn [fst snd]. rewrite Z.add_0_r, Z.mod_small, Z.div_small by lia. auto.
  - destruct (counts n r) as [r' k]. cbn [fst snd] in *. pose proof (count_period r') as CP. revert CP. unfold count.
    rewrite IP, IC. replace (rd CNT r + Z.of_nat (S n)) with (rd CNT r + Z.of_nat n + 1) by lia. set (c := rd CNT r + Z.of_nat n) in *. set (p := rd PER r) in *.
    clearbody c p. pose proof (Z.mod_pos_bound c (p + 1) ltac:(lia)) as Mb. pose proof (Z.div_mod c (p + 1) ltac:(lia)) as Dm.
    generalize dependent (c / (p + 1)). generalize dependent (c mod (p + 1)). intros m IC Mb q IN Dm.
    destruct (Z.eqb_spec m p) as [E|E]; cbn [fst snd]; intros CP; (split; [congruence|]);
      unfold rd; cbn [cell]; rewrite put_eq.
    + assert (c + 1 = (q + 1) * (p + 1)) as -> by nia. rewrite Z.mod_mul, Z.div_mul by lia. lia.
    + assert (c + 1 = m + 1 + q * (p + 1)) as -> by nia.
      rewrite Z.mod_add, Z.div_add, Z.mod_small, Z.div_small by lia. unfold u16. rewrite Z.mod_small by lia. lia.
Qed.

(** ** The timers of the firmware *)

(** The callbacks that it registers. *)
Inductive callback := UpdateTemperature | UpdateMotorsStepTimer | SaveMotors | SendWait.

Definition FAN_TIMER : module := TCE0.
Definition WAIT_TIMER : module := FAN_TIMER.
Definition TEMPERATURE_TIMER : module := TCC1.
Definition MOTORS_VREF_TIMER : module := TCD0.
Definition MOTORS_SAVE_TIMER : module := MOTORS_VREF_TIMER.
Definition MOTORS_STEP_TIMER : module := TCC0.
Definition FAN_TIMER_PERIOD : Z := 0x208D.
Definition WAIT_TIMER_PERIOD : Z := FAN_TIMER_PERIOD.
Definition MOTORS_VREF_TIMER_PERIOD : Z := 0x27F.
Definition MOTORS_SAVE_TIMER_PERIOD : Z := MOTORS_VREF_TIMER_PERIOD.
Definition MOTORS_STEP_TIMER_PERIOD : Z := 1024.
Definition UPDATE_TEMPERATURE_MILLISECONDS : Z := 333.
Definition MOTORS_SAVE_VALUE_MILLISECONDS : Z := 200.

(** The channels of the reference voltages. *)
Definition MOTOR_X_VREF_CHANNEL : tc_cc_channel_t := TC_CCB.
Definition MOTOR_Y_VREF_CHANNEL : tc_cc_channel_t := TC_CCD.
Definition MOTOR_Z_VREF_CHANNEL : tc_cc_channel_t := TC_CCC.
Definition MOTOR_E_VREF_CHANNEL : tc_cc_channel_t := TC_CCA.

Section Setup.
Variable present : module -> bool.
Variable command : Z -> regs -> regs.
(** The reference voltages of motors that do not move, by axis. *)
Variables idle_x idle_y idle_z idle_e : Z.

Definition fan_timer (s : Timers callback) : option (Timers callback) :=
  s ← tc_enable present FAN_TIMER s;
  Some (on_tc FAN_TIMER (fun r =>
    let r := tc_set_wgm command TC_WG_SS r in
    let r := tc_write_period command FAN_TIMER_PERIOD r in
    let r := tc_enable_cc_channels command (tc_is_tc1 FAN_TIMER) (Z.lor TC_CCBEN TC_CCDEN) r in
    tc_write_clock_source command TC_CLKSEL_DIV64_gc r) s).

Definition temperature_timer (s : Timers callback) : option (Timers callback) :=
  s ← tc_enable present TEMPERATURE_TIMER s;
  let s := on_tc TEMPERATURE_TIMER (fun r =>
    let r := tc_set_wgm command TC_WG_NORMAL r in
    tc_write_period command (u32 (cpu_hz / 1024 * UPDATE_TEMPERATURE_MILLISECONDS) / 1000) r) s in
  let s := tc_set_overflow_interrupt_callback present TEMPERATURE_TIMER (Some UpdateTemperature) s in
  Some (on_tc TEMPERATURE_TIMER (tc_write_clock_source command TC_CLKSEL_DIV1024_gc) s).

Definition motors_timers (s : Timers callback) : option (Timers callback) :=
  s ← tc_enable present MOTORS_VREF_TIMER s;
  let s := on_tc MOTORS_VREF_TIMER (fun r =>
    let r := tc_set_wgm command TC_WG_SS r in
    let r := tc_write_period command MOTORS_VREF_TIMER_PERIOD r in
    let r := tc_write_cc command (tc_is_tc1 MOTORS_VREF_TIMER) MOTOR_X_VREF_CHANNEL idle_x r in
    let r := tc_write_cc command (tc_is_tc1 MOTORS_VREF_TIMER) MOTOR_Y_VREF_CHANNEL idle_y r in
    let r := tc_write_cc command (tc_is_tc1 MOTORS_VREF_TIMER) MOTOR_Z_VREF_CHANNEL idle_z r in
    let r := tc_write_cc command (tc_is_tc1 MOTORS_VREF_TIMER) MOTOR_E_VREF_CHANNEL idle_e r in
    let r := tc_enable_cc_channels command (tc_is_tc1 MOTORS_VREF_TIMER)
               (Z.lor (Z.lor (Z.lor TC_CCBEN TC_CCDEN) TC_CCCEN) TC_CCAEN) r in
    tc_write_clock_source command TC_CLKSEL_DIV1_gc r) s in
  s ← tc_enable present MOTORS_STEP_TIMER s;
  let s := on_tc MOTORS_STEP_TIMER (fun r =>
    let r := tc_set_wgm command TC_WG_NORMAL r in
    let r := tc_write_period command MOTORS_STEP_TIMER_PERIOD r in
    tc_set_overflow_interrupt_level command TC_INT_LVL_MED r) s in
  Some (tc_set_overflow_interrupt_callback present MOTORS_STEP_TIMER (Some UpdateMotorsStepTimer) s).

(** The interrupt that saves the motors' state is set up last. *)
Definition save_timer_on (s : Timers callback) : Timers callback :=
  let s := tc_set_overflow_interrupt_callback present MOTORS_SAVE_TIMER (Some SaveMotors) s in
  on_tc MOTORS_SAVE_TIMER (tc_set_overflow_interrupt_level command TC_INT_LVL_LO) s.

(** The start and the stop of the step timer. *)
Definition start_step_timer (r : regs) : regs := tc_write_clock_source command TC_CLKSEL_DIV1_gc (tc_restart command r).
Definition stop_step_timer (r : regs) : regs := tc_write_clock_source command TC_CLKSEL_OFF_gc r.

(** The set-up by the main program, in its order. *)
Definition set_up (s : Timers callback) : option (Timers callback) :=
  s ← fan_timer s;
  s ← temperature_timer s;
  s ← motors_timers s;
  Some (tc_set_overflow_interrupt_callback present WAIT_TIMER (Some SendWait) (save_timer_on s)).

End Setup.

(** Enabling a timer opens its gate and that of the extension of its port, and nothing else. *)
Lemma tc_enable_run {C} present tc p k (s : Timers C) : timer_gate tc = Some (p, 2 ^ k) -> 0 <= k < 8 -> present tc = true ->
  exists c, tc_enable present tc s = Some (mkTimers c (tc_regs s) (tc_callback s)) /\
    forall q j, 0 <= j < 8 ->
      sysclk_module_is_enabled q (2 ^ j) c = bool_decide (p = q /\ (k = j \/ j = 2)) || sysclk_module_is_enabled q (2 ^ j) (clk s).
Proof.
  intros G Hk P. unfold tc_enable. rewrite G, P. destruct (sysclk_enable_module p (2 ^ k) (clk s)) as [[c1 []]|] eqn:E1; [|discriminate].
  destruct (sysclk_enable_module p SYSCLK_HIRES c1) as [[c2 []]|] eqn:E2; [|discriminate].
  exists c2. split.
  - unfold mbind, M_bind, option_bind. rewrite E1, E2. reflexivity.
  - intros q j Hj. rewrite (gate_opened p q j 2 c1 c2 Hj ltac:(lia) E2), (gate_opened p q j k _ c1 Hj Hk E1), orb_assoc. f_equal.
    apply Bool.eq_iff_eq_true. rewrite orb_true_iff, !bool_decide_eq_true. intuition congruence.
Qed.

Definition used : list module := [FAN_TIMER; TEMPERATURE_TIMER; MOTORS_VREF_TIMER; MOTORS_STEP_TIMER].

Section Settled.
Context (present : module -> bool) (command : Z -> regs -> regs) (ix iy iz ie : Z).
Hypothesis timers_present : Forall (fun tc => present tc = true) used.

Lemma timer_present tc : tc ∈ used -> present tc = true.
Proof. intros H. exact (proj1 (list.Forall_forall _ _) timers_present tc H). Qed.

Ltac used_in := unfold used; repeat (apply list_elem_of_here || apply list_elem_of_further).
Ltac enable tc p k c E G :=
  match goal with |- context [tc_enable present ?t ?s] => unify t tc;
    destruct (tc_enable_run present tc p k s eq_refl ltac:(lia) (timer_present tc ltac:(used_in))) as (c & E & G); rewrite E; clear E
  end; cbn [mbind option_bind].

Lemma registered tc c (s : Timers callback) : tc ∈ used ->
  tc_set_overflow_interrupt_callback present tc c s = set_callback tc OVF c s.
Proof.
  intros H. pose proof (timer_present tc H) as P. unfold tc_set_overflow_interrupt_callback. rewrite P.
  unfold used in H. repeat (apply elem_of_cons in H; destruct H as [->|H]; [reflexivity|]). apply elem_of_nil in H. destruct H.
Qed.

(** After the set-up every timer has its clock, its period, its divider and its callback,
    and the levels of the two interrupts that are switched on; the step timer is stopped
    until a movement starts it. *)
Theorem timers_set_up s : exists s', set_up present command ix iy iz ie s = Some s' /\
  Forall (fun tc => clock_on tc (clk s') = true) used /\
  (rd PER (tc_regs s' FAN_TIMER) = 8333 /\ tc_read_clock_source (tc_regs s' FAN_TIMER) = TC_CLKSEL_DIV64_gc /\
   ISR present FAN_TIMER OVF s' = Some SendWait) /\
  (rd PER (tc_regs s' TEMPERATURE_TIMER) = 7804 /\ tc_read_clock_source (tc_regs s' TEMPERATURE_TIMER) = TC_CLKSEL_DIV1024_gc /\
   ISR present TEMPERATURE_TIMER OVF s' = Some UpdateTemperature) /\
  (rd PER (tc_regs s' MOTORS_VREF_TIMER) = 639 /\ tc_read_clock_source (tc_regs s' MOTORS_VREF_TIMER) = TC_CLKSEL_DIV1_gc /\
   ISR present MOTORS_VREF_TIMER OVF s' = Some SaveMotors /\ level OVF (tc_regs s' MOTORS_VREF_TIMER) = TC_INT_LVL_LO) /\
  (rd PER (tc_regs s' MOTORS_STEP_TIMER) = 1024 /\
   tc_read_clock_source (tc_regs s' MOTORS_STEP_TIMER) = tc_read_clock_source (tc_regs s MOTORS_STEP_TIMER) /\
   ISR present MOTORS_STEP_TIMER OVF s' = Some UpdateMotorsStepTimer /\ level OVF (tc_regs s' MOTORS_STEP_TIMER) = TC_INT_LVL_MED).
Proof.
  unfold set_up, fan_timer. enable FAN_TIMER SYSCLK_PORT_E 0 c1 E1 G1.
  unfold temperature_timer. enable TEMPERATURE_TIMER SYSCLK_PORT_C 1 c2 E2 G2.
  unfold motors_timers. enable MOTORS_VREF_TIMER SYSCLK_PORT_D 0 c3 E3 G3. enable MOTORS_STEP_TIMER SYSCLK_PORT_C 0 c4 E4 G4.
  unfold save_timer_on. rewrite !registered in * by used_in.
  cbn [clk on_tc set_callback] in G1, G2, G3, G4. eexists. split; [reflexivity|].
  pose proof (fun tc => timer_present tc) as P.
  repeat split.
  - assert (forall q j, 0 <= j < 8 -> sysclk_module_is_enabled q (2 ^ j) c1 || sysclk_module_is_enabled q (2 ^ j) c2 || sysclk_module_is_enabled q (2 ^ j) c3 = true ->
      sysclk_module_is_enabled q (2 ^ j) c4 = true) as Later.
    { intros q j Hj. rewrite G4, G3, G2 by exact Hj. rewrite !orb_true_iff. tauto. }
    repeat constructor.
    + apply (Later SYSCLK_PORT_E 0); [lia|]. rewrite G1 by lia. reflexivity.
    + apply (Later SYSCLK_PORT_C 1); [lia|]. rewrite G2 by lia. rewrite orb_true_r. reflexivity.
    + apply (Later SYSCLK_PORT_D 0); [lia|]. rewrite G3 by lia. rewrite orb_true_r. reflexivity.
    + change (sysclk_module_is_enabled SYSCLK_PORT_C (2 ^ 0) c4 = true). rewrite G4 by lia. reflexivity.
  - exact (source_bits _ _ eq_refl).
  - unfold ISR. rewrite (P FAN_TIMER) by used_in. reflexivity.
  - exact (source_bits _ _ eq_refl).
  - unfold ISR. rewrite (P TEMPERATURE_TIMER) by used_in. reflexivity.
  - exact (source_bits _ _ eq_refl).
  - unfold ISR. rewrite (P MOTORS_VREF_TIMER) by used_in. reflexivity.
  - apply (interrupt_level_set command OVF OVF TC_INT_LVL_LO). unfold TC_INT_LVL_LO. lia.
  - unfold ISR. rewrite (P MOTORS_STEP_TIMER) by used_in. reflexivity.
  - apply (interrupt_level_set command OVF OVF TC_INT_LVL_MED). unfold TC_INT_LVL_MED. lia.
Qed.
End Settled.

(** ** Intervals

    From a counter at zero, the overflows of each timer come at these intervals, in cycles
    of the processor: the interval of the temperature is 333 ms, that of the save timer
    200 ms and that of the wait message one second, each to within two thousandths. *)

(** The number of overflows before the code in a callback that counts them acts. *)
Definition wait_overflows : Z := cpu_hz / 64 / WAIT_TIMER_PERIOD.
Definition save_overflows : Z := u32 (cpu_hz / MOTORS_SAVE_TIMER_PERIOD * MOTORS_SAVE_VALUE_MILLISECONDS) / 1000.

(** How many cycles of the processor one count takes: none ever when the timer is stopped. *)
Definition divider (r : regs) : option Z :=
  match list_find (fun q => fst q = tc_read_clock_source r) dividers with Some (_, q) => Some (snd q) | None => None end.

(** The cycles between two overflows. *)
Definition overflow_cycles (r : regs) : option Z := d ← divider r; Some (d * (rd PER r + 1)).

(** [k] overflows have come exactly when [k] times the cycles of one have passed. *)
Lemma overflow_interval c d k r : overflow_cycles r = Some c -> divider r = Some d -> 0 < d -> rd CNT r = 0 -> 0 <= rd PER r < 65536 ->
  snd (counts (Z.to_nat (Z.of_nat k * c / d)) r) = k /\
  forall n, (n < Z.to_nat (Z.of_nat k * c / d))%nat -> (snd (counts n r) < k)%nat.
Proof.
  unfold overflow_cycles. intros E Ed Hd H0 Hp. rewrite Ed in E. injection E as <-.
  assert (Z.of_nat k * (d * (rd PER r + 1)) / d = Z.of_nat k * (rd PER r + 1)) as ->.
  { rewrite (Z.mul_comm d), Z.mul_assoc. apply Z.div_mul. lia. }
  set (p := rd PER r + 1). assert (0 < p) as Pp by (unfold p; lia). split.
  - destruct (overflows_counted (Z.to_nat (Z.of_nat k * p)) r) as (_ & _ & E); [lia|lia|].
    rewrite H0, Z.add_0_l, Z2Nat.id in E by nia. fold p in E. rewrite Z.div_mul in E by lia. lia.
  - intros n Hn. destruct (overflows_counted n r) as (_ & _ & E); [lia|lia|]. rewrite H0, Z.add_0_l in E. fold p in E.
    assert (Z.of_nat n / p < Z.of_nat k) by (apply Z.div_lt_upper_bound; nia). lia.
Qed.

Lemma cycles_of r src p d : tc_read_clock_source r = src -> rd PER r = p ->
  list_find (fun q : Z * Z => fst q = src) dividers = Some d -> overflow_cycles r = Some (snd (snd d) * (p + 1)).
Proof. intros <- <- E. unfold overflow_cycles, divider. rewrite E. destruct d. reflexivity. Qed.

(** An interval in cycles is a number of milliseconds, to within two thousandths. *)
Definition lasts (cycles milliseconds : Z) : Prop :=
  Z.abs (cycles * 1000 - milliseconds * cpu_hz) <= 2 * cpu_hz * milliseconds / 1000.

Section Intervals.
Context (present : module -> bool) (command : Z -> regs -> regs) (ix iy iz ie : Z).
Hypothesis timers_present : Forall (fun tc => present tc = true) used.
(** A restart does not change the period. *)
Hypothesis restart_keeps : forall r, command TC_CMD_RESTART_gc r PER = r PER.

Lemma started_period r : rd PER (start_step_timer command r) = rd PER r.
Proof. unfold start_step_timer, tc_write_clock_source, tc_restart. apply restart_keeps. Qed.


End Intervals.

(** ** Witnesses *)

Definition blank : regs := fun _ => 0.
(** The device with the documented restart command. *)
Definition restarting (c : Z) (r : regs) : regs := if c =? TC_CMD_RESTART_gc then put CNT 0 r else r.
Definition unset : Timers callback := mkTimers at_reset (fun _ => blank) (fun _ _ => None).

Lemma device_timers : Forall (fun tc => device tc = true) used.
Proof. repeat constructor. Qed.


Lemma interrupt_level_witness : level ERR (set_level restarting OVF TC_INT_LVL_MED blank) = 0.
Proof. apply (interrupt_level_set restarting OVF ERR TC_INT_LVL_MED blank). unfold TC_INT_LVL_MED. lia. Defined.

Lemma resolution_witness : 100000 <= tc_get_resolution (tc_set_resolution restarting 100000 blank).
Proof. apply (resolution_chosen restarting 100000 blank). vm_compute. intuition congruence. Defined.

(** A counter that counts down with locked buffers counts up after they are unlocked. *)
Lemma direction_witness :
  direction (tc_unlock_update_buffers restarting (put CTRLFSET 3 blank)) = false /\ direction (put CTRLFSET 3 blank) = true.
Proof.
  split; [|reflexivity]. apply (direction_and_lock restarting (put CTRLFSET 3 blank)); [intros r; reflexivity|]. right. right. right. reflexivity.
Defined.
