(* ===== verification/Converter.v ===== *)
(** * The analogue converter (adc.c, adc.h, adc_bcd.c) and the heater's measurements

    The driver of the converter: its clock with the count of its users, configurations as
    values that are built and then written to the module and its channel, conversions and
    their results. The conversions themselves are a parameter: the result of the k-th one
    with the settings that the registers then have, and after how many polls its flag
    comes. The last part is the code of heater.cpp that measures, and a proof that it
    implements what the model of the heater (Heater) takes as a measurement. *)

From S2P Require Import Prelude Heater Clock.

(** ** Registers *)

Inductive adc_reg :=
| CTRLA | CTRLB | REFCTRL | EVCTRL | PRESCALER | INTFLAGS | CAL | CMP
| CH0_CTRL | CH0_MUXCTRL | CH0_INTCTRL | CH0_SCAN | CH0_RES.

#[export] Instance adc_reg_eq : EqDecision adc_reg.
Proof. solve_decision. Defined.

Definition ADC_ENABLE_bm : Z := 0x01.
Definition ADC_FLUSH_bm : Z := 0x02.
Definition ADC_CH0START_bp : Z := 2.
Definition ADC_CH0IF_bp : Z := 0.
Definition ADC_CH0 : Z := Z.shiftl 1 0.
Definition ADC_NR_OF_CHANNELS : Z := 1.

Definition ADC_CONMODE_bm : Z := 0x10.
Definition ADC_FREERUN_bm : Z := 0x08.
Definition ADC_RESOLUTION_gm : Z := 0x06.
Definition ADC_CURRLIMIT_gm : Z := 0x60.
Definition ADC_REFSEL_gm : Z := 0x70.
Definition ADC_INT_TEMPSENSE : Z := 0x01.
Definition ADC_INT_BANDGAP : Z := 0x02.
Definition ADC_EVSEL_gp : Z := 3.
Definition ADC_EVACT_gp : Z := 0.
Definition ADC_EVACT_NONE_gc : Z := 0.
Definition ADC_EVACT_SYNCSWEEP_gc : Z := 6.

Definition ADC_SIGN_OFF : Z := 0.
Definition ADC_SIGN_ON : Z := ADC_CONMODE_bm.
Definition ADC_RES_12 : Z := 0x00.
Definition ADC_RES_8 : Z := 0x04.
Definition ADC_RES_12_LEFT : Z := 0x06.
Definition ADC_REF_BANDGAP : Z := 0x00.
Definition ADC_REF_VCC : Z := 0x10.
Definition ADC_REF_AREFA : Z := 0x20.
Definition ADC_REF_AREFB : Z := 0x30.
Definition ADC_REF_VCCDIV2 : Z := 0x40.

Definition ADC_CH_INPUTMODE_INTERNAL_gc : Z := 0.
Definition ADC_CH_INPUTMODE_SINGLEENDED_gc : Z := 1.
Definition ADC_CH_INPUTMODE_DIFF_gc : Z := 2.
Definition ADC_CH_INPUTMODE_DIFFWGAIN_gc : Z := 3.
Definition ADC_CH_MUXPOS_gp : Z := 3.
Definition ADC_CH_MUXNEG_gp : Z := 0.
Definition ADC_CH_MUXNEG_MODE10_GND_gc : Z := 5.
Definition ADC_CH_MUXNEG_MODE10_INTGND_gc : Z := 7.
Definition ADC_CH_MUXNEG_MODE11_INTGND_gc : Z := 4.
Definition ADC_CH_MUXNEG_MODE11_GND_gc : Z := 7.
Definition ADC_CH_INTMODE_gm : Z := 0x0C.
Definition ADC_CH_INTLVL_gm : Z := 0x03.
Definition ADC_CH_INTLVL_OFF_gc : Z := 0.
Definition CONFIG_ADC_INTLVL : Z := 1.
Definition ADC_CH_OFFSET_gp : Z := 4.

(** ** Configurations *)

Record adc_config := mkConfig { ctrlb : Z; refctrl : Z; evctrl : Z; prescaler : Z; cmp : Z }.
Record adc_channel_config := mkChannel { ctrl : Z; muxctrl : Z; intctrl : Z; scan : Z }.

Definition set_ctrlb (v : Z) (c : adc_config) : adc_config := mkConfig (u8 v) (refctrl c) (evctrl c) (prescaler c) (cmp c).
Definition set_refctrl (v : Z) (c : adc_config) : adc_config := mkConfig (ctrlb c) (u8 v) (evctrl c) (prescaler c) (cmp c).
Definition set_evctrl (v : Z) (c : adc_config) : adc_config := mkConfig (ctrlb c) (refctrl c) (u8 v) (prescaler c) (cmp c).
Definition set_prescaler (v : Z) (c : adc_config) : adc_config := mkConfig (ctrlb c) (refctrl c) (evctrl c) (u8 v) (cmp c).

(** The ratio is a 16-bit variable. *)
Definition adc_set_clock_rate (clk_adc : Z) (conf : adc_config) : adc_config :=
  let ratio := u16 (per_hz / clk_adc) in
  let psc :=
    if ratio <=? 4 then 0 else if ratio <=? 8 then 1 else if ratio <=? 16 then 2 else if ratio <=? 32 then 3
    else if ratio <=? 64 then 4 else if ratio <=? 128 then 5 else if ratio <=? 256 then 6 else 7 in
  set_prescaler psc conf.

Definition adc_set_conversion_parameters (sign res ref : Z) (conf : adc_config) : adc_config :=
  let conf := set_ctrlb (Z.ldiff (ctrlb conf) (Z.lor ADC_CONMODE_bm ADC_RESOLUTION_gm)) conf in
  let conf := set_ctrlb (Z.lor (ctrlb conf) (Z.lor (u8 res) (u8 sign))) conf in
  let conf := set_refctrl (Z.ldiff (refctrl conf) ADC_REFSEL_gm) conf in
  set_refctrl (Z.lor (refctrl conf) ref) conf.

Inductive adc_trigger := ADC_TRIG_MANUAL | ADC_TRIG_FREERUN | ADC_TRIG_EVENT_SINGLE | ADC_TRIG_EVENT_SYNCSWEEP.

Definition adc_set_conversion_trigger (trig : adc_trigger) (nr_of_ch base_ev_ch : Z) (conf : adc_config) : adc_config :=
  match trig with
  | ADC_TRIG_MANUAL => set_evctrl ADC_EVACT_NONE_gc (set_ctrlb (Z.ldiff (ctrlb conf) ADC_FREERUN_bm) conf)
  | ADC_TRIG_EVENT_SINGLE =>
      set_evctrl (Z.lor (Z.shiftl base_ev_ch ADC_EVSEL_gp) (Z.shiftl nr_of_ch ADC_EVACT_gp))
        (set_ctrlb (Z.ldiff (ctrlb conf) ADC_FREERUN_bm) conf)
  | ADC_TRIG_FREERUN => set_ctrlb (Z.lor (ctrlb conf) ADC_FREERUN_bm) conf
  | ADC_TRIG_EVENT_SYNCSWEEP =>
      set_evctrl (Z.lor (Z.shiftl base_ev_ch ADC_EVSEL_gp) ADC_EVACT_SYNCSWEEP_gc)
        (set_ctrlb (Z.ldiff (ctrlb conf) ADC_FREERUN_bm) conf)
  end.

Definition adc_enable_internal_input (int_inp : Z) (conf : adc_config) : adc_config := set_refctrl (Z.lor (refctrl conf) int_inp) conf.
Definition adc_disable_internal_input (int_inp : Z) (conf : adc_config) : adc_config := set_refctrl (Z.ldiff (refctrl conf) int_inp) conf.

Inductive adc_current_limit := ADC_CURRENT_LIMIT_NO | ADC_CURRENT_LIMIT_LOW | ADC_CURRENT_LIMIT_MED | ADC_CURRENT_LIMIT_HIGH.
Definition adc_set_current_limit (currlimit : adc_current_limit) (conf : adc_config) : adc_config :=
  let conf := set_ctrlb (Z.ldiff (ctrlb conf) ADC_CURRLIMIT_gm) conf in
  match currlimit with
  | ADC_CURRENT_LIMIT_NO => set_ctrlb (Z.lor (ctrlb conf) 0x00) conf
  | ADC_CURRENT_LIMIT_LOW => set_ctrlb (Z.lor (ctrlb conf) 0x20) conf
  | ADC_CURRENT_LIMIT_MED => set_ctrlb (Z.lor (ctrlb conf) 0x40) conf
  | ADC_CURRENT_LIMIT_HIGH => set_ctrlb (Z.lor (ctrlb conf) 0x60) conf
  end.

(** The inputs: pins 0 to 15 and the internal ones for the positive side; pins 0 to 7, the
    two grounds and none for the negative side. Both enumerations count from zero. *)
Definition ADCCH_POS_PIN (n : Z) : Z := n.
Definition ADCCH_POS_TEMPSENSE : Z := 16.
Definition ADCCH_POS_BANDGAP : Z := 17.
Definition ADCCH_POS_SCALED_VCC : Z := 18.
Definition ADCCH_NEG_PIN (n : Z) : Z := n.
Definition ADCCH_NEG_PAD_GND : Z := 8.
Definition ADCCH_NEG_INTERNAL_GND : Z := 9.
Definition ADCCH_NEG_NONE : Z := 10.
Definition ADCCH_FORCE_1X_GAINSTAGE : Z := 0xff.

Definition adcch_get_gain_setting (gain : Z) : Z :=
  if gain =? 0 then 0x1C
  else if gain =? 1 then 0x00
  else if gain =? 2 then 0x04
  else if gain =? 4 then 0x08
  else if gain =? 8 then 0x0C
  else if gain =? 16 then 0x10
  else if gain =? 32 then 0x14
  else if gain =? 64 then 0x18
  else if gain =? ADCCH_FORCE_1X_GAINSTAGE then 0x00
  else 0.

Definition adcch_set_input (pos neg gain : Z) (ch_conf : adc_channel_config) : adc_channel_config :=
  let set c m := mkChannel (u8 c) (u8 m) (intctrl ch_conf) (scan ch_conf) in
  if ADCCH_POS_TEMPSENSE <=? pos then
    set ADC_CH_INPUTMODE_INTERNAL_gc (Z.shiftl (pos - ADCCH_POS_TEMPSENSE) ADC_CH_MUXPOS_gp)
  else if neg =? ADCCH_NEG_NONE then
    set ADC_CH_INPUTMODE_SINGLEENDED_gc (Z.shiftl pos ADC_CH_MUXPOS_gp)
  else if neg <=? ADCCH_NEG_PIN 3 then
    set ADC_CH_INPUTMODE_DIFF_gc (Z.lor (Z.shiftl pos ADC_CH_MUXPOS_gp) (Z.shiftl neg ADC_CH_MUXNEG_gp))
  else if neg <=? ADCCH_NEG_PIN 7 then
    set (Z.lor (adcch_get_gain_setting gain) ADC_CH_INPUTMODE_DIFFWGAIN_gc)
        (Z.lor (Z.shiftl pos ADC_CH_MUXPOS_gp) (Z.shiftl (neg - ADCCH_NEG_PIN 4) ADC_CH_MUXNEG_gp))
  else if gain =? 1 then
    set ADC_CH_INPUTMODE_DIFF_gc
        (Z.lor (Z.shiftl pos ADC_CH_MUXPOS_gp)
           (if neg =? ADCCH_NEG_PAD_GND then ADC_CH_MUXNEG_MODE10_GND_gc else ADC_CH_MUXNEG_MODE10_INTGND_gc))
  else
    set (Z.lor ADC_CH_INPUTMODE_DIFFWGAIN_gc (adcch_get_gain_setting gain))
        (Z.lor (Z.shiftl pos ADC_CH_MUXPOS_gp)
           (if neg =? ADCCH_NEG_INTERNAL_GND then ADC_CH_MUXNEG_MODE11_INTGND_gc else ADC_CH_MUXNEG_MODE11_GND_gc)).

Definition adcch_set_pin_scan (start_offset max_offset : Z) (c : adc_channel_config) : adc_channel_config :=
  mkChannel (ctrl c) (muxctrl c) (intctrl c) (u8 (Z.lor max_offset (Z.shiftl start_offset ADC_CH_OFFSET_gp))).
Definition set_intctrl (v : Z) (c : adc_channel_config) : adc_channel_config := mkChannel (ctrl c) (muxctrl c) (u8 v) (scan c).
Definition adcch_set_interrupt_mode (mode : Z) (c : adc_channel_config) : adc_channel_config :=
  let c := set_intctrl (Z.ldiff (intctrl c) ADC_CH_INTMODE_gm) c in set_intctrl (Z.lor (intctrl c) mode) c.
Definition adcch_enable_interrupt (c : adc_channel_config) : adc_channel_config :=
  let c := set_intctrl (Z.ldiff (intctrl c) ADC_CH_INTLVL_gm) c in set_intctrl (Z.lor (intctrl c) CONFIG_ADC_INTLVL) c.
Definition adcch_disable_interrupt (c : adc_channel_config) : adc_channel_config :=
  let c := set_intctrl (Z.ldiff (intctrl c) ADC_CH_INTLVL_gm) c in set_intctrl (Z.lor (intctrl c) ADC_CH_INTLVL_OFF_gc) c.

(** ** The driver *)

(** The settings that a conversion depends on: mode and resolution, reference, clock, gain
    and input mode, inputs and calibration. *)
Definition setting : Type := Z * Z * Z * Z * Z * Z.

Section Driver.
(** The conversions of the hardware, and the row of factory values with its offsets. *)
Variable sample : setting -> nat -> Z.
Variable latency : nat -> nat.
Variable signature : Z -> Z.
Variables ADCACAL0 ADCACAL1 : Z.

(** The clocks, the count of users of the module, its registers, the polls until a
    conversion that was started is complete, and the number of complete ones. *)
Record Conv := mkConv { aclk : Clk; adca_enable_count : Z; ar : adc_reg -> Z; under_way : option nat; complete : nat }.

Definition put (a : adc_reg) (v : Z) (r : adc_reg -> Z) : adc_reg -> Z := fun a' => if decide (a = a') then v else r a'.
Definition settings (r : adc_reg -> Z) : setting := (r CTRLB, r REFCTRL, r PRESCALER, r CH0_CTRL, r CH0_MUXCTRL, r CAL).

Definition set_ar (r : adc_reg -> Z) (s : Conv) : Conv := mkConv (aclk s) (adca_enable_count s) r (under_way s) (complete s).
Definition set_count (v : Z) (s : Conv) : Conv := mkConv (aclk s) v (ar s) (under_way s) (complete s).
Definition rd (a : adc_reg) : M Conv Z := gets (fun s => ar s a).

(** A write by the processor. Of the first control register only the enable bit stays: a
    flush, or disabling the module, ends a conversion, and the start bit of the channel
    starts one when the module is enabled. A one clears a flag. *)
Definition wr (a : adc_reg) (v : Z) : M Conv unit := modify (fun s =>
  match a with
  | CTRLA =>
      let kept := if flag v ADC_FLUSH_bm || negb (flag v ADC_ENABLE_bm) then None else under_way s in
      mkConv (aclk s) (adca_enable_count s) (put CTRLA (Z.land (u8 v) ADC_ENABLE_bm) (ar s))
        (if flag v (Z.shiftl 1 ADC_CH0START_bp) && flag v ADC_ENABLE_bm then Some (latency (complete s)) else kept) (complete s)
  | INTFLAGS => set_ar (put INTFLAGS (Z.ldiff (ar s INTFLAGS) (u8 v)) (ar s)) s
  | CAL | CMP | CH0_RES => set_ar (put a (u16 v) (ar s)) s
  | _ => set_ar (put a (u8 v) (ar s)) s
  end).

Definition on_clk (m : M Clk unit) : M Conv unit := fun s =>
  match m (aclk s) with
  | Some (c, _) => Some (mkConv c (adca_enable_count s) (ar s) (under_way s) (complete s), tt)
  | None => None
  end.

Definition adc_enable_clock : M Conv unit :=
  n ← gets adca_enable_count;
  _ ← modify (set_count (u8 (n + 1)));
  when (n =? 0) (on_clk (sysclk_enable_module SYSCLK_PORT_A SYSCLK_ADC)).
Definition adc_disable_clock : M Conv unit :=
  n ← gets adca_enable_count;
  _ ← modify (set_count (u8 (n - 1)));
  when (u8 (n - 1) =? 0) (on_clk (sysclk_disable_module SYSCLK_PORT_A SYSCLK_ADC)).

Definition adc_enable : M Conv unit :=
  _ ← adc_enable_clock;
  a ← rd CTRLA; wr CTRLA (Z.lor a ADC_ENABLE_bm).
Definition adc_disable : M Conv unit :=
  a ← rd CTRLA; _ ← wr CTRLA (Z.ldiff a ADC_ENABLE_bm);
  adc_disable_clock.
Definition adc_is_enabled (s : Conv) : bool := negb (adca_enable_count s =? 0).

Definition adc_get_calibration_data : Z :=
  let data := u16 (u8 (signature ADCACAL1)) in
  let data := u16 (Z.shiftl data 8) in
  u16 (Z.lor data (u8 (signature ADCACAL0))).

Definition adc_write_configuration (conf : adc_config) : M Conv unit :=
  let cal := adc_get_calibration_data in
  _ ← adc_enable_clock;
  a ← rd CTRLA;
  let enable := Z.land a ADC_ENABLE_bm in
  _ ← wr CTRLA ADC_FLUSH_bm;
  _ ← wr CAL cal;
  _ ← wr CMP (cmp conf);
  _ ← wr REFCTRL (refctrl conf);
  _ ← wr PRESCALER (prescaler conf);
  _ ← wr EVCTRL (evctrl conf);
  _ ← wr CTRLB (ctrlb conf);
  _ ← wr CTRLA enable;
  adc_disable_clock.

Definition adc_read_configuration : M Conv adc_config :=
  _ ← adc_enable_clock;
  c ← rd CMP; r ← rd REFCTRL; p ← rd PRESCALER; e ← rd EVCTRL; b ← rd CTRLB;
  _ ← adc_disable_clock;
  mret (mkConfig b r e p c).

(** The device has one channel: the mask of a channel stands for it. *)
Definition adcch_write_configuration (ch_conf : adc_channel_config) : M Conv unit :=
  _ ← adc_enable_clock;
  _ ← wr CH0_CTRL (ctrl ch_conf);
  _ ← wr CH0_INTCTRL (intctrl ch_conf);
  _ ← wr CH0_MUXCTRL (muxctrl ch_conf);
  _ ← wr CH0_SCAN (scan ch_conf);
  adc_disable_clock.

Definition adcch_read_configuration : M Conv adc_channel_config :=
  _ ← adc_enable_clock;
  c ← rd CH0_CTRL; i ← rd CH0_INTCTRL; m ← rd CH0_MUXCTRL; n ← rd CH0_SCAN;
  _ ← adc_disable_clock;
  mret (mkChannel c m i n).

Definition adc_start_conversion (ch_mask : Z) : M Conv unit :=
  a ← rd CTRLA; wr CTRLA (Z.lor a (Z.shiftl ch_mask ADC_CH0START_bp)).

(** What the hardware does until the next poll. *)
Definition advance (s : Conv) : Conv :=
  match under_way s with
  | None => s
  | Some (S n) => mkConv (aclk s) (adca_enable_count s) (ar s) (Some n) (complete s)
  | Some O =>
      mkConv (aclk s) (adca_enable_count s)
        (put INTFLAGS (Z.lor (ar s INTFLAGS) ADC_CH0) (put CH0_RES (u16 (sample (settings (ar s)) (complete s))) (ar s)))
        None (S (complete s))
  end.

Definition adc_get_interrupt_flag (ch_mask : Z) : M Conv Z :=
  _ ← modify advance;
  f ← rd INTFLAGS; mret (Z.land (Z.shiftr f ADC_CH0IF_bp) ch_mask).
Definition adc_clear_interrupt_flag (ch_mask : Z) : M Conv unit := wr INTFLAGS (Z.shiftl ch_mask ADC_CH0IF_bp).

Fixpoint wait_flag (fuel : nat) (ch_mask : Z) : M Conv unit :=
  match fuel with
  | O => of_option None
  | S fuel => f ← adc_get_interrupt_flag ch_mask; if negb (f =? ch_mask) then wait_flag fuel ch_mask else mret tt
  end.
Definition adc_wait_for_interrupt_flag (fuel : nat) (ch_mask : Z) : M Conv unit :=
  _ ← wait_flag fuel ch_mask; adc_clear_interrupt_flag ch_mask.

Definition adc_get_signed_result : M Conv Z := r ← rd CH0_RES; mret (s16 r).
Definition adc_get_unsigned_result : M Conv Z := r ← rd CH0_RES; mret (u16 r).

Definition adc_flush : M Conv unit := a ← rd CTRLA; wr CTRLA (Z.lor a ADC_FLUSH_bm).
Definition adc_set_compare_value (val : Z) : M Conv unit := wr CMP val.
Definition adc_get_signed_compare_value : M Conv Z := c ← rd CMP; mret (s16 c).
Definition adc_get_unsigned_compare_value : M Conv Z := c ← rd CMP; mret (u16 c).

(** ** Measuring the heater (heater.cpp) *)

Definition HEATER_READ_ADC_FREQUENCY : Z := 200000.
Definition HEATER_READ_POSITIVE_INPUT : Z := ADCCH_POS_PIN 3.
Definition HEATER_READ_NEGATIVE_INPUT : Z := ADCCH_NEG_PIN 4.
Definition RESISTANCE_READ_INPUT : Z := ADCCH_POS_PIN 5.

(** The four static variables of the configurations. *)
Record HeaterAdc := mkHeaterAdc {
  heaterReadAdcController : adc_config; heaterReadAdcChannel : adc_channel_config;
  resistanceReadAdcController : adc_config; resistanceReadAdcChannel : adc_channel_config
}.

Definition initialize_adc : M Conv HeaterAdc :=
  c ← adc_read_configuration;
  let heaterController :=
    adc_set_clock_rate HEATER_READ_ADC_FREQUENCY
      (adc_set_conversion_trigger ADC_TRIG_MANUAL ADC_NR_OF_CHANNELS 0
        (adc_set_conversion_parameters ADC_SIGN_ON ADC_RES_12 ADC_REF_BANDGAP c)) in
  ch ← adcch_read_configuration;
  let heaterChannel := adcch_set_input HEATER_READ_POSITIVE_INPUT HEATER_READ_NEGATIVE_INPUT 0 ch in
  c ← adc_read_configuration;
  let resistanceController :=
    adc_set_clock_rate HEATER_READ_ADC_FREQUENCY
      (adc_set_conversion_trigger ADC_TRIG_MANUAL ADC_NR_OF_CHANNELS 0
        (adc_set_conversion_parameters ADC_SIGN_OFF ADC_RES_12 ADC_REF_BANDGAP c)) in
  ch ← adcch_read_configuration;
  let resistanceChannel := adcch_set_input RESISTANCE_READ_INPUT ADCCH_NEG_NONE 1 ch in
  mret (mkHeaterAdc heaterController heaterChannel resistanceController resistanceChannel).

Fixpoint read_signed (fuel : nat) (i : nat) (heaterValue : Z) : M Conv Z :=
  match i with
  | O => mret heaterValue
  | S i =>
      _ ← adc_start_conversion ADC_CH0;
      _ ← adc_wait_for_interrupt_flag fuel ADC_CH0;
      r ← adc_get_signed_result;
      read_signed fuel i (s32 (heaterValue + r))
  end.
Fixpoint read_unsigned (fuel : nat) (i : nat) (resistanceValue : Z) : M Conv Z :=
  match i with
  | O => mret resistanceValue
  | S i =>
      _ ← adc_start_conversion ADC_CH0;
      _ ← adc_wait_for_interrupt_flag fuel ADC_CH0;
      r ← adc_get_unsigned_result;
      read_unsigned fuel i (u32 (resistanceValue + r))
  end.

Definition read_heater (fuel : nat) (v : HeaterAdc) (testConnection : bool) : M Conv Z :=
  _ ← adc_write_configuration (heaterReadAdcController v);
  _ ← adcch_write_configuration (heaterReadAdcChannel v);
  let sampleSize := if testConnection then 1 else HEATER_READ_ADC_SAMPLE_SIZE in
  heaterValue ← read_signed fuel (Z.to_nat sampleSize) 0;
  mret (s16 (Z.quot heaterValue sampleSize)).

Definition read_resistance (fuel : nat) (v : HeaterAdc) : M Conv Z :=
  _ ← adc_write_configuration (resistanceReadAdcController v);
  _ ← adcch_write_configuration (resistanceReadAdcChannel v);
  resistanceValue ← read_unsigned fuel (Z.to_nat HEATER_READ_ADC_SAMPLE_SIZE) 0;
  mret (resistanceValue / HEATER_READ_ADC_SAMPLE_SIZE).

(** ** Properties *)

Lemma adc_put_eq a v r : put a v r a = v.
Proof. unfold put. rewrite decide_True by reflexivity. reflexivity. Qed.
Lemma adc_put_ne a a' v r : a <> a' -> put a v r a' = r a'.
Proof. intros N. unfold put. rewrite decide_False by exact N. reflexivity. Qed.

(** The module is enabled and counted, no conversion is under way and no flag is set. *)
Definition idle (s : Conv) : Prop :=
  ar s CTRLA = ADC_ENABLE_bm /\ under_way s = None /\ Z.land (ar s INTFLAGS) ADC_CH0 = 0 /\ 1 <= adca_enable_count s < 255.

(** With another user counted, the clock stays on while a configuration is written. *)
Lemma enable_clock_counted s : 1 <= adca_enable_count s < 255 ->
  adc_enable_clock s = Some (set_count (adca_enable_count s + 1) s, tt).
Proof.
  intros Hn. unfold adc_enable_clock. do 2 step_pure. unfold u8. rewrite Z.mod_small by lia.
  destruct (Z.eqb_spec (adca_enable_count s) 0); [lia|]. reflexivity.
Qed.
Lemma disable_clock_counted s : 2 <= adca_enable_count s < 256 ->
  adc_disable_clock s = Some (set_count (adca_enable_count s - 1) s, tt).
Proof.
  intros Hn. unfold adc_disable_clock. do 2 step_pure. unfold u8. rewrite Z.mod_small by lia.
  destruct (Z.eqb_spec (adca_enable_count s - 1) 0); [lia|]. reflexivity.
Qed.

(** The registers of the module, and of the channel, after a configuration is written. *)
Definition configured (conf : adc_config) (r : adc_reg -> Z) : adc_reg -> Z :=
  put CTRLA ADC_ENABLE_bm (put CTRLB (u8 (ctrlb conf)) (put EVCTRL (u8 (evctrl conf)) (put PRESCALER (u8 (prescaler conf))
    (put REFCTRL (u8 (refctrl conf)) (put CMP (u16 (cmp conf)) (put CAL (u16 adc_get_calibration_data) (put CTRLA 0 r))))))).
Definition channel_configured (c : adc_channel_config) (r : adc_reg -> Z) : adc_reg -> Z :=
  put CH0_SCAN (u8 (scan c)) (put CH0_MUXCTRL (u8 (muxctrl c)) (put CH0_INTCTRL (u8 (intctrl c)) (put CH0_CTRL (u8 (ctrl c)) r))).

Lemma write_configuration_run conf s : idle s ->
  adc_write_configuration conf s = Some (set_ar (configured conf (ar s)) s, tt).
Proof.
  destruct s as [c n r u k]. unfold idle. cbn [ar under_way adca_enable_count]. intros (E & -> & _ & Hn).
  unfold adc_write_configuration. step (enable_clock_counted (mkConv c n r None k) Hn). cbn [adca_enable_count set_count].
  step_pure. cbn [ar set_count]. rewrite E. do 8 step_pure.
  change (adc_disable_clock (mkConv c (n + 1) (configured conf r) None k) = Some (mkConv c n (configured conf r) None k, tt)).
  rewrite disable_clock_counted by (cbn; lia). unfold set_count. cbn. replace (n + 1 - 1) with n by lia. reflexivity.
Qed.

Lemma write_channel_run ch s : idle s ->
  adcch_write_configuration ch s = Some (set_ar (channel_configured ch (ar s)) s, tt).
Proof.
  destruct s as [c n r u k]. unfold idle. cbn [ar under_way adca_enable_count]. intros (E & -> & _ & Hn).
  unfold adcch_write_configuration. step (enable_clock_counted (mkConv c n r None k) Hn). cbn [adca_enable_count set_count].
  do 4 step_pure.
  change (adc_disable_clock (mkConv c (n + 1) (channel_configured ch r) None k) = Some (mkConv c n (channel_configured ch r) None k, tt)).
  rewrite disable_clock_counted by (cbn; lia). unfold set_count. cbn. replace (n + 1 - 1) with n by lia. reflexivity.
Qed.

(** *** Configurations *)

Definition byte (x : Z) : Prop := 0 <= x < 256.
Definition config_bytes (c : adc_config) : Prop :=
  byte (ctrlb c) /\ byte (refctrl c) /\ byte (evctrl c) /\ byte (prescaler c) /\ 0 <= cmp c < 65536.
Definition channel_bytes (c : adc_channel_config) : Prop :=
  byte (ctrl c) /\ byte (muxctrl c) /\ byte (intctrl c) /\ byte (scan c).

(** Reading a register after several were written. *)
Ltac registers := repeat (rewrite adc_put_eq || rewrite adc_put_ne by discriminate).

Lemma calibration_bytes : u16 adc_get_calibration_data = u8 (signature ADCACAL0) + 256 * u8 (signature ADCACAL1).
Proof.
  unfold adc_get_calibration_data. pose proof (Z.mod_pos_bound (signature ADCACAL0) 256 ltac:(lia)).
  pose proof (Z.mod_pos_bound (signature ADCACAL1) 256 ltac:(lia)). fold (u8 (signature ADCACAL0)) in *. fold (u8 (signature ADCACAL1)) in *.
  set (h := u8 (signature ADCACAL1)) in *. set (l := u8 (signature ADCACAL0)) in *.
  unfold u16. rewrite (Z.mod_small h) by lia. pose proof (lor_shifted l h 8 ltac:(lia) ltac:(lia)) as E.
  rewrite (Z.mod_small (Z.shiftl h 8)) by (rewrite Z.shiftl_mul_pow2; lia). rewrite Z.lor_comm, E, !(Z.mod_small (l + h * 2 ^ 8)); lia.
Qed.

Lemma idle_configured conf s : idle s -> idle (set_ar (configured conf (ar s)) s).
Proof.
  destruct s as [c n r u k]. unfold idle, configured. cbn [ar under_way adca_enable_count set_ar].
  intros (E & U & F & Hn). rewrite adc_put_eq, !adc_put_ne by discriminate. auto.
Qed.
Lemma idle_channel ch s : idle s -> idle (set_ar (channel_configured ch (ar s)) s).
Proof.
  destruct s as [c n r u k]. unfold idle, channel_configured. cbn [ar under_way adca_enable_count set_ar].
  intros (E & U & F & Hn). rewrite !adc_put_ne by discriminate. auto.
Qed.

Lemma read_configuration_run s : idle s ->
  adc_read_configuration s = Some (s, mkConfig (ar s CTRLB) (ar s REFCTRL) (ar s EVCTRL) (ar s PRESCALER) (ar s CMP)).
Proof.
  destruct s as [c n r u k]. unfold idle. cbn [ar under_way adca_enable_count]. intros (E & -> & _ & Hn).
  unfold adc_read_configuration. step (enable_clock_counted (mkConv c n r None k) Hn). do 5 step_pure.
  step (disable_clock_counted (mkConv c (n + 1) r None k) ltac:(cbn; lia)).
  unfold set_count. cbn. replace (n + 1 - 1) with n by lia. reflexivity.
Qed.
Lemma read_channel_run s : idle s ->
  adcch_read_configuration s = Some (s, mkChannel (ar s CH0_CTRL) (ar s CH0_MUXCTRL) (ar s CH0_INTCTRL) (ar s CH0_SCAN)).
Proof.
  destruct s as [c n r u k]. unfold idle. cbn [ar under_way adca_enable_count]. intros (E & -> & _ & Hn).
  unfold adcch_read_configuration. step (enable_clock_counted (mkConv c n r None k) Hn). do 4 step_pure.
  step (disable_clock_counted (mkConv c (n + 1) r None k) ltac:(cbn; lia)).
  unfold set_count. cbn. replace (n + 1 - 1) with n by lia. reflexivity.
Qed.

(** A configuration of an enabled module is read back as it was written, with the module
    still enabled, calibrated and counted as often as before. *)
Theorem configuration_roundtrip conf ch s : idle s -> config_bytes conf -> channel_bytes ch ->
  exists s', (_ ← adc_write_configuration conf; adcch_write_configuration ch) s = Some (s', tt) /\
    adc_read_configuration s' = Some (s', conf) /\ adcch_read_configuration s' = Some (s', ch) /\
    idle s' /\ adca_enable_count s' = adca_enable_count s /\ aclk s' = aclk s /\
    ar s' CAL = u8 (signature ADCACAL0) + 256 * u8 (signature ADCACAL1).
Proof.
  intros I (B1 & B2 & B3 & B4 & B5) (C1 & C2 & C3 & C4). unfold byte in *.
  pose proof (idle_configured conf s I) as I1. pose proof (idle_channel ch _ I1) as I2. eexists.
  split; [step (write_configuration_run conf s I); apply (write_channel_run ch _ I1)|].
  split; [rewrite read_configuration_run by exact I2|split; [rewrite read_channel_run by exact I2|split; [exact I2|]]].
  - cbn [ar set_ar]. unfold channel_configured, configured. registers. destruct conf; cbn in *. unfold u8, u16. rewrite !Z.mod_small by lia. reflexivity.
  - cbn [ar set_ar]. unfold channel_configured. registers. destruct ch; cbn in *. unfold u8. rewrite !Z.mod_small by lia. reflexivity.
  - split; [reflexivity|]. split; [reflexivity|]. cbn [ar set_ar]. unfold channel_configured, configured. registers. apply calibration_bytes.
Qed.

(** *** Conversions *)

Section Measurements.
(** The flag of every conversion comes within these polls. *)
Variable fuel : nat.
Hypothesis latency_bounded : forall k, (latency k < fuel)%nat.

(** Waiting for a conversion that is under way. *)
Definition finished (s : Conv) : Conv :=
  mkConv (aclk s) (adca_enable_count s)
    (put INTFLAGS (Z.lor (ar s INTFLAGS) ADC_CH0) (put CH0_RES (u16 (sample (settings (ar s)) (complete s))) (ar s)))
    None (S (complete s)).

Lemma wait_flag_run n f s : under_way s = Some n -> (n < f)%nat -> Z.land (ar s INTFLAGS) ADC_CH0 = 0 ->
  wait_flag f ADC_CH0 s = Some (finished s, tt).
Proof.
  revert f s. induction n as [|n IH]; intros [|f] s U L F; try lia; cbn [wait_flag].
  - unfold adc_get_interrupt_flag. destruct s as [c e r u k]. cbn [under_way ar] in *. subst u.
    eapply eq_trans; [eapply bind_step; do 2 step_pure; reflexivity|]. cbn [ar advance under_way]. rewrite adc_put_eq.
    assert (Z.land (Z.shiftr (Z.lor (r INTFLAGS) ADC_CH0) ADC_CH0IF_bp) ADC_CH0 = ADC_CH0) as ->.
    { change ADC_CH0IF_bp with 0. rewrite Z.shiftr_0_r, Z.land_lor_distr_l, F. reflexivity. }
    reflexivity.
  - unfold adc_get_interrupt_flag. destruct s as [c e r u k]. cbn [under_way ar] in *. subst u.
    eapply eq_trans; [eapply bind_step; do 2 step_pure; reflexivity|]. cbn [ar advance under_way].
    change ADC_CH0IF_bp with 0. rewrite Z.shiftr_0_r, F. cbn [negb Z.eqb ADC_CH0 Z.shiftl].
    exact (IH f (mkConv c e r (Some n) k) eq_refl ltac:(lia) F).
Qed.

(** One conversion of an idle module: its result is that of the hardware with the settings
    of the registers, and the module is idle again with the same settings. *)
Definition converted (s : Conv) : Conv :=
  mkConv (aclk s) (adca_enable_count s)
    (put INTFLAGS (Z.ldiff (Z.lor (ar s INTFLAGS) ADC_CH0) (u8 (Z.shiftl ADC_CH0 ADC_CH0IF_bp)))
      (put INTFLAGS (Z.lor (ar s INTFLAGS) ADC_CH0) (put CH0_RES (u16 (sample (settings (ar s)) (complete s))) (put CTRLA ADC_ENABLE_bm (ar s)))))
    None (S (complete s)).

Lemma start_run s : idle s ->
  adc_start_conversion ADC_CH0 s =
    Some (mkConv (aclk s) (adca_enable_count s) (put CTRLA ADC_ENABLE_bm (ar s)) (Some (latency (complete s))) (complete s), tt).
Proof.
  destruct s as [c e r u n]. unfold idle. cbn [ar under_way adca_enable_count]. intros (E & -> & F & He).
  unfold adc_start_conversion. step_pure. cbn [ar]. rewrite E. reflexivity.
Qed.
Lemma conversion_run {R} (k : M Conv R) s : idle s ->
  (_ ← adc_start_conversion ADC_CH0; _ ← adc_wait_for_interrupt_flag fuel ADC_CH0; k) s = k (converted s).
Proof.
  intros I. step (start_run s I). destruct I as (E & U & F & He).
  eapply eq_trans; [eapply bind_step; unfold adc_wait_for_interrupt_flag|].
  - step (wait_flag_run (latency (complete s)) fuel
      (mkConv (aclk s) (adca_enable_count s) (put CTRLA ADC_ENABLE_bm (ar s)) (Some (latency (complete s))) (complete s))
      eq_refl (latency_bounded _) F). reflexivity.
  - reflexivity.
Qed.

Lemma idle_converted s : idle s -> idle (converted s).
Proof.
  destruct s as [c e r u n]. unfold idle, converted. cbn [ar under_way adca_enable_count]. intros (E & U & F & He). registers.
  split; [reflexivity|]. split; [reflexivity|]. split; [|exact He].
  change (u8 (Z.shiftl ADC_CH0 ADC_CH0IF_bp)) with ADC_CH0. apply Z.land_ldiff.
Qed.

(** The settings of one of the two configurations of the heater, and the measurements of
    the hardware with them as the measurements that the heater's model is about. *)
Definition setting_of (conf : adc_config) (ch : adc_channel_config) : setting :=
  (u8 (ctrlb conf), u8 (refctrl conf), u8 (prescaler conf), u8 (ctrl ch), u8 (muxctrl ch), u16 adc_get_calibration_data).
Definition input_setting (v : HeaterAdc) (i : AdcInput) : setting :=
  match i with
  | HeaterRead => setting_of (heaterReadAdcController v) (heaterReadAdcChannel v)
  | ResistanceRead => setting_of (resistanceReadAdcController v) (resistanceReadAdcChannel v)
  end.
Definition measuring (v : HeaterAdc) : Adc := fun i k => sample (input_setting v i) k.

(** The module and the heater's model at the same point. *)
Definition agrees (s : Conv) (h : Heater) : Prop := idle s /\ complete s = conversions h.

Lemma s16_u16 x : s16 (u16 x) = s16 x.
Proof. unfold s16, u16. rewrite Zplus_mod_idemp_l. reflexivity. Qed.
Lemma u16_u16 x : u16 (u16 x) = u16 x.
Proof. apply Zmod_mod. Qed.

Lemma read_signed_agrees v n : forall sum s h, agrees s h -> settings (ar s) = input_setting v (input h) ->
  exists s' h' x, read_signed fuel n sum s = Some (s', x) /\ @signed_sum (measuring v) n sum h = Some (h', x) /\ agrees s' h'.
Proof.
  induction n as [|n IH]; intros sum s h [I A] Hs; cbn [read_signed signed_sum]; [exists s, h, sum; split; [reflexivity|split; [reflexivity|split; assumption]]|].
  destruct (IH (s32 (sum + s16 (sample (input_setting v (input h)) (conversions h)))) (converted s) (set_conversions (S (conversions h)) h))
    as (s' & h' & x & E1 & E2 & A').
  - split; [apply idle_converted, I|]. destruct h; cbn in *. congruence.
  - replace (input (set_conversions (S (conversions h)) h)) with (input h) by (destruct h; reflexivity). rewrite <- Hs.
    destruct s as [c e r u k]. reflexivity.
  - exists s', h', x. split; [|split; [|exact A']].
    + etransitivity; [exact (conversion_run _ s I)|]. step_pure. cbn [ar converted]. registers. rewrite s16_u16, Hs, A. exact E1.
    + eapply eq_trans; [eapply bind_step; reflexivity|]. exact E2.
Qed.

Lemma read_unsigned_agrees v n : forall sum s h, agrees s h -> settings (ar s) = input_setting v (input h) ->
  exists s' h' x, read_unsigned fuel n sum s = Some (s', x) /\ @unsigned_sum (measuring v) n sum h = Some (h', x) /\ agrees s' h'.
Proof.
  induction n as [|n IH]; intros sum s h [I A] Hs; cbn [read_unsigned unsigned_sum]; [exists s, h, sum; split; [reflexivity|split; [reflexivity|split; assumption]]|].
  destruct (IH (u32 (sum + u16 (sample (input_setting v (input h)) (conversions h)))) (converted s) (set_conversions (S (conversions h)) h))
    as (s' & h' & x & E1 & E2 & A').
  - split; [apply idle_converted, I|]. destruct h; cbn in *. congruence.
  - replace (input (set_conversions (S (conversions h)) h)) with (input h) by (destruct h; reflexivity). rewrite <- Hs.
    destruct s as [c e r u k]. reflexivity.
  - exists s', h', x. split; [|split; [|exact A']].
    + etransitivity; [exact (conversion_run _ s I)|]. step_pure. cbn [ar converted]. registers. rewrite u16_u16, Hs, A. exact E1.
    + eapply eq_trans; [eapply bind_step; reflexivity|]. exact E2.
Qed.

Lemma configured_settings conf ch r : settings (channel_configured ch (configured conf r)) = setting_of conf ch.
Proof. reflexivity. Qed.

Lemma agrees_configured conf ch s h i : agrees s h ->
  agrees (set_ar (channel_configured ch (configured conf (ar s))) s) (set_input i h).
Proof.
  intros [I A]. split; [exact (idle_channel ch _ (idle_configured conf s I))|]. destruct s, h. exact A.
Qed.

(** C12. The measurements of heater.cpp, with the configurations written before each, return what
    the model of the heater takes as its measurements: those that the hardware makes with
    the settings of the respective configuration, one after the other. *)
Theorem measurements_implemented v test s h : agrees s h ->
  (exists s' h' x, read_heater fuel v test s = Some (s', x) /\ @getHeaterValue (measuring v) test h = Some (h', x) /\ agrees s' h') /\
  (exists s' h' x, read_resistance fuel v s = Some (s', x) /\ @getResistanceValue (measuring v) h = Some (h', x) /\ agrees s' h').
Proof.
  intros A. pose proof (proj1 A) as I. split.
  - destruct (read_signed_agrees v (Z.to_nat (if test then 1 else HEATER_READ_ADC_SAMPLE_SIZE)) 0 _ (set_input HeaterRead h)
      (agrees_configured (heaterReadAdcController v) (heaterReadAdcChannel v) s h HeaterRead A)) as (s' & h' & x & E1 & E2 & A').
    { destruct h. apply configured_settings. }
    exists s', h', (s16 (Z.quot x (if test then 1 else HEATER_READ_ADC_SAMPLE_SIZE))). split; [|split; [|exact A']].
    + unfold read_heater. step (write_configuration_run (heaterReadAdcController v) s I).
      step (write_channel_run (heaterReadAdcChannel v) _ (idle_configured (heaterReadAdcController v) s I)). step E1. reflexivity.
    + unfold getHeaterValue. step_pure. step E2. reflexivity.
  - destruct (read_unsigned_agrees v (Z.to_nat HEATER_READ_ADC_SAMPLE_SIZE) 0 _ (set_input ResistanceRead h)
      (agrees_configured (resistanceReadAdcController v) (resistanceReadAdcChannel v) s h ResistanceRead A)) as (s' & h' & x & E1 & E2 & A').
    { destruct h. apply configured_settings. }
    exists s', h', (x / HEATER_READ_ADC_SAMPLE_SIZE). split; [|split; [|exact A']].
    + unfold read_resistance. step (write_configuration_run (resistanceReadAdcController v) s I).
      step (write_channel_run (resistanceReadAdcChannel v) _ (idle_configured (resistanceReadAdcController v) s I)). step E1. reflexivity.
    + unfold getResistanceValue. step_pure. step E2. reflexivity.
Qed.

End Measurements.

(** *** The configurations of the heater *)

(** Signed or unsigned conversions of twelve bits on demand against the band gap, with the
    clock divided by 128. *)
Definition heater_mode (sign : Z) (c : adc_config) : Prop :=
  Z.land (ctrlb c) (Z.lor (Z.lor ADC_CONMODE_bm ADC_RESOLUTION_gm) ADC_FREERUN_bm) = sign /\
  Z.land (refctrl c) ADC_REFSEL_gm = ADC_REF_BANDGAP /\ evctrl c = ADC_EVACT_NONE_gc /\ prescaler c = 5.

Lemma heater_mode_set sign c : sign = ADC_SIGN_ON \/ sign = ADC_SIGN_OFF ->
  heater_mode sign (adc_set_clock_rate HEATER_READ_ADC_FREQUENCY
    (adc_set_conversion_trigger ADC_TRIG_MANUAL ADC_NR_OF_CHANNELS 0
      (adc_set_conversion_parameters sign ADC_RES_12 ADC_REF_BANDGAP c))).
Proof.
  intros Hs. unfold heater_mode. repeat split; cbn -[Z.land Z.lor Z.ldiff u8].
  - apply Z.bits_inj'. intros k Hk. rewrite Z.land_spec. destruct (Z.lt_ge_cases k 8).
    + rewrite u8_bit, Z.ldiff_spec, u8_bit, Z.lor_spec, u8_bit, Z.ldiff_spec by lia.
      assert (k = 0 \/ k = 1 \/ k = 2 \/ k = 3 \/ k = 4 \/ k = 5 \/ k = 6 \/ k = 7) as K by lia.
      destruct Hs as [-> | ->]; repeat (destruct K as [-> | K]; [destruct (Z.testbit (ctrlb c) _); reflexivity|]);
        subst k; destruct (Z.testbit (ctrlb c) _); reflexivity.
    + rewrite u8_bit_high by lia. destruct Hs as [-> | ->]; [change ADC_SIGN_ON with (u8 0x10)|change ADC_SIGN_OFF with (u8 0)];
        rewrite u8_bit_high by lia; reflexivity.
  - rewrite u8_land, Z.land_lor_distr_l, u8_land, <- Z.land_lor_distr_l by (vm_compute; intuition congruence).
    apply land_field. reflexivity.
Qed.

(** What the set-up of the heater configures: the difference of pins 3 and 4 with half the
    gain, signed, and pin 5 against ground, unsigned; the clock of the converter is at most
    the one that is asked for. *)
Theorem heater_configured s : idle s -> exists v, initialize_adc s = Some (s, v) /\
  heater_mode ADC_SIGN_ON (heaterReadAdcController v) /\ heater_mode ADC_SIGN_OFF (resistanceReadAdcController v) /\
  ctrl (heaterReadAdcChannel v) = Z.lor 0x1C ADC_CH_INPUTMODE_DIFFWGAIN_gc /\ muxctrl (heaterReadAdcChannel v) = Z.shiftl 3 3 /\
  ctrl (resistanceReadAdcChannel v) = ADC_CH_INPUTMODE_SINGLEENDED_gc /\ muxctrl (resistanceReadAdcChannel v) = Z.shiftl 5 3 /\
  per_hz / 2 ^ (prescaler (heaterReadAdcController v) + 2) <= HEATER_READ_ADC_FREQUENCY.
Proof.
  intros I. eexists. split.
  - unfold initialize_adc. step (read_configuration_run s I). step (read_channel_run s I).
    step (read_configuration_run s I). step (read_channel_run s I). reflexivity.
  - cbn [heaterReadAdcController resistanceReadAdcController heaterReadAdcChannel resistanceReadAdcChannel].
    split; [apply heater_mode_set; auto|]. split; [apply heater_mode_set; auto|]. repeat split. vm_compute. discriminate.
Qed.

(** *** The clock of the converter *)

(** The factor of a prescaler setting. *)
Definition prescaling (c : adc_config) : Z := 2 ^ (prescaler c + 2).

(** Where the rate divides the clock and the ratio is at most the largest factor, the
    prescaler is the smallest one with which the converter is not faster than asked for. *)
Theorem clock_rate_at_most clk_adc c : 0 < clk_adc -> per_hz mod clk_adc = 0 -> per_hz / clk_adc <= 512 ->
  let f := prescaling (adc_set_clock_rate clk_adc c) in
  per_hz <= f * clk_adc /\ (f = 4 \/ (f / 2) * clk_adc < per_hz).
Proof.
  intros Hc Hd Hr. unfold prescaling, adc_set_clock_rate. change per_hz with 24000000 in *. cbn [prescaler set_prescaler].
  assert (0 <= 24000000 / clk_adc) by (apply Z.div_pos; lia).
  unfold u16. rewrite (Z.mod_small (24000000 / clk_adc)) by lia.
  pose proof (Z.div_mod 24000000 clk_adc ltac:(lia)) as D. rewrite Hd, Z.add_0_r in D. set (q := 24000000 / clk_adc) in *. clearbody q.
  assert (forall f, q <= f -> 24000000 <= f * clk_adc) as Up by (intros f Hf; rewrite D, Z.mul_comm; apply Z.mul_le_mono_nonneg_r; lia).
  assert (forall f, f < q -> f * clk_adc < 24000000) as Down by (intros f Hf; rewrite D, (Z.mul_comm clk_adc); apply Z.mul_lt_mono_pos_r; lia).
  repeat match goal with |- context [q <=? ?k] => destruct (Z.leb_spec q k) end; try lia;
    (split; [apply Up; eapply Z.le_trans; [eassumption|vm_compute; discriminate]|]);
    first [left; reflexivity|right; apply Down; eapply Z.le_lt_trans; [|eassumption]; vm_compute; discriminate].
Qed.

(** In general it can be faster: the ratio is rounded down before it is rounded up. *)
Theorem clock_rate_exceeded c : let f := prescaling (adc_set_clock_rate 1450000 c) in f = 16 /\ per_hz / f = 1500000.
Proof. split; reflexivity. Qed.

(** And a low rate is lost: the ratio has sixteen bits, and there is no larger factor. *)
Theorem clock_rate_wrapped c :
  prescaling (adc_set_clock_rate 366 c) = 64 /\ prescaling (adc_set_clock_rate 40000 c) = 512 /\ 40000 < per_hz / 512.
Proof. repeat split. Qed.

(** *** Users of the module *)

(** The clock of the converter is on exactly while it has users: enabling and disabling
    keep the count and the gate together, up to 255 users. *)
Definition counted (s : Conv) : Prop :=
  0 <= adca_enable_count s < 256 /\
  sysclk_module_is_enabled SYSCLK_PORT_A SYSCLK_ADC (aclk s) = negb (adca_enable_count s =? 0).

Lemma enable_clock_run s : counted s -> adca_enable_count s < 255 ->
  exists c, adc_enable_clock s = Some (mkConv c (adca_enable_count s + 1) (ar s) (under_way s) (complete s), tt) /\
    sysclk_module_is_enabled SYSCLK_PORT_A SYSCLK_ADC c = true.
Proof.
  destruct s as [c n r u k]. unfold counted. cbn [adca_enable_count aclk ar under_way complete]. intros [Hn G] L.
  unfold adc_enable_clock. destruct (Z.eqb_spec n 0) as [->|N].
  - eexists. split; [reflexivity|]. change SYSCLK_ADC with (2 ^ 1).
    eapply eq_trans; [apply (gate_opened SYSCLK_PORT_A SYSCLK_PORT_A 1 1 c _ ltac:(lia) ltac:(lia) eq_refl)|]. reflexivity.
  - exists c. split; [|exact G]. do 2 step_pure. cbn [adca_enable_count set_count].
    destruct (Z.eqb_spec n 0); [lia|]. unfold u8. rewrite Z.mod_small by lia. reflexivity.
Qed.

Lemma disable_clock_run s : counted s -> 0 < adca_enable_count s ->
  exists c, adc_disable_clock s = Some (mkConv c (adca_enable_count s - 1) (ar s) (under_way s) (complete s), tt) /\
    sysclk_module_is_enabled SYSCLK_PORT_A SYSCLK_ADC c = negb (adca_enable_count s - 1 =? 0).
Proof.
  destruct s as [c n r u k]. unfold counted. cbn [adca_enable_count aclk ar under_way complete]. intros [Hn G] L.
  unfold adc_disable_clock. destruct (Z.eqb_spec (n - 1) 0) as [E|N].
  - assert (n = 1) as -> by lia. eexists. split; [reflexivity|]. change SYSCLK_ADC with (2 ^ 1).
    eapply eq_trans; [apply (gate_closed SYSCLK_PORT_A SYSCLK_PORT_A 1 1 c _ ltac:(lia) ltac:(lia) eq_refl)|]. reflexivity.
  - exists c. split; [|rewrite G; destruct (Z.eqb_spec n 0); [lia|reflexivity]]. do 2 step_pure. cbn [adca_enable_count set_count].
    unfold u8. rewrite Z.mod_small by lia. destruct (Z.eqb_spec (n - 1) 0); [lia|]. reflexivity.
Qed.

(** Enabling adds a user and switches the module on, disabling removes one and switches it
    off, and the clock is on while there are users. *)
Theorem users_counted s : counted s ->
  (adca_enable_count s < 255 -> exists s', adc_enable s = Some (s', tt) /\ counted s' /\
    adca_enable_count s' = adca_enable_count s + 1 /\ flag (ar s' CTRLA) ADC_ENABLE_bm = true) /\
  (0 < adca_enable_count s -> exists s', adc_disable s = Some (s', tt) /\ counted s' /\
    adca_enable_count s' = adca_enable_count s - 1 /\ flag (ar s' CTRLA) ADC_ENABLE_bm = false).
Proof.
  intros C. split; intros L.
  - destruct (enable_clock_run s C L) as (c & E & G). eexists. split; [unfold adc_enable; step E; reflexivity|].
    destruct C as [Hn _]. unfold counted. cbn [adca_enable_count aclk ar].
    split; [split; [lia|]; rewrite G; destruct (Z.eqb_spec (adca_enable_count s + 1) 0); [lia|reflexivity]|]. split; [reflexivity|].
    rewrite adc_put_eq. unfold flag. rewrite <- Z.land_assoc, u8_land, Z.land_lor_distr_l by (vm_compute; intuition congruence).
    change (Z.land ADC_ENABLE_bm (Z.land ADC_ENABLE_bm ADC_ENABLE_bm)) with 1.
    apply negb_true_iff, Z.eqb_neq. intros Z0. apply Z.lor_eq_0_iff in Z0. destruct Z0. discriminate.
  - unfold adc_disable.
    set (v := Z.ldiff (ar s CTRLA) ADC_ENABLE_bm).
    destruct (wr CTRLA v s) as [[s1 []]|] eqn:E1; [|discriminate].
    assert (counted s1 /\ adca_enable_count s1 = adca_enable_count s /\ ar s1 = put CTRLA (Z.land (u8 v) ADC_ENABLE_bm) (ar s)) as (C1 & N1 & A1).
    { injection E1 as <-. split; [exact C|split; reflexivity]. }
    rewrite <- N1 in L. destruct (disable_clock_run s1 C1 L) as (c & E & G). eexists. split; [step_pure; step E1; exact E|].
    destruct C1 as [Hn _]. unfold counted. cbn [adca_enable_count aclk ar]. split; [split; [lia|exact G]|]. split; [lia|].
    rewrite A1, adc_put_eq. unfold flag. rewrite <- Z.land_assoc, u8_land by (vm_compute; intuition congruence).
    unfold v. change (Z.land ADC_ENABLE_bm ADC_ENABLE_bm) with ADC_ENABLE_bm. rewrite Z.land_ldiff. reflexivity.
Qed.

End Driver.

(** *** Witnesses *)

Definition ready_converter : Conv := mkConv at_reset 1 (fun a => match a with CTRLA => 1 | _ => 0 end) None 0.

Lemma ready_idle : idle ready_converter.
Proof. unfold idle. cbn. repeat split; lia. Qed.

Lemma configuration_roundtrip_witness : exists s',
  (_ ← adc_write_configuration (fun k => k) (fun a => a) 32 33 (mkConfig 0x10 0 0 5 0);
   adcch_write_configuration (fun k => k) (mkChannel 0x1F 0x18 0 0)) ready_converter = Some (s', tt) /\
  adc_read_configuration s' = Some (s', mkConfig 0x10 0 0 5 0) /\ ar s' CAL = 32 + 256 * 33.
Proof.
  destruct (configuration_roundtrip (fun k => k) (fun a => a) 32 33 (mkConfig 0x10 0 0 5 0) (mkChannel 0x1F 0x18 0 0) ready_converter)
    as (s' & E & R & _ & _ & _ & _ & K); [apply ready_idle|unfold config_bytes, byte; cbn; lia|unfold channel_bytes, byte; cbn; lia|].
  exists s'. split; [exact E|]. split; [exact R|exact K].
Defined.

(** A converter that is idle, and a heater whose model has counted no conversion. *)
Definition heater_adc : HeaterAdc :=
  mkHeaterAdc (mkConfig 0x10 0 0 5 0) (mkChannel 0x1F 0x18 0 0) (mkConfig 0 0 0 5 0) (mkChannel 1 0x28 0 0).

Lemma measurements_witness : exists s' h' x,
  read_heater (fun _ k => 100 + Z.of_nat k) (fun _ => 3%nat) (fun a => a) 32 33 9 heater_adc true ready_converter = Some (s', x) /\
  @getHeaterValue (measuring (fun _ k => 100 + Z.of_nat k) (fun a => a) 32 33 heater_adc) true cold_heater = Some (h', x).
Proof.
  destruct (measurements_implemented (fun _ k => 100 + Z.of_nat k) (fun _ => 3%nat) (fun a => a) 32 33 9 ltac:(intros; cbn; lia)
    heater_adc true ready_converter cold_heater (conj ready_idle eq_refl)) as [(s' & h' & x & E1 & E2 & _) _].
  exists s', h', x. split; [exact E1|exact E2].
Defined.

Lemma clock_rate_witness : per_hz <= prescaling (adc_set_clock_rate 200000 (mkConfig 0 0 0 0 0)) * 200000.
Proof. apply (clock_rate_at_most 200000 (mkConfig 0 0 0 0 0)); [lia|reflexivity|vm_compute; discriminate]. Defined.

(** With two users, the module is off after one of them has left, and is reported as on. *)
Lemma disabled_reported_enabled : exists s,
  (_ ← adc_enable (fun k => k); adc_disable (fun k => k)) ready_converter = Some (s, tt) /\
  flag (ar s CTRLA) ADC_ENABLE_bm = false /\ adc_is_enabled s = true.
Proof. eexists. split; [reflexivity|]. split; reflexivity. Qed.
